(* ===== verification/_CoqProject ===== *)
-Q . S2P
Prelude.v
JsValue.v
Json.v
Numerals.v
Effects.v
Mysql.v
SqlSpec.v
SqlFacts.v
Trace.v
MemDb.v
Schemas.v
Env.v
Utils.v
Helpers.v
Validators.v
Processor.v
ProcPos.v
ProcAudio.v
ProcNft.v
ProcChain.v
Dispatch.v
DataService.v
TxService.v
Indexer.v
IndexStatus.v
Jobs.v
Coordinator.v
Fixtures.v
Discipline.v
Atomic.v
Interleave.v
MysqlThms.v
HelperThms.v
ValidatorThms.v
ProcThms.v
IndexThms.v
JobThms.v
Witnesses.v
GatewaySources.v
GatewayRoutes.v
JsMath.v
Mapper.v
ApiUtils.v
GatewayApi.v
GatewayThms.v
GatewayDocs.v
MapperThms.v
RouteThms.v
GatewayWitnesses.v
Statistics.v
StatsThms.v
Fees.v
FeesThms.v
HttpClient.v
Market.v
MarketThms.v
FeesWitnesses.v
Export.v
ExportThms.v
Registry.v
RegistryThms.v
ExportWitnesses.v
Queries.v
PosValidators.v
Network.v
QueryThms.v
QueryWitnesses.v
EventTopics.v
Connector.v
Codec.v
NodeBlocks.v
NodeEndpoints.v
NodePeers.v
ConnectorThms.v
NodeThms.v
ServiceTables.v
Microservice.v
Shell.v
ShellThms.v
ConnectorWitnesses.v
