(* ===== verification/Prelude.v ===== *)
(** * A verification of Muzikie Streamer

    Muzikie Streamer (src/) is a set of Node.js micro-services over a Lisk
    blockchain node.  This library models the services and the framework they
    share, and proves what they guarantee, each alone and together.

    ** How the program is put together

    A gateway (services/gateway) answers HTTP and JSON-RPC requests; it checks
    and renames their parameters by declarative routes, calls a method of
    another service through the message broker, and maps the response.  The
    blockchain-connector asks the node; the blockchain-indexer keeps every
    block in MySQL and answers queries from there; the blockchain-coordinator
    schedules the blocks to index; fee-estimator, transaction-statistics,
    market, export and blockchain-app-registry compute and keep what their
    names say.  Each service adds methods, events and jobs to the framework's
    Microservice (src/framework/src/microservice.js).

    A job of the queue indexBlocksQueue holds a block.  indexBlock
    (shared/indexer/blockchainIndex.js) opens a database transaction, gets the
    events of the block, and for each transaction of the block stores a row
    and calls the processor of its module and command, which updates the
    tables of its module.  It then stores the generator's block count and
    rewards, the events, the changes of the locked amounts and the block, and
    commits; on an error it rolls back and the queue retries.
    deleteIndexedBlocks reverts a block of a fork with the processors' second
    halves.  Every table is reached through a table instance of mysql.js,
    whose operations take the caller's transaction or open their own.

    ** The language

    - [JsValue], [Json], [Numerals], [JsMath]: JavaScript values, with numbers
      as doubles (integers of magnitude at most 2^53 as [Z], the others as
      [spec_float]) and BigInts as [Z]; property access, the conversions,
      arithmetic, JSON.stringify and JSON.parse.  [exn] is an Error with name
      and message.
    - [Effects]: an async function is a program [prog A]: a tree of commands
      to the outside (knex, the broker, Redis, the queues, module variables;
      other libraries as [CRpc] with the library's name), each answered by a
      value or by a thrown error.  [run] executes it on an engine and a store
      of module variables, [exec] relates it to every trace the outside could
      produce.
    - [Env] and the classes at the top of the other files: what the code calls
      and src/ does not contain is a parameter: configurations, the address
      functions and the codec of the Lisk SDK, q96, localeCompare, moment,
      big-number, fastest-validator, the errors of moleculer and axios.

    ** The indexer

    - [Mysql]: framework/src/mysql.js, operation by operation.  [SqlSpec]
      states the contract of knex and MySQL that the code relies on, as a
      semantics of the builder calls on tables of rows with buffered
      transactions, and the interface [SqlEngine]; [SqlFacts] derives what
      each operation does to the database; [MemDb] is an engine in memory.
    - [Schemas]: the table schemas of three services.
    - [Utils], [Helpers]: shared/constants.js, database/mysqlKVStore.js and
      shared/utils, a Module per file.
    - [Validators], [PosValidators]: the validator list, weights, ranks,
      statuses, generators and the last block; the query for validators and
      the listeners that keep the list in step with the blocks.
    - [Processor], [ProcPos], [ProcAudio], [ProcNft], [ProcChain]: the
      transaction processors, a pair of handlers per command; [Dispatch]:
      transactionProcessor/index.js.
    - [DataService], [TxService], [Queries], [Network]: the queries, the pool
      of pending transactions, and methods/dataService/controllers.
    - [Indexer]: genesisBlock.js, validatorIndex.js, blockchainIndex.js and
      the rewards of utils/validator.js; [IndexStatus]: indexStatus.js.
    - [Jobs]: what the queues and the events call; [Coordinator]:
      services/blockchain-coordinator.

    ** The gateway

    - [GatewaySources], [GatewayRoutes]: the data of the sources and of the
      routes, with the names of their files.
    - [ApiUtils] (shared/apiUtils.js, paramValidator.js), [Mapper]
      (customMapper.js and framework/src/mapper.js), [GatewayApi]
      (registerHttpApi.js, registerRpcApi.js, moleculer-io/index.js, ready.js,
      routes.js, namespaces.js).
    - [GatewayDocs] (utils.js, generateDocs.js, the getters [schema] of the
      routes, apis/*/swagger): the documentation.

    ** The other services

    - [EventTopics], [Connector], [Codec], [NodeBlocks], [NodeEndpoints],
      [NodePeers]: services/blockchain-connector - the API client and its
      instantiation, formatting and encoding, the genesis block and its
      download, the endpoints, the peers, the methods.
    - [Fees], [Statistics], [Market], [Export], [Registry]: the services of
      these names; [HttpClient]: framework/src/http.js.

    ** The services together

    - [ServiceTables]: the tables of methods of every service, with the rules
      of their parameters.  [Microservice]: framework/src/microservice.js,
      queue.js and cacheRedis.js.  [Shell]: which methods are added, the
      listeners and the status of the indexer, the status and the socket
      events of the gateway, the jobs of every service.

    ** What is proved

    - Transactions ([Trace], [Discipline], [Atomic]): every handler keeps to
      the block's transaction, indexBlock is one bracket around it, and so a
      block is indexed entirely or not at all, the accounts table apart, which
      the code writes outside the transaction.  [Trace.disc] is a weakest
      precondition over commands, so these hold whatever the outside answers.
    - Jobs at once ([Interleave]): jobs of indexBlock that take turns at every
      command, in any order, refine a sequence of atomic commits, one for each
      job that returns; of two blocks indexed so, a total can lose an update.
    - The access layer ([MysqlThms]): the row an object is stored as, upserts
      that commit all rows or none, failed operations without effect, and
      queries that see committed rows only.
    - Helpers ([HelperThms]): round trips of the key-value store and of
      addresses, pagination, ranges, JSON compatibility.
    - Validators ([ValidatorThms]), processors ([ProcThms]), indexing
      ([IndexThms]): weights, order and ranks; dispatch, failed transactions
      and the whole effect of a stake transaction; the heights scheduled,
      locked amounts, rewards, events, the readiness of the index.
    - Jobs and services ([JobThms]): the coordinator's schedule, merged and
      batched pages of transactions, the signal of a new round.
    - Queries ([QueryThms]): pages of validators and of peers,
      the list of validators after a block, the summary of tokens, and what a
      failed load leaves in a variable.
    - The gateway ([GatewayThms], [MapperThms], [RouteThms]): the
      report on a request's parameters, HTTP and JSON-RPC lead to the same
      call, a request reaches the remote method complete, replies have the
      shape of their definition, a batch is answered in order, when the
      gateway is ready, which references of the documentation lead nowhere.
    - Statistics, fees, market ([StatsThms], [FeesThms], [MarketThms]): the
      sums of a day, rows stored all or none, the estimate's loop ends and
      what is served is recent, the target prices.
    - Export, registry ([ExportThms], [RegistryThms]): rows of the CSV file,
      what is kept and removed, the transaction of a synchronisation.
    - The connector ([ConnectorThms], [NodeThms]): retries and lost requests,
      validated encodings, topics of events, verified downloads, the counts
      of peers.
    - The services together ([ShellThms]): the routes of the gateway meet the
      methods of the services, in name and in the types of the parameters;
      the version the gateway reports, from the connector's count through the
      indexer; what becomes of an event on its way to the clients; every job
      is started.
    - [Fixtures] and the files named Witnesses run the code at inputs that
      satisfy the theorems' hypotheses, on [MemDb] or against a function that
      answers the commands.

    Some theorems state behaviour the code hardly intends (ranks that ignore
    weights, a reversal that always throws, requests that are never answered);
    they are exact all the same.

    ** Bounds and fuel

    Loops over lists are structural.  [RequestAll.pages] and
    [StatisticsRequestAll.morePages] recurse on the number of pages the code's
    loop has, [HttpClient.performRequestLoop] and [Client.invokeLoop] on the
    number of retries, [blocksByIDs] on the number of identifiers,
    [json_parse] on the length of the text (each step consumes a character),
    the LIKE matcher of [SqlSpec] on the lengths of pattern and text,
    [TransactionsBusiness.fetchBatches] on the number of IDs (a batch takes at
    least one).  The printing of doubles tries at most 17 digits, which always
    suffice.  [FeesBatch.estimateLoop] takes fuel and answers [None] without
    it; [estimate_terminates] gives an amount that is enough.
    [removeEmptyDirectoriesAndNonMetaFiles] takes a bound on the depth of the
    directories.  A timer that polls fires [polls] times; a promise that is
    then still pending, or never settles, throws the exception [unsettled],
    which the [attempt]s of the connector let pass.

    ** What is left out

    BluebirdPromise.map runs its callbacks in the schedule that finishes
    each before the next, and a promise nobody awaits runs to its end before
    the caller goes on; the jobs of different blocks are interleaved
    ([Interleave]), the transactions of one block are not. Objects are
    values: where the code changes an object it was given, the model returns
    the changed one. Functions are no values: a handler stands beside the
    object that has it. Logging is left out, but for texts whose computation
    can throw. Values of JSON hold no Buffers.

    Not modelled: the HTTP and socket servers (the rest of moleculer-io,
    moleculer-web, rate limits, rooms, CORS), logging, the socket client, signals, the LRU and memory caches, the
    template service, the commands of framework/bin, configuration files, and
    the start of the processes: they are I/O or wrappers of libraries. *)
From Stdlib Require Export ZArith Lia Ascii String.
From stdpp Require Export base option list strings pretty gmap fin_maps.

(** The development uses one scope for the notations of the effect language. *)
Declare Scope js_scope.
Delimit Scope js_scope with js.

Create HintDb js discriminated.

(** Case analysis on the first [match] of the goal or of a hypothesis, keeping
    the equation, and solving absurd branches at once. *)
Ltac case_step :=
  match goal with
  | |- context [match ?x with _ => _ end] => destruct x eqn:?; simplify_eq/=
  | H : context [match ?x with _ => _ end] |- _ => destruct x eqn:?; simplify_eq/=
  end.

Ltac cases := repeat (case_step; try done).

(** ** Strings *)

(** [s.split(c)] for a one-character separator. *)
Fixpoint split_char (c : ascii) (s : string) : list string :=
  match s with
  | EmptyString => [EmptyString]
  | String a r =>
      if decide (a = c) then EmptyString :: split_char c r
      else match split_char c r with
           | h :: t => String a h :: t
           | [] => [String a EmptyString]
           end
  end.

(** [s.split(sep)] for a non-empty separator. *)
Fixpoint split_str_go (sep : string) (skip : nat) (s acc : string) : list string :=
  match s with
  | EmptyString => [acc]
  | String a r =>
      match skip with
      | S k => split_str_go sep k r acc
      | O => if String.prefix sep s
             then acc :: split_str_go sep (String.length sep - 1) r EmptyString
             else split_str_go sep 0 r (acc +:+ String a EmptyString)
      end
  end.
Definition split_str (sep s : string) : list string := split_str_go sep 0 s EmptyString.

(** [l.join(sep)]. *)
Fixpoint join (sep : string) (l : list string) : string :=
  match l with
  | [] => EmptyString
  | [x] => x
  | x :: r => (x +:+ sep +:+ join sep r)%string
  end.

Fixpoint char_in (c : ascii) (s : string) : bool :=
  match s with
  | EmptyString => false
  | String a r => bool_decide (a = c) || char_in c r
  end.

(** [s.startsWith(p)] *)
Definition starts_with (p s : string) : bool := String.prefix p s.

(** [s.includes(p)] *)
Fixpoint str_includes (p s : string) : bool :=
  starts_with p s ||
  match s with
  | EmptyString => false
  | String _ r => str_includes p r
  end.

(** [s.endsWith(p)] *)
Fixpoint ends_with (p s : string) : bool :=
  bool_decide (p = s) ||
  match s with
  | EmptyString => false
  | String _ r => ends_with p r
  end.

Lemma starts_with_app p s : starts_with p (p +:+ s) = true.
Proof.
  unfold starts_with. induction p as [|a p IH]; [by destruct s|].
  change (String.prefix (String a p) (String a (p +:+ s)) = true). simpl. by destruct (ascii_dec a a).
Qed.

Lemma substring_all s : String.substring 0 (String.length s) s = s.
Proof. induction s as [|a s IH]; [done|]. simpl. by rewrite IH. Qed.

Lemma split_char_nonempty c s : split_char c s ≠ [].
Proof. destruct s; simpl; [done|]; repeat case_match; done. Qed.

(** Splitting and joining on the same character is the identity. *)
Lemma join_split c s : join (String c EmptyString) (split_char c s) = s.
Proof.
  induction s as [|a s IH]; [done|]; simpl. case_decide as E.
  - subst a. destruct (split_char c s) eqn:Es; [by apply split_char_nonempty in Es|].
    simpl in *. by rewrite IH.
  - destruct (split_char c s) as [|h t] eqn:Es; [by apply split_char_nonempty in Es|].
    simpl in *. destruct t; simpl in *; by rewrite <- IH.
Qed.

Lemma split_char_none c s : char_in c s = false → split_char c s = [s].
Proof.
  induction s as [|a s IH]; [done|]; simpl. rewrite orb_false_iff.
  intros [Ha Hs]. rewrite bool_decide_eq_false in Ha. rewrite decide_False by done.
  by rewrite (IH Hs).
Qed.

(** A separator-free prefix is the first component of the split. *)
Lemma split_char_cons c a b :
  char_in c a = false →
  split_char c (a +:+ String c b) = a :: split_char c b.
Proof.
  induction a as [|x a IH]; simpl.
  - intros _. by rewrite decide_True.
  - rewrite orb_false_iff, bool_decide_eq_false. intros [Hx Ha].
    rewrite decide_False by done. change (String.append a (String c b)) with (a +:+ String c b)%string.
    by rewrite (IH Ha).
Qed.

(** ** Lists *)

Open Scope Z_scope.

(** [l.find(f)] *)
Fixpoint find_js {A} (f : A → bool) (l : list A) : option A :=
  match l with
  | [] => None
  | x :: r => if f x then Some x else find_js f r
  end.

(** [l.findIndex(f)], [None] standing for [-1]. *)
Fixpoint find_index {A} (f : A → bool) (l : list A) : option nat :=
  match l with
  | [] => None
  | x :: r => if f x then Some 0%nat else S <$> find_index f r
  end.

Lemma find_js_Some {A} (f : A → bool) l x :
  find_js f l = Some x → x ∈ l ∧ f x = true.
Proof.
  induction l as [|y l IH]; simpl; [done|]. destruct (f y) eqn:E; intros ?; simplify_eq.
  - split; [by left|done].
  - destruct IH; [done|]. split; [by right|done].
Qed.

Lemma find_js_None {A} (f : A → bool) l :
  find_js f l = None ↔ Forall (λ x, f x = false) l.
Proof.
  induction l as [|y l IH]; simpl; [by split|]. rewrite Forall_cons.
  destruct (f y); [split; [done|by intros []]|]. rewrite IH. by intuition.
Qed.

Lemma find_index_Some {A} (f : A → bool) l i :
  find_index f l = Some i → ∃ x, l !! i = Some x ∧ f x = true.
Proof.
  revert i. induction l as [|y l IH]; intros i; simpl; [done|].
  destruct (f y) eqn:E; intros Hi; simplify_eq/=; [by eauto|].
  destruct (find_index f l) as [j|]; simplify_eq/=. by apply IH.
Qed.

Lemma find_index_None {A} (f : A → bool) l :
  find_index f l = None ↔ Forall (λ x, f x = false) l.
Proof.
  induction l as [|y l IH]; simpl; [by split|]. rewrite Forall_cons.
  destruct (f y); [split; [done|by intros []]|].
  rewrite fmap_None, IH. by intuition.
Qed.

(** [l.slice(a, b)]: a negative bound counts from the end of the list. *)
Definition rel_index (n len : Z) : Z := if n <? 0 then Z.max 0 (len + n) else Z.min n len.

Definition slice {A} (a b : Z) (l : list A) : list A :=
  let len := Z.of_nat (length l) in
  let i := rel_index a len in
  let j := rel_index b len in
  take (Z.to_nat (j - i)) (drop (Z.to_nat i) l).

Lemma slice_nonneg {A} (a b : Z) (l : list A) :
  0 ≤ a → 0 ≤ b →
  slice a b l = take (Z.to_nat b - Z.to_nat a) (drop (Z.to_nat a) l).
Proof.
  intros Ha Hb. unfold slice, rel_index.
  rewrite (proj2 (Z.ltb_ge a 0)), (proj2 (Z.ltb_ge b 0)) by lia.
  destruct (decide (Z.of_nat (length l) ≤ a)) as [L|L].
  - rewrite !drop_ge by lia. by rewrite !take_nil.
  - rewrite (Z.min_l a) by lia. destruct (decide (Z.of_nat (length l) ≤ b)) as [M|M].
    + rewrite !take_ge; [done|rewrite length_drop; lia..].
    + rewrite Z.min_l by lia. f_equal. lia.
Qed.

Lemma length_slice_le {A} (a b : Z) (l : list A) :
  0 ≤ a → 0 ≤ b → (length (slice a b l) ≤ Z.to_nat b - Z.to_nat a)%nat.
Proof. intros. rewrite slice_nonneg, length_take by done. lia. Qed.

#[export] Hint Resolve find_js_Some find_index_Some : js.

Lemma elem_of_List_filter {A} (f : A → bool) x l : x ∈ List.filter f l ↔ x ∈ l ∧ f x = true.
Proof. rewrite !list_elem_of_In. apply filter_In. Qed.
