(* ===== verification/JsValue.v ===== *)
(** * JavaScript values

    The part of the language and of its standard library that the services
    use: values, the number type (an IEEE double, with the integers of
    magnitude at most 2^53 kept as [Z]), property access, spread, the
    conversions [Number], [String], [Boolean], [BigInt] and
    [JSON.stringify].  Inherited properties and object identity are not
    modelled: [===] on two objects is [false], as it is for two objects built
    separately. *)
From Stdlib Require Export Floats.SpecFloat.
From S2P Require Export Prelude.
Open Scope Z_scope.

(** ** Values *)

Inductive val :=
  | VUndef
  | VNull
  | VBool (b : bool)
  | VNum (z : Z)            (* a number that is an integer of magnitude ≤ 2^53, not -0 *)
  | VFlt (f : spec_float)   (* any other number *)
  | VBig (z : Z)            (* a BigInt *)
  | VStr (s : string)
  | VArr (l : list val)
  | VObj (o : list (string * val)).   (* own properties in insertion order *)

(** A thrown value: [name] and [message] of the error object. *)
Record exn := mkExn { exn_name : string; exn_msg : string }.

Inductive result (A : Type) :=
  | Ok (a : A)
  | Err (e : exn).
Arguments Ok {A} a.
Arguments Err {A} e.

Definition result_bind {A B} (r : result A) (f : A → result B) : result B :=
  match r with Ok a => f a | Err e => Err e end.
#[export] Instance result_mret : MRet result := λ A a, Ok a.
#[export] Instance result_mbind : MBind result := λ A B f r, result_bind r f.

Definition is_ok {A} (r : result A) : bool := match r with Ok _ => true | Err _ => false end.

(** Induction on values with hypotheses for array elements and properties. *)
Section val_ind.
Context (P : val → Prop)
  (Hundef : P VUndef) (Hnull : P VNull) (Hbool : ∀ b, P (VBool b))
  (Hnum : ∀ z, P (VNum z)) (Hflt : ∀ f, P (VFlt f)) (Hbig : ∀ z, P (VBig z))
  (Hstr : ∀ s, P (VStr s))
  (Harr : ∀ l, Forall P l → P (VArr l))
  (Hobj : ∀ o, Forall (λ kv, P kv.2) o → P (VObj o)).

Fixpoint val_nested_ind (v : val) : P v :=
  match v with
  | VUndef => Hundef
  | VNull => Hnull
  | VBool b => Hbool b
  | VNum z => Hnum z
  | VFlt f => Hflt f
  | VBig z => Hbig z
  | VStr s => Hstr s
  | VArr l => Harr l ((fix go l : Forall P l :=
                         match l with
                         | [] => Forall_nil_2 _
                         | x :: r => Forall_cons_2 _ x r (val_nested_ind x) (go r)
                         end) l)
  | VObj o => Hobj o ((fix go o : Forall (λ kv, P kv.2) o :=
                         match o with
                         | [] => Forall_nil_2 _
                         | kv :: r => Forall_cons_2 (λ kv, P kv.2) kv r (val_nested_ind kv.2) (go r)
                         end) o)
  end.
End val_ind.

#[export] Instance spec_float_eq_dec : EqDecision spec_float.
Proof. solve_decision. Defined.

(** Structural equality of two values (not an operator of the language). *)
Definition val_eq_dec : ∀ v w : val, {v = w} + {v ≠ w}.
Proof.
  fix IH 1. intros [| |b|z|f|z|s|l|o] [| |b'|z'|f'|z'|s'|l'|o']; try (right; discriminate).
  - by left.
  - by left.
  - destruct (decide (b = b')); [left|right]; congruence.
  - destruct (decide (z = z')); [left|right]; congruence.
  - destruct (decide (f = f')); [left|right]; congruence.
  - destruct (decide (z = z')); [left|right]; congruence.
  - destruct (decide (s = s')); [left|right]; congruence.
  - destruct (list_eq_dec (dec := IH) l l'); [left|right]; congruence.
  - destruct (list_eq_dec (dec := @prod_eq_dec string String.string_dec val IH) o o'); [left|right]; congruence.
Defined.
#[export] Instance val_eq_decision : EqDecision val := val_eq_dec.

(** ** Numbers *)

Definition flt_nan : spec_float := S754_nan.
Definition max_exact : Z := 2 ^ 53.

(** The double nearest to an integer. *)
Definition flt_of_Z (z : Z) : spec_float := binary_normalize 53 1024 z 0 false.

(** The canonical value of a double. *)
Definition num_of_flt (f : spec_float) : val :=
  match f with
  | S754_zero false => VNum 0
  | S754_finite s m e =>
      let z := if s then Zneg m else Zpos m in
      if 0 <=? e then
        let z' := z * 2 ^ e in
        if Z.abs z' <=? max_exact then VNum z' else VFlt f
      else if (z mod 2 ^ (- e) =? 0) && (Z.abs (z / 2 ^ (- e)) <=? max_exact)
           then VNum (z / 2 ^ (- e)) else VFlt f
  | _ => VFlt f
  end.

(** [Number(z)] for an integer [z]. *)
Definition num_of_Z (z : Z) : val :=
  if Z.abs z <=? max_exact then VNum z else VFlt (flt_of_Z z).

(** ** Strings to numbers: the StringToNumber grammar *)

Definition digit_of (a : ascii) : option Z :=
  let n := Z.of_nat (nat_of_ascii a) in
  if (48 <=? n) && (n <=? 57) then Some (n - 48)
  else if (97 <=? n) && (n <=? 122) then Some (n - 87)
  else if (65 <=? n) && (n <=? 90) then Some (n - 55)
  else None.

(** Reads the longest prefix of digits of a base: value, number of digits, rest. *)
Fixpoint read_digits (base acc : Z) (n : nat) (s : string) : Z * nat * string :=
  match s with
  | EmptyString => (acc, n, s)
  | String a r =>
      match digit_of a with
      | Some d => if d <? base then read_digits base (acc * base + d) (S n) r else (acc, n, s)
      | None => (acc, n, s)
      end
  end.

Definition is_ws (a : ascii) : bool :=
  let n := nat_of_ascii a in
  Nat.eqb n 32 || (Nat.leb 9 n && Nat.leb n 13).

Fixpoint trim_left (s : string) : string :=
  match s with
  | String a r => if is_ws a then trim_left r else s
  | EmptyString => s
  end.

Fixpoint str_rev_app (s acc : string) : string :=
  match s with EmptyString => acc | String a r => str_rev_app r (String a acc) end.

Definition trim (s : string) : string :=
  str_rev_app (trim_left (str_rev_app (trim_left s) EmptyString)) EmptyString.

(** The double nearest to [m * 10^e]. *)
Definition flt_of_dec (neg : bool) (m e : Z) : spec_float :=
  match m with
  | Zpos p =>
      if 0 <=? e then binary_normalize 53 1024 ((if neg then -1 else 1) * (Zpos p * 10 ^ e)) 0 false
      else match 10 ^ (- e) with
           | Zpos q => SFdiv 53 1024 (S754_finite neg p 0) (S754_finite false q 0)
           | _ => S754_nan
           end
  | _ => S754_zero neg
  end.

(** Unsigned decimal literal, [None] when it is not one. *)
Definition read_decimal (neg : bool) (s : string) : option spec_float :=
  let '(ip, ni, r) := read_digits 10 0 0 s in
  let '(m, nf, r) :=
    match r with
    | String "." r' => let '(m, n, r'') := read_digits 10 ip 0 r' in (m, n, r'')
    | _ => (ip, 0%nat, r)
    end in
  if Nat.eqb (ni + nf) 0 then None else
  match r with
  | EmptyString => Some (flt_of_dec neg m (- Z.of_nat nf))
  | String a r' =>
      if bool_decide (a = "e"%char ∨ a = "E"%char) then
        let '(eneg, r'') := match r' with
                            | String "-" x => (true, x)
                            | String "+" x => (false, x)
                            | _ => (false, r')
                            end in
        let '(ev, ne, rest) := read_digits 10 0 0 r'' in
        if Nat.eqb ne 0 then None
        else match rest with
             | EmptyString =>
                 Some (flt_of_dec neg m ((if eneg then - ev else ev) - Z.of_nat nf))
             | _ => None
             end
      else None
  end.

Definition read_radix (base : Z) (s : string) : option spec_float :=
  let '(v, n, r) := read_digits base 0 0 s in
  match r with
  | EmptyString => if Nat.eqb n 0 then None else Some (flt_of_Z v)
  | _ => None
  end.

(** [Number(s)] *)
Definition flt_of_string (s0 : string) : spec_float :=
  let s := trim s0 in
  let signed (neg : bool) (r : string) :=
    if bool_decide (r = "Infinity"%string) then S754_infinity neg
    else default S754_nan (read_decimal neg r) in
  match s with
  | EmptyString => S754_zero false
  | String "0" (String "x" r) | String "0" (String "X" r) => default S754_nan (read_radix 16 r)
  | String "0" (String "o" r) | String "0" (String "O" r) => default S754_nan (read_radix 8 r)
  | String "0" (String "b" r) | String "0" (String "B" r) => default S754_nan (read_radix 2 r)
  | String "-" r => signed true r
  | String "+" r => signed false r
  | _ => signed false s
  end.

(** ** Numbers to strings *)

(** [Number::toString] on a finite non-zero double [m * 2^e]: the shortest
    decimal significand that reads back as the same double. *)
Definition dec_round (num den : Z) : Z :=
  let q := num / den in
  let r := num mod den in
  if 2 * r <? den then q else if den <? 2 * r then q + 1 else if Z.even q then q else q + 1.

(** Number of digits before the decimal point: the [n] with [10^(n-1) <= num/den < 10^n],
    found upwards from a lower estimate. *)
Fixpoint dec_exponent (fuel : nat) (n num den : Z) : Z :=
  match fuel with
  | O => n
  | S k =>
      let lt := if 0 <=? n then num <? den * 10 ^ n else num * 10 ^ (- n) <? den in
      if lt then n else dec_exponent k (n + 1) num den
  end.

Fixpoint shortest_digits (fuel : nat) (k : Z) (num den n : Z) (f : spec_float) : Z * Z :=
  match fuel with
  | O => (0, 0)
  | S fu =>
      let s := if k <=? n then dec_round num (den * 10 ^ (n - k))
               else dec_round (num * 10 ^ (k - n)) den in
      if bool_decide (flt_of_dec false s (n - k) = f) then (s, k)
      else shortest_digits fu (k + 1) num den n f
  end.

Fixpoint repeat_char (c : ascii) (n : nat) : string :=
  match n with O => EmptyString | S k => String c (repeat_char c k) end.

Definition str_drop (n : nat) (s : string) : string := String.substring n (String.length s - n) s.
Definition str_take (n : nat) (s : string) : string := String.substring 0 n s.

Definition dec_layout (s k n : Z) : string :=
  let d := pretty s in
  if (k <=? n) && (n <=? 21) then d +:+ repeat_char "0" (Z.to_nat (n - k))
  else if (0 <? n) && (n <=? 21) then
    str_take (Z.to_nat n) d +:+ "." +:+ str_drop (Z.to_nat n) d
  else if (-6 <? n) && (n <=? 0) then "0." +:+ repeat_char "0" (Z.to_nat (- n)) +:+ d
  else
    let e := (if 0 <=? n - 1 then "e+" else "e-") +:+ pretty (Z.abs (n - 1)) in
    if k =? 1 then d +:+ e
    else str_take 1 d +:+ "." +:+ str_drop 1 d +:+ e.

Definition string_of_flt (f : spec_float) : string :=
  match f with
  | S754_nan => "NaN"
  | S754_infinity s => (if s then "-Infinity" else "Infinity")
  | S754_zero _ => "0"
  | S754_finite s m e =>
      let '(num, den) := if 0 <=? e then (Zpos m * 2 ^ e, 1) else (Zpos m, 2 ^ (- e)) in
      (* 2^b <= num/den < 2^(b+1) bounds the decimal exponent from below *)
      let b := Z.log2 (Zpos m) + e in
      let low := b * 30102 / 100000 - 1 in
      let n := dec_exponent 8 low num den in
      let '(d, k) := shortest_digits 18 1 num den n (S754_finite false m e) in
      (if s then "-" else "") +:+
      (if d =? 10 ^ k then dec_layout 1 1 (n + 1) else dec_layout d k n)   (* rounded up to a power of ten *)
  end.

(** ** Conversions *)

Definition typeof (v : val) : string :=
  match v with
  | VUndef => "undefined"
  | VNull => "object"
  | VBool _ => "boolean"
  | VNum _ | VFlt _ => "number"
  | VBig _ => "bigint"
  | VStr _ => "string"
  | VArr _ | VObj _ => "object"
  end.

(** [Boolean(v)] *)
Definition truthy (v : val) : bool :=
  match v with
  | VUndef | VNull => false
  | VBool b => b
  | VNum z | VBig z => negb (z =? 0)
  | VFlt S754_nan | VFlt (S754_zero _) => false
  | VFlt _ => true
  | VStr s => negb (bool_decide (s = EmptyString))
  | VArr _ | VObj _ => true
  end.

(** [String(v)] *)
Fixpoint to_string (v : val) : string :=
  match v with
  | VUndef => "undefined"
  | VNull => "null"
  | VBool b => if b then "true" else "false"
  | VNum z | VBig z => pretty z
  | VFlt f => string_of_flt f
  | VStr s => s
  | VArr l => join "," (map (λ x, match x with VUndef | VNull => EmptyString | _ => to_string x end) l)
  | VObj _ => "[object Object]"
  end.

(** [Number(v)] *)
Definition to_number (v : val) : val :=
  match v with
  | VUndef => VFlt S754_nan
  | VNull => VNum 0
  | VBool b => VNum (if b then 1 else 0)
  | VNum _ | VFlt _ => v
  | VBig z => num_of_Z z
  | VStr s => num_of_flt (flt_of_string s)
  | VArr _ => num_of_flt (flt_of_string (to_string v))
  | VObj _ => VFlt S754_nan
  end.

Definition is_nan (v : val) : bool :=
  match v with VFlt S754_nan => true | _ => false end.

(** The integer a string denotes for [BigInt(s)]. *)
Definition bigint_of_string (s0 : string) : option Z :=
  let s := trim s0 in
  let radix b r := let '(v, n, rest) := read_digits b 0 0 r in
                   if bool_decide (rest = EmptyString) && negb (Nat.eqb n 0) then Some v else None in
  match s with
  | EmptyString => Some 0
  | String "0" (String "x" r) | String "0" (String "X" r) => radix 16 r
  | String "0" (String "o" r) | String "0" (String "O" r) => radix 8 r
  | String "0" (String "b" r) | String "0" (String "B" r) => radix 2 r
  | String "-" r => Z.opp <$> radix 10 r
  | String "+" r => radix 10 r
  | _ => radix 10 s
  end.

Definition type_error (m : string) : exn := mkExn "TypeError" m.

(** [BigInt(v)] *)
Definition to_bigint (v : val) : result Z :=
  match v with
  | VBig z | VNum z => Ok z
  | VFlt (S754_finite s m e) =>
      if 0 <=? e then Ok ((if s then -1 else 1) * (Zpos m * 2 ^ e))
      else if Zpos m mod 2 ^ (- e) =? 0 then Ok ((if s then -1 else 1) * (Zpos m / 2 ^ (- e)))
      else Err (mkExn "RangeError" "The number cannot be converted to a BigInt because it is not an integer")
  | VFlt (S754_zero _) => Ok 0
  | VFlt _ => Err (mkExn "RangeError" "The number cannot be converted to a BigInt because it is not an integer")
  | VBool b => Ok (if b then 1 else 0)
  | VStr s => match bigint_of_string s with
              | Some z => Ok z
              | None => Err (mkExn "SyntaxError" ("Cannot convert " +:+ s +:+ " to a BigInt"))
              end
  | VUndef => Err (type_error "Cannot convert undefined to a BigInt")
  | VNull => Err (type_error "Cannot convert null to a BigInt")
  | VArr _ | VObj _ =>
      match bigint_of_string (to_string v) with
      | Some z => Ok z
      | None => Err (mkExn "SyntaxError" ("Cannot convert " +:+ to_string v +:+ " to a BigInt"))
      end
  end.

(** ** Objects *)

Fixpoint oget (o : list (string * val)) (k : string) : option val :=
  match o with
  | [] => None
  | (k', v) :: r => if decide (k = k') then Some v else oget r k
  end.

(** [o[k] = v]: an existing property keeps its place, a new one is appended. *)
Fixpoint oset (o : list (string * val)) (k : string) (v : val) : list (string * val) :=
  match o with
  | [] => [(k, v)]
  | (k', v') :: r => if decide (k = k') then (k', v) :: r else (k', v') :: oset r k v
  end.

Definition odel (o : list (string * val)) (k : string) : list (string * val) :=
  filter (λ kv, kv.1 ≠ k) o.

(** [{ ...a, ...b }] *)
Definition ospread (a b : list (string * val)) : list (string * val) :=
  fold_left (λ o kv, oset o kv.1 kv.2) b a.

Definition okeys (o : list (string * val)) : list string := map fst o.
Definition has_key (o : list (string * val)) (k : string) : bool :=
  match oget o k with Some _ => true | None => false end.

(** The properties a spread of [v] contributes. *)
Definition props (v : val) : list (string * val) :=
  match v with VObj o => o | _ => [] end.

Definition nth_val (l : list val) (i : nat) : val := default VUndef (l !! i).

(** [v[k]]; reading a property of [undefined] or [null] throws. *)
Definition prop (v : val) (k : string) : result val :=
  match v with
  | VUndef => Err (type_error ("Cannot read properties of undefined (reading '" +:+ k +:+ "')"))
  | VNull => Err (type_error ("Cannot read properties of null (reading '" +:+ k +:+ "')"))
  | VObj o => Ok (default VUndef (oget o k))
  | VArr l =>
      if bool_decide (k = "length"%string) then Ok (VNum (Z.of_nat (length l)))
      else match bigint_of_string k with
           | Some i => if (0 <=? i) && bool_decide (pretty i = k) then Ok (nth_val l (Z.to_nat i)) else Ok VUndef
           | None => Ok VUndef
           end
  | VStr s =>
      if bool_decide (k = "length"%string) then Ok (VNum (Z.of_nat (String.length s))) else Ok VUndef
  | _ => Ok VUndef
  end.

(** The property when the base is known to be an object. *)
Definition field (v : val) (k : string) : val :=
  match prop v k with Ok x => x | Err _ => VUndef end.

Definition set_field (v : val) (k : string) (x : val) : val :=
  match v with VObj o => VObj (oset o k x) | _ => v end.

Definition is_array (v : val) : bool := match v with VArr _ => true | _ => false end.
Definition arr_of (v : val) : list val := match v with VArr l => l | _ => [] end.

(** ** Operators *)

(** The double of a number. *)
Definition flt_of_num (v : val) : spec_float :=
  match v with VNum z => flt_of_Z z | VFlt f => f | _ => S754_nan end.

(** [a === b] *)
Definition strict_eq (a b : val) : bool :=
  match a, b with
  | VUndef, VUndef | VNull, VNull => true
  | VBool x, VBool y => Bool.eqb x y
  | VNum x, VNum y => x =? y
  | VNum _, VFlt _ | VFlt _, VNum _ | VFlt _, VFlt _ => SFeqb (flt_of_num a) (flt_of_num b)
  | VBig x, VBig y => x =? y
  | VStr x, VStr y => bool_decide (x = y)
  | _, _ => false
  end.

(** Order of two numbers or BigInts after conversion, [None] when unordered. *)
Definition num_compare (a b : val) : option comparison :=
  match a, b with
  | VNum x, VNum y | VBig x, VBig y | VNum x, VBig y | VBig x, VNum y => Some (x ?= y)
  | _, _ =>
      let f v := match v with VBig z => flt_of_Z z | _ => flt_of_num v end in
      SFcompare (f a) (f b)
  end.

Definition to_numeric (v : val) : val := match v with VBig _ => v | _ => to_number v end.

(** The order behind [<], [<=], [>] and [>=]. *)
Definition js_compare (a b : val) : option comparison :=
  match a, b with
  | VStr x, VStr y => Some (String.compare x y)
  | _, _ => num_compare (to_numeric a) (to_numeric b)
  end.

Definition js_lt (a b : val) : bool := bool_decide (js_compare a b = Some Lt).
Definition js_gt (a b : val) : bool := bool_decide (js_compare a b = Some Gt).
Definition js_le (a b : val) : bool := js_lt a b || bool_decide (js_compare a b = Some Eq).
Definition js_ge (a b : val) : bool := js_gt a b || bool_decide (js_compare a b = Some Eq).

(** [a + b] and [a - b] on numbers (not on strings). *)
Definition num_add (a b : val) : val :=
  match a, b with
  | VNum x, VNum y => num_of_Z (x + y)
  | _, _ => num_of_flt (SFadd 53 1024 (flt_of_num a) (flt_of_num b))
  end.
Definition num_sub (a b : val) : val :=
  match a, b with
  | VNum x, VNum y => num_of_Z (x - y)
  | _, _ => num_of_flt (SFsub 53 1024 (flt_of_num a) (flt_of_num b))
  end.
Definition num_mul (a b : val) : val :=
  match a, b with
  | VNum x, VNum y => if (x =? 0) || (y =? 0) then num_of_flt (SFmul 53 1024 (flt_of_num a) (flt_of_num b))
                      else num_of_Z (x * y)
  | _, _ => num_of_flt (SFmul 53 1024 (flt_of_num a) (flt_of_num b))
  end.

(** [l.includes(x)]: like [===], except that [NaN] is found. *)
Definition val_includes (l : list val) (x : val) : bool :=
  existsb (λ y, strict_eq y x || (is_nan y && is_nan x)) l.

(** Truthiness choice [a || b]. *)
Definition js_or (a b : val) : val := if truthy a then a else b.

(** Destructuring default [{ k = d } = v]: only [undefined] takes the default. *)
Definition or_default (v d : val) : val := match v with VUndef => d | _ => v end.

(** ** Lemmas on objects *)

Lemma oget_oset o k v k' : oget (oset o k v) k' = if decide (k = k') then Some v else oget o k'.
Proof.
  induction o as [|[k0 v0] o IH]; simpl.
  - repeat case_decide; congruence.
  - destruct (decide (k = k0)); simpl; [|rewrite IH]; repeat case_decide; congruence.
Qed.

Lemma oget_oset_eq o k v : oget (oset o k v) k = Some v.
Proof. by rewrite oget_oset, decide_True. Qed.

Lemma oget_oset_ne o k v k' : k ≠ k' → oget (oset o k v) k' = oget o k'.
Proof. intros. by rewrite oget_oset, decide_False. Qed.

Lemma oget_ospread_app a b kv k :
  oget (ospread a (b ++ [kv])) k = if decide (kv.1 = k) then Some kv.2 else oget (ospread a b) k.
Proof. unfold ospread. rewrite fold_left_app. simpl. apply oget_oset. Qed.

(** In a spread the right operand wins (for the last of its bindings). *)
Lemma oget_ospread_None a b k : oget b k = None → oget (ospread a b) k = oget a k.
Proof.
  unfold ospread. revert a. induction b as [|[k0 v0] b IH]; intros a; simpl; [done|].
  case_decide; [done|]. intros Hb. rewrite IH by done. by apply oget_oset_ne.
Qed.

Lemma oget_not_elem_of o k : k ∉ okeys o → oget o k = None.
Proof.
  induction o as [|[k1 v1] o IH]; [done|]. simpl. rewrite not_elem_of_cons.
  intros [? ?]. rewrite decide_False by congruence. by apply IH.
Qed.

Lemma oget_ospread_Some a b k v :
  NoDup (okeys b) → oget b k = Some v → oget (ospread a b) k = Some v.
Proof.
  revert a. induction b as [|[k0 v0] b IH]; intros a; simpl; [done|].
  rewrite NoDup_cons. intros [Hnin Hnd]. change (ospread a ((k0, v0) :: b)) with (ospread (oset a k0 v0) b).
  case_decide as E; [|by intros Hb; apply IH].
  intros [= ->]. subst k0. rewrite oget_ospread_None; [apply oget_oset_eq|].
  by apply oget_not_elem_of.
Qed.

Lemma oget_odel o k k' : oget (odel o k) k' = if decide (k = k') then None else oget o k'.
Proof.
  induction o as [|[k0 v0] o IH]; [by case_decide|].
  unfold odel. rewrite filter_cons. fold (odel o k). simpl.
  repeat case_decide; simpl; rewrite ?IH; repeat case_decide; try congruence; naive_solver.
Qed.

Lemma oget_map (f : val → val) o k : oget (map (λ kv, (kv.1, f kv.2)) o) k = f <$> oget o k.
Proof.
  induction o as [|[k' v] o IH]; [done|]. simpl. destruct (decide _); [done|exact IH].
Qed.

Lemma num_exact z : Z.abs z ≤ max_exact → num_of_Z z = VNum z.
Proof. intros H. unfold num_of_Z. by rewrite (proj2 (Z.leb_le _ _) H). Qed.

Lemma oget_elem_of o k v : oget o k = Some v → (k, v) ∈ o.
Proof.
  induction o as [|[k0 v0] o IH]; simpl; [done|]. case_decide; intros ?; simplify_eq.
  - by left.
  - right. by apply IH.
Qed.

Lemma has_key_true o k : has_key o k = true ↔ k ∈ okeys o.
Proof.
  unfold has_key, okeys. induction o as [|[k0 v0] o IH]; simpl; [by split; [done|intros ?%elem_of_nil]|].
  rewrite elem_of_cons. case_decide; naive_solver.
Qed.

Lemma okeys_oset o k v : okeys (oset o k v) = okeys o ++ (if has_key o k then [] else [k]).
Proof.
  unfold okeys, has_key. induction o as [|[k0 v0] o IH]; simpl; [done|].
  case_decide; simpl; [by rewrite app_nil_r|]. by rewrite IH.
Qed.

Lemma NoDup_okeys_oset o k v : NoDup (okeys o) → NoDup (okeys (oset o k v)).
Proof.
  intros Hnd. rewrite okeys_oset. destruct (has_key o k) eqn:E; [by rewrite app_nil_r|].
  apply NoDup_app. split_and!; [done| |apply NoDup_singleton].
  intros x Hx ->%list_elem_of_singleton. apply has_key_true in Hx. congruence.
Qed.

Lemma ospread_nil o : NoDup (okeys o) → ospread [] o = o.
Proof.
  assert (∀ a, NoDup (okeys (a ++ o)) → ospread a o = a ++ o) as H.
  { unfold ospread. induction o as [|[k v] o IH]; intros a Hnd; simpl; [by rewrite app_nil_r|].
    assert (oset a k v = a ++ [(k, v)]) as ->.
    { unfold okeys in Hnd. rewrite map_app in Hnd. apply NoDup_app in Hnd as (_ & Hk & _).
      assert (k ∉ map fst a) as Hin by (intros Hin; apply (Hk k Hin); by left). clear -Hin.
      induction a as [|[k' v'] a IHa]; [done|]. simpl in *. rewrite not_elem_of_cons in Hin.
      rewrite decide_False by naive_solver. rewrite IHa; [done|naive_solver]. }
    rewrite IH; rewrite <- app_assoc; done. }
  apply (H []).
Qed.

Lemma NoDup_okeys_ospread a b : NoDup (okeys a) → NoDup (okeys (ospread a b)).
Proof.
  unfold ospread. revert a. induction b as [|[k v] b IH]; intros a Ha; simpl; [done|].
  apply IH. by apply NoDup_okeys_oset.
Qed.

#[export] Hint Rewrite oget_oset oget_odel : js.
#[export] Hint Resolve NoDup_okeys_oset NoDup_okeys_ospread : js.

Lemma strict_eq_VStr a b : strict_eq (VStr a) (VStr b) = bool_decide (a = b).
Proof. done. Qed.

(** [===] against a string holds only for that string. *)
Lemma strict_eq_str_true v s : strict_eq v (VStr s) = true → v = VStr s.
Proof. destruct v; simpl; try done. by intros ->%bool_decide_eq_true. Qed.
