(* ===== verification/Json.v ===== *)
(** * JSON: [JSON.stringify] and [JSON.parse] *)
From S2P Require Export JsValue.
Open Scope string_scope.
Open Scope Z_scope.
Open Scope list_scope.

(** ** Printing *)

Definition hex_digit (n : nat) : ascii :=
  if Nat.ltb n 10 then ascii_of_nat (48 + n) else ascii_of_nat (87 + n).

Definition dq : ascii := "034"%char.
Definition bsl : ascii := "092"%char.

Definition escape_char (a : ascii) : string :=
  let n := nat_of_ascii a in
  if Nat.eqb n 34 then String bsl (String dq "")
  else if Nat.eqb n 92 then String bsl (String bsl "")
  else if Nat.eqb n 10 then String bsl "n"
  else if Nat.eqb n 13 then String bsl "r"
  else if Nat.eqb n 9 then String bsl "t"
  else if Nat.eqb n 8 then String bsl "b"
  else if Nat.eqb n 12 then String bsl "f"
  else if Nat.ltb n 32 then
    String bsl ("u00" +:+ String (hex_digit (Nat.div n 16)) (String (hex_digit (Nat.modulo n 16)) ""))
  else String a "".

Fixpoint escape (s : string) : string :=
  match s with
  | EmptyString => ""
  | String a r => escape_char a +:+ escape r
  end.

Definition quote (s : string) : string := String dq (escape s +:+ String dq "").

Fixpoint result_list {A} (l : list (result A)) : result (list A) :=
  match l with
  | [] => Ok []
  | Ok a :: r => match result_list r with Ok t => Ok (a :: t) | Err e => Err e end
  | Err e :: _ => Err e
  end.

(** The text of a value, [None] for one JSON omits. *)
Fixpoint stringify (v : val) : result (option string) :=
  match v with
  | VUndef => Ok None
  | VNull => Ok (Some "null")
  | VBool b => Ok (Some (if b then "true" else "false"))
  | VNum z => Ok (Some (pretty z))
  | VFlt (S754_zero _) => Ok (Some "0")
  | VFlt (S754_finite s m e) => Ok (Some (string_of_flt (S754_finite s m e)))
  | VFlt _ => Ok (Some "null")
  | VBig _ => Err (type_error "Do not know how to serialize a BigInt")
  | VStr s => Ok (Some (quote s))
  | VArr l =>
      match result_list (map stringify l) with
      | Ok ts => Ok (Some ("[" +:+ join "," (map (default "null") ts) +:+ "]"))
      | Err e => Err e
      end
  | VObj o =>
      match result_list (map (λ kv, match stringify kv.2 with
                                    | Ok (Some t) => Ok (Some (quote kv.1 +:+ ":" +:+ t))
                                    | Ok None => Ok None
                                    | Err e => Err e
                                    end) o) with
      | Ok ts => Ok (Some ("{" +:+ join "," (omap id ts) +:+ "}"))
      | Err e => Err e
      end
  end.

(** [JSON.stringify(v)] *)
Definition json_stringify (v : val) : result val :=
  match stringify v with
  | Ok (Some s) => Ok (VStr s)
  | Ok None => Ok VUndef
  | Err e => Err e
  end.

(** ** Parsing *)

Definition syntax_error : exn := mkExn "SyntaxError" "Unexpected token in JSON".

Definition hex_of4 (s : string) : option (nat * string) :=
  match s with
  | String a (String b (String c (String d r))) =>
      let '(v, n, rest) := read_digits 16 0 0 (String a (String b (String c (String d "")))) in
      if Nat.eqb n 4 && (v <? 256)%Z then Some (Z.to_nat v, r) else None
  | _ => None
  end.

(** The body of a string literal, up to its closing quote. *)
Fixpoint parse_str (fuel : nat) (s : string) : option (string * string) :=
  match fuel with
  | O => None
  | S k =>
      match s with
      | EmptyString => None
      | String a r =>
          let n := nat_of_ascii a in
          if Nat.eqb n 34 then Some ("", r)
          else if Nat.eqb n 92 then
            match r with
            | String b r' =>
                let cont c := match parse_str k r' with
                              | Some (t, rest) => Some (String c t, rest)
                              | None => None
                              end in
                let m := nat_of_ascii b in
                if Nat.eqb m 34 || Nat.eqb m 92 || Nat.eqb m 47 then cont b
                else if Nat.eqb m 110 then cont "010"%char
                else if Nat.eqb m 114 then cont "013"%char
                else if Nat.eqb m 116 then cont "009"%char
                else if Nat.eqb m 98 then cont "008"%char
                else if Nat.eqb m 102 then cont "012"%char
                else if Nat.eqb m 117 then
                  match hex_of4 r' with
                  | Some (c, r'') => match parse_str k r'' with
                                     | Some (t, rest) => Some (String (ascii_of_nat c) t, rest)
                                     | None => None
                                     end
                  | None => None
                  end
                else None
            | EmptyString => None
            end
          else if Nat.ltb n 32 then None
          else match parse_str k r with
               | Some (t, rest) => Some (String a t, rest)
               | None => None
               end
      end
  end.

Definition is_num_char (a : ascii) : bool :=
  let n := nat_of_ascii a in
  (Nat.leb 48 n && Nat.leb n 57) || bool_decide (a = "-"%char ∨ a = "+"%char ∨ a = "."%char ∨ a = "e"%char ∨ a = "E"%char).

Fixpoint span_num (s : string) : string * string :=
  match s with
  | String a r => if is_num_char a then let '(x, y) := span_num r in (String a x, y) else ("", s)
  | EmptyString => ("", s)
  end.

Definition parse_num (s : string) : option (val * string) :=
  let '(t, rest) := span_num s in
  if bool_decide (t = "") then None
  else match flt_of_string t with
       | S754_nan => None
       | f => Some (num_of_flt f, rest)
       end.

Fixpoint parse_val (fuel : nat) (s0 : string) : option (val * string) :=
  match fuel with
  | O => None
  | S k =>
      let elems := fix elems (n : nat) (s : string) : option (list val * string) :=
        match n with
        | O => None
        | S n' =>
            match parse_val k s with
            | Some (v, rest) =>
                match trim_left rest with
                | String "," r => match elems n' r with
                                  | Some (l, r') => Some (v :: l, r')
                                  | None => None
                                  end
                | String "]" r => Some ([v], r)
                | _ => None
                end
            | None => None
            end
        end in
      let members := fix members (n : nat) (s : string) : option (list (string * val) * string) :=
        match n with
        | O => None
        | S n' =>
            match trim_left s with
            | String a r0 =>
                if bool_decide (a = dq) then
                  match parse_str (S (String.length r0)) r0 with
                  | Some (key, r1) =>
                      match trim_left r1 with
                      | String ":" r2 =>
                          match parse_val k r2 with
                          | Some (v, r3) =>
                              match trim_left r3 with
                              | String "," r4 => match members n' r4 with
                                                 | Some (o, r5) => Some ((key, v) :: o, r5)
                                                 | None => None
                                                 end
                              | String "}" r4 => Some ([(key, v)], r4)
                              | _ => None
                              end
                          | None => None
                          end
                      | _ => None
                      end
                  | None => None
                  end
                else None
            | EmptyString => None
            end
        end in
      match trim_left s0 with
      | String "[" r =>
          match trim_left r with
          | String "]" r' => Some (VArr [], r')
          | _ => match elems (S (String.length r)) r with
                 | Some (l, rest) => Some (VArr l, rest)
                 | None => None
                 end
          end
      | String "{" r =>
          match trim_left r with
          | String "}" r' => Some (VObj [], r')
          | _ => match members (S (String.length r)) r with
                 | Some (o, rest) => Some (VObj (ospread [] o), rest)
                 | None => None
                 end
          end
      | String a r as s =>
          if bool_decide (a = dq) then
            match parse_str (S (String.length r)) r with
            | Some (t, rest) => Some (VStr t, rest)
            | None => None
            end
          else if starts_with "true" s then Some (VBool true, str_drop 4 s)
          else if starts_with "false" s then Some (VBool false, str_drop 5 s)
          else if starts_with "null" s then Some (VNull, str_drop 4 s)
          else parse_num s
      | EmptyString => None
      end
  end.

(** [JSON.parse(s)]; the nesting depth is below the length of the text. *)
Definition json_parse (s : string) : result val :=
  match parse_val (S (String.length s)) s with
  | Some (v, rest) => if bool_decide (trim_left rest = "") then Ok v else Err syntax_error
  | None => Err syntax_error
  end.

Example json_roundtrip_sample :
  let v := VObj [("a", VArr [VNum 1; VNum (-25); VNull; VBool true]); ("b c", VStr "x\y");
                 ("d", VObj []); ("e", VFlt (S754_finite false 6755399441055744 (-52)))] in
  result_bind (json_stringify v) (λ t, json_parse (to_string t)) = Ok v.
Proof. vm_compute. reflexivity. Qed.
