(* ===== verification/Numerals.v ===== *)
(** * Integers and their decimal text

    [Number(String(z))], [BigInt(String(z))] and the double of an integer: the
    conversions of [JsValue] lose nothing on integers of magnitude at most
    2^53, and BigInts of any size survive their text. *)
From S2P Require Export JsValue.
Open Scope string_scope.
Open Scope Z_scope.
Open Scope list_scope.

(** ** Characters of a string *)

Fixpoint all_chars (P : ascii → Prop) (s : string) : Prop :=
  match s with EmptyString => True | String a r => P a ∧ all_chars P r end.

Definition is_digit (a : ascii) : Prop := ∃ d, (d < 10)%N ∧ a = pretty_N_char d.

(** The ten cases of a digit, none for a constant that is none. *)
Ltac digit_case H :=
  let d := fresh "d" in let Hd := fresh in let Hx := fresh in
  destruct H as (d & Hd & Hx);
  assert (d = 0 ∨ d = 1 ∨ d = 2 ∨ d = 3 ∨ d = 4 ∨ d = 5 ∨ d = 6 ∨ d = 7 ∨ d = 8 ∨ d = 9)%N by lia;
  clear Hd; repeat match goal with H : _ ∨ _ |- _ => destruct H as [H|H] end; subst d;
  try discriminate Hx; subst.

Lemma str_rev_app_chars P s acc :
  all_chars P s → all_chars P acc → all_chars P (str_rev_app s acc).
Proof.
  revert acc. induction s as [|a s IH]; intros acc; [done|]. simpl. intros [Ha Hs] Hc. by apply IH.
Qed.

Lemma str_rev_app_twice s a b : str_rev_app (str_rev_app s a) b = str_rev_app a (s +:+ b).
Proof. revert a b. induction s as [|c s IH]; intros a b; [done|]. simpl. by rewrite IH. Qed.

Lemma trim_left_chars s : all_chars (λ a, is_ws a = false) s → trim_left s = s.
Proof. destruct s; simpl; [done|]. by intros [-> _]. Qed.

Lemma app_empty_r s : s +:+ "" = s.
Proof. induction s as [|a s IH]; [done|]. change (String a (s +:+ "") = String a s). by rewrite IH. Qed.

(** Text without white space is its own trimmed text. *)
Lemma trim_chars s : all_chars (λ a, is_ws a = false) s → trim s = s.
Proof.
  intros H. unfold trim. rewrite (trim_left_chars s) by done.
  rewrite trim_left_chars by (by apply str_rev_app_chars).
  rewrite str_rev_app_twice. cbn. apply app_empty_r.
Qed.

Lemma digits_not_ws s : all_chars is_digit s → all_chars (λ a, is_ws a = false) s.
Proof.
  induction s as [|a s IH]; [done|]. intros [Ha Hs]. split; [|by apply IH]. by digit_case Ha.
Qed.

(** ** Reading what [pretty] prints *)

Lemma digit_of_char d : (d < 10)%N → digit_of (pretty_N_char d) = Some (Z.of_N d).
Proof.
  intros Hd. assert (d ∈ [0; 1; 2; 3; 4; 5; 6; 7; 8; 9]%N) as Hin by (rewrite !elem_of_cons; lia).
  rewrite !elem_of_cons, elem_of_nil in Hin. by destruct_or! Hin; subst d.
Qed.

Lemma pretty_N_go_chars x s : all_chars is_digit s → all_chars is_digit (pretty_N_go x s).
Proof.
  revert s. induction (N.lt_wf_0 x) as [x _ IH]; intros s Hs.
  destruct (decide (x = 0)%N) as [->|]; [done|].
  rewrite pretty_N_go_step by lia. apply IH; [apply N.div_lt; lia|].
  split; [|done]. eexists. split; [|done]. by apply N.mod_lt.
Qed.

Lemma read_digits_go x s :
  ∃ k : nat, ((0 < x)%N → (0 < k)%nat) ∧ ∀ acc n,
    read_digits 10 acc n (pretty_N_go x s) = read_digits 10 (acc * 10 ^ Z.of_nat k + Z.of_N x) (n + k) s.
Proof.
  revert s. induction (N.lt_wf_0 x) as [x _ IH]; intros s.
  destruct (decide (x = 0)%N) as [->|Hx].
  { exists 0%nat. split; [lia|]. intros acc n. rewrite pretty_N_go_0. f_equal; lia. }
  destruct (IH (x `div` 10)%N (N.div_lt x 10 ltac:(lia) eq_refl) (String (pretty_N_char (x `mod` 10)) s))
    as (k & _ & Hk).
  exists (S k). split; [lia|]. intros acc n. rewrite pretty_N_go_step, Hk by lia. simpl.
  assert (x `mod` 10 < 10)%N by (by apply N.mod_lt).
  rewrite digit_of_char by done. rewrite (proj2 (Z.ltb_lt _ 10)) by lia.
  f_equal; [|lia]. pose proof (N.div_mod x 10 ltac:(lia)).
  rewrite Nat2Z.inj_succ, Z.pow_succ_r by lia. lia.
Qed.

Lemma read_digits_pretty p :
  ∃ n, read_digits 10 0 0 (pretty (Zpos p)) = (Zpos p, S n, "").
Proof.
  change (pretty (Zpos p)) with (pretty_N_go (Npos p) "").
  destruct (read_digits_go (Npos p) "") as (k & Hk & H). destruct k as [|k]; [lia|].
  exists k. by rewrite H.
Qed.

Lemma pretty_pos_chars p : all_chars is_digit (pretty (Zpos p)).
Proof. change (pretty (Zpos p)) with (pretty_N_go (Npos p) ""). by apply pretty_N_go_chars. Qed.

Lemma pretty_chars (z : Z) : all_chars (λ a, is_ws a = false) (pretty z).
Proof.
  destruct z as [|p|p]; [done| |]; [|split; [done|]]; apply digits_not_ws, (pretty_pos_chars p).
Qed.

Lemma pretty_neg p : pretty (Zneg p) = String "-" (pretty (Zpos p)).
Proof. done. Qed.

(** A conversion that dispatches on a sign or a radix prefix takes its last
    branch, on which [Hd] answers, on a text [s] of digits. *)
Ltac digits_dispatch s Hc Hd :=
  let a := fresh in let c := fresh in let Ha := fresh in let Hc' := fresh in
  destruct s as [|a s]; [done|]; destruct Hc as [Ha Hc]; digit_case Ha; try exact Hd;
  destruct s as [|c s]; [exact Hd|]; destruct Hc as [Hc' _]; digit_case Hc'; exact Hd.

Lemma pretty_pos_ne p : pretty (Zpos p) ≠ "".
Proof. destruct (read_digits_pretty p) as [n H]. intros E. by rewrite E in H. Qed.

Definition radix10 (r : string) : option Z :=
  let '(v, n, rest) := read_digits 10 0 0 r in
  if bool_decide (rest = EmptyString) && negb (Nat.eqb n 0) then Some v else None.

Lemma radix10_pretty p : radix10 (pretty (Zpos p)) = Some (Zpos p).
Proof. unfold radix10. by destruct (read_digits_pretty p) as [n ->]. Qed.

(** [BigInt(String(z)) === z] *)
Lemma bigint_of_pretty (z : Z) : bigint_of_string (pretty z) = Some z.
Proof.
  unfold bigint_of_string. rewrite trim_chars by apply pretty_chars.
  destruct z as [|p|p]; [done| |].
  - pose proof (radix10_pretty p) as Hd. pose proof (pretty_pos_chars p) as Hc.
    pose proof (pretty_pos_ne p) as Hne. revert Hd Hc Hne. generalize (pretty (Zpos p)) as s.
    intros s Hd Hc Hne. digits_dispatch s Hc Hd.
  - pose proof (radix10_pretty p) as Hd. unfold radix10 in Hd. rewrite pretty_neg. cbv zeta. by rewrite Hd.
Qed.

(** ** The double of an integer *)

Lemma digits2_size p : digits2_pos p = Pos.size p.
Proof. by induction p as [p IH|p IH|]; simpl; rewrite ?IH. Qed.

Lemma size_bound p : Zpos p < 2 ^ 53 → (Pos.size p <= 53)%positive.
Proof.
  intros H. pose proof (Pos.size_le p) as Hs. destruct (decide (Pos.size p <= 53)%positive) as [|Hgt]; [done|].
  exfalso. assert (2 ^ 54 <= 2 ^ Zpos (Pos.size p)) by (apply Z.pow_le_mono_r; [done|clear H Hs; lia]).
  assert (2 ^ Zpos (Pos.size p) <= 2 * Zpos p) by (rewrite <- Pos2Z.inj_pow; exact Hs). lia.
Qed.

Lemma iter_xO p k : Zpos (Pos.iter xO p k) = Zpos p * 2 ^ Zpos k.
Proof.
  revert p. induction k as [|k IH] using Pos.peano_ind; intros p; [change (Zpos p~0 = Zpos p * 2); lia|].
  rewrite Pos.iter_succ, Pos2Z.inj_xO, IH, Pos2Z.inj_succ, Z.pow_succ_r by lia. lia.
Qed.

Lemma digits_iter_xO p k : digits2_pos (Pos.iter xO p k) = (digits2_pos p + k)%positive.
Proof.
  induction k as [|k IH] using Pos.peano_ind; simpl; [by rewrite Pos.add_1_r|].
  rewrite Pos.iter_succ. simpl. rewrite IH. lia.
Qed.

Lemma fexp_small d : -1000 <= d - 53 -> fexp 53 1024 d = d - 53.
Proof. intros. unfold fexp, emin. lia. Qed.

(** A mantissa of 53 digits is not rounded. *)
Lemma round_aux_exact s m e :
  digits2_pos m = 53%positive → -1000 <= e <= 900 →
  binary_round_aux 53 1024 s (Zpos m) e loc_Exact = S754_finite s m e.
Proof.
  intros Hm He. unfold binary_round_aux, shr_fexp. simpl. rewrite Hm, fexp_small by lia.
  replace (53 + e - 53 - e) with 0 by lia. simpl. rewrite Hm, fexp_small by lia.
  replace (53 + e - 53 - e) with 0 by lia. simpl. by rewrite (proj2 (Z.leb_le e _)) by lia.
Qed.

Lemma binary_round_exact s p :
  Zpos p < 2 ^ 53 →
  ∃ k m, 0 <= k <= 52 ∧ Zpos m = Zpos p * 2 ^ k ∧ binary_round 53 1024 s p 0 = S754_finite s m (- k).
Proof.
  intros Hp. apply size_bound in Hp. unfold binary_round. rewrite Z.add_0_r.
  rewrite fexp_small by lia. rewrite digits2_size.
  set (k := 53 - Zpos (Pos.size p)). exists k.
  replace (Zpos (Pos.size p) - 53) with (- k) by lia.
  destruct (decide (k = 0)) as [E|E].
  - exists p. rewrite E. split_and!; [lia..|]. simpl. apply round_aux_exact; [|lia].
    rewrite digits2_size. lia.
  - destruct k as [|kp|kp] eqn:Ek; [done| |lia]. exists (Pos.iter xO p kp).
    split_and!; [lia..|apply iter_xO|]. unfold shl_align. simpl. apply round_aux_exact; [|lia].
    rewrite digits_iter_xO, digits2_size. lia.
Qed.

(** Converting an integer to a double and back is the identity up to 2^53. *)
Lemma num_of_flt_of_Z z : Z.abs z ≤ max_exact → num_of_flt (flt_of_Z z) = VNum z.
Proof.
  intros Hz. unfold flt_of_Z, binary_normalize.
  assert (∀ s p, Zpos p ≤ 2 ^ 53 →
            num_of_flt (binary_round 53 1024 s p 0) = VNum (if s then Zneg p else Zpos p)) as H.
  { intros s p Hp. destruct (decide (Zpos p = 2 ^ 53)) as [E|].
    { injection E as ->. by destruct s. }
    destruct (binary_round_exact s p) as (k & m & Hk & Hm & ->); [lia|]. unfold num_of_flt.
    assert (H2 : 0 < 2 ^ k) by (apply Z.pow_pos_nonneg; lia).
    assert (Hs : (if s then Zneg m else Zpos m) = (if s then Zneg p else Zpos p) * 2 ^ k)
      by (destruct s; lia).
    rewrite Hs, Z.opp_involutive.
    assert (Ha : Z.abs (if s then Zneg p else Zpos p) <=? max_exact = true)
      by (apply Z.leb_le; unfold max_exact; destruct s; lia).
    destruct (Z.leb_spec 0 (- k)).
    - replace k with 0 by lia. rewrite Z.mul_1_r, Z.opp_0, Z.mul_1_r, Ha. done.
    - rewrite Z.mod_mul, Z.div_mul, Ha by lia. done. }
  destruct z as [|p|p]; [done|..]; rewrite H; try done; unfold max_exact in Hz; lia.
Qed.

Definition signed_number (neg : bool) (r : string) : spec_float :=
  if bool_decide (r = "Infinity"%string) then S754_infinity neg else default S754_nan (read_decimal neg r).

Lemma signed_pretty neg p :
  Zpos p ≤ max_exact →
  num_of_flt (signed_number neg (pretty (Zpos p))) = VNum (if neg then Zneg p else Zpos p).
Proof.
  intros Hp. unfold signed_number. rewrite bool_decide_eq_false_2.
  - unfold read_decimal. destruct (read_digits_pretty p) as [n ->]. simpl.
    change (10 ^ (- Z.of_nat 0)) with 1. rewrite Z.mul_1_r.
    replace ((if neg then -1 else 1) * Zpos p) with (if neg then Zneg p else Zpos p) by (by destruct neg).
    destruct neg; [apply (num_of_flt_of_Z (Zneg p))|apply (num_of_flt_of_Z (Zpos p))]; done.
  - intros E. pose proof (pretty_pos_chars p) as Hc. rewrite E in Hc. destruct Hc as [Hc _]. by digit_case Hc.
Qed.

(** [Number(String(z)) === z] *)
Lemma number_of_pretty (z : Z) : Z.abs z ≤ max_exact → to_number (VStr (pretty z)) = VNum z.
Proof.
  intros Hz. unfold to_number, flt_of_string. rewrite trim_chars by apply pretty_chars.
  destruct z as [|p|p]; [done| |].
  - pose proof (signed_pretty false p Hz) as Hd. pose proof (pretty_pos_chars p) as Hc.
    pose proof (pretty_pos_ne p) as Hne. revert Hd Hc Hne. generalize (pretty (Zpos p)) as s.
    intros s Hd Hc Hne. digits_dispatch s Hc Hd.
  - exact (signed_pretty true p Hz).
Qed.
