(* ===== verification/Effects.v ===== *)
(** * Effects: the asynchronous code as programs over external commands

    An [async] function is a program: a tree of commands sent to the outside
    (the database driver, the message broker, Redis, the job queues), each
    with the continuation for its answer, which is a value or a thrown error.
    Variables at the top level of a JavaScript module are commands as well,
    answered by the store of the [world].  [run] executes a program against an
    engine; [exec] is the relation that lets the outside answer anything. *)
From S2P Require Export Json.
Open Scope string_scope.
Open Scope Z_scope.
Open Scope list_scope.

(** ** Commands *)

(** A call on a knex query builder, with the arguments the code passes. *)
Inductive kcall :=
  | KTransacting (trx : Z)
  | KSelect (columns : val)
  | KDistinct (columns : list string)
  | KWhere (o : list (string * val))
  | KOrWhere (o : val)
  | KWhereCmp (column op : string) (v : val)
  | KOrWhereCmp (column op : string) (v : val)
  | KWhereNotNull (column : string)
  | KWhereIn (column values : val)
  | KOrWhereIn (column values : val)
  | KWhereGroup (cs : list kcall)       (* query.where(function () { ... }) *)
  | KOrWhereGroup (cs : list kcall)
  | KWhereJsonSupersetOf (column v : val)
  | KOrderBy (column : string) (direction : val)
  | KSum (expr : string)
  | KCount (expr : string)
  | KCountDistinct (expr : string)
  | KLimit (n : val)
  | KOffset (n : val)
  | KInsert (row : list (string * val))
  | KOnConflictMerge (primaryKey : val)
  | KDel
  | KUpdate (o : list (string * val))
  | KIncrement (o : list (string * val))
  | KDecrement (o : list (string * val)).

(** A call on the table builder of [createTable]. *)
Inductive tcall :=
  | TCharset (charset : string)
  | TColumn (type name : string) (notNullable : bool) (defaultTo : option val) (index : bool)
  | TPrimary (primaryKey : val).

Inductive cmd :=
  | CVarGet (x : string)                       (* a variable of a module *)
  | CVarSet (x : string) (v : val)
  | CConnect (connString : string)
  | CHasTable (table : string)
  | CCreateTable (table : string) (calls : list tcall)
  | CTrxBegin
  | CTrxCommit (trx : Z)
  | CTrxRollback (trx : Z)
  | CToSql (table : string) (calls : list kcall)  (* query.toSQL(), may throw *)
  | CKnex (table : string) (calls : list kcall)   (* await a query *)
  | CRaw (trx : Z) (statement : string)
  | CRpc (service method : string) (params : val)
  | CCacheGet (cache key : string)
  | CCacheSet (cache key : string) (v : val)
  | CCacheDelete (cache key : string)
  | CSetAdd (key : string) (v : val)           (* redis.sadd *)
  | CSetPop (key : string) (n : Z)             (* redis.spop *)
  | CQueueAdd (queue : string) (data : val)
  | CQueueCounts (queue : string)
  | CSignal (name : string) (payload : val)
  | CNow.

(** ** Programs *)

Inductive prog (A : Type) :=
  | Ret (a : A)
  | Throw (e : exn)
  | Call (c : cmd) (k : result val → prog A).
Arguments Ret {A} a.
Arguments Throw {A} e.
Arguments Call {A} c k.

Fixpoint pbind {A B} (p : prog A) (f : A → prog B) : prog B :=
  match p with
  | Ret a => f a
  | Throw e => Throw e
  | Call c k => Call c (λ r, pbind (k r) f)
  end.

#[export] Instance prog_mret : MRet prog := λ A a, Ret a.
#[export] Instance prog_mbind : MBind prog := λ A B f p, pbind p f.

(** [try { p } catch (e) { h(e) }] *)
Fixpoint catch {A} (p : prog A) (h : exn → prog A) : prog A :=
  match p with
  | Ret a => Ret a
  | Throw e => h e
  | Call c k => Call c (λ r, catch (k r) h)
  end.

Definition lift {A} (r : result A) : prog A :=
  match r with Ok a => Ret a | Err e => Throw e end.

Definition call (c : cmd) : prog val := Call c lift.

(** A call whose promise is not awaited: its failure does not reach the caller. *)
Definition detach {A} (p : prog A) : prog unit := catch (_ ← p; Ret tt) (λ _, Ret tt).

Definition guard_throw (b : bool) (e : exn) : prog unit := if b then Throw e else Ret tt.

(** [BluebirdPromise.map(l, f)], in the schedule that finishes each item
    before it starts the next (the only one with [concurrency: 1]). *)
Fixpoint pmap {A B} (f : A → prog B) (l : list A) : prog (list B) :=
  match l with
  | [] => Ret []
  | x :: r => y ← f x; ys ← pmap f r; Ret (y :: ys)
  end.

Fixpoint piter {A} (f : A → prog unit) (l : list A) : prog unit :=
  match l with
  | [] => Ret tt
  | x :: r => _ ← f x; piter f r
  end.

(** A left fold with effects: a loop over [l] with a local variable. *)
Fixpoint pfold {A S} (f : S → A → prog S) (s : S) (l : list A) : prog S :=
  match l with
  | [] => Ret s
  | x :: r => s' ← f s x; pfold f s' r
  end.

(** Property access [o.k], which throws on [undefined] and [null]. *)
Notation "o @. k" := (lift (prop o k)) (at level 19, no associativity) : js_scope.
Open Scope js_scope.

(** Object literals. *)
Definition obj (l : list (string * val)) : val := VObj (ospread [] l).
Definition strs (l : list string) : val := VArr (map VStr l).

(** [{ ...a, ...b }] on values. *)
Definition spread (a b : val) : val := VObj (ospread (ospread [] (props a)) (props b)).

(** Iterating a non-array throws. *)
Definition iter_list (v : val) : prog (list val) :=
  match v with
  | VArr l => Ret l
  | _ => Throw (type_error "is not iterable")
  end.

(** ** Execution against an engine *)

(** The engine answers every command but those on module variables. *)
Class Engine (E : Type) := handle : cmd → E → E * result val.

Record world (E : Type) := mkWorld { w_vars : gmap string val; w_ext : E }.
Arguments mkWorld {E} _ _.
Arguments w_vars {E} _.
Arguments w_ext {E} _.

Section run.
Context {E : Type} {HE : Engine E}.

Definition step (c : cmd) (w : world E) : world E * result val :=
  match c with
  | CVarGet x => (w, Ok (default VUndef (w_vars w !! x)))
  | CVarSet x v => (mkWorld (<[x := v]> (w_vars w)) (w_ext w), Ok v)
  | _ => let '(e', r) := handle c (w_ext w) in (mkWorld (w_vars w) e', r)
  end.

Fixpoint run {A} (p : prog A) (w : world E) : world E * result A :=
  match p with
  | Ret a => (w, Ok a)
  | Throw e => (w, Err e)
  | Call c k => let '(w', r) := step c w in run (k r) w'
  end.

Lemma run_bind {A B} (p : prog A) (f : A → prog B) w :
  run (p ≫= f) w = match run p w with
                   | (w', Ok a) => run (f a) w'
                   | (w', Err e) => (w', Err e)
                   end.
Proof.
  unfold mbind, prog_mbind. revert w.
  induction p as [a|e|c k IH]; intros w; simpl; [done..|].
  destruct (step c w). apply IH.
Qed.

Lemma run_catch {A} (p : prog A) h w :
  run (catch p h) w = match run p w with
                      | (w', Ok a) => (w', Ok a)
                      | (w', Err e) => run (h e) w'
                      end.
Proof.
  revert w. induction p as [a|e|c k IH]; intros w; simpl; [done..|].
  destruct (step c w). apply IH.
Qed.

Lemma run_lift {A} (r : result A) w : run (lift r) w = (w, r).
Proof. by destruct r. Qed.

Lemma run_call c w : run (call c) w = step c w.
Proof. simpl. destruct (step c w). apply run_lift. Qed.

Lemma run_bind_Ok {A B} (p : prog A) (f : A → prog B) w w' b :
  run (p ≫= f) w = (w', Ok b) →
  ∃ w1 a, run p w = (w1, Ok a) ∧ run (f a) w1 = (w', Ok b).
Proof. rewrite run_bind. destruct (run p w) as [w1 [a|e]]; naive_solver. Qed.

Lemma run_lift_ok {A} (r : result A) w w' a : run (lift r) w = (w', Ok a) → w' = w ∧ r = Ok a.
Proof. rewrite run_lift. by intros [= -> ->]. Qed.

Lemma run_ret_ok {A} (a b : A) w w' : run (Ret a) w = (w', Ok b) → w' = w ∧ b = a.
Proof. by intros [= -> ->]. Qed.

Lemma run_detach {A} (p : prog A) w : ∃ w', run (detach p) w = (w', Ok tt) ∧ w' = (run p w).1.
Proof.
  unfold detach. rewrite run_catch, run_bind.
  destruct (run p w) as [w1 [a|e]]; simpl; by eauto.
Qed.
End run.

(** Splits the successful runs among the hypotheses into the runs of their parts. *)
Ltac inv_run1 :=
  match goal with
  | H : run (mbind _ _) _ = (_, Ok _) |- _ =>
      let w := fresh "w" in let a := fresh "a" in let H1 := fresh "Hr" in
      apply run_bind_Ok in H as (w & a & H1 & H); cbv beta in H
  | H : run (lift _) _ = (_, Ok _) |- _ => apply run_lift_ok in H as [-> H]
  | H : run (Ret _) _ = (_, Ok _) |- _ => apply run_ret_ok in H as [-> ->]
  | H : run (Throw _) _ = (_, Ok _) |- _ => discriminate H
  | H : run (if ?b then _ else _) _ = (_, Ok _) |- _ => destruct b eqn:?
  | H : run (match ?x with _ => _ end) _ = (_, Ok _) |- _ => destruct x eqn:?
  | H : run (let _ := _ in _) _ = _ |- _ => cbv zeta in H
  end.
Ltac inv_run := repeat inv_run1.

(** ** Traces: the outside answers anything *)

Inductive exec {A} : prog A → list (cmd * result val) → result A → Prop :=
  | exec_ret a : exec (Ret a) [] (Ok a)
  | exec_throw e : exec (Throw e) [] (Err e)
  | exec_call c k r tr out : exec (k r) tr out → exec (Call c k) ((c, r) :: tr) out.
#[export] Hint Constructors exec : js.

Lemma exec_ret_inv {A} (a : A) tr out : exec (Ret a) tr out → tr = [] ∧ out = Ok a.
Proof. inversion 1. done. Qed.
Lemma exec_throw_inv {A} e tr (out : result A) : exec (Throw e) tr out → tr = [] ∧ out = Err e.
Proof. inversion 1. done. Qed.

Lemma exec_lift {A} (r : result A) tr out : exec (lift r) tr out → tr = [] ∧ out = r.
Proof. destruct r; [apply exec_ret_inv|apply exec_throw_inv]. Qed.

Lemma exec_call_inv c tr out :
  exec (call c) tr out → tr = [(c, out)].
Proof.
  inversion 1 as [| |? ? r tr' ? Hx]; simplify_eq.
  apply exec_lift in Hx as [-> ->]. done.
Qed.

(** A run of a sequence is a run of its first part followed, when that part
    returns, by a run of the rest. *)
Lemma exec_bind {A B} (p : prog A) (f : A → prog B) tr out :
  exec (p ≫= f) tr out ↔
  (∃ tr1 tr2 a, tr = tr1 ++ tr2 ∧ exec p tr1 (Ok a) ∧ exec (f a) tr2 out) ∨
  (∃ e, exec p tr (Err e) ∧ out = Err e).
Proof.
  unfold mbind, prog_mbind. revert tr. induction p as [a|e|c k IH]; intros tr; simpl.
  - split.
    + intros H. left. exists [], tr, a. by eauto with js.
    + intros [(tr1 & tr2 & a' & -> & [-> [= ->]]%exec_ret_inv & Hf)|(e & []%exec_ret_inv & _)]; done.
  - split.
    + intros [-> ->]%exec_throw_inv. right. exists e. by eauto with js.
    + intros [(tr1 & tr2 & a' & -> & []%exec_throw_inv & Hf)|(e' & [-> [= ->]]%exec_throw_inv & ->)];
        [done|constructor].
  - split.
    + inversion 1 as [| |? ? r tr' ? Hx]; simplify_eq.
      apply IH in Hx as [(tr1 & tr2 & a' & -> & H1 & H2)|(e & H1 & ->)].
      * left. exists ((c, r) :: tr1), tr2, a'. by eauto with js.
      * right. exists e. by eauto with js.
    + intros [(tr1 & tr2 & a' & -> & H1 & H2)|(e & H1 & ->)].
      * inversion H1 as [| |? ? r tr' ? Hx]; simplify_eq. simpl. constructor.
        apply IH. left. by eauto 10.
      * inversion H1 as [| |? ? r tr' ? Hx]; simplify_eq. constructor.
        apply IH. right. by eauto.
Qed.

Lemma exec_catch {A} (p : prog A) h tr out :
  exec (catch p h) tr out ↔
  (∃ a, exec p tr (Ok a) ∧ out = Ok a) ∨
  (∃ tr1 tr2 e, tr = tr1 ++ tr2 ∧ exec p tr1 (Err e) ∧ exec (h e) tr2 out).
Proof.
  revert tr. induction p as [a|e|c k IH]; intros tr; simpl.
  - split.
    + intros [-> ->]%exec_ret_inv. left. by eauto with js.
    + intros [(a' & [-> [= ->]]%exec_ret_inv & ->)|(tr1 & tr2 & e & -> & []%exec_ret_inv & _)];
        [constructor|done].
  - split.
    + intros H. right. exists [], tr, e. by eauto with js.
    + intros [(a & []%exec_throw_inv & _)|(tr1 & tr2 & e' & -> & [-> [= ->]]%exec_throw_inv & Hf)]; done.
  - split.
    + inversion 1 as [| |? ? r tr' ? Hx]; simplify_eq.
      apply IH in Hx as [(a & H1 & ->)|(tr1 & tr2 & e & -> & H1 & H2)].
      * left. by eauto with js.
      * right. exists ((c, r) :: tr1), tr2, e. by eauto with js.
    + intros [(a & H1 & ->)|(tr1 & tr2 & e & -> & H1 & H2)].
      * inversion H1 as [| |? ? r tr' ? Hx]; simplify_eq. constructor. apply IH. left. by eauto.
      * inversion H1 as [| |? ? r tr' ? Hx]; simplify_eq. simpl. constructor.
        apply IH. right. by eauto 10.
Qed.

Lemma exec_bind_Ok {A B} (p : prog A) (f : A → prog B) tr b :
  exec (p ≫= f) tr (Ok b) →
  ∃ tr1 tr2 a, tr = tr1 ++ tr2 ∧ exec p tr1 (Ok a) ∧ exec (f a) tr2 (Ok b).
Proof. intros [?|(e & _ & ?)]%exec_bind; done. Qed.

(** Splits the successful executions among the hypotheses into those of their parts. *)
Ltac inv_exec1 :=
  match goal with
  | H : exec (mbind _ _) _ (Ok _) |- _ =>
      let tr1 := fresh "tr" in let tr2 := fresh "tr" in let a := fresh "a" in
      let Ht := fresh "Ht" in let H1 := fresh "Hx" in
      apply exec_bind_Ok in H as (tr1 & tr2 & a & Ht & H1 & H); cbv beta in H; subst
  | H : exec (lift _) _ (Ok _) |- _ => let Ht := fresh "Ht" in apply exec_lift in H as [Ht H]; symmetry in H; try injection H as H; subst
  | H : exec (call _) _ (Ok _) |- _ => apply exec_call_inv in H; subst
  | H : exec (Ret _) _ (Ok _) |- _ =>
      let Ht := fresh "Ht" in apply exec_ret_inv in H as [Ht H]; try injection H as H; subst
  | H : exec (Throw _) _ (Ok _) |- _ => apply exec_throw_inv in H as [_ H]; discriminate H
  end.
Ltac inv_exec := repeat inv_exec1.

(** The first part of a sequence that succeeded, and what follows it. *)
Tactic Notation "bind" hyp(H) "as" simple_intropattern(x) simple_intropattern(p) :=
  apply exec_bind_Ok in H as (? & ? & x & -> & p & H).

Definition cmds (tr : list (cmd * result val)) : list cmd := map fst tr.

(** The trace of a run. *)
Section trace_of.
Context {E : Type} {HE : Engine E}.

Fixpoint trace_of {A} (p : prog A) (w : world E) : list (cmd * result val) :=
  match p with
  | Ret _ | Throw _ => []
  | Call c k => let '(w', r) := step c w in (c, r) :: trace_of (k r) w'
  end.

Lemma exec_trace_of {A} (p : prog A) (w : world E) : exec p (trace_of p w) (run p w).2.
Proof.
  revert w. induction p as [a|e|c k IH]; intros w; simpl; [constructor..|].
  destruct (step c w) as [w' r]. constructor. apply IH.
Qed.
End trace_of.
