(* ===== verification/SqlSpec.v ===== *)
(** * The contract of knex and MySQL

    The code reaches the database through knex.  What it relies on is stated
    here as a specification: a database of tables of rows, transactions that
    buffer their writes until the commit (InnoDB: a reader outside the
    transaction sees the committed rows, a locked row is written by one
    transaction at a time), and the meaning of the builder calls the code
    makes.  [SqlEngine] is the interface: an engine whose successful answers
    follow the specification and whose failures leave the rows as they were.
    [MemDb] is an instance, used by the witnesses. *)
From S2P Require Export Mysql.
Open Scope string_scope.
Open Scope Z_scope.
Open Scope list_scope.

Definition row := list (string * val).

(** The collation of string columns, a parameter: equal keys are equal strings. *)
Class Collation := collate : string → string.

Record sqldb := mkSql {
  sq_tables : gmap string (list tcall);            (* created tables *)
  sq_rows : gmap string (list row);                (* committed rows *)
  sq_pending : gmap Z (list (string * list kcall)) (* open transactions: writes so far *)
}.

Definition rows_of (db : gmap string (list row)) (t : string) : list row := default [] (db !! t).

Section semantics.
Context {CO : Collation}.

(** ** Values in comparisons *)

Definition sql_num (v : val) : val :=
  match v with
  | VBool b => VNum (if b then 1 else 0)
  | VStr s => to_number (VStr s)
  | _ => v
  end.

Definition sql_compare (a b : val) : option comparison :=
  match a, b with
  | VNull, _ | VUndef, _ | _, VNull | _, VUndef => None
  | VStr x, VStr y => Some (String.compare (collate x) (collate y))
  | _, _ => num_compare (sql_num a) (sql_num b)
  end.

Definition sql_eq (a b : val) : bool :=
  match a, b with
  | VStr x, VStr y => bool_decide (collate x = collate y)
  | _, _ => bool_decide (sql_compare a b = Some Eq)
  end.

Definition column (r : row) (c : string) : val := default VNull (oget r c).

Definition is_null (v : val) : bool := match v with VNull | VUndef => true | _ => false end.

(** [column like pattern], with [%] and [_]. *)
Fixpoint like (fuel : nat) (p s : string) : bool :=
  match fuel with
  | O => false
  | S k =>
      match p with
      | EmptyString => bool_decide (s = "")
      | String "%" p' =>
          like k p' s || match s with String _ s' => like k p s' | EmptyString => false end
      | String "_" p' => match s with String _ s' => like k p' s' | EmptyString => false end
      | String c p' => match s with String d s' => bool_decide (c = d) && like k p' s' | EmptyString => false end
      end
  end.

Definition sql_cmp_op (op : string) (a b : val) : bool :=
  if bool_decide (op = "like") then
    match a, b with
    | VStr x, VStr y => like (S (String.length x + String.length y)) (collate y) (collate x)
    | _, _ => false
    end
  else
    match sql_compare a b with
    | None => false
    | Some c =>
        if bool_decide (op = ">=") then bool_decide (c ≠ Lt)
        else if bool_decide (op = "<=") then bool_decide (c ≠ Gt)
        else if bool_decide (op = ">") then bool_decide (c = Gt)
        else if bool_decide (op = "<") then bool_decide (c = Lt)
        else false
    end.

(** ** The where clauses of a builder *)

Inductive conn := And | Or.

(** Clauses are joined from left to right, [and] binding more strongly. *)
Fixpoint join_conds (cur : bool) (l : list (conn * bool)) : bool :=
  match l with
  | [] => cur
  | (And, b) :: r => join_conds (cur && b) r
  | (Or, b) :: r => cur || join_conds b r
  end.

Definition conds (l : list (conn * bool)) : bool :=
  match l with [] => true | (_, b) :: r => join_conds b r end.

Definition where_obj (r : row) (o : list (string * val)) : list (conn * bool) :=
  map (λ kv, (And, match kv.2 with
                   | VNull => is_null (column r kv.1)
                   | v => sql_eq (column r kv.1) v
                   end)) o.

Definition in_list (r : row) (c values : val) : bool :=
  match c with
  | VArr cols =>
      existsb (λ v, forallb (λ cv, sql_eq (column r (to_string cv.1)) cv.2)
                            (zip cols (arr_of v))) (arr_of values)
  | _ => existsb (λ v, sql_eq (column r (to_string c)) v) (arr_of values)
  end.

Definition json_superset (v target : val) : bool :=
  match v with
  | VStr s => match json_parse s with
              | Ok (VArr l) => forallb (λ x, existsb (strict_eq x) l) (arr_of target)
              | _ => false
              end
  | _ => false
  end.

Fixpoint kcond (r : row) (k : kcall) : list (conn * bool) :=
  match k with
  | KWhere o => where_obj r o
  | KOrWhere o => match where_obj r (props o) with
                  | [] => []
                  | l => [(Or, conds l)]
                  end
  | KWhereCmp c op v => [(And, sql_cmp_op op (column r c) v)]
  | KOrWhereCmp c op v => [(Or, sql_cmp_op op (column r c) v)]
  | KWhereNotNull c => [(And, negb (is_null (column r c)))]
  | KWhereIn c vs => [(And, in_list r c vs)]
  | KOrWhereIn c vs => [(Or, in_list r c vs)]
  | KWhereJsonSupersetOf c v => [(And, json_superset (column r (to_string c)) v)]
  | KWhereGroup cs =>
      match concat (map (kcond r) cs) with [] => [] | l => [(And, conds l)] end
  | KOrWhereGroup cs =>
      match concat (map (kcond r) cs) with [] => [] | l => [(Or, conds l)] end
  | _ => []
  end.

Definition matches (cs : list kcall) (r : row) : bool := conds (concat (map (kcond r) cs)).

(** knex refuses an [undefined] binding. *)
Fixpoint defined_call (k : kcall) : bool :=
  let def v := match v with VUndef => false | _ => true end in
  match k with
  | KWhere o => forallb (λ kv, def kv.2) o
  | KOrWhere v => forallb (λ kv, def kv.2) (props v)
  | KWhereCmp _ _ v | KOrWhereCmp _ _ v => def v
  | KWhereIn _ v | KOrWhereIn _ v => def v && forallb def (arr_of v)
  | KWhereGroup cs | KOrWhereGroup cs => forallb defined_call cs
  | _ => true
  end.

(** ** Writes *)

Definition is_write (cs : list kcall) : bool :=
  existsb (λ k, match k with KInsert _ | KDel | KUpdate _ | KIncrement _ | KDecrement _ => true
                        | _ => false end) cs.

Definition pk_columns (pk : val) : list string :=
  match pk with VArr l => map to_string l | _ => [to_string pk] end.

Definition same_pk (pk : list string) (a b : row) : bool :=
  forallb (λ c, sql_eq (column a c) (column b c)) pk.

(** The row inserted when no row has its key: the defaults of the table, then the given columns. *)
Definition defaults (tcs : list tcall) : row :=
  omap (λ t, match t with TColumn _ c _ (Some d) _ => Some (c, d) | _ => None end) tcs.

Definition complete (tcs : list tcall) (r : row) : row := ospread (defaults tcs) r.

Definition required (pk : list string) (tcs : list tcall) : list string :=
  pk ++ omap (λ t, match t with TColumn _ c true _ _ => Some c | _ => None end) tcs.

Definition not_null_ok (cs : list string) (r : row) : bool :=
  forallb (λ c, negb (is_null (column r c))) cs.

Definition insert_row (tcs : list tcall) (pk : list string) (r : row) (rows : list row) : list row :=
  if existsb (same_pk pk r) rows
  then map (λ r0, if same_pk pk r r0 then ospread r0 r else r0) rows
  else rows ++ [complete tcs r].

Definition add_to (sgn : Z) (o : list (string * val)) (r : row) : row :=
  fold_left (λ r kv,
    match column r kv.1, to_bigint kv.2 with
    | VNull, _ | VUndef, _ => r
    | c, Ok d => match to_bigint c with
                 | Ok z => oset r kv.1 (match c with VNum _ => num_of_Z (z + sgn * d) | _ => VBig (z + sgn * d) end)
                 | Err _ => r
                 end
    | _, Err _ => r
    end) o r.

Definition write (tcs : list tcall) (cs : list kcall) (rows : list row) : list row :=
  let upd f := map (λ r, if matches cs r then f r else r) rows in
  match find_js (λ k, is_write [k]) cs with
  | Some (KInsert r) =>
      match find_js (λ k, match k with KOnConflictMerge _ => true | _ => false end) cs with
      | Some (KOnConflictMerge pk) => insert_row tcs (pk_columns pk) r rows
      | _ => rows ++ [complete tcs r]
      end
  | Some (KDel) => List.filter (λ r, negb (matches cs r)) rows
  | Some (KUpdate o) => upd (λ r, ospread r o)
  | Some (KIncrement o) => upd (add_to 1 o)
  | Some (KDecrement o) => upd (add_to (-1) o)
  | _ => rows
  end.

(** The constraint a successful insert has met: no null in a required column. *)
Definition write_ok (tcs : list tcall) (cs : list kcall) (rows : list row) : bool :=
  match find_js (λ k, match k with KInsert _ => true | _ => false end) cs with
  | Some (KInsert r) =>
      match find_js (λ k, match k with KOnConflictMerge _ => true | _ => false end) cs with
      | Some (KOnConflictMerge pk) =>
          not_null_ok (required (pk_columns pk) tcs) (complete tcs r)
      | _ => true
      end
  | _ => true
  end.

Definition apply_write (tables : gmap string (list tcall)) (db : gmap string (list row))
    (w : string * list kcall) : gmap string (list row) :=
  <[w.1 := write (default [] (tables !! w.1)) w.2 (rows_of db w.1)]> db.

(** What a statement of transaction [t] sees: the committed rows and its own writes. *)
Definition view (s : sqldb) (t : Z) : gmap string (list row) :=
  fold_left (apply_write (sq_tables s)) (default [] (sq_pending s !! t)) (sq_rows s).

(** ** Reads *)

Definition col_type_of (tcs : list tcall) (c : string) : string :=
  match find_js (λ t, match t with TColumn _ n _ _ _ => bool_decide (n = c) | _ => false end) tcs with
  | Some (TColumn ty _ _ _ _) => ty
  | _ => "string"
  end.

(** The JavaScript value mysql2 returns for a stored value. *)
Definition read_value (ty : string) (v : val) : val :=
  match v with
  | VBig z => num_of_Z z
  | VBool b => VNum (if b then 1 else 0)
  | VStr s => if bool_decide (ty = "json") then
                match json_parse s with Ok x => x | Err _ => v end
              else v
  | _ => v
  end.

Definition project (tcs : list tcall) (cols : list string) (r : row) : val :=
  obj (map (λ c, (c, read_value (col_type_of tcs c) (column r c))) cols).

Fixpoint insert_sorted {A} (le : A → A → bool) (x : A) (l : list A) : list A :=
  match l with
  | [] => [x]
  | y :: r => if le x y then x :: y :: r else y :: insert_sorted le x r
  end.
Definition sort_by {A} (le : A → A → bool) (l : list A) : list A := foldr (insert_sorted le) [] l.

Definition order_le (keys : list (string * bool)) (a b : row) : bool :=
  (fix go keys :=
     match keys with
     | [] => true
     | (c, desc) :: r =>
         match sql_compare (column a c) (column b c) with
         | Some Lt => negb desc
         | Some Gt => desc
         | _ => go r
         end
     end) keys.

Definition order_keys (cs : list kcall) : list (string * bool) :=
  omap (λ k, match k with
             | KOrderBy c d => Some (c, bool_decide (d = VStr "desc"))
             | _ => None
             end) cs.

Definition select_cols (cs : list kcall) : list string :=
  concat (map (λ k, match k with
                    | KSelect (VArr l) => map to_string l
                    | KSelect v => [to_string v]
                    | KDistinct l => l
                    | _ => []
                    end) cs).

Definition limit_of (cs : list kcall) : option Z :=
  match find_js (λ k, match k with KLimit _ => true | _ => false end) cs with
  | Some (KLimit (VNum n)) => Some n
  | _ => None
  end.
Definition offset_of (cs : list kcall) : Z :=
  match find_js (λ k, match k with KOffset _ => true | _ => false end) cs with
  | Some (KOffset (VNum n)) => n
  | _ => 0
  end.

Definition page (cs : list kcall) {A} (l : list A) : list A :=
  let l := drop (Z.to_nat (offset_of cs)) l in
  match limit_of cs with Some n => take (Z.to_nat n) l | None => l end.

Fixpoint dedup {A} `{EqDecision A} (l : list A) : list A :=
  match l with
  | [] => []
  | x :: r => x :: filter (λ y, y ≠ x) (dedup r)
  end.

Definition sum_column (c : string) (rows : list row) : val :=
  let zs := omap (λ r, match to_bigint (column r c) with Ok z => Some z | Err _ => None end) rows in
  match zs with [] => VNull | _ => VStr (pretty (foldr Z.add 0 zs)) end.

Definition agg_column (expr : string) : string := default "" (split_str " as " expr !! 0%nat).

Definition aggregate (cs : list kcall) (rows : list row) : option val :=
  head (omap (λ k,
    match k with
    | KSum e => Some (obj [("total", sum_column (agg_column e) rows)])
    | KCount e => Some (obj [("count", VNum (Z.of_nat (length (List.filter (λ r, negb (is_null (column r (agg_column e)))) rows))))])
    | KCountDistinct e =>
        Some (obj [("count", VNum (Z.of_nat (length (dedup (List.filter (λ v, negb (is_null v))
                                                         (map (λ r, column r (agg_column e)) rows))))))])
    | _ => None
    end) cs).

Definition is_distinct (cs : list kcall) : bool :=
  existsb (λ k, match k with KDistinct _ => true | _ => false end) cs.

Definition select (tcs : list tcall) (cs : list kcall) (rows : list row) : val :=
  let hit := List.filter (matches cs) rows in
  match aggregate cs hit with
  | Some v => VArr [v]
  | None =>
      let sorted := match order_keys cs with [] => hit | ks => sort_by (order_le ks) hit end in
      let out := map (project tcs (select_cols cs)) sorted in
      VArr (page cs (if is_distinct cs then dedup out else out))
  end.

(** The number of rows a write affects. *)
Definition affected (cs : list kcall) (rows : list row) : val :=
  VNum (Z.of_nat (length (List.filter (matches cs) rows))).

Definition trx_of (cs : list kcall) : option Z :=
  match find_js (λ k, match k with KTransacting _ => true | _ => false end) cs with
  | Some (KTransacting t) => Some t
  | _ => None
  end.

(** ** Commands *)

(** The states and answers the specification allows for a successful command. *)
Definition sql_ok (c : cmd) (s s' : sqldb) (v : val) : Prop :=
  match c with
  | CHasTable t => s' = s ∧ v = VBool (bool_decide (is_Some (sq_tables s !! t)))
  | CCreateTable t tcs =>
      sq_tables s !! t = None ∧
      s' = mkSql (<[t := tcs]> (sq_tables s)) (sq_rows s) (sq_pending s)
  | CTrxBegin =>
      ∃ t, sq_pending s !! t = None ∧ v = VNum t ∧
           s' = mkSql (sq_tables s) (sq_rows s) (<[t := []]> (sq_pending s))
  | CTrxCommit t =>
      s' = mkSql (sq_tables s) (view s t) (delete t (sq_pending s))
  | CTrxRollback t =>
      s' = mkSql (sq_tables s) (sq_rows s) (delete t (sq_pending s))
  | CKnex tbl cs =>
      ∃ t ws, trx_of cs = Some t ∧ sq_pending s !! t = Some ws ∧ forallb defined_call cs = true ∧
      let rows := rows_of (view s t) tbl in
      let tcs := default [] (sq_tables s !! tbl) in
      if is_write cs then
        write_ok tcs cs rows = true ∧
        s' = mkSql (sq_tables s) (sq_rows s) (<[t := ws ++ [(tbl, cs)]]> (sq_pending s)) ∧
        (existsb (λ k, match k with KInsert _ => true | _ => false end) cs = false →
           v = affected cs rows)
      else s' = s ∧ v = select tcs cs rows
  | _ => s' = s
  end.
End semantics.

(** A failed command commits nothing; the server may have rolled back what the
    open transactions had written (a deadlock). *)
Definition sql_err (s s' : sqldb) : Prop :=
  sq_tables s' = sq_tables s ∧ sq_rows s' = sq_rows s ∧
  ∀ t, sq_pending s' !! t = sq_pending s !! t ∨
       (is_Some (sq_pending s !! t) ∧ sq_pending s' !! t = Some []).

(** ** The interface of an engine *)

Class SqlEngine (E : Type) `{HE : Engine E} `{CO : Collation} := {
  sql : E → sqldb;
  handle_ok : ∀ c e e' v, handle c e = (e', Ok v) → sql_ok c (sql e) (sql e') v;
  handle_err : ∀ c e e' x, handle c e = (e', Err x) → sql_err (sql e) (sql e');
}.
