(* ===== verification/SqlFacts.v ===== *)
(** * What the table operations do to the database

    Each operation of [Mysql] run against an engine: the effect of a
    successful run inside a transaction is the list of writes it appends to
    the transaction ([eff]); a read opens and closes a transaction of its own
    and leaves the database as it was ([quiet]). *)
From S2P Require Export SqlSpec.
Open Scope string_scope.
Open Scope Z_scope.
Open Scope list_scope.

(** Nothing is written: tables may have been created. *)
Definition quiet (s s' : sqldb) : Prop :=
  sq_tables s ⊆ sq_tables s' ∧ sq_rows s' = sq_rows s ∧ sq_pending s' = sq_pending s.

(** The writes [W] are appended to the open transaction [t]. *)
Definition eff (t : Z) (W : list (string * list kcall)) (s s' : sqldb) : Prop :=
  sq_tables s ⊆ sq_tables s' ∧ sq_rows s' = sq_rows s ∧
  ∃ ws, sq_pending s !! t = Some ws ∧ sq_pending s' = <[t := ws ++ W]> (sq_pending s).

#[export] Instance quiet_preorder : PreOrder quiet.
Proof.
  split.
  - intros s. by split_and!.
  - intros s1 s2 s3 (?&?&?) (?&?&?). split_and!; [by etrans|congruence..].
Qed.

Lemma eff_quiet t W s1 s2 s3 : quiet s1 s2 → eff t W s2 s3 → eff t W s1 s3.
Proof.
  intros (?&?&E) (?&?&ws&Hp&Hp'). split_and!; [by etrans|congruence|].
  exists ws. rewrite <- E. done.
Qed.

Lemma eff_app t W1 W2 s1 s2 s3 : eff t W1 s1 s2 → eff t W2 s2 s3 → eff t (W1 ++ W2) s1 s3.
Proof.
  intros (?&?&ws&Hp&Hp') (?&?&ws'&Hq&Hq'). split_and!; [by etrans|congruence|].
  exists ws. split; [done|]. rewrite Hp', lookup_insert_eq in Hq. simplify_eq.
  rewrite Hq', Hp', insert_insert_eq, app_assoc. done.
Qed.

Lemma eff_quiet_r t W s1 s2 s3 : eff t W s1 s2 → quiet s2 s3 → eff t W s1 s3.
Proof.
  intros (?&?&ws&Hp&Hp') (?&?&E). split_and!; [by etrans|congruence|].
  exists ws. by rewrite E.
Qed.

Lemma eff_nil t s s' : is_Some (sq_pending s !! t) → quiet s s' → eff t [] s s'.
Proof.
  intros [ws Hws] (?&?&E). split_and!; [done..|]. exists ws. split; [done|].
  by rewrite app_nil_r, E, insert_id.
Qed.

Lemma eff_open t W s s' : eff t W s s' → is_Some (sq_pending s' !! t).
Proof. intros (_&_&ws&_&->). rewrite lookup_insert_eq. by eexists. Qed.

Lemma eff_open_l t W s s' : eff t W s s' → is_Some (sq_pending s !! t).
Proof. intros (_&_&ws&->&_). by eexists. Qed.

Lemma quiet_open t s s' : quiet s s' → is_Some (sq_pending s !! t) → is_Some (sq_pending s' !! t).
Proof. intros (_&_&->). done. Qed.

Lemma quiet_rows s s' : quiet s s' → sq_rows s' = sq_rows s.
Proof. by intros (_&?&_). Qed.
Lemma eff_rows t W s s' : eff t W s s' → sq_rows s' = sq_rows s.
Proof. by intros (_&?&_). Qed.

#[export] Hint Resolve eff_open eff_open_l quiet_open : js.
#[export] Hint Extern 1 (quiet _ _) => reflexivity : js.

Ltac quiet_trans := repeat (etrans; [eassumption|]).

Section facts.
Context {E : Type} `{SE : SqlEngine E}.
Implicit Types w : world E.

Definition db (w : world E) : sqldb := sql (w_ext w).

(** ** Commands *)

Definition is_sql (c : cmd) : bool :=
  match c with
  | CCreateTable _ _ | CTrxBegin | CTrxCommit _ | CTrxRollback _ | CKnex _ _ => true
  | _ => false
  end.

Lemma step_ok c w w' v :
  step c w = (w', Ok v) →
  match c with CVarGet _ | CVarSet _ _ => db w' = db w | _ => sql_ok c (db w) (db w') v end.
Proof.
  unfold db. destruct c; simpl; try (intros [= <- _]; done);
    match goal with |- context [handle ?c ?e] => destruct (handle c e) as [e' r] eqn:Eh end;
    intros [= <- ->]; exact (handle_ok _ _ _ _ Eh).
Qed.

Lemma call_quiet c w w' v :
  is_sql c = false → run (call c) w = (w', Ok v) → quiet (db w) (db w').
Proof.
  rewrite run_call. intros Hc Hs. apply step_ok in Hs.
  destruct c; try discriminate Hc; simpl in Hs;
    try match type of Hs with _ ∧ _ => destruct Hs as [Hs _] end; by rewrite Hs.
Qed.

Lemma call_knex_ok tbl cs w w' v :
  run (call (CKnex tbl cs)) w = (w', Ok v) → sql_ok (CKnex tbl cs) (db w) (db w') v.
Proof. rewrite run_call. apply (step_ok (CKnex tbl cs)). Qed.

(** ** Obtaining a table *)

Ltac quiet_calls :=
  repeat match goal with
  | H : run (call _) _ = (_, Ok _) |- _ => apply call_quiet in H; [|reflexivity]
  end.

Lemma run_getDbConnection ep w w' v :
  run (Mysql.getDbConnection ep) w = (w', Ok v) → quiet (db w) (db w').
Proof.
  unfold Mysql.getDbConnection, Mysql.createDbConnection. intros H. inv_run; quiet_calls; by quiet_trans.
Qed.

Lemma run_loadSchema n c w w' v : run (Mysql.loadSchema n c) w = (w', Ok v) → quiet (db w) (db w').
Proof.
  unfold Mysql.loadSchema. intros H. inv_run; quiet_calls; [by quiet_trans|].
  rewrite run_call in Hr0. apply step_ok in Hr0. simpl in Hr0. destruct Hr0 as [Hnone ->].
  etrans; [eassumption|]. split_and!; [|done..]. by apply insert_subseteq.
Qed.

Lemma run_createTableIfNotExists n c ep w w' v :
  run (Mysql.createTableIfNotExists n c ep) w = (w', Ok v) → quiet (db w) (db w').
Proof.
  unfold Mysql.createTableIfNotExists. intros H. inv_run; quiet_calls; [by quiet_trans|].
  apply run_getDbConnection in Hr1. apply run_loadSchema in Hr2. by quiet_trans.
Qed.

(** Obtaining a table writes nothing. *)
Lemma run_getTableInstance n c ep w w' tb :
  run (Mysql.getTableInstance n c ep) w = (w', Ok tb) → tb = mkTable n c ∧ quiet (db w) (db w').
Proof.
  unfold Mysql.getTableInstance. intros H. inv_run.
  apply run_getDbConnection in Hr. apply run_createTableIfNotExists in Hr0.
  split; [done|]. by quiet_trans.
Qed.

(** ** Writes inside a transaction *)

Lemma call_write t tbl cs w w' v :
  trx_of cs = Some t → is_write cs = true →
  run (call (CKnex tbl cs)) w = (w', Ok v) → eff t [(tbl, cs)] (db w) (db w').
Proof.
  intros Ht Hw H. apply call_knex_ok in H as (t' & ws & Ht' & Hp & _ & H).
  rewrite Hw in H. destruct H as (_ & -> & _). simplify_eq. split_and!; [done..|]. by exists ws.
Qed.

Definition insert_call (tb : table) (t : Z) (r : row) : string * list kcall :=
  (t_name tb, [KTransacting t; KInsert r; KOnConflictMerge (primaryKey (t_schema tb))]).

Lemma run_inserts tb t rows w w' v :
  is_Some (sq_pending (db w) !! t) →
  run (pmap (λ row, call (CKnex (t_name tb)
              [KTransacting t; KInsert row; KOnConflictMerge (primaryKey (t_schema tb))])) rows) w
    = (w', Ok v) →
  eff t (map (insert_call tb t) rows) (db w) (db w').
Proof.
  revert w w' v. induction rows as [|r rows IH]; intros w w' v Ho H; cbn [pmap map] in *; inv_run.
  - by apply eff_nil.
  - apply (call_write t) in Hr; [|done..]. eapply (eff_app _ [_] (map _ _)); [exact Hr|].
    eapply IH; [|exact Hr0]. by eauto with js.
Qed.

(** [table.upsert(rows, trx)] appends one insert per row, of the row cast by the schema. *)
Lemma run_upsert tb rows t w w' v :
  is_Some (sq_pending (db w) !! t) →
  run (Mysql.upsert tb rows (Some t)) w = (w', Ok v) →
  ∃ rs, Mysql.mapRowsBySchema (arr_of (Mysql.wrap_array rows)) (schema (t_schema tb)) = Ok rs ∧
        eff t (map (insert_call tb t) rs) (db w) (db w').
Proof.
  unfold Mysql.upsert, Mysql.defaultTrx. intros Ho H. inv_run. simplify_eq.
  eexists. split; [eassumption|]. by eapply run_inserts.
Qed.
End facts.
