(* ===== verification/Trace.v ===== *)
(** * Traces: the transaction discipline

    [twp] is a weakest precondition over the commands of a program: every
    command is allowed in the state the earlier commands and their answers
    lead to, whatever the outside answers.  [disc] instantiates it with the
    transactions a piece of code has opened itself: a statement runs in one of
    them or in the transaction it was given, a commit or a rollback ends one
    of its own, and none is left open when the code returns. *)
From S2P Require Export SqlSpec.

Create HintDb pall.
Create HintDb disc discriminated.
Open Scope string_scope.
Open Scope Z_scope.
Open Scope list_scope.

Section twp.
Context {S : Type} (allowed : S → cmd → Prop) (next : S → cmd → result val → S).

Fixpoint twp {A} (p : prog A) (s : S) (Q : S → result A → Prop) : Prop :=
  match p with
  | Ret a => Q s (Ok a)
  | Throw e => Q s (Err e)
  | Call c k => allowed s c ∧ ∀ r, twp (k r) (next s c r) Q
  end.

Lemma twp_mono {A} (p : prog A) s (Q R : S → result A → Prop) :
  twp p s Q → (∀ s r, Q s r → R s r) → twp p s R.
Proof.
  intros Hp HQ. revert s Hp. induction p as [| |c k IH]; intros s; simpl; [auto..|].
  intros [Ha Hk]. split; [done|]. intros r. by apply IH.
Qed.

Lemma twp_bind {A B} (p : prog A) (f : A → prog B) s Q :
  twp p s (λ s' r, match r with Ok a => twp (f a) s' Q | Err e => Q s' (Err e) end) →
  twp (p ≫= f) s Q.
Proof.
  unfold mbind, prog_mbind. revert s.
  induction p as [| |c k IH]; intros s; simpl; [done..|].
  intros [Ha Hk]. split; [done|]. intros r. by apply IH.
Qed.

Lemma twp_catch {A} (p : prog A) h s Q :
  twp p s (λ s' r, match r with Ok a => Q s' (Ok a) | Err e => twp (h e) s' Q end) →
  twp (catch p h) s Q.
Proof.
  revert s. induction p as [| |c k IH]; intros s; simpl; [done..|].
  intros [Ha Hk]. split; [done|]. intros r. by apply IH.
Qed.

Lemma twp_lift {A} (x : result A) s (Q : S → result A → Prop) : Q s x → twp (lift x) s Q.
Proof. by destruct x. Qed.

Lemma twp_call c s (Q : S → result val → Prop) :
  allowed s c → (∀ r, Q (next s c r) r) → twp (call c) s Q.
Proof. intros Ha HQ. split; [done|]. intros r. by apply twp_lift. Qed.

(** The state after a trace, and the commands allowed along it. *)
Definition after (s : S) (tr : list (cmd * result val)) : S :=
  fold_left (λ s cr, next s cr.1 cr.2) tr s.

Fixpoint allowed_along (s : S) (tr : list (cmd * result val)) : Prop :=
  match tr with
  | [] => True
  | (c, r) :: tr' => allowed s c ∧ allowed_along (next s c r) tr'
  end.

(** [twp] speaks about every trace of the program. *)
Lemma twp_exec {A} (p : prog A) s Q tr out :
  twp p s Q → exec p tr out → allowed_along s tr ∧ Q (after s tr) out.
Proof.
  intros Hp Hx. revert s Hp. induction Hx as [a|e|c k r tr out Hx IH]; intros s; simpl; [done..|].
  intros [Ha Hk]. destruct (IH _ (Hk r)). done.
Qed.
End twp.

(** ** Programs all of whose commands satisfy a predicate *)

Definition pall {A} (P : cmd → Prop) (p : prog A) : Prop :=
  twp (λ _ c, P c) (λ s _ _, s) p tt (λ _ _, True).

Section pall.
Context (P : cmd → Prop).

Lemma pall_ret {A} (a : A) : pall P (Ret a).
Proof. done. Qed.
Lemma pall_throw {A} e : pall P (Throw e : prog A).
Proof. done. Qed.
Lemma pall_lift {A} (r : result A) : pall P (lift r).
Proof. by destruct r. Qed.
Lemma pall_call c : P c → pall P (call c).
Proof. intros H. by apply twp_call. Qed.
Lemma pall_bind {A B} (p : prog A) (f : A → prog B) :
  pall P p → (∀ a, pall P (f a)) → pall P (p ≫= f).
Proof.
  intros Hp Hf. apply twp_bind. eapply twp_mono; [apply Hp|]. intros [] [a|e] _; [apply Hf|done].
Qed.
Lemma pall_catch {A} (p : prog A) h : pall P p → (∀ e, pall P (h e)) → pall P (catch p h).
Proof.
  intros Hp Hf. apply twp_catch. eapply twp_mono; [apply Hp|]. intros [] [a|e] _; [done|apply Hf].
Qed.

Lemma pall_exec {A} (p : prog A) tr out : pall P p → exec p tr out → Forall (λ cr, P cr.1) tr.
Proof.
  intros Hp Hx. destruct (twp_exec _ _ _ _ _ _ _ Hp Hx) as [Ha _].
  clear Hx Hp. induction tr as [|[c r] tr IH]; [constructor|]. destruct Ha. constructor; [done|]. by apply IH.
Qed.
End pall.

#[export] Hint Resolve pall_ret pall_throw pall_lift : pall.
#[export] Hint Extern 2 (pall _ (call _)) => apply pall_call; by auto : pall.
Ltac pall_step :=
  match goal with
  | |- ∀ _, _ => intro
  | |- pall _ (match ?x with _ => _ end) => destruct x
  | |- pall _ (let _ := _ in _) => cbv zeta
  | |- pall _ (mbind _ _) => apply pall_bind
  | |- pall _ (catch _ _) => apply pall_catch
  | |- pall _ _ => solve [eauto 3 with pall]
  end.
Ltac pall := repeat pall_step.

Lemma pall_pmap {A B} P (f : A → prog B) l : (∀ x, pall P (f x)) → pall P (pmap f l).
Proof. intros Hf. induction l; cbn [pmap]; pall. Qed.

Lemma pall_pfold {A S} P (f : S → A → prog S) s l : (∀ s x, pall P (f s x)) → pall P (pfold f s l).
Proof. intros Hf. revert s. induction l; intros s; simpl; [done|]. by apply pall_bind. Qed.

(** ** Transactions *)

Fixpoint remove1 (t : Z) (l : list Z) : list Z :=
  match l with
  | [] => []
  | x :: r => if bool_decide (x = t) then r else x :: remove1 t r
  end.

(** The transactions opened and not yet ended. *)
Definition own_next (own : list Z) (c : cmd) (r : result val) : list Z :=
  match c, r with
  | CTrxBegin, Ok (VNum t) => t :: own
  | CTrxCommit t, Ok _ => remove1 t own
  | CTrxRollback t, _ => remove1 t own
  | _, _ => own
  end.

(** The tables some helpers write in a transaction of their own, apart from
    the one they work for: the public key and the name of an account. *)
Definition own_tables : list string := ["accounts"].

(** [given] is the transaction the caller passed, if any; a write in another
    transaction is to one of those tables. *)
Definition own_allowed (given : option Z) (own : list Z) (c : cmd) : Prop :=
  match c with
  | CKnex tbl cs =>
      ∃ t, trx_of cs = Some t ∧
           ((t ∈ own ∧ (is_write cs = true → tbl ∈ own_tables)) ∨ given = Some t)
  | CRaw t _ | CTrxCommit t | CTrxRollback t => t ∈ own
  | _ => True
  end.

Notation dwp given := (twp (own_allowed given) own_next).

(** The discipline: nothing the code opened is open when it returns; when it
    throws, transactions of its own may be ([leaks]). *)
Definition closes {A} (own : list Z) (own' : list Z) (r : result A) : Prop :=
  match r with Ok _ => own' = own | Err _ => ∃ l, own' = l ++ own end.

Definition disc (given : option Z) {A} (p : prog A) : Prop :=
  ∀ own, dwp given p own (closes own).

(** The weaker discipline of code that swallows an error. *)
Definition leaks {A} (own : list Z) (own' : list Z) (_ : result A) : Prop := ∃ l, own' = l ++ own.
Definition discw (given : option Z) {A} (p : prog A) : Prop :=
  ∀ own, dwp given p own (leaks own).

(** Statements in a transaction given or begun in the trace, where only reads
    and writes to [own_tables] are; only what was begun in it is ended. *)
Definition statements_ok (given : option Z) (tr : list (cmd * result val)) : Prop :=
  (∀ tbl cs r, (CKnex tbl cs, r) ∈ tr →
     ∃ t, trx_of cs = Some t ∧
          (given = Some t ∨
           (CTrxBegin, Ok (VNum t)) ∈ tr ∧ (is_write cs = true → tbl ∈ own_tables))) ∧
  (∀ c t r, (c, r) ∈ tr → c = CTrxCommit t ∨ c = CTrxRollback t → (CTrxBegin, Ok (VNum t)) ∈ tr).

Lemma elem_of_remove1 t x l : x ∈ remove1 t l → x ∈ l.
Proof.
  induction l as [|y l IH]; [done|]. simpl. case_bool_decide; [by right|].
  intros [->|Hin]%elem_of_cons; [by left|right; by apply IH].
Qed.

Lemma own_next_begun own c r t : t ∈ own_next own c r → t ∈ own ∨ (c, r) = (CTrxBegin, Ok (VNum t)).
Proof.
  destruct c; simpl; try (by left); destruct r as [v|e]; try (by left);
    try (by intros ?%elem_of_remove1; left).
  destruct v; try (by left). intros [->|?]%elem_of_cons; [by right|by left].
Qed.

Lemma allowed_statements given own tr :
  allowed_along (own_allowed given) own_next own tr →
  (∀ tbl cs r, (CKnex tbl cs, r) ∈ tr →
     ∃ t, trx_of cs = Some t ∧
          (given = Some t ∨
           (t ∈ own ∨ (CTrxBegin, Ok (VNum t)) ∈ tr) ∧ (is_write cs = true → tbl ∈ own_tables))) ∧
  (∀ c t r, (c, r) ∈ tr → c = CTrxCommit t ∨ c = CTrxRollback t → t ∈ own ∨ (CTrxBegin, Ok (VNum t)) ∈ tr).
Proof.
  revert own. induction tr as [|[c0 r0] tr IH]; intros own; simpl.
  { intros _. split; intros *; by intros ?%elem_of_nil. }
  intros [Ha Hn]. destruct (IH _ Hn) as [H1 H2]. split.
  - intros tbl cs r [[= <- <-]|Hin]%elem_of_cons.
    + destruct Ha as (t & Ht & Ho). exists t. split; [done|]. destruct Ho as [[]|]; auto.
    + destruct (H1 _ _ _ Hin) as (t & Ht & [?|[[Ho|?] ?]]); exists t; (split; [done|]).
      * auto.
      * apply own_next_begun in Ho as [?|[= -> ->]]; [auto|]. right; split; [right; by left|done].
      * right; split; [right; by right|done].
  - intros c t r [[= <- <-]|Hin]%elem_of_cons Hc.
    + left. destruct Hc as [-> | ->]; exact Ha.
    + destruct (H2 _ _ _ Hin Hc) as [Ho|?]; [|right; by right].
      apply own_next_begun in Ho as [?|[= -> ->]]; [by left|]. right. by left.
Qed.

(** The discipline, read on a trace. *)
Lemma discw_statements {A} given (p : prog A) tr out :
  discw given p → exec p tr out → statements_ok given tr.
Proof.
  intros Hp Hx. destruct (twp_exec _ _ _ _ _ _ _ (Hp []) Hx) as [Ha _].
  apply allowed_statements in Ha as [H1 H2]. split.
  - intros tbl cs r Hin. destruct (H1 _ _ _ Hin) as (t & Ht & [?|[[?%elem_of_nil|?] ?]]); eauto; done.
  - intros c t r Hin Hc. destruct (H2 _ _ _ Hin Hc) as [?%elem_of_nil|?]; done.
Qed.

Section disc.
Context (given : option Z).

Lemma disc_discw {A} (p : prog A) : disc given p → discw given p.
Proof.
  intros Hp own. eapply twp_mono; [apply Hp|]. intros own' [a|e]; simpl; [|done].
  intros ->. by exists [].
Qed.

Lemma disc_ret {A} (a : A) : disc given (Ret a).
Proof. done. Qed.
Lemma disc_throw {A} e : disc given (Throw e : prog A).
Proof. intros own. by exists []. Qed.
Lemma disc_lift {A} (r : result A) : disc given (lift r).
Proof. destruct r; [apply disc_ret|apply disc_throw]. Qed.

Lemma disc_bind {A B} (p : prog A) (f : A → prog B) :
  disc given p → (∀ a, disc given (f a)) → disc given (p ≫= f).
Proof.
  intros Hp Hf own. apply twp_bind. eapply twp_mono; [apply Hp|].
  intros own' [a|e]; simpl; [|done]. intros ->. apply Hf.
Qed.

Lemma discw_bind {A B} (p : prog A) (f : A → prog B) :
  discw given p → (∀ a, discw given (f a)) → discw given (p ≫= f).
Proof.
  intros Hp Hf own. apply twp_bind. eapply twp_mono; [apply Hp|].
  intros own' [a|e] [l ->]; simpl; [|by exists l].
  eapply twp_mono; [apply Hf|]. intros ? ? [l' ->]. exists (l' ++ l). by rewrite app_assoc.
Qed.

Lemma discw_catch {A} (p : prog A) h :
  discw given p → (∀ e, discw given (h e)) → discw given (catch p h).
Proof.
  intros Hp Hf own. apply twp_catch. eapply twp_mono; [apply Hp|].
  intros own' [a|e] [l ->]; simpl; [by exists l|].
  eapply twp_mono; [apply Hf|]. intros ? ? [l' ->]. exists (l' ++ l). by rewrite app_assoc.
Qed.

(** Commands that concern no transaction. *)
Definition trx_free (c : cmd) : bool :=
  match c with
  | CTrxBegin | CTrxCommit _ | CTrxRollback _ | CKnex _ _ | CRaw _ _ => false
  | _ => true
  end.

Lemma disc_call c : trx_free c = true → disc given (call c).
Proof.
  intros Hc own. apply twp_call; [by destruct c|]. intros r.
  assert (own_next own c r = own) as -> by (by destruct c). destruct r; [done|by exists []].
Qed.

Lemma disc_pmap {A B} (f : A → prog B) l : (∀ x, disc given (f x)) → disc given (pmap f l).
Proof.
  intros Hf. induction l as [|x l IH]; [apply disc_ret|]. cbn [pmap].
  apply disc_bind; [done|]. intros y. apply disc_bind; [done|]. intros. apply disc_ret.
Qed.

Lemma disc_piter {A} (f : A → prog unit) l : (∀ x, disc given (f x)) → disc given (piter f l).
Proof.
  intros Hf. induction l as [|x l IH]; [apply disc_ret|]. cbn [piter]. by apply disc_bind.
Qed.

Lemma disc_pfold {A S} (f : S → A → prog S) s l :
  (∀ s x, disc given (f s x)) → disc given (pfold f s l).
Proof.
  intros Hf. revert s. induction l as [|x l IH]; intros s; [apply disc_ret|]. cbn [pfold].
  by apply disc_bind.
Qed.

Lemma discw_pmap {A B} (f : A → prog B) l : (∀ x, discw given (f x)) → discw given (pmap f l).
Proof.
  intros Hf. induction l as [|x l IH]; [apply disc_discw, disc_ret|]. cbn [pmap].
  apply discw_bind; [done|]. intros y. apply discw_bind; [done|]. intros. apply disc_discw, disc_ret.
Qed.

Lemma discw_piter {A} (f : A → prog unit) l : (∀ x, discw given (f x)) → discw given (piter f l).
Proof.
  intros Hf. induction l as [|x l IH]; [apply disc_discw, disc_ret|]. cbn [piter]. by apply discw_bind.
Qed.

Lemma discw_pfold {A S} (f : S → A → prog S) s l :
  (∀ s x, discw given (f s x)) → discw given (pfold f s l).
Proof.
  intros Hf. revert s. induction l as [|x l IH]; intros s; [apply disc_discw, disc_ret|]. cbn [pfold].
  by apply discw_bind.
Qed.

(** A call nobody waits for. *)
Lemma discw_detach {A} (p : prog A) : discw given p → discw given (detach p).
Proof.
  intros Hp. apply discw_catch; [|intros; apply disc_discw, disc_ret].
  apply discw_bind; [done|]. intros. apply disc_discw, disc_ret.
Qed.

(** A query with commit or rollback at its end, in a transaction just begun. *)
Lemma dwp_closing {A} t (p : prog A) own :
  dwp given p (t :: own) (λ own' r, own' = t :: own) →
  dwp given (Mysql.closing t p) (t :: own) (closes own).
Proof.
  intros Hp. unfold Mysql.closing. apply twp_catch, twp_bind.
  eapply twp_mono; [apply Hp|]. intros own' [a|e]; simpl.
  - intros ->. split; [by left|]. intros [v|e]; simpl.
    + by rewrite bool_decide_true.
    + split; [by left|]. intros [?|?]; simpl; rewrite bool_decide_true by done; by exists [].
  - intros ->. split; [by left|]. intros [?|?]; simpl; rewrite bool_decide_true by done; by exists [].
Qed.

(** ** The operations of a table *)

(** A transaction argument: the given one, or none for the tables that may be
    written apart. *)
Definition ok_trx (tbl : string) (trx : option Z) : Prop :=
  (trx = None ∧ tbl ∈ own_tables) ∨ (trx = given ∧ is_Some trx).

(** Statements of one transaction leave the open transactions as they are;
    when it is not the given one, [W] holds. *)
Definition inside (W : Prop) (t : Z) {A} (p : prog A) : Prop :=
  ∀ own, (t ∈ own ∧ W) ∨ given = Some t → dwp given p own (λ own' _, own' = own).

Lemma inside_knex (W : Prop) t tbl cs :
  trx_of cs = Some t → (W → is_write cs = true → tbl ∈ own_tables) → inside W t (call (CKnex tbl cs)).
Proof.
  intros Ht HW own Ho. apply twp_call; [|by intros [?|?]]. exists t. split; [done|].
  destruct Ho as [[]|]; auto.
Qed.
Lemma inside_write t tbl cs : trx_of cs = Some t → inside (tbl ∈ own_tables) t (call (CKnex tbl cs)).
Proof. intros Ht. by apply inside_knex. Qed.
Lemma inside_ret {A} W t (a : A) : inside W t (Ret a).
Proof. by intros own _. Qed.
Lemma inside_lift {A} W t (r : result A) : inside W t (lift r).
Proof. intros own _. by apply twp_lift. Qed.
Lemma inside_bind {A B} W t (p : prog A) (f : A → prog B) :
  inside W t p → (∀ a, inside W t (f a)) → inside W t (p ≫= f).
Proof.
  intros Hp Hf own Ho. apply twp_bind. eapply twp_mono; [by apply Hp|].
  intros own' [a|e]; simpl; intros ->; [by apply Hf|done].
Qed.
Lemma inside_pmap {A B} W t (f : A → prog B) l : (∀ x, inside W t (f x)) → inside W t (pmap f l).
Proof.
  intros Hf. induction l as [|x l IH]; [apply inside_ret|]. cbn [pmap].
  apply inside_bind; [done|]. intros y. apply inside_bind; [done|]. intros. apply inside_ret.
Qed.

Lemma inside_disc {A} W t (p : prog A) : given = Some t → inside W t p → disc given p.
Proof.
  intros Hg Hp own. eapply twp_mono; [apply Hp; by right|].
  intros ? [?|?] ->; [done|by exists []].
Qed.

Lemma inside_closing {A} (W : Prop) t (p : prog A) own :
  W → inside W t p → dwp given (Mysql.closing t p) (t :: own) (closes own).
Proof. intros HW Hp. apply dwp_closing, Hp. left. split; [by left|done]. Qed.

(** An operation that begins a transaction of its own. *)
Lemma disc_start {A} (body : Z → prog A) :
  (∀ t own, dwp given (body t) (t :: own) (closes own)) →
  disc given (t ← Mysql.startDbTransaction VUndef; body t).
Proof.
  intros Hd own. split; [done|].
  intros [[]|e]; simpl; try (by exists []). apply Hd.
Qed.

(** An operation: its queries run in the given transaction, or in one begun
    before and ended after them. *)
Lemma disc_defaultTrx {A} tbl trx (body : Z → bool → prog A) :
  ok_trx tbl trx → (∀ t, inside (tbl ∈ own_tables) t (body t false)) →
  (∀ t own, tbl ∈ own_tables → dwp given (body t true) (t :: own) (closes own)) →
  disc given ('(t, isDefaultTrx) ← Mysql.defaultTrx trx; body t isDefaultTrx).
Proof.
  intros Ht Hi Hd. destruct trx as [t|].
  - destruct Ht as [[? _]|[Hg _]]; [done|]. exact (inside_disc _ t (body t false) (eq_sym Hg) (Hi t)).
  - destruct Ht as [[_ Ht]|[_ [? ?]]]; [|done].
    intros own. split; [exact I|]. intros [[]|e]; cbn -[twp]; try (by exists []). by apply Hd.
Qed.

(** A command that concerns no transaction, before the queries of an operation. *)
Lemma inside_free {A} W t c (q : val → prog A) :
  trx_free c = true → (∀ v, inside W t (q v)) → inside W t (v ← call c; q v).
Proof.
  intros Hc Hq own Ho. split; [by destruct c|]. intros r.
  assert (own_next own c r = own) as -> by (by destruct c). destruct r; [by apply Hq|done].
Qed.
Lemma opens_free {A} t own c (q : val → prog A) :
  trx_free c = true → (∀ v, dwp given (q v) (t :: own) (closes own)) →
  dwp given (v ← call c; q v) (t :: own) (closes own).
Proof.
  intros Hc Hq. split; [by destruct c|]. intros r.
  assert (own_next (t :: own) c r = t :: own) as -> by (by destruct c).
  destruct r; [by apply Hq|by exists [t]].
Qed.
Lemma inside_warn {A} W t n ps q0 (q : prog A) :
  inside W t q → inside W t (_ ← Mysql.warnNoLimit n ps q0; q).
Proof.
  intros Hq. unfold Mysql.warnNoLimit. case_match; [done|]. intros own Ho.
  split; [exact I|]. intros [v|e]; [by apply Hq|done].
Qed.
Lemma opens_warn {A} t own n ps q0 (q : prog A) :
  dwp given q (t :: own) (closes own) →
  dwp given (_ ← Mysql.warnNoLimit n ps q0; q) (t :: own) (closes own).
Proof.
  intros Hq. unfold Mysql.warnNoLimit. case_match; [done|].
  split; [exact I|]. intros [v|e]; [apply Hq|by exists [t]].
Qed.

(** Computing a value before the queries of an operation. *)
Lemma inside_pre {A B} W t (x : result A) (q : A → prog B) :
  (∀ a, x = Ok a → inside W t (q a)) → inside W t (a ← lift x; q a).
Proof. intros Hq. destruct x; [by apply Hq|]. by intros own _. Qed.
Lemma opens_pre {A B} t own (x : result A) (q : A → prog B) :
  (∀ a, x = Ok a → dwp given (q a) (t :: own) (closes own)) →
  dwp given (a ← lift x; q a) (t :: own) (closes own).
Proof. intros Hq. destruct x; [by apply Hq|]. by exists [t]. Qed.

Lemma seq_sections_trx t l0 l q :
  Mysql.seq_sections (Ok (KTransacting t :: l0) :: l) = Ok q → trx_of q = Some t.
Proof. simpl. destruct (Mysql.seq_sections l); intros; by simplify_eq/=. Qed.

Lemma trx_of_queryBuilder ps cols t q : Mysql.queryBuilder ps cols t = Ok q → trx_of q = Some t.
Proof. apply seq_sections_trx. Qed.

Lemma trx_of_countBuilder tb ps t q : Mysql.countBuilder tb ps t = Ok q → trx_of q = Some t.
Proof. apply seq_sections_trx. Qed.

Lemma trx_of_app t q cs : trx_of q = Some t → trx_of (q ++ cs) = Some t.
Proof.
  unfold trx_of. intros H.
  assert (Hf : ∀ f, is_Some (find_js f q) → find_js f (q ++ cs) = find_js f q).
  { intros f. clear. induction q as [|k q IH]; simpl; [by intros []|]. by destruct (f k). }
  rewrite Hf; [done|]. by destruct (find_js _ q).
Qed.

(** Reading builders write nothing. *)
Definition reads (s : Mysql.section) : Prop := ∀ q, s = Ok q → is_write q = false.

Lemma is_write_app a b : is_write (a ++ b) = is_write a || is_write b.
Proof. apply existsb_app. Qed.

Lemma reads_ok l : is_write l = false → reads (Ok l).
Proof. by intros ? q [= <-]. Qed.
Lemma reads_err e : reads (Err e).
Proof. by intros q. Qed.
Lemma reads_bind {A} (x : result A) f : (∀ a, reads (f a)) → reads (x ≫= f).
Proof. intros Hf. destruct x; [apply Hf|apply reads_err]. Qed.
Lemma reads_when v s : reads s → reads (Mysql.when v s).
Proof. intros Hs. unfold Mysql.when. case_match; [done|]. by apply reads_ok. Qed.
Lemma reads_seq l : Forall reads l → reads (Mysql.seq_sections l).
Proof.
  induction 1 as [|s l Hs Hl IH]; intros q; simpl; [by intros [= <-]|].
  destruct s as [a|]; simpl; [|done]. destruct (Mysql.seq_sections l) as [b|]; simpl; [|done].
  intros [= <-]. by rewrite is_write_app, (Hs a), (IH b).
Qed.
Lemma reads_for_each v f : (∀ x, reads (f x)) → reads (Mysql.for_each v f).
Proof.
  intros Hf. destruct v; try apply reads_err. unfold Mysql.for_each.
  intros q. destruct (result_list (map f l)) as [ls|e] eqn:E; [|done]. intros [= <-].
  revert ls E. induction l as [|x l IH]; intros ls; simpl; [by intros [= <-]|].
  pose proof (Hf x) as Hx. destruct (f x) as [a|e]; [|done].
  destruct (result_list (map f l)) as [t|e]; [|done].
  intros [= <-]. simpl. by rewrite is_write_app, (Hx a), IH.
Qed.

Ltac reads_step :=
  match goal with
  | |- ∀ _, _ => intro
  | |- reads (Ok _) => apply reads_ok; simpl; repeat (rewrite is_write_app; simpl); by repeat case_match
  | |- reads (Err _) => apply reads_err
  | |- reads (Mysql.when _ _) => apply reads_when
  | |- reads (Mysql.for_each _ _) => apply reads_for_each
  | |- reads (mbind _ _) => apply reads_bind
  | |- reads (match ?x with _ => _ end) => destruct x
  | |- reads (let _ := _ in _) => cbv zeta
  end.

Lemma reads_filter_sections ps : Forall reads (Mysql.filter_sections ps).
Proof.
  unfold Mysql.filter_sections, Mysql.section_propBetween, Mysql.section_whereIn, Mysql.section_json,
    Mysql.section_search. repeat constructor; repeat reads_step.
Qed.

Lemma reads_queryBuilder ps cols t : reads (Mysql.queryBuilder ps cols t).
Proof.
  unfold Mysql.queryBuilder, Mysql.section_sort. apply reads_seq, Forall_app. split.
  - repeat constructor; repeat reads_step.
  - apply Forall_app. split; [apply reads_filter_sections|]. repeat constructor; repeat reads_step.
Qed.

#[local] Hint Resolve inside_write inside_ret inside_lift trx_of_queryBuilder trx_of_countBuilder
  trx_of_app inside_closing : trx.
Ltac op :=
  eapply disc_defaultTrx; [eassumption|intros; cbv beta iota|intros; cbv beta iota];
  repeat (apply inside_pre || apply opens_pre || apply inside_warn || apply opens_warn; intros); eauto 6 with trx.

Lemma disc_upsert tb rows trx : ok_trx (t_name tb) trx → disc given (Mysql.upsert tb rows trx).
Proof.
  intros Ht. assert (∀ t rs, inside (t_name tb ∈ own_tables) t (rs ← pmap (λ row, call (CKnex (t_name tb)
                    [KTransacting t; KInsert row; KOnConflictMerge (primaryKey (t_schema tb))])) rs;
               Ret (VArr rs))).
  { intros t rs. apply inside_bind; [|intros; apply inside_ret]. apply inside_pmap. auto with trx. }
  unfold Mysql.upsert. op.
Qed.
Lemma disc_deleteByParams tb ps trx : ok_trx (t_name tb) trx → disc given (Mysql.deleteByParams tb ps trx).
Proof. intros Ht. unfold Mysql.deleteByParams. op. Qed.
Lemma disc_deleteByPrimaryKey tb ids trx :
  ok_trx (t_name tb) trx → disc given (Mysql.deleteByPrimaryKey tb ids trx).
Proof. intros Ht. unfold Mysql.deleteByPrimaryKey. op. Qed.
Lemma disc_update tb ps trx : ok_trx (t_name tb) trx → disc given (Mysql.update tb ps trx).
Proof. intros Ht. unfold Mysql.update. op. Qed.
Lemma disc_increment tb a b trx : ok_trx (t_name tb) trx → disc given (Mysql.increment tb a b trx).
Proof. intros Ht. unfold Mysql.increment. op. Qed.
Lemma disc_decrement tb a b trx : ok_trx (t_name tb) trx → disc given (Mysql.decrement tb a b trx).
Proof. intros Ht. unfold Mysql.decrement. op. Qed.

Lemma disc_find tb ps cols : disc given (Mysql.find tb ps cols).
Proof.
  unfold Mysql.find. apply disc_start. intros t own. cbv zeta. apply opens_pre. intros q Hq.
  apply opens_warn, opens_free; [done|]. intros _.
  apply (inside_closing True); [done|]. apply inside_knex; [by eapply trx_of_queryBuilder|].
  intros _. by rewrite (reads_queryBuilder _ _ _ _ Hq).
Qed.

End disc.


#[export] Hint Resolve disc_ret disc_throw disc_lift disc_upsert disc_deleteByParams
  disc_deleteByPrimaryKey disc_update disc_increment disc_decrement disc_find : disc.
#[export] Hint Extern 1 (ok_trx _ _ _) =>
  (by left; split; [|apply list_elem_of_here]) || (by right; split; [|eexists]) : disc.
#[export] Hint Extern 1 (disc _ (call _)) => apply disc_call; reflexivity : disc.

(** ** Obtaining a table *)

Section tables.
Context (given : option Z).

Ltac parts := repeat first
  [ progress cbv zeta | solve [eauto 2 with disc] | case_match | apply disc_bind; [|intro] ].

Lemma disc_getDbConnection ep : disc given (Mysql.getDbConnection ep).
Proof. unfold Mysql.getDbConnection, Mysql.createDbConnection. parts. Qed.
Lemma disc_loadSchema n c : disc given (Mysql.loadSchema n c).
Proof. unfold Mysql.loadSchema. parts. Qed.
#[local] Hint Resolve disc_getDbConnection disc_loadSchema : disc.
Lemma disc_createTableIfNotExists n c ep : disc given (Mysql.createTableIfNotExists n c ep).
Proof. unfold Mysql.createTableIfNotExists. parts. Qed.
#[local] Hint Resolve disc_createTableIfNotExists : disc.
Lemma disc_getTableInstance n c ep : disc given (Mysql.getTableInstance n c ep).
Proof. unfold Mysql.getTableInstance. parts. Qed.

(** What follows is about the table asked for. *)
Lemma dwp_getTableInstance n c ep own :
  dwp given (Mysql.getTableInstance n c ep) own
    (λ own' r, closes own own' r ∧ ∀ tb, r = Ok tb → tb = mkTable n c).
Proof.
  unfold Mysql.getTableInstance.
  apply twp_bind. eapply twp_mono; [apply disc_getDbConnection|]. intros ? [a|e]; [|done]. intros ->.
  apply twp_bind. eapply twp_mono; [apply disc_createTableIfNotExists|]. intros ? [b|e]; [|done]. intros ->.
  split; [done|]. by intros tb [= <-].
Qed.

Lemma disc_bind_table {B} n c ep (f : table → prog B) :
  disc given (f (mkTable n c)) → disc given (Mysql.getTableInstance n c ep ≫= f).
Proof.
  intros Hf own. apply twp_bind. eapply twp_mono; [apply dwp_getTableInstance|].
  intros own' [tb|e] [Ho Htb]; [|done]. rewrite (Htb tb), Ho by done. apply Hf.
Qed.
Lemma discw_bind_table {B} n c ep (f : table → prog B) :
  discw given (f (mkTable n c)) → discw given (Mysql.getTableInstance n c ep ≫= f).
Proof.
  intros Hf own. apply twp_bind. eapply twp_mono; [apply dwp_getTableInstance|].
  intros own' [tb|e] [Ho Htb]; [|done]. rewrite (Htb tb), Ho by done. apply Hf.
Qed.
End tables.
#[export] Hint Resolve disc_getTableInstance disc_getDbConnection : disc.

(** Proves the discipline of a program from that of its parts. *)
Ltac disc_step :=
  match goal with
  | |- ∀ _, _ => intro
  | |- disc _ (match ?x with _ => _ end) => destruct x
  | |- disc _ (let _ := _ in _) => cbv zeta
  | |- disc _ (@mbind _ _ table _ _ _) => apply disc_bind_table
  | |- disc _ (mbind _ _) => apply disc_bind
  | |- disc _ (pbind _ _) => apply disc_bind
  | |- disc _ (pmap _ _) => apply disc_pmap
  | |- disc _ (piter _ _) => apply disc_piter
  | |- disc _ (pfold _ _ _) => apply disc_pfold
  | |- disc _ _ => solve [eauto 3 with disc]
  end.
Ltac disc := repeat disc_step.

Ltac discw_step :=
  match goal with
  | |- ∀ _, _ => intro
  | |- discw _ (match ?x with _ => _ end) => destruct x
  | |- discw _ (let _ := _ in _) => cbv zeta
  | |- discw _ (@mbind _ _ table _ _ _) => apply discw_bind_table
  | |- discw _ (mbind _ _) => apply discw_bind
  | |- discw _ (pbind _ _) => apply discw_bind
  | |- discw _ (pmap _ _) => apply discw_pmap
  | |- discw _ (piter _ _) => apply discw_piter
  | |- discw _ (pfold _ _ _) => apply discw_pfold
  | |- discw _ (catch _ _) => apply discw_catch
  | |- discw _ (detach _) => apply discw_detach
  | |- discw _ _ => solve [eauto 3 with disc]
  | |- discw _ _ => apply disc_discw; solve [eauto 3 with disc]
  end.
Ltac discw := repeat discw_step.

(** Commands that are no statement and end no transaction. *)
Definition no_statement (c : cmd) : Prop :=
  match c with CKnex _ _ | CRaw _ _ | CTrxCommit _ | CTrxRollback _ => False | _ => True end.

Lemma pall_getTableInstance n c ep : pall no_statement (Mysql.getTableInstance n c ep).
Proof.
  unfold Mysql.getTableInstance, Mysql.createTableIfNotExists, Mysql.getDbConnection, Mysql.loadSchema,
    Mysql.createDbConnection. pall.
Qed.
Lemma pall_getDbConnection ep : pall no_statement (Mysql.getDbConnection ep).
Proof. unfold Mysql.getDbConnection, Mysql.createDbConnection. pall. Qed.
#[export] Hint Resolve pall_getTableInstance pall_getDbConnection : pall.
