(* ===== verification/MemDb.v ===== *)
(** * An engine in memory

    An instance of [SqlEngine], on which the witnesses run the code: it
    follows the contract of [SqlSpec], answers remote calls from a table and
    keeps the messages the code sends.  Strings compare byte by byte. *)
From S2P Require Export SqlSpec.
Open Scope string_scope.
Open Scope Z_scope.
Open Scope list_scope.

Record mem := mkMem {
  m_sql : sqldb;
  m_next : Z;                                       (* next transaction number *)
  m_fail : list string;                             (* tables whose statements fail *)
  m_rpc : list (string * string * result val);      (* service, method, answer *)
  m_cache : list (string * val);
  m_sent : list (string * val);                     (* queue jobs and signals *)
  m_now : Z
}.

#[export] Instance binary_collation : Collation := λ s, s.

Definition db_error : exn := mkExn "Error" "ER_QUERY".

Definition knex_answer (s : sqldb) (tbl : string) (cs : list kcall) : option (sqldb * val) :=
  match trx_of cs with
  | None => None
  | Some t =>
      match sq_pending s !! t with
      | None => None
      | Some ws =>
          let rows := rows_of (view s t) tbl in
          let tcs := default [] (sq_tables s !! tbl) in
          if negb (forallb defined_call cs) then None
          else if is_write cs then
            if write_ok tcs cs rows then
              Some (mkSql (sq_tables s) (sq_rows s) (<[t := ws ++ [(tbl, cs)]]> (sq_pending s)),
                    affected cs rows)
            else None
          else Some (s, select tcs cs rows)
      end
  end.

Definition rpc_answer (m : mem) (service method : string) : result val :=
  match find_js (λ e, bool_decide (e.1.1 = service ∧ e.1.2 = method)) (m_rpc m) with
  | Some e => e.2
  | None => Err (mkExn "Error" "Service is not available")
  end.

Definition with_sql (m : mem) (s : sqldb) : mem :=
  mkMem s (m_next m) (m_fail m) (m_rpc m) (m_cache m) (m_sent m) (m_now m).
Definition with_sent (m : mem) (x : string * val) : mem :=
  mkMem (m_sql m) (m_next m) (m_fail m) (m_rpc m) (m_cache m) (m_sent m ++ [x]) (m_now m).
Definition with_cache (m : mem) (c : list (string * val)) : mem :=
  mkMem (m_sql m) (m_next m) (m_fail m) (m_rpc m) c (m_sent m) (m_now m).

(** A transaction number that is not in use. *)
Definition mem_begin (m : mem) : mem * result val :=
  let s := m_sql m in
  let t := m_next m in
  if decide (sq_pending s !! t = None) then
    (mkMem (mkSql (sq_tables s) (sq_rows s) (<[t := []]> (sq_pending s))) (t + 1) (m_fail m)
           (m_rpc m) (m_cache m) (m_sent m) (m_now m), Ok (VNum t))
  else (m, Err db_error).

#[export] Instance mem_engine : Engine mem := λ c m,
  let s := m_sql m in
  match c with
  | CVarGet _ | CVarSet _ _ => (m, Ok VUndef)
  | CConnect e => (m, Ok (VStr e))
  | CHasTable t => (m, Ok (VBool (bool_decide (is_Some (sq_tables s !! t)))))
  | CCreateTable t tcs =>
      match sq_tables s !! t with
      | None => (with_sql m (mkSql (<[t := tcs]> (sq_tables s)) (sq_rows s) (sq_pending s)), Ok VUndef)
      | Some _ => (m, Err db_error)
      end
  | CTrxBegin => mem_begin m
  | CTrxCommit t =>
      (with_sql m (mkSql (sq_tables s) (view s t) (delete t (sq_pending s))), Ok VUndef)
  | CTrxRollback t =>
      (with_sql m (mkSql (sq_tables s) (sq_rows s) (delete t (sq_pending s))), Ok VUndef)
  | CToSql _ cs => if forallb defined_call cs then (m, Ok (VObj [])) else (m, Err db_error)
  | CKnex tbl cs =>
      if bool_decide (tbl ∈ m_fail m) then (m, Err db_error)
      else match knex_answer s tbl cs with
           | Some (s', v) => (with_sql m s', Ok v)
           | None => (m, Err db_error)
           end
  | CRaw _ _ => (m, Ok (VArr [VArr []]))
  | CRpc service method params => (with_sent m (service +:+ ":" +:+ method, params), rpc_answer m service method)
  | CCacheGet c k => (m, Ok (default VUndef (oget (m_cache m) (c +:+ k))))
  | CCacheSet c k v => (with_cache m (oset (m_cache m) (c +:+ k) v), Ok v)
  | CCacheDelete c k => (with_cache m (odel (m_cache m) (c +:+ k)), Ok VUndef)
  | CQueueAdd q d => (with_sent m (q, d), Ok VUndef)
  | CSetAdd _ _ => (m, Ok (VNum 1))
  | CSetPop _ _ => (m, Ok (VArr []))
  | CQueueCounts _ => (m, Ok (VObj []))
  | CSignal n p => (with_sent m (n, p), Ok VUndef)
  | CNow => (m, Ok (VNum (m_now m)))
  end.

Lemma sql_err_refl s : sql_err s s.
Proof. split_and!; auto. Qed.

Lemma knex_answer_ok s tbl cs s' v : knex_answer s tbl cs = Some (s', v) → sql_ok (CKnex tbl cs) s s' v.
Proof.
  unfold knex_answer. simpl. destruct (trx_of cs) as [t|]; [|done].
  destruct (sq_pending s !! t) as [ws|] eqn:Hp; [|done].
  destruct (forallb defined_call cs) eqn:Hd; simpl; [|done].
  destruct (is_write cs) eqn:Hw.
  - destruct (write_ok _ _ _) eqn:Hok; [|done]. intros [= <- <-]. by exists t, ws.
  - intros [= <- <-]. by exists t, ws.
Qed.

#[export] Program Instance mem_sql_engine : SqlEngine mem := { sql := m_sql }.
Next Obligation.
  intros c m m' v. destruct c; unfold handle; simpl; try (by intros [= <- <-]).
  - destruct (sq_tables (m_sql m) !! table) eqn:E; [done|]. by intros [= <- <-].
  - unfold mem_begin. case_decide; [|done]. intros [= <- <-]. by eexists.
  - destruct (forallb _ _); by intros [= <- <-].
  - destruct (bool_decide _); [done|]. destruct (knex_answer _ _ _) as [[s' v']|] eqn:E; [|done].
    intros [= <- <-]. by apply knex_answer_ok.
  - by intros [= <- _].
Qed.
Next Obligation.
  intros c m m' x. destruct c; unfold handle; simpl; try done; repeat case_match; try done;
    try (intros [= <- _]; apply sql_err_refl).
  unfold mem_begin. case_decide; [done|]. intros [= <- _]. apply sql_err_refl.
Qed.

(** ** Setting up a run *)

Definition mem_of (tables : list (string * list tcall)) (rows : list (string * list row)) : mem :=
  mkMem (mkSql (list_to_map tables) (list_to_map rows) ∅) 1 [] [] [] [] 0.

(** The world with an open transaction 0. *)
Definition in_trx (m : mem) : world mem :=
  mkWorld ∅ (with_sql m (mkSql (sq_tables (m_sql m)) (sq_rows (m_sql m)) {[0 := []]})).

Definition with_rpc (m : mem) (rpc : list (string * string * result val)) : mem :=
  mkMem (m_sql m) (m_next m) (m_fail m) rpc (m_cache m) (m_sent m) (m_now m).

(** The rows transaction [t] would commit. *)
Definition rows_in (w : world mem) (t : Z) (tbl : string) : list row := rows_of (view (m_sql (w_ext w)) t) tbl.
Definition committed (w : world mem) (tbl : string) : list row := rows_of (sq_rows (m_sql (w_ext w))) tbl.
