(* ===== verification/Schemas.v ===== *)
(** * The database tables

    The schemas of services/blockchain-indexer/shared/database/schema, of
    services/transaction-statistics and of services/blockchain-app-registry,
    in the shape [Mysql] reads them.  A [default] key, as in the transactions
    schema, is not one the loader reads; only [defaultValue] is. *)
From S2P Require Export Mysql.
Open Scope string_scope.
Open Scope Z_scope.
Open Scope list_scope.

Module Schemas.

Definition accounts : table_schema := mkSchema "accounts" (VStr "address") None [
    ("address", Col "string" None None);
    ("publicKey", Col "string" (Some true) (Some VNull));
    ("name", Col "string" (Some true) (Some VNull));
    ("isValidator", Col "boolean" (Some false) (Some (VBool false)))
  ] [].

Definition audios : table_schema := mkSchema "audios" (VStr "audioID") None [
    ("audioID", Col "string" None None);
    ("name", Col "string" None None);
    ("releaseYear", Col "string" None None);
    ("collectionID", Col "string" None None);
    ("audioSignature", Col "string" None None);
    ("audioHash", Col "string" None None);
    ("creatorAddress", Col "string" None None)
  ] [("creatorAddress", "string")].

Definition blockchainApps : table_schema := mkSchema "blockchain_apps" (VStr "chainID") None [
    ("chainID", Col "string" None None);
    ("name", Col "string" None None);
    ("status", Col "string" None None);
    ("address", Col "string" None None);
    ("lastUpdated", Col "string" None None);
    ("lastCertificateHeight", Col "string" None None)
  ] [("chainID", "key"); ("status", "key"); ("name", "key")].

Definition blocks : table_schema := mkSchema "blocks" (VStr "height") None [
    ("id", Col "string" None None);
    ("height", Col "integer" None None);
    ("timestamp", Col "integer" None None);
    ("generatorAddress", Col "string" None None);
    ("size", Col "integer" None None);
    ("isFinal", Col "boolean" None (Some (VBool false)));
    ("assetsModules", Col "json" None None);
    ("numberOfEvents", Col "integer" None None);
    ("reward", Col "bigInteger" None None)
  ] [("id", "key"); ("height", "range"); ("timestamp", "range"); ("generatorAddress", "key"); ("size", "range"); ("isFinal", "key")].

Definition collections : table_schema := mkSchema "collections" (VStr "collectionID") None [
    ("collectionID", Col "string" (Some true) (Some VNull));
    ("name", Col "string" (Some true) (Some VNull));
    ("releaseYear", Col "string" (Some true) (Some VNull));
    ("collectionType", Col "integer" (Some true) (Some VNull));
    ("coverSignature", Col "string" (Some true) (Some VNull));
    ("coverHash", Col "string" (Some true) (Some VNull));
    ("creatorAddress", Col "string" (Some true) (Some VNull))
  ] [("creatorAddress", "string")].

Definition commissions : table_schema := mkSchema "commissions" (VArr [VStr "address"; VStr "height"]) None [
    ("address", Col "string" (Some false) None);
    ("commission", Col "string" (Some false) None);
    ("height", Col "string" (Some false) None)
  ] [("address", "key"); ("commission", "range"); ("height", "range")].

Definition eventTopics : table_schema := mkSchema "event_topics" (VStr "tempID") None [
    ("tempID", Col "string" None None);
    ("eventID", Col "string" None None);
    ("topic", Col "string" None None);
    ("height", Col "integer" None None);
    ("index", Col "integer" None None);
    ("timestamp", Col "integer" None None)
  ] [("topic", "key"); ("height", "range")].

Definition events : table_schema := mkSchema "events" (VStr "id") None [
    ("id", Col "string" None None);
    ("name", Col "string" None None);
    ("module", Col "string" None None);
    ("height", Col "integer" None None);
    ("index", Col "integer" None None);
    ("eventStr", Col "text" None None)
  ] [("height", "range")].

Definition feats : table_schema := mkSchema "feats" (VArr [VStr "address"; VStr "audioID"]) None [
    ("address", Col "string" (Some true) (Some VNull));
    ("audioID", Col "string" None None);
    ("role", Col "string" (Some true) (Some VNull))
  ] [("creatorAddress", "string")].

Definition kvStore : table_schema := mkSchema "key_value_store" (VStr "key") None [
    ("key", Col "string" None None);
    ("value", Col "string" None None);
    ("type", Col "string" None None)
  ] [].

Definition members : table_schema := mkSchema "members" (VStr "id") None [
    ("id", Col "string" None None);
    ("address", Col "string" None None);
    ("shared", Col "string" (Some true) None);
    ("addedBy", Col "string" (Some true) None);
    ("removedBy", Col "string" (Some true) None)
  ] [("shared", "key")].

Definition multisignature : table_schema := mkSchema "multisignature" (VStr "id") None [
    ("id", Col "string" None None);
    ("groupAddress", Col "string" None None);
    ("memberAddress", Col "string" None None)
  ] [("id", "key"); ("groupAddress", "key"); ("memberAddress", "key")].

Definition owners : table_schema := mkSchema "owners" (VArr [VStr "address"; VStr "audioID"]) None [
    ("address", Col "string" None None);
    ("audioID", Col "string" None None);
    ("shares", Col "integer" None None);
    ("income", Col "bigInteger" None (Some (VNum 0)))
  ] [("creatorAddress", "string")].

Definition profiles : table_schema := mkSchema "profiles" (VStr "profileID") None [
    ("profileID", Col "string" None None);
    ("name", Col "string" (Some true) (Some VNull));
    ("nickName", Col "string" (Some true) (Some VNull));
    ("description", Col "string" (Some true) (Some VNull));
    ("avatarHash", Col "string" (Some true) (Some VNull));
    ("avatarSignature", Col "string" (Some true) (Some VNull));
    ("bannerHash", Col "string" (Some true) (Some VNull));
    ("bannerSignature", Col "string" (Some true) (Some VNull));
    ("creatorAddress", Col "string" (Some true) (Some VNull))
  ] [("creatorAddress", "string")].

Definition socialAccounts : table_schema := mkSchema "socialAccounts" (VArr [VStr "profileID"; VStr "platform"]) None [
    ("profileID", Col "string" None None);
    ("username", Col "string" (Some true) (Some VNull));
    ("platform", Col "string" None None)
  ] [("profileID", "string")].

Definition stakes : table_schema := mkSchema "stakes" (VArr [VStr "validatorAddress"; VStr "stakerAddress"]) None [
    ("stakerAddress", Col "string" None None);
    ("validatorAddress", Col "string" None None);
    ("amount", Col "bigInteger" None None)
  ] [("validatorAddress", "key"); ("stakerAddress", "key")].

Definition subscriptions : table_schema := mkSchema "subscriptions" (VStr "subscriptionID") None [
    ("subscriptionID", Col "string" (Some true) (Some VNull));
    ("creatorAddress", Col "string" (Some true) (Some VNull));
    ("price", Col "bigInteger" (Some true) (Some VNull));
    ("consumable", Col "bigInteger" (Some true) (Some VNull));
    ("streams", Col "bigInteger" (Some true) (Some VNull));
    ("maxMembers", Col "integer" (Some true) (Some VNull))
  ] [("creatorAddress", "string")].

Definition transactions : table_schema := mkSchema "transactions" (VStr "id") (Some "utf8mb4") [
    ("id", Col "string" (Some false) None);
    ("height", Col "integer" (Some false) None);
    ("moduleCommand", Col "string" (Some false) None);
    ("nonce", Col "integer" (Some false) None);
    ("blockID", Col "string" (Some false) None);
    ("timestamp", Col "integer" (Some false) None);
    ("senderAddress", Col "string" (Some false) None);
    ("recipientAddress", Col "string" (Some true) None);
    ("tokenID", Col "string" (Some true) None);
    ("amount", Col "bigInteger" (Some true) None);
    ("receivingChainID", Col "string" (Some true) None);
    ("messageFee", Col "bigInteger" (Some true) None);
    ("data", Col "string" (Some true) None);
    ("size", Col "integer" (Some false) None);
    ("fee", Col "bigInteger" (Some false) None);
    ("minFee", Col "bigInteger" (Some false) None);
    ("executionStatus", Col "string" (Some false) None);
    ("index", Col "integer" (Some false) None)
  ] [("height", "range"); ("moduleCommand", "key"); ("nonce", "range"); ("blockID", "key"); ("timestamp", "range"); ("amount", "range"); ("data", "key"); ("senderAddress", "key"); ("executionStatus", "key")].

Definition validators : table_schema := mkSchema "validators" (VStr "address") None [
    ("address", Col "string" None None);
    ("name", Col "string" (Some true) None);
    ("blsKey", Col "string" (Some true) None);
    ("proofOfPosession", Col "string" (Some true) None);
    ("generatorKey", Col "string" (Some true) None);
    ("generatedBlocks", Col "integer" (Some false) (Some (VNum 0)));
    ("totalCommission", Col "bigInteger" (Some false) (Some (VNum 0)));
    ("totalSelfStakeRewards", Col "bigInteger" (Some false) (Some (VNum 0)))
  ] [("name", "key"); ("generatorKey", "key"); ("blsKey", "key")].

Definition transactionStatistics : table_schema := mkSchema "transaction_statistics" (VStr "id") None [
    ("amount_range", Col "string" None None);
    ("count", Col "integer" None None);
    ("date", Col "integer" None None);
    ("id", Col "string" None None);
    ("moduleCommand", Col "string" None None);
    ("volume", Col "bigInteger" None None);
    ("tokenID", Col "string" (Some false) None)
  ] [("date", "range"); ("tokenID", "key")].

Definition registry_token_metadata : table_schema := mkSchema "token_metadata" (VArr [VStr "network"; VStr "chainName"; VStr "localID"]) None [
    ("chainID", Col "string" None None);
    ("chainName", Col "string" None None);
    ("network", Col "string" None None);
    ("localID", Col "string" None None);
    ("tokenName", Col "string" None None);
    ("tokenID", Col "string" None None)
  ] [("chainID", "key"); ("chainName", "key"); ("localID", "key"); ("tokenName", "key"); ("network", "key"); ("tokenID", "key")].

Definition registry_application_metadata : table_schema := mkSchema "application_metadata" (VArr [VStr "network"; VStr "chainName"]) None [
    ("chainName", Col "string" None None);
    ("chainID", Col "string" None None);
    ("network", Col "string" None None);
    ("isDefault", Col "boolean" (Some false) (Some (VBool false)));
    ("appDirName", Col "string" None None)
  ] [("chainID", "key"); ("chainName", "key"); ("network", "key"); ("isDefault", "key")].

End Schemas.

(** The schemas are well formed: columns are distinct, and the primary key and
    the indexed columns are columns. *)
Definition wf_schema (s : table_schema) : bool :=
  let cols := (schema s).*1 in
  let pk := match primaryKey s with VArr l => map to_string l | v => [to_string v] end in
  bool_decide (NoDup cols) && forallb (λ c, bool_decide (c ∈ cols)) (pk ++ (indexes s).*1).
