(* ===== verification/Env.v ===== *)
(** * What the indexer is parameterised by

    The configuration the process reads from its environment (config.js) and
    the functions of the Lisk SDK, which the repository only calls.  Byte
    buffers are lists of bytes; [bytes_of_hex] is [Buffer.from(s, 'hex')].
    Also here: the language's helpers that many handlers use. *)
From Stdlib Require Export Sorted.
From S2P Require Export Mysql.
Open Scope string_scope.
Open Scope Z_scope.
Open Scope list_scope.

(** ** Configuration: services/blockchain-indexer/config.js *)

Class Config := {
  MYSQL_ENDPOINT : string;          (* config.endpoints.mysql *)
  db_isPersistEvents : bool;        (* config.db.isPersistEvents *)
}.

(** ** Buffers *)

Definition bytes := list Z.

(** [Buffer.from(s, 'hex')] stops at the first pair that is not hexadecimal. *)
Fixpoint bytes_of_hex (s : string) : bytes :=
  match s with
  | String a (String b r) =>
      match digit_of a, digit_of b with
      | Some x, Some y => if (x <? 16) && (y <? 16) then 16 * x + y :: bytes_of_hex r else []
      | _, _ => []
      end
  | _ => []
  end.

(** [buffer.toString('hex')] *)
Definition hex_of_bytes (l : bytes) : string :=
  foldr (λ b s, String (hex_digit (Z.to_nat (b / 16))) (String (hex_digit (Z.to_nat (b mod 16))) s)) "" l.

(** ** @liskhq/lisk-cryptography *)

Class LiskCrypto := {
  lisk32_of_publicKey : bytes → result string;   (* address.getLisk32AddressFromPublicKey *)
  lisk32_of_address : bytes → result string;     (* address.getLisk32AddressFromAddress *)
  address_of_lisk32 : string → result bytes;     (* address.getAddressFromLisk32Address *)
  legacy_of_publicKey : bytes → result string;   (* legacyAddress.getLegacyAddressFromPublicKey *)
}.

(** [convertLSKToBeddows] of @liskhq/lisk-transactions. *)
Class LiskTransactions := { convertLSKToBeddows : string → result string }.

(** [a.localeCompare(b, 'en')], which the language leaves to the locale. *)
Class Locale := { localeCompare : string → string → comparison }.

(** ** Language helpers *)

(** [`${v}`] *)
Definition tpl (v : val) : string := to_string v.

(** [new Error(m)] *)
Definition js_error (m : string) : exn := mkExn "Error" m.

(** [typeof item === 'object' && item !== null]: framework/src/data.js *)
Definition isObject (v : val) : bool := match v with VArr _ | VObj _ => true | _ => false end.
Definition isEmptyArray (v : val) : bool := match v with VArr [] => true | _ => false end.
Definition isEmptyObject (v : val) : bool := match v with VArr [] | VObj [] => true | _ => false end.
Definition isString (v : val) : bool := match v with VStr _ => true | _ => false end.

(** [BluebirdPromise.map(l, f, { concurrency: l.length })] *)
Definition bluebird_map {B} (l : val) (f : val → prog B) : prog (list B) :=
  _ ← l @. "length"; xs ← iter_list l; pmap f xs.

(** [l.find(f)] for a callback that may throw. *)
Fixpoint pfind (f : val → prog bool) (l : list val) : prog val :=
  match l with
  | [] => Ret VUndef
  | x :: r => b ← f x; if b : bool then Ret x else pfind f r
  end.

(** [l.filter(f)] for a callback that may throw. *)
Fixpoint pfilter (f : val → prog bool) (l : list val) : prog (list val) :=
  match l with
  | [] => Ret []
  | x :: r => b ← f x; t ← pfilter f r; Ret (if b : bool then x :: t else t)
  end.

(** [l.some(f)] for a callback that may throw. *)
Fixpoint rsome {A} (f : A → result bool) (l : list A) : result bool :=
  match l with
  | [] => Ok false
  | x :: r => b ← f x; if b : bool then Ok true else rsome f r
  end.

(** [l.forEach(x => { x.k = f(x) })]: the elements updated before a throw stay updated. *)
Fixpoint for_each_set {A} (f : A → result A) (l : list A) : list A * result unit :=
  match l with
  | [] => ([], Ok tt)
  | x :: r =>
      match f x with
      | Ok y => let '(r', res) := for_each_set f r in (y :: r', res)
      | Err e => (l, Err e)
      end
  end.

(** A method call on an array: anything else has no such method. *)
Definition array_method (v : val) (m : string) : prog (list val) :=
  match v with
  | VArr l => Ret l
  | VUndef | VNull => _ ← v @. m; Throw (not_a_function m)
  | _ => Throw (not_a_function m)
  end.

(** [const { data: x = {} } = v] *)
Definition data_or_empty (v : val) : prog val :=
  d ← v @. "data"; Ret (or_default d (VObj [])).

(** [const [x] = v] *)
Definition first_of (v : val) : prog val := l ← iter_list v; Ret (nth_val l 0).

(** [a.concat(b)] on strings: a value that is not a string has no such
    method here (an array does, and is not concatenated with strings). *)
Definition str_concat (a : val) (b : string) : prog val :=
  match a with
  | VStr s => Ret (VStr (s +:+ b))
  | VUndef | VNull => _ ← a @. "concat"; Throw (not_a_function "concat")
  | _ => Throw (not_a_function "concat")
  end.

(** [v.toString()] *)
Definition method_toString (v : val) : prog string :=
  match v with
  | VUndef | VNull => _ ← v @. "toString"; Throw (not_a_function "toString")
  | _ => Ret (to_string v)
  end.

(** [l.includes(x)]: on a string, whether [x] occurs in it. *)
Definition method_includes (l x : val) : prog bool :=
  match l with
  | VArr xs => Ret (val_includes xs x)
  | VStr s => Ret (str_includes (to_string x) s)
  | VUndef | VNull => _ ← l @. "includes"; Throw (not_a_function "includes")
  | _ => Throw (not_a_function "includes")
  end.

(** [Buffer.from(v, 'hex')] on a string. *)
Definition buffer_from_hex (v : val) : result bytes :=
  match v with
  | VStr s => Ok (bytes_of_hex s)
  | _ => Err (type_error "The first argument must be of type string or an instance of Buffer")
  end.

(** [l.sort(f)]: stable, for a comparator that may throw and is an order when it
    does not.  Each element is placed after those it does not precede. *)
Fixpoint sort_insert {A} (cmp : A → A → result comparison) (x : A) (l : list A) : result (list A) :=
  match l with
  | [] => Ok [x]
  | y :: r =>
      c ← cmp y x;
      match c with
      | Gt => Ok (x :: l)
      | _ => r' ← sort_insert cmp x r; Ok (y :: r')
      end
  end.

Definition sort_step {A} (cmp : A → A → result comparison) (acc : result (list A)) (x : A) : result (list A) :=
  match acc with Ok s => sort_insert cmp x s | Err e => Err e end.

Definition js_sort {A} (cmp : A → A → result comparison) (l : list A) : result (list A) :=
  fold_left (sort_step cmp) l (Ok []).

(** Ordering the elements by an integer key, for a comparator that never throws. *)
Lemma sort_insert_perm {A} (cmp : A → A → result comparison) x l l' :
  sort_insert cmp x l = Ok l' → l' ≡ₚ x :: l.
Proof.
  revert l'. induction l as [|y l IH]; intros l'; simpl; [by intros [= <-]|].
  unfold mbind, result_mbind. destruct (cmp y x) as [[]|] eqn:E; simpl; try done.
  - destruct (sort_insert cmp x l) as [r|] eqn:Ei; simpl; [|done]. intros [= <-].
    rewrite (IH r) by done. constructor.
  - destruct (sort_insert cmp x l) as [r|] eqn:Ei; simpl; [|done]. intros [= <-].
    rewrite (IH r) by done. constructor.
  - by intros [= <-].
Qed.

Lemma sort_step_err {A} (cmp : A → A → result comparison) l e : fold_left (sort_step cmp) l (Err e) = Err e.
Proof. by induction l. Qed.

Lemma js_sort_perm {A} (cmp : A → A → result comparison) l l' : js_sort cmp l = Ok l' → l' ≡ₚ l.
Proof.
  unfold js_sort. assert (∀ acc l', fold_left (sort_step cmp) l (Ok acc) = Ok l' → l' ≡ₚ acc ++ l) as H.
  { clear l'. induction l as [|x l IH]; intros acc l'; simpl; [by intros [= <-]; rewrite app_nil_r|].
    destruct (sort_insert cmp x acc) as [s|e] eqn:E.
    - intros H%IH. rewrite H, (sort_insert_perm _ _ _ _ E). apply Permutation_middle.
    - by rewrite sort_step_err. }
  apply H.
Qed.

Section sorted.
Context {A} (cmp : A → A → result comparison) (P : A → Prop) (le : A → A → Prop).
(** On the elements of interest the comparator answers, and says [le] or not. *)
Hypothesis cmp_le : ∀ x y, P x → P y →
  ∃ c, cmp x y = Ok c ∧ (c = Gt → le y x) ∧ (c ≠ Gt → le x y).
Hypothesis le_trans : ∀ x y z, le x y → le y z → le x z.

Lemma sort_insert_sorted x l :
  P x → Forall P l → StronglySorted le l →
  ∃ l', sort_insert cmp x l = Ok l' ∧ StronglySorted le l'.
Proof.
  intros Hx Hl Hs. induction Hs as [|y l Hs IH Hy]; simpl.
  - eexists. split; [done|]. by repeat constructor.
  - apply Forall_cons in Hl as [Py Hl].
    destruct (cmp_le y x Py Hx) as (c & -> & Hgt & Hle).
    destruct (IH Hl) as (l' & Hl' & Hs').
    assert (c ≠ Gt → ∃ l'', (r' ← sort_insert cmp x l; Ok (y :: r')) = Ok l'' ∧ StronglySorted le l'') as Hc.
    { intros Hne. rewrite Hl'. eexists. split; [done|]. constructor; [done|].
      rewrite (sort_insert_perm _ _ _ _ Hl'). constructor; [by apply Hle|done]. }
    destruct c; [by apply Hc|by apply Hc|].
    eexists. split; [done|]. constructor; [by constructor|]. constructor; [by apply Hgt|].
    eapply Forall_impl; [exact Hy|]. intros z. apply le_trans. by apply Hgt.
Qed.

(** The sort succeeds and orders its elements. *)
Lemma js_sort_sorted l : Forall P l → ∃ l', js_sort cmp l = Ok l' ∧ StronglySorted le l' ∧ l' ≡ₚ l.
Proof.
  intros Hl. assert (∀ acc, Forall P acc → StronglySorted le acc →
    ∃ l', fold_left (sort_step cmp) l (Ok acc) = Ok l' ∧ StronglySorted le l') as H.
  { induction Hl as [|x l Hx Hl IH]; intros acc Ha Hs; simpl; [by eauto|].
    destruct (sort_insert_sorted x acc Hx Ha Hs) as (acc' & E & Hs').
    rewrite E. apply IH; [|done].
    rewrite (sort_insert_perm _ _ _ _ E). by constructor. }
  destruct (H []) as (l' & E & Hs); [constructor..|].
  exists l'. split_and!; [done..|]. by apply js_sort_perm in E.
Qed.
End sorted.

Lemma hex_digit_value n : (n < 16)%nat → digit_of (hex_digit n) = Some (Z.of_nat n).
Proof. intros H. do 16 (destruct n as [|n]; [done|]). lia. Qed.

(** A buffer survives its hexadecimal text. *)
Lemma bytes_of_hex_of_bytes l : Forall (λ b, 0 ≤ b < 256) l → bytes_of_hex (hex_of_bytes l) = l.
Proof.
  induction 1 as [|b l Hb Hl IH]; [done|]. simpl.
  assert (0 ≤ b / 16 < 16) by (split; [apply Z.div_pos|apply Z.div_lt_upper_bound]; lia).
  assert (0 ≤ b mod 16 < 16) by (apply Z.mod_pos_bound; lia).
  rewrite !hex_digit_value by lia. rewrite !Z2Nat.id by lia.
  rewrite !(proj2 (Z.ltb_lt _ 16)) by lia. simpl. rewrite IH. f_equal.
  pose proof (Z.div_mod b 16). lia.
Qed.
