(* ===== verification/Utils.v ===== *)
(** * The indexer's shared code

    One Module per file: the remote calls (utils/request.js), the memoised
    constants (constants.js), the key-value store (database/mysqlKVStore.js)
    and the helpers of utils/ and of dataService/business that the
    transaction processors call.  Logging is not modelled, except where the
    text logged can throw. *)
From S2P Require Export Env Schemas.
Open Scope string_scope.
Open Scope Z_scope.
Open Scope list_scope.

(** [a + b] *)
Definition js_add (a b : val) : result val :=
  match a, b with
  | VStr _, _ | _, VStr _ | VArr _, _ | _, VArr _ | VObj _, _ | _, VObj _ => Ok (VStr (to_string a +:+ to_string b))
  | VBig x, VBig y => Ok (VBig (x + y))
  | VBig _, _ | _, VBig _ => Err (type_error "Cannot mix BigInt and other types, use explicit conversions")
  | _, _ => Ok (num_add (to_number a) (to_number b))
  end.

(** [a - b] on values. *)
Definition js_sub (a b : val) : result val :=
  match a, b with
  | VBig x, VBig y => Ok (VBig (x - y))
  | VBig _, _ | _, VBig _ => Err (type_error "Cannot mix BigInt and other types, use explicit conversions")
  | _, _ => Ok (num_sub (to_number a) (to_number b))
  end.

(** ** utils/request.js *)
Module Request.

Definition requestRpc (service method : string) (params : val) : prog val :=
  data ← call (CRpc service method params);
  if isObject data && truthy (field data "error") then
    m ← (field data "error") @. "message";
    Throw (js_error (match m with VUndef => "" | _ => to_string m end))
  else Ret data.

Definition requestConnector (method : string) (params : val) : prog val :=
  requestRpc "connector" method (or_default params (VObj [])).

Definition requestAppRegistry (method : string) (params : val) : prog val :=
  requestRpc "app-registry" method (or_default params (VObj [])).

End Request.
Import Request.

(** ** constants.js *)
Module Constants.

Definition updateFinalizedHeight : prog unit :=
  status ← requestConnector "getNetworkStatus" VUndef;
  latestFinalizedHeight ← status @. "finalizedHeight";
  _ ← call (CVarSet "constants.finalizedHeight" latestFinalizedHeight);
  Ret tt.

Definition getFinalizedHeight : prog val :=
  finalizedHeight ← call (CVarGet "constants.finalizedHeight");
  _ ← (if bool_decide (typeof finalizedHeight ≠ "number") then updateFinalizedHeight else Ret tt);
  call (CVarGet "constants.finalizedHeight").

Definition getGenesisHeight : prog val :=
  genesisHeight ← call (CVarGet "constants.genesisHeight");
  _ ← (if bool_decide (typeof genesisHeight ≠ "number") then
         h ← requestConnector "getGenesisHeight" VUndef;
         _ ← call (CVarSet "constants.genesisHeight" h); Ret tt
       else Ret tt);
  call (CVarGet "constants.genesisHeight").

Definition getCurrentHeight : prog val :=
  status ← requestConnector "getNetworkStatus" VUndef;
  status @. "height".

(** A variable filled on its first use. *)
Definition memoised (x : string) (compute : prog val) : prog val :=
  v ← call (CVarGet x);
  _ ← (if truthy v then Ret tt else v' ← compute; _ ← call (CVarSet x v'); Ret tt);
  call (CVarGet x).

Definition getGenesisConfig : prog val :=
  memoised "constants.genesisConfig" (requestConnector "getGenesisConfig" VUndef).

Definition resolveModuleCommands (systemMeta : val) : prog val :=
  modules ← array_method systemMeta "forEach";
  commands ← pmap (λ module,
    cs ← module @. "commands";
    cs ← array_method cs "forEach";
    pmap (λ command, m ← module @. "name"; c ← command @. "name"; Ret (VStr (tpl m +:+ ":" +:+ tpl c))) cs) modules;
  Ret (VArr (concat commands)).

Definition getAvailableModuleCommands : prog val :=
  memoised "constants.moduleCommands"
    (response ← requestConnector "getSystemMetadata" VUndef;
     modules ← response @. "modules";
     resolveModuleCommands modules).

Definition getRegisteredModules : prog val :=
  memoised "constants.registeredModules"
    (response ← requestConnector "getSystemMetadata" VUndef;
     modules ← response @. "modules";
     ms ← array_method modules "map";
     names ← pmap (λ module, module @. "name") ms;
     Ret (VArr names)).

Definition getSystemMetadata : prog val :=
  memoised "constants.systemMetadata" (requestConnector "getSystemMetadata" VUndef).

Definition MODULE_POS : string := "pos".
Definition MODULE_DYNAMIC_REWARD : string := "dynamicReward".
Definition MODULE_REWARD : string := "reward".
Definition MODULE_TOKEN : string := "token".
Definition LENGTH_CHAIN_ID : Z := 4 * 2.
Definition LENGTH_TOKEN_LOCAL_ID : Z := 4 * 2.
Definition LENGTH_TOKEN_ID : Z := LENGTH_CHAIN_ID + LENGTH_TOKEN_LOCAL_ID.
Definition LENGTH_NETWORK_ID : Z := 1 * 2.
Definition PATTERN_ANY_TOKEN_ID : string := "*".
Definition PATTERN_ANY_CHAIN_TOKEN_ID : string := repeat_char "*" (Z.to_nat LENGTH_TOKEN_LOCAL_ID).
Definition MAX_COMMISSION : Z := 10000.
Definition PREFIX_TOTAL_LOCKED : string := "total_locked_".
Definition PREFIX_TOTAL_STAKED : string := "total_staked_".
Definition PREFIX_TOTAL_SELF_STAKED : string := "total_self_staked_".
Definition TRANSACTION_STATUS_SUCCESS : string := "success".
Definition TRANSACTION_STATUS_FAIL : string := "fail".
Definition EVENT_LOCK : string := "lock".
Definition EVENT_UNLOCK : string := "unlock".
Definition EVENT_COMMAND_EXECUTION_RESULT : string := "commandExecutionResult".
Definition EVENT_REWARD_MINTED : string := "rewardMinted".
Definition DEV_ADDRESS : string := "lskh96jgzfftzff2fta2zvsmba9mvs5cnz9ahr3ke".

End Constants.
Import Constants.

(** ** database/mysqlKVStore.js *)
Module KvStore.
Section kv.
Context {CFG : Config}.

Definition ALLOWED_VALUE_TYPES : list string := ["boolean"; "number"; "bigint"; "string"; "undefined"].

Definition getKeyValueTable : prog table :=
  Mysql.getTableInstance (tableName Schemas.kvStore) Schemas.kvStore MYSQL_ENDPOINT.

Definition kv_row (key : string) (value : val) : val :=
  let finalValue := match value with VUndef => VUndef | _ => VStr (to_string value) end in
  VObj [("key", VStr key); ("value", finalValue); ("type", VStr (typeof value))].

Definition set (key : string) (value : val) (dbTrx : option Z) : prog unit :=
  keyValueTable ← getKeyValueTable;
  _ ← guard_throw (bool_decide (typeof value ∉ ALLOWED_VALUE_TYPES))
        (js_error ("Allowed 'value' types are: " +:+ join "," ALLOWED_VALUE_TYPES));
  _ ← Mysql.upsert keyValueTable (kv_row key value) dbTrx;
  Ret tt.

Definition formatValue (value type : val) : result val :=
  if strict_eq type (VStr "boolean") then Ok (VBool (truthy value))
  else if strict_eq type (VStr "number") then Ok (to_number value)
  else if strict_eq type (VStr "bigint") then z ← to_bigint value; Ok (VBig z)
  else if strict_eq type (VStr "string") then Ok (VStr (to_string value))
  else if strict_eq type (VStr "undefined") then Ok VUndef
  else Ok value.

Definition get (key : string) : prog val :=
  keyValueTable ← getKeyValueTable;
  rows ← Mysql.find keyValueTable (VObj [("key", VStr key); ("limit", VNum 1)]) (strs ["value"; "type"]);
  row ← first_of rows;
  let row := or_default row (VObj []) in
  value ← row @. "value";
  type ← row @. "type";
  lift (formatValue value type).

Definition getByPattern (pattern : string) : prog val :=
  keyValueTable ← getKeyValueTable;
  result ← Mysql.find keyValueTable
    (VObj [("search", VObj [("property", VStr "key"); ("pattern", VStr pattern)])])
    (strs ["key"; "value"; "type"]);
  rows ← array_method result "map";
  formatted ← pmap (λ row,
    key ← row @. "key"; value ← row @. "value"; type ← row @. "type";
    v ← lift (formatValue value type);
    Ret (VObj [("key", key); ("value", v)])) rows;
  Ret (VArr formatted).

Definition deleteEntry (key : string) (dbTrx : option Z) : prog val :=
  keyValueTable ← getKeyValueTable;
  Mysql.deleteByPrimaryKey keyValueTable (strs [key]) dbTrx.

End kv.
End KvStore.

(** ** utils/account.js *)
Module Account.
Section account.
Context {CFG : Config} {LC : LiskCrypto}.

Definition getAccountsTable : prog table :=
  Mysql.getTableInstance (tableName Schemas.accounts) Schemas.accounts MYSQL_ENDPOINT.

Definition getIndexedAccountInfo (params columns : val) : prog val :=
  if negb (has_key (props params) "publicKey") || truthy (field params "publicKey") then
    accountsTable ← getAccountsTable;
    rows ← Mysql.find accountsTable (spread (VObj [("limit", VNum 1)]) params) columns;
    account ← first_of rows;
    Ret (or_default account (VObj []))
  else Ret (VObj []).

Definition getLegacyFormatAddressFromPublicKey (publicKey : val) : result string :=
  b ← buffer_from_hex publicKey; legacy_of_publicKey b.

Definition getLisk32AddressFromPublicKey (publicKey : val) : result string :=
  b ← buffer_from_hex publicKey; lisk32_of_publicKey b.

Definition getLisk32AddressFromHexAddress (address : val) : result string :=
  b ← buffer_from_hex address; lisk32_of_address b.

Definition getLisk32Address (address : string) : result string :=
  if starts_with "lsk" address then Ok address else getLisk32AddressFromHexAddress (VStr address).

Definition getHexAddress (address : string) : result string :=
  if starts_with "lsk" address then b ← address_of_lisk32 address; Ok (hex_of_bytes b) else Ok address.

Definition updateAccountPublicKey (publicKey : val) : prog unit :=
  accountsTable ← getAccountsTable;
  address ← lift (getLisk32AddressFromPublicKey publicKey);
  _ ← Mysql.upsert accountsTable (VObj [("address", VStr address); ("publicKey", publicKey)]) None;
  Ret tt.

End account.
End Account.

(** ** dataService/business/pos/constants.js *)
Module PosConstants.

Definition getPosConstants : prog val :=
  moduleConstants ← call (CVarGet "pos.moduleConstants");
  _ ← (match moduleConstants with
       | VUndef => c ← requestConnector "getPosConstants" VUndef;
                   _ ← call (CVarSet "pos.moduleConstants" c); Ret tt
       | _ => Ret tt
       end);
  data ← call (CVarGet "pos.moduleConstants");
  Ret (VObj [("data", data); ("meta", VObj [])]).

Definition getPosTokenID : prog val :=
  response ← getPosConstants;
  data ← response @. "data";
  data @. "posTokenID".

End PosConstants.

(** ** utils/pos.js and utils/token.js *)
Module Totals.
Section totals.
Context {CFG : Config}.

Definition getStakeInfo (keyPrefix : string) : prog val :=
  rows ← KvStore.getByPattern keyPrefix;
  row ← first_of rows;
  stakeAmount ← (if truthy row then
                   value ← row @. "value";
                   if truthy value then s ← method_toString value; Ret s else Ret "0"
                 else Ret "0");
  tokenID ← PosConstants.getPosTokenID;
  Ret (VObj [("tokenID", tokenID); ("amount", VStr stakeAmount)]).

Definition getTotalStaked : prog val := getStakeInfo PREFIX_TOTAL_STAKED.
Definition getTotalSelfStaked : prog val := getStakeInfo PREFIX_TOTAL_SELF_STAKED.

Definition getTotalLocked : prog val :=
  lockAmountsInfo ← KvStore.getByPattern PREFIX_TOTAL_LOCKED;
  infos ← array_method lockAmountsInfo "map";
  out ← pmap (λ info,
    key ← info @. "key"; value ← info @. "value";
    parts ← lift (Mysql.split2 key PREFIX_TOTAL_LOCKED);
    amount ← method_toString value;
    Ret (VObj [("tokenID", match last parts with Some s => VStr s | None => VUndef end);
               ("amount", VStr amount)])) infos;
  Ret (VArr out).

End totals.
End Totals.

(** ** utils/blockchainIndex.js *)
Module LockedAmounts.
Section locked.
Context {CFG : Config}.

(** One entry of the map: reads the stored total and stores the new one. *)
Definition updateTotalLockedAmount (dbTrx : option Z) (change : string * Z) : prog unit :=
  let tokenKey := PREFIX_TOTAL_LOCKED +:+ change.1 in
  stored ← KvStore.get tokenKey;
  curLockedAmount ← lift (to_bigint (js_or stored (VNum 0)));
  KvStore.set tokenKey (VBig (curLockedAmount + change.2)) dbTrx.

Definition updateTotalLockedAmounts (changes : list (string * Z)) (dbTrx : option Z) : prog unit :=
  piter (updateTotalLockedAmount dbTrx) changes.

End locked.
End LockedAmounts.
