(* ===== verification/Helpers.v ===== *)
(** * The indexer's pure helpers

    utils/parser.js, utils/transactions.js, utils/events.js, utils/array.js,
    utils/param.js and utils/requestAll.js of services/blockchain-indexer. *)
From S2P Require Export Utils.
Open Scope string_scope.
Open Scope Z_scope.
Open Scope list_scope.

(** ** utils/parser.js *)
Module Parser.

(** Values received as JSON hold no [Buffer], so its branches are left out.
    A BigInt that is an element of an array is tested for truthiness first:
    [0n] stays as it is. *)
Fixpoint parseToJSONCompatObj (obj : val) : val :=
  match obj with
  | VBig z => if z =? 0 then VBig 0 else VStr (pretty z)
  | VArr l => VArr (map parseToJSONCompatObj l)
  | VObj o =>
      VObj (map (λ kv, (kv.1,
        match kv.2 with
        | VBig z => VStr (pretty z)
        | VArr l => VArr (map parseToJSONCompatObj l)
        | VObj _ => parseToJSONCompatObj kv.2
        | v => v
        end)) o)
  | _ => obj
  end.

End Parser.

(** ** utils/transactions.js *)
Module Transactions.

Definition normalizeTransaction (tx : val) : prog val :=
  m ← tx @. "module"; c ← tx @. "command";
  Ret (Parser.parseToJSONCompatObj (set_field tx "moduleCommand" (VStr (tpl m +:+ ":" +:+ tpl c)))).

Definition getTransactionExecutionStatus (tx : val) (events : list val) : prog val :=
  m ← tx @. "module";
  let expectedEventName := tpl m +:+ ":" +:+ Constants.EVENT_COMMAND_EXECUTION_RESULT in
  commandExecResultEvents ← pfilter (λ e,
    em ← e @. "module"; en ← e @. "name";
    Ret (bool_decide (tpl em +:+ ":" +:+ tpl en = expectedEventName))) events;
  txExecResultEvent ← pfind (λ e,
    topics ← e @. "topics"; id ← tx @. "id"; method_includes topics id) commandExecResultEvents;
  if truthy txExecResultEvent then
    data ← txExecResultEvent @. "data";
    success ← data @. "success";
    Ret (VStr (if truthy success then Constants.TRANSACTION_STATUS_SUCCESS else Constants.TRANSACTION_STATUS_FAIL))
  else
    id ← tx @. "id";
    Throw (js_error ("Event unavailable to determine execution status for transaction: " +:+ tpl id +:+ ".")).

End Transactions.

(** ** utils/events.js *)
Module Events.
Section events.
Context {CFG : Config}.

Definition LAST_DELETED_EVENTS_HEIGHT : string := "lastDeletedEventsHeight".

Definition getEventsTable : prog table :=
  Mysql.getTableInstance (tableName Schemas.events) Schemas.events MYSQL_ENDPOINT.

(** The rows of one event: the events table's and the event_topics table's. *)
Definition eventInfoToIndex (block event : val) : prog (val * list val) :=
  id ← event @. "id"; name ← event @. "name"; module ← event @. "module"; index ← event @. "index";
  height ← block @. "height"; isFinal ← block @. "isFinal";
  let eventInfo := [("id", id); ("name", name); ("module", module); ("height", height); ("index", index)] in
  eventInfo ← (if negb (truthy isFinal) || db_isPersistEvents then
                 eventStr ← lift (json_stringify event);
                 Ret (oset eventInfo "eventStr" eventStr)
               else Ret eventInfo);
  topics ← event @. "topics";
  topics ← array_method topics "forEach";
  timestamp ← block @. "timestamp";
  topicInfos ← pmap (λ topic,
    tempID ← str_concat id (to_string topic);
    Ret (VObj [("tempID", tempID); ("eventID", id); ("height", height); ("index", index);
               ("timestamp", timestamp); ("topic", topic)])) topics;
  Ret (VObj eventInfo, topicInfos).

Definition getEventsInfoToIndex (block : val) (events : list val) : prog (list val * list val) :=
  infos ← pmap (eventInfoToIndex block) events;
  Ret (map fst infos, concat (map snd infos)).

Definition deleteEventStrTillFinalizedHeight : prog unit :=
  eventsTable ← getEventsTable;
  fromHeight ← KvStore.get LAST_DELETED_EVENTS_HEIGHT;
  toHeight ← Constants.getFinalizedHeight;
  connection ← Mysql.getDbConnection MYSQL_ENDPOINT;
  dbTrx ← Mysql.startDbTransaction connection;
  catch
    (from ← (if truthy fromHeight then lift (js_add fromHeight (VNum 1)) else Constants.getGenesisHeight);
     let queryParams := VObj [("propBetweens", VArr [VObj [("property", VStr "height"); ("from", from); ("to", toHeight)]])] in
     _ ← Mysql.update eventsTable
           (VObj [("where", queryParams); ("updates", VObj [("eventStr", VNull)])]) (Some dbTrx);
     _ ← KvStore.set LAST_DELETED_EVENTS_HEIGHT toHeight (Some dbTrx);
     _ ← Mysql.commitDbTransaction dbTrx;
     Ret tt)
    (λ _, _ ← Mysql.rollbackDbTransaction dbTrx; Ret tt).

End events.
End Events.

(** ** utils/array.js *)
Module Arr.

(** [t === v] for the elements at two places of an array: an object is equal to itself. *)
Definition same_elem (it iv : nat * val) : bool :=
  strict_eq it.2 iv.2 || (Nat.eqb it.1 iv.1 && isObject iv.2).

Definition dropDuplicates (arr : list val) : list val :=
  map snd (List.filter (λ iv, bool_decide (find_index (λ it, same_elem it iv) (imap pair arr) = Some iv.1))
                       (imap pair arr)).

Definition range (start : Z) (end_ : option Z) (step : Z) : result (list Z) :=
  let '(start, end_) := match end_ with
                        | None | Some 0 => (0, start)
                        | Some e => (start, e)
                        end in
  let arrSize := (end_ - start) / step in
  if (step =? 0) || (arrSize <? 0) || (2 ^ 32 <=? arrSize)
  then Err (mkExn "RangeError" "Invalid array length")
  else Ok (map (λ index, start + Z.of_nat index * step) (seq 0 (Z.to_nat arrSize))).

End Arr.

(** ** utils/param.js *)
Module Param.

Definition validation_exception (m : string) : exn := mkExn "ValidationException" m.

Definition normalizeRangeParam (params : val) (property : string) : result val :=
  match params with
  | VObj o =>
      let propBetweens := arr_of (field params "propBetweens") in
      match field params property with
      | VStr s =>
          if str_includes ":" s then
            let parts := split_char ":" s in
            let fromStr := default "" (parts !! 0%nat) in
            let toStr := default "" (parts !! 1%nat) in
            let from := to_number (VStr fromStr) in
            let to := to_number (VStr toStr) in
            if is_nan from || is_nan to then
              Err (validation_exception ("Invalid (non-numeric) '" +:+ property +:+ "' range values supplied: " +:+ s +:+ "."))
            else if bool_decide (fromStr ≠ "") && bool_decide (toStr ≠ "") && js_gt from to then
              Err (validation_exception ("From " +:+ property +:+ " cannot be greater than to " +:+ property +:+ "."))
            else
              let bound :=
                if bool_decide (fromStr = "") then [("property", VStr property); ("to", to)]
                else if bool_decide (toStr = "") then [("property", VStr property); ("from", from)]
                else [("property", VStr property); ("from", from); ("to", to)] in
              Ok (VObj (ospread (odel o property) [("propBetweens", VArr (propBetweens ++ [VObj bound]))]))
          else Ok params
      | _ => Ok params
      end
  | _ => Ok params
  end.

End Param.

(** ** utils/requestAll.js *)
Module RequestAll.
Section requestAll.
(** The remote call [fn(method, params)], the method fixed. *)
Context (fn : list (string * val) → prog val).

Definition merge_object (total result : list (string * val)) : prog (list (string * val)) :=
  pfold (λ acc kv,
    match kv.2 with
    | VArr l =>
        more ← iter_list (field (VObj result) kv.1);
        Ret (oset acc kv.1 (VArr (l ++ more)))
    | VObj _ => Ret (oset acc kv.1 (spread kv.2 (field (VObj result) kv.1)))
    | _ => Ret (oset acc kv.1 (field (VObj result) kv.1))
    end) total total.

Definition merge (total result : val) : prog val :=
  match total with
  | VArr l => more ← iter_list result; Ret (VArr (l ++ more))
  | VObj o => o' ← merge_object o (props result); Ret (VObj o')
  | _ => Ret total
  end.

Definition page_params (params : list (string * val)) (limit offset : Z) : list (string * val) :=
  ospread (ospread [] params) [("limit", VNum limit); ("offset", VNum offset)].

(** The loop over the pages from [page] on; at most [n] of them are left. *)
Fixpoint pages (n : nat) (page oneRequestLimit maxAmount : Z) (params : list (string * val))
    (total : val) : prog val :=
  match n with
  | O => Ret total
  | S n' =>
      let curOffset := oneRequestLimit * page in
      result ← fn (page_params params (Z.min oneRequestLimit (maxAmount - curOffset)) curOffset);
      if negb (truthy result) || isEmptyArray result || isEmptyObject result then Ret total
      else total' ← merge total result;
           pages n' (page + 1) oneRequestLimit maxAmount params total'
  end.

(** [params.limit] and [limit] are positive integers when they are given. *)
Definition requestAll (params : list (string * val)) (limit : option Z) : prog val :=
  let maxAmount := match limit with None | Some 0 => 10 ^ 9 | Some l => l end in
  let oneRequestLimit := match field (VObj params) "limit" with VNum 0 => 100 | VNum z => z | _ => 100 end in
  firstRequest ← fn (page_params params oneRequestLimit 0);
  err ← firstRequest @. "error";
  if truthy err then Ret firstRequest
  else if oneRequestLimit <? maxAmount then
    let numPages := - ((- maxAmount) / oneRequestLimit) in   (* Math.ceil(maxAmount / oneRequestLimit) *)
    pages (Z.to_nat (numPages - 1)) 1 oneRequestLimit maxAmount params firstRequest
  else Ret firstRequest.

End requestAll.
End RequestAll.
