(* ===== verification/Validators.v ===== *)
(** * Validators and generators

    The validator list the indexer keeps in memory: its weights
    (dataService/business/pos/validators.js), the generators
    (dataService/business/generators.js), the last block
    (dataService/blocks.js), and the ranks and statuses
    (dataService/pos/validators.js). *)
From S2P Require Export Helpers.
Open Scope string_scope.
Open Scope Z_scope.
Open Scope list_scope.

(** An integer argument of [slice]. *)
Definition int_arg (v : val) : Z := match to_number v with VNum z => z | _ => 0 end.

(** ** dataService/blocks.js: the last block, in the Redis cache *)
Module LastBlock.

Definition LAST_BLOCK_KEY : string := "lastBlock".

Definition setLastBlock (block : val) : prog val :=
  text ← lift (json_stringify block);
  call (CCacheSet "lastBlock" LAST_BLOCK_KEY text).

Definition getLastBlock : prog val :=
  lastBlockString ← call (CCacheGet "lastBlock" LAST_BLOCK_KEY);
  if truthy lastBlockString then lift (json_parse (to_string lastBlockString)) else Ret (VObj []).

Definition getTotalNumberOfBlocks : prog val :=
  lastBlock ← getLastBlock;
  height ← lastBlock @. "height";
  genesisHeight ← Constants.getGenesisHeight;
  Ret (num_add (num_sub (to_number height) (to_number genesisHeight)) (VNum 1)).

Definition performLastBlockUpdate (newBlock : val) : prog unit :=
  catch (_ ← newBlock @. "height"; _ ← newBlock @. "id"; _ ← setLastBlock newBlock; Ret tt)
        (λ _, Ret tt).

End LastBlock.

(** ** utils/validator.js: the names in the Redis cache *)
Module ValidatorNames.
Section names.
Context {CFG : Config}.

Definition getNameByAddress (address : val) : prog val :=
  if truthy address then
    name ← call (CCacheGet "validator" (to_string address));
    if truthy name then
      (* the index is updated without waiting for it *)
      accountsTable ← Account.getAccountsTable;
      _ ← detach (Mysql.upsert accountsTable (VObj [("address", address); ("name", name)]) None);
      Ret name
    else Ret VNull
  else Ret VNull.

Definition getAddressByName (name : val) : prog val :=
  if truthy name then
    address ← call (CCacheGet "validator" (to_string name));
    if truthy address then Ret address else Ret VNull
  else Ret VNull.

End names.
End ValidatorNames.

(** ** dataService/business/pos/validators.js *)
Module PosBusiness.

Definition verifyIfPunished (validator : val) : prog bool :=
  latestBlockString ← call (CCacheGet "lastBlock" "lastBlock");
  latestBlock ← (if truthy latestBlockString then lift (json_parse (to_string latestBlockString))
                 else Ret (VObj []));
  heights ← validator @. "reportMisbehaviorHeights";
  hs ← array_method heights "some";
  found ← pfind (λ h,
    start ← h @. "start"; height ← latestBlock @. "height";
    if js_le start height then end_ ← h @. "end"; Ret (js_le height end_) else Ret false) hs;
  Ret (match found with VUndef => false | _ => true end).

(** The weight of a validator: its total stake, at most ten times its own. *)
Definition setValidatorWeight (validator : val) : prog val :=
  isBanned ← validator @. "isBanned";
  punished ← (if truthy isBanned then Ret true else verifyIfPunished validator);
  if punished : bool then Ret (set_field validator "validatorWeight" (VBig 0)) else
  selfStake ← validator @. "selfStake";
  selfStake ← lift (to_bigint selfStake);
  let cap := selfStake * 10 in
  totalStake ← validator @. "totalStake";
  totalStake ← lift (to_bigint totalStake);
  let validator := set_field validator "totalStake" (VBig totalStake) in
  Ret (set_field validator "validatorWeight" (VBig (if cap <? totalStake then cap else totalStake))).

Definition getPosValidators (params : val) : prog val :=
  address ← params @. "address"; addresses ← params @. "addresses";
  let validatorAddressList := if truthy address then VArr [address] else addresses in
  validators ← bluebird_map validatorAddressList (λ validatorAddress,
    validator ← Request.requestConnector "getPosValidator" (VObj [("address", validatorAddress)]);
    setValidatorWeight validator);
  Ret (VArr validators).

Definition getAllPosValidators : prog val :=
  response ← Request.requestConnector "getAllPosValidators" VUndef;
  rawValidators ← response @. "validators";
  validators ← bluebird_map rawValidators setValidatorWeight;
  Ret (VArr validators).

Definition getPosValidatorsByStake (params : val) : prog val :=
  limit ← params @. "limit";
  response ← Request.requestConnector "getPosValidatorsByStake" (VObj [("limit", limit)]);
  response @. "validators".

Definition isPosModuleRegistered : prog bool :=
  isPosRegistered ← call (CVarGet "pos.isPosRegistered");
  _ ← (match isPosRegistered with
       | VUndef =>
           response ← Request.requestConnector "getSystemMetadata" VUndef;
           modules ← response @. "modules";
           ms ← array_method modules "some";
           found ← pfind (λ module, n ← module @. "name"; Ret (strict_eq n (VStr Constants.MODULE_POS))) ms;
           _ ← call (CVarSet "pos.isPosRegistered" (VBool (match found with VUndef => false | _ => true end)));
           Ret tt
       | _ => Ret tt
       end);
  v ← call (CVarGet "pos.isPosRegistered");
  Ret (truthy v).

End PosBusiness.

(** ** dataService/business/generators.js *)
Module Generators.
Section generators.
Context {CFG : Config}.

Definition getGeneratorsInfo : prog val :=
  response ← Request.requestConnector "getGenerators" VUndef;
  generatorsList ← response @. "list";
  gs ← iter_list generatorsList;
  generators ← pmap (λ generator,
    address ← generator @. "address";
    info ← Account.getIndexedAccountInfo (VObj [("address", address); ("limit", VNum 1)])
             (strs ["name"; "publicKey"]);
    name ← info @. "name"; publicKey ← info @. "publicKey";
    name ← (if truthy name then Ret name else ValidatorNames.getNameByAddress address);
    Ret (VObj (ospread (ospread [] (props generator)) [("name", name); ("publicKey", publicKey)]))) gs;
  Ret (VArr generators).

(** The constants are the [data] of the response: both numbers are undefined. *)
Definition getNumberOfGenerators : prog val :=
  constants ← PosConstants.getPosConstants;
  a ← constants @. "numberActiveValidators"; b ← constants @. "numberStandbyValidators";
  lift (js_add a b).

Definition generatorsListCache : string := "generators.generatorsListCache".

Definition reloadGeneratorsCache : prog unit :=
  catch (l ← getGeneratorsInfo; _ ← call (CVarSet generatorsListCache l); Ret tt)
        (λ err, Throw err).

(** The module's variable starts as the empty array. *)
Definition getGenerators : prog (list val) :=
  cached ← call (CVarGet generatorsListCache);
  _ ← (match arr_of cached with [] => reloadGeneratorsCache | _ => Ret tt end);
  v ← call (CVarGet generatorsListCache);
  Ret (arr_of v).

End generators.
End Generators.

(** ** dataService/pos/validators.js *)
Module Validators.
Section validators.
Context {CFG : Config} {LC : LiskCrypto} {LT : LiskTransactions} {LO : Locale}.

Definition validatorList : string := "validators.validatorList".

Definition getValidatorList : prog (list val) :=
  v ← call (CVarGet validatorList); Ret (arr_of v).

Definition setValidatorList (l : list val) : prog unit :=
  _ ← call (CVarSet validatorList (VArr l)); Ret tt.

Definition bigint_field (v : val) (k : string) : result Z := x ← prop v k; to_bigint x.

Definition string_method (v : val) (m : string) : result string :=
  match v with
  | VStr s => Ok s
  | VUndef | VNull => _ ← prop v m; Err (not_a_function m)
  | _ => Err (not_a_function m)
  end.

(** Heavier validators first; equal weights by hex address. *)
Definition validatorComparator (a b : val) : result comparison :=
  wb ← bigint_field b "validatorWeight";
  wa ← bigint_field a "validatorWeight";
  match wb - wa with
  | 0 =>
      ha ← prop a "hexAddress"; sa ← string_method ha "localeCompare";
      hb ← prop b "hexAddress";
      Ok (localeCompare sa (to_string hb))
  | diff => Ok (diff ?= 0)
  end.

Definition withHexAddress (validator : val) : result val :=
  address ← prop validator "address";
  address ← string_method address "startsWith";
  h ← Account.getHexAddress address;
  Ok (VObj (ospread (ospread [] (props validator)) [("hexAddress", VStr h)])).

Definition rankAll (l : list val) : list val :=
  imap (λ i v, set_field v "rank" (VNum (Z.of_nat i + 1))) l.

(** The sorted copy is dropped: ranks follow the order of the list as it is. *)
Definition computeValidatorRank : prog unit :=
  l ← getValidatorList;
  withHex ← lift (result_list (map withHexAddress l));
  _ ← lift (js_sort validatorComparator withHex);
  setValidatorList (rankAll l).

Definition slice_to (e : val) (l : list val) : list val :=
  match e with VUndef => l | _ => slice 0 (int_arg e) l end.

Definition slice_from (s : Z) (l : list val) : list val := slice s (Z.of_nat (length l)) l.

(** [latestHeight] is the height of the block compared with: [getLastBlock]
    is not awaited, so it is the property of a promise, [undefined]. *)
Definition isPunishedAt (latestHeight : val) (validator : val) : result bool :=
  periods ← prop validator "punishmentPeriods";
  match periods with
  | VArr ps =>
      rsome (λ p,
        start ← prop p "start";
        if js_le start latestHeight then end_ ← prop p "end"; Ok (js_le latestHeight end_) else Ok false) ps
  | VUndef | VNull => _ ← prop periods "some"; Err (not_a_function "some")
  | _ => Err (not_a_function "some")
  end.

Definition statusOf (latestHeight : val) (active standby : list val) (minWeight : val) (validator : val) :
    result string :=
  isBanned ← prop validator "isBanned";
  if truthy isBanned then Ok "banned" else
  punished ← isPunishedAt latestHeight validator;
  if punished : bool then Ok "punished" else
  address ← prop validator "address";
  if val_includes active address then Ok "active"
  else if val_includes standby address then Ok "standby" else
  weight ← bigint_field validator "validatorWeight";
  min ← to_bigint minWeight;
  if min <=? weight then Ok "standby" else Ok "ineligible".

Definition setStatus (latestHeight : val) (active standby : list val) (minWeight : val) (validator : val) :
    result val :=
  status ← statusOf latestHeight active standby minWeight validator;
  Ok (set_field validator "status" (VStr status)).

Definition computeValidatorStatus : prog val :=
  constants ← PosConstants.getPosConstants;
  data ← constants @. "data";
  numberActiveValidators ← data @. "numberActiveValidators";
  numberStandbyValidators ← data @. "numberStandbyValidators";
  minEligible ← lift (convertLSKToBeddows "1000");
  _ ← detach LastBlock.getLastBlock;
  let latestHeight := VUndef in
  generatorsList ← Generators.getGenerators;
  generatorAddresses ← pmap (λ g, g @. "address") generatorsList;
  l ← getValidatorList;
  inGenerators ← pfilter (λ v, a ← v @. "address"; Ret (val_includes generatorAddresses a)) l;
  withHex ← lift (result_list (map withHexAddress inGenerators));
  generatorInfo ← lift (js_sort validatorComparator withHex);
  active ← pmap (λ acc, acc @. "address") (slice_to numberActiveValidators generatorInfo);
  let from := int_arg (num_sub (VNum (Z.of_nat (length generatorInfo))) (to_number numberStandbyValidators)) in
  standby ← pmap (λ acc, acc @. "address") (slice_from from generatorInfo);
  let '(updated, res) := for_each_set (setStatus latestHeight active standby (VStr minEligible)) l in
  _ ← setValidatorList updated;
  _ ← lift res;
  Ret (VArr updated).

Definition loadAllPosValidators : prog unit :=
  catch
    (all ← PosBusiness.getAllPosValidators;
     _ ← call (CVarSet validatorList all);
     accountsTable ← Account.getAccountsTable;
     _ ← bluebird_map all (λ validator,
       address ← validator @. "address"; name ← validator @. "name";
       _ ← call (CCacheSet "validator" (to_string address) name);
       _ ← call (CCacheSet "validator" (to_string name) address);
       Mysql.upsert accountsTable (VObj [("address", address); ("name", name); ("isValidator", VBool true)]) None);
     Ret tt)
    (λ _, Ret tt).

Definition reloadValidatorCache : prog unit :=
  registered ← PosBusiness.isPosModuleRegistered;
  if registered : bool then
    _ ← loadAllPosValidators;
    _ ← computeValidatorRank;
    _ ← computeValidatorStatus;
    Ret tt
  else Ret tt.

Definition getAllValidators : prog (list val) :=
  l ← getValidatorList;
  _ ← (match l with [] => reloadValidatorCache | _ => Ret tt end);
  getValidatorList.

End validators.
End Validators.
