(* ===== verification/Processor.v ===== *)
(** * Transaction processors: what they have in common

    A processor of services/blockchain-indexer/shared/indexer/
    transactionProcessor applies and reverts one command.  A handler gets the
    block header, the transaction, the events of the block and the database
    transaction its writes belong to. *)
From S2P Require Export Validators.
Open Scope string_scope.
Open Scope Z_scope.
Open Scope list_scope.

Definition handler := val → val → val → Z → prog val.

Record processor := mkProcessor {
  COMMAND_NAME : string;
  applyTransaction : handler;
  revertTransaction : handler;
}.

(** An [async] function with an empty body. *)
Definition nothing : handler := λ blockHeader tx events dbTrx, Ret VUndef.

(** blockchain-connector/shared/sdk/constants/names.js: the names used. *)
Module Names.
Definition EVENT_NAME_COMMAND_EXECUTION_RESULT : string := "commandExecutionResult".
Definition MODULE_NAME_COLLECTION : string := "collection".
Definition EVENT_NAME_COLLECTION_CREATED : string := "collectionCreated".
Definition MODULE_NAME_AUDIO : string := "audio".
Definition EVENT_NAME_AUDIO_CREATED : string := "audioCreated".
Definition EVENT_NAME_AUDIO_STREAMED : string := "audioStreamed".
Definition EVENT_NAME_AUDIO_INCOME_RECLAIMED : string := "audioIncomeReclaimed".
Definition MODULE_NAME_PROFILE : string := "profile".
Definition EVENT_NAME_PROFILE_CREATED : string := "profileCreated".
End Names.

Section helpers.
Context {CFG : Config} {LC : LiskCrypto}.

Definition tableOf (s : table_schema) : prog table := Mysql.getTableInstance (tableName s) s MYSQL_ENDPOINT.

(** [getLisk32AddressFromPublicKey(tx.senderPublicKey)] *)
Definition senderAddressOf (tx : val) : prog string :=
  pk ← tx @. "senderPublicKey"; lift (Account.getLisk32AddressFromPublicKey pk).

(** [events.find(({ module, name }) => module === m && name === n)] *)
Definition findEvent (events : val) (m n : string) : prog val :=
  es ← array_method events "find";
  pfind (λ e, module ← e @. "module"; name ← e @. "name";
              Ret (strict_eq module (VStr m) && strict_eq name (VStr n))) es.

(** [const { data: d = {} } = events.find(...)], which throws when there is no such event. *)
Definition eventData (events : val) (m n : string) : prog val :=
  e ← findEvent events m n; data_or_empty e.

(** [p.k] of [tx.params]. *)
Definition param_of (tx : val) (k : string) : prog val := params ← tx @. "params"; params @. k.
End helpers.
