(* ===== verification/ProcPos.v ===== *)
(** * The processors of the pos module: transactionProcessor/pos *)
From S2P Require Export Processor.
Open Scope string_scope.
Open Scope Z_scope.
Open Scope list_scope.

Section pos.
Context {CFG : Config} {LC : LiskCrypto} {LT : LiskTransactions} {LO : Locale}.

(** ** changeCommission.js *)
Definition getCommissionIndexingInfo (blockHeader tx : val) : prog val :=
  newCommission ← param_of tx "newCommission";
  address ← senderAddressOf tx;
  height ← blockHeader @. "height";
  Ret (VObj [("address", VStr address); ("commission", newCommission); ("height", height)]).

Definition applyChangeCommission : handler := λ blockHeader tx events dbTrx,
  commissionsTable ← tableOf Schemas.commissions;
  commissionInfo ← getCommissionIndexingInfo blockHeader tx;
  _ ← Mysql.upsert commissionsTable commissionInfo (Some dbTrx);
  Ret VUndef.

Definition revertChangeCommission : handler := λ blockHeader tx events dbTrx,
  commissionsTable ← tableOf Schemas.commissions;
  commissionInfo ← getCommissionIndexingInfo blockHeader tx;
  _ ← Mysql.deleteByParams commissionsTable commissionInfo (Some dbTrx);
  Ret VUndef.

Definition changeCommission : processor :=
  mkProcessor "changeCommission" applyChangeCommission revertChangeCommission.

(** ** claimRewards.js and unlock.js *)
Definition claimRewards : processor := mkProcessor "claimRewards" nothing nothing.
Definition unlock : processor := mkProcessor "unlock" nothing nothing.

(** ** registerValidator.js *)
Definition applyRegisterValidator : handler := λ blockHeader tx events dbTrx,
  accountsTable ← tableOf Schemas.accounts;
  validatorsTable ← tableOf Schemas.validators;
  address ← senderAddressOf tx;
  publicKey ← tx @. "senderPublicKey";
  name ← param_of tx "name";
  blsKey ← param_of tx "blsKey";
  proofOfPosession ← param_of tx "proofOfPosession";
  generatorKey ← param_of tx "generatorKey";
  let account := VObj [("address", VStr address); ("publicKey", publicKey); ("name", name);
    ("isValidator", VBool true); ("blsKey", blsKey); ("proofOfPosession", proofOfPosession);
    ("generatorKey", generatorKey)] in
  _ ← Mysql.upsert accountsTable account (Some dbTrx);
  _ ← Mysql.upsert validatorsTable account (Some dbTrx);
  Ret VUndef.

Definition revertRegisterValidator : handler := λ blockHeader tx events dbTrx,
  accountsTable ← tableOf Schemas.accounts;
  validatorsTable ← tableOf Schemas.validators;
  address ← senderAddressOf tx;
  publicKey ← tx @. "senderPublicKey";
  let account := VObj [("address", VStr address); ("publicKey", publicKey); ("name", VNull);
    ("isValidator", VBool false); ("blsKey", VNull); ("proofOfPosession", VNull); ("generatorKey", VNull)] in
  _ ← Mysql.upsert accountsTable account (Some dbTrx);
  let validatorPK := field account (to_string (primaryKey Schemas.validators)) in
  _ ← Mysql.deleteByPrimaryKey validatorsTable validatorPK (Some dbTrx);
  Ret VUndef.

Definition registerValidator : processor :=
  mkProcessor "registerValidator" applyRegisterValidator revertRegisterValidator.

(** ** reportMisbehavior.js *)
Definition applyReportMisbehavior : handler := λ blockHeader tx events dbTrx,
  _ ← Validators.reloadValidatorCache; Ret VUndef.

Definition reportMisbehavior : processor :=
  mkProcessor "reportMisbehavior" applyReportMisbehavior applyReportMisbehavior.

(** ** stake.js *)
Definition getStakeIndexingInfo (tx : val) : prog (list val) :=
  stakes ← param_of tx "stakes";
  bluebird_map stakes (λ stake,
    stakerAddress ← senderAddressOf tx;
    validatorAddress ← stake @. "validatorAddress";
    amount ← stake @. "amount";
    Ret (VObj [("stakerAddress", VStr stakerAddress); ("validatorAddress", validatorAddress); ("amount", amount)])).

(** The where clause of both updates. *)
Definition stakeKey (stake : val) : list (string * val) :=
  [("stakerAddress", field stake "stakerAddress"); ("validatorAddress", field stake "validatorAddress")].

Definition incrementStakeTrx (stake : val) (trx : Z) : prog unit :=
  stakesTable ← tableOf Schemas.stakes;
  amount ← lift (to_bigint (field stake "amount"));
  numRowsAffected ← Mysql.increment stakesTable (stakeKey stake) [("amount", VBig amount)] (Some trx);
  if strict_eq numRowsAffected (VNum 0) then
    _ ← Mysql.upsert stakesTable stake (Some trx); Ret tt
  else Ret tt.

Definition decrementStakeTrx (stake : val) (trx : Z) : prog unit :=
  stakesTable ← tableOf Schemas.stakes;
  amount ← lift (to_bigint (field stake "amount"));
  _ ← Mysql.decrement stakesTable (stakeKey stake) [("amount", VBig amount)] (Some trx);
  Ret tt.

(** [updateTotalStake] and [updateTotalSelfStake] differ in the prefix of the key. *)
Definition updateTotal (prefix : string) (changeAmount : Z) (dbTrx : Z) : prog unit :=
  tokenID ← PosConstants.getPosTokenID;
  let tokenKey := prefix +:+ to_string tokenID in
  stored ← KvStore.get tokenKey;
  curStakedAmount ← lift (to_bigint (js_or stored (VNum 0)));
  KvStore.set tokenKey (VBig (curStakedAmount + changeAmount)) (Some dbTrx).

Definition updateTotalStake : Z → Z → prog unit := updateTotal Constants.PREFIX_TOTAL_STAKED.
Definition updateTotalSelfStake : Z → Z → prog unit := updateTotal Constants.PREFIX_TOTAL_SELF_STAKED.

(** The loop over the stakes, with its two running totals (total, self): [one]
    handles a stake, [sgn] is the sign its amount counts with. *)
Definition stakeStep (sgn : Z) (one : val → Z → prog unit) (dbTrx : Z) (totals : Z * Z) (stake : val) : prog (Z * Z) :=
  _ ← one stake dbTrx;
  amount ← lift (to_bigint (field stake "amount"));
  let self := strict_eq (field stake "stakerAddress") (field stake "validatorAddress") in
  Ret (totals.1 + sgn * amount, if self then totals.2 + sgn * amount else totals.2).

Definition stakeLoop (sgn : Z) (one : val → Z → prog unit) (dbTrx : Z) (stakes : list val) : prog (Z * Z) :=
  pfold (stakeStep sgn one dbTrx) (0, 0) stakes.

Definition applyStake : handler := λ blockHeader tx events dbTrx,
  stakes ← getStakeIndexingInfo tx;
  '(totalStakeChange, totalSelfStakeChange) ← stakeLoop 1 incrementStakeTrx dbTrx stakes;
  _ ← updateTotalStake totalStakeChange dbTrx;
  _ ← updateTotalSelfStake totalSelfStakeChange dbTrx;
  Ret VUndef.

Definition revertStake : handler := λ blockHeader tx events dbTrx,
  stakes ← getStakeIndexingInfo tx;
  '(totalStakeChange, totalSelfStakeChange) ← stakeLoop (-1) decrementStakeTrx dbTrx stakes;
  _ ← updateTotalStake totalStakeChange dbTrx;
  _ ← updateTotalSelfStake totalSelfStakeChange dbTrx;
  Ret VUndef.

Definition stake : processor := mkProcessor "stake" applyStake revertStake.

(** ** updateGeneratorKey.js *)
Definition applyUpdateGeneratorKey : handler := λ blockHeader tx events dbTrx,
  accountsTable ← tableOf Schemas.accounts;
  validatorsTable ← tableOf Schemas.validators;
  address ← senderAddressOf tx;
  publicKey ← tx @. "senderPublicKey";
  generatorKey ← param_of tx "generatorKey";
  let validator := VObj [("address", VStr address); ("publicKey", publicKey);
    ("isValidator", VBool true); ("generatorKey", generatorKey)] in
  _ ← Mysql.upsert accountsTable validator (Some dbTrx);
  _ ← Mysql.upsert validatorsTable validator (Some dbTrx);
  Ret VUndef.

Definition revertUpdateGeneratorKey : handler := λ blockHeader tx events dbTrx,
  validatorsTable ← tableOf Schemas.validators;
  address ← senderAddressOf tx;
  _ ← Mysql.upsert validatorsTable (VObj [("address", VStr address); ("generatorKey", VNull)]) (Some dbTrx);
  Ret VUndef.

Definition updateGeneratorKey : processor :=
  mkProcessor "updateGeneratorKey" applyUpdateGeneratorKey revertUpdateGeneratorKey.

(** transactionProcessor/pos: the files of the directory in alphabetical order. *)
Definition pos_MODULE_NAME : string := "pos".
Definition pos_processors : list processor :=
  [changeCommission; claimRewards; registerValidator; reportMisbehavior; stake; unlock; updateGeneratorKey].

End pos.
