(* ===== verification/ProcAudio.v ===== *)
(** * The processors of the audio module: transactionProcessor/audio

    A table read inside a handler opens a transaction of its own (the third
    argument of [find] is not one it takes), so it sees the committed rows. *)
From S2P Require Export Processor.
Open Scope string_scope.
Open Scope Z_scope.
Open Scope list_scope.
Import Names.

Section audio.
Context {CFG : Config} {LC : LiskCrypto}.

(** Whether the command of the transaction succeeded, by its event. *)
Definition commandSucceeded (events : val) : prog bool :=
  commandExecutedData ← eventData events MODULE_NAME_AUDIO EVENT_NAME_COMMAND_EXECUTION_RESULT;
  success ← commandExecutedData @. "success";
  Ret (truthy success).

(** ** create.js *)
Definition upsertOwner (ownersTable : table) (audioID : val) (dbTrx : Z) (owner : val) : prog val :=
  let ownerInfo := spread owner (VObj [("audioID", audioID)]) in
  _ ← owner @. "address";
  _ ← Mysql.upsert ownersTable ownerInfo (Some dbTrx);
  Ret (VBool true).

Definition upsertFeat (featsTable : table) (audioID : val) (dbTrx : Z) (feat : val) : prog val :=
  let featInfo := VObj [("address", feat); ("role", VStr "co-artist"); ("audioID", audioID)] in
  _ ← Mysql.upsert featsTable featInfo (Some dbTrx);
  Ret (VBool true).

Definition applyAudioCreate : handler := λ blockHeader tx events dbTrx,
  success ← commandSucceeded events;
  if negb success then Ret (VBool false) else
  accountsTable ← tableOf Schemas.accounts;
  audiosTable ← tableOf Schemas.audios;
  ownersTable ← tableOf Schemas.owners;
  featsTable ← tableOf Schemas.feats;
  event ← findEvent events MODULE_NAME_AUDIO EVENT_NAME_AUDIO_CREATED;
  audioCreatedData ← (js_or event (VObj [("data", VObj [])])) @. "data";
  senderAddress ← senderAddressOf tx;
  let account := VObj [("address", VStr senderAddress)] in
  _ ← Mysql.upsert accountsTable account (Some dbTrx);
  owners ← param_of tx "owners";
  _ ← bluebird_map owners (λ owner,
    audioID ← audioCreatedData @. "audioID"; upsertOwner ownersTable audioID dbTrx owner);
  feat ← param_of tx "feat";
  _ ← bluebird_map feat (λ f,
    audioID ← audioCreatedData @. "audioID"; upsertFeat featsTable audioID dbTrx f);
  _ ← Mysql.upsert accountsTable account (Some dbTrx);
  params ← tx @. "params";
  let audiosNFT := spread audioCreatedData params in
  _ ← Mysql.upsert audiosTable audiosNFT (Some dbTrx);
  _ ← audioCreatedData @. "audioID";
  Ret (VBool true).

Definition revertAudioCreate : handler := λ blockHeader tx events dbTrx,
  audiosTable ← tableOf Schemas.audios;
  ownersTable ← tableOf Schemas.owners;
  featsTable ← tableOf Schemas.feats;
  audioCreatedData ← eventData events MODULE_NAME_AUDIO EVENT_NAME_AUDIO_CREATED;
  audioID ← audioCreatedData @. "audioID";
  _ ← Mysql.deleteByParams ownersTable (VObj [("audioID", audioID)]) (Some dbTrx);
  _ ← Mysql.deleteByParams featsTable (VObj [("audioID", audioID)]) (Some dbTrx);
  _ ← Mysql.deleteByPrimaryKey audiosTable audioID (Some dbTrx);
  Ret VUndef.

Definition audioCreate : processor := mkProcessor "create" applyAudioCreate revertAudioCreate.

(** ** destroy.js *)
Definition applyAudioDestroy : handler := λ blockHeader tx events dbTrx,
  success ← commandSucceeded events;
  if negb success then Ret (VBool false) else
  audioID ← param_of tx "audioID";
  audiosTable ← tableOf Schemas.audios;
  ownersTable ← tableOf Schemas.owners;
  featsTable ← tableOf Schemas.feats;
  let byID := VObj [("audioID", audioID)] in
  _ ← Mysql.deleteByParams audiosTable byID (Some dbTrx);
  _ ← Mysql.deleteByParams ownersTable byID (Some dbTrx);
  _ ← Mysql.deleteByParams featsTable byID (Some dbTrx);
  Ret (VBool true).

Definition audioDestroy : processor := mkProcessor "destroy" applyAudioDestroy nothing.

(** ** reclaim.js *)
Definition reclaimOne (ownersTable : table) (tx : val) (dbTrx : Z) (audioID : val) : prog val :=
  found ← Mysql.find ownersTable (VObj [("audioID", audioID)]) (strs ["address"; "shares"; "income"]);
  owners ← array_method found "find";
  sender ← pfind (λ owner, address ← owner @. "address"; senderAddress ← tx @. "senderAddress";
                           Ret (strict_eq address senderAddress)) owners;
  let info := VObj (ospread (ospread [] (props sender)) [("audioID", audioID); ("income", VNum 0)]) in
  _ ← sender @. "address";
  _ ← Mysql.upsert ownersTable info (Some dbTrx);
  Ret (VBool true).

Definition applyAudioReclaim : handler := λ blockHeader tx events dbTrx,
  success ← commandSucceeded events;
  if negb success then Ret (VBool false) else
  ownersTable ← tableOf Schemas.owners;
  event ← findEvent events MODULE_NAME_AUDIO EVENT_NAME_AUDIO_INCOME_RECLAIMED;
  audioIncomeReclaimedData ←
    (js_or event (VObj [("data", VObj [("claimData", VObj [("audioIDs", VArr [])])])])) @. "data";
  claimData ← audioIncomeReclaimedData @. "claimData";
  audioIDs ← claimData @. "audioIDs";
  _ ← bluebird_map audioIDs (reclaimOne ownersTable tx dbTrx);
  Ret (VBool true).

Definition audioReclaim : processor := mkProcessor "reclaim" applyAudioReclaim nothing.

(** ** setAttributes.js *)
Definition applyAudioSetAttributes : handler := λ blockHeader tx events dbTrx,
  success ← commandSucceeded events;
  if negb success then Ret (VBool false) else
  audiosTable ← tableOf Schemas.audios;
  featsTable ← tableOf Schemas.feats;
  audioID ← param_of tx "audioID";
  audios ← Mysql.find audiosTable (VObj [("audioID", audioID)])
             (strs ["name"; "releaseYear"; "collectionID"; "creatorAddress"]);
  audio ← first_of audios;
  oldFeats ← Mysql.find featsTable (VObj [("audioID", audioID)]) (strs ["address"]);
  oldFeats ← array_method oldFeats "map";
  oldFeatsAddresses ← pmap (λ f, f @. "address") oldFeats;
  removedFeats ← pfilter (λ address, feat ← param_of tx "feat"; b ← method_includes feat address; Ret (negb b))
                         oldFeatsAddresses;
  feat ← param_of tx "feat";
  feats ← array_method feat "filter";
  let addedFeats := List.filter (λ address, negb (val_includes oldFeatsAddresses address)) feats in
  _ ← pmap (upsertFeat featsTable audioID dbTrx) addedFeats;
  _ ← pmap (λ address,
    _ ← Mysql.deleteByParams featsTable (VObj [("address", address); ("audioID", audioID)]) (Some dbTrx);
    Ret (VBool true)) removedFeats;
  params ← tx @. "params";
  let audiosNFT := spread audio params in
  _ ← Mysql.upsert audiosTable audiosNFT (Some dbTrx);
  Ret (VBool true).

Definition audioSetAttributes : processor := mkProcessor "setAttributes" applyAudioSetAttributes nothing.

(** ** stream.js *)
Definition applyAudioStream : handler := λ blockHeader tx events dbTrx,
  success ← commandSucceeded events;
  if negb success then Ret (VBool false) else
  ownersTable ← tableOf Schemas.owners;
  audioID ← param_of tx "audioID";
  audioStreamedData ← eventData events MODULE_NAME_AUDIO EVENT_NAME_AUDIO_STREAMED;
  owners ← audioStreamedData @. "owners";
  _ ← bluebird_map owners (upsertOwner ownersTable audioID dbTrx);
  Ret (VBool true).

Definition audioStream : processor := mkProcessor "stream" applyAudioStream nothing.

(** ** transfer.js *)
Definition OWNER_COLUMNS : val := strs ["address"; "audioID"; "shares"; "income"].

Definition applyAudioTransfer : handler := λ blockHeader tx events dbTrx,
  success ← commandSucceeded events;
  if negb success then Ret (VBool false) else
  ownersTable ← tableOf Schemas.owners;
  senderAddress ← senderAddressOf tx;
  audioID ← param_of tx "audioID";
  recipientAddress ← param_of tx "address";
  transferredShares ← param_of tx "shares";
  senders ← Mysql.find ownersTable (VObj [("audioID", audioID); ("address", VStr senderAddress)]) OWNER_COLUMNS;
  sender ← first_of senders;
  recipients ← Mysql.find ownersTable (VObj [("audioID", audioID); ("address", recipientAddress)]) OWNER_COLUMNS;
  recipient ← first_of recipients;
  shares ← sender @. "shares";
  remaining ← lift (js_sub shares transferredShares);
  let sender := set_field sender "shares" remaining in
  _ ← (if strict_eq remaining (VNum 0) then
         Mysql.deleteByParams ownersTable (VObj [("audioID", audioID); ("address", VStr senderAddress)]) (Some dbTrx)
       else Mysql.upsert ownersTable sender (Some dbTrx));
  recipient ← (if truthy recipient then
                 shares ← recipient @. "shares";
                 total ← lift (js_add shares transferredShares);
                 Ret (set_field recipient "shares" total)
               else Ret (VObj [("audioID", audioID); ("address", recipientAddress); ("shares", transferredShares)]));
  _ ← Mysql.upsert ownersTable recipient (Some dbTrx);
  Ret (VBool true).

Definition audioTransfer : processor := mkProcessor "transfer" applyAudioTransfer nothing.

Definition audio_MODULE_NAME : string := "audio".
Definition audio_processors : list processor :=
  [audioCreate; audioDestroy; audioReclaim; audioSetAttributes; audioStream; audioTransfer].

End audio.
