(* ===== verification/ProcNft.v ===== *)
(** * The processors of the collection, profile and subscription modules *)
From S2P Require Export Processor.
Open Scope string_scope.
Open Scope Z_scope.
Open Scope list_scope.
Import Names.

Section nft.
Context {CFG : Config} {LC : LiskCrypto}.

(** ** collection/create.js *)
Definition applyCollectionCreate : handler := λ blockHeader tx events dbTrx,
  accountsTable ← tableOf Schemas.accounts;
  collectionsTable ← tableOf Schemas.collections;
  senderAddress ← senderAddressOf tx;
  _ ← Mysql.upsert accountsTable (VObj [("address", VStr senderAddress)]) (Some dbTrx);
  eventData ← eventData events MODULE_NAME_COLLECTION EVENT_NAME_COLLECTION_CREATED;
  params ← tx @. "params";
  let collectionsNFT := spread eventData params in
  _ ← Mysql.upsert collectionsTable collectionsNFT (Some dbTrx);
  _ ← eventData @. "collectionsID";
  Ret VUndef.

(** The query is not awaited: [oldAccount] is a promise, it has no [collections]
    and reading [owned] of it throws.  The columns of the query are the
    transaction object, of which nothing is selected here. *)
Definition revertCollectionCreate : handler := λ blockHeader tx events dbTrx,
  accountsTable ← tableOf Schemas.accounts;
  collectionsTable ← tableOf Schemas.collections;
  address ← senderAddressOf tx;
  _ ← detach (Mysql.find accountsTable (VObj [("address", VStr address)]) (VObj []));
  address ← senderAddressOf tx;
  publicKey ← tx @. "senderPublicKey";
  let oldAccount_collections := VUndef in
  owned ← oldAccount_collections @. "owned";
  ids ← array_method owned "filter";
  let account := VObj [("address", VStr address); ("publicKey", publicKey);
    ("collections", VObj [("owned", VArr ids); ("shared", VNull)])] in
  _ ← Mysql.upsert accountsTable account (Some dbTrx);
  let collectionPK := field account (to_string (primaryKey Schemas.collections)) in
  _ ← Mysql.deleteByPrimaryKey collectionsTable collectionPK (Some dbTrx);
  Ret VUndef.

Definition collectionCreate : processor := mkProcessor "create" applyCollectionCreate revertCollectionCreate.

(** ** collection/destroy.js *)
Definition applyCollectionDestroy : handler := λ blockHeader tx events dbTrx,
  collectionsTable ← tableOf Schemas.collections;
  collectionID ← param_of tx "collectionID";
  _ ← Mysql.deleteByParams collectionsTable (VObj [("collectionID", collectionID)]) (Some dbTrx);
  Ret VUndef.

Definition collectionDestroy : processor := mkProcessor "destroy" applyCollectionDestroy nothing.

(** ** collection/setAttributes.js *)
Definition applyCollectionSetAttributes : handler := λ blockHeader tx events dbTrx,
  collectionsTable ← tableOf Schemas.collections;
  collectionID ← param_of tx "collectionID";
  found ← Mysql.find collectionsTable (VObj [("collectionID", collectionID)]) (strs ["collectionID"]);
  collection ← first_of found;
  match collection with
  | VUndef => Ret VUndef
  | _ => params ← tx @. "params";
         _ ← Mysql.upsert collectionsTable params (Some dbTrx);
         Ret VUndef
  end.

Definition collectionSetAttributes : processor :=
  mkProcessor "setAttributes" applyCollectionSetAttributes nothing.

(** [o.k = v], which throws on [undefined] and [null]; an array keeps its
    elements, and a property of its own is not seen by what reads them. *)
Definition assign_field (o : val) (k : string) (v : val) : prog val :=
  match o with
  | VUndef | VNull => Throw (type_error ("Cannot set properties of " +:+ to_string o +:+ " (setting '" +:+ k +:+ "')"))
  | _ => Ret (set_field o k v)
  end.

(** ** collection/transfer.js *)
Definition applyCollectionTransfer : handler := λ blockHeader tx events dbTrx,
  collectionsTable ← tableOf Schemas.collections;
  collectionID ← param_of tx "collectionID";
  found ← Mysql.find collectionsTable (VObj [("collectionID", collectionID)])
            (strs ["collectionID"; "name"; "collectionType"; "releaseYear"]);
  collectionNFT ← first_of found;
  address ← param_of tx "address";
  collectionNFT ← assign_field collectionNFT "creatorAddress" address;
  _ ← Mysql.upsert collectionsTable collectionNFT (Some dbTrx);
  Ret VUndef.

Definition collectionTransfer : processor := mkProcessor "transfer" applyCollectionTransfer nothing.

Definition collection_MODULE_NAME : string := "collection".
Definition collection_processors : list processor :=
  [collectionCreate; collectionDestroy; collectionSetAttributes; collectionTransfer].

(** ** profile/create.js *)
Definition upsertSocial (socialAccountsTable : table) (profileID : val) (dbTrx : Z) (socialAccount : val) : prog val :=
  let socialInfo := VObj (ospread [("profileID", profileID)] (props socialAccount)) in
  _ ← Mysql.upsert socialAccountsTable socialInfo (Some dbTrx);
  Ret (VBool true).

Definition applyProfileCreate : handler := λ blockHeader tx events dbTrx,
  accountsTable ← tableOf Schemas.accounts;
  profilesTable ← tableOf Schemas.profiles;
  socialAccountsTable ← tableOf Schemas.socialAccounts;
  senderAddress ← senderAddressOf tx;
  _ ← Mysql.upsert accountsTable (VObj [("address", VStr senderAddress)]) (Some dbTrx);
  eventData ← eventData events MODULE_NAME_PROFILE EVENT_NAME_PROFILE_CREATED;
  params ← tx @. "params";
  let profile := spread eventData params in
  socialAccounts ← param_of tx "socialAccounts";
  _ ← bluebird_map socialAccounts (λ s,
    profileID ← eventData @. "profileID"; upsertSocial socialAccountsTable profileID dbTrx s);
  _ ← Mysql.upsert profilesTable profile (Some dbTrx);
  _ ← eventData @. "profileID";
  Ret VUndef.

Definition profileCreate : processor := mkProcessor "create" applyProfileCreate nothing.

(** ** profile/setAttribute.js *)
Definition PROFILE_COLUMNS : val :=
  strs ["profileID"; "name"; "nickName"; "description"; "avatarHash"; "avatarSignature";
        "bannerHash"; "bannerSignature"; "creatorAddress"].

Definition applyProfileSetAttributes : handler := λ blockHeader tx events dbTrx,
  profilesTable ← tableOf Schemas.profiles;
  socialAccountsTable ← tableOf Schemas.socialAccounts;
  _ ← senderAddressOf tx;
  profileID ← param_of tx "profileID";
  found ← Mysql.find profilesTable (VObj [("profileID", profileID)]) PROFILE_COLUMNS;
  existingProfile ← first_of found;
  if negb (truthy existingProfile) then
    Throw (js_error ("Profile with ID " +:+ tpl profileID +:+ " does not exist."))
  else
  params ← tx @. "params";
  existingID ← existingProfile @. "profileID";
  creatorAddress ← existingProfile @. "creatorAddress";
  let newProfile := VObj (ospread (ospread [] (props params))
                            [("profileID", existingID); ("creatorAddress", creatorAddress)]) in
  _ ← Mysql.deleteByParams socialAccountsTable (VObj [("profileID", existingID)]) (Some dbTrx);
  socialAccounts ← param_of tx "socialAccounts";
  _ ← bluebird_map socialAccounts (upsertSocial socialAccountsTable existingID dbTrx);
  _ ← Mysql.upsert profilesTable newProfile (Some dbTrx);
  Ret VUndef.

Definition profileSetAttributes : processor := mkProcessor "setAttributes" applyProfileSetAttributes nothing.

Definition profile_MODULE_NAME : string := "profile".
Definition profile_processors : list processor := [profileCreate; profileSetAttributes].

(** ** subscription/create.js *)
Definition applySubscriptionCreate : handler := λ blockHeader tx events dbTrx,
  accountsTable ← tableOf Schemas.accounts;
  subscriptionsTable ← tableOf Schemas.subscriptions;
  senderAddress ← senderAddressOf tx;
  _ ← Mysql.upsert accountsTable (VObj [("address", VStr senderAddress)]) (Some dbTrx);
  eventData ← eventData events "subscription" "subscriptionCreated";
  params ← tx @. "params";
  let subscriptionsNFT := spread eventData params in
  _ ← Mysql.upsert subscriptionsTable subscriptionsNFT (Some dbTrx);
  _ ← eventData @. "subscriptionID";
  Ret VUndef.

Definition revertSubscriptionCreate : handler := λ blockHeader tx events dbTrx,
  subscriptionsTable ← tableOf Schemas.subscriptions;
  event ← findEvent events "subscription" "subscriptionCreated";
  eventData ← event @. "data";
  subscriptionID ← eventData @. "subscriptionID";
  _ ← Mysql.deleteByParams subscriptionsTable (VObj [("subscriptionID", subscriptionID)]) (Some dbTrx);
  Ret VUndef.

Definition subscriptionCreate : processor :=
  mkProcessor "create" applySubscriptionCreate revertSubscriptionCreate.

(** ** subscription/purchase.js *)
Definition SUBSCRIPTION_COLUMNS : val :=
  strs ["subscriptionID"; "creatorAddress"; "price"; "consumable"; "streams"; "maxMembers"].

(** [member.concat(`-${tx.nonce.toString()}`)] *)
Definition memberID (tx member : val) : prog val :=
  nonce ← tx @. "nonce"; n ← method_toString nonce; str_concat member ("-" +:+ n).

Definition addMember (membersTable : table) (tx subscriptionID : val) (dbTrx : Z) (member : val) : prog val :=
  id ← memberID tx member;
  addedBy ← tx @. "id";
  let memberData := VObj [("id", id); ("address", member); ("addedBy", addedBy); ("shared", subscriptionID)] in
  _ ← Mysql.upsert membersTable memberData (Some dbTrx);
  Ret (VBool true).

(** [find] returns an array: the creator address is set on the array, and the
    rows are stored as they were read. *)
Definition applySubscriptionPurchase : handler := λ blockHeader tx events dbTrx,
  accountsTable ← tableOf Schemas.accounts;
  subscriptionsTable ← tableOf Schemas.subscriptions;
  membersTable ← tableOf Schemas.members;
  senderAddress ← senderAddressOf tx;
  subscriptionID ← param_of tx "subscriptionID";
  found ← Mysql.find subscriptionsTable (VObj [("subscriptionID", subscriptionID)]) SUBSCRIPTION_COLUMNS;
  subscriptionNFT ← assign_field found "creatorAddress" (VStr senderAddress);
  _ ← Mysql.upsert subscriptionsTable subscriptionNFT (Some dbTrx);
  members ← param_of tx "members";
  _ ← bluebird_map members (λ member,
    _ ← Mysql.upsert accountsTable (VObj [("address", member)]) (Some dbTrx);
    addMember membersTable tx subscriptionID dbTrx member);
  _ ← Mysql.upsert accountsTable (VObj [("address", VStr senderAddress)]) (Some dbTrx);
  Ret VUndef.

Definition revertSubscriptionPurchase : handler := λ blockHeader tx events dbTrx,
  subscriptionsTable ← tableOf Schemas.subscriptions;
  membersTable ← tableOf Schemas.members;
  subscriptionID ← param_of tx "subscriptionID";
  found ← Mysql.find subscriptionsTable (VObj [("subscriptionID", subscriptionID)]) SUBSCRIPTION_COLUMNS;
  subscriptionNFT ← assign_field found "creatorAddress" (VStr Constants.DEV_ADDRESS);
  _ ← Mysql.upsert subscriptionsTable subscriptionNFT (Some dbTrx);
  _ ← Mysql.deleteByParams membersTable (VObj [("shared", subscriptionID)]) (Some dbTrx);
  Ret VUndef.

Definition subscriptionPurchase : processor :=
  mkProcessor "purchase" applySubscriptionPurchase revertSubscriptionPurchase.

(** ** subscription/updateMembers.js *)
Definition MEMBER_COLUMNS : val := strs ["id"; "address"; "shared"].

Definition setRemovedBy (membersTable : table) (removedBy : val) (dbTrx : Z) (member : val) : prog val :=
  _ ← Mysql.upsert membersTable (spread member (VObj [("removedBy", removedBy)])) (Some dbTrx);
  Ret VUndef.

Definition applyUpdateMembers : handler := λ blockHeader tx events dbTrx,
  membersTable ← tableOf Schemas.members;
  subscriptionID ← param_of tx "subscriptionID";
  found ← Mysql.find membersTable (VObj [("shared", subscriptionID); ("removedBy", VNull)]) MEMBER_COLUMNS;
  currentMembers ← array_method found "map";
  currentAddresses ← pmap (λ m, m @. "address") currentMembers;
  removed ← pfilter (λ m, address ← m @. "address"; members ← param_of tx "members";
                          b ← method_includes members address; Ret (negb b)) currentMembers;
  members ← param_of tx "members";
  members ← array_method members "filter";
  let added := List.filter (λ member, negb (val_includes currentAddresses member)) members in
  _ ← pmap (λ member, txID ← tx @. "id"; setRemovedBy membersTable txID dbTrx member) removed;
  _ ← pmap (addMember membersTable tx subscriptionID dbTrx) added;
  Ret VUndef.

Definition revertUpdateMembers : handler := λ blockHeader tx events dbTrx,
  membersTable ← tableOf Schemas.members;
  txID ← tx @. "id";
  removed ← Mysql.find membersTable (VObj [("removedBy", txID)]) MEMBER_COLUMNS;
  _ ← Mysql.deleteByParams membersTable (VObj [("addedBy", txID)]) (Some dbTrx);
  _ ← bluebird_map removed (setRemovedBy membersTable VNull dbTrx);
  Ret VUndef.

Definition updateMembers : processor := mkProcessor "updateMembers" applyUpdateMembers revertUpdateMembers.

Definition subscription_MODULE_NAME : string := "subscription".
Definition subscription_processors : list processor :=
  [subscriptionCreate; subscriptionPurchase; updateMembers].

End nft.
