(* ===== verification/ProcChain.v ===== *)
(** * The processors of the auth, interoperability, legacy and token modules *)
From S2P Require Export Processor.
Open Scope string_scope.
Open Scope Z_scope.
Open Scope list_scope.

Section chain.
Context {CFG : Config} {LC : LiskCrypto}.

(** ** auth/registerMultisignature.js *)
Definition resolveMultisignatureMemberships (tx : val) : prog (list val) :=
  mandatoryKeys ← param_of tx "mandatoryKeys";
  mandatoryKeys ← array_method mandatoryKeys "concat";
  optionalKeys ← param_of tx "optionalKeys";
  let allKeys := mandatoryKeys ++ match optionalKeys with VArr l => l | v => [v] end in
  pmap (λ key,
    senderAddress ← tx @. "senderAddress";
    memberAddress ← lift (Account.getLisk32AddressFromPublicKey key);
    id ← str_concat senderAddress ("_" +:+ memberAddress);
    let members := VObj [("id", id); ("memberAddress", VStr memberAddress); ("groupAddress", senderAddress)] in
    _ ← detach (Account.updateAccountPublicKey key);   (* not awaited *)
    Ret members) allKeys.

Definition applyRegisterMultisignature : handler := λ blockHeader tx events dbTrx,
  multisignatureTable ← tableOf Schemas.multisignature;
  multisignatureInfoToIndex ← resolveMultisignatureMemberships tx;
  _ ← Mysql.upsert multisignatureTable (VArr multisignatureInfoToIndex) (Some dbTrx);
  Ret VUndef.

Definition revertRegisterMultisignature : handler := λ blockHeader tx events dbTrx,
  multisignatureTable ← tableOf Schemas.multisignature;
  multisignatureInfo ← resolveMultisignatureMemberships tx;
  let multisignatureIdsToDelete := map (λ item, field item "id") multisignatureInfo in
  _ ← Mysql.deleteByPrimaryKey multisignatureTable (VArr multisignatureIdsToDelete) (Some dbTrx);
  Ret VUndef.

Definition registerMultisignature : processor :=
  mkProcessor "registerMultisignature" applyRegisterMultisignature revertRegisterMultisignature.

Definition auth_MODULE_NAME : string := "auth".
Definition auth_processors : list processor := [registerMultisignature].

(** ** dataService/business/interoperability *)
Definition CHAIN_STATUS : val := VObj [("0", VStr "registered"); ("1", VStr "active"); ("2", VStr "terminated")].

Definition getMainchainID : prog val := Request.requestConnector "getMainchainID" VUndef.

Definition getChainAccount (params : val) : prog val :=
  chainID ← params @. "chainID";
  Request.requestConnector "getChainAccount" (VObj [("chainID", chainID)]).

(** ** interoperability: the commands without effect on the index *)
Definition initializeMessageRecovery : processor := mkProcessor "initializeMessageRecovery" nothing nothing.
Definition initializeStateRecovery : processor := mkProcessor "initializeStateRecovery" nothing nothing.
Definition recoverMessage : processor := mkProcessor "recoverMessage" nothing nothing.
Definition recoverState : processor := mkProcessor "recoverState" nothing nothing.

(** Handlers of failed transactions return at once. *)
Definition unless_failed (tx : val) (p : prog val) : prog val :=
  executionStatus ← tx @. "executionStatus";
  if strict_eq executionStatus (VStr Constants.TRANSACTION_STATUS_SUCCESS) then p else Ret VUndef.

(** ** interoperability/registerMainchain.js *)
Definition getChainInfo (chainID : val) : prog val :=
  chainAccount ← getChainAccount (VObj [("chainID", chainID)]);
  chainStatusInt ← chainAccount @. "status";
  let chainStatus := field CHAIN_STATUS (to_string chainStatusInt) in
  name ← chainAccount @. "name";
  Ret (VObj [("name", name); ("status", chainStatus)]).

Definition applyRegisterMainchain : handler := λ blockHeader tx events dbTrx,
  unless_failed tx (
    blockchainAppsTable ← tableOf Schemas.blockchainApps;
    mainchainID ← getMainchainID;
    mainchainInfo ← getChainInfo mainchainID;
    address ← senderAddressOf tx;
    timestamp ← blockHeader @. "timestamp";
    height ← blockHeader @. "height";
    let appInfo := VObj [("chainID", mainchainID); ("name", field mainchainInfo "name");
      ("status", field mainchainInfo "status"); ("address", VStr address);
      ("lastUpdated", timestamp); ("lastCertificateHeight", height)] in
    _ ← Mysql.upsert blockchainAppsTable appInfo (Some dbTrx);
    Ret VUndef).

Definition revertRegisterMainchain : handler := λ blockHeader tx events dbTrx,
  unless_failed tx (
    blockchainAppsTable ← tableOf Schemas.blockchainApps;
    mainchainID ← getMainchainID;
    _ ← Mysql.deleteByPrimaryKey blockchainAppsTable mainchainID (Some dbTrx);
    Ret VUndef).

Definition registerMainchain : processor :=
  mkProcessor "registerMainchain" applyRegisterMainchain revertRegisterMainchain.

(** ** interoperability/registerSidechain.js *)
Definition applyRegisterSidechain : handler := λ blockHeader tx events dbTrx,
  unless_failed tx (
    blockchainAppsTable ← tableOf Schemas.blockchainApps;
    chainID ← param_of tx "chainID";
    chainInfo ← getChainInfo chainID;
    name ← param_of tx "name";
    address ← senderAddressOf tx;
    timestamp ← blockHeader @. "timestamp";
    height ← blockHeader @. "height";
    let appInfo := VObj [("chainID", chainID); ("name", name); ("status", field chainInfo "status");
      ("address", VStr address); ("lastUpdated", timestamp); ("lastCertificateHeight", height)] in
    _ ← Mysql.upsert blockchainAppsTable appInfo (Some dbTrx);
    Ret VUndef).

Definition revertRegisterSidechain : handler := λ blockHeader tx events dbTrx,
  unless_failed tx (
    blockchainAppsTable ← tableOf Schemas.blockchainApps;
    chainID ← param_of tx "chainID";
    _ ← Mysql.deleteByPrimaryKey blockchainAppsTable chainID (Some dbTrx);
    Ret VUndef).

Definition registerSidechain : processor :=
  mkProcessor "registerSidechain" applyRegisterSidechain revertRegisterSidechain.

(** ** interoperability/submitSidechainCrossChainUpdate.js *)
Definition applyCrossChainUpdate : handler := λ blockHeader tx events dbTrx,
  unless_failed tx (
    blockchainAppsTable ← tableOf Schemas.blockchainApps;
    sendingChainID ← param_of tx "sendingChainID";
    chainInfo ← getChainInfo sendingChainID;
    timestamp ← blockHeader @. "timestamp";
    height ← blockHeader @. "height";
    let appInfo := VObj [("chainID", sendingChainID); ("status", field chainInfo "status"); ("address", VStr "");
      ("lastUpdated", timestamp); ("lastCertificateHeight", height)] in
    _ ← Mysql.upsert blockchainAppsTable appInfo (Some dbTrx);
    Ret VUndef).

(** The reversal stores what the node says now, as the application does. *)
Definition revertCrossChainUpdate : handler := applyCrossChainUpdate.

Definition submitSidechainCrossChainUpdate : processor :=
  mkProcessor "submitSidechainCrossChainUpdate" applyCrossChainUpdate revertCrossChainUpdate.
Definition submitMainchainCrossChainUpdate : processor :=
  mkProcessor "submitMainchainCrossChainUpdate" applyCrossChainUpdate revertCrossChainUpdate.

(** ** interoperability/terminateSidechainForLiveness.js *)
Definition updateChainState : handler := λ blockHeader tx events dbTrx,
  unless_failed tx (
    blockchainAppsTable ← tableOf Schemas.blockchainApps;
    chainID ← param_of tx "chainID";
    chainInfo ← getChainInfo chainID;
    _ ← Mysql.upsert blockchainAppsTable
          (VObj [("chainID", chainID); ("status", field chainInfo "status")]) (Some dbTrx);
    Ret VUndef).

Definition terminateSidechainForLiveness : processor :=
  mkProcessor "terminateSidechainForLiveness" updateChainState updateChainState.

Definition interoperability_MODULE_NAME : string := "interoperability".
Definition interoperability_processors : list processor :=
  [initializeMessageRecovery; initializeStateRecovery; recoverMessage; recoverState; registerMainchain;
   registerSidechain; submitMainchainCrossChainUpdate; submitSidechainCrossChainUpdate;
   terminateSidechainForLiveness].

(** ** legacy *)
Definition reclaimLSK : processor := mkProcessor "reclaimLSK" nothing nothing.

Definition applyRegisterKeys : handler := λ blockHeader tx events dbTrx,
  accountsTable ← tableOf Schemas.accounts;
  validatorsTable ← tableOf Schemas.validators;
  address ← senderAddressOf tx;
  publicKey ← tx @. "senderPublicKey";
  blsKey ← param_of tx "blsKey";
  proofOfPosession ← param_of tx "proofOfPosession";
  generatorKey ← param_of tx "generatorKey";
  let account := VObj [("address", VStr address); ("publicKey", publicKey); ("isValidator", VBool true);
    ("blsKey", blsKey); ("proofOfPosession", proofOfPosession); ("generatorKey", generatorKey)] in
  _ ← Mysql.upsert accountsTable account (Some dbTrx);
  _ ← Mysql.upsert validatorsTable account (Some dbTrx);
  Ret VUndef.

Definition revertRegisterKeys : handler := λ blockHeader tx events dbTrx,
  accountsTable ← tableOf Schemas.accounts;
  validatorsTable ← tableOf Schemas.validators;
  address ← senderAddressOf tx;
  publicKey ← tx @. "senderPublicKey";
  let account := VObj [("address", VStr address); ("publicKey", publicKey); ("isValidator", VBool true);
    ("blsKey", VNull); ("proofOfPosession", VNull); ("generatorKey", VNull)] in
  _ ← Mysql.upsert accountsTable account (Some dbTrx);
  let validatorPK := field account (to_string (primaryKey Schemas.validators)) in
  _ ← Mysql.deleteByPrimaryKey validatorsTable validatorPK (Some dbTrx);
  Ret VUndef.

Definition registerKeys : processor := mkProcessor "registerKeys" applyRegisterKeys revertRegisterKeys.

Definition legacy_MODULE_NAME : string := "legacy".
Definition legacy_processors : list processor := [reclaimLSK; registerKeys].

(** ** token: transfer.js and transferCrossChain.js *)
Definition applyTransfer : handler := λ blockHeader tx events dbTrx,
  accountsTable ← tableOf Schemas.accounts;
  transactionsTable ← tableOf Schemas.transactions;
  params ← tx @. "params";
  let tx := spread tx params in
  recipientAddress ← tx @. "recipientAddress";
  _ ← Mysql.upsert accountsTable (VObj [("address", recipientAddress)]) (Some dbTrx);
  _ ← Mysql.upsert transactionsTable tx (Some dbTrx);
  Ret VUndef.

Definition transfer : processor := mkProcessor "transfer" applyTransfer nothing.
Definition transferCrossChain : processor := mkProcessor "transferCrossChain" applyTransfer nothing.

Definition token_MODULE_NAME : string := "token".
Definition token_processors : list processor := [transfer; transferCrossChain].

End chain.
