(* ===== verification/Dispatch.v ===== *)
(** * Dispatch: transactionProcessor/index.js

    The map of maps from module and command to a handler.  A handler is a
    function of the repository, so the variable of the module keeps the names
    of the modules in the map, and [processors_of] gives the handlers of a
    module's directory. *)
From S2P Require Export ProcPos ProcAudio ProcNft ProcChain.
Open Scope string_scope.
Open Scope Z_scope.
Open Scope list_scope.

Section dispatch.
Context {CFG : Config} {LC : LiskCrypto} {LT : LiskTransactions} {LO : Locale}.

Definition moduleProcessorMap : string := "transactionProcessor.moduleProcessorMap".

(** [getAvailableModuleProcessors] and [getCommandProcessors]: the directories
    beside index.js but 0_moduleName, each with its MODULE_NAME and its processors. *)
Definition availableModuleProcessors : list (string * list processor) :=
  [(audio_MODULE_NAME, audio_processors); (auth_MODULE_NAME, auth_processors);
   (collection_MODULE_NAME, collection_processors);
   (interoperability_MODULE_NAME, interoperability_processors);
   (legacy_MODULE_NAME, legacy_processors); (pos_MODULE_NAME, pos_processors);
   (profile_MODULE_NAME, profile_processors); (subscription_MODULE_NAME, subscription_processors);
   (token_MODULE_NAME, token_processors)].

Definition buildModuleCommandProcessorMap : prog unit :=
  systemMetadata ← Request.requestConnector "getSystemMetadata" VUndef;
  modules ← systemMetadata @. "modules";
  modules ← array_method modules "map";
  registeredModules ← pmap (λ m, m @. "name") modules;
  known ← call (CVarGet moduleProcessorMap);
  let names := filter (λ n, val_includes registeredModules (VStr n) = true ∧ VStr n ∉ arr_of known)
                      (availableModuleProcessors.*1) in
  _ ← call (CVarSet moduleProcessorMap (VArr (arr_of known ++ map VStr names)));
  Ret tt.

(** The processors [moduleProcessorMap.get(module)] holds. *)
Definition processors_of (m : string) : list processor :=
  match find_js (λ e, bool_decide (e.1 = m)) availableModuleProcessors with
  | Some e => e.2
  | None => []
  end.

(** The processor of a command: the last one set under its name. *)
Definition processor_for (m : string) (command : string) : option processor :=
  find_js (λ p, bool_decide (COMMAND_NAME p = command)) (reverse (processors_of m)).

Definition dispatch (hook : string) (get : processor → handler) : handler :=
  λ blockHeader tx events dbTrx,
  known ← call (CVarGet moduleProcessorMap);
  _ ← (match arr_of known with [] => buildModuleCommandProcessorMap | _ => Ret tt end);
  known ← call (CVarGet moduleProcessorMap);
  module ← tx @. "module";
  if negb (val_includes (arr_of known) module) then
    Throw (js_error ("No processors implemented for transactions related to module: " +:+ tpl module))
  else
  command ← tx @. "command";
  match processor_for (tpl module) (tpl command) with
  | None => Throw (js_error ("No " +:+ hook +:+ " hook implemented for transactions with module: " +:+
                             tpl module +:+ " and command: " +:+ tpl command))
  | Some p => get p blockHeader tx events dbTrx
  end.

Definition dispatchApply : handler := dispatch "applyTransaction" applyTransaction.
Definition dispatchRevert : handler := dispatch "revertTransaction" revertTransaction.

End dispatch.
