(* ===== verification/DataService.v ===== *)
(** * The queries of the indexer

    services/blockchain-indexer/shared/dataService/business: events.js and
    blocks.js, which read the index and ask the connector for the full
    entities. *)
From S2P Require Export Processor.
Open Scope string_scope.
Open Scope Z_scope.
Open Scope list_scope.
Import Request.

(** [{ k, ...rest } = params]: the rest. *)
Definition without (params : val) (k : string) : val := VObj (odel (props params) k).

(** [v.m(...)] on a string; [f] is what the method computes. *)
Definition str_method {A} (v : val) (m : string) (f : string → A) : result A :=
  match v with
  | VStr s => Ok (f s)
  | VUndef | VNull => _ ← prop v m; Err (not_a_function m)
  | _ => Err (not_a_function m)
  end.

Definition InvalidParamsException (m : string) : exn := mkExn "InvalidParamsException" m.

(** [params.k && typeof params.k === 'string' && params.k.includes(':')] *)
Definition is_range_string (v : val) : bool :=
  match v with VStr s => str_includes ":" s | _ => false end.

(** [params.timestamp && params.timestamp.includes(':')] *)
Definition truthy_and_includes (v : val) : prog bool :=
  if truthy v then method_includes v (VStr ":") else Ret false.

(** [v.split(',')] *)
Definition split_commas (v : val) : prog (list string) := lift (js_split v ",").

(** [l.slice(offset, offset + limit)] *)
Definition slice_page (offset limit : val) (l : list val) : prog (list val) :=
  e ← lift (js_add offset limit); Ret (slice (int_arg offset) (int_arg e) l).

(** regex.js, the same in the indexer and in the application registry. *)
Module Patterns.

Definition is_hex (a : ascii) : bool := match digit_of a with Some d => d <? 16 | None => false end.

(** /^[a-fA-F0-9]{2}000000$/ *)
Definition MAINCHAIN_ID (v : val) : bool :=
  match to_string v with
  | String a (String b r) => is_hex a && is_hex b && bool_decide (r = "000000")
  | _ => false
  end.

(** /^lsk[a-hjkm-z2-9]{38}$/ *)
Definition in_alphabet (a : ascii) : bool := char_in a "abcdefghjkmnopqrstuvwxyz23456789".
Definition ADDRESS_LISK32 (s : string) : bool :=
  starts_with "lsk" s && (String.length s =? 41)%nat && forallb in_alphabet (list_ascii_of_string (str_drop 3 s)).

End Patterns.

(** The range parameters every query takes. *)
Definition normalizeRanges (params : val) : prog val :=
  height ← params @. "height";
  params ← (if is_range_string height then lift (Param.normalizeRangeParam params "height") else Ret params);
  timestamp ← params @. "timestamp";
  isRange ← truthy_and_includes timestamp;
  if isRange : bool then lift (Param.normalizeRangeParam params "timestamp") else Ret params.

(** ** business/events.js *)
Module EventsBusiness.
Section events.
Context {CFG : Config}.

(** The configuration object has [db.isPersistEvents] and no [isPersistEvents]. *)
Definition config_isPersistEvents : val := VUndef.

Definition eventCache : string := "events".

Definition getEventsByHeightFromNode (height : val) : prog val :=
  events ← requestConnector "getEventsByHeight" (VObj [("height", height)]);
  Ret (Parser.parseToJSONCompatObj events).

Definition getEventsByHeight (height : val) : prog val :=
  cachedEvents ← call (CCacheGet eventCache (to_string height));
  if truthy cachedEvents then lift (json_parse (to_string cachedEvents)) else
  fromDb ← (if truthy config_isPersistEvents then
    eventsTable ← tableOf Schemas.events;
    dbEventStrs ← Mysql.find eventsTable (VObj [("height", height)]) (strs ["eventStr"]);
    strs ← array_method dbEventStrs "map";
    match strs with
    | [] => Ret VUndef
    | _ =>
        dbEvents ← pmap (λ row, eventStr ← row @. "eventStr";
          if truthy eventStr then lift (json_parse (to_string eventStr)) else Ret eventStr) strs;
        text ← lift (json_stringify (VArr dbEvents));
        _ ← call (CCacheSet eventCache (to_string height) text);
        Ret (VArr dbEvents)
    end
  else Ret VUndef);
  match fromDb with
  | VUndef =>
      eventsFromNode ← getEventsByHeightFromNode height;
      text ← lift (json_stringify eventsFromNode);
      _ ← call (CCacheSet eventCache (to_string height) text);
      Ret eventsFromNode
  | _ => Ret fromDb
  end.

Definition deleteEventsFromCache (height : val) : prog val :=
  call (CCacheDelete eventCache (to_string height)).

(** A sender or transaction is looked up as a topic, or added to the topics asked for. *)
Definition addTopic (key : string) (params : val) : prog val :=
  id ← params @. key;
  if truthy id then
    topic ← params @. "topic";
    let rem := without (without params key) "topic" in
    Ret (if truthy topic then set_field rem "andWhere" (VObj [("topic", id)])
         else set_field rem "topic" id)
  else Ret params.

Definition resolveBlockID (blocksTable : table) (params : val) : prog val :=
  blockID ← params @. "blockID";
  if truthy blockID then
    let params := without params "blockID" in
    blocks ← Mysql.find blocksTable (VObj [("id", blockID)]) (strs ["height"]);
    block ← first_of blocks;
    _ ← (if has_key (props params) "height" then
           height ← block @. "height";
           guard_throw (negb (strict_eq (field params "height") height))
             (mkExn "NotFoundException" ("Invalid combination of blockID: " +:+ tpl blockID +:+
                                         " and height: " +:+ tpl (field params "height")))
         else Ret tt);
    height ← block @. "height";
    Ret (set_field params "height" height)
  else Ret params.

Definition eventOfRow (blocksTable : table) (row : val) : prog val :=
  eventStr ← row @. "eventStr"; height ← row @. "height"; index ← row @. "index";
  event ← (if db_isPersistEvents && truthy eventStr then lift (json_parse (to_string eventStr)) else Ret VUndef);
  event ← (if truthy event then Ret event else
    eventsFromCache ← getEventsByHeight height;
    es ← array_method eventsFromCache "find";
    pfind (λ entry, i ← entry @. "index"; Ret (strict_eq i index)) es);
  blocks ← Mysql.find blocksTable (VObj [("height", height)]) (strs ["id"; "timestamp"]);
  block ← first_of blocks;
  let block := or_default block (VObj []) in
  id ← block @. "id"; timestamp ← block @. "timestamp";
  Ret (Parser.parseToJSONCompatObj (VObj (ospread (ospread [] (props event))
    [("block", VObj [("id", id); ("height", height); ("timestamp", timestamp)])]))).

(** [s.replace(a, b)]: the first occurrence. *)
Fixpoint str_replace (a b s : string) : string :=
  if String.prefix a s then b +:+ str_drop (String.length a) s
  else match s with EmptyString => s | String c r => String c (str_replace a b r) end.

Definition getEvents (params : val) : prog val :=
  blocksTable ← tableOf Schemas.blocks;
  eventsTable ← tableOf Schemas.events;
  eventTopicsTable ← tableOf Schemas.eventTopics;
  params ← normalizeRanges params;
  topic ← params @. "topic";
  params ← (if truthy topic then
              topics ← split_commas topic;
              Ret (set_field (without params "topic") "whereIn"
                     (VObj [("property", VStr "topic"); ("values", strs topics)]))
            else Ret params);
  params ← addTopic "transactionID" params;
  params ← addTopic "senderAddress" params;
  params ← resolveBlockID blocksTable params;
  let query := VObj (ospread (ospread [] (props params)) [("distinct", VStr "eventID")]) in
  response ← Mysql.find eventTopicsTable query (strs ["eventID"]);
  entries ← array_method response "map";
  eventIDs ← pmap (λ entry, entry @. "eventID") entries;
  order ← params @. "order";
  sort ← params @. "sort";
  sort ← (match sort with
          | VStr s => Ret (str_replace "timestamp" "height" s)
          | VUndef | VNull => _ ← sort @. "replace"; Throw (not_a_function "replace")
          | _ => Throw (not_a_function "replace")
          end);
  eventsInfo ← Mysql.find eventsTable
    (VObj [("whereIn", VObj [("property", VStr "id"); ("values", VArr eventIDs)]);
           ("order", order); ("sort", VStr sort)])
    (strs ["eventStr"; "height"; "index"]);
  data ← bluebird_map eventsInfo (eventOfRow blocksTable);
  total ← Mysql.count eventTopicsTable query;
  offset ← params @. "offset";
  Ret (VObj [("data", VArr data);
    ("meta", VObj [("count", VNum (Z.of_nat (length data))); ("offset", offset); ("total", total)])]).

End events.
End EventsBusiness.
Import EventsBusiness.

(** ** business/blocks.js *)
Module BlocksBusiness.
Section blocks.
Context {CFG : Config} {LC : LiskCrypto}.

(** The event of the reward of a block. *)
Definition isBlockRewardEvent (e : val) : prog bool :=
  module ← e @. "module";
  if val_includes [VStr Constants.MODULE_REWARD; VStr Constants.MODULE_DYNAMIC_REWARD] module then
    name ← e @. "name"; Ret (strict_eq name (VStr Constants.EVENT_REWARD_MINTED))
  else Ret false.

Definition generatorOf (generatorAddress : val) : prog val :=
  info ← Account.getIndexedAccountInfo (VObj [("address", generatorAddress); ("limit", VNum 1)])
           (strs ["publicKey"; "name"]);
  publicKey ← (if truthy info then info @. "publicKey" else Ret VNull);
  name ← (if truthy info then info @. "name" else Ret VUndef);
  name ← (if truthy name then Ret name else ValidatorNames.getNameByAddress generatorAddress);
  Ret (VObj [("address", generatorAddress); ("publicKey", publicKey); ("name", name)]).

(** [numberOfEvents] and [reward], from the index or from the events. *)
Definition eventsAndReward (blocksTable : table) (height : val) : prog (val * val) :=
  found ← Mysql.find blocksTable (VObj [("height", height)]) (strs ["numberOfEvents"; "reward"]);
  dbResponse ← first_of found;
  if truthy dbResponse then
    n ← dbResponse @. "numberOfEvents"; r ← dbResponse @. "reward"; Ret (n, r)
  else
    events ← getEventsByHeight height;
    es ← array_method events "find";
    blockRewardEvent ← pfind isBlockRewardEvent es;
    reward ← (if truthy blockRewardEvent then d ← blockRewardEvent @. "data"; d @. "amount" else Ret VNull);
    Ret (VNum (Z.of_nat (length es)), reward).

(** The running totals of the transactions of a block. *)
Record totals := mkTotals { t_size : val; t_forged : Z; t_burnt : Z; t_fee : Z; t_txs : list val }.

Definition addTransaction (t : totals) (txn : val) : prog totals :=
  txn ← Transactions.normalizeTransaction txn;
  size ← txn @. "size";
  size ← lift (js_add (t_size t) size);
  fee ← txn @. "fee"; fee ← lift (to_bigint fee);
  minFee ← txn @. "minFee"; minFee ← lift (to_bigint minFee);
  Ret (mkTotals size (t_forged t + fee) (t_burnt t + minFee) (t_fee t + (fee - minFee)) (t_txs t ++ [txn])).

Definition normalizeBlock (originalBlock : val) : prog val :=
  catch
    (blocksTable ← tableOf Schemas.blocks;
     header ← originalBlock @. "header";
     transactions ← originalBlock @. "transactions";
     assets ← originalBlock @. "assets";
     let block := VObj (ospread (ospread [] (props header)) [("transactions", transactions); ("assets", assets)]) in
     let generatorAddress := field block "generatorAddress" in
     block ← (if truthy generatorAddress then
                generator ← generatorOf generatorAddress; Ret (set_field block "generator" generator)
              else Ret block);
     finalizedHeight ← Constants.getFinalizedHeight;
     let height := field block "height" in
     let block := set_field block "isFinal" (VBool (js_le height finalizedHeight)) in
     numberOfTransactions ← transactions @. "length";
     numberOfAssets ← assets @. "length";
     let block := set_field (set_field block "numberOfTransactions" numberOfTransactions)
                            "numberOfAssets" numberOfAssets in
     '(numberOfEvents, reward) ← eventsAndReward blocksTable height;
     forged ← lift (to_bigint (js_or reward (VStr "0")));
     txs ← iter_list transactions;
     t ← pfold addTransaction (mkTotals (VNum 0) forged 0 0 []) txs;
     Ret (Parser.parseToJSONCompatObj (VObj (ospread (props block)
       [("numberOfEvents", numberOfEvents); ("size", t_size t); ("reward", reward);
        ("totalForged", VBig (t_forged t)); ("totalBurnt", VBig (t_burnt t)); ("networkFee", VBig (t_fee t));
        ("transactions", VArr (t_txs t))]))))
    (λ error, header ← originalBlock @. "header"; _ ← header @. "height"; Throw error).

Definition normalizeBlocks (blocks : val) : prog val :=
  l ← bluebird_map blocks normalizeBlock; Ret (VArr l).

Definition getBlockByHeight (height : val) : prog val :=
  response ← requestConnector "getBlockByHeight" (VObj [("height", height)]);
  normalizeBlock response.

Definition getBlockByID (id : val) : prog val :=
  response ← requestConnector "getBlockByID" (VObj [("id", id)]);
  normalizeBlock response.

Definition getBlocksByIDs (ids : val) : prog val :=
  response ← requestConnector "getBlocksByIDs" (VObj [("ids", ids)]);
  normalizeBlocks response.

Definition getLastBlock : prog val :=
  response ← requestConnector "getLastBlock" VUndef;
  latestBlock ← normalizeBlock response;
  _ ← call (CVarSet "blocks.latestBlock" latestBlock);
  id ← (if truthy latestBlock then latestBlock @. "id" else Ret VUndef);
  _ ← (if truthy id then text ← lift (json_stringify latestBlock);
                         call (CCacheSet "latestBlock" "latestBlock" text)
       else Ret VUndef);
  call (CVarGet "blocks.latestBlock").

Definition isQueryFromIndex (params : val) : prog bool :=
  let paramProps := okeys (props params) in
  let directQueryParams := ["id"; "height"; "heightBetween"] in
  let defaultQueryParams := ["limit"; "offset"; "sort"] in
  let direct := List.filter (λ p, bool_decide (p ∈ directQueryParams)) paramProps in
  let isDirectQuery := Nat.eqb (length direct) 1 &&
    forallb (λ p, bool_decide (p ∈ directQueryParams ++ defaultQueryParams)) paramProps in
  sort ← params @. "sort";
  sortOrder ← (if truthy sort then parts ← lift (js_split sort ":"); Ret (nth_str parts 1) else Ret VUndef);
  limit ← params @. "limit";
  offset ← params @. "offset";
  let limit1 := strict_eq limit (VNum 1) in
  let offset0 := strict_eq offset (VNum 0) in
  let desc := strict_eq sortOrder (VStr "desc") in
  let n := length paramProps in
  let isLatestBlockFetch :=
    (Nat.eqb n 1 && limit1) ||
    (Nat.eqb n 2 && ((limit1 && offset0) || (desc && (limit1 || offset0)))) ||
    (Nat.eqb n 3 && limit1 && offset0 && desc) in
  Ret (negb isDirectQuery && negb isLatestBlockFetch).

(** [blockID] is renamed to [id]. *)
Definition renameBlockID (params : val) : prog val :=
  blockID ← params @. "blockID";
  Ret (if truthy blockID then set_field (without params "blockID") "id" blockID else params).

Definition pageIfAsked (params : val) (l : list val) : prog (list val) :=
  limit ← params @. "limit";
  if has_key (props params) "offset" && truthy limit
  then offset ← params @. "offset"; slice_page offset limit l
  else Ret l.

(** The blocks a query asks for; [None] when its index result is empty. *)
Definition fetchBlocks (params : val) : prog (option (list val)) :=
  ids ← params @. "ids"; id ← params @. "id"; height ← params @. "height";
  if truthy ids then
    if isEmptyArray ids then Ret None
    else l ← getBlocksByIDs ids; Ret (Some (arr_of l))
  else if truthy id then b ← getBlockByID id; l ← pageIfAsked params [b]; Ret (Some l)
  else if truthy height then b ← getBlockByHeight (to_number height); l ← pageIfAsked params [b]; Ret (Some l)
  else b ← getLastBlock; Ret (Some [b]).

Definition getBlocks (params : val) : prog val :=
  blocksTable ← tableOf Schemas.blocks;
  params ← renameBlockID params;
  params ← normalizeRanges params;
  total ← Mysql.count blocksTable params;
  fromIndex ← isQueryFromIndex params;
  params ← (if fromIndex : bool then
              resultSet ← Mysql.find blocksTable params (strs ["id"]);
              rows ← array_method resultSet "map";
              ids ← pmap (λ row, row @. "id") rows;
              Ret (set_field params "ids" (VArr ids))
            else Ret params);
  data ← catch (fetchBlocks params)
    (λ err, if str_includes "does not exist" (exn_msg err) then Ret (Some []) else Throw err);
  match data with
  | None => Ret (VObj [("data", VArr []); ("meta", VObj [])])
  | Some l =>
      offset ← params @. "offset";
      Ret (VObj [("data", VArr l);
        ("meta", VObj [("count", VNum (Z.of_nat (length l))); ("offset", offset); ("total", total)])])
  end.

Definition filterBlockAssets (modules : list string) (block : val) : prog val :=
  assets ← block @. "assets";
  match modules with
  | [] => Ret assets
  | _ => as_ ← array_method assets "filter";
         l ← pfilter (λ asset, m ← asset @. "module"; Ret (bool_decide (to_string m ∈ modules))) as_;
         Ret (VArr l)
  end.

Definition getBlocksAssets (params : val) : prog val :=
  blocksTable ← tableOf Schemas.blocks;
  params ← renameBlockID params;
  params ← normalizeRanges params;
  module ← params @. "module";
  let modules := if truthy module then split_char "," (to_string module) else [] in
  let params := if truthy module
                then set_field (without params "module") "whereJsonSupersetOf"
                       (VObj [("property", VStr "assetsModules"); ("values", strs modules)])
                else params in
  total ← Mysql.count blocksTable params;
  blocksFromDB ← Mysql.find blocksTable params (strs ["id"]);
  data ← bluebird_map blocksFromDB (λ blockFromDB,
    id ← blockFromDB @. "id";
    block ← getBlockByID id;
    bid ← block @. "id"; height ← block @. "height"; timestamp ← block @. "timestamp";
    assets ← filterBlockAssets modules block;
    Ret (VObj [("block", VObj [("id", bid); ("height", height); ("timestamp", timestamp)]); ("assets", assets)]));
  offset ← params @. "offset";
  Ret (VObj [("data", VArr data);
    ("meta", VObj [("count", VNum (Z.of_nat (length data))); ("offset", offset); ("total", total)])]).

End blocks.
End BlocksBusiness.
