(* ===== verification/TxService.v ===== *)
(** * Transaction queries: dataService/business/transactions.js,
    business/pendingTransactions.js and dataService/transactions.js *)
From S2P Require Export DataService.
Open Scope string_scope.
Open Scope Z_scope.
Open Scope list_scope.
Import Request EventsBusiness BlocksBusiness.

Module TransactionsBusiness.
Section transactions.
Context {CFG : Config} {LC : LiskCrypto}.

Definition getTransactionsIndex : prog table := tableOf Schemas.transactions.

Definition getTransactionIDsByBlockID (blockID : val) : prog (list val) :=
  transactionsTable ← getTransactionsIndex;
  transactions ← Mysql.find transactionsTable
    (VObj [("whereIn", VObj [("property", VStr "blockId"); ("values", VArr [blockID])])]) (strs ["id"]);
  ts ← array_method transactions "map";
  pmap (λ t, t @. "id") ts.

Definition normalizeTransactions (txs : val) : prog val :=
  l ← bluebird_map txs Transactions.normalizeTransaction; Ret (VArr l).

Definition getTransactionByID (id : val) : prog val :=
  response ← requestConnector "getTransactionByID" (VObj [("id", id)]);
  Transactions.normalizeTransaction response.

Definition getTransactionsByIDs (ids : list val) : prog val :=
  response ← requestConnector "getTransactionsByIDs" (VObj [("ids", VArr ids)]);
  normalizeTransactions response.

Definition validateParams (params : val) : prog val :=
  params ← normalizeRanges params;
  nonce ← params @. "nonce"; senderAddress ← params @. "senderAddress";
  _ ← guard_throw (truthy nonce && negb (truthy senderAddress))
        (mkExn "InvalidParamsException" "Nonce based retrieval is only possible along with senderAddress");
  executionStatus ← params @. "executionStatus";
  params ← (if truthy executionStatus then
              statuses ← split_commas executionStatus;
              let executionStatuses := List.filter (λ e, negb (bool_decide (e = "any"))) (map trim statuses) in
              Ret (set_field (without params "executionStatus") "whereIn"
                     (VObj [("property", VStr "executionStatus"); ("values", strs executionStatuses)]))
            else Ret params);
  address ← params @. "address";
  Ret (if truthy address then
         set_field (set_field (without params "address")
           "orWhere" (VObj [("recipientAddress", address)]))
           "orWhereWith" (VObj [("senderAddress", address)])
       else params).

(** [sender], and [meta] when there is a recipient. *)
Definition withParties (transaction : val) : prog val :=
  publicKey ← transaction @. "senderPublicKey";
  senderAddress ← lift (Account.getLisk32AddressFromPublicKey publicKey);
  senderAccount ← Account.getIndexedAccountInfo
    (VObj [("address", VStr senderAddress); ("limit", VNum 1)]) (strs ["name"]);
  name ← (if truthy senderAccount then senderAccount @. "name" else Ret VNull);
  let transaction := set_field transaction "sender"
    (VObj [("address", VStr senderAddress); ("publicKey", publicKey); ("name", name)]) in
  params ← transaction @. "params";
  recipientAddress ← params @. "recipientAddress";
  if truthy recipientAddress then
    recipientAccount ← Account.getIndexedAccountInfo
      (VObj [("address", recipientAddress); ("limit", VNum 1)]) (strs ["publicKey"; "name"]);
    rpk ← (if truthy recipientAccount then recipientAccount @. "publicKey" else Ret VNull);
    rname ← (if truthy recipientAccount then recipientAccount @. "name" else Ret VNull);
    Ret (set_field transaction "meta"
      (VObj [("recipient", VObj [("address", recipientAddress); ("publicKey", rpk); ("name", rname)])]))
  else Ret transaction.

Definition withIndexInfo (resultSet : list val) (transaction : val) : prog val :=
  transaction ← withParties transaction;
  txID ← transaction @. "id";
  found ← pfind (λ txInfo, id ← txInfo @. "id"; Ret (strict_eq id txID)) resultSet;
  let indexedTxInfo := js_or found (VObj []) in
  finalizedHeight ← Constants.getFinalizedHeight;
  let block := VObj [("id", field indexedTxInfo "blockID"); ("height", field indexedTxInfo "height");
    ("timestamp", field indexedTxInfo "timestamp");
    ("isFinal", VBool (js_le (field indexedTxInfo "height") finalizedHeight))] in
  Ret (set_field (set_field (set_field transaction "block" block)
         "executionStatus" (field indexedTxInfo "executionStatus"))
         "index" (field indexedTxInfo "index")).

Definition BATCH_SIZE : nat := 25.

(** The transactions of a list of IDs, requested in batches; [fuel] bounds the batches. *)
Fixpoint fetchBatches (fuel : nat) (ids : list val) : prog (list val) :=
  match fuel, ids with
  | O, _ | _, [] => Ret []
  | S k, _ =>
      batch ← getTransactionsByIDs (take BATCH_SIZE ids);
      more ← fetchBatches k (drop BATCH_SIZE ids);
      Ret (arr_of batch ++ more)
  end.

Definition TRANSACTION_COLUMNS : val := strs ["id"; "timestamp"; "height"; "blockID"; "executionStatus"; "index"].

Definition getTransactions (params : val) : prog val :=
  transactionsTable ← getTransactionsIndex;
  params ← validateParams params;
  total ← Mysql.count transactionsTable params;
  limit ← params @. "limit";
  resultSet ← Mysql.find transactionsTable
    (VObj (ospread (ospread [] (props params)) [("limit", js_or limit total)])) TRANSACTION_COLUMNS;
  rows ← array_method resultSet "map";
  ids ← pmap (λ row, row @. "id") rows;
  let params := set_field params "ids" (VArr ids) in
  id ← params @. "id";
  data ← (match ids with
          | _ :: _ => fetchBatches (length ids) ids
          | [] => if truthy id then tx ← getTransactionByID id; pageIfAsked params [tx] else Ret []
          end);
  data ← pmap (withIndexInfo rows) data;
  offset ← params @. "offset";
  Ret (VObj [("data", VArr data);
    ("meta", VObj [("total", total); ("count", VNum (Z.of_nat (length data))); ("offset", offset)])]).

Definition withBlock (block : val) (transaction : val) : prog val :=
  transaction ← withParties transaction;
  id ← block @. "id"; height ← block @. "height"; timestamp ← block @. "timestamp";
  let transaction := set_field transaction "block"
    (VObj [("id", id); ("height", height); ("timestamp", timestamp)]) in
  transactionsTable ← getTransactionsIndex;
  txID ← transaction @. "id";
  found ← Mysql.find transactionsTable (VObj [("id", txID); ("limit", VNum 1)]) (strs ["executionStatus"]);
  row ← first_of found;
  status ← (or_default row (VObj [])) @. "executionStatus";
  status ← (if truthy status then Ret status else
            events ← getEventsByHeight height;
            es ← array_method events "filter";
            Transactions.getTransactionExecutionStatus transaction es);
  Ret (set_field transaction "executionStatus" status).

Definition getTransactionsByBlockID (blockID : val) : prog val :=
  block ← getBlockByID blockID;
  txs ← block @. "transactions";
  transactions ← bluebird_map txs (withBlock block);
  let n := VNum (Z.of_nat (length transactions)) in
  Ret (VObj [("data", VArr transactions); ("meta", VObj [("offset", VNum 0); ("count", n); ("total", n)])]).

End transactions.
End TransactionsBusiness.

(** ** business/pendingTransactions.js *)
Module Pending.
Section pending.
Context {CFG : Config} {LC : LiskCrypto}.

Definition pendingTransactionsList : string := "pendingTransactions.pendingTransactionsList".

Definition getPendingTransactionsFromCore : prog (list val) :=
  response ← requestConnector "getTransactionsFromPool" VUndef;
  bluebird_map response (λ transaction,
    tx ← Transactions.normalizeTransaction transaction;
    publicKey ← tx @. "senderPublicKey";
    senderAddress ← lift (Account.getLisk32AddressFromPublicKey publicKey);
    account ← Account.getIndexedAccountInfo (VObj [("address", VStr senderAddress)]) (strs ["name"]);
    name ← account @. "name";
    let tx := set_field tx "sender"
      (VObj [("address", VStr senderAddress); ("publicKey", publicKey); ("name", js_or name VNull)]) in
    params ← tx @. "params";
    recipientAddress ← params @. "recipientAddress";
    tx ← (if truthy recipientAddress then
      recipientAccount ← Account.getIndexedAccountInfo
        (VObj [("address", recipientAddress)]) (strs ["publicKey"; "name"]);
      rpk ← (if truthy recipientAccount then recipientAccount @. "publicKey" else Ret VNull);
      rname ← (if truthy recipientAccount then recipientAccount @. "name" else Ret VNull);
      Ret (set_field tx "meta"
        (VObj [("recipient", VObj [("address", recipientAddress); ("publicKey", rpk); ("name", rname)])]))
      else Ret tx);
    _ ← detach (Account.updateAccountPublicKey publicKey);
    Ret (set_field tx "executionStatus" (VStr "pending"))).

Definition loadAllPendingTransactions : prog unit :=
  catch (l ← getPendingTransactionsFromCore;
         _ ← call (CVarSet pendingTransactionsList (VArr l)); Ret tt)
        (λ _, Ret tt).

Definition copy_if (params : val) (from to : string) (o : list (string * val)) : list (string * val) :=
  if truthy (field params from) then oset o to (field params from) else o.

Definition validateParams (params : val) : prog val :=
  nonce ← params @. "nonce"; senderAddress ← params @. "senderAddress";
  _ ← guard_throw (truthy nonce && negb (truthy senderAddress))
        (Param.validation_exception "Nonce based retrieval is only possible along with senderAddress");
  Ret (VObj (copy_if params "sort" "sort" (copy_if params "moduleCommand" "moduleCommand"
    (copy_if params "recipientAddress" "recipientAddress" (copy_if params "senderAddress" "senderAddress"
    (copy_if params "address" "recipientAddress" (copy_if params "address" "senderAddress"
    (copy_if params "id" "id" [])))))))).

(** [a[p] || 0] as a number. *)
Definition sortKey (p : string) (a : val) : result val := v ← prop a p; Ok (to_number (js_or v (VNum 0))).

Definition sign_of (v : val) : comparison := default Eq (num_compare v (VNum 0)).

Definition sortComparator (sortParam : string) (a b : val) : result comparison :=
  let parts := split_char ":" sortParam in
  let sortProp := default "" (parts !! 0%nat) in
  ka ← sortKey sortProp a;
  kb ← sortKey sortProp b;
  Ok (if bool_decide (parts !! 1%nat = Some "asc") then sign_of (num_sub ka kb) else sign_of (num_sub kb ka)).

Definition same_if_given (params : val) (k : string) (actual : prog val) : prog bool :=
  if truthy (field params k) then v ← actual; Ret (strict_eq v (field params k)) else Ret true.

Definition matchesPending (params transaction : val) : prog bool :=
  b ← same_if_given params "id" (transaction @. "id");
  if negb b then Ret false else
  b ← same_if_given params "senderAddress" (s ← transaction @. "sender"; s @. "address");
  if negb b then Ret false else
  b ← same_if_given params "recipientAddress" (p ← transaction @. "params"; p @. "recipientAddress");
  if negb b then Ret false else
  same_if_given params "moduleCommand" (transaction @. "moduleCommand").

Definition getPendingTransactions (params : val) : prog val :=
  offset ← params @. "offset"; limit ← params @. "limit";
  let offset := js_or (to_number offset) (VNum 0) in
  let limit := js_or (to_number limit) (VNum 10) in
  params ← validateParams params;
  v ← call (CVarGet pendingTransactionsList);
  match arr_of v with
  | [] => Ret (VObj [("data", VArr []); ("meta", VObj [("total", VNum 0)])])
  | l =>
      filtered ← pfilter (matchesPending params) l;
      sortParam ← lift (js_split (field params "sort") ":");
      sorted ← lift (js_sort (sortComparator (join ":" sortParam)) filtered);
      page ← slice_page offset limit sorted;
      let data := map (λ t, set_field t "executionStatus" (VStr "pending")) page in
      Ret (VObj [("data", VArr data);
        ("meta", VObj [("count", VNum (Z.of_nat (length data))); ("offset", offset);
                       ("total", VNum (Z.of_nat (length filtered)))])])
  end.

End pending.
End Pending.

(** ** dataService/transactions.js: pending transactions come first *)
Module TransactionsService.
Section service.
Context {CFG : Config} {LC : LiskCrypto}.

Definition isIncludePendingTransactions (executionStatus : val) : prog bool :=
  if truthy executionStatus then
    statuses ← split_commas executionStatus;
    Ret (existsb (λ s, bool_decide (s = "pending")) statuses)
  else Ret false.

(** A response with [data] and [meta] kept when they are there. *)
Definition dataAndMeta (response : val) : prog (val * val) :=
  data ← response @. "data"; meta ← response @. "meta";
  Ret (js_or data (VArr []), js_or meta (VObj [])).

(** [Math.max]: not a number when one of the two is not. *)
Definition num_max (a b : val) : val :=
  if is_nan a then a else if is_nan b then b else if js_lt a b then b else a.

Definition mergeTransactions (params : val) : prog val :=
  response ← Pending.getPendingTransactions params;
  '(pendingData, pendingMeta) ← dataAndMeta response;
  offset ← params @. "offset"; limit ← params @. "limit";
  let numTotalPendingTx := field pendingMeta "total" in
  let pending := arr_of pendingData in
  let n := VNum (Z.of_nat (length pending)) in
  let num a := to_number a in
  let params := VObj (ospread (ospread [] (props params))
    [("limit", num_max (VNum 1) (num_sub (num limit) (num_sub (num numTotalPendingTx) n)));
     ("offset", num_max (VNum 0) (num_sub (num offset) (num numTotalPendingTx)))]) in
  '(txData, txMeta) ← catch
    (response ← TransactionsBusiness.getTransactions params; dataAndMeta response)
    (λ error, match pending with [] => Throw error | _ => Ret (VArr [], VObj []) end);
  let txTotal := js_or (field txMeta "total") (VNum 0) in
  let data := if strict_eq n limit then pending
              else Validators.slice_to limit (pending ++ arr_of txData) in
  total ← lift (js_add numTotalPendingTx txTotal);
  Ret (VObj [("data", VArr data);
    ("meta", VObj [("count", VNum (Z.of_nat (length data))); ("offset", offset); ("total", total)])]).

Definition getTransactions (params : val) : prog val :=
  executionStatus ← params @. "executionStatus";
  includePending ← isIncludePendingTransactions executionStatus;
  response ← (if includePending : bool then mergeTransactions params
              else TransactionsBusiness.getTransactions params);
  '(data, meta) ← dataAndMeta response;
  Ret (VObj [("data", data); ("meta", meta)]).

End service.
End TransactionsService.
