(* ===== verification/Indexer.v ===== *)
(** * The block indexer

    services/blockchain-indexer/shared/indexer: genesisBlock.js,
    validatorIndex.js and blockchainIndex.js, with the reward calculations of
    utils/validator.js. *)
From S2P Require Export Dispatch TxService.
Open Scope string_scope.
Open Scope Z_scope.
Open Scope list_scope.
Import Request EventsBusiness BlocksBusiness.

(** The fixed-point numbers of @liskhq/lisk-utils ([math.q96]). *)
Class LiskQ := {
  Q96 : Type;
  q96 : val → result Q96;
  q96_q : Q96 → result Q96;           (* q96 of a number of the same type *)
  q_mul : Q96 → Q96 → Q96;
  q_sub : Q96 → Q96 → Q96;
  q_div : Q96 → Q96 → result Q96;
  q_floor : Q96 → Z;
}.

(** ** utils/validator.js: rewards *)
Module Rewards.
Section rewards.
Context {CFG : Config} {LQ : LiskQ}.

Definition maxCommissionQ : result Q96 := q96 (VBig Constants.MAX_COMMISSION).

Definition calcCommission (generatorAddress : val) (reward : Z) : prog Z :=
  commissionsTable ← tableOf Schemas.commissions;
  rows ← Mysql.find commissionsTable
    (VObj [("address", generatorAddress); ("sort", VStr "height:desc"); ("limit", VNum 1)]) (VStr "commission");
  row ← first_of rows;
  currentCommission ← (or_default row (VObj [])) @. "commission";
  rewardQ ← lift (q96 (VBig reward));
  c ← lift (to_bigint (js_or currentCommission (VNum 0)));
  currentCommissionQ ← lift (q96 (VBig c));
  max ← lift maxCommissionQ;
  commission ← lift (q_div (q_mul rewardQ currentCommissionQ) max);
  Ret (q_floor commission).

(** [l.reduce((a, b) => BigInt(a.amount) + BigInt(b.amount))]: the accumulator
    starts as the first row and is a BigInt afterwards. *)
Definition addAmounts (a b : val) : result val :=
  x ← prop a "amount"; x ← to_bigint x;
  y ← prop b "amount"; y ← to_bigint y;
  Ok (VBig (x + y)).

Definition reduceAmounts (l : list val) : result val :=
  match l with
  | [] => Err (type_error "Reduce of empty array with no initial value")
  | a :: r => Mysql.result_fold addAmounts a r
  end.

Definition calcSelfStakeReward (generatorAddress : val) (reward commission : Z) : prog Z :=
  stakesTable ← tableOf Schemas.stakes;
  rows ← Mysql.find stakesTable (VObj [("validatorAddress", generatorAddress)]) (strs ["stakerAddress"; "amount"]);
  stakerInfo ← array_method rows "filter";
  match stakerInfo with
  | [] => zero ← lift (q96 (VBig 0)); Ret (q_floor zero)
  | _ =>
      selfStakesInfo ← pfilter (λ stake, a ← stake @. "stakerAddress"; Ret (strict_eq a generatorAddress)) stakerInfo;
      selfStakes ← lift (reduceAmounts selfStakesInfo);
      totalStakes ← lift (reduceAmounts stakerInfo);
      rewardQ ← lift (q96 (VBig reward));
      commissionQ ← lift (q96 (VBig commission));
      selfStakesQ ← lift (q96 selfStakes);
      totalStakesQ ← lift (q96 totalStakes);
      max ← lift maxCommissionQ;
      remCommissionQ ← lift (q96_q (q_sub max commissionQ));
      let rewardFractionQ := q_mul rewardQ remCommissionQ in
      r ← lift (q_div (q_mul rewardFractionQ selfStakesQ) (q_mul totalStakesQ max));
      Ret (q_floor r)
  end.

End rewards.
End Rewards.

(** ** Locked amounts per token, in the order the tokens appear *)
Definition amounts := list (string * Z).

Fixpoint add_amount (m : amounts) (k : string) (d : Z) : amounts :=
  match m with
  | [] => [(k, d)]
  | (k', z) :: r => if decide (k = k') then (k', z + d) :: r else (k', z) :: add_amount r k d
  end.

(** ** genesisBlock.js *)
Module GenesisBlock.
Section genesis.
Context {CFG : Config}.

Definition TOKEN_USER : string := "userSubstore".
Definition POS_STAKERS : string := "stakers".

(** [requestConnector('getGenesisAssetsLength', ...)[module][subStore]] *)
Definition assetsLength (module subStore : string) : prog val :=
  len ← requestConnector "getGenesisAssetsLength" (VObj [("module", VStr module); ("subStore", VStr subStore)]);
  m ← len @. module; m @. subStore.

Definition limit_of_val (v : val) : option Z := match v with VNum z => Some z | _ => None end.

(** All the entries of a sub-store. *)
Definition allAssets (module subStore : string) (total : val) : prog (list val) :=
  data ← RequestAll.requestAll (λ ps, requestConnector "getGenesisAssetByModule" (VObj ps))
           [("module", VStr module); ("subStore", VStr subStore)] (limit_of_val total);
  infos ← data @. subStore;
  iter_list infos.

Definition addLockedBalances (m : amounts) (userInfo : val) : prog amounts :=
  tokenID ← userInfo @. "tokenID";
  lockedBalances ← userInfo @. "lockedBalances";
  lbs ← iter_list lockedBalances;
  pfold (λ m lockedBalance,
    amount ← lockedBalance @. "amount";
    amount ← lift (to_bigint amount);
    Ret (add_amount m (to_string tokenID) amount)) m lbs.

Definition indexTokenModuleAssets (dbTrx : Z) : prog unit :=
  totalUsers ← assetsLength Constants.MODULE_TOKEN TOKEN_USER;
  userSubStoreInfos ← allAssets Constants.MODULE_TOKEN TOKEN_USER totalUsers;
  tokenIDLockedAmountChangeMap ← pfold addLockedBalances [] userSubStoreInfos;
  LockedAmounts.updateTotalLockedAmounts tokenIDLockedAmountChangeMap (Some dbTrx).

Definition addStakes (totals : Z * Z) (stakerInfo : val) : prog (Z * Z) :=
  stakes ← stakerInfo @. "stakes";
  stakes ← iter_list stakes;
  pfold (λ totals stake,
    amount ← stake @. "amount";
    amount ← lift (to_bigint amount);
    address ← stakerInfo @. "address";
    validatorAddress ← stake @. "validatorAddress";
    Ret (totals.1 + amount, if strict_eq address validatorAddress then totals.2 + amount else totals.2))
    totals stakes.

Definition indexPosModuleAssets (dbTrx : Z) : prog unit :=
  totalStakers ← assetsLength Constants.MODULE_POS POS_STAKERS;
  '(totalStakeChange, totalSelfStakeChange) ←
    (if js_gt totalStakers (VNum 0) then
       stakersInfo ← allAssets Constants.MODULE_POS POS_STAKERS totalStakers;
       pfold addStakes (0, 0) stakersInfo
     else Ret (0, 0));
  _ ← updateTotalStake totalStakeChange dbTrx;
  updateTotalSelfStake totalSelfStakeChange dbTrx.

Definition indexGenesisBlockAssets (dbTrx : Z) : prog unit :=
  _ ← indexTokenModuleAssets dbTrx;
  indexPosModuleAssets dbTrx.

End genesis.
End GenesisBlock.

(** ** validatorIndex.js *)
Module ValidatorIndex.
Section vindex.
Context {CFG : Config}.

Definition indexValidatorCommissionInfo (genesisBlock : val) : prog unit :=
  commissionsTable ← tableOf Schemas.commissions;
  height ← genesisBlock @. "height";
  validators ← requestConnector "getPoSGenesisValidators" (VObj [("height", height)]);
  vs ← array_method validators "map";
  commissionInfo ← pmap (λ validator,
    address ← validator @. "address"; commission ← validator @. "commission";
    Ret (VObj [("address", address); ("height", height); ("commission", commission)])) vs;
  match commissionInfo with
  | [] => Ret tt
  | _ => _ ← Mysql.upsert commissionsTable (VArr commissionInfo) None; Ret tt
  end.

(** The results of [f] before it first throws. *)
Fixpoint until_throw {A B} (f : A → result B) (l : list A) : list B :=
  match l with
  | [] => []
  | x :: r => match f x with Ok y => y :: until_throw f r | Err _ => [] end
  end.

(** The callback is [async]: an error ends its loop and reaches nobody. *)
Definition stakesOf (staker : val) : list val :=
  match prop staker "stakes" with
  | Ok (VArr stakes) =>
      until_throw (λ stake,
        stakerAddress ← prop staker "address";
        validatorAddress ← prop stake "validatorAddress"; amount ← prop stake "amount";
        Ok (VObj [("stakerAddress", stakerAddress); ("validatorAddress", validatorAddress); ("amount", amount)]))
        stakes
  | _ => []
  end.

Definition indexStakersInfo (genesisBlock : val) : prog unit :=
  stakesTable ← tableOf Schemas.stakes;
  height ← genesisBlock @. "height";
  stakers ← requestConnector "getPoSGenesisStakers" (VObj [("height", height)]);
  ss ← array_method stakers "forEach";
  match concat (map stakesOf ss) with
  | [] => Ret tt
  | l => _ ← Mysql.upsert stakesTable (VArr l) None; Ret tt
  end.

End vindex.
End ValidatorIndex.

(** ** blockchainIndex.js *)
Module BlockchainIndex.
Section index.
Context {CFG : Config} {LC : LiskCrypto} {LT : LiskTransactions} {LO : Locale} {LQ : LiskQ}.

Definition getBlocksTable : prog table := tableOf Schemas.blocks.
Definition INDEX_VERIFIED_HEIGHT : string := "indexVerifiedHeight".

Definition validateBlock (block : val) : bool := truthy block && js_ge (field block "height") (VNum 0).

(** *** indexBlock *)

(** The fields a transaction is indexed with. *)
Definition enrichTransaction (block : val) (events : list val) (index : nat) (tx : val) : prog val :=
  tx ← assign_field tx "index" (VNum (Z.of_nat index));
  m ← tx @. "module"; c ← tx @. "command";
  senderPublicKey ← tx @. "senderPublicKey";
  let tx := set_field tx "moduleCommand" (VStr (tpl m +:+ ":" +:+ tpl c)) in
  let tx := set_field (set_field tx "blockID" (field block "id")) "height" (field block "height") in
  senderAddress ← lift (Account.getLisk32AddressFromPublicKey senderPublicKey);
  let tx := set_field (set_field tx "senderAddress" (VStr senderAddress)) "timestamp" (field block "timestamp") in
  executionStatus ← Transactions.getTransactionExecutionStatus tx events;
  Ret (set_field tx "executionStatus" executionStatus).

Definition indexTransaction (transactionsTable : table) (block blockHeader : val) (events : list val) (dbTrx : Z)
    (itx : nat * val) : prog val :=
  tx ← enrichTransaction block events itx.1 itx.2;
  _ ← detach (Account.updateAccountPublicKey (field tx "senderPublicKey"));
  _ ← Mysql.upsert transactionsTable tx (Some dbTrx);
  _ ← dispatchApply blockHeader tx (VArr events) dbTrx;
  Ret tx.

(** [const { transactions, assets, ...blockHeader } = block] *)
Definition headerOf (block : val) : val := without (without block "transactions") "assets".

Definition updateGeneratedBlocks (block : val) (dbTrx : Z) : prog table :=
  validatorsTable ← tableOf Schemas.validators;
  let generatorAddress := field block "generatorAddress" in
  numRowsAffected ← Mysql.increment validatorsTable [("address", generatorAddress)]
                      [("generatedBlocks", VNum 1)] (Some dbTrx);
  _ ← (if strict_eq numRowsAffected (VNum 0) then
         Mysql.upsert validatorsTable
           (VObj [("address", generatorAddress); ("generatedBlocks", VNum 1)]) (Some dbTrx)
       else Ret VUndef);
  Ret validatorsTable.

(** The reward of the block; the generator's share is added to its totals. *)
Definition indexReward (validatorsTable : table) (block : val) (events : list val) (dbTrx : Z) : prog Z :=
  blockRewardEvent ← pfind isBlockRewardEvent events;
  if truthy blockRewardEvent then
    data ← blockRewardEvent @. "data";
    amount ← data @. "amount";
    blockReward ← lift (to_bigint (js_or amount (VStr "0")));
    let generatorAddress := field block "generatorAddress" in
    _ ← (if blockReward =? 0 then Ret VUndef else
      commission ← Rewards.calcCommission generatorAddress blockReward;
      selfStakeReward ← Rewards.calcSelfStakeReward generatorAddress blockReward commission;
      _ ← Mysql.increment validatorsTable [("address", generatorAddress)]
            [("totalCommission", VBig commission)] (Some dbTrx);
      Mysql.increment validatorsTable [("address", generatorAddress)]
            [("totalSelfStakeRewards", VBig selfStakeReward)] (Some dbTrx));
    Ret blockReward
  else Ret 0.

(** The change of the locked amounts by one event; [sgn] is 1 when a block is
    indexed and -1 when it is deleted. *)
Definition lockedChange (sgn : Z) (m : amounts) (event : val) : prog amounts :=
  eventData ← event @. "data";
  name ← event @. "name";
  let isLock := strict_eq name (VStr Constants.EVENT_LOCK) in
  let isUnlock := strict_eq name (VStr Constants.EVENT_UNLOCK) in
  if isLock || isUnlock then
    tokenID ← eventData @. "tokenID";
    amount ← eventData @. "amount";
    amount ← lift (to_bigint amount);
    Ret (add_amount m (to_string tokenID) (if isLock then sgn * amount else - sgn * amount))
  else Ret m.

Definition lockedChanges (sgn : Z) (events : list val) : prog amounts := pfold (lockedChange sgn) [] events.

Definition blockToIndex (block : val) (numberOfEvents : nat) (reward : Z) : prog val :=
  assets ← block @. "assets";
  as_ ← array_method assets "map";
  assetsModules ← pmap (λ asset, asset @. "module") as_;
  Ret (VObj (ospread (ospread [] (props block))
    [("assetsModules", VArr assetsModules); ("numberOfEvents", VNum (Z.of_nat numberOfEvents)); ("reward", VBig reward)])).

(** The body of the [try] of indexBlock, up to the commit. *)
Definition indexBlockBody (blocksTable : table) (block : val) (dbTrx : Z) : prog unit :=
  genesisHeight ← Constants.getGenesisHeight;
  _ ← (if strict_eq (field block "height") genesisHeight
       then GenesisBlock.indexGenesisBlockAssets dbTrx else Ret tt);
  eventsV ← getEventsByHeight (field block "height");
  txs ← block @. "transactions";
  numTxs ← txs @. "length";
  block ← (if truthy numTxs then
    let blockHeader := headerOf block in
    events ← array_method eventsV "filter";
    transactionsTable ← tableOf Schemas.transactions;
    l ← iter_list txs;
    l' ← pmap (indexTransaction transactionsTable block blockHeader events dbTrx) (imap pair l);
    Ret (set_field block "transactions" (VArr l'))
  else Ret block);
  validatorsTable ← updateGeneratedBlocks block dbTrx;
  numEvents ← eventsV @. "length";
  blockReward ← (if truthy numEvents then
    events ← array_method eventsV "forEach";
    eventsTable ← tableOf Schemas.events;
    eventTopicsTable ← tableOf Schemas.eventTopics;
    '(eventsInfo, eventTopicsInfo) ← Events.getEventsInfoToIndex block events;
    _ ← Mysql.upsert eventsTable (VArr eventsInfo) (Some dbTrx);
    _ ← Mysql.upsert eventTopicsTable (VArr eventTopicsInfo) (Some dbTrx);
    blockReward ← indexReward validatorsTable block events dbTrx;
    changes ← lockedChanges 1 events;
    _ ← LockedAmounts.updateTotalLockedAmounts changes (Some dbTrx);
    Ret blockReward
  else Ret 0);
  toIndex ← blockToIndex block (length (arr_of eventsV)) blockReward;
  _ ← Mysql.upsert blocksTable toIndex (Some dbTrx);
  Ret tt.

Definition isDeadlock (patterns : list string) (err : exn) : bool :=
  existsb (λ p, str_includes p (exn_msg err)) patterns.

(** [{ block } = job.data] *)
Definition indexBlock (data : val) : prog unit :=
  block ← data @. "block";
  _ ← (if validateBlock block then Ret tt else
       id ← block @. "id"; height ← block @. "height";
       Throw (js_error ("Invalid block " +:+ tpl id +:+ " at height " +:+ tpl height +:+ " }.")));
  blocksTable ← getBlocksTable;
  connection ← Mysql.getDbConnection MYSQL_ENDPOINT;
  dbTrx ← Mysql.startDbTransaction connection;
  catch
    (_ ← indexBlockBody blocksTable block dbTrx;
     _ ← Mysql.commitDbTransaction dbTrx;
     Ret tt)
    (λ error,
     _ ← Mysql.rollbackDbTransaction dbTrx;
     if isDeadlock ["Deadlock found when trying to get lock"; "ER_LOCK_DEADLOCK"] error then
       Throw (js_error ("Deadlock encountered while indexing block " +:+ tpl (field block "id") +:+ " at height " +:+
                        tpl (field block "height") +:+ ". Will retry later."))
     else Throw error).

Definition updateBlockIndex (data : val) : prog unit :=
  blocksTable ← getBlocksTable;
  blocks ← data @. "blocks";
  _ ← Mysql.upsert blocksTable blocks None;
  Ret tt.

(** *** deleteIndexedBlocks *)

Definition revertTransactions (block events txs : val) (dbTrx : Z) : prog val :=
  l ← bluebird_map txs (λ tx,
    _ ← dispatchRevert (headerOf block) tx events dbTrx;
    Transactions.normalizeTransaction tx);
  Ret (VArr l).

(** The transactions of the block as the index has them; [map] with a
    predicate where a filter is meant makes booleans of them. *)
Definition deletedTransactionsOf (forkedTransactionIDs : list val) : prog val :=
  deleted ← pmap (λ txID,
    transaction ← TransactionsService.getTransactions (VObj [("id", txID)]);
    data ← transaction @. "data";
    if truthy data then data @. "0" else Ret VNull) forkedTransactionIDs;
  Ret (VArr (map (λ e, VBool (negb (strict_eq e VNull))) deleted)).

Definition deleteBlockData (dbTrx : Z) (block : val) : prog unit :=
  transactionsTable ← tableOf Schemas.transactions;
  height ← block @. "height";
  events ← getEventsByHeight height;
  txs ← block @. "transactions";
  numTxs ← (if truthy txs then txs @. "length" else Ret VUndef);
  forkedTransactions ← (if truthy numTxs then revertTransactions block events txs dbTrx else Ret VUndef);
  header ← block @. "header";
  headerID ← header @. "id";
  forkedTransactionIDs ← TransactionsBusiness.getTransactionIDsByBlockID headerID;
  forkedTransactions ← (if is_array forkedTransactions then Ret forkedTransactions
                        else deletedTransactionsOf forkedTransactionIDs);
  _ ← Mysql.deleteByPrimaryKey transactionsTable (VArr forkedTransactionIDs) (Some dbTrx);
  _ ← call (CSignal "deleteTransactions" (VObj [("data", forkedTransactions)]));
  numEvents ← events @. "length";
  _ ← (if truthy numEvents then
         es ← array_method events "forEach";
         changes ← lockedChanges (-1) es;
         LockedAmounts.updateTotalLockedAmounts changes (Some dbTrx)
       else Ret tt);
  _ ← deleteEventsFromCache height;
  Ret tt.

(** [l.join(', ')]: [undefined] and [null] are empty. *)
Definition join_vals (l : list val) : string :=
  join ", " (map (λ v, match v with VUndef | VNull => "" | _ => to_string v end) l).

Definition deleteIndexedBlocks (data : val) : prog unit :=
  blocks ← data @. "blocks";
  bs ← array_method blocks "map";
  ids ← pmap (λ b, b @. "id") bs;
  let blockIDs := join_vals ids in
  blocksTable ← getBlocksTable;
  connection ← Mysql.getDbConnection MYSQL_ENDPOINT;
  dbTrx ← Mysql.startDbTransaction connection;
  catch
    (_ ← pmap (deleteBlockData dbTrx) bs;
     _ ← Mysql.deleteByPrimaryKey blocksTable (VStr blockIDs) None;
     _ ← Mysql.commitDbTransaction dbTrx;
     Ret tt)
    (λ error,
     _ ← Mysql.rollbackDbTransaction dbTrx;
     if isDeadlock ["ER_LOCK_DEADLOCK"] error then
       Throw (js_error ("Deadlock encountered while deleting block(s) with ID(s): " +:+ blockIDs +:+ ". Will retry later."))
     else Throw error).

(** *** The queues *)

Definition indexBlocksQueue : string := "indexBlocksQueue".
Definition updateBlockIndexQueue : string := "updateBlockIndexQueue".
Definition deleteIndexedBlocksQueue : string := "deleteIndexedBlocksQueue".

Definition deleteBlock (block : val) : prog val :=
  call (CQueueAdd deleteIndexedBlocksQueue (VObj [("blocks", VArr [block])])).

Definition indexNewBlock (block : val) : prog unit :=
  blocksTable ← getBlocksTable;
  height ← block @. "height";
  found ← Mysql.find blocksTable (VObj [("height", height); ("limit", VNum 1)]) (strs ["id"; "isFinal"]);
  blockInfo ← first_of found;
  isFinal ← (if truthy blockInfo then blockInfo @. "isFinal" else Ret VUndef);
  if truthy blockInfo && truthy isFinal then Ret tt else
  _ ← call (CQueueAdd indexBlocksQueue (VObj [("block", block)]));
  finalizedBlockHeight ← Constants.getFinalizedHeight;
  nonFinal ← Mysql.find blocksTable (VObj [("isFinal", VBool false); ("limit", VNum 1000)])
               (strs ((schema Schemas.blocks).*1));
  nonFinalBlocks ← array_method nonFinal "filter";
  finalNow ← pfilter (λ b, h ← b @. "height"; Ret (js_le h finalizedBlockHeight)) nonFinalBlocks;
  _ ← call (CQueueAdd updateBlockIndexQueue
        (VObj [("blocks", VArr (map (λ b, spread b (VObj [("isFinal", VBool true)])) finalNow))]));
  id ← block @. "id";
  if truthy blockInfo && negb (strict_eq (field blockInfo "id") id) then
    highest ← Mysql.find blocksTable (VObj [("sort", VStr "height:desc"); ("limit", VNum 1)]) (strs ["height"]);
    highestIndexedBlock ← first_of highest;
    top ← highestIndexedBlock @. "height";
    from ← lift (js_add height (VNum 1));
    limit ← lift (js_sub top height);
    blocksToRemove ← Mysql.find blocksTable
      (VObj [("propBetweens", VArr [VObj [("property", VStr "height"); ("from", from); ("to", top)]]);
             ("limit", limit)]) (strs ["id"]);
    _ ← call (CQueueAdd deleteIndexedBlocksQueue (VObj [("blocks", blocksToRemove)]));
    Ret tt
  else Ret tt.

(** *** buildIndex: heights are numbers of blocks, so integers *)

(** The heights of page [pageNum]: one block per page. *)
Definition pageHeights (from to pageNum : Z) : list Z :=
  let MAX_BLOCKS_LIMIT_PP := 1 in
  let pseudoOffset := to - MAX_BLOCKS_LIMIT_PP * (pageNum + 1) in
  let offset := if from <=? pseudoOffset then pseudoOffset else from - 1 in
  let batchFromHeight := offset + 1 in
  let batchToHeight := if offset + MAX_BLOCKS_LIMIT_PP <=? to then offset + MAX_BLOCKS_LIMIT_PP else to in
  map (λ i, batchFromHeight + Z.of_nat i) (seq 0 (Z.to_nat (batchToHeight - batchFromHeight + 1))).

Definition scheduledHeights (from to : Z) : list Z :=
  let numOfPages := (to + 1) - from in
  concat (map (λ p, pageHeights from to (Z.of_nat p)) (seq 0 (Z.to_nat numOfPages))).

Definition buildIndex (from to : Z) : prog unit :=
  if to <? from then Ret tt else
  piter (λ h, _ ← call (CQueueAdd indexBlocksQueue (VObj [("height", VNum h)])); Ret tt) (scheduledHeights from to).

(** *** Missing blocks *)

(** The statement sent to the database; the text is the code's, without its layout. *)
Definition missingBlocksQuery (fromHeight toHeight : Z) : string :=
  let f := pretty fromHeight in let t := pretty toHeight in
  "SELECT (SELECT COALESCE(MAX(b0.height), " +:+ f +:+ ") FROM blocks b0 WHERE b0.height < b1.height) AS 'from', " +:+
  "(b1.height - 1) AS 'to' FROM blocks b1 WHERE b1.height BETWEEN " +:+ f +:+ " + 1 AND " +:+ t +:+
  " AND b1.height != " +:+ t +:+ " AND NOT EXISTS (SELECT 1 FROM blocks b2 WHERE b2.height = b1.height - 1)".

Definition findMissingBlocksInRange (fromHeight toHeight : Z) : prog val :=
  let totalNumOfBlocks := toHeight - fromHeight + 1 in
  blocksTable ← getBlocksTable;
  let propBetweens := VArr [VObj [("property", VStr "height"); ("from", VNum fromHeight); ("to", VNum toHeight)]] in
  indexedBlockCount ← Mysql.count blocksTable (VObj [("propBetweens", propBetweens)]);
  result ← (if js_lt indexedBlockCount (VNum 3) then
              Ret (VArr [VObj [("from", VNum fromHeight); ("to", VNum toHeight)]])
            else if negb (strict_eq indexedBlockCount (VNum totalNumOfBlocks)) then
              Mysql.rawQuery (missingBlocksQuery fromHeight toHeight)
            else Ret (VArr []));
  entries ← array_method result "map";
  _ ← pmap (λ o, _ ← o @. "from"; o @. "to") entries;
  Ret result.

Definition getMinNonFinalHeight : prog val :=
  blocksTable ← getBlocksTable;
  rows ← Mysql.find blocksTable
    (VObj [("sort", VStr "height:asc"); ("limit", VNum 1); ("isFinal", VBool false)]) (strs ["height"]);
  row ← first_of rows;
  (or_default row (VObj [])) @. "height".

Definition updateNonFinalBlocks : prog unit :=
  cHeight ← Constants.getCurrentHeight;
  minNFHeight ← getMinNonFinalHeight;
  match minNFHeight, cHeight with
  | VNum from, VNum to => buildIndex from to
  | _, _ => Ret tt
  end.

(** One entry's heights: [range(entry.from, entry.to + 1)]. *)
Definition heightsOfEntry (entry : val) : prog (list Z) :=
  from ← entry @. "from"; to ← entry @. "to";
  match from, to with
  | VNum f, VNum t => lift (Arr.range f (Some (t + 1)) 1)
  | _, _ => Throw (mkExn "RangeError" "Invalid array length")
  end.

Definition getMissingBlocks (from to : Z) : prog (list Z) :=
  missingBlockRanges ← findMissingBlocksInRange from to;
  entries ← array_method missingBlockRanges "map";
  nestedListOfRanges ← pmap heightsOfEntry entries;
  Ret (concat nestedListOfRanges).

Definition addBlockToQueue (height : val) : prog unit :=
  block ← getBlockByHeight height;
  _ ← detach (call (CQueueAdd indexBlocksQueue (VObj [("block", block)])));
  Ret tt.

Definition setIndexVerifiedHeight (params : val) : prog unit :=
  height ← params @. "height"; KvStore.set INDEX_VERIFIED_HEIGHT height None.

Definition getIndexVerifiedHeight : prog val := KvStore.get INDEX_VERIFIED_HEIGHT.

(** [bullQueue.getActiveCount() || bullQueue.getWaitingCount()] *)
Definition getLiveIndexingJobCount : prog val :=
  active ← call (CQueueCounts (indexBlocksQueue +:+ ":active"));
  if truthy active then Ret active else call (CQueueCounts (indexBlocksQueue +:+ ":waiting")).

End index.
End BlockchainIndex.
