(* ===== verification/IndexStatus.v ===== *)
(** * Index status: services/blockchain-indexer/shared/indexer/indexStatus.js *)
From S2P Require Export Indexer.
Open Scope string_scope.
Open Scope Z_scope.
Open Scope list_scope.
Import Request.

(** ** Arithmetic on doubles *)

Definition num_div (a b : val) : val := num_of_flt (SFdiv 53 1024 (flt_of_num a) (flt_of_num b)).

(** [Math.floor] *)
Definition num_floor (a : val) : val :=
  match a with
  | VFlt (S754_finite s m e) =>
      let z := if s then Zneg m else Zpos m in
      if 0 <=? e then a else num_of_Z (z / 2 ^ (- e))
  | _ => a
  end.

(** [x.toFixed(2)], for [x] below 10^21: the nearest number of hundredths, the
    larger of two equally near. *)
Definition to_fixed2 (a : val) : string :=
  let layout neg n :=
    let s := pretty n in
    let s := if n <? 10 then "00" +:+ s else if n <? 100 then "0" +:+ s else s in
    let k := (String.length s - 2)%nat in
    (if neg : bool then "-" else "") +:+ str_take k s +:+ "." +:+ str_drop k s in
  match a with
  | VNum z => layout (z <? 0) (Z.abs z * 100)
  | VFlt (S754_finite s m e) =>
      let n := if 0 <=? e then Zpos m * 2 ^ e * 100
               else (Zpos m * 200 + 2 ^ (- e)) / (2 * 2 ^ (- e)) in
      layout s n
  | _ => to_string a
  end.

Module IndexStatus.
Section status.
Context {CFG : Config} {LC : LiskCrypto}.

Definition isIndexReady : string := "indexStatus.isIndexReady".
Definition setIndexReadyStatus (isReady : bool) : prog val := call (CVarSet isIndexReady (VBool isReady)).
(** The variable starts as [false]. *)
Definition getIndexReadyStatus : prog val := call (CVarGet isIndexReady).

(** Of the chain length and the indexed blocks, in hundredths of a percent, rounded down. *)
Definition indexPercentage (numBlocksIndexed chainLength : val) : string :=
  to_fixed2 (num_div (num_floor (num_mul (num_div numBlocksIndexed chainLength) (VNum 10000))) (VNum 100)).

Definition getIndexStats : prog val :=
  catch
    (blocksTable ← tableOf Schemas.blocks;
     currentChainHeight ← Constants.getCurrentHeight;
     genesisHeight ← Constants.getGenesisHeight;
     numBlocksIndexed ← Mysql.count blocksTable (VObj []);
     rows ← Mysql.find blocksTable (VObj [("sort", VStr "height:desc"); ("limit", VNum 1)]) (strs ["height"]);
     row ← first_of rows;
     let lastIndexedBlock := or_default row (VObj []) in
     let chainLength := num_add (num_sub (to_number currentChainHeight) (to_number genesisHeight)) (VNum 1) in
     let percentage := indexPercentage (to_number numBlocksIndexed) chainLength in
     Ret (VObj [("currentChainHeight", currentChainHeight); ("genesisHeight", genesisHeight);
       ("numBlocksIndexed", numBlocksIndexed); ("lastIndexedBlock", lastIndexedBlock);
       ("chainLength", chainLength); ("percentage", VStr percentage)]))
    (λ _, Ret (VObj [("error", VBool true)])).

(** [strict] is [true] only when the caller says so. *)
Definition validateIndexReadiness (strict : bool) : prog bool :=
  stats ← getIndexStats;
  numBlocksIndexed ← stats @. "numBlocksIndexed";
  chainLength ← stats @. "chainLength";
  let chainLenToConsider := if strict then chainLength else num_sub (to_number chainLength) (VNum 1) in
  Ret (js_ge numBlocksIndexed chainLenToConsider).

Definition checkIndexReadiness : prog unit :=
  ready ← getIndexReadyStatus;
  if truthy ready then Ret tt else
  valid ← validateIndexReadiness false;
  if valid : bool then
    _ ← setIndexReadyStatus true;
    _ ← call (CSignal "blockIndexReady" (VBool true));
    Ret tt
  else Ret tt.

Definition reportIndexStatus : prog unit :=
  indexStats ← getIndexStats;
  lastIndexedBlock ← indexStats @. "lastIndexedBlock";
  _ ← call (CSignal "indexStatUpdate" indexStats);
  _ ← (or_default lastIndexedBlock (VObj [])) @. "height";
  Ret tt.

(** The schemas of the directory, by file name. *)
Definition tableSchemas : list table_schema :=
  [Schemas.accounts; Schemas.audios; Schemas.blockchainApps; Schemas.blocks; Schemas.collections;
   Schemas.commissions; Schemas.eventTopics; Schemas.events; Schemas.feats; Schemas.kvStore; Schemas.members;
   Schemas.multisignature; Schemas.owners; Schemas.profiles; Schemas.socialAccounts; Schemas.stakes;
   Schemas.subscriptions; Schemas.transactions; Schemas.validators].

Definition initializeSearchIndex : prog unit :=
  _ ← pmap tableOf tableSchemas;
  _ ← call (CSignal "searchIndexInitialized" VUndef);
  Ret tt.

(** Without the timer and the listeners it registers. *)
Definition init : prog unit :=
  _ ← initializeSearchIndex;
  genesisHeight ← Constants.getGenesisHeight;
  genesisBlock ← BlocksBusiness.getBlockByHeight genesisHeight;
  _ ← ValidatorIndex.indexValidatorCommissionInfo genesisBlock;
  ValidatorIndex.indexStakersInfo genesisBlock.

End status.
End IndexStatus.
