(* ===== verification/Jobs.v ===== *)
(** * The indexer's jobs and listeners

    services/blockchain-indexer/shared: the service level of the blocks and
    the generators (dataService/blocks.js, dataService/generators.js), the
    events the coordinator queues (eventsProcessor.js), the account queues
    (indexer/accountIndex.js) and the two message queues of processor.js.  The
    timers and the registration of listeners are left out. *)
From S2P Require Export Indexer.
Open Scope string_scope.
Open Scope Z_scope.
Open Scope list_scope.

(** [parseInt(v, 10)] *)
Definition js_parseInt (v : val) : val :=
  let s := trim_left (to_string v) in
  let '(neg, r) := match s with
                   | String "-" r => (true, r)
                   | String "+" r => (false, r)
                   | _ => (false, s)
                   end in
  let '(z, n, _) := read_digits 10 0 0 r in
  if Nat.eqb n 0 then VFlt S754_nan else num_of_Z (if neg : bool then - z else z).

(** ** dataService/blocks.js *)
Module BlocksService.
Section blocks.
Context {CFG : Config} {LC : LiskCrypto}.

(** Every block that is returned is stored as the last block; nobody waits. *)
Definition getBlocksFromServer (params : val) : prog (val * val) :=
  response ← BlocksBusiness.getBlocks params;
  '(data, meta) ← TransactionsService.dataAndMeta response;
  _ ← piter (λ block, detach (LastBlock.setLastBlock block)) (arr_of data);
  Ret (data, meta).

Definition getBlocks (params : val) : prog val :=
  '(data, meta) ← getBlocksFromServer params;
  let n := VNum (Z.of_nat (length (arr_of data))) in
  generatorAddress ← params @. "generatorAddress";
  blockID ← params @. "blockID";
  height ← params @. "height";
  total ← (if truthy generatorAddress then t ← meta @. "total"; Ret (js_or t VNull)
           else if truthy blockID || negb (is_nan (to_number height)) then Ret n
           else
             byHeight ← truthy_and_includes height;
             timestamp ← params @. "timestamp";
             byTimestamp ← (if byHeight : bool then Ret true else truthy_and_includes timestamp);
             if byTimestamp : bool then meta @. "total" else LastBlock.getTotalNumberOfBlocks);
  offset ← params @. "offset";
  Ret (VObj [("data", data);
    ("meta", VObj [("count", n); ("offset", js_or (js_parseInt offset) (VNum 0)); ("total", total)])]).

Definition getBlocksAssets (params : val) : prog val :=
  response ← BlocksBusiness.getBlocksAssets params;
  '(data, meta) ← TransactionsService.dataAndMeta response;
  Ret (VObj [("data", data); ("meta", meta)]).

End blocks.
End BlocksService.

(** ** dataService/generators.js *)
Module GeneratorsService.
Section generators.
Context {CFG : Config} {LC : LiskCrypto} {LT : LiskTransactions} {LO : Locale}.

(** The validator the map keeps for an address: the last one of the list. *)
Definition validatorOf (validators : list val) (address : val) : prog val :=
  pfind (λ v, a ← v @. "address"; Ret (strict_eq a address)) (reverse validators).

Definition withStatus (validators : list val) (generator : val) : prog (list val) :=
  address ← generator @. "address";
  validator ← validatorOf validators address;
  match validator with
  | VUndef => Ret []
  | _ => status ← validator @. "status"; Ret [spread generator (VObj [("status", status)])]
  end.

Definition getGenerators (params : val) : prog val :=
  offset ← params @. "offset";
  limit ← params @. "limit";
  generatorsList ← Generators.getGenerators;
  validatorList ← Validators.getAllValidators;
  data ← pmap (withStatus validatorList) generatorsList;
  page ← slice_page offset limit (concat data);
  Ret (Parser.parseToJSONCompatObj (VObj [("data", VArr page);
    ("meta", VObj [("count", VNum (Z.of_nat (length page))); ("offset", offset);
                   ("total", VNum (Z.of_nat (length generatorsList)))])])).

End generators.
End GeneratorsService.

(** ** eventsProcessor.js *)
Module EventsProcessor.
Section events.
Context {CFG : Config} {LC : LiskCrypto} {LT : LiskTransactions} {LO : Locale} {LQ : LiskQ}.

Definition newBlockProcessor (block : val) : prog unit :=
  height ← block @. "height";
  response ← BlocksService.getBlocks (VObj [("height", height)]);
  data ← response @. "data";
  newBlock ← first_of data;
  _ ← BlockchainIndex.indexNewBlock newBlock;
  _ ← LastBlock.performLastBlockUpdate newBlock;
  _ ← call (CSignal "newBlock" response);
  Ret tt.

Definition deleteBlockProcessor (block : val) : prog unit :=
  response ← catch
    (_ ← block @. "height";
     id ← block @. "id";
     response ← BlocksService.getBlocks (VObj [("blockID", id)]);
     _ ← BlockchainIndex.deleteBlock block;
     Ret response)
    (λ _,
     normalizedBlocks ← BlocksBusiness.normalizeBlocks
       (VArr [VObj [("header", block); ("transactions", VArr []); ("assets", VArr [])]]);
     Ret (VObj [("data", normalizedBlocks)]));
  _ ← call (CSignal "deleteBlock" response);
  Ret tt.

Definition newRoundProcessor : prog unit :=
  _ ← Validators.reloadValidatorCache;
  _ ← Generators.reloadGeneratorsCache;
  limit ← Generators.getNumberOfGenerators;
  generators ← GeneratorsService.getGenerators (VObj [("limit", limit); ("offset", VNum 0)]);
  data ← generators @. "data";
  gs ← array_method data "map";
  addresses ← pmap (λ generator, generator @. "address") gs;
  _ ← call (CSignal "newRound" (VObj [("generators", VArr addresses)]));
  Ret tt.

(** The function given to [eventsQueue.process]. *)
Definition processEvent (data : val) : prog unit :=
  isNewBlock ← data @. "isNewBlock";
  isDeleteBlock ← data @. "isDeleteBlock";
  isNewRound ← data @. "isNewRound";
  if truthy isNewBlock then blockHeader ← data @. "blockHeader"; newBlockProcessor blockHeader
  else if truthy isDeleteBlock then blockHeader ← data @. "blockHeader"; deleteBlockProcessor blockHeader
  else if truthy isNewRound then newRoundProcessor
  else Ret tt.

End events.
End EventsProcessor.

(** ** indexer/accountIndex.js *)
Module AccountIndex.
Section accounts.
Context {CFG : Config}.

(** dataService exports neither function: the imported names are undefined. *)
Definition getAccountsByPublicKey2 (publicKeys : list val) : prog val :=
  Throw (not_a_function "getAccountsByPublicKey2").
Definition getAccountsByAddress (addresses : val) : prog val :=
  Throw (not_a_function "getAccountsByAddress").

Definition getAccountIndex : prog table := tableOf Schemas.accounts.

Definition upsertFound (account : val) : prog unit :=
  n ← account @. "length";
  if truthy n then
    accountsTable ← getAccountIndex;
    _ ← Mysql.upsert accountsTable account None; Ret tt
  else Ret tt.

Definition updateAccountInfoPk (publicKey : val) : prog unit :=
  account ← getAccountsByPublicKey2 [publicKey]; upsertFound account.

Definition updateAccountInfoAddr (address : val) : prog unit :=
  account ← getAccountsByAddress (VArr [address]); upsertFound account.

Definition updateAccountWithData (accounts : val) : prog unit :=
  accountsTable ← getAccountIndex;
  _ ← Mysql.upsert accountsTable accounts None;
  Ret tt.

Definition accountPkUpdateQueue : string := "accountQueueByPublicKey".
Definition accountAddrUpdateQueue : string := "accountQueueByAddress".
Definition accountDirectUpdateQueue : string := "accountQueueDirect".

Definition indexAccountByPublicKey (publicKey : val) : prog val :=
  call (CSetAdd "pendingAccountsByPublicKey" publicKey).
Definition indexAccountByAddress (address : val) : prog val :=
  call (CSetAdd "pendingAccountsByAddress" address).

(** The members taken from a set go to a queue; nobody waits for it. *)
Definition enqueuePopped (key queue : string) : prog unit :=
  popped ← call (CSetPop key 64);
  l ← array_method popped "forEach";
  piter (λ v, match v with VStr _ => detach (call (CQueueAdd queue v)) | _ => Ret tt end) l.

Definition triggerAccountUpdates : prog unit :=
  _ ← enqueuePopped "pendingAccountsByPublicKey" accountPkUpdateQueue;
  enqueuePopped "pendingAccountsByAddress" accountAddrUpdateQueue.

Definition indexAccountWithData (account : val) : prog val := call (CQueueAdd accountDirectUpdateQueue account).
Definition addAccountToAddrUpdateQueue (address : val) : prog val := call (CQueueAdd accountAddrUpdateQueue address).
Definition addAccountToDirectUpdateQueue (accounts : val) : prog val := call (CQueueAdd accountDirectUpdateQueue accounts).

(** The listener of the signal updateAccountsByAddress. *)
Definition updateAccountsCacheListener (accountsTable : table) (address : val) : prog unit :=
  accounts ← getAccountsByAddress address;
  _ ← Mysql.upsert accountsTable accounts None;
  Ret tt.

End accounts.
End AccountIndex.

(** ** processor.js: the functions given to [process] *)
Module JobProcessor.
Section jobs.
Context {CFG : Config} {LC : LiskCrypto} {LT : LiskTransactions} {LO : Locale} {LQ : LiskQ}.

Definition processBlockJob (data : val) : prog unit :=
  height ← data @. "height";
  isNewBlock ← data @. "isNewBlock";
  if truthy isNewBlock then BlockchainIndex.indexNewBlock height
  else BlockchainIndex.addBlockToQueue height.

Definition processAccountJob (data : val) : prog unit :=
  account ← data @. "account";
  _ ← account @. "address";
  _ ← AccountIndex.addAccountToDirectUpdateQueue account;
  Ret tt.

End jobs.
End JobProcessor.
