(* ===== verification/Coordinator.v ===== *)
(** * The coordinator: services/blockchain-coordinator/shared

    The service that decides what the indexer indexes: at its start and every
    15 minutes it asks the indexer which blocks are missing and queues their
    heights (scheduler.js), and it queues the events of the chain
    (eventsScheduler.js).  The queues and the broker are commands. *)
From S2P Require Export Env.
Open Scope string_scope.
Open Scope Z_scope.
Open Scope list_scope.

Module Coordinator.

(** ** config.js: the queues *)
Definition accountsQueue : string := "Accounts".
Definition blocksQueue : string := "Blocks".
Definition eventsQueue : string := "Events".

(** ** utils/request.js: the answer is passed on as it is *)
Definition requestConnector (method : string) (params : val) : prog val :=
  call (CRpc "connector" method (or_default params (VObj []))).
Definition requestIndexer (method : string) (params : val) : prog val :=
  call (CRpc "indexer" method (or_default params (VObj []))).

(** ** sources *)
Definition getRegisteredModules : prog val :=
  systemMetadata ← requestConnector "getSystemMetadata" VUndef;
  systemMetadata @. "modules".
Definition getAllPosValidators : prog val := requestConnector "getAllPosValidators" VUndef.

Definition getMissingblocks (from to : val) : prog val :=
  requestIndexer "getMissingBlocks" (VObj [("from", from); ("to", to)]).
Definition getCurrentHeight : prog val := requestIndexer "getCurrentHeight" VUndef.
Definition getGenesisHeight : prog val := requestIndexer "getGenesisHeight" VUndef.
Definition getIndexVerifiedHeight : prog val := requestIndexer "getIndexVerifiedHeight" VUndef.
Definition setIndexVerifiedHeight (height : val) : prog val :=
  requestIndexer "setIndexVerifiedHeight" (VObj [("height", height)]).

(** ** scheduler.js *)
Definition registeredLiskModules : string := "scheduler.registeredLiskModules".
Definition getRegisteredModuleAssets : prog val := call (CVarGet registeredLiskModules).

Definition scheduleBlocksIndexing (heights : val) : prog unit :=
  let blockHeights := arr_of (if is_array heights then heights else VArr [heights]) in
  piter (λ height, _ ← call (CQueueAdd blocksQueue (VObj [("height", height)])); Ret tt) blockHeights.

Definition scheduleValidatorsIndexing (validators : val) : prog unit :=
  piter (λ validator,
    _ ← call (CQueueAdd accountsQueue
          (VObj [("account", spread validator (VObj [("isValidator", VBool true)]))]));
    Ret tt) (arr_of validators).

(** [Array.isArray(v) && v.length] *)
Definition nonempty_array (v : val) : bool := match v with VArr (_ :: _) => true | _ => false end.

Definition initIndexingScheduler : prog unit :=
  modules ← getRegisteredModules;
  _ ← call (CVarSet registeredLiskModules modules);
  response ← getAllPosValidators;
  validators ← response @. "validators";
  _ ← (if nonempty_array validators then scheduleValidatorsIndexing validators else Ret tt);
  genesisHeight ← getGenesisHeight;
  currentHeight ← getCurrentHeight;
  missingBlocksByHeight ← getMissingblocks genesisHeight currentHeight;
  if nonempty_array missingBlocksByHeight then scheduleBlocksIndexing missingBlocksByHeight else Ret tt.

Definition scheduleMissingBlocksIndexing : prog unit :=
  genesisHeight ← getGenesisHeight;
  currentHeight ← getCurrentHeight;
  verified ← getIndexVerifiedHeight;
  let lastVerifiedHeight := js_or verified genesisHeight in
  let blockIndexHigherRange := currentHeight in
  let blockIndexLowerRange := lastVerifiedHeight in
  missingBlocksByHeight ← getMissingblocks blockIndexLowerRange blockIndexHigherRange;
  catch
    (match missingBlocksByHeight with
     | VArr [] => _ ← setIndexVerifiedHeight blockIndexHigherRange; Ret tt
     | VArr _ => scheduleBlocksIndexing missingBlocksByHeight
     | _ => Throw (js_error ("Expected missingBlocksByHeight to be an array but found " +:+
                             typeof missingBlocksByHeight +:+ "."))
     end)
    (λ _, Ret tt).

(** ** eventsScheduler.js *)
Definition scheduleUpdatesOnNewBlock (payload : val) : prog unit :=
  blockHeader ← payload @. "blockHeader";
  _ ← call (CQueueAdd eventsQueue (VObj [("blockHeader", blockHeader); ("isNewBlock", VBool true)]));
  Ret tt.

Definition scheduleDeleteBlock (payload : val) : prog unit :=
  blockHeader ← payload @. "blockHeader";
  _ ← call (CQueueAdd eventsQueue (VObj [("blockHeader", blockHeader); ("isDeleteBlock", VBool true)]));
  Ret tt.

Definition scheduleUpdatesOnNewRound (payload : val) : prog unit :=
  validators ← payload @. "validators";
  _ ← call (CQueueAdd eventsQueue (VObj [("validators", validators); ("isNewRound", VBool true)]));
  Ret tt.

(** ** jobs/missingBlocks.js *)
Definition missingBlocksJob : prog unit :=
  catch scheduleMissingBlocksIndexing (λ _, Ret tt).

End Coordinator.
