(* ===== verification/Discipline.v ===== *)
(** * The transaction discipline of the indexer

    Every transaction processor, whatever the outside answers, runs its
    statements in the database transaction it was given or in one it opened
    itself, and never ends the one it was given. *)
From S2P Require Export Trace IndexStatus.
Open Scope string_scope.
Open Scope Z_scope.
Open Scope list_scope.

(** Searching and filtering whose tests send what may be sent. *)
Lemma pall_pfind P f l : (∀ x, pall P (f x)) → pall P (pfind f l).
Proof. intros Hf. induction l; simpl; [done|]. apply pall_bind; [done|]. by intros []. Qed.
Lemma pall_pfilter P f l : (∀ x, pall P (f x)) → pall P (pfilter f l).
Proof.
  intros Hf. induction l; simpl; [done|]. apply pall_bind; [done|]. intros b. apply pall_bind; [done|]. by intros ?.
Qed.

Section helpers.
Context (given : option Z) {CFG : Config} {LC : LiskCrypto}.

Lemma disc_iter_list v : disc given (iter_list v).
Proof. unfold iter_list. disc. Qed.
Lemma disc_array_method v m : disc given (array_method v m).
Proof. unfold array_method. disc. Qed.
Lemma disc_bluebird_map {B} l (f : val → prog B) : (∀ x, disc given (f x)) → disc given (bluebird_map l f).
Proof. intros Hf. unfold bluebird_map. pose proof disc_iter_list. disc. Qed.
Lemma discw_bluebird_map {B} l (f : val → prog B) : (∀ x, discw given (f x)) → discw given (bluebird_map l f).
Proof. intros Hf. unfold bluebird_map. pose proof disc_iter_list. discw. Qed.
Lemma disc_pfind f l : (∀ x, disc given (f x)) → disc given (pfind f l).
Proof. intros Hf. induction l; cbn [pfind]; disc. Qed.
Lemma disc_pfilter f l : (∀ x, disc given (f x)) → disc given (pfilter f l).
Proof. intros Hf. induction l; cbn [pfilter]; disc. Qed.
Lemma disc_guard_throw b e : disc given (guard_throw b e).
Proof. unfold guard_throw. disc. Qed.
#[local] Hint Resolve disc_iter_list disc_array_method disc_guard_throw : disc.

Lemma disc_data_or_empty v : disc given (data_or_empty v).
Proof. unfold data_or_empty. disc. Qed.
Lemma disc_first_of v : disc given (first_of v).
Proof. unfold first_of. disc. Qed.
Lemma disc_str_concat a b : disc given (str_concat a b).
Proof. unfold str_concat. disc. Qed.
Lemma disc_method_toString v : disc given (method_toString v).
Proof. unfold method_toString. disc. Qed.
Lemma disc_method_includes a b : disc given (method_includes a b).
Proof. unfold method_includes. disc. Qed.
Lemma disc_assign_field a k v : disc given (assign_field a k v).
Proof. unfold assign_field. disc. Qed.
Lemma disc_tableOf s : disc given (tableOf s).
Proof. unfold tableOf. disc. Qed.
Lemma disc_param_of tx k : disc given (param_of tx k).
Proof. unfold param_of. disc. Qed.
Lemma disc_senderAddressOf tx : disc given (senderAddressOf tx).
Proof. unfold senderAddressOf. disc. Qed.
Lemma disc_findEvent ev m n : disc given (findEvent ev m n).
Proof. unfold findEvent. disc. apply disc_pfind. disc. Qed.
#[local] Hint Resolve disc_findEvent disc_data_or_empty : disc.
Lemma disc_eventData ev m n : disc given (eventData ev m n).
Proof. unfold eventData. disc. Qed.
Lemma disc_requestConnector m ps : disc given (Request.requestConnector m ps).
Proof. unfold Request.requestConnector, Request.requestRpc. disc. Qed.
End helpers.
#[export] Hint Resolve disc_iter_list disc_array_method disc_guard_throw disc_data_or_empty disc_first_of
  disc_str_concat disc_method_toString disc_method_includes disc_assign_field disc_tableOf disc_param_of
  disc_senderAddressOf disc_findEvent disc_eventData disc_requestConnector : disc.
#[export] Hint Extern 1 (disc _ (bluebird_map _ _)) => apply disc_bluebird_map; disc : disc.
#[export] Hint Extern 1 (disc _ (pfind _ _)) => apply disc_pfind; disc : disc.
#[export] Hint Extern 1 (disc _ (pfilter _ _)) => apply disc_pfilter; disc : disc.
#[export] Hint Extern 1 (discw _ (bluebird_map _ _)) => apply discw_bluebird_map; discw : disc.

Section utils.
Context (given : option Z) {CFG : Config} {LC : LiskCrypto}.

Lemma disc_getFinalizedHeight : disc given Constants.getFinalizedHeight.
Proof. unfold Constants.getFinalizedHeight, Constants.updateFinalizedHeight. disc. Qed.
Lemma disc_getGenesisHeight : disc given Constants.getGenesisHeight.
Proof. unfold Constants.getGenesisHeight. disc. Qed.
Lemma disc_kv_get k : disc given (KvStore.get k).
Proof. unfold KvStore.get, KvStore.getKeyValueTable. disc. Qed.
Lemma disc_kv_set k v trx : ok_trx given (tableName Schemas.kvStore) trx → disc given (KvStore.set k v trx).
Proof. intros. unfold KvStore.set, KvStore.getKeyValueTable. disc. Qed.
Lemma disc_getPosConstants : disc given PosConstants.getPosConstants.
Proof. unfold PosConstants.getPosConstants. disc. Qed.
#[local] Hint Resolve disc_getPosConstants : disc.
Lemma disc_getPosTokenID : disc given PosConstants.getPosTokenID.
Proof. unfold PosConstants.getPosTokenID. disc. Qed.
Lemma disc_getIndexedAccountInfo ps cols : disc given (Account.getIndexedAccountInfo ps cols).
Proof. unfold Account.getIndexedAccountInfo, Account.getAccountsTable. disc. Qed.
Lemma disc_updateAccountPublicKey pk : disc given (Account.updateAccountPublicKey pk).
Proof. unfold Account.updateAccountPublicKey, Account.getAccountsTable. disc. Qed.
#[local] Hint Resolve disc_kv_get disc_kv_set : disc.
Lemma disc_updateTotalLockedAmounts m trx :
  ok_trx given (tableName Schemas.kvStore) trx → disc given (LockedAmounts.updateTotalLockedAmounts m trx).
Proof.
  intros. unfold LockedAmounts.updateTotalLockedAmounts, LockedAmounts.updateTotalLockedAmount. disc.
Qed.
End utils.
#[export] Hint Resolve disc_getFinalizedHeight disc_getGenesisHeight disc_kv_get disc_kv_set disc_getPosConstants
  disc_getPosTokenID disc_getIndexedAccountInfo disc_updateAccountPublicKey disc_updateTotalLockedAmounts : disc.

Section validators.
Context (given : option Z) {CFG : Config} {LC : LiskCrypto} {LT : LiskTransactions} {LO : Locale}.

Lemma discw_getNameByAddress a : discw given (ValidatorNames.getNameByAddress a).
Proof. unfold ValidatorNames.getNameByAddress, Account.getAccountsTable. discw. Qed.
#[local] Hint Resolve discw_getNameByAddress : disc.
Lemma discw_getGenerators : discw given Generators.getGenerators.
Proof. unfold Generators.getGenerators, Generators.reloadGeneratorsCache, Generators.getGeneratorsInfo. discw. Qed.
#[local] Hint Resolve discw_getGenerators : disc.
Lemma disc_setValidatorWeight v : disc given (PosBusiness.setValidatorWeight v).
Proof. unfold PosBusiness.setValidatorWeight, PosBusiness.verifyIfPunished. disc. Qed.
#[local] Hint Resolve disc_setValidatorWeight : disc.
Lemma disc_isPosModuleRegistered : disc given PosBusiness.isPosModuleRegistered.
Proof. unfold PosBusiness.isPosModuleRegistered. disc. Qed.
#[local] Hint Resolve disc_isPosModuleRegistered : disc.
Lemma discw_loadAllPosValidators : discw given Validators.loadAllPosValidators.
Proof.
  unfold Validators.loadAllPosValidators, PosBusiness.getAllPosValidators, Account.getAccountsTable. discw.
Qed.
Lemma disc_computeValidatorRank : disc given Validators.computeValidatorRank.
Proof.
  unfold Validators.computeValidatorRank, Validators.getValidatorList, Validators.setValidatorList. disc.
Qed.
Lemma discw_computeValidatorStatus : discw given Validators.computeValidatorStatus.
Proof.
  unfold Validators.computeValidatorStatus, Validators.getValidatorList, Validators.setValidatorList,
    LastBlock.getLastBlock. discw.
Qed.
#[local] Hint Resolve discw_loadAllPosValidators disc_computeValidatorRank discw_computeValidatorStatus : disc.
Lemma discw_reloadValidatorCache : discw given Validators.reloadValidatorCache.
Proof. unfold Validators.reloadValidatorCache. discw. Qed.
End validators.
#[export] Hint Resolve discw_getNameByAddress discw_reloadValidatorCache : disc.

(** ** The handlers *)

Section handlers.
Context {CFG : Config} {LC : LiskCrypto} {LT : LiskTransactions} {LO : Locale}.

(** A handler keeps to the transaction it is given. *)
Definition keeps (h : handler) : Prop := ∀ hd tx ev t, disc (Some t) (h hd tx ev t).
Definition keepsw (h : handler) : Prop := ∀ hd tx ev t, discw (Some t) (h hd tx ev t).

Lemma keeps_keepsw h : keeps h → keepsw h.
Proof. intros H hd tx ev t. apply disc_discw, H. Qed.

Lemma keeps_nothing : keeps nothing.
Proof. intros hd tx ev t. apply disc_ret. Qed.

(** *** pos *)
Lemma keeps_changeCommission : keeps applyChangeCommission ∧ keeps revertChangeCommission.
Proof.
  split; intros hd tx ev t; unfold applyChangeCommission, revertChangeCommission, getCommissionIndexingInfo; disc.
Qed.
Lemma keeps_registerValidator : keeps applyRegisterValidator ∧ keeps revertRegisterValidator.
Proof. split; intros hd tx ev t; unfold applyRegisterValidator, revertRegisterValidator; disc. Qed.
Lemma keepsw_reportMisbehavior : keepsw applyReportMisbehavior.
Proof. intros hd tx ev t. unfold applyReportMisbehavior. discw. Qed.
Lemma disc_updateTotal t p z : disc (Some t) (updateTotal p z t).
Proof. unfold updateTotal. disc. Qed.
Lemma disc_stakeLoop t sgn one l : (∀ s, disc (Some t) (one s t)) → disc (Some t) (stakeLoop sgn one t l).
Proof. intros. unfold stakeLoop, stakeStep. disc. Qed.
Lemma keeps_stake : keeps applyStake ∧ keeps revertStake.
Proof.
  pose proof disc_updateTotal.
  split; intros hd tx ev t; unfold applyStake, revertStake, getStakeIndexingInfo, updateTotalStake,
    updateTotalSelfStake; disc; apply disc_stakeLoop; unfold incrementStakeTrx, decrementStakeTrx; disc.
Qed.
Lemma keeps_updateGeneratorKey : keeps applyUpdateGeneratorKey ∧ keeps revertUpdateGeneratorKey.
Proof. split; intros hd tx ev t; unfold applyUpdateGeneratorKey, revertUpdateGeneratorKey; disc. Qed.

(** *** audio *)
Lemma disc_commandSucceeded g ev : disc g (commandSucceeded ev).
Proof. unfold commandSucceeded. disc. Qed.
#[local] Hint Resolve disc_commandSucceeded : disc.
Lemma keeps_audioCreate : keeps applyAudioCreate ∧ keeps revertAudioCreate.
Proof. split; intros hd tx ev t; unfold applyAudioCreate, revertAudioCreate, upsertOwner, upsertFeat; disc. Qed.
Lemma keeps_audioDestroy : keeps applyAudioDestroy.
Proof. intros hd tx ev t. unfold applyAudioDestroy. disc. Qed.
Lemma keeps_audioReclaim : keeps applyAudioReclaim.
Proof. intros hd tx ev t. unfold applyAudioReclaim, reclaimOne. disc. Qed.
Lemma keeps_audioSetAttributes : keeps applyAudioSetAttributes.
Proof. intros hd tx ev t. unfold applyAudioSetAttributes, upsertFeat. disc. Qed.
Lemma keeps_audioStream : keeps applyAudioStream.
Proof. intros hd tx ev t. unfold applyAudioStream, upsertOwner. disc. Qed.
Lemma keeps_audioTransfer : keeps applyAudioTransfer.
Proof. intros hd tx ev t. unfold applyAudioTransfer. disc. Qed.

(** *** collection, profile, subscription *)
Lemma keeps_collectionCreate : keeps applyCollectionCreate.
Proof. intros hd tx ev t. unfold applyCollectionCreate. disc. Qed.
Lemma keepsw_collectionCreate_revert : keepsw revertCollectionCreate.
Proof. intros hd tx ev t. unfold revertCollectionCreate. discw. Qed.
Lemma keeps_collectionDestroy : keeps applyCollectionDestroy.
Proof. intros hd tx ev t. unfold applyCollectionDestroy. disc. Qed.
Lemma keeps_collectionSetAttributes : keeps applyCollectionSetAttributes.
Proof. intros hd tx ev t. unfold applyCollectionSetAttributes. disc. Qed.
Lemma keeps_collectionTransfer : keeps applyCollectionTransfer.
Proof. intros hd tx ev t. unfold applyCollectionTransfer. disc. Qed.
Lemma keeps_profileCreate : keeps applyProfileCreate.
Proof. intros hd tx ev t. unfold applyProfileCreate, upsertSocial. disc. Qed.
Lemma keeps_profileSetAttributes : keeps applyProfileSetAttributes.
Proof. intros hd tx ev t. unfold applyProfileSetAttributes, upsertSocial. disc. Qed.
Lemma keeps_subscriptionCreate : keeps applySubscriptionCreate ∧ keeps revertSubscriptionCreate.
Proof. split; intros hd tx ev t; unfold applySubscriptionCreate, revertSubscriptionCreate; disc. Qed.
Lemma keeps_subscriptionPurchase : keeps applySubscriptionPurchase ∧ keeps revertSubscriptionPurchase.
Proof.
  split; intros hd tx ev t; unfold applySubscriptionPurchase, revertSubscriptionPurchase, addMember, memberID; disc.
Qed.
Lemma keeps_updateMembers : keeps applyUpdateMembers ∧ keeps revertUpdateMembers.
Proof.
  split; intros hd tx ev t; unfold applyUpdateMembers, revertUpdateMembers, setRemovedBy, addMember, memberID; disc.
Qed.

(** *** auth, interoperability, legacy, token *)
Lemma keepsw_registerMultisignature : keepsw applyRegisterMultisignature ∧ keepsw revertRegisterMultisignature.
Proof.
  split; intros hd tx ev t; unfold applyRegisterMultisignature, revertRegisterMultisignature,
    resolveMultisignatureMemberships; discw.
Qed.
Lemma disc_getChainInfo g id : disc g (getChainInfo id).
Proof. unfold getChainInfo, getChainAccount. disc. Qed.
Lemma disc_getMainchainID g : disc g getMainchainID.
Proof. unfold getMainchainID. disc. Qed.
#[local] Hint Resolve disc_getChainInfo disc_getMainchainID : disc.
Lemma disc_unless_failed g tx p : disc g p → disc g (unless_failed tx p).
Proof. intros. unfold unless_failed. disc. Qed.
Lemma keeps_interoperability :
  keeps applyRegisterMainchain ∧ keeps revertRegisterMainchain ∧ keeps applyRegisterSidechain ∧
  keeps revertRegisterSidechain ∧ keeps applyCrossChainUpdate ∧ keeps updateChainState.
Proof.
  split_and!; intros hd tx ev t; apply disc_unless_failed; disc.
Qed.
Lemma keeps_registerKeys : keeps applyRegisterKeys ∧ keeps revertRegisterKeys.
Proof. split; intros hd tx ev t; unfold applyRegisterKeys, revertRegisterKeys; disc. Qed.
Lemma keeps_transfer : keeps applyTransfer.
Proof. intros hd tx ev t. unfold applyTransfer. disc. Qed.
End handlers.

(** ** Dispatch *)

Section dispatch.
Context {CFG : Config} {LC : LiskCrypto} {LT : LiskTransactions} {LO : Locale}.

Definition keeps_processor (p : processor) : Prop := keepsw (applyTransaction p) ∧ keepsw (revertTransaction p).

Lemma keeps_all_processors : Forall (λ e, Forall keeps_processor e.2) availableModuleProcessors.
Proof.
  pose proof keeps_nothing.
  destruct keeps_changeCommission, keeps_registerValidator, keeps_stake, keeps_updateGeneratorKey,
    keeps_audioCreate, keeps_subscriptionCreate, keeps_subscriptionPurchase, keeps_updateMembers,
    keepsw_registerMultisignature, keeps_registerKeys.
  destruct keeps_interoperability as (?&?&?&?&?&?).
  repeat match goal with
    | |- Forall _ [] => apply Forall_nil; exact I
    | |- Forall _ (_ :: _) => apply Forall_cons; split
    | |- keeps_processor _ => split
    | |- Forall _ _ => unfold pos_processors, audio_processors, collection_processors, profile_processors,
        subscription_processors, auth_processors, interoperability_processors, legacy_processors,
        token_processors, availableModuleProcessors; cbn [snd]
    end; simpl;
    auto using keeps_keepsw, keepsw_reportMisbehavior, keeps_audioDestroy,
    keeps_audioReclaim, keeps_audioSetAttributes, keeps_audioStream, keeps_audioTransfer,
    keeps_collectionCreate, keepsw_collectionCreate_revert, keeps_collectionDestroy,
    keeps_collectionSetAttributes, keeps_collectionTransfer, keeps_profileCreate, keeps_profileSetAttributes,
    keeps_transfer.
Qed.

Lemma keeps_processor_for m c p : processor_for m c = Some p → keeps_processor p.
Proof.
  unfold processor_for, processors_of. intros [Hin _]%find_js_Some. rewrite elem_of_reverse in Hin.
  destruct (find_js _ availableModuleProcessors) as [e|] eqn:E; [|by apply elem_of_nil in Hin].
  apply find_js_Some in E as [He _]. pose proof keeps_all_processors as Hall.
  rewrite Forall_forall in Hall. specialize (Hall _ He). rewrite Forall_forall in Hall. by apply Hall.
Qed.

Lemma disc_buildModuleCommandProcessorMap g : disc g buildModuleCommandProcessorMap.
Proof. unfold buildModuleCommandProcessorMap. disc. Qed.
#[local] Hint Resolve disc_buildModuleCommandProcessorMap : disc.

Lemma discw_dispatch t hook get hd tx ev :
  (∀ m c p, processor_for m c = Some p → keepsw (get p)) →
  discw (Some t) (dispatch hook get hd tx ev t).
Proof.
  intros Hget. unfold dispatch. do 3 (discw_step; [solve [discw]|intro]).
  discw_step; [discw|intro]. discw_step; [discw|]. discw_step; [discw|intro].
  destruct (processor_for _ _) eqn:E; [|discw]. by eapply Hget.
Qed.

Lemma discw_dispatchApply t hd tx ev : discw (Some t) (dispatchApply hd tx ev t).
Proof. apply discw_dispatch. intros m c p H. apply (keeps_processor_for _ _ _ H). Qed.
Lemma discw_dispatchRevert t hd tx ev : discw (Some t) (dispatchRevert hd tx ev t).
Proof. apply discw_dispatch. intros m c p H. apply (keeps_processor_for _ _ _ H). Qed.
End dispatch.

(** ** The body of indexBlock *)

Section body.
Context {CFG : Config} {LC : LiskCrypto} {LT : LiskTransactions} {LO : Locale} {LQ : LiskQ}.
Context (t : Z).
Notation g := (Some t).
#[local] Hint Resolve discw_dispatchApply disc_updateTotal : disc.

Lemma disc_requestAll g fn ps l : (∀ x, disc g (fn x)) → disc g (RequestAll.requestAll fn ps l).
Proof.
  intros Hf.
  assert (∀ a b, disc g (RequestAll.merge a b)) as Hm.
  { intros a b. unfold RequestAll.merge, RequestAll.merge_object. disc. }
  assert (∀ n p o m q tot, disc g (RequestAll.pages fn n p o m q tot)) as Hp.
  { intros n. induction n; intros; cbn [RequestAll.pages]; disc. }
  unfold RequestAll.requestAll. disc.
Qed.

Lemma disc_indexGenesisBlockAssets : disc g (GenesisBlock.indexGenesisBlockAssets t).
Proof.
  unfold GenesisBlock.indexGenesisBlockAssets, GenesisBlock.indexTokenModuleAssets,
    GenesisBlock.indexPosModuleAssets, GenesisBlock.assetsLength, GenesisBlock.allAssets,
    GenesisBlock.addLockedBalances, GenesisBlock.addStakes, updateTotalStake, updateTotalSelfStake.
  disc; apply disc_requestAll; disc.
Qed.

Lemma disc_getEventsByHeight h : disc g (EventsBusiness.getEventsByHeight h).
Proof. unfold EventsBusiness.getEventsByHeight, EventsBusiness.getEventsByHeightFromNode. disc. Qed.

Lemma disc_enrichTransaction b ev i tx : disc g (BlockchainIndex.enrichTransaction b ev i tx).
Proof. unfold BlockchainIndex.enrichTransaction, Transactions.getTransactionExecutionStatus. disc. Qed.
#[local] Hint Resolve disc_indexGenesisBlockAssets disc_getEventsByHeight disc_enrichTransaction : disc.

Lemma discw_indexTransaction tb b hd ev itx : discw g (BlockchainIndex.indexTransaction tb b hd ev t itx).
Proof. unfold BlockchainIndex.indexTransaction. discw. Qed.
Lemma disc_updateGeneratedBlocks b : disc g (BlockchainIndex.updateGeneratedBlocks b t).
Proof. unfold BlockchainIndex.updateGeneratedBlocks. disc. Qed.
Lemma disc_indexReward tb b ev : disc g (BlockchainIndex.indexReward tb b ev t).
Proof.
  unfold BlockchainIndex.indexReward, BlocksBusiness.isBlockRewardEvent, Rewards.calcCommission,
    Rewards.calcSelfStakeReward. disc.
Qed.
Lemma disc_lockedChanges s ev : disc g (BlockchainIndex.lockedChanges s ev).
Proof. unfold BlockchainIndex.lockedChanges, BlockchainIndex.lockedChange. disc. Qed.
Lemma disc_blockToIndex b n r : disc g (BlockchainIndex.blockToIndex b n r).
Proof. unfold BlockchainIndex.blockToIndex. disc. Qed.
Lemma disc_getEventsInfoToIndex b ev : disc g (Events.getEventsInfoToIndex b ev).
Proof. unfold Events.getEventsInfoToIndex, Events.eventInfoToIndex. disc. Qed.
#[local] Hint Resolve discw_indexTransaction disc_updateGeneratedBlocks disc_indexReward disc_lockedChanges
  disc_blockToIndex disc_getEventsInfoToIndex : disc.

Lemma discw_indexBlockBody tb b : discw g (BlockchainIndex.indexBlockBody tb b t).
Proof. unfold BlockchainIndex.indexBlockBody. discw. Qed.
End body.

(** ** The properties *)

Section properties.
Context {CFG : Config} {LC : LiskCrypto} {LT : LiskTransactions} {LO : Locale} {LQ : LiskQ}.

(** A bracketed piece of code: begin, statements, and one end. *)
Definition bracketed {A} (tr : list (cmd * result val)) (out : result A) : Prop :=
  ∃ tr0 t body tail,
    tr = tr0 ++ (CTrxBegin, Ok (VNum t)) :: body ++ tail ∧
    Forall (λ cr, no_statement cr.1) tr0 ∧ statements_ok (Some t) body ∧
    match out with
    | Ok _ => ∃ v, tail = [(CTrxCommit t, Ok v)]
    | Err _ => ∃ r, tail = [(CTrxRollback t, r)] ∨ ∃ e, tail = [(CTrxCommit t, Err e); (CTrxRollback t, r)]
    end.

(** The [try]/[catch] around a body: it ends in one commit or in a rollback. *)
Lemma exec_try {A} t (body : prog A) (h : exn → prog unit) tr out :
  (∀ e tr out, exec (h e) tr out → tr = [] ∧ ∃ e', out = Err e') →
  exec (catch (_ ← body; _ ← Mysql.commitDbTransaction t; Ret tt)
              (λ err, _ ← Mysql.rollbackDbTransaction t; h err)) tr out →
  ∃ trb tail o, tr = trb ++ tail ∧ exec body trb o ∧
    match out with
    | Ok _ => ∃ v, tail = [(CTrxCommit t, Ok v)]
    | Err _ => ∃ r, tail = [(CTrxRollback t, r)] ∨ ∃ e, tail = [(CTrxCommit t, Err e); (CTrxRollback t, r)]
    end.
Proof.
  intros Hh Hx. apply exec_catch in Hx as [(u & Hx & ->)|(tr1 & tr2 & e & -> & Hx & Hr)].
  - apply exec_bind in Hx as [(trb & trc & a & -> & Hb & Hx)|(e & _ & ?)]; [|done].
    apply exec_bind in Hx as [(trc1 & trc2 & v & -> & Hc & Hx)|(e & _ & ?)]; [|done].
    apply exec_call_inv in Hc as ->. apply exec_ret_inv in Hx as [-> _]. by eauto 10.
  - assert (∃ r e', tr2 = [(CTrxRollback t, r)] ∧ out = Err e') as (r & e' & -> & ->).
    { apply exec_bind in Hr as [(tra & trb & v & -> & Ha & Hb)|(e' & Ha & ->)];
        apply exec_call_inv in Ha as ->; [|by eauto].
      apply Hh in Hb as [-> [e' ->]]. by eauto. }
    apply exec_bind in Hx as [(trb & trc & a & -> & Hb & Hx)|(e1 & Hb & [= <-])].
    + apply exec_bind in Hx as [(trc1 & trc2 & v & -> & Hc & Hx)|(e2 & Hc & [= <-])].
      * by apply exec_ret_inv in Hx as [_ ?].
      * apply exec_call_inv in Hc as ->. exists trb, [(CTrxCommit t, Err e); (CTrxRollback t, r)], (Ok a).
        rewrite <- app_assoc. by eauto 10.
    + by eauto 10.
Qed.

(** Nothing but preparations before the transaction begins. *)
Definition unopened (tr : list (cmd * result val)) : Prop :=
  Forall (λ cr, no_statement cr.1) tr.

Lemma pall_tableOf s : pall no_statement (tableOf s).
Proof. unfold tableOf. pall. Qed.

Lemma exec_begin {A} v tr (k : Z → prog A) out :
  exec (t ← Mysql.startDbTransaction v; k t) tr out →
  (∃ t tr', tr = (CTrxBegin, Ok (VNum t)) :: tr' ∧ exec (k t) tr' out) ∨
  (unopened tr ∧ ∃ e, out = Err e).
Proof.
  intros Hx. apply exec_bind in Hx as [(tr1 & tr2 & t & -> & Hb & Hx)|(e & Hb & ->)].
  - unfold Mysql.startDbTransaction in Hb.
    apply exec_bind in Hb as [(tra & trb & a & -> & Ha & Hb)|(e & Ha & ?)]; [|done].
    apply exec_call_inv in Ha as ->. destruct a; try (by apply exec_throw_inv in Hb as [_ ?]).
    apply exec_ret_inv in Hb as [-> [= ->]]. left. by eauto.
  - right. split; [|by eauto]. eapply pall_exec; [|exact Hb]. unfold Mysql.startDbTransaction. pall.
Qed.

(** C3. A handler of a transaction, applied or reverted, sends its statements
    in the database transaction of the block or in one it began itself, and
    commits or rolls back only what it began: whatever the database, the
    node and the caches answer, it never ends the block's transaction.  What
    it writes in a transaction of its own goes to the accounts table. *)
Theorem handlers_keep_block_transaction blockHeader tx events dbTrx tr out :
  exec (dispatchApply blockHeader tx events dbTrx) tr out ∨
  exec (dispatchRevert blockHeader tx events dbTrx) tr out →
  statements_ok (Some dbTrx) tr.
Proof.
  intros [Hx|Hx]; (eapply discw_statements; [|exact Hx]).
  - apply discw_dispatchApply.
  - apply discw_dispatchRevert.
Qed.

End properties.
