(* ===== verification/Atomic.v ===== *)
(** * Atomicity: a block is indexed entirely or not at all

    What the transaction discipline means for the database: while a piece of
    code keeps to the transaction [t] it was given, the committed rows of
    every table stay as they are, the accounts table ([own_tables]) apart.
    Hence a block whose indexing fails leaves no trace, and one that is
    indexed becomes visible at the commit, all at once. *)
From S2P Require Export SqlFacts Discipline Fixtures.
Open Scope string_scope.
Open Scope Z_scope.
Open Scope list_scope.

(** The committed rows of the two states agree, the own tables apart. *)
Definition same_rows (s s' : sqldb) : Prop :=
  ∀ tbl, tbl ∉ own_tables → rows_of (sq_rows s') tbl = rows_of (sq_rows s) tbl.

#[export] Instance same_rows_preorder : PreOrder same_rows.
Proof.
  split; [by intros s tbl|]. intros s1 s2 s3 H1 H2 tbl Ht. by rewrite H2, H1.
Qed.

Lemma same_rows_eq s s' : sq_rows s' = sq_rows s → same_rows s s'.
Proof. intros H tbl _. by rewrite H. Qed.

(** While [t] is open and the transactions [own] are too: those write own tables only. *)
Definition unseen (t : Z) (s0 : sqldb) (own : list Z) (s : sqldb) : Prop :=
  is_Some (sq_pending s !! t) ∧ t ∉ own ∧
  (∀ t' ws, t' ∈ own → sq_pending s !! t' = Some ws → Forall (λ x, x.1 ∈ own_tables) ws) ∧
  same_rows s0 s.

Section atomic.
Context {E : Type} `{SE : SqlEngine E}.
Implicit Types w : world E.

Lemma step_err c w w' e : step c w = (w', Err e) → sql_err (db w) (db w').
Proof.
  unfold db. destruct c; simpl; try done;
    match goal with |- context [handle ?c ?e] => destruct (handle c e) as [e' r] eqn:Eh end;
    intros [= <- ->]; exact (handle_err _ _ _ _ Eh).
Qed.

(** A run, seen through an invariant that the allowed commands keep. *)
Lemma twp_run {S A} (allowed : S → cmd → Prop) next (I : S → world E → Prop) :
  (∀ s c w w' r, I s w → allowed s c → step c w = (w', r) → I (next s c r) w') →
  ∀ (p : prog A) s Q w w' r,
    twp allowed next p s Q → I s w → run p w = (w', r) → ∃ s', I s' w' ∧ Q s' r.
Proof.
  intros Hstep p. induction p as [a|e|c k IH]; intros s Q w w' r; simpl.
  - intros HQ HI [= <- <-]. by eauto.
  - intros HQ HI [= <- <-]. by eauto.
  - intros [Ha Hk] HI. destruct (step c w) as [w1 r1] eqn:Es. by eapply IH; [apply Hk|eapply Hstep].
Qed.

Lemma pall_run {A} (P : cmd → Prop) (I : world E → Prop) :
  (∀ c w w' r, I w → P c → step c w = (w', r) → I w') →
  ∀ (p : prog A) w w' r, pall P p → I w → run p w = (w', r) → I w'.
Proof.
  intros Hstep p w w' r Hp HI Hr.
  destruct (twp_run (λ _ : unit, P) (λ s _ _, s) (λ _, I) (λ _, Hstep) p tt _ w w' r Hp HI Hr) as (_ & ? & _).
  done.
Qed.

(** A command that is no statement commits nothing. *)
Lemma no_statement_rows c w w' r :
  no_statement c → step c w = (w', r) → sq_rows (db w') = sq_rows (db w).
Proof.
  intros Hc Hs. destruct r as [v|e]; [|by apply step_err in Hs as (_ & ? & _)].
  apply step_ok in Hs. destruct c; try done; simpl in Hs; try (by rewrite Hs).
  - by destruct Hs as [-> _].
  - by destruct Hs as [_ ->].
  - by destruct Hs as (t & _ & _ & ->).
Qed.

Lemma no_statement_run {A} (p : prog A) w w' r :
  pall no_statement p → run p w = (w', r) → sq_rows (db w') = sq_rows (db w).
Proof.
  intros Hp Hr. eapply (pall_run no_statement (λ w', sq_rows (db w') = sq_rows (db w))); [|done..].
  intros c w1 w2 r1 Hi Hc Hs. rewrite <- Hi. by eapply no_statement_rows.
Qed.

(** ** One step inside the block's transaction *)

Lemma rows_of_writes ws tables rows tbl :
  Forall (λ x, x.1 ∈ own_tables) ws → tbl ∉ own_tables →
  rows_of (fold_left (apply_write tables) ws rows) tbl = rows_of rows tbl.
Proof.
  intros Hws Ht. revert rows. induction Hws as [|x ws Hx _ IH]; intros rows; [done|]. simpl.
  rewrite IH. unfold apply_write, rows_of. rewrite lookup_insert_ne; [done|]. by intros <-.
Qed.

Lemma same_rows_commit s t :
  (∀ ws, sq_pending s !! t = Some ws → Forall (λ x, x.1 ∈ own_tables) ws) →
  same_rows s (mkSql (sq_tables s) (view s t) (delete t (sq_pending s))).
Proof.
  intros Hws tbl Ht. simpl. unfold view. apply rows_of_writes; [|done].
  destruct (sq_pending s !! t) eqn:Ep; [by apply Hws|constructor].
Qed.

Lemma unseen_quiet t s0 own s s' :
  sq_rows s' = sq_rows s → sq_pending s' = sq_pending s → unseen t s0 own s → unseen t s0 own s'.
Proof.
  intros Hr Hp (Ho & Hn & Hw & Hs). unfold unseen. rewrite Hp. split_and!; [done..|].
  intros tbl Ht. rewrite Hr. by apply Hs.
Qed.

Lemma unseen_begin t s0 own s t1 :
  sq_pending s !! t1 = None → unseen t s0 own s →
  unseen t s0 (t1 :: own) (mkSql (sq_tables s) (sq_rows s) (<[t1 := []]> (sq_pending s))).
Proof.
  intros H1 (Ho & Hn & Hw & Hs).
  assert (t1 ≠ t) by (intros ->; rewrite H1 in Ho; by destruct Ho).
  split_and!; simpl; [by rewrite lookup_insert_ne|set_solver| |done].
  intros t' ws Hin. rewrite lookup_insert_Some. intros [[<- <-]|[Hne Hp]]; [constructor|].
  eapply Hw; [|done]. set_solver.
Qed.

Lemma unseen_end t s0 own s t1 rows :
  t1 ∈ own → same_rows s (mkSql (sq_tables s) rows (delete t1 (sq_pending s))) → unseen t s0 own s →
  unseen t s0 (remove1 t1 own) (mkSql (sq_tables s) rows (delete t1 (sq_pending s))).
Proof.
  intros Hin Hr (Ho & Hn & Hw & Hs).
  assert (t1 ≠ t) by (by intros ->).
  split_and!; simpl; [by rewrite lookup_delete_ne| | |by etrans].
  - intros ?%elem_of_remove1. done.
  - intros t' ws Hin'. rewrite lookup_delete_Some. intros [_ Hp]. eapply Hw; [by eapply elem_of_remove1|done].
Qed.

Lemma unseen_write t s0 own s t1 ws tbl cs :
  sq_pending s !! t1 = Some ws → (t1 ∈ own ∧ tbl ∈ own_tables ∨ t = t1) → unseen t s0 own s →
  unseen t s0 own (mkSql (sq_tables s) (sq_rows s) (<[t1 := ws ++ [(tbl, cs)]]> (sq_pending s))).
Proof.
  intros Hp Hc (Ho & Hn & Hw & Hs). split_and!; simpl; [|done| |done].
  - destruct (decide (t1 = t)) as [->|]; [rewrite lookup_insert_eq; by eexists|by rewrite lookup_insert_ne].
  - intros t' ws' Hin. rewrite lookup_insert_Some. intros [[<- <-]|[Hne Hp']]; [|by eapply Hw].
    destruct Hc as [[_ Ht]| ->]; [|done]. apply Forall_app. split; [by eapply Hw|]. by apply Forall_singleton.
Qed.

Lemma unseen_err t s0 own s s' : sql_err s s' → unseen t s0 own s → unseen t s0 own s'.
Proof.
  intros (_ & Hr & Hp) (Ho & Hn & Hw & Hs). split_and!; [|done| |].
  - destruct (Hp t) as [->|[_ ->]]; [done|by eexists].
  - intros t' ws Hin Hws. destruct (Hp t') as [Eq|[_ Eq]]; rewrite Eq in Hws; [by eapply Hw|].
    simplify_eq. constructor.
  - etrans; [done|]. by apply same_rows_eq.
Qed.

Lemma unseen_remove1 t s0 own s t1 : unseen t s0 own s → unseen t s0 (remove1 t1 own) s.
Proof.
  intros (Ho & Hn & Hw & Hs). split_and!; [done| | |done].
  - intros ?%elem_of_remove1. done.
  - intros t' ws ?%elem_of_remove1. by eapply Hw.
Qed.

Lemma unseen_step t s0 own c w w' r :
  unseen t s0 own (db w) → own_allowed (Some t) own c → step c w = (w', r) →
  unseen t s0 (own_next own c r) (db w').
Proof.
  intros HI Ha Hs. destruct r as [v|e].
  - apply step_ok in Hs. destruct c; simpl in *; try (by rewrite Hs).
    + by destruct Hs as [-> _].
    + destruct Hs as [_ ->]. by eapply unseen_quiet; [| |exact HI].
    + destruct Hs as (t1 & Hn & -> & ->). by apply unseen_begin.
    + rewrite Hs. apply unseen_end; [done| |done]. apply same_rows_commit. destruct HI as (_ & _ & Hw & _). eauto.
    + rewrite Hs. apply unseen_end; [done| |done]. by intros tbl.
    + destruct Hs as (t1 & ws & Ht1 & Hp & _ & Hs). destruct Ha as (t2 & Ht2 & Ho). simplify_eq.
      destruct (is_write calls); [|by destruct Hs as [-> _]]. destruct Hs as (_ & -> & _).
      apply unseen_write; [done| |done]. destruct Ho as [[? ?]|[= ->]]; auto.
  - apply step_err in Hs. apply (unseen_err _ _ _ _ _ Hs) in HI.
    destruct c; simpl; try done. by apply unseen_remove1.
Qed.

(** Code that keeps to [t]: nothing becomes visible, and [t] stays open. *)
Lemma discw_unseen {A} t (p : prog A) w w' r :
  discw (Some t) p → is_Some (sq_pending (db w) !! t) → run p w = (w', r) →
  same_rows (db w) (db w') ∧ is_Some (sq_pending (db w') !! t).
Proof.
  intros Hp Ho Hr.
  destruct (twp_run (own_allowed (Some t)) own_next (λ own w', unseen t (db w) own (db w'))
              (λ own c w1 w2 r1, unseen_step t (db w) own c w1 w2 r1) p [] _ w w' r (Hp []))
    as (own' & (Ho' & _ & _ & Hs) & _); [|done|done].
  split_and!; [done|by intros ?%elem_of_nil|by intros ? ? ?%elem_of_nil|done].
Qed.
End atomic.

(** ** The properties *)

Section properties.
Context {E : Type} `{SE : SqlEngine E}.
Context {CFG : Config} {LC : LiskCrypto} {LT : LiskTransactions} {LO : Locale} {LQ : LiskQ}.
Implicit Types w : world E.

(** The run of [indexBlock], up to the beginning of its transaction. *)
Lemma run_startDbTransaction v w w1 r :
  run (Mysql.startDbTransaction v) w = (w1, r) →
  same_rows (db w) (db w1) ∧ ∀ t, r = Ok t → sq_pending (db w1) !! t = Some [].
Proof.
  unfold Mysql.startDbTransaction. rewrite run_bind, run_call.
  destruct (step CTrxBegin w) as [w2 [a|e]] eqn:Es; intros Hr.
  - apply step_ok in Es. simpl in Es. destruct Es as (t & _ & -> & Es). simpl in Hr.
    injection Hr as [= <- <-]. rewrite Es. split; [by intros tbl|].
    intros t' [= <-]. simpl. by rewrite lookup_insert_eq.
  - injection Hr as [= <- <-]. split; [|done]. apply same_rows_eq. by apply step_err in Es as (_ & ? & _).
Qed.

(** The instance of a table is its name and its schema. *)
Lemma run_tableOf s w w1 tb : run (tableOf s) w = (w1, Ok tb) → tb = mkTable (tableName s) s.
Proof.
  unfold tableOf, Mysql.getTableInstance. rewrite run_bind.
  destruct (run (Mysql.getDbConnection _) w) as [w2 [a|e]]; [|done].
  rewrite run_bind. destruct (run (Mysql.createTableIfNotExists _ _ _) w2) as [w3 [b|e]]; simpl; congruence.
Qed.

(** The end of a bracket: the body's outcome, then the commit or the rollback. *)
Lemma run_try t (body : prog unit) (h : exn → prog unit) w w' r :
  (∀ e w, ∃ e', run (h e) w = (w, Err e')) →
  discw (Some t) body → is_Some (sq_pending (db w) !! t) →
  run (catch (_ ← body; _ ← Mysql.commitDbTransaction t; Ret tt)
             (λ err, _ ← Mysql.rollbackDbTransaction t; h err)) w = (w', r) →
  match r with
  | Ok _ => ∃ w1, run body w = (w1, Ok tt) ∧ same_rows (db w) (db w1) ∧ sq_rows (db w') = view (db w1) t
  | Err _ => same_rows (db w) (db w')
  end.
Proof.
  intros Hh Hd Ho. rewrite run_catch, run_bind.
  destruct (run body w) as [w1 o] eqn:Eb. destruct (discw_unseen t body w w1 o Hd Ho Eb) as [Hs _].
  assert (Hend : ∀ e w2, same_rows (db w) (db w2) → run (_ ← Mysql.rollbackDbTransaction t; h e) w2 = (w', r) →
                 ∃ e', r = Err e' ∧ same_rows (db w) (db w')).
  { intros e w2 H2. unfold Mysql.rollbackDbTransaction. rewrite run_bind, run_call.
    destruct (step (CTrxRollback t) w2) as [w3 r3] eqn:Er.
    assert (same_rows (db w) (db w3)) as H3.
    { etrans; [exact H2|]. apply same_rows_eq. destruct r3 as [v3|e3].
      - apply step_ok in Er. simpl in Er. by rewrite Er.
      - by apply step_err in Er as (_ & ? & _). }
    destruct r3; [destruct (Hh e w3) as [e' ->]|]; intros [= <- <-]; by eauto. }
  destruct o as [[]|e]; [|intros Hr; destruct (Hend e w1 Hs Hr) as (e' & -> & ?); done].
  unfold Mysql.commitDbTransaction. rewrite run_bind, run_call.
  destruct (step (CTrxCommit t) w1) as [w2 [v|e]] eqn:Ec; simpl.
  - intros [= <- <-]. apply step_ok in Ec. simpl in Ec. exists w1. by rewrite Ec.
  - intros Hr. destruct (Hend e w2) as (e' & -> & ?); [|done|done].
    etrans; [exact Hs|]. apply same_rows_eq. by apply step_err in Ec as (_ & ? & _).
Qed.

(** C1. Indexing a block is atomic, whatever the node answers and whichever
    statements fail: when indexBlock throws, the committed rows of every table
    but accounts are what they were; when it returns, they become exactly what
    the block's transaction holds, in the single step of its commit, and
    nothing of it was visible before. *)
Theorem indexBlock_atomic data w w' r :
  run (BlockchainIndex.indexBlock data) w = (w', r) →
  match r with
  | Err _ => same_rows (db w) (db w')
  | Ok _ => ∃ block t w0 w1,
      prop data "block" = Ok block ∧ BlockchainIndex.validateBlock block = true ∧
      run (BlockchainIndex.indexBlockBody (mkTable (tableName Schemas.blocks) Schemas.blocks) block t) w0 = (w1, Ok tt) ∧
      sq_pending (db w0) !! t = Some [] ∧ same_rows (db w) (db w0) ∧
      same_rows (db w0) (db w1) ∧ sq_rows (db w') = view (db w1) t
  end.
Proof.
  unfold BlockchainIndex.indexBlock, BlockchainIndex.getBlocksTable. intros Hr.
  (* the commands before the transaction *)
  assert (Hpre : ∀ A (p : prog A) (k : A → prog unit) w0, pall no_statement p → same_rows (db w) (db w0) →
            run (p ≫= k) w0 = (w', r) →
            (∃ w1 a, run p w0 = (w1, Ok a) ∧ same_rows (db w) (db w1) ∧ run (k a) w1 = (w', r)) ∨
            (∃ e, r = Err e ∧ same_rows (db w) (db w'))).
  { intros A p k w0 Hp H0. rewrite run_bind. destruct (run p w0) as [w1 [a|e]] eqn:Ep;
      (assert (same_rows (db w) (db w1))
         by (etrans; [exact H0|]; by eapply same_rows_eq, no_statement_run)); [by eauto 6|].
    intros [= <- <-]. right. by eauto. }
  apply Hpre in Hr as [(w1 & block & E1 & H1 & Hr)|(e & -> & ?)]; [|done|pall|done].
  apply Hpre in Hr as [(w2 & u & E2 & H2 & Hr)|(e & -> & ?)]; [|done|pall|done].
  apply Hpre in Hr as [(w3 & tb & E3 & H3 & Hr)|(e & -> & ?)]; [|done|apply pall_tableOf|done].
  apply Hpre in Hr as [(w4 & cn & E4 & H4 & Hr)|(e & -> & ?)]; [|done|pall|done].
  rewrite run_bind in Hr. destruct (run (Mysql.startDbTransaction cn) w4) as [w5 [t|e]] eqn:Eb;
    apply run_startDbTransaction in Eb as [H5 Ht]; [|injection Hr as [= <- <-]; by etrans].
  specialize (Ht t eq_refl).
  apply run_try in Hr; [|intros e w6; destruct (BlockchainIndex.isDeadlock _ _); by eexists|apply discw_indexBlockBody|by eexists].
  destruct r as [[]|e]; [|etrans; [exact H4|]; by etrans].
  destruct Hr as (w6 & Hb & Hs & Hv). apply run_tableOf in E3 as ->.
  exists block, t, w5, w6. split_and!; [| |done|done|by etrans|done|done].
  - by apply run_lift_ok in E1 as [_ ?].
  - destruct (BlockchainIndex.validateBlock block); [done|]. apply run_bind_Ok in E2 as (w7 & id & _ & E2).
    by apply run_bind_Ok in E2 as (w8 & h & _ & E2).
Qed.

(** A transaction's handler, applied or reverted, commits nothing but
    accounts: run inside the open transaction of a block, it leaves the
    committed rows of every other table as they are, and the transaction open,
    whether it returns or throws. *)
Theorem handlers_commit_nothing (apply_ : bool) blockHeader tx events dbTrx w w' r :
  is_Some (sq_pending (db w) !! dbTrx) →
  run ((if apply_ then dispatchApply else dispatchRevert) blockHeader tx events dbTrx) w = (w', r) →
  same_rows (db w) (db w') ∧ is_Some (sq_pending (db w') !! dbTrx).
Proof.
  intros Ho. apply discw_unseen; [|done].
  destruct apply_; [apply discw_dispatchApply|apply discw_dispatchRevert].
Qed.
End properties.
