(* ===== verification/Interleave.v ===== *)
(** * Several jobs at once

    The queues run jobs that take turns at every command: [jstep] is one
    command of one of the jobs.  A job of indexBlock goes through the phases
    of [phase]: nothing of it is in the database, its transaction is open, it
    has committed, or it has given up.  [protocol] is the discipline of Trace.v
    with these phases, and [inv] what holds of the database while jobs that
    keep to it are interleaved in any way. *)
From S2P Require Export Atomic.
Open Scope string_scope.
Open Scope Z_scope.
Open Scope list_scope.

(** ** Interleaving *)

(** A command of a job, and its answer. *)
Definition event : Type := nat * (cmd * result val).

Section jobs.
Context {E : Type} {HE : Engine E}.

Definition system : Type := list (prog unit) * world E.

Inductive jstep : system → event → system → Prop :=
  | jstep_call ps w i c k w' r :
      ps !! i = Some (Call c k) → step c w = (w', r) → jstep (ps, w) (i, (c, r)) (<[i := k r]> ps, w').

Inductive jsteps : system → list event → system → Prop :=
  | jsteps_nil s : jsteps s [] s
  | jsteps_snoc s1 s2 s3 tr ev : jsteps s1 tr s2 → jstep s2 ev s3 → jsteps s1 (tr ++ [ev]) s3.

(** The jobs in an order of turns; a job without a command skips its turn. *)
Fixpoint take_turns (turns : list nat) (s : system) : list event * system :=
  match turns with
  | [] => ([], s)
  | i :: r =>
      match s.1 !! i with
      | Some (Call c k) =>
          let '(w', v) := step c s.2 in
          let '(tr, s') := take_turns r (<[i := k v]> s.1, w') in ((i, (c, v)) :: tr, s')
      | _ => take_turns r s
      end
  end.

Lemma jsteps_cons s1 ev s2 tr s3 : jstep s1 ev s2 → jsteps s2 tr s3 → jsteps s1 (ev :: tr) s3.
Proof.
  intros H1 H2. induction H2 as [|s2 s3 s4 tr ev' H2 IH H3]; [exact (jsteps_snoc _ _ _ [] _ (jsteps_nil _) H1)|].
  exact (jsteps_snoc _ _ _ (ev :: tr) _ (IH H1) H3).
Qed.

Lemma take_turns_steps turns s : jsteps s (take_turns turns s).1 (take_turns turns s).2.
Proof.
  revert s. induction turns as [|i turns IH]; intros [ps w]; cbn [take_turns fst snd]; [constructor|].
  destruct (ps !! i) as [[| |c k]|] eqn:Ei; [apply IH..| |apply IH].
  destruct (step c w) as [w' v] eqn:Es. specialize (IH (<[i := k v]> ps, w')).
  destruct (take_turns turns _) as [tr s']. eapply jsteps_cons; [by econstructor|exact IH].
Qed.

(** What a job has sent, and been answered. *)
Definition of_job (i : nat) (tr : list event) : list (cmd * result val) := map snd (List.filter (λ ev, bool_decide (ev.1 = i)) tr).

End jobs.

(** ** The phases of a job *)

Inductive phase :=
  | Before                                              (* its transaction is not open *)
  | During (t : Z) (own : list Z) (ws : list (string * list kcall))  (* open; what was begun on the way; what it has written *)
  | Done (ws : list (string * list kcall))
  | GivenUp
  | Reused.                                             (* a transaction has the number of an open one *)

(** A statement that writes in transaction [t]. *)
Definition written (t : Z) (c : cmd) (r : result val) : list (string * list kcall) :=
  match c, r with
  | CKnex tbl cs, Ok _ => if bool_decide (trx_of cs = Some t) && is_write cs then [(tbl, cs)] else []
  | _, _ => []
  end.

Definition next (ph : phase) (c : cmd) (r : result val) : phase :=
  match ph with
  | Before => match c, r with CTrxBegin, Ok (VNum t) => During t [] [] | _, _ => Before end
  | During t own ws =>
      let within := During t (own_next own c r) (ws ++ written t c r) in
      match c, r with
      | CTrxBegin, Ok (VNum t') => if decide (t' ∈ t :: own) then Reused else within
      | CTrxCommit t', Ok _ => if decide (t' ∈ own) then within else Done ws
      | CTrxRollback t', _ => if decide (t' ∈ own) then within else GivenUp
      | _, _ => within
      end
  | ph => ph
  end.

Definition allowed (ph : phase) (c : cmd) : Prop :=
  match ph with
  | Before => no_statement c
  | During t own _ => own_allowed (Some t) own c ∨ c = CTrxCommit t ∨ c = CTrxRollback t
  | Done _ | GivenUp => False
  | Reused => True
  end.

(** What a job has come to when it returns, and when it throws. *)
Definition outcome {A} (ph : phase) (r : result A) : Prop :=
  match ph, r with
  | Reused, _ | Done _, Ok _ => True
  | (Before | GivenUp | During _ _ _), Err _ => True
  | _, _ => False
  end.

Notation protocol := (twp allowed next).

(** The phase of a job, from what it has sent. *)
Definition phase_of (tr : list (cmd * result val)) : phase := after next Before tr.

(** ** indexBlock keeps to the protocol *)

Section protocol.

Lemma protocol_reused {A} (p : prog A) (Q : phase → result A → Prop) : (∀ r, Q Reused r) → protocol p Reused Q.
Proof. intros HQ. induction p as [| |c k IH]; cbn; [by apply HQ..|]. by split. Qed.

(** Before the transaction. *)
Lemma protocol_before {A} (p : prog A) (Q : phase → result A → Prop) :
  pall (λ c, no_statement c ∧ c ≠ CTrxBegin) p → (∀ r, Q Before r) → protocol p Before Q.
Proof.
  intros Hp HQ. induction p as [a|e|c k IH]; [by apply HQ..|]. destruct Hp as [[Hc Hb] Hk]. split; [done|].
  intros r. replace (next Before c r) with Before by (destruct c; try done; by destruct Hb). apply IH, Hk.
Qed.

(** Code that keeps to the transaction it was given stays in it. *)
Lemma protocol_during {A} t (p : prog A) own ws (Q : phase → result A → Prop) :
  t ∉ own → twp (own_allowed (Some t)) own_next p own (λ _ _, True) →
  (∀ own' ws' r, t ∉ own' → Q (During t own' ws') r) → (∀ r, Q Reused r) → protocol p (During t own ws) Q.
Proof.
  intros Ht Hp HQ HR. revert own ws Ht Hp. induction p as [a|e|c k IH]; intros own ws Ht Hp; [by apply HQ..|].
  destruct Hp as [Ha Hk]. split; [by left|]. intros r. specialize (Hk r).
  destruct (decide (t ∈ own_next own c r)) as [Hin|Hn].
  { apply own_next_begun in Hin as [?|[= -> ->]]; [done|]. cbn. rewrite decide_True by left. by apply protocol_reused. }
  assert (next (During t own ws) c r = Reused ∨
          next (During t own ws) c r = During t (own_next own c r) (ws ++ written t c r)) as [->| ->]; [|by apply protocol_reused|by apply IH].
  destruct c; try (by right); cbn in *.
  - destruct r as [[]|]; try (by right). case_decide; [by left|by right].
  - destruct r; [|by right]. rewrite decide_True by done. by right.
  - rewrite decide_True by done. by right.
Qed.
End protocol.

Section indexing.
Context {CFG : Config} {LC : LiskCrypto} {LT : LiskTransactions} {LO : Locale} {LQ : LiskQ}.

Definition idle (c : cmd) : Prop := no_statement c ∧ c ≠ CTrxBegin.

Lemma idle_tableOf s : pall idle (tableOf s).
Proof.
  unfold tableOf, Mysql.getTableInstance, Mysql.createTableIfNotExists, Mysql.getDbConnection, Mysql.loadSchema,
    Mysql.createDbConnection. pall; by apply pall_call.
Qed.
Lemma idle_getDbConnection ep : pall idle (Mysql.getDbConnection ep).
Proof. unfold Mysql.getDbConnection, Mysql.createDbConnection. pall; by apply pall_call. Qed.

(** The preparations of a job, and what follows them. *)
Lemma protocol_prepare {A B} (p : prog A) (k : A → prog B) :
  pall idle p → (∀ a, protocol (k a) Before outcome) → protocol (p ≫= k) Before outcome.
Proof. intros Hp Hk. apply twp_bind, protocol_before; [exact Hp|]. intros [a|e]; [apply Hk|done]. Qed.

(** The transaction of a job: committed when it returns, rolled back when it throws. *)
Lemma protocol_try {A} t (body : prog A) (h : exn → prog unit) :
  discw (Some t) body → (∀ e ph, ph = GivenUp ∨ ph = Reused → protocol (h e) ph (λ ph' r, ph' = ph ∧ ∃ e', r = Err e')) →
  protocol (catch (_ ← body; _ ← Mysql.commitDbTransaction t; Ret tt)
                  (λ err, _ ← Mysql.rollbackDbTransaction t; h err)) (During t [] []) outcome.
Proof.
  intros Hb Hh.
  assert (∀ e ph, (∃ own ws, ph = During t own ws ∧ t ∉ own) ∨ ph = Reused →
    protocol (_ ← Mysql.rollbackDbTransaction t; h e) ph outcome) as Hroll.
  { intros e ph Hph. unfold Mysql.rollbackDbTransaction. apply twp_bind, twp_call.
    { destruct Hph as [(own & ws & -> & _)| ->]; cbn; auto. }
    intros r. assert (next ph (CTrxRollback t) r = GivenUp ∨ next ph (CTrxRollback t) r = Reused) as Hn.
    { destruct Hph as [(own & ws & -> & Hn)| ->]; [left|by right]. cbn. by rewrite decide_False. }
    destruct r as [v|e']; [|destruct Hn as [-> | ->]; done].
    eapply twp_mono; [by apply Hh|]. intros ph' r' [-> [e' ->]]. destruct Hn as [-> | ->]; done. }
  apply twp_catch, twp_bind. eapply (protocol_during t body []); [by apply not_elem_of_nil| | |].
  - eapply twp_mono; [apply Hb|done].
  - intros own ws r Hn. destruct r as [a|e]; [|apply Hroll; left; by eauto].
    unfold Mysql.commitDbTransaction. apply twp_bind, twp_call; [cbn; auto|]. cbn [next].
    intros [v|e]; [rewrite decide_False by done; exact I|].
    apply Hroll. left. by exists own, (ws ++ []).
  - intros [a|e]; [|apply Hroll; by right]. apply protocol_reused. intros [u|e]; [done|apply Hroll; by right].
Qed.

Lemma protocol_indexBlock data : protocol (BlockchainIndex.indexBlock data) Before outcome.
Proof.
  unfold BlockchainIndex.indexBlock, BlockchainIndex.getBlocksTable.
  apply protocol_prepare; [pall|intros block]. apply protocol_prepare; [pall|intros _].
  apply protocol_prepare; [apply idle_tableOf|intros tb]. apply protocol_prepare; [apply idle_getDbConnection|intros cn].
  unfold Mysql.startDbTransaction. apply twp_bind, twp_bind, twp_call; [done|].
  intros [v|e]; [|done]. destruct v as [| | |t| | | | |]; try done.
  apply (twp_lift allowed next (Ok t)), (protocol_try t); [apply discw_indexBlockBody|].
  intros e ph Hph. destruct (BlockchainIndex.isDeadlock _ _); cbn; by eauto.
Qed.
End indexing.

(** ** What holds of the database *)

(** A commit: the job, the tables there were and the statements it published. *)
Record commit := mkCommit {
  c_job : nat;
  c_tables : gmap string (list tcall);
  c_writes : list (string * list kcall)
}.
Section invariant.
Context {CO : Collation}.

Definition published (rows : gmap string (list row)) (log : list commit) : gmap string (list row) :=
  fold_left (λ rows e, fold_left (apply_write (c_tables e)) (c_writes e) rows) log rows.

(** The numbers of the transactions a job has open. *)
Definition open_in (ph : phase) : list Z := match ph with During t own _ => t :: own | _ => [] end.

(** What is left of the statements [ws]: all, unless some command has failed;
    then the server may have dropped the first of them. *)
Definition kept (ok : Prop) (left_ ws : list (string * list kcall)) : Prop := left_ `suffix_of` ws ∧ (ok → left_ = ws).

Definition good (ok : Prop) (s : sqldb) (ph : phase) : Prop :=
  match ph with
  | During t own ws =>
      NoDup (t :: own) ∧ (∃ l, sq_pending s !! t = Some l ∧ kept ok l ws) ∧
      ∀ t', t' ∈ own → ∃ l, sq_pending s !! t' = Some l ∧ Forall (λ x, x.1 ∈ own_tables) l
  | Reused => False
  | _ => True
  end.

Record inv (rows0 : gmap string (list row)) (ok : Prop) (s : sqldb) (ph : nat → phase) (log : list commit) : Prop := {
  inv_apart i j x : x ∈ open_in (ph i) → x ∈ open_in (ph j) → i = j;
  inv_good i : good ok s (ph i);
  inv_once : NoDup (map c_job log);
  inv_done e : e ∈ log → ∃ ws, ph (c_job e) = Done ws ∧ kept ok (c_writes e) ws;
  inv_logged i ws : ph i = Done ws → i ∈ map c_job log;
  inv_rows tbl : tbl ∉ own_tables → rows_of (sq_rows s) tbl = rows_of (published rows0 log) tbl
}.

Definition set_phase (ph : nat → phase) (i : nat) (new : phase) (j : nat) : phase := if decide (j = i) then new else ph j.

Lemma inv_ext rows0 ok s ph ph' log : (∀ i, ph' i = ph i) → inv rows0 ok s ph log → inv rows0 ok s ph' log.
Proof.
  intros He [H1 H2 H3 H4 H5 H6]. split; [|intros i; by rewrite He|done| |intros i ws; rewrite He; apply H5|done].
  - intros i j x. rewrite !He. apply H1.
  - intros e. rewrite He. apply H4.
Qed.

Lemma good_open ok s ph x : good ok s ph → x ∈ open_in ph → is_Some (sq_pending s !! x).
Proof.
  destruct ph as [|t own ws| | |]; simpl; try (by intros _ ?%elem_of_nil).
  intros (_ & (l & Hl & _) & Ho) [->|Hin]%elem_of_cons; [by eexists|]. destruct (Ho x Hin) as (l' & ? & _). by eexists.
Qed.

(** The open transactions of a phase are what they were. *)
Lemma good_same ok s s' ph :
  (∀ x, x ∈ open_in ph → sq_pending s' !! x = sq_pending s !! x) → good ok s ph → good ok s' ph.
Proof.
  destruct ph as [|t own ws| | |]; simpl; try done. intros Hs (Hd & Hk & Ho). split; [done|]. split.
  - rewrite Hs; [done|by left].
  - intros t' Hin. rewrite Hs; [by apply Ho|by right].
Qed.

(** A step of job [i], which has not committed. *)
Lemma inv_set rows0 ok s s' ph log i new :
  inv rows0 ok s ph log →
  (∀ ws, ph i ≠ Done ws) → (∀ ws, new ≠ Done ws) →
  (∀ x, x ∈ open_in new → x ∈ open_in (ph i) ∨ sq_pending s !! x = None) →
  (∀ x, x ∉ open_in (ph i) → is_Some (sq_pending s !! x) → sq_pending s' !! x = sq_pending s !! x) →
  good ok s' new → same_rows s s' → inv rows0 ok s' (set_phase ph i new) log.
Proof.
  intros [H1 H2 H3 H4 H5 H6] Hi Hn Hx Hp Hg Hs.
  assert (∀ j x, j ≠ i → x ∈ open_in (ph j) → x ∉ open_in (ph i)) as Hapart by (intros j x Hj Hin Hin'; apply Hj; by eapply H1).
  assert (∀ j x, j ≠ i → x ∈ open_in (ph j) → x ∉ open_in new) as Hnew.
  { intros j x Hj Hin [Hin'|Hnone]%Hx; [by eapply Hapart|]. destruct (good_open _ _ _ _ (H2 j) Hin) as [l Hl]. congruence. }
  split; unfold set_phase.
  - intros j k x. repeat case_decide; subst; [done|intros; by exfalso; eapply Hnew|intros; by exfalso; eapply Hnew|apply H1].
  - intros j. case_decide; [done|]. eapply good_same; [|apply H2]. intros x Hin. apply Hp; [by eapply Hapart|by eapply good_open].
  - done.
  - intros e He. destruct (H4 e He) as (ws & Hws & Hk). exists ws. case_decide; [|done]. subst i. by destruct (Hi ws).
  - intros j ws. case_decide; [intros ->; by destruct (Hn ws)|apply H5].
  - intros tbl Ht. rewrite Hs by done. by apply H6.
Qed.

Lemma good_err ok s s' ph : sql_err s s' → good ok s ph → good False s' ph.
Proof.
  intros (_ & _ & Hp). destruct ph as [|t own ws| | |]; simpl; try done. intros (Hd & (l & Hl & Hs & _) & Ho). split; [done|]. split.
  - destruct (Hp t) as [->|[_ ->]]; [exists l; split; [done|by split]|]. exists []. split; [done|]. split; [apply suffix_nil|done].
  - intros t' (l' & Hl' & Hf)%Ho. destruct (Hp t') as [->|[_ ->]]; [by exists l'|]. by exists [].
Qed.

Lemma inv_err rows0 ok s s' ph log : sql_err s s' → inv rows0 ok s ph log → inv rows0 False s' ph log.
Proof.
  intros He [H1 H2 H3 H4 H5 H6]. split; [done| |done| |done|].
  - intros i. by eapply good_err.
  - intros e (ws & Hws & Hs & _)%H4. exists ws. split; [done|]. by split.
  - intros tbl Ht. destruct He as (_ & -> & _). by apply H6.
Qed.

(** The same statements on rows that agree, the own tables apart. *)
Lemma rows_of_agree tables ws rows rows' tbl :
  (∀ tbl, tbl ∉ own_tables → rows_of rows tbl = rows_of rows' tbl) → tbl ∉ own_tables →
  rows_of (fold_left (apply_write tables) ws rows) tbl = rows_of (fold_left (apply_write tables) ws rows') tbl.
Proof.
  revert rows rows'. induction ws as [|x ws IH]; intros rows rows' Ha Ht; simpl; [by apply Ha|].
  apply IH; [|done]. intros tbl' Ht'. unfold apply_write, rows_of at 1 3.
  destruct (decide (x.1 = tbl')) as [->|Hne].
  - rewrite !lookup_insert_eq. cbn. by rewrite Ha.
  - rewrite !lookup_insert_ne by done. by apply Ha.
Qed.

(** The commit of a job. *)
Lemma inv_commit rows0 ok s ph log i t own ws l :
  inv rows0 ok s ph log → ph i = During t own ws → sq_pending s !! t = Some l → kept ok l ws →
  inv rows0 ok (mkSql (sq_tables s) (view s t) (delete t (sq_pending s))) (set_phase ph i (Done ws))
    (log ++ [mkCommit i (sq_tables s) l]).
Proof.
  intros [H1 H2 H3 H4 H5 H6] Hi Hl Hk. split; unfold set_phase.
  - intros j k x. repeat case_decide; subst; cbn; try (by intros ?%elem_of_nil); try (by intros _ ?%elem_of_nil). apply H1.
  - intros j. case_decide; [done|]. eapply good_same; [|apply H2]. intros x Hin. cbn. rewrite lookup_delete_ne; [done|].
    intros <-. apply H. eapply H1; [exact Hin|]. rewrite Hi. by left.
  - rewrite map_app. apply NoDup_app. split; [done|]. split; [|apply NoDup_singleton].
    intros j Hj ->%list_elem_of_singleton. apply list_elem_of_In, in_map_iff in Hj as (e & He & Hin%list_elem_of_In).
    destruct (H4 e Hin) as (ws' & Hws' & _). cbn in He. congruence.
  - intros e [He| ->%list_elem_of_singleton]%elem_of_app; cbn; [|rewrite decide_True by done; by exists ws].
    destruct (H4 e He) as (ws' & Hws' & Hk'). exists ws'. case_decide; [congruence|done].
  - intros j ws'. rewrite map_app, elem_of_app. case_decide; [subst; right; by left|]. intros ?%H5. by left.
  - intros tbl Ht. cbn. unfold published. rewrite fold_left_app. cbn. unfold view. rewrite Hl. cbn.
    apply rows_of_agree; [|done]. intros tbl' Ht'. by apply H6.
Qed.

Lemma inv_mono rows0 (ok ok' : Prop) s ph log : (ok' → ok) → inv rows0 ok s ph log → inv rows0 ok' s ph log.
Proof.
  intros Hok [H1 H2 H3 H4 H5 H6]. split; try done.
  - intros i. specialize (H2 i). destruct (ph i) as [|t own ws| | |]; try done. destruct H2 as (Hd & (l & Hl & Hs & Hk) & Ho).
    split; [done|]. split; [|done]. exists l. split; [done|]. split; [done|]. by intros ?%Hok%Hk.
  - intros e (ws & Hws & Hs & Hk)%H4. exists ws. split; [done|]. split; [done|]. by intros ?%Hok%Hk.
Qed.

Lemma NoDup_remove1 t l : NoDup l → NoDup (remove1 t l) ∧ t ∉ remove1 t l.
Proof.
  induction 1 as [|x l Hx Hl [IH1 IH2]]; simpl; [split; [constructor|by apply not_elem_of_nil]|].
  case_bool_decide as E; [by subst|]. split.
  - constructor; [by intros ?%elem_of_remove1|done].
  - by intros [->|?]%elem_of_cons.
Qed.

(** A job that ends a transaction it has begun on the way. *)
Lemma good_remove ok s s' t own ws t1 :
  good ok s (During t own ws) → t1 ∈ own → (∀ x, x ≠ t1 → sq_pending s' !! x = sq_pending s !! x) →
  good ok s' (During t (remove1 t1 own) ws).
Proof.
  intros (Hd & Hk & Ho) Hin Hp. apply NoDup_cons in Hd as [Ht Hd]. destruct (NoDup_remove1 t1 own Hd) as [Hd' Hn]. split; [|split].
  - constructor; [by intros ?%elem_of_remove1|done].
  - rewrite Hp; [done|]. by intros ->.
  - intros t' Hin'. rewrite Hp; [by eapply Ho, elem_of_remove1|]. by intros ->.
Qed.

End invariant.

Section steps.
Context {E : Type} `{SE : SqlEngine E}.
Implicit Types w : world E.

(** Nothing of the job's transactions changes, but for some that it closes. *)
Lemma inv_within rows0 ok s ph log i t own own' ws :
  inv rows0 ok s ph log → ph i = During t own ws → good ok s (During t own' ws) → own' ⊆ own →
  inv rows0 ok s (set_phase ph i (During t own' ws)) log.
Proof.
  intros Hi Hph Hg Hsub. eapply inv_set; [exact Hi|by rewrite Hph|done| |done|exact Hg|done].
  intros x [->|Hin]%elem_of_cons; left; rewrite Hph; [by left|right; by apply Hsub].
Qed.

Lemma inv_idle rows0 ok s s' ph log i :
  inv rows0 ok s ph log → quiet s s' → (∀ ws, ph i ≠ Done ws) → inv rows0 ok s' (set_phase ph i (ph i)) log.
Proof.
  intros Hi (_ & Hr & Hp) Hn. eapply inv_set; [exact Hi|done|done|by left|by rewrite Hp| |by apply same_rows_eq].
  eapply good_same; [|apply Hi]. intros x _. by rewrite Hp.
Qed.

(** A command that fails. *)
Lemma inv_step_err rows0 ok w w' ph log i c e :
  inv rows0 ok (db w) ph log → allowed (ph i) c → step c w = (w', Err e) →
  inv rows0 False (db w') (set_phase ph i (next (ph i) c (Err e))) log.
Proof.
  intros Hi Ha Hs%step_err. apply (inv_err _ _ _ _ _ _ Hs) in Hi. clear Hs.
  pose proof (inv_good _ _ _ _ _ Hi i) as Hg. destruct (ph i) as [|t own ws| | |] eqn:Hph; try done.
  { replace (next Before c (Err e)) with (ph i) by (rewrite Hph; by destruct c). eapply inv_idle; [exact Hi|done|by rewrite Hph]. }
  assert (next (During t own ws) c (Err e) = During t own ws ∨
          (∃ t1, t1 ∈ own ∧ next (During t own ws) c (Err e) = During t (remove1 t1 own) ws) ∨
          next (During t own ws) c (Err e) = GivenUp) as [->|[(t1 & Hin & ->)| ->]].
  { destruct c; cbn; rewrite ?app_nil_r; auto. case_decide; [|by auto]. right. left. by eauto. }
  - eapply inv_within; [done|exact Hph|done|done].
  - eapply inv_within; [done|exact Hph|by eapply good_remove|]. intros x. apply elem_of_remove1.
  - eapply inv_set; [exact Hi|by rewrite Hph|done|by intros x ?%elem_of_nil|done|done|done].
Qed.

(** A job begins its transaction, or one on the way. *)
Lemma inv_begin rows0 ok s ph log i t1 new :
  inv rows0 ok s ph log → (∀ ws, ph i ≠ Done ws) → (∀ ws, new ≠ Done ws) → sq_pending s !! t1 = None →
  (∀ x, x ∈ open_in new → x ∈ open_in (ph i) ∨ x = t1) →
  good ok (mkSql (sq_tables s) (sq_rows s) (<[t1 := []]> (sq_pending s))) new →
  inv rows0 ok (mkSql (sq_tables s) (sq_rows s) (<[t1 := []]> (sq_pending s))) (set_phase ph i new) log.
Proof.
  intros Hi Hph Hnew H1 Hx Hg. eapply inv_set; [exact Hi|done|done| | |done|by intros tbl].
  - intros x [?| ->]%Hx; auto.
  - intros x _ [l Hl]. cbn. rewrite lookup_insert_ne; [done|congruence].
Qed.

(** It ends one of those on the way. *)
Lemma inv_end rows0 ok s ph log i t own ws t1 rows :
  inv rows0 ok s ph log → ph i = During t own ws → t1 ∈ own →
  same_rows s (mkSql (sq_tables s) rows (delete t1 (sq_pending s))) →
  inv rows0 ok (mkSql (sq_tables s) rows (delete t1 (sq_pending s))) (set_phase ph i (During t (remove1 t1 own) ws)) log.
Proof.
  intros Hi Hph Hin Hr. eapply inv_set; [exact Hi|by rewrite Hph|done| | | |exact Hr].
  - rewrite Hph. intros x [->|Hx%elem_of_remove1]%elem_of_cons; left; [by left|by right].
  - rewrite Hph. intros x Hx _. cbn. rewrite lookup_delete_ne; [done|]. intros <-. apply Hx. by right.
  - eapply (good_remove ok s); [rewrite <- Hph; apply Hi|done|]. intros x Hx. cbn. by rewrite lookup_delete_ne.
Qed.

(** A statement that writes. *)
Lemma inv_write rows0 ok s ph log i t own ws t1 l tbl cs :
  inv rows0 ok s ph log → ph i = During t own ws → sq_pending s !! t1 = Some l →
  t1 ∈ own ∧ tbl ∈ own_tables ∨ t = t1 →
  inv rows0 ok (mkSql (sq_tables s) (sq_rows s) (<[t1 := l ++ [(tbl, cs)]]> (sq_pending s)))
    (set_phase ph i (During t own (ws ++ if bool_decide (t1 = t) then [(tbl, cs)] else []))) log.
Proof.
  intros Hi Hph Hl Hc. pose proof (inv_good _ _ _ _ _ Hi i) as Hg. rewrite Hph in Hg. destruct Hg as (Hd & (l' & Hl' & Hs & Hk) & Ho).
  eapply inv_set; [exact Hi|by rewrite Hph|done|by rewrite Hph; left| | |by intros x].
  { rewrite Hph. intros x Hx _. cbn. rewrite lookup_insert_ne; [done|]. intros <-. apply Hx. destruct Hc as [[? _]| ->]; [by right|by left]. }
  split; [done|]. cbn. case_bool_decide as Ht.
  - subst t1. rewrite lookup_insert_eq. simplify_eq. split.
    + eexists. split; [done|]. split; [|by intros ->%Hk]. destruct Hs as [k ->]. exists k. by rewrite app_assoc.
    + intros t' Hin. rewrite lookup_insert_ne; [by apply Ho|]. intros <-. by apply NoDup_cons in Hd as [? _].
  - destruct Hc as [[Hin Htbl]| ?]; [|by subst]. rewrite lookup_insert_ne by done. rewrite app_nil_r. split; [by exists l'|].
    intros t' Hin'. destruct (decide (t1 = t')) as [<-|Hne]; [|rewrite lookup_insert_ne by done; by apply Ho].
    rewrite lookup_insert_eq. eexists. split; [done|]. apply Forall_app. split; [|by apply Forall_singleton].
    destruct (Ho t1 Hin') as (l1 & ? & ?). by simplify_eq.
Qed.

(** A command that succeeds inside the transaction of a job. *)
Lemma inv_step_during rows0 ok w w' ph log i t own ws c v :
  inv rows0 ok (db w) ph log → ph i = During t own ws → allowed (ph i) c → step c w = (w', Ok v) →
  ∃ log', inv rows0 ok (db w') (set_phase ph i (next (ph i) c (Ok v))) log'.
Proof.
  intros Hi Hph Ha Hs%step_ok. pose proof (inv_good _ _ _ _ _ Hi i) as Hg. rewrite Hph in Hg |- *.
  rewrite Hph in Ha. pose proof Hg as (Hd & (l & Hl & Hk) & Ho). pose proof Hd as [Ht _]%NoDup_cons.
  assert (∀ s', quiet (db w) s' → ∃ log', inv rows0 ok s' (set_phase ph i (During t own (ws ++ []))) log') as Hq.
  { intros s' Hq. exists log. rewrite app_nil_r, <- Hph. eapply inv_idle; [exact Hi|done|by rewrite Hph]. }
  destruct c; cbn [next own_next written] in *; try (by rewrite Hs; apply Hq).
  - apply Hq. by destruct Hs as [-> _].
  - apply Hq. destruct Hs as [Hn ->]. split_and!; [by apply insert_subseteq|done..].
  - destruct Hs as (t1 & Hn & -> & ->). exists log. assert (t1 ∉ t :: own) as Hfresh.
    { intros Hin. destruct (good_open ok (db w) (During t own ws) t1 Hg Hin) as [? ?]. congruence. }
    rewrite decide_False, app_nil_r by done. eapply inv_begin; [exact Hi|by rewrite Hph|done|done| |].
    { rewrite Hph. cbn. set_solver. }
    cbn. split; [|split].
    + apply not_elem_of_cons in Hfresh as [? ?]. constructor; [|by constructor; [|by apply NoDup_cons in Hd as [_ ?]]].
      by intros [?|?]%elem_of_cons.
    + exists l. rewrite lookup_insert_ne; [done|]. intros ->. apply Hfresh. by left.
    + intros t' [->|Hin]%elem_of_cons; [rewrite lookup_insert_eq; by exists []|].
      rewrite lookup_insert_ne; [by apply Ho|]. intros ->. apply Hfresh. by right.
  - case_decide as Hin.
    + exists log. rewrite Hs, app_nil_r. apply inv_end; [done..|]. apply same_rows_commit. intros ws' Hws'.
      destruct (Ho _ Hin) as (l' & ? & ?). by simplify_eq.
    + assert (trx = t) as -> by (by destruct Ha as [Ha|[[= ->]|?]]).
      exists (log ++ [mkCommit i (sq_tables (db w)) l]). rewrite Hs. eapply inv_commit; [exact Hi|exact Hph|exact Hl|exact Hk].
  - case_decide as Hin.
    + exists log. rewrite Hs, app_nil_r. by apply inv_end.
    + exists log. assert (trx = t) as -> by (by destruct Ha as [Ha|[?|[= ->]]]). rewrite Hs.
      eapply inv_set; [exact Hi|by rewrite Hph|done|by intros x ?%elem_of_nil| |done|by intros x].
      rewrite Hph. intros x Hx _. cbn. rewrite lookup_delete_ne; [done|]. intros <-. apply Hx. by left.
  - destruct Ha as [(t1 & Ht1 & Hc)|[?|?]]; [|done..]. destruct Hs as (t2 & l2 & Ht2 & Hl2 & _ & Hs).
    rewrite Ht1 in Ht2. injection Ht2 as <-. rewrite Ht1.
    destruct (is_write calls); [|rewrite andb_false_r; apply Hq; by destruct Hs as [-> _]].
    destruct Hs as (_ & -> & _). exists log. rewrite andb_true_r.
    replace (bool_decide (Some t1 = Some t)) with (bool_decide (t1 = t)) by (apply bool_decide_ext; naive_solver).
    apply inv_write; [done..|]. destruct Hc as [[? Hc]|[= ->]]; auto.
Qed.

(** A command that succeeds. *)
Lemma inv_step_ok rows0 ok w w' ph log i c v :
  inv rows0 ok (db w) ph log → allowed (ph i) c → step c w = (w', Ok v) →
  ∃ log', inv rows0 ok (db w') (set_phase ph i (next (ph i) c (Ok v))) log'.
Proof.
  intros Hi Ha Hst. destruct (ph i) as [|t own ws| | |] eqn:Hph; [|rewrite <- Hph in Ha |- *; by eapply inv_step_during|done|done|].
  2: { pose proof (inv_good _ _ _ _ _ Hi i) as Hg. by rewrite Hph in Hg. }
  apply step_ok in Hst. exists log. assert (c = CTrxBegin ∨ c ≠ CTrxBegin) as [->|Hc] by (destruct c; auto).
  - destruct Hst as (t & Hn & -> & ->). cbn [next]. eapply inv_begin; [exact Hi|by rewrite Hph|done|done| |].
    + intros x ->%list_elem_of_singleton. by right.
    + cbn. split; [apply NoDup_singleton|]. split; [|by intros t' ?%elem_of_nil]. rewrite lookup_insert_eq. by exists [].
  - replace (next Before c (Ok v)) with (ph i) by (rewrite Hph; by destruct c).
    apply (inv_idle rows0 ok (db w)); [done| |by rewrite Hph].
    destruct c; cbn in Ha, Hst; try done; try (by rewrite Hst). { by destruct Hst as [-> _]. } destruct Hst as [Hn ->].
    split_and!; [by apply insert_subseteq|done..].
Qed.
End steps.

(** ** What a job has written *)

Definition writes_of (t : Z) (tr : list (cmd * result val)) : list (string * list kcall) :=
  concat (map (λ cr, written t cr.1 cr.2) tr).

(** What a phase says of what the job has sent. *)
Definition told (ph : phase) (tr : list (cmd * result val)) : Prop :=
  match ph with
  | Before => ∀ t, writes_of t tr = []
  | During t _ ws => (CTrxBegin, Ok (VNum t)) ∈ tr ∧ ws = writes_of t tr
  | Done ws => ∃ t v, (CTrxBegin, Ok (VNum t)) ∈ tr ∧ (CTrxCommit t, Ok v) ∈ tr ∧ ws = writes_of t tr
  | _ => True
  end.

Lemma writes_of_snoc t tr c r : writes_of t (tr ++ [(c, r)]) = writes_of t tr ++ written t c r.
Proof. unfold writes_of. rewrite map_app, concat_app. cbn. by rewrite app_nil_r. Qed.

Lemma told_next ph tr c r : allowed ph c → told ph tr → told (next ph c r) (tr ++ [(c, r)]).
Proof.
  destruct ph as [|t own ws| | |]; cbn [told allowed next]; try done.
  - intros Ha Hb. assert (∀ t, writes_of t (tr ++ [(c, r)]) = []) as Hn.
    { intros t. rewrite writes_of_snoc, Hb. by destruct c. }
    destruct c; try exact Hn. destruct r as [[]|]; try exact Hn. cbn. split; [|by rewrite Hn].
    apply elem_of_app. right. by left.
  - intros Ha [Hb ->]. assert ((CTrxBegin, Ok (VNum t)) ∈ tr ++ [(c, r)]) as Hb' by (apply elem_of_app; by left).
    assert (∀ own', told (During t own' (writes_of t tr ++ written t c r)) (tr ++ [(c, r)])) as Hw.
    { intros own'. split; [done|]. by rewrite writes_of_snoc. }
    destruct c; try apply Hw; cbn.
    + destruct r as [[]|]; try apply Hw. case_decide; [done|apply Hw].
    + destruct r as [v|]; [|apply Hw]. case_decide; [apply Hw|]. destruct Ha as [Ha|[[= ->]|?]]; [done| |done].
      exists t, v. split_and!; [done|apply elem_of_app; right; by left|]. by rewrite writes_of_snoc, app_nil_r.
    + case_decide; [apply Hw|done].
Qed.

(** ** Runs *)

Section runs.
Context {E : Type} `{SE : SqlEngine E}.
Implicit Types w : world E.

Definition no_failure (tr : list event) : Prop := Forall (λ ev, ∃ v, ev.2.2 = Ok v) tr.

Lemma of_job_snoc i tr j cr : of_job i (tr ++ [(j, cr)]) = of_job i tr ++ if decide (i = j) then [cr] else [].
Proof.
  unfold of_job. rewrite List.filter_app, map_app. f_equal. cbn.
  destruct (decide (i = j)) as [->|Hne]; [by rewrite bool_decide_eq_true_2|]. by rewrite bool_decide_eq_false_2 by congruence.
Qed.

Lemma phase_snoc i tr j c r :
  phase_of (of_job i (tr ++ [(j, (c, r))])) = set_phase (λ i, phase_of (of_job i tr)) j (next (phase_of (of_job j tr)) c r) i.
Proof.
  rewrite of_job_snoc. unfold set_phase, phase_of, after. case_decide; [|by rewrite app_nil_r]. subst. by rewrite fold_left_app.
Qed.

(** What holds of the jobs: each keeps to the protocol from the phase it is in. *)
Definition keeping (ps : list (prog unit)) (tr : list event) : Prop :=
  ∀ i, told (phase_of (of_job i tr)) (of_job i tr) ∧ ∀ p, ps !! i = Some p → protocol p (phase_of (of_job i tr)) outcome.

Lemma jstep_inv rows0 ps w ps' w' tr ev log :
  keeping ps tr → inv rows0 (no_failure tr) (db w) (λ i, phase_of (of_job i tr)) log →
  jstep (ps, w) ev (ps', w') →
  keeping ps' (tr ++ [ev]) ∧
  ∃ log', inv rows0 (no_failure (tr ++ [ev])) (db w') (λ i, phase_of (of_job i (tr ++ [ev]))) log'.
Proof.
  intros Hk Hi Hs. inversion Hs as [? ? i c k ? r Hp Hst]; subst. clear Hs.
  destruct (Hk i) as [Ht Hpr]. destruct (Hpr _ Hp) as [Ha Hn]. split.
  - intros j. rewrite phase_snoc, of_job_snoc. unfold set_phase. destruct (Hk j) as [Htj Hpj]. case_decide as Hj.
    + subst j. split; [by apply told_next|]. rewrite list_lookup_insert_eq by by eapply lookup_lt_Some. intros p [= <-]. apply Hn.
    + rewrite app_nil_r, list_lookup_insert_ne by done. by split.
  - assert (∃ log', inv rows0 (no_failure (tr ++ [(i, (c, r))])) (db w')
              (set_phase (λ i, phase_of (of_job i tr)) i (next (phase_of (of_job i tr)) c r)) log') as [log' Hi'].
    { destruct r as [v|e].
      - eapply inv_step_ok in Hi as [log' Hi]; [|exact Ha|exact Hst]. exists log'. eapply inv_mono; [|exact Hi].
        by intros [? _]%Forall_app.
      - exists log. eapply inv_mono; [|by eapply (inv_step_err rows0 (no_failure tr))].
        intros [_ [[v [=]] _]%Forall_cons]%Forall_app. }
    exists log'. eapply inv_ext; [|exact Hi']. intros j. apply phase_snoc.
Qed.

Lemma jsteps_inv rows0 s s' tr :
  jsteps s tr s' → keeping s.1 [] → inv rows0 (no_failure []) (db s.2) (λ _, Before) [] →
  keeping s'.1 tr ∧ ∃ log, inv rows0 (no_failure tr) (db s'.2) (λ i, phase_of (of_job i tr)) log.
Proof.
  induction 1 as [|s1 [ps2 w2] [ps3 w3] tr ev Hss IH Hs]; [by eauto|]. intros H1 H2. destruct (IH H1 H2) as [Hk [log Hi]].
  by eapply jstep_inv.
Qed.

Context {CFG : Config} {LC : LiskCrypto} {LT : LiskTransactions} {LO : Locale} {LQ : LiskQ}.

(** C4. Jobs of indexBlock that take turns in any order: what has become visible,
    the accounts apart, is what some of them published, one after the other,
    each in its one commit all that it had written; if no command failed, all
    of it.  Those that have returned are among them, those that threw are not. *)
Theorem blocks_interleaved datas w tr ps w' :
  jsteps (map BlockchainIndex.indexBlock datas, w) tr (ps, w') →
  ∃ log : list commit,
    (∀ tbl, tbl ∉ own_tables → rows_of (sq_rows (db w')) tbl = rows_of (published (sq_rows (db w)) log) tbl) ∧
    NoDup (map c_job log) ∧
    (∀ e, e ∈ log → ∃ t v, (CTrxBegin, Ok (VNum t)) ∈ of_job (c_job e) tr ∧ (CTrxCommit t, Ok v) ∈ of_job (c_job e) tr ∧
       c_writes e `suffix_of` writes_of t (of_job (c_job e) tr) ∧
       (no_failure tr → c_writes e = writes_of t (of_job (c_job e) tr))) ∧
    (∀ i, ps !! i = Some (Ret tt) → i ∈ map c_job log) ∧
    (∀ i e, ps !! i = Some (Throw e) → i ∉ map c_job log).
Proof.
  intros Hs. destruct (jsteps_inv (sq_rows (db w)) _ _ _ Hs) as [Hk [log [H1 H2 H3 H4 H5 H6]]].
  { intros i. split; [by intros t|]. intros p Hp. cbn in Hp. rewrite list_lookup_fmap in Hp.
    destruct (datas !! i) as [d|]; [|done]. injection Hp as <-. apply protocol_indexBlock. }
  { split; try done; try (by constructor); by intros *; intros ?%elem_of_nil. }
  exists log. split; [exact H6|]. split; [exact H3|]. split; [|split].
  - intros e (ws & Hws & Hsu & Heq)%H4. destruct (Hk (c_job e)) as [Ht _]. rewrite Hws in Ht. destruct Ht as (t & v & Hb & Hc & ->).
    exists t, v. done.
  - intros i Hp. destruct (Hk i) as [_ Ho]. specialize (Ho _ Hp). specialize (H2 i). cbn in Ho.
    destruct (phase_of (of_job i tr)) as [| |ws| |] eqn:Ep; try done. by eapply H5.
  - intros i e Hp Hin. destruct (Hk i) as [_ Ho]. specialize (Ho _ Hp). cbn in Ho.
    apply list_elem_of_In, in_map_iff in Hin as (x & Hx & Hin%list_elem_of_In). destruct (H4 x Hin) as (ws & Hws & _).
    rewrite Hx in Hws. by rewrite Hws in Ho.
Qed.
End runs.

(** ** Two jobs, turn by turn *)

Import Fixtures.

Definition block_of (id : string) (height : Z) (generator : string) (txs : list val) : val :=
  VObj [("id", VStr id); ("height", VNum height); ("timestamp", VNum (1000 + 10 * height)); ("generatorAddress", VStr generator);
        ("isFinal", VBool false); ("assets", VArr []); ("transactions", VArr txs)].

Definition two_jobs : list val :=
  [VObj [("block", block_of "b2" 2 "lskbb" [stake_tx])]; VObj [("block", block_of "b3" 3 "lskcc" [])]].

(** A worker that has indexed a block before. *)
Definition warm : world mem := (run (BlockchainIndex.indexBlock index_job) worker).1.

Definition taking (turns : list nat) : list event * system :=
  take_turns turns (map BlockchainIndex.indexBlock two_jobs, warm).
Definition one_then_the_other : list event * system := taking (repeat 0%nat 100 ++ repeat 1%nat 100).
(** The second runs while the first is between reading a total and writing it. *)
Definition two_at_once : list event * system := taking (repeat 0%nat 78 ++ repeat 1%nat 100 ++ repeat 0%nat 100).

Definition stored (key : string) (s : system) : list row :=
  List.filter (λ r, bool_decide (("key", VStr key) ∈ r)) (rows_of (sq_rows (db s.2)) "key_value_store").
Definition total_of (n : string) : list row :=
  [[("key", VStr "total_locked_0000000000000000"); ("value", VStr n); ("type", VStr "bigint")]].

(** Each block locks 30, as the one before them did: of the two that are
    indexed at once, the total has lost one. *)
Lemma total_lost_at_once :
  one_then_the_other.2.1 = [Ret tt; Ret tt] ∧
  stored "total_locked_0000000000000000" one_then_the_other.2 = total_of "90" ∧
  two_at_once.2.1 = [Ret tt; Ret tt] ∧
  stored "total_locked_0000000000000000" two_at_once.2 = total_of "60".
Proof. split_and!; vm_compute; reflexivity. Qed.

Lemma no_failure_dec (tr : list event) : forallb (λ ev, match ev.2.2 with Ok _ => true | Err _ => false end) tr = true → no_failure tr.
Proof.
  rewrite forallb_forall. intros H. apply Forall_forall. intros ev Hin%list_elem_of_In%H. destruct (ev.2.2) as [v|]; [by exists v|done].
Qed.

Lemma blocks_interleaved_witness :
  two_at_once.2.1 = [Ret tt; Ret tt] ∧ no_failure two_at_once.1 ∧
  ∃ log : list commit,
    (∀ tbl, tbl ∉ own_tables →
       rows_of (sq_rows (db two_at_once.2.2)) tbl = rows_of (published (sq_rows (db warm)) log) tbl) ∧
    0%nat ∈ map c_job log ∧ 1%nat ∈ map c_job log.
Proof.
  split; [vm_compute; reflexivity|]. split.
  { apply no_failure_dec. vm_compute. reflexivity. }
  assert (jsteps (map BlockchainIndex.indexBlock two_jobs, warm) two_at_once.1 (two_at_once.2.1, two_at_once.2.2)) as Hs.
  { rewrite <- surjective_pairing. apply take_turns_steps. }
  destruct (blocks_interleaved two_jobs warm two_at_once.1 two_at_once.2.1 two_at_once.2.2 Hs) as (log & Hr & _ & _ & Hin & _).
  exists log. split; [exact Hr|]. split; apply Hin; vm_compute; reflexivity.
Defined.
