(* ===== verification/MysqlThms.v ===== *)
(** * What the access layer guarantees

    Theorems on framework/src/mysql.js: the row a value is stored as, the
    atomicity of an operation that runs in its own transaction, and what a
    query can see. *)
From S2P Require Export Atomic.
Open Scope string_scope.
Open Scope Z_scope.
Open Scope list_scope.

(** ** Rows *)

Section rows.
Implicit Types (o : list (string * val)) (sch : list (string * column_def)).

Lemma mapColumn_get o acc c acc' k :
  Mysql.mapColumn o acc c = Ok acc' → k ≠ c.1 → oget acc' k = oget acc k.
Proof.
  unfold Mysql.mapColumn. destruct (oget o c.1); [|by intros [= <-]].
  destruct (Mysql.cast v (col_type c.2)); simpl; [|done]. intros [= <-] Hne. by rewrite oget_oset_ne.
Qed.

Lemma result_fold_cons {A S} (f : S → A → result S) s x l s' :
  Mysql.result_fold f s (x :: l) = Ok s' → ∃ s1, f s x = Ok s1 ∧ Mysql.result_fold f s1 l = Ok s'.
Proof. simpl. destruct (f s x); simpl; [by eauto|done]. Qed.

Lemma mapColumns_get o sch acc acc' k :
  Mysql.result_fold (Mysql.mapColumn o) acc sch = Ok acc' → k ∉ sch.*1 → oget acc' k = oget acc k.
Proof.
  revert acc. induction sch as [|c sch IH]; intros acc; [by intros [= <-]|].
  intros (s1 & H1 & H2)%result_fold_cons. csimpl. rewrite not_elem_of_cons. intros [Hne Hk].
  rewrite (IH s1 H2 Hk). by eapply mapColumn_get.
Qed.

Lemma mapColumns_def o sch acc acc' k d :
  NoDup sch.*1 → Mysql.result_fold (Mysql.mapColumn o) acc sch = Ok acc' → (k, d) ∈ sch → oget acc k = None →
  match oget o k with
  | Some v => ∃ v', Mysql.cast v (col_type d) = Ok v' ∧ oget acc' k = Some (Mysql.getValue v')
  | None => oget acc' k = None
  end.
Proof.
  revert acc. induction sch as [|c sch IH]; intros acc; csimpl; [by intros _ _ ?%elem_of_nil|].
  rewrite NoDup_cons. intros [Hc Hnd] (s1 & H1 & H2)%result_fold_cons Hin Hn.
  apply elem_of_cons in Hin as [<-|Hin].
  - rewrite (mapColumns_get _ _ _ _ _ H2) by done. revert H1. unfold Mysql.mapColumn. simpl.
    destruct (oget o k) as [v|]; [|by intros [= <-]].
    destruct (Mysql.cast v (col_type d)) as [v'|]; simpl; [|done]. intros [= <-].
    exists v'. by rewrite oget_oset_eq.
  - eapply IH; [done..|]. rewrite (mapColumn_get _ _ _ _ _ H1); [done|]. intros ->.
    apply Hc, list_elem_of_fmap. by exists (c.1, d).
Qed.
End rows.

(** What [mapRowsBySchema] may leave in a row: no [undefined], no [NaN]. *)
Definition storable (v : val) : Prop := v ≠ VUndef ∧ is_nan v = false.

Lemma getValue_storable v : storable (Mysql.getValue v).
Proof.
  unfold Mysql.getValue. destruct v as [| |b|z|f|z|s|l|o]; simpl; try (by split).
  destruct f; simpl; by split.
Qed.

(** The row stored for an object has exactly the columns of the schema that
    the object has as properties; each holds the property cast to the type of
    the column, with null for undefined and NaN; nothing else is stored. *)
Theorem mapRow_columns sch o r :
  NoDup sch.*1 → Mysql.mapRow sch (VObj o) = Ok r →
  ∀ k, match list_to_map (M := gmap string column_def) sch !! k, oget o k with
       | Some d, Some v => ∃ v', Mysql.cast v (col_type d) = Ok v' ∧
                                 oget r k = Some (Mysql.getValue v') ∧ storable (Mysql.getValue v')
       | _, _ => oget r k = None
       end.
Proof.
  intros Hnd Hr k. simpl in Hr. destruct (list_to_map sch !! k) as [d|] eqn:Ed.
  - apply elem_of_list_to_map_2 in Ed.
    pose proof (mapColumns_def _ _ _ _ _ _ Hnd Hr Ed eq_refl) as H. destruct (oget o k); [|done].
    destruct H as (v' & ? & ?). exists v'. split_and!; [done..|]. apply getValue_storable.
  - apply not_elem_of_list_to_map in Ed. by rewrite (mapColumns_get _ _ _ _ _ Hr Ed).
Qed.

(** ** Operations in a transaction of their own *)

Section ops.
Context {E : Type} `{SE : SqlEngine E}.
Implicit Types w : world E.

(** No commit, and no way to one. *)
Definition no_commit (c : cmd) : Prop := match c with CTrxCommit _ => False | _ => True end.

Lemma no_commit_rows c w w' r : no_commit c → step c w = (w', r) → sq_rows (db w') = sq_rows (db w).
Proof.
  intros Hc Hs. destruct r as [v|e]; [|by apply step_err in Hs as (_ & ? & _)].
  apply step_ok in Hs. destruct c; try done; simpl in Hs; try (by rewrite Hs).
  - by destruct Hs as [-> _].
  - by destruct Hs as [_ ->].
  - by destruct Hs as (t & _ & _ & ->).
  - destruct Hs as (t & ws & _ & _ & _ & Hs). destruct (is_write calls); [|by destruct Hs as [-> _]].
    by destruct Hs as (_ & -> & _).
Qed.

Lemma no_commit_run {A} (p : prog A) w w' r :
  pall no_commit p → run p w = (w', r) → sq_rows (db w') = sq_rows (db w).
Proof.
  intros Hp Hr. eapply (pall_run no_commit (λ w', sq_rows (db w') = sq_rows (db w))); [|done..].
  intros c w1 w2 r1 Hi Hc Hs. rewrite <- Hi. by eapply no_commit_rows.
Qed.

(** Statements create no table. *)
Definition no_create (c : cmd) : Prop := match c with CCreateTable _ _ => False | _ => True end.

Lemma no_create_run {A} (p : prog A) w w' r :
  pall no_create p → run p w = (w', r) → sq_tables (db w') = sq_tables (db w).
Proof.
  intros Hp Hr. eapply (pall_run no_create (λ w', sq_tables (db w') = sq_tables (db w))); [|done..].
  intros c w1 w2 r1 Hi Hc Hs. rewrite <- Hi.
  destruct r1 as [v|e]; [|by apply step_err in Hs as (? & _ & _)].
  apply step_ok in Hs. destruct c; try done; simpl in Hs; try (by rewrite Hs).
  - by destruct Hs as [-> _].
  - by destruct Hs as (t & _ & _ & ->).
  - destruct Hs as (t & ws & _ & _ & _ & Hs). destruct (is_write calls); [|by destruct Hs as [-> _]].
    by destruct Hs as (_ & -> & _).
Qed.

(** [closing]: on success what the queries wrote is committed; on failure nothing is. *)
Lemma run_closing {A} t (p : prog A) w w' r :
  pall no_commit p → run (Mysql.closing t p) w = (w', r) →
  match r with
  | Ok a => ∃ w1, run p w = (w1, Ok a) ∧ sq_rows (db w') = view (db w1) t ∧
                  sq_pending (db w') = delete t (sq_pending (db w1)) ∧ sq_tables (db w') = sq_tables (db w1)
  | Err _ => sq_rows (db w') = sq_rows (db w)
  end.
Proof.
  intros Hp. unfold Mysql.closing, Mysql.commitDbTransaction, Mysql.rollbackDbTransaction.
  rewrite run_catch, run_bind. destruct (run p w) as [w1 o] eqn:Ep.
  pose proof (no_commit_run p w w1 o Hp Ep) as H1.
  assert (Hend : ∀ e w2, sq_rows (db w2) = sq_rows (db w) →
            run (_ ← call (CTrxRollback t); Throw e : prog A) w2 = (w', r) →
            (∃ e', r = Err e') ∧ sq_rows (db w') = sq_rows (db w)).
  { intros e w2 H2. rewrite run_bind, run_call. destruct (step (CTrxRollback t) w2) as [w3 r3] eqn:Er.
    apply no_commit_rows in Er; [|done]. rewrite H2 in Er. destruct r3; intros [= <- <-]; by eauto. }
  destruct o as [a|e]; [|intros Hr; by destruct (Hend e w1 H1 Hr) as [[e' ->] ?]].
  rewrite run_bind, run_call. destruct (step (CTrxCommit t) w1) as [w2 [v|e]] eqn:Ec; simpl.
  - intros [= <- <-]. apply step_ok in Ec. simpl in Ec. exists w1. by rewrite Ec.
  - intros Hr. apply step_err in Ec as (_ & Ec & _). rewrite H1 in Ec.
    by destruct (Hend e w2 Ec Hr) as [[e' ->] ?].
Qed.

(** The beginning of a transaction of the operation's own. *)
Lemma run_start v w w1 t :
  run (Mysql.startDbTransaction v) w = (w1, Ok t) →
  sq_pending (db w) !! t = None ∧
  db w1 = mkSql (sq_tables (db w)) (sq_rows (db w)) (<[t := []]> (sq_pending (db w))).
Proof.
  unfold Mysql.startDbTransaction. rewrite run_bind, run_call.
  destruct (step CTrxBegin w) as [w2 [a|e]] eqn:Es; [|done].
  apply step_ok in Es as (t' & Hn & -> & Hd). by intros [= <- <-].
Qed.

(** ** Failures *)

(** A failing run leaves the committed rows as they are. *)
Definition fails_clean {A} (p : prog A) : Prop :=
  ∀ w w' e, run p w = (w', Err e) → sq_rows (db w') = sq_rows (db w).

Lemma clean_no_commit {A} (p : prog A) : pall no_commit p → fails_clean p.
Proof. intros Hp w w' e. by apply no_commit_run. Qed.
Lemma clean_bind {A B} (p : prog A) (f : A → prog B) :
  pall no_commit p → (∀ a, fails_clean (f a)) → fails_clean (p ≫= f).
Proof.
  intros Hp Hf w w' e. rewrite run_bind. destruct (run p w) as [w1 [a|e1]] eqn:Ep;
    apply (no_commit_run _ _ _ _ Hp) in Ep; [|by intros [= <- <-]].
  intros Hr. rewrite <- Ep. by eapply Hf.
Qed.
Lemma clean_closing {A} t (p : prog A) : pall no_commit p → fails_clean (Mysql.closing t p).
Proof. intros Hp w w' e Hr. by apply run_closing in Hr. Qed.

Lemma pall_defaultTrx trx : pall no_commit (Mysql.defaultTrx trx).
Proof. unfold Mysql.defaultTrx, Mysql.startDbTransaction. pall. Qed.
Lemma pall_warnNoLimit n ps q : pall no_commit (Mysql.warnNoLimit n ps q).
Proof. unfold Mysql.warnNoLimit. pall. Qed.
#[local] Hint Resolve pall_defaultTrx pall_warnNoLimit : pall.

(** The operations of a table. *)
Inductive operation (tb : table) : prog val → Prop :=
  | op_upsert rows trx : operation tb (Mysql.upsert tb rows trx)
  | op_find params columns : operation tb (Mysql.find tb params columns)
  | op_deleteByParams params trx : operation tb (Mysql.deleteByParams tb params trx)
  | op_deleteByPrimaryKey ids trx : operation tb (Mysql.deleteByPrimaryKey tb ids trx)
  | op_update params trx : operation tb (Mysql.update tb params trx)
  | op_increment where_ by_ trx : operation tb (Mysql.increment tb where_ by_ trx)
  | op_decrement where_ by_ trx : operation tb (Mysql.decrement tb where_ by_ trx).

Ltac clean_step :=
  match goal with
  | |- ∀ _, _ => intro
  | |- fails_clean (let _ := _ in _) => cbv zeta
  | |- fails_clean (match ?x with _ => _ end) => destruct x
  | |- fails_clean (mbind _ _) => apply clean_bind; [|intro]
  | |- fails_clean (Mysql.closing _ _) => apply clean_closing
  | |- fails_clean _ => apply clean_no_commit
  | |- pall _ (pmap _ _) => apply pall_pmap; intro
  | |- pall _ _ => pall_step
  end.

Lemma fails_clean_operation tb op : operation tb op → fails_clean op.
Proof.
  destruct 1; unfold Mysql.upsert, Mysql.find, Mysql.deleteByParams, Mysql.deleteByPrimaryKey, Mysql.update,
    Mysql.increment, Mysql.decrement, Mysql.startDbTransaction; repeat clean_step.
Qed.


(** C5. An upsert without a transaction is atomic: it returns when all its
    rows, cast by the schema, are committed, each replacing the row with its
    key or added after the others; when it throws no row has changed. *)
Theorem upsert_commits_all_rows tb rows w w' r :
  run (Mysql.upsert tb rows None) w = (w', r) →
  match r with
  | Ok _ => ∃ t rs,
      Mysql.mapRowsBySchema (arr_of (Mysql.wrap_array rows)) (schema (t_schema tb)) = Ok rs ∧
      sq_rows (db w') =
        fold_left (apply_write (sq_tables (db w))) (map (insert_call tb t) rs) (sq_rows (db w)) ∧
      sq_pending (db w') = sq_pending (db w)
  | Err _ => sq_rows (db w') = sq_rows (db w)
  end.
Proof.
  intros Hr. destruct r as [v|e]; [|by eapply fails_clean_operation; [apply op_upsert|]].
  unfold Mysql.upsert, Mysql.defaultTrx in Hr. inv_run. simplify_eq.
  apply run_start in Hr1 as [Hn Hd]. apply run_closing in Hr; [|].
  2:{ apply pall_bind; [apply pall_pmap; intros; by apply pall_call|intros; apply pall_ret]. }
  destruct Hr as (w2 & Hb & Hv & Hp & _). inv_run.
  match goal with H : run (pmap _ _) w1 = _ |- _ => rename H into Hi end.
  assert (sq_tables (db w0) = sq_tables (db w1)) as Htb.
  { eapply no_create_run; [|exact Hi]. apply pall_pmap. intros. by apply pall_call. }
  apply run_inserts in Hi as (_ & Hrows & ws & Hws & Hp'); [|rewrite Hd; simpl; rewrite lookup_insert_eq; by eexists].
  rewrite Hd in *. simpl in *. rewrite lookup_insert_eq in Hws. simplify_eq.
  eexists a0, a. split_and!; [done| |].
  - rewrite Hv. unfold view. by rewrite Hp', lookup_insert_eq, Htb, Hrows.
  - rewrite Hp, Hp', insert_insert_eq, delete_insert_id; [done|done].
Qed.

(** A query that returns: its answer, and the database as it was. *)
Lemma run_find tb params columns w w' v :
  run (Mysql.find tb params columns) w = (w', Ok v) →
  ∃ t query,
    Mysql.queryBuilder (props params)
      (if truthy columns then columns else VArr [primaryKey (t_schema tb)]) t = Ok query ∧
    v = select (default [] (sq_tables (db w) !! t_name tb)) query (rows_of (sq_rows (db w)) (t_name tb)) ∧
    sq_rows (db w') = sq_rows (db w) ∧ sq_pending (db w') = sq_pending (db w).
Proof.
  unfold Mysql.find. intros Hr. apply run_bind_Ok in Hr as (w1 & t & Hs & Hr). cbv zeta in Hr.
  apply run_start in Hs as [Hn Hd].
  apply run_bind_Ok in Hr as (w2 & query & Hq & Hr). apply run_lift_ok in Hq as [-> Hq].
  apply run_bind_Ok in Hr as (w3 & u & Hw & Hr). apply run_bind_Ok in Hr as (w4 & sq & Hsql & Hr).
  assert (Hw3 : db w3 = db w1).
  { unfold Mysql.warnNoLimit in Hw.
    destruct (truthy (Mysql.param (props params) "limit")); [by apply run_ret_ok in Hw as [-> _]|].
    apply run_bind_Ok in Hw as (w2 & x & Hc & Hw). apply run_ret_ok in Hw as [-> _].
    rewrite run_call in Hc. by apply step_ok in Hc. }
  rewrite run_call in Hsql. apply step_ok in Hsql. simpl in Hsql.
  apply run_closing in Hr; [|by apply pall_call]. destruct Hr as (w5 & Hk & Hv & Hp & _).
  apply call_knex_ok in Hk as (t' & ws & Ht' & Hpend & _ & Hres).
  rewrite (trx_of_queryBuilder _ _ _ _ Hq) in Ht'. simplify_eq.
  rewrite (reads_queryBuilder _ _ _ _ Hq) in Hres. destruct Hres as [H5 ->].
  rewrite H5, Hsql, Hw3, Hd in *. simpl in *. rewrite lookup_insert_eq in Hpend. simplify_eq.
  exists t', query. unfold view in *. simpl in *. rewrite lookup_insert_eq in *. simpl in *.
  split_and!; [done..|]. by rewrite Hp, delete_insert_id.
Qed.

(** C7. A query sees the committed rows of its table and nothing else: not
    what open transactions have written, the transaction its caller is in
    included.  It changes no row and leaves no transaction open. *)
Theorem find_reads_committed tb params columns w w' v :
  run (Mysql.find tb params columns) w = (w', Ok v) →
  ∃ t query,
    Mysql.queryBuilder (props params)
      (if truthy columns then columns else VArr [primaryKey (t_schema tb)]) t = Ok query ∧
    v = select (default [] (sq_tables (db w) !! t_name tb)) query (rows_of (sq_rows (db w)) (t_name tb)) ∧
    sq_rows (db w') = sq_rows (db w) ∧ sq_pending (db w') = sq_pending (db w).
Proof. apply run_find. Qed.
End ops.
