(* ===== verification/HelperThms.v ===== *)
(** * What the helpers guarantee

    Theorems on the key-value store's encoding, the JSON helpers, the array
    and range helpers, the pagination of remote calls and the two forms of an
    address. *)
From S2P Require Export Numerals MysqlThms.
Open Scope string_scope.
Open Scope Z_scope.
Open Scope list_scope.

(** ** database/mysqlKVStore.js *)

(** The values a total or a height is stored as; a double that is no integer is left out. *)
Definition kv_value (v : val) : Prop :=
  match v with
  | VUndef | VBool _ | VBig _ | VStr _ => True
  | VNum z => Z.abs z ≤ max_exact
  | _ => False
  end.

(** What comes back: every boolean is read as [true], the text of [false] being truthy. *)
Definition kv_read (v : val) : val := match v with VBool _ => VBool true | _ => v end.

(** C39. A value set in the key-value store is read back as it was, with its
    type: BigInts of any size, integers up to 2^53, strings and undefined; of
    the booleans only true (false is read back as true). *)
Theorem kv_store_roundtrip key v :
  kv_value v →
  ∃ row, Mysql.mapRow (schema Schemas.kvStore) (KvStore.kv_row key v) = Ok row ∧
         KvStore.formatValue (column row "value") (column row "type") = Ok (kv_read v).
Proof.
  intros Hv.
  exists [("key", VStr key); ("value", match v with VUndef => VNull | _ => VStr (to_string v) end);
          ("type", VStr (typeof v))].
  destruct v as [| |b|z|f|z|s|l|o]; try done; (split; [reflexivity|]).
  - by destruct b.
  - exact (f_equal Ok (number_of_pretty z Hv)).
  - change (z' ← to_bigint (VStr (pretty z)); Ok (VBig z')) with
      (result_bind (to_bigint (VStr (pretty z))) (λ z', Ok (VBig z'))).
    unfold KvStore.formatValue. simpl. by rewrite bigint_of_pretty.
Qed.

(** ** utils/parser.js *)

(** A zero BigInt that is reached through arrays and objects but is no
    property itself. *)
Fixpoint zero_kept (v : val) : bool :=
  match v with
  | VBig z => z =? 0
  | VArr l => existsb zero_kept l
  | VObj o => existsb (λ kv, match kv.2 with
                             | VArr l => existsb zero_kept l
                             | VObj _ => zero_kept kv.2
                             | _ => false
                             end) o
  | _ => false
  end.

Lemma is_ok_result_list {A} (l : list (result A)) : is_ok (result_list l) = forallb is_ok l.
Proof.
  induction l as [|[a|e] l IH]; simpl; [done| |done]. rewrite <- IH. by destruct (result_list l).
Qed.

Lemma is_ok_stringify_arr l : is_ok (stringify (VArr l)) = forallb (λ v, is_ok (stringify v)) l.
Proof.
  simpl. transitivity (is_ok (result_list (map stringify l))); [by destruct (result_list _)|].
  rewrite is_ok_result_list. by induction l as [|v l IH]; simpl; [|rewrite IH].
Qed.

Lemma is_ok_stringify_obj o : is_ok (stringify (VObj o)) = forallb (λ kv, is_ok (stringify kv.2)) o.
Proof.
  simpl. match goal with |- is_ok (match result_list ?l with _ => _ end) = _ =>
    transitivity (is_ok (result_list l)); [by destruct (result_list l)|] end.
  rewrite is_ok_result_list. induction o as [|kv o IH]; simpl; [done|]. rewrite IH. f_equal.
  by destruct (stringify kv.2) as [[t|]|e].
Qed.

Lemma forallb_negb {A} (f : A → bool) l : negb (existsb f l) = forallb (λ x, negb (f x)) l.
Proof. induction l as [|x l IH]; simpl; [done|]. by rewrite negb_orb, IH. Qed.

Lemma forallb_map {A B} (f : B → bool) (g : A → B) l : forallb f (map g l) = forallb (λ x, f (g x)) l.
Proof. induction l as [|x l IH]; simpl; [done|]. by rewrite IH. Qed.

Lemma forallb_ext_Forall {A} (f g : A → bool) l : Forall (λ x, f x = g x) l → forallb f l = forallb g l.
Proof. induction 1 as [|x l Hx _ IH]; simpl; [done|]. by rewrite Hx, IH. Qed.

(** ParseToJSONCompatObj makes JSON.stringify succeed on every value, with
    one exception, exactly: a 0n that is an element of an array (or the value
    itself) stays a BigInt, on which JSON.stringify throws. *)
Theorem parseToJSONCompatObj_serialisable v :
  is_ok (json_stringify (Parser.parseToJSONCompatObj v)) = negb (zero_kept v).
Proof.
  transitivity (is_ok (stringify (Parser.parseToJSONCompatObj v))).
  { unfold json_stringify. by destruct (stringify _) as [[]|]. }
  induction v as [| |b|z|f|z|s|l IH|o IH] using val_nested_ind; try done.
  - by destruct f.
  - simpl. by destruct (z =? 0).
  - simpl Parser.parseToJSONCompatObj. rewrite is_ok_stringify_arr, forallb_map. cbn [zero_kept].
    rewrite forallb_negb. by apply forallb_ext_Forall.
  - simpl Parser.parseToJSONCompatObj. rewrite is_ok_stringify_obj, forallb_map. cbn [zero_kept].
    rewrite forallb_negb. apply forallb_ext_Forall. eapply Forall_impl; [exact IH|].
    intros [k v] Hv. simpl in *. destruct v as [| |b|z|f|z|s|l'|o']; done.
Qed.

(** ** utils/array.js *)

(** The values that are equal exactly when [===] says so. *)
Definition scalar (v : val) : Prop :=
  match v with VUndef | VNull | VBool _ | VNum _ | VBig _ | VStr _ => True | _ => False end.

Lemma same_elem_scalar i j v w : scalar v → scalar w → Arr.same_elem (i, v) (j, w) = bool_decide (v = w).
Proof.
  intros Hv Hw. unfold Arr.same_elem. cbn [fst snd].
  assert (isObject w = false) as -> by (by destruct w). rewrite andb_false_r, orb_false_r.
  destruct v, w; try done; simpl; apply eq_true_iff_eq; rewrite ?Z.eqb_eq, ?eqb_true_iff, ?bool_decide_eq_true;
    split; congruence.
Qed.

Definition firsts (l : list val) : list val :=
  map snd (List.filter (λ iv, bool_decide (find_index (λ v, bool_decide (v = iv.2)) l = Some iv.1)) (imap pair l)).

Lemma find_index_imap (f : nat * val → bool) (g : val → bool) l n :
  (∀ i v, v ∈ l → f (i, v) = g v) → find_index f (imap (λ i v, ((n + i)%nat, v)) l) = find_index g l.
Proof.
  revert n. induction l as [|v l IH]; intros n H; [done|]. simpl. rewrite H by (by left).
  destruct (g v); [done|]. f_equal. rewrite <- (IH (S n)); [|intros; apply H; by right].
  f_equal. apply imap_ext. intros i x _. simpl. f_equal. lia.
Qed.

Lemma elem_of_imap_pair i (v : val) l : (i, v) ∈ imap pair l → v ∈ l.
Proof.
  intros (j & x & [= -> ->] & Hj)%elem_of_lookup_imap. by eapply list_elem_of_lookup_2.
Qed.

Lemma dropDuplicates_firsts l : Forall scalar l → Arr.dropDuplicates l = firsts l.
Proof.
  intros Hl. rewrite Forall_forall in Hl. unfold Arr.dropDuplicates, firsts. f_equal.
  apply List.filter_ext_in. intros [j w] Hin%list_elem_of_In%elem_of_imap_pair.
  rewrite (find_index_imap _ (λ v, bool_decide (v = w)) l 0); [done|].
  intros i v Hv. by apply same_elem_scalar; apply Hl.
Qed.

Lemma find_index_app_l {A} (f : A → bool) l1 l2 :
  Exists (λ x, f x = true) l1 → find_index f (l1 ++ l2) = find_index f l1.
Proof.
  induction 1 as [x l Hx|x l _ IH]; simpl; [by rewrite Hx|]. destruct (f x); [done|]. by rewrite IH.
Qed.

Lemma find_index_app_r {A} (f : A → bool) l x :
  Forall (λ y, f y = false) l → f x = true → find_index f (l ++ [x]) = Some (length l).
Proof. induction 1 as [|y l Hy _ IH]; intros Hx; simpl; [by rewrite Hx|]. by rewrite Hy, IH. Qed.

Lemma firsts_snoc l x : firsts (l ++ [x]) = firsts l ++ (if decide (x ∈ l) then [] else [x]).
Proof.
  unfold firsts. rewrite imap_app, List.filter_app, map_app. f_equal.
  - f_equal. apply List.filter_ext_in. intros [j w] Hin%list_elem_of_In%elem_of_imap_pair.
    rewrite find_index_app_l; [done|]. apply Exists_exists. exists w. by rewrite bool_decide_eq_true.
  - simpl. rewrite Nat.add_0_r. destruct (decide (x ∈ l)) as [Hx|Hx].
    + rewrite find_index_app_l by (apply Exists_exists; exists x; by rewrite bool_decide_eq_true).
      rewrite bool_decide_eq_false_2; [done|]. intros (y & Hy & _)%find_index_Some.
      apply lookup_lt_Some in Hy. lia.
    + rewrite find_index_app_r; [by rewrite bool_decide_eq_true_2| |by apply bool_decide_eq_true].
      apply Forall_forall. intros y Hy. apply bool_decide_eq_false. by intros ->.
Qed.

(** DropDuplicates on strings, numbers and the like keeps the first
    occurrence of each element: nothing twice, nothing lost, in order. *)
Theorem dropDuplicates_spec l :
  Forall scalar l →
  NoDup (Arr.dropDuplicates l) ∧ (∀ x, x ∈ Arr.dropDuplicates l ↔ x ∈ l) ∧ Arr.dropDuplicates l `sublist_of` l.
Proof.
  intros Hl. rewrite dropDuplicates_firsts by done. clear Hl.
  induction l as [|x l (Hnd & Hin & Hsub)] using rev_ind; [split_and!; [constructor|done|constructor]|].
  rewrite firsts_snoc. split_and!.
  - apply NoDup_app. split_and!; [done| |by case_decide; [constructor|apply NoDup_singleton]].
    intros y Hy. rewrite Hin in Hy. case_decide as Hd; [by intros ?%elem_of_nil|].
    by intros ->%list_elem_of_singleton.
  - intros y. rewrite !elem_of_app, Hin, list_elem_of_singleton. case_decide; [|by rewrite list_elem_of_singleton].
    rewrite elem_of_nil. intuition congruence.
  - apply sublist_app; [done|]. case_decide; [apply sublist_nil_l|done].
Qed.

Lemma range_step1 start end_ :
  end_ ≠ 0 →
  Arr.range start (Some end_) 1 =
  if (end_ - start <? 0) || (2 ^ 32 <=? end_ - start) then Err (mkExn "RangeError" "Invalid array length")
  else Ok (map (λ index, start + Z.of_nat index * 1) (seq 0 (Z.to_nat (end_ - start)))).
Proof. intros He. destruct end_; [done|..]; unfold Arr.range; by rewrite Z.div_1_r. Qed.

(** Range(start, end), for an end that is not 0, is every integer from
    start up to end exactly once, and throws when end is before start (or the
    array would be too long). *)
Theorem range_spec start end_ :
  end_ ≠ 0 →
  if decide (0 ≤ end_ - start < 2 ^ 32)
  then ∃ l, Arr.range start (Some end_) 1 = Ok l ∧ NoDup l ∧ ∀ h, h ∈ l ↔ start ≤ h < end_
  else ∃ e, Arr.range start (Some end_) 1 = Err e.
Proof.
  intros He. rewrite range_step1 by done. case_decide as Hd.
  - rewrite (proj2 (Z.ltb_ge (end_ - start) 0)), (proj2 (Z.leb_gt (2 ^ 32) (end_ - start))) by lia.
    eexists. split; [done|]. split.
    + apply NoDup_fmap_2; [|apply NoDup_seq]. intros x y. lia.
    + intros h. rewrite list_elem_of_fmap. split.
      * intros (i & -> & Hi%elem_of_seq). lia.
      * intros Hh. exists (Z.to_nat (h - start)). rewrite elem_of_seq. lia.
  - destruct (Z.ltb_spec (end_ - start) 0); [by eexists|].
    destruct (Z.leb_spec (2 ^ 32) (end_ - start)); [by eexists|lia].
Qed.

(** ** utils/param.js *)

(** A bound of the range object: a number, and never [NaN]. *)
Definition range_bound (bound : val) (k : string) : Prop :=
  match oget (props bound) k with Some b => b ≠ VUndef ∧ is_nan b = false | None => True end.

(** The order of two given bounds. *)
Definition ordered (bound : val) : Prop :=
  match oget (props bound) "from", oget (props bound) "to" with
  | Some a, Some b => js_gt a b = false
  | _, _ => True
  end.

Lemma to_number_defined s : to_number (VStr s) ≠ VUndef.
Proof. simpl. unfold num_of_flt. repeat case_match; done. Qed.

(** A range parameter that is accepted becomes one more entry of
    propBetweens, with a lower or an upper bound or both, numbers in order and
    not NaN, under the name of the parameter; the parameter itself is gone and
    all others are kept. *)
Theorem normalizeRangeParam_range o property s params' :
  property ≠ "propBetweens" →
  oget o property = Some (VStr s) → str_includes ":" s = true →
  Param.normalizeRangeParam (VObj o) property = Ok params' →
  ∃ bound,
    field params' "propBetweens" = VArr (arr_of (field (VObj o) "propBetweens") ++ [bound]) ∧
    field bound "property" = VStr property ∧ range_bound bound "from" ∧ range_bound bound "to" ∧ ordered bound ∧
    (oget (props bound) "from" ≠ None ∨ oget (props bound) "to" ≠ None) ∧
    oget (props params') property = None ∧
    ∀ k, k ≠ property → k ≠ "propBetweens" → oget (props params') k = oget o k.
Proof.
  intros Hp Hs Hc. unfold Param.normalizeRangeParam.
  assert (field (VObj o) property = VStr s) as -> by (unfold field, prop; by rewrite Hs).
  rewrite Hc. cbv zeta. set (parts := split_char ":" s).
  set (fs := default "" (parts !! 0%nat)). set (ts := default "" (parts !! 1%nat)).
  pose proof (to_number_defined fs) as Hfd. pose proof (to_number_defined ts) as Htd.
  set (from := to_number (VStr fs)) in *. set (to := to_number (VStr ts)) in *.
  destruct (is_nan from || is_nan to) eqn:En; [done|]. apply orb_false_iff in En as [Ef Et].
  destruct (bool_decide (fs ≠ "") && bool_decide (ts ≠ "") && js_gt from to) eqn:Eo; [done|].
  match goal with |- context [VArr (?l ++ [VObj ?b])] => set (bound := b) end.
  intros [= <-]. exists (VObj bound).
  assert (Hobj : ∀ k v, oget (oset (odel o property) "propBetweens" v) k =
            if decide ("propBetweens" = k) then Some v else if decide (property = k) then None else oget o k).
  { intros k v. by rewrite oget_oset, oget_odel. }
  split_and!.
  - unfold field, prop. rewrite Hobj. by rewrite decide_True.
  - subst bound. by repeat case_bool_decide.
  - subst bound. unfold range_bound. by repeat case_bool_decide.
  - subst bound. unfold range_bound. by repeat case_bool_decide.
  - subst bound. unfold ordered. repeat case_bool_decide; done.
  - subst bound. repeat case_bool_decide; simpl; by (left + right).
  - simpl props. rewrite Hobj. by rewrite decide_False, decide_True.
  - intros k Hk1 Hk2. simpl props. rewrite Hobj. by rewrite !decide_False.
Qed.

(** ** utils/requestAll.js *)

Section paging.
Context {E : Type} {HE : Engine E} (w : world E).
(** A remote list [L], of which a call answers the part its limit and offset ask for. *)
Context (L : list val) (fn : list (string * val) → prog val).
Hypothesis fn_pages : ∀ ps limit offset,
  oget ps "limit" = Some (VNum limit) → oget ps "offset" = Some (VNum offset) →
  run (fn ps) w = (w, Ok (VArr (take (Z.to_nat limit) (drop (Z.to_nat offset) L)))).

Lemma run_page params limit offset :
  run (fn (RequestAll.page_params params limit offset)) w =
  (w, Ok (VArr (take (Z.to_nat limit) (drop (Z.to_nat offset) L)))).
Proof.
  apply fn_pages; unfold RequestAll.page_params; apply oget_ospread_Some; try done;
    repeat constructor; set_solver.
Qed.

Lemma run_pages n page lim N params :
  0 < lim → 0 ≤ page → N ≤ lim * (page + Z.of_nat n) → (n ≠ 0%nat → lim * (page + Z.of_nat n - 1) < N) →
  run (RequestAll.pages fn n page lim N params (VArr (take (Z.to_nat (Z.min N (lim * page))) L))) w =
  (w, Ok (VArr (take (Z.to_nat N) L))).
Proof.
  intros Hlim. revert page. induction n as [|n IH]; intros page Hpage Hhi Hlo; cbn [RequestAll.pages].
  - rewrite Z.add_0_r in Hhi. by rewrite Z.min_l by lia.
  - specialize (Hlo ltac:(done)). assert (lim * page < N) by nia. assert (0 ≤ lim * page) by nia.
    rewrite run_bind, run_page. cbv iota beta.
    rewrite (Z.min_r N (lim * page)) by lia. set (part := take _ (drop _ L)).
    destruct part as [|x part'] eqn:Ep; simpl.
    + assert (length L ≤ Z.to_nat (lim * page))%nat as Hl.
      { apply (f_equal length) in Ep. unfold part in Ep. rewrite length_take, length_drop in Ep. simpl in Ep. lia. }
      by rewrite !take_ge by lia.
    + rewrite <- Ep. unfold part.
      replace (take (Z.to_nat (lim * page)) L ++ take (Z.to_nat (Z.min lim (N - lim * page))) (drop (Z.to_nat (lim * page)) L))
        with (take (Z.to_nat (Z.min N (lim * (page + 1)))) L).
      * apply IH; lia.
      * rewrite take_take_drop. f_equal. lia.
Qed.

(** RequestAll is a complete download: with [lim] entries a page and at
    most [N] asked for, it returns the first [N] entries of the remote list
    in order, or one page when [N] is less than that, whatever the length of
    the list; the pages overlap nowhere and leave no gap. *)
Theorem requestAll_complete params lim N :
  0 < lim → 0 < N → field (VObj params) "limit" = VNum lim →
  run (RequestAll.requestAll fn params (Some N)) w = (w, Ok (VArr (take (Z.to_nat (Z.max lim N)) L))).
Proof.
  intros Hlim HN Hl. unfold RequestAll.requestAll. rewrite Hl.
  assert ((match N with 0 => 10 ^ 9 | _ => N end) = N) as -> by (by destruct N).
  assert ((match lim with 0 => 100 | _ => lim end) = lim) as -> by (by destruct lim).
  rewrite run_bind, run_page. rewrite drop_0. rewrite run_bind. cbn [lift prop run].
  change (run (lift (prop (VArr (take (Z.to_nat lim) L)) "error")) w) with (w, Ok VUndef : result val).
  cbv iota beta. simpl truthy. cbv iota.
  destruct (Z.ltb_spec lim N) as [H|H].
  - rewrite Z.max_r by lia.
    set (m := - (- N / lim)).
    assert (lim * (m - 1) < N ≤ lim * m) as Hm.
    { unfold m. pose proof (Z.div_mod (- N) lim ltac:(lia)). pose proof (Z.mod_pos_bound (- N) lim Hlim). nia. }
    assert (1 < m) by nia.
    replace (take (Z.to_nat lim) L) with (take (Z.to_nat (Z.min N (lim * 1))) L) by (do 2 f_equal; lia).
    apply run_pages; rewrite ?Z2Nat.id by lia; nia.
  - rewrite Z.max_l by lia. done.
Qed.
End paging.

(** ** utils/account.js *)

Section addresses.
Context {LC : LiskCrypto}.
(** @liskhq/lisk-cryptography: an address in Lisk32 form starts with lsk and decodes to its bytes. *)
Hypothesis lisk32_decodes : ∀ b a,
  Forall (λ x, 0 ≤ x < 256) b → lisk32_of_address b = Ok a →
  starts_with "lsk" a = true ∧ address_of_lisk32 a = Ok b.

Lemma hex_not_lsk b : Forall (λ x, 0 ≤ x < 256) b → starts_with "lsk" (hex_of_bytes b) = false.
Proof.
  intros Hb. destruct Hb as [|x b Hx _]; [done|].
  assert (0 ≤ x / 16 < 16) by (split; [apply Z.div_pos|apply Z.div_lt_upper_bound]; lia).
  assert (∀ n s, (n < 16)%nat → starts_with "lsk" (String (hex_digit n) s) = false) as Hd.
  { intros n s Hn. do 16 (destruct n as [|n]; [done|]). lia. }
  apply Hd. lia.
Qed.

(** The two forms of an address name the same bytes: a binary address in
    hexadecimal, converted to Lisk32, converts back to the same text, and a
    Lisk32 address is left alone. *)
Theorem address_forms_roundtrip b a :
  Forall (λ x, 0 ≤ x < 256) b → Account.getLisk32Address (hex_of_bytes b) = Ok a →
  Account.getHexAddress a = Ok (hex_of_bytes b) ∧ Account.getLisk32Address a = Ok a.
Proof.
  intros Hb. unfold Account.getLisk32Address at 1. rewrite hex_not_lsk by done.
  unfold Account.getLisk32AddressFromHexAddress, buffer_from_hex. simpl.
  rewrite bytes_of_hex_of_bytes by done. intros Ha. destruct (lisk32_decodes _ _ Hb Ha) as [Hs Hd].
  unfold Account.getHexAddress, Account.getLisk32Address. rewrite Hs, Hd. done.
Qed.
End addresses.
