(* ===== verification/ValidatorThms.v ===== *)
(** * What the validator cache guarantees

    Theorems on dataService/business/pos/validators.js and
    dataService/pos/validators.js: weights, order, ranks and statuses. *)
From S2P Require Export Discipline Fixtures.
Open Scope string_scope.
Open Scope Z_scope.
Open Scope list_scope.
Import Validators.

(** Splits the successful runs and results among the hypotheses. *)
Ltac inv_result :=
  repeat match goal with
  | H : mbind _ ?r = Ok _ |- _ => let E := fresh "Hok" in destruct r eqn:E; [|discriminate H];
      cbn [mbind result_mbind result_bind] in H
  | H : Ok _ = Ok _ |- _ => injection H as H; subst
  end.

Section weight.
Context {E : Type} {HE : Engine E}.
Implicit Types w : world E.

Lemma field_oset o k v k' :
  field (VObj (oset o k v)) k' = if decide (k = k') then v else field (VObj o) k'.
Proof. unfold field. simpl. rewrite oget_oset. by case_decide. Qed.

Lemma prop_field o k : prop (VObj o) k = Ok (field (VObj o) k).
Proof. done. Qed.

(** The weight of a validator: none when it is banned or punished,
    otherwise its total stake, but never more than ten times its own stake. *)
Theorem setValidatorWeight_weight o w w' v' :
  run (PosBusiness.setValidatorWeight (VObj o)) w = (w', Ok v') →
  ∃ x, field v' "validatorWeight" = VBig x ∧
    (x = 0 ∨ ∃ self total,
       to_bigint (field (VObj o) "selfStake") = Ok self ∧ to_bigint (field (VObj o) "totalStake") = Ok total ∧
       x = Z.min total (10 * self) ∧ field v' "totalStake" = VBig total) ∧
    (truthy (field (VObj o) "isBanned") = true → x = 0) ∧
    (truthy (field (VObj o) "isBanned") = false → field (VObj o) "reportMisbehaviorHeights" = VArr [] → 
     to_bigint (field (VObj o) "totalStake") = Ok x ∨
     ∃ self, to_bigint (field (VObj o) "selfStake") = Ok self ∧ x = 10 * self).
Proof.
  unfold PosBusiness.setValidatorWeight. intros Hr.
  apply run_bind_Ok in Hr as (w1 & isBanned & Hb & Hr). rewrite prop_field in Hb.
  apply run_lift_ok in Hb as [-> [= <-]].
  apply run_bind_Ok in Hr as (w2 & punished & Hp & Hr). destruct punished.
  { apply run_ret_ok in Hr as [-> ->]. exists 0. cbn [set_field]. rewrite field_oset. split_and!; [by rewrite decide_True|by left|done|].
    intros Hnb Hh. exfalso. rewrite Hnb in Hp. unfold PosBusiness.verifyIfPunished in Hp.
    rewrite prop_field, Hh in Hp.
    unfold array_method in Hp. inv_run; simplify_eq; cbn [pfind] in *; inv_run; by apply run_ret_ok in Hp as [_ ?]. }
  revert Hp. inv_run. intros Hp. rewrite !prop_field in *. simplify_eq.
  match goal with |- context [if ?self * 10 <? ?total then _ else _] =>
    exists (if self * 10 <? total then self * 10 else total); rename self into s1, total into t1 end.
  cbn [set_field]. rewrite !field_oset. rewrite decide_True by done. split_and!; [done| | |].
  - right. exists s1, t1. split_and!; [done..| |by rewrite decide_False, decide_True].
    destruct (Z.ltb_spec (s1 * 10) t1); lia.
  - intros Hb. rewrite Hb in Hp. by apply run_ret_ok in Hp as [_ ?].
  - intros _ _. destruct (Z.ltb_spec (s1 * 10) t1); [right; exists s1; split; [done|lia]|by left].
Qed.
End weight.

Section status.
Context {CFG : Config} {LC : LiskCrypto} {LT : LiskTransactions} {LO : Locale}.

(** A validator the comparator can place. *)
Definition ranked (v : val) : Prop :=
  ∃ wt ha, bigint_field v "validatorWeight" = Ok wt ∧ prop v "hexAddress" = Ok (VStr ha).

Definition weight (v : val) : Z := match bigint_field v "validatorWeight" with Ok z => z | Err _ => 0 end.

(** Sorting with the validators' comparator orders them by weight, the
    heaviest first, and neither drops nor repeats one. *)
Theorem validatorComparator_sorts l :
  Forall ranked l →
  ∃ l', js_sort validatorComparator l = Ok l' ∧ StronglySorted (λ a b, weight b ≤ weight a) l' ∧ l' ≡ₚ l.
Proof.
  apply js_sort_sorted; [|intros; lia].
  intros x y (wx & hx & Hwx & Hhx) (wy & hy & Hwy & Hhy). unfold validatorComparator, weight.
  rewrite Hwx, Hwy, Hhx, Hhy. simpl. destruct (wy - wx) as [|p|p] eqn:Ed; eexists; (split; [done|]); split; intros; lia || done.
Qed.

Lemma js_le_undefined v : js_le v VUndef = false.
Proof.
  assert (H : js_compare v VUndef = None).
  { assert (∀ f, SFcompare f S754_nan = None) as Hn by (by intros []).
    unfold js_compare. destruct v; simpl; rewrite ?Hn; try done; unfold num_of_flt; repeat case_match; simpl; by rewrite ?Hn. }
  unfold js_le, js_lt. by rewrite H.
Qed.

Lemma never_punished v b : isPunishedAt VUndef v = Ok b → b = false.
Proof.
  unfold isPunishedAt. destruct (prop v "punishmentPeriods") as [ps|]; simpl; [|done].
  destruct ps as [| | | | | | |l|]; try done.
  revert b. induction l as [|p l IH]; intros b; simpl; [by intros [= <-]|].
  destruct (prop p "start") as [start|]; simpl; [|done]. rewrite js_le_undefined. simpl. apply IH.
Qed.

Definition STATUSES : list string := ["banned"; "active"; "standby"; "ineligible"].

Lemma statusOf_cases active standby m v s :
  statusOf VUndef active standby m v = Ok s → (∃ o, v = VObj o) ∧ s ∈ STATUSES.
Proof.
  intros H. assert (∃ o, v = VObj o) as [o ->].
  { destruct v; try discriminate H; by eexists. }
  split; [by eexists|]. unfold statusOf in H. rewrite !prop_field in H. cbn [mbind result_mbind result_bind] in H.
  destruct (truthy _); [injection H as <-; apply list_elem_of_here|].
  destruct (isPunishedAt VUndef (VObj o)) as [b|] eqn:Eb; [|discriminate H].
  rewrite (never_punished _ _ Eb) in H. cbn [mbind result_mbind result_bind] in H.
  destruct (val_includes active _); [injection H as <-; by repeat constructor|].
  destruct (val_includes standby _); [injection H as <-; by repeat constructor|].
  inv_result. case_match; inv_result; by repeat constructor.
Qed.

Lemma for_each_set_Ok {A} (f : A → result A) l l' :
  for_each_set f l = (l', Ok tt) → Forall2 (λ x y, f x = Ok y) l l'.
Proof.
  revert l'. induction l as [|x l IH]; intros l'; simpl; [intros [= <-]; constructor|].
  destruct (f x) as [y|] eqn:Ef; [|done]. destruct (for_each_set f l) as [r res]. intros [= <- ->].
  constructor; [done|]. by apply IH.
Qed.
End status.

Section cache.
Context {E : Type} {HE : Engine E}.
Context {CFG : Config} {LC : LiskCrypto} {LT : LiskTransactions} {LO : Locale}.
Implicit Types w : world E.

(** The list of the module's variable. *)
Definition validators_in w : list val := arr_of (default VUndef (w_vars w !! validatorList)).

Lemma run_getValidatorList w w' l : run getValidatorList w = (w', Ok l) → w' = w ∧ l = validators_in w.
Proof. unfold getValidatorList. intros H. inv_run. rewrite run_call in *. simplify_eq/=. done. Qed.

Lemma run_setValidatorList l w w' r :
  run (setValidatorList l) w = (w', r) → r = Ok tt ∧ validators_in w' = l.
Proof.
  unfold setValidatorList, validators_in. rewrite run_bind, run_call. intros [= <- <-]. simpl.
  by rewrite lookup_insert_eq.
Qed.

(** ComputeValidatorStatus gives every validator of the cache one of
    four statuses: it never finds one punished, whatever its punishment
    periods and the last block are, the height it compares with being
    undefined.  The list it returns is the one it leaves in the cache. *)
Theorem computeValidatorStatus_never_punished w w' r :
  run computeValidatorStatus w = (w', Ok r) →
  r = VArr (validators_in w') ∧
  Forall (λ v, ∃ s, field v "status" = VStr s ∧ s ∈ STATUSES) (validators_in w').
Proof.
  unfold computeValidatorStatus. intros Hr.
  repeat match goal with
  | H : run (mbind ?f ?p) _ = (_, Ok _) |- _ =>
      lazymatch p with setValidatorList _ => fail | _ => idtac end;
      let w1 := fresh "w" in let a := fresh "a" in
      apply run_bind_Ok in H as (w1 & a & _ & H); cbv beta zeta in H
  | H : run (let '(x, y) := ?p in _) _ = _ |- _ => destruct p as [updated res] eqn:Es
  end.
  apply run_bind_Ok in Hr as (wa & u & Hset & Hr). apply run_setValidatorList in Hset as [_ Hl].
  apply run_bind_Ok in Hr as (wb & [] & Hres & Hr). apply run_lift_ok in Hres as [-> ->].
  apply run_ret_ok in Hr as [-> ->]. rewrite Hl. split; [done|].
  apply for_each_set_Ok in Es. clear Hl. induction Es as [|x y l l' Hx _ IH]; constructor; [|apply IH].
  unfold setStatus in Hx. destruct (statusOf _ _ _ _ x) as [s|] eqn:Ess; [|discriminate Hx].
  injection Hx as <-. apply statusOf_cases in Ess as [[o ->] Hs]. exists s. split; [|done].
  cbn [set_field]. by rewrite field_oset, decide_True.
Qed.

(** The rank of a validator is its place in the cached list, counted
    from 1, and no comparison of weights enters it: the list that
    computeValidatorRank sorts is a copy it drops. *)
Theorem computeValidatorRank_list_order w w' r :
  run computeValidatorRank w = (w', Ok r) →
  length (validators_in w') = length (validators_in w) ∧
  ∀ i o, validators_in w !! i = Some (VObj o) →
    validators_in w' !! i = Some (VObj (oset o "rank" (VNum (Z.of_nat i + 1)))).
Proof.
  unfold computeValidatorRank. intros Hr.
  apply run_bind_Ok in Hr as (w1 & l & Hl & Hr). apply run_getValidatorList in Hl as [-> ->].
  apply run_bind_Ok in Hr as (w2 & h & Hh & Hr). apply run_lift_ok in Hh as [-> _].
  apply run_bind_Ok in Hr as (w3 & s & Hs & Hr). apply run_lift_ok in Hs as [-> _].
  apply run_setValidatorList in Hr as [_ ->]. unfold rankAll. split; [by rewrite length_imap|].
  intros i o Hi. by rewrite list_lookup_imap, Hi.
Qed.
End cache.
