(* ===== verification/ProcThms.v ===== *)
(** * What the transaction processors guarantee

    Dispatch to the handlers, transactions that failed on the chain, and the
    totals of the stakes. *)
From S2P Require Export MysqlThms.
Open Scope string_scope.
Open Scope Z_scope.
Open Scope list_scope.

(** ** Programs that always throw *)

(** Every run of [p] throws, and sends only commands in [P]. *)
Definition throws (P : cmd → Prop) {A} (p : prog A) : Prop :=
  twp (λ _ c, P c) (λ s _ _, s) p tt (λ _ r, ∃ e, r = Err e).

Section throws.
Context (P : cmd → Prop).

Lemma throws_throw {A} e : throws P (Throw e : prog A).
Proof. by eexists. Qed.
Lemma throws_bind {A B} (p : prog A) (f : A → prog B) :
  pall P p → (∀ a, throws P (f a)) → throws P (p ≫= f).
Proof.
  intros Hp Hf. apply twp_bind. eapply twp_mono; [apply Hp|].
  intros [] [a|e] _; [apply Hf|by eexists].
Qed.
Lemma throws_bind_l {A B} (p : prog A) (f : A → prog B) : throws P p → throws P (p ≫= f).
Proof.
  intros Hp. apply twp_bind. eapply twp_mono; [apply Hp|]. intros [] [a|e] [e' ?]; [done|by eexists].
Qed.
Lemma throws_lift {A B} (x : result A) (f : A → prog B) :
  (∀ a, x = Ok a → throws P (f a)) → throws P (lift x ≫= f).
Proof. intros Hf. destruct x; [by apply Hf|by eexists]. Qed.
Lemma throws_exec {A} (p : prog A) tr out :
  throws P p → exec p tr out → Forall (λ cr, P cr.1) tr ∧ ∃ e, out = Err e.
Proof.
  intros Hp Hx. destruct (twp_exec _ _ _ _ _ _ _ Hp Hx) as [_ He]. split; [|done].
  eapply (pall_exec P); [|exact Hx]. eapply twp_mono; [apply Hp|done].
Qed.
End throws.

(** A command that writes nothing. *)
Definition no_write (c : cmd) : Prop := match c with CKnex _ cs => is_write cs = false | CRaw _ _ => False | _ => True end.

Lemma pall_mono (P Q : cmd → Prop) {A} (p : prog A) : (∀ c, P c → Q c) → pall P p → pall Q p.
Proof.
  intros HPQ. unfold pall. induction p as [a|e|c k IH]; simpl; [done..|]. intros [Ha Hk]. split; [by apply HPQ|].
  intros r. by apply IH.
Qed.

Lemma no_statement_no_write c : no_statement c → no_write c.
Proof. by destruct c. Qed.

Lemma pall_find P tb ps cols :
  (∀ t, P (CTrxCommit t) ∧ P (CTrxRollback t)) → P CTrxBegin → (∀ cs, P (CToSql (t_name tb) cs)) →
  (∀ cs, is_write cs = false → P (CKnex (t_name tb) cs)) → pall P (Mysql.find tb ps cols).
Proof.
  intros He Hb Hs Hk. unfold Mysql.find, Mysql.startDbTransaction, Mysql.warnNoLimit, Mysql.closing,
    Mysql.commitDbTransaction, Mysql.rollbackDbTransaction.
  apply pall_bind; [by pall|intros t]. cbv zeta.
  destruct (Mysql.queryBuilder _ _ t) as [q|e] eqn:Eq; [|done].
  assert (P (CKnex (t_name tb) q)) by (by apply Hk, (reads_queryBuilder _ _ _ _ Eq)).
  destruct (He t) as [? ?].
  match goal with |- pall P (_ ≫= ?f) => change (pall P (f q)); cbv beta end.
  by pall.
Qed.

Lemma pall_find_no_write tb ps cols : pall no_write (Mysql.find tb ps cols).
Proof. by apply pall_find. Qed.

Lemma pall_tableOf_no_write `{CFG : Config} s : pall no_write (tableOf s).
Proof. eapply pall_mono; [apply no_statement_no_write|apply pall_tableOf]. Qed.

(** ** Dispatch *)

Section dispatch.
Context {CFG : Config} {LC : LiskCrypto} {LT : LiskTransactions} {LO : Locale}.

(** The handlers of a transaction, for a block that is indexed or deleted. *)
Definition handle_tx (apply_ : bool) : handler := if apply_ then dispatchApply else dispatchRevert.

(** A transaction of a module or a command without a processor is
    refused: its dispatch throws, whatever the node answers, and sends no
    statement to the database. *)
Theorem dispatch_unknown_command apply_ blockHeader tx events dbTrx tr out :
  (∀ m c, prop tx "module" = Ok m → prop tx "command" = Ok c → processor_for (tpl m) (tpl c) = None) →
  exec (handle_tx apply_ blockHeader tx events dbTrx) tr out →
  (∃ e, out = Err e) ∧ Forall (λ cr, no_statement cr.1) tr.
Proof.
  intros Hno Hx. assert (Ht : throws no_statement (handle_tx apply_ blockHeader tx events dbTrx)).
  { assert (∀ hook get, throws no_statement (dispatch hook get blockHeader tx events dbTrx)).
    { intros hook get. unfold dispatch, buildModuleCommandProcessorMap, Request.requestConnector,
        Request.requestRpc, array_method.
      apply throws_bind; [pall|intros known]. apply throws_bind.
      { pall. apply pall_pmap. pall. }
      intros _. apply throws_bind; [pall|intros known']. apply throws_lift. intros m Hm.
      destruct (negb _); [apply throws_throw|]. apply throws_lift. intros c Hc.
      rewrite (Hno _ _ Hm Hc). apply throws_throw. }
    destruct apply_; apply H. }
  by apply (throws_exec _ _ _ _ Ht) in Hx as [? ?].
Qed.

(** Every processor of every module is reached: a transaction's module
    and command lead to the processor declared under those names, none being
    hidden by another of the same name. *)
Theorem processors_all_reached m ps p :
  (m, ps) ∈ availableModuleProcessors → p ∈ ps → processor_for m (COMMAND_NAME p) = Some p.
Proof.
  intros Hm Hp. unfold availableModuleProcessors in Hm. rewrite !elem_of_cons, elem_of_nil in Hm.
  destruct_or! Hm; simplify_eq;
    repeat (apply elem_of_cons in Hp as [->|Hp]; [reflexivity|]); by apply elem_of_nil in Hp.
Qed.

(** A block with the creation of a collection is never reverted: the
    reversal of the transaction throws before it writes anything (it reads
    a property of the promise of a query it does not wait for). *)
Theorem collection_create_never_reverted blockHeader tx events dbTrx tr out :
  prop tx "module" = Ok (VStr "collection") → prop tx "command" = Ok (VStr "create") →
  exec (dispatchRevert blockHeader tx events dbTrx) tr out →
  (∃ e, out = Err e) ∧ Forall (λ cr, no_write cr.1) tr.
Proof.
  intros Hm Hc Hx. assert (Ht : throws no_write (dispatchRevert blockHeader tx events dbTrx)).
  { unfold dispatchRevert, dispatch, buildModuleCommandProcessorMap, Request.requestConnector,
      Request.requestRpc, array_method.
    apply throws_bind; [pall|intros known]. apply throws_bind.
    { pall. apply pall_pmap. pall. }
    intros _. apply throws_bind; [pall|intros known']. rewrite Hm, Hc. apply throws_lift. intros m [= <-].
    destruct (negb _); [apply throws_throw|]. apply throws_lift. intros c [= <-].
    change (throws no_write (revertCollectionCreate blockHeader tx events dbTrx)).
    unfold revertCollectionCreate, senderAddressOf.
    do 3 (apply throws_bind; [(apply pall_tableOf_no_write || pall)|intros ?]).
    apply throws_bind.
    { unfold detach. apply pall_catch; [|pall]. apply pall_bind; [apply pall_find_no_write|pall]. }
    intros _. apply throws_bind; [pall|intros addr]. apply throws_bind; [pall|intros pk]. cbv zeta.
    apply throws_bind_l. by eexists. }
  by apply (throws_exec _ _ _ _ Ht) in Hx as [? ?].
Qed.
End dispatch.

(** ** Transactions that failed on the chain *)

Section failed.
Context {CFG : Config} {LC : LiskCrypto}.

(** The event of the outcome of an audio command, the first of the block. *)
Definition audioOutcome (es : list val) : option val :=
  find_js (λ e, strict_eq (field e "module") (VStr Names.MODULE_NAME_AUDIO) &&
                strict_eq (field e "name") (VStr Names.EVENT_NAME_COMMAND_EXECUTION_RESULT)) es.

Lemma pfind_pure (f : val → prog bool) (g : val → bool) l :
  Forall (λ x, f x = Ret (g x)) l → pfind f l = Ret (default VUndef (find_js g l)).
Proof. induction 1 as [|x l Hx _ IH]; simpl; [done|]. rewrite Hx. simpl. by destruct (g x). Qed.

Lemma commandSucceeded_outcome es e d :
  Forall (λ e, isObject e = true) es → audioOutcome es = Some e → field e "data" = VObj d →
  commandSucceeded (VArr es) = Ret (truthy (field (VObj d) "success")).
Proof.
  intros Hes He Hd. unfold commandSucceeded, eventData, findEvent. simpl.
  assert (∀ e k, isObject e = true → prop e k = Ok (field e k)) as Hprop.
  { intros x k Hx. unfold field. destruct x; try done. unfold prop. by repeat case_match. }
  rewrite (pfind_pure _ (λ e, strict_eq (field e "module") (VStr Names.MODULE_NAME_AUDIO) &&
                strict_eq (field e "name") (VStr Names.EVENT_NAME_COMMAND_EXECUTION_RESULT))).
  - unfold audioOutcome in He. rewrite He. simpl. unfold data_or_empty.
    assert (isObject e = true) as Ho.
    { apply find_js_Some in He as [He _]. rewrite Forall_forall in Hes. by apply Hes. }
    rewrite Hprop, Hd by done. done.
  - eapply Forall_impl; [exact Hes|]. intros x Hx. simpl. by rewrite !Hprop.
Qed.

(** The handlers of the audio module. *)
Definition audio_handlers : list handler :=
  [applyAudioCreate; applyAudioDestroy; applyAudioReclaim; applyAudioSetAttributes; applyAudioStream;
   applyAudioTransfer].

(** When the first audio outcome among the events of the block is a
    failure, an audio transaction leaves no trace in the index: its handler
    sends no command at all and returns false.  That holds of any
    transaction [tx]: the outcome is not looked up by transaction, so a
    block's first audio transaction decides for all of them. *)
Theorem failed_audio_no_effect h blockHeader tx es e d dbTrx tr out :
  h ∈ audio_handlers →
  Forall (λ e, isObject e = true) es → audioOutcome es = Some e → field e "data" = VObj d →
  truthy (field (VObj d) "success") = false →
  exec (h blockHeader tx (VArr es) dbTrx) tr out → tr = [] ∧ out = Ok (VBool false).
Proof.
  intros Hh Hes He Hd Hs Hx.
  assert (h blockHeader tx (VArr es) dbTrx = Ret (VBool false)) as E.
  { unfold audio_handlers in Hh. rewrite !elem_of_cons, elem_of_nil in Hh.
    destruct_or! Hh; subst h; unfold applyAudioCreate, applyAudioDestroy, applyAudioReclaim,
      applyAudioSetAttributes, applyAudioStream, applyAudioTransfer;
      rewrite (commandSucceeded_outcome _ _ _ Hes He Hd), Hs; done. }
  rewrite E in Hx. by apply exec_ret_inv in Hx.
Qed.

(** The handlers of the interoperability module that change the index. *)
Definition interoperability_handlers : list handler :=
  [applyRegisterMainchain; revertRegisterMainchain; applyRegisterSidechain; revertRegisterSidechain;
   applyCrossChainUpdate; revertCrossChainUpdate; updateChainState].

(** An interoperability transaction whose execution status is not success
    leaves no trace in the index, when it is applied and when it is reverted. *)
Theorem failed_interoperability_no_effect h blockHeader o events dbTrx tr out :
  h ∈ interoperability_handlers →
  strict_eq (field (VObj o) "executionStatus") (VStr Constants.TRANSACTION_STATUS_SUCCESS) = false →
  exec (h blockHeader (VObj o) events dbTrx) tr out → tr = [] ∧ out = Ok VUndef.
Proof.
  intros Hh Hs Hx.
  assert (h blockHeader (VObj o) events dbTrx = Ret VUndef) as E.
  { assert (∀ p, unless_failed (VObj o) p = Ret VUndef) as Hu.
    { intros p. unfold unless_failed. cbn -[strict_eq]. unfold field in Hs. simpl in Hs. by rewrite Hs. }
    unfold interoperability_handlers in Hh. rewrite !elem_of_cons, elem_of_nil in Hh.
    destruct_or! Hh; subst h; apply Hu. }
  rewrite E in Hx. by apply exec_ret_inv in Hx.
Qed.
End failed.

(** ** pos/stake.js *)

Section stakes.
Context {E : Type} `{SE : SqlEngine E}.
Context {CFG : Config} {LC : LiskCrypto}.
Implicit Types w : world E.

Definition stakeAmount (stake : val) : Z := match to_bigint (field stake "amount") with Ok z => z | Err _ => 0 end.
Definition isSelfStake (stake : val) : bool := strict_eq (field stake "stakerAddress") (field stake "validatorAddress").
Definition sumAmounts (l : list val) : Z := foldr (λ s n, stakeAmount s + n) 0 l.

(** The amounts are added with the sign of the operation, those of stakes of
    the sender in itself to the second total too. *)
Lemma stakeStep_totals sgn one t stakes a0 b0 w w' a b :
  run (pfold (stakeStep sgn one t) (a0, b0) stakes) w = (w', Ok (a, b)) →
  a = a0 + sgn * sumAmounts stakes ∧ b = b0 + sgn * sumAmounts (List.filter isSelfStake stakes).
Proof.
  revert a0 b0 w. induction stakes as [|s l IH]; intros a0 b0 w Hr.
  - apply run_ret_ok in Hr as [_ [= -> ->]]. simpl. lia.
  - cbn [pfold] in Hr. apply run_bind_Ok in Hr as (w1 & [a1 b1] & H1 & Hr). apply IH in Hr as [-> ->].
    unfold stakeStep in H1.
    apply run_bind_Ok in H1 as (w2 & u & _ & H1). apply run_bind_Ok in H1 as (w3 & z & Hz & H1).
    apply run_lift_ok in Hz as [-> Hz]. apply run_ret_ok in H1 as [-> [= -> ->]].
    change (strict_eq (field s "stakerAddress") (field s "validatorAddress")) with (isSelfStake s).
    assert (stakeAmount s = z) as Ha by (unfold stakeAmount; by rewrite Hz).
    simpl. unfold sumAmounts. destruct (isSelfStake s); simpl; rewrite Ha; split; lia.
Qed.

Definition kvTable : table := mkTable (tableName Schemas.kvStore) Schemas.kvStore.

(** [c] is the total stored under [key] in the committed rows. *)
Definition committed_total (s : sqldb) (key : string) (c : Z) : Prop :=
  ∃ tcs t query stored,
    Mysql.queryBuilder [("key", VStr key); ("limit", VNum 1)] (strs ["value"; "type"]) t = Ok query ∧
    (let entry := or_default (nth_val (arr_of (select tcs query (rows_of (sq_rows s) (t_name kvTable)))) 0) (VObj []) in
     KvStore.formatValue (field entry "value") (field entry "type") = Ok stored) ∧
    to_bigint (js_or stored (VNum 0)) = Ok c.

(** The row of a BigInt. *)
Definition bigint_row (key : string) (z : Z) : row :=
  [("key", VStr key); ("value", VStr (pretty z)); ("type", VStr "bigint")].

Lemma quiet_find tb ps cols w w' v :
  run (Mysql.find tb ps cols) w = (w', Ok v) → quiet (db w) (db w').
Proof.
  intros Hr. pose proof Hr as Ht. apply run_find in Hr as (t & q & _ & _ & ? & ?).
  split_and!; [|done..]. apply no_create_run in Ht as ->; [done|]. by apply pall_find.
Qed.

Lemma prop_total k (v x : val) : prop v k = Ok x → x = field v k.
Proof. unfold field. by intros ->. Qed.

(** Reading the key-value store: the committed entry, whatever is pending. *)
Lemma run_kv_get key w w' v :
  run (KvStore.get key) w = (w', Ok v) →
  quiet (db w) (db w') ∧ ∀ c, to_bigint (js_or v (VNum 0)) = Ok c → committed_total (db w) key c.
Proof.
  unfold KvStore.get, KvStore.getKeyValueTable. intros Hr.
  apply run_bind_Ok in Hr as (w1 & tb & Ht & Hr). apply run_getTableInstance in Ht as [-> Hq1].
  apply run_bind_Ok in Hr as (w2 & rows & Hf & Hr).
  pose proof (quiet_find _ _ _ _ _ _ Hf) as Hq2.
  apply run_find in Hf as (t & query & Hq & Hrows & _ & _).
  unfold first_of, iter_list in Hr. inv_run. simplify_eq.
  match goal with H : KvStore.formatValue ?x ?y = Ok v, Hx : prop ?e "value" = Ok ?x, Hy : prop ?e "type" = Ok ?y |- _ =>
    apply prop_total in Hx as ->; apply prop_total in Hy as ->; rename H into Hv end.
  split; [by etrans|]. intros c Hc. exists (default [] (sq_tables (db w1) !! t_name kvTable)), t, query, v.
  split_and!; [exact Hq| |done]. rewrite <- (quiet_rows _ _ Hq1). fold kvTable in *. cbv zeta.
  match goal with H : VArr ?l = select _ _ _ |- _ => rewrite <- H end. done.
Qed.

Lemma committed_total_rows s s' key c : sq_rows s' = sq_rows s → committed_total s' key c → committed_total s key c.
Proof. intros Hr (tcs & t & q & v & Hq & Hv & Hc). exists tcs, t, q, v. by rewrite <- Hr. Qed.

Definition total_write (t : Z) (key : string) (z : Z) : string * list kcall :=
  insert_call kvTable t (bigint_row key z).

Lemma run_kv_set key z t w w' r :
  is_Some (sq_pending (db w) !! t) → run (KvStore.set key (VBig z) (Some t)) w = (w', Ok r) →
  eff t [total_write t key z] (db w) (db w').
Proof.
  unfold KvStore.set, KvStore.getKeyValueTable. intros Ho Hr.
  apply run_bind_Ok in Hr as (w1 & tb & Ht & Hr). apply run_getTableInstance in Ht as [-> Hq1].
  apply run_bind_Ok in Hr as (w2 & u & Hg & Hr). apply run_ret_ok in Hg as [-> _].
  apply run_bind_Ok in Hr as (w3 & x & Hu & Hr). apply run_ret_ok in Hr as [-> _].
  apply run_upsert in Hu as (rs & Hrs & He); [|by eapply quiet_open].
  assert (rs = [bigint_row key z]) as ->.
  { change (Ok [bigint_row key z] = Ok rs) in Hrs. by injection Hrs as <-. }
  by eapply eff_quiet.
Qed.

Lemma quiet_requestConnector m ps w w' v : run (Request.requestConnector m ps) w = (w', Ok v) → quiet (db w) (db w').
Proof.
  unfold Request.requestConnector, Request.requestRpc. intros Hr.
  apply run_bind_Ok in Hr as (w1 & d & Hc & Hr). apply call_quiet in Hc; [|done].
  destruct (isObject d && truthy (field d "error")); [|by apply run_ret_ok in Hr as [-> _]].
  inv_run.
Qed.

Lemma quiet_getPosTokenID w w' v : run PosConstants.getPosTokenID w = (w', Ok v) → quiet (db w) (db w').
Proof.
  unfold PosConstants.getPosTokenID, PosConstants.getPosConstants. intros Hr. inv_run;
    repeat match goal with
    | H : run (call _) _ = _ |- _ => apply call_quiet in H; [|done]
    | H : run (Request.requestConnector _ _) _ = _ |- _ => apply quiet_requestConnector in H
    end; quiet_trans; done.
Qed.

Lemma run_updateTotal prefix d t w w' r :
  is_Some (sq_pending (db w) !! t) → run (updateTotal prefix d t) w = (w', Ok r) →
  ∃ key c, starts_with prefix key = true ∧ committed_total (db w) key c ∧
           eff t [total_write t key (c + d)] (db w) (db w').
Proof.
  unfold updateTotal. intros Ho Hr.
  apply run_bind_Ok in Hr as (w1 & tok & Ht & Hr). apply quiet_getPosTokenID in Ht.
  apply run_bind_Ok in Hr as (w2 & stored & Hg & Hr). apply run_kv_get in Hg as [Hq Hg].
  apply run_bind_Ok in Hr as (w3 & c & Hc & Hr). apply run_lift_ok in Hc as [-> Hc].
  assert (quiet (db w) (db w2)) as Hq2 by (by etrans).
  apply run_kv_set in Hr; [|by eapply quiet_open].
  exists (prefix +:+ to_string tok), c. split_and!.
  - apply starts_with_app.
  - eapply committed_total_rows; [exact (quiet_rows _ _ Ht)|by apply Hg].
  - by eapply eff_quiet.
Qed.


(** ** The stakes of one transaction *)

Definition on_stakes (x : string * list kcall) : Prop := x.1 = tableName Schemas.stakes.

Lemma run_knex_write t tbl cs w w' v :
  is_Some (sq_pending (db w) !! t) → trx_of cs = Some t → is_write cs = true →
  run (call (CKnex tbl cs)) w = (w', Ok v) → eff t [(tbl, cs)] (db w) (db w').
Proof. intros _. apply call_write. Qed.

Definition stakes_eff (t : Z) (s s' : sqldb) : Prop := ∃ W, Forall on_stakes W ∧ eff t W s s'.

Lemma stakes_eff_open t s s' : stakes_eff t s s' → is_Some (sq_pending s' !! t).
Proof. intros (W & _ & He). by eapply eff_open. Qed.
Lemma stakes_eff_trans t s1 s2 s3 : stakes_eff t s1 s2 → stakes_eff t s2 s3 → stakes_eff t s1 s3.
Proof.
  intros (W1 & H1 & E1) (W2 & H2 & E2). exists (W1 ++ W2). split; [by apply Forall_app|by eapply eff_app].
Qed.
Lemma stakes_eff_quiet t s1 s2 s3 : quiet s1 s2 → stakes_eff t s2 s3 → stakes_eff t s1 s3.
Proof. intros Hq (W & H & He). exists W. split; [done|by eapply eff_quiet]. Qed.

Lemma run_incrementStakeTrx s t w w' r :
  is_Some (sq_pending (db w) !! t) → run (incrementStakeTrx s t) w = (w', Ok r) → stakes_eff t (db w) (db w').
Proof.
  unfold incrementStakeTrx, tableOf. intros Ho Hr.
  apply run_bind_Ok in Hr as (w1 & tb & Ht & Hr). apply run_getTableInstance in Ht as [-> Hq1].
  eapply stakes_eff_quiet; [exact Hq1|]. assert (is_Some (sq_pending (db w1) !! t)) by (by eapply quiet_open).
  apply run_bind_Ok in Hr as (w2 & a & Ha & Hr). apply run_lift_ok in Ha as [-> _].
  apply run_bind_Ok in Hr as (w3 & n & Hi & Hr). apply (call_write t) in Hi; [|done..].
  assert (stakes_eff t (db w1) (db w3)) as He by (eexists; split; [|exact Hi]; by apply Forall_singleton).
  destruct (strict_eq n (VNum 0)); [|by apply run_ret_ok in Hr as [-> _]].
  apply run_bind_Ok in Hr as (w4 & u & Hu & Hr). apply run_ret_ok in Hr as [-> _].
  apply run_upsert in Hu as (rs & _ & Hu); [|by eauto with js].
  eapply stakes_eff_trans; [exact He|]. eexists. split; [|exact Hu].
  apply Forall_forall. by intros x (rw & -> & _)%list_elem_of_fmap.
Qed.

Lemma run_decrementStakeTrx s t w w' r :
  is_Some (sq_pending (db w) !! t) → run (decrementStakeTrx s t) w = (w', Ok r) → stakes_eff t (db w) (db w').
Proof.
  unfold decrementStakeTrx, tableOf. intros Ho Hr.
  apply run_bind_Ok in Hr as (w1 & tb & Ht & Hr). apply run_getTableInstance in Ht as [-> Hq1].
  eapply stakes_eff_quiet; [exact Hq1|].
  apply run_bind_Ok in Hr as (w2 & a & Ha & Hr). apply run_lift_ok in Ha as [-> _].
  apply run_bind_Ok in Hr as (w3 & n & Hi & Hr). apply run_ret_ok in Hr as [-> _].
  apply (call_write t) in Hi; [|done..]. eexists. split; [|exact Hi]. by apply Forall_singleton.
Qed.

Lemma run_stakeSteps sgn one t stakes totals w w' r :
  (∀ s w w' r, is_Some (sq_pending (db w) !! t) → run (one s t) w = (w', Ok r) → stakes_eff t (db w) (db w')) →
  is_Some (sq_pending (db w) !! t) → run (pfold (stakeStep sgn one t) totals stakes) w = (w', Ok r) →
  stakes_eff t (db w) (db w').
Proof.
  intros Hone. revert totals w. induction stakes as [|s l IH]; intros totals w Ho Hr.
  - apply run_ret_ok in Hr as [-> _]. exists []. split; [constructor|by apply eff_nil].
  - cbn [pfold] in Hr. apply run_bind_Ok in Hr as (w1 & tot & H1 & Hr). unfold stakeStep in H1.
    apply run_bind_Ok in H1 as (w2 & u & H1 & H2). apply run_bind_Ok in H2 as (w3 & z & Hz & H2).
    apply run_lift_ok in Hz as [-> _]. apply run_ret_ok in H2 as [-> _]. apply Hone in H1; [|done].
    eapply stakes_eff_trans; [exact H1|]. eapply IH; [by eapply stakes_eff_open|exact Hr].
Qed.

(** A program without commands. *)
Lemma run_silent {A} (p : prog A) w w' r : pall (λ _, False) p → run p w = (w', r) → w' = w.
Proof. intros Hp Hr. by eapply (pall_run (λ _, False) (λ w', w' = w)); [|exact Hp| |exact Hr]. Qed.

Lemma silent_getStakeIndexingInfo tx : pall (λ _, False) (getStakeIndexingInfo tx).
Proof.
  unfold getStakeIndexingInfo, param_of, bluebird_map, iter_list, senderAddressOf. pall. apply pall_pmap. pall.
Qed.

(** C8. The whole effect of a stake transaction, applied (sign 1) or reverted
    (sign -1): statements on the stakes table, and then the two totals,
    written as the committed total plus the signed sum of the transaction's
    amounts, of all its stakes and of those of the sender in itself. *)
Theorem stake_effect (apply_ : bool) blockHeader tx events t w w' v :
  is_Some (sq_pending (db w) !! t) →
  run ((if apply_ then applyStake else revertStake) blockHeader tx events t) w = (w', Ok v) →
  ∃ stakes W key1 key2 c1 c2 (sgn := if apply_ then 1 else -1),
    run (getStakeIndexingInfo tx) w = (w, Ok stakes) ∧ Forall on_stakes W ∧
    starts_with Constants.PREFIX_TOTAL_STAKED key1 = true ∧ committed_total (db w) key1 c1 ∧
    starts_with Constants.PREFIX_TOTAL_SELF_STAKED key2 = true ∧ committed_total (db w) key2 c2 ∧
    eff t (W ++ [total_write t key1 (c1 + sgn * sumAmounts stakes);
                 total_write t key2 (c2 + sgn * sumAmounts (List.filter isSelfStake stakes))]) (db w) (db w').
Proof.
  intros Ho Hr.
  assert (∃ one sgn, sgn = (if apply_ then 1 else -1) ∧
    (∀ s w w' r, is_Some (sq_pending (db w) !! t) → run (one s t) w = (w', Ok r) → stakes_eff t (db w) (db w')) ∧
    run (stakes ← getStakeIndexingInfo tx;
         '(total, self) ← stakeLoop sgn one t stakes;
         _ ← updateTotalStake total t; _ ← updateTotalSelfStake self t; Ret VUndef) w = (w', Ok v))
    as (one & sgn & <- & Hone & Hrun).
  { destruct apply_; [exists incrementStakeTrx|exists decrementStakeTrx]; eexists; (split_and!; [done| |exact Hr]);
      intros *; [apply run_incrementStakeTrx|apply run_decrementStakeTrx]. }
  clear Hr. apply run_bind_Ok in Hrun as (w1 & stakes & Hs & Hr).
  pose proof (run_silent _ _ _ _ (silent_getStakeIndexingInfo tx) Hs) as ->.
  apply run_bind_Ok in Hr as (w2 & [total self] & Hl & Hr). unfold stakeLoop in Hl.
  pose proof (run_stakeSteps _ _ _ _ _ _ _ _ Hone Ho Hl) as (W & HW & He).
  apply stakeStep_totals in Hl as [-> ->].
  apply run_bind_Ok in Hr as (w3 & u & H1 & Hr). apply run_bind_Ok in Hr as (w4 & u' & H2 & Hr).
  apply run_ret_ok in Hr as [-> _].
  apply run_updateTotal in H1 as (k1 & c1 & Hk1 & Hc1 & He1); [|by eauto with js].
  apply run_updateTotal in H2 as (k2 & c2 & Hk2 & Hc2 & He2); [|by eauto with js].
  exists stakes, W, k1, k2, c1, c2. rewrite !Z.add_0_l in *. split_and!; try done.
  - eapply committed_total_rows; [by apply eff_rows in He|done].
  - eapply committed_total_rows; [|done]. apply eff_rows in He, He1. congruence.
  - eapply eff_app; [exact He|]. exact (eff_app _ [_] [_] _ _ _ He1 He2).
Qed.
End stakes.
