(* ===== verification/IndexThms.v ===== *)
(** * What the indexer guarantees

    Theorems on indexer/blockchainIndex.js, indexer/indexStatus.js,
    utils/validator.js, utils/transactions.js, business/events.js and the
    table schemas. *)
From S2P Require Export HelperThms ProcThms.
Open Scope string_scope.
Open Scope Z_scope.
Open Scope list_scope.

(** ** database/schema *)

(** Every table of the index is well formed, its columns distinct, its
    primary key and its indexes among them, except feats and owners, whose
    index is on a column creatorAddress they do not have. *)
Theorem schemas_well_formed s :
  s ∈ IndexStatus.tableSchemas → wf_schema s = false ↔ tableName s = "feats" ∨ tableName s = "owners".
Proof.
  unfold IndexStatus.tableSchemas. rewrite !elem_of_cons, elem_of_nil. intros Hs.
  destruct_or! Hs; subst s; vm_compute; (split; [intros H; try discriminate H; auto|intros [H|H]; try discriminate H; done]).
Qed.

(** ** buildIndex *)

Section build.
Context {CFG : Config} {LC : LiskCrypto} {LT : LiskTransactions} {LO : Locale} {LQ : LiskQ}.
Import BlockchainIndex.

Lemma pageHeights_one from to p : 0 ≤ p ≤ to - from → pageHeights from to p = [to - p].
Proof.
  intros Hp. unfold pageHeights. cbv zeta. rewrite !Z.mul_1_l.
  destruct (Z.leb_spec from (to - (p + 1))).
  - destruct (Z.leb_spec (to - (p + 1) + 1) to); [|lia].
    replace (to - (p + 1) + 1 - (to - (p + 1) + 1) + 1) with 1 by lia. simpl. f_equal. lia.
  - destruct (Z.leb_spec (from - 1 + 1) to); [|lia].
    replace (from - 1 + 1 - (from - 1 + 1) + 1) with 1 by lia. simpl. f_equal. lia.
Qed.

Lemma scheduledHeights_eq from to :
  scheduledHeights from to = map (λ p, to - Z.of_nat p) (seq 0 (Z.to_nat (to + 1 - from))).
Proof.
  unfold scheduledHeights. cbv zeta.
  assert (Forall (λ p, pageHeights from to (Z.of_nat p) = [to - Z.of_nat p]) (seq 0 (Z.to_nat (to + 1 - from)))) as H.
  { apply Forall_forall. intros p Hp%elem_of_seq. apply pageHeights_one. lia. }
  induction H as [|p l Hp _ IH]; [done|]. simpl. by rewrite Hp, IH.
Qed.

Lemma exec_piter_call {A} (c : A → cmd) l tr :
  exec (piter (λ x, _ ← call (c x); Ret tt) l) tr (Ok tt) → cmds tr = map c l.
Proof.
  revert tr. induction l as [|x l IH]; intros tr; cbn [piter map]; [by intros [-> _]%exec_ret_inv|].
  intros [(tr1 & tr2 & u & -> & H1 & H2)|(e & _ & ?)]%exec_bind; [|done].
  apply exec_bind in H1 as [(tra & trb & v & -> & Ha & Hb)|(e & _ & ?)]; [|done].
  apply exec_call_inv in Ha as ->. apply exec_ret_inv in Hb as [-> _]. unfold cmds in *. simpl.
  by rewrite <- (IH tr2).
Qed.

(** C40. buildIndex queues each height from [from] to [to] exactly once, the
    highest first, and nothing else; when [to] is below [from] it queues nothing. *)
Theorem buildIndex_schedules_each_height from to tr :
  exec (buildIndex from to) tr (Ok tt) →
  ∃ heights, cmds tr = map (λ h, CQueueAdd indexBlocksQueue (VObj [("height", VNum h)])) heights ∧
    NoDup heights ∧ (∀ h, h ∈ heights ↔ from ≤ h ≤ to) ∧ StronglySorted (λ a b, b < a) heights.
Proof.
  intros Hx. exists (scheduledHeights from to). split.
  - unfold buildIndex in Hx. destruct (Z.ltb_spec to from); [|by apply exec_piter_call in Hx].
    apply exec_ret_inv in Hx as [-> _]. rewrite scheduledHeights_eq. by replace (Z.to_nat (to + 1 - from)) with 0%nat by lia.
  - rewrite scheduledHeights_eq. split_and!.
    + apply NoDup_fmap_2; [|apply NoDup_seq]. intros x y. lia.
    + intros h. rewrite list_elem_of_fmap. split.
      * intros (i & -> & Hi%elem_of_seq). lia.
      * intros Hh. exists (Z.to_nat (to - h)). rewrite elem_of_seq. lia.
    + generalize 0%nat. induction (Z.to_nat (to + 1 - from)) as [|n IH]; intros k; simpl; constructor; [apply IH|].
      apply Forall_forall. intros h (i & -> & Hi%elem_of_seq)%list_elem_of_fmap. lia.
Qed.
End build.

(** ** Locked amounts *)

Section locked.
Context {E : Type} {HE : Engine E}.
Context {CFG : Config} {LC : LiskCrypto} {LT : LiskTransactions} {LO : Locale} {LQ : LiskQ}.
Import BlockchainIndex.
Implicit Types w : world E.

Definition amount_of (m : amounts) (k : string) : Z :=
  foldr (λ e n, if decide (e.1 = k) then e.2 else n) 0 m.

Lemma amount_of_add m k d k' : amount_of (add_amount m k d) k' = amount_of m k' + if decide (k = k') then d else 0.
Proof.
  induction m as [|[k0 z] m IH]; simpl; [by repeat case_decide; lia|].
  destruct (decide (k = k0)) as [->|Hne]; simpl.
  - case_decide; lia.
  - rewrite IH. repeat case_decide; subst; try done; lia.
Qed.

Lemma add_amount_keys m k d x : x ∈ (add_amount m k d).*1 → x ∈ m.*1 ∨ x = k.
Proof. induction m as [|[k0 z] m IH]; csimpl; [set_solver|]. case_decide; csimpl; set_solver. Qed.

Lemma keys_add m k d : NoDup m.*1 → NoDup (add_amount m k d).*1.
Proof.
  induction m as [|[k0 z] m IH]; csimpl; intros Hnd; [apply NoDup_singleton|]. apply NoDup_cons in Hnd as [H0 Hnd].
  destruct (decide (k = k0)); csimpl; [by constructor|].
  constructor; [|by apply IH]. intros [?|?]%add_amount_keys; [done|congruence].
Qed.

(** What one event adds to the locked amount of a token. *)
Definition eventLock (k : string) (event : val) : Z :=
  let data := field event "data" in
  let amount := match to_bigint (field data "amount") with Ok z => z | Err _ => 0 end in
  if decide (to_string (field data "tokenID") = k) then
    if strict_eq (field event "name") (VStr Constants.EVENT_LOCK) then amount
    else if strict_eq (field event "name") (VStr Constants.EVENT_UNLOCK) then - amount else 0
  else 0.

Lemma lockedChange_one sgn m e w w' m' k :
  run (lockedChange sgn m e) w = (w', Ok m') →
  w' = w ∧ amount_of m' k = amount_of m k + sgn * eventLock k e ∧ (NoDup m.*1 → NoDup m'.*1).
Proof.
  unfold lockedChange, eventLock. intros Hr.
  apply run_bind_Ok in Hr as (w1 & data & Hd & Hr). apply run_lift_ok in Hd as [-> ->%prop_total].
  apply run_bind_Ok in Hr as (w1 & name & Hn & Hr). apply run_lift_ok in Hn as [-> ->%prop_total].
  cbv zeta in Hr. destruct (strict_eq (field e "name") (VStr Constants.EVENT_LOCK)) eqn:El.
  2: destruct (strict_eq (field e "name") (VStr Constants.EVENT_UNLOCK)) eqn:Eu.
  3:{ apply run_ret_ok in Hr as [-> ->]. split_and!; [done| |done]. case_decide; lia. }
  all: cbn [orb] in Hr; apply run_bind_Ok in Hr as (w1 & tok & Ht & Hr); apply run_lift_ok in Ht as [-> ->%prop_total];
    apply run_bind_Ok in Hr as (w1 & am & Ha & Hr); apply run_lift_ok in Ha as [-> ->%prop_total];
    apply run_bind_Ok in Hr as (w1 & z & Hz & Hr); apply run_lift_ok in Hz as [-> Hz];
    apply run_ret_ok in Hr as [-> ->]; rewrite Hz, amount_of_add;
    (split_and!; [done| |by apply keys_add]); case_decide; lia.
Qed.

(** The changes of the locked amounts: for each token, once, the sum of
    what the block's events lock less the sum of what they unlock, times
    the sign of the operation.  Deleting a block (sign -1) therefore takes
    back exactly what indexing it (sign 1) added. *)
Theorem lockedChanges_sum sgn events w w' m :
  run (lockedChanges sgn events) w = (w', Ok m) →
  w' = w ∧ NoDup m.*1 ∧ ∀ k, amount_of m k = sgn * foldr (λ e n, eventLock k e + n) 0 events.
Proof.
  unfold lockedChanges. intros Hr.
  assert (∀ m0, run (pfold (lockedChange sgn) m0 events) w = (w', Ok m) →
    w' = w ∧ (NoDup m0.*1 → NoDup m.*1) ∧
    ∀ k, amount_of m k = amount_of m0 k + sgn * foldr (λ e n, eventLock k e + n) 0 events) as H.
  { clear Hr. induction events as [|e l IH]; intros m0 Hr; cbn [pfold foldr] in *.
    - apply run_ret_ok in Hr as [-> ->]. split_and!; [done|done|]. intros k. lia.
    - apply run_bind_Ok in Hr as (w1 & m1 & H1 & Hr).
      pose proof (lockedChange_one sgn m0 e w w1 m1 "" H1) as (-> & _ & Hnd).
      destruct (IH m1 Hr) as (-> & Hnd' & Hk). split_and!; [done|by auto|]. intros k. rewrite Hk.
      destruct (lockedChange_one sgn m0 e w w m1 k H1) as (_ & -> & _). lia. }
  destruct (H [] Hr) as (? & Hnd & Hk). split_and!; [done|apply Hnd; constructor|]. intros k. by rewrite Hk.
Qed.
End locked.

(** ** deleteIndexedBlocks *)

Section delete.
Context {CFG : Config} {LC : LiskCrypto} {LT : LiskTransactions} {LO : Locale} {LQ : LiskQ}.
Import BlockchainIndex.

Lemma throws_ret P {A B} (a : A) (f : A → prog B) : throws P (f a) → throws P (Ret a ≫= f).
Proof. done. Qed.

Definition anything (c : cmd) : Prop := True.

Lemma pall_anything {A} (p : prog A) : pall anything p.
Proof. unfold pall. by induction p; simpl. Qed.

Lemma throws_catch {A} (p : prog A) h : throws anything p → (∀ e, throws anything (h e)) → throws anything (catch p h).
Proof.
  intros Hp Hh. apply twp_catch. eapply twp_mono; [apply Hp|]. intros [] [a|e] [e' [= ->]]. apply Hh.
Qed.

(** A block whose object has no header, as the blocks that are queued
    for deletion are, cannot be deleted from the index: the job throws
    whatever the database, the node and the caches answer. *)
Theorem deleteIndexedBlocks_needs_header o bs tr out :
  oget o "header" = None →
  exec (deleteIndexedBlocks (VObj [("blocks", VArr (VObj o :: bs))])) tr out → ∃ e, out = Err e.
Proof.
  intros Hno Hx. assert (Hd : ∀ t, throws anything (deleteBlockData t (VObj o))).
  { intros t. unfold deleteBlockData. do 6 (apply throws_bind; [apply pall_anything|intros ?]).
    apply throws_lift. intros h Hh. assert (h = VUndef) as ->.
    { unfold prop in Hh. rewrite Hno in Hh. by injection Hh as <-. }
    apply throws_bind_l. by eexists. }
  apply (throws_exec anything) in Hx; [by destruct Hx|].
  unfold deleteIndexedBlocks. apply throws_lift. intros bl Hb. injection Hb as <-.
  change (array_method (VArr (VObj o :: bs)) "map") with (Ret (VObj o :: bs)). apply throws_ret.
  apply throws_bind; [apply pall_anything|intros ids]. cbv zeta.
  do 3 (apply throws_bind; [apply pall_anything|intros ?]). apply throws_catch.
  - apply throws_bind_l. cbn [pmap]. apply throws_bind_l, Hd.
  - intros e. apply throws_bind; [apply pall_anything|intros ?]. case_match; apply throws_throw.
Qed.
End delete.

(** ** utils/validator.js *)

Section rewards.
Context {E : Type} `{SE : SqlEngine E}.
Context {CFG : Config} {LC : LiskCrypto} {LQ : LiskQ}.
Import Rewards.
Implicit Types w : world E.

Lemma addAmounts_big a b v : addAmounts a b = Ok v → ∃ z, v = VBig z.
Proof.
  unfold addAmounts, mbind, result_mbind. intros H.
  repeat match type of H with result_bind ?x _ = _ => destruct x; [cbn [result_bind] in H|discriminate H] end.
  injection H as <-. by eexists.
Qed.

(** With three rows the accumulator is a BigInt, which has no amount. *)
Lemma reduceAmounts_many a b c l : ∃ e, reduceAmounts (a :: b :: c :: l) = Err e.
Proof.
  unfold reduceAmounts. cbn [Mysql.result_fold]. unfold mbind, result_mbind.
  destruct (addAmounts a b) as [v|e] eqn:Ev; [|by eexists]. apply addAmounts_big in Ev as [z ->]. by eexists.
Qed.

(** The rows of an answer are objects. *)
Lemma elem_of_dedup {A} `{EqDecision A} (l : list A) x : x ∈ dedup l → x ∈ l.
Proof.
  induction l as [|y l IH]; [done|]. simpl. rewrite !elem_of_cons. intros [->|[_ Hx]%list_elem_of_filter]; auto.
Qed.

Lemma select_objects tcs cs rows v : v ∈ arr_of (select tcs cs rows) → ∃ o, v = VObj o.
Proof.
  unfold select. cbv zeta. destruct (aggregate cs _) as [a|] eqn:Ea.
  - simpl. intros ->%list_elem_of_singleton. unfold aggregate in Ea.
    apply head_Some_elem_of, list_elem_of_omap in Ea as (k & _ & Hk). by destruct k; simplify_eq; eexists.
  - simpl. intros Hv.
    assert (∀ A (l : list A) (x : A), x ∈ page cs l → x ∈ l) as Hpage.
    { intros A l x. unfold page. cbv zeta. destruct (limit_of cs).
      - rewrite <- (take_drop (Z.to_nat (offset_of cs)) l) at 2. intros Hx. apply elem_of_app. right.
        rewrite <- (take_drop (Z.to_nat z) (drop _ l)). apply elem_of_app. by left.
      - intros Hx. rewrite <- (take_drop (Z.to_nat (offset_of cs)) l). apply elem_of_app. by right. }
    apply Hpage in Hv. destruct (is_distinct cs); [apply elem_of_dedup in Hv|];
      apply list_elem_of_fmap in Hv as (r & -> & _); by eexists.
Qed.

(** What [reduce] makes of a list it accepts. *)
Lemma reduceAmounts_cases l v :
  reduceAmounts l = Ok v → l = [v] ∨ (length l = 2%nat ∧ ∃ z, v = VBig z).
Proof.
  intros H. destruct l as [|a [|b [|c l]]].
  - done.
  - left. by injection H as ->.
  - right. split; [done|]. simpl in H. unfold mbind, result_mbind in H. 
    destruct (addAmounts a b) as [u|e] eqn:Eu; [|done]. apply addAmounts_big in Eu as [z ->].
    injection H as <-. by eexists.
  - destruct (reduceAmounts_many a b c l) as [e He]. congruence.
Qed.

(** The rows of the validator's own stakes. *)
Lemma run_own_stakes g l w w' r :
  run (pfilter (λ stake, a ← stake @. "stakerAddress"; Ret (strict_eq a g)) l) w = (w', Ok r) →
  r = List.filter (λ v, strict_eq (field v "stakerAddress") g) l.
Proof.
  revert w w' r. induction l as [|y l IH]; intros w w' r; cbn [pfilter List.filter]; [by intros [_ ->]%run_ret_ok|].
  intros (w1 & b & Hb & Hr)%run_bind_Ok. apply run_bind_Ok in Hb as (w2 & a & Ha & Hb).
  apply run_lift_ok in Ha as [-> Ha]. apply run_ret_ok in Hb as [-> ->].
  apply run_bind_Ok in Hr as (w3 & t & Ht & Hr). apply IH in Ht as ->. apply run_ret_ok in Hr as [_ ->].
  assert (field y "stakerAddress" = a) as -> by (unfold field; by rewrite Ha). done.
Qed.

(** CalcSelfStakeReward returns for a validator without stakers only, or
    for one with exactly two rows of stakes, both of its own: with a single
    row the reduction is that row, an object, which q96 does not take, and
    with three it reads the amount of a BigInt.  Hence the indexing of a
    rewarded block of a generator with stakers throws. *)
Theorem self_stake_reward_needs_no_stakers generatorAddress reward commission w w' x :
  (∀ o, is_ok (q96 (VObj o)) = false) →
  run (calcSelfStakeReward generatorAddress reward commission) w = (w', Ok x) →
  ∃ tcs t query,
    Mysql.queryBuilder [("validatorAddress", generatorAddress)] (strs ["stakerAddress"; "amount"]) t = Ok query ∧
    let rows := arr_of (select tcs query (rows_of (sq_rows (db w)) (tableName Schemas.stakes))) in
    rows = [] ∨
    (length rows = 2%nat ∧
     Forall (λ r, strict_eq (field r "stakerAddress") generatorAddress = true) rows).
Proof.
  intros Hobj. unfold calcSelfStakeReward, tableOf. intros Hr.
  apply run_bind_Ok in Hr as (w1 & tb & Ht & Hr). apply run_getTableInstance in Ht as [-> Hq1].
  apply run_bind_Ok in Hr as (w2 & rows & Hf & Hr). apply run_find in Hf as (t & query & Hq & Hrows & _ & _).
  rewrite (quiet_rows _ _ Hq1) in Hrows.
  exists (default [] (sq_tables (db w1) !! tableName Schemas.stakes)), t, query. split; [exact Hq|].
  cbn [t_name] in Hrows. cbv zeta.
  assert (∀ v, v ∈ arr_of rows → ∃ o, v = VObj o) as Hrow by (rewrite Hrows; apply select_objects).
  rewrite <- Hrows. clear Hrows Hq.
  apply run_bind_Ok in Hr as (w3 & stakers & Ha & Hr).
  assert (rows = VArr stakers) as ->.
  { unfold array_method in Ha. destruct rows; inv_run; simplify_eq; done. }
  cbn [arr_of] in *. destruct stakers as [|s l]; [by left|]. right.
  apply run_bind_Ok in Hr as (w4 & selfs & Hs & Hr). apply run_bind_Ok in Hr as (w5 & v & Hv & Hr).
  apply run_bind_Ok in Hr as (w6 & tot & Htot & Hr). apply run_lift_ok in Htot as [-> Htot].
  apply run_lift_ok in Hv as [-> Hv].
  do 2 (apply run_bind_Ok in Hr as (? & ? & _ & Hr)).
  apply run_bind_Ok in Hr as (? & sq & Hsq & Hr). apply run_lift_ok in Hsq as [_ Hsq].
  apply run_bind_Ok in Hr as (? & tq & Htq & _). apply run_lift_ok in Htq as [_ Htq].
  apply run_own_stakes in Hs as ->.
  assert (∀ u q, u ∈ s :: l → q96 u = Ok q → False) as Hno.
  { intros u q Hu Eq. destruct (Hrow u Hu) as [o ->]. specialize (Hobj o). by rewrite Eq in Hobj. }
  apply reduceAmounts_cases in Htot as [E1|[Hlen _]].
  { exfalso. apply (Hno tot tq); [rewrite E1; by left|done]. }
  split; [done|]. apply reduceAmounts_cases in Hv as [E1|[Hlen2 _]].
  { exfalso. apply (Hno v sq); [|done]. assert (v ∈ List.filter (λ r, strict_eq (field r "stakerAddress") generatorAddress) (s :: l)) as Hin
      by (rewrite E1; by left). apply list_elem_of_In, filter_In in Hin as [Hin _]. by apply list_elem_of_In. }
  destruct l as [|b [|]]; try done. simpl in Hlen2.
  destruct (strict_eq (field s _) _) eqn:Es, (strict_eq (field b _) _) eqn:Eb; simpl in Hlen2; try lia.
  by repeat constructor.
Qed.
End rewards.

(** ** business/events.js *)

Section events.
Context {CFG : Config}.
Import EventsBusiness.

(** The commands of a read through the cache. *)
Definition cache_or_node (c : cmd) : Prop :=
  match c with CCacheGet _ _ | CCacheSet _ _ _ | CRpc _ _ _ => True | _ => False end.

(** The events of a block come from the cache, or else from the node:
    the database is never asked, persisted events included (the setting that
    would allow it is read under a name it does not have).  What the cache
    has is returned without another command. *)
Theorem getEventsByHeight_cache_then_node height tr out :
  exec (getEventsByHeight height) tr out →
  Forall (λ cr, cache_or_node cr.1) tr ∧
  ∀ v tr', tr = (CCacheGet eventCache (to_string height), Ok v) :: tr' → truthy v = true →
    tr' = [] ∧ out = json_parse (to_string v).
Proof.
  intros Hx. split.
  - eapply pall_exec; [|exact Hx]. unfold getEventsByHeight.
    apply pall_bind; [by apply pall_call|intros c]. destruct (truthy c); [pall|].
    unfold config_isPersistEvents. cbn [truthy].
    apply pall_bind; [pall|intros fromDb].
    unfold getEventsByHeightFromNode, Request.requestConnector, Request.requestRpc. by destruct fromDb; pall.
  - intros v tr' -> Hv. unfold getEventsByHeight in Hx.
    apply exec_bind in Hx as [(tr1 & tr2 & a & E & H1 & H2)|(e & H1 & ->)].
    + apply exec_call_inv in H1 as ->. injection E as [= -> ->]. rewrite Hv in H2. by apply exec_lift in H2.
    + apply exec_call_inv in H1. by injection H1 as [=].
Qed.
End events.

(** ** utils/transactions.js *)

Section outcome.
Context {E : Type} {HE : Engine E}.
Implicit Types w : world E.

Lemma run_pfind (f : val → prog bool) l w w' v :
  run (pfind f l) w = (w', Ok v) → v = VUndef ∨ v ∈ l ∧ ∃ w1 w2, run (f v) w1 = (w2, Ok true).
Proof.
  revert w. induction l as [|x l IH]; intros w; cbn [pfind]; [intros [-> ->]%run_ret_ok; by left|].
  intros (w1 & b & Hf & Hr)%run_bind_Ok. destruct b.
  - apply run_ret_ok in Hr as [-> ->]. right. split; [by left|by eauto].
  - destruct (IH _ Hr) as [?|[? ?]]; [by left|]. right. split; [by right|done].
Qed.

Lemma run_pfilter (f : val → prog bool) l w w' r :
  run (pfilter f l) w = (w', Ok r) → ∀ x, x ∈ r → x ∈ l ∧ ∃ w1 w2, run (f x) w1 = (w2, Ok true).
Proof.
  revert w r. induction l as [|y l IH]; intros w r; cbn [pfilter].
  - intros [-> ->]%run_ret_ok x. by intros ?%elem_of_nil.
  - intros (w1 & b & Hf & Hr)%run_bind_Ok x. apply run_bind_Ok in Hr as (w2 & t & Ht & Hr).
    apply run_ret_ok in Hr as [-> ->]. destruct b; [rewrite elem_of_cons; intros [->|Hx]|intros Hx].
    + split; [by left|by eauto].
    + destruct (IH _ _ Ht _ Hx). split; [by right|done].
    + destruct (IH _ _ Ht _ Hx). split; [by right|done].
Qed.

(** The execution status of a transaction is what the chain recorded:
    success or fail, as the data of an event commandExecutionResult of its
    module, with its ID among the topics, says.  Without such an event there
    is no status: the function throws. *)
Theorem execution_status_from_event tx events w w' s :
  run (Transactions.getTransactionExecutionStatus tx events) w = (w', Ok s) →
  ∃ event, event ∈ events ∧
    tpl (field event "module") +:+ ":" +:+ tpl (field event "name") =
      tpl (field tx "module") +:+ ":" +:+ Constants.EVENT_COMMAND_EXECUTION_RESULT ∧
    (∃ w1 w2, run (method_includes (field event "topics") (field tx "id")) w1 = (w2, Ok true)) ∧
    s = VStr (if truthy (field (field event "data") "success") then Constants.TRANSACTION_STATUS_SUCCESS
              else Constants.TRANSACTION_STATUS_FAIL).
Proof.
  unfold Transactions.getTransactionExecutionStatus. intros Hr.
  apply run_bind_Ok in Hr as (w1 & m & Hm & Hr). apply run_lift_ok in Hm as [-> ->%prop_total]. cbv zeta in Hr.
  apply run_bind_Ok in Hr as (w2 & evs & Hevs & Hr). apply run_bind_Ok in Hr as (w3 & ev & Hev & Hr).
  apply run_pfind in Hev as [->|[Hin (wa & wb & Hev)]]; [simpl in Hr; inv_run|].
  destruct (run_pfilter _ _ _ _ _ Hevs _ Hin) as [Hine (wc & wd & Hm)].
  apply run_bind_Ok in Hm as (we & em & Hem & Hm). apply run_lift_ok in Hem as [-> ->%prop_total].
  apply run_bind_Ok in Hm as (wf & en & Hen & Hm). apply run_lift_ok in Hen as [-> ->%prop_total].
  apply run_ret_ok in Hm as [_ Hm]. symmetry in Hm. apply bool_decide_eq_true in Hm.
  apply run_bind_Ok in Hev as (wg & tp & Htp & Hev). apply run_lift_ok in Htp as [-> ->%prop_total].
  apply run_bind_Ok in Hev as (wh & id & Hid & Hev). apply run_lift_ok in Hid as [-> ->%prop_total].
  exists ev. destruct (truthy ev); [|inv_run]. inv_run.
  repeat match goal with H : prop _ _ = Ok _ |- _ => apply prop_total in H as -> end.
  split_and!; [done|exact Hm|by eexists _, _|done].
Qed.
End outcome.

(** ** indexStatus.js *)

Section readiness.
Context {E : Type} {HE : Engine E}.
Context {CFG : Config} {LC : LiskCrypto}.
Import IndexStatus.
Implicit Types w : world E.

Definition ready_in w : bool := truthy (default VUndef (w_vars w !! isIndexReady)).

(** Commands that leave the flag as it is. *)
Definition keeps_flag (c : cmd) : Prop := match c with CVarSet x _ => x ≠ isIndexReady | _ => True end.

Lemma keeps_flag_run {A} (p : prog A) w w' r : pall keeps_flag p → run p w = (w', r) → ready_in w' = ready_in w.
Proof.
  intros Hp Hr. eapply (pall_run keeps_flag (λ w', ready_in w' = ready_in w)); [|exact Hp|done|exact Hr].
  intros c w1 w2 r1 Hi Hc Hs. rewrite <- Hi. unfold ready_in.
  destruct c; simpl in Hs; try (destruct (handle _ _) in Hs; by simplify_eq); simplify_eq; [done|].
  simpl. by rewrite lookup_insert_ne.
Qed.

Lemma flag_getTableInstance n c ep : pall keeps_flag (Mysql.getTableInstance n c ep).
Proof.
  unfold Mysql.getTableInstance, Mysql.createTableIfNotExists, Mysql.getDbConnection, Mysql.loadSchema,
    Mysql.createDbConnection. pall.
Qed.

Lemma flag_find tb ps cols : pall keeps_flag (Mysql.find tb ps cols).
Proof. by apply pall_find. Qed.

Lemma flag_count tb ps : pall keeps_flag (Mysql.count tb ps).
Proof.
  unfold Mysql.count, Mysql.startDbTransaction, Mysql.commitDbTransaction, Mysql.rollbackDbTransaction. pall.
Qed.
#[local] Hint Resolve flag_getTableInstance flag_find flag_count : pall.

Lemma flag_getIndexStats : pall keeps_flag getIndexStats.
Proof.
  unfold getIndexStats, tableOf, Constants.getCurrentHeight, Constants.getGenesisHeight, first_of, iter_list,
    Request.requestConnector, Request.requestRpc. pall.
Qed.

Lemma js_ge_undefined v : js_ge VUndef v = false.
Proof.
  assert (js_compare VUndef v = None) as H.
  { unfold js_compare. destruct v; simpl; unfold num_of_flt; repeat case_match; done. }
  unfold js_ge, js_gt. by rewrite H.
Qed.

(** The index is declared ready only on evidence: when
    checkIndexReadiness sets the flag, the statistics were computed without
    an error, and they count at least as many indexed blocks as the chain
    has, but one.  A flag that is set stays set. *)
Theorem index_ready_justified w w' r :
  run checkIndexReadiness w = (w', Ok r) →
  (ready_in w = true → w' = w) ∧
  (ready_in w = false → ready_in w' = true →
   ∃ w1 stats, run getIndexStats w = (w1, Ok stats) ∧ field stats "numBlocksIndexed" ≠ VUndef ∧
     js_ge (field stats "numBlocksIndexed") (num_sub (to_number (field stats "chainLength")) (VNum 1)) = true).
Proof.
  unfold checkIndexReadiness, getIndexReadyStatus. intros Hr.
  apply run_bind_Ok in Hr as (w1 & flag & Hf & Hr). rewrite run_call in Hf. simpl in Hf.
  injection Hf as [= <- <-]. change (truthy (default VUndef (w_vars w !! isIndexReady))) with (ready_in w) in Hr.
  destruct (ready_in w) eqn:Ef; [by apply run_ret_ok in Hr as [-> _]|]. split; [done|]. intros _ Hready.
  apply run_bind_Ok in Hr as (w2 & valid & Hv & Hr). unfold validateIndexReadiness in Hv.
  apply run_bind_Ok in Hv as (w3 & stats & Hs & Hv). exists w3, stats.
  pose proof (keeps_flag_run _ _ _ _ flag_getIndexStats Hs) as Hflag.
  apply run_bind_Ok in Hv as (w4 & n & Hn & Hv). apply run_lift_ok in Hn as [-> ->%prop_total].
  apply run_bind_Ok in Hv as (w5 & len & Hl & Hv). apply run_lift_ok in Hl as [-> ->%prop_total].
  apply run_ret_ok in Hv as [-> Hv]. cbn [negb] in Hv.
  destruct valid; [|apply run_ret_ok in Hr as [-> _]; congruence].
  split_and!; [done| |done]. intros Eu. rewrite Eu, js_ge_undefined in Hv. done.
Qed.
End readiness.
