(* ===== verification/JobThms.v ===== *)
(** * What the jobs and the services guarantee

    Theorems on the coordinator's scheduler, on eventsProcessor.js, on
    dataService/blocks.js and dataService/transactions.js, and on the queries
    of business/blocks.js and business/transactions.js. *)
From S2P Require Export IndexThms Jobs Coordinator.
Open Scope string_scope.
Open Scope Z_scope.
Open Scope list_scope.

(** ** The coordinator *)

Section coordinator.
Import Coordinator.

(** A loop that sends a command per item has sent those of a first part of
    the list, and of all of it when none failed. *)
Lemma exec_piter_sent {A} (c : A → cmd) l tr out :
  exec (piter (λ x, _ ← call (c x); Ret tt) l) tr out →
  cmds tr `prefix_of` map c l ∧ (Forall (λ cr, is_ok cr.2 = true) tr → cmds tr = map c l ∧ out = Ok tt).
Proof.
  revert tr. induction l as [|x l IH]; intros tr; cbn [piter map].
  { intros [-> ->]%exec_ret_inv. by split. }
  intros [(tr1 & tr2 & u & -> & H1 & H2)|(e & H1 & ->)]%exec_bind;
    apply exec_bind in H1 as [(tra & trb & v & -> & Ha & Hb)|(e' & Ha & He)]; try done;
    apply exec_call_inv in Ha as ->; unfold cmds in *; simpl.
  - apply exec_ret_inv in Hb as [-> _]. destruct (IH _ H2) as [Hp Hall]. split; [by apply prefix_cons|].
    intros [_ Hok]%Forall_cons. destruct (Hall Hok) as [E1 E2]. split; [exact (f_equal (cons (c x)) E1)|exact E2].
  - by apply exec_ret_inv in Hb as [_ ?].
  - split; [apply prefix_cons, prefix_nil|]. by intros [? _]%Forall_cons.
Qed.

Definition rpc (method : string) (params : list (string * val)) : cmd := CRpc "indexer" method (VObj params).

End coordinator.

(** ** Batches of transactions *)

Lemma silent_exec {A} (p : prog A) tr out : pall (λ _, False) p → exec p tr out → tr = [].
Proof. intros Hp Hx. apply (pall_exec _ _ _ _ Hp) in Hx. by destruct Hx. Qed.

Section batches.
Import TransactionsBusiness.

Lemma silent_normalizeTransactions txs : pall (λ _, False) (normalizeTransactions txs).
Proof.
  unfold normalizeTransactions, bluebird_map, iter_list, Transactions.normalizeTransaction.
  pall. apply pall_pmap. pall.
Qed.

Definition byIDs (ids : list val) : cmd := CRpc "connector" "getTransactionsByIDs" (VObj [("ids", VArr ids)]).

Lemma exec_getTransactionsByIDs ids tr v :
  exec (getTransactionsByIDs ids) tr (Ok v) → cmds tr = [byIDs ids].
Proof.
  unfold getTransactionsByIDs, Request.requestConnector, Request.requestRpc.
  intros [(tr1 & tr2 & r & -> & H1 & H2)|(e & _ & ?)]%exec_bind; [|done].
  apply silent_exec in H2 as ->; [|apply silent_normalizeTransactions].
  apply exec_bind in H1 as [(tra & trb & x & -> & Ha & Hb)|(e & _ & ?)]; [|done].
  apply exec_call_inv in Ha as ->.
  assert (trb = []) as -> by (eapply silent_exec; [|exact Hb]; pall). done.
Qed.

(** The transactions of a page are requested from the node in batches
    of at most 25 IDs, none of them empty: every ID is asked for, once, in
    the order of the index, with as few requests as that allows. *)
Theorem fetchBatches_each_once ids tr l :
  exec (fetchBatches (length ids) ids) tr (Ok l) →
  ∃ batches, cmds tr = map byIDs batches ∧ concat batches = ids ∧
    Forall (λ b, 0 < length b ≤ 25)%nat batches ∧ length batches = ((length ids + 24) / 25)%nat.
Proof.
  assert (∀ n ids tr l, (length ids ≤ n)%nat → exec (fetchBatches n ids) tr (Ok l) →
    ∃ batches, cmds tr = map byIDs batches ∧ concat batches = ids ∧
      Forall (λ b, 0 < length b ≤ 25)%nat batches ∧ length batches = ((length ids + 24) / 25)%nat) as H.
  2: { by apply H. }
  clear. intros n. induction n as [|n IH]; intros ids tr l Hn Hx.
  { destruct ids; [|simpl in Hn; lia]. apply exec_ret_inv in Hx as [-> _]. by exists []. }
  destruct ids as [|x ids]; [apply exec_ret_inv in Hx as [-> _]; by exists []|].
  set (all := x :: ids) in *. cbn [fetchBatches] in Hx.
  apply exec_bind in Hx as [(tr1 & tr2 & b & -> & H1 & Hx)|(e & _ & ?)]; [|done].
  apply exec_bind in Hx as [(tr3 & tr4 & m & -> & H3 & H4)|(e & _ & ?)]; [|done].
  apply exec_ret_inv in H4 as [-> _]. rewrite app_nil_r.
  assert (0 < length all)%nat as Hpos by (simpl; lia).
  apply IH in H3 as (bs & Ht & Hc & Hf & Hl); [|rewrite length_drop; unfold BATCH_SIZE; lia].
  apply exec_getTransactionsByIDs in H1. exists (take BATCH_SIZE all :: bs).
  unfold cmds in *. split_and!.
  - by rewrite map_app, H1, Ht.
  - cbn [concat]. rewrite Hc. apply take_drop.
  - constructor; [|done]. rewrite length_take. unfold BATCH_SIZE. lia.
  - cbn [length]. rewrite Hl, length_drop. unfold BATCH_SIZE.
    destruct (Nat.le_gt_cases 25 (length all)).
    + replace (length all + 24)%nat with ((length all - 25 + 24) + 1 * 25)%nat by lia.
      rewrite Nat.div_add by lia. lia.
    + replace (length all - 25)%nat with 0%nat by lia.
      rewrite (Nat.div_small (0 + 24) 25) by lia.
      apply (Nat.div_unique _ _ 1 (length all - 1)); lia.
Qed.
End batches.

(** ** Commands that neither signal nor touch the stored last block *)

Definition ordinary (c : cmd) : Prop :=
  match c with
  | CSignal _ _ | CQueueAdd _ _ | CSetAdd _ _ | CSetPop _ _ => False
  | CCacheSet cache _ _ => cache ≠ "lastBlock"
  | _ => True
  end.

Lemma pall_piter {A} P (f : A → prog unit) l : (∀ x, pall P (f x)) → pall P (piter f l).
Proof. intros Hf. induction l; simpl; [done|]. by apply pall_bind. Qed.
Lemma pall_detach {A} P (p : prog A) : pall P p → pall P (detach p).
Proof. intros Hp. unfold detach. pall; by auto. Qed.
Lemma pall_bluebird {B} P v (f : val → prog B) : (∀ x, pall P (f x)) → pall P (bluebird_map v f).
Proof. intros Hf. unfold bluebird_map, iter_list. pall. by apply pall_pmap. Qed.

Lemma pall_closing {A} (P : cmd → Prop) t (p : prog A) :
  P (CTrxCommit t) → P (CTrxRollback t) → pall P p → pall P (Mysql.closing t p).
Proof. intros Hc Hr Hp. unfold Mysql.closing, Mysql.commitDbTransaction, Mysql.rollbackDbTransaction. pall; auto. Qed.

Ltac ordinary_step :=
  match goal with
  | |- pall _ (pmap _ _) => apply pall_pmap
  | |- pall _ (piter _ _) => apply pall_piter
  | |- pall _ (pfold _ _ _) => apply pall_pfold
  | |- pall _ (pfind _ _) => apply pall_pfind
  | |- pall _ (pfilter _ _) => apply pall_pfilter
  | |- pall _ (detach _) => apply pall_detach
  | |- pall _ (bluebird_map _ _) => apply pall_bluebird
  | |- pall _ (Mysql.closing _ _) => apply pall_closing; [done..|]
  | |- _ => pall_step
  end.
Ltac ordinary := repeat ordinary_step.

Section ordinary.
Context {CFG : Config} {LC : LiskCrypto} {LT : LiskTransactions} {LO : Locale}.

Lemma ordinary_requestConnector m ps : pall ordinary (Request.requestConnector m ps).
Proof. unfold Request.requestConnector, Request.requestRpc. ordinary. Qed.
#[local] Hint Resolve ordinary_requestConnector : pall.
Lemma ordinary_getTableInstance n c ep : pall ordinary (Mysql.getTableInstance n c ep).
Proof.
  unfold Mysql.getTableInstance, Mysql.createTableIfNotExists, Mysql.loadSchema, Mysql.getDbConnection,
    Mysql.createDbConnection. ordinary.
Qed.
#[local] Hint Resolve ordinary_getTableInstance : pall.
Lemma ordinary_tableOf s : pall ordinary (tableOf s).
Proof. unfold tableOf. ordinary. Qed.
Lemma ordinary_upsert tb rows trx : pall ordinary (Mysql.upsert tb rows trx).
Proof. unfold Mysql.upsert, Mysql.defaultTrx, Mysql.startDbTransaction. cbv zeta. ordinary. Qed.
Lemma ordinary_find tb ps cols : pall ordinary (Mysql.find tb ps cols).
Proof. by apply pall_find. Qed.
Lemma ordinary_count tb ps : pall ordinary (Mysql.count tb ps).
Proof.
  unfold Mysql.count, Mysql.startDbTransaction, Mysql.commitDbTransaction, Mysql.rollbackDbTransaction. ordinary.
Qed.
#[local] Hint Resolve ordinary_tableOf ordinary_upsert ordinary_find ordinary_count : pall.
Lemma ordinary_getIndexedAccountInfo ps cols : pall ordinary (Account.getIndexedAccountInfo ps cols).
Proof. unfold Account.getIndexedAccountInfo, Account.getAccountsTable, first_of, iter_list. ordinary. Qed.
Lemma ordinary_getNameByAddress a : pall ordinary (ValidatorNames.getNameByAddress a).
Proof. unfold ValidatorNames.getNameByAddress, Account.getAccountsTable. ordinary. Qed.
Lemma ordinary_getPosConstants : pall ordinary PosConstants.getPosConstants.
Proof. unfold PosConstants.getPosConstants. ordinary. Qed.
Lemma ordinary_getFinalizedHeight : pall ordinary Constants.getFinalizedHeight.
Proof. unfold Constants.getFinalizedHeight, Constants.updateFinalizedHeight. ordinary. Qed.
#[local] Hint Resolve ordinary_getIndexedAccountInfo ordinary_getNameByAddress ordinary_getPosConstants
  ordinary_getFinalizedHeight : pall.

(** *** The validators and the generators *)

Lemma ordinary_reloadGeneratorsCache : pall ordinary Generators.reloadGeneratorsCache.
Proof. unfold Generators.reloadGeneratorsCache, Generators.getGeneratorsInfo, iter_list. ordinary. Qed.
#[local] Hint Resolve ordinary_reloadGeneratorsCache : pall.
Lemma ordinary_getGenerators : pall ordinary Generators.getGenerators.
Proof. unfold Generators.getGenerators. ordinary. Qed.
#[local] Hint Resolve ordinary_getGenerators : pall.
Lemma ordinary_reloadValidatorCache : pall ordinary Validators.reloadValidatorCache.
Proof.
  unfold Validators.reloadValidatorCache, PosBusiness.isPosModuleRegistered, Validators.loadAllPosValidators,
    PosBusiness.getAllPosValidators, PosBusiness.setValidatorWeight, PosBusiness.verifyIfPunished,
    Validators.computeValidatorRank, Validators.computeValidatorStatus, Validators.getValidatorList,
    Validators.setValidatorList, Account.getAccountsTable, LastBlock.getLastBlock, array_method.
  ordinary.
Qed.
End ordinary.

(** ** eventsProcessor.js *)

Section newRound.
Context {CFG : Config} {LC : LiskCrypto} {LT : LiskTransactions} {LO : Locale}.

(** A run of a sequence that returns: the runs of its parts. *)
Lemma exec_lift_Ok {A} (r : result A) tr a : exec (lift r) tr (Ok a) → tr = [] ∧ r = Ok a.
Proof. by intros [-> <-]%exec_lift. Qed.

Lemma number_of_generators_nan tr v : exec Generators.getNumberOfGenerators tr (Ok v) → v = VFlt S754_nan.
Proof.
  unfold Generators.getNumberOfGenerators, PosConstants.getPosConstants.
  intros (tr1 & tr2 & c & -> & H1 & H2)%exec_bind_Ok.
  do 3 (apply exec_bind_Ok in H1 as (? & ? & ? & -> & _ & H1)). apply exec_ret_inv in H1 as [_ [= ->]].
  do 2 (apply exec_bind_Ok in H2 as (? & ? & ? & -> & [_ [= <-]]%exec_lift_Ok & H2)).
  by apply exec_lift_Ok in H2 as [_ [= <-]].
Qed.

Lemma no_page tr r :
  exec (GeneratorsService.getGenerators (VObj [("limit", VFlt S754_nan); ("offset", VNum 0)])) tr (Ok r) →
  field r "data" = VArr [].
Proof.
  unfold GeneratorsService.getGenerators, slice_page.
  do 2 (intros (? & ? & ? & -> & [_ [= <-]]%exec_lift_Ok & H)%exec_bind_Ok; revert H).
  do 3 (intros (? & ? & ? & -> & _ & H)%exec_bind_Ok; revert H).
  intros (? & ? & page & -> & Hp & H)%exec_bind_Ok. apply exec_ret_inv in H as [_ [= ->]].
  apply exec_bind_Ok in Hp as (? & ? & e & -> & [_ [= <-]]%exec_lift_Ok & Hp).
  apply exec_ret_inv in Hp as [_ [= ->]]. unfold slice. by destruct (concat _).
Qed.

(** A signal in a run of a sequence whose first part sends none. *)
Lemma signal_after {A B} (p : prog A) (f : A → prog B) tr out n v r :
  pall ordinary p → exec (p ≫= f) tr out → (CSignal n v, r) ∈ tr →
  ∃ tr1 tr2 a, exec p tr1 (Ok a) ∧ exec (f a) tr2 out ∧ (CSignal n v, r) ∈ tr2.
Proof.
  intros Hp Hx Hin.
  assert (∀ tr' o, exec p tr' o → (CSignal n v, r) ∉ tr') as Hno.
  { intros tr' o Ho Hi. apply (pall_exec _ _ _ _ Hp) in Ho.
    rewrite Forall_forall in Ho. by specialize (Ho _ Hi). }
  apply exec_bind in Hx as [(tr1 & tr2 & a & -> & H1 & H2)|(e & H1 & _)]; [|by apply Hno in H1].
  apply elem_of_app in Hin as [Hin|Hin]; [by apply Hno in H1|]. by eauto 6.
Qed.

Lemma ordinary_getNumberOfGenerators : pall ordinary Generators.getNumberOfGenerators.
Proof. unfold Generators.getNumberOfGenerators. ordinary. apply ordinary_getPosConstants. Qed.

Lemma ordinary_service_getGenerators ps : pall ordinary (GeneratorsService.getGenerators ps).
Proof.
  unfold GeneratorsService.getGenerators, GeneratorsService.withStatus, GeneratorsService.validatorOf,
    Validators.getAllValidators, Validators.getValidatorList, slice_page.
  ordinary; first [apply ordinary_getGenerators|apply ordinary_reloadValidatorCache].
Qed.

(** A new round is announced without its generators: whatever
    generators and validators the node reports, the signal newRound carries
    an empty list, since the page that is asked for has the length NaN. *)
Theorem newRound_announces_nobody tr out :
  exec EventsProcessor.newRoundProcessor tr out →
  ∀ name payload r, (CSignal name payload, r) ∈ tr →
    name = "newRound" ∧ payload = VObj [("generators", VArr [])].
Proof.
  unfold EventsProcessor.newRoundProcessor. intros Hx n v r Hin.
  destruct (signal_after _ _ _ _ _ _ _ ordinary_reloadValidatorCache Hx Hin) as (_ & tr1 & u1 & _ & Hx1 & Hin1).
  destruct (signal_after _ _ _ _ _ _ _ ordinary_reloadGeneratorsCache Hx1 Hin1) as (_ & tr2 & u2 & _ & Hx2 & Hin2).
  destruct (signal_after _ _ _ _ _ _ _ ordinary_getNumberOfGenerators Hx2 Hin2)
    as (tr3' & tr3 & limit & H3 & Hx3 & Hin3). apply number_of_generators_nan in H3 as ->.
  destruct (signal_after _ _ _ _ _ _ _ (ordinary_service_getGenerators _) Hx3 Hin3)
    as (tr4' & tr4 & gs & H4 & Hx4 & Hin4). apply no_page in H4.
  destruct (signal_after _ _ _ _ _ _ _ (pall_lift _ _) Hx4 Hin4) as (tr5' & tr5 & d & H5 & Hx5 & Hin5).
  apply exec_lift_Ok in H5 as [_ H5]. unfold field in H4. rewrite H5 in H4. subst d.
  simpl in Hx5. inversion Hx5 as [| |c k r' tr' o Hk]; subst.
  apply elem_of_cons in Hin5 as [[= -> -> ->]|Hin5]; [done|].
  assert (tr' = []) as -> by (eapply silent_exec; [|exact Hk]; by destruct r').
  by apply elem_of_nil in Hin5.
Qed.
End newRound.

(** ** dataService/blocks.js *)

Section lastBlock.
Context {CFG : Config} {LC : LiskCrypto} {LT : LiskTransactions} {LO : Locale}.
Import BlocksBusiness.

#[local] Hint Resolve ordinary_requestConnector ordinary_tableOf ordinary_upsert ordinary_find ordinary_count
  ordinary_getIndexedAccountInfo ordinary_getNameByAddress ordinary_getFinalizedHeight : pall.

Lemma ordinary_getEventsByHeight h : pall ordinary (EventsBusiness.getEventsByHeight h).
Proof. unfold EventsBusiness.getEventsByHeight, EventsBusiness.getEventsByHeightFromNode, array_method. ordinary. Qed.
#[local] Hint Resolve ordinary_getEventsByHeight : pall.

Lemma ordinary_normalizeBlock b : pall ordinary (normalizeBlock b).
Proof.
  unfold normalizeBlock, generatorOf, eventsAndReward, isBlockRewardEvent, addTransaction,
    Transactions.normalizeTransaction, first_of, iter_list, array_method. ordinary.
Qed.
#[local] Hint Resolve ordinary_normalizeBlock : pall.

Lemma ordinary_getBlocks params : pall ordinary (BlocksBusiness.getBlocks params).
Proof.
  unfold BlocksBusiness.getBlocks, renameBlockID, normalizeRanges, isQueryFromIndex, fetchBlocks, getBlocksByIDs,
    normalizeBlocks, getBlockByID, getBlockByHeight, getLastBlock, pageIfAsked, slice_page, truthy_and_includes,
    method_includes, array_method. ordinary.
Qed.

(** What a command stores as the last block. *)
Definition stores_last (c : cmd) : option val :=
  match c with CCacheSet cache _ v => if bool_decide (cache = "lastBlock") then Some v else None | _ => None end.

Lemma ordinary_stores_nothing {A} (p : prog A) tr out :
  pall ordinary p → exec p tr out → omap stores_last (cmds tr) = [].
Proof.
  intros Hp Hx. apply (pall_exec _ _ _ _ Hp) in Hx. unfold cmds.
  induction Hx as [|[c r] tr Hc _ IH]; [done|]. cbn [map fst omap list_omap].
  assert (stores_last c = None) as ->; [|exact IH].
  destruct c; try done. simpl in *. by rewrite bool_decide_false.
Qed.

Lemma cmds_app tr1 tr2 : cmds (tr1 ++ tr2) = cmds tr1 ++ cmds tr2.
Proof. apply map_app. Qed.

(** Every query for blocks stores each block of its answer as the last
    block, in turn, a block of the past included: the cache then holds the
    last one of the page that was asked for, whatever the chain's last block
    is.  Nothing else is stored, and a block that has no JSON text is skipped. *)
Theorem getBlocks_overwrites_last_block params tr data meta :
  exec (BlocksService.getBlocksFromServer params) tr (Ok (data, meta)) →
  omap stores_last (cmds tr) =
    omap (λ block, match json_stringify block with Ok text => Some text | Err _ => None end) (arr_of data).
Proof.
  unfold BlocksService.getBlocksFromServer.
  intros (tr1 & ? & resp & -> & H1 & Hx)%exec_bind_Ok.
  apply exec_bind_Ok in Hx as (tr2 & ? & [data' meta'] & -> & H2 & Hx).
  apply exec_bind_Ok in Hx as (tr3 & ? & u & -> & H3 & Hx). apply exec_ret_inv in Hx as [-> [= -> ->]].
  rewrite app_nil_r, !cmds_app, !omap_app.
  rewrite (ordinary_stores_nothing _ _ _ (ordinary_getBlocks _) H1).
  rewrite (ordinary_stores_nothing (TransactionsService.dataAndMeta resp) tr2 (Ok (data', meta')));
    [|unfold TransactionsService.dataAndMeta; ordinary|done].
  simpl. revert tr3 H3. induction (arr_of data') as [|b l IH]; intros tr3; cbn [piter].
  { by intros [-> _]%exec_ret_inv. }
  intros (tra & trb & v & -> & Ha & Hb)%exec_bind_Ok. rewrite cmds_app, omap_app, (IH _ Hb).
  assert (omap stores_last (cmds tra) =
            omap (λ block, match json_stringify block with Ok text => Some text | Err _ => None end) [b]) as ->.
  2: { by rewrite <- omap_app. }
  unfold LastBlock.setLastBlock, detach in Ha. simpl. destruct (json_stringify b) as [text|e]; simpl in Ha.
  - inversion Ha as [| |c k r tr o Hk]; subst.
    assert (tr = []) as -> by (eapply silent_exec; [|exact Hk]; by destruct r). done.
  - by apply exec_ret_inv in Ha as [-> _].
Qed.
End lastBlock.

(** ** business/blocks.js: the totals of a block *)

Section totals.
Context {CFG : Config} {LC : LiskCrypto}.
Import BlocksBusiness.

Definition sumZ : list Z → Z := foldr Z.add 0.

(** What parseToJSONCompatObj makes of the value of a property. *)
Definition json_value (v : val) : val :=
  match v with
  | VBig z => VStr (pretty z)
  | VArr l => VArr (map Parser.parseToJSONCompatObj l)
  | VObj _ => Parser.parseToJSONCompatObj v
  | u => u
  end.

Lemma field_parse o k : field (Parser.parseToJSONCompatObj (VObj o)) k = json_value (field (VObj o) k).
Proof.
  assert (Parser.parseToJSONCompatObj (VObj o) = VObj (map (λ kv, (kv.1, json_value kv.2)) o)) as ->.
  { simpl. f_equal. apply map_ext. intros [k' v]. by destruct v. }
  unfold field, prop. rewrite oget_map. by destruct (oget o k).
Qed.

(** The transaction as it appears in the block. *)
Definition normalized (tx n : val) : Prop :=
  ∃ m c, prop tx "module" = Ok m ∧ prop tx "command" = Ok c ∧
         n = Parser.parseToJSONCompatObj (set_field tx "moduleCommand" (VStr (tpl m +:+ ":" +:+ tpl c))).

Definition amount_in (k : string) (n : val) (z : Z) : Prop := to_bigint (field n k) = Ok z.

Lemma exec_normalizeTransaction tx tr n : exec (Transactions.normalizeTransaction tx) tr (Ok n) → normalized tx n.
Proof.
  unfold Transactions.normalizeTransaction.
  intros (? & ? & m & -> & [_ Hm]%exec_lift_Ok & H)%exec_bind_Ok.
  apply exec_bind_Ok in H as (? & ? & c & -> & [_ Hc]%exec_lift_Ok & H).
  apply exec_ret_inv in H as [_ [= ->]]. by exists m, c.
Qed.

Lemma exec_bigint_of n k (f : Z → prog totals) tr t :
  exec (v ← n @. k; z ← lift (to_bigint v); f z) tr (Ok t) → ∃ z tr', amount_in k n z ∧ exec (f z) tr' (Ok t).
Proof.
  intros (? & ? & v & -> & [_ Hv]%exec_lift_Ok & H)%exec_bind_Ok.
  apply exec_bind_Ok in H as (? & tr' & z & -> & [_ Hz]%exec_lift_Ok & H).
  exists z, tr'. split; [|done]. unfold amount_in, field. by rewrite Hv.
Qed.

Lemma exec_addTransactions txs t tr t' :
  exec (pfold addTransaction t txs) tr (Ok t') →
  ∃ ns fees mins, Forall2 normalized txs ns ∧ Forall2 (amount_in "fee") ns fees ∧ Forall2 (amount_in "minFee") ns mins ∧
    t_forged t' = t_forged t + sumZ fees ∧ t_burnt t' = t_burnt t + sumZ mins ∧
    t_fee t' = t_fee t + (sumZ fees - sumZ mins) ∧ t_txs t' = t_txs t ++ ns.
Proof.
  revert t tr. induction txs as [|tx txs IH]; intros t tr; cbn [pfold].
  { intros [_ [= ->]]%exec_ret_inv. exists [], [], []. rewrite app_nil_r. cbn. split_and!; try constructor; lia. }
  intros (tr1 & tr2 & t1 & -> & H1 & H2)%exec_bind_Ok.
  unfold addTransaction in H1.
  apply exec_bind_Ok in H1 as (? & ? & n & -> & Hn%exec_normalizeTransaction & H1).
  apply exec_bind_Ok in H1 as (? & ? & size & -> & _ & H1).
  apply exec_bind_Ok in H1 as (? & ? & size' & -> & _ & H1).
  apply exec_bigint_of in H1 as (fee & ? & Hf & H1). apply exec_bigint_of in H1 as (min & ? & Hm & H1).
  apply exec_ret_inv in H1 as [_ [= ->]].
  apply IH in H2 as (ns & fees & mins & ? & ? & ? & E1 & E2 & E3 & E4). simpl in *.
  exists (n :: ns), (fee :: fees), (min :: mins).
  split_and!; try (by constructor); simpl; [lia..|]. by rewrite E4, <- app_assoc.
Qed.

(** The totals of a block account for every fee: totalForged is the
    reward of the block and all the fees of its transactions, totalBurnt the
    minimal fees and networkFee the rest, in exact integers whatever their
    size, so networkFee and totalBurnt add up to the fees. *)
Theorem normalizeBlock_totals original txs tr b :
  prop original "transactions" = Ok (VArr txs) → exec (normalizeBlock original) tr (Ok b) →
  ∃ ns fees mins reward forged,
    Forall2 normalized txs ns ∧ Forall2 (amount_in "fee") ns fees ∧ Forall2 (amount_in "minFee") ns mins ∧
    to_bigint (js_or reward (VStr "0")) = Ok forged ∧ field b "reward" = json_value reward ∧
    field b "transactions" = VArr (map Parser.parseToJSONCompatObj ns) ∧
    field b "numberOfTransactions" = VNum (Z.of_nat (length txs)) ∧
    field b "totalForged" = VStr (pretty (forged + sumZ fees)) ∧
    field b "totalBurnt" = VStr (pretty (sumZ mins)) ∧
    field b "networkFee" = VStr (pretty (sumZ fees - sumZ mins)).
Proof.
  intros Ht. unfold normalizeBlock. intros [(b' & Hx & [= <-])|(tr1 & tr2 & e & -> & _ & Hx)]%exec_catch.
  2: { do 2 (apply exec_bind_Ok in Hx as (? & ? & ? & -> & _ & Hx)). by apply exec_throw_inv in Hx as [_ ?]. }
  do 2 (apply exec_bind_Ok in Hx as (? & ? & ? & -> & _ & Hx)).
  apply exec_bind_Ok in Hx as (? & ? & transactions & -> & [_ E]%exec_lift_Ok & Hx).
  rewrite Ht in E. injection E as [= <-].
  apply exec_bind_Ok in Hx as (? & ? & assets & -> & _ & Hx). cbv zeta in Hx.
  apply exec_bind_Ok in Hx as (? & ? & block & -> & Hblock & Hx).
  assert (∃ o, block = VObj o) as [o ->].
  { destruct (truthy _); [apply exec_bind_Ok in Hblock as (? & ? & ? & -> & _ & Hblock)|];
      apply exec_ret_inv in Hblock as [_ [= ->]]; by eexists. }
  clear Hblock. apply exec_bind_Ok in Hx as (? & ? & finalizedHeight & -> & _ & Hx).
  apply exec_bind_Ok in Hx as (? & ? & nTx & -> & [_ E]%exec_lift_Ok & Hx). injection E as [= <-].
  apply exec_bind_Ok in Hx as (? & ? & nAssets & -> & _ & Hx).
  apply exec_bind_Ok in Hx as (? & ? & [nEvents reward] & -> & _ & Hx).
  apply exec_bind_Ok in Hx as (? & ? & forged & -> & [_ Hforged]%exec_lift_Ok & Hx).
  apply exec_bind_Ok in Hx as (? & ? & l & -> & Hl & Hx). apply exec_ret_inv in Hl as [_ [= ->]].
  apply exec_bind_Ok in Hx as (? & ? & t & -> & Hts & Hx). apply exec_ret_inv in Hx as [_ Hb].
  assert (∀ x y : val, Ok x = Ok y → x = y) as Hinj by congruence. apply Hinj in Hb as ->. clear Hinj.
  apply exec_addTransactions in Hts as (ns & fees & mins & ? & ? & ? & E1 & E2 & E3 & E4).
  exists ns, fees, mins, reward, forged. rewrite !field_parse. unfold field.
  cbn [prop ospread fold_left fst snd set_field props].
  split_and!; try done; rewrite !oget_oset; simpl; by rewrite ?E1, ?E2, ?E3, ?E4.
Qed.
End totals.

(** ** dataService/transactions.js: pending transactions come first *)

Section merge.
Context {CFG : Config} {LC : LiskCrypto}.
Import TransactionsService.

Lemma exec_dataAndMeta resp tr d m :
  exec (dataAndMeta resp) tr (Ok (d, m)) → arr_of d = arr_of (field resp "data") ∧ m = js_or (field resp "meta") (VObj []).
Proof.
  unfold dataAndMeta. intros (? & ? & data & -> & [_ Hd]%exec_lift_Ok & H)%exec_bind_Ok.
  apply exec_bind_Ok in H as (? & ? & meta & -> & [_ Hm]%exec_lift_Ok & H).
  apply exec_ret_inv in H as [_ [= -> ->]]. unfold field. rewrite Hd, Hm. split; [|done].
  unfold js_or. destruct (truthy data) eqn:Ht; [done|]. by destruct data.
Qed.

(** The page of the indexed transactions that is asked for after the pending ones. *)
Definition remaining_params (params : val) (total : val) (n : nat) : val :=
  VObj (ospread (ospread [] (props params))
    [("limit", num_max (VNum 1) (num_sub (to_number (field params "limit"))
                                         (num_sub (to_number total) (VNum (Z.of_nat n)))));
     ("offset", num_max (VNum 0) (num_sub (to_number (field params "offset")) (to_number total)))]).

Lemma merged_page lim (l l' : list val) :
  0 ≤ lim →
  (if strict_eq (VNum (Z.of_nat (length l))) (VNum lim) then l else Validators.slice_to (VNum lim) (l ++ l')) =
  take (Z.to_nat lim) (l ++ l').
Proof.
  intros Hpos. unfold strict_eq. destruct (Z.eqb_spec (Z.of_nat (length l)) lim) as [<-|Hne].
  - by rewrite Nat2Z.id, take_app_length.
  - unfold Validators.slice_to, int_arg, to_number. rewrite slice_nonneg by lia. by rewrite Nat.sub_0_r.
Qed.

(** A merged page of transactions is the pending ones that match, and
    then the indexed ones of the remaining page, cut to the limit: no page is
    longer than its limit, and an error of the index is only passed on when
    no pending transaction matches. *)
Theorem mergeTransactions_page params lim tr r :
  prop params "limit" = Ok (VNum lim) → 0 ≤ lim → exec (mergeTransactions params) tr (Ok r) →
  ∃ tr1 resp pending indexed,
    exec (Pending.getPendingTransactions params) tr1 (Ok resp) ∧ pending = arr_of (field resp "data") ∧
    (let rest := remaining_params params (field (js_or (field resp "meta") (VObj [])) "total") (length pending) in
     (∃ tr2 resp2, exec (TransactionsBusiness.getTransactions rest) tr2 (Ok resp2) ∧
                   indexed = arr_of (field resp2 "data")) ∨
     (pending ≠ [] ∧ indexed = [])) ∧
    field r "data" = VArr (take (Z.to_nat lim) (pending ++ indexed)) ∧
    field (field r "meta") "count" = VNum (Z.of_nat (length (take (Z.to_nat lim) (pending ++ indexed)))).
Proof.
  intros Hlim Hpos. unfold mergeTransactions.
  intros (tr1 & ? & resp & -> & Hp & Hx)%exec_bind_Ok.
  apply exec_bind_Ok in Hx as (? & ? & [pd pm] & -> & [Hpd ->]%exec_dataAndMeta & Hx).
  apply exec_bind_Ok in Hx as (? & ? & offset & -> & [_ Hoff]%exec_lift_Ok & Hx).
  apply exec_bind_Ok in Hx as (? & ? & limit & -> & [_ Hl]%exec_lift_Ok & Hx).
  rewrite Hlim in Hl. injection Hl as [= <-]. cbv zeta in Hx. rewrite Hpd in Hx.
  apply exec_bind_Ok in Hx as (tr2 & ? & [td tm] & -> & Hi & Hx).
  apply exec_bind_Ok in Hx as (? & ? & total & -> & _ & Hx). apply exec_ret_inv in Hx as [_ [= ->]].
  set (pending := arr_of (field resp "data")) in *.
  exists tr1, resp, pending, (arr_of td). split_and!; [done|done| | |].
  - cbv zeta. apply exec_catch in Hi as [([] & Hi & [= <- <-])|(tra & trb & e & -> & _ & Hi)].
    + left. apply exec_bind_Ok in Hi as (trc & ? & resp2 & -> & Hg & Hi).
      apply exec_dataAndMeta in Hi as [-> _]. exists trc, resp2. split; [|done].
      unfold remaining_params.
      replace (field params "limit") with (VNum lim) by (unfold field; by rewrite Hlim).
      by replace (field params "offset") with offset by (unfold field; by rewrite Hoff).
    + right. destruct pending; [by apply exec_throw_inv in Hi as [_ ?]|].
      by apply exec_ret_inv in Hi as [_ [= -> _]].
  - rewrite <- (merged_page lim pending (arr_of td)) by done. done.
  - rewrite <- (merged_page lim pending (arr_of td)) by done. done.
Qed.
End merge.
