(* ===== verification/Witnesses.v ===== *)
(** * Concrete instances of the theorems

    For each theorem with hypotheses, an input on which they hold: the code
    run on the in-memory engine of [MemDb] with the sample chain of
    [Fixtures], and what the theorem says of that run. *)
From S2P Require Export ValidatorThms IndexThms JobThms.
Open Scope string_scope.
Open Scope Z_scope.
Open Scope list_scope.
Import Fixtures.

Definition end_of {A} (p : prog A) (w : world mem) : world mem := (run p w).1.

Lemma run_eq {A} (p : prog A) (w : world mem) r : (run p w).2 = r → run p w = (end_of p w, r).
Proof. intros <-. apply surjective_pairing. Qed.

Lemma exec_eq {A} (p : prog A) (w : world mem) r : (run p w).2 = r → exec p (trace_of p w) r.
Proof. intros <-. apply exec_trace_of. Qed.

(** A run computed to its outcome. *)
Tactic Notation "runs" constr(p) constr(w) constr(r) := exact (run_eq p w r ltac:(vm_compute; reflexivity)).
Tactic Notation "execs" constr(p) constr(w) constr(r) := exact (exec_eq p w r ltac:(vm_compute; reflexivity)).

(** ** Atomic, Discipline *)

(** With failing statements on blocks the job throws after it has written to
    every other table; of all that only the public key is left. *)
Lemma indexBlock_atomic_witness :
  (run (BlockchainIndex.indexBlock index_job) (failing "blocks")).2 = Err db_error ∧
  committed (end_of (BlockchainIndex.indexBlock index_job) (failing "blocks")) "accounts" ≠ [] ∧
  same_rows (db (failing "blocks")) (db (end_of (BlockchainIndex.indexBlock index_job) (failing "blocks"))).
Proof.
  split; [vm_compute; reflexivity|]. split; [vm_compute; discriminate|].
  refine (indexBlock_atomic index_job (failing "blocks") _ (Err db_error) _).
  runs (BlockchainIndex.indexBlock index_job) (failing "blocks") (Err db_error : result unit).
Defined.


Lemma handlers_keep_block_transaction_witness :
  let tr := trace_of (dispatchApply the_header stake_tx (VArr []) 0) fresh in
  length tr = 55%nat ∧ statements_ok (Some 0) tr.
Proof.
  split; [vm_compute; reflexivity|].
  apply (handlers_keep_block_transaction the_header stake_tx (VArr []) 0 _ (Ok VUndef)). left.
  execs (dispatchApply the_header stake_tx (VArr []) 0) fresh (Ok VUndef).
Defined.

Lemma handlers_commit_nothing_witness :
  let w' := end_of (dispatchRevert the_header stake_tx (VArr []) 0) fresh in
  rows_in w' 0 "key_value_store" ≠ [] ∧
  same_rows (db fresh) (db w') ∧ is_Some (sq_pending (db w') !! 0).
Proof.
  split; [vm_compute; discriminate|].
  apply (handlers_commit_nothing false the_header stake_tx (VArr []) 0 fresh _ (Ok VUndef)); [by eexists|].
  runs (dispatchRevert the_header stake_tx (VArr []) 0) fresh (Ok VUndef).
Defined.

(** ** MysqlThms *)

Definition accountsTable : table := mkTable (tableName Schemas.accounts) Schemas.accounts.
Definition new_account : val := VObj [("name", VStr "x"); ("address", VStr "lskaa"); ("unknown", VNum 1)].

Lemma mapRow_columns_witness :
  NoDup (schema Schemas.accounts).*1 ∧
  match (list_to_map (schema Schemas.accounts) : gmap string column_def) !! "name" with
  | Some d => ∃ v', Mysql.cast (VStr "x") (col_type d) = Ok v' ∧
                oget [("address", VStr "lskaa"); ("name", VStr "x")] "name" = Some (Mysql.getValue v') ∧
                storable (Mysql.getValue v')
  | None => oget [("address", VStr "lskaa"); ("name", VStr "x")] "name" = None
  end.
Proof.
  assert (NoDup (schema Schemas.accounts).*1) as Hnd by (apply (bool_decide_unpack _); vm_compute; exact I).
  split; [exact Hnd|].
  exact (mapRow_columns (schema Schemas.accounts) (props new_account)
           [("address", VStr "lskaa"); ("name", VStr "x")] Hnd eq_refl "name").
Defined.


Lemma upsert_commits_all_rows_witness :
  let w' := end_of (Mysql.upsert accountsTable new_account None) worker in
  committed w' "accounts" = [[("address", VStr "lskaa"); ("name", VStr "x")]] ∧
  ∃ t rs, Mysql.mapRowsBySchema [new_account] (schema Schemas.accounts) = Ok rs ∧
    sq_rows (db w') = fold_left (apply_write (sq_tables (db worker))) (map (insert_call accountsTable t) rs)
                        (sq_rows (db worker)) ∧
    sq_pending (db w') = sq_pending (db worker).
Proof.
  split; [vm_compute; reflexivity|].
  refine (upsert_commits_all_rows accountsTable new_account worker _ (Ok (VArr [VNum 0])) _).
  runs (Mysql.upsert accountsTable new_account None) worker (Ok (VArr [VNum 0])).
Defined.

(** Transaction 0 has written a row that the query does not see. *)
Definition pending_account : world mem := end_of (Mysql.upsert accountsTable new_account (Some 0)) fresh.
Definition find_accounts : prog val :=
  Mysql.find accountsTable (VObj [("limit", VNum 1)]) (strs ["name"]).

Lemma find_reads_committed_witness :
  rows_in pending_account 0 "accounts" ≠ [] ∧
  ∃ t query,
    Mysql.queryBuilder [("limit", VNum 1)] (strs ["name"]) t = Ok query ∧
    VArr [] = select (default [] (sq_tables (db pending_account) !! "accounts")) query
                (rows_of (sq_rows (db pending_account)) "accounts") ∧
    sq_rows (db (end_of find_accounts pending_account)) = sq_rows (db pending_account) ∧
    sq_pending (db (end_of find_accounts pending_account)) = sq_pending (db pending_account).
Proof.
  split; [vm_compute; discriminate|].
  apply (find_reads_committed accountsTable (VObj [("limit", VNum 1)]) (strs ["name"]) pending_account).
  runs find_accounts pending_account (Ok (VArr [])).
Defined.

(** ** HelperThms *)

Lemma kv_store_roundtrip_witness :
  kv_value (VBig (2 ^ 80)) ∧
  ∃ row, Mysql.mapRow (schema Schemas.kvStore) (KvStore.kv_row "k" (VBig (2 ^ 80))) = Ok row ∧
         KvStore.formatValue (column row "value") (column row "type") = Ok (VBig (2 ^ 80)).
Proof. split; [exact I|]. exact (kv_store_roundtrip "k" (VBig (2 ^ 80)) I). Defined.

Lemma dropDuplicates_spec_witness :
  let l := [VStr "a"; VNum 1; VStr "a"; VNum 2; VNum 1] in
  Arr.dropDuplicates l = [VStr "a"; VNum 1; VNum 2] ∧ NoDup (Arr.dropDuplicates l).
Proof. split; [reflexivity|]. apply dropDuplicates_spec. repeat constructor. Defined.

Lemma range_spec_witness : ∃ l, Arr.range 3 (Some 7) 1 = Ok l ∧ NoDup l ∧ ∀ h, h ∈ l ↔ 3 ≤ h < 7.
Proof. exact (range_spec 3 7 ltac:(discriminate)). Defined.

Definition range_params : list (string * val) := [("height", VStr "5:9"); ("limit", VNum 10)].

Lemma normalizeRangeParam_range_witness :
  let params' := VObj [("limit", VNum 10);
    ("propBetweens", VArr [VObj [("property", VStr "height"); ("from", VNum 5); ("to", VNum 9)]])] in
  Param.normalizeRangeParam (VObj range_params) "height" = Ok params' ∧
  ∃ bound, field params' "propBetweens" = VArr ([] ++ [bound]) ∧ ordered bound ∧
    oget (props params') "limit" = Some (VNum 10).
Proof.
  intros params'. assert (Param.normalizeRangeParam (VObj range_params) "height" = Ok params') as E
    by (vm_compute; reflexivity).
  split; [exact E|].
  destruct (normalizeRangeParam_range range_params "height" "5:9" params' ltac:(discriminate) eq_refl eq_refl E)
    as (bound & Hb & _ & _ & _ & Ho & _ & _ & Hk).
  exists bound. split; [exact Hb|]. split; [exact Ho|]. apply (Hk "limit"); discriminate.
Defined.

(** A remote list of seven entries, three to a page. *)
Definition seven : list val := map VNum [1; 2; 3; 4; 5; 6; 7].
Definition pages_of_seven (ps : list (string * val)) : prog val :=
  Ret (match field (VObj ps) "limit", field (VObj ps) "offset" with
       | VNum n, VNum k => VArr (take (Z.to_nat n) (drop (Z.to_nat k) seven))
       | _, _ => VUndef
       end).

Lemma requestAll_complete_witness :
  (run (RequestAll.requestAll pages_of_seven [("limit", VNum 3)] (Some 100)) worker).2 = Ok (VArr seven) ∧
  run (RequestAll.requestAll pages_of_seven [("limit", VNum 3)] (Some 100)) worker = (worker, Ok (VArr (take 100 seven))).
Proof.
  split; [vm_compute; reflexivity|].
  refine (requestAll_complete worker seven pages_of_seven _ [("limit", VNum 3)] 3 100 eq_refl eq_refl eq_refl).
  intros ps limit offset Hl Ho. unfold pages_of_seven, field, prop. by rewrite Hl, Ho.
Defined.

Lemma address_forms_roundtrip_witness :
  Account.getHexAddress "lsk0aff" = Ok "0aff" ∧ Account.getLisk32Address "lsk0aff" = Ok "lsk0aff".
Proof.
  refine (address_forms_roundtrip _ [10; 255] "lsk0aff" _ eq_refl); [|by repeat constructor].
  intros b a Hb [= <-]. split; [apply (starts_with_app "lsk")|].
  change (Ok (bytes_of_hex (String.substring 0 (String.length (hex_of_bytes b) - 0) (hex_of_bytes b))) = Ok b).
  by rewrite Nat.sub_0_r, substring_all, bytes_of_hex_of_bytes.
Defined.

(** ** ValidatorThms *)

Definition validator_heavy : list (string * val) :=
  [("address", VStr "lskaa"); ("isBanned", VBool false); ("reportMisbehaviorHeights", VArr []);
   ("selfStake", VStr "10"); ("totalStake", VStr "500")].

Lemma setValidatorWeight_weight_witness :
  ∃ v' x, (run (PosBusiness.setValidatorWeight (VObj validator_heavy)) worker).2 = Ok v' ∧
    field v' "validatorWeight" = VBig x ∧ (Ok 500 = Ok x ∨ ∃ self, Ok 10 = Ok self ∧ x = 10 * self).
Proof.
  set (v' := VObj (oset (oset validator_heavy "totalStake" (VBig 500)) "validatorWeight" (VBig 100))).
  assert ((run (PosBusiness.setValidatorWeight (VObj validator_heavy)) worker).2 = Ok v') as E
    by (vm_compute; reflexivity).
  destruct (setValidatorWeight_weight validator_heavy worker _ v' (run_eq _ _ _ E)) as (x & Hx & _ & _ & H).
  exists v', x. split; [exact E|]. split; [exact Hx|]. exact (H eq_refl eq_refl).
Defined.

(** The lighter validator is first in the cache; it has been punished. *)
Definition validator_a : list (string * val) :=
  [("address", VStr "lskaa"); ("validatorWeight", VBig 1); ("hexAddress", VStr "aa"); ("isBanned", VBool false);
   ("punishmentPeriods", VArr [VObj [("start", VNum 0); ("end", VNum 100)]])].
Definition validator_b : list (string * val) :=
  [("address", VStr "lskbb"); ("validatorWeight", VBig 5); ("hexAddress", VStr "bb"); ("isBanned", VBool false);
   ("punishmentPeriods", VArr [])].
Definition two_validators : list val := [VObj validator_a; VObj validator_b].
Definition cached : world mem :=
  mkWorld {[Validators.validatorList := VArr two_validators]}
    (with_rpc (mem_of [] [])
       (ok_rpc "getGenerators" (VObj [("list", VArr [VObj [("address", VStr "lskaa")]])]) :: node)).

Lemma validatorComparator_sorts_witness :
  js_sort Validators.validatorComparator two_validators = Ok [VObj validator_b; VObj validator_a] ∧
  ∃ l', js_sort Validators.validatorComparator two_validators = Ok l' ∧
        StronglySorted (λ a b, weight b ≤ weight a) l' ∧ l' ≡ₚ two_validators.
Proof.
  split; [vm_compute; reflexivity|]. apply (validatorComparator_sorts two_validators).
  constructor; [exists 1, "aa"; split; reflexivity|]. constructor; [exists 5, "bb"; split; reflexivity|constructor].
Defined.

Lemma computeValidatorRank_list_order_witness :
  let w' := end_of Validators.computeValidatorRank cached in
  length (validators_in w') = 2%nat ∧
  validators_in w' !! 0%nat = Some (VObj (oset validator_a "rank" (VNum 1))) ∧
  validators_in w' !! 1%nat = Some (VObj (oset validator_b "rank" (VNum 2))).
Proof.
  assert ((run Validators.computeValidatorRank cached).2 = Ok tt) as E by (vm_compute; reflexivity).
  destruct (computeValidatorRank_list_order cached _ tt (run_eq _ _ _ E)) as [Hl H].
  split; [exact Hl|]. split; [exact (H 0%nat validator_a eq_refl)|exact (H 1%nat validator_b eq_refl)].
Defined.

Lemma computeValidatorStatus_never_punished_witness :
  let w' := end_of Validators.computeValidatorStatus cached in
  map (λ v, field v "status") (validators_in w') = [VStr "active"; VStr "ineligible"] ∧
  Forall (λ v, ∃ s, field v "status" = VStr s ∧ s ∈ STATUSES) (validators_in w').
Proof.
  set (r := VArr [VObj (oset validator_a "status" (VStr "active")); VObj (oset validator_b "status" (VStr "ineligible"))]).
  assert ((run Validators.computeValidatorStatus cached).2 = Ok r) as E by (vm_compute; reflexivity).
  split; [vm_compute; reflexivity|].
  exact (proj2 (computeValidatorStatus_never_punished cached _ r (run_eq _ _ _ E))).
Defined.

(** ** ProcThms *)

Definition random_tx : val := VObj [("id", VStr "t9"); ("module", VStr "random"); ("command", VStr "registerKeys")].
Definition random_error : exn :=
  mkExn "Error" "No processors implemented for transactions related to module: random".

Lemma dispatch_unknown_command_witness :
  let tr := trace_of (dispatchApply the_header random_tx (VArr []) 0) fresh in
  length tr = 5%nat ∧ (∃ e, @Err val random_error = Err e) ∧ Forall (λ cr, no_statement cr.1) tr.
Proof.
  split; [vm_compute; reflexivity|].
  apply (dispatch_unknown_command true the_header random_tx (VArr []) 0).
  - intros m c [= <-] [= <-]. reflexivity.
  - execs (dispatchApply the_header random_tx (VArr []) 0) fresh (Err random_error : result val).
Defined.

Lemma processors_all_reached_witness :
  processor_for "interoperability" (COMMAND_NAME submitMainchainCrossChainUpdate) = Some submitMainchainCrossChainUpdate.
Proof.
  apply (processors_all_reached "interoperability" interoperability_processors).
  - do 3 right. left.
  - do 6 right. left.
Defined.

Definition collection_tx : val :=
  VObj [("id", VStr "t2"); ("module", VStr "collection"); ("command", VStr "create"); ("senderPublicKey", VStr "aa");
        ("params", VObj [("name", VStr "first")])].
Definition owned_error : exn := type_error "Cannot read properties of undefined (reading 'owned')".

Lemma collection_create_never_reverted_witness :
  let tr := trace_of (dispatchRevert the_header collection_tx (VArr []) 0) fresh in
  (∃ e, @Err val owned_error = Err e) ∧ Forall (λ cr, no_write cr.1) tr.
Proof.
  apply (collection_create_never_reverted the_header collection_tx (VArr []) 0); [reflexivity|reflexivity|].
  execs (dispatchRevert the_header collection_tx (VArr []) 0) fresh (Err owned_error : result val).
Defined.

(** Two audio transactions in a block; the first failed, the second is applied. *)
Definition audio_outcome (topic : string) (success : bool) : val :=
  VObj [("module", VStr "audio"); ("name", VStr "commandExecutionResult"); ("topics", VArr [VStr topic]);
        ("data", VObj [("success", VBool success)])].
Definition audio_events : list val := [audio_outcome "t1" false; audio_outcome "t2" true].
Definition audio_tx2 : val :=
  VObj [("id", VStr "t2"); ("module", VStr "audio"); ("command", VStr "destroy"); ("params", VObj [("audioID", VStr "a1")])].

Lemma failed_audio_no_effect_witness :
  audioOutcome audio_events = Some (audio_outcome "t1" false) ∧
  trace_of (applyAudioDestroy the_header audio_tx2 (VArr audio_events) 0) fresh = [] ∧
  (run (applyAudioDestroy the_header audio_tx2 (VArr audio_events) 0) fresh).2 = Ok (VBool false).
Proof.
  split; [reflexivity|].
  apply (failed_audio_no_effect applyAudioDestroy the_header audio_tx2 audio_events
           (audio_outcome "t1" false) [("success", VBool false)] 0).
  - right. left.
  - repeat constructor.
  - reflexivity.
  - reflexivity.
  - reflexivity.
  - apply exec_trace_of.
Defined.

Definition failed_registration : list (string * val) := [("id", VStr "t3"); ("executionStatus", VStr "fail")].

Lemma failed_interoperability_no_effect_witness :
  trace_of (applyRegisterSidechain the_header (VObj failed_registration) (VArr []) 0) fresh = [] ∧
  (run (applyRegisterSidechain the_header (VObj failed_registration) (VArr []) 0) fresh).2 = Ok VUndef.
Proof.
  apply (failed_interoperability_no_effect applyRegisterSidechain the_header failed_registration (VArr []) 0).
  - do 2 right. left.
  - reflexivity.
  - apply exec_trace_of.
Defined.

(** Two changes, of 10 and 20, leave a total of 20. *)
Definition after_first : world mem := end_of (updateTotal Constants.PREFIX_TOTAL_STAKED 10 0) fresh.
Definition after_second : world mem := end_of (updateTotal Constants.PREFIX_TOTAL_STAKED 20 0) after_first.


Lemma stake_effect_witness :
  let w' := end_of (applyStake the_header stake_tx (VArr []) 0) fresh in
  map (λ r, column r "value") (rows_in w' 0 "key_value_store") = [VStr "150"; VStr "100"] ∧
  ∃ stakes W key1 key2 c1 c2,
    run (getStakeIndexingInfo stake_tx) fresh = (fresh, Ok stakes) ∧ Forall on_stakes W ∧
    starts_with Constants.PREFIX_TOTAL_STAKED key1 = true ∧ committed_total (db fresh) key1 c1 ∧
    starts_with Constants.PREFIX_TOTAL_SELF_STAKED key2 = true ∧ committed_total (db fresh) key2 c2 ∧
    eff 0 (W ++ [total_write 0 key1 (c1 + 1 * sumAmounts stakes);
                 total_write 0 key2 (c2 + 1 * sumAmounts (List.filter isSelfStake stakes))]) (db fresh) (db w').
Proof.
  split; [vm_compute; reflexivity|].
  apply (stake_effect true the_header stake_tx (VArr []) 0 fresh _ VUndef); [by eexists|].
  runs (applyStake the_header stake_tx (VArr []) 0) fresh (Ok VUndef).
Defined.

(** ** IndexThms *)

Lemma schemas_well_formed_witness :
  Schemas.owners ∈ IndexStatus.tableSchemas ∧
  (wf_schema Schemas.owners = false ↔ tableName Schemas.owners = "feats" ∨ tableName Schemas.owners = "owners").
Proof.
  assert (Schemas.owners ∈ IndexStatus.tableSchemas) as H by (do 12 right; left).
  split; [exact H|]. exact (schemas_well_formed Schemas.owners H).
Defined.

Lemma buildIndex_schedules_each_height_witness :
  let tr := trace_of (BlockchainIndex.buildIndex 3 5) worker in
  ∃ heights, cmds tr = map (λ h, CQueueAdd BlockchainIndex.indexBlocksQueue (VObj [("height", VNum h)])) heights ∧
    NoDup heights ∧ (∀ h, h ∈ heights ↔ 3 ≤ h ≤ 5) ∧ StronglySorted (λ a b, b < a) heights.
Proof.
  apply (buildIndex_schedules_each_height 3 5). execs (BlockchainIndex.buildIndex 3 5) worker (Ok tt).
Defined.

Lemma lockedChanges_sum_witness :
  let m := [(token0, 30)] in
  run (BlockchainIndex.lockedChanges 1 (arr_of sample_events)) worker = (worker, Ok m) ∧
  NoDup m.*1 ∧ ∀ k, amount_of m k = 1 * foldr (λ e n, eventLock k e + n) 0 (arr_of sample_events).
Proof.
  assert (run (BlockchainIndex.lockedChanges 1 (arr_of sample_events)) worker = (worker, Ok [(token0, 30)])) as E
    by reflexivity.
  split; [exact E|]. exact (proj2 (lockedChanges_sum 1 (arr_of sample_events) worker worker _ E)).
Defined.

Lemma deleteIndexedBlocks_needs_header_witness :
  oget (props sample_block) "header" = None ∧
  ∃ e, (run (BlockchainIndex.deleteIndexedBlocks (VObj [("blocks", VArr [sample_block])])) worker).2 = Err e.
Proof.
  split; [reflexivity|].
  apply (deleteIndexedBlocks_needs_header (props sample_block) []
           (trace_of (BlockchainIndex.deleteIndexedBlocks (VObj [("blocks", VArr [sample_block])])) worker)
           (run (BlockchainIndex.deleteIndexedBlocks (VObj [("blocks", VArr [sample_block])])) worker).2 eq_refl).
  apply exec_trace_of.
Defined.

(** A generator without stakers. *)
Lemma self_stake_reward_needs_no_stakers_witness :
  let p := Rewards.calcSelfStakeReward (VStr "lskaa") 1000 0 in
  (run p fresh).2 = Ok 0 ∧
  ∃ tcs t query,
    Mysql.queryBuilder [("validatorAddress", VStr "lskaa")] (strs ["stakerAddress"; "amount"]) t = Ok query ∧
    let rows := arr_of (select tcs query (rows_of (sq_rows (db fresh)) (tableName Schemas.stakes))) in
    rows = [] ∨ (length rows = 2%nat ∧ Forall (λ r, strict_eq (field r "stakerAddress") (VStr "lskaa") = true) rows).
Proof.
  split; [vm_compute; reflexivity|].
  refine (self_stake_reward_needs_no_stakers (VStr "lskaa") 1000 0 fresh _ 0 _ _); [intros o; reflexivity|].
  runs (Rewards.calcSelfStakeReward (VStr "lskaa") 1000 0) fresh (Ok 0).
Defined.

(** The same generator with one, two and three stakers: an error. *)
Definition with_stakers (stakers : list string) : world mem := with_rows [("stakes",
  map (λ a, [("stakerAddress", VStr a); ("validatorAddress", VStr "lskaa"); ("amount", VStr "100")]) stakers)].
Example stakers_throw :
  map (λ l, is_ok (run (Rewards.calcSelfStakeReward (VStr "lskaa") 1000 0) (with_stakers l)).2)
      [[]; ["lskaa"]; ["lskaa"; "lskbb"]; ["lskaa"; "lskbb"; "lskcc"]] = [true; false; false; false].
Proof. vm_compute. reflexivity. Qed.

Lemma getEventsByHeight_cache_then_node_witness :
  let tr := trace_of (EventsBusiness.getEventsByHeight (VNum 1)) worker in
  length tr = 3%nat ∧ Forall (λ cr, cache_or_node cr.1) tr.
Proof.
  split; [vm_compute; reflexivity|].
  apply (getEventsByHeight_cache_then_node (VNum 1) _ (Ok sample_events)).
  execs (EventsBusiness.getEventsByHeight (VNum 1)) worker (Ok sample_events).
Defined.

Lemma execution_status_from_event_witness :
  ∃ event, event ∈ arr_of sample_events ∧
    tpl (field event "module") +:+ ":" +:+ tpl (field event "name") = "pos:commandExecutionResult" ∧
    (∃ w1 w2, run (method_includes (field event "topics") (VStr "t1")) w1 = (w2 : world mem, Ok true)) ∧
    VStr "success" = VStr (if truthy (field (field event "data") "success") then "success" else "fail").
Proof.
  apply (execution_status_from_event stake_tx (arr_of sample_events) worker worker (VStr "success")).
  reflexivity.
Defined.

(** Two blocks of a chain of three. *)
Definition almost_indexed : world mem :=
  mkWorld ∅ (with_rpc (mem_of [] [("blocks", [[("id", VStr "b0"); ("height", VNum 0)];
                                              [("id", VStr "b1"); ("height", VNum 1)]])])
    (ok_rpc "getNetworkStatus" (VObj [("height", VNum 2); ("finalizedHeight", VNum 0)]) :: node)).

Lemma index_ready_justified_witness :
  let w' := end_of IndexStatus.checkIndexReadiness almost_indexed in
  ready_in w' = true ∧
  ∃ w1 stats, run IndexStatus.getIndexStats almost_indexed = (w1, Ok stats) ∧
    field stats "numBlocksIndexed" ≠ VUndef ∧
    js_ge (field stats "numBlocksIndexed") (num_sub (to_number (field stats "chainLength")) (VNum 1)) = true.
Proof.
  assert ((run IndexStatus.checkIndexReadiness almost_indexed).2 = Ok tt) as E by (vm_compute; reflexivity).
  assert (ready_in (end_of IndexStatus.checkIndexReadiness almost_indexed) = true) as Hr by (vm_compute; reflexivity).
  split; [exact Hr|].
  exact (proj2 (index_ready_justified almost_indexed _ tt (run_eq _ _ _ E)) eq_refl Hr).
Defined.

(** ** JobThms *)

(** The value of a run that returns one. *)
Definition value_of (r : result val) : val := match r with Ok v => v | Err _ => VUndef end.

Lemma exec_value (p : prog val) (w : world mem) :
  is_ok (run p w).2 = true → exec p (trace_of p w) (Ok (value_of (run p w).2)).
Proof. intros H. apply exec_eq. by destruct (run p w).2. Qed.

(** Two blocks are missing above the verified height 4. *)
Definition indexer_node : world mem := mkWorld ∅ (with_rpc (mem_of [] [])
  [("indexer", "getGenesisHeight", Ok (VNum 0)); ("indexer", "getCurrentHeight", Ok (VNum 10));
   ("indexer", "getIndexVerifiedHeight", Ok (VNum 4)); ("indexer", "getMissingBlocks", Ok (VArr [VNum 7; VNum 8]))]).


(** Sixty IDs, in three requests. *)
Definition sixty : list val := map (λ i, VNum (Z.of_nat i)) (seq 0 60).
Definition empty_pages : world mem := mkWorld ∅ (with_rpc (mem_of [] []) [ok_rpc "getTransactionsByIDs" (VArr [])]).

Lemma fetchBatches_each_once_witness :
  let tr := trace_of (TransactionsBusiness.fetchBatches (length sixty) sixty) empty_pages in
  length tr = 3%nat ∧
  ∃ batches, cmds tr = map byIDs batches ∧ concat batches = sixty ∧
    Forall (λ b, 0 < length b ≤ 25)%nat batches ∧ length batches = 3%nat.
Proof.
  split; [vm_compute; reflexivity|].
  apply (fetchBatches_each_once sixty _ []).
  execs (TransactionsBusiness.fetchBatches (length sixty) sixty) empty_pages (Ok [] : result (list val)).
Defined.

(** A node with a generator that is a validator. *)
Definition round_node : world mem := mkWorld ∅ (with_rpc (mem_of [] [])
  (ok_rpc "getGenerators" (VObj [("list", VArr [VObj [("address", VStr "lskaa")]])]) ::
   ok_rpc "getAllPosValidators" (VObj [("validators", VArr [VObj [("address", VStr "lskaa"); ("name", VStr "a");
     ("selfStake", VStr "10"); ("totalStake", VStr "100"); ("isBanned", VBool false);
     ("punishmentPeriods", VArr []); ("reportMisbehaviorHeights", VArr [])]])]) :: node)).

Lemma newRound_announces_nobody_witness :
  let tr := trace_of EventsProcessor.newRoundProcessor round_node in
  option_map fst (last tr) = Some (CSignal "newRound" (VObj [("generators", VArr [])])) ∧
  ∀ name payload r, (CSignal name payload, r) ∈ tr → name = "newRound" ∧ payload = VObj [("generators", VArr [])].
Proof.
  split; [vm_compute; reflexivity|].
  apply (newRound_announces_nobody _ (Ok tt)).
  execs EventsProcessor.newRoundProcessor round_node (Ok tt : result unit).
Defined.

(** A block of the past is asked for. *)
Definition core_block : val :=
  VObj [("header", the_header); ("transactions", VArr [stake_tx]); ("assets", VArr [])].
Definition block_node : world mem :=
  mkWorld ∅ (with_rpc (mem_of [] []) (ok_rpc "getBlockByHeight" core_block :: node)).

Lemma getBlocks_overwrites_last_block_witness :
  let p := BlocksService.getBlocksFromServer (VObj [("height", VNum 1)]) in
  length (omap stores_last (cmds (trace_of p block_node))) = 1%nat ∧
  ∃ data meta, omap stores_last (cmds (trace_of p block_node)) =
    omap (λ block, match json_stringify block with Ok text => Some text | Err _ => None end) (arr_of data) ∧
    (run p block_node).2 = Ok (data, meta).
Proof.
  split; [vm_compute; reflexivity|].
  destruct (run (BlocksService.getBlocksFromServer (VObj [("height", VNum 1)])) block_node).2 as [[data meta]|e] eqn:E;
    [|vm_compute in E; discriminate E].
  exists data, meta. split; [|reflexivity].
  apply (getBlocks_overwrites_last_block (VObj [("height", VNum 1)]) _ data meta).
  exact (exec_eq _ _ _ E).
Defined.

Lemma normalizeBlock_totals_witness :
  let b := value_of (run (BlocksBusiness.normalizeBlock core_block) block_node).2 in
  field b "networkFee" = VStr "100" ∧
  ∃ ns fees mins reward forged,
    Forall2 normalized [stake_tx] ns ∧ Forall2 (amount_in "fee") ns fees ∧ Forall2 (amount_in "minFee") ns mins ∧
    to_bigint (js_or reward (VStr "0")) = Ok forged ∧ field b "reward" = json_value reward ∧
    field b "transactions" = VArr (map Parser.parseToJSONCompatObj ns) ∧
    field b "numberOfTransactions" = VNum 1 ∧
    field b "totalForged" = VStr (pretty (forged + sumZ fees)) ∧
    field b "totalBurnt" = VStr (pretty (sumZ mins)) ∧
    field b "networkFee" = VStr (pretty (sumZ fees - sumZ mins)).
Proof.
  split; [vm_compute; reflexivity|].
  apply (normalizeBlock_totals core_block [stake_tx]
           (trace_of (BlocksBusiness.normalizeBlock core_block) block_node)); [reflexivity|].
  apply exec_value. vm_compute. reflexivity.
Defined.

(** A pool with a transaction and an empty index. *)
Definition pool : world mem := mkWorld
  {[ Pending.pendingTransactionsList := VArr [set_field stake_tx "sender" (VObj [("address", VStr "lskaa")])] ]}
  (w_ext worker).
Definition page_params : val := VObj [("limit", VNum 10); ("offset", VNum 0); ("sort", VStr "nonce:asc")].

Lemma mergeTransactions_page_witness :
  let p := TransactionsService.mergeTransactions page_params in
  let r := value_of (run p pool).2 in
  length (arr_of (field r "data")) = 1%nat ∧
  ∃ pending indexed, field r "data" = VArr (take 10 (pending ++ indexed)).
Proof.
  split; [vm_compute; reflexivity|].
  destruct (mergeTransactions_page page_params 10 (trace_of (TransactionsService.mergeTransactions page_params) pool)
              (value_of (run (TransactionsService.mergeTransactions page_params) pool).2))
    as (_ & _ & pending & indexed & _ & _ & _ & E & _).
  - reflexivity.
  - lia.
  - apply exec_value. vm_compute. reflexivity.
  - exists pending, indexed. exact E.
Defined.
