(* ===== verification/GatewaySources.v ===== *)
(** * The gateway's sources: services/gateway/sources/version3

    A source names the remote method behind a route, says how the request's
    parameters become the method's ([params]) and how its response becomes the
    reply ([definition]).  Module [Mappings] holds sources/version3/mappings,
    a definition per file, [Sources] the files of sources/version3.  The files
    are data; the names are those of the files. *)
From S2P Require Export Env.
Open Scope string_scope.
Open Scope Z_scope.
Open Scope list_scope.

Module Mappings.

Definition amountEntry : val := VObj [("tokenID", VStr "=,string"); ("amount", VStr "=,string")].

Definition audio : val := VObj [
  ("name", VStr "=,string");
  ("releaseYear", VStr "=,string");
  ("audioID", VStr "=,string");
  ("collectionID", VStr "=,string");
  ("creatorAddress", VStr "=,string");
  ("collection", VObj [
    ("collectionType", VStr "=,string");
    ("releaseYear", VStr "=,number");
    ("name", VStr "=,string")]);
  ("owners", VArr [VStr "owners"; VObj [("address", VStr "=,string"); ("shares", VStr "=,number"); ("income", VStr "=,number")]]);
  ("feat", VArr [VStr "feat"; VObj [("address", VStr "=,string"); ("role", VStr "=,string")]])].

Definition auth : val := VObj [
  ("nonce", VStr "=,string");
  ("numberOfSignatures", VStr "=,number");
  ("mandatoryKeys", VStr "=");
  ("optionalKeys", VStr "=")].

Definition block : val := VObj [
  ("id", VStr "=,string");
  ("version", VStr "=,number");
  ("timestamp", VStr "=,number");
  ("height", VStr "=,number");
  ("previousBlockID", VStr "=,string");
  ("generator", VObj [("address", VStr "=,string"); ("name", VStr "=,string"); ("publicKey", VStr "=,string")]);
  ("transactionRoot", VStr "=,string");
  ("assetRoot", VStr "=,string");
  ("stateRoot", VStr "=,string");
  ("maxHeightPrevoted", VStr "=,number");
  ("maxHeightGenerated", VStr "=,number");
  ("validatorsHash", VStr "=,string");
  ("aggregateCommit", VObj [
    ("height", VStr "=,number");
    ("aggregationBits", VStr "=,string");
    ("certificateSignature", VStr "=,string")]);
  ("numberOfTransactions", VStr "=,number");
  ("numberOfAssets", VStr "=,number");
  ("numberOfEvents", VStr "=,number");
  ("totalForged", VStr "=,string");
  ("totalBurnt", VStr "=,string");
  ("networkFee", VStr "=,string");
  ("signature", VStr "=,string");
  ("reward", VStr "=,string");
  ("isFinal", VStr "=,boolean")].

Definition blockAsset : val := VObj [
  ("block", VObj [("id", VStr "=,string"); ("height", VStr "=,number"); ("timestamp", VStr "=,number")]);
  ("assets", VArr [VStr "assets"; VObj [("module", VStr "=,string"); ("data", VStr "=")]])].

Definition blockchainApp : val := VObj [
  ("name", VStr "=,string");
  ("chainID", VStr "=,string");
  ("status", VStr "=,string");
  ("address", VStr "=,string");
  ("lastCertificateHeight", VStr "=,number");
  ("lastUpdated", VStr "=,number");
  ("escrow", VArr [VStr "escrow"; VObj [("tokenID", VStr "=,string"); ("amount", VStr "=,string")]])].

Definition blockchainAppMetaList : val := VObj [
  ("chainName", VStr "=,string");
  ("chainID", VStr "=,string");
  ("networkType", VStr "network,string")].

Definition blockchainAppMetadata : val := VObj [
  ("chainName", VStr "=,string");
  ("chainID", VStr "=,string");
  ("title", VStr "=,string");
  ("description", VStr "=,string");
  ("networkType", VStr "=,string");
  ("isDefault", VStr "=,boolean");
  ("status", VStr "=,string");
  ("genesisURL", VStr "=,string");
  ("projectPage", VStr "=,string");
  ("appPage", VStr "=,string");
  ("serviceURLs", VArr [VStr "serviceURLs"; VObj [("http", VStr "=,string"); ("ws", VStr "=,string")]]);
  ("logo", VObj [("png", VStr "=,string"); ("svg", VStr "=,string")]);
  ("explorers", VArr [VStr "explorers"; VObj [("url", VStr "=,string"); ("txnPage", VStr "=,string")]]);
  ("appNodes", VArr [VStr "appNodes"; VObj [("url", VStr "=,string"); ("maintainer", VStr "=,string")]]);
  ("backgroundColor", VStr "=,string")].

Definition blockchainAppTokenMetadata : val := VObj [
  ("chainID", VStr "=,string");
  ("chainName", VStr "=,string");
  ("tokenID", VStr "=,string");
  ("tokenName", VStr "=,string");
  ("networkType", VStr "network,string");
  ("description", VStr "=,string");
  ("logo", VObj [("png", VStr "=,string"); ("svg", VStr "=,string")]);
  ("symbol", VStr "=,string");
  ("displayDenom", VStr "=,string");
  ("baseDenom", VStr "=,string");
  ("denomUnits", VArr [VStr "denomUnits"; VObj [("denom", VStr "=,string"); ("decimals", VStr "=,number"); ("aliases", VStr "=")]])].

Definition collection : val := VObj [
  ("name", VStr "=,string");
  ("collectionID", VStr "=,string");
  ("creatorAddress", VStr "=,string");
  ("collectionType", VStr "=,number");
  ("releaseYear", VStr "=,string")].

Definition crossChainMessage : val := VObj [
  ("moduleCrossChainCommandID", VStr "=,string");
  ("moduleCrossChainCommandName", VStr "=,string");
  ("sendingChainID", VStr "=,string");
  ("receivingChainID", VStr "=,string");
  ("nonce", VStr "=,string");
  ("fee", VStr "=,string");
  ("status", VStr "=,string");
  ("params", VStr "=");
  ("block", VObj [
    ("id", VStr "=,string");
    ("height", VStr "=,number");
    ("timestamp", VStr "=,number");
    ("transactionID", VStr "=,string")]);
  ("ccms", VStr "=")].

Definition event : val := VObj [
  ("id", VStr "=,string");
  ("module", VStr "=,string");
  ("name", VStr "=,string");
  ("data", VStr "=");
  ("topics", VStr "=");
  ("index", VStr "=,number");
  ("block", VObj [("id", VStr "=,string"); ("height", VStr "=,number"); ("timestamp", VStr "=,number")])].

Definition generators : val := VObj [
  ("address", VStr "=,string");
  ("name", VStr "=,string");
  ("publicKey", VStr "=,string");
  ("nextAllocatedTime", VStr "=,number");
  ("status", VStr "=,string")].

Definition marketPrice : val := VObj [
  ("code", VStr "=,string");
  ("from", VStr "=,string");
  ("rate", VStr "=,string");
  ("to", VStr "=,string");
  ("updateTimestamp", VStr "=,number");
  ("sources", VStr "=")].

Definition meta : val := VObj [("count", VStr "=,number"); ("offset", VStr "=,number"); ("total", VStr "=,number")].

Definition networkPeer : val := VObj [
  ("ip", VStr "=,string");
  ("port", VStr "=,number");
  ("networkVersion", VStr "=,string");
  ("state", VStr "=,string");
  ("height", VStr "=,number");
  ("chainID", VStr "=,string");
  ("location", VObj [
    ("countryCode", VStr "location.country_code,string");
    ("latitude", VStr "location.latitude,string");
    ("longitude", VStr "location.longitude,string")])].

Definition posClaimableReward : val := VObj [("reward", VStr "=,string"); ("tokenID", VStr "=,string")].

Definition posConstants : val := VObj [
  ("factorSelfStakes", VStr "=,number");
  ("maxLengthName", VStr "=,number");
  ("maxNumberSentStakes", VStr "=,number");
  ("maxNumberPendingUnlocks", VStr "=,number");
  ("failSafeMissedBlocks", VStr "=,number");
  ("failSafeInactiveWindow", VStr "=,number");
  ("punishmentWindow", VStr "=,number");
  ("roundLength", VStr "=,number");
  ("minWeightStandby", VStr "=,string");
  ("numberActiveValidators", VStr "=,number");
  ("numberStandbyValidators", VStr "=,number");
  ("posTokenID", VStr "=,string");
  ("maxBFTWeightCap", VStr "=,number");
  ("commissionIncreasePeriod", VStr "=,number");
  ("maxCommissionIncreaseRate", VStr "=,number");
  ("extraCommandFees", VObj [("validatorRegistrationFee", VStr "data.validatorRegistrationFee,string")])].

Definition posRewardsLocked : val := VObj [("reward", VStr "=,string"); ("tokenID", VStr "=,string")].

Definition posStake : val := VObj [("address", VStr "=,string"); ("amount", VStr "=,string"); ("name", VStr "=,string")].

Definition posStaker : val := VObj [("address", VStr "=,string"); ("amount", VStr "=,string"); ("name", VStr "=,string")].

Definition posUnlock : val := VObj [
  ("address", VStr "=,string");
  ("publicKey", VStr "=,string");
  ("name", VStr "=,string");
  ("pendingUnlocks", VArr [VStr "data.pendingUnlocks"; VObj [
      ("validatorAddress", VStr "=,string");
      ("amount", VStr "=,string");
      ("tokenID", VStr "=,string");
      ("unstakeHeight", VStr "=,number");
      ("expectedUnlockableHeight", VStr "=,number");
      ("isLocked", VStr "=,boolean")]])].

Definition posValidator : val := VObj [
  ("name", VStr "=,string");
  ("totalStake", VStr "=,string");
  ("selfStake", VStr "=,string");
  ("validatorWeight", VStr "=,string");
  ("address", VStr "=,string");
  ("publicKey", VStr "=,string");
  ("lastGeneratedHeight", VStr "=,number");
  ("status", VStr "=,string");
  ("isBanned", VStr "=,boolean");
  ("reportMisbehaviorHeights", VStr "=");
  ("punishmentPeriods", VArr [VStr "punishmentPeriods"; VObj [("start", VStr "=,number"); ("end", VStr "=,number")]]);
  ("consecutiveMissedBlocks", VStr "=,number");
  ("commission", VStr "=,number");
  ("lastCommissionIncreaseHeight", VStr "=,number");
  ("sharingCoefficients", VArr [VStr "sharingCoefficients"; VObj [("tokenID", VStr "=,string"); ("coefficient", VStr "=,string")]]);
  ("rank", VStr "=,number");
  ("generatedBlocks", VStr "=,number");
  ("totalCommission", VStr "=,string");
  ("totalSelfStakeRewards", VStr "=,string");
  ("earnedRewards", VStr "=,string")].

Definition profile : val := VObj [
  ("name", VStr "=,string");
  ("nickName", VStr "=,string");
  ("profileID", VStr "=,string");
  ("description", VStr "=,string");
  ("socialAccounts", VArr [VStr "socialAccounts"; VObj [("username", VStr "=,string"); ("platform", VStr "=,number")]]);
  ("avatarHash", VStr "=,string");
  ("avatarSignature", VStr "=,string");
  ("bannerHash", VStr "=,string");
  ("bannerSignature", VStr "=,string");
  ("creatorAddress", VStr "=,string")].

Definition scheduleExport : val := VObj [
  ("address", VStr "=,string");
  ("publicKey", VStr "=,string");
  ("interval", VStr "=,string");
  ("filename", VStr "fileName,string");
  ("fileUrl", VStr "=,string")].

Definition schema : val := VObj [
  ("block", VObj [("schema", VStr "=")]);
  ("header", VObj [("schema", VStr "=")]);
  ("asset", VObj [("schema", VStr "=")]);
  ("transaction", VObj [("schema", VStr "=")]);
  ("event", VObj [("schema", VStr "=")]);
  ("standardEvent", VObj [("schema", VStr "=")]);
  ("ccm", VObj [("schema", VStr "=")]);
  ("events", VArr [VStr "data.events"; VObj [("module", VStr "=,string"); ("name", VStr "=,string"); ("schema", VStr "=")]]);
  ("assets", VArr [VStr "data.assets"; VObj [("module", VStr "=,string"); ("version", VStr "=,string"); ("schema", VStr "=")]]);
  ("commands", VArr [VStr "data.commands"; VObj [("moduleCommand", VStr "=,string"); ("schema", VStr "=")]]);
  ("messages", VArr [VStr "data.messages"; VObj [("moduleCommand", VStr "=,string"); ("param", VStr "=,string"); ("schema", VStr "=")]])].

Definition stdEnvelope : val := VObj [("data", VArr []); ("meta", VObj [])].

Definition subscription : val := VObj [
  ("subscriptionID", VStr "=,string");
  ("creatorAddress", VStr "=,string");
  ("maxMembers", VStr "=,number");
  ("streams", VStr "=,string");
  ("price", VStr "=,string");
  ("consumable", VStr "=,string");
  ("members", VArr [VStr "members"; VObj [("address", VStr "=,string"); ("name", VStr "=,string"); ("publicKey", VStr "=,string")]])].

Definition token : val := VObj [
  ("tokenID", VStr "=,string");
  ("availableBalance", VStr "=,string");
  ("lockedBalances", VArr [VStr "lockedBalances"; VObj [("module", VStr "=,string"); ("amount", VStr "=,string")]])].

Definition tokenConstants : val := VObj [
  ("extraCommandFees", VObj [
    ("userAccountInitializationFee", VStr "=,string");
    ("escrowAccountInitializationFee", VStr "=,string")])].

Definition escrowedAmount : val := VObj [
  ("escrowChainID", VStr "=,string");
  ("tokenID", VStr "=,string");
  ("amount", VStr "=,string")].

Definition supportedToken : val := VObj [
  ("isSupportAllTokens", VStr "data.supportedTokens.isSupportAllTokens,boolean");
  ("patternTokenIDs", VStr "data.supportedTokens.patternTokenIDs");
  ("exactTokenIDs", VStr "data.supportedTokens.exactTokenIDs")].

Definition totalSupplyByToken : val := VObj [("tokenID", VStr "=,string"); ("amount", VStr "totalSupply,string")].

Definition transaction : val := VObj [
  ("id", VStr "=,string");
  ("moduleCommand", VStr "=,string");
  ("nonce", VStr "=,string");
  ("fee", VStr "=,string");
  ("minFee", VStr "=,string");
  ("size", VStr "=,number");
  ("sender", VObj [("address", VStr "=,string"); ("publicKey", VStr "=,string"); ("name", VStr "=,string")]);
  ("params", VStr "=");
  ("block", VObj [
    ("id", VStr "=,string");
    ("height", VStr "=,number");
    ("timestamp", VStr "=,number");
    ("isFinal", VStr "=,boolean")]);
  ("meta", VObj [
    ("recipient", VObj [("address", VStr "=,string"); ("publicKey", VStr "=,string"); ("name", VStr "=,string")])]);
  ("executionStatus", VStr "=,string");
  ("index", VStr "=,number")].

Definition transactionsStatistics : val := VObj [("distributionByType", VStr "="); ("distributionByAmount", VStr "="); ("timeline", VStr "=")].

Definition validator : val := VObj [
  ("generatorKey", VStr "=,string");
  ("blsKey", VStr "=,string");
  ("proofOfPossession", VStr "=,string")].

End Mappings.

Module Sources.

Definition audios : val := VObj [
  ("type", VStr "moleculer");
  ("method", VStr "indexer.audios");
  ("params", VObj [
    ("name", VStr "=,string");
    ("audioID", VStr "=,string");
    ("creatorAddress", VStr "=,string");
    ("releaseYear", VStr "=,string");
    ("collectionID", VStr "=,string");
    ("collection", VObj [
      ("collectionType", VStr "=,string");
      ("releaseYear", VStr "=,number");
      ("name", VStr "=,number")]);
    ("owners", VArr [VStr "owners"; VObj [("address", VStr "=,string"); ("shares", VStr "=,number"); ("income", VStr "=,number")]]);
    ("feat", VArr [VStr "feat"; VObj [("address", VStr "=,string"); ("name", VStr "=,string"); ("role", VStr "=,string")]]);
    ("search", VStr "=,string");
    ("limit", VStr "=,number");
    ("offset", VStr "=,number");
    ("sort", VStr "=,string");
    ("order", VStr "=,string")]);
  ("definition", VObj [
    ("data", VArr [VStr "data"; Mappings.audio]);
    ("meta", VObj [("count", VStr "=,number"); ("offset", VStr "=,number"); ("total", VStr "=,number")]);
    ("links", VObj [])])].

Definition auth : val := VObj [
  ("type", VStr "moleculer");
  ("method", VStr "indexer.auth");
  ("params", VObj [("address", VStr "=,string")]);
  ("definition", VObj [
    ("data", Mappings.auth);
    ("meta", VObj [("address", VStr "=,string"); ("publicKey", VStr "=,string"); ("name", VStr "=,string")]);
    ("links", VObj [])])].

Definition blockAssets : val := VObj [
  ("type", VStr "moleculer");
  ("method", VStr "indexer.blocks.assets");
  ("params", VObj [
    ("blockID", VStr "=,string");
    ("height", VStr "=,string");
    ("module", VStr "=,string");
    ("timestamp", VStr "=,string");
    ("offset", VStr "=,number");
    ("limit", VStr "=,number");
    ("sort", VStr "=,string")]);
  ("definition", VObj [
    ("data", VArr [VStr "data"; Mappings.blockAsset]);
    ("meta", VObj [("count", VStr "=,number"); ("offset", VStr "=,number"); ("total", VStr "=,number")]);
    ("links", VObj [])])].

Definition blockchainAppsMetaListSchema : val := VObj [
  ("type", VStr "moleculer");
  ("method", VStr "app-registry.blockchain.apps.meta.list");
  ("params", VObj [
    ("chainName", VStr "=,string");
    ("network", VStr "=,string");
    ("search", VStr "=,string");
    ("offset", VStr "=,number");
    ("limit", VStr "=,number");
    ("sort", VStr "=,string")]);
  ("definition", VObj [
    ("data", VArr [VStr "data"; Mappings.blockchainAppMetaList]);
    ("meta", VObj [("count", VStr "=,number"); ("offset", VStr "=,number"); ("total", VStr "=,number")]);
    ("links", VObj [])])].

Definition blockchainAppsMetadataSchema : val := VObj [
  ("type", VStr "moleculer");
  ("method", VStr "app-registry.blockchain.apps.meta");
  ("params", VObj [
    ("chainName", VStr "=,string");
    ("chainID", VStr "=,string");
    ("isDefault", VStr "=,boolean");
    ("network", VStr "=,string");
    ("search", VStr "=,string");
    ("offset", VStr "=,number");
    ("limit", VStr "=,number");
    ("sort", VStr "=,string")]);
  ("definition", VObj [
    ("data", VArr [VStr "data"; Mappings.blockchainAppMetadata]);
    ("meta", VObj [("count", VStr "=,number"); ("offset", VStr "=,number"); ("total", VStr "=,number")]);
    ("links", VObj [])])].

Definition blockchainAppsSchema : val := VObj [
  ("type", VStr "moleculer");
  ("method", VStr "indexer.blockchain.apps");
  ("params", VObj [
    ("chainID", VStr "=,string");
    ("name", VStr "=,string");
    ("search", VStr "=,string");
    ("status", VStr "=,string");
    ("offset", VStr "=,number");
    ("limit", VStr "=,number")]);
  ("definition", VObj [
    ("data", VArr [VStr "data"; Mappings.blockchainApp]);
    ("meta", VObj [("count", VStr "=,number"); ("offset", VStr "=,number"); ("total", VStr "=,number")]);
    ("links", VObj [])])].

Definition blockchainAppsStatsSchema : val := VObj [
  ("type", VStr "moleculer");
  ("method", VStr "indexer.blockchain.apps.statistics");
  ("params", VObj []);
  ("definition", VObj [
    ("data", VObj [
      ("registered", VStr "=,number");
      ("active", VStr "=,number");
      ("terminated", VStr "=,number");
      ("totalSupplyLSK", VStr "=,string");
      ("totalStakedLSK", VStr "=,string");
      ("currentAnnualInflationRate", VStr "=,string")]);
    ("meta", VObj []);
    ("links", VObj [])])].

Definition blockchainAppsTokenMetadataSchema : val := VObj [
  ("type", VStr "moleculer");
  ("method", VStr "app-registry.blockchain.apps.meta.tokens");
  ("params", VObj [
    ("chainName", VStr "=,string");
    ("chainID", VStr "=,string");
    ("tokenName", VStr "=,string");
    ("tokenID", VStr "=,string");
    ("network", VStr "=,string");
    ("search", VStr "=,string");
    ("offset", VStr "=,number");
    ("limit", VStr "=,number");
    ("sort", VStr "=,string")]);
  ("definition", VObj [
    ("data", VArr [VStr "data"; Mappings.blockchainAppTokenMetadata]);
    ("meta", VObj [("count", VStr "=,number"); ("offset", VStr "=,number"); ("total", VStr "=,number")]);
    ("links", VObj [])])].

Definition blockchainAppsTokenSupportedMetadataSchema : val := VObj [
  ("type", VStr "moleculer");
  ("method", VStr "app-registry.blockchain.apps.meta.tokens.supported");
  ("params", VObj [
    ("chainID", VStr "=,string");
    ("offset", VStr "=,number");
    ("limit", VStr "=,number");
    ("sort", VStr "=,string")]);
  ("definition", VObj [
    ("data", VArr [VStr "data"; Mappings.blockchainAppTokenMetadata]);
    ("meta", VObj [("count", VStr "=,number"); ("offset", VStr "=,number"); ("total", VStr "=,number")]);
    ("links", VObj [])])].

Definition blocks : val := VObj [
  ("type", VStr "moleculer");
  ("method", VStr "indexer.blocks");
  ("params", VObj [
    ("blockID", VStr "=,string");
    ("height", VStr "=,string");
    ("generatorAddress", VStr "=,string");
    ("timestamp", VStr "=,string");
    ("offset", VStr "=,number");
    ("limit", VStr "=,number");
    ("sort", VStr "=,string")]);
  ("definition", VObj [
    ("data", VArr [VStr "data"; Mappings.block]);
    ("meta", VObj [("count", VStr "=,number"); ("offset", VStr "=,number"); ("total", VStr "=,number")]);
    ("links", VObj [])])].

Definition collections : val := VObj [
  ("type", VStr "moleculer");
  ("method", VStr "indexer.collections");
  ("params", VObj [
    ("name", VStr "=,string");
    ("collectionID", VStr "=,string");
    ("creatorAddress", VStr "=,string");
    ("releaseYear", VStr "=,string");
    ("collectionType", VStr "=,number");
    ("search", VStr "=,string");
    ("limit", VStr "=,number");
    ("offset", VStr "=,number");
    ("sort", VStr "=,string");
    ("order", VStr "=,string")]);
  ("definition", VObj [
    ("data", VArr [VStr "data"; Mappings.collection]);
    ("meta", VObj [("count", VStr "=,number"); ("offset", VStr "=,number"); ("total", VStr "=,number")]);
    ("links", VObj [])])].

Definition crossChainMessages : val := VObj [
  ("type", VStr "moleculer");
  ("method", VStr "indexer.ccm");
  ("params", VObj [
    ("id", VStr "=,string");
    ("transactionID", VStr "=,string");
    ("moduleCrossChainCommandID", VStr "=,string");
    ("moduleCrossChainCommandName", VStr "=,string");
    ("senderAddress", VStr "=,string");
    ("status", VStr "=,string");
    ("timestamp", VStr "=,string");
    ("nonce", VStr "=");
    ("limit", VStr "=,number");
    ("offset", VStr "=,number");
    ("sort", VStr "=,string")]);
  ("definition", VObj [
    ("data", VArr [VStr "data"; Mappings.crossChainMessage]);
    ("meta", VObj [("count", VStr "=,number"); ("offset", VStr "=,number"); ("total", VStr "=,number")]);
    ("links", VObj [])])].

Definition events : val := VObj [
  ("type", VStr "moleculer");
  ("method", VStr "indexer.events");
  ("params", VObj [
    ("transactionID", VStr "=,string");
    ("senderAddress", VStr "=,string");
    ("blockID", VStr "=,string");
    ("height", VStr "=,string");
    ("timestamp", VStr "=,string");
    ("limit", VStr "=,number");
    ("offset", VStr "=,number");
    ("sort", VStr "=,string");
    ("order", VStr "=,string")]);
  ("definition", VObj [
    ("data", VArr [VStr "data"; Mappings.event]);
    ("meta", VObj [("count", VStr "=,number"); ("offset", VStr "=,number"); ("total", VStr "=,number")]);
    ("links", VObj [])])].

Definition export_ : val := VObj [
  ("type", VStr "moleculer");
  ("method", VStr "export.transactions.csv");
  ("params", VObj [("filename", VStr "=,string")])].

Definition fees : val := VObj [
  ("type", VStr "moleculer");
  ("method", VStr "fees.estimates");
  ("params", VObj []);
  ("definition", VObj [
    ("data", VObj [
      ("feeEstimatePerByte", VObj [("low", VStr "=,number"); ("medium", VStr "med,number"); ("high", VStr "=,number")]);
      ("minFeePerByte", VStr "=,number");
      ("feeTokenID", VStr "=,string")]);
    ("meta", VObj [
      ("lastUpdate", VStr "updated,number");
      ("lastBlockHeight", VStr "blockHeight,number");
      ("lastBlockID", VStr "blockID,string")]);
    ("links", VObj [])])].

Definition generators : val := VObj [
  ("type", VStr "moleculer");
  ("method", VStr "indexer.generators");
  ("params", VObj [("limit", VStr "="); ("offset", VStr "=")]);
  ("definition", VObj [
    ("data", VArr [VStr "data"; Mappings.generators]);
    ("meta", VObj [("count", VStr "=,number"); ("offset", VStr "=,number"); ("total", VStr "=,number")]);
    ("links", VObj [])])].

Definition indexStatus : val := VObj [
  ("type", VStr "moleculer");
  ("method", VStr "indexer.index.status");
  ("params", VObj []);
  ("definition", VObj [
    ("data", VObj [
      ("genesisHeight", VStr "=,number");
      ("lastBlockHeight", VStr "=,number");
      ("lastIndexedBlockHeight", VStr "=,number");
      ("chainLength", VStr "=,number");
      ("numBlocksIndexed", VStr "=,number");
      ("percentageIndexed", VStr "=,number");
      ("isIndexingInProgress", VStr "=,boolean")]);
    ("meta", VObj [("lastUpdate", VStr "=,number")]);
    ("links", VObj [])])].

Definition invoke : val := VObj [
  ("type", VStr "moleculer");
  ("method", VStr "connector.invokeEndpoint");
  ("params", VObj [("endpoint", VStr "=,string"); ("params", VStr "=,object")]);
  ("definition", VObj [("data", VStr "="); ("meta", VObj [("endpoint", VStr "=,string"); ("params", VStr "=")])])].

Definition legacyAccountsSchema : val := VObj [
  ("type", VStr "moleculer");
  ("method", VStr "indexer.legacy");
  ("params", VObj [("publicKey", VStr "=,string")]);
  ("definition", VObj [
    ("data", VObj [("legacyAddress", VStr "=,string"); ("balance", VStr "=,string")]);
    ("meta", VObj [("address", VStr "=,string"); ("publicKey", VStr "=,string")]);
    ("links", VObj [])])].

Definition marketPrices : val := VObj [
  ("type", VStr "moleculer");
  ("method", VStr "market.prices");
  ("params", VObj []);
  ("definition", VObj [
    ("data", VArr [VStr "data"; Mappings.marketPrice]);
    ("meta", VObj [("count", VStr "=,number")]);
    ("links", VObj [])])].

Definition networkPeers : val := VObj [
  ("type", VStr "moleculer");
  ("method", VStr "indexer.network.peers");
  ("params", VObj [
    ("ip", VStr "=,string");
    ("networkVersion", VStr "=,string");
    ("state", VStr "=,string");
    ("height", VStr "=,number");
    ("limit", VStr "=,number");
    ("offset", VStr "=,number");
    ("sort", VStr "=,string")]);
  ("definition", VObj [
    ("data", VArr [VStr "data"; Mappings.networkPeer]);
    ("meta", VObj [("count", VStr "=,number"); ("offset", VStr "=,number"); ("total", VStr "=,number")]);
    ("links", VObj [])])].

Definition networkStatistics : val := VObj [
  ("type", VStr "moleculer");
  ("method", VStr "indexer.network.statistics");
  ("params", VObj []);
  ("definition", VObj [
    ("data", VObj [
      ("basic", VStr "=");
      ("height", VStr "=");
      ("networkVersion", VStr "=");
      ("totalLocked", VArr [VStr "data.totalLocked"; Mappings.amountEntry]);
      ("totalStaked", Mappings.amountEntry);
      ("totalSelfStaked", Mappings.amountEntry)]);
    ("meta", VObj []);
    ("links", VObj [])])].

Definition networkStatus : val := VObj [
  ("type", VStr "moleculer");
  ("params", VObj []);
  ("method", VStr "indexer.network.status");
  ("definition", VObj [
    ("data", VObj [
      ("version", VStr "=,string");
      ("networkVersion", VStr "=,string");
      ("chainID", VStr "=,string");
      ("lastBlockID", VStr "=,string");
      ("height", VStr "=,number");
      ("finalizedHeight", VStr "=,number");
      ("syncing", VStr "=,boolean");
      ("unconfirmedTransactions", VStr "=,number");
      ("genesis", VStr "=");
      ("registeredModules", VStr "=");
      ("moduleCommands", VStr "=");
      ("network", VStr "=")]);
    ("meta", VObj [
      ("lastUpdate", VStr "=,number");
      ("lastBlockHeight", VStr "=,number");
      ("lastBlockID", VStr "=,string")]);
    ("links", VObj [])])].

Definition posClaimableRewards : val := VObj [
  ("type", VStr "moleculer");
  ("method", VStr "indexer.pos.rewards.claimable");
  ("params", VObj [
    ("address", VStr "=,string");
    ("publicKey", VStr "=,string");
    ("name", VStr "=,string");
    ("limit", VStr "=,number");
    ("offset", VStr "=,number")]);
  ("definition", VObj [("data", VArr [VStr "data"; Mappings.posClaimableReward]); ("meta", Mappings.meta)])].

Definition posConstants : val := VObj [
  ("type", VStr "moleculer");
  ("method", VStr "indexer.pos.constants");
  ("params", VObj []);
  ("definition", VObj [("data", Mappings.posConstants); ("meta", VObj []); ("links", VObj [])])].

Definition posRewardsLocked : val := VObj [
  ("type", VStr "moleculer");
  ("method", VStr "indexer.pos.rewards.locked");
  ("params", VObj [
    ("address", VStr "=,string");
    ("publicKey", VStr "=,string");
    ("name", VStr "=,string");
    ("limit", VStr "=,number");
    ("offset", VStr "=,number")]);
  ("definition", VObj [
    ("data", VArr [VStr "data"; Mappings.posRewardsLocked]);
    ("meta", VObj [("count", VStr "=,number"); ("offset", VStr "=,number"); ("total", VStr "=,number")])])].

Definition posStakers : val := VObj [
  ("type", VStr "moleculer");
  ("method", VStr "indexer.pos.stakers");
  ("params", VObj [
    ("address", VStr "=,string");
    ("publicKey", VStr "=,string");
    ("name", VStr "=,string");
    ("search", VStr "=,string");
    ("limit", VStr "=,number");
    ("offset", VStr "=,number")]);
  ("definition", VObj [
    ("data", VObj [("stakers", VArr [VStr "data.stakers"; Mappings.posStaker])]);
    ("meta", VObj [
      ("validator", VObj [
        ("address", VStr "=,string");
        ("publicKey", VStr "=,string");
        ("name", VStr "=,string")]);
      ("count", VStr "=,number");
      ("offset", VStr "=,number");
      ("total", VStr "=,number")])])].

Definition posStakes : val := VObj [
  ("type", VStr "moleculer");
  ("method", VStr "indexer.pos.stakes");
  ("params", VObj [
    ("address", VStr "=,string");
    ("publicKey", VStr "=,string");
    ("name", VStr "=,string");
    ("search", VStr "=,string")]);
  ("definition", VObj [
    ("data", VObj [("stakes", VArr [VStr "data.stakes"; Mappings.posStake])]);
    ("meta", VObj [
      ("staker", VObj [
        ("address", VStr "=,string");
        ("publicKey", VStr "=,string");
        ("name", VStr "=,string")]);
      ("count", VStr "=,number")])])].

Definition posUnlocks : val := VObj [
  ("type", VStr "moleculer");
  ("method", VStr "indexer.pos.unlocks");
  ("params", VObj [
    ("address", VStr "=,string");
    ("name", VStr "=,string");
    ("publicKey", VStr "=,string");
    ("isLocked", VStr "=,boolean");
    ("limit", VStr "=,number");
    ("offset", VStr "=,number")]);
  ("definition", VObj [
    ("data", Mappings.posUnlock);
    ("meta", VObj [("count", VStr "=,number"); ("offset", VStr "=,number"); ("total", VStr "=,number")]);
    ("links", VObj [])])].

Definition posValidators : val := VObj [
  ("type", VStr "moleculer");
  ("method", VStr "indexer.pos.validators");
  ("params", VObj [
    ("address", VStr "=,string");
    ("publicKey", VStr "=,string");
    ("name", VStr "=,string");
    ("status", VStr "=,string");
    ("search", VStr "=,string");
    ("offset", VStr "=,number");
    ("limit", VStr "=,number");
    ("sort", VStr "=,string")]);
  ("definition", VObj [
    ("data", VArr [VStr "data"; Mappings.posValidator]);
    ("meta", VObj [("count", VStr "=,number"); ("offset", VStr "=,number"); ("total", VStr "=,number")])])].

Definition postTransactions : val := VObj [
  ("type", VStr "moleculer");
  ("method", VStr "indexer.transactions.post");
  ("params", VObj [("transaction", VStr "=,string")]);
  ("definition", VObj [("message", VStr "="); ("transactionID", VStr "=")])].

Definition profiles : val := VObj [
  ("type", VStr "moleculer");
  ("method", VStr "indexer.profiles");
  ("params", VObj [
    ("profileID", VStr "=,string");
    ("name", VStr "=,string");
    ("nickName", VStr "=,string");
    ("description", VStr "=,string");
    ("socialAccounts", VArr [VStr "socialAccounts"; VObj [("username", VStr "=,string"); ("platform", VStr "=,number")]]);
    ("avatarHash", VStr "=,string");
    ("avatarSignature", VStr "=,string");
    ("bannerHash", VStr "=,string");
    ("bannerSignature", VStr "=,string");
    ("creatorAddress", VStr "=,string");
    ("search", VStr "=,string")]);
  ("definition", VObj [
    ("data", VArr [VStr "data"; Mappings.profile]);
    ("meta", VObj [("count", VStr "=,number"); ("offset", VStr "=,number"); ("total", VStr "=,number")]);
    ("links", VObj [])])].

Definition rewardAnnualInflation : val := VObj [
  ("type", VStr "moleculer");
  ("method", VStr "indexer.reward.annualInflation");
  ("params", VObj [("height", VStr "=,number")]);
  ("definition", VObj [
    ("data", VObj [("tokenID", VStr "=,string"); ("rate", VStr "=,string")]);
    ("meta", VObj [])])].

Definition rewardConstants : val := VObj [
  ("type", VStr "moleculer");
  ("method", VStr "indexer.reward.constants");
  ("params", VObj []);
  ("definition", VObj [("data", VObj [("rewardTokenID", VStr "=,string")]); ("meta", VObj [])])].

Definition rewardDefault : val := VObj [
  ("type", VStr "moleculer");
  ("method", VStr "indexer.reward.default");
  ("params", VObj [("height", VStr "=,number")]);
  ("definition", VObj [
    ("data", VObj [("defaultReward", VStr "=,string"); ("tokenID", VStr "=,string")]);
    ("meta", VObj [])])].

Definition scheduleExport : val := VObj [
  ("type", VStr "moleculer");
  ("method", VStr "export.transactions.schedule");
  ("params", VObj [
    ("address", VStr "=,string");
    ("publicKey", VStr "=,string");
    ("interval", VStr "=,string")]);
  ("definition", VObj [
    ("data", Mappings.scheduleExport);
    ("meta", VObj [("ready", VStr "=,boolean")]);
    ("links", VObj [])])].

Definition schemas : val := VObj [
  ("type", VStr "moleculer");
  ("method", VStr "indexer.schemas");
  ("params", VObj []);
  ("definition", VObj [
    ("data", Mappings.schema);
    ("meta", VObj [("count", VStr "=,number"); ("offset", VStr "=,number"); ("total", VStr "=,number")]);
    ("links", VObj [])])].

Definition subscriptions : val := VObj [
  ("type", VStr "moleculer");
  ("method", VStr "indexer.subscriptions");
  ("params", VObj [
    ("subscriptionID", VStr "=,string");
    ("creatorAddress", VStr "=,string");
    ("price", VStr "=,string");
    ("consumed", VStr "=,string");
    ("members", VArr [VStr "members"; VObj [
        ("address", VStr "=,string");
        ("name", VStr "=,string");
        ("publicKey", VStr "=,string")]]);
    ("streams", VStr "=,string");
    ("maxMembers", VStr "=,number");
    ("limit", VStr "=,number");
    ("offset", VStr "=,number");
    ("sort", VStr "=,string");
    ("order", VStr "=,string")]);
  ("definition", VObj [
    ("data", VArr [VStr "data"; Mappings.subscription]);
    ("meta", VObj [("count", VStr "=,number"); ("offset", VStr "=,number"); ("total", VStr "=,number")]);
    ("links", VObj [])])].

Definition tokenAccountExists : val := VObj [
  ("type", VStr "moleculer");
  ("method", VStr "indexer.token.account.exists");
  ("params", VObj [
    ("address", VStr "=,string");
    ("publicKey", VStr "=,string");
    ("name", VStr "=,string");
    ("tokenID", VStr "=,string")]);
  ("definition", VObj [("data", VObj [("isExists", VStr "=,boolean")]); ("meta", VObj [])])].

Definition tokenBalances : val := VObj [
  ("type", VStr "moleculer");
  ("method", VStr "indexer.token.balances");
  ("params", VObj [
    ("address", VStr "=,string");
    ("tokenID", VStr "=,string");
    ("offset", VStr "=,number");
    ("limit", VStr "=,number")]);
  ("definition", VObj [
    ("data", VArr [VStr "data"; Mappings.token]);
    ("meta", VObj [
      ("address", VStr "=,string");
      ("count", VStr "=,number");
      ("offset", VStr "=,number");
      ("total", VStr "=,number")]);
    ("links", VObj [])])].

Definition tokenConstants : val := VObj [
  ("type", VStr "moleculer");
  ("method", VStr "indexer.token.constants");
  ("params", VObj []);
  ("definition", VObj [("data", Mappings.tokenConstants); ("meta", VObj []); ("links", VObj [])])].

Definition tokenSummary : val := VObj [
  ("type", VStr "moleculer");
  ("method", VStr "indexer.token.summary");
  ("params", VObj [("offset", VStr "=,number"); ("limit", VStr "=,number")]);
  ("definition", VObj [
    ("data", VObj [
      ("escrowedAmounts", VArr [VStr "data.escrowedAmounts"; Mappings.escrowedAmount]);
      ("supportedTokens", Mappings.supportedToken);
      ("totalSupply", VArr [VStr "data.totalSupply"; Mappings.totalSupplyByToken])]);
    ("meta", VObj []);
    ("links", VObj [])])].

Definition transactions : val := VObj [
  ("type", VStr "moleculer");
  ("method", VStr "indexer.transactions");
  ("params", VObj [
    ("id", VStr "transactionID,string");
    ("moduleCommand", VStr "=,string");
    ("senderAddress", VStr "=,string");
    ("recipientAddress", VStr "=,string");
    ("address", VStr "=,string");
    ("blockID", VStr "=,string");
    ("height", VStr "=,string");
    ("timestamp", VStr "=,string");
    ("executionStatus", VStr "=,string");
    ("nonce", VStr "=,string");
    ("limit", VStr "=,number");
    ("offset", VStr "=,number");
    ("sort", VStr "=,string");
    ("order", VStr "=,string")]);
  ("definition", VObj [
    ("data", VArr [VStr "data"; Mappings.transaction]);
    ("meta", VObj [("count", VStr "=,number"); ("offset", VStr "=,number"); ("total", VStr "=,number")]);
    ("links", VObj [])])].

Definition transactionsDryRun : val := VObj [
  ("type", VStr "moleculer");
  ("method", VStr "indexer.transactions.dryrun");
  ("params", VObj [
    ("transaction", VStr "=");
    ("skipVerify", VStr "=,boolean");
    ("skipDecode", VStr "=,boolean")]);
  ("definition", VObj [
    ("data", VObj [
      ("result", VStr "=,number");
      ("status", VStr "=,string");
      ("events", VArr [VStr "data.events"; VObj [
          ("data", VStr "=");
          ("index", VStr "=,number");
          ("module", VStr "=,string");
          ("name", VStr "=,string");
          ("topics", VStr "=");
          ("height", VStr "=,number");
          ("id", VStr "=,string")]]);
      ("errorMessage", VStr "=,string")]);
    ("meta", VObj [])])].

Definition transactionsStatistics : val := VObj [
  ("type", VStr "moleculer");
  ("method", VStr "statistics.transactions.statistics");
  ("params", VObj [("interval", VStr "=,string"); ("offset", VStr "=,number"); ("limit", VStr "=,number")]);
  ("definition", VObj [
    ("data", Mappings.transactionsStatistics);
    ("meta", VObj [
      ("limit", VStr "=,number");
      ("offset", VStr "=,number");
      ("total", VStr "=,number");
      ("duration", VObj [("format", VStr "=,string"); ("from", VStr "=,string"); ("to", VStr "=,string")])]);
    ("links", VObj [])])].

Definition validator : val := VObj [
  ("type", VStr "moleculer");
  ("method", VStr "indexer.validator");
  ("params", VObj [("address", VStr "=,string")]);
  ("definition", VObj [
    ("data", Mappings.validator);
    ("meta", VObj [("address", VStr "=,string"); ("publicKey", VStr "=,string"); ("name", VStr "=,string")]);
    ("links", VObj [])])].

Definition validatorValidateBLSKey : val := VObj [
  ("type", VStr "moleculer");
  ("method", VStr "indexer.validateBLSKey");
  ("params", VObj [("blsKey", VStr "=,string"); ("proofOfPossession", VStr "=,string")]);
  ("definition", VObj [("data", VObj [("isValid", VStr "=,boolean")]); ("meta", VObj []); ("links", VObj [])])].

End Sources.
