(* ===== verification/GatewayRoutes.v ===== *)
(** * The gateway's routes: services/gateway/shared/regex.js and
    services/gateway/apis

    A route declares its paths, its parameters with the rules of
    fastest-validator, its source and the envelope of its response.  The
    getter [schema] of each file, which describes the route for the
    documentation, is in [GatewayDocs].  Modules [HttpVersion3], [HttpExports],
    [HttpStatus] and [HttpTest] hold the directories of apis, with the files
    of the application modules in [ModuleRoutes]. *)
From S2P Require Export GatewaySources.
Open Scope string_scope.
Open Scope Z_scope.
Open Scope list_scope.

(** A regular expression literal: its source and flags.  The code of the
    repository only hands it to fastest-validator. *)
Definition regexp (source flags : string) : val := VObj [("source", VStr source); ("flags", VStr flags)].

(** ** shared/regex.js *)
Module Regex.

Definition PUBLIC_KEY : val := regexp "^([A-Fa-f0-9]{2}){32}$" "".
Definition ADDRESS_LISK32 : val := regexp "^lsk[a-hjkm-z2-9]{38}$" "".
Definition ADDRESS_LISK32_CSV : val := regexp "^(lsk[a-hjkm-z2-9]{38}){1}(,lsk[a-hjkm-z2-9]{38})*$" "".
Definition NONCE : val := regexp "^[0-9]+$" "".
Definition TIMESTAMP_RANGE : val := regexp "^(?:(?:\d+)|(?::(?:\d+))|(?:(?:\d+):(?:\d+)?))$" "".
Definition HEIGHT_RANGE : val := regexp "^(?:(?:\d+)|(?::(?:\d+))|(?:(?:\d+):(?:\d+)?))$" "".
Definition NAME : val := regexp "^[\w!@$&.]{3,20}$" "".
Definition NAME_CSV : val := regexp "^[\w!@$&.,]{3,}$" "".
Definition TRANSACTION_EXECUTION_STATUS : val := regexp "^\b(?:pending|success|fail|,)+\b$" "".
Definition POS_VALIDATOR_STATUS : val := regexp "^\b(?:active|standby|banned|punished|ineligible|,)+\b$" "".
Definition HASH_SHA256 : val := regexp "^\b([A-Fa-f0-9]){1,64}\b$" "".
Definition CCM_STATUS : val := regexp "^\b(?:ok|module_not_supported|module_not_supported|channel_unavailable|recovered|,)+\b$" "".
Definition INTERVAL : val := regexp "^\b((\d{4})-((1[012])|(0?[1-9]))-(([012][1-9])|([123]0)|31))(:((\d{4})-((1[012])|(0?[1-9]))-(([012][1-9])|([123]0)|31)))?\b$" "g".
Definition CHAINID_RANGE : val := regexp "^\b(?:[0-9]{1,10}(?::[0-9]{1,10})?)\b$" "".
Definition NETWORK_CSV : val := regexp "^\b(?:mainnet|testnet|betanet|alphanet|devnet|,)+\b$" "".
Definition APPLICATION_STATUS : val := regexp "^\b(?:registered|active|terminated|unregistered|,)+\b$" "".
Definition MODULE_COMMAND : val := regexp "^[a-zA-Z][\w]{0,31}:[a-zA-Z][\w]{0,31}$" "".
Definition CHAIN_ID : val := regexp "^\b[a-fA-F0-9]{8}\b$" "".
Definition CHAIN_ID_CSV : val := regexp "^\b[a-fA-F0-9,]{8,}\b$" "".
Definition TOKEN_ID : val := regexp "^\b[a-fA-F0-9]{16}\b$" "".
Definition TOKEN_ID_CSV : val := regexp "^\b[a-fA-F0-9,]{16,}\b$" "".
Definition BLS_KEY : val := regexp "^\b[a-fA-F0-9]{96}\b$" "".
Definition PROOF_OF_POSSESSION : val := regexp "^\b[a-fA-F0-9]{192}\b$" "".
Definition MODULE : val := regexp "^\b(?:[\w!@$&.]{1,32}|,)+\b$" "".
Definition TOPIC : val := regexp "^\b(?:(?:[0-9a-fA-F]{2,64}|lsk[a-hjkm-z2-9]{38}),?)+\b$" "".
End Regex.

Module HttpVersion3.

Definition audios : val := VObj [
  ("version", VStr "2.0");
  ("swaggerApiPath", VStr "/audios");
  ("rpcMethod", VStr "get.audios");
  ("tags", VArr [VStr "Audios"]);
  ("params", VObj [
    ("creatorAddress", VObj [
      ("optional", VBool true);
      ("type", VStr "string");
      ("min", VNum 3);
      ("max", VNum 41);
      ("pattern", Regex.ADDRESS_LISK32)]);
    ("audioID", VObj [
      ("optional", VBool true);
      ("type", VStr "string");
      ("min", VNum 1);
      ("max", VNum 64);
      ("pattern", Regex.HASH_SHA256)]);
    ("collectionID", VObj [
      ("optional", VBool true);
      ("type", VStr "string");
      ("min", VNum 1);
      ("max", VNum 64);
      ("pattern", Regex.HASH_SHA256)]);
    ("ownerAddress", VObj [
      ("optional", VBool true);
      ("type", VStr "string");
      ("min", VNum 3);
      ("max", VNum 41);
      ("pattern", Regex.ADDRESS_LISK32)]);
    ("search", VObj [("optional", VBool true); ("type", VStr "string")]);
    ("limit", VObj [
      ("optional", VBool true);
      ("type", VStr "number");
      ("min", VNum 1);
      ("max", VNum 100);
      ("default", VNum 10)]);
    ("offset", VObj [("optional", VBool true); ("type", VStr "number"); ("min", VNum 0); ("default", VNum 0)])]);
  ("source", Sources.audios);
  ("envelope", Mappings.stdEnvelope)].

Definition blockAssets : val := VObj [
  ("version", VStr "2.0");
  ("swaggerApiPath", VStr "/blocks/assets");
  ("rpcMethod", VStr "get.blocks.assets");
  ("tags", VArr [VStr "Blocks"]);
  ("params", VObj [
    ("blockID", VObj [
      ("optional", VBool true);
      ("type", VStr "string");
      ("min", VNum 1);
      ("max", VNum 64);
      ("pattern", Regex.HASH_SHA256)]);
    ("height", VObj [
      ("optional", VBool true);
      ("type", VStr "string");
      ("min", VNum 0);
      ("pattern", Regex.HEIGHT_RANGE)]);
    ("timestamp", VObj [
      ("optional", VBool true);
      ("type", VStr "string");
      ("min", VNum 1);
      ("pattern", Regex.TIMESTAMP_RANGE)]);
    ("module", VObj [
      ("optional", VBool true);
      ("type", VStr "string");
      ("min", VNum 1);
      ("pattern", Regex.MODULE)]);
    ("limit", VObj [
      ("optional", VBool true);
      ("type", VStr "number");
      ("min", VNum 1);
      ("max", VNum 100);
      ("default", VNum 10)]);
    ("offset", VObj [("optional", VBool true); ("type", VStr "number"); ("min", VNum 0); ("default", VNum 0)]);
    ("sort", VObj [
      ("optional", VBool true);
      ("type", VStr "string");
      ("enum", VArr [VStr "height:asc"; VStr "height:desc"; VStr "timestamp:asc"; VStr "timestamp:desc"]);
      ("default", VStr "height:desc")])]);
  ("source", Sources.blockAssets);
  ("envelope", Mappings.stdEnvelope)].

Definition blockchainApps : val := VObj [
  ("version", VStr "2.0");
  ("swaggerApiPath", VStr "/blockchain/apps");
  ("rpcMethod", VStr "get.blockchain.apps");
  ("tags", VArr [VStr "Interoperability"]);
  ("params", VObj [
    ("chainID", VObj [
      ("optional", VBool true);
      ("type", VStr "string");
      ("pattern", Regex.CHAIN_ID_CSV);
      ("altSwaggerKey", VStr "chainIDCSV")]);
    ("name", VObj [
      ("optional", VBool true);
      ("type", VStr "string");
      ("min", VNum 1);
      ("max", VNum 20);
      ("pattern", Regex.NAME)]);
    ("status", VObj [
      ("optional", VBool true);
      ("type", VStr "string");
      ("pattern", Regex.APPLICATION_STATUS);
      ("altSwaggerKey", VStr "blockchainAppStatus")]);
    ("search", VObj [
      ("optional", VBool true);
      ("type", VStr "string");
      ("altSwaggerKey", VStr "blockchainAppSearch")]);
    ("limit", VObj [
      ("optional", VBool true);
      ("type", VStr "number");
      ("min", VNum 1);
      ("max", VNum 100);
      ("default", VNum 10)]);
    ("offset", VObj [("optional", VBool true); ("type", VStr "number"); ("min", VNum 0); ("default", VNum 0)])]);
  ("source", Sources.blockchainAppsSchema);
  ("envelope", Mappings.stdEnvelope)].

Definition blockchainAppsMetaList : val := VObj [
  ("version", VStr "2.0");
  ("swaggerApiPath", VStr "/blockchain/apps/meta/list");
  ("rpcMethod", VStr "get.blockchain.apps.meta.list");
  ("tags", VArr [VStr "Application Off-Chain Metadata"]);
  ("params", VObj [
    ("chainName", VObj [
      ("optional", VBool true);
      ("type", VStr "string");
      ("min", VNum 1);
      ("max", VNum 20);
      ("pattern", Regex.NAME)]);
    ("network", VObj [
      ("optional", VBool true);
      ("type", VStr "string");
      ("min", VNum 1);
      ("pattern", Regex.NETWORK_CSV)]);
    ("search", VObj [("optional", VBool true); ("type", VStr "string")]);
    ("limit", VObj [
      ("optional", VBool true);
      ("type", VStr "number");
      ("min", VNum 1);
      ("max", VNum 100);
      ("default", VNum 10)]);
    ("offset", VObj [("optional", VBool true); ("type", VStr "number"); ("min", VNum 0); ("default", VNum 0)]);
    ("sort", VObj [
      ("optional", VBool true);
      ("type", VStr "string");
      ("enum", VArr [VStr "chainName:asc"; VStr "chainName:desc"]);
      ("default", VStr "chainName:asc")])]);
  ("source", Sources.blockchainAppsMetaListSchema);
  ("envelope", Mappings.stdEnvelope)].

Definition blockchainAppsMetadata : val := VObj [
  ("version", VStr "2.0");
  ("swaggerApiPath", VStr "/blockchain/apps/meta");
  ("rpcMethod", VStr "get.blockchain.apps.meta");
  ("tags", VArr [VStr "Application Off-Chain Metadata"]);
  ("params", VObj [
    ("chainName", VObj [
      ("optional", VBool true);
      ("type", VStr "string");
      ("min", VNum 1);
      ("max", VNum 20);
      ("pattern", Regex.NAME)]);
    ("chainID", VObj [
      ("optional", VBool true);
      ("type", VStr "string");
      ("pattern", Regex.CHAIN_ID_CSV);
      ("altSwaggerKey", VStr "chainIDCSV")]);
    ("isDefault", VObj [("optional", VBool true); ("type", VStr "boolean")]);
    ("network", VObj [
      ("optional", VBool true);
      ("type", VStr "string");
      ("min", VNum 1);
      ("pattern", Regex.NETWORK_CSV)]);
    ("search", VObj [("optional", VBool true); ("type", VStr "string")]);
    ("limit", VObj [
      ("optional", VBool true);
      ("type", VStr "number");
      ("min", VNum 1);
      ("max", VNum 100);
      ("default", VNum 10)]);
    ("offset", VObj [("optional", VBool true); ("type", VStr "number"); ("min", VNum 0); ("default", VNum 0)]);
    ("sort", VObj [
      ("optional", VBool true);
      ("type", VStr "string");
      ("enum", VArr [VStr "chainName:asc"; VStr "chainName:desc"; VStr "chainID:asc"; VStr "chainID:desc"]);
      ("default", VStr "chainName:asc")])]);
  ("source", Sources.blockchainAppsMetadataSchema);
  ("envelope", Mappings.stdEnvelope)].

Definition blockchainAppsStatistics : val := VObj [
  ("version", VStr "2.0");
  ("swaggerApiPath", VStr "/blockchain/apps/statistics");
  ("rpcMethod", VStr "get.blockchain.apps.statistics");
  ("tags", VArr [VStr "Interoperability"]);
  ("params", VObj []);
  ("source", Sources.blockchainAppsStatsSchema);
  ("envelope", Mappings.stdEnvelope)].

Definition blockchainAppsTokenMetadata : val := VObj [
  ("version", VStr "2.0");
  ("swaggerApiPath", VStr "/blockchain/apps/meta/tokens");
  ("rpcMethod", VStr "get.blockchain.apps.meta.tokens");
  ("tags", VArr [VStr "Application Off-Chain Metadata"]);
  ("params", VObj [
    ("chainName", VObj [("optional", VBool true); ("type", VStr "string"); ("pattern", Regex.NAME)]);
    ("chainID", VObj [("optional", VBool true); ("type", VStr "string"); ("pattern", Regex.CHAIN_ID)]);
    ("tokenName", VObj [("optional", VBool true); ("type", VStr "string"); ("pattern", Regex.NAME_CSV)]);
    ("tokenID", VObj [
      ("optional", VBool true);
      ("type", VStr "string");
      ("pattern", Regex.TOKEN_ID_CSV);
      ("altSwaggerKey", VStr "tokenIDCSV")]);
    ("network", VObj [("optional", VBool true); ("type", VStr "string"); ("pattern", Regex.NETWORK_CSV)]);
    ("search", VObj [("optional", VBool true); ("type", VStr "string")]);
    ("limit", VObj [
      ("optional", VBool true);
      ("type", VStr "number");
      ("min", VNum 1);
      ("max", VNum 100);
      ("default", VNum 10)]);
    ("offset", VObj [("optional", VBool true); ("type", VStr "number"); ("min", VNum 0); ("default", VNum 0)]);
    ("sort", VObj [
      ("optional", VBool true);
      ("type", VStr "string");
      ("enum", VArr [VStr "chainName:asc"; VStr "chainName:desc"]);
      ("default", VStr "chainName:asc")])]);
  ("source", Sources.blockchainAppsTokenMetadataSchema);
  ("envelope", Mappings.stdEnvelope)].

Definition blockchainAppsTokenSupportedMetadata : val := VObj [
  ("version", VStr "2.0");
  ("swaggerApiPath", VStr "/blockchain/apps/meta/tokens/supported");
  ("rpcMethod", VStr "get.blockchain.apps.meta.tokens.supported");
  ("tags", VArr [VStr "Application Off-Chain Metadata"]);
  ("params", VObj [
    ("chainID", VObj [("optional", VBool false); ("type", VStr "string"); ("pattern", Regex.CHAIN_ID)]);
    ("limit", VObj [
      ("optional", VBool true);
      ("type", VStr "number");
      ("min", VNum 1);
      ("max", VNum 100);
      ("default", VNum 10)]);
    ("offset", VObj [("optional", VBool true); ("type", VStr "number"); ("min", VNum 0); ("default", VNum 0)]);
    ("sort", VObj [
      ("optional", VBool true);
      ("type", VStr "string");
      ("enum", VArr [VStr "tokenID:asc"; VStr "tokenID:desc"]);
      ("default", VStr "tokenID:asc")])]);
  ("source", Sources.blockchainAppsTokenSupportedMetadataSchema);
  ("envelope", Mappings.stdEnvelope)].

Definition blocks : val := VObj [
  ("version", VStr "2.0");
  ("swaggerApiPath", VStr "/blocks");
  ("rpcMethod", VStr "get.blocks");
  ("tags", VArr [VStr "Blocks"]);
  ("params", VObj [
    ("blockID", VObj [
      ("optional", VBool true);
      ("type", VStr "string");
      ("min", VNum 1);
      ("max", VNum 64);
      ("pattern", regexp "^([1-9]|[A-Fa-f0-9]){1,64}$" "")]);
    ("height", VObj [
      ("optional", VBool true);
      ("type", VStr "string");
      ("min", VNum 0);
      ("pattern", regexp "([0-9]+|[0-9]+:[0-9]+)" "")]);
    ("timestamp", VObj [
      ("optional", VBool true);
      ("type", VStr "string");
      ("min", VNum 1);
      ("pattern", regexp "([0-9]+|[0-9]+:[0-9]+)" "")]);
    ("generatorAddress", VObj [
      ("optional", VBool true);
      ("type", VStr "string");
      ("min", VNum 38);
      ("max", VNum 41);
      ("pattern", regexp "^lsk[a-hjkm-z2-9]{38}$" "")]);
    ("limit", VObj [
      ("optional", VBool true);
      ("type", VStr "number");
      ("min", VNum 1);
      ("max", VNum 100);
      ("default", VNum 10);
      ("pattern", regexp "^\b((?:[1-9][0-9]?)|100)\b$" "")]);
    ("offset", VObj [
      ("optional", VBool true);
      ("type", VStr "number");
      ("min", VNum 0);
      ("default", VNum 0);
      ("pattern", regexp "^\b([0-9][0-9]*)\b$" "")]);
    ("sort", VObj [
      ("optional", VBool true);
      ("type", VStr "string");
      ("enum", VArr [VStr "height:asc"; VStr "height:desc"; VStr "timestamp:asc"; VStr "timestamp:desc"]);
      ("default", VStr "height:desc")])]);
  ("source", Sources.blocks);
  ("envelope", Mappings.stdEnvelope)].

Definition collections : val := VObj [
  ("version", VStr "2.0");
  ("swaggerApiPath", VStr "/collections");
  ("rpcMethod", VStr "get.collections");
  ("tags", VArr [VStr "Collections"]);
  ("params", VObj [
    ("creatorAddress", VObj [
      ("optional", VBool true);
      ("type", VStr "string");
      ("min", VNum 3);
      ("max", VNum 41);
      ("pattern", Regex.ADDRESS_LISK32)]);
    ("collectionID", VObj [
      ("optional", VBool true);
      ("type", VStr "string");
      ("min", VNum 1);
      ("max", VNum 64);
      ("pattern", Regex.HASH_SHA256)]);
    ("search", VObj [("optional", VBool true); ("type", VStr "string")])]);
  ("source", Sources.collections);
  ("envelope", Mappings.stdEnvelope)].

Definition events : val := VObj [
  ("version", VStr "2.0");
  ("swaggerApiPath", VStr "/events");
  ("rpcMethod", VStr "get.events");
  ("tags", VArr [VStr "Events"]);
  ("params", VObj [
    ("transactionID", VObj [
      ("optional", VBool true);
      ("type", VStr "string");
      ("min", VNum 1);
      ("max", VNum 64);
      ("pattern", Regex.HASH_SHA256)]);
    ("senderAddress", VObj [
      ("optional", VBool true);
      ("type", VStr "string");
      ("min", VNum 3);
      ("max", VNum 41);
      ("pattern", Regex.ADDRESS_LISK32)]);
    ("topic", VObj [
      ("optional", VBool true);
      ("type", VStr "string");
      ("min", VNum 1);
      ("pattern", Regex.TOPIC)]);
    ("blockID", VObj [
      ("optional", VBool true);
      ("type", VStr "string");
      ("min", VNum 1);
      ("max", VNum 64);
      ("pattern", Regex.HASH_SHA256)]);
    ("height", VObj [
      ("optional", VBool true);
      ("type", VStr "string");
      ("min", VNum 1);
      ("pattern", Regex.HEIGHT_RANGE)]);
    ("timestamp", VObj [
      ("optional", VBool true);
      ("type", VStr "string");
      ("min", VNum 1);
      ("pattern", Regex.TIMESTAMP_RANGE)]);
    ("limit", VObj [
      ("optional", VBool true);
      ("type", VStr "number");
      ("min", VNum 1);
      ("max", VNum 100);
      ("default", VNum 10)]);
    ("offset", VObj [("optional", VBool true); ("type", VStr "number"); ("min", VNum 0); ("default", VNum 0)]);
    ("sort", VObj [
      ("optional", VBool true);
      ("type", VStr "string");
      ("enum", VArr [VStr "height:asc"; VStr "height:desc"; VStr "timestamp:asc"; VStr "timestamp:desc"]);
      ("default", VStr "timestamp:desc")]);
    ("order", VObj [
      ("optional", VBool true);
      ("type", VStr "string");
      ("enum", VArr [VStr "index:asc"; VStr "index:desc"]);
      ("default", VStr "index:asc")])]);
  ("source", Sources.events);
  ("envelope", Mappings.stdEnvelope)].

Definition fees : val := VObj [
  ("version", VStr "2.0");
  ("swaggerApiPath", VStr "/fees");
  ("rpcMethod", VStr "get.fees");
  ("tags", VArr [VStr "Fee"]);
  ("source", Sources.fees);
  ("envelope", Mappings.stdEnvelope)].

Definition generators : val := VObj [
  ("version", VStr "2.0");
  ("swaggerApiPath", VStr "/generators");
  ("rpcMethod", VStr "get.generators");
  ("params", VObj [
    ("limit", VObj [
      ("optional", VBool true);
      ("type", VStr "number");
      ("min", VNum 1);
      ("max", VNum 103);
      ("default", VNum 10)]);
    ("offset", VObj [("optional", VBool true); ("type", VStr "number"); ("min", VNum 0); ("default", VNum 0)])]);
  ("tags", VArr [VStr "Generators"]);
  ("source", Sources.generators);
  ("envelope", Mappings.stdEnvelope)].

Definition indexStatus : val := VObj [
  ("version", VStr "2.0");
  ("swaggerApiPath", VStr "/index/status");
  ("rpcMethod", VStr "get.index.status");
  ("tags", VArr [VStr "Index Status"]);
  ("source", Sources.indexStatus);
  ("envelope", Mappings.stdEnvelope)].

Definition invoke : val := VObj [
  ("version", VStr "2.0");
  ("swaggerApiPath", VStr "/invoke");
  ("httpMethod", VStr "POST");
  ("rpcMethod", VStr "post.invoke");
  ("tags", VArr [VStr "Proxy"]);
  ("params", VObj [
    ("endpoint", VObj [("optional", VBool false); ("type", VStr "string")]);
    ("params", VObj [("optional", VBool true); ("type", VStr "object")])]);
  ("source", Sources.invoke)].

Definition market : val := VObj [
  ("version", VStr "2.0");
  ("swaggerApiPath", VStr "/market/prices");
  ("rpcMethod", VStr "get.market.prices");
  ("tags", VArr [VStr "Market"]);
  ("params", VObj []);
  ("source", Sources.marketPrices);
  ("envelope", Mappings.stdEnvelope)].

Definition networkPeers : val := VObj [
  ("version", VStr "2.0");
  ("swaggerApiPath", VStr "/network/peers");
  ("rpcMethod", VStr "get.network.peers");
  ("tags", VArr [VStr "Network"]);
  ("params", VObj [
    ("ip", VObj [
      ("optional", VBool true);
      ("type", VStr "string");
      ("pattern", regexp "^(?:(?:25[0-5]|2[0-4][0-9]|[01]?[0-9][0-9]?)\.){3}(?:25[0-5]|2[0-4][0-9]|[01]?[0-9][0-9]?)$" "")]);
    ("networkVersion", VObj [
      ("optional", VBool true);
      ("type", VStr "string");
      ("pattern", regexp "^(0|[1-9]\d*)\.(0|[1-9]\d*)\.(0|[1-9]\d*)(-(0|[1-9]\d*|\d*[a-zA-Z-][0-9a-zA-Z-]*)(\.(0|[1-9]\d*|\d*[a-zA-Z-][0-9a-zA-Z-]*))*)?(\+[0-9a-zA-Z-]+(\.[0-9a-zA-Z-]+)*)?$" "")]);
    ("state", VObj [
      ("optional", VBool true);
      ("type", VStr "string");
      ("enum", VArr [VStr "connected"; VStr "disconnected"; VStr "any"]);
      ("default", VStr "any");
      ("lowercase", VBool true)]);
    ("height", VObj [
      ("optional", VBool true);
      ("min", VNum 0);
      ("type", VStr "number");
      ("integer", VBool true)]);
    ("limit", VObj [
      ("optional", VBool true);
      ("min", VNum 1);
      ("max", VNum 100);
      ("type", VStr "number");
      ("integer", VBool true);
      ("default", VNum 10)]);
    ("offset", VObj [
      ("optional", VBool true);
      ("min", VNum 0);
      ("type", VStr "number");
      ("integer", VBool true);
      ("default", VNum 0)]);
    ("sort", VObj [
      ("optional", VBool true);
      ("type", VStr "string");
      ("enum", VArr [VStr "height:asc"; VStr "height:desc"; VStr "networkVersion:asc"; VStr "networkVersion:desc"]);
      ("default", VStr "height:desc")])]);
  ("source", Sources.networkPeers);
  ("envelope", Mappings.stdEnvelope)].

Definition networkStatistics : val := VObj [
  ("version", VStr "2.0");
  ("swaggerApiPath", VStr "/network/statistics");
  ("rpcMethod", VStr "get.network.statistics");
  ("tags", VArr [VStr "Network"]);
  ("source", Sources.networkStatistics);
  ("envelope", Mappings.stdEnvelope)].

Definition networkStatus : val := VObj [
  ("version", VStr "2.0");
  ("swaggerApiPath", VStr "/network/status");
  ("rpcMethod", VStr "get.network.status");
  ("tags", VArr [VStr "Network"]);
  ("source", Sources.networkStatus)].

Definition postTransactions : val := VObj [
  ("version", VStr "2.0");
  ("swaggerApiPath", VStr "/transactions");
  ("httpMethod", VStr "POST");
  ("rpcMethod", VStr "post.transactions");
  ("tags", VArr [VStr "Transactions"]);
  ("params", VObj [
    ("transaction", VObj [
      ("optional", VBool false);
      ("type", VStr "string");
      ("min", VNum 1);
      ("pattern", regexp "^\b[0-9a-fA-F]+\b$" "")])]);
  ("source", Sources.postTransactions)].

Definition profiles : val := VObj [
  ("version", VStr "2.0");
  ("swaggerApiPath", VStr "/profiles");
  ("rpcMethod", VStr "get.profiles");
  ("tags", VArr [VStr "Profiles"]);
  ("params", VObj [
    ("creatorAddress", VObj [
      ("optional", VBool true);
      ("type", VStr "string");
      ("min", VNum 3);
      ("max", VNum 41);
      ("pattern", Regex.ADDRESS_LISK32)]);
    ("profileID", VObj [
      ("optional", VBool true);
      ("type", VStr "string");
      ("min", VNum 1);
      ("max", VNum 64);
      ("pattern", Regex.HASH_SHA256)]);
    ("search", VObj [("optional", VBool true); ("type", VStr "string")])]);
  ("source", Sources.profiles);
  ("envelope", Mappings.stdEnvelope)].

Definition schemas : val := VObj [
  ("version", VStr "2.0");
  ("swaggerApiPath", VStr "/schemas");
  ("rpcMethod", VStr "get.schemas");
  ("tags", VArr [VStr "Schemas"]);
  ("params", VObj []);
  ("source", Sources.schemas);
  ("envelope", Mappings.stdEnvelope)].

Definition spec : val := VObj [
  ("version", VStr "2.0");
  ("swaggerApiPath", VStr "/spec");
  ("source", VObj [
    ("type", VStr "moleculer");
    ("method", VStr "gateway.spec");
    ("params", VObj []);
    ("definition", VObj [
      ("swagger", VStr "=");
      ("info", VStr "=");
      ("basePath", VStr "=");
      ("tags", VStr "=");
      ("schemes", VStr "=");
      ("paths", VStr "=");
      ("parameters", VStr "=");
      ("definitions", VStr "=");
      ("responses", VStr "=")])]);
  ("envelope", VObj [])].

Definition subscriptions : val := VObj [
  ("version", VStr "2.0");
  ("swaggerApiPath", VStr "/subscriptions");
  ("rpcMethod", VStr "get.subscriptions");
  ("tags", VArr [VStr "Subscriptions"]);
  ("params", VObj [
    ("creatorAddress", VObj [
      ("optional", VBool true);
      ("type", VStr "string");
      ("min", VNum 3);
      ("max", VNum 41);
      ("pattern", Regex.ADDRESS_LISK32)]);
    ("subscriptionID", VObj [
      ("optional", VBool true);
      ("type", VStr "string");
      ("min", VNum 1);
      ("max", VNum 64);
      ("pattern", Regex.HASH_SHA256)]);
    ("memberAddress", VObj [("optional", VBool true); ("type", VStr "string")])]);
  ("source", Sources.subscriptions);
  ("envelope", Mappings.stdEnvelope)].

Definition transactions : val := VObj [
  ("version", VStr "2.0");
  ("swaggerApiPath", VStr "/transactions");
  ("rpcMethod", VStr "get.transactions");
  ("tags", VArr [VStr "Transactions"]);
  ("params", VObj [
    ("transactionID", VObj [
      ("optional", VBool true);
      ("type", VStr "string");
      ("min", VNum 1);
      ("max", VNum 64);
      ("pattern", Regex.HASH_SHA256)]);
    ("moduleCommand", VObj [
      ("optional", VBool true);
      ("type", VStr "string");
      ("min", VNum 1);
      ("pattern", Regex.MODULE_COMMAND)]);
    ("senderAddress", VObj [
      ("optional", VBool true);
      ("type", VStr "string");
      ("min", VNum 3);
      ("max", VNum 41);
      ("pattern", Regex.ADDRESS_LISK32)]);
    ("address", VObj [
      ("optional", VBool true);
      ("type", VStr "string");
      ("min", VNum 3);
      ("max", VNum 41);
      ("pattern", Regex.ADDRESS_LISK32)]);
    ("recipientAddress", VObj [
      ("optional", VBool true);
      ("type", VStr "string");
      ("min", VNum 3);
      ("max", VNum 41);
      ("pattern", Regex.ADDRESS_LISK32)]);
    ("blockID", VObj [
      ("optional", VBool true);
      ("type", VStr "string");
      ("min", VNum 1);
      ("max", VNum 64);
      ("pattern", Regex.HASH_SHA256)]);
    ("height", VObj [
      ("optional", VBool true);
      ("type", VStr "string");
      ("min", VNum 1);
      ("pattern", Regex.HEIGHT_RANGE)]);
    ("timestamp", VObj [
      ("optional", VBool true);
      ("type", VStr "string");
      ("min", VNum 1);
      ("pattern", Regex.TIMESTAMP_RANGE)]);
    ("executionStatus", VObj [
      ("optional", VBool true);
      ("type", VStr "string");
      ("pattern", Regex.TRANSACTION_EXECUTION_STATUS)]);
    ("nonce", VObj [
      ("optional", VBool true);
      ("type", VStr "string");
      ("min", VNum 1);
      ("pattern", Regex.NONCE)]);
    ("limit", VObj [
      ("optional", VBool true);
      ("type", VStr "number");
      ("min", VNum 1);
      ("max", VNum 100);
      ("default", VNum 10)]);
    ("offset", VObj [("optional", VBool true); ("type", VStr "number"); ("min", VNum 0); ("default", VNum 0)]);
    ("sort", VObj [
      ("optional", VBool true);
      ("type", VStr "string");
      ("enum", VArr [VStr "height:asc"; VStr "height:desc"; VStr "timestamp:asc"; VStr "timestamp:desc"]);
      ("default", VStr "timestamp:desc")]);
    ("order", VObj [
      ("optional", VBool true);
      ("type", VStr "string");
      ("enum", VArr [VStr "index:asc"; VStr "index:desc"]);
      ("default", VStr "index:asc")])]);
  ("source", Sources.transactions);
  ("envelope", Mappings.stdEnvelope)].

Definition transactionsDryRun : val := VObj [
  ("version", VStr "2.0");
  ("swaggerApiPath", VStr "/transactions/dryrun");
  ("httpMethod", VStr "POST");
  ("rpcMethod", VStr "post.transactions.dryrun");
  ("tags", VArr [VStr "Transactions"]);
  ("params", VObj [
    ("transaction", VArr [VObj [("optional", VBool false); ("type", VStr "string")]; VObj [
        ("optional", VBool false);
        ("type", VStr "object");
        ("props", VObj [
          ("id", VObj [("type", VStr "string")]);
          ("module", VObj [("type", VStr "string")]);
          ("command", VObj [("type", VStr "string")]);
          ("fee", VObj [("type", VStr "string")]);
          ("nonce", VObj [("type", VStr "string")]);
          ("senderPublicKey", VObj [("type", VStr "string")]);
          ("signatures", VObj [("type", VStr "array"); ("items", VStr "string")]);
          ("params", VObj [("type", VStr "object")])])]]);
    ("skipVerify", VObj [("optional", VBool true); ("type", VStr "boolean"); ("default", VBool false)]);
    ("skipDecode", VObj [("optional", VBool true); ("type", VStr "boolean"); ("default", VBool false)])]);
  ("source", Sources.transactionsDryRun)].

Definition transactionsStatistics : val := VObj [
  ("version", VStr "2.0");
  ("swaggerApiPath", VStr "/transactions/statistics");
  ("rpcMethod", VStr "get.transactions.statistics");
  ("tags", VArr [VStr "Transactions"]);
  ("params", VObj [
    ("interval", VObj [
      ("optional", VBool false);
      ("type", VStr "string");
      ("enum", VArr [VStr "day"; VStr "month"])]);
    ("limit", VObj [
      ("optional", VBool true);
      ("type", VStr "number");
      ("min", VNum 1);
      ("max", VNum 100);
      ("default", VNum 10)]);
    ("offset", VObj [("optional", VBool true); ("type", VStr "number"); ("min", VNum 0); ("default", VNum 0)])]);
  ("source", Sources.transactionsStatistics);
  ("envelope", Mappings.stdEnvelope)].

End HttpVersion3.

(** The files of methods/modules/<name>, loaded for the modules the node registers. *)
Module ModuleRoutes.

Definition auth : val := VObj [
  ("version", VStr "2.0");
  ("swaggerApiPath", VStr "/auth");
  ("rpcMethod", VStr "get.auth");
  ("tags", VArr [VStr "Auth"]);
  ("params", VObj [
    ("address", VObj [
      ("optional", VBool false);
      ("type", VStr "string");
      ("min", VNum 3);
      ("max", VNum 41);
      ("pattern", Regex.ADDRESS_LISK32)])]);
  ("source", Sources.auth)].

Definition rewardAnnualInflation : val := VObj [
  ("version", VStr "2.0");
  ("swaggerApiPath", VStr "/reward/annual-inflation");
  ("rpcMethod", VStr "get.reward.annual-inflation");
  ("tags", VArr [VStr "(Dynamic) Reward"]);
  ("params", VObj [
    ("height", VObj [
      ("optional", VBool false);
      ("type", VStr "number");
      ("min", VNum 0);
      ("altSwaggerKey", VStr "blockHeight")])]);
  ("source", Sources.rewardAnnualInflation);
  ("envelope", Mappings.stdEnvelope)].

Definition rewardConstants : val := VObj [
  ("version", VStr "2.0");
  ("swaggerApiPath", VStr "/reward/constants");
  ("rpcMethod", VStr "get.reward.constants");
  ("tags", VArr [VStr "(Dynamic) Reward"]);
  ("params", VObj []);
  ("source", Sources.rewardConstants);
  ("envelope", Mappings.stdEnvelope)].

Definition rewardDefault : val := VObj [
  ("version", VStr "2.0");
  ("swaggerApiPath", VStr "/reward/default");
  ("rpcMethod", VStr "get.reward.default");
  ("tags", VArr [VStr "(Dynamic) Reward"]);
  ("params", VObj [
    ("height", VObj [
      ("optional", VBool false);
      ("type", VStr "number");
      ("min", VNum 0);
      ("altSwaggerKey", VStr "blockHeight")])]);
  ("source", Sources.rewardDefault);
  ("envelope", Mappings.stdEnvelope)].

Definition legacyAccounts : val := VObj [
  ("version", VStr "2.0");
  ("swaggerApiPath", VStr "/legacy");
  ("rpcMethod", VStr "get.legacy");
  ("tags", VArr [VStr "Legacy"]);
  ("params", VObj [
    ("publicKey", VObj [
      ("optional", VBool false);
      ("type", VStr "string");
      ("min", VNum 64);
      ("max", VNum 64);
      ("pattern", Regex.PUBLIC_KEY)])]);
  ("source", Sources.legacyAccountsSchema)].

Definition posClaimableRewards : val := VObj [
  ("version", VStr "2.0");
  ("swaggerApiPath", VStr "/pos/rewards/claimable");
  ("rpcMethod", VStr "get.pos.rewards.claimable");
  ("tags", VArr [VStr "PoS"]);
  ("params", VObj [
    ("address", VObj [("optional", VBool true); ("type", VStr "string"); ("pattern", Regex.ADDRESS_LISK32)]);
    ("publicKey", VObj [("optional", VBool true); ("type", VStr "string"); ("pattern", Regex.PUBLIC_KEY)]);
    ("name", VObj [
      ("optional", VBool true);
      ("type", VStr "string");
      ("pattern", Regex.NAME);
      ("altSwaggerKey", VStr "validatorName")]);
    ("limit", VObj [
      ("optional", VBool true);
      ("type", VStr "number");
      ("min", VNum 1);
      ("max", VNum 100);
      ("default", VNum 10)]);
    ("offset", VObj [("optional", VBool true); ("type", VStr "number"); ("min", VNum 0); ("default", VNum 0)])]);
  ("paramsRequired", VBool true);
  ("validParamPairings", VArr [VArr [VStr "address"]; VArr [VStr "name"]; VArr [VStr "publicKey"]]);
  ("source", Sources.posClaimableRewards);
  ("envelope", Mappings.stdEnvelope)].

Definition posConstants : val := VObj [
  ("version", VStr "2.0");
  ("swaggerApiPath", VStr "/pos/constants");
  ("rpcMethod", VStr "get.pos.constants");
  ("tags", VArr [VStr "PoS"]);
  ("source", Sources.posConstants);
  ("envelope", Mappings.stdEnvelope)].

Definition posRewardsLocked : val := VObj [
  ("version", VStr "2.0");
  ("swaggerApiPath", VStr "/pos/rewards/locked");
  ("rpcMethod", VStr "get.pos.rewards.locked");
  ("tags", VArr [VStr "PoS"]);
  ("params", VObj [
    ("address", VObj [("optional", VBool true); ("type", VStr "string"); ("pattern", Regex.ADDRESS_LISK32)]);
    ("publicKey", VObj [("optional", VBool true); ("type", VStr "string"); ("pattern", Regex.PUBLIC_KEY)]);
    ("name", VObj [
      ("optional", VBool true);
      ("type", VStr "string");
      ("pattern", Regex.NAME);
      ("altSwaggerKey", VStr "validatorName")]);
    ("limit", VObj [
      ("optional", VBool true);
      ("type", VStr "number");
      ("min", VNum 1);
      ("max", VNum 100);
      ("default", VNum 10)]);
    ("offset", VObj [("optional", VBool true); ("type", VStr "number"); ("min", VNum 0); ("default", VNum 0)])]);
  ("paramsRequired", VBool true);
  ("validParamPairings", VArr [VArr [VStr "address"]; VArr [VStr "name"]; VArr [VStr "publicKey"]]);
  ("source", Sources.posRewardsLocked);
  ("envelope", Mappings.stdEnvelope)].

Definition posStakers : val := VObj [
  ("version", VStr "2.0");
  ("swaggerApiPath", VStr "/pos/stakers");
  ("rpcMethod", VStr "get.pos.stakers");
  ("tags", VArr [VStr "PoS"]);
  ("params", VObj [
    ("address", VObj [("optional", VBool true); ("type", VStr "string"); ("pattern", Regex.ADDRESS_LISK32)]);
    ("publicKey", VObj [("optional", VBool true); ("type", VStr "string"); ("pattern", Regex.PUBLIC_KEY)]);
    ("name", VObj [
      ("optional", VBool true);
      ("type", VStr "string");
      ("pattern", Regex.NAME);
      ("altSwaggerKey", VStr "accountName")]);
    ("search", VObj [("optional", VBool true); ("type", VStr "string"); ("min", VNum 1)]);
    ("limit", VObj [
      ("optional", VBool true);
      ("type", VStr "number");
      ("min", VNum 1);
      ("max", VNum 100);
      ("default", VNum 10)]);
    ("offset", VObj [("optional", VBool true); ("type", VStr "number"); ("min", VNum 0); ("default", VNum 0)])]);
  ("paramsRequired", VBool true);
  ("validParamPairings", VArr [VArr [VStr "address"]; VArr [VStr "publicKey"]; VArr [VStr "name"]]);
  ("source", Sources.posStakers);
  ("envelope", Mappings.stdEnvelope)].

Definition posStakes : val := VObj [
  ("version", VStr "2.0");
  ("swaggerApiPath", VStr "/pos/stakes");
  ("rpcMethod", VStr "get.pos.stakes");
  ("tags", VArr [VStr "PoS"]);
  ("params", VObj [
    ("address", VObj [("optional", VBool true); ("type", VStr "string"); ("pattern", Regex.ADDRESS_LISK32)]);
    ("publicKey", VObj [("optional", VBool true); ("type", VStr "string"); ("pattern", Regex.PUBLIC_KEY)]);
    ("name", VObj [
      ("optional", VBool true);
      ("type", VStr "string");
      ("pattern", Regex.NAME);
      ("altSwaggerKey", VStr "validatorName")]);
    ("search", VObj [("optional", VBool true); ("type", VStr "string"); ("min", VNum 1)])]);
  ("paramsRequired", VBool true);
  ("validParamPairings", VArr [VArr [VStr "address"]; VArr [VStr "publicKey"]; VArr [VStr "name"]]);
  ("source", Sources.posStakes);
  ("envelope", Mappings.stdEnvelope)].

Definition posUnlocks : val := VObj [
  ("version", VStr "2.0");
  ("swaggerApiPath", VStr "/pos/unlocks");
  ("rpcMethod", VStr "get.pos.unlocks");
  ("tags", VArr [VStr "PoS"]);
  ("params", VObj [
    ("address", VObj [("optional", VBool true); ("type", VStr "string"); ("pattern", Regex.ADDRESS_LISK32)]);
    ("publicKey", VObj [("optional", VBool true); ("type", VStr "string"); ("pattern", Regex.PUBLIC_KEY)]);
    ("name", VObj [
      ("optional", VBool true);
      ("type", VStr "string");
      ("pattern", Regex.NAME);
      ("altSwaggerKey", VStr "accountName")]);
    ("isLocked", VObj [("optional", VBool true); ("type", VStr "boolean")]);
    ("limit", VObj [
      ("optional", VBool true);
      ("type", VStr "number");
      ("min", VNum 1);
      ("max", VNum 100);
      ("default", VNum 10)]);
    ("offset", VObj [("optional", VBool true); ("type", VStr "number"); ("min", VNum 0); ("default", VNum 0)])]);
  ("paramsRequired", VBool true);
  ("validParamPairings", VArr [VArr [VStr "address"]; VArr [VStr "name"]; VArr [VStr "publicKey"]; VArr [VStr "address"; VStr "isLocked"]; VArr [VStr "name"; VStr "isLocked"]; VArr [VStr "publicKey"; VStr "isLocked"]]);
  ("source", Sources.posUnlocks);
  ("envelope", Mappings.stdEnvelope)].

Definition posValidators : val := VObj [
  ("version", VStr "2.0");
  ("swaggerApiPath", VStr "/pos/validators");
  ("rpcMethod", VStr "get.pos.validators");
  ("tags", VArr [VStr "PoS"]);
  ("params", VObj [
    ("address", VObj [
      ("optional", VBool true);
      ("type", VStr "string");
      ("pattern", Regex.ADDRESS_LISK32_CSV);
      ("max", VNum 419);
      ("altSwaggerKey", VStr "addressCsv")]);
    ("publicKey", VObj [("optional", VBool true); ("type", VStr "string"); ("pattern", Regex.PUBLIC_KEY)]);
    ("name", VObj [
      ("optional", VBool true);
      ("type", VStr "string");
      ("pattern", Regex.NAME_CSV);
      ("max", VNum 209);
      ("altSwaggerKey", VStr "validatorNameCsv")]);
    ("status", VObj [
      ("optional", VBool true);
      ("type", VStr "string");
      ("pattern", Regex.POS_VALIDATOR_STATUS);
      ("altSwaggerKey", VStr "validatorStatus")]);
    ("search", VObj [
      ("optional", VBool true);
      ("type", VStr "string");
      ("min", VNum 1);
      ("altSwaggerKey", VStr "validatorSearch")]);
    ("limit", VObj [
      ("optional", VBool true);
      ("type", VStr "number");
      ("min", VNum 1);
      ("max", VNum 103);
      ("default", VNum 10)]);
    ("offset", VObj [("optional", VBool true); ("type", VStr "number"); ("min", VNum 0); ("default", VNum 0)]);
    ("sort", VObj [
      ("optional", VBool true);
      ("type", VStr "string");
      ("enum", VArr [VStr "commission:asc"; VStr "commission:desc"; VStr "validatorWeight:desc"; VStr "validatorWeight:asc"; VStr "rank:asc"; VStr "rank:desc"; VStr "name:asc"; VStr "name:desc"]);
      ("default", VStr "commission:asc")])]);
  ("source", Sources.posValidators);
  ("envelope", Mappings.stdEnvelope)].

Definition tokenAccountExists : val := VObj [
  ("version", VStr "2.0");
  ("swaggerApiPath", VStr "/token/account/exists");
  ("rpcMethod", VStr "get.token.account.exists");
  ("tags", VArr [VStr "Token"]);
  ("params", VObj [
    ("address", VObj [("optional", VBool true); ("type", VStr "string"); ("pattern", Regex.ADDRESS_LISK32)]);
    ("publicKey", VObj [("optional", VBool true); ("type", VStr "string"); ("pattern", Regex.PUBLIC_KEY)]);
    ("name", VObj [
      ("optional", VBool true);
      ("type", VStr "string");
      ("pattern", Regex.NAME);
      ("altSwaggerKey", VStr "accountName")]);
    ("tokenID", VObj [("optional", VBool false); ("type", VStr "string"); ("pattern", Regex.TOKEN_ID)])]);
  ("paramsRequired", VBool true);
  ("validParamPairings", VArr [VArr [VStr "address"; VStr "tokenID"]; VArr [VStr "publicKey"; VStr "tokenID"]; VArr [VStr "name"; VStr "tokenID"]]);
  ("source", Sources.tokenAccountExists);
  ("envelope", Mappings.stdEnvelope)].

Definition tokenBalances : val := VObj [
  ("version", VStr "2.0");
  ("swaggerApiPath", VStr "/token/balances");
  ("rpcMethod", VStr "get.token.balances");
  ("tags", VArr [VStr "Token"]);
  ("params", VObj [
    ("address", VObj [("optional", VBool false); ("type", VStr "string"); ("pattern", Regex.ADDRESS_LISK32)]);
    ("tokenID", VObj [("optional", VBool true); ("type", VStr "string"); ("pattern", Regex.TOKEN_ID)]);
    ("limit", VObj [
      ("optional", VBool true);
      ("type", VStr "number");
      ("min", VNum 1);
      ("max", VNum 100);
      ("default", VNum 10);
      ("pattern", VUndef)]);
    ("offset", VObj [
      ("optional", VBool true);
      ("type", VStr "number");
      ("min", VNum 0);
      ("default", VNum 0);
      ("pattern", VUndef)])]);
  ("source", Sources.tokenBalances);
  ("envelope", Mappings.stdEnvelope)].

Definition tokenConstants : val := VObj [
  ("version", VStr "2.0");
  ("swaggerApiPath", VStr "/token/constants");
  ("rpcMethod", VStr "get.token.constants");
  ("tags", VArr [VStr "Token"]);
  ("source", Sources.tokenConstants);
  ("envelope", Mappings.stdEnvelope)].

Definition tokenSummary : val := VObj [
  ("version", VStr "2.0");
  ("swaggerApiPath", VStr "/token/summary");
  ("rpcMethod", VStr "get.token.summary");
  ("tags", VArr [VStr "Token"]);
  ("params", VObj []);
  ("source", Sources.tokenSummary);
  ("envelope", Mappings.stdEnvelope)].

Definition validator : val := VObj [
  ("version", VStr "2.0");
  ("swaggerApiPath", VStr "/validator");
  ("rpcMethod", VStr "get.validator");
  ("tags", VArr [VStr "Validator"]);
  ("params", VObj [
    ("address", VObj [
      ("optional", VBool false);
      ("type", VStr "string");
      ("min", VNum 3);
      ("max", VNum 41);
      ("pattern", Regex.ADDRESS_LISK32)])]);
  ("source", Sources.validator)].

Definition validatorValidateBLSKey : val := VObj [
  ("version", VStr "2.0");
  ("swaggerApiPath", VStr "/validator/validate-bls-key");
  ("httpMethod", VStr "POST");
  ("rpcMethod", VStr "post.validator.validate-bls-key");
  ("tags", VArr [VStr "Validator"]);
  ("params", VObj [
    ("blsKey", VObj [("optional", VBool false); ("type", VStr "string"); ("pattern", Regex.BLS_KEY)]);
    ("proofOfPossession", VObj [
      ("optional", VBool false);
      ("type", VStr "string");
      ("pattern", Regex.PROOF_OF_POSSESSION)])]);
  ("source", Sources.validatorValidateBLSKey);
  ("envelope", Mappings.stdEnvelope)].

End ModuleRoutes.

Module HttpExports.

Definition export_ : val := VObj [
  ("version", VStr "2.0");
  ("swaggerApiPath", VStr "/export/download");
  ("params", VObj [("filename", VObj [("optional", VBool false); ("type", VStr "string")])]);
  ("tags", VArr [VStr "Account History Export"]);
  ("source", Sources.export_);
  ("envelope", Mappings.stdEnvelope)].

Definition scheduleExport : val := VObj [
  ("version", VStr "2.0");
  ("swaggerApiPath", VStr "/export/transactions");
  ("rpcMethod", VStr "get.export.transactions");
  ("tags", VArr [VStr "Account History Export"]);
  ("params", VObj [
    ("address", VObj [
      ("optional", VBool true);
      ("type", VStr "string");
      ("min", VNum 3);
      ("max", VNum 41);
      ("pattern", Regex.ADDRESS_LISK32)]);
    ("publicKey", VObj [
      ("optional", VBool true);
      ("type", VStr "string");
      ("min", VNum 64);
      ("max", VNum 64);
      ("pattern", Regex.PUBLIC_KEY)]);
    ("interval", VObj [
      ("optional", VBool true);
      ("type", VStr "string");
      ("min", VNum 10);
      ("max", VNum 21);
      ("pattern", Regex.INTERVAL)])]);
  ("paramsRequired", VBool true);
  ("validParamPairings", VArr [VArr [VStr "address"]; VArr [VStr "publicKey"]; VArr [VStr "address"; VStr "interval"]; VArr [VStr "publicKey"; VStr "interval"]]);
  ("source", Sources.scheduleExport);
  ("envelope", Mappings.stdEnvelope)].

End HttpExports.

Module HttpStatus.

Definition ready : val := VObj [
  ("version", VStr "2.0");
  ("swaggerApiPath", VStr "/ready");
  ("rpcMethod", VStr "get.ready");
  ("envelope", VObj []);
  ("source", VObj [
    ("type", VStr "moleculer");
    ("method", VStr "gateway.ready");
    ("params", VObj []);
    ("definition", VObj [("services", VStr "=")])])].

Definition status : val := VObj [
  ("version", VStr "2.0");
  ("swaggerApiPath", VStr "/status");
  ("rpcMethod", VStr "get.status");
  ("envelope", VObj []);
  ("source", VObj [
    ("type", VStr "moleculer");
    ("method", VStr "gateway.status");
    ("params", VObj []);
    ("definition", VObj [
      ("build", VStr "=");
      ("description", VStr "=");
      ("name", VStr "=");
      ("version", VStr "=");
      ("networkNodeVersion", VStr "=");
      ("chainID", VStr "=")])])].

End HttpStatus.

Module HttpTest.

Definition errorClient : val := VObj [
  ("version", VStr "2.0");
  ("swaggerApiPath", VStr "/client_error");
  ("rpcMethod", VStr "get.client_error");
  ("envelope", VObj []);
  ("source", VObj [
    ("type", VStr "moleculer");
    ("method", VStr "template.client.error");
    ("params", VObj []);
    ("definition", VObj [("error", VStr "=,string"); ("status", VStr "=,number")])])].

Definition errorServer : val := VObj [
  ("version", VStr "2.0");
  ("swaggerApiPath", VStr "/server_error");
  ("rpcMethod", VStr "get.server_error");
  ("envelope", VObj []);
  ("source", VObj [
    ("type", VStr "moleculer");
    ("method", VStr "template.server.error");
    ("params", VObj []);
    ("definition", VObj [("error", VStr "=,string"); ("status", VStr "=,number")])])].

Definition helloAsync : val := VObj [
  ("version", VStr "2.0");
  ("swaggerApiPath", VStr "/async_hello");
  ("rpcMethod", VStr "get.hello.async");
  ("envelope", VObj []);
  ("source", VObj [
    ("type", VStr "moleculer");
    ("method", VStr "template.asynchronous.hello");
    ("params", VObj []);
    ("definition", VObj [("data", VStr "="); ("meta", VStr "=")])])].

Definition helloGeneric : val := VObj [
  ("version", VStr "2.0");
  ("swaggerApiPath", VStr "/hello");
  ("rpcMethod", VStr "get.hello");
  ("envelope", VObj [("data", VArr []); ("meta", VObj []); ("links", VObj [])]);
  ("source", VObj [
    ("type", VStr "moleculer");
    ("method", VStr "template.generic.hello");
    ("params", VObj []);
    ("definition", VObj [
      ("data", VArr [VStr "data"; VObj [("message", VStr "="); ("name", VStr "=")]]);
      ("meta", VObj [
        ("count", VStr "meta.count,number");
        ("offset", VStr "=,number");
        ("total", VStr "meta.total,number")]);
      ("links", VObj [])])])].

Definition helloParams : val := VObj [
  ("version", VStr "2.0");
  ("swaggerApiPath", VStr "/hello/{path_name}");
  ("rpcMethod", VStr "get.hello.param");
  ("params", VObj [("path_name", VObj [("optional", VBool false); ("type", VStr "string"); ("min", VNum 3)])]);
  ("envelope", VObj [("data", VArr []); ("meta", VObj []); ("links", VObj [])]);
  ("source", VObj [
    ("type", VStr "moleculer");
    ("method", VStr "template.parametrized.hello");
    ("params", VObj [("name", VStr "path_name")]);
    ("definition", VObj [
      ("data", VArr [VStr "data"; VObj [("message", VStr "="); ("name", VStr "=")]]);
      ("meta", VObj [
        ("count", VStr "meta.count,number");
        ("offset", VStr "=,number");
        ("total", VStr "meta.total,number")]);
      ("links", VObj [])])])].

End HttpTest.

(** ** Utils.requireAllJs on the directories of apis

    The files of a directory, by name; a directory that does not exist throws. *)
Definition requireAllJs (apiName : string) (moduleName : option string) : result val :=
  let absent := Err (mkExn "Error" "ENOENT: no such file or directory") in
  match apiName, moduleName with
  | "http-version3", None => Ok (VObj [("audios", HttpVersion3.audios); ("blockAssets",
      HttpVersion3.blockAssets); ("blockchainApps", HttpVersion3.blockchainApps);
      ("blockchainAppsMetaList", HttpVersion3.blockchainAppsMetaList);
      ("blockchainAppsMetadata", HttpVersion3.blockchainAppsMetadata);
      ("blockchainAppsStatistics", HttpVersion3.blockchainAppsStatistics);
      ("blockchainAppsTokenMetadata", HttpVersion3.blockchainAppsTokenMetadata);
      ("blockchainAppsTokenSupportedMetadata",
      HttpVersion3.blockchainAppsTokenSupportedMetadata); ("blocks", HttpVersion3.blocks);
      ("collections", HttpVersion3.collections); ("events", HttpVersion3.events); ("fees",
      HttpVersion3.fees); ("generators", HttpVersion3.generators); ("indexStatus",
      HttpVersion3.indexStatus); ("invoke", HttpVersion3.invoke); ("market",
      HttpVersion3.market); ("networkPeers", HttpVersion3.networkPeers); ("networkStatistics",
      HttpVersion3.networkStatistics); ("networkStatus", HttpVersion3.networkStatus);
      ("postTransactions", HttpVersion3.postTransactions); ("profiles", HttpVersion3.profiles);
      ("schemas", HttpVersion3.schemas); ("spec", HttpVersion3.spec); ("subscriptions",
      HttpVersion3.subscriptions); ("transactions", HttpVersion3.transactions);
      ("transactionsDryRun", HttpVersion3.transactionsDryRun); ("transactionsStatistics",
      HttpVersion3.transactionsStatistics)])
  | "http-exports", None => Ok (VObj [("export", HttpExports.export_); ("scheduleExport",
      HttpExports.scheduleExport)])
  | "http-status", None => Ok (VObj [("ready", HttpStatus.ready); ("status",
      HttpStatus.status)])
  | "http-test", None => Ok (VObj [("errorClient", HttpTest.errorClient); ("errorServer",
      HttpTest.errorServer); ("helloAsync", HttpTest.helloAsync); ("helloGeneric",
      HttpTest.helloGeneric); ("helloParams", HttpTest.helloParams)])
  | "http-version3", Some "auth" => Ok (VObj [("auth", ModuleRoutes.auth)])
  | "http-version3", Some "dynamicReward" => Ok (VObj [("rewardAnnualInflation",
      ModuleRoutes.rewardAnnualInflation); ("rewardConstants", ModuleRoutes.rewardConstants);
      ("rewardDefault", ModuleRoutes.rewardDefault)])
  | "http-version3", Some "legacy" => Ok (VObj [("legacyAccounts",
      ModuleRoutes.legacyAccounts)])
  | "http-version3", Some "pos" => Ok (VObj [("posClaimableRewards",
      ModuleRoutes.posClaimableRewards); ("posConstants", ModuleRoutes.posConstants);
      ("posRewardsLocked", ModuleRoutes.posRewardsLocked); ("posStakers",
      ModuleRoutes.posStakers); ("posStakes", ModuleRoutes.posStakes); ("posUnlocks",
      ModuleRoutes.posUnlocks); ("posValidators", ModuleRoutes.posValidators)])
  | "http-version3", Some "token" => Ok (VObj [("tokenAccountExists",
      ModuleRoutes.tokenAccountExists); ("tokenBalances", ModuleRoutes.tokenBalances);
      ("tokenConstants", ModuleRoutes.tokenConstants); ("tokenSummary",
      ModuleRoutes.tokenSummary)])
  | "http-version3", Some "validators" => Ok (VObj [("validator", ModuleRoutes.validator);
      ("validatorValidateBLSKey", ModuleRoutes.validatorValidateBLSKey)])
  | _, _ => absent
  end.
