(* ===== verification/JsMath.v ===== *)
(** * More of the language: arithmetic on doubles and objects of any type

    [Math.floor], [Math.ceil], the division of numbers, association lists in
    insertion order for the objects whose values are not plain values, and
    paths. *)
From S2P Require Export Env.
Open Scope string_scope.
Open Scope Z_scope.
Open Scope list_scope.

(** [a / b] on numbers. *)
Definition num_div (a b : val) : val := num_of_flt (SFdiv 53 1024 (flt_of_num a) (flt_of_num b)).

(** [a * b] and [a / b] on any values. *)
Definition js_mul (a b : val) : val := num_mul (to_number a) (to_number b).
Definition js_div (a b : val) : val := num_div (to_number a) (to_number b).

(** [Math.floor(v)] and [Math.ceil(v)]; a finite double that is not an
    exact integer of [val] is [m * 2 ^ e]. *)
Definition num_floor (v : val) : val :=
  match to_number v with
  | VFlt (S754_finite s m e) =>
      if 0 <=? e then to_number v
      else num_of_Z ((if s then Zneg m else Zpos m) / 2 ^ (- e))
  | n => n
  end.

Definition num_ceil (v : val) : val :=
  match to_number v with
  | VFlt (S754_finite s m e) =>
      if 0 <=? e then to_number v
      else match - ((if s then Zpos m else Zneg m) / 2 ^ (- e)) with
           | 0 => if s then VFlt (S754_zero true) else VNum 0
           | z => num_of_Z z
           end
  | n => n
  end.

Example num_floor_sample : num_floor (num_div (VNum (-7)) (VNum 2)) = VNum (-4).
Proof. reflexivity. Qed.
Example num_ceil_sample : num_ceil (num_div (VNum 250) (VNum 100)) = VNum 3.
Proof. reflexivity. Qed.

(** [v.toFixed(digits)] for a number: the nearest multiple of [10 ^ -digits],
    the larger one of two; from [10 ^ 21] on the number as it is. *)
Definition to_fixed (digits : nat) (v : val) : string :=
  match flt_of_num v with
  | S754_finite s m e =>
      let num := if 0 <=? e then Zpos m * 2 ^ e else Zpos m in
      let den := if 0 <=? e then 1 else 2 ^ (- e) in
      if 10 ^ 21 * den <=? num then to_string v
      else
        let scale := 10 ^ Z.of_nat digits in
        let n := (2 * num * scale + den) / (2 * den) in
        let frac := pretty (n mod scale) in
        (if s then "-" else "") +:+ pretty (n / scale) +:+ "."
          +:+ repeat_char "0" (digits - String.length frac) +:+ frac
  | S754_zero _ => "0." +:+ repeat_char "0" digits
  | _ => to_string v
  end.

Example to_fixed_sample : to_fixed 5 (num_div (VNum 1) (VNum 3)) = "0.33333" ∧ to_fixed 4 (VNum 12) = "12.0000".
Proof. split; reflexivity. Qed.

(** [Math.log10] and [Math.pow], which the language leaves to the engine. *)
Class MathFns := { math_log10 : val → val; math_pow : val → val → val }.

(** [Math.max(a, b)] on numbers. *)
Definition num_max (a b : val) : val :=
  if is_nan a || is_nan b then VFlt S754_nan
  else if js_lt a b then b
  else if js_lt b a then a
  else match a with VFlt (S754_zero true) => b | _ => a end.

(** ** Objects whose values have a type of their own *)

Section assoc.
Context {A : Type}.

Fixpoint aget (o : list (string * A)) (k : string) : option A :=
  match o with
  | [] => None
  | (k', v) :: r => if decide (k' = k) then Some v else aget r k
  end.

Fixpoint aset (o : list (string * A)) (k : string) (v : A) : list (string * A) :=
  match o with
  | [] => [(k, v)]
  | (k', v') :: r => if decide (k' = k) then (k, v) :: r else (k', v') :: aset r k v
  end.

Lemma aget_aset o k v k' : aget (aset o k v) k' = if decide (k = k') then Some v else aget o k'.
Proof.
  induction o as [|[k0 v0] o IH]; simpl; [done|].
  destruct (decide (k0 = k)) as [->|Hne]; simpl; [by repeat case_decide|].
  rewrite IH. destruct (decide (k0 = k')) as [->|]; [|done]. by rewrite decide_False.
Qed.

Lemma aset_keys o k v : map fst (aset o k v) = map fst o ++ (if aget o k then [] else [k]).
Proof.
  induction o as [|[k0 v0] o IH]; [done|]. simpl. case_decide; subst; simpl; [by rewrite app_nil_r|].
  by rewrite IH.
Qed.

Lemma aget_None o k : aget o k = None ↔ k ∉ map fst o.
Proof.
  induction o as [|[k0 v0] o IH]; simpl; [split; [intros _; apply not_elem_of_nil|done]|].
  rewrite not_elem_of_cons. case_decide; [naive_solver|]. rewrite IH. naive_solver.
Qed.

Lemma NoDup_aset o k v : NoDup (map fst o) → NoDup (map fst (aset o k v)).
Proof.
  intros Hd. rewrite aset_keys. destruct (aget o k) eqn:E; [by rewrite app_nil_r|].
  apply NoDup_app. split_and!; [done| |apply NoDup_singleton].
  intros x Hx ->%list_elem_of_singleton. by apply aget_None in E.
Qed.

Lemma aget_Some o k v : NoDup (map fst o) → (aget o k = Some v ↔ (k, v) ∈ o).
Proof.
  induction o as [|[k0 v0] o IH]; simpl; [intros _; split; [done|by intros ?%elem_of_nil]|].
  rewrite NoDup_cons. intros [Hn Hd]. rewrite elem_of_cons. case_decide as E.
  - subst k0. split; [intros [= ->]; by left|]. intros [[= ->]|Hin]; [done|].
    exfalso. apply Hn. apply list_elem_of_In, in_map_iff. exists (k, v). split; [done|]. by apply list_elem_of_In.
  - rewrite (IH Hd). naive_solver.
Qed.
End assoc.

(** ** Comparison of integers *)

Lemma js_lt_num a b : js_lt (VNum a) (VNum b) = (a <? b).
Proof.
  unfold js_lt, js_compare. simpl. destruct (Z.compare_spec a b), (Z.ltb_spec a b);
    first [by apply bool_decide_eq_true_2|by apply bool_decide_eq_false_2|lia].
Qed.

(** [s.toUpperCase()] on letters. *)
Definition upper_char (a : ascii) : ascii :=
  let n := nat_of_ascii a in if (97 <=? n)%nat && (n <=? 122)%nat then ascii_of_nat (n - 32) else a.
Fixpoint upper (s : string) : string :=
  match s with EmptyString => EmptyString | String a r => String (upper_char a) (upper r) end.

(** ** [path] of the language's library *)
Module NodePath.

Definition push_segment (abs : bool) (acc : list string) (s : string) : list string :=
  if bool_decide (s = "") || bool_decide (s = ".") then acc
  else if bool_decide (s = "..") then
    match last acc with
    | Some l => if bool_decide (l = "..") then acc ++ [".."] else take (pred (length acc)) acc
    | None => if abs : bool then acc else [".."]
    end
  else acc ++ [s].
Definition path_normalize (p : string) : string :=
  if bool_decide (p = "") then "."
  else
    let abs := starts_with "/" p in
    let trail := ends_with "/" p in
    let body := join "/" (fold_left (push_segment abs) (split_char "/" p) []) in
    let body := if bool_decide (body = "") && negb abs then (if trail then "./" else ".")
                else if trail && negb (bool_decide (body = "")) then body +:+ "/" else body in
    if abs then "/" +:+ body else body.
Definition path_join (a b : string) : string :=
  path_normalize (join "/" (List.filter (λ s, negb (bool_decide (s = ""))) [a; b])).

(** [path.dirname(p)] *)
Fixpoint drop_slashes (l : list string) : list string :=
  match l with
  | "" :: ((_ :: _) as r) => drop_slashes r
  | _ => l
  end.
Definition path_dirname (p : string) : string :=
  let parts := rev (drop_slashes (rev (split_char "/" p))) in
  let up := join "/" (take (pred (length parts)) parts) in
  if (length parts <=? 1)%nat then (if starts_with "/" p then "/" else ".")
  else if bool_decide (up = "") then "/"
  else if bool_decide (up = "/") then "//" else up.

Example path_sample :
  path_join "./data" "a/../b//c.json" = "data/b/c.json" ∧ path_dirname "/data/x/app.json" = "/data/x" ∧
  path_dirname "app.json" = "." ∧ path_dirname "/app" = "/".
Proof. vm_compute. by split_and!. Qed.
End NodePath.
