(* ===== verification/Mapper.v ===== *)
(** * The response mappers: services/gateway/shared/customMapper.js and
    framework/src/mapper.js

    A definition is a value that describes the response: a string names a path
    and a type, an object a nested object, an array of two elements a list
    with the definition of its items.  The gateway uses a copy of the
    framework's mapper that it changed in three places; Modules
    [CustomMapper] and [FrameworkMapper] hold the two.  The casts to dates are
    those of the language and of moment, which the class [Dates] stands for. *)
From S2P Require Export JsMath.
Open Scope string_scope.
Open Scope Z_scope.
Open Scope list_scope.

(** Texts of dates: [(new Date(v)).toISOString()], [Date.parse(v)] and
    moment's [moment(new Date(v)).utc().format('MM-DD-YYYY HH:mm:ss')]. *)
Class Dates := {
  toISOString : val → result val;
  date_parse : val → val;
  moment_datetime : val → val;
}.

(** ** Buffers of text *)

Fixpoint bytes_of_string (s : string) : bytes :=
  match s with
  | EmptyString => []
  | String a r => Z.of_nat (nat_of_ascii a) :: bytes_of_string r
  end.

(** [Buffer.from(v)]: the bytes of a string or of an array of numbers. *)
Definition buffer_from (v : val) : result bytes :=
  match v with
  | VStr s => Ok (bytes_of_string s)
  | VArr l => Ok (map (λ x, match to_number x with VNum z => z mod 256 | _ => 0 end) l)
  | VObj _ => Err (type_error "The first argument must be of type string or an instance of Buffer, ArrayBuffer, or Array")
  | _ => Err (type_error "The first argument must be of type string or an instance of Buffer, ArrayBuffer, or Array")
  end.

Definition base64_digit (n : Z) : ascii :=
  let z := if n <? 26 then 65 + n else if n <? 52 then 71 + n else if n <? 62 then n - 4
           else if n =? 62 then 43 else 47 in
  ascii_of_nat (Z.to_nat z).

(** [buffer.toString('base64')] *)
Fixpoint base64 (l : bytes) : string :=
  match l with
  | a :: b :: c :: r =>
      let n := a * 65536 + b * 256 + c in
      String (base64_digit (n / 262144)) (String (base64_digit (n / 4096 mod 64))
        (String (base64_digit (n / 64 mod 64)) (String (base64_digit (n mod 64)) (base64 r))))
  | [a; b] =>
      let n := a * 65536 + b * 256 in
      String (base64_digit (n / 262144)) (String (base64_digit (n / 4096 mod 64))
        (String (base64_digit (n / 64 mod 64)) "="))
  | [a] =>
      String (base64_digit (a / 4)) (String (base64_digit (a mod 4 * 16)) "==")
  | [] => ""
  end.

Example base64_sample : base64 (bytes_of_string "Lisk!") = "TGlzayE=".
Proof. reflexivity. Qed.

(** ** What the two mappers share *)

(** The own enumerable properties of a value, [Object.entries(v)]. *)
Definition entries (v : val) : result (list (string * val)) :=
  match v with
  | VUndef | VNull => Err (type_error "Cannot convert undefined or null to object")
  | VObj o => Ok o
  | VArr l => Ok (imap (λ i x, (pretty (Z.of_nat i), x)) l)
  | VStr s => Ok (imap (λ i a, (pretty (Z.of_nat i), VStr (String a ""))) (list_ascii_of_string s))
  | _ => Ok []
  end.

(** [!!(obj && obj.constructor.name === 'Object')] *)
Definition isPlainObject (v : val) : bool := match v with VObj _ => true | _ => false end.

(** [!(isEmptyObj(obj) || isEmptyArr(obj))] *)
Definition validate (v : val) : bool :=
  negb (match v with VObj [] | VArr [] => true | _ => false end).

(** [cast[type](v)] *)
Definition cast {DT : Dates} (type : string) (v : val) : result val :=
  match type with
  | "number" => Ok (to_number v)
  | "string" => Ok (VStr (to_string v))
  | "boolean" => Ok (VBool (if bool_decide (v = VStr "0") then false else truthy v))
  | "isodate" => toISOString v
  | "epoch" => Ok (num_div (date_parse v) (VNum 1000))
  | "datetime" => Ok (moment_datetime v)
  | "hex" => if truthy v then b ← buffer_from v; Ok (VStr (hex_of_bytes b)) else Ok VUndef
  | "base64" => if truthy v then b ← buffer_from v; Ok (VStr (base64 b)) else Ok VUndef
  | _ => Err (type_error "cast[type] is not a function")
  end.

(** The value at a path of properties; [undefined] where there is none. *)
Definition resolvePath (obj : val) (path : string) : val :=
  fold_left (λ subObj p, if truthy subObj then field subObj p else VUndef) (split_char "." path) obj.

(** [definition[key].split(',')] *)
Definition path_type (s : string) : string * string :=
  let parts := split_char "," s in (default "" (parts !! 0%nat), default "" (parts !! 1%nat)).

(** The default of the parameter [subObj = rootObj]. *)
Definition or_root (subObj rootObj : val) : val := or_default subObj rootObj.

(** ** services/gateway/shared/customMapper.js *)
Module CustomMapper.
Section mapper.
Context {DT : Dates}.

Definition objWithValues (values : list val) : bool := existsb (λ v, negb (strict_eq v VUndef)) values.

(** A string of the definition. *)
Definition mapString (rootObj subObj : val) (key s : string) : result val :=
  let '(path, type) := path_type s in
  v ← (if bool_decide (path = "=") then prop subObj key else Ok (resolvePath rootObj path));
  if (truthy v || strict_eq v (VNum 0)) && negb (bool_decide (type = "")) then cast type v else Ok v.

(** [mapObject(rootObj, definition, subObj)]; [go] is the loop over the keys
    of the definition, [acc] the result so far. *)
Fixpoint mapObject (definition : val) (rootObj subObj : val) {struct definition} : result val :=
  let subObj := or_root subObj rootObj in
  let mapEntry (acc : list (string * val)) (key : string) (def : val) : result (list (string * val)) :=
    match def with
    | VStr s => v ← mapString rootObj subObj key s; Ok (oset acc key v)
    | VArr [source; innerDef] =>
        let dataSource :=
          match source with
          | VStr "" => rootObj
          | VStr path => resolvePath rootObj path
          | _ => VUndef
          end in
        match dataSource with
        | VArr items =>
            tempArr ← (fix items_of (l : list val) : result (list val) :=
              match l with
              | [] => Ok []
              | item :: r =>
                  v ← mapObject innerDef item item;
                  t ← items_of r;
                  Ok (if validate v then v :: t else t)
              end) items;
            Ok (oset acc key (VArr tempArr))
        | _ => Ok acc
        end
    | VArr [innerDef] =>
        tempObj ← mapObject innerDef rootObj rootObj;
        Ok (if validate tempObj then oset acc key (VArr [tempObj]) else acc)
    | VArr _ => Ok acc
    | VObj _ | VNull =>
        r ← prop rootObj key;
        match r with
        | VNull => Ok acc
        | _ =>
            sub ← prop subObj key;
            tempObj ← mapObject def rootObj sub;
            Ok (if objWithValues (map snd (props tempObj)) && validate tempObj
                then oset acc key tempObj else acc)
        end
    | _ => Ok acc
    end in
  match definition with
  | VUndef | VNull => Err (type_error "Cannot convert undefined or null to object")
  | VObj o =>
      acc ← (fix go (o : list (string * val)) (acc : list (string * val)) : result (list (string * val)) :=
        match o with
        | [] => Ok acc
        | (key, def) :: r => acc' ← mapEntry acc key def; go r acc'
        end) o [];
      Ok (VObj acc)
  | VArr l =>
      acc ← (fix go (i : nat) (l : list val) (acc : list (string * val)) : result (list (string * val)) :=
        match l with
        | [] => Ok acc
        | def :: r => acc' ← mapEntry acc (pretty (Z.of_nat i)) def; go (S i) r acc'
        end) 0%nat l [];
      Ok (VObj acc)
  | VStr s =>
      acc ← (fix go (i : nat) (l : list ascii) (acc : list (string * val)) : result (list (string * val)) :=
        match l with
        | [] => Ok acc
        | a :: r =>
            let key := pretty (Z.of_nat i) in
            v ← mapString rootObj subObj key (String a "");
            go (S i) r (oset acc key v)
        end) 0%nat (list_ascii_of_string s) [];
      Ok (VObj acc)
  | _ => Ok (VObj [])
  end.

Definition mapArray (rootObj : val) (definition : list val) : result (list val) :=
  match definition with
  | [] => Ok []
  | item0 :: r =>
      acc0 ← (if isPlainObject item0 then mapObject item0 rootObj rootObj else Ok item0);
      match r with
      | (VObj o) :: _ =>
          v ← mapObject (VObj [(to_string acc0, nth_val (map snd o) 0)]) rootObj rootObj;
          Ok [acc0; v]
      | _ => Ok [acc0]
      end
  end.

Definition mapper (data def : val) : result val :=
  match def with
  | VStr "=" => Ok data
  | VArr l => r ← mapArray data l; Ok (VArr r)
  | VObj _ => mapObject def data data
  | _ => Ok (VObj [])
  end.

End mapper.
End CustomMapper.

(** ** framework/src/mapper.js *)
Module FrameworkMapper.
Section mapper.
Context {DT : Dates}.

(** A string of the definition. *)
Definition mapString (rootObj subObj : val) (key s : string) : result val :=
  let '(path, type) := path_type s in
  v ← (if bool_decide (path = "=") then prop subObj key else Ok (resolvePath rootObj path));
  if negb (strict_eq v VUndef) && negb (bool_decide (type = "")) then cast type v else Ok v.

(** [mapObject(rootObj, definition, subObj)]; [go] is the loop over the keys
    of the definition, [acc] the result so far. *)
Fixpoint mapObject (definition : val) (rootObj subObj : val) {struct definition} : result val :=
  let subObj := or_root subObj rootObj in
  let mapEntry (acc : list (string * val)) (key : string) (def : val) : result (list (string * val)) :=
    match def with
    | VStr s => v ← mapString rootObj subObj key s; Ok (oset acc key v)
    | VArr [source; innerDef] =>
        let dataSource :=
          match source with
          | VStr "" => rootObj
          | VStr path => resolvePath rootObj path
          | _ => VUndef
          end in
        match dataSource with
        | VArr items =>
            tempArr ← (fix items_of (l : list val) : result (list val) :=
              match l with
              | [] => Ok []
              | item :: r =>
                  v ← mapObject innerDef item item;
                  t ← items_of r;
                  Ok (if validate v then v :: t else t)
              end) items;
            Ok (match tempArr with [] => acc | _ => oset acc key (VArr tempArr) end)
        | _ => Ok acc
        end
    | VArr [innerDef] =>
        tempObj ← mapObject innerDef rootObj rootObj;
        Ok (if validate tempObj then oset acc key (VArr [tempObj]) else acc)
    | VArr _ => Ok acc
    | VObj _ | VNull =>
        r ← prop rootObj key;
        match r with
        | VNull => Ok acc
        | _ =>
            sub ← prop subObj key;
            tempObj ← mapObject def rootObj sub;
            Ok (if validate tempObj then oset acc key tempObj else acc)
        end
    | _ => Ok acc
    end in
  match definition with
  | VUndef | VNull => Err (type_error "Cannot convert undefined or null to object")
  | VObj o =>
      acc ← (fix go (o : list (string * val)) (acc : list (string * val)) : result (list (string * val)) :=
        match o with
        | [] => Ok acc
        | (key, def) :: r => acc' ← mapEntry acc key def; go r acc'
        end) o [];
      Ok (VObj acc)
  | VArr l =>
      acc ← (fix go (i : nat) (l : list val) (acc : list (string * val)) : result (list (string * val)) :=
        match l with
        | [] => Ok acc
        | def :: r => acc' ← mapEntry acc (pretty (Z.of_nat i)) def; go (S i) r acc'
        end) 0%nat l [];
      Ok (VObj acc)
  | VStr s =>
      acc ← (fix go (i : nat) (l : list ascii) (acc : list (string * val)) : result (list (string * val)) :=
        match l with
        | [] => Ok acc
        | a :: r =>
            let key := pretty (Z.of_nat i) in
            v ← mapString rootObj subObj key (String a "");
            go (S i) r (oset acc key v)
        end) 0%nat (list_ascii_of_string s) [];
      Ok (VObj acc)
  | _ => Ok (VObj [])
  end.

Definition mapArray (rootObj : val) (definition : list val) : result (list val) :=
  match definition with
  | [] => Ok []
  | item0 :: r =>
      acc0 ← (if isPlainObject item0 then mapObject item0 rootObj rootObj else Ok item0);
      match r with
      | (VObj o) :: _ =>
          v ← mapObject (VObj [(to_string acc0, nth_val (map snd o) 0)]) rootObj rootObj;
          Ok [acc0; v]
      | _ => Ok [acc0]
      end
  end.

Definition map_ (data def : val) : result val :=
  match def with
  | VArr l => r ← mapArray data l; Ok (VArr r)
  | VObj _ => mapObject def data data
  | _ => Ok (VObj [])
  end.

End mapper.
End FrameworkMapper.
