(* ===== verification/ApiUtils.v ===== *)
(** * Requests and responses of the gateway: services/gateway/shared/apiUtils.js
    and services/gateway/shared/paramValidator.js

    [ApiUtils] turns the parameters of a request into those of the remote
    method and its response into the reply; [ParamValidator] compares the
    parameters with the rules of the route.  The rules themselves are checked
    by fastest-validator, which the class [FastestValidator] stands for. *)
From S2P Require Export Mapper.
Open Scope string_scope.
Open Scope Z_scope.
Open Scope list_scope.

(** [validator.validate(params, schema)]: [true], or the list of the errors
    found, each with its [message]; a schema it cannot compile throws. *)
Class FastestValidator := { fv_validate : val → val → result val }.

(** [Object.getOwnPropertyNames(v)] *)
Definition own_names (v : val) : result (list string) :=
  es ← entries v;
  Ok (map fst es ++ match v with VArr _ | VStr _ => ["length"] | _ => [] end).

(** [Object.keys(v)] *)
Definition keys_of (v : val) : result (list string) := es ← entries v; Ok (map fst es).

(** The properties a spread [...v] contributes. *)
Definition spread_of (v : val) : list (string * val) :=
  match entries v with Ok es => es | Err _ => [] end.

(** [{ ...a, ...b }] *)
Definition spread2 (a b : val) : val := VObj (ospread (ospread [] (spread_of a)) (spread_of b)).

(** ** apiUtils.js *)
Module ApiUtils.
Section api.
Context {DT : Dates}.

(** [str.replace(/^\//, '')] *)
Definition dropOneSlashAtBeginning (str : string) : string :=
  match str with String "/" r => r | _ => str end.

Fixpoint remove_char (c : ascii) (s : string) : string :=
  match s with
  | EmptyString => ""
  | String a r => if decide (a = c) then remove_char c r else String a (remove_char c r)
  end.

(** [str.split('{').join(':').replace(/}/g, '')] *)
Definition curlyBracketsToColon (str : string) : string :=
  remove_char "}" (join ":" (split_char "{" str)).

Definition transformPath (url : string) : string := curlyBracketsToColon (dropOneSlashAtBeginning url).

(** [s.toLowerCase()], on the letters of ASCII. *)
Fixpoint lower (s : string) : string :=
  match s with
  | EmptyString => ""
  | String a r =>
      let n := nat_of_ascii a in
      String (if Nat.leb 65 n && Nat.leb n 90 then ascii_of_nat (n + 32) else a) (lower r)
  end.

(** [typeMappings[`${fromType}_${toType}`](item)], the item itself without such a mapping. *)
Definition convertType (item : val) (toType : string) : result val :=
  let typeMatch := (fromType ← match item with
                               | VArr _ => Ok "array"
                               | VNull => Err (type_error "Cannot read properties of null (reading 'constructor')")
                               | _ => Ok (typeof item)
                               end;
                    Ok (fromType +:+ "_" +:+ toType)) in
  m ← typeMatch;
  match m with
  | "string_number" => Ok (to_number item)
  | "number_string" => Ok (VStr (to_string item))
  | "array_string" => Ok (VStr (to_string item))
  | "string_boolean" => Ok (VBool (bool_decide (lower (to_string item) = "true")))
  | _ => Ok item
  end.

(** A parameter of the request under its name for the remote method. *)
Definition mapParam (source : val) (originalKey mappingKey : string) : result (option (string * val)) :=
  if bool_decide (mappingKey = "") then Ok None
  else v ← prop source (if bool_decide (originalKey = "=") then mappingKey else originalKey);
       Ok (Some (mappingKey, v)).

Definition mapParamWithType (source : val) (originalSetup : val) (mappingKey : string) :
    result (option (string * val)) :=
  match originalSetup with
  | VStr setup =>
      let parts := split_char "," setup in
      mapObject ← mapParam source (default "" (parts !! 0%nat)) mappingKey;
      match parts !! 1%nat with
      | Some dataType =>
          v ← convertType (match mapObject with Some kv => kv.2 | None => VUndef end) dataType;
          Ok (Some (mappingKey, v))
      | None => Ok mapObject
      end
  | _ => _ ← prop originalSetup "split"; Err (type_error "originalSetup.split is not a function")
  end.

(** The loop over the parameters of the remote method. *)
Fixpoint transformParamsLoop (params : val) (specs output : list (string * val)) : result (list (string * val)) :=
  match specs with
  | [] => Ok output
  | (specParam, setup) :: r =>
      res ← mapParamWithType params setup specParam;
      transformParamsLoop params r
        (match res with
         | Some (key, value) => if bool_decide (key = "") then output else oset output key value
         | None => output
         end)
  end.

Definition transformParams (params specs : val) : result val :=
  es ← entries specs;
  output ← transformParamsLoop (or_default params (VObj [])) es [];
  Ok (VObj output).

(** The parameters unchanged when the method has none or the mapping throws. *)
Definition transformRequest (methodDef params : val) : val :=
  match source ← prop methodDef "source"; paramDef ← prop source "params"; transformParams params paramDef with
  | Ok v => v
  | Err _ => params
  end.

Definition transformResponse (methodDef data : val) : result val :=
  if truthy methodDef then
    source ← prop methodDef "source";
    definition ← prop source "definition";
    transformedData ← CustomMapper.mapper data definition;
    Ok (spread2 (field methodDef "envelope") transformedData)
  else Ok data.

End api.
End ApiUtils.

(** ** paramValidator.js *)
Module ParamValidator.

(** [Object.keys(obj).reduce((acc, cur) => { ...; return acc; }, {})], where
    the step reads the property and may set one of the accumulator. *)
Fixpoint reduce_entries (f : string → val → list (string * val) → result (list (string * val)))
    (es acc : list (string * val)) : result (list (string * val)) :=
  match es with
  | [] => Ok acc
  | (k, v) :: r => acc' ← f k v acc; reduce_entries f r acc'
  end.

Definition reduce_keys (obj : val)
    (f : string → val → list (string * val) → result (list (string * val))) : result val :=
  es ← entries obj; o ← reduce_entries f es []; Ok (VObj o).

Definition is_undefined (v : val) : bool := strict_eq v VUndef.

Definition mapObjectWithProperty (obj : val) (propName : string) : result val :=
  reduce_keys obj (λ cur v acc, p ← prop v propName;
    Ok (if is_undefined p then acc else oset acc cur p)).

(** [Object.keys(testedObject).filter(o => typeof reference[o] === 'undefined')] *)
Definition objDiff (reference testedObject : val) : result (list string) :=
  ks ← keys_of testedObject;
  flags ← result_list (map (λ o, r ← prop reference o; Ok (o, is_undefined r)) ks);
  Ok (map fst (List.filter snd flags)).

Definition str_in (s : string) (l : list string) : bool := existsb (λ x, bool_decide (x = s)) l.

(** The elements of [arr2] that are not in [arr1]. *)
Definition arrDiff (arr1 arr2 : list string) : list string := List.filter (λ x, negb (str_in x arr1)) arr2.

Definition dropEmptyProps (p : val) : result val :=
  reduce_keys p (λ cur v acc, Ok (if strict_eq v (VStr "") then acc else oset acc cur v)).

(** [{ valid, unknown }] *)
Definition parseParams (swaggerParams inputParams : val) : result (val * val) :=
  let combinedParams := spread2 swaggerParams inputParams in
  allKeys ← keys_of combinedParams;
  swaggerKeys ← keys_of swaggerParams;
  let invalidParamsList := arrDiff swaggerKeys allKeys in
  unknown ← result_list (map (λ k, v ← prop inputParams k; Ok (k, v)) invalidParamsList);
  swagger ← entries swaggerParams;
  let validParams := List.filter (λ kv, negb (is_undefined kv.2)) swagger in
  let valid := map (λ kv, let defaultVal := kv.2 in let inputVal := kv.2 in
    (kv.1, if is_nan (to_number inputVal) && negb (is_nan (to_number defaultVal))
           then defaultVal else inputVal)) validParams in
  Ok (VObj (ospread [] valid), VObj (ospread [] unknown)).

Definition includes_str (pairing : val) (s : string) : result bool :=
  match pairing with
  | VArr l => Ok (val_includes l (VStr s))
  | VStr t => Ok (str_includes s t)
  | VUndef | VNull => _ ← prop pairing "includes"; Ok false
  | _ => Err (not_a_function "includes")
  end.

(** [pairing.every(param => inputParamKeys.includes(param))] *)
Definition isComplete (inputParamKeys : list string) (pairing : val) : result bool :=
  match pairing with
  | VArr l => Ok (forallb (λ param, match param with VStr s => str_in s inputParamKeys | _ => false end) l)
  | _ => Err (not_a_function "every")
  end.

(** The pairings unless one of those that share a parameter with the request is complete. *)
Definition validateFromParamPairings (paramsRequired : val) (inputParamKeys : list string)
    (paramPairings : list val) : result (list val) :=
  if truthy (or_default paramsRequired (VBool false)) then
    flagged ← result_list (map (λ pairing,
      b ← rsome (includes_str pairing) inputParamKeys; Ok (pairing, b)) paramPairings);
    let relevantPairings := map fst (List.filter snd flagged) in
    match relevantPairings with
    | [] => Ok paramPairings
    | _ =>
        complete ← rsome (isComplete inputParamKeys) relevantPairings;
        Ok (if complete : bool then [] else paramPairings)
    end
  else Ok [].

Definition checkMissingParams (routeParams requestParams : val) : result (list string) :=
  es ← entries routeParams;
  flagged ← result_list (map (λ kv, r ← prop kv.2 "required";
    Ok (kv.1, strict_eq r (VBool true))) es);
  let requiredParamList := map fst (List.filter snd flagged) in
  requestParamList ← keys_of requestParams;
  Ok (arrDiff requestParamList requiredParamList).

Definition parseDefaultParams (p : val) : result val := mapObjectWithProperty p "default".

(** One parameter of the route: its default, then its value in the request. *)
Definition parseOneParam (requestParams : val) (cur : string) (rule : val)
    (acc : list (string * val)) : result (list (string * val)) :=
  paramDatatype ← prop rule "type";
  dflt ← prop rule "default";
  let acc := if is_undefined dflt then acc else oset acc cur dflt in
  requested ← prop requestParams cur;
  Ok (if is_undefined requested then acc
      else if strict_eq paramDatatype (VStr "number") then
        oset acc cur (if strict_eq requested (VStr "") then default VUndef (oget acc cur)
                      else to_number requested)
      else oset acc cur requested).

Definition parseAllParams (routeParams requestParams : val) : result val :=
  reduce_keys routeParams (parseOneParam requestParams).

Definition looseSpecParams (specPar : val) : result val :=
  reduce_keys specPar (λ cur v acc, t ← prop v "type";
    Ok (if strict_eq t (VStr "number") || strict_eq t (VStr "boolean")
        then oset acc cur (VObj (ospread [("convert", VBool true)] (spread_of v)))
        else oset acc cur v)).

(** The report on the parameters of a request. [invalid] is [None] when the
    rules were not checked because of the other lists. *)
Record report := mkReport {
  valid : val; unknown : val; required : list val; missing : list string; invalid : option (list val) }.

Section validator.
Context {FV : FastestValidator}.

Definition validateInputParams (rawInputParams specs : val) : result report :=
  let inputParams := or_default rawInputParams (VObj []) in
  sp ← prop specs "params";
  let specParams := js_or sp (VObj []) in
  pp ← prop specs "validParamPairings";
  let paramPairings := js_or pp (VArr []) in
  inputParamKeys ← own_names inputParams;
  swaggerParams ← parseAllParams specParams inputParams;
  defaults ← parseDefaultParams specParams;
  '(valid, unknown) ← parseParams swaggerParams (spread2 defaults inputParams);
  paramsRequired ← prop specs "paramsRequired";
  required ← validateFromParamPairings paramsRequired inputParamKeys (arr_of paramPairings);
  missing ← checkMissingParams specParams inputParams;
  let report := mkReport valid unknown required missing in
  match missing, props unknown, required with
  | [], [], [] =>
      params ← dropEmptyProps inputParams;
      schema ← looseSpecParams specParams;
      invalid ← fv_validate params schema;
      Ok (report (Some (match invalid with VBool true => [] | _ => arr_of invalid end)))
  | _, _, _ => Ok (report None)
  end.

End validator.
End ParamValidator.
