(* ===== verification/GatewayApi.v ===== *)
(** * The gateway's APIs: services/gateway/shared/registerHttpApi.js,
    registerRpcApi.js, moleculer-io/index.js, ready.js, utils.js, routes.js
    and namespaces.js

    [HttpApi] and [RpcApi] register the routes and hold what happens before
    and after the remote call of a request; [SocketIo] answers JSON-RPC
    requests; [Ready] is the readiness of the services behind the gateway;
    [Routing] chooses the APIs to register. *)
From S2P Require Export ApiUtils GatewayRoutes Effects.
Open Scope string_scope.
Open Scope Z_scope.
Open Scope list_scope.
Import ApiUtils ParamValidator.

(** What config.js reads from the environment. *)
Class GatewayConfig := {
  GATEWAY_DEPENDENCIES : string;
  jsonRpcStrictMode : string;
  rpcCache_enable : bool;
  api_enableHttpCacheControl : bool;
  api_httpCacheControlDirectives : string;
}.

(** config.js: [DEFAULT_DEPENDENCIES.concat(',', GATEWAY_DEPENDENCIES || '').split(',')] *)
Definition brokerDependencies {GC : GatewayConfig} : list string :=
  split_char "," ("indexer,connector" +:+ "," +:+ GATEWAY_DEPENDENCIES).

(** Moleculer and http-status-codes: the code a thrown error carries, the
    error for an unknown action, [Utils.match], whether an action may be
    called, and [StatusCodes[name]]. *)
Class Moleculer := {
  exn_code : exn → val;
  ServiceNotFoundError : string → exn;
  mol_match : string → string → bool;
  check_endpoint : string → result unit;
  StatusCodes : string → val;
}.

(** ** framework/constants/ErrorCodes.js: the codes *)
Module ErrorCodes.
Definition HTTP_INVALID_REQUEST : Z := 400.
Definition INVALID_REQUEST : Z := -32600.
Definition METHOD_NOT_FOUND : Z := -32601.
Definition INVALID_PARAMS : Z := -32602.
Definition SERVER_ERROR : Z := -32000.
Definition SERVICE_UNAVAILABLE : Z := -32002.
End ErrorCodes.
Import ErrorCodes.

(** What [configureApi] returns. *)
Record api := mkApi { aliases : list (string * val); whitelist : list val; methodPaths : list (string * val) }.

(** Loading the route files of some APIs, those of the registered modules
    where there are any. *)
Definition loadMethods (apiNames : list string) (registeredModuleNames : list string) : result (list (string * val)) :=
  fold_left (λ acc apiName,
    allMethods ← acc;
    common ← requireAllJs apiName None;
    let allMethods := ospread allMethods (props common) in
    Ok (fold_left (λ allMethods moduleName,
          match requireAllJs apiName (Some moduleName) with
          | Ok files => ospread allMethods (props files)
          | Err _ => allMethods
          end) registeredModuleNames allMethods)) apiNames (Ok []).

(** The methods of version 2.0 with a source, its method and the given path. *)
Definition selectMethods (pathKey : string) (allMethods : list (string * val)) : list (string * val) :=
  List.filter (λ kv, let method := kv.2 in
    strict_eq (field method "version") (VStr "2.0") && truthy (field method "source")
    && truthy (field (field method "source") "method") && truthy (field method pathKey)) allMethods.

Definition source_method (method : val) : val := field (field method "source") "method".

(** [registerApi(apiNames, config, ...)]: the whitelist and aliases of the
    configuration come before those of the API. *)
Definition withConfig (config : val) (a : api) : val * val :=
  (VArr (arr_of (field config "whitelist") ++ whitelist a),
   VObj (ospread (ospread [] (props (field config "aliases"))) (aliases a))).

(** ** registerHttpApi.js *)
Module HttpApi.
Section http.
Context {DT : Dates} {FV : FastestValidator} {GC : GatewayConfig} {MO : Moleculer}.

Definition getMethodName (method : val) : string :=
  if truthy (field method "httpMethod") then to_string (field method "httpMethod") else "GET".

Definition routeAliasOf (method : val) : string :=
  getMethodName method +:+ " " +:+ transformPath (to_string (field method "swaggerApiPath")).

Definition configureApi (apiNames registeredModuleNames : list string) : result api :=
  allMethods ← loadMethods apiNames registeredModuleNames;
  let methods := selectMethods "swaggerApiPath" allMethods in
  Ok (mkApi (ospread [] (map (λ kv, (routeAliasOf kv.2, source_method kv.2)) methods))
            (map (λ kv, source_method kv.2) methods)
            (ospread [] (map (λ kv, (routeAliasOf kv.2, kv.2)) methods))).

(** The calls on the HTTP response. *)
Inductive res_call :=
  | SetHeader (name value : string)
  | WriteHead (code : Z)
  | End_ (body : val).

(** [JSON.stringify(v)] for a value without BigInts. *)
Definition json_text (v : val) : val := match json_stringify v with Ok t => t | Err _ => VUndef end.

(** [sendResponse(code, message)] *)
Definition sendResponse (code : Z) (message : string) : list res_call :=
  [SetHeader "Content-Type" "application/json"; WriteHead (if code =? 0 then 400 else code);
   End_ (json_text (VObj [("error", VBool true); ("message", VStr message)]))].

Definition validationError : exn := mkExn "ValidationException" "Request param validation error.".

(** The first complaint of a report, in the order of the checks. *)
Definition complaint (sep invalidIntro : string) (r : report) : option string :=
  match missing r with
  | _ :: _ => Some ("Missing parameter(s): " +:+ join sep (missing r))
  | [] =>
      match okeys (props (unknown r)) with
      | _ :: _ as unknownList => Some ("Unknown input parameter(s): " +:+ join sep unknownList)
      | [] =>
          match required r with
          | _ :: _ => Some ("Require one of the following parameter combination(s): " +:+
                            join sep (map to_string (required r)))
          | [] =>
              match invalid r with
              | Some (_ :: _ as invalidList) =>
                  Some (invalidIntro +:+ join sep (map (λ o,
                    match field o "message" with VUndef | VNull => "" | m => to_string m end) invalidList))
              | _ => None
              end
          end
      end
  end.

(** [onBeforeCall]: the calls on the response and the new [req.$params]. *)
Definition onBeforeCall (a : api) (method path : string) (params : val) : list res_call * result val :=
  let routeAlias := method +:+ " " +:+ path in
  let methodDef := default VUndef (oget (methodPaths a) routeAlias) in
  match validateInputParams params methodDef with
  | Err e => ([], Err e)
  | Ok paramReport =>
      match complaint "; " "Invalid input: " paramReport with
      | Some message => (sendResponse HTTP_INVALID_REQUEST message, Err validationError)
      | None => ([], p ← dropEmptyProps (valid paramReport); Ok (transformRequest methodDef p))
      end
  end.

(** [ctx.meta]: the headers and the status the reply will have. *)
Record meta := mkMeta { responseHeaders : val; statusCode : val }.

(** What [onAfterCall] returns: the response itself when it sent it. *)
Inductive reply := Sent (calls : list res_call) | Reply (m : meta) (data : val).

Definition onAfterCall (a : api) (method path : string) (data : val) : result reply :=
  let m := mkMeta (if api_enableHttpCacheControl
                   then VObj [("Cache-Control", VStr api_httpCacheControlDirectives)] else VUndef) VUndef in
  payload ← prop data "data";
  let hasData := truthy payload in
  let filename := field (field data "meta") "filename" in
  isCsv ← (if hasData && truthy (field data "meta") && truthy filename
           then match filename with
                | VStr s => Ok (ends_with ".csv" s)
                | _ => Err (not_a_function "endsWith")
                end
           else Ok false);
  if isCsv : bool then
    Ok (Sent [SetHeader "Content-Disposition" ("attachment; filename=" +:+ String dq (to_string filename +:+ String dq ""));
              SetHeader "Content-Type" "text/csv"; End_ payload])
  else
    let status := field data "status" in
    let apiPath := method +:+ " " +:+ path in
    let answer m := r ← transformResponse (default VUndef (oget (methodPaths a) apiPath)) data; Ok (Reply m r) in
    if hasData && truthy status then
      let headers := if strict_eq status (VStr "SERVICE_UNAVAILABLE")
                     then VObj [("Retry-After", VNum 30)] else responseHeaders m in
      let status := if strict_eq status (VStr "INVALID_PARAMS") then VStr "BAD_REQUEST" else status in
      let m := mkMeta headers (js_or (StatusCodes (to_string status)) status) in
      if strict_eq status (VStr "ACCEPTED") then answer m
      else
        let message := match isObject payload, field payload "error" with
                       | true, VStr s => s
                       | _, _ => "The request ended up with " +:+ to_string status +:+ " error"
                       end in
        Ok (Reply m (VObj [("error", VBool true); ("message", VStr message)]))
    else answer m.

End http.
End HttpApi.

(** ** registerRpcApi.js *)
Module RpcApi.
Section rpc.
Context {DT : Dates} {FV : FastestValidator} {MO : Moleculer}.

(** A thrown error: a MoleculerClientError, whose message is an object with a
    code and a message, or any other. *)
Inductive failure :=
  | ClientError (code : Z) (message : val)
  | OtherError (e : exn).

Definition routeAliasOf (method : val) : string := transformPath (to_string (field method "rpcMethod")).

Definition configureApi (apiNames registeredModuleNames : list string) : result api :=
  allMethods ← loadMethods apiNames registeredModuleNames;
  let methods := selectMethods "rpcMethod" allMethods in
  Ok (mkApi (ospread [] (map (λ kv, (routeAliasOf kv.2, source_method kv.2)) methods))
            (map (λ kv, source_method kv.2) methods)
            (ospread [] (map (λ kv, (routeAliasOf kv.2, kv.2)) methods))).

(** The code of the first complaint of a report. *)
Definition complaintCode (r : report) : Z :=
  match missing r, okeys (props (unknown r)), required r with
  | [], [], _ :: _ => INVALID_REQUEST
  | _, _, _ => INVALID_PARAMS
  end.

(** [onBeforeCall]: the new [request.params]. *)
Definition onBeforeCall (a : api) (method : string) (params : val) : failure + val :=
  let methodDef := default VUndef (oget (methodPaths a) method) in
  match validateInputParams params methodDef with
  | Err e => inl (OtherError e)
  | Ok paramReport =>
      match HttpApi.complaint ", " "Invalid input parameter values: " paramReport with
      | Some message => inl (ClientError (complaintCode paramReport) (VStr message))
      | None => inr (transformRequest methodDef (valid paramReport))
      end
  end.

Definition onAfterCall (a : api) (method : string) (data : val) : failure + val :=
  match prop data "data" with
  | Err e => inl (OtherError e)
  | Ok payload =>
      let status := field data "status" in
      if truthy payload && strict_eq status (VStr "INVALID_PARAMS") then
        inl (ClientError INVALID_PARAMS (field payload "error"))
      else if truthy payload && strict_eq status (VStr "SERVICE_UNAVAILABLE") then
        inl (ClientError SERVICE_UNAVAILABLE (field payload "error"))
      else match transformResponse (default VUndef (oget (methodPaths a) method)) data with
           | Ok r => inr r
           | Err e => inl (OtherError e)
           end
  end.

End rpc.
End RpcApi.

(** ** moleculer-io/index.js: the action [call] and the handler of an event

    Socket rooms are left out: no action of the services asks for one. *)
Module SocketIo.
Import RpcApi.
Section socket.
Context {DT : Dates} {FV : FastestValidator} {GC : GatewayConfig} {MO : Moleculer}.

(** utils.js *)
Definition isValidNonEmptyResponse (res : val) : result bool :=
  data ← prop res "data";
  Ok match data with
     | VArr (_ :: _) => true
     | VObj (_ :: _) => true
     | _ => false
     end.

Definition checkWhitelist (action : string) (whitelist : list val) : bool :=
  existsb (λ mask, match mask with VStr m => mol_match action m | _ => false end) whitelist.

(** [ctx.call(action, params)]: the service is the text before the first dot. *)
Definition ctx_call (action : string) (params : val) : prog val :=
  match split_char "." action with
  | service :: rest => call (CRpc service (join "." rest) params)
  | [] => Ret VUndef
  end.

Definition callAndTransform (a : api) (action method : string) (params : val) : prog (failure + val) :=
  res ← ctx_call action params;
  Ret match onAfterCall a method res with
      | inr r => inr (js_or r res)
      | inl f => inl f
      end.

Definition RPC_CACHE : string := "rpcCache".
Definition rpcRequestCacheKey (method : string) (params : val) : string :=
  method +:+ ":" +:+ to_string (HttpApi.json_text params).

(** The response of an action: from the cache, or stored there. *)
Definition cachedCall (a : api) (action method : string) (params : val) : prog (failure + val) :=
  let key := rpcRequestCacheKey method params in
  cachedResponse ← call (CCacheGet RPC_CACHE key);
  if truthy cachedResponse then
    r ← lift (json_parse (to_string cachedResponse)); Ret (inr r)
  else
    r ← callAndTransform a action method params;
    match r with
    | inl f => Ret (inl f)
    | inr res =>
        nonEmpty ← lift (isValidNonEmptyResponse res);
        _ ← (if nonEmpty : bool then
               text ← lift (json_stringify res);
               _ ← call (CCacheSet RPC_CACHE key text); Ret tt
             else Ret tt);
        Ret (inr res)
    end.

(** The action [call]; [input] is the JSON-RPC request, its method a string.
    The mapping policy of the handlers is [restrict]. *)
Definition callAction (a : api) (method : string) (input : val) : prog (failure + val) :=
  match oget (aliases a) method with
  | None => Ret (inl (OtherError (ServiceNotFoundError method)))
  | Some alias =>
      if negb (truthy alias) then Ret (inl (OtherError (ServiceNotFoundError method))) else
      let action := to_string alias in
      if negb (checkWhitelist action (whitelist a)) then
        Ret (inl (OtherError (ServiceNotFoundError action)))
      else match check_endpoint action with
      | Err e => Ret (inl (OtherError e))
      | Ok _ =>
          params ← input @. "params";
          match onBeforeCall a method params with
          | inl f => Ret (inl f)
          | inr params => if rpcCache_enable then cachedCall a action method params
                          else callAndTransform a action method params
          end
      end
  end.

Definition addJsonRpcEnvelope (id result : val) : val :=
  VObj [("jsonrpc", VStr "2.0"); ("result", result); ("id", or_default id VNull)].

Definition addErrorEnvelope (id code message : val) : val :=
  VObj [("jsonrpc", VStr "2.0");
        ("error", VObj [("code", code); ("message", message); ("data", VUndef)]);
        ("id", or_default id VNull)].

Definition translateHttpToRpcCode (code : val) : val :=
  if strict_eq code (VNum 404) then VNum METHOD_NOT_FOUND
  else if strict_eq code (VNum 400) then VNum INVALID_REQUEST
  else VNum SERVER_ERROR.

(** The envelope for an error whose message is a text. *)
Definition failureEnvelope (id : val) (e : exn) : val :=
  let code := exn_code e in
  if negb (truthy code) || strict_eq code (VNum 500) then
    addErrorEnvelope id (translateHttpToRpcCode code) (VStr ("Server error: " +:+ exn_msg e))
  else addErrorEnvelope id (translateHttpToRpcCode code) (VStr (exn_msg e)).

(** [util.inspect(v)]: a rendering of a value for messages, left to Node. *)
Context (inspect : val → string).

Definition performClientRequest (a : api) (jsonRpcInput id : val) : prog val :=
  let id := or_default id (VNum 1) in
  jsonrpc ← jsonRpcInput @. "jsonrpc";
  if bool_decide (jsonRpcStrictMode = "true") && negb (strict_eq jsonrpc (VStr "2.0")) then
    Ret (addErrorEnvelope id (VNum INVALID_REQUEST) (VStr
      ("Client input error: The given data is not a proper JSON-RPC 2.0 request: " +:+ inspect jsonRpcInput)))
  else
  method ← jsonRpcInput @. "method";
  match method with
  | VStr (String _ _ as action) =>
      catch (r ← callAction a action jsonRpcInput;
             Ret match r with
                 | inr res => addJsonRpcEnvelope id res
                 | inl (ClientError code message) => addErrorEnvelope id (VNum code) message
                 | inl (OtherError e) => failureEnvelope id e
                 end)
            (λ e, Ret (failureEnvelope id e))
  | _ => Ret (addErrorEnvelope id (VNum INVALID_REQUEST)
           (VStr ("Client input error: Missing method in the request " +:+ inspect jsonRpcInput)))
  end.

(** [requests.indexOf(request)] at position [i]: an object is only equal to itself. *)
Definition indexOf (requests : list val) (i : nat) (request : val) : Z :=
  if isObject request then Z.of_nat i
  else default (-1) (Z.of_nat <$> find_index (λ r, strict_eq r request) requests).

(** What the client receives for one request or a batch. *)
Definition handleRequests (a : api) (requests : val) : prog val :=
  let l := match requests with VArr l => l | _ => [requests] end in
  catch
    (responses ← pmap (λ '(i, request),
       rid ← request @. "id";
       performClientRequest a request (js_or rid (num_of_Z (indexOf l i request + 1))))
       (imap pair l);
     Ret (if is_array requests then VArr responses else nth_val responses 0))
    (* socketOnError picks the properties jsonrpc, name, message, code, type and data
       of the envelope, whose error is under another name *)
    (λ _, Ret (VObj [("jsonrpc", VStr "2.0")])).

(** The handler of an event.  [consume] is [rateLimiter.consume(address)]: it
    rejects over the limit, and then the client gets no answer. *)
Definition makeHandler (enableRateLimit : bool) (consume : prog val) (a : api) (requests : val) : prog val :=
  _ ← (if enableRateLimit then consume else Ret VUndef);
  handleRequests a requests.

End socket.
End SocketIo.

(** ** ready.js *)
Module Ready.
Section ready.
Context {GC : GatewayConfig}.

Definition currentSvcStatus : string := "ready.currentSvcStatus".

Definition initialSvcStatus : val :=
  VObj (map (λ s, (s, VBool false)) ["indexer"; "connector"; "fees"; "market"; "app-registry"; "statistics"]).

(** Each service's status is assigned when its answer, or its failure, arrives. *)
Definition updateOneStatus (microservice : string) : prog unit :=
  isReady ← catch (res ← call (CRpc microservice "status" (VObj [])); res @. "isReady")
                  (λ _, Ret (VBool false));
  status ← call (CVarGet currentSvcStatus);
  _ ← call (CVarSet currentSvcStatus (set_field status microservice isReady));
  Ret tt.

Definition updateSvcStatus : prog unit :=
  status ← call (CVarGet currentSvcStatus);
  services ← lift (keys_of status);
  _ ← pmap updateOneStatus services; Ret tt.

Definition SERVICES_NOT_READY : exn := mkExn "MoleculerError" "Service Unavailable".

(** The loop over the services, which stops at a dependency that is not ready. *)
Fixpoint includeReady (services : list (string * val)) (acc : list (string * val)) : option (list (string * val)) :=
  match services with
  | [] => Some acc
  | (service, isReady) :: r =>
      if truthy isReady then includeReady r (oset acc service isReady)
      else if str_in service brokerDependencies then None
      else includeReady r acc
  end.

Definition getReady : prog val :=
  status ← call (CVarGet currentSvcStatus);
  match includeReady (props status) [] with
  | Some includeSvcForReadiness => Ret (VObj [("services", VObj includeSvcForReadiness)])
  | None => Throw SERVICES_NOT_READY
  end.

Definition getIndexStatus : prog val :=
  status ← call (CVarGet currentSvcStatus); status @. "indexer".

End ready.
End Ready.

(** ** routes.js and namespaces.js *)
Module Routing.

Definition PATH_API_MAPPINGS : list (string * list string) :=
  [("/", ["http-status"]); ("/test", ["http-test"]); ("/v3", ["http-version3"; "http-exports"])].

Definition defaultConfig : val :=
  VObj [("whitelist", VArr [VStr "$node.*"]); ("aliases", VObj [("GET health", VStr "$node.health")]);
        ("authorization", VBool false); ("mergeParams", VBool true); ("mappingPolicy", VStr "restrict")].

(** The required APIs of each path, in the order they are required; a path
    without any is left out. *)
Definition apisToRegister (requiredApis : string) : list (string * list string) :=
  List.filter (λ '(path, apis), negb (bool_decide (apis = [])))
    (map (λ '(path, available),
       (path, List.filter (λ a, ParamValidator.str_in a available) (split_char "," requiredApis)))
     PATH_API_MAPPINGS).

Definition filterApis (requiredApis : string) (registeredModuleNames : list string) :
    result (list (string * api)) :=
  result_list (map (λ '(path, apis), a ← HttpApi.configureApi apis registeredModuleNames; Ok (path, a))
    (apisToRegister requiredApis)).

(** namespaces.js: the namespaces with JSON-RPC methods and their APIs. *)
Definition availableNamespaces : list (string * list string) :=
  [("/rpc-v3", ["http-version3"; "http-exports"]); ("/rpc-test", ["http-test"])].

Definition filterNamespaces (requiredApis : string) (registeredModuleNames : list string) :
    result (list (string * api)) :=
  let requiredPaths := map (λ path, "/" +:+ path) (split_char "," requiredApis) in
  result_list (map (λ '(key, apis), a ← RpcApi.configureApi apis registeredModuleNames; Ok (key, a))
    (List.filter (λ '(key, _), ParamValidator.str_in key requiredPaths) availableNamespaces)).

End Routing.

(** The modules a node of the network registers, with routes of their own. *)
Definition routeModules : list string := ["auth"; "dynamicReward"; "legacy"; "pos"; "token"; "validators"].
