(* ===== verification/GatewayThms.v ===== *)
(** * What the gateway guarantees

    The parameters of a request on their way to the remote method, the report
    of the validator, the agreement of the two APIs and of the two mappers,
    the shape of a response, the answers to JSON-RPC requests and readiness. *)
From S2P Require Export GatewayApi.
Open Scope string_scope.
Open Scope Z_scope.
Open Scope list_scope.
Import ApiUtils ParamValidator.

Lemma result_bind_Ok {A B} (r : result A) (f : A → result B) b :
  (r ≫= f) = Ok b → ∃ a, r = Ok a ∧ f a = Ok b.
Proof. unfold mbind, result_mbind. destruct r; simpl; [by eauto|done]. Qed.

Ltac inv_res1 :=
  match goal with
  | H : mbind _ _ = Ok _ |- _ =>
      let a := fresh "a" in let H1 := fresh "Hr" in
      apply result_bind_Ok in H as (a & H1 & H); cbv beta in H
  | H : Ok _ = Ok _ |- _ => injection H as H
  | H : Err _ = Ok _ |- _ => discriminate H
  end.
Ltac inv_res := repeat inv_res1.

(** ** The validator's report *)

Definition no_undef (o : list (string * val)) : Prop := ∀ k, oget o k ≠ Some VUndef.

(** The rules of a route: objects, or lists of alternatives. *)
Definition rules_ok (rules : list (string * val)) : bool :=
  forallb (λ kv, match kv.2 with VObj _ | VArr _ => true | _ => false end) rules.

Lemma prop_rule v k : match v with VObj _ | VArr _ => true | _ => false end = true → ∃ x, prop v k = Ok x.
Proof.
  destruct v; try done; simpl; intros _; [|by eauto].
  repeat case_match; by eauto.
Qed.

(** The value a declared parameter gets from its rule and the request. *)
Definition param_value (o : list (string * val)) (k : string) (rule : val) : option val :=
  let d := field rule "default" in
  let dflt := if is_undefined d then None else Some d in
  match oget o k with
  | None => dflt
  | Some v =>
      if is_undefined v then dflt else
      Some (if strict_eq (field rule "type") (VStr "number") then
              if strict_eq v (VStr "") then default VUndef dflt else to_number v
            else v)
  end.

Lemma is_undefined_spec v : is_undefined v = true ↔ v = VUndef.
Proof. unfold is_undefined. destruct v; split; try done. Qed.

Lemma parseOneParam_spec o k rule acc :
  match rule with VObj _ | VArr _ => true | _ => false end = true → oget acc k = None →
  ∃ acc', parseOneParam (VObj o) k rule acc = Ok acc' ∧
    oget acc' k = param_value o k rule ∧ (∀ k', k' ≠ k → oget acc' k' = oget acc k') ∧
    okeys acc' = okeys acc ++ (match param_value o k rule with Some _ => [k] | None => [] end).
Proof.
  intros Hr Hk. unfold parseOneParam, param_value, field.
  destruct (prop_rule rule "type" Hr) as [t ->], (prop_rule rule "default" Hr) as [d ->].
  cbn [mbind result_mbind result_bind prop].
  set (acc1 := if is_undefined d then acc else oset acc k d).
  assert (oget acc1 k = (if is_undefined d then None else Some d)
    ∧ (∀ k', k' ≠ k → oget acc1 k' = oget acc k')
    ∧ okeys acc1 = okeys acc ++ (if is_undefined d then [] else [k])) as (Hacc1 & Hother & Hkeys1).
  { unfold acc1. destruct (is_undefined d); [by rewrite app_nil_r|]. split_and!.
    - by rewrite oget_oset_eq.
    - intros k' Hk'. by rewrite oget_oset_ne.
    - rewrite okeys_oset. unfold has_key. by rewrite Hk. }
  assert (∀ x, okeys (oset acc1 k x) = okeys acc ++ [k]) as Hset.
  { intros x. rewrite okeys_oset, Hkeys1. unfold has_key. rewrite Hacc1.
    destruct (is_undefined d); by rewrite ?app_nil_r. }
  assert (∀ x k', k' ≠ k → oget (oset acc1 k x) k' = oget acc k') as Hset'.
  { intros x k' Hk'. rewrite oget_oset_ne by done. by apply Hother. }
  clearbody acc1.
  destruct (oget o k) as [v|]; cbn [default from_option id];
    [destruct (is_undefined v) eqn:Ev; [|destruct (strict_eq t (VStr "number"))]|].
  - exists acc1. split_and!; [done..|]. rewrite Hkeys1. by destruct (is_undefined d).
  - eexists. split_and!; [done|by rewrite oget_oset_eq, Hacc1|by apply Hset'|apply Hset].
  - eexists. split_and!; [done|by rewrite oget_oset_eq|by apply Hset'|apply Hset].
  - exists acc1. split_and!; [done..|]. rewrite Hkeys1. by destruct (is_undefined d).
Qed.

Lemma parseAllParams_spec o rules :
  rules_ok rules = true → NoDup (okeys rules) →
  ∃ all, parseAllParams (VObj rules) (VObj o) = Ok (VObj all) ∧
    (∀ k, oget all k = match oget rules k with Some rule => param_value o k rule | None => None end) ∧
    NoDup (okeys all).
Proof.
  intros Hr Hd. unfold parseAllParams, reduce_keys. cbn [entries mbind result_mbind result_bind].
  assert (∀ acc, (∀ k, k ∈ okeys rules → oget acc k = None) → NoDup (okeys acc) →
    ∃ all, reduce_entries (parseOneParam (VObj o)) rules acc = Ok all ∧
      (∀ k, oget all k = match oget rules k with Some rule => param_value o k rule | None => oget acc k end) ∧
      NoDup (okeys all)) as H.
  { clear -Hr Hd. induction rules as [|[k rule] rules IH]; intros acc Hacc Hnd.
    { eexists. by split_and!. }
    simpl in Hr. apply andb_true_iff in Hr as [Hrule Hr]. apply NoDup_cons in Hd as [Hnin Hd].
    destruct (parseOneParam_spec o k rule acc Hrule) as (acc1 & E & Hk & Hother & Hkeys).
    { apply Hacc. by left. }
    simpl. rewrite E. cbn [mbind result_mbind result_bind].
    destruct (IH Hr Hd acc1) as (all & E' & Hall & Hnd').
    - intros k' Hk'. rewrite Hother by (intros ->; done). apply Hacc. by right.
    - rewrite Hkeys. destruct (param_value o k rule); [|by rewrite app_nil_r].
      apply NoDup_app. split_and!; [done| |apply NoDup_singleton].
      intros x Hx ->%list_elem_of_singleton. apply has_key_true in Hx. unfold has_key in Hx.
      by rewrite (Hacc k ltac:(by left)) in Hx.
    - exists all. split_and!; [done| |done]. intros k'. rewrite Hall. cbn [oget].
      case_decide as Hk'; [subst k'|].
      + rewrite (oget_not_elem_of rules k Hnin). exact Hk.
      + destruct (oget rules k'); [done|]. by apply Hother. }
  destruct (H []) as (all & E & Hall & Hnd); [done|apply NoDup_nil_2|].
  rewrite E. exists all. split_and!; [done| |done]. intros k. rewrite Hall. by destruct (oget rules k).
Qed.

Lemma elem_of_okeys_oset o k v k' : k' ∈ okeys (oset o k v) ↔ k' ∈ okeys o ∨ k' = k.
Proof.
  rewrite okeys_oset, elem_of_app. destruct (has_key o k) eqn:E.
  - apply has_key_true in E. split; [intros [?|?%elem_of_nil]; [by left|done]|intros [?| ->]; by left].
  - by rewrite list_elem_of_singleton.
Qed.

Lemma elem_of_okeys_ospread a b k : k ∈ okeys (ospread a b) ↔ k ∈ okeys a ∨ k ∈ okeys b.
Proof.
  unfold ospread. revert a. induction b as [|[k0 v0] b IH]; intros a; simpl.
  - split; [by left|intros [?|?%elem_of_nil]; done].
  - rewrite IH, elem_of_okeys_oset, elem_of_cons. naive_solver.
Qed.

Lemma NoDup_okeys_filter (f : val → bool) o :
  NoDup (okeys o) → NoDup (okeys (List.filter (λ kv, f kv.2) o)).
Proof.
  unfold okeys. induction o as [|[k v] o IH]; simpl; [done|]. rewrite NoDup_cons. intros [Hk Hnd].
  destruct (f v); simpl; [|by apply IH]. constructor; [|by apply IH].
  intros Hin. apply Hk. clear -Hin. induction o as [|[k' v'] o IH]; [done|]. simpl in *.
  destruct (f v'); simpl in *; [|right; by apply IH].
  apply elem_of_cons in Hin as [->|Hin]; [by left|right; by apply IH].
Qed.

(** In an object without repeated names, filtering by value keeps or drops each property. *)
Lemma oget_filter (f : val → bool) o k :
  NoDup (okeys o) →
  oget (List.filter (λ kv, f kv.2) o) k = match oget o k with
                                          | Some v => if f v then Some v else None
                                          | None => None
                                          end.
Proof.
  induction o as [|[k0 v0] o IH]; [done|]. change (okeys ((k0, v0) :: o)) with (k0 :: okeys o).
  rewrite NoDup_cons. intros [Hk Hnd]. cbn [List.filter snd oget].
  case_decide as E.
  - subst k0. destruct (f v0) eqn:Ef; simpl; [by rewrite decide_True|].
    rewrite IH, oget_not_elem_of; done.
  - destruct (f v0); simpl; [rewrite decide_False by done|]; by apply IH.
Qed.

Lemma str_in_spec s l : str_in s l = true ↔ s ∈ l.
Proof.
  unfold str_in. induction l as [|x l IH]; simpl; [by split; [done|intros ?%elem_of_nil]|].
  rewrite orb_true_iff, bool_decide_eq_true, IH, elem_of_cons. naive_solver.
Qed.

Lemma elem_of_arrDiff a b k : k ∈ arrDiff a b ↔ k ∈ b ∧ k ∉ a.
Proof.
  unfold arrDiff. rewrite elem_of_List_filter, negb_true_iff, <- not_true_iff_false, str_in_spec. done.
Qed.

Lemma result_list_map_ok {A B} (f : A → result B) (g : A → B) l :
  (∀ x, x ∈ l → f x = Ok (g x)) → result_list (map f l) = Ok (map g l).
Proof.
  induction l as [|x l IH]; intros H; simpl; [done|]. rewrite H by (by left).
  rewrite IH; [done|]. intros y Hy. apply H. by right.
Qed.

Lemma parseParams_spec all inp :
  NoDup (okeys all) →
  ∃ valid unknown, parseParams (VObj all) (VObj inp) = Ok (VObj valid, VObj unknown) ∧
    NoDup (okeys valid) ∧
    (∀ k, oget valid k = match oget all k with Some VUndef => None | x => x end) ∧
    (∀ k, k ∈ okeys unknown ↔ k ∈ okeys inp ∧ k ∉ okeys all).
Proof.
  intros Hnd. unfold parseParams, keys_of, spread2, spread_of.
  cbn [entries mbind result_mbind result_bind]. rewrite (ospread_nil all Hnd).
  set (ks := arrDiff _ _).
  rewrite (result_list_map_ok _ (λ k, (k, default VUndef (oget inp k)))) by done.
  cbn [mbind result_mbind result_bind].
  set (valid := map _ (List.filter _ _)).
  assert (valid = List.filter (λ kv, negb (is_undefined kv.2)) all) as ->.
  { unfold valid. clear. induction all as [|[k v] all IH]; [done|]. simpl.
    destruct (is_undefined v); simpl; [done|]. rewrite IH. by destruct (is_nan _). }
  eexists _, _. split; [done|]. rewrite (ospread_nil (List.filter _ all)) by (by apply (NoDup_okeys_filter (λ v, negb (is_undefined v)))).
  split_and!.
  - by apply (NoDup_okeys_filter (λ v, negb (is_undefined v))).
  - intros k. rewrite (oget_filter (λ v, negb (is_undefined v)) all k Hnd).
    destruct (oget all k) as [v|]; [|done]. by destruct v.
  - intros k. rewrite elem_of_okeys_ospread.
    assert (okeys (map (λ k, (k, default VUndef (oget inp k))) ks) = ks) as ->.
    { unfold okeys. rewrite map_map. simpl. by rewrite map_id. }
    unfold ks. rewrite elem_of_arrDiff. fold (okeys (ospread all inp)). fold (okeys all).
    rewrite elem_of_okeys_ospread. split; [intros [?%elem_of_nil|[[?|?] ?]]; done|].
    intros [? ?]. right. split; [by right|done].
Qed.

Lemma checkMissingParams_spec rules o :
  rules_ok rules = true →
  ∃ l, checkMissingParams (VObj rules) (VObj o) = Ok l ∧
    ∀ k, k ∈ l ↔ k ∉ okeys o ∧ ∃ rule, (k, rule) ∈ rules ∧ strict_eq (field rule "required") (VBool true) = true.
Proof.
  intros Hr. unfold checkMissingParams, keys_of. cbn [entries mbind result_mbind result_bind].
  rewrite (result_list_map_ok _ (λ kv, (kv.1, strict_eq (field kv.2 "required") (VBool true)))).
  - cbn [mbind result_mbind result_bind]. eexists. split; [done|]. intros k.
    rewrite elem_of_arrDiff. fold (okeys o). rewrite (and_comm (k ∉ okeys o)). apply and_iff_compat_r.
    rewrite list_elem_of_In, in_map_iff. split.
    + intros ([k' b] & <- & Hin). apply list_elem_of_In, elem_of_List_filter in Hin as [Hin Hb].
      apply list_elem_of_In, in_map_iff in Hin as ([k0 rule] & [= <- <-] & Hin%list_elem_of_In). by eauto.
    + intros (rule & Hin & Hreq). exists (k, true). split; [done|]. apply filter_In. split; [|done].
      apply in_map_iff. exists (k, rule). simpl. rewrite Hreq. split; [done|]. by apply list_elem_of_In.
  - intros [k rule] Hin. unfold rules_ok in Hr. rewrite forallb_forall in Hr.
    specialize (Hr _ (proj1 (list_elem_of_In _ _) Hin)). simpl in Hr.
    destruct (prop_rule rule "required" Hr) as [x Hx]. unfold field. simpl. by rewrite Hx.
Qed.

(** The defaults of the rules. *)
Lemma parseDefaultParams_spec rules :
  rules_ok rules = true →
  ∃ d, parseDefaultParams (VObj rules) = Ok (VObj d) ∧
    ∀ k, k ∈ okeys d → ∃ rule, (k, rule) ∈ rules ∧ is_undefined (field rule "default") = false.
Proof.
  intros Hr. unfold parseDefaultParams, mapObjectWithProperty, reduce_keys.
  cbn [entries mbind result_mbind result_bind].
  assert (∀ acc, ∃ d, reduce_entries (λ cur v acc, p ← prop v "default";
      Ok (if is_undefined p then acc else oset acc cur p)) rules acc = Ok d ∧
    ∀ k, k ∈ okeys d → k ∈ okeys acc ∨ ∃ rule, (k, rule) ∈ rules ∧ is_undefined (field rule "default") = false) as H.
  { induction rules as [|[k rule] rules IH]; intros acc; [eexists; split; [done|by left]|].
    simpl in Hr. apply andb_true_iff in Hr as [Hrule Hr].
    destruct (prop_rule rule "default" Hrule) as [x Hx]. cbn [reduce_entries]. rewrite Hx.
    cbn [mbind result_mbind result_bind].
    destruct (IH Hr (if is_undefined x then acc else oset acc k x)) as (d & Hd & Hk).
    exists d. split; [done|]. intros k' [H|(r & ? & ?)]%Hk.
    - destruct (is_undefined x) eqn:Ex; [by left|]. apply elem_of_okeys_oset in H as [H| ->]; [by left|].
      right. exists rule. split; [by left|]. unfold field. by rewrite Hx.
    - right. exists r. split; [by right|done]. }
  destruct (H []) as (d & -> & Hk). exists d. split; [done|]. intros k [?%elem_of_nil|?]%Hk; done.
Qed.

Section report.
Context {FV : FastestValidator}.

Lemma elem_of_okeys (o : list (string * val)) k : k ∈ okeys o ↔ ∃ v, (k, v) ∈ o.
Proof.
  unfold okeys. rewrite list_elem_of_In, in_map_iff. split.
  - intros ([k' v] & <- & Hin). exists v. by apply list_elem_of_In.
  - intros [v Hin]. exists (k, v). split; [done|]. by apply list_elem_of_In.
Qed.

Lemma oget_Some_elem o k v : NoDup (okeys o) → (k, v) ∈ o → oget o k = Some v.
Proof.
  induction o as [|[k0 v0] o IH]; [by intros _ ?%elem_of_nil|].
  change (okeys ((k0, v0) :: o)) with (k0 :: okeys o). rewrite NoDup_cons. intros [Hk Hnd].
  intros [[= -> ->]|Hin]%elem_of_cons; simpl; [by rewrite decide_True|].
  rewrite decide_False; [by apply IH|]. intros ->. apply Hk, elem_of_okeys. by eauto.
Qed.

(** What is sent and has no declaration: [all] is what the declared parameters
    become, [us] what is left of the defaults and the parameters. *)
Lemma unknown_keys (o rules all us dflts : list (string * val)) :
  NoDup (okeys rules) → no_undef o →
  (∀ k, oget all k = match oget rules k with Some rule => param_value o k rule | None => None end) →
  (∀ k, k ∈ okeys dflts → ∃ rule, (k, rule) ∈ rules ∧ is_undefined (field rule "default") = false) →
  (∀ k, k ∈ okeys us ↔ k ∈ okeys (ospread (ospread [] dflts) o) ∧ k ∉ okeys all) →
  ∀ k, k ∈ okeys us ↔ k ∈ okeys o ∧ k ∉ okeys rules.
Proof.
  intros Hnd Hu Hall Hdflts Hus k. rewrite Hus, !elem_of_okeys_ospread.
  assert (k ∈ okeys all ↔ ∃ rule, oget rules k = Some rule ∧ is_Some (param_value o k rule)) as Hkall.
  { rewrite <- has_key_true. unfold has_key. rewrite Hall. destruct (oget rules k) as [rule|].
    - destruct (param_value o k rule) eqn:E.
      + split; [intros _; eexists; split; [done|rewrite E; by eauto]|done].
      + split; [done|]. intros (r' & [= <-] & [x Hx]). congruence.
    - split; [done|]. by intros (? & ? & _). }
  split.
  - intros [[[?%elem_of_nil|Hd]|Ho] Hn]; [done| |].
    + exfalso. apply Hn, Hkall. destruct (Hdflts k Hd) as (rule & Hin & Hdef).
      exists rule. split; [by apply oget_Some_elem|]. unfold param_value. rewrite Hdef.
      repeat case_match; by eauto.
    + split; [done|]. intros Hin. apply Hn, Hkall. apply elem_of_okeys in Hin as [rule Hin].
      exists rule. split; [by apply oget_Some_elem|]. apply has_key_true in Ho. unfold has_key in Ho.
      unfold param_value. specialize (Hu k). destruct (oget o k) as [v|]; [|done].
      destruct (is_undefined v) eqn:E; [|by eauto]. apply is_undefined_spec in E. congruence.
  - intros [Ho Hn]. split; [by right|]. intros (rule & Hru & _)%Hkall. apply Hn, elem_of_okeys.
    exists rule. by apply oget_elem_of.
Qed.

(** C14. The report on a request: unknown are the parameters the route does not
    declare; missing are those it requires and does not get; valid holds
    each declared parameter with the value sent, numbers converted, or its
    default; and fastest-validator is asked when, and only when, nothing is
    unknown, missing or incomplete. *)
Theorem validate_report specs rules o r :
  field specs "params" = VObj rules → rules_ok rules = true → NoDup (okeys rules) → no_undef o →
  validateInputParams (VObj o) specs = Ok r →
  (∀ k, k ∈ okeys (props (unknown r)) ↔ k ∈ okeys o ∧ k ∉ okeys rules) ∧
  (∀ k, k ∈ missing r ↔ k ∉ okeys o ∧ ∃ rule, (k, rule) ∈ rules ∧ strict_eq (field rule "required") (VBool true) = true) ∧
  (∀ k, oget (props (valid r)) k =
    match oget rules k with
    | Some rule => match param_value o k rule with Some VUndef => None | x => x end
    | None => None
    end) ∧
  (is_Some (invalid r) ↔ okeys (props (unknown r)) = [] ∧ missing r = [] ∧ required r = []).
Proof.
  intros Hsp Hr Hnd Hu. unfold validateInputParams, or_default.
  unfold field in Hsp. destruct (prop specs "params") as [sp|] eqn:Esp; [|done]. subst sp.
  intros H. inv_res. match goal with H0 : VObj rules = ?pp |- _ => subst pp end.
  change (js_or (VObj rules) (VObj [])) with (VObj rules) in *.
  match goal with Hx : parseParams _ _ = Ok ?p |- _ => destruct p as [vs0 us0] end. inv_res.
  destruct (parseAllParams_spec o rules Hr Hnd) as (all & Eall & Hall & Hndall).
  destruct (parseDefaultParams_spec rules Hr) as (dflts & Edflts & Hdflts).
  destruct (checkMissingParams_spec rules o Hr) as (miss & Emiss & Hmiss).
  set (inp := ospread (ospread [] dflts) o).
  destruct (parseParams_spec all inp Hndall) as (vs & us & Eparse & Hndv & Hvs & Hus).
  match goal with Hx : parseAllParams _ _ = Ok _ |- _ => rewrite Eall in Hx; injection Hx as <- end.
  match goal with Hx : parseDefaultParams _ = Ok _ |- _ => rewrite Edflts in Hx; injection Hx as <- end.
  change (spread2 (VObj dflts) (VObj o)) with (VObj inp) in *.
  match goal with Hx : parseParams _ _ = Ok ?p |- _ => rewrite Eparse in Hx; injection Hx as <- <- end.
  match goal with Hx : checkMissingParams _ _ = Ok _ |- _ => rewrite Emiss in Hx; injection Hx as <- end.
  match goal with Hx : validateFromParamPairings _ _ _ = Ok ?q |- _ => rename q into req end.
  pose proof (unknown_keys o rules all us dflts Hnd Hu Hall Hdflts Hus) as Hus'.
  assert (∀ rep, valid rep = VObj vs → unknown rep = VObj us → missing rep = miss →
    (∀ k, k ∈ okeys (props (unknown rep)) ↔ k ∈ okeys o ∧ k ∉ okeys rules) ∧
    (∀ k, k ∈ missing rep ↔ k ∉ okeys o ∧ ∃ rule, (k, rule) ∈ rules ∧ strict_eq (field rule "required") (VBool true) = true) ∧
    (∀ k, oget (props (valid rep)) k = match oget rules k with
      | Some rule => match param_value o k rule with Some VUndef => None | x => x end | None => None end))
    as Hrep.
  { intros rep -> -> ->. split_and!; [exact Hus'|exact Hmiss|]. intros k. simpl. rewrite Hvs, Hall.
    by destruct (oget rules k). }
  clear Hus' Hus Hvs Hmiss Hall Hdflts.
  destruct miss as [|m miss]; [destruct us as [|u us]; [destruct req as [|q req]|]|]; cbn [props] in H; inv_res; subst r;
    (match goal with |- context [valid ?rep] => destruct (Hrep rep eq_refl eq_refl eq_refl) as (H1 & H2 & H3) end);
    (split_and!; [exact H1|exact H2|exact H3|]);
    simpl; split; try (by intros []); try (intros (? & ? & ?); done); by eauto.
Qed.

End report.

(** ** The two APIs *)

Section apis.
Context {DT : Dates} {FV : FastestValidator}.

Lemma complaint_None sep intro sep' intro' r :
  HttpApi.complaint sep intro r = None ↔ HttpApi.complaint sep' intro' r = None.
Proof. unfold HttpApi.complaint. by repeat case_match. Qed.

Lemma dropEmptyProps_spec o :
  NoDup (okeys o) →
  dropEmptyProps (VObj o) = Ok (VObj (List.filter (λ kv, negb (strict_eq kv.2 (VStr ""))) o)).
Proof.
  intros Hnd. unfold dropEmptyProps, reduce_keys. cbn [entries mbind result_mbind result_bind].
  assert (∀ acc, reduce_entries (λ cur v acc, Ok (if strict_eq v (VStr "") then acc else oset acc cur v)) o acc
    = Ok (ospread acc (List.filter (λ kv, negb (strict_eq kv.2 (VStr ""))) o))) as ->.
  { clear Hnd. induction o as [|[k v] o IH]; intros acc; [done|]. simpl. rewrite IH.
    by destruct (strict_eq v (VStr "")). }
  cbn [mbind result_mbind result_bind]. rewrite ospread_nil; [done|].
  by apply (NoDup_okeys_filter (λ v, negb (strict_eq v (VStr "")))).
Qed.

Lemma validateInputParams_valid params specs r :
  validateInputParams params specs = Ok r → ∃ v, valid r = VObj v ∧ NoDup (okeys v).
Proof.
  unfold validateInputParams. intros H. inv_res.
  match goal with Hx : parseParams _ _ = Ok ?p |- _ => destruct p as [v u]; rename Hx into Hp end.
  assert (∃ v', v = VObj v' ∧ NoDup (okeys v')) as (v' & -> & Hnd).
  { unfold parseParams in Hp. inv_res. match goal with Hx : _ = v |- _ => subst v end.
    eexists. split; [done|]. apply NoDup_okeys_ospread. constructor. }
  inv_res. exists v'. split; [|done]. revert H. clear. intros H.
  repeat (case_match; try (inv_res; by subst r)).
Qed.

(** C13. The HTTP and the JSON-RPC API agree on the requests of a route: both
    take a request or both refuse it; what they refuse is answered once, with
    status 400 over HTTP and a client error over JSON-RPC; what they take is
    mapped the same way, except that HTTP first drops empty texts. *)
Theorem http_rpc_agree (http rpc : api) method path rpcMethod params :
  default VUndef (oget (methodPaths http) (method +:+ " " +:+ path)) =
  default VUndef (oget (methodPaths rpc) rpcMethod) →
  match HttpApi.onBeforeCall http method path params, RpcApi.onBeforeCall rpc rpcMethod params with
  | (calls, Ok p), inr p' =>
      calls = [] ∧ ∃ v, p' = transformRequest (default VUndef (oget (methodPaths rpc) rpcMethod)) (VObj v) ∧
        p = transformRequest (default VUndef (oget (methodPaths rpc) rpcMethod))
              (VObj (List.filter (λ kv, negb (strict_eq kv.2 (VStr ""))) v))
  | (calls, Err e), inl f =>
      (∃ message message', calls = HttpApi.sendResponse ErrorCodes.HTTP_INVALID_REQUEST message ∧
         e = HttpApi.validationError ∧
         ∃ r, f = RpcApi.ClientError (RpcApi.complaintCode r) (VStr message')) ∨
      (calls = [] ∧ f = RpcApi.OtherError e)
  | _, _ => False
  end.
Proof.
  intros Hdef. unfold HttpApi.onBeforeCall, RpcApi.onBeforeCall. rewrite Hdef.
  set (m := default VUndef (oget (methodPaths rpc) rpcMethod)).
  destruct (validateInputParams params m) as [r|e] eqn:E; [|by right].
  pose proof (complaint_None "; " "Invalid input: " ", " "Invalid input parameter values: " r) as Hiff.
  destruct (HttpApi.complaint "; " "Invalid input: " r) as [msg|],
    (HttpApi.complaint ", " "Invalid input parameter values: " r) as [msg'|].
  - left. eexists _, _. split_and!; [done..|]. by eauto.
  - destruct Hiff as [_ H]. discriminate (H eq_refl).
  - destruct Hiff as [H _]. discriminate (H eq_refl).
  - destruct (validateInputParams_valid _ _ _ E) as (v & -> & Hnd).
    rewrite (dropEmptyProps_spec v Hnd). cbn [mbind result_mbind result_bind]. split; [done|]. by exists v.
Qed.

End apis.

(** ** What a JSON-RPC client and the readiness check can rely on *)

Import ApiUtils ParamValidator RpcApi SocketIo.

Section rpc.
Context {DT : Dates} {FV : FastestValidator} {GC : GatewayConfig} {MO : Moleculer} (inspect : val → string).
Context {E : Type} {HE : Engine E}.

(** An answer: a result or an error, with the identifier of its request. *)
Definition answers (id v : val) : Prop :=
  (∃ res, v = addJsonRpcEnvelope id res) ∨ (∃ code message, v = addErrorEnvelope id code message).

Definition not_nil (v : val) : bool := match v with VUndef | VNull => false | _ => true end.

Lemma prop_not_nil v k : not_nil v = true → ∃ x, prop v k = Ok x.
Proof. destruct v; try done; simpl; intros _; repeat case_match; by eauto. Qed.

Lemma performClientRequest_answers a request id (w : world E) :
  not_nil request = true → id ≠ VUndef →
  ∃ w' v, run (performClientRequest inspect a request id) w = (w', Ok v) ∧ answers id v.
Proof.
  intros Hr Hid. unfold performClientRequest.
  destruct (prop_not_nil request "jsonrpc" Hr) as [j ->], (prop_not_nil request "method" Hr) as [m Hm].
  assert (or_default id (VNum 1) = id) as -> by (by destruct id).
  rewrite run_bind, run_lift.
  case_match; [eexists _, _; split; [done|]; right; by eauto|].
  rewrite Hm, run_bind, run_lift.
  assert (∀ msg, ∃ w' v, run (Ret (addErrorEnvelope id (VNum ErrorCodes.INVALID_REQUEST) msg)) w = (w', Ok v) ∧ answers id v) as Hbad.
  { intros msg. eexists _, _. split; [done|]. right. by eauto. }
  destruct m as [| | | | | |[|c s]| |]; try apply Hbad.
  rewrite run_catch, run_bind. destruct (run (callAction a (String c s) request) w) as [w' [[f|res]|e]]; simpl.
  - destruct f as [code message|e]; eexists _, _; (split; [done|]); right; [by eauto|].
    unfold failureEnvelope. case_match; by eauto.
  - eexists _, _. split; [done|]. left. by eauto.
  - eexists _, _. split; [done|]. right. unfold failureEnvelope. case_match; by eauto.
Qed.

(** The identifier of the answer to the request at a position. *)
Definition answer_id (l : list val) (i : nat) (request : val) : val :=
  js_or (field request "id") (num_of_Z (indexOf l i request + 1)).

Lemma answer_id_defined l i request : answer_id l i request ≠ VUndef.
Proof. unfold answer_id, js_or. case_match eqn:H; [by intros Hu; rewrite Hu in H|]. unfold num_of_Z. by case_match. Qed.

Lemma run_pmap_Forall2 {A B} (P : A → B → Prop) (f : A → prog B) l (w : world E) :
  (∀ x w, x ∈ l → ∃ w' y, run (f x) w = (w', Ok y) ∧ P x y) →
  ∃ w' ys, run (pmap f l) w = (w', Ok ys) ∧ Forall2 P l ys.
Proof.
  revert w. induction l as [|x l IH]; intros w Hf; [eexists _, _; by split; [|constructor]|].
  destruct (Hf x w ltac:(by left)) as (w1 & y & Hx & Hy).
  destruct (IH w1) as (w2 & ys & Hl & Hys); [intros; apply Hf; by right|].
  eexists _, _. split; [|by constructor]. cbn [pmap]. rewrite run_bind, Hx. rewrite run_bind, Hl. done.
Qed.

(** C16. A JSON-RPC batch is always answered.  When no request of it is null,
    the answer has one element per request, in the same order, each a result
    or an error under the request's identifier, or its position counted from
    1 when it has none; whatever the remote methods do. *)
Theorem batch_answered a l (w : world E) :
  forallb not_nil l = true →
  ∃ w' responses, run (handleRequests inspect a (VArr l)) w = (w', Ok (VArr responses)) ∧
    Forall2 (λ '(i, request) v, answers (answer_id l i request) v) (imap pair l) responses.
Proof.
  intros Hl. unfold handleRequests. rewrite run_catch, run_bind.
  destruct (run_pmap_Forall2 (λ '(i, request) v, answers (answer_id l i request) v)
    (λ '(i, request), rid ← lift (prop request "id");
       performClientRequest inspect a request (js_or rid (num_of_Z (indexOf l i request + 1)))) (imap pair l) w)
    as (w' & ys & Hrun & Hys).
  - intros [i request] w1 Hin.
    assert (not_nil request = true) as Hn.
    { rewrite forallb_forall in Hl. apply Hl, list_elem_of_In.
      apply elem_of_lookup_imap in Hin as (j & y & [= -> ->] & Hj). by eapply list_elem_of_lookup_2. }
    destruct (prop_not_nil request "id" Hn) as [rid Hrid].
    rewrite Hrid, run_bind, run_lift.
    assert (answer_id l i request = js_or rid (num_of_Z (indexOf l i request + 1))) as <-.
    { unfold answer_id, field. by rewrite Hrid. }
    apply performClientRequest_answers; [done|apply answer_id_defined].
  - rewrite Hrun. eexists _, _. split; [done|exact Hys].
Qed.

(** When a request of a batch is null, or the single request is, the
    client gets an object that holds the protocol version and nothing else:
    no error and no identifier, because the error is built under a name that
    the error handler does not copy. *)
Theorem null_request_unanswered a l1 l2 (w : world E) :
  forallb not_nil l1 = true →
  (∃ w', run (handleRequests inspect a (VArr (l1 ++ VNull :: l2))) w = (w', Ok (VObj [("jsonrpc", VStr "2.0")]))) ∧
  (∃ w', run (handleRequests inspect a VNull) w = (w', Ok (VObj [("jsonrpc", VStr "2.0")]))).
Proof.
  intros Hl. split; [|eexists; reflexivity]. unfold handleRequests. rewrite run_catch, run_bind.
  set (l := l1 ++ VNull :: l2).
  set (f := λ '(i, request), rid ← lift (prop request "id");
       performClientRequest inspect a request (js_or rid (num_of_Z (indexOf l i request + 1)))).
  assert (∀ (xs : list (nat * val)) i ys (w : world E), forallb not_nil (map snd xs) = true →
    ∃ w' e, run (pmap f (xs ++ (i, VNull) :: ys)) w = (w', Err e)) as H.
  { intros xs i ys. induction xs as [|[j x] xs IH]; intros w1 Hx; [by eexists _, _|].
    simpl in Hx. apply andb_true_iff in Hx as [Hx Hxs]. cbn [app pmap]. rewrite run_bind. cbn [f].
    destruct (prop_not_nil x "id" Hx) as [rid Hrid]. rewrite run_bind, Hrid, run_lift.
    destruct (performClientRequest_answers a x (js_or rid (num_of_Z (indexOf l j x + 1))) w1 Hx) as (w2 & v & -> & _).
    { pose proof (answer_id_defined l j x) as Hid. unfold answer_id, field in Hid. by rewrite Hrid in Hid. }
    rewrite run_bind. destruct (IH w2 Hxs) as (w3 & e & ->). by eexists _, _. }
  assert (∃ ys, imap pair l = imap pair l1 ++ (length l1, VNull) :: ys) as [ys Hys].
  { eexists. unfold l. rewrite imap_app. cbn [imap]. by rewrite Nat.add_0_r. }
  assert (map snd (imap pair l1) = l1) as Hsnd.
  { change (snd <$> imap pair l1 = l1). rewrite fmap_imap. clear.
    assert (∀ n, imap (λ i, snd ∘ pair (n + i)%nat) l1 = l1) as H; [|exact (H 0%nat)].
    induction l1 as [|x l1 IH]; intros n; [done|]. cbn [imap]. f_equal.
    rewrite <- (IH (S n)) at 2. apply imap_ext. intros. done. }
  destruct (H (imap pair l1) (length l1) ys w) as (w' & e & Hrun); [by rewrite Hsnd|].
  rewrite Hys, Hrun. simpl. by eexists.
Qed.

End rpc.

(** ** ready.js *)

Section ready.
Context {GC : GatewayConfig} {E : Type} {HE : Engine E}.
Import Ready.

(** The gateway is ready exactly when every service it depends on is, and
    then lists the services that are ready; the others do not matter. *)
Theorem getReady_dependencies st (w : world E) :
  w_vars w !! currentSvcStatus = Some (VObj st) → NoDup (okeys st) →
  run getReady w = (w,
    if forallb (λ s, truthy s.2 || negb (str_in s.1 brokerDependencies)) st
    then Ok (VObj [("services", VObj (List.filter (λ s, truthy s.2) st))])
    else Err SERVICES_NOT_READY).
Proof.
  intros Hw Hnd. unfold getReady. rewrite run_bind, run_call. cbn [step]. rewrite Hw. cbn [default from_option id props].
  assert (∀ acc, NoDup (okeys acc) → (∀ k, k ∈ okeys st → k ∉ okeys acc) → includeReady st acc =
    if forallb (λ s, truthy s.2 || negb (str_in s.1 brokerDependencies)) st
    then Some (acc ++ List.filter (λ s, truthy s.2) st) else None) as ->.
  { clear Hw. induction st as [|[s v] st IH]; intros acc Hacc Hdis; cbn [includeReady forallb List.filter fst snd];
      [by rewrite app_nil_r|].
    change (okeys ((s, v) :: st)) with (s :: okeys st) in *. apply NoDup_cons in Hnd as [Hs Hnd].
    destruct (truthy v) eqn:Ev; cbn [orb].
    - assert (oset acc s v = acc ++ [(s, v)]) as ->.
      { assert (s ∉ okeys acc) as Hin by (apply Hdis; by left). clear -Hin.
        induction acc as [|[k' v'] a IHa]; [done|]. change (okeys ((k', v') :: a)) with (k' :: okeys a) in Hin.
        rewrite not_elem_of_cons in Hin. simpl. rewrite decide_False by naive_solver. rewrite IHa; [done|naive_solver]. }
      rewrite IH, <- app_assoc; [done|done| |].
      + unfold okeys. rewrite map_app. apply NoDup_app. split_and!; [done| |apply NoDup_singleton].
        intros x Hx ->%list_elem_of_singleton. by apply (Hdis s ltac:(by left)).
      + intros k Hk. unfold okeys. rewrite map_app, elem_of_app. cbn [map fst]. rewrite list_elem_of_singleton.
        intros [Hin | ->]; [|done]. by apply (Hdis k ltac:(by right)).
    - destruct (str_in s brokerDependencies); cbn [negb andb]; [done|]. apply IH; [exact Hnd|exact Hacc|].
      intros k Hk. apply Hdis. by right. }
  - destruct (forallb _ st); [|done]. done.
  - constructor.
  - intros k _ ?%elem_of_nil. done.
Qed.

End ready.
