(* ===== verification/GatewayDocs.v ===== *)
(** * The documentation the gateway serves: shared/utils.js,
    shared/generateDocs.js, the getters [schema] of the routes and the files
    of apis/<name>/swagger.

    A route describes itself for the documentation by its getter; the files
    are data, the names those of the files.  The last part says which
    references of the documentation lead nowhere. *)
From S2P Require Export GatewayThms.
Open Scope string_scope.
Open Scope Z_scope.
Open Scope list_scope.

(** ** shared/utils.js *)
Module GatewayUtils.

Definition ref (to : string) : val := VObj [("$ref", VStr to)].

(** What describes the parameter [paramKey], whose rule is [rule]. *)
Definition transformParam (paramKey : string) (rule : val) : val :=
  let described description :=
    VObj [("name", VStr paramKey); ("in", VStr "query"); ("description", VStr description); ("required", VBool false);
          ("type", field rule "type"); ("enum", field rule "enum"); ("default", field rule "default")] in
  if truthy (field rule "altSwaggerKey") then ref ("#/parameters/" +:+ tpl (field rule "altSwaggerKey"))
  else if decide (paramKey = "sort") then described "Fields to sort results by."
  else if decide (paramKey = "order") then
    described "Fields to order results by. The order condition is applied after the sort condition, usually to break ties when the sort condition results in collision."
  else ref ("#/parameters/" +:+ paramKey).

Definition transformParams (type : string) (params : list (string * val)) : list val :=
  map (λ '(k, rule), transformParam k rule) params.

Definition response : list (string * val) :=
  [("400", VObj [("description", VStr "Bad request"); ("schema", ref "#/definitions/badRequest")])].

Definition getSwaggerDescription (params : val) : val :=
  VStr (tpl (field params "description") +:+ String "010" (" RPC => " +:+ tpl (field params "rpcMethod"))).

(** [schema[this.swaggerApiPath] = { verb: described }] *)
Definition schemaOf (this : val) (verb : string) (described : list (string * val)) : val :=
  VObj [(to_string (field this "swaggerApiPath"), VObj [(verb, VObj described)])].

(** Keys that are numbers come in their order, here of three digits each. *)
Fixpoint insert_status (k : string) (v : val) (o : list (string * val)) : list (string * val) :=
  match o with
  | [] => [(k, v)]
  | (k', v') :: r =>
      if decide (k = k') then (k, v) :: r
      else if String.ltb k k' then (k, v) :: o else (k', v') :: insert_status k v r
  end.

(** [Object.assign(responses, response)] *)
Definition with_response (responses : val) : val :=
  VObj (fold_left (λ o kv, insert_status kv.1 kv.2 o) response (props responses)).

(** [l[0] = v] *)
Definition set_first (l : list val) (v : val) : list val := v :: tail l.

End GatewayUtils.
Import GatewayUtils.


(** ** The getters [schema] *)

Definition audios_schema : val :=
  let this := HttpVersion3.audios in
  schemaOf this "get" [
    ("tags", field this "tags");
    ("summary", VStr "Requests audios data");
    ("description", getSwaggerDescription (VObj [("rpcMethod", field this "rpcMethod"); ("description", VStr "Returns audios data")]));
    ("parameters", VArr (transformParams "audios" (props (field this "params"))));
    ("responses", with_response (VObj [
      ("200", VObj [
       ("description", VStr "Returns a list of audios");
       ("schema", VObj [("$ref", VStr "#/definitions/audiosWithEnvelope")])])]))].

Definition blockAssets_schema : val :=
  let this := HttpVersion3.blockAssets in
  schemaOf this "get" [
    ("tags", field this "tags");
    ("summary", VStr "Requests block assets data.");
    ("description", getSwaggerDescription (VObj [("rpcMethod", field this "rpcMethod"); ("description", VStr "Returns block assets data. Assets are always returned empty for the genesis height.")]));
    ("parameters", VArr (transformParams "blocks" (props (field this "params"))));
    ("responses", with_response (VObj [
      ("200", VObj [
       ("description", VStr "Returns a list of block assets.");
       ("schema", VObj [("$ref", VStr "#/definitions/BlocksAssetsWithEnvelope")])])]))].

Definition blockchainApps_schema : val :=
  let this := HttpVersion3.blockchainApps in
  schemaOf this "get" [
    ("tags", field this "tags");
    ("summary", VStr "Requests list of blockchain applications");
    ("description", getSwaggerDescription (VObj [("rpcMethod", field this "rpcMethod"); ("description", VStr "Returns a list of blockchain applications")]));
    ("parameters", VArr (transformParams "blockchainApps" (props (field this "params"))));
    ("responses", with_response (VObj [
      ("200", VObj [
       ("description", VStr "Returns a list of blockchain applications in the Lisk ecosystem");
       ("schema", VObj [("$ref", VStr "#/definitions/BlockchainAppsWithEnvelope")])])]))].

Definition blockchainAppsMetaList_schema : val :=
  let this := HttpVersion3.blockchainAppsMetaList in
  schemaOf this "get" [
    ("tags", field this "tags");
    ("summary", VStr "Requests list of blockchain applications for which the off-chain metadata is available");
    ("description", getSwaggerDescription (VObj [("rpcMethod", field this "rpcMethod"); ("description", VStr "Returns a list of blockchain applications for which the off-chain metadata is available")]));
    ("parameters", VArr (transformParams "blockchainAppsMetaList" (props (field this "params"))));
    ("responses", with_response (VObj [
      ("200", VObj [
       ("description", VStr "Returns a list of blockchain applications for which the off-chain metadata is available");
       ("schema", VObj [("$ref", VStr "#/definitions/BlockchainAppsMetaListWithEnvelope")])])]))].

Definition blockchainAppsMetadata_schema : val :=
  let this := HttpVersion3.blockchainAppsMetadata in
  schemaOf this "get" [
    ("tags", field this "tags");
    ("summary", VStr "Requests blockchain applications off-chain metadata");
    ("description", getSwaggerDescription (VObj [("rpcMethod", field this "rpcMethod"); ("description", VStr "Returns a list of blockchain applications off-chain metadata")]));
    ("parameters", VArr (transformParams "blockchainAppsMeta" (props (field this "params"))));
    ("responses", with_response (VObj [
      ("200", VObj [
       ("description", VStr "Returns a list of blockchain applications off-chain metadata");
       ("schema", VObj [("$ref", VStr "#/definitions/BlockchainAppsMetadataWithEnvelope")])])]))].

Definition blockchainAppsStatistics_schema : val :=
  let this := HttpVersion3.blockchainAppsStatistics in
  schemaOf this "get" [
    ("tags", field this "tags");
    ("summary", VStr "Requests blockchain application statistics");
    ("description", getSwaggerDescription (VObj [("rpcMethod", field this "rpcMethod"); ("description", VStr "Returns blockchain applications statistics")]));
    ("responses", VObj [
      ("200", VObj [
       ("description", VStr "Returns statistics for the blockchain applications in the Lisk ecosystem");
       ("schema", VObj [("$ref", VStr "#/definitions/blockchainAppsStatsEnvelope")])])])].

Definition blockchainAppsTokenMetadata_schema : val :=
  let this := HttpVersion3.blockchainAppsTokenMetadata in
  schemaOf this "get" [
    ("tags", field this "tags");
    ("summary", VStr "Requests blockchain applications off-chain metadata for tokens");
    ("description", getSwaggerDescription (VObj [("rpcMethod", field this "rpcMethod"); ("description", VStr "Returns blockchain applications off-chain metadata for tokens")]));
    ("parameters", VArr (transformParams "blockchainAppsTokensMeta" (props (field this "params"))));
    ("responses", with_response (VObj [
      ("200", VObj [
       ("description", VStr "Returns a list of blockchain applications off-chain metadata for tokens");
       ("schema", VObj [("$ref", VStr "#/definitions/BlockchainAppsTokenMetadataWithEnvelope")])])]))].

Definition blockchainAppsTokenSupportedMetadata_schema : val :=
  let this := HttpVersion3.blockchainAppsTokenSupportedMetadata in
  schemaOf this "get" [
    ("tags", field this "tags");
    ("summary", VStr "Requests blockchain applications off-chain metadata for tokens supported on the specified chainID.");
    ("description", getSwaggerDescription (VObj [("rpcMethod", field this "rpcMethod"); ("description", VStr "Returns blockchain applications off-chain metadata for tokens supported on the specified chainID.")]));
    ("parameters", VArr (transformParams "blockchainAppsTokensSupportedMeta" (props (field this "params"))));
    ("responses", with_response (VObj [
      ("200", VObj [
       ("description", VStr "Returns a list of blockchain applications off-chain metadata for tokens supported on the specified chainID.");
       ("schema", VObj [("$ref", VStr "#/definitions/BlockchainAppsTokenMetadataWithEnvelope")])])]))].

Definition blocks_schema : val :=
  let this := HttpVersion3.blocks in
  schemaOf this "get" [
    ("tags", field this "tags");
    ("summary", VStr "Requests blocks data");
    ("description", getSwaggerDescription (VObj [("rpcMethod", field this "rpcMethod"); ("description", VStr "Returns block data")]));
    ("parameters", VArr (transformParams "blocks" (props (field this "params"))));
    ("responses", with_response (VObj [
      ("200", VObj [
       ("description", VStr "Returns a list of blocks");
       ("schema", VObj [("$ref", VStr "#/definitions/BlocksWithEnvelope")])])]))].

Definition collections_schema : val :=
  let this := HttpVersion3.collections in
  schemaOf this "get" [
    ("tags", field this "tags");
    ("summary", VStr "Requests collections data");
    ("description", getSwaggerDescription (VObj [("rpcMethod", field this "rpcMethod"); ("description", VStr "Returns collections data")]));
    ("parameters", VArr (transformParams "collections" (props (field this "params"))));
    ("responses", with_response (VObj [
      ("200", VObj [
       ("description", VStr "Returns a list of collections");
       ("schema", VObj [("$ref", VStr "#/definitions/collectionsWithEnvelope")])])]))].

Definition events_schema : val :=
  let this := HttpVersion3.events in
  schemaOf this "get" [
    ("tags", field this "tags");
    ("summary", VStr "Requests events data");
    ("description", getSwaggerDescription (VObj [("rpcMethod", field this "rpcMethod"); ("description", VStr "Returns events data")]));
    ("parameters", VArr (transformParams "events" (props (field this "params"))));
    ("responses", with_response (VObj [
      ("200", VObj [
       ("description", VStr "Returns a list of events");
       ("schema", VObj [("$ref", VStr "#/definitions/eventsWithEnvelope")])])]))].

Definition fees_schema : val :=
  let this := HttpVersion3.fees in
  schemaOf this "get" [
    ("tags", field this "tags");
    ("summary", VStr "Requests fee estimates");
    ("description", getSwaggerDescription (VObj [("rpcMethod", field this "rpcMethod"); ("description", VStr "Returns fee estimates")]));
    ("responses", VObj [
      ("200", VObj [
       ("description", VStr "Returns the fee estimate per byte used for transaction fee calculation");
       ("schema", VObj [("$ref", VStr "#/definitions/FeeEstimateEnvelope")])])])].

Definition generators_schema : val :=
  let this := HttpVersion3.generators in
  schemaOf this "get" [
    ("tags", field this "tags");
    ("summary", VStr "Requests generators list");
    ("description", getSwaggerDescription (VObj [("rpcMethod", field this "rpcMethod"); ("description", VStr "Returns generators list")]));
    ("parameters", VArr (transformParams "Generators" (props (field this "params"))));
    ("responses", with_response (VObj [
      ("200", VObj [
       ("description", VStr "Returns a list of generators");
       ("schema", VObj [("$ref", VStr "#/definitions/generatorsWithEnvelope")])])]))].

Definition indexStatus_schema : val :=
  let this := HttpVersion3.indexStatus in
  schemaOf this "get" [
    ("tags", field this "tags");
    ("summary", VStr "Requests current indexing status.");
    ("description", getSwaggerDescription (VObj [("rpcMethod", field this "rpcMethod"); ("description", VStr "Returns current indexing status.")]));
    ("responses", VObj [
      ("200", VObj [
       ("description", VStr "Returns the current index status information.");
       ("schema", VObj [("$ref", VStr "#/definitions/IndexStatus")])])])].

Definition invoke_schema : val :=
  let this := HttpVersion3.invoke in
  schemaOf this "post" [
    ("tags", field this "tags");
    ("summary", VStr "Proxy request to directly invoke application endpoint");
    ("description", getSwaggerDescription (VObj [("rpcMethod", field this "rpcMethod"); ("description", VStr "Returns endpoint response from the blockchain application in its original form.")]));
    ("parameters", VArr [VObj [("$ref", VStr "#/parameters/invokeParams")]]);
    ("responses", VObj [
      ("200", VObj [
       ("description", VStr "Returns endpoint response from the blockchain application in its original form.");
       ("schema", VObj [("$ref", VStr "#/definitions/invokeWithEnvelope")])]);
      ("400", VObj [
       ("description", VStr "Bad request");
       ("schema", VObj [("$ref", VStr "#/definitions/badRequest")])])])].

Definition market_schema : val :=
  let this := HttpVersion3.market in
  schemaOf this "get" [
    ("tags", field this "tags");
    ("parameters", VArr (transformParams "marketPrices" (props (field this "params"))));
    ("summary", VStr "Requests market prices");
    ("description", getSwaggerDescription (VObj [("rpcMethod", field this "rpcMethod"); ("description", VStr "Returns market prices")]));
    ("responses", with_response (VObj [
      ("200", VObj [
       ("description", VStr "Returns a list of market prices by currency pairs");
       ("schema", VObj [("$ref", VStr "#/definitions/MarketPricesWithEnvelope")])])]))].

Definition networkPeers_schema : val :=
  let this := HttpVersion3.networkPeers in
  schemaOf this "get" [
    ("tags", field this "tags");
    ("summary", VStr "Requests peers data");
    ("description", getSwaggerDescription (VObj [("rpcMethod", field this "rpcMethod"); ("description", VStr "Returns peers data")]));
    ("parameters", VArr (transformParams "peers" (props (field this "params"))));
    ("responses", with_response (VObj [
      ("200", VObj [
       ("description", VStr "Returns a list of peer nodes in the network");
       ("schema", VObj [("$ref", VStr "#/definitions/PeersWithEnvelope")])])]))].

Definition networkStatistics_schema : val :=
  let this := HttpVersion3.networkStatistics in
  schemaOf this "get" [
    ("tags", field this "tags");
    ("summary", VStr "Requests network statistics");
    ("description", getSwaggerDescription (VObj [("rpcMethod", field this "rpcMethod"); ("description", VStr "Returns network statistics data")]));
    ("responses", VObj [
      ("200", VObj [
       ("description", VStr "Returns the network statistics information");
       ("schema", VObj [("$ref", VStr "#/definitions/NetworkStatistics")])])])].

Definition networkStatus_schema : val :=
  let this := HttpVersion3.networkStatus in
  schemaOf this "get" [
    ("tags", field this "tags");
    ("summary", VStr "Requests network status");
    ("description", getSwaggerDescription (VObj [("rpcMethod", field this "rpcMethod"); ("description", VStr "Returns network status")]));
    ("responses", VObj [
      ("200", VObj [
       ("description", VStr "Returns the network status information");
       ("schema", VObj [("$ref", VStr "#/definitions/NetworkStatus")])])])].

Definition postTransactions_schema : val :=
  let this := HttpVersion3.postTransactions in
  schemaOf this "post" [
    ("tags", field this "tags");
    ("summary", VStr "Post transactions");
    ("description", getSwaggerDescription (VObj [("rpcMethod", field this "rpcMethod"); ("description", VStr "Post transactions and return transactionID")]));
    ("parameters", VArr [VObj [("$ref", VStr "#/parameters/transaction")]]);
    ("responses", VObj [
      ("200", VObj [
       ("description", VStr "Broadcast transaction");
       ("schema", VObj [("$ref", VStr "#/definitions/postTransactionWithEnvelope")])]);
      ("400", VObj [
       ("description", VStr "Bad request");
       ("schema", VObj [("$ref", VStr "#/definitions/badRequestEnvelope")])]);
      ("500", VObj [
       ("description", VStr "Internal server error");
       ("schema", VObj [("$ref", VStr "#/definitions/serverErrorEnvelope")])])])].

Definition profiles_schema : val :=
  let this := HttpVersion3.profiles in
  schemaOf this "get" [
    ("tags", field this "tags");
    ("summary", VStr "Requests profiles data");
    ("description", getSwaggerDescription (VObj [("rpcMethod", field this "rpcMethod"); ("description", VStr "Returns profiles data")]));
    ("parameters", VArr (transformParams "profiles" (props (field this "params"))));
    ("responses", with_response (VObj [
      ("200", VObj [
       ("description", VStr "Returns a list of profiles");
       ("schema", VObj [("$ref", VStr "#/definitions/profilesWithEnvelope")])])]))].

Definition schemas_schema : val :=
  let this := HttpVersion3.schemas in
  schemaOf this "get" [
    ("tags", field this "tags");
    ("summary", VStr "Requests schemas.");
    ("description", getSwaggerDescription (VObj [("rpcMethod", field this "rpcMethod"); ("description", VStr "Returns schemas.")]));
    ("responses", with_response (VObj [
      ("200", VObj [
       ("description", VStr "Returns a list of schemas.");
       ("schema", VObj [("$ref", VStr "#/definitions/SchemaWithEnvelope")])])]))].

Definition subscriptions_schema : val :=
  let this := HttpVersion3.subscriptions in
  schemaOf this "get" [
    ("tags", field this "tags");
    ("summary", VStr "Requests subscriptions data");
    ("description", getSwaggerDescription (VObj [("rpcMethod", field this "rpcMethod"); ("description", VStr "Returns subscriptions data")]));
    ("parameters", VArr (transformParams "subscriptions" (props (field this "params"))));
    ("responses", with_response (VObj [
      ("200", VObj [
       ("description", VStr "Returns a list of subscriptions");
       ("schema", VObj [("$ref", VStr "#/definitions/subscriptionsWithEnvelope")])])]))].

Definition transactions_schema : val :=
  let this := HttpVersion3.transactions in
  schemaOf this "get" [
    ("tags", field this "tags");
    ("summary", VStr "Requests transactions data");
    ("description", getSwaggerDescription (VObj [("rpcMethod", field this "rpcMethod"); ("description", VStr "Returns transactions data")]));
    ("parameters", VArr (transformParams "transactions" (props (field this "params"))));
    ("responses", with_response (VObj [
      ("200", VObj [
       ("description", VStr "Returns a list of transactions");
       ("schema", VObj [("$ref", VStr "#/definitions/TransactionsWithEnvelope")])])]))].

Definition transactionsDryRun_schema : val :=
  let this := HttpVersion3.transactionsDryRun in
  schemaOf this "post" [
    ("tags", field this "tags");
    ("summary", VStr "Dry run transactions.");
    ("description", getSwaggerDescription (VObj [("rpcMethod", field this "rpcMethod"); ("description", VStr "Dry run transactions.")]));
    ("parameters", VArr [VObj [("$ref", VStr "#/parameters/dryrunTransaction")]]);
    ("responses", VObj [
      ("200", VObj [
       ("description", VStr "Dry run transactions. 'errorMessage' is available only when 'result: -1'.");
       ("schema", VObj [("$ref", VStr "#/definitions/dryTransactionWithEnvelope")])]);
      ("400", VObj [
       ("description", VStr "Bad request");
       ("schema", VObj [("$ref", VStr "#/definitions/badRequest")])]);
      ("500", VObj [
       ("description", VStr "Internal server error");
       ("schema", VObj [("$ref", VStr "#/definitions/serverErrorEnvelope")])])])].

Definition transactionsStatistics_schema : val :=
  let this := HttpVersion3.transactionsStatistics in
  schemaOf this "get" [
    ("tags", field this "tags");
    ("summary", VStr "Requests transaction statistics");
    ("description", getSwaggerDescription (VObj [("rpcMethod", field this "rpcMethod"); ("description", VStr "Returns transaction statistics")]));
    ("parameters", VArr (set_first (transformParams "transactions" (props (field this "params")))
      (VObj [
       ("name", VStr "interval");
       ("in", VStr "query");
       ("description", VStr "interval to query statistics");
       ("required", VBool true);
       ("type", VStr "string");
       ("enum", VArr [VStr "day"; VStr "month"])])));
    ("responses", with_response (VObj [
      ("200", VObj [
       ("description", VStr "Returns a list of transactions statistics by date or month");
       ("schema", VObj [("$ref", VStr "#/definitions/TransactionsStatisticsWithEnvelope")])]);
      ("503", VObj [
       ("description", VStr "Service Unavailable");
       ("schema", VObj [("$ref", VStr "#/definitions/serviceUnavailable")])])]))].

Definition auth_schema : val :=
  let this := ModuleRoutes.auth in
  schemaOf this "get" [
    ("tags", field this "tags");
    ("summary", VStr "Requests auth details by address");
    ("description", getSwaggerDescription (VObj [("rpcMethod", field this "rpcMethod"); ("description", VStr "Returns auth details by address")]));
    ("parameters", VArr (transformParams "Auth" (props (field this "params"))));
    ("responses", with_response (VObj [
      ("200", VObj [
       ("description", VStr "Auth details");
       ("schema", VObj [("$ref", VStr "#/definitions/authWithEnvelope")])])]))].

Definition rewardAnnualInflation_schema : val :=
  let this := ModuleRoutes.rewardAnnualInflation in
  schemaOf this "get" [
    ("tags", field this "tags");
    ("summary", VStr "Requests inflation rate.");
    ("description", getSwaggerDescription (VObj [("rpcMethod", field this "rpcMethod"); ("description", VStr "Returns inflation rate.")]));
    ("parameters", VArr (transformParams "reward" (props (field this "params"))));
    ("responses", with_response (VObj [
      ("200", VObj [
       ("description", VStr "Returns current inflation rate.");
       ("schema", VObj [("$ref", VStr "#/definitions/rewardInflationWithEnvelope")])])]))].

Definition rewardConstants_schema : val :=
  let this := ModuleRoutes.rewardConstants in
  schemaOf this "get" [
    ("tags", field this "tags");
    ("summary", VStr "Requests reward constants.");
    ("description", getSwaggerDescription (VObj [("rpcMethod", field this "rpcMethod"); ("description", VStr "Returns reward constants.")]));
    ("responses", VObj [
      ("200", VObj [
       ("description", VStr "Returns reward constants.");
       ("schema", VObj [("$ref", VStr "#/definitions/rewardConstantsWithEnvelope")])])])].

Definition rewardDefault_schema : val :=
  let this := ModuleRoutes.rewardDefault in
  schemaOf this "get" [
    ("tags", field this "tags");
    ("summary", VStr "Requests default block generation reward at a specified height.");
    ("description", getSwaggerDescription (VObj [("rpcMethod", field this "rpcMethod"); ("description", VStr "Returns default block generation reward at the specified height.")]));
    ("parameters", VArr (transformParams "reward" (props (field this "params"))));
    ("responses", VObj [
      ("200", VObj [
       ("description", VStr "Returns the default block generation reward at the specified height.");
       ("schema", VObj [("$ref", VStr "#/definitions/rewardDefaultWithEnvelope")])])])].

Definition legacyAccounts_schema : val :=
  let this := ModuleRoutes.legacyAccounts in
  schemaOf this "get" [
    ("tags", field this "tags");
    ("summary", VStr "Requests legacy account details");
    ("description", getSwaggerDescription (VObj [("rpcMethod", field this "rpcMethod"); ("description", VStr "Returns legacy account details")]));
    ("parameters", VArr (transformParams "legacyAccount" (props (field this "params"))));
    ("responses", with_response (VObj [
      ("200", VObj [
       ("description", VStr "Returns legacy account details for the specified publicKey");
       ("schema", VObj [("$ref", VStr "#/definitions/legacyAccountWithEnvelope")])])]))].

Definition posClaimableRewards_schema : val :=
  let this := ModuleRoutes.posClaimableRewards in
  schemaOf this "get" [
    ("tags", field this "tags");
    ("summary", VStr "Requests claimable rewards data from the PoS module.");
    ("description", getSwaggerDescription (VObj [("rpcMethod", field this "rpcMethod"); ("description", VStr "Returns claimable rewards data from the PoS module.")]));
    ("parameters", VArr (transformParams "PoS" (props (field this "params"))));
    ("responses", with_response (VObj [
      ("200", VObj [
       ("description", VStr "Returns a list of claimable rewards from the PoS module for the specified address, publicKey or validator name.");
       ("schema", VObj [("$ref", VStr "#/definitions/posClaimableRewardsWithEnvelope")])])]))].

Definition posConstants_schema : val :=
  let this := ModuleRoutes.posConstants in
  schemaOf this "get" [
    ("tags", field this "tags");
    ("summary", VStr "Requests PoS Module Constants.");
    ("description", getSwaggerDescription (VObj [("rpcMethod", field this "rpcMethod"); ("description", VStr "Requests all the configured constants for the PoS module.")]));
    ("responses", with_response (VObj [
      ("200", VObj [
       ("description", VStr "Returns all the configured constants for the PoS module.");
       ("schema", VObj [("$ref", VStr "#/definitions/posConstantsWithEnvelope")])])]))].

Definition posRewardsLocked_schema : val :=
  let this := ModuleRoutes.posRewardsLocked in
  schemaOf this "get" [
    ("tags", field this "tags");
    ("summary", VStr "Requests locked rewards data.");
    ("description", getSwaggerDescription (VObj [("rpcMethod", field this "rpcMethod"); ("description", VStr "Returns locked rewards data.")]));
    ("parameters", VArr (transformParams "PoS" (props (field this "params"))));
    ("responses", with_response (VObj [
      ("200", VObj [
       ("description", VStr "Returns a list of rewards locked by the PoS module for the specified address, publicKey or validator name.");
       ("schema", VObj [("$ref", VStr "#/definitions/posRewardsLockedWithEnvelope")])])]))].

Definition posStakers_schema : val :=
  let this := ModuleRoutes.posStakers in
  schemaOf this "get" [
    ("tags", field this "tags");
    ("summary", VStr "Requests the list of stakers for the specified validator.");
    ("description", getSwaggerDescription (VObj [("rpcMethod", field this "rpcMethod"); ("description", VStr "Returns a list of stakers for the specified validator.")]));
    ("parameters", VArr (transformParams "PoS" (props (field this "params"))));
    ("responses", with_response (VObj [
      ("200", VObj [
       ("description", VStr "Returns a list of stakers for the specified validator address, publicKey or name.");
       ("schema", VObj [("$ref", VStr "#/definitions/posStakersWithEnvelope")])])]))].

Definition posStakes_schema : val :=
  let this := ModuleRoutes.posStakes in
  schemaOf this "get" [
    ("tags", field this "tags");
    ("summary", VStr "Requests the list of stakes for the specified staker.");
    ("description", getSwaggerDescription (VObj [("rpcMethod", field this "rpcMethod"); ("description", VStr "Returns a list of stakes for the specified staker.")]));
    ("parameters", VArr (transformParams "PoS" (props (field this "params"))));
    ("responses", with_response (VObj [
      ("200", VObj [
       ("description", VStr "Returns a list of stakes for the specified staker address, publicKey or name.");
       ("schema", VObj [("$ref", VStr "#/definitions/posStakesWithEnvelope")])])]))].

Definition posUnlocks_schema : val :=
  let this := ModuleRoutes.posUnlocks in
  schemaOf this "get" [
    ("tags", field this "tags");
    ("summary", VStr "Requests PoS unlocks data.");
    ("description", getSwaggerDescription (VObj [("rpcMethod", field this "rpcMethod"); ("description", VStr "Returns unlocks information for the specified address, name or publicKey.")]));
    ("parameters", VArr (transformParams "PoS" (props (field this "params"))));
    ("responses", with_response (VObj [
      ("200", VObj [
       ("description", VStr "Returns unlocks information for the specified address, name or publicKey.");
       ("schema", VObj [("$ref", VStr "#/definitions/posUnlocksWithEnvelope")])])]))].

Definition posValidators_schema : val :=
  let this := ModuleRoutes.posValidators in
  schemaOf this "get" [
    ("tags", field this "tags");
    ("summary", VStr "Requests validators list.");
    ("description", getSwaggerDescription (VObj [("rpcMethod", field this "rpcMethod"); ("description", VStr "Returns validators list.")]));
    ("parameters", VArr (transformParams "PoS" (props (field this "params"))));
    ("responses", with_response (VObj [
      ("200", VObj [
       ("description", VStr "Returns a list of validators.");
       ("schema", VObj [("$ref", VStr "#/definitions/validatorsWithEnvelope")])])]))].

Definition tokenAccountExists_schema : val :=
  let this := ModuleRoutes.tokenAccountExists in
  schemaOf this "get" [
    ("tags", field this "tags");
    ("summary", VStr "Requests to check existence of an account for the specified token.");
    ("description", getSwaggerDescription (VObj [("rpcMethod", field this "rpcMethod"); ("description", VStr "Returns existence of an account for the specified token.")]));
    ("parameters", VArr (transformParams "tokens" (props (field this "params"))));
    ("responses", with_response (VObj [
      ("200", VObj [
       ("description", VStr "Returns existence of an account for the specified token.");
       ("schema", VObj [("$ref", VStr "#/definitions/tokenAccountExistsWithEnvelope")])])]))].

Definition tokenBalances_schema : val :=
  let this := ModuleRoutes.tokenBalances in
  schemaOf this "get" [
    ("tags", field this "tags");
    ("summary", VStr "Requests tokens information");
    ("description", getSwaggerDescription (VObj [("rpcMethod", field this "rpcMethod"); ("description", VStr "Returns tokens information")]));
    ("parameters", VArr (transformParams "tokens" (props (field this "params"))));
    ("responses", with_response (VObj [
      ("200", VObj [
       ("description", VStr "Returns a list of supported tokens by the blockchain application");
       ("schema", VObj [("$ref", VStr "#/definitions/tokenWithEnvelope")])])]))].

Definition tokenConstants_schema : val :=
  let this := ModuleRoutes.tokenConstants in
  schemaOf this "get" [
    ("tags", field this "tags");
    ("summary", VStr "Requests Token module constants.");
    ("description", getSwaggerDescription (VObj [("rpcMethod", field this "rpcMethod"); ("description", VStr "Requests all the configured constants for the Token module.")]));
    ("responses", with_response (VObj [
      ("200", VObj [
       ("description", VStr "Returns all the configured constants for the Token module.");
       ("schema", VObj [("$ref", VStr "#/definitions/tokenConstantsWithEnvelope")])])]))].

Definition tokenSummary_schema : val :=
  let this := ModuleRoutes.tokenSummary in
  schemaOf this "get" [
    ("tags", field this "tags");
    ("summary", VStr "Requests the tokens summary for the current blockchain application.");
    ("description", getSwaggerDescription (VObj [("rpcMethod", field this "rpcMethod"); ("description", VStr "Returns the token summary. The 'supportedTokens' is an empty list when all the tokens are supported on the blockchain application.")]));
    ("parameters", VArr (transformParams "tokens" (props (field this "params"))));
    ("responses", with_response (VObj [
      ("200", VObj [
       ("description", VStr "Returns the token summary. The 'supportedTokens' is an empty list when all the tokens are supported on the blockchain application.");
       ("schema", VObj [("$ref", VStr "#/definitions/tokenSummaryWithEnvelope")])])]))].

Definition validator_schema : val :=
  let this := ModuleRoutes.validator in
  schemaOf this "get" [
    ("tags", field this "tags");
    ("summary", VStr "Requests validator information");
    ("description", getSwaggerDescription (VObj [("rpcMethod", field this "rpcMethod"); ("description", VStr "Returns validator information")]));
    ("parameters", VArr (transformParams "validator" (props (field this "params"))));
    ("responses", with_response (VObj [
      ("200", VObj [
       ("description", VStr "Returns validator information by address");
       ("schema", VObj [("$ref", VStr "#/definitions/validatorWithEnvelope")])])]))].

Definition validatorValidateBLSKey_schema : val :=
  let this := ModuleRoutes.validatorValidateBLSKey in
  schemaOf this "post" [
    ("tags", field this "tags");
    ("summary", VStr "Validates a BLS key against its corresponding Proof of Possession.");
    ("description", getSwaggerDescription (VObj [("rpcMethod", field this "rpcMethod"); ("description", VStr "Validates a BLS key against its corresponding Proof of Possession.")]));
    ("parameters", VArr [VObj [("$ref", VStr "#/parameters/validateBLSKeyParams")]]);
    ("responses", with_response (VObj [
      ("200", VObj [
       ("description", VStr "Returns a boolean representing the validity of the supplied BLS key and Proof of Possession.");
       ("schema", VObj [("$ref", VStr "#/definitions/blsKeyValidationWithEnvelope")])])]))].

Definition export__schema : val :=
  let this := HttpExports.export_ in
  schemaOf this "get" [
    ("tags", field this "tags");
    ("parameters", VArr (transformParams "export" (props (field this "params"))));
    ("summary", VStr "Requests transaction history for a given account");
    ("description", getSwaggerDescription (VObj [("rpcMethod", field this "rpcMethod"); ("description", VStr "Returns transaction history")]));
    ("responses", with_response (VObj [("200", VObj [("description", VStr "CSV file")])]))].

Definition scheduleExport_schema : val :=
  let this := HttpExports.scheduleExport in
  schemaOf this "get" [
    ("tags", field this "tags");
    ("parameters", VArr (transformParams "export" (props (field this "params"))));
    ("summary", VStr "Requests to schedule export of transaction history for a given account");
    ("description", getSwaggerDescription (VObj [("rpcMethod", field this "rpcMethod"); ("description", VStr "Returns transaction history export scheduling information")]));
    ("responses", with_response (VObj [
      ("200", VObj [
       ("description", VStr "CSV file to download");
       ("schema", VObj [("$ref", VStr "#/definitions/ExportFileUrlWithEnvelope")])]);
      ("202", VObj [
       ("description", VStr "Schedule transaction history export");
       ("schema", VObj [("$ref", VStr "#/definitions/ExportScheduledWithEnvelope")])])]))].

(** What the getters of the files of a directory give, by name: the object
    [services] of [createApiDocs] with [method.schema] for [method]. *)
Definition schemaTables : list (string * option string * list (string * val)) := [
  ("http-version3", None, [("audios", audios_schema); ("blockAssets", blockAssets_schema); ("blockchainApps",
      blockchainApps_schema); ("blockchainAppsMetaList", blockchainAppsMetaList_schema);
      ("blockchainAppsMetadata", blockchainAppsMetadata_schema); ("blockchainAppsStatistics",
      blockchainAppsStatistics_schema); ("blockchainAppsTokenMetadata", blockchainAppsTokenMetadata_schema);
      ("blockchainAppsTokenSupportedMetadata", blockchainAppsTokenSupportedMetadata_schema); ("blocks",
      blocks_schema); ("collections", collections_schema); ("events", events_schema); ("fees", fees_schema);
      ("generators", generators_schema); ("indexStatus", indexStatus_schema); ("invoke", invoke_schema);
      ("market", market_schema); ("networkPeers", networkPeers_schema); ("networkStatistics",
      networkStatistics_schema); ("networkStatus", networkStatus_schema); ("postTransactions",
      postTransactions_schema); ("profiles", profiles_schema); ("schemas", schemas_schema); ("spec", VUndef);
      ("subscriptions", subscriptions_schema); ("transactions", transactions_schema); ("transactionsDryRun",
      transactionsDryRun_schema); ("transactionsStatistics", transactionsStatistics_schema)]);
  ("http-version3", Some "auth", [("auth", auth_schema)]);
  ("http-version3", Some "dynamicReward", [("rewardAnnualInflation", rewardAnnualInflation_schema);
      ("rewardConstants", rewardConstants_schema); ("rewardDefault", rewardDefault_schema)]);
  ("http-version3", Some "legacy", [("legacyAccounts", legacyAccounts_schema)]);
  ("http-version3", Some "pos", [("posClaimableRewards", posClaimableRewards_schema); ("posConstants",
      posConstants_schema); ("posRewardsLocked", posRewardsLocked_schema); ("posStakers", posStakers_schema);
      ("posStakes", posStakes_schema); ("posUnlocks", posUnlocks_schema); ("posValidators",
      posValidators_schema)]);
  ("http-version3", Some "token", [("tokenAccountExists", tokenAccountExists_schema); ("tokenBalances",
      tokenBalances_schema); ("tokenConstants", tokenConstants_schema); ("tokenSummary",
      tokenSummary_schema)]);
  ("http-version3", Some "validators", [("validator", validator_schema); ("validatorValidateBLSKey",
      validatorValidateBLSKey_schema)]);
  ("http-exports", None, [("export", export__schema); ("scheduleExport", scheduleExport_schema)])
].

Definition schemasIn (apiName : string) (moduleName : option string) : result (list (string * val)) :=
  match List.find (λ e, bool_decide (e.1 = (apiName, moduleName))) schemaTables with
  | Some e => Ok e.2
  | None => Err (mkExn "Error" "ENOENT: no such file or directory")
  end.

(** ** apis/<name>/swagger: the files, as JSON *)
Module Swagger.

Definition v3_apiJson : list (string * val) := [
  ("apiJson", VObj [
   ("swagger", VStr "2.0");
   ("info", VObj [
    ("title", VStr "Lisk Service API");
    ("version", VStr "3.0");
    ("contact", VObj [("email", VStr "admin@lisk.com")]);
    ("description", VStr ("# Lisk Service API Documentation

Lisk Service is a middleware web application that interacts with the entire Lisk ecosystem in various aspects, such as accessing blockchain data (both on-chain and off-chain information), retrieving and storing market data, and exporting account history.

The main focus of this project is to provide data to Lisk blockchain users by serving them in a standardized JSON format and exposing a public RESTful API. The project is split into several smaller components (microservices) each focused on serving a single specific purpose. 

As a pure backend project, it is designed to meet the requirements of front-end developers, especially Lisk Desktop and Lisk Mobile.

The API can be accessed at `https://service.lisk.com`.
It is also possible to access the Testnet network at `https://testnet-service.lisk.com`.

The Lisk Service API is compatible with RESTful guidelines. The specification below contains numerous examples of how to use the API in practice.

## Endpoint Logic

The logic of the endpoints are as follows:
- the structure is always based on `/<root_entity>/<object>/<properties>`

## Responses

All responses are returned in the JSON format - `application/json`.

Each API request has the following structure:

```
{
  " +:+ String dq "" +:+ "data" +:+ String dq "" +:+ ": {}, // Contains the requested data
  " +:+ String dq "" +:+ "meta" +:+ String dq "" +:+ ": {}, // Contains additional metadata, e.g. the values of `limit` and `offset`
}
```

And, the error responses adhere to the following structure:

```
{
  " +:+ String dq "" +:+ "error" +:+ String dq "" +:+ ": true,
  " +:+ String dq "" +:+ "message" +:+ String dq "" +:+ ": " +:+ String dq "" +:+ "Not found" +:+ String dq "" +:+ ", // Contains the error message
}
```"));
    ("license", VObj [("name", VStr "GPL v3.0"); ("url", VStr "https://www.gnu.org/licenses/gpl-3.0.en.html")])]);
   ("basePath", VStr "/api/v3");
   ("tags", VArr [
    VObj [("name", VStr "Blocks"); ("description", VStr "API calls for blocks from the Lisk network.")];
    VObj [
     ("name", VStr "Transactions");
     ("description", VStr "API calls for the transactions on the Lisk network.")];
    VObj [("name", VStr "Events"); ("description", VStr "Lisk Events API calls.")];
    VObj [("name", VStr "Generators"); ("description", VStr "Lisk Generators API calls.")];
    VObj [("name", VStr "Auth"); ("description", VStr "Lisk Auth module API calls.")];
    VObj [("name", VStr "Validator"); ("description", VStr "Lisk Validators module API calls.")];
    VObj [("name", VStr "Token"); ("description", VStr "Lisk Token module API calls.")];
    VObj [("name", VStr "Fee"); ("description", VStr "Lisk transaction fee recommendation API calls.")];
    VObj [("name", VStr "PoS"); ("description", VStr "Lisk PoS module API calls.")];
    VObj [("name", VStr "(Dynamic) Reward"); ("description", VStr "Lisk (Dynamic) Reward module API calls.")];
    VObj [("name", VStr "Legacy"); ("description", VStr "Lisk Legacy module API calls.")];
    VObj [("name", VStr "Network"); ("description", VStr "Lisk Network utility API calls.")];
    VObj [("name", VStr "Schemas"); ("description", VStr "Lisk Schema API calls.")];
    VObj [
     ("name", VStr "Interoperability");
     ("description", VStr "Lisk blockchain Interoperability related API calls.")];
    VObj [
     ("name", VStr "Application Off-Chain Metadata");
     ("description", VStr "Available application off-chain metadata API calls.")];
    VObj [
     ("name", VStr "Index Status");
     ("description", VStr "Lisk Service real-time indexing status API calls.")];
    VObj [
     ("name", VStr "Proxy");
     ("description", VStr "Proxy application endpoint invocations via Lisk Service.")];
    VObj [("name", VStr "Market"); ("description", VStr "Market prices related API calls.")];
    VObj [("name", VStr "Subscription"); ("description", VStr "Subscription module related API calls.")];
    VObj [("name", VStr "Collection"); ("description", VStr "Collection module related API calls.")];
    VObj [("name", VStr "Audio"); ("description", VStr "Audio module related API calls.")];
    VObj [("name", VStr "Profile"); ("description", VStr "Profile module related API calls.")]]);
   ("schemes", VArr [VStr "http"; VStr "https"]);
   ("paths", VObj [])])].

Definition v3_definitions_audios : list (string * val) := [
  ("audio", VObj [
   ("type", VStr "object");
   ("required", VArr [
    VStr "audioID";
    VStr "name";
    VStr "releaseYear";
    VStr "collectionID";
    VStr "creatorAddress";
    VStr "feat"]);
   ("properties", VObj [
    ("audioID", VObj [
     ("type", VStr "string");
     ("format", VStr "id");
     ("example", VStr "f9593f101c4acafc3ede650ab4c10fa2ecb59b225813eddbbb17b47e96932e9b");
     ("minLength", VNum 1);
     ("maxLength", VNum 64);
     ("description", VStr "Unique identifier of the audio.
Derived from the audio hash.")]);
    ("name", VObj [("type", VStr "string"); ("description", VStr "name of the audio")]);
    ("releaseYear", VObj [("type", VStr "string"); ("example", VStr "2023")]);
    ("collectionID", VObj [
     ("type", VStr "string");
     ("format", VStr "id");
     ("example", VStr "f9593f101c4acafc3ede650ab4c10fa2ecb59b225813eddbbb17b47e96932e9b");
     ("minLength", VNum 1);
     ("maxLength", VNum 64);
     ("description", VStr "Unique identifier of the collection to which the current audio belongs.")]);
    ("creatorAddress", VObj [
     ("type", VStr "object");
     ("properties", VObj [
      ("address", VObj [
       ("type", VStr "string");
       ("format", VStr "address");
       ("example", VStr "lskdwsyfmcko6mcd357446yatromr9vzgu7eb8y99");
       ("description", VStr "The Lisk Address is the human-readable representation of a blockchain account.
It is 41 character long identifier that begins with `lsk`.")]);
      ("publicKey", VObj [
       ("type", VStr "string");
       ("format", VStr "publicKey");
       ("example", VStr "b1d6bc6c7edd0673f5fed0681b73de6eb70539c21278b300f07ade277e1962cd");
       ("description", VStr "The public key is derived from the private key of the owner of the account.
It can be used to validate that the private key belongs to the owner, but not provide access to the owner's private key.")]);
      ("name", VObj [("type", VStr "string"); ("example", VStr "genesis_84"); ("description", VStr "Delegate name")])])]);
    ("feat", VObj [
     ("type", VStr "object");
     ("required", VArr [VStr "address"; VStr "name"; VStr "role"]);
     ("properties", VObj [
      ("address", VObj [
       ("type", VStr "string");
       ("example", VStr "lskdwsyfmcko6mcd357446yatromr9vzgu7eb8y99");
       ("description", VStr "Address of the block generator.")]);
      ("name", VObj [
       ("type", VStr "string");
       ("example", VStr "genesis_3");
       ("description", VStr "Name of the block generator.")]);
      ("role", VObj [
       ("type", VStr "string");
       ("example", VStr "guitarist");
       ("description", VStr "Role of the artist in creation of the audio.")])])])])]);
  ("AudiosWithEnvelope", VObj [
   ("type", VStr "object");
   ("required", VArr [VStr "data"; VStr "meta"]);
   ("properties", VObj [
    ("data", VObj [
     ("description", VStr "List of audios");
     ("type", VStr "array");
     ("items", VObj [("$ref", VStr "#/definitions/Audios")])]);
    ("meta", VObj [("$ref", VStr "#/definitions/pagination")])])]);
  ("serverErrorEnvelope", VObj [
   ("type", VStr "object");
   ("properties", VObj [
    ("error", VObj [("type", VStr "boolean"); ("example", VBool true)]);
    ("message", VObj [("type", VStr "string"); ("example", VStr "Unable to reach a network node")])])])].

Definition v3_definitions_auth : list (string * val) := [
  ("authWithEnvelope", VObj [
   ("type", VStr "object");
   ("required", VArr [VStr "data"; VStr "meta"]);
   ("properties", VObj [
    ("data", VObj [
     ("description", VStr "Auth information for a given address");
     ("type", VStr "object");
     ("properties", VObj [
      ("nonce", VObj [("type", VStr "string"); ("example", VStr "1")]);
      ("numberOfReqSignatures", VObj [
       ("type", VStr "integer");
       ("format", VStr "int32");
       ("example", VStr "1");
       ("description", VStr "The number of private keys that must sign a transaction")]);
      ("mandatoryKeys", VObj [
       ("type", VStr "array");
       ("items", VObj [
        ("type", VStr "string");
        ("example", VStr "689b9a40aa11cbc8327d5eeebed9a1052940730f9c34cffb33ae591131141349");
        ("description", VStr "Keys that must necessarily sign the transaction")])]);
      ("optionalKeys", VObj [
       ("type", VStr "array");
       ("items", VObj [
        ("type", VStr "string");
        ("example", VStr "478842a844914f18a1c620a6494bf9931d0a862e96212bf5fc6f3ca18658febe");
        ("description", VStr "Keys that can optionally sign the transaction")])])])]);
    ("meta", VObj [
     ("type", VStr "object");
     ("required", VArr [VStr "address"]);
     ("properties", VObj [
      ("address", VObj [
       ("type", VStr "string");
       ("format", VStr "address");
       ("example", VStr "lskdwsyfmcko6mcd357446yatromr9vzgu7eb8y99");
       ("description", VStr "The Lisk Address is the human-readable representation of a blockchain account.
It is 41 character long identifier that begins with `lsk`.")]);
      ("publicKey", VObj [
       ("type", VStr "string");
       ("format", VStr "publicKey");
       ("example", VStr "b1d6bc6c7edd0673f5fed0681b73de6eb70539c21278b300f07ade277e1962cd");
       ("description", VStr "The public key is derived from the private key of the owner of the account.
It can be used to validate that the private key belongs to the owner, but not provide access to the owner's private key.")]);
      ("name", VObj [
       ("type", VStr "string");
       ("example", VStr "genesis_84");
       ("description", VStr "Registered name of account")])])])])])].

Definition v3_definitions_blockchainApps : list (string * val) := [
  ("BlockchainApp", VObj [
   ("type", VStr "object");
   ("required", VArr [VStr "name"; VStr "chainID"; VStr "state"; VStr "address"]);
   ("properties", VObj [
    ("name", VObj [
     ("type", VStr "string");
     ("example", VStr "Lisk");
     ("description", VStr "Name of the blockchain application")]);
    ("chainID", VObj [
     ("type", VStr "string");
     ("format", VStr "id");
     ("minLength", VNum 1);
     ("example", VStr "00000000");
     ("description", VStr "Chain ID of the blockchain application.")]);
    ("status", VObj [
     ("type", VStr "string");
     ("example", VStr "active");
     ("description", VStr "Current status of the application.")]);
    ("address", VObj [
     ("type", VStr "string");
     ("format", VStr "address");
     ("example", VStr "lskdwsyfmcko6mcd357446yatromr9vzgu7eb8y99");
     ("description", VStr "The Lisk Address is the human-readable representation of a blockchain account.
It is 41 character long identifier that begins with `lsk`.")]);
    ("lastCertificateHeight", VObj [
     ("type", VStr "integer");
     ("example", VNum 160);
     ("minimum", VNum 1);
     ("description", VStr "Last certificate height")]);
    ("lastUpdated", VObj [("type", VStr "integer"); ("example", VNum 1616008148); ("description", VStr "timestamp")]);
    ("escrow", VObj [
     ("type", VStr "array");
     ("required", VArr [VStr "tokenID"; VStr "amount"]);
     ("items", VObj [
      ("type", VStr "object");
      ("properties", VObj [
       ("tokenID", VObj [
        ("type", VStr "string");
        ("example", VStr "0000000000000000");
        ("description", VStr "The universal token identifier for the escrowed tokens within the Lisk ecosystem.")]);
       ("amount", VObj [
        ("type", VStr "string");
        ("example", VStr "50000000000");
        ("description", VStr "The escrowed amount.")])])])])])]);
  ("BlockchainAppsWithEnvelope", VObj [
   ("type", VStr "object");
   ("required", VArr [VStr "data"; VStr "meta"]);
   ("properties", VObj [
    ("data", VObj [
     ("description", VStr "List of blockchain applications");
     ("type", VStr "array");
     ("items", VObj [("$ref", VStr "#/definitions/BlockchainApp")])]);
    ("meta", VObj [("$ref", VStr "#/definitions/pagination")])])]);
  ("blockchainAppsStatsEnvelope", VObj [
   ("type", VStr "object");
   ("required", VArr [VStr "data"; VStr "meta"]);
   ("properties", VObj [
    ("data", VObj [
     ("description", VStr "Blockchain applications statistics");
     ("type", VStr "object");
     ("properties", VObj [
      ("registered", VObj [
       ("type", VStr "integer");
       ("example", VNum 2503);
       ("description", VStr "List of registered blockchain applications")]);
      ("active", VObj [
       ("type", VStr "integer");
       ("example", VNum 2328);
       ("description", VStr "List of active blockchain applications")]);
      ("terminated", VObj [
       ("type", VStr "integer");
       ("example", VNum 35);
       ("description", VStr "List of terminated blockchain applications")]);
      ("totalSupplyLSK", VObj [("type", VStr "string"); ("example", VStr "5000000")]);
      ("totalStakedLSK", VObj [("type", VStr "string"); ("example", VStr "3000000")]);
      ("currentAnnualInflationRate", VObj [("type", VStr "string"); ("example", VStr "4.50")])])]);
    ("meta", VObj [("type", VStr "object")])])]);
  ("BlockchainAppMetaList", VObj [
   ("type", VStr "object");
   ("required", VArr [VStr "chainName"; VStr "chainID"; VStr "networkType"]);
   ("properties", VObj [
    ("chainName", VObj [
     ("type", VStr "string");
     ("example", VStr "Lisk");
     ("description", VStr "Chain name as registered on the network")]);
    ("chainID", VObj [
     ("type", VStr "string");
     ("example", VStr "00000000");
     ("description", VStr "Chain ID of the blockchain application.")]);
    ("networkType", VObj [
     ("type", VStr "string");
     ("example", VStr "mainnet");
     ("description", VStr "Network for which this configuration is specified. Must be one of 'mainnet', 'testnet' or 'betanet'")])])]);
  ("BlockchainAppsMetaListWithEnvelope", VObj [
   ("type", VStr "object");
   ("required", VArr [VStr "data"; VStr "meta"]);
   ("properties", VObj [
    ("data", VObj [
     ("description", VStr "List of blockchain applications for which off-chain data is available");
     ("type", VStr "array");
     ("items", VObj [("$ref", VStr "#/definitions/BlockchainAppMetaList")])]);
    ("meta", VObj [("$ref", VStr "#/definitions/pagination")])])]);
  ("BlockchainAppMetadata", VObj [
   ("type", VStr "object");
   ("required", VArr [
    VStr "chainName";
    VStr "chainID";
    VStr "genesisURL";
    VStr "networkType";
    VStr "projectPage";
    VStr "logo";
    VStr "backgroundColor";
    VStr "serviceURLs";
    VStr "explorers";
    VStr "isDefault"]);
   ("properties", VObj [
    ("chainName", VObj [
     ("type", VStr "string");
     ("example", VStr "Lisk");
     ("description", VStr "Chain name as registered on the network")]);
    ("chainID", VObj [
     ("type", VStr "string");
     ("example", VStr "00000000");
     ("description", VStr "Chain ID of the blockchain application.")]);
    ("title", VObj [("type", VStr "string"); ("example", VStr "Lisk blockchain application")]);
    ("status", VObj [
     ("type", VStr "string");
     ("example", VStr "active");
     ("description", VStr "Current status of the application.")]);
    ("description", VObj [("type", VStr "string"); ("example", VStr "Lisk is a blockchain application platform")]);
    ("networkType", VObj [
     ("type", VStr "string");
     ("example", VStr "mainnet");
     ("description", VStr "Network for which this configuration is specified. Must be one of 'mainnet', 'testnet' or 'betanet'")]);
    ("isDefault", VObj [("type", VStr "boolean"); ("example", VStr "true")]);
    ("genesisURL", VObj [
     ("type", VStr "string");
     ("example", VStr "https://downloads.lisk.com/lisk/mainnet/genesis_block.json.tar.gz");
     ("description", VStr "URI to the network genesis block")]);
    ("projectPage", VObj [
     ("type", VStr "string");
     ("example", VStr "https://lisk.com");
     ("description", VStr "URL to the project's homepage")]);
    ("serviceURLs", VObj [
     ("type", VStr "array");
     ("items", VObj [
      ("type", VStr "object");
      ("properties", VObj [
       ("http", VObj [
        ("type", VStr "string");
        ("example", VStr "https://service.lisk.com");
        ("description", VStr "HTTP endpoint to access Lisk Service API against the blockchain application")]);
       ("ws", VObj [
        ("type", VStr "string");
        ("example", VStr "wss://service.lisk.com");
        ("description", VStr "WS endpoint to access Lisk Service API against the blockchain application")])])])]);
    ("logo", VObj [
     ("type", VStr "object");
     ("properties", VObj [
      ("png", VObj [
       ("type", VStr "string");
       ("example", VStr "https://downloads.lisk.com/lisk/images/logo.png");
       ("description", VStr "URI to the PNG format of the application logo")]);
      ("svg", VObj [
       ("type", VStr "string");
       ("example", VStr "https://downloads.lisk.com/lisk/images/logo.svg");
       ("description", VStr "URI to the SVG format of the application logo")])])]);
    ("appPage", VObj [
     ("type", VStr "string");
     ("example", VStr "https://lisk.com");
     ("description", VStr "URL to the blockchain application's frontend, if exists")]);
    ("backgroundColor", VObj [
     ("type", VStr "string");
     ("example", VStr "#0981D1");
     ("description", VStr "Default background color to be used in the application management and exploration screens of the Lisk wallets. Must be of the format '#rrggbb' (hex values)")]);
    ("explorers", VObj [
     ("type", VStr "array");
     ("items", VObj [
      ("type", VStr "object");
      ("properties", VObj [
       ("url", VObj [
        ("type", VStr "string");
        ("example", VStr "https://lisk.observer");
        ("description", VStr "URI endpoint to the explorer's homepage")]);
       ("txnPage", VObj [
        ("type", VStr "string");
        ("example", VStr "https://lisk.observer/transactions");
        ("description", VStr "URI endpoint to the explorer's transactions page")])])])]);
    ("appNodes", VObj [
     ("type", VStr "array");
     ("items", VObj [
      ("type", VStr "object");
      ("properties", VObj [
       ("url", VObj [
        ("type", VStr "string");
        ("example", VStr "https://mainnet.lisk.com");
        ("description", VStr "URI to connect and query to the node directly")]);
       ("maintainer", VObj [
        ("type", VStr "string");
        ("example", VStr "Lightcurve GmbH");
        ("description", VStr "Maintainer details of the node")])])])])])]);
  ("BlockchainAppsMetadataWithEnvelope", VObj [
   ("type", VStr "object");
   ("required", VArr [VStr "data"; VStr "meta"]);
   ("properties", VObj [
    ("data", VObj [
     ("description", VStr "List of blockchain applications with off-chain metadata");
     ("type", VStr "array");
     ("items", VObj [("$ref", VStr "#/definitions/BlockchainAppMetadata")])]);
    ("meta", VObj [("$ref", VStr "#/definitions/pagination")])])]);
  ("BlockchainAppTokenMetadata", VObj [
   ("type", VStr "object");
   ("required", VArr [
    VStr "chainID";
    VStr "chainName";
    VStr "tokenID";
    VStr "tokenName";
    VStr "denomUnits";
    VStr "baseDenom";
    VStr "displayDenom";
    VStr "symbol"]);
   ("properties", VObj [
    ("chainID", VObj [
     ("type", VStr "string");
     ("example", VStr "00000000");
     ("description", VStr "Chain ID of the blockchain application.")]);
    ("chainName", VObj [
     ("type", VStr "string");
     ("example", VStr "Lisk");
     ("description", VStr "Chain name as registered on the network")]);
    ("tokenID", VObj [
     ("type", VStr "string");
     ("example", VStr "0000000000000000");
     ("description", VStr "The universal identifier for the token within the Lisk ecosystem.")]);
    ("tokenName", VObj [
     ("type", VStr "string");
     ("example", VStr "Lisk");
     ("description", VStr "The name of the token. For example Lisk")]);
    ("networkType", VObj [("type", VStr "string"); ("example", VStr "mainnet")]);
    ("description", VObj [("type", VStr "string"); ("example", VStr "LSK is the utility token of Lisk")]);
    ("denomUnits", VObj [
     ("type", VStr "array");
     ("items", VObj [
      ("type", VStr "object");
      ("properties", VObj [
       ("denom", VObj [
        ("type", VStr "string");
        ("example", VStr "lsk");
        ("description", VStr "Supported denomination. Example: Beddows, LSK")]);
       ("decimals", VObj [
        ("type", VStr "integer");
        ("example", VNum 8);
        ("description", VStr "The exponent over base 10 by which the denomination is a factor of the baseDenom. Example: 8 for LSK (1 LSK = 10^8 Beddows)")]);
       ("aliases", VObj [
        ("type", VStr "array");
        ("items", VObj [
         ("type", VStr "string");
         ("example", VStr "LISK");
         ("description", VStr "Human friendly aliases for the denomination unit")])])])])]);
    ("symbol", VObj [
     ("type", VStr "string");
     ("example", VStr "LSK");
     ("description", VStr "The symbol for the token. Example: LSK")]);
    ("displayDenom", VObj [
     ("type", VStr "string");
     ("example", VStr "lsk");
     ("description", VStr "The human friendly denomination unit of the token. Must be a 'denom' in denomUnits. Example: lsk")]);
    ("baseDenom", VObj [
     ("type", VStr "string");
     ("example", VStr "beddows");
     ("description", VStr "The base denomination unit of the token. Must be a 'denom' in denomUnits. Example: Beddows")]);
    ("logo", VObj [
     ("type", VStr "object");
     ("properties", VObj [
      ("png", VObj [
       ("type", VStr "string");
       ("example", VStr "https://downloads.lisk.com/lisk/images/logo.png");
       ("description", VStr "URI to the PNG format of the token logo")]);
      ("svg", VObj [
       ("type", VStr "string");
       ("example", VStr "https://downloads.lisk.com/lisk/images/logo.svg");
       ("description", VStr "URI to the SVG format of the token logo")])])])])]);
  ("BlockchainAppsTokenMetadataWithEnvelope", VObj [
   ("type", VStr "object");
   ("required", VArr [VStr "data"; VStr "meta"]);
   ("properties", VObj [
    ("data", VObj [
     ("description", VStr "List of blockchain applications off-chain metadata for tokens");
     ("type", VStr "array");
     ("items", VObj [("$ref", VStr "#/definitions/BlockchainAppTokenMetadata")])]);
    ("meta", VObj [("$ref", VStr "#/definitions/pagination")])])])].

Definition v3_definitions_blocks : list (string * val) := [
  ("Block", VObj [
   ("type", VStr "object");
   ("required", VArr [
    VStr "id";
    VStr "version";
    VStr "height";
    VStr "timestamp";
    VStr "generatorAddress";
    VStr "transactionRoot";
    VStr "assetsRoot";
    VStr "stateRoot";
    VStr "maxHeightPrevoted";
    VStr "maxHeightGenerated";
    VStr "validatorsHash";
    VStr "aggregateCommit";
    VStr "signature";
    VStr "isFinal"]);
   ("properties", VObj [
    ("id", VObj [
     ("type", VStr "string");
     ("format", VStr "id");
     ("minLength", VNum 1);
     ("maxLength", VNum 64);
     ("example", VStr "01967dba384998026fe028119bd099ecf073c05c045381500a93d1a7c7307e5b");
     ("description", VStr "Unique identifier of the block.
Derived from the block signature.")]);
    ("version", VObj [
     ("type", VStr "integer");
     ("example", VNum 0);
     ("minimum", VNum 0);
     ("description", VStr "Lisk protocol version to which this block adheres to.")]);
    ("height", VObj [
     ("type", VStr "integer");
     ("example", VNum 8344448);
     ("minimum", VNum 1);
     ("description", VStr "Height of the network, when the block got forged.
The height of the networks represents the number of blocks, that have been forged on the network since Genesis Block.")]);
    ("timestamp", VObj [("type", VStr "integer"); ("example", VNum 85944650); ("description", VStr "UNIX Timestamp")]);
    ("previousBlockId", VObj [
     ("type", VStr "string");
     ("format", VStr "id");
     ("example", VStr "827080df7829cd2757501a85f80a0767fcb40615304b701c2890dbbaf214bb89");
     ("description", VStr "ID of the parent block.")]);
    ("generator", VObj [
     ("type", VStr "object");
     ("required", VArr [VStr "address"; VStr "name"]);
     ("properties", VObj [
      ("address", VObj [
       ("type", VStr "string");
       ("example", VStr "lskdwsyfmcko6mcd357446yatromr9vzgu7eb8y99");
       ("description", VStr "Address of the block generator.")]);
      ("name", VObj [
       ("type", VStr "string");
       ("example", VStr "genesis_3");
       ("description", VStr "Name of the block generator.")]);
      ("publicKey", VObj [
       ("type", VStr "string");
       ("example", VStr "32ddb97e8d7e607a14fef8449c2a2180cd74a51f67b04a50a4b1917d3ca8a52e");
       ("description", VStr "Public key of the block generator.")])])]);
    ("transactionRoot", VObj [
     ("type", VStr "string");
     ("format", VStr "hex");
     ("example", VStr "e3b0c44298fc1c149afbf4c8996fb92427ae41e4649b934ca495991b7852b855");
     ("description", VStr "Merkle root of the block payload.
The block payload comprises the transactions contained within the block.")]);
    ("assetsRoot", VObj [
     ("type", VStr "string");
     ("example", VStr "6e904b2f678eb3b6c3042acb188a607d903d441d61508d047fe36b3c982995c8");
     ("description", VStr "Merkle root of the block assets array.")]);
    ("stateRoot", VObj [
     ("type", VStr "string");
     ("example", VStr "95d9b1773b78034b8df9ac741c903b881da761d8ba002a939de28a4b86982c04");
     ("description", VStr "The root of the sparse Merkle tree that is computed from the state of the blockchain.")]);
    ("maxHeightGenerated", VObj [("type", VStr "integer"); ("example", VNum 559421)]);
    ("maxHeightPrevoted", VObj [("type", VStr "integer"); ("example", VNum 559434)]);
    ("validatorsHash", VObj [
     ("type", VStr "string");
     ("example", VStr "ad0076aa444f6cda608bb163c3bd77d9bf172f1d2803d53095bc0f277db6bcb3");
     ("description", VStr "Hash to authenticates the active set of validators")]);
    ("aggregateCommit", VObj [
     ("type", VStr "object");
     ("properties", VObj [
      ("height", VObj [("type", VStr "number"); ("example", VNum 166)]);
      ("aggregationBits", VObj [("type", VStr "string"); ("example", VStr "ffffffffffffffffffffffff1f")]);
      ("certificateSignature", VObj [
       ("type", VStr "string");
       ("example", VStr "a7db952f87db29718c40afca9a9fb2f6b605f8588c1c99e41e92f26ec005e6d14327c33051fa383fe903b7040d16c7441570167a73d9468aa16a6720c765b3f22aeca42102c45b4616fd7543d7a0649e0fa934e0de1973486eede9d56f014f9f")])])]);
    ("numberOfTransactions", VObj [
     ("type", VStr "number");
     ("description", VStr "The number of transactions processed in the block.");
     ("example", VNum 10)]);
    ("numberOfAssets", VObj [
     ("type", VStr "number");
     ("description", VStr "The number of assets in the block.");
     ("example", VNum 10)]);
    ("numberOfEvents", VObj [
     ("type", VStr "number");
     ("description", VStr "The number of events in the block.");
     ("example", VNum 10)]);
    ("totalBurnt", VObj [
     ("type", VStr "string");
     ("example", VStr "0");
     ("description", VStr "The total amount of Lisk (in Beddows) that was burnt in this block. It is the sum total of minimum fees for each transaction contained within the block.")]);
    ("networkFee", VObj [
     ("type", VStr "string");
     ("example", VStr "15000000");
     ("description", VStr "TThe total amount of Lisk (in Beddows) that the block generator makes from the transaction fees after burning the minimum fees.")]);
    ("totalForged", VObj [
     ("type", VStr "string");
     ("example", VStr "65000000");
     ("description", VStr "Total amount of Lisk (in Beddows) that has been forged in this block. It is a sum of all the transaction fees and the block reward.")]);
    ("reward", VObj [
     ("type", VStr "string");
     ("example", VStr "50000000");
     ("description", VStr "The amount of Lisk (in Beddows) that was rewarded to the block generator.")]);
    ("signature", VObj [
     ("type", VStr "string");
     ("format", VStr "signature");
     ("example", VStr "a3733254aad600fa787d6223002278c3400be5e8ed4763ae27f9a15b80e20c22ac9259dc926f4f4cabdf0e4f8cec49308fa8296d71c288f56b9d1e11dfe81e07");
     ("description", VStr "Derived from a SHA-256 hash of the block header,
that is signed by the private key of the delegate who forged the block.")]);
    ("isFinal", VObj [("type", VStr "boolean"); ("example", VStr "true")])])]);
  ("BlocksWithEnvelope", VObj [
   ("type", VStr "object");
   ("required", VArr [VStr "data"; VStr "meta"]);
   ("properties", VObj [
    ("data", VObj [
     ("description", VStr "List of blocks");
     ("type", VStr "array");
     ("items", VObj [("$ref", VStr "#/definitions/Block")])]);
    ("meta", VObj [("$ref", VStr "#/definitions/pagination")])])]);
  ("BlockAsset", VObj [
   ("type", VStr "object");
   ("required", VArr [VStr "block"; VStr "assets"]);
   ("properties", VObj [
    ("block", VObj [
     ("type", VStr "object");
     ("properties", VObj [
      ("id", VObj [
       ("type", VStr "string");
       ("example", VStr "01967dba384998026fe028119bd099ecf073c05c045381500a93d1a7c7307e5b")]);
      ("height", VObj [("type", VStr "string"); ("example", VStr "166")]);
      ("timestamp", VObj [("type", VStr "integer"); ("example", VNum 85944650)])])]);
    ("assets", VObj [
     ("type", VStr "array");
     ("required", VArr [VStr "module"; VStr "data"]);
     ("items", VObj [
      ("type", VStr "object");
      ("properties", VObj [
       ("module", VObj [
        ("type", VStr "string");
        ("example", VStr "random");
        ("description", VStr "Name of the blockchain module associated with the assets.")]);
       ("data", VObj [
        ("type", VStr "object");
        ("properties", VObj [
         ("seedReveal", VObj [("type", VStr "string"); ("example", VStr "c555338417025a5b2b9278304f8a96be")])]);
        ("description", VStr "The data object schema varies by module. The exact schema can be found from the `/schemas` endpoint.")])])])])])]);
  ("BlocksAssetsWithEnvelope", VObj [
   ("type", VStr "object");
   ("required", VArr [VStr "data"; VStr "meta"]);
   ("properties", VObj [
    ("data", VObj [
     ("description", VStr "List of block assets");
     ("type", VStr "array");
     ("items", VObj [("$ref", VStr "#/definitions/BlockAsset")])]);
    ("meta", VObj [("$ref", VStr "#/definitions/pagination")])])])].

Definition v3_definitions_collections : list (string * val) := [
  ("collection", VObj [
   ("type", VStr "object");
   ("required", VArr [VStr "collectionID"; VStr "releaseYear"; VStr "name"; VStr "collectionType"; VStr "creatorAddress"]);
   ("properties", VObj [
    ("collectionID", VObj [
     ("type", VStr "string");
     ("format", VStr "id");
     ("example", VStr "f9593f101c4acafc3ede650ab4c10fa2ecb59b225813eddbbb17b47e96932e9b");
     ("minLength", VNum 1);
     ("maxLength", VNum 64);
     ("description", VStr "Unique identifier of the collection.
Derived from the collection hash.")]);
    ("releaseYear", VObj [("type", VStr "string"); ("example", VStr "2023")]);
    ("name", VObj [("type", VStr "string"); ("description", VStr "name of the collection")]);
    ("collectionType", VObj [("type", VStr "integer"); ("example", VStr "1")]);
    ("creatorAddress", VObj [
     ("type", VStr "object");
     ("properties", VObj [
      ("address", VObj [
       ("type", VStr "string");
       ("format", VStr "address");
       ("example", VStr "lskdwsyfmcko6mcd357446yatromr9vzgu7eb8y99");
       ("description", VStr "The Lisk Address is the human-readable representation of a blockchain account.
It is 41 character long identifier that begins with `lsk`.")]);
      ("publicKey", VObj [
       ("type", VStr "string");
       ("format", VStr "publicKey");
       ("example", VStr "b1d6bc6c7edd0673f5fed0681b73de6eb70539c21278b300f07ade277e1962cd");
       ("description", VStr "The public key is derived from the private key of the owner of the account.
It can be used to validate that the private key belongs to the owner, but not provide access to the owner's private key.")]);
      ("name", VObj [("type", VStr "string"); ("example", VStr "genesis_84"); ("description", VStr "Delegate name")])])])])]);
  ("CollectionsWithEnvelope", VObj [
   ("type", VStr "object");
   ("required", VArr [VStr "data"; VStr "meta"]);
   ("properties", VObj [
    ("data", VObj [
     ("description", VStr "List of collections");
     ("type", VStr "array");
     ("items", VObj [("$ref", VStr "#/definitions/Collections")])]);
    ("meta", VObj [("$ref", VStr "#/definitions/pagination")])])]);
  ("serverErrorEnvelope", VObj [
   ("type", VStr "object");
   ("properties", VObj [
    ("error", VObj [("type", VStr "boolean"); ("example", VBool true)]);
    ("message", VObj [("type", VStr "string"); ("example", VStr "Unable to reach a network node")])])])].

Definition v3_definitions_dynamicReward : list (string * val) := [
  ("rewardDefaultWithEnvelope", VObj [
   ("type", VStr "object");
   ("required", VArr [VStr "data"; VStr "meta"]);
   ("properties", VObj [
    ("data", VObj [
     ("description", VStr "Default reward for a block height.");
     ("type", VStr "object");
     ("required", VArr [VStr "tokenID"; VStr "defaultReward"]);
     ("properties", VObj [
      ("tokenID", VObj [
       ("type", VStr "string");
       ("example", VStr "0000000000000000");
       ("description", VStr "The universal identifier for the token within the Lisk ecosystem used for rewards.")]);
      ("defaultReward", VObj [
       ("type", VStr "string");
       ("example", VStr "109000000000");
       ("description", VStr "The default block generation reward for the queried block height.")])])]);
    ("meta", VObj [("type", VStr "object"); ("properties", VObj [])])])]);
  ("rewardConstantsWithEnvelope", VObj [
   ("type", VStr "object");
   ("required", VArr [VStr "data"; VStr "meta"]);
   ("properties", VObj [
    ("data", VObj [
     ("description", VStr "Reward constants.");
     ("type", VStr "object");
     ("required", VArr [VStr "rewardTokenID"]);
     ("properties", VObj [
      ("rewardTokenID", VObj [
       ("type", VStr "string");
       ("example", VStr "0000000000000000");
       ("description", VStr "The universal identifier for the token within the Lisk ecosystem used for rewards.")])])]);
    ("meta", VObj [("type", VStr "object"); ("properties", VObj [])])])]);
  ("rewardInflationWithEnvelope", VObj [
   ("type", VStr "object");
   ("required", VArr [VStr "data"; VStr "meta"]);
   ("properties", VObj [
    ("data", VObj [
     ("description", VStr "Current inflation rate for the specified reward token.");
     ("type", VStr "object");
     ("properties", VObj [
      ("tokenID", VObj [
       ("type", VStr "string");
       ("example", VStr "0000000000000000");
       ("description", VStr "The universal identifier for the token within the Lisk ecosystem used for rewards.")]);
      ("rate", VObj [
       ("type", VStr "string");
       ("example", VStr "10.32");
       ("description", VStr "Current inflation rate.")])])]);
    ("meta", VObj [("type", VStr "object"); ("properties", VObj [])])])])].

Definition v3_definitions_error : list (string * val) := [
  ("badRequest", VObj [
   ("type", VStr "object");
   ("properties", VObj [
    ("error", VObj [("type", VStr "boolean"); ("example", VBool true)]);
    ("message", VObj [("type", VStr "string"); ("example", VStr "Unknown input parameter(s): id")])])]);
  ("notFound", VObj [
   ("type", VStr "object");
   ("properties", VObj [
    ("error", VObj [("type", VStr "boolean"); ("example", VBool true)]);
    ("message", VObj [("type", VStr "string"); ("example", VStr "Not found")])])]);
  ("serviceUnavailable", VObj [
   ("type", VStr "object");
   ("properties", VObj [
    ("error", VObj [("type", VStr "boolean"); ("example", VBool true)]);
    ("message", VObj [("type", VStr "string"); ("example", VStr "Service Unavailable")])])])].

Definition v3_definitions_events : list (string * val) := [
  ("events", VObj [
   ("type", VStr "object");
   ("required", VArr [VStr "id"; VStr "module"; VStr "name"; VStr "data"; VStr "topics"; VStr "index"; VStr "block"]);
   ("properties", VObj [
    ("id", VObj [
     ("type", VStr "string");
     ("example", VStr "382b22c19980774b3c53504fd2e82995cec1354534051d50e48dd537db964a73");
     ("description", VStr "Event ID.")]);
    ("module", VObj [
     ("type", VStr "string");
     ("example", VStr "dynamicReward");
     ("description", VStr "The registered module that emitted this particular event.")]);
    ("name", VObj [
     ("type", VStr "string");
     ("example", VStr "rewardMinted");
     ("description", VStr "Name of the reward. It can used to identify the type of the event.")]);
    ("data", VObj [
     ("type", VStr "object");
     ("description", VStr "The data contained within the emitted event. This varies based on the `module` and `name` properties.");
     ("properties", VObj [
      ("amount", VObj [("type", VStr "string"); ("example", VStr "100000000")]);
      ("reduction", VObj [("type", VStr "integer"); ("example", VNum 0)])])]);
    ("topics", VObj [
     ("type", VStr "array");
     ("description", VStr "The list of topic that the data is related to within the emitted event. The number and order of the topics vary based on the `module` and `name` properties.");
     ("items", VObj [("type", VStr "string")]);
     ("example", VArr [VStr "03"; VStr "lsksod8bj35gmndy94yehxm25nybg5os6ycysejsm"])]);
    ("index", VObj [
     ("type", VStr "number");
     ("description", VStr "Index of this particular event within the list of events in the block.");
     ("example", VNum 0)]);
    ("block", VObj [
     ("type", VStr "object");
     ("required", VArr [VStr "id"; VStr "height"; VStr "timestamp"]);
     ("properties", VObj [
      ("id", VObj [
       ("type", VStr "string");
       ("format", VStr "id");
       ("minLength", VNum 1);
       ("maxLength", VNum 64);
       ("example", VStr "01967dba384998026fe028119bd099ecf073c05c045381500a93d1a7c7307e5b");
       ("description", VStr "Unique identifier of the block.
Derived from the block signature.")]);
      ("height", VObj [
       ("type", VStr "integer");
       ("minimum", VNum 1);
       ("example", VNum 8350681);
       ("description", VStr "The height of the block in which the transaction was included.")]);
      ("timestamp", VObj [
       ("type", VStr "integer");
       ("example", VNum 1613323667);
       ("description", VStr "UNIX Timestamp indicating the time of block generation.")])])])])]);
  ("eventsWithEnvelope", VObj [
   ("type", VStr "object");
   ("required", VArr [VStr "data"; VStr "meta"]);
   ("properties", VObj [
    ("data", VObj [
     ("description", VStr "List of events.");
     ("type", VStr "array");
     ("items", VObj [("$ref", VStr "#/definitions/events")])]);
    ("meta", VObj [("$ref", VStr "#/definitions/pagination")])])])].

Definition v3_definitions_fees : list (string * val) := [
  ("FeeEstimateEnvelope", VObj [
   ("type", VStr "object");
   ("required", VArr [VStr "data"; VStr "meta"]);
   ("properties", VObj [
    ("data", VObj [
     ("type", VStr "object");
     ("description", VStr "Number of items returned in the request.");
     ("properties", VObj [
      ("feeEstimatePerByte", VObj [
       ("type", VStr "object");
       ("description", VStr "Estimated fees per byte based on priority.");
       ("properties", VObj [
        ("low", VObj [("type", VStr "integer"); ("description", VStr "low estimated fees."); ("example", VNum 0)]);
        ("medium", VObj [
         ("type", VStr "integer");
         ("description", VStr "medium estimated fees.");
         ("example", VNum 1000)]);
        ("high", VObj [("type", VStr "integer"); ("description", VStr "high estimated fees."); ("example", VNum 2000)])])]);
      ("feeTokenID", VObj [
       ("type", VStr "string");
       ("description", VStr "ID of the token used to pay transaction fee.");
       ("example", VStr "0000000000000000")]);
      ("minFeePerByte", VObj [("type", VStr "integer"); ("example", VNum 1000)])])]);
    ("meta", VObj [
     ("type", VStr "object");
     ("required", VArr [VStr "lastUpdate"; VStr "lastBlockHeight"; VStr "lastBlockID"]);
     ("properties", VObj [
      ("lastUpdate", VObj [
       ("type", VStr "integer");
       ("example", VNum 1616008148);
       ("description", VStr "Timestamp of the block for which the estimates were last calculated.")]);
      ("lastBlockHeight", VObj [
       ("type", VStr "integer");
       ("example", VNum 25);
       ("description", VStr "Height of the block for which the estimates were last calculated.")]);
      ("lastBlockID", VObj [
       ("type", VStr "string");
       ("example", VStr "01967dba384998026fe028119bd099ecf073c05c045381500a93d1a7c7307e5b");
       ("description", VStr "ID of the block for which the estimates were last calculated.")])])])])])].

Definition v3_definitions_generators : list (string * val) := [
  ("generators", VObj [
   ("type", VStr "object");
   ("properties", VObj [
    ("address", VObj [
     ("type", VStr "string");
     ("format", VStr "address");
     ("example", VStr "lskdwsyfmcko6mcd357446yatromr9vzgu7eb8y99");
     ("description", VStr "The Lisk Address is the human-readable representation of a blockchain account.
It is 41 character long identifier that begins with `lsk`.")]);
    ("name", VObj [("type", VStr "string"); ("example", VStr "genesis_84"); ("description", VStr "Generator name.")]);
    ("publicKey", VObj [
     ("type", VStr "string");
     ("format", VStr "publicKey");
     ("example", VStr "b1d6bc6c7edd0673f5fed0681b73de6eb70539c21278b300f07ade277e1962cd");
     ("description", VStr "The public key is derived from the private key of the owner of the account.
It can be used to validate that the private key belongs to the owner, but not provide access to the owner's private key.")]);
    ("nextAllocatedTime", VObj [("type", VStr "integer"); ("example", VNum 1616058987); ("description", VStr "UNIX Timestamp.")]);
    ("status", VObj [("type", VStr "string"); ("example", VStr "active"); ("description", VStr "Validator status.")])])]);
  ("generatorsWithEnvelope", VObj [
   ("type", VStr "object");
   ("required", VArr [VStr "data"; VStr "meta"]);
   ("properties", VObj [
    ("data", VObj [
     ("description", VStr "List of generators");
     ("type", VStr "array");
     ("items", VObj [("$ref", VStr "#/definitions/generators")])]);
    ("meta", VObj [("$ref", VStr "#/definitions/pagination")])])])].

Definition v3_definitions_indexStatus : list (string * val) := [
  ("IndexStatus", VObj [
   ("type", VStr "object");
   ("required", VArr [VStr "data"; VStr "meta"]);
   ("properties", VObj [
    ("data", VObj [
     ("type", VStr "object");
     ("description", VStr "Number of items returned in the request.");
     ("properties", VObj [
      ("genesisHeight", VObj [
       ("type", VStr "number");
       ("example", VStr "0");
       ("description", VStr "Height of the genesis block.")]);
      ("lastBlockHeight", VObj [("type", VStr "number"); ("example", VNum 2330); ("description", VStr "Latest block height.")]);
      ("lastIndexedBlockHeight", VObj [
       ("type", VStr "number");
       ("example", VNum 2330);
       ("description", VStr "Latest block height indexed.")]);
      ("chainLength", VObj [
       ("type", VStr "number");
       ("example", VNum 2331);
       ("description", VStr "Number of blocks in the chain.")]);
      ("numBlocksIndexed", VObj [
       ("type", VStr "number");
       ("example", VNum 2330);
       ("minimum", VNum 0);
       ("description", VStr "Number of blocks currently indexed.")]);
      ("percentageIndexed", VObj [
       ("type", VStr "number");
       ("example", VFlt (S754_finite false 7034059667999293 (-46)));
       ("minimum", VNum 0);
       ("description", VStr "Percentage of blocks indexed.")]);
      ("isIndexingInProgress", VObj [
       ("type", VStr "boolean");
       ("example", VBool true);
       ("description", VStr "A boolean flag indicating if the indexing process is currently under progress.")])])]);
    ("meta", VObj [
     ("type", VStr "object");
     ("required", VArr [VStr "lastUpdate"]);
     ("properties", VObj [
      ("lastUpdate", VObj [
       ("type", VStr "number");
       ("example", VNum 1632471013);
       ("description", VStr "Last status update timestamp.")])])])])])].

Definition v3_definitions_invoke : list (string * val) := [
  ("invokeWithEnvelope", VObj [
   ("type", VStr "object");
   ("required", VArr [VStr "data"; VStr "meta"]);
   ("properties", VObj [
    ("data", VObj [
     ("type", VStr "object");
     ("properties", VObj [
      ("header", VObj [
       ("type", VStr "object");
       ("properties", VObj [
        ("id", VObj [
         ("type", VStr "string");
         ("format", VStr "id");
         ("minLength", VNum 1);
         ("maxLength", VNum 64);
         ("example", VStr "01967dba384998026fe028119bd099ecf073c05c045381500a93d1a7c7307e5b");
         ("description", VStr "Unique identifier of the block.
Derived from the block signature.")]);
        ("version", VObj [
         ("type", VStr "integer");
         ("example", VNum 0);
         ("minimum", VNum 0);
         ("description", VStr "Lisk protocol version to which this block adheres to.")]);
        ("height", VObj [
         ("type", VStr "integer");
         ("example", VNum 8344448);
         ("minimum", VNum 1);
         ("description", VStr "Height of the network, when the block got forged.
The height of the networks represents the number of blocks, that have been forged on the network since Genesis Block.")]);
        ("timestamp", VObj [("type", VStr "integer"); ("example", VNum 85944650); ("description", VStr "UNIX Timestamp")]);
        ("previousBlockId", VObj [
         ("type", VStr "string");
         ("format", VStr "id");
         ("example", VStr "827080df7829cd2757501a85f80a0767fcb40615304b701c2890dbbaf214bb89");
         ("description", VStr "ID of the parent block.")]);
        ("generatorAddress", VObj [
         ("type", VStr "string");
         ("example", VStr "cd56330913e4517f35cf689e849f5c208ed48b8e");
         ("description", VStr "Binary address of the block generator.")]);
        ("transactionRoot", VObj [
         ("type", VStr "string");
         ("format", VStr "hex");
         ("example", VStr "e3b0c44298fc1c149afbf4c8996fb92427ae41e4649b934ca495991b7852b855");
         ("description", VStr "Merkle root of the block payload.
The block payload comprises the transactions contained within the block.")]);
        ("assetsRoot", VObj [
         ("type", VStr "string");
         ("example", VStr "6e904b2f678eb3b6c3042acb188a607d903d441d61508d047fe36b3c982995c8");
         ("description", VStr "Merkle root of the block assets array.")]);
        ("stateRoot", VObj [
         ("type", VStr "string");
         ("example", VStr "95d9b1773b78034b8df9ac741c903b881da761d8ba002a939de28a4b86982c04");
         ("description", VStr "The root of the sparse Merkle tree that is computed from the state of the blockchain.")]);
        ("maxHeightGenerated", VObj [("type", VStr "integer"); ("example", VNum 559421)]);
        ("maxHeightPrevoted", VObj [("type", VStr "integer"); ("example", VNum 559434)]);
        ("validatorsHash", VObj [
         ("type", VStr "string");
         ("example", VStr "ad0076aa444f6cda608bb163c3bd77d9bf172f1d2803d53095bc0f277db6bcb3");
         ("description", VStr "Hash to authenticates the active set of validators")]);
        ("aggregateCommit", VObj [
         ("type", VStr "object");
         ("properties", VObj [
          ("height", VObj [("type", VStr "string"); ("example", VStr "166")]);
          ("aggregationBits", VObj [("type", VStr "string"); ("example", VStr "ffffffffffffffffffffffff1f")]);
          ("certificateSignature", VObj [
           ("type", VStr "string");
           ("example", VStr "a7db952f87db29718c40afca9a9fb2f6b605f8588c1c99e41e92f26ec005e6d14327c33051fa383fe903b7040d16c7441570167a73d9468aa16a6720c765b3f22aeca42102c45b4616fd7543d7a0649e0fa934e0de1973486eede9d56f014f9f")])])]);
        ("signature", VObj [
         ("type", VStr "string");
         ("format", VStr "signature");
         ("example", VStr "a3733254aad600fa787d6223002278c3400be5e8ed4763ae27f9a15b80e20c22ac9259dc926f4f4cabdf0e4f8cec49308fa8296d71c288f56b9d1e11dfe81e07");
         ("description", VStr "Derived from a SHA-256 hash of the block header,
that is signed by the private key of the validator who forged the block.")])])]);
      ("assets", VObj [("type", VStr "array"); ("items", VObj [("$ref", VStr "#/definitions/assets")])]);
      ("transactions", VObj [("type", VStr "array"); ("items", VObj [("$ref", VStr "#/definitions/transactions")])])])]);
    ("meta", VObj [
     ("type", VStr "object");
     ("properties", VObj [
      ("endpoint", VObj [("type", VStr "string"); ("example", VStr "chain_getBlockByHeight")]);
      ("params", VObj [
       ("type", VStr "object");
       ("properties", VObj [("height", VObj [("type", VStr "integer"); ("example", VNum 10)])])])])])])]);
  ("assets", VObj [
   ("type", VStr "object");
   ("properties", VObj [
    ("module", VObj [
     ("type", VStr "string");
     ("example", VStr "token");
     ("description", VStr "Module the transaction is associated with.")]);
    ("data", VObj [
     ("type", VStr "string");
     ("example", VStr "0a14e135813f51103e7645ed87a0562a823d2fd48bc612207eef331c6d58f3962f5fb35b13f780f0ee7d93fbc37a3e9f4ccbdc6d1551db801a303629827aaa0836111137215708fd2007e9221ca1d56b29b98d8e9747ec3243c0549dc2091515d2bdd72fb28acef50160")])])]);
  ("transactions", VObj [
   ("type", VStr "object");
   ("properties", VObj [
    ("module", VObj [
     ("type", VStr "string");
     ("example", VStr "token");
     ("description", VStr "Module the transaction is associated with.")]);
    ("command", VObj [
     ("type", VStr "string");
     ("example", VStr "transfer");
     ("description", VStr "Command the transaction is associated with.")]);
    ("nonce", VObj [("type", VStr "string"); ("example", VStr "0")]);
    ("fee", VObj [
     ("type", VStr "string");
     ("example", VStr "1000000");
     ("description", VStr "Transaction fee associated with this transaction.")]);
    ("senderPublicKey", VObj [
     ("type", VStr "string");
     ("format", VStr "senderPublicKey");
     ("example", VStr "b1d6bc6c7edd0673f5fed0681b73de6eb70539c21278b300f07ade277e1962cd");
     ("description", VStr "The public key is derived from the private key of the owner of the account.
It can be used to validate that the private key belongs to the owner, but not provide access to the owner's private key.")]);
    ("params", VObj [
     ("type", VStr "object");
     ("properties", VObj [
      ("amount", VObj [
       ("type", VStr "string");
       ("example", VStr "100003490");
       ("description", VStr "Amount of Lisk (in Beddows) to be transferred in this transaction.")]);
      ("recipientAddress", VObj [
       ("type", VStr "string");
       ("example", VStr "0f16f2cd587679d5fd686584b5018d4f844348ac");
       ("description", VStr "Lisk base32 address.")]);
      ("data", VObj [("type", VStr "string"); ("example", VStr "test")])])])])]);
  ("invokeParamsEnvelope", VObj [
   ("type", VStr "object");
   ("properties", VObj [
    ("endpoint", VObj [("type", VStr "string"); ("example", VStr "chain_getBlockByHeight")]);
    ("params", VObj [
     ("type", VStr "object");
     ("properties", VObj [("height", VObj [("type", VStr "integer"); ("example", VNum 10)])])])])])].

Definition v3_definitions_legacyAccount : list (string * val) := [
  ("legacyAccountWithEnvelope", VObj [
   ("type", VStr "object");
   ("required", VArr [VStr "data"; VStr "meta"]);
   ("properties", VObj [
    ("data", VObj [
     ("type", VStr "object");
     ("description", VStr "Legacy balance information for a given public key.");
     ("properties", VObj [
      ("legacyAddress", VObj [
       ("type", VStr "string");
       ("format", VStr "address");
       ("example", VStr "3057001998458191401L");
       ("description", VStr "Lisk account address (Legacy address)")]);
      ("balance", VObj [
       ("type", VStr "string");
       ("example", VStr "10000000");
       ("description", VStr "Legacy account balance")])])]);
    ("meta", VObj [
     ("type", VStr "object");
     ("required", VArr [VStr "address"; VStr "publicKey"]);
     ("properties", VObj [
      ("address", VObj [
       ("type", VStr "string");
       ("format", VStr "address");
       ("example", VStr "lskdwsyfmcko6mcd357446yatromr9vzgu7eb8y99");
       ("description", VStr "The Lisk Address is the human-readable representation of a blockchain account.
It is 41 character long identifier that begins with `lsk`.")]);
      ("publicKey", VObj [
       ("type", VStr "string");
       ("format", VStr "publicKey");
       ("example", VStr "b1d6bc6c7edd0673f5fed0681b73de6eb70539c21278b300f07ade277e1962cd")])])])])])].

Definition v3_definitions_market : list (string * val) := [
  ("market", VObj [
   ("type", VStr "object");
   ("required", VArr [VStr "code"; VStr "from"; VStr "rate"; VStr "to"; VStr "updateTimestamp"; VStr "sources"]);
   ("properties", VObj [
    ("code", VObj [("type", VStr "string"); ("example", VStr "LSK_CHF")]);
    ("from", VObj [("type", VStr "string"); ("example", VStr "LSK"); ("description", VStr "from")]);
    ("rate", VObj [("type", VStr "string"); ("example", VStr "2.4058"); ("description", VStr "Current rate")]);
    ("to", VObj [("type", VStr "string"); ("example", VStr "CHF"); ("description", VStr "to")]);
    ("sources", VObj [("type", VStr "array"); ("items", VObj [("type", VStr "string"); ("example", VStr "kraken")])]);
    ("updateTimestamp", VObj [
     ("type", VStr "integer");
     ("example", VNum 1623053809);
     ("description", VStr "Last updated timestamp.")])])]);
  ("MarketPricesWithEnvelope", VObj [
   ("type", VStr "object");
   ("required", VArr [VStr "data"; VStr "meta"]);
   ("properties", VObj [
    ("data", VObj [
     ("description", VStr "Market price by currency pairs");
     ("type", VStr "array");
     ("items", VObj [("$ref", VStr "#/definitions/market")])]);
    ("meta", VObj [
     ("type", VStr "object");
     ("required", VArr [VStr "count"]);
     ("properties", VObj [("count", VObj [("type", VStr "integer"); ("example", VNum 1); ("description", VStr "count")])])])])])].

Definition v3_definitions_meta : list (string * val) := [
  ("pagination", VObj [
   ("type", VStr "object");
   ("required", VArr [VStr "count"; VStr "offset"]);
   ("properties", VObj [
    ("count", VObj [
     ("type", VStr "integer");
     ("example", VNum 10);
     ("minimum", VNum 0);
     ("description", VStr "Number of items returned in the request.")]);
    ("offset", VObj [
     ("type", VStr "integer");
     ("example", VNum 10);
     ("minimum", VNum 0);
     ("description", VStr "Number of items skipped in the response.")]);
    ("total", VObj [
     ("type", VStr "integer");
     ("example", VNum 100);
     ("minimum", VNum 0);
     ("description", VStr "Number of items returned in the response.")])])])].

Definition v3_definitions_networkStatistics : list (string * val) := [
  ("NetworkStatistics", VObj [
   ("type", VStr "object");
   ("required", VArr [VStr "data"; VStr "meta"]);
   ("properties", VObj [
    ("data", VObj [
     ("type", VStr "object");
     ("description", VStr "Network statistics information.");
     ("properties", VObj [
      ("basic", VObj [
       ("type", VStr "object");
       ("properties", VObj [
        ("connectedPeers", VObj [
         ("type", VStr "integer");
         ("description", VStr "Number of connected peers");
         ("example", VNum 134)]);
        ("disconnectedPeers", VObj [
         ("type", VStr "integer");
         ("description", VStr "Number of disconnected peers");
         ("example", VNum 48)]);
        ("totalPeers", VObj [("type", VStr "integer"); ("description", VStr "Total number of peers"); ("example", VNum 181)])])]);
      ("height", VObj [
       ("type", VStr "object");
       ("description", VStr "Number of nodes at the given height.");
       ("properties", VObj [("7982598", VObj [("type", VStr "integer"); ("example", VNum 24)])])]);
      ("networkVersion", VObj [
       ("type", VStr "object");
       ("description", VStr "Number of nodes on the given Lisk Core network versions.");
       ("properties", VObj [
        ("2.0", VObj [("type", VStr "integer"); ("example", VNum 12)]);
        ("2.1", VObj [("type", VStr "integer"); ("example", VNum 41)])])]);
      ("totalLocked", VObj [
       ("type", VStr "array");
       ("description", VStr "An array representing total of locked tokens.");
       ("items", VObj [("$ref", VStr "#/definitions/AmountEntry")])]);
      ("totalStaked", VObj [
       ("description", VStr "An object representing total staked amount for the PoS token ID.");
       ("$ref", VStr "#/definitions/AmountEntry")]);
      ("totalSelfStaked", VObj [
       ("description", VStr "An object representing total self staked amount for the PoS token ID.");
       ("$ref", VStr "#/definitions/AmountEntry")])])]);
    ("meta", VObj [("type", VStr "object")])])]);
  ("AmountEntry", VObj [
   ("type", VStr "object");
   ("properties", VObj [
    ("tokenID", VObj [
     ("type", VStr "string");
     ("description", VStr "Universal ID of the token.");
     ("example", VStr "0000000000000000")]);
    ("amount", VObj [
     ("type", VStr "string");
     ("description", VStr "Amount of total token.");
     ("example", VStr "10000000000")])])])].

Definition v3_definitions_networkStatus : list (string * val) := [
  ("NetworkStatus", VObj [
   ("type", VStr "object");
   ("required", VArr [VStr "data"; VStr "meta"]);
   ("properties", VObj [
    ("data", VObj [
     ("type", VStr "object");
     ("description", VStr "Number of items returned in the request.");
     ("properties", VObj [
      ("version", VObj [
       ("type", VStr "string");
       ("format", VStr "App version");
       ("example", VStr "4.0.0");
       ("description", VStr "Current application version.")]);
      ("networkVersion", VObj [
       ("type", VStr "string");
       ("format", VStr "networkVersion");
       ("example", VStr "3.0");
       ("description", VStr "Current network version.")]);
      ("chainID", VObj [
       ("type", VStr "string");
       ("example", VStr "00000000");
       ("description", VStr "Chain ID of the blockchain application.")]);
      ("lastBlockID", VObj [
       ("type", VStr "string");
       ("format", VStr "id");
       ("minLength", VNum 1);
       ("maxLength", VNum 64);
       ("example", VStr "01967dba384998026fe028119bd099ecf073c05c045381500a93d1a7c7307e5b");
       ("description", VStr "Current block ID")]);
      ("height", VObj [
       ("type", VStr "integer");
       ("example", VNum 16550779);
       ("minimum", VNum 0);
       ("description", VStr "Current block height.")]);
      ("finalizedHeight", VObj [
       ("type", VStr "integer");
       ("example", VNum 16550609);
       ("minimum", VNum 0);
       ("description", VStr "Last finalized block height.")]);
      ("syncing", VObj [("type", VStr "boolean"); ("example", VStr "true")]);
      ("unconfirmedTransactions", VObj [
       ("type", VStr "integer");
       ("example", VNum 0);
       ("description", VStr "Unconfirmed transactions count.")]);
      ("genesis", VObj [
       ("type", VStr "object");
       ("properties", VObj [
        ("block", VObj [
         ("type", VStr "object");
         ("properties", VObj [("fromFile", VObj [("type", VStr "string"); ("example", VStr "./config/genesis_block.blob")])])]);
        ("blockTime", VObj [("type", VStr "integer"); ("example", VNum 10)]);
        ("chainID", VObj [
         ("type", VStr "string");
         ("minLength", VNum 8);
         ("maxLength", VNum 8);
         ("example", VStr "00000000")]);
        ("maxTransactionsSize", VObj [("type", VStr "integer"); ("example", VNum 15360)]);
        ("bftBatchSize", VObj [("type", VStr "integer"); ("example", VNum 10)])])]);
      ("registeredModules", VObj [
       ("type", VStr "array");
       ("items", VObj [("type", VStr "string"); ("description", VStr "List of all the current registered modules.")]);
       ("example", VArr [
        VStr "token";
        VStr "reward";
        VStr "validators";
        VStr "auth";
        VStr "pos";
        VStr "fee";
        VStr "random";
        VStr "legacy";
        VStr "interoperability"])]);
      ("moduleCommands", VObj [
       ("type", VStr "array");
       ("items", VObj [
        ("type", VStr "string");
        ("description", VStr "List of all current supported transaction types.")]);
       ("example", VArr [
        VStr "auth:registerMultisignature";
        VStr "interoperability:submitMainchainCrossChainUpdate";
        VStr "interoperability:initializeMessageRecovery";
        VStr "interoperability:recoverMessage";
        VStr "interoperability:registerSidechain";
        VStr "interoperability:recoverState";
        VStr "interoperability:terminateSidechainForLiveness";
        VStr "legacy:reclaimLSK";
        VStr "legacy:registerKeys";
        VStr "pos:registerValidator";
        VStr "pos:reportMisbehavior";
        VStr "pos:unlock";
        VStr "pos:updateGeneratorKey";
        VStr "pos:stake";
        VStr "pos:changeCommission";
        VStr "pos:claimRewards";
        VStr "token:transfer";
        VStr "token:transferCrossChain"])]);
      ("network", VObj [
       ("type", VStr "object");
       ("properties", VObj [
        ("version", VObj [("type", VStr "string"); ("example", VStr "1.0")]);
        ("port", VObj [("type", VStr "integer"); ("example", VNum 10)]);
        ("seedPeers", VObj [
         ("type", VStr "array");
         ("items", VObj [("example", VObj [("ip", VStr "127.0.0.1"); ("port", VNum 7667)])])])])])])]);
    ("meta", VObj [
     ("type", VStr "object");
     ("required", VArr [VStr "lastUpdate"; VStr "lastBlockHeight"; VStr "lastBlockID"]);
     ("properties", VObj [
      ("lastUpdate", VObj [
       ("type", VStr "string");
       ("example", VStr "1632471013");
       ("description", VStr "Current timestamp.")]);
      ("lastBlockHeight", VObj [
       ("type", VStr "integer");
       ("example", VNum 16550779);
       ("description", VStr "Height of the current block.")]);
      ("lastBlockID", VObj [
       ("type", VStr "string");
       ("example", VStr "6266b07d18ef072896b79110a59fab4b0635796e870dba1783b21e296aaac36f");
       ("description", VStr "ID of the current block.")])])])])])].

Definition v3_definitions_peers : list (string * val) := [
  ("Peer", VObj [
   ("type", VStr "object");
   ("required", VArr [VStr "wsPort"; VStr "state"]);
   ("properties", VObj [
    ("ip", VObj [
     ("type", VStr "string");
     ("example", VStr "127.0.0.1");
     ("format", VStr "ip");
     ("description", VStr "IPv4 address of the peer node.")]);
    ("port", VObj [
     ("type", VStr "integer");
     ("example", VStr "4000");
     ("format", VStr "port");
     ("description", VStr "Port of the peer node.")]);
    ("networkVersion", VObj [
     ("type", VStr "string");
     ("example", VStr "2.0");
     ("format", VStr "networkVersion");
     ("description", VStr "Network version of Lisk Core that the peer node runs on.")]);
    ("chainID", VObj [
     ("type", VStr "string");
     ("format", VStr "id");
     ("minLength", VNum 8);
     ("maxLength", VNum 8);
     ("example", VStr "00000000");
     ("description", VStr "Chain ID of the blockchain application.")]);
    ("state", VObj [
     ("type", VStr "string");
     ("example", VStr "connected");
     ("description", VStr "The state of the Peer.
Available values: Connected, Disconnected.")]);
    ("height", VObj [
     ("type", VStr "integer");
     ("minimum", VNum 1);
     ("example", VNum 8350681);
     ("description", VStr "Network height on the peer node.
Represents the current number of blocks in the chain on the peer node.")]);
    ("location", VObj [("$ref", VStr "#/definitions/Location")])])]);
  ("PeersWithEnvelope", VObj [
   ("type", VStr "object");
   ("required", VArr [VStr "data"; VStr "meta"]);
   ("properties", VObj [
    ("data", VObj [
     ("description", VStr "List of peers.");
     ("type", VStr "array");
     ("items", VObj [("$ref", VStr "#/definitions/Peer")])]);
    ("meta", VObj [("$ref", VStr "#/definitions/pagination")])])]);
  ("Location", VObj [
   ("type", VStr "object");
   ("properties", VObj [
    ("countryCode", VObj [("type", VStr "string"); ("example", VStr "DE"); ("description", VStr "ISO 3166-1 country code.")]);
    ("countryName", VObj [("example", VStr "Germany"); ("description", VStr "Name of the country.")]);
    ("hostname", VObj [
     ("type", VStr "string");
     ("example", VStr "host.210.239.23.62.rev.coltfrance.com");
     ("description", VStr "Hostname associated with the node's IP.")]);
    ("ip", VObj [("example", VStr "210.239.23.62"); ("description", VStr "Node's IP address.")]);
    ("latitude", VObj [
     ("type", VStr "string");
     ("example", VStr "48.8323");
     ("description", VStr "Latitude coordinate of the peer node.")]);
    ("longitude", VObj [
     ("type", VStr "string");
     ("example", VStr "2.4075");
     ("description", VStr "Longitude coordinate of the peer node.")])])])].

Definition v3_definitions_pos : list (string * val) := [
  ("validator", VObj [
   ("type", VStr "object");
   ("required", VArr [
    VStr "name";
    VStr "totalStake";
    VStr "selfStake";
    VStr "validatorWeight";
    VStr "address";
    VStr "lastGeneratedHeight";
    VStr "status";
    VStr "isBanned";
    VStr "reportMisbehaviorHeights";
    VStr "punishmentPeriods";
    VStr "consecutiveMissedBlocks";
    VStr "commission";
    VStr "lastCommissionIncreaseHeight";
    VStr "sharingCoefficients";
    VStr "rank"]);
   ("properties", VObj [
    ("name", VObj [("type", VStr "string"); ("example", VStr "genesis_84"); ("description", VStr "Validator name.")]);
    ("totalStake", VObj [
     ("type", VStr "string");
     ("example", VStr "109000000000");
     ("description", VStr "Total stakes received in `posTokenID`.")]);
    ("selfStake", VObj [
     ("type", VStr "string");
     ("example", VStr "109000000000");
     ("description", VStr "Self stakes in `posTokenID`.")]);
    ("validatorWeight", VObj [
     ("type", VStr "string");
     ("example", VStr "109000000000");
     ("description", VStr "Validator weight. Minimum of (10 * selfStake) or totalStake.")]);
    ("address", VObj [
     ("type", VStr "string");
     ("format", VStr "address");
     ("example", VStr "lskdwsyfmcko6mcd357446yatromr9vzgu7eb8y99");
     ("description", VStr "The Lisk Address is the human-readable representation of a blockchain account.
It is 41 character long identifier that begins with `lsk`.")]);
    ("publicKey", VObj [
     ("type", VStr "string");
     ("format", VStr "publicKey");
     ("example", VStr "b1d6bc6c7edd0673f5fed0681b73de6eb70539c21278b300f07ade277e1962cd");
     ("description", VStr "The public key is derived from the private key of the owner of the account.
It can be used to validate that the private key belongs to the owner, but not provide access to the owner's private key.")]);
    ("lastGeneratedHeight", VObj [
     ("type", VStr "integer");
     ("example", VNum 0);
     ("description", VStr "Height of the last generated block. Set to `0` by default.")]);
    ("status", VObj [
     ("type", VStr "string");
     ("example", VStr "active");
     ("description", VStr "Validator status. Can be one of: active, standby, banned, punished, ineligible.")]);
    ("isBanned", VObj [
     ("type", VStr "boolean");
     ("example", VBool false);
     ("description", VStr "A boolean flag indicating if the validator is banned.")]);
    ("reportMisbehaviorHeights", VObj [("type", VStr "array"); ("items", VObj [("type", VStr "number"); ("example", VNum 123)])]);
    ("punishmentPeriods", VObj [
     ("type", VStr "array");
     ("items", VObj [
      ("type", VStr "object");
      ("properties", VObj [
       ("start", VObj [
        ("type", VStr "integer");
        ("example", VNum 123);
        ("description", VStr "Punishment starting height. Corresponds to the entries in pomHeights.")]);
       ("end", VObj [
        ("type", VStr "integer");
        ("example", VNum 260123);
        ("description", VStr "The corresponding punishment end height.")])])])]);
    ("consecutiveMissedBlocks", VObj [
     ("type", VStr "integer");
     ("example", VNum 0);
     ("description", VStr "Number of consecutive missed blocks.")]);
    ("commission", VObj [
     ("type", VStr "number");
     ("example", VNum 100000);
     ("description", VStr "The reward commission. The percentage is obtained by dividing this value by 100, i.e., a value of 10000 corresponds to 100%. It is set to 10000 on the Lisk Mainchain during the migration.")]);
    ("lastCommissionIncreaseHeight", VObj [
     ("type", VStr "number");
     ("example", VNum 0);
     ("description", VStr "The block height at which the validator last modified their commission.")]);
    ("sharingCoefficients", VObj [
     ("type", VStr "array");
     ("items", VObj [
      ("type", VStr "object");
      ("properties", VObj [
       ("tokenID", VObj [("type", VStr "string"); ("example", VStr "0000000000000000"); ("description", VStr "TokenID.")]);
       ("coefficient", VObj [
        ("type", VStr "string");
        ("example", VStr "");
        ("description", VStr "Sharing coefficient for the specified TokenID for all the outgoing stakes.")])])])]);
    ("rank", VObj [("type", VStr "integer"); ("example", VNum 93); ("description", VStr "Validator rank.")]);
    ("generatedBlocks", VObj [
     ("type", VStr "integer");
     ("example", VNum 1000);
     ("description", VStr "Number of blocks generated by the validator.")]);
    ("totalCommission", VObj [
     ("type", VStr "string");
     ("example", VStr "100000000000");
     ("description", VStr "Total rewards earned by the validator as commission for generating blocks.")]);
    ("totalSelfStakeRewards", VObj [
     ("type", VStr "string");
     ("example", VStr "0");
     ("description", VStr "Total rewards earned by the validator as a staker based on their self-stake when generating blocks.")]);
    ("earnedRewards", VObj [
     ("type", VStr "string");
     ("example", VStr "100000000000");
     ("description", VStr "Total rewards earned by the validator.")])])]);
  ("validatorsWithEnvelope", VObj [
   ("type", VStr "object");
   ("required", VArr [VStr "data"; VStr "meta"]);
   ("properties", VObj [
    ("data", VObj [
     ("description", VStr "List of validators.");
     ("type", VStr "array");
     ("items", VObj [("$ref", VStr "#/definitions/validator")])]);
    ("meta", VObj [("$ref", VStr "#/definitions/pagination")])])]);
  ("unlock", VObj [
   ("type", VStr "object");
   ("required", VArr [VStr "address"; VStr "publicKey"; VStr "name"]);
   ("properties", VObj [
    ("address", VObj [
     ("type", VStr "string");
     ("format", VStr "address");
     ("example", VStr "lskdwsyfmcko6mcd357446yatromr9vzgu7eb8y99");
     ("description", VStr "The Lisk Address is the human-readable representation of a blockchain account.
It is 41 character long identifier that begins with `lsk`.")]);
    ("publicKey", VObj [
     ("type", VStr "string");
     ("format", VStr "publicKey");
     ("example", VStr "b1d6bc6c7edd0673f5fed0681b73de6eb70539c21278b300f07ade277e1962cd");
     ("description", VStr "The public key is derived from the private key of the owner of the account.
It can be used to validate that the private key belongs to the owner, but not provide access to the owner's private key.")]);
    ("name", VObj [
     ("type", VStr "string");
     ("example", VStr "genesis_84");
     ("description", VStr "Name of auth account.")]);
    ("unlocking", VObj [
     ("type", VStr "array");
     ("required", VArr [VStr "validatorAddress"; VStr "amount"; VStr "unvoteHeight"]);
     ("items", VObj [
      ("type", VStr "object");
      ("properties", VObj [
       ("validatorAddress", VObj [("type", VStr "string"); ("example", VStr "lsk24cd35u4jdq8szo3pnsqe5dsxwrnazyqqqg5eu")]);
       ("amount", VObj [("type", VStr "string"); ("example", VStr "10000")]);
       ("unvoteHeight", VObj [
        ("type", VStr "object");
        ("required", VArr [VStr "start"; VStr "end"]);
        ("properties", VObj [
         ("start", VObj [("type", VStr "integer"); ("example", VNum 30)]);
         ("end", VObj [("type", VStr "integer"); ("example", VNum 300)])])])])])])])]);
  ("unlocksWithEnvelope", VObj [
   ("type", VStr "object");
   ("required", VArr [VStr "data"; VStr "meta"]);
   ("properties", VObj [
    ("data", VObj [
     ("description", VStr "List of validator unlocks.");
     ("type", VStr "array");
     ("items", VObj [("$ref", VStr "#/definitions/unlock")])]);
    ("meta", VObj [("$ref", VStr "#/definitions/pagination")])])]);
  ("posUnlock", VObj [
   ("type", VStr "object");
   ("required", VArr [VStr "address"; VStr "publicKey"; VStr "pendingUnlocks"]);
   ("properties", VObj [
    ("address", VObj [
     ("type", VStr "string");
     ("format", VStr "address");
     ("example", VStr "lskdwsyfmcko6mcd357446yatromr9vzgu7eb8y99");
     ("description", VStr "Address of the staker. The Lisk Address is the human-readable representation of a blockchain account.
It is 41 character long identifier that begins with `lsk`.")]);
    ("publicKey", VObj [
     ("type", VStr "string");
     ("format", VStr "publicKey");
     ("example", VStr "b1d6bc6c7edd0673f5fed0681b73de6eb70539c21278b300f07ade277e1962cd");
     ("description", VStr "Public key of the staker. The public key is derived from the private key of the owner of the account.
It can be used to validate that the private key belongs to the owner, but not provide access to the owner's private key.")]);
    ("name", VObj [
     ("type", VStr "string");
     ("example", VStr "genesis_84");
     ("description", VStr "Name of the staker.")]);
    ("pendingUnlocks", VObj [
     ("type", VStr "array");
     ("items", VObj [
      ("type", VStr "object");
      ("required", VArr [
       VStr "validatorAddress";
       VStr "amount";
       VStr "tokenID";
       VStr "unstakeHeight";
       VStr "expectedUnlockableHeight";
       VStr "isLocked"]);
      ("properties", VObj [
       ("validatorAddress", VObj [
        ("type", VStr "string");
        ("example", VStr "lsk24cd35u4jdq8szo3pnsqe5dsxwrnazyqqqg5eu");
        ("description", VStr "Address of the validator against whom the stake was made.")]);
       ("amount", VObj [
        ("type", VStr "string");
        ("example", VStr "1000000000");
        ("description", VStr "The staked amount of tokens against the validator.")]);
       ("tokenID", VObj [
        ("type", VStr "string");
        ("example", VStr "0000000000000000");
        ("description", VStr "The universal identifier for the token within the Lisk ecosystem for PoS module.")]);
       ("unstakeHeight", VObj [
        ("type", VStr "integer");
        ("example", VNum 10000);
        ("description", VStr "The block height at which the corresponding amount was unstaked.")]);
       ("expectedUnlockableHeight", VObj [
        ("type", VStr "integer");
        ("example", VNum 270000);
        ("description", VStr "The block height at which the corresponding unstaked (locked) amount is available to be unlocked.")]);
       ("isLocked", VObj [
        ("type", VStr "boolean");
        ("example", VBool true);
        ("description", VStr "A boolean flag indicating if the corresponding (previously) un-staked amount is available to be unlocked. When `isLocked: false`, the amount be unlocked with a `pos:unlock` transaction.")])])])])])]);
  ("posUnlocksWithEnvelope", VObj [
   ("type", VStr "object");
   ("required", VArr [VStr "data"; VStr "meta"]);
   ("properties", VObj [
    ("data", VObj [("description", VStr "Array of PoS unlocks data."); ("$ref", VStr "#/definitions/posUnlock")]);
    ("meta", VObj [("$ref", VStr "#/definitions/pagination")])])]);
  ("posStake", VObj [
   ("type", VStr "object");
   ("required", VArr [VStr "address"; VStr "amount"; VStr "name"]);
   ("properties", VObj [
    ("address", VObj [
     ("type", VStr "string");
     ("format", VStr "address");
     ("example", VStr "lskdwsyfmcko6mcd357446yatromr9vzgu7eb8y99");
     ("description", VStr "Address of the validator.")]);
    ("amount", VObj [
     ("type", VStr "string");
     ("example", VStr "10815000000000");
     ("description", VStr "Amount staked.")]);
    ("name", VObj [
     ("type", VStr "string");
     ("format", VStr "username");
     ("example", VStr "liskhq");
     ("description", VStr "Name of the validator against whom the stake was made.")])])]);
  ("posStakesMeta", VObj [
   ("type", VStr "object");
   ("required", VArr [VStr "staker"; VStr "count"]);
   ("properties", VObj [
    ("staker", VObj [
     ("type", VStr "object");
     ("properties", VObj [
      ("address", VObj [
       ("type", VStr "string");
       ("format", VStr "address");
       ("example", VStr "lskdwsyfmcko6mcd357446yatromr9vzgu7eb8y99");
       ("description", VStr "Address of the queried staker. The Lisk Address is the human-readable representation of a blockchain account.
It is 41 character long identifier that begins with `lsk`.")]);
      ("publicKey", VObj [
       ("type", VStr "string");
       ("format", VStr "publicKey");
       ("example", VStr "b1d6bc6c7edd0673f5fed0681b73de6eb70539c21278b300f07ade277e1962cd");
       ("description", VStr "Public key of the queried staker. The public key is derived from the private key of the owner of the account.
It can be used to validate that the private key belongs to the owner, but not provide access to the owner's private key.")]);
      ("name", VObj [
       ("type", VStr "string");
       ("example", VStr "genesis_84");
       ("description", VStr "Name of the queried staker. Available only when registered as a validator.")])])]);
    ("count", VObj [
     ("type", VStr "integer");
     ("example", VNum 10);
     ("minimum", VNum 0);
     ("maximum", VNum 10);
     ("description", VStr "Number of items returned in the request.")])])]);
  ("posStakesWithEnvelope", VObj [
   ("type", VStr "object");
   ("required", VArr [VStr "data"; VStr "meta"]);
   ("properties", VObj [
    ("data", VObj [
     ("description", VStr "List of stakes for the queried staker.");
     ("type", VStr "object");
     ("properties", VObj [
      ("stakes", VObj [("type", VStr "array"); ("items", VObj [("$ref", VStr "#/definitions/posStake")])])])]);
    ("meta", VObj [("$ref", VStr "#/definitions/posStakesMeta")])])]);
  ("posStaker", VObj [
   ("type", VStr "object");
   ("required", VArr [VStr "address"; VStr "amount"]);
   ("properties", VObj [
    ("address", VObj [
     ("type", VStr "string");
     ("format", VStr "address");
     ("example", VStr "lskdwsyfmcko6mcd357446yatromr9vzgu7eb8y99");
     ("description", VStr "Address of the staker.")]);
    ("amount", VObj [
     ("type", VStr "string");
     ("example", VStr "10815000000000");
     ("description", VStr "Amount staked.")]);
    ("name", VObj [
     ("type", VStr "string");
     ("format", VStr "username");
     ("example", VStr "liskhq");
     ("description", VStr "Name of the staker. Available only when registered as a validator.")])])]);
  ("posStakersMeta", VObj [
   ("type", VStr "object");
   ("required", VArr [VStr "validator"; VStr "count"; VStr "offset"; VStr "total"]);
   ("properties", VObj [
    ("validator", VObj [
     ("type", VStr "object");
     ("required", VArr [VStr "address"; VStr "publicKey"; VStr "name"]);
     ("properties", VObj [
      ("address", VObj [
       ("type", VStr "string");
       ("format", VStr "address");
       ("example", VStr "lskdwsyfmcko6mcd357446yatromr9vzgu7eb8y99");
       ("description", VStr "Address of the queried validator. The Lisk Address is the human-readable representation of a blockchain account.
It is 41 character long identifier that begins with `lsk`.")]);
      ("publicKey", VObj [
       ("type", VStr "string");
       ("format", VStr "publicKey");
       ("example", VStr "b1d6bc6c7edd0673f5fed0681b73de6eb70539c21278b300f07ade277e1962cd");
       ("description", VStr "Public key of the queried validator. The public key is derived from the private key of the owner of the account.
It can be used to validate that the private key belongs to the owner, but not provide access to the owner's private key.")]);
      ("name", VObj [
       ("type", VStr "string");
       ("example", VStr "genesis_84");
       ("description", VStr "Name of the queried validator.")])])]);
    ("count", VObj [
     ("type", VStr "integer");
     ("example", VNum 100);
     ("minimum", VNum 0);
     ("description", VStr "Number of items returned in the request.")]);
    ("offset", VObj [
     ("type", VStr "integer");
     ("example", VNum 25);
     ("minimum", VNum 0);
     ("description", VStr "Defines how many items are skipped.")]);
    ("total", VObj [
     ("type", VStr "integer");
     ("example", VNum 43749);
     ("minimum", VNum 0);
     ("description", VStr "Total number of items in the database.")])])]);
  ("posStakersWithEnvelope", VObj [
   ("type", VStr "object");
   ("required", VArr [VStr "data"; VStr "meta"]);
   ("properties", VObj [
    ("data", VObj [
     ("description", VStr "List of stakers for the queried validator.");
     ("type", VStr "object");
     ("required", VArr [VStr "stakers"]);
     ("properties", VObj [
      ("stakers", VObj [("type", VStr "array"); ("items", VObj [("$ref", VStr "#/definitions/posStaker")])])])]);
    ("meta", VObj [("$ref", VStr "#/definitions/posStakersMeta")])])]);
  ("posConstantsWithEnvelope", VObj [
   ("type", VStr "object");
   ("required", VArr [VStr "data"; VStr "meta"]);
   ("properties", VObj [
    ("data", VObj [
     ("description", VStr "PoS module constants.");
     ("type", VStr "object");
     ("required", VArr [
      VStr "factorSelfStakes";
      VStr "maxLengthName";
      VStr "maxNumberSentStakes";
      VStr "maxNumberPendingUnlocks";
      VStr "failSafeMissedBlocks";
      VStr "failSafeInactiveWindow";
      VStr "punishmentWindow";
      VStr "roundLength";
      VStr "minWeightStandby";
      VStr "numberActiveValidators";
      VStr "numberStandbyValidators";
      VStr "posTokenID";
      VStr "maxBFTWeightCap";
      VStr "commissionIncreasePeriod";
      VStr "maxCommissionIncreaseRate";
      VStr "extraCommandFees"]);
     ("properties", VObj [
      ("factorSelfStakes", VObj [
       ("type", VStr "integer");
       ("example", VNum 10);
       ("description", VStr "The factor multiplying the self-votes of a delegate for the delegate weight computation. It is used to set the ceiling for the delegate weight.")]);
      ("maxLengthName", VObj [
       ("type", VStr "integer");
       ("example", VNum 20);
       ("description", VStr "The maximum number of characters allowed for a delegate name.")]);
      ("maxNumberSentStakes", VObj [
       ("type", VStr "integer");
       ("example", VNum 10);
       ("description", VStr "The maximum number of validators any staker can stake for.")]);
      ("maxNumberPendingUnlocks", VObj [
       ("type", VStr "integer");
       ("example", VNum 20);
       ("description", VStr "The maximum number of pending unlocks allowed for a staker.")]);
      ("failSafeMissedBlocks", VObj [
       ("type", VStr "integer");
       ("example", VNum 50);
       ("description", VStr "The number of consecutive missed blocks used in the fail-safe banning mechanism.")]);
      ("failSafeInactiveWindow", VObj [
       ("type", VStr "integer");
       ("example", VNum 260000);
       ("description", VStr "The length of the inactivity window used in the fail-safe banning mechanism.")]);
      ("punishmentWindow", VObj [
       ("type", VStr "integer");
       ("example", VNum 780000);
       ("description", VStr "The punishment time for punished delegates.")]);
      ("roundLength", VObj [
       ("type", VStr "integer");
       ("example", VNum 10);
       ("description", VStr "The number of blocks in a round and is the sum total of the active and the standby delegates.")]);
      ("minWeightStandby", VObj [
       ("type", VStr "string");
       ("example", VStr "100000000000");
       ("description", VStr "The minimum delegate weight required to be eligible as a standby delegate.")]);
      ("numberActiveValidators", VObj [
       ("type", VStr "integer");
       ("example", VNum 101);
       ("description", VStr "The number of active validators in a round.")]);
      ("numberStandbyDelegates", VObj [
       ("type", VStr "integer");
       ("example", VNum 2);
       ("description", VStr "The number of standby validators in a round.")]);
      ("posTokenID", VObj [
       ("type", VStr "string");
       ("example", VStr "0000000000000000");
       ("description", VStr "The universal identifier for the token within the Lisk ecosystem for PoS module.")]);
      ("maxBFTWeightCap", VObj [("type", VStr "number"); ("example", VNum 500); ("description", VStr "")]);
      ("commissionIncreasePeriod", VObj [
       ("type", VStr "number");
       ("example", VNum 260000);
       ("description", VStr "Determines how frequently (after how many blocks) a validator can increase their commission.  It is set to 260000 blocks on the Lisk Mainchain.")]);
      ("maxCommissionIncreaseRate", VObj [
       ("type", VStr "number");
       ("example", VNum 500);
       ("description", VStr "Determines the maximum allowed increase on the commission per transaction. It is set to 5% on the Lisk Mainchain.")]);
      ("extraCommandFees", VObj [
       ("description", VStr "Extra fees associated (beyond the usual transaction fees) for the listed commands.");
       ("type", VStr "object");
       ("required", VArr [VStr "validatorRegistrationFee"]);
       ("properties", VObj [
        ("validatorRegistrationFee", VObj [
         ("type", VStr "string");
         ("example", VStr "1000000000");
         ("description", VStr "The extra fee to be supplied for a validator registration transaction.")])])])])]);
    ("meta", VObj [("type", VStr "object")])])]);
  ("posRewardsLockedWithEnvelope", VObj [
   ("type", VStr "object");
   ("required", VArr [VStr "data"; VStr "meta"]);
   ("properties", VObj [
    ("data", VObj [
     ("description", VStr "PoS Locked Rewards.");
     ("type", VStr "array");
     ("items", VObj [
      ("type", VStr "object");
      ("required", VArr [VStr "tokenID"; VStr "reward"]);
      ("properties", VObj [
       ("tokenID", VObj [
        ("type", VStr "string");
        ("example", VStr "0000000000000000");
        ("description", VStr "The universal identifier for the token within the Lisk ecosystem used for rewards.")]);
       ("reward", VObj [
        ("type", VStr "string");
        ("example", VStr "109000000000");
        ("description", VStr "The amount of rewards currently locked by the PoS module in terms of the specified tokenID.")])])])]);
    ("meta", VObj [("$ref", VStr "#/definitions/pagination")])])]);
  ("posClaimableRewardsWithEnvelope", VObj [
   ("type", VStr "object");
   ("required", VArr [VStr "data"; VStr "meta"]);
   ("properties", VObj [
    ("data", VObj [
     ("description", VStr "PoS claimable Rewards.");
     ("type", VStr "array");
     ("items", VObj [
      ("type", VStr "object");
      ("required", VArr [VStr "tokenID"; VStr "reward"]);
      ("properties", VObj [
       ("tokenID", VObj [
        ("type", VStr "string");
        ("example", VStr "0000000000000000");
        ("description", VStr "The universal identifier for the token within the Lisk ecosystem used for rewards.")]);
       ("reward", VObj [
        ("type", VStr "string");
        ("example", VStr "109000000000");
        ("description", VStr "The amount of currently claimable rewards previously locked by the PoS module for the queried address, publicKey or validator name.")])])])]);
    ("meta", VObj [("$ref", VStr "#/definitions/pagination")])])])].

Definition v3_definitions_profiles : list (string * val) := [
  ("profile", VObj [
   ("type", VStr "object");
   ("required", VArr [
    VStr "profileID";
    VStr "name";
    VStr "nickName";
    VStr "description";
    VStr "socialAccounts";
    VStr "avatarHash";
    VStr "avatarSignature";
    VStr "bannerHash";
    VStr "bannerSignature";
    VStr "creatorAddress"]);
   ("properties", VObj [
    ("profileID", VObj [
     ("type", VStr "string");
     ("format", VStr "id");
     ("example", VStr "f9593f101c4acafc3ede650ab4c10fa2ecb59b225813eddbbb17b47e96932e9b");
     ("minLength", VNum 1);
     ("maxLength", VNum 64);
     ("description", VStr "Unique identifier of the profile.
Derived from the profile hash.")]);
    ("name", VObj [("type", VStr "string"); ("description", VStr "name of the profile")]);
    ("nickName", VObj [("type", VStr "string"); ("description", VStr "nickName of the profile")]);
    ("description", VObj [("type", VStr "string"); ("description", VStr "description of the profile")]);
    ("socialAccounts", VObj [
     ("type", VStr "array");
     ("items", VObj [
      ("type", VStr "object");
      ("properties", VObj [
       ("username", VObj [("type", VStr "string"); ("description", VStr "username of the social media platform")]);
       ("platform", VObj [("type", VStr "string"); ("description", VStr "name of the social media platform")])])])]);
    ("avatarHash", VObj [("type", VStr "string"); ("example", VStr "hash of the profile avatar")]);
    ("avatarSignature", VObj [("type", VStr "string"); ("example", VStr "signature of the profile avatar")]);
    ("bannerHash", VObj [("type", VStr "string"); ("example", VStr "hash of the profile banner")]);
    ("bannerSignature", VObj [("type", VStr "string"); ("example", VStr "signature of the profile banner")]);
    ("creatorAddress", VObj [("type", VStr "string"); ("example", VStr "creator address of the profile")])])]);
  ("ProfilesWithEnvelope", VObj [
   ("type", VStr "object");
   ("required", VArr [VStr "data"; VStr "meta"]);
   ("properties", VObj [
    ("data", VObj [
     ("description", VStr "List of profiles");
     ("type", VStr "array");
     ("items", VObj [("$ref", VStr "#/definitions/Profiles")])]);
    ("meta", VObj [("$ref", VStr "#/definitions/pagination")])])]);
  ("serverErrorEnvelope", VObj [
   ("type", VStr "object");
   ("properties", VObj [
    ("error", VObj [("type", VStr "boolean"); ("example", VBool true)]);
    ("message", VObj [("type", VStr "string"); ("example", VStr "Unable to reach a network node")])])])].

Definition v3_definitions_schemas : list (string * val) := [
  ("CommandsParamsSchema", VObj [
   ("type", VStr "object");
   ("required", VArr [VStr "moduleCommand"; VStr "schema"]);
   ("properties", VObj [
    ("moduleCommand", VObj [
     ("type", VStr "string");
     ("example", VStr "token:transfer");
     ("description", VStr "Combination of transaction moduleName:commandName.
")]);
    ("schema", VObj [
     ("type", VStr "object");
     ("properties", VObj [
      ("$id", VObj [
       ("type", VStr "string");
       ("format", VStr "id");
       ("minLength", VNum 1);
       ("example", VStr "lisk/transfer-asset");
       ("description", VStr "Unique identifier of the transaction schema
")]);
      ("title", VObj [
       ("type", VStr "string");
       ("minimum", VNum 1);
       ("example", VStr "Transfer transaction asset");
       ("description", VStr "Title of schema
")]);
      ("type", VObj [("type", VStr "string"); ("example", VStr "object"); ("description", VStr "type of schema")]);
      ("required", VObj [
       ("type", VStr "array");
       ("items", VObj [("type", VStr "string")]);
       ("example", VArr [VStr "amount"; VStr "recipientAddress"; VStr "data"])]);
      ("properties", VObj [
       ("type", VStr "object");
       ("properties", VObj [
        ("amount", VObj [
         ("type", VStr "object");
         ("properties", VObj [
          ("dataType", VObj [("type", VStr "string"); ("example", VStr "uint64")]);
          ("fieldNumber", VObj [("type", VStr "integer"); ("example", VNum 1)])])]);
        ("recipientAddress", VObj [
         ("type", VStr "object");
         ("properties", VObj [
          ("dataType", VObj [("type", VStr "string"); ("example", VStr "bytes")]);
          ("fieldNumber", VObj [("type", VStr "integer"); ("example", VNum 2)]);
          ("minLength", VObj [("type", VStr "integer"); ("example", VNum 20)]);
          ("maxLength", VObj [("type", VStr "integer"); ("example", VNum 20)])])]);
        ("data", VObj [
         ("type", VStr "object");
         ("properties", VObj [
          ("dataType", VObj [("type", VStr "string"); ("example", VStr "bytes")]);
          ("fieldNumber", VObj [("type", VStr "integer"); ("example", VNum 3)]);
          ("minLength", VObj [("type", VStr "integer"); ("example", VNum 0)]);
          ("maxLength", VObj [("type", VStr "integer"); ("example", VNum 64)])])])])])])])])]);
  ("BlockSchema", VObj [
   ("type", VStr "object");
   ("required", VArr [VStr "schema"]);
   ("properties", VObj [
    ("schema", VObj [
     ("type", VStr "object");
     ("properties", VObj [
      ("$id", VObj [
       ("type", VStr "string");
       ("example", VStr "/block");
       ("description", VStr "Unique identifier of the block schema
")]);
      ("type", VObj [("type", VStr "string"); ("example", VStr "object"); ("description", VStr "type of schema")]);
      ("required", VObj [
       ("type", VStr "array");
       ("items", VObj [("type", VStr "string")]);
       ("example", VArr [VStr "header"; VStr "transactions"; VStr "assets"])]);
      ("properties", VObj [
       ("type", VStr "object");
       ("properties", VObj [
        ("header", VObj [
         ("type", VStr "object");
         ("properties", VObj [
          ("dataType", VObj [("type", VStr "string"); ("example", VStr "uint64")]);
          ("fieldNumber", VObj [("type", VStr "integer"); ("example", VNum 1)])])]);
        ("transactions", VObj [
         ("type", VStr "object");
         ("properties", VObj [
          ("type", VObj [("type", VStr "string"); ("example", VStr "array")]);
          ("items", VObj [
           ("type", VStr "object");
           ("properties", VObj [("dataType", VObj [("type", VStr "string"); ("example", VStr "bytes")])])]);
          ("fieldNumber", VObj [("type", VStr "integer"); ("example", VNum 2)])])]);
        ("assets", VObj [
         ("type", VStr "object");
         ("properties", VObj [
          ("type", VObj [("type", VStr "string"); ("example", VStr "array")]);
          ("items", VObj [
           ("type", VStr "object");
           ("properties", VObj [("dataType", VObj [("type", VStr "string"); ("example", VStr "bytes")])])]);
          ("fieldNumber", VObj [("type", VStr "integer"); ("example", VNum 2)])])])])])])])])]);
  ("HeaderSchema", VObj [
   ("type", VStr "object");
   ("required", VArr [VStr "schema"]);
   ("properties", VObj [
    ("schema", VObj [
     ("type", VStr "object");
     ("properties", VObj [
      ("$id", VObj [
       ("type", VStr "string");
       ("example", VStr "/block/header/3");
       ("description", VStr "Unique identifier of the block schema.")]);
      ("type", VObj [("type", VStr "string"); ("example", VStr "object"); ("description", VStr "Type of schema.")]);
      ("properties", VObj [
       ("type", VStr "object");
       ("required", VArr [
        VStr "version";
        VStr "timestamp";
        VStr "height";
        VStr "previousBlockID";
        VStr "generatorAddress";
        VStr "transactionRoot";
        VStr "assetRoot";
        VStr "eventRoot";
        VStr "stateRoot";
        VStr "maxHeightPrevoted";
        VStr "maxHeightGenerated";
        VStr "impliesMaxPrevotes";
        VStr "validatorsHash";
        VStr "aggregateCommit";
        VStr "signature"]);
       ("properties", VObj [
        ("version", VObj [
         ("type", VStr "object");
         ("properties", VObj [
          ("dataType", VObj [("type", VStr "string"); ("example", VStr "uint32")]);
          ("fieldNumber", VObj [("type", VStr "integer"); ("example", VNum 1)])])]);
        ("timestamp", VObj [
         ("type", VStr "object");
         ("properties", VObj [
          ("dataType", VObj [("type", VStr "string"); ("example", VStr "uint32")]);
          ("fieldNumber", VObj [("type", VStr "integer"); ("example", VNum 2)])])]);
        ("height", VObj [
         ("type", VStr "object");
         ("properties", VObj [
          ("dataType", VObj [("type", VStr "string"); ("example", VStr "uint32")]);
          ("fieldNumber", VObj [("type", VStr "integer"); ("example", VNum 3)])])]);
        ("previousBlockID", VObj [
         ("type", VStr "object");
         ("properties", VObj [
          ("dataType", VObj [("type", VStr "string"); ("example", VStr "bytes")]);
          ("fieldNumber", VObj [("type", VStr "integer"); ("example", VNum 4)])])]);
        ("generatorAddress", VObj [
         ("type", VStr "object");
         ("properties", VObj [
          ("dataType", VObj [("type", VStr "string"); ("example", VStr "bytes")]);
          ("fieldNumber", VObj [("type", VStr "integer"); ("example", VNum 5)]);
          ("format", VObj [("type", VStr "string"); ("example", VStr "lisk32")])])]);
        ("transactionRoot", VObj [
         ("type", VStr "object");
         ("properties", VObj [
          ("dataType", VObj [("type", VStr "string"); ("example", VStr "bytes")]);
          ("fieldNumber", VObj [("type", VStr "integer"); ("example", VNum 6)])])]);
        ("assetRoot", VObj [
         ("type", VStr "object");
         ("properties", VObj [
          ("dataType", VObj [("type", VStr "string"); ("example", VStr "bytes")]);
          ("fieldNumber", VObj [("type", VStr "integer"); ("example", VNum 7)])])]);
        ("eventRoot", VObj [
         ("type", VStr "object");
         ("properties", VObj [
          ("dataType", VObj [("type", VStr "string"); ("example", VStr "bytes")]);
          ("fieldNumber", VObj [("type", VStr "integer"); ("example", VNum 8)])])]);
        ("stateRoot", VObj [
         ("type", VStr "object");
         ("properties", VObj [
          ("dataType", VObj [("type", VStr "string"); ("example", VStr "bytes")]);
          ("fieldNumber", VObj [("type", VStr "integer"); ("example", VNum 9)])])]);
        ("maxHeightPrevoted", VObj [
         ("type", VStr "object");
         ("properties", VObj [
          ("dataType", VObj [("type", VStr "string"); ("example", VStr "uint32")]);
          ("fieldNumber", VObj [("type", VStr "integer"); ("example", VNum 10)])])]);
        ("maxHeightGenerated", VObj [
         ("type", VStr "object");
         ("properties", VObj [
          ("dataType", VObj [("type", VStr "string"); ("example", VStr "uint32")]);
          ("fieldNumber", VObj [("type", VStr "integer"); ("example", VNum 11)])])]);
        ("impliesMaxPrevotes", VObj [
         ("type", VStr "object");
         ("properties", VObj [
          ("dataType", VObj [("type", VStr "string"); ("example", VStr "boolean")]);
          ("fieldNumber", VObj [("type", VStr "integer"); ("example", VNum 12)])])]);
        ("validatorsHash", VObj [
         ("type", VStr "object");
         ("properties", VObj [
          ("dataType", VObj [("type", VStr "string"); ("example", VStr "bytes")]);
          ("fieldNumber", VObj [("type", VStr "integer"); ("example", VNum 13)])])]);
        ("aggregateCommit", VObj [
         ("type", VStr "object");
         ("properties", VObj [
          ("type", VObj [("type", VStr "string"); ("example", VStr "object")]);
          ("fieldNumber", VObj [("type", VStr "integer"); ("example", VNum 14)]);
          ("properties", VObj [
           ("type", VStr "object");
           ("required", VArr [VStr "height"; VStr "aggregationBits"; VStr "certificateSignature"]);
           ("properties", VObj [
            ("height", VObj [
             ("type", VStr "object");
             ("properties", VObj [
              ("dataType", VObj [("type", VStr "string"); ("example", VStr "uint32")]);
              ("fieldNumber", VObj [("type", VStr "integer"); ("example", VNum 1)])])]);
            ("aggregationBits", VObj [
             ("type", VStr "object");
             ("properties", VObj [
              ("dataType", VObj [("type", VStr "string"); ("example", VStr "bytes")]);
              ("fieldNumber", VObj [("type", VStr "integer"); ("example", VNum 2)])])]);
            ("certificateSignature", VObj [
             ("type", VStr "object");
             ("properties", VObj [
              ("dataType", VObj [("type", VStr "string"); ("example", VStr "bytes")]);
              ("fieldNumber", VObj [("type", VStr "integer"); ("example", VNum 3)])])])])])])]);
        ("signature", VObj [
         ("type", VStr "object");
         ("properties", VObj [
          ("dataType", VObj [("type", VStr "string"); ("example", VStr "bytes")]);
          ("fieldNumber", VObj [("type", VStr "integer"); ("example", VNum 15)])])])])])])])])]);
  ("AssetSchema", VObj [
   ("type", VStr "object");
   ("required", VArr [VStr "schema"]);
   ("properties", VObj [
    ("schema", VObj [
     ("type", VStr "object");
     ("properties", VObj [
      ("$id", VObj [
       ("type", VStr "string");
       ("example", VStr "/block/asset/3");
       ("description", VStr "Unique identifier of the block asset schema
")]);
      ("type", VObj [("type", VStr "string"); ("example", VStr "object"); ("description", VStr "type of schema")]);
      ("required", VObj [
       ("type", VStr "array");
       ("items", VObj [("type", VStr "string")]);
       ("example", VArr [VStr "module"; VStr "data"])]);
      ("properties", VObj [
       ("type", VStr "object");
       ("properties", VObj [
        ("module", VObj [
         ("type", VStr "object");
         ("properties", VObj [
          ("dataType", VObj [("type", VStr "string"); ("example", VStr "uint64")]);
          ("fieldNumber", VObj [("type", VStr "integer"); ("example", VNum 1)])])]);
        ("data", VObj [
         ("type", VStr "object");
         ("properties", VObj [
          ("dataType", VObj [("type", VStr "string"); ("example", VStr "string")]);
          ("fieldNumber", VObj [("type", VStr "integer"); ("example", VNum 2)])])])])])])])])]);
  ("EventSchema", VObj [
   ("type", VStr "object");
   ("required", VArr [VStr "schema"]);
   ("properties", VObj [
    ("schema", VObj [
     ("type", VStr "object");
     ("properties", VObj [
      ("$id", VObj [
       ("type", VStr "string");
       ("example", VStr "/block/asset/3");
       ("description", VStr "Unique identifier of the event schema
")]);
      ("type", VObj [("type", VStr "string"); ("example", VStr "object"); ("description", VStr "type of schema")]);
      ("required", VObj [
       ("type", VStr "array");
       ("items", VObj [("type", VStr "string")]);
       ("example", VArr [VStr "module"; VStr "name"; VStr "data"; VStr "topics"; VStr "height"; VStr "index"])]);
      ("properties", VObj [
       ("type", VStr "object");
       ("properties", VObj [
        ("module", VObj [
         ("type", VStr "object");
         ("properties", VObj [
          ("dataType", VObj [("type", VStr "string"); ("example", VStr "string")]);
          ("minLength", VObj [("type", VStr "integer"); ("example", VNum 1)]);
          ("maxLength", VObj [("type", VStr "integer"); ("example", VNum 32)]);
          ("fieldNumber", VObj [("type", VStr "integer"); ("example", VNum 1)])])]);
        ("name", VObj [
         ("type", VStr "object");
         ("properties", VObj [
          ("dataType", VObj [("type", VStr "string"); ("example", VStr "string")]);
          ("minLength", VObj [("type", VStr "integer"); ("example", VNum 1)]);
          ("maxLength", VObj [("type", VStr "integer"); ("example", VNum 32)]);
          ("fieldNumber", VObj [("type", VStr "integer"); ("example", VNum 2)])])]);
        ("data", VObj [
         ("type", VStr "object");
         ("properties", VObj [
          ("dataType", VObj [("type", VStr "string"); ("example", VStr "bytes")]);
          ("fieldNumber", VObj [("type", VStr "integer"); ("example", VNum 3)])])]);
        ("topics", VObj [
         ("type", VStr "object");
         ("properties", VObj [
          ("type", VObj [("type", VStr "string"); ("example", VStr "array")]);
          ("items", VObj [
           ("type", VStr "object");
           ("properties", VObj [("dataType", VObj [("type", VStr "string"); ("example", VStr "bytes")])])]);
          ("fieldNumber", VObj [("type", VStr "integer"); ("example", VNum 4)])])]);
        ("height", VObj [
         ("type", VStr "object");
         ("properties", VObj [
          ("dataType", VObj [("type", VStr "string"); ("example", VStr "bytes")]);
          ("fieldNumber", VObj [("type", VStr "integer"); ("example", VNum 5)])])]);
        ("index", VObj [
         ("type", VStr "object");
         ("properties", VObj [
          ("dataType", VObj [("type", VStr "string"); ("example", VStr "integer")]);
          ("fieldNumber", VObj [("type", VStr "integer"); ("example", VNum 5)])])])])])])])])]);
  ("StandardEventSchema", VObj [
   ("type", VStr "object");
   ("required", VArr [VStr "schema"]);
   ("properties", VObj [
    ("schema", VObj [
     ("type", VStr "object");
     ("required", VArr [VStr "$id"; VStr "type"; VStr "required"; VStr "properties"]);
     ("properties", VObj [
      ("$id", VObj [
       ("type", VStr "string");
       ("example", VStr "/block/event/standard");
       ("description", VStr "Unique identifier of the event schema.")]);
      ("type", VObj [("type", VStr "string"); ("example", VStr "object"); ("description", VStr "type of schema")]);
      ("required", VObj [
       ("type", VStr "array");
       ("items", VObj [("type", VStr "string")]);
       ("example", VArr [VStr "success"])]);
      ("properties", VObj [
       ("type", VStr "object");
       ("properties", VObj [
        ("success", VObj [
         ("type", VStr "object");
         ("properties", VObj [
          ("dataType", VObj [("type", VStr "string"); ("example", VStr "boolean")]);
          ("fieldNumber", VObj [("type", VStr "integer"); ("example", VNum 1)])])])])])])])])]);
  ("CcmSchema", VObj [
   ("type", VStr "object");
   ("required", VArr [VStr "schema"]);
   ("properties", VObj [
    ("schema", VObj [
     ("type", VStr "object");
     ("required", VArr [VStr "$id"; VStr "type"; VStr "required"; VStr "properties"]);
     ("properties", VObj [
      ("$id", VObj [
       ("type", VStr "string");
       ("example", VStr "/modules/interoperability/ccm");
       ("description", VStr "Unique identifier of the event schema.")]);
      ("type", VObj [("type", VStr "string"); ("example", VStr "object"); ("description", VStr "type of schema")]);
      ("required", VObj [
       ("type", VStr "array");
       ("items", VObj [("type", VStr "string")]);
       ("example", VArr [
        VStr "module";
        VStr "crossChainCommand";
        VStr "nonce";
        VStr "fee";
        VStr "sendingChainID";
        VStr "receivingChainID";
        VStr "params";
        VStr "status"])]);
      ("properties", VObj [
       ("type", VStr "object");
       ("properties", VObj [
        ("module", VObj [
         ("type", VStr "object");
         ("properties", VObj [
          ("dataType", VObj [("type", VStr "string"); ("example", VStr "string")]);
          ("minLength", VObj [("type", VStr "integer"); ("example", VNum 1)]);
          ("maxLength", VObj [("type", VStr "integer"); ("example", VNum 32)]);
          ("fieldNumber", VObj [("type", VStr "integer"); ("example", VNum 1)])])]);
        ("crossChainCommand", VObj [
         ("type", VStr "object");
         ("properties", VObj [
          ("dataType", VObj [("type", VStr "string"); ("example", VStr "string")]);
          ("minLength", VObj [("type", VStr "integer"); ("example", VNum 1)]);
          ("maxLength", VObj [("type", VStr "integer"); ("example", VNum 32)]);
          ("fieldNumber", VObj [("type", VStr "integer"); ("example", VNum 2)])])]);
        ("nonce", VObj [
         ("type", VStr "object");
         ("properties", VObj [
          ("dataType", VObj [("type", VStr "string"); ("example", VStr "uint64")]);
          ("fieldNumber", VObj [("type", VStr "integer"); ("example", VNum 3)])])]);
        ("fee", VObj [
         ("type", VStr "object");
         ("properties", VObj [
          ("dataType", VObj [("type", VStr "string"); ("example", VStr "uint64")]);
          ("fieldNumber", VObj [("type", VStr "integer"); ("example", VNum 4)])])]);
        ("sendingChainID", VObj [
         ("type", VStr "object");
         ("properties", VObj [
          ("dataType", VObj [("type", VStr "string"); ("example", VStr "bytes")]);
          ("minLength", VObj [("type", VStr "integer"); ("example", VNum 4)]);
          ("maxLength", VObj [("type", VStr "integer"); ("example", VNum 4)]);
          ("fieldNumber", VObj [("type", VStr "integer"); ("example", VNum 5)])])]);
        ("receivingChainID", VObj [
         ("type", VStr "object");
         ("properties", VObj [
          ("dataType", VObj [("type", VStr "string"); ("example", VStr "bytes")]);
          ("minLength", VObj [("type", VStr "integer"); ("example", VNum 4)]);
          ("maxLength", VObj [("type", VStr "integer"); ("example", VNum 4)]);
          ("fieldNumber", VObj [("type", VStr "integer"); ("example", VNum 6)])])]);
        ("params", VObj [
         ("type", VStr "object");
         ("properties", VObj [
          ("dataType", VObj [("type", VStr "string"); ("example", VStr "bytes")]);
          ("fieldNumber", VObj [("type", VStr "integer"); ("example", VNum 7)])])]);
        ("status", VObj [
         ("type", VStr "object");
         ("properties", VObj [
          ("dataType", VObj [("type", VStr "string"); ("example", VStr "uint32")]);
          ("fieldNumber", VObj [("type", VStr "integer"); ("example", VNum 8)])])])])])])])])]);
  ("AssetsSchema", VObj [
   ("type", VStr "object");
   ("required", VArr [VStr "module"; VStr "version"; VStr "schema"]);
   ("properties", VObj [
    ("module", VObj [("type", VStr "string"); ("example", VStr "random")]);
    ("version", VObj [("type", VStr "string"); ("example", VStr "2")]);
    ("schema", VObj [
     ("type", VStr "object");
     ("properties", VObj [
      ("$id", VObj [
       ("type", VStr "string");
       ("example", VStr "/modules/random/block/header/asset");
       ("description", VStr "Unique identifier of the assets schema
")]);
      ("type", VObj [("type", VStr "string"); ("example", VStr "object"); ("description", VStr "type of schema")]);
      ("required", VObj [
       ("type", VStr "array");
       ("items", VObj [("type", VStr "string")]);
       ("example", VArr [VStr "seedReveal"])]);
      ("properties", VObj [
       ("type", VStr "object");
       ("properties", VObj [
        ("seedReveal", VObj [
         ("type", VStr "object");
         ("properties", VObj [
          ("dataType", VObj [("type", VStr "string"); ("example", VStr "bytes")]);
          ("minLength", VObj [("type", VStr "integer"); ("example", VNum 16)]);
          ("maxLength", VObj [("type", VStr "integer"); ("example", VNum 16)]);
          ("fieldNumber", VObj [("type", VStr "integer"); ("example", VNum 1)])])])])])])])])]);
  ("EventsSchema", VObj [
   ("type", VStr "object");
   ("required", VArr [VStr "module"; VStr "name"; VStr "schema"]);
   ("properties", VObj [
    ("module", VObj [("type", VStr "string"); ("example", VStr "token")]);
    ("name", VObj [("type", VStr "string"); ("example", VStr "transferEvent")]);
    ("schema", VObj [
     ("type", VStr "object");
     ("properties", VObj [
      ("$id", VObj [
       ("type", VStr "string");
       ("example", VStr "/token/events/transfer");
       ("description", VStr "Unique identifier of the assets schema
")]);
      ("type", VObj [("type", VStr "string"); ("example", VStr "object"); ("description", VStr "type of schema")]);
      ("required", VObj [
       ("type", VStr "array");
       ("items", VObj [("type", VStr "string")]);
       ("example", VArr [VStr "senderAddress"; VStr "recipientAddress"; VStr "tokenID"; VStr "amount"; VStr "result"])]);
      ("properties", VObj [
       ("type", VStr "object");
       ("properties", VObj [
        ("senderAddress", VObj [
         ("type", VStr "object");
         ("properties", VObj [
          ("dataType", VObj [("type", VStr "string"); ("example", VStr "bytes")]);
          ("fieldNumber", VObj [("type", VStr "integer"); ("example", VNum 1)])])]);
        ("recipientAddress", VObj [
         ("type", VStr "object");
         ("properties", VObj [
          ("dataType", VObj [("type", VStr "string"); ("example", VStr "bytes")]);
          ("fieldNumber", VObj [("type", VStr "integer"); ("example", VNum 2)])])]);
        ("tokenID", VObj [
         ("type", VStr "object");
         ("properties", VObj [
          ("dataType", VObj [("type", VStr "string"); ("example", VStr "bytes")]);
          ("fieldNumber", VObj [("type", VStr "integer"); ("example", VNum 3)])])]);
        ("amount", VObj [
         ("type", VStr "object");
         ("properties", VObj [
          ("dataType", VObj [("type", VStr "string"); ("example", VStr "uint64")]);
          ("fieldNumber", VObj [("type", VStr "integer"); ("example", VNum 4)])])]);
        ("result", VObj [
         ("type", VStr "object");
         ("properties", VObj [
          ("dataType", VObj [("type", VStr "string"); ("example", VStr "uint32")]);
          ("fieldNumber", VObj [("type", VStr "integer"); ("example", VNum 5)])])])])])])])])]);
  ("TransactionSchema", VObj [
   ("type", VStr "object");
   ("required", VArr [VStr "schema"]);
   ("properties", VObj [
    ("schema", VObj [
     ("type", VStr "object");
     ("properties", VObj [
      ("$id", VObj [
       ("type", VStr "string");
       ("example", VStr "/token/events/transfer");
       ("description", VStr "Unique identifier of the transaction schema
")]);
      ("type", VObj [("type", VStr "string"); ("example", VStr "object"); ("description", VStr "type of schema")]);
      ("required", VObj [
       ("type", VStr "array");
       ("items", VObj [("type", VStr "string")]);
       ("example", VArr [VStr "module"; VStr "command"; VStr "nonce"; VStr "fee"; VStr "senderPublicKey"; VStr "params"])]);
      ("properties", VObj [
       ("type", VStr "object");
       ("properties", VObj [
        ("module", VObj [
         ("type", VStr "object");
         ("properties", VObj [
          ("dataType", VObj [("type", VStr "string"); ("example", VStr "string")]);
          ("minLength", VObj [("type", VStr "integer"); ("example", VNum 1)]);
          ("maxLength", VObj [("type", VStr "integer"); ("example", VNum 32)]);
          ("fieldNumber", VObj [("type", VStr "integer"); ("example", VNum 1)])])]);
        ("command", VObj [
         ("type", VStr "object");
         ("properties", VObj [
          ("dataType", VObj [("type", VStr "string"); ("example", VStr "string")]);
          ("minLength", VObj [("type", VStr "integer"); ("example", VNum 1)]);
          ("maxLength", VObj [("type", VStr "integer"); ("example", VNum 32)]);
          ("fieldNumber", VObj [("type", VStr "integer"); ("example", VNum 2)])])]);
        ("nonce", VObj [
         ("type", VStr "object");
         ("properties", VObj [
          ("dataType", VObj [("type", VStr "string"); ("example", VStr "uint64")]);
          ("fieldNumber", VObj [("type", VStr "integer"); ("example", VNum 3)])])]);
        ("fee", VObj [
         ("type", VStr "object");
         ("properties", VObj [
          ("dataType", VObj [("type", VStr "string"); ("example", VStr "uint64")]);
          ("fieldNumber", VObj [("type", VStr "integer"); ("example", VNum 4)])])]);
        ("senderPublicKey", VObj [
         ("type", VStr "object");
         ("properties", VObj [
          ("dataType", VObj [("type", VStr "string"); ("example", VStr "bytes")]);
          ("minLength", VObj [("type", VStr "integer"); ("example", VNum 32)]);
          ("maxLength", VObj [("type", VStr "integer"); ("example", VNum 32)]);
          ("fieldNumber", VObj [("type", VStr "integer"); ("example", VNum 5)])])]);
        ("params", VObj [
         ("type", VStr "object");
         ("properties", VObj [
          ("dataType", VObj [("type", VStr "string"); ("example", VStr "bytes")]);
          ("fieldNumber", VObj [("type", VStr "integer"); ("example", VNum 6)])])]);
        ("signatures", VObj [
         ("type", VStr "object");
         ("properties", VObj [
          ("type", VObj [("type", VStr "string"); ("example", VStr "array")]);
          ("items", VObj [
           ("type", VStr "object");
           ("properties", VObj [("dataType", VObj [("type", VStr "string"); ("example", VStr "bytes")])])]);
          ("fieldNumber", VObj [("type", VStr "integer"); ("example", VNum 7)])])])])])])])])]);
  ("MessageSchema", VObj [
   ("type", VStr "object");
   ("required", VArr [VStr "moduleCommand"; VStr "param"; VStr "schema"]);
   ("properties", VObj [
    ("moduleCommand", VObj [
     ("type", VStr "string");
     ("example", VStr "auth:registerMultisignature");
     ("description", VStr "Combination of transaction moduleName:commandName.")]);
    ("param", VObj [
     ("type", VStr "string");
     ("example", VStr "signatures");
     ("description", VStr ("The property within the params of the corresponding moduleCommand type transaction for which the corresponding schema is to be used to serialize the information.
Example: The schema with `" +:+ String dq "" +:+ "$id" +:+ String dq "" +:+ ": " +:+ String dq "" +:+ "/auth/command/regMultisigMsg" +:+ String dq "" +:+ "` is to be used to serialize the `signatures` data within the transaction params for the `auth:registerMultisignature` command."))]);
    ("schema", VObj [
     ("type", VStr "object");
     ("required", VArr [VStr "$id"; VStr "type"; VStr "required"; VStr "properties"]);
     ("properties", VObj [
      ("$id", VObj [
       ("type", VStr "string");
       ("format", VStr "id");
       ("minLength", VNum 1);
       ("example", VStr "/auth/command/regMultisigMsg");
       ("description", VStr "Unique identifier of the message schema.")]);
      ("type", VObj [("type", VStr "string"); ("example", VStr "object"); ("description", VStr "Type of schema.")]);
      ("required", VObj [
       ("type", VStr "array");
       ("items", VObj [("type", VStr "string")]);
       ("example", VArr [
        VStr "address";
        VStr "nonce";
        VStr "numberOfSignatures";
        VStr "mandatoryKeys";
        VStr "optionalKeys"])]);
      ("properties", VObj [
       ("type", VStr "object");
       ("required", VArr [
        VStr "address";
        VStr "nonce";
        VStr "numberOfSignatures";
        VStr "mandatoryKeys";
        VStr "optionalKeys"]);
       ("properties", VObj [
        ("address", VObj [
         ("type", VStr "object");
         ("properties", VObj [
          ("dataType", VObj [("type", VStr "string"); ("example", VStr "bytes")]);
          ("fieldNumber", VObj [("type", VStr "integer"); ("example", VNum 1)]);
          ("minLength", VObj [("type", VStr "integer"); ("example", VNum 20)]);
          ("maxLength", VObj [("type", VStr "integer"); ("example", VNum 20)])])]);
        ("nonce", VObj [
         ("type", VStr "object");
         ("properties", VObj [
          ("dataType", VObj [("type", VStr "string"); ("example", VStr "uint64")]);
          ("fieldNumber", VObj [("type", VStr "integer"); ("example", VNum 2)])])]);
        ("numberOfSignatures", VObj [
         ("type", VStr "object");
         ("properties", VObj [
          ("dataType", VObj [("type", VStr "string"); ("example", VStr "uint32")]);
          ("fieldNumber", VObj [("type", VStr "integer"); ("example", VNum 3)])])]);
        ("mandatoryKeys", VObj [
         ("type", VStr "object");
         ("properties", VObj [
          ("type", VObj [("type", VStr "string"); ("example", VStr "array")]);
          ("items", VObj [
           ("type", VStr "object");
           ("properties", VObj [
            ("dataType", VObj [("type", VStr "string"); ("example", VStr "bytes")]);
            ("minLength", VObj [("type", VStr "integer"); ("example", VNum 32)]);
            ("maxLength", VObj [("type", VStr "integer"); ("example", VNum 32)])])]);
          ("fieldNumber", VObj [("type", VStr "integer"); ("example", VNum 4)])])]);
        ("optionalKeys", VObj [
         ("type", VStr "object");
         ("properties", VObj [
          ("type", VObj [("type", VStr "string"); ("example", VStr "array")]);
          ("items", VObj [
           ("type", VStr "object");
           ("properties", VObj [
            ("dataType", VObj [("type", VStr "string"); ("example", VStr "bytes")]);
            ("minLength", VObj [("type", VStr "integer"); ("example", VNum 32)]);
            ("maxLength", VObj [("type", VStr "integer"); ("example", VNum 32)])])]);
          ("fieldNumber", VObj [("type", VStr "integer"); ("example", VNum 5)])])])])])])])])]);
  ("SchemaWithEnvelope", VObj [
   ("type", VStr "object");
   ("required", VArr [VStr "data"; VStr "meta"]);
   ("properties", VObj [
    ("data", VObj [
     ("description", VStr "List of schemas");
     ("type", VStr "object");
     ("properties", VObj [
      ("block", VObj [("$ref", VStr "#/definitions/BlockSchema")]);
      ("header", VObj [("$ref", VStr "#/definitions/HeaderSchema")]);
      ("asset", VObj [("$ref", VStr "#/definitions/AssetSchema")]);
      ("transaction", VObj [("$ref", VStr "#/definitions/TransactionSchema")]);
      ("standardEvent", VObj [("$ref", VStr "#/definitions/StandardEventSchema")]);
      ("ccm", VObj [("$ref", VStr "#/definitions/CcmSchema")]);
      ("event", VObj [("$ref", VStr "#/definitions/EventSchema")]);
      ("events", VObj [("type", VStr "array"); ("items", VObj [("$ref", VStr "#/definitions/EventsSchema")])]);
      ("assets", VObj [("type", VStr "array"); ("items", VObj [("$ref", VStr "#/definitions/AssetsSchema")])]);
      ("commands", VObj [("type", VStr "array"); ("items", VObj [("$ref", VStr "#/definitions/CommandsParamsSchema")])]);
      ("messages", VObj [("type", VStr "array"); ("items", VObj [("$ref", VStr "#/definitions/MessageSchema")])])])]);
    ("meta", VObj [("type", VStr "object")])])])].

Definition v3_definitions_subscriptions : list (string * val) := [
  ("Subscription", VObj [
   ("type", VStr "object");
   ("required", VArr [
    VStr "creatorAddress";
    VStr "subscriptionID";
    VStr "members";
    VStr "price";
    VStr "consumable";
    VStr "maxMembers";
    VStr "streams"]);
   ("properties", VObj [
    ("subscriptionID", VObj [
     ("type", VStr "string");
     ("format", VStr "id");
     ("example", VStr "f9593f101c4acafc3ede650ab4c10fa2ecb59b225813eddbbb17b47e96932e9b");
     ("minLength", VNum 1);
     ("maxLength", VNum 64);
     ("description", VStr "Unique identifier of the subscription.
Derived from the subscription hash.")]);
    ("price", VObj [("type", VStr "string"); ("example", VStr "0")]);
    ("consumable", VObj [("type", VStr "string"); ("description", VStr "Consumable value.")]);
    ("MaxMembers", VObj [("type", VStr "integer"); ("example", VStr "1")]);
    ("creatorAddress", VObj [
     ("type", VStr "object");
     ("properties", VObj [
      ("address", VObj [
       ("type", VStr "string");
       ("format", VStr "address");
       ("example", VStr "lskdwsyfmcko6mcd357446yatromr9vzgu7eb8y99");
       ("description", VStr "The Lisk Address is the human-readable representation of a blockchain account.
It is 41 character long identifier that begins with `lsk`.")]);
      ("publicKey", VObj [
       ("type", VStr "string");
       ("format", VStr "publicKey");
       ("example", VStr "b1d6bc6c7edd0673f5fed0681b73de6eb70539c21278b300f07ade277e1962cd");
       ("description", VStr "The public key is derived from the private key of the owner of the account.
It can be used to validate that the private key belongs to the owner, but not provide access to the owner's private key.")]);
      ("name", VObj [("type", VStr "string"); ("example", VStr "genesis_84"); ("description", VStr "Delegate name")])])]);
    ("members", VObj [
     ("type", VStr "array");
     ("items", VObj [("address", VObj [("type", VStr "string"); ("description", VStr "Member address.")])])])])]);
  ("SubscriptionsWithEnvelope", VObj [
   ("type", VStr "object");
   ("required", VArr [VStr "data"; VStr "meta"]);
   ("properties", VObj [
    ("data", VObj [
     ("description", VStr "List of subscriptions");
     ("type", VStr "array");
     ("items", VObj [("$ref", VStr "#/definitions/Subscriptions")])]);
    ("meta", VObj [("$ref", VStr "#/definitions/pagination")])])]);
  ("serverErrorEnvelope", VObj [
   ("type", VStr "object");
   ("properties", VObj [
    ("error", VObj [("type", VStr "boolean"); ("example", VBool true)]);
    ("message", VObj [("type", VStr "string"); ("example", VStr "Unable to reach a network node")])])])].

Definition v3_definitions_tokens : list (string * val) := [
  ("tokenWithEnvelope", VObj [
   ("type", VStr "object");
   ("required", VArr [VStr "data"; VStr "meta"]);
   ("properties", VObj [
    ("data", VObj [
     ("type", VStr "object");
     ("description", VStr "Information for a given token.");
     ("properties", VObj [
      ("tokenID", VObj [
       ("type", VStr "string");
       ("format", VStr "id");
       ("example", VStr "2ba563cf98003d");
       ("description", VStr "Token unique identifier.")]);
      ("availableBalance", VObj [
       ("type", VStr "string");
       ("example", VStr "10000000");
       ("description", VStr "Available balance.")]);
      ("lockedBalances", VObj [
       ("type", VStr "array");
       ("items", VObj [
        ("type", VStr "object");
        ("properties", VObj [
         ("module", VObj [
          ("type", VStr "string");
          ("example", VStr "token");
          ("description", VStr "The module for which the current balance is locked.")]);
         ("amount", VObj [("type", VStr "string"); ("example", VStr "10000")])])])])])]);
    ("meta", VObj [
     ("type", VStr "object");
     ("required", VArr [VStr "address"; VStr "count"; VStr "offset"; VStr "total"]);
     ("properties", VObj [
      ("address", VObj [
       ("type", VStr "string");
       ("format", VStr "address");
       ("example", VStr "lskdwsyfmcko6mcd357446yatromr9vzgu7eb8y99");
       ("description", VStr "The Lisk Address is the human-readable representation of a blockchain account.
It is a 41 characters long identifier that begins with `lsk`.")]);
      ("count", VObj [
       ("type", VStr "integer");
       ("example", VNum 10);
       ("minimum", VNum 0);
       ("description", VStr "Number of items returned in the request.")]);
      ("offset", VObj [
       ("type", VStr "integer");
       ("example", VNum 10);
       ("minimum", VNum 0);
       ("description", VStr "Number of items skipped in the response.")]);
      ("total", VObj [
       ("type", VStr "integer");
       ("example", VNum 100);
       ("minimum", VNum 0);
       ("description", VStr "Total number of items matching the request query.")])])])])]);
  ("escrowedAmount", VObj [
   ("type", VStr "object");
   ("required", VArr [VStr "escrowChainID"; VStr "tokenID"; VStr "amount"]);
   ("properties", VObj [
    ("escrowChainID", VObj [
     ("type", VStr "string");
     ("example", VStr "00000000");
     ("description", VStr "ID of the chain to which the specified token is escrowed.")]);
    ("tokenID", VObj [
     ("type", VStr "string");
     ("example", VStr "0000000010000000");
     ("description", VStr "The universal token identifier for the escrowed tokens within the Lisk ecosystem.")]);
    ("amount", VObj [
     ("type", VStr "string");
     ("example", VStr "50000000000");
     ("description", VStr "The escrowed amount.")])])]);
  ("supportedToken", VObj [
   ("type", VStr "object");
   ("required", VArr [VStr "tokenID"]);
   ("properties", VObj [
    ("isSupportAllTokens", VObj [
     ("type", VStr "boolean");
     ("example", VStr "true");
     ("description", VStr "Boolean indicating if the chain supports all kinds of tokens.")]);
    ("patternTokenIDs", VObj [
     ("type", VStr "array");
     ("items", VObj [
      ("type", VStr "string");
      ("description", VStr "A tokenID pattern for matching all the tokens from a specific chain.")]);
     ("description", VStr "List of tokenID patterns supported on the current chain.");
     ("example", VArr [VStr "00000000******"])]);
    ("exactTokenIDs", VObj [
     ("type", VStr "array");
     ("items", VObj [
      ("type", VStr "string");
      ("description", VStr "A universal token identifier within the Lisk ecosystem.")]);
     ("description", VStr "List of supported token identifiers.");
     ("example", VArr [VStr "0000000000000000"])])])]);
  ("totalSupply", VObj [
   ("type", VStr "object");
   ("required", VArr [VStr "tokenID"; VStr "amount"]);
   ("properties", VObj [
    ("tokenID", VObj [
     ("type", VStr "string");
     ("example", VStr "0000000000000000");
     ("description", VStr "The universal token identifier for the token within the Lisk ecosystem.")]);
    ("amount", VObj [
     ("type", VStr "string");
     ("example", VStr "50000000000");
     ("description", VStr "Total supply of the token on the current blockchain. The supply includes the escrowed token amount as well.")])])]);
  ("tokenSummaryWithEnvelope", VObj [
   ("type", VStr "object");
   ("required", VArr [VStr "data"; VStr "meta"]);
   ("properties", VObj [
    ("data", VObj [
     ("type", VStr "object");
     ("description", VStr "List of supported tokens.");
     ("properties", VObj [
      ("escrowedAmounts", VObj [("type", VStr "array"); ("items", VObj [("$ref", VStr "#/definitions/escrowedAmount")])]);
      ("supportedTokens", VObj [("type", VStr "array"); ("items", VObj [("$ref", VStr "#/definitions/supportedToken")])]);
      ("totalSupply", VObj [("type", VStr "array"); ("items", VObj [("$ref", VStr "#/definitions/totalSupply")])])])]);
    ("meta", VObj [("type", VStr "object")])])]);
  ("tokenConstantsWithEnvelope", VObj [
   ("type", VStr "object");
   ("required", VArr [VStr "data"; VStr "meta"]);
   ("properties", VObj [
    ("data", VObj [
     ("description", VStr "Token module constants.");
     ("type", VStr "object");
     ("required", VArr [VStr "extraCommandFees"]);
     ("properties", VObj [
      ("extraCommandFees", VObj [
       ("description", VStr "Extra fees associated (beyond the usual transaction fees) for the listed commands.");
       ("type", VStr "object");
       ("required", VArr [VStr "userAccountInitializationFee"; VStr "escrowAccountInitializationFee"]);
       ("properties", VObj [
        ("userAccountInitializationFee", VObj [
         ("type", VStr "string");
         ("example", VStr "5000000");
         ("description", VStr "The extra fee to be supplied for initializing a new user account.")]);
        ("escrowAccountInitializationFee", VObj [
         ("type", VStr "string");
         ("example", VStr "5000000");
         ("description", VStr "The extra fee to be supplied for initializing a new escrow account.")])])])])]);
    ("meta", VObj [("type", VStr "object")])])]);
  ("tokenAccountExistsWithEnvelope", VObj [
   ("type", VStr "object");
   ("required", VArr [VStr "data"; VStr "meta"]);
   ("properties", VObj [
    ("data", VObj [
     ("type", VStr "object");
     ("required", VArr [VStr "isExists"]);
     ("properties", VObj [
      ("isExists", VObj [
       ("type", VStr "boolean");
       ("example", VStr "true");
       ("description", VStr "Represents existence of the address in blockchain for the specified token.")])])]);
    ("meta", VObj [("type", VStr "object")])])])].

Definition v3_definitions_transactions : list (string * val) := [
  ("TransactionsStatisticsWithEnvelope", VObj [
   ("type", VStr "object");
   ("required", VArr [VStr "data"; VStr "meta"]);
   ("properties", VObj [
    ("data", VObj [("$ref", VStr "#/definitions/TransactionsStatistics")]);
    ("meta", VObj [("$ref", VStr "#/definitions/TransactionStatisticsMeta")])])]);
  ("TransactionStatisticsMeta", VObj [
   ("type", VStr "object");
   ("required", VArr [VStr "count"; VStr "offset"; VStr "total"; VStr "duration"; VStr "info"]);
   ("properties", VObj [
    ("count", VObj [
     ("type", VStr "integer");
     ("example", VNum 10);
     ("minimum", VNum 0);
     ("description", VStr "Number of timeline items per tokenID returned in the response.")]);
    ("offset", VObj [
     ("type", VStr "integer");
     ("example", VNum 10);
     ("minimum", VNum 0);
     ("description", VStr "Number of items skipped in the response.")]);
    ("total", VObj [
     ("type", VStr "integer");
     ("example", VNum 100);
     ("minimum", VNum 0);
     ("description", VStr "Total number of available timeline items per tokenID matching the request query.")]);
    ("duration", VObj [
     ("type", VStr "object");
     ("properties", VObj [
      ("format", VObj [
       ("type", VStr "string");
       ("example", VStr "YYYY-MM");
       ("description", VStr "Date/month format for the stated aggregation interval ('from' & 'to').")]);
      ("from", VObj [
       ("type", VStr "string");
       ("example", VStr "2021-12");
       ("description", VStr "Date/month representing the beginning of the aggregation interval.")]);
      ("to", VObj [
       ("type", VStr "string");
       ("example", VStr "2022-09");
       ("description", VStr "Date/month representing the ending of the aggregation interval.")])])])])]);
  ("TransactionsStatistics", VObj [
   ("type", VStr "object");
   ("description", VStr "Transactions statistics");
   ("required", VArr [VStr "distributionByType"; VStr "distributionByAmount"; VStr "timeline"]);
   ("properties", VObj [
    ("distributionByType", VObj [
     ("type", VStr "object");
     ("description", VStr "Count of transactions segregated by transaction type (i.e. moduleCommand) for the stated time interval in the response 'meta'.");
     ("properties", VObj [("token:transfer", VObj [("type", VStr "integer"); ("example", VNum 1)])])]);
    ("distributionByAmount", VObj [
     ("type", VStr "object");
     ("description", VStr "Count of Token Transfer transactions segregated by amount range for the stated time interval in the response 'meta'.");
     ("properties", VObj [
      ("0000000100000000", VObj [
       ("type", VStr "object");
       ("properties", VObj [("1_10", VObj [("type", VStr "integer"); ("example", VNum 1)])])])])]);
    ("timeline", VObj [
     ("type", VStr "object");
     ("properties", VObj [
      ("0000000100000000", VObj [
       ("type", VStr "array");
       ("items", VObj [
        ("type", VStr "object");
        ("required", VArr [VStr "timestamp"; VStr "date"; VStr "transactionCount"; VStr "volume"]);
        ("properties", VObj [
         ("timestamp", VObj [
          ("type", VStr "integer");
          ("description", VStr "UNIX timestamp representing the beginning of the aggregation interval.");
          ("example", VNum 1556100060)]);
         ("date", VObj [
          ("type", VStr "string");
          ("description", VStr "Date representing the beginning of the aggregation interval.");
          ("example", VStr "2019-11-27")]);
         ("transactionCount", VObj [
          ("type", VStr "integer");
          ("description", VStr "Count of all transactions in the given time span.");
          ("example", VStr "14447177193385")]);
         ("volume", VObj [
          ("type", VStr "integer");
          ("description", VStr "Sum of all transaction amounts and fees sent in the given time span (in Beddows).");
          ("example", VNum 14447177193385)])])])])])])])]);
  ("Transaction", VObj [
   ("type", VStr "object");
   ("required", VArr [
    VStr "id";
    VStr "moduleCommand";
    VStr "fee";
    VStr "minFee";
    VStr "size";
    VStr "nonce";
    VStr "block";
    VStr "sender";
    VStr "params";
    VStr "executionStatus"]);
   ("properties", VObj [
    ("id", VObj [
     ("type", VStr "string");
     ("format", VStr "id");
     ("example", VStr "f9593f101c4acafc3ede650ab4c10fa2ecb59b225813eddbbb17b47e96932e9b");
     ("minLength", VNum 1);
     ("maxLength", VNum 64);
     ("description", VStr "Unique identifier of the transaction.
Derived from the transaction signature.")]);
    ("moduleCommand", VObj [
     ("type", VStr "string");
     ("example", VStr "token:transfer");
     ("description", VStr "Combination of transaction moduleName:commandName.")]);
    ("nonce", VObj [("type", VStr "string"); ("example", VStr "0")]);
    ("fee", VObj [("type", VStr "string"); ("example", VStr "1000000"); ("description", VStr "Transaction fee.")]);
    ("minFee", VObj [
     ("type", VStr "string");
     ("example", VStr "75000");
     ("description", VStr "Minimum fee for the transaction.")]);
    ("size", VObj [
     ("type", VStr "integer");
     ("example", VNum 165);
     ("minimum", VNum 1);
     ("description", VStr "Transaction size in bytes.")]);
    ("block", VObj [
     ("type", VStr "object");
     ("properties", VObj [
      ("id", VObj [
       ("type", VStr "string");
       ("format", VStr "id");
       ("minLength", VNum 1);
       ("maxLength", VNum 64);
       ("example", VStr "01967dba384998026fe028119bd099ecf073c05c045381500a93d1a7c7307e5b");
       ("description", VStr "Unique identifier of the block.
Derived from the block signature.")]);
      ("height", VObj [
       ("type", VStr "integer");
       ("minimum", VNum 1);
       ("example", VNum 8350681);
       ("description", VStr "The height of the network, at the moment where this transaction was included in the blockchain.")]);
      ("timestamp", VObj [("type", VStr "integer"); ("example", VNum 1613323667); ("description", VStr "UNIX Timestamp")]);
      ("isFinal", VObj [("type", VStr "boolean"); ("example", VBool true)])])]);
    ("sender", VObj [
     ("type", VStr "object");
     ("properties", VObj [
      ("address", VObj [
       ("type", VStr "string");
       ("format", VStr "address");
       ("example", VStr "lskdwsyfmcko6mcd357446yatromr9vzgu7eb8y99");
       ("description", VStr "The Lisk Address is the human-readable representation of a blockchain account.
It is 41 character long identifier that begins with `lsk`.")]);
      ("publicKey", VObj [
       ("type", VStr "string");
       ("format", VStr "publicKey");
       ("example", VStr "b1d6bc6c7edd0673f5fed0681b73de6eb70539c21278b300f07ade277e1962cd");
       ("description", VStr "The public key is derived from the private key of the owner of the account.
It can be used to validate that the private key belongs to the owner, but not provide access to the owner's private key.")]);
      ("name", VObj [("type", VStr "string"); ("example", VStr "genesis_84"); ("description", VStr "Delegate name")])])]);
    ("params", VObj [
     ("type", VStr "object");
     ("properties", VObj [
      ("amount", VObj [
       ("type", VStr "string");
       ("example", VStr "100003490");
       ("description", VStr "Amount of Lisk (in Beddows) to be transferred in this transaction.")]);
      ("recipientAddress", VObj [
       ("type", VStr "string");
       ("example", VStr "lskz4upsnrwk75wmfurf6kbxsne2nkjqd3yzwdaup");
       ("description", VStr "The Lisk Address is the human-readable representation of a blockchain account.
It is a 41 characters long identifier that begins with `lsk`.")]);
      ("tokenID", VObj [
       ("type", VStr "string");
       ("example", VStr "0000000000000000");
       ("description", VStr "Unique token identifier.")]);
      ("data", VObj [("type", VStr "string"); ("example", VStr "test")])])]);
    ("executionStatus", VObj [
     ("type", VStr "string");
     ("example", VStr "success");
     ("description", VStr "Execution status of the transaction.
Accepted values: pending, success, fail.")]);
    ("index", VObj [
     ("type", VStr "integer");
     ("example", VNum 0);
     ("description", VStr "Transaction index (zero-based) within the block payload.")]);
    ("meta", VObj [
     ("type", VStr "object");
     ("properties", VObj [
      ("recipient", VObj [
       ("properties", VObj [
        ("address", VObj [
         ("type", VStr "string");
         ("format", VStr "address");
         ("example", VStr "lskdwsyfmcko6mcd357446yatromr9vzgu7eb8y99");
         ("description", VStr "The Lisk Address is the human-readable representation of a blockchain account.
It is 41 character long identifier that begins with `lsk`.")]);
        ("publicKey", VObj [
         ("type", VStr "string");
         ("format", VStr "publicKey");
         ("example", VStr "b1d6bc6c7edd0673f5fed0681b73de6eb70539c21278b300f07ade277e1962cd");
         ("description", VStr "The public key is derived from the private key of the owner of the account.
It can be used to validate that the private key belongs to the owner, but not provide access to the owner's private key.")]);
        ("name", VObj [
         ("type", VStr "string");
         ("example", VStr "genesis_84");
         ("description", VStr "Validator name.")])])])])])])]);
  ("TransactionsWithEnvelope", VObj [
   ("type", VStr "object");
   ("required", VArr [VStr "data"; VStr "meta"]);
   ("properties", VObj [
    ("data", VObj [
     ("description", VStr "List of transactions");
     ("type", VStr "array");
     ("items", VObj [("$ref", VStr "#/definitions/Transaction")])]);
    ("meta", VObj [("$ref", VStr "#/definitions/pagination")])])]);
  ("postTransactionWithEnvelope", VObj [
   ("type", VStr "object");
   ("properties", VObj [
    ("message", VObj [
     ("type", VStr "string");
     ("example", VStr "Transaction payload was successfully passed to the network node")]);
    ("transactionID", VObj [
     ("type", VStr "string");
     ("example", VStr "bfd3521aeddd586f43931b6972b5771e9919e18f2cc91e940a15eacb588ecc6c");
     ("description", VStr "Transaction ID")])])]);
  ("badRequestEnvelope", VObj [
   ("type", VStr "object");
   ("properties", VObj [
    ("error", VObj [("type", VStr "boolean"); ("example", VBool true)]);
    ("message", VObj [("type", VStr "string"); ("example", VStr "Transaction payload was rejected by the network node")])])]);
  ("serverErrorEnvelope", VObj [
   ("type", VStr "object");
   ("properties", VObj [
    ("error", VObj [("type", VStr "boolean"); ("example", VBool true)]);
    ("message", VObj [("type", VStr "string"); ("example", VStr "Unable to reach a network node")])])]);
  ("transactionParamEnvelope", VObj [
   ("type", VStr "object");
   ("properties", VObj [
    ("transaction", VObj [
     ("type", VStr "string");
     ("example", VStr "0a040000000212040000000018002080c2d72f2a2044c3cb523c0a069e3f2dcb2d5994b6ba8ff9f73cac9ae746922aac4bc22f95b132310a0800000001000000001080c2d72f1a14632228a3e6a67ac6892de2eb4f60abe2e3bc42a1220a73656e6420746f6b656e3a40964d81e28727e6567b0fcd8a7fcf0a03f401cadbc1c16b9a7f300a52c372022b51a4553865199af34b5f73765f970704fc443d2a6dd510a26748905c306e530b");
     ("description", VStr "Binary payload")])])]);
  ("dryrunTransactionParamEnvelope", VObj [
   ("type", VStr "object");
   ("properties", VObj [
    ("skipDecode", VObj [
     ("type", VStr "boolean");
     ("description", VStr "A boolean indicator to skip decoding event data.");
     ("example", VStr "false");
     ("default", VBool false)]);
    ("skipVerify", VObj [
     ("type", VStr "boolean");
     ("description", VStr "A boolean indicator to skip transaction verification.");
     ("example", VStr "false");
     ("default", VBool false)]);
    ("transaction", VObj [
     ("type", VStr "object");
     ("description", VStr "Binary payload or the transaction object.");
     ("properties", VObj [
      ("module", VObj [
       ("type", VStr "string");
       ("example", VStr "token");
       ("description", VStr "Name of the blockchain module associated with the transaction.")]);
      ("command", VObj [
       ("type", VStr "string");
       ("example", VStr "transfer");
       ("description", VStr "Specific command name in the module to be executed.")]);
      ("fee", VObj [("type", VStr "string"); ("example", VStr "100000000"); ("description", VStr "Transaction fee.")]);
      ("nonce", VObj [("type", VStr "string"); ("example", VStr "0")]);
      ("senderPublicKey", VObj [
       ("type", VStr "string");
       ("format", VStr "senderPublicKey");
       ("example", VStr "a3f96c50d0446220ef2f98240898515cbba8155730679ca35326d98dcfb680f0");
       ("description", VStr "The public key is derived from the private key of the owner of the account.
It can be used to validate that the private key belongs to the owner, but not provide access to the owner's private key.")]);
      ("signatures", VObj [
       ("type", VStr "string");
       ("example", VArr [
        VStr "48425002226745847e155cf5480478c2336a43bb178439e9058cc2b50e26335cf7c8360b6c6a49793d7ae8d087bc746cab9618655e6a0adba4694cce2015b50f"]);
       ("description", VStr "An array representing signature(s) of the transaction sender.")]);
      ("params", VObj [
       ("type", VStr "object");
       ("properties", VObj [
        ("recipientAddress", VObj [
         ("type", VStr "string");
         ("example", VStr "lskz4upsnrwk75wmfurf6kbxsne2nkjqd3yzwdaup");
         ("description", VStr "The Lisk Address is the human-readable representation of a blockchain account.
It is a 41 characters long identifier that begins with `lsk`.")]);
        ("amount", VObj [
         ("type", VStr "string");
         ("example", VStr "10000000000");
         ("description", VStr "Amount of Lisk (in Beddows) to be transferred in this transaction.")]);
        ("tokenID", VObj [
         ("type", VStr "string");
         ("example", VStr "0000000000000000");
         ("description", VStr "Unique token identifier.")]);
        ("data", VObj [
         ("type", VStr "string");
         ("example", VStr "Token transfer tx");
         ("description", VStr "Transaction data.")])])])])])])]);
  ("dryTransactionWithEnvelope", VObj [
   ("type", VStr "object");
   ("required", VArr [VStr "data"; VStr "meta"]);
   ("properties", VObj [
    ("data", VObj [
     ("type", VStr "object");
     ("required", VArr [VStr "result"; VStr "events"]);
     ("properties", VObj [
      ("result", VObj [("type", VStr "integer"); ("example", VNum 1)]);
      ("status", VObj [
       ("type", VStr "string");
       ("example", VStr "ok");
       ("description", VStr "Transaction verification status.")]);
      ("events", VObj [
       ("type", VStr "array");
       ("items", VObj [
        ("type", VStr "object");
        ("properties", VObj [
         ("data", VObj [
          ("type", VStr "object");
          ("properties", VObj [
           ("senderAddress", VObj [
            ("type", VStr "string");
            ("example", VStr "lskdwsyfmcko6mcd357446yatromr9vzgu7eb8y99");
            ("description", VStr "The Lisk Address is the human-readable representation of a blockchain account.
It is a 41 characters long identifier that begins with `lsk`.")]);
           ("tokenID", VObj [
            ("type", VStr "string");
            ("example", VStr "0000000000000000");
            ("description", VStr "Unique token identifier.")]);
           ("amount", VObj [
            ("type", VStr "string");
            ("example", VStr "100003490");
            ("description", VStr "Amount of tokens transferred in this transaction. The type of token can be identified by the 'tokenID' property.")]);
           ("recipientAddress", VObj [
            ("type", VStr "string");
            ("example", VStr "lskdwsyfmcko6mcd357446yatromr9vzgu7eb8y99");
            ("description", VStr "The Lisk Address is the human-readable representation of a blockchain account.
It is a 41 characters long identifier that begins with `lsk`.")]);
           ("result", VObj [("type", VStr "integer"); ("example", VNum 1)])])]);
         ("index", VObj [("type", VStr "integer"); ("example", VNum 0)]);
         ("module", VObj [("type", VStr "string"); ("example", VStr "token")]);
         ("name", VObj [("type", VStr "string"); ("example", VStr "transfer")]);
         ("topics", VObj [
          ("type", VStr "array");
          ("items", VObj [("type", VStr "string")]);
          ("example", VArr [
           VStr "86afcdd640846bf41525481938653ee942be3fac1ecbcff08e98f9aeda3a9583";
           VStr "lskdwsyfmcko6mcd357446yatromr9vzgu7eb8y99";
           VStr "0000000000000000";
           VStr "lskdwsyfmcko6mcd357446yatromr9vzgu7eb8y99"])]);
         ("height", VObj [("type", VStr "number"); ("example", VNum 10)]);
         ("id", VObj [
          ("type", VStr "string");
          ("format", VStr "id");
          ("example", VStr "f9593f101c4acafc3ede650ab4c10fa2ecb59b225813eddbbb17b47e96932e9b");
          ("minLength", VNum 1);
          ("maxLength", VNum 64);
          ("description", VStr "Unique identifier of the transaction.
Derived from the transaction signature.")])])])]);
      ("errorMessage", VObj [
       ("type", VStr "string");
       ("example", VStr "Failed to validate signature '6de57983d8b61a9f7a303f70541fe6f7f1f2d8a12390cefb522ec53c698ed5888432b0179ed12e6624a89b68b0f1c600c2aa568d18885b13ec8dd189a7d2c208' for transaction with id '3f8e0c25154a18d1abf114e2f63a0bd0e56f8a0114b6207381cd32c061452cd1'");
       ("description", VStr "Available only when result is -1.")])])]);
    ("meta", VObj [("type", VStr "object"); ("properties", VObj [])])])])].

Definition v3_definitions_validators : list (string * val) := [
  ("validatorWithEnvelope", VObj [
   ("type", VStr "object");
   ("required", VArr [VStr "data"; VStr "meta"]);
   ("properties", VObj [
    ("data", VObj [
     ("type", VStr "object");
     ("description", VStr "Validator information for a given address.");
     ("properties", VObj [
      ("generatorKey", VObj [
       ("type", VStr "string");
       ("format", VStr "id");
       ("example", VStr "4f3034d6704e8a38098083695822a3da");
       ("description", VStr "Generator key")]);
      ("blsKey", VObj [
       ("type", VStr "string");
       ("format", VStr "id");
       ("example", VStr "3c95f7931d61909ff092375fc8ad2bc35e393b62d5cca902");
       ("description", VStr "BLS key")])])]);
    ("meta", VObj [
     ("type", VStr "object");
     ("required", VArr [VStr "address"; VStr "publicKey"]);
     ("properties", VObj [
      ("address", VObj [
       ("type", VStr "string");
       ("format", VStr "address");
       ("example", VStr "lskdwsyfmcko6mcd357446yatromr9vzgu7eb8y99");
       ("description", VStr "The Lisk Address is the human-readable representation of a blockchain account.
It is 41 character long identifier that begins with `lsk`.")]);
      ("publicKey", VObj [
       ("type", VStr "string");
       ("format", VStr "publicKey");
       ("example", VStr "b1d6bc6c7edd0673f5fed0681b73de6eb70539c21278b300f07ade277e1962cd")]);
      ("name", VObj [("type", VStr "string"); ("example", VStr "genesis_84"); ("description", VStr "Validator name")])])])])]);
  ("blsKeyValidationWithEnvelope", VObj [
   ("type", VStr "object");
   ("required", VArr [VStr "data"; VStr "meta"]);
   ("properties", VObj [
    ("data", VObj [
     ("type", VStr "object");
     ("description", VStr "Validity of the supplied BLS key and Proof of Possession.");
     ("properties", VObj [
      ("isValid", VObj [
       ("type", VStr "boolean");
       ("example", VStr "true");
       ("description", VStr "Returns a boolean representing the validity of the supplied BLS key and Proof of Possession.")])])]);
    ("meta", VObj [("type", VStr "object"); ("properties", VObj [])])])]);
  ("blsKeyValidationParamEnvelope", VObj [
   ("type", VStr "object");
   ("properties", VObj [
    ("blsKey", VObj [
     ("type", VStr "string");
     ("example", VStr "b301803f8b5ac4a1133581fc676dfedc60d891dd5fa99028805e5ea5b08d3491af75d0707adab3b70c6a6a580217bf81");
     ("description", VStr "The BLS key.")]);
    ("proofOfPossession", VObj [
     ("type", VStr "string");
     ("example", VStr "88bb31b27eae23038e14f9d9d1b628a39f5881b5278c3c6f0249f81ba0deb1f68aa5f8847854d6554051aa810fdf1cdb02df4af7a5647b1aa4afb60ec6d446ee17af24a8a50876ffdaf9bf475038ec5f8ebeda1c1c6a3220293e23b13a9a5d26");
     ("description", VStr "The Proof of Possession corresponding to the specified BLS key.")])])])].

Definition v3_parameters_audios : list (string * val) := [
  ("creatorAddress", VObj [
   ("name", VStr "creatorAddress");
   ("in", VStr "query");
   ("description", VStr "Lisk account address");
   ("type", VStr "string");
   ("minLength", VNum 3);
   ("maxLength", VNum 41)]);
  ("audioID", VObj [
   ("name", VStr "audioID");
   ("in", VStr "query");
   ("description", VStr "audio ID to query");
   ("type", VStr "string");
   ("format", VStr "id");
   ("minLength", VNum 1);
   ("maxLength", VNum 64)])].

Definition v3_parameters_blockchainApps : list (string * val) := [
  ("name", VObj [
   ("name", VStr "name");
   ("in", VStr "query");
   ("description", VStr "Blockchain application name.");
   ("type", VStr "string");
   ("minLength", VNum 1);
   ("maxLength", VNum 20)]);
  ("chainID", VObj [
   ("name", VStr "chainID");
   ("in", VStr "query");
   ("description", VStr "Chain ID to query.");
   ("type", VStr "string");
   ("format", VStr "id");
   ("minLength", VNum 8);
   ("maxLength", VNum 8)]);
  ("chainIDCSV", VObj [
   ("name", VStr "chainID");
   ("in", VStr "query");
   ("description", VStr "Chain ID to query (can be expressed as CSV).");
   ("type", VStr "string");
   ("format", VStr "id");
   ("minLength", VNum 8)]);
  ("blockchainAppStatus", VObj [
   ("name", VStr "status");
   ("in", VStr "query");
   ("description", VStr "Status of the blockchain application. Can be expressed as CSV.
Accepted values: 'registered', 'active', 'terminated'.");
   ("type", VStr "string")]);
  ("network", VObj [
   ("name", VStr "network");
   ("in", VStr "query");
   ("description", VStr "Network for which the application metadata is to be queried (can be expressed as CSV).

Available values: mainnet, testnet, betanet, alphanet, devnet.");
   ("type", VStr "string");
   ("minLength", VNum 1)]);
  ("blockchainAppSearch", VObj [
   ("name", VStr "search");
   ("in", VStr "query");
   ("description", VStr "Search by name. Supports both partial and full text search.");
   ("type", VStr "string");
   ("minLength", VNum 1);
   ("maxLength", VNum 20)]);
  ("chainName", VObj [
   ("name", VStr "chainName");
   ("in", VStr "query");
   ("description", VStr "Chain name to query.");
   ("type", VStr "string");
   ("minLength", VNum 1)])].

Definition v3_parameters_blockchainAppsMeta : list (string * val) := [
  ("isDefault", VObj [
   ("name", VStr "isDefault");
   ("in", VStr "query");
   ("description", VStr "Filter default blockchain application.");
   ("type", VStr "boolean");
   ("minLength", VNum 1)])].

Definition v3_parameters_blocks : list (string * val) := [
  ("blockID", VObj [
   ("name", VStr "blockID");
   ("in", VStr "query");
   ("description", VStr "Block ID to query");
   ("type", VStr "string");
   ("format", VStr "id");
   ("minLength", VNum 1);
   ("maxLength", VNum 64)]);
  ("generatorAddress", VObj [
   ("name", VStr "generatorAddress");
   ("in", VStr "query");
   ("description", VStr "Lisk account address");
   ("type", VStr "string");
   ("format", VStr "address");
   ("minLength", VNum 1);
   ("maxLength", VNum 41)]);
  ("module", VObj [
   ("name", VStr "module");
   ("in", VStr "query");
   ("description", VStr "Module name to query");
   ("type", VStr "string");
   ("minLength", VNum 1)])].

Definition v3_parameters_collections : list (string * val) := [
  ("creatorAddress", VObj [
   ("name", VStr "creatorAddress");
   ("in", VStr "query");
   ("description", VStr "Lisk account address");
   ("type", VStr "string");
   ("minLength", VNum 3);
   ("maxLength", VNum 41)]);
  ("collectionID", VObj [
   ("name", VStr "collectionID");
   ("in", VStr "query");
   ("description", VStr "collection ID to query");
   ("type", VStr "string");
   ("format", VStr "id");
   ("minLength", VNum 1);
   ("maxLength", VNum 64)])].

Definition v3_parameters_commandsParamsSchemas : list (string * val) := [
  ("moduleCommand", VObj [
   ("name", VStr "moduleCommand");
   ("in", VStr "query");
   ("description", VStr "Combination of moduleName:commandName");
   ("type", VStr "string");
   ("minLength", VNum 1)])].

Definition v3_parameters_common : list (string * val) := [
  ("addressCsv", VObj [
   ("name", VStr "address");
   ("in", VStr "query");
   ("description", VStr "Address of the account to query (can be expressed as CSV).");
   ("type", VStr "string");
   ("format", VStr "address");
   ("minLength", VNum 41)]);
  ("address", VObj [
   ("name", VStr "address");
   ("in", VStr "query");
   ("description", VStr "Lisk account address.");
   ("type", VStr "string");
   ("format", VStr "address");
   ("minLength", VNum 41);
   ("maxLength", VNum 41)]);
  ("limit", VObj [
   ("in", VStr "query");
   ("name", VStr "limit");
   ("description", VStr "Limit to apply to the query results.");
   ("type", VStr "integer");
   ("format", VStr "int32");
   ("minimum", VNum 1);
   ("maximum", VNum 100);
   ("default", VNum 10)]);
  ("offset", VObj [
   ("name", VStr "offset");
   ("in", VStr "query");
   ("description", VStr "Offset to apply to the query results.");
   ("type", VStr "integer");
   ("format", VStr "int32");
   ("minimum", VNum 0);
   ("default", VNum 0)]);
  ("height", VObj [
   ("name", VStr "height");
   ("in", VStr "query");
   ("description", VStr "Query by height or a height range (fromHeight:toHeight, both inclusive).");
   ("type", VStr "string");
   ("minimum", VNum 0)]);
  ("blockHeight", VObj [
   ("name", VStr "height");
   ("in", VStr "query");
   ("description", VStr "Block height to query.");
   ("type", VStr "number");
   ("minimum", VNum 0)]);
  ("timestamp", VObj [
   ("name", VStr "timestamp");
   ("in", VStr "query");
   ("description", VStr "Query by timestamp or a timestamp range (fromTimestamp:toTimestamp, both inclusive).");
   ("type", VStr "string");
   ("minLength", VNum 1)]);
  ("search", VObj [
   ("in", VStr "query");
   ("name", VStr "search");
   ("description", VStr "Search query. Supports both partial and full case-insensitive text search.");
   ("type", VStr "string");
   ("minLength", VNum 1)])].

Definition v3_parameters_events : list (string * val) := [
  ("topic", VObj [
   ("name", VStr "topic");
   ("in", VStr "query");
   ("description", VStr "Event topic to query (can be expressed as CSV)");
   ("type", VStr "string");
   ("minLength", VNum 1)])].

Definition v3_parameters_invoke : list (string * val) := [
  ("invokeParams", VObj [
   ("name", VStr "body");
   ("in", VStr "body");
   ("required", VBool true);
   ("description", VStr "The request body can contain 2 properties:
- endpoint (required): Blockchain application endpoint to invoke
- params (optional): Parameters to be passed to the application endpoint");
   ("schema", VObj [("$ref", VStr "#/definitions/invokeParamsEnvelope")])])].

Definition v3_parameters_peers : list (string * val) := [
  ("ip", VObj [
   ("name", VStr "ip");
   ("in", VStr "query");
   ("description", VStr "IP of the node.");
   ("type", VStr "string");
   ("format", VStr "ip")]);
  ("networkVersion", VObj [
   ("name", VStr "networkVersion");
   ("in", VStr "query");
   ("description", VStr "Network version.");
   ("type", VStr "string");
   ("format", VStr "version")]);
  ("state", VObj [
   ("name", VStr "state");
   ("in", VStr "query");
   ("description", VStr "Current state of the network.");
   ("type", VStr "integer");
   ("format", VStr "int32");
   ("minimum", VNum 0);
   ("maximum", VNum 2)])].

Definition v3_parameters_pos : list (string * val) := [
  ("validatorStatus", VObj [
   ("name", VStr "status");
   ("in", VStr "query");
   ("description", VStr "Query validators by status (can be expressed as CSV).");
   ("type", VStr "string");
   ("minLength", VNum 1)]);
  ("validatorName", VObj [
   ("name", VStr "name");
   ("in", VStr "query");
   ("description", VStr "Query validators by their registered name.");
   ("type", VStr "string");
   ("minLength", VNum 1)]);
  ("accountName", VObj [
   ("name", VStr "name");
   ("in", VStr "query");
   ("description", VStr "Query account by the registered name.");
   ("type", VStr "string");
   ("minLength", VNum 1)]);
  ("validatorNameCsv", VObj [
   ("name", VStr "name");
   ("in", VStr "query");
   ("description", VStr "Query validators by their registered name (can be expressed as CSV).");
   ("type", VStr "string");
   ("minLength", VNum 1)]);
  ("validatorSearch", VObj [
   ("name", VStr "search");
   ("in", VStr "query");
   ("description", VStr "Validator name text search phrase. Supports both partial and full text search.");
   ("type", VStr "string");
   ("minLength", VNum 1);
   ("maxLength", VNum 20)]);
  ("isLocked", VObj [
   ("name", VStr "isLocked");
   ("in", VStr "query");
   ("description", VStr "Query pending unlocks filtered by lock status.");
   ("type", VStr "boolean")])].

Definition v3_parameters_profiles : list (string * val) := [
  ("creatorAddress", VObj [
   ("name", VStr "creatorAddress");
   ("in", VStr "query");
   ("description", VStr "Lisk account address");
   ("type", VStr "string");
   ("minLength", VNum 3);
   ("maxLength", VNum 41)]);
  ("profileID", VObj [
   ("name", VStr "profileID");
   ("in", VStr "query");
   ("description", VStr "profile ID to query");
   ("type", VStr "string");
   ("format", VStr "id");
   ("minLength", VNum 1);
   ("maxLength", VNum 64)])].

Definition v3_parameters_subscriptions : list (string * val) := [
  ("creatorAddress", VObj [
   ("name", VStr "creatorAddress");
   ("in", VStr "query");
   ("description", VStr "Lisk account address");
   ("type", VStr "string");
   ("minLength", VNum 3);
   ("maxLength", VNum 41)]);
  ("subscriptionID", VObj [
   ("name", VStr "subscriptionID");
   ("in", VStr "query");
   ("description", VStr "subscription ID to query");
   ("type", VStr "string");
   ("format", VStr "id");
   ("minLength", VNum 1);
   ("maxLength", VNum 64)])].

Definition v3_parameters_tokens : list (string * val) := [
  ("tokenID", VObj [
   ("name", VStr "tokenID");
   ("in", VStr "query");
   ("description", VStr "Token ID to query.");
   ("type", VStr "string");
   ("format", VStr "id");
   ("minLength", VNum 16);
   ("maxLength", VNum 16)]);
  ("tokenIDCSV", VObj [
   ("name", VStr "tokenID");
   ("in", VStr "query");
   ("description", VStr "Token ID to query (can be expressed as CSV).");
   ("type", VStr "string");
   ("format", VStr "id");
   ("minLength", VNum 16)]);
  ("tokenName", VObj [
   ("name", VStr "tokenName");
   ("in", VStr "query");
   ("description", VStr "Token name to query (can be expressed as CSV).");
   ("type", VStr "string");
   ("minLength", VNum 1)])].

Definition v3_parameters_transactions : list (string * val) := [
  ("executionStatus", VObj [
   ("name", VStr "executionStatus");
   ("in", VStr "query");
   ("description", VStr "Retrieve pending transactions.
Accepted values: pending, success, fail.");
   ("type", VStr "string");
   ("minLength", VNum 1)]);
  ("transaction", VObj [
   ("name", VStr "body");
   ("in", VStr "body");
   ("required", VBool true);
   ("description", VStr "The request body can contain only one property:
- transaction (required): Binary payload");
   ("schema", VObj [("$ref", VStr "#/definitions/transactionParamEnvelope")])]);
  ("dryrunTransaction", VObj [
   ("name", VStr "dryrunTransaction");
   ("in", VStr "body");
   ("required", VBool true);
   ("description", VStr "The request body can contain three properties:
- transaction (required): Binary payload or a transaction object
- skipVerify (optional, default: false): A boolean indicator to skip the transaction verification
- skipDecode (optional, default: false): A boolean indicator to skip the auto-decoding of the event data");
   ("schema", VObj [("$ref", VStr "#/definitions/dryrunTransactionParamEnvelope")])]);
  ("recipientAddress", VObj [
   ("name", VStr "recipientAddress");
   ("in", VStr "query");
   ("description", VStr "Lisk account address");
   ("type", VStr "string");
   ("minLength", VNum 3);
   ("maxLength", VNum 41)]);
  ("senderAddress", VObj [
   ("name", VStr "senderAddress");
   ("in", VStr "query");
   ("description", VStr "Lisk account address");
   ("type", VStr "string");
   ("minLength", VNum 3);
   ("maxLength", VNum 41)]);
  ("transactionID", VObj [
   ("name", VStr "transactionID");
   ("in", VStr "query");
   ("description", VStr "Transaction ID to query");
   ("type", VStr "string");
   ("format", VStr "id");
   ("minLength", VNum 1);
   ("maxLength", VNum 64)]);
  ("nonce", VObj [
   ("name", VStr "nonce");
   ("in", VStr "query");
   ("description", VStr "Query by nonce");
   ("type", VStr "string");
   ("minLength", VNum 1)])].

Definition v3_parameters_validator : list (string * val) := [
  ("validateBLSKeyParams", VObj [
   ("name", VStr "body");
   ("in", VStr "body");
   ("required", VBool true);
   ("description", VStr "The request body must contain two properties:
- blsKey (required): The BLS key.
- proofOfPossession (required): The Proof of Possession corresponding to the BLS key.");
   ("schema", VObj [("$ref", VStr "#/definitions/blsKeyValidationParamEnvelope")])])].

Definition v3_responses : list (string * val) := [
  ("responses", VObj [
   ("badParameter", VObj [("description", VStr "Bad request"); ("schema", VObj [("$ref", VStr "#/definitions/badRequest")])]);
   ("notFound", VObj [("description", VStr "Not found"); ("schema", VObj [("$ref", VStr "#/definitions/notFound")])])])].

Definition exports_apiJson : list (string * val) := [
  ("apiJson", VObj [
   ("swagger", VStr "2.0");
   ("info", VObj [
    ("title", VStr "Lisk Service API");
    ("version", VStr "3.0");
    ("contact", VObj [("email", VStr "admin@lisk.com")]);
    ("description", VStr ("# Lisk Service API Documentation

Lisk Service is a middleware web application that interacts with the entire Lisk ecosystem in various aspects, such as accessing blockchain data (both on-chain and off-chain information), retrieving and storing market data, and exporting account history.

The main focus of this project is to provide data to Lisk blockchain users by serving them in a standardized JSON format and exposing a public RESTful API. The project is split into several smaller components (microservices) each focused on serving a single specific purpose. 

As a pure backend project, it is designed to meet the requirements of front-end developers, especially Lisk Desktop and Lisk Mobile.

The API can be accessed at `https://service.lisk.com`.
It is also possible to access the Testnet network at `https://testnet-service.lisk.com`.

The Lisk Service API is compatible with RESTful guidelines. The specification below contains numerous examples of how to use the API in practice.

## Endpoint Logic

The logic of the endpoints are as follows:
- the structure is always based on `/<root_entity>/<object>/<properties>`

## Responses

All responses are returned in the JSON format - `application/json`.

Each API request has the following structure:

```
{
  " +:+ String dq "" +:+ "data" +:+ String dq "" +:+ ": {}, // Contains the requested data
  " +:+ String dq "" +:+ "meta" +:+ String dq "" +:+ ": {}, // Contains additional metadata, e.g. the values of `limit` and `offset`
}
```

And, the error responses adhere to the following structure:

```
{
  " +:+ String dq "" +:+ "error" +:+ String dq "" +:+ ": true,
  " +:+ String dq "" +:+ "message" +:+ String dq "" +:+ ": " +:+ String dq "" +:+ "Not found" +:+ String dq "" +:+ ", // Contains the error message
}
```"));
    ("license", VObj [("name", VStr "GPL v3.0"); ("url", VStr "https://www.gnu.org/licenses/gpl-3.0.en.html")])]);
   ("basePath", VStr "/api/v3");
   ("tags", VArr [
    VObj [
     ("name", VStr "Account History Export");
     ("description", VStr "Lisk network transaction history export API.")]]);
   ("schemes", VArr [VStr "http"; VStr "https"]);
   ("paths", VObj [])])].

Definition exports_definitions_export : list (string * val) := [
  ("ExportScheduled", VObj [
   ("type", VStr "object");
   ("required", VArr [VStr "address"]);
   ("properties", VObj [
    ("address", VObj [
     ("type", VStr "string");
     ("format", VStr "address");
     ("example", VStr "lskdwsyfmcko6mcd357446yatromr9vzgu7eb8y99");
     ("description", VStr "The Lisk Address is the human readable representation of the accounts owners' public key.
It is 41 character long address thats begins with `lsk`.
")]);
    ("publicKey", VObj [
     ("type", VStr "string");
     ("format", VStr "publicKey");
     ("example", VStr "b1d6bc6c7edd0673f5fed0681b73de6eb70539c21278b300f07ade277e1962cd");
     ("description", VStr "The public key is derived from the private key of the owner of the account.
It can be used to validate that the private key belongs to the owner, but not provide access to the owners private key.
")]);
    ("interval", VObj [
     ("type", VStr "string");
     ("format", VStr "interval");
     ("example", VStr "2020-10-01:2020-10-31");
     ("description", VStr "The date interval for which the transactions need to be exported.
")])])]);
  ("ExportScheduledWithEnvelope", VObj [
   ("type", VStr "object");
   ("required", VArr [VStr "data"; VStr "meta"]);
   ("properties", VObj [
    ("data", VObj [
     ("description", VStr "Transaction history export information");
     ("type", VStr "object");
     ("$ref", VStr "#/definitions/ExportScheduled")]);
    ("meta", VObj [
     ("type", VStr "object");
     ("properties", VObj [
      ("ready", VObj [
       ("type", VStr "boolean");
       ("example", VStr "false");
       ("description", VStr "False when scheduled to export. True when already exported and available for download")])])]);
    ("links", VObj [("type", VStr "object")])])]);
  ("ExportFile", VObj [
   ("type", VStr "object");
   ("required", VArr [VStr "address"]);
   ("properties", VObj [
    ("address", VObj [
     ("type", VStr "string");
     ("format", VStr "address");
     ("example", VStr "lskdwsyfmcko6mcd357446yatromr9vzgu7eb8y99");
     ("description", VStr "The Lisk Address is the human readable representation of the accounts owners' public key.
It is 41 character long address thats begins with `lsk`.
")]);
    ("publicKey", VObj [
     ("type", VStr "string");
     ("format", VStr "publicKey");
     ("example", VStr "b1d6bc6c7edd0673f5fed0681b73de6eb70539c21278b300f07ade277e1962cd");
     ("description", VStr "The public key is derived from the private key of the owner of the account.
It can be used to validate that the private key belongs to the owner, but not provide access to the owners private key.
")]);
    ("interval", VObj [
     ("type", VStr "string");
     ("format", VStr "interval");
     ("example", VStr "2020-10-01:2020-10-31");
     ("description", VStr "The date interval for which the transactions need to be exported.
")]);
    ("fileName", VObj [
     ("type", VStr "string");
     ("format", VStr "fileName");
     ("example", VStr "transactions_<address>_<from>_<to>.csv");
     ("description", VStr "The name of the file containing the exported account transaction history.
")]);
    ("fileUrl", VObj [
     ("type", VStr "string");
     ("format", VStr "fileUrl");
     ("example", VStr "/api/v3/exports/transactions_<address>_<from>_<to>.csv");
     ("description", VStr "The file URL path containing the exported account transaction history.
")])])]);
  ("ExportFileUrlWithEnvelope", VObj [
   ("type", VStr "object");
   ("required", VArr [VStr "data"; VStr "meta"]);
   ("properties", VObj [
    ("data", VObj [
     ("description", VStr "Transaction history export information");
     ("type", VStr "object");
     ("$ref", VStr "#/definitions/ExportFile")]);
    ("meta", VObj [
     ("type", VStr "object");
     ("properties", VObj [
      ("ready", VObj [
       ("type", VStr "boolean");
       ("example", VStr "true");
       ("description", VStr "True when already exported and available for download. False when scheduled to export")])])]);
    ("links", VObj [("type", VStr "object")])])])].

Definition exports_parameters_export : list (string * val) := [
  ("address", VObj [
   ("name", VStr "address");
   ("in", VStr "query");
   ("description", VStr "Address of the account to query");
   ("type", VStr "string");
   ("format", VStr "address");
   ("minLength", VNum 41);
   ("maxLength", VNum 41)]);
  ("publicKey", VObj [
   ("name", VStr "publicKey");
   ("in", VStr "query");
   ("description", VStr "Public key of the account to query");
   ("type", VStr "string");
   ("format", VStr "publicKey");
   ("minLength", VNum 64);
   ("maxLength", VNum 64)]);
  ("interval", VObj [
   ("name", VStr "interval");
   ("in", VStr "query");
   ("description", VStr "Date interval to query in YYYY-MM-DD format");
   ("type", VStr "string");
   ("format", VStr "interval");
   ("minLength", VNum 10);
   ("maxLength", VNum 21)]);
  ("filename", VObj [
   ("name", VStr "filename");
   ("in", VStr "query");
   ("description", VStr "Filename");
   ("required", VBool true);
   ("type", VStr "string");
   ("minLength", VNum 80);
   ("maxLength", VNum 80)])].

Definition exports_responses : list (string * val) := [
  ("responses", VObj [
   ("badParameter", VObj [("description", VStr "Bad request"); ("schema", VObj [("$ref", VStr "#/definitions/badRequest")])]);
   ("notFound", VObj [("description", VStr "Not found"); ("schema", VObj [("$ref", VStr "#/definitions/notFound")])])])].

End Swagger.

(** The files below swagger: the directories definitions and parameters, and the files beside them. *)
Definition definitionFiles (apiName : string) : result (list (list (string * val))) :=
  match apiName with
  | "http-version3" => Ok [Swagger.v3_definitions_audios; Swagger.v3_definitions_auth;
      Swagger.v3_definitions_blockchainApps; Swagger.v3_definitions_blocks;
      Swagger.v3_definitions_collections; Swagger.v3_definitions_dynamicReward; Swagger.v3_definitions_error;
      Swagger.v3_definitions_events; Swagger.v3_definitions_fees; Swagger.v3_definitions_generators;
      Swagger.v3_definitions_indexStatus; Swagger.v3_definitions_invoke; Swagger.v3_definitions_legacyAccount;
      Swagger.v3_definitions_market; Swagger.v3_definitions_meta; Swagger.v3_definitions_networkStatistics;
      Swagger.v3_definitions_networkStatus; Swagger.v3_definitions_peers; Swagger.v3_definitions_pos;
      Swagger.v3_definitions_profiles; Swagger.v3_definitions_schemas; Swagger.v3_definitions_subscriptions;
      Swagger.v3_definitions_tokens; Swagger.v3_definitions_transactions; Swagger.v3_definitions_validators]
  | "http-exports" => Ok [Swagger.exports_definitions_export]
  | _ => Err (mkExn "Error" "ENOENT: no such file or directory")
  end.

Definition parameterFiles (apiName : string) : result (list (list (string * val))) :=
  match apiName with
  | "http-version3" => Ok [Swagger.v3_parameters_audios; Swagger.v3_parameters_blockchainApps;
      Swagger.v3_parameters_blockchainAppsMeta; Swagger.v3_parameters_blocks;
      Swagger.v3_parameters_collections; Swagger.v3_parameters_commandsParamsSchemas;
      Swagger.v3_parameters_common; Swagger.v3_parameters_events; Swagger.v3_parameters_invoke;
      Swagger.v3_parameters_peers; Swagger.v3_parameters_pos; Swagger.v3_parameters_profiles;
      Swagger.v3_parameters_subscriptions; Swagger.v3_parameters_tokens; Swagger.v3_parameters_transactions;
      Swagger.v3_parameters_validator]
  | "http-exports" => Ok [Swagger.exports_parameters_export]
  | _ => Err (mkExn "Error" "ENOENT: no such file or directory")
  end.

Definition otherFiles (apiName : string) : result (list (list (string * val))) :=
  match apiName with
  | "http-version3" => Ok [Swagger.v3_apiJson; Swagger.v3_responses]
  | "http-exports" => Ok [Swagger.exports_apiJson; Swagger.exports_responses]
  | _ => Err (mkExn "Error" "ENOENT: no such file or directory")
  end.

(** [requireAllJson(apiName)]: the directories are read first, in the order
    of their names. *)
Definition requireAllJson (apiName : string) : result (list (string * val)) :=
  others ← otherFiles apiName;
  definitions ← definitionFiles apiName;
  parameters ← parameterFiles apiName;
  let assign := fold_left ospread in
  let data := [("definitions", VObj (assign definitions [])); ("parameters", VObj (assign parameters []))] in
  Ok (assign others data).

(** ** shared/generateDocs.js *)
Module Docs.

(** The paths of an API: [apiJsonPaths] with those of its routes. *)
Definition createApiDocs (apiName : string) (apiJsonPaths : list (string * val)) (registeredModuleNames : list string)
    : result (list (string * val)) :=
  services ← schemasIn apiName None;
  let methods := fold_left (λ services moduleName,
    match schemasIn apiName (Some moduleName) with
    | Ok files => ospread services files
    | Err _ => services
    end) registeredModuleNames services in
  methods ← (if truthy (default VUndef (oget methods "postTransactions")) then
    transactions ← prop (default VUndef (oget methods "transactions")) "/transactions";
    posts ← prop (default VUndef (oget methods "postTransactions")) "/transactions";
    post ← prop posts "post";
    _ ← (match transactions with
         | VUndef | VNull => Err (mkExn "TypeError" ("Cannot set properties of " +:+ tpl transactions +:+ " (setting 'post')"))
         | _ => Ok tt
         end);
    Ok (oset methods "transactions" (VObj (oset (props (default VUndef (oget methods "transactions"))) "/transactions"
          (VObj (oset (props transactions) "post" post)))))
    else Ok methods);
  Ok (fold_left (λ paths kv, ospread paths (props kv.2)) methods apiJsonPaths).

Definition or_empty (v : val) : list (string * val) := props (js_or v (VObj [])).

(** The documentation [finalDoc] with that of an API, its tags and paths given. *)
Definition addDocs (json : list (string * val)) (apiTags : list val) (apiDocs finalDoc : list (string * val)) : list (string * val) :=
  let get k := default VUndef (oget json k) in
  let had k := default VUndef (oget finalDoc k) in
  let params := ospread (or_empty (had "parameters")) (props (get "parameters")) in
  let defs := ospread (or_empty (had "definitions")) (props (get "definitions")) in
  let allResponses := ospread (or_empty (had "responses")) (props (get "responses")) in
  let tags := arr_of (js_or (had "tags") (VArr [])) ++ apiTags in
  let paths := ospread (or_empty (had "paths")) apiDocs in
  ospread finalDoc (ospread (ospread [] (props (get "apiJson")))
    [("parameters", VObj params); ("definitions", VObj defs); ("responses", VObj allResponses);
     ("tags", VArr tags); ("paths", VObj paths)]).

Definition addApi (registeredModuleNames : list string) (finalDoc : list (string * val)) (api : string)
    : result (list (string * val)) :=
  json ← requireAllJson api;
  apiTags ← prop (default VUndef (oget json "apiJson")) "tags";
  tags ← (match apiTags with VArr l => Ok l | _ => Err (mkExn "TypeError" "apiJson.tags.forEach is not a function") end);
  apiPaths ← prop (default VUndef (oget json "apiJson")) "paths";
  apiDocs ← createApiDocs api (props apiPaths) registeredModuleNames;
  Ok (addDocs json tags apiDocs finalDoc).

(** config.js: [config.api.versions] *)
Definition api_versions : list (string * list string) := [("/api/v3", ["http-version3"; "http-exports"])].

Fixpoint addApis (registeredModuleNames : list string) (finalDoc : list (string * val)) (apis : list string)
    : result (list (string * val)) :=
  match apis with
  | [] => Ok finalDoc
  | api :: r => finalDoc ← addApi registeredModuleNames finalDoc api; addApis registeredModuleNames finalDoc r
  end.

Definition genDocs (baseUrl : string) (registeredModuleNames : list string) : result val :=
  match find_index (λ kv, bool_decide (kv.1 = baseUrl)) api_versions ≫= (λ i, api_versions !! i) with
  | None => Ok (VObj [("info", VObj [("description", VStr ("This route offers no specs for " +:+ baseUrl +:+ "."))])])
  | Some (_, apis) => finalDoc ← addApis registeredModuleNames [] apis; Ok (VObj finalDoc)
  end.
End Docs.

(** ** References that lead nowhere *)

(** The references in a value, at any depth. *)
Fixpoint refs (v : val) : list string :=
  match v with
  | VArr l => (fix go l := match l with [] => [] | x :: r => refs x ++ go r end) l
  | VObj o => (fix go o := match o with
      | [] => []
      | (k, x) :: r => (if decide (k = "$ref") then match x with VStr s => [s] | _ => [] end else refs x) ++ go r
      end) o
  | _ => []
  end.

(** A reference names a definition or a parameter of the document. *)
Definition resolves (doc : list (string * val)) (r : string) : bool :=
  match split_char "/" r with
  | ["#"; section; name] =>
      (bool_decide (section = "definitions") || bool_decide (section = "parameters"))
      && has_key (props (default VUndef (oget doc section))) name
  | _ => false
  end.

Definition dangling : list string :=
  ["#/definitions/audiosWithEnvelope"; "#/definitions/collectionsWithEnvelope"; "#/definitions/profilesWithEnvelope";
   "#/definitions/subscriptionsWithEnvelope"; "#/parameters/ownerAddress"; "#/parameters/memberAddress";
   "#/definitions/Audios"; "#/definitions/Collections"; "#/definitions/Profiles"; "#/definitions/Subscriptions"].

(** *** Assignments *)

Lemma elem_of_oset o k v kv : kv ∈ oset o k v → kv ∈ o ∨ kv = (k, v).
Proof.
  induction o as [|[k0 v0] o IH]; simpl; [intros ->%list_elem_of_singleton; by right|].
  case_decide as E; intros [->|Hin]%elem_of_cons.
  - right. by subst.
  - left. by right.
  - left. by left.
  - destruct (IH Hin) as [?| ->]; [left; by right|by right].
Qed.

Lemma elem_of_ospread a b kv : kv ∈ ospread a b → kv ∈ a ∨ kv ∈ b.
Proof.
  unfold ospread. revert a. induction b as [|[k v] b IH]; intros a Hin; [by left|]. cbn in Hin.
  destruct (IH _ Hin) as [[Ha| ->]%elem_of_oset|Hb]; [by left|right; by left|right; by right].
Qed.

Lemma oget_ospread a b k : NoDup (okeys b) → oget (ospread a b) k = match oget b k with Some v => Some v | None => oget a k end.
Proof.
  intros Hb. destruct (oget b k) as [v|] eqn:E; [|by apply oget_ospread_None]. by apply oget_ospread_Some.
Qed.

(** The files of the registered modules are among those of the table. *)
Lemma schemasIn_table api m files : schemasIn api m = Ok files → (api, m, files) ∈ schemaTables.
Proof.
  unfold schemasIn. destruct (List.find _ schemaTables) as [[am f]|] eqn:Ef; [|done]. intros [= <-].
  apply List.find_some in Ef as [Hin Heq]. apply bool_decide_eq_true in Heq. cbn in Heq |- *. subst am. by apply list_elem_of_In.
Qed.

Section api.
Context (api : string).

Definition withModules (names : list string) (services : list (string * val)) : list (string * val) :=
  fold_left (λ services moduleName,
    match schemasIn api (Some moduleName) with
    | Ok files => ospread services files
    | Err _ => services
    end) names services.

Definition moduleFiles : list (string * val) :=
  concat (map snd (List.filter (λ e, bool_decide (e.1.1 = api) && negb (bool_decide (e.1.2 = None))) schemaTables)).

Lemma moduleFiles_in m files kv : schemasIn api (Some m) = Ok files → kv ∈ files → kv ∈ moduleFiles.
Proof.
  intros Ht%schemasIn_table Hin. unfold moduleFiles. apply list_elem_of_In, in_concat. exists files.
  split; [|by apply list_elem_of_In]. apply in_map_iff. exists (api, Some m, files). split; [done|].
  apply filter_In. split; [by apply list_elem_of_In|]. cbn. by rewrite !bool_decide_eq_true_2.
Qed.

Lemma withModules_in names services kv : kv ∈ withModules names services → kv ∈ services ∨ kv ∈ moduleFiles.
Proof.
  unfold withModules. revert services. induction names as [|m names IH]; intros services Hin; [by left|]. cbn in Hin.
  apply IH in Hin as [Hin|?]; [|by right]. destruct (schemasIn api (Some m)) as [files|] eqn:Em; [|by left].
  apply elem_of_ospread in Hin as [?|?]; [by left|right; by eapply moduleFiles_in].
Qed.

(** A file of the generic methods that no module has too. *)
Lemma withModules_get names services k :
  k ∉ okeys moduleFiles → oget (withModules names services) k = oget services k.
Proof.
  intros Hk. unfold withModules. revert services. induction names as [|m names IH]; intros services; [done|]. cbn.
  rewrite IH. destruct (schemasIn api (Some m)) as [files|] eqn:Em; [|done]. apply oget_ospread_None, oget_not_elem_of.
  intros [v Hin]%elem_of_okeys. apply Hk, elem_of_okeys. exists v. by eapply moduleFiles_in.
Qed.
End api.

(** *** The paths *)

(** The paths of a list of methods. *)
Definition pathsOf (methods acc : list (string * val)) : list (string * val) :=
  fold_left (λ paths kv, ospread paths (props kv.2)) methods acc.

Lemma pathsOf_in methods acc px : px ∈ pathsOf methods acc → px ∈ acc ∨ ∃ kv, kv ∈ methods ∧ px ∈ props kv.2.
Proof.
  unfold pathsOf. revert acc. induction methods as [|m methods IH]; intros acc Hin; [by left|].
  apply IH in Hin as [[?|?]%elem_of_ospread|(kv & ? & ?)]; [by left| |]; right; [exists m; by split; [left|]|exists kv; by split; [right|]].
Qed.

(** A path that one method describes, and no other. *)
Lemma pathsOf_get methods acc p x kv :
  Forall (λ kv, NoDup (okeys (props kv.2))) methods → (∀ kv', kv' ∈ methods → is_Some (oget (props kv'.2) p) → oget (props kv'.2) p = Some x) →
  kv ∈ methods → oget (props kv.2) p = Some x → oget (pathsOf methods acc) p = Some x.
Proof.
  intros Hnd Hu Hin Hx. unfold pathsOf.
  assert (oget acc p = Some x ∨ ∃ kv, kv ∈ methods ∧ oget (props kv.2) p = Some x) as H by (right; by exists kv).
  clear kv Hin Hx. revert acc H. induction Hnd as [|m methods Hm Hnd IH]; intros acc H.
  - destruct H as [?|(? & ?%elem_of_nil & _)]; done.
  - cbn. apply IH; [intros ? Hin; apply Hu; by right|]. rewrite oget_ospread by done.
    destruct (oget (props m.2) p) as [y|] eqn:Ey.
    + left. rewrite <- Ey. apply Hu; [by left|by rewrite Ey].
    + destruct H as [?|(kv & [->|Hin]%elem_of_cons & Hkv)]; [by left|congruence|right; by exists kv].
Qed.

(** *** createApiDocs *)

Notation v3 := "http-version3".

Definition genericMethods : list (string * val) := match schemasIn v3 None with Ok l => l | Err _ => [] end.

(** The method transactions with that of postTransactions. *)
Definition transactionsWithPost : val :=
  let transactions := field transactions_schema "/transactions" in
  VObj (oset (props transactions_schema) "/transactions"
    (VObj (oset (props transactions) "post" (field (field postTransactions_schema "/transactions") "post")))).

Definition v3Methods (names : list string) : list (string * val) :=
  oset (withModules v3 names genericMethods) "transactions" transactionsWithPost.

Lemma createApiDocs_v3 names : Docs.createApiDocs v3 [] names = Ok (pathsOf (v3Methods names) []).
Proof.
  assert (∀ k v, oget genericMethods k = Some v → bool_decide (k ∈ okeys (moduleFiles v3)) = false →
            oget (withModules v3 names genericMethods) k = Some v) as Hget.
  { intros k v Hv Hk%bool_decide_eq_false. by rewrite withModules_get. }
  unfold Docs.createApiDocs. change (schemasIn v3 None) with (Ok genericMethods). cbn [mbind result_mbind result_bind].
  fold (withModules v3 names genericMethods).
  rewrite (Hget "postTransactions" postTransactions_schema), (Hget "transactions" transactions_schema) by (vm_compute; reflexivity).
  reflexivity.
Qed.

Lemma createApiDocs_exports names paths :
  Docs.createApiDocs "http-exports" paths names = Docs.createApiDocs "http-exports" paths [].
Proof.
  unfold Docs.createApiDocs. destruct (schemasIn "http-exports" None) as [base|]; [|done]. cbn [mbind result_mbind result_bind].
  replace (fold_left _ names base) with base; [done|]. symmetry. induction names as [|m names IH]; [done|]. cbn.
  destruct (schemasIn "http-exports" (Some m)) as [files|] eqn:Em; [|exact IH].
  apply schemasIn_table, list_elem_of_In in Em. exfalso.
  assert (forallb (λ e, negb (bool_decide (e.1.1 = "http-exports")) || bool_decide (e.1.2 = None)) schemaTables = true) as H
    by (vm_compute; reflexivity).
  rewrite forallb_forall in H. by apply H in Em.
Qed.

(** All that can be among the methods. *)
Definition anyMethod : list (string * val) := genericMethods ++ moduleFiles v3 ++ [("transactions", transactionsWithPost)].

Lemma v3Methods_in names kv : kv ∈ v3Methods names → kv ∈ anyMethod.
Proof.
  unfold v3Methods, anyMethod. intros [[?|?]%withModules_in| ->]%elem_of_oset; rewrite !elem_of_app; [by left|right; by left|].
  right; right. by left.
Qed.

Lemma v3Methods_get names k v :
  oget genericMethods k = Some v → bool_decide (k ∈ "transactions" :: okeys (moduleFiles v3)) = false → (k, v) ∈ v3Methods names.
Proof.
  intros Hv [Hne Hk]%bool_decide_eq_false%not_elem_of_cons. apply oget_elem_of. unfold v3Methods.
  rewrite oget_oset_ne by done. by rewrite withModules_get.
Qed.

(** What holds of every path there can be. *)
Lemma v3_paths_all (P : string * val → bool) names :
  forallb (λ kv, forallb P (props kv.2)) anyMethod = true → ∀ px, px ∈ pathsOf (v3Methods names) [] → P px = true.
Proof.
  rewrite forallb_forall. intros Hall px [?%elem_of_nil|(kv & Hkv & Hpx)]%pathsOf_in; [done|].
  apply v3Methods_in, list_elem_of_In, Hall in Hkv. rewrite forallb_forall in Hkv. by apply Hkv, list_elem_of_In.
Qed.


(** A path that only the method [k] describes. *)
Lemma v3_paths_get names k v p x :
  oget genericMethods k = Some v → oget (props v) p = Some x →
  bool_decide (k ∈ "transactions" :: okeys (moduleFiles v3)) = false →
  forallb (λ kv, bool_decide (NoDup (okeys (props kv.2))) && (bool_decide (kv.1 = k) || negb (has_key (props kv.2) p))) anyMethod = true →
  NoDup (okeys genericMethods) →
  oget (pathsOf (v3Methods names) []) p = Some x.
Proof.
  intros Hv Hx Hk Hall Hnd. rewrite forallb_forall in Hall.
  assert (∀ kv, kv ∈ v3Methods names → NoDup (okeys (props kv.2)) ∧ (kv.1 = k ∨ has_key (props kv.2) p = false)) as Hm.
  { intros kv Hin%v3Methods_in%list_elem_of_In%Hall. apply andb_true_iff in Hin as [Hn Ho]. split; [by apply bool_decide_eq_true in Hn|].
    apply orb_true_iff in Ho as [Ho|Ho]; [left; by apply bool_decide_eq_true in Ho|right; by apply negb_true_iff]. }
  eapply (pathsOf_get _ _ p x (k, v)); [| |by apply v3Methods_get|exact Hx].
  - apply Forall_forall. intros kv Hin. by apply Hm.
  - intros [k' v'] Hin [y Hy]. destruct (Hm _ Hin) as [_ [Hk'|Hn]]; [|unfold has_key in Hn; by rewrite Hy in Hn].
    cbn in Hk'. subst k'. apply bool_decide_eq_false in Hk as Hk'. apply not_elem_of_cons in Hk' as [Hne Hmod].
    assert (v' = v) as ->; [|done].
    unfold v3Methods in Hin. apply elem_of_oset in Hin as [[Hin|Hin]%withModules_in|[= -> _]]; [| |done].
    + apply (oget_Some_elem _ _ _ Hnd) in Hin. congruence.
    + exfalso. apply Hmod, elem_of_okeys. by exists v'.
Qed.

(** *** genDocs *)

Definition jsonOf (api : string) : list (string * val) := match requireAllJson api with Ok j => j | Err _ => [] end.
Definition tagsOf (api : string) : list val := arr_of (field (default VUndef (oget (jsonOf api) "apiJson")) "tags").
Definition exportPaths : list (string * val) := match Docs.createApiDocs "http-exports" [] [] with Ok p => p | Err _ => [] end.

(** The document, for the paths of version 3. *)
Definition document (v3Paths : list (string * val)) : list (string * val) :=
  Docs.addDocs (jsonOf "http-exports") (tagsOf "http-exports") exportPaths (Docs.addDocs (jsonOf v3) (tagsOf v3) v3Paths []).

Lemma addApi_eq names doc api paths :
  requireAllJson api = Ok (jsonOf api) → prop (default VUndef (oget (jsonOf api) "apiJson")) "tags" = Ok (VArr (tagsOf api)) →
  prop (default VUndef (oget (jsonOf api) "apiJson")) "paths" = Ok (VObj []) → Docs.createApiDocs api [] names = Ok paths →
  Docs.addApi names doc api = Ok (Docs.addDocs (jsonOf api) (tagsOf api) paths doc).
Proof.
  intros H1 H2 H3 H4. unfold Docs.addApi. rewrite H1. cbn [mbind result_mbind result_bind]. rewrite H2.
  cbn [mbind result_mbind result_bind]. rewrite H3. cbn [mbind result_mbind result_bind props]. by rewrite H4.
Qed.

Lemma genDocs_eq names : Docs.genDocs "/api/v3" names = Ok (VObj (document (pathsOf (v3Methods names) []))).
Proof.
  change (Docs.genDocs "/api/v3" names) with (d ← Docs.addApis names [] [v3; "http-exports"]; Ok (VObj d)).
  cbn [Docs.addApis]. rewrite (addApi_eq _ _ v3 (pathsOf (v3Methods names) [])) by first [apply createApiDocs_v3|vm_compute; reflexivity].
  cbn [mbind result_mbind result_bind]. rewrite (addApi_eq _ _ "http-exports" exportPaths); [done|vm_compute; reflexivity..|].
  rewrite createApiDocs_exports. vm_compute. reflexivity.
Qed.

(** But for the paths the document does not depend on them. *)
Lemma addDocs_get json tags paths paths' doc doc' k :
  (∀ k, k ≠ "paths" → oget doc k = oget doc' k) → k ≠ "paths" →
  oget (Docs.addDocs json tags paths doc) k = oget (Docs.addDocs json tags paths' doc') k.
Proof.
  intros Hd Hk. unfold Docs.addDocs. rewrite !(Hd "parameters"), !(Hd "definitions"), !(Hd "responses"), !(Hd "tags") by done.
  set (o := ospread [] _). assert (NoDup (okeys o)) as Ho by (apply NoDup_okeys_ospread; constructor).
  rewrite !oget_ospread by (try apply NoDup_okeys_ospread; try done; apply (bool_decide_unpack _); vm_compute; exact I).
  cbn [oget]. repeat case_decide; try done. destruct (oget o k); [done|]. by apply Hd.
Qed.

Lemma addDocs_paths json tags paths doc :
  oget (Docs.addDocs json tags paths doc) "paths" = Some (VObj (ospread (Docs.or_empty (default VUndef (oget doc "paths"))) paths)).
Proof.
  unfold Docs.addDocs. set (o := ospread [] _). assert (NoDup (okeys o)) as Ho by (apply NoDup_okeys_ospread; constructor).
  rewrite !oget_ospread by (try apply NoDup_okeys_ospread; try done; apply (bool_decide_unpack _); vm_compute; exact I). reflexivity.
Qed.

Lemma NoDup_addDocs json tags paths doc : NoDup (okeys doc) → NoDup (okeys (Docs.addDocs json tags paths doc)).
Proof. apply NoDup_okeys_ospread. Qed.

#[local] Opaque jsonOf tagsOf exportPaths.

Lemma document_get paths k : k ≠ "paths" → oget (document paths) k = oget (document []) k.
Proof. intros Hk. unfold document. apply addDocs_get; [|done]. intros k' Hk'. by apply addDocs_get. Qed.

Lemma document_paths paths : NoDup (okeys paths) → oget (document paths) "paths" = Some (VObj (ospread paths exportPaths)).
Proof.
  intros Hp. unfold document. generalize (jsonOf "http-exports") (tagsOf "http-exports") (jsonOf v3) (tagsOf v3) exportPaths.
  intros j2 t2 j1 t1 ps. rewrite !addDocs_paths. cbn [default oget]. change (Docs.or_empty VUndef) with (@nil (string * val)).
  by rewrite (ospread_nil paths).
Qed.

Lemma NoDup_document paths : NoDup (okeys (document paths)).
Proof. unfold document. apply NoDup_addDocs, NoDup_addDocs. constructor. Qed.

(** The names there are. *)
Definition namesIn (section : string) : list string := okeys (props (default VUndef (oget (document []) section))).
Definition definitionNames : list string := Eval vm_compute in namesIn "definitions".
Definition parameterNames : list string := Eval vm_compute in namesIn "parameters".
Lemma definitionNames_eq : namesIn "definitions" = definitionNames.
Proof. vm_compute. reflexivity. Qed.
Lemma parameterNames_eq : namesIn "parameters" = parameterNames.
Proof. vm_compute. reflexivity. Qed.

#[local] Opaque document v3Methods.

Definition known (r : string) : bool :=
  match split_char "/" r with
  | ["#"; section; name] =>
      (bool_decide (section = "definitions") && bool_decide (name ∈ definitionNames))
      || (bool_decide (section = "parameters") && bool_decide (name ∈ parameterNames))
  | _ => false
  end.

Lemma has_key_okeys o k : has_key o k = bool_decide (k ∈ okeys o).
Proof.
  destruct (has_key o k) eqn:E; symmetry; [apply bool_decide_eq_true; by apply has_key_true|].
  apply bool_decide_eq_false. intros Hk%has_key_true. congruence.
Qed.

Lemma resolves_document paths r : resolves (document paths) r = known r.
Proof.
  unfold resolves, known. destruct (split_char "/" r) as [|h [|section [|name [|]]]]; try done; try (by repeat case_match).
  destruct (decide (section = "definitions")) as [->|Hd].
  { rewrite document_get, has_key_okeys by done. change (okeys (props _)) with (namesIn "definitions"). rewrite definitionNames_eq.
    change (bool_decide ("definitions" = "parameters")) with false. rewrite orb_false_r, (bool_decide_eq_true_2 ("definitions" = _)) by done.
    cbn [andb orb]. by rewrite orb_false_r. }
  rewrite (bool_decide_eq_false_2 (section = "definitions")) by done. cbn [orb andb].
  destruct (decide (section = "parameters")) as [->|Hp].
  { rewrite document_get, has_key_okeys by done. change (okeys (props _)) with (namesIn "parameters"). by rewrite parameterNames_eq. }
  rewrite (bool_decide_eq_false_2 (section = "parameters")) by done. by repeat case_match.
Qed.

(** *** The references of an object *)

Definition refs_at (k : string) (x : val) : list string :=
  if decide (k = "$ref") then match x with VStr s => [s] | _ => [] end else refs x.

Lemma refs_obj o r : r ∈ refs (VObj o) ↔ ∃ k x, (k, x) ∈ o ∧ r ∈ refs_at k x.
Proof.
  induction o as [|[k x] o IH]; [split; [intros ?%elem_of_nil|intros (? & ? & ?%elem_of_nil & _)]; done|].
  change (refs (VObj ((k, x) :: o))) with (refs_at k x ++ refs (VObj o)). rewrite elem_of_app, IH. split.
  - intros [?|(k' & x' & ? & ?)]; [exists k, x; by split; [left|]|exists k', x'; by split; [right|]].
  - intros (k' & x' & [[= -> ->]|?]%elem_of_cons & ?); [by left|right; by exists k', x'].
Qed.

(** *** The theorem *)

Definition accounted (kv : string * val) : bool :=
  forallb (λ r, known r || bool_decide (r ∈ dangling)) (refs_at kv.1 kv.2).

Lemma accounted_spec kv r : accounted kv = true → r ∈ refs_at kv.1 kv.2 → known r = false → r ∈ dangling.
Proof.
  unfold accounted. rewrite forallb_forall. intros Hall Hin%list_elem_of_In%Hall Hn. rewrite Hn in Hin. by apply bool_decide_eq_true in Hin.
Qed.

Lemma NoDup_pathsOf methods acc : NoDup (okeys acc) → NoDup (okeys (pathsOf methods acc)).
Proof. unfold pathsOf. revert acc. induction methods as [|m methods IH]; intros acc Ha; [done|]. by apply IH, NoDup_okeys_ospread. Qed.

(** The references of the document: those outside its paths, and those of its paths. *)
Lemma document_refs paths r : NoDup (okeys paths) →
  r ∈ refs (VObj (document paths)) ↔
    r ∈ refs (VObj (odel (document []) "paths")) ∨ r ∈ refs (VObj (ospread paths exportPaths)).
Proof.
  intros Hp. pose proof (document_paths paths Hp) as Hps. rewrite (refs_obj (document paths)), (refs_obj (odel _ _)). split.
  - intros (k & x & Hkx%(oget_Some_elem _ _ _ (NoDup_document paths)) & Hr). destruct (decide (k = "paths")) as [->|Hk].
    + right. rewrite Hps in Hkx. by injection Hkx as <-.
    + left. exists k, x. split; [|done]. apply oget_elem_of. rewrite oget_odel, decide_False by congruence. by rewrite <- (document_get paths).
  - intros [(k & x & Hin & Hr)|Hr]; [|exists "paths", (VObj (ospread paths exportPaths)); by split; [apply oget_elem_of|]].
    unfold odel in Hin. apply list_elem_of_filter in Hin as [Hk Hin]. cbn in Hk.
    exists k, x. split; [|done]. apply oget_elem_of. rewrite document_get by done. apply oget_Some_elem; [apply NoDup_document|done].
Qed.

(** The references outside the paths. *)
Definition staticRefs : list string := Eval vm_compute in refs (VObj (odel (document []) "paths")).
Lemma staticRefs_eq : refs (VObj (odel (document []) "paths")) = staticRefs.
Proof. vm_compute. reflexivity. Qed.

(** The routes whose description refers to what is not there. *)
Definition brokenRoutes : list (string * val * string * string) :=
  [("audios", audios_schema, "/audios", "#/definitions/audiosWithEnvelope");
   ("collections", collections_schema, "/collections", "#/definitions/collectionsWithEnvelope");
   ("profiles", profiles_schema, "/profiles", "#/definitions/profilesWithEnvelope");
   ("subscriptions", subscriptions_schema, "/subscriptions", "#/definitions/subscriptionsWithEnvelope");
   ("audios", audios_schema, "/audios", "#/parameters/ownerAddress");
   ("subscriptions", subscriptions_schema, "/subscriptions", "#/parameters/memberAddress")].

Definition only_described_by (k p : string) : bool :=
  bool_decide (k ∉ "transactions" :: okeys (moduleFiles v3)) &&
  forallb (λ kv, bool_decide (NoDup (okeys (props kv.2))) && (bool_decide (kv.1 = k) || negb (has_key (props kv.2) p))) anyMethod.

Lemma broken_in_paths names k v p r :
  (k, v, p, r) ∈ brokenRoutes → r ∈ refs (VObj (ospread (pathsOf (v3Methods names) []) exportPaths)).
Proof.
  intros Hin%list_elem_of_In.
  assert (forallb (λ '(k, v, p, r), only_described_by k p && negb (has_key exportPaths p) &&
            match oget genericMethods k ≫= (λ v, oget (props v) p) with
            | Some x => bool_decide (r ∈ refs_at p x)
            | None => false
            end) brokenRoutes = true) as Hall by (vm_compute; reflexivity).
  rewrite forallb_forall in Hall. apply Hall in Hin. unfold only_described_by in Hin.
  repeat (apply andb_true_iff in Hin as [Hin ?]). destruct (oget genericMethods k) as [v'|] eqn:Ev; [|done]. cbn in *.
  destruct (oget (props v') p) as [x|] eqn:Ex; [|done].
  apply refs_obj. exists p, x. split; [|by apply (bool_decide_eq_true (r ∈ _))].
  apply oget_elem_of. rewrite oget_ospread_None.
  - eapply v3_paths_get; [exact Ev|exact Ex| |done|apply (bool_decide_unpack _); vm_compute; exact I].
    apply bool_decide_eq_false. by apply bool_decide_eq_true in Hin.
  - unfold has_key in *. by destruct (oget exportPaths p).
Qed.

(** The documentation of version 3 is always produced, whatever modules are
    registered, and its references that name no definition and no parameter
    of it are exactly those of [dangling]: six in the descriptions of the
    audios, collections, profiles and subscriptions, four in the definitions. *)
Theorem docs_dangling names :
  ∃ doc, Docs.genDocs "/api/v3" names = Ok (VObj doc) ∧
    ∀ r, r ∈ refs (VObj doc) ∧ resolves doc r = false ↔ r ∈ dangling.
Proof.
  eexists. split; [apply genDocs_eq|]. intros r. set (paths := pathsOf _ _).
  rewrite document_refs, staticRefs_eq, resolves_document by (apply NoDup_pathsOf; constructor). split.
  - intros [[Hr|(p & x & Hin & Hr)%refs_obj] Hn].
    + assert (forallb (λ r, known r || bool_decide (r ∈ dangling)) staticRefs = true) as Hall by (vm_compute; reflexivity).
      rewrite forallb_forall in Hall. apply list_elem_of_In, Hall in Hr. rewrite Hn in Hr. by apply bool_decide_eq_true in Hr.
    + apply (accounted_spec (p, x)); [|done..]. apply elem_of_ospread in Hin as [Hin|Hin].
      * revert Hin. apply v3_paths_all. vm_compute. reflexivity.
      * apply list_elem_of_In in Hin. revert Hin. apply (forallb_forall accounted). vm_compute. reflexivity.
  - intros Hr. assert (forallb (λ r, negb (known r) &&
      (bool_decide (r ∈ staticRefs) || bool_decide (r ∈ map snd brokenRoutes))) dangling = true) as Hall
      by (vm_compute; reflexivity).
    rewrite forallb_forall in Hall. apply list_elem_of_In, Hall in Hr. apply andb_true_iff in Hr as [Hn Ho].
    split; [|by apply negb_true_iff]. apply orb_true_iff in Ho as [Ho|Ho]; apply bool_decide_eq_true in Ho; [by left|right].
    apply list_elem_of_In, in_map_iff in Ho as ([[[k v] p] r'] & <- & Hin%list_elem_of_In). by eapply broken_in_paths.
Qed.
