(* ===== verification/MapperThms.v ===== *)
(** * What a mapped response looks like

    The loop of the gateway's mapper over a definition, entry by entry, and
    the shape of what it returns. *)
From S2P Require Export GatewayThms.
Open Scope string_scope.
Open Scope Z_scope.
Open Scope list_scope.
Import ApiUtils ParamValidator CustomMapper.

Section responses.
Context {DT : Dates}.

(** The items of a list. *)
Definition mapItems (innerDef : val) : list val → result (list val) :=
  fix items_of (l : list val) : result (list val) :=
  match l with
  | [] => Ok []
  | item :: r =>
      v ← mapObject innerDef item item;
      t ← items_of r;
      Ok (if validate v then v :: t else t)
  end.

(** One entry of a definition, and all of them. *)
Definition mapEntry (rootObj subObj : val) (acc : list (string * val)) (key : string) (def : val) :
    result (list (string * val)) :=
  match def with
  | VStr s => v ← mapString rootObj subObj key s; Ok (oset acc key v)
  | VArr [source; innerDef] =>
      match match source with VStr "" => rootObj | VStr path => resolvePath rootObj path | _ => VUndef end with
      | VArr items => tempArr ← mapItems innerDef items; Ok (oset acc key (VArr tempArr))
      | _ => Ok acc
      end
  | VArr [innerDef] =>
      tempObj ← mapObject innerDef rootObj rootObj;
      Ok (if validate tempObj then oset acc key (VArr [tempObj]) else acc)
  | VObj _ | VNull =>
      r ← prop rootObj key;
      match r with
      | VNull => Ok acc
      | _ =>
          sub ← prop subObj key;
          tempObj ← mapObject def rootObj sub;
          Ok (if objWithValues (map snd (props tempObj)) && validate tempObj then oset acc key tempObj else acc)
      end
  | _ => Ok acc
  end.

Definition mapEntries (rootObj subObj : val) : list (string * val) → list (string * val) → result (list (string * val)) :=
  fix go (o acc : list (string * val)) : result (list (string * val)) :=
  match o with
  | [] => Ok acc
  | (key, def) :: r => acc' ← mapEntry rootObj subObj acc key def; go r acc'
  end.

Lemma mapObject_entries o rootObj subObj :
  mapObject (VObj o) rootObj subObj =
  (acc ← mapEntries rootObj (or_root subObj rootObj) o []; Ok (VObj acc)).
Proof. reflexivity. Qed.

(** A mapped value: of the type its definition names, or one the code leaves alone. *)
Definition typed (ty : string) (v : val) : Prop :=
  (ty = "string" → ∃ s, v = VStr s) ∧
  (ty = "number" → (∃ z, v = VNum z) ∨ ∃ f, v = VFlt f) ∧
  (ty = "boolean" → ∃ b, v = VBool b)
  ∨ (truthy v = false ∧ strict_eq v (VNum 0) = false).

(** A value that conforms to a definition. *)
Inductive conforms : val → val → Prop :=
  | conf_str s v : typed (path_type s).2 v → conforms (VStr s) v
  | conf_obj d r :
      okeys r `sublist_of` okeys d →
      (∀ k s, (k, VStr s) ∈ d → is_Some (oget r k)) →
      (∀ k def x, (k, def) ∈ d → oget r k = Some x → conforms def x) →
      conforms (VObj d) (VObj r)
  | conf_list source inner l : Forall (conforms inner) l → conforms (VArr [source; inner]) (VArr l)
  | conf_one inner x : conforms inner x → conforms (VArr [inner]) (VArr [x]).

(** Definitions made of strings, objects and lists with an object for their items. *)
Fixpoint wf_def (def : val) : bool :=
  match def with
  | VStr _ => true
  | VObj o => bool_decide (NoDup (okeys o)) && forallb (λ kv, wf_def kv.2) o
  | VArr [VStr _; VObj _ as inner] | VArr [VObj _ as inner] => wf_def inner
  | _ => false
  end.

Lemma num_of_flt_number f : (∃ z, num_of_flt f = VNum z) ∨ ∃ g, num_of_flt f = VFlt g.
Proof. unfold num_of_flt. repeat case_match; by eauto. Qed.

Lemma to_number_number v : (∃ z, to_number v = VNum z) ∨ ∃ f, to_number v = VFlt f.
Proof.
  destruct v; simpl; try apply num_of_flt_number; try (by eauto).
  unfold num_of_Z. case_match; by eauto.
Qed.

Lemma cast_typed ty v x : cast ty v = Ok x → typed ty x.
Proof.
  intros H. left. split_and!; intros ->; injection H as <-; [by eauto|apply to_number_number|by eauto].
Qed.

Lemma mapString_typed root sub k s x : mapString root sub k s = Ok x → typed (path_type s).2 x.
Proof.
  unfold mapString. destruct (path_type s) as [path ty]. cbn [snd]. intros H. inv_res.
  destruct (truthy a || strict_eq a (VNum 0)) eqn:E; cbn [andb] in H.
  - destruct (bool_decide (ty = "")) eqn:Et; cbn [negb] in H; [|by eapply cast_typed].
    apply bool_decide_eq_true in Et as ->. left. split_and!; done.
  - inv_res. subst a. apply orb_false_iff in E as [??]. by right.
Qed.

(** An entry sets its key or nothing. *)
Lemma mapEntry_key root sub acc k def acc' :
  mapEntry root sub acc k def = Ok acc' → acc' = acc ∨ ∃ x, acc' = oset acc k x.
Proof.
  unfold mapEntry. intros H.
  repeat (case_match; inv_res; subst; eauto; try done); inv_res; subst; eauto.
Qed.

Lemma mapItems_Forall (P : val → Prop) inner l l' :
  (∀ item v, mapObject inner item item = Ok v → P v) → mapItems inner l = Ok l' → Forall P l'.
Proof.
  intros HP. revert l'. induction l as [|x l IH]; intros l' H; cbn [mapItems] in H; inv_res.
  - subst. constructor.
  - fold (mapItems inner) in *. subst. case_match; [constructor; [by eapply HP|]|]; by apply IH.
Qed.

(** What an entry of a well-formed definition does to the result. *)
Definition entry_ok (def : val) : Prop :=
  ∀ root sub acc k acc', mapEntry root sub acc k def = Ok acc' →
    (acc' = acc ∧ isString def = false) ∨ ∃ x, acc' = oset acc k x ∧ conforms def x.

Lemma mapEntries_conform o root sub acc r :
  Forall (λ kv, entry_ok kv.2) o → NoDup (okeys o) → (∀ k, k ∈ okeys o → oget acc k = None) →
  mapEntries root sub o acc = Ok r →
  (∃ ks, okeys r = okeys acc ++ ks ∧ ks `sublist_of` okeys o) ∧
  (∀ k, k ∉ okeys o → oget r k = oget acc k) ∧
  (∀ k s, (k, VStr s) ∈ o → is_Some (oget r k)) ∧
  (∀ k def x, (k, def) ∈ o → oget r k = Some x → conforms def x).
Proof.
  revert acc. induction o as [|[k def] o IH]; intros acc Ho Hnd Hacc H; cbn [mapEntries] in H.
  { inv_res. subst r. split_and!; [exists []; by rewrite app_nil_r|done| |];
      [intros k s ?%elem_of_nil|intros k d x ?%elem_of_nil]; done. }
  fold (mapEntries root sub) in H. inv_res. apply Forall_cons in Ho as [Hdef Ho].
  change (okeys ((k, def) :: o)) with (k :: okeys o) in *. apply NoDup_cons in Hnd as [Hk Hnd].
  assert (oget acc k = None) as Hk0 by (apply Hacc; by left).
  assert (okeys a = okeys acc ++ (if has_key a k then [k] else []) ∧
    (∀ k', k' ≠ k → oget a k' = oget acc k') ∧ (isString def = true → is_Some (oget a k)) ∧
    (∀ x, oget a k = Some x → conforms def x)) as (Hkeys & Hother & Hstr & Hconf).
  { destruct (Hdef _ _ _ _ _ Hr) as [[-> Hs]|(x & -> & Hx)].
    - unfold has_key. rewrite Hk0. split_and!; [by rewrite app_nil_r|done|intros Hs'; simpl in Hs; by rewrite Hs in Hs'|done].
    - split_and!.
      + rewrite okeys_oset. unfold has_key. by rewrite Hk0, oget_oset_eq.
      + intros k' Hk'. by rewrite oget_oset_ne.
      + intros _. rewrite oget_oset_eq. by eauto.
      + intros y. rewrite oget_oset_eq. by intros [= <-]. }
  destruct (IH a Ho Hnd) as ((ks & Hks & Hsub) & Hout & Hs & Hc); [|done|].
  { intros k' Hk'. rewrite Hother by (intros ->; done). apply Hacc. by right. }
  assert (oget r k = oget a k) as Hrk by (by apply Hout).
  split_and!.
  - rewrite Hks, Hkeys, <- app_assoc. eexists. split; [done|].
    destruct (has_key a k); simpl; [by apply sublist_skip|by apply sublist_cons].
  - intros k'. rewrite not_elem_of_cons. intros [??]. rewrite Hout by done. by apply Hother.
  - intros k' s [[= -> <-]|Hin]%elem_of_cons; [rewrite Hrk; by apply Hstr|by eapply Hs].
  - intros k' d x [[= -> ->]|Hin]%elem_of_cons; [rewrite Hrk; apply Hconf|by apply Hc].
Qed.

Lemma mapObject_conforms_obj o root sub v :
  Forall (λ kv, entry_ok kv.2) o → NoDup (okeys o) → mapObject (VObj o) root sub = Ok v → conforms (VObj o) v.
Proof.
  intros Ho Hnd H. rewrite mapObject_entries in H. inv_res. subst v.
  destruct (mapEntries_conform o _ _ [] _ Ho Hnd (λ _ _, eq_refl) Hr) as ((ks & Hks & Hsub) & _ & Hs & Hc).
  constructor; [by rewrite Hks|exact Hs|exact Hc].
Qed.

Lemma entry_conforms def :
  wf_def def = true →
  entry_ok def ∧ (isPlainObject def = true → ∀ root sub v, mapObject def root sub = Ok v → conforms def v).
Proof.
  induction def as [| | | | | |s|l IH|o IH] using val_nested_ind; try done; intros Hwf.
  - split; [|done]. intros root sub acc k acc' H. cbn [mapEntry] in H. inv_res. subst acc'. right.
    eexists. split; [done|]. constructor. by eapply mapString_typed.
  - split; [|done]. intros root sub acc k acc' H.
    destruct l as [|x [|y [|z l]]]; [done| | |by destruct x, y].
    + destruct x as [| | | | | | | |o]; try done. cbn [wf_def] in Hwf.
      apply Forall_cons in IH as [IH _]. destruct (IH Hwf) as [_ IHo]. cbn [mapEntry] in H. inv_res. subst acc'.
      case_match; [|by left]. right. eexists. split; [done|]. constructor. by eapply IHo.
    + destruct x as [| | | | | |src| |]; try done. destruct y as [| | | | | | | |o]; try done.
      cbn [wf_def] in Hwf. apply Forall_cons in IH as [_ IH]. apply Forall_cons in IH as [IH _].
      destruct (IH Hwf) as [_ IHo]. cbn [mapEntry] in H.
      destruct (match src with "" => root | _ => resolvePath root src end); try (inv_res; subst; by left).
      inv_res. subst acc'. right. eexists. split; [done|]. constructor.
      eapply mapItems_Forall; [|done]. intros item v. by apply IHo.
  - cbn [wf_def] in Hwf. apply andb_true_iff in Hwf as [Hnd Hwf]. apply bool_decide_eq_true in Hnd.
    assert (Forall (λ kv : string * val, entry_ok kv.2) o) as Hent.
    { rewrite forallb_forall in Hwf. apply Forall_forall. intros kv Hin. rewrite Forall_forall in IH.
      apply IH; [done|]. apply Hwf. by apply list_elem_of_In. }
    split; [|intros _ root sub v; by apply mapObject_conforms_obj].
    intros root sub acc k acc' H. cbn [mapEntry] in H. inv_res.
    destruct a; try (inv_res; subst; by left);
      (inv_res; subst; case_match; [right|by left]; eexists; split; [done|]; by eapply mapObject_conforms_obj).
Qed.

End responses.
