(* ===== verification/RouteThms.v ===== *)
(** * What the routes of the gateway send

    Theorems on the data of the routes: the parameters a route declares and
    those it sends to the remote method. *)
From S2P Require Export MapperThms.
Open Scope string_scope.
Open Scope Z_scope.
Open Scope list_scope.
Import ApiUtils ParamValidator.

(** ** Requests: from the parameters of a route to those of the remote method *)

(** The routes of version 3, with those of every application module. *)
Definition public_routes : list (string * val) :=
  match loadMethods ["http-version3"; "http-exports"] routeModules with Ok l => l | Err _ => [] end.

Definition declared (m : val) : list string := okeys (props (field m "params")).
Definition mapping (m : val) : list (string * val) := props (field (field m "source") "params").

(** The parameter of the request an entry of the mapping reads. *)
Definition reads_param (kv : string * val) : string :=
  match kv.2 with
  | VStr setup => let p := default "" (split_char "," setup !! 0%nat) in if bool_decide (p = "=") then kv.1 else p
  | _ => kv.1
  end.

Definition no_null (o : list (string * val)) : Prop := ∀ k, oget o k ≠ Some VNull.

(** A value sent for the parameter: as it was, or converted. *)
Definition sent_as (v v' : val) : Prop := v' = v ∨ ∃ ty, convertType v ty = Ok v'.
(** The type an entry of the mapping converts to, and the value it sends for [v]. *)
Definition converts_to (kv : string * val) : option string :=
  match kv.2 with VStr setup => split_char "," setup !! 1%nat | _ => None end.
Definition sent_by (kv : string * val) (v v' : val) : Prop :=
  match converts_to kv with Some ty => convertType v ty = Ok v' | None => v' = v end.
Lemma sent_by_sent_as kv v v' : sent_by kv v v' → sent_as v v'.
Proof. unfold sent_by, sent_as. destruct (converts_to kv); eauto. Qed.

Lemma convertType_ok v ty : v ≠ VNull → ∃ v', convertType v ty = Ok v'.
Proof.
  intros Hv. unfold convertType. assert (∃ s, match v with
    | VArr _ => Ok "array" | VNull => Err (type_error "Cannot read properties of null (reading 'constructor')")
    | _ => Ok (typeof v) end = Ok s) as [s ->]; [destruct v; by eauto|].
  cbn [mbind result_mbind result_bind]. repeat case_match; by eauto.
Qed.

Lemma mapParamWithType_str o k setup :
  no_null o → k ≠ "" →
  ∃ v', mapParamWithType (VObj o) (VStr setup) k = Ok (Some (k, v')) ∧
        sent_by (k, VStr setup) (default VUndef (oget o (reads_param (k, VStr setup)))) v'.
Proof.
  intros Hn Hk. unfold mapParamWithType, mapParam. rewrite bool_decide_eq_false_2 by done.
  cbn [prop mbind result_mbind result_bind snd reads_param fst].
  set (p := if bool_decide _ then _ else _). unfold sent_by, converts_to. cbn [snd].
  destruct (split_char "," setup !! 1%nat) as [ty|]; cbn [mbind result_mbind result_bind snd].
  - destruct (convertType_ok (default VUndef (oget o p)) ty) as [v' Hv'].
    { specialize (Hn p). by destruct (oget o p); simpl; [congruence|]. }
    rewrite Hv'. by eexists.
  - by eexists.
Qed.

Definition all_strings (specs : list (string * val)) : bool :=
  forallb (λ kv, match kv.2 with VStr _ => negb (bool_decide (kv.1 = "")) | _ => false end) specs.

(** With a mapping of strings the request is mapped, entry by entry. *)
Lemma transformParamsLoop_strings o specs out :
  no_null o → all_strings specs = true → NoDup (okeys specs) →
  ∃ out', transformParamsLoop (VObj o) specs out = Ok out' ∧
    (∀ k, k ∉ okeys specs → oget out' k = oget out k) ∧
    (∀ kv, kv ∈ specs → ∃ v', oget out' kv.1 = Some v' ∧ sent_by kv (default VUndef (oget o (reads_param kv))) v').
Proof.
  intros Hn. revert out. induction specs as [|[k s] specs IH]; intros out Hs Hd; simpl.
  - eexists. split_and!; [done..|]. by intros kv ?%elem_of_nil.
  - simpl in Hs. apply andb_true_iff in Hs as [Hk Hs]. apply NoDup_cons in Hd as [Hnin Hd].
    destruct s as [| | | | | |setup| |]; try done. apply negb_true_iff, bool_decide_eq_false in Hk.
    destruct (mapParamWithType_str o k setup Hn Hk) as (v' & E & Hv').
    rewrite E. cbn [mbind result_mbind result_bind]. rewrite bool_decide_eq_false_2 by done.
    destruct (IH (oset out k v') Hs Hd) as (out' & E' & Hother & Hin).
    exists out'. split_and!; [done| |].
    + intros k'. simpl. rewrite not_elem_of_cons. intros [Hne Hk']. rewrite Hother by done.
      by rewrite oget_oset_ne.
    + intros kv [->|Hkv]%elem_of_cons; [|by apply Hin].
      exists v'. simpl. rewrite (Hother k Hnin). split; [apply oget_oset_eq|done].
Qed.

Lemma transformRequest_strings m o :
  no_null o → all_strings (mapping m) = true → NoDup (okeys (mapping m)) →
  (∃ specs, prop m "source" = Ok (VObj specs)) →
  (∃ specs, field (field m "source") "params" = VObj specs) →
  ∃ out, transformRequest m (VObj o) = VObj out ∧
    ∀ kv, kv ∈ mapping m → ∃ v', oget out kv.1 = Some v' ∧ sent_by kv (default VUndef (oget o (reads_param kv))) v'.
Proof.
  intros Hn Hs Hd [src Hsrc] [specs Hsp]. unfold transformRequest, mapping, field in *. rewrite Hsrc in *.
  cbn [mbind result_mbind result_bind] in *. destruct (prop (VObj src) "params") as [p|e] eqn:Ep; [|done].
  subst p. cbn [props] in *. unfold transformParams. cbn [entries or_default mbind result_mbind result_bind].
  destruct (transformParamsLoop_strings o specs [] Hn Hs Hd) as (out & E & _ & Hin). rewrite E. by eauto.
Qed.

(** The routes whose mapping holds an object or an array, which has no [split]. *)
Definition unmapped : list string := ["audios"; "profiles"; "subscriptions"].

Definition mapping_throws (m : val) : bool :=
  match prop m "source" with
  | Ok (VObj src) =>
      match oget src "params" with
      | Some (VObj specs) => existsb (λ kv, match kv.2 with VArr _ | VObj _ => true | _ => false end) specs
      | _ => false
      end
  | _ => false
  end.

Lemma transformParamsLoop_throws params specs out :
  existsb (λ kv : string * val, match kv.2 with VArr _ | VObj _ => true | _ => false end) specs = true →
  ∃ e, transformParamsLoop params specs out = Err e.
Proof.
  revert out. induction specs as [|[k s] specs IH]; intros out; [done|]. simpl. intros Hs.
  destruct (mapParamWithType params s k) as [res|e] eqn:E; cbn [mbind result_mbind result_bind]; [|by eauto].
  apply IH. destruct s; try done; unfold mapParamWithType in E; simpl in E; try discriminate E.
Qed.

Lemma transformRequest_throws m params : mapping_throws m = true → transformRequest m params = params.
Proof.
  unfold mapping_throws, transformRequest.
  destruct (prop m "source") as [[| | | | | | | |src]|]; try done. intros H.
  cbn [mbind result_mbind result_bind prop].
  destruct (oget src "params") as [[| | | | | | | |specs]|]; try done.
  destruct (transformParamsLoop_throws (or_default params (VObj [])) specs [] H) as [e He].
  unfold transformParams. cbn [default from_option id entries mbind result_mbind result_bind].
  by rewrite He.
Qed.

(** What is checked of each route: its mapping throws, or it is made of
    strings and reads every declared parameter but the topic of events. *)
Definition route_ok (r : string * val) : bool :=
  let '(name, m) := r in
  if decide (name ∈ unmapped) then mapping_throws m
  else all_strings (mapping m) && bool_decide (NoDup (okeys (mapping m)))
       && match prop m "source" with Ok (VObj src) => match oget src "params" with Some (VObj _) => true | _ => false end | _ => false end
       && forallb (λ p, bool_decide (name = "events" ∧ p = "topic")
                        || bool_decide (p ∈ map reads_param (mapping m))) (declared m).

Lemma public_routes_ok : forallb route_ok public_routes = true.
Proof. vm_compute. reflexivity. Qed.

(** Every route but three has a mapping that does not throw. *)
Lemma public_route_sent route m o :
  (route, m) ∈ public_routes → no_null o → route ∉ unmapped →
  ∃ out, transformRequest m (VObj o) = VObj out ∧
    ∀ kv, kv ∈ mapping m → ∃ v', oget out kv.1 = Some v' ∧ sent_by kv (default VUndef (oget o (reads_param kv))) v'.
Proof.
  intros Hr Hn Hu. pose proof public_routes_ok as Hall. rewrite forallb_forall in Hall.
  specialize (Hall _ (proj1 (list_elem_of_In _ _) Hr)). unfold route_ok in Hall. rewrite decide_False in Hall by done.
  apply andb_true_iff in Hall as [[[Hs Hd%bool_decide_eq_true]%andb_true_iff Hsrc]%andb_true_iff _].
  destruct (prop m "source") as [[]|] eqn:E; try done. destruct (oget o0 "params") as [[]|] eqn:E'; try done.
  apply transformRequest_strings; [done..|by eauto|]. unfold field. rewrite E. simpl. rewrite E'. by eauto.
Qed.


Lemma transformParamsLoop_ext o o' specs out :
  all_strings specs = true → (∀ kv, kv ∈ specs → oget o (reads_param kv) = oget o' (reads_param kv)) →
  transformParamsLoop (VObj o) specs out = transformParamsLoop (VObj o') specs out.
Proof.
  revert out. induction specs as [|[k s] specs IH]; intros out Hs Hoo; [done|]. simpl in Hs.
  apply andb_true_iff in Hs as [Hk Hs]. destruct s as [| | | | | |setup| |]; try done.
  assert (mapParamWithType (VObj o) (VStr setup) k = mapParamWithType (VObj o') (VStr setup) k) as E.
  { pose proof (Hoo (k, VStr setup) ltac:(by left)) as Hp. unfold mapParamWithType, mapParam.
    unfold reads_param in Hp. cbn [fst snd] in Hp.
    destruct (bool_decide (k = "")); [done|]. cbn [prop]. by rewrite Hp. }
  cbn [transformParamsLoop]. rewrite E. destruct (mapParamWithType (VObj o') (VStr setup) k); simpl; [|done].
  apply IH; [done|]. intros kv Hkv. apply Hoo. by right.
Qed.

(** The topic of a request for events makes no difference to what is sent:
    the route accepts the filter, checks it, and drops it. *)
Theorem events_topic_ignored m o v :
  ("events", m) ∈ public_routes → no_null o → v ≠ VNull →
  transformRequest m (VObj (oset o "topic" v)) = transformRequest m (VObj o).
Proof.
  intros Hm Hn Hv.
  assert (Forall (λ r : string * val, r.1 = "events" → r.2 = HttpVersion3.events) public_routes) as Hall.
  { apply Forall_forall. intros r Hr. apply list_elem_of_In in Hr. vm_compute in Hr.
    repeat (destruct Hr as [<-|Hr]; [intros He; first [discriminate He|reflexivity]|]). destruct Hr. }
  rewrite Forall_forall in Hall. specialize (Hall _ Hm eq_refl). simpl in Hall. subst m.
  assert (Hn' : no_null (oset o "topic" v)).
  { intros k. rewrite oget_oset. case_decide; [congruence|apply Hn]. }
  assert (∀ o, no_null o → ∃ out, transformParamsLoop (VObj o) (mapping HttpVersion3.events) [] = Ok out) as Hok.
  { intros o0 H0. destruct (transformParamsLoop_strings o0 (mapping HttpVersion3.events) [] H0) as (out & E & _).
    - reflexivity.
    - apply (bool_decide_eq_true_1 _). vm_compute. reflexivity.
    - by exists out. }
  assert (∀ o, transformRequest HttpVersion3.events (VObj o) =
    match transformParamsLoop (VObj o) (mapping HttpVersion3.events) [] with
    | Ok out => VObj out | Err _ => VObj o end) as Hdef.
  { intros o0. change (transformRequest HttpVersion3.events (VObj o0)) with
      (match (output ← transformParamsLoop (VObj o0) (mapping HttpVersion3.events) []; Ok (VObj output)) with
       | Ok v => v | Err _ => VObj o0 end). by destruct (transformParamsLoop _ _ _). }
  rewrite !Hdef. destruct (Hok _ Hn) as [out E]. rewrite E.
  rewrite <- (transformParamsLoop_ext o (oset o "topic" v)); [by rewrite E|reflexivity|].
  intros kv Hkv. rewrite oget_oset_ne; [done|]. intros Ht.
  assert (Forall (λ kv, reads_param kv ≠ "topic") (mapping HttpVersion3.events)) as Hreads.
  { repeat (constructor; [vm_compute; discriminate|]). constructor. }
  rewrite Forall_forall in Hreads. exact (Hreads kv Hkv (eq_sym Ht)).
Qed.


(** ** Responses *)

Definition definition_of (m : val) : val := field (field m "source") "definition".

Lemma public_definitions_wf :
  forallb (λ r, bool_decide (r.1 = "export") ||
    (isPlainObject (definition_of r.2) && wf_def (definition_of r.2) && truthy r.2 && isObject (field r.2 "source")))
    public_routes = true.
Proof. vm_compute. reflexivity. Qed.

Section replies.
Context {DT : Dates} {FV : FastestValidator}.

(** C15. The reply to a request of a public route is the route's envelope with
    a mapped object spread over it, and that object conforms to the route's
    definition, at every depth: its keys are keys of the definition, all the
    plain ones are there, and a value declared as a string, number or boolean
    is one, unless it is a falsy value other than zero, which is left alone.
    (The download of an export has no definition.) *)
Theorem replies_conform route m data v :
  (route, m) ∈ public_routes → route ≠ "export" →
  transformResponse m data = Ok v →
  ∃ mapped, conforms (definition_of m) mapped ∧ v = spread2 (field m "envelope") mapped.
Proof.
  intros Hr Hne H. pose proof public_definitions_wf as Hall. rewrite forallb_forall in Hall.
  specialize (Hall _ (proj1 (list_elem_of_In _ _) Hr)). cbn [fst snd] in Hall.
  rewrite bool_decide_eq_false_2 in Hall by done. simpl in Hall.
  apply andb_true_iff in Hall as [Hall Hs]. apply andb_true_iff in Hall as [Hall Ht].
  apply andb_true_iff in Hall as [Hp Hwf]. unfold transformResponse in H. rewrite Ht in H. inv_res. subst v.
  exists a1. split; [|done].
  assert (definition_of m = a0) as Hdef by (unfold definition_of, field; by rewrite Hr0, Hr1).
  rewrite Hdef in *. destruct (entry_conforms a0 Hwf) as [_ Hobj].
  destruct a0; try done. apply (Hobj eq_refl data data). exact Hr2.
Qed.

(** No route makes a parameter required by the flag the gateway checks, so
    no request is ever refused for a missing parameter by the gateway itself;
    the rules [optional: false] are left to fastest-validator. *)
Theorem no_missing_report route m o r :
  (route, m) ∈ public_routes → validateInputParams (VObj o) m = Ok r → missing r = [].
Proof.
  intros Hr H.
  assert (forallb (λ r : string * val, let params := js_or (field r.2 "params") (VObj []) in
    isPlainObject params && rules_ok (props params) &&
    forallb (λ kv, negb (strict_eq (field kv.2 "required") (VBool true))) (props params)) public_routes = true) as Hall
    by (vm_compute; reflexivity).
  rewrite forallb_forall in Hall. specialize (Hall _ (proj1 (list_elem_of_In _ _) Hr)). cbn [snd] in Hall.
  apply andb_true_iff in Hall as [Hall Hreq]. apply andb_true_iff in Hall as [Hp Hrules].
  unfold validateInputParams, field in *. destruct (prop m "params") as [sp|] eqn:Esp; [|done].
  cbn [mbind result_mbind result_bind] in H.
  destruct (js_or sp (VObj [])) as [| | | | | | | |rules]; try done. cbn [props] in *.
  destruct (checkMissingParams_spec rules o Hrules) as (l & El & Hl).
  assert (l = []) as ->.
  { destruct l as [|k l]; [done|]. destruct (proj1 (Hl k) ltac:(by left)) as (_ & rule & Hin & Hreq').
    rewrite forallb_forall in Hreq. specialize (Hreq _ (proj1 (list_elem_of_In _ _) Hin)).
    unfold field in Hreq'. simpl in Hreq. by rewrite Hreq' in Hreq. }
  change (or_default (VObj o) (VObj [])) with (VObj o) in H. inv_res.
  match goal with Hx : parseParams _ _ = Ok ?p |- _ => destruct p as [vs us] end. inv_res.
  rewrite El in *. inv_res. match goal with Hx : [] = ?x |- _ => subst x end.
  clear -H. repeat (case_match; try (inv_res; by subst r)).
Qed.

End replies.
