(* ===== verification/GatewayWitnesses.v ===== *)
(** * Concrete instances of the theorems on the gateway

    Requests, batches and responses on which the hypotheses of the theorems of
    [RouteThms] and [GatewayThms] hold, with a validator that
    accepts everything and a broker whose service answers from a table. *)
From S2P Require Export RouteThms GatewayThms Fixtures.
Open Scope string_scope.
Open Scope Z_scope.
Open Scope list_scope.
Import Fixtures ApiUtils ParamValidator RpcApi SocketIo.

Module GatewayFixtures.

#[export] Instance fix_dates : Dates :=
  {| toISOString := λ v, Ok (VStr (to_string v +:+ "T00:00:00.000Z"));
     date_parse := λ v, to_number v;
     moment_datetime := λ v, VStr (to_string v) |}.

#[export] Instance fix_validator : FastestValidator := {| fv_validate := λ _ _, Ok (VBool true) |}.

#[export] Instance fix_gateway : GatewayConfig :=
  {| GATEWAY_DEPENDENCIES := "fees"; jsonRpcStrictMode := "true"; rpcCache_enable := false;
     api_enableHttpCacheControl := false; api_httpCacheControlDirectives := "" |}.

#[export] Instance fix_moleculer : Moleculer :=
  {| exn_code := λ _, VUndef;
     ServiceNotFoundError := λ s, mkExn "ServiceNotFoundError" s;
     mol_match := λ a m, bool_decide (a = m);
     check_endpoint := λ _, Ok tt;
     StatusCodes := λ s, if bool_decide (s = "BAD_REQUEST") then VNum 400 else VUndef |}.

Definition request_of_events : list (string * val) := [("height", VStr "10"); ("limit", VStr "5")].

(** A route with a number, a default and a required parameter. *)
Definition sample_rules : list (string * val) :=
  [("height", VObj [("type", VStr "number")]);
   ("limit", VObj [("type", VStr "number"); ("default", VNum 10)]);
   ("name", VObj [("type", VStr "string"); ("required", VBool true)])].
Definition sample_method : val :=
  VObj [("version", VStr "2.0"); ("swaggerApiPath", VStr "/x"); ("rpcMethod", VStr "get.x");
        ("params", VObj sample_rules);
        ("source", VObj [("method", VStr "indexer.x");
                         ("params", VObj [("height", VStr "=,number"); ("limit", VStr "=,number"); ("name", VStr "=,string")]);
                         ("definition", VObj [("data", VStr "data")])])].
Definition sample_request : list (string * val) := [("height", VStr "12"); ("name", VStr "a"); ("extra", VNum 1)].

Definition sample_http : api := mkApi [("GET x", VStr "indexer.x")] [VStr "indexer.x"] [("GET x", sample_method)].
Definition sample_rpc : api := mkApi [("get.x", VStr "indexer.x")] [VStr "indexer.x"] [("get.x", sample_method)].

Definition call_x (id : val) : val :=
  VObj [("jsonrpc", VStr "2.0"); ("id", id); ("method", VStr "get.x"); ("params", VObj [("name", VStr "a")])].

Definition broker : world mem :=
  mkWorld ∅ (with_rpc (mem_of [] []) [("indexer", "x", Ok (VObj [("data", VArr [VNum 1])]))]).

Definition statuses : list (string * val) :=
  [("indexer", VBool true); ("connector", VBool true); ("fees", VBool true); ("market", VBool false)].
Definition status_world : world mem := mkWorld {[ "ready.currentSvcStatus" := VObj statuses ]} (w_ext broker).

End GatewayFixtures.
Import GatewayFixtures.

Lemma no_null_of o : forallb (λ kv : string * val, match kv.2 with VNull => false | _ => true end) o = true → no_null o.
Proof.
  intros H k Hk. apply oget_elem_of in Hk. rewrite forallb_forall in H.
  by specialize (H _ (proj1 (list_elem_of_In _ _) Hk)).
Qed.

Lemma no_undef_of o : forallb (λ kv : string * val, match kv.2 with VUndef => false | _ => true end) o = true → no_undef o.
Proof.
  intros H k Hk. apply oget_elem_of in Hk. rewrite forallb_forall in H.
  by specialize (H _ (proj1 (list_elem_of_In _ _) Hk)).
Qed.

(** Where a route is among the public ones. *)
Definition route_index (name : string) : nat := default 0%nat (find_index (λ r, bool_decide (r.1 = name)) public_routes).
Lemma events_public : ("events", HttpVersion3.events) ∈ public_routes.
Proof.
  apply list_elem_of_In. apply (nth_error_In _ (route_index "events")). vm_compute. reflexivity.
Qed.


Lemma events_topic_ignored_witness :
  transformRequest HttpVersion3.events (VObj (oset request_of_events "topic" (VStr "t")))
  = transformRequest HttpVersion3.events (VObj request_of_events).
Proof.
  exact (events_topic_ignored HttpVersion3.events request_of_events (VStr "t") events_public
    (no_null_of request_of_events eq_refl) ltac:(discriminate)).
Defined.

Lemma no_missing_report_witness :
  ∃ r, validateInputParams (VObj request_of_events) HttpVersion3.events = Ok r ∧ missing r = [].
Proof.
  eexists. split; [vm_compute; reflexivity|].
  apply (no_missing_report "events" HttpVersion3.events request_of_events _ events_public).
  vm_compute. reflexivity.
Defined.

(** A response of the indexer with one event, as the route maps it. *)
Definition events_response : val :=
  VObj [("data", VArr [VObj [("id", VStr "e1"); ("module", VStr "token"); ("height", VStr "7")]]);
        ("meta", VObj [("count", VNum 1); ("offset", VNum 0); ("total", VNum 1)])].

Lemma replies_conform_witness :
  ∃ v mapped, transformResponse HttpVersion3.events events_response = Ok v ∧
    conforms (definition_of HttpVersion3.events) mapped ∧ v = spread2 (field HttpVersion3.events "envelope") mapped.
Proof.
  eexists. destruct (replies_conform "events" HttpVersion3.events events_response _ events_public
    ltac:(discriminate) ltac:(vm_compute; reflexivity)) as (mapped & Hc & Hv).
  exists mapped. split; [vm_compute; reflexivity|]. split; [exact Hc|exact Hv].
Defined.

Lemma validate_report_witness :
  ∃ r, validateInputParams (VObj sample_request) sample_method = Ok r ∧ "extra" ∈ okeys (props (unknown r)) ∧
    oget (props (valid r)) "height" = Some (VNum 12) ∧ missing r = [].
Proof.
  destruct (validateInputParams (VObj sample_request) sample_method) as [r|] eqn:E; [|vm_compute in E; discriminate E].
  destruct (validate_report sample_method sample_rules sample_request r) as (Hu & _ & Hv & _);
    [reflexivity|reflexivity|apply (bool_decide_unpack _); vm_compute; exact I
    |exact (no_undef_of sample_request eq_refl)|exact E|].
  exists r. split; [reflexivity|]. split.
  - apply Hu. split; [by right; right; left|]. apply (bool_decide_unpack _). vm_compute. exact I.
  - split; [rewrite Hv; vm_compute; reflexivity|]. vm_compute in E. injection E as <-. reflexivity.
Defined.

Definition named : val := VObj [("name", VStr "a"); ("height", VStr "12")].
Definition sent : val := VObj [("height", VNum 12); ("limit", VNum 10); ("name", VStr "a")].

Lemma http_rpc_agree_witness :
  HttpApi.onBeforeCall sample_http "GET" "x" named = ([], Ok sent) ∧
  ∃ v, sent = transformRequest sample_method (VObj v).
Proof.
  assert (HttpApi.onBeforeCall sample_http "GET" "x" named = ([], Ok sent)) as E1 by (vm_compute; reflexivity).
  assert (RpcApi.onBeforeCall sample_rpc "get.x" named = inr sent) as E2 by (vm_compute; reflexivity).
  pose proof (http_rpc_agree sample_http sample_rpc "GET" "x" "get.x" named eq_refl) as H.
  rewrite E1, E2 in H. destruct H as [_ (v & H & _)]. split; [exact E1|]. exists v. exact H.
Defined.

Lemma batch_answered_witness :
  ∃ w' responses, run (handleRequests (λ _, "") sample_rpc (VArr [call_x (VNum 7); call_x VUndef])) broker =
    (w', Ok (VArr responses)) ∧ length responses = 2%nat.
Proof.
  destruct (batch_answered (λ _, "") sample_rpc [call_x (VNum 7); call_x VUndef] broker eq_refl)
    as (w' & responses & Hrun & Hf).
  exists w', responses. split; [exact Hrun|]. by apply Forall2_length in Hf.
Defined.

Lemma null_request_unanswered_witness :
  ∃ w', run (handleRequests (λ _, "") sample_rpc (VArr [call_x (VNum 7); VNull])) broker =
    (w', Ok (VObj [("jsonrpc", VStr "2.0")])).
Proof.
  exact (proj1 (null_request_unanswered (λ _, "") sample_rpc [call_x (VNum 7)] [] broker eq_refl)).
Defined.

Lemma getReady_dependencies_witness :
  run Ready.getReady status_world =
    (status_world, Ok (VObj [("services", VObj [("indexer", VBool true); ("connector", VBool true); ("fees", VBool true)])])).
Proof.
  exact (getReady_dependencies statuses status_world eq_refl ltac:(apply (bool_decide_unpack _); vm_compute; exact I)).
Defined.
