(* ===== verification/Statistics.v ===== *)
(** * The transaction statistics: services/transaction-statistics/shared

    Module [Build] is buildTransactionStatistics.js: it fetches the
    transactions of a day, adds them up by module command and range of value,
    and stores a row for each.  Module [Query] is transactionStatistics.js,
    which answers queries from those rows, with status.js and the jobs.  The
    packages big-number and moment are parameters: [BigNumberLib], whose law
    [BigNumberLaws] states that it adds non-negative integers given as decimal
    texts or numbers, and [MomentLib]. *)
From S2P Require Export Mapper Jobs.
Open Scope string_scope.
Open Scope Z_scope.
Open Scope list_scope.

(** The operations of big-number the code uses.  [plus] changes its receiver
    and [add] returns it: [bn_plus b v] is what [b] is afterwards. *)
Class BigNumberLib := {
  BigNum : Type;
  BigNumber : val → BigNum;
  BigNumber_copy : BigNum → BigNum;         (* BigNumber(b) *)
  bn_plus : BigNum → val → BigNum;          (* b.plus(v) *)
  bn_add : BigNum → BigNum → BigNum;        (* a.add(b) *)
  bn_toString : BigNum → string;
}.

(** A non-negative integer as the code passes it: a number or its text. *)
Definition decimal_of (v : val) : option Z :=
  match v with
  | VNum z => if 0 <=? z then Some z else None
  | VStr s => match bigint_of_string s with
              | Some z => if (0 <=? z) && bool_decide (pretty z = s) then Some z else None
              | None => None
              end
  | _ => None
  end.

Class BigNumberLaws {BN : BigNumberLib} := {
  bn_value : BigNum → option Z;
  bn_value_of v z : decimal_of v = Some z → bn_value (BigNumber v) = Some z;
  bn_value_copy b : bn_value (BigNumber_copy b) = bn_value b;
  bn_value_plus b v m n : bn_value b = Some m → decimal_of v = Some n → bn_value (bn_plus b v) = Some (m + n);
  bn_value_add a b m n : bn_value a = Some m → bn_value b = Some n → bn_value (bn_add a b) = Some (m + n);
  bn_value_toString b z : bn_value b = Some z → bn_toString b = pretty z;
}.

(** moment: the instants, and what the code does with them. *)
Class MomentLib := {
  moment : Type;
  moment_at : val → moment;                     (* moment() at the time in milliseconds *)
  moment_unix : val → moment;                   (* moment.unix(v) *)
  moment_utc : moment → moment;
  moment_startOf : val → moment → moment;
  moment_endOf : val → moment → moment;
  moment_subtract : val → val → moment → moment;
  moment_add : val → val → moment → moment;
  unix_of : moment → val;                       (* m.unix() *)
  valueOf : moment → val;                       (* m.valueOf(), milliseconds *)
  moment_format : moment → string → string;
  moment_diff : moment → moment → val → val;
}.

(** config.js *)
Class StatisticsConfig := { STATISTICS_MYSQL : string; historyLengthDays : Z }.

Definition requestIndexer (method : string) (params : val) : prog val :=
  call (CRpc "indexer" method (or_default params (VObj []))).

(** utils/constants.js *)
Module StatisticsConstants.

Definition ANY : string := "any".
Definition UNAVAILABLE : string := "na".
Definition DAY : string := "YYYY-MM-DD".
Definition MONTH : string := "YYYY-MM".

Definition chainID : string := "statistics.chainID".

Definition getChainID : prog val :=
  id ← call (CVarGet chainID);
  match id with
  | VUndef =>
      networkStatus ← requestIndexer "network.status" VUndef;
      data ← networkStatus @. "data"; id ← data @. "chainID";
      _ ← call (CVarSet chainID id); Ret id
  | _ => Ret id
  end.

(** [chainID] is the value of the variable of the module. *)
Definition resolveGlobalTokenID (chainID tokenID : val) : result val :=
  if negb (truthy tokenID) then Ok (VStr UNAVAILABLE)
  else if negb (truthy chainID) then Ok tokenID
  else match tokenID with
       | VStr s => Ok (VStr (tpl chainID +:+ str_drop 8 s))
       | VArr l => Ok (VStr (tpl chainID +:+ to_string (VArr (drop 8 l))))
       | _ => Err (not_a_function "tokenID.slice")
       end.

End StatisticsConstants.
Import StatisticsConstants.

(** utils/requestAll.js: [fn(method, params)] with the method fixed.  The
    loop asks for the pages from [page] on until one is empty, [n] at most. *)
Module StatisticsRequestAll.
Section all.
Context (fn : val → prog val).

Definition pageOf (params : val) (limit offset : val) : val :=
  spread params (VObj [("limit", limit); ("offset", offset)]).

Fixpoint morePages (n : nat) (page : Z) (params oneRequestLimit : val) (data : list val) : prog (list val) :=
  match n with
  | O => Ret data
  | S n' =>
      result ← fn (pageOf params oneRequestLimit (num_mul (to_number oneRequestLimit) (VNum page)));
      rows ← result @. "data"; len ← rows @. "length";
      if truthy len then
        more ← iter_list rows; morePages n' (page + 1) params oneRequestLimit (data ++ more)
      else Ret data
  end.

(** The number of pages after the first. *)
Definition pagesLeft (maxAmount oneRequestLimit : val) : nat :=
  match num_ceil (num_div (to_number maxAmount) (to_number oneRequestLimit)) with
  | VNum z => Z.to_nat (z - 1)
  | _ => O
  end.

Definition requestAll (params limit : val) : prog val :=
  let defaultMaxAmount := js_or limit (VNum 1000) in
  let oneRequestLimit := js_or (field params "limit") (VNum 100) in
  firstRequest ← fn (pageOf params oneRequestLimit (VNum 0));
  data ← firstRequest @. "data";
  error ← data @. "error";
  if truthy error then Ret data
  else
    meta ← firstRequest @. "meta"; total ← meta @. "total";
    let maxAmount := if negb (truthy total) || js_gt total defaultMaxAmount then defaultMaxAmount else total in
    if js_gt maxAmount oneRequestLimit then
      match data with
      | VArr l => l' ← morePages (pagesLeft maxAmount oneRequestLimit) 1 params oneRequestLimit l; Ret (VArr l')
      | _ => Throw (not_a_function "data.push")
      end
    else Ret data.

End all.
End StatisticsRequestAll.

(** ** buildTransactionStatistics.js *)
Module Build.

Definition statisticsTable {SC : StatisticsConfig} : prog table :=
  Mysql.getTableInstance (tableName Schemas.transactionStatistics) Schemas.transactionStatistics STATISTICS_MYSQL.

Section compute.
Context {BN : BigNumberLib} {MF : MathFns}.

(** A volume: the 0 of the default, or a sum. *)
Inductive volume := Zero | Sum (b : BigNum).
Record txStat := mkStat { count : Z; volume_of : volume; tokenID : val }.

(** The statistics: by module command, then by range. *)
Definition stats : Type := list (string * list (string * txStat)).

Definition defaultStat : txStat := mkStat 0 Zero (VStr UNAVAILABLE).

Definition getTxStatsWithFallback (acc : stats) (moduleCommand range : string) : txStat :=
  match aget acc moduleCommand with
  | Some ranges => default defaultStat (aget ranges range)
  | None => defaultStat
  end.

Definition isAmount (property : string) : bool := ends_with "Fee" property || bool_decide (property = "amount").

Definition getTxValue (tx : val) : result BigNum :=
  params ← prop tx "params";
  es ← entries params;
  fee ← prop tx "fee";
  Ok (fold_left (λ total kv, if isAmount kv.1 then bn_plus total kv.2 else total) es (BigNumber fee)).

(** The arithmetic operators take a BigNumber by its text. *)
Definition bn_number (b : BigNum) : val := to_number (VStr (bn_toString b)).

Definition getRange (tx : val) : result string :=
  txValue ← getTxValue tx;
  let lowerBoundExponent := num_floor (math_log10 (num_div (bn_number txValue) (VNum 100000000))) in
  let lowerBound := math_pow (VNum 10) lowerBoundExponent in
  let upperBound := math_pow (VNum 10) (num_add lowerBoundExponent (VNum 1)) in
  Ok (tpl lowerBound +:+ "_" +:+ tpl upperBound).

Definition initialTransaction : val :=
  VObj [("moduleCommand", VStr ANY); ("params", VObj [("amount", VStr "0")]); ("fee", VStr "0")].

Definition getInitialValueToEnsureEachDayHasAtLeastOneEntry : result stats :=
  range ← getRange initialTransaction;
  Ok [(ANY, [(range, getTxStatsWithFallback [] "undefined" "undefined")])].

(** One transaction. *)
Definition addTransaction (chainID : val) (acc : stats) (tx : val) : result stats :=
  mc ← prop tx "moduleCommand";
  let moduleCommand := tpl mc in
  range ← getRange tx;
  let txStatsWithFallback := getTxStatsWithFallback acc moduleCommand range in
  value ← getTxValue tx;
  params ← prop tx "params"; token ← prop params "tokenID";
  tokenID ← resolveGlobalTokenID chainID token;
  let previous := match volume_of txStatsWithFallback with
                  | Zero => BigNumber (VNum 0)
                  | Sum b => BigNumber_copy b
                  end in
  Ok (aset acc moduleCommand (aset (default [] (aget acc moduleCommand)) range
        (mkStat (count txStatsWithFallback + 1) (Sum (bn_add previous value)) tokenID))).

Fixpoint addTransactions (chainID : val) (acc : stats) (transactions : list val) : result stats :=
  match transactions with
  | [] => Ok acc
  | tx :: r => acc' ← addTransaction chainID acc tx; addTransactions chainID acc' r
  end.

Definition computeTransactionStats (chainID : val) (transactions : list val) : result stats :=
  acc ← getInitialValueToEnsureEachDayHasAtLeastOneEntry;
  addTransactions chainID acc transactions.

Definition volumeNumber (v : volume) : val :=
  match v with Zero => VNum 0 | Sum b => num_ceil (bn_number b) end.

Definition statRow (moduleCommand range : string) (s : txStat) : list (string * val) :=
  [("moduleCommand", VStr moduleCommand); ("volume", volumeNumber (volume_of s));
   ("count", VNum (count s)); ("range", VStr range); ("tokenID", tokenID s)].

Definition transformStatsObjectToList (statsObject : stats) : list (list (string * val)) :=
  concat (map (λ '(moduleCommand, rangeObject),
    map (λ '(range, s), statRow moduleCommand range s) rangeObject) statsObject).

(** What [statsList.map] does to a statistic; the copies it makes are dropped. *)
Definition completeRow (date : val) (statistic : list (string * val)) : list (string * val) :=
  let range := default VUndef (oget statistic "range") in
  let s := oset (oset statistic "date" date) "amount_range" range in
  oset s "id" (VStr (tpl date +:+ "-" +:+ tpl (default VUndef (oget s "moduleCommand")) +:+ "-" +:+ tpl range)).

Definition rowsOf (date : val) (statsList : list (list (string * val))) : list val :=
  map (λ s, VObj (completeRow date s)) statsList.

End compute.

Section build.
Context {SC : StatisticsConfig} {BN : BigNumberLib} {MF : MathFns} {MO : MomentLib} {LO : Locale}.

(** The query is not awaited: its promise has no elements to destructure. *)
Definition removeDate (db : table) (date : val) : prog unit :=
  catch (_ ← detach (Mysql.find db (VObj [("date", date); ("limit", VNum 1)]) (strs ["id"]));
         row ← (Throw (type_error "db.find is not a function or its return value is not iterable") : prog val);
         id ← row @. "id";
         _ ← Mysql.deleteByPrimaryKey db (VArr [id]) None; Ret tt)
        (λ _, Ret tt).

Definition insertToDB (statsList : list (list (string * val))) (date : val) : prog string :=
  db ← statisticsTable;
  connection ← Mysql.getDbConnection STATISTICS_MYSQL;
  trx ← Mysql.startDbTransaction connection;
  catch (_ ← removeDate db date;
         _ ← Mysql.upsert db (VArr (rowsOf date statsList)) (Some trx);
         _ ← Mysql.commitDbTransaction trx;
         count ← lift (fold_left (λ acc row, a ← acc; js_add a (default VUndef (oget row "count"))) statsList (Ok (VNum 0)));
         Ret (pretty (Z.of_nat (length statsList)) +:+ " rows with total tx count " +:+ tpl count
              +:+ " for " +:+ tpl date +:+ " inserted to db"))
        (λ error, _ ← Mysql.rollbackDbTransaction trx; Throw error).

Definition fetchTransactions (date : val) : prog val :=
  let timestamp := tpl (unix_of (moment_unix date)) +:+ ":" +:+
                   tpl (unix_of (moment_add (VNum 1) (VStr "day") (moment_unix date))) in
  let params := VObj [("timestamp", VStr timestamp)] in
  first ← requestIndexer "transactions" (spread params (VObj [("limit", VNum 1)]));
  txMeta ← first @. "meta";
  maxCount ← (if truthy txMeta then txMeta @. "total" else Ret (VNum 1000));
  result ← StatisticsRequestAll.requestAll (requestIndexer "transactions")
             (spread params (VObj [("limit", VNum 100)])) maxCount;
  error ← result @. "error";
  Ret (if truthy error then VArr [] else result).

(** The worker of the queue. *)
Definition queueJob (job : val) : prog string :=
  data ← job @. "data";
  date ← data @. "date";
  if negb (truthy date) then Throw (js_error "Missing date.")
  else
    transactions ← fetchTransactions date;
    txs ← array_method transactions "reduce";
    chainID ← call (CVarGet StatisticsConstants.chainID);
    statsObject ← lift (computeTransactionStats chainID txs);
    insertToDB (transformStatsObjectToList statsObject) date.

Definition queueName : string := "transactionStats".

(** The day [i] days ago; [now] is the time of the call. *)
Definition dayOf (now : val) (i : Z) : val :=
  unix_of (moment_startOf (VStr "day") (moment_utc (moment_subtract (VNum i) (VStr "day") (moment_at now)))).

(** The days from [i] on, [n] of them. *)
Fixpoint scheduleDays (db : table) (forceReload : bool) (n : nat) (i : Z) : prog unit :=
  match n with
  | O => Ret tt
  | S n' =>
      now ← call CNow;
      let date := dayOf now i in
      shouldUpdate ← (if i =? 0 then Ret true
                      else rows ← Mysql.find db (VObj [("date", date); ("limit", VNum 1)]) (strs ["id"]);
                           len ← rows @. "length"; Ret (negb (truthy len)));
      _ ← (if shouldUpdate || forceReload then
             _ ← call (CQueueAdd queueName (VObj [("date", date)])); Ret tt
           else Ret tt);
      scheduleDays db forceReload n' (i + 1)
  end.

Definition fetchTransactionsForPastNDays (n : Z) (forceReload : bool) : prog unit :=
  db ← statisticsTable;
  scheduleDays db forceReload (Z.to_nat n) 0.

Definition updateTodayStats : prog unit := fetchTransactionsForPastNDays 1 true.

Definition init (days : Z) : prog unit :=
  _ ← fetchTransactionsForPastNDays days true;
  _ ← call (CSignal "transactionStatsReady" (VNum days)); Ret tt.

End build.
End Build.

(** ** transactionStatistics.js *)
Module Query.
Import Build.
Section query.
Context {SC : StatisticsConfig} {MO : MomentLib} {DT : Dates} {LO : Locale}.

Definition numTrxTypes : string := "statistics.numTrxTypes".

(** The parameters of a query: those given with a value. *)
Record statsParams := mkParams {
  p_dateFormat : string; p_dateTo : option moment; p_dateFrom : option moment;
  p_tokenIDs : list val; p_limit : val }.

Definition getSelector (params : statsParams) : prog (list (string * val)) :=
  n ← call (CVarGet numTrxTypes);
  n ← (if truthy n then Ret n
       else networkStatus ← requestIndexer "network.status" VUndef;
            data ← networkStatus @. "data"; mcs ← data @. "moduleCommands"; n ← mcs @. "length";
            _ ← call (CVarSet numTrxTypes n); Ret n);
  types ← lift (js_add n (VNum 1));
  let limit := js_or (p_limit params) (num_mul (VNum 366) (to_number types)) in
  let result := [("property", VStr "date")]
                ++ match p_dateFrom params with Some m => [("from", unix_of m)] | None => [] end
                ++ match p_dateTo params with Some m => [("to", unix_of m)] | None => [] end in
  Ret [("propBetweens", VArr [VObj result]); ("sort", VStr "date:desc"); ("limit", limit)].

(** [o[k] += v] for a number that starts at 0. *)
Definition addAt (o : list (string * val)) (k : string) (v : val) : result (list (string * val)) :=
  let old := match oget o k with Some x => if truthy x then x else VNum 0 | None => VNum 0 end in
  x ← js_add old v; Ok (oset o k x).

(** The entries with a positive count, added up by a column. *)
Fixpoint countBy (column : string) (entries : list val) (acc : list (string * val)) : result (list (string * val)) :=
  match entries with
  | [] => Ok acc
  | entry :: r =>
      key ← prop entry column; n ← prop entry "count";
      acc' ← addAt acc (tpl key) n; countBy column r acc'
  end.

Definition hasCount (o : val) : result bool := c ← prop o "count"; Ok (js_gt c (VNum 0)).

Definition positiveCounts (result : val) : prog (list val) :=
  l ← array_method result "filter"; pfilter (λ o, lift (hasCount o)) l.

(** The same object with its keys in the order of the locale. *)
Definition orderKeys (o : list (string * val)) : result (list (string * val)) :=
  ks ← js_sort (λ a b, Ok (localeCompare a b)) (okeys o);
  Ok (fold_left (λ acc k, oset acc k (default VUndef (oget o k))) ks []).

Definition tokenCondition (tokenID : val) : list (string * val) :=
  [("whereIn", VObj [("property", VStr "tokenID"); ("values", VArr [tokenID; VStr UNAVAILABLE])])].

(** One row of the table added to the entry of its date. *)
Definition addToDate (dateFormat : string) (acc : list (string * val)) (entry : val) : result (list (string * val)) :=
  date ← prop entry "date";
  let d := moment_format (moment_unix date) dateFormat in
  let o := match oget acc d with
           | Some x => if truthy x then x else VUndef
           | None => VUndef
           end in
  let o := match o with
           | VUndef => VObj [("date", VStr d); ("transactionCount", VNum 0); ("volume", VNum 0)]
           | _ => o
           end in
  c ← prop entry "count"; c' ← js_add (field o "transactionCount") c;
  v ← prop entry "volume"; v' ← js_add (field o "volume") v;
  Ok (oset acc d (set_field (set_field o "transactionCount" c') "volume" v')).

Fixpoint addDates (dateFormat : string) (acc : list (string * val)) (entries : list val) : result (list (string * val)) :=
  match entries with
  | [] => Ok acc
  | e :: r => acc' ← addToDate dateFormat acc e; addDates dateFormat acc' r
  end.

Definition timelineEntry (el : val) : val :=
  VObj (ospread (ospread [] (props el))
    [("timestamp", num_div (date_parse (field el "date")) (VNum 1000));
     ("transactionCount", js_parseInt (field el "transactionCount"))]).

(** The timeline of a token, added to the result. *)
Definition tokenTimeline (db : table) (params : statsParams) (acc : list (string * val)) (tokenID : val) :
    prog (list (string * val)) :=
  queryParams ← getSelector params;
  result ← Mysql.find db (VObj (queryParams ++ tokenCondition tokenID)) (strs ["date"; "count"; "volume"]);
  l ← array_method result "forEach";
  unorderedfinalResult ← lift (addDates (p_dateFormat params) [] l);
  if strict_eq tokenID (VStr UNAVAILABLE) then Ret acc
  else
    sorted ← lift (js_sort (λ a b, Ok (localeCompare (tpl (field a "date")) (tpl (field b "date"))))
                     (map snd unorderedfinalResult));
    Ret (oset acc (tpl tokenID) (VArr (map timelineEntry (reverse sorted)))).

Definition getStatsTimeline (params : statsParams) : prog val :=
  db ← statisticsTable;
  o ← pfold (tokenTimeline db params) [] (p_tokenIDs params); Ret (VObj o).

Definition tokenByAmount (db : table) (params : statsParams) (acc : list (string * val)) (tokenID : val) :
    prog (list (string * val)) :=
  queryParams ← getSelector params;
  result ← Mysql.find db (VObj (queryParams ++ tokenCondition tokenID)) (strs ["amount_range"; "count"]);
  l ← positiveCounts result;
  unorderedfinalResult ← lift (countBy "amount_range" l []);
  if strict_eq tokenID (VStr UNAVAILABLE) then Ret acc
  else
    ordered ← lift (orderKeys unorderedfinalResult);
    Ret (oset acc (tpl tokenID) (VObj ordered)).

Definition getDistributionByAmount (params : statsParams) : prog val :=
  db ← statisticsTable;
  o ← pfold (tokenByAmount db params) [] (p_tokenIDs params); Ret (VObj o).

Definition getDistributionByType (params : statsParams) : prog val :=
  db ← statisticsTable;
  queryParams ← getSelector params;
  result ← Mysql.find db (VObj queryParams) (strs ["moduleCommand"; "count"]);
  l ← positiveCounts result;
  unorderedfinalResult ← lift (countBy "moduleCommand" l []);
  ordered ← lift (orderKeys unorderedfinalResult);
  Ret (VObj ordered).

Definition getTransactionsStatistics (params : val) : prog val :=
  db ← statisticsTable;
  interval ← params @. "interval"; offset ← params @. "offset"; limit ← params @. "limit";
  let dateFormat := if strict_eq interval (VStr "day") then DAY else MONTH in
  now ← call CNow;
  let dateTo := moment_subtract offset interval (moment_endOf interval (moment_utc (moment_at now))) in
  let dateFrom := moment_subtract (num_sub (to_number limit) (VNum 1)) interval (moment_startOf interval dateTo) in
  tokens ← Mysql.find db (VObj [("distinct", VStr "tokenID")]) (strs ["tokenID"]);
  ts ← array_method tokens "map";
  tokenIDs ← lift (result_list (map (λ e, prop e "tokenID") ts));
  let statsParams := mkParams dateFormat (Some dateTo) (Some dateFrom) tokenIDs VUndef in
  timeline ← getStatsTimeline statsParams;
  distributionByType ← getDistributionByType statsParams;
  distributionByAmount ← getDistributionByAmount statsParams;
  rows ← Mysql.find db (VObj [("sort", VStr "date:asc")]) (VStr "date");
  row ← first_of rows;
  minDate ← (or_default row (VObj [])) @. "date";
  total ← (if truthy minDate then
             now ← call CNow; Ret (moment_diff (moment_at now) (moment_unix minDate) interval)
           else Ret (VNum 0));
  Ret (VObj [("data", VObj [("timeline", timeline); ("distributionByType", distributionByType);
                            ("distributionByAmount", distributionByAmount)]);
             ("meta", VObj [("limit", limit); ("offset", offset); ("total", total);
                ("duration", VObj [("format", VStr dateFormat);
                   ("from", VStr (moment_format dateFrom dateFormat)); ("to", VStr (moment_format dateTo dateFormat))])])]).

(** status.js: [isReady] of the status object. *)
Definition isReady : string := "statistics.isReady".
Definition getStatus : prog val :=
  ready ← call (CVarGet isReady);
  _ ← (if truthy ready then Ret tt
       else
         statistics ← getTransactionsStatistics (VObj [("interval", VStr "day")]);
         data ← statistics @. "data"; timeline ← data @. "timeline";
         _ ← call (CVarSet isReady (VBool (negb (Nat.eqb (length (props timeline)) 0)))); Ret tt);
  ready ← call (CVarGet isReady);
  Ret (VBool (truthy ready)).

(** validateTransactionStatistics of buildTransactionStatistics.js.  The type
    counts are compared with the indexer's, one module command after the other. *)
Definition verifyOne (dateFrom dateTo : moment) (distributionByType : list (string * val)) (moduleCommand : string) : prog bool :=
  let seconds m := num_floor (num_div (to_number (valueOf m)) (VNum 1000)) in
  let fromTimestamp := seconds dateFrom in
  let toTimestamp := seconds dateTo in
  res ← requestIndexer "getTransactions" (VObj [("moduleCommand", VStr moduleCommand);
          ("timestamp", VStr (tpl fromTimestamp +:+ ":" +:+ tpl toTimestamp)); ("limit", VNum 1)]);
  meta ← res @. "meta"; total ← meta @. "total";
  Ret (strict_eq total (default VUndef (oget distributionByType moduleCommand))).

Context {BN : BigNumberLib} {MF : MathFns}.

Definition validateTransactionStatistics (days : Z) : prog unit :=
  now ← call CNow;
  let dateTo := moment_subtract (VNum 0) (VStr "day") (moment_endOf (VStr "day") (moment_utc (moment_at now))) in
  let dateFrom := moment_subtract (VNum days) (VStr "day") (moment_startOf (VStr "day") dateTo) in
  distributionByType ← getDistributionByType (mkParams DAY (Some dateTo) (Some dateFrom) [] VUndef);
  verifyStatistics ← pmap (verifyOne dateFrom dateTo (props distributionByType)) (okeys (props distributionByType));
  if forallb id verifyStatistics then Ret tt
  else fetchTransactionsForPastNDays days true.

(** jobs/transactionStatistics.js: what an error of a job leads to is a line in the log. *)
Definition indexReadyListener : prog unit := catch (init historyLengthDays) (λ _, Ret tt).
Definition refreshController : prog unit := catch updateTodayStats (λ _, Ret tt).
Definition verifyController : prog unit := catch (validateTransactionStatistics historyLengthDays) (λ _, Ret tt).

(** methods/controllers/transactions.js *)
Definition transactionsStatisticsController (params : val) : prog val :=
  response ← getTransactionsStatistics params;
  data ← response @. "data"; meta ← response @. "meta";
  Ret (VObj [("data", if truthy data then data else VObj []); ("meta", if truthy meta then meta else VObj [])]).

End query.
End Query.
