(* ===== verification/StatsThms.v ===== *)
(** * What the transaction statistics guarantee

    The rows computed for a day are the abstract count, sum and last token of
    its transactions, grouped by module command and range; they are stored all
    or not at all and nothing is deleted; the days are queued in order; the
    distributions are the sums of the stored counts. *)
From S2P Require Export Numerals MysqlThms Atomic Statistics.
Open Scope string_scope.
Open Scope Z_scope.
Open Scope list_scope.
Import StatisticsConstants Build.

(** ** The statistics of a day *)

Section compute.
Context {BN : BigNumberLib} {BL : BigNumberLaws} {MF : MathFns} (chainID : val).

(** The value of a transaction: its fee and its amounts, when all are decimal. *)
Fixpoint sum_amounts (o : list (string * val)) : option Z :=
  match o with
  | [] => Some 0
  | (k, v) :: r => s ← sum_amounts r; if isAmount k then z ← decimal_of v; Some (z + s) else Some s
  end.

Definition value_of (tx : val) : option Z :=
  match prop tx "params" with
  | Ok (VObj o) => fee ← decimal_of (field tx "fee"); s ← sum_amounts o; Some (fee + s)
  | _ => None
  end.

Definition token_of (tx : val) : result val := resolveGlobalTokenID chainID (field (field tx "params") "tokenID").

(** A transaction the service can add up: amounts in decimal, a token that is a text or missing. *)
Definition addable (tx : val) : Prop := is_Some (value_of tx) ∧ is_ok (token_of tx) = true.

(** Where a transaction counts: its module command and its range. *)
Definition group_of (tx : val) : string * string :=
  (tpl (field tx "moduleCommand"), match getRange tx with Ok r => r | Err _ => "" end).

Definition group (k : string * string) (txs : list val) : list val :=
  List.filter (λ tx, bool_decide (group_of tx = k)) txs.

Definition total (txs : list val) : Z := foldr (λ tx s, default 0 (value_of tx) + s) 0 txs.

Definition token_after (txs : list val) : val :=
  match last txs with
  | Some tx => match token_of tx with Ok v => v | Err _ => VUndef end
  | None => VStr UNAVAILABLE
  end.

Definition initial_group : string * string := group_of initialTransaction.

Lemma fold_amounts o b z s :
  sum_amounts o = Some s → bn_value b = Some z →
  bn_value (fold_left (λ t (kv : string * val), if isAmount kv.1 then bn_plus t kv.2 else t) o b) = Some (z + s).
Proof.
  revert b z s. induction o as [|[k v] o IH]; intros b z s; simpl; [intros [= <-] ->; f_equal; lia|].
  destruct (sum_amounts o) as [s'|]; [simpl|done]. destruct (isAmount k).
  - destruct (decimal_of v) as [n|] eqn:Ev; [simpl|done]. intros [= <-] Hb.
    rewrite (IH _ (z + n) s' eq_refl); [f_equal; lia|]. by apply bn_value_plus.
  - intros [= <-] Hb. by apply IH.
Qed.

Lemma field_of_prop v k x : prop v k = Ok x → field v k = x.
Proof. intros H. unfold field. by rewrite H. Qed.

Lemma prop_ok_any v k k' x : prop v k = Ok x → prop v k' = Ok (field v k').
Proof. unfold field. destruct v; simpl; try done; intros _; repeat case_match; congruence. Qed.

(** An addable transaction has a value, and so a range. *)
Lemma getTxValue_ok tx z : value_of tx = Some z → ∃ b, getTxValue tx = Ok b ∧ bn_value b = Some z.
Proof.
  unfold value_of, getTxValue. destruct (prop tx "params") as [[]|] eqn:Ep; try done.
  rewrite (prop_ok_any _ _ "fee" _ Ep). intros H.
  destruct (decimal_of (field tx "fee")) as [fee|] eqn:Ef; [simpl in H|done].
  destruct (sum_amounts o) as [s|] eqn:Es; [simpl in H|done]. injection H as <-.
  eexists. split; [done|]. apply fold_amounts; [done|]. by apply bn_value_of.
Qed.

Lemma getRange_group tx z : value_of tx = Some z → getRange tx = Ok (group_of tx).2.
Proof.
  intros H. unfold group_of, getRange. by destruct (getTxValue_ok tx z H) as (b & -> & _).
Qed.

Definition volume_value (v : volume) : option Z := match v with Zero => Some 0 | Sum b => bn_value b end.

Definition stat_at (st : stats) (k : string * string) : option txStat := ranges ← aget st k.1; aget ranges k.2.

(** The statistic stands for the transactions of its group. *)
Definition stands_for (s : txStat) (txs : list val) : Prop :=
  count s = Z.of_nat (length txs) ∧ volume_value (volume_of s) = Some (total txs) ∧ tokenID s = token_after txs.

Definition distinct_keys (st : stats) : Prop :=
  NoDup (map fst st) ∧ ∀ mc ranges, aget st mc = Some ranges → NoDup (map fst ranges).

(** The simulation relation: the statistics hold what the transactions seen
    so far add up to, and a group without transactions has no entry, but for
    the one that every day starts with. *)
Definition simulates (seen : list val) (st : stats) : Prop :=
  distinct_keys st ∧
  ∀ k, match stat_at st k with
       | Some s => stands_for s (group k seen) ∧ (group k seen ≠ [] ∨ k = initial_group)
       | None => group k seen = [] ∧ k ≠ initial_group
       end.

Lemma group_app k a b : group k (a ++ b) = group k a ++ group k b.
Proof. apply List.filter_app. Qed.

Lemma group_1 k tx : group k [tx] = if decide (group_of tx = k) then [tx] else [].
Proof. unfold group. simpl. by repeat case_decide. Qed.

Lemma total_app a b : total (a ++ b) = total a + total b.
Proof. induction a as [|x a IH]; simpl; [done|]. unfold total in *. rewrite IH. lia. Qed.

Lemma stat_at_set st mc range s k :
  stat_at (aset st mc (aset (default [] (aget st mc)) range s)) k =
  if decide ((mc, range) = k) then Some s else stat_at st k.
Proof.
  destruct k as [mc' range']. unfold stat_at. simpl. rewrite aget_aset. case_decide as E; simpl.
  - subst mc'. rewrite aget_aset. case_decide as E'; [by rewrite decide_True by congruence|].
    rewrite decide_False by congruence. by destruct (aget st mc).
  - by rewrite decide_False by congruence.
Qed.

Lemma distinct_set st mc range s :
  distinct_keys st → distinct_keys (aset st mc (aset (default [] (aget st mc)) range s)).
Proof.
  intros [Hd Hr]. split; [by apply NoDup_aset|]. intros mc' ranges. rewrite aget_aset. case_decide.
  - intros [= <-]. apply NoDup_aset. destruct (aget st mc) eqn:E; [by eapply Hr|constructor].
  - apply Hr.
Qed.

(** One transaction keeps the simulation. *)
Lemma addTransaction_simulates seen st tx :
  addable tx → simulates seen st →
  ∃ st', addTransaction chainID st tx = Ok st' ∧ simulates (seen ++ [tx]) st'.
Proof.
  intros [[z Hz] Ht] [Hd Hs]. destruct (getTxValue_ok tx z Hz) as (b & Hb & Hv).
  assert (∃ ps, prop tx "params" = Ok (VObj ps)) as [ps Hps].
  { unfold value_of in Hz. destruct (prop tx "params") as [[]|]; try done. by eexists. }
  destruct (token_of tx) as [tok|] eqn:Etok; [clear Ht|done].
  unfold addTransaction. rewrite (prop_ok_any _ _ "moduleCommand" _ Hps), (getRange_group tx z Hz), Hb, Hps.
  unfold token_of in Etok. rewrite (field_of_prop _ _ _ Hps) in Etok.
  cbn [mbind result_mbind result_bind prop]. cbn [field prop] in Etok. rewrite Etok. cbn [mbind result_mbind result_bind].
  eexists. split; [done|]. split; [by apply distinct_set|]. intros k. rewrite stat_at_set.
  rewrite group_app, group_1. change (tpl (field tx "moduleCommand"), (group_of tx).2) with (group_of tx).
  case_decide as Ek.
  - specialize (Hs k). split; [|left; by destruct (group k seen)]. unfold stands_for. cbn [count volume_of tokenID volume_value].
    assert (token_after (group k seen ++ [tx]) = tok) as ->.
    { unfold token_after. rewrite last_snoc. unfold token_of. rewrite (field_of_prop _ _ _ Hps). cbn [field prop].
      by rewrite Etok. }
    rewrite length_app, total_app. change (total [tx]) with (default 0 (value_of tx) + 0). rewrite Hz. simpl.
    set (fb := getTxStatsWithFallback st _ _).
    assert (count fb = Z.of_nat (length (group k seen)) ∧
            volume_value (volume_of fb) = Some (total (group k seen))) as [Hc Hvol].
    { unfold fb, getTxStatsWithFallback. subst k. unfold stat_at in Hs. simpl in Hs.
      destruct (aget st (tpl (field tx "moduleCommand"))) as [ranges|]; simpl in Hs.
      - destruct (aget ranges _); simpl; [by destruct Hs as [(? & ? & _) _]|by destruct Hs as [-> _]].
      - by destruct Hs as [-> _]. }
    split_and!; [rewrite Hc; lia| |done]. apply bn_value_add; [|by rewrite Z.add_0_r].
    destruct (volume_of fb); simpl in Hvol; [injection Hvol as <-; by apply bn_value_of|].
    by rewrite bn_value_copy.
  - rewrite app_nil_r. apply Hs.
Qed.

Lemma addTransactions_simulates txs seen st :
  Forall addable txs → simulates seen st →
  ∃ st', addTransactions chainID st txs = Ok st' ∧ simulates (seen ++ txs) st'.
Proof.
  intros Ht. revert seen st. induction Ht as [|tx txs Hx _ IH]; intros seen st Hs; simpl.
  - eexists. by rewrite app_nil_r.
  - destruct (addTransaction_simulates seen st tx Hx Hs) as (st1 & -> & H1).
    destruct (IH _ _ H1) as (st2 & E & H2). exists st2. split; [exact E|].
    by rewrite <- app_assoc in H2.
Qed.

Lemma initial_simulates :
  ∃ st, getInitialValueToEnsureEachDayHasAtLeastOneEntry = Ok st ∧ simulates [] st.
Proof.
  assert (value_of initialTransaction = Some 0) as Hz by reflexivity.
  unfold getInitialValueToEnsureEachDayHasAtLeastOneEntry.
  rewrite (getRange_group _ _ Hz). eexists. split; [done|]. split.
  - split; [apply NoDup_singleton|]. intros mc ranges. simpl. case_decide; [|done].
    intros [= <-]. apply NoDup_singleton.
  - intros [mc range]. unfold stat_at. cbn [aget fst snd].
    assert (initial_group = (ANY, (group_of initialTransaction).2)) as Hi by reflexivity.
    destruct (decide (ANY = mc)) as [<-|Hmc]; cbn [aget mbind option_bind];
      [destruct (decide ((group_of initialTransaction).2 = range)) as [<-|Hr]|].
    + split; [done|right]. done.
    + split; [done|]. rewrite Hi. congruence.
    + split; [done|]. rewrite Hi. congruence.
Qed.

Lemma elem_of_statsList st row :
  distinct_keys st →
  row ∈ transformStatsObjectToList st ↔ ∃ k s, stat_at st k = Some s ∧ row = statRow k.1 k.2 s.
Proof.
  intros [Hd Hr]. unfold transformStatsObjectToList. rewrite list_elem_of_In, in_concat. split.
  - intros (l & Hl & Hrow). apply in_map_iff in Hl as ([mc ranges] & <- & Hin).
    apply in_map_iff in Hrow as ([range s] & <- & Hin').
    apply list_elem_of_In, (aget_Some _ _ _ Hd) in Hin.
    apply list_elem_of_In, (aget_Some _ _ _ (Hr _ _ Hin)) in Hin'.
    exists (mc, range), s. split; [|done]. unfold stat_at. simpl. by rewrite Hin.
  - intros ([mc range] & s & Hs & ->). unfold stat_at in Hs. simpl in Hs.
    destruct (aget st mc) as [ranges|] eqn:E; [simpl in Hs|done].
    eexists. split.
    + apply in_map_iff. exists (mc, ranges). split; [done|]. apply list_elem_of_In, aget_Some; done.
    + apply in_map_iff. exists (range, s). split; [done|]. apply list_elem_of_In, aget_Some; [|done]. by eapply Hr.
Qed.

Lemma NoDup_statsList st : distinct_keys st → NoDup (transformStatsObjectToList st).
Proof.
  unfold transformStatsObjectToList. intros [Hd Hr].
  assert (∀ mc ranges, (mc, ranges) ∈ st → NoDup (map fst ranges)) as Hr'.
  { intros mc ranges Hin. eapply Hr. by apply aget_Some. }
  clear Hr. revert Hd Hr'. induction st as [|[mc ranges] st IH]; simpl; [intros; constructor|].
  rewrite NoDup_cons. intros [Hn Hd] Hr. apply NoDup_app. split_and!.
  - assert (NoDup (map fst ranges)) as Hnd by (eapply Hr; by left). clear -Hnd.
    induction ranges as [|[r s] ranges IH]; simpl in *; [constructor|]. apply NoDup_cons in Hnd as [Hn Hnd].
    constructor; [|by apply IH]. intros Hin. apply Hn. apply list_elem_of_In, in_map_iff in Hin as ([r' s'] & [=] & Hin).
    apply list_elem_of_In, in_map_iff. exists (r', s'). simpl. split; [congruence|done].
  - intros x Hx Hx'. apply Hn. apply list_elem_of_In, in_map_iff in Hx as ([r s] & <- & _).
    apply list_elem_of_In, in_concat in Hx' as (l & Hl & Hin).
    apply in_map_iff in Hl as ([mc' ranges'] & <- & Hin').
    apply in_map_iff in Hin as ([r' s'] & [=] & _). subst mc'.
    apply list_elem_of_In, in_map_iff. by exists (mc, ranges').
  - apply IH; [done|]. intros. eapply Hr. by right.
Qed.

Lemma volumeNumber_exact v z : volume_value v = Some z → 0 ≤ z ≤ max_exact → volumeNumber v = VNum z.
Proof.
  destruct v as [|b]; simpl; [by intros [= <-]|]. intros Hb Hz. unfold bn_number.
  rewrite (bn_value_toString _ _ Hb), number_of_pretty by lia. done.
Qed.

Lemma decimal_nonneg v z : decimal_of v = Some z → 0 ≤ z.
Proof.
  destruct v; simpl; try done; repeat case_match; try done; intros [= <-]; [lia|].
  match goal with H : _ && _ = true |- _ => apply andb_true_iff in H as [? _] end. lia.
Qed.

Lemma sum_amounts_nonneg o s : sum_amounts o = Some s → 0 ≤ s.
Proof.
  revert s. induction o as [|[k v] o IH]; intros s; simpl; [by intros [= <-]|].
  destruct (sum_amounts o) as [s'|]; [simpl|done]. specialize (IH s' eq_refl). destruct (isAmount k).
  - destruct (decimal_of v) eqn:E; [simpl|done]. apply decimal_nonneg in E. intros [= <-]. lia.
  - by intros [= <-].
Qed.

Lemma total_nonneg txs : 0 ≤ total txs.
Proof.
  induction txs as [|tx txs IH]; [done|]. unfold total in *. simpl.
  destruct (value_of tx) as [z|] eqn:E; simpl; [|lia]. unfold value_of in E.
  destruct (prop tx "params") as [[]|]; try done.
  destruct (decimal_of (field tx "fee")) eqn:Ef; [simpl in E|done]. apply decimal_nonneg in Ef.
  destruct (sum_amounts o) eqn:Es; [simpl in E|done]. apply sum_amounts_nonneg in Es. injection E as <-. lia.
Qed.

End compute.

(** ** Storing the rows *)

Section insert.
Context {E : Type} `{SE : SqlEngine E}.
Context {SC : StatisticsConfig} {BN : BigNumberLib} {MF : MathFns} {MO : MomentLib} {LO : Locale}.
Implicit Types w : world E.

Definition statsTable : table :=
  mkTable (tableName Schemas.transactionStatistics) Schemas.transactionStatistics.

(** Code that keeps to transactions of its own changes nothing that a
    transaction without writes would show. *)
Lemma idle_step t s0 own c w w' r :
  unseen t s0 own (db w) → sq_pending (db w) !! t = Some [] → own_allowed None own c →
  step c w = (w', r) → sq_pending (db w') !! t = Some [].
Proof.
  intros (_ & Hn & _) Hp Ha Hs. destruct r as [v|e].
  - apply step_ok in Hs. destruct c; simpl in *; try (by rewrite Hs).
    + by destruct Hs as [-> _].
    + by destruct Hs as [_ ->].
    + destruct Hs as (t1 & H1 & _ & ->). simpl. rewrite lookup_insert_ne; [done|]. intros ->. congruence.
    + rewrite Hs. simpl. rewrite lookup_delete_ne; [done|]. by intros ->.
    + rewrite Hs. simpl. rewrite lookup_delete_ne; [done|]. by intros ->.
    + destruct Hs as (t1 & ws & Ht1 & H1 & _ & Hs). destruct Ha as (t2 & Ht2 & [[Ho _]|?]); [|done].
      simplify_eq. destruct (is_write calls); [|by destruct Hs as [-> _]]. destruct Hs as (_ & -> & _).
      simpl. rewrite lookup_insert_ne; [done|]. by intros ->.
  - apply step_err in Hs as (_ & _ & Hs). destruct (Hs t) as [->|[_ ->]]; done.
Qed.

Lemma own_allowed_weaken t own c : own_allowed None own c → own_allowed (Some t) own c.
Proof. destruct c; simpl; try done. intros (t1 & ? & [?|?]); [|done]. exists t1. by split; [|left]. Qed.

Lemma discw_idle {A} t (p : prog A) w w' r :
  discw None p → sq_pending (db w) !! t = Some [] → run p w = (w', r) →
  same_rows (db w) (db w') ∧ sq_pending (db w') !! t = Some [].
Proof.
  intros Hp Ho Hr.
  destruct (twp_run (own_allowed None) own_next
    (λ own w', unseen t (db w) own (db w') ∧ sq_pending (db w') !! t = Some [])
    (λ own c w1 w2 r1 H Ha Hs, conj
       (unseen_step t (db w) own c w1 w2 r1 (proj1 H) (own_allowed_weaken t own c Ha) Hs)
       (idle_step t (db w) own c w1 w2 r1 (proj1 H) (proj2 H) Ha Hs)) p [] _ w w' r (Hp []))
    as (own' & [(_ & _ & _ & Hs) Ht] & _); [|done|done].
  split; [|done]. split_and!; [by eexists|by intros ?%elem_of_nil|by intros ? ? ?%elem_of_nil|done].
Qed.

(** The deletion is never reached. *)
Lemma discw_removeDate db date : discw None (removeDate db date).
Proof.
  change (discw None (catch (_ ← detach (Mysql.find db (VObj [("date", date); ("limit", VNum 1)]) (strs ["id"]));
    (Throw (type_error "db.find is not a function or its return value is not iterable") : prog unit)) (λ _, Ret tt))).
  discw.
Qed.

Lemma removeDate_ok db date w : ∃ w', run (removeDate db date) w = (w', Ok tt).
Proof.
  unfold removeDate. rewrite run_catch, run_bind.
  destruct (run_detach (Mysql.find db (VObj [("date", date); ("limit", VNum 1)]) (strs ["id"])) w) as (w1 & -> & _).
  by eexists.
Qed.

(** The sum of the counts that the message reports. *)
Lemma counts_ok st : ∃ v, fold_left (λ acc row, a ← acc; js_add a (default VUndef (oget row "count")))
    (transformStatsObjectToList st) (Ok (VNum 0)) = Ok v.
Proof.
  assert (∀ l v, (match v with VNum _ | VFlt _ => True | _ => False end) →
    Forall (λ row, ∃ n, oget row "count" = Some (VNum n)) l →
    ∃ v', fold_left (λ acc row, a ← acc; js_add a (default VUndef (oget row "count"))) l (Ok v) = Ok v') as H.
  { intros l. induction l as [|row l IH]; intros v Hv Hl; simpl; [by eexists|].
    apply Forall_cons in Hl as [[n Hn] Hl]. cbn [mbind result_mbind result_bind]. rewrite Hn. simpl.
    assert (js_add v (VNum n) = Ok (num_add (to_number v) (VNum n))) as -> by (by destruct v).
    apply IH; [|done]. destruct v; try done; simpl; unfold num_of_Z, num_of_flt; by repeat case_match. }
  apply H; [done|]. unfold transformStatsObjectToList. apply Forall_forall. intros row Hrow.
  apply list_elem_of_In, in_concat in Hrow as (l & Hl & Hrow).
  apply in_map_iff in Hl as ([mc ranges] & <- & _). apply in_map_iff in Hrow as ([r s] & <- & _).
  by exists (count s).
Qed.

(** C18. The statistics of a day are stored all or not at all: when insertToDB
    returns, every row of the day has been inserted or merged, cast by the
    schema, in one commit, and no other write has happened; when it throws,
    nothing has.  Rows of the day that are not among the new ones stay: the
    removal of the old rows never takes place. *)
Theorem insertToDB_all_or_none st date w w' r :
  run (insertToDB (transformStatsObjectToList st) date) w = (w', r) →
  match r with
  | Ok _ => ∃ t rs w1,
      Mysql.mapRowsBySchema (rowsOf date (transformStatsObjectToList st)) (schema Schemas.transactionStatistics) = Ok rs ∧
      same_rows (db w) (db w1) ∧
      sq_rows (db w') = fold_left (apply_write (sq_tables (db w1))) (map (insert_call statsTable t) rs) (sq_rows (db w1))
  | Err _ => same_rows (db w) (db w')
  end.
Proof.
  unfold insertToDB, statisticsTable. intros Hr.
  rewrite run_bind in Hr. destruct (run (Mysql.getTableInstance _ _ _) w) as [w1 o] eqn:E1.
  pose proof (no_statement_run _ _ _ _ (pall_getTableInstance _ _ _) E1) as H1%same_rows_eq.
  destruct o as [tb|e]; [|by injection Hr as <- <-].
  apply run_getTableInstance in E1 as [-> _]. fold statsTable in Hr.
  rewrite run_bind in Hr. destruct (run (Mysql.getDbConnection _) w1) as [w2 o] eqn:E2.
  apply (no_statement_run _ _ _ _ (pall_getDbConnection _)), same_rows_eq in E2.
  destruct o as [cn|e]; [|injection Hr as <- <-; by etrans].
  rewrite run_bind in Hr. destruct (run (Mysql.startDbTransaction cn) w2) as [w3 o] eqn:E3.
  apply run_startDbTransaction in E3 as [H3 Ht].
  destruct o as [t|e]; [specialize (Ht t eq_refl)|injection Hr as <- <-; by do 2 (etrans; [eassumption|])].
  assert (same_rows (db w) (db w3)) as Hw3 by (by do 2 (etrans; [eassumption|])). clear H1 E2 H3.
  assert (Hroll : ∀ e w4, same_rows (db w) (db w4) →
    run (_ ← Mysql.rollbackDbTransaction t; Throw e : prog string) w4 = (w', r) → ∃ e', r = Err e' ∧ same_rows (db w) (db w')).
  { intros e w4 H4 Hx. unfold Mysql.rollbackDbTransaction in Hx. rewrite run_bind, run_call in Hx.
    destruct (step (CTrxRollback t) w4) as [w5 o] eqn:Er. apply no_commit_rows in Er; [|done].
    assert (same_rows (db w) (db w')) by (etrans; [exact H4|]; apply same_rows_eq; destruct o; injection Hx as <- _; done).
    destruct o; injection Hx as _ <-; by eauto. }
  rewrite run_catch, run_bind in Hr.
  destruct (removeDate_ok statsTable date w3) as [w4 E4]. rewrite E4 in Hr.
  destruct (discw_idle t _ _ _ _ (discw_removeDate statsTable date) Ht E4) as [H4 Ht4].
  assert (same_rows (db w) (db w4)) as Hw4 by (by etrans). clear Ht Hw3 H4 E4.
  rewrite run_bind in Hr.
  destruct (run (Mysql.upsert statsTable _ (Some t)) w4) as [w5 o] eqn:E5.
  assert (sq_rows (db w5) = sq_rows (db w4)) as H5.
  { destruct o as [v|e]; [|by eapply fails_clean_operation; [apply op_upsert|]].
    apply run_upsert in E5 as (rs & _ & ?%eff_rows); [done|by eexists]. }
  destruct o as [v|e]; [|by destruct (Hroll e w5) as (? & -> & ?); [etrans; [exact Hw4|by apply same_rows_eq]|..]].
  apply run_upsert in E5 as (rs & Hrs & Htb & Hrows & ws & Hws & Hp); [|by eexists].
  rewrite Ht4 in Hws. simplify_eq. rewrite run_bind in Hr. unfold Mysql.commitDbTransaction in Hr. rewrite run_call in Hr.
  destruct (step (CTrxCommit t) w5) as [w6 o] eqn:E6. destruct o as [v6|e].
  - apply step_ok in E6. simpl in E6. destruct (counts_ok st) as [c Hc].
    rewrite run_bind, run_lift, Hc in Hr. injection Hr as <- <-.
    exists t, rs, w5. split; [exact Hrs|]. split; [etrans; [exact Hw4|by apply same_rows_eq]|].
    rewrite E6. simpl. unfold view. by rewrite Hp, lookup_insert_eq.
  - apply step_err in E6 as (_ & H6 & _). destruct (Hroll e w6) as (? & -> & ?); [|done|done].
    etrans; [exact Hw4|]. apply same_rows_eq. congruence.
Qed.

End insert.

(** ** The days that are queued *)

Section schedule.
Context {SC : StatisticsConfig} {MO : MomentLib}.

Definition no_queue (c : cmd) : Prop := match c with CQueueAdd _ _ => False | _ => True end.
Definition queued (tr : list (cmd * result val)) : list (string * val) :=
  omap (λ cr, match cr.1 with CQueueAdd q d => Some (q, d) | _ => None end) tr.

Lemma queued_app a b : queued (a ++ b) = queued a ++ queued b.
Proof. apply omap_app. Qed.

Lemma no_queue_queued {A} (p : prog A) tr out : pall no_queue p → exec p tr out → queued tr = [].
Proof.
  intros Hp Hx. apply (pall_exec _ _ _ _ Hp) in Hx. induction Hx as [|[c r] tr Hc _ IH]; [done|].
  unfold queued in *. simpl in *. destruct c; done.
Qed.

Lemma queues_find tb ps cols : pall no_queue (Mysql.find tb ps cols).
Proof.
  unfold Mysql.find, Mysql.startDbTransaction, Mysql.warnNoLimit, Mysql.closing, Mysql.commitDbTransaction,
    Mysql.rollbackDbTransaction. pall.
Qed.

Lemma pall_table_no_queue n c ep : pall no_queue (Mysql.getTableInstance n c ep).
Proof.
  unfold Mysql.getTableInstance, Mysql.createTableIfNotExists, Mysql.getDbConnection, Mysql.loadSchema,
    Mysql.createDbConnection. pall.
Qed.

Definition dayJob (now : val) (i : Z) : string * val := (queueName, VObj [("date", dayOf now i)]).

(** The jobs of the days from [i] on that are chosen. *)
Definition chosenDays (i : Z) (l : list (val * bool)) : list (string * val) :=
  concat (imap (λ k '(now, chosen), if chosen : bool then [dayJob now (i + Z.of_nat k)] else []) l).

Lemma scheduleDays_queued db forceReload n i tr :
  exec (scheduleDays db forceReload n i) tr (Ok tt) →
  ∃ l, length l = n ∧ queued tr = chosenDays i l ∧
    ∀ k now chosen, l !! k = Some (now, chosen) → forceReload = true ∨ i + Z.of_nat k = 0 → chosen = true.
Proof.
  revert i tr. induction n as [|n IH]; intros i tr; cbn [scheduleDays].
  { intros [-> _]%exec_ret_inv. exists []. by split_and!. }
  intros [(tr1 & tr2 & now & -> & H1 & Hx)|(e & _ & ?)]%exec_bind; [|done].
  apply exec_call_inv in H1 as ->. cbv zeta in Hx.
  apply exec_bind in Hx as [(tr3 & tr4 & upd & -> & H2 & Hx)|(e & _ & ?)]; [|done].
  apply exec_bind in Hx as [(tr5 & tr6 & [] & -> & H3 & Hx)|(e & _ & ?)]; [|done].
  destruct (IH _ _ Hx) as (l & Hl & Hq & Hc). exists ((now, upd || forceReload) :: l).
  assert (queued tr3 = [] ∧ (i = 0 → upd = true)) as [Hq3 Hupd].
  { destruct (Z.eqb_spec i 0) as [->|Hi].
    - by apply exec_ret_inv in H2 as [-> [= ->]].
    - split; [|done]. eapply no_queue_queued; [|exact H2]. apply pall_bind; [apply queues_find|intros].
      pall. }
  assert (queued tr5 = if upd || forceReload then [dayJob now i] else []) as Hq5.
  { destruct (upd || forceReload).
    - apply exec_bind in H3 as [(? & ? & ? & -> & Ha & Hb)|(e & _ & ?)]; [|done].
      apply exec_call_inv in Ha as ->. by apply exec_ret_inv in Hb as [-> _].
    - by apply exec_ret_inv in H3 as [-> _]. }
  split_and!; [simpl; congruence| |].
  - change ([(CNow, Ok now)] ++ tr3 ++ tr5 ++ tr6) with ((CNow, Ok now) :: tr3 ++ tr5 ++ tr6).
    unfold queued at 1. cbn [omap list_omap fst]. fold (queued (tr3 ++ tr5 ++ tr6)).
    rewrite !queued_app, Hq3, Hq5, Hq. unfold chosenDays. cbn [imap concat]. rewrite Z.add_0_r, app_nil_l. f_equal.
    f_equal. apply imap_ext. intros k [now' chosen'] _. simpl. by replace (i + 1 + Z.of_nat k) with (i + Z.of_nat (S k)) by lia.
  - intros [|k] now' chosen'; simpl.
    + intros [= <- <-] [->|Hi]; [by rewrite orb_true_r|]. rewrite Hupd by lia. done.
    + intros Hk Hf. apply (Hc k now' chosen' Hk). destruct Hf; [by left|right; lia].
Qed.

(** Asked for the last n days, the service that returns has queued
    today's job and jobs of chosen days before it, latest first and none
    twice over; with a forced reload it has queued all n of them. *)
Theorem past_days_scheduled n forceReload tr :
  exec (fetchTransactionsForPastNDays n forceReload) tr (Ok tt) →
  ∃ l, length l = Z.to_nat n ∧ queued tr = chosenDays 0 l ∧
    (∀ now chosen, l !! 0%nat = Some (now, chosen) → chosen = true) ∧
    (forceReload = true → queued tr = imap (λ k now, dayJob now (Z.of_nat k)) (map fst l)).
Proof.
  unfold fetchTransactionsForPastNDays, statisticsTable.
  intros [(tr1 & tr2 & tb & -> & H1 & Hx)|(e & _ & ?)]%exec_bind; [|done].
  apply (no_queue_queued _ _ _ (pall_table_no_queue _ _ _)) in H1.
  destruct (scheduleDays_queued _ _ _ _ _ Hx) as (l & Hl & Hq & Hc).
  exists l. rewrite queued_app, H1. split_and!; [done|done| |].
  - intros now chosen H. apply (Hc 0%nat now chosen H). by right.
  - intros ->. simpl. rewrite Hq. unfold chosenDays.
    assert (∀ i, (∀ k now chosen, l !! k = Some (now, chosen) → chosen = true) →
      concat (imap (λ k '(now, chosen), if chosen : bool then [dayJob now (i + Z.of_nat k)] else []) l)
      = imap (λ k now, dayJob now (i + Z.of_nat k)) (map fst l)) as H.
    { clear. induction l as [|[now chosen] l IH]; intros i Hall; [done|]. cbn [imap concat map fst].
      rewrite (Hall 0%nat now chosen eq_refl). simpl. f_equal. specialize (IH (i + 1)).
      assert (∀ k, i + 1 + Z.of_nat k = i + Z.of_nat (S k)) as Hk by lia.
      etrans; [|etrans; [apply IH; intros k; apply (Hall (S k))|]].
      - f_equal. apply imap_ext. intros k [now' chosen'] _. simpl. by rewrite Hk.
      - apply imap_ext. intros. simpl. by rewrite Hk. }
    apply (H 0). intros k now chosen Hk. apply (Hc k now chosen Hk). by left.
Qed.
End schedule.

(** ** The distributions *)

Section distribution.
Context {E : Type} `{SE : SqlEngine E}.
Context {SC : StatisticsConfig} {MO : MomentLib} {LO : Locale}.
Implicit Types w : world E.
Import Query.

(** A row with a text in the column and an exact count. *)
Definition countable (column : string) (e : val) : bool :=
  match e with
  | VObj o => match oget o column, oget o "count" with Some (VStr _), Some (VNum _) => true | _, _ => false end
  | _ => false
  end.

Definition key_at (column : string) (e : val) : string := match field e column with VStr s => s | _ => "" end.
Definition count_at (e : val) : Z := match field e "count" with VNum z => z | _ => 0 end.

Definition sum_at (column key : string) (l : list val) : Z :=
  foldr (λ e s, if bool_decide (key_at column e = key) then count_at e + s else s) 0 l.

Lemma sum_at_cons column key e l :
  sum_at column key (e :: l) = if decide (key_at column e = key) then count_at e + sum_at column key l else sum_at column key l.
Proof. unfold sum_at. cbn [foldr]. case_decide; [by rewrite bool_decide_eq_true_2|by rewrite bool_decide_eq_false_2]. Qed.

Lemma countable_inv column e :
  countable column e = true → prop e column = Ok (VStr (key_at column e)) ∧ prop e "count" = Ok (VNum (count_at e)).
Proof.
  unfold countable, key_at, count_at. destruct e; try done. cbn [prop field].
  destruct (oget o column) as [[]|]; try done. by destruct (oget o "count") as [[]|].
Qed.

Lemma addAt_num o k (n z : Z) :
  default (VNum 0) (oget o k) = VNum n → addAt o k (VNum z) = Ok (oset o k (num_of_Z (n + z))).
Proof.
  unfold addAt. destruct (oget o k) as [x|]; simpl; [intros ->|by intros [= <-]]. simpl.
  by destruct (Z.eqb_spec n 0) as [->|].
Qed.

Lemma countBy_sums column l acc (start : string → Z) :
  forallb (countable column) l = true → Forall (λ e, 0 < count_at e) l →
  (∀ k, default (VNum 0) (oget acc k) = VNum (start k)) → (∀ k, 0 ≤ start k) →
  (∀ k, start k + sum_at column k l ≤ max_exact) →
  ∃ o, countBy column l acc = Ok o ∧
    (∀ k, default (VNum 0) (oget o k) = VNum (start k + sum_at column k l)) ∧
    (∀ k, has_key o k = true ↔ has_key acc k = true ∨ ∃ e, e ∈ l ∧ key_at column e = k).
Proof.
  revert acc start. induction l as [|e l IH]; intros acc start Hl Hpos Hacc Hst Hmax; cbn [countBy].
  { exists acc. split_and!; [done| |].
    - intros k. by rewrite Z.add_0_r.
    - intros k. split; [by left|]. intros [?|(e & ?%elem_of_nil & _)]; done. }
  simpl in Hl. apply andb_true_iff in Hl as [He Hl]. apply Forall_cons in Hpos as [Hp Hpos].
  destruct (countable_inv column e He) as [-> ->]. cbn [mbind result_mbind result_bind].
  set (key := key_at column e) in *. change (tpl (VStr key)) with key.
  assert (0 ≤ sum_at column key l) as Hs0.
  { clear -Hpos. induction Hpos as [|x l Hx _ IH]; [done|]. rewrite sum_at_cons. case_decide; lia. }
  assert (∀ k, sum_at column k (e :: l) = if decide (key = k) then count_at e + sum_at column k l else sum_at column k l)
    as Hcons by (intros; apply sum_at_cons).
  rewrite (addAt_num acc key _ _ (Hacc key)). cbn [mbind result_mbind result_bind].
  assert (num_of_Z (start key + count_at e) = VNum (start key + count_at e)) as ->.
  { unfold num_of_Z. specialize (Hmax key). rewrite Hcons, decide_True in Hmax by done.
    specialize (Hst key). by rewrite (proj2 (Z.leb_le _ _)) by lia. }
  destruct (IH (oset acc key (VNum (start key + count_at e)))
              (λ k, if decide (key = k) then start key + count_at e else start k) Hl Hpos) as (o & Ho & Hsum & Hkeys).
  - intros k. rewrite oget_oset. case_decide; [done|apply Hacc].
  - intros k. case_decide; [specialize (Hst key); lia|apply Hst].
  - intros k. specialize (Hmax k). rewrite Hcons in Hmax. case_decide; [subst k; lia|done].
  - exists o. split_and!; [exact Ho| |].
    + intros k. rewrite Hsum, Hcons. case_decide; [subst k; f_equal; lia|done].
    + intros k. rewrite Hkeys. unfold has_key at 1. rewrite oget_oset. split.
      * intros [H|(e' & Hin & Hk)]; [|right; exists e'; split; [by right|done]].
        case_decide as Ek; [right; exists e; split; [by left|exact Ek]|by left].
      * intros [H|(e' & [->|Hin]%elem_of_cons & Hk)].
        -- left. case_decide; done.
        -- left. by rewrite decide_True.
        -- right. by exists e'.
Qed.

Hypothesis locale_order : ∀ a b c : string,
  localeCompare a b ≠ Gt → localeCompare b c ≠ Gt → localeCompare a c ≠ Gt.
Hypothesis locale_sym : ∀ a b, localeCompare a b = Gt → localeCompare b a ≠ Gt.

Lemma ordered_keys (o : list (string * val)) : NoDup (okeys o) →
  ∃ o', orderKeys o = Ok o' ∧ (∀ k, oget o' k = oget o k) ∧
        StronglySorted (λ a b, localeCompare a b ≠ Gt) (okeys o').
Proof.
  intros Hd. unfold orderKeys.
  destruct (js_sort_sorted (λ a b, Ok (localeCompare a b)) (λ _, True) (λ a b, localeCompare a b ≠ Gt)) with (l := okeys o)
    as (ks & -> & Hs & Hp).
  - intros x y _ _. eexists. split; [done|]. split; [apply locale_sym|done].
  - intros x y z. apply locale_order.
  - by apply Forall_true.
  - cbn [mbind result_mbind result_bind]. eexists. split; [done|].
    assert (NoDup ks) as Hdk by (by rewrite Hp).
    assert (∀ acc, NoDup (okeys acc ++ ks) → okeys (fold_left (λ acc k, oset acc k (default VUndef (oget o k))) ks acc) = okeys acc ++ ks
      ∧ ∀ k, oget (fold_left (λ acc k, oset acc k (default VUndef (oget o k))) ks acc) k =
             if decide (k ∈ ks) then Some (default VUndef (oget o k)) else oget acc k) as H.
    { clear. induction ks as [|k ks IH]; intros acc Hnd; simpl; [by rewrite app_nil_r|].
      assert (k ∉ okeys acc) as Hk.
      { apply NoDup_app in Hnd as (_ & Hnd & _). intros Hin. apply (Hnd k Hin). by left. }
      assert (okeys (oset acc k (default VUndef (oget o k))) = okeys acc ++ [k]) as Hkeys.
      { rewrite okeys_oset. destruct (has_key acc k) eqn:Eh; [by apply has_key_true in Eh|done]. }
      destruct (IH (oset acc k (default VUndef (oget o k)))) as [H1 H2].
      { by rewrite Hkeys, <- app_assoc. }
      split; [by rewrite H1, Hkeys, <- app_assoc|]. intros k'. rewrite H2, oget_oset.
      destruct (decide (k' ∈ ks)) as [Hin|Hnin]; [by rewrite decide_True by (by right)|].
      destruct (decide (k = k')) as [->|Hne]; [by rewrite decide_True by (by left)|].
      rewrite decide_False; [done|]. rewrite elem_of_cons. naive_solver. }
    destruct (H []) as [H1 H2]; [done|]. simpl in H1. split; [|by rewrite H1].
    intros k. rewrite H2. case_decide as Hk.
    + rewrite Hp in Hk. apply has_key_true in Hk. unfold has_key in Hk. by destruct (oget o k).
    + rewrite Hp in Hk. symmetry. by apply oget_not_elem_of.
Qed.

Lemma countBy_NoDup column l acc o : NoDup (okeys acc) → countBy column l acc = Ok o → NoDup (okeys o).
Proof.
  revert acc. induction l as [|e l IH]; intros acc Hd; cbn [countBy]; [by intros [= <-]|].
  unfold addAt. destruct (prop e column); [simpl|done]. destruct (prop e "count"); [simpl|done].
  destruct (js_add _ _); [simpl|done]. apply IH. by apply NoDup_okeys_oset.
Qed.

(** The rows a distribution counts. *)
Definition counted (rows : list val) : list val := List.filter (λ e, js_gt (field e "count") (VNum 0)) rows.

Lemma run_positiveCounts rows w w' l :
  run (positiveCounts (VArr rows)) w = (w', Ok l) → w' = w ∧ l = counted rows.
Proof.
  unfold positiveCounts. simpl. revert w w' l. induction rows as [|e rows IH]; intros w w' l; cbn [pfilter].
  { intros H. by inv_run. }
  intros H. inv_run. destruct (IH _ _ _ Hr0) as [-> ->]. split; [done|].
  match goal with Hc : hasCount e = Ok _ |- _ => unfold hasCount in Hc; destruct (prop e "count") eqn:Ep; [|done] end.
  match goal with Hc : _ = Ok ?b |- _ => injection Hc as <- end. 
  assert (field e "count" = a0) as <- by (unfold field; by rewrite Ep). unfold counted. simpl. by case_match.
Qed.

Lemma run_positiveCounts_array res w w' l :
  run (positiveCounts res) w = (w', Ok l) → ∃ rows, res = VArr rows.
Proof. destruct res; try (by eauto); unfold positiveCounts; rewrite run_bind; simpl; discriminate. Qed.

Lemma js_gt_0 z : js_gt (VNum z) (VNum 0) = true ↔ 0 < z.
Proof. unfold js_gt. rewrite bool_decide_eq_true. unfold js_compare. simpl. destruct (Z.compare_spec z 0); naive_solver lia. Qed.

(** The distribution by type is exact: for each module command of a
    committed row that the query selects with a positive count it has the sum
    of those counts, under keys in the order of the locale, and nothing else. *)
Theorem distribution_sums params w w' v :
  run (getDistributionByType params) w = (w', Ok v) →
  ∃ selector t query rows tables o,
    Mysql.queryBuilder selector (strs ["moduleCommand"; "count"]) t = Ok query ∧
    select tables query (rows_of (sq_rows (db w)) (t_name statsTable)) = VArr rows ∧ v = VObj o ∧
    (forallb (countable "moduleCommand") (counted rows) = true →
     (∀ k, sum_at "moduleCommand" k (counted rows) ≤ max_exact) →
     (∀ k, oget o k = if existsb (λ e, bool_decide (key_at "moduleCommand" e = k)) (counted rows)
                      then Some (VNum (sum_at "moduleCommand" k (counted rows))) else None) ∧
     StronglySorted (λ a b, localeCompare a b ≠ Gt) (okeys o)).
Proof.
  unfold getDistributionByType, statisticsTable. intros H.
  apply run_bind_Ok in H as (w1 & tb & H1 & H). apply run_bind_Ok in H as (w2 & sel & H2 & H).
  apply run_bind_Ok in H as (w3 & res & H3 & H). apply run_bind_Ok in H as (w4 & l & H4 & H).
  assert (sq_rows (db w2) = sq_rows (db w)) as Hrows.
  { apply (no_statement_run _ _ _ _ (pall_getTableInstance _ _ _)) in H1.
    eapply no_statement_run in H2; [congruence|]. unfold getSelector, requestIndexer. pall. }
  apply run_getTableInstance in H1 as [-> _]. fold statsTable in *.
  apply run_find in H3 as (t & query & Hq & Hres & _ & _).
  rewrite Hrows in Hres. subst res.
  destruct (run_positiveCounts_array _ _ _ _ H4) as [rows Esel]. rewrite Esel in H4.
  apply run_positiveCounts in H4 as [-> ->].
  apply run_bind_Ok in H as (w5 & u & H5 & H). apply run_lift_ok in H5 as [-> H5].
  apply run_bind_Ok in H as (w6 & o & H6 & H). apply run_lift_ok in H6 as [-> H6]. apply run_ret_ok in H as [-> ->].
  exists sel, t, query, rows, (default [] (sq_tables (db w2) !! t_name statsTable)), o.
  split_and!; [exact Hq|exact Esel|done|]. intros Hc Hmax.
  destruct (countBy_sums "moduleCommand" (counted rows) [] (λ _, 0)) as (u' & Hu & Hsum & Hkeys); try done.
  { apply Forall_forall. intros e He. assert (countable "moduleCommand" e = true) as Hce.
    { rewrite forallb_forall in Hc. apply Hc. by apply list_elem_of_In. }
    apply countable_inv in Hce as [_ Hce]. apply elem_of_List_filter in He as [_ He]. unfold field in He. rewrite Hce in He.
    by apply js_gt_0. }
  rewrite H5 in Hu. injection Hu as <-.
  assert (NoDup (okeys u)) as Hnd by (eapply countBy_NoDup; [|exact H5]; constructor).
  destruct (ordered_keys u Hnd) as (o' & Ho' & Hget & Hs). rewrite H6 in Ho'. injection Ho' as <-.
  split; [|exact Hs]. intros k. rewrite Hget. specialize (Hsum k). specialize (Hkeys k). unfold has_key in Hkeys. simpl in Hkeys.
  destruct (oget u k) as [x|]; cbn [default from_option id] in Hsum, Hkeys.
  - destruct (proj1 Hkeys eq_refl) as [?|(e & Hin & Hk)]; [done|]. rewrite Hsum.
    rewrite (proj2 (existsb_exists _ _)); [done|]. exists e.
    split; [by apply list_elem_of_In|by apply bool_decide_eq_true].
  - destruct (existsb _ _) eqn:Ex; [|done]. apply existsb_exists in Ex as (e & Hin & Hk%bool_decide_eq_true).
    apply list_elem_of_In in Hin. discriminate (proj2 Hkeys ltac:(right; by eauto)).
Qed.
End distribution.
