(* ===== verification/Fees.v ===== *)
(** * The fee estimator: services/fee-estimator/shared

    Module [FeesLIP] is utils/dynamicFeesLIP.js, the estimate of the fees per
    byte from a batch of blocks; [FeesBatch] is utils/dynamicFees.js, which
    runs it over the heights since the last estimate; [Fees] is
    dynamicFees.js, feeConstants.js and status.js.  Fees are doubles
    throughout, as in the code. *)
From S2P Require Export JsMath Utils.
Open Scope string_scope.
Open Scope Z_scope.
Open Scope list_scope.

(** config.js: feeEstimates *)
Class FeesConfig := {
  quickAlgorithmEnabled : bool;
  fullAlgorithmEnabled : bool;
  coldStartBatchSize : val;
  defaultStartBlockHeight : val;
  emaBatchSize : val;
  emaDecayRate : val;
  wavgDecayPercentage : val;
}.

Definition medEstLowerPercentile : val := VNum 25.
Definition medEstUpperPercentile : val := VNum 75.
Definition highEstLowerPercentile : val := VNum 80.
Definition highEstUpperPercentile : val := VNum 100.

Definition cacheKeyFeeEstFull : string := "lastFeeEstimateFull".
Definition cacheKeyFeeEstQuick : string := "lastFeeEstimateQuick".

Definition requestConnector (method : string) (params : val) : prog val :=
  call (CRpc "connector" method (or_default params (VObj []))).

(** A literal of the source, such as [12.5]. *)
Definition lit (s : string) : val := to_number (VStr s).

(** ** utils/dynamicFeesLIP.js *)
Module FeesLIP.

Inductive mode := MEDIUM | HIGH.

Definition maxBlockSize : val := VNum 15360.

Definition lowerPercentile (m : mode) : val :=
  match m with MEDIUM => medEstLowerPercentile | HIGH => highEstLowerPercentile end.
Definition upperPercentile (m : mode) : val :=
  match m with MEDIUM => medEstUpperPercentile | HIGH => highEstUpperPercentile end.
Definition lowerBytePos (m : mode) : val := num_ceil (js_mul (js_div (lowerPercentile m) (VNum 100)) maxBlockSize).
Definition upperBytePos (m : mode) : val := num_floor (js_mul (js_div (upperPercentile m) (VNum 100)) maxBlockSize).

(** The share of one transaction: [(currentBytePos, totalFeePriority)] before and after. *)
Definition addPriority (m : mode) (acc : val * val) (transaction : val) : result (val * val) :=
  let '(currentBytePos, totalFeePriority) := acc in
  let lo := lowerBytePos m in
  let up := upperBytePos m in
  size ← prop transaction "size"; feePriority ← prop transaction "feePriority";
  endPos ← js_add currentBytePos size;
  let t1 := if js_le currentBytePos lo && js_lt lo endPos && js_le endPos up
            then num_add totalFeePriority
                   (js_mul feePriority (num_add (num_sub (to_number endPos) lo) (VNum 1)))
            else totalFeePriority in
  let t2 := if js_le lo currentBytePos && js_le endPos up
            then num_add t1 (js_mul feePriority size) else t1 in
  let t3 := if js_le lo currentBytePos && js_ge up currentBytePos && js_le up endPos
            then num_add t2 (js_mul feePriority (num_add (num_sub up (to_number currentBytePos)) (VNum 1))) else t2 in
  Ok (endPos, t3).

Fixpoint addPriorities (m : mode) (acc : val * val) (l : list val) : result (val * val) :=
  match l with
  | [] => Ok acc
  | tx :: r => acc' ← addPriority m acc tx; addPriorities m acc' r
  end.

Definition calculateAvgFeePerByte (m : mode) (transactionDetails : list val) : result val :=
  '(_, totalFeePriority) ← addPriorities m (VNum 0, VNum 0) transactionDetails;
  Ok (num_div totalFeePriority (num_add (num_sub (upperBytePos m) (lowerBytePos m)) (VNum 1))).

Fixpoint sumSizes (acc : val) (txs : list val) : result val :=
  match txs with
  | [] => Ok acc
  | txn :: r => size ← prop txn "size"; acc' ← js_add acc size; sumSizes acc' r
  end.

(** [block.transactions] for a loop or a map over it. *)
Definition transactionsOf (block : val) (m : string) : result (list val) :=
  txs ← prop block "transactions";
  match txs with
  | VArr l => Ok l
  | VUndef | VNull => _ ← prop txs m; Err (not_a_function m)
  | _ => Err (not_a_function m)
  end.

Definition calculateBlockSize (block : val) : result val :=
  txs ← transactionsOf block "forEach"; sumSizes (VNum 0) txs.

(** The sum, the total weight and the weight after the sizes. *)
Definition weigh (decayFactor : val) (acc : val * val * val) (blockSize : val) : val * val * val :=
  let '(sum, totalWeight, weight) := acc in
  (num_add sum (js_mul blockSize weight), num_add totalWeight weight, js_mul weight decayFactor).

Section lip.
Context {FC : FeesConfig} {MF : MathFns}.

Definition calculateWeightedAvg (blocks : list val) : result val :=
  blockSizes ← result_list (map calculateBlockSize blocks);
  let decayFactor := num_sub (VNum 1) (js_div wavgDecayPercentage (VNum 100)) in
  let '(blockSizeSum, totalWeight, _) := fold_left (weigh decayFactor) blockSizes (VNum 0, VNum 0, VNum 1) in
  Ok (num_div blockSizeSum totalWeight).

Definition calcExpDecay : string :=
  to_fixed 5 (num_sub (VNum 1)
    (math_pow (num_sub (VNum 1) (to_number emaDecayRate)) (js_div (VNum 1) emaBatchSize))).

(** The three estimates: low, med and high. *)
Definition EMAcalc (feePerByte prevFeeEstPerByte : val) : result val :=
  let alpha := to_number (VStr calcExpDecay) in
  let prev := match prevFeeEstPerByte with
              | VObj [] => VObj [("low", VNum 0); ("med", VNum 0); ("high", VNum 0)]
              | v => v
              end in
  let est k := num_add (js_mul alpha (field feePerByte k)) (js_mul (num_sub (VNum 1) alpha) (field prev k)) in
  Ok (VObj [("feeEstLow", est "low"); ("feeEstMed", est "med"); ("feeEstHigh", est "high")]).

Definition withPriority (tx : val) : result val :=
  fee ← prop tx "fee"; f ← to_bigint fee;
  minFee ← prop tx "minFee"; m ← to_bigint minFee;
  size ← prop tx "size";
  Ok (VObj (ospread (ospread [] (props tx)) [("feePriority", js_div (num_of_Z (f - m)) size)])).

(** [t1.feePriority - t2.feePriority], as the sort takes it. *)
Definition comparePriority (t1 t2 : val) : result comparison :=
  let d := num_sub (to_number (field t1 "feePriority")) (to_number (field t2 "feePriority")) in
  Ok (if js_gt d (VNum 0) then Gt else if js_lt d (VNum 0) then Lt else Eq).

Definition calculateFeePerByte (block : val) : result val :=
  txs ← transactionsOf block "map";
  details ← result_list (map withPriority txs);
  transactionDetails ← js_sort comparePriority details;
  blockSize ← calculateBlockSize block;
  low ← (if js_lt blockSize (VNum 12800) then Ok (VNum 0) else prop (nth_val transactionDetails 0) "feePriority");
  med ← calculateAvgFeePerByte MEDIUM transactionDetails;
  high ← calculateAvgFeePerByte HIGH transactionDetails;
  Ok (VObj [("low", low); ("med", med);
            ("high", num_max high (num_add (js_mul (lit "1.3") med) (VNum 1)))]).

(** The estimate after the blocks of a batch, the latest first. *)
Definition estimateForBlock (blocks : list val) (innerPrevFeeEstPerByte : val) : result val :=
  wavgBlockBatch ← calculateWeightedAvg blocks;
  let block := nth_val blocks 0 in
  sizeLastBlock ← calculateBlockSize block;
  feePerByte ← calculateFeePerByte block;
  if js_gt wavgBlockBatch (VNum 12800) || js_gt sizeLastBlock (js_mul (lit "14.8") (VNum 1024)) then
    out ← EMAcalc feePerByte innerPrevFeeEstPerByte;
    Ok (VObj [("low", field out "feeEstLow"); ("med", field out "feeEstMed"); ("high", field out "feeEstHigh")])
  else Ok (VObj [("low", VNum 0); ("med", VNum 0); ("high", VNum 0)]).

Definition getEstimateFeePerByteForBlock (blocks : list val) (innerPrevFeeEstPerByte : val) : prog val :=
  est ← lift (estimateForBlock blocks innerPrevFeeEstPerByte);
  now ← call CNow;
  let block := nth_val blocks 0 in
  height ← block @. "height"; id ← block @. "id";
  Ret (VObj (ospread (props est)
    [("updated", num_floor (js_div now (VNum 1000))); ("blockHeight", height); ("blockID", id)])).

End lip.
End FeesLIP.
Import FeesLIP.

(** ** utils/dynamicFees.js *)
Module FeesBatch.
Section batch.
Context {FC : FeesConfig} {MF : MathFns}.

Definition FEES : string := "fees".

(** The object of flags is frozen: it holds false for ever, and an assignment
    to it has no effect. *)
Definition executionStatus (execMode : string) : bool := false.
Definition setExecutionStatus (execMode : string) (running : bool) : prog unit := Ret tt.
Definition isFeeCalculationRunningInMode (execMode : string) : bool := executionStatus execMode.

(** [Math.max(...[a, b, c].filter(n => !Number.isNaN(n)))] *)
Definition maxHeight (l : list val) : val :=
  match List.filter (λ n, negb (is_nan n)) l with
  | [] => VFlt (S754_infinity true)
  | n :: r => fold_left (λ m n, num_max m (to_number n)) r (to_number n)
  end.

(** [Array(size).fill().map((_, index) => index)] *)
Definition range (size : val) : result (list Z) :=
  match size with
  | VNum n => if (0 <=? n) && (n <? 2 ^ 32) then Ok (map Z.of_nat (seq 0 (Z.to_nat n)))
              else Err (mkExn "RangeError" "Invalid array length")
  | VFlt _ => Err (mkExn "RangeError" "Invalid array length")
  | _ => Ok [0]
  end.

Definition getBlock (prevHeight : val) (i : Z) : prog val :=
  height ← lift (js_add prevHeight (VNum 1));
  block ← requestConnector "getBlockByHeight" (VObj [("height", num_sub (to_number height) (VNum i))]);
  header ← block @. "header"; transactions ← block @. "transactions";
  Ret (VObj (ospread (ospread [] (props header)) [("transactions", transactions)])).

(** One round of the loop: the estimate for the next block. *)
Definition nextEstimate (genesisHeight prevFeeEstPerByte : val) : prog val :=
  prevHeight ← prevFeeEstPerByte @. "blockHeight";
  let maxEMABasedOnHeight := num_sub (to_number prevHeight) (to_number genesisHeight) in
  let finalEMABatchSize := if js_gt emaBatchSize maxEMABasedOnHeight
                           then num_add maxEMABasedOnHeight (VNum 1) else emaBatchSize in
  indices ← lift (range finalEMABatchSize);
  blocks ← pmap (getBlock prevHeight) indices;
  est ← getEstimateFeePerByteForBlock blocks prevFeeEstPerByte;
  Ret (spread prevFeeEstPerByte est).

(** The loop, for at most [fuel] rounds; [None] when they are not enough. *)
Fixpoint estimateLoop (fuel : nat) (cacheKey : string) (genesisHeight toHeight prevFeeEstPerByte : val) :
    prog (option val) :=
  match fuel with
  | O => Ret None
  | S fuel' =>
      est ← nextEstimate genesisHeight prevFeeEstPerByte;
      blockHeight ← est @. "blockHeight";
      _ ← (if js_lt blockHeight toHeight then _ ← call (CCacheSet FEES cacheKey est); Ret tt else Ret tt);
      if js_gt toHeight blockHeight then estimateLoop fuel' cacheKey genesisHeight toHeight est
      else Ret (Some est)
  end.

Definition getEstimateFeePerByteForBatch (fuel : nat) (fromHeight toHeight : val) (cacheKey : string) :
    prog (option val) :=
  genesisHeight ← requestConnector "getGenesisHeight" VUndef;
  firstHeight ← lift (js_add genesisHeight (VNum 1));
  let fromHeight := maxHeight [defaultStartBlockHeight; firstHeight; fromHeight] in
  cachedFeeEstimate ← call (CCacheGet FEES cacheKey);
  cachedFeeEstimateHeight ← (if negb (str_includes "Quick" cacheKey) && truthy cachedFeeEstimate
                             then cachedFeeEstimate @. "blockHeight" else Ret (VNum 0));
  let prevFeeEstPerByte :=
    if js_gt fromHeight cachedFeeEstimateHeight
    then VObj [("blockHeight", num_sub fromHeight (VNum 1)); ("low", VNum 0); ("med", VNum 0); ("high", VNum 0)]
    else cachedFeeEstimate in
  r ← estimateLoop fuel cacheKey genesisHeight toHeight prevFeeEstPerByte;
  match r with
  | Some feeEstPerByte => _ ← call (CCacheSet FEES cacheKey feeEstPerByte); Ret (Some feeEstPerByte)
  | None => Ret None
  end.

(** The result of a computation, or what was cached when it throws. *)
Definition checkAndProcessExecution (fuel : nat) (fromHeight toHeight : val) (cacheKey : string) : prog (option val) :=
  result ← call (CCacheGet FEES cacheKey);
  if negb (executionStatus cacheKey) then
    r ← catch (_ ← setExecutionStatus cacheKey true;
               getEstimateFeePerByteForBatch fuel fromHeight toHeight cacheKey)
              (λ _, Ret (Some result));
    _ ← setExecutionStatus cacheKey false;
    Ret r
  else Ret (Some result).

End batch.
End FeesBatch.
Import FeesBatch.

(** ** dynamicFees.js, feeConstants.js and status.js *)
Module Fees.
Section fees.
Context {FC : FeesConfig} {MF : MathFns}.

Definition feeTokenID : string := "fees.feeTokenID".
Definition minFeePerByte : string := "fees.minFeePerByte".

(** A constant of the node, asked for until it is known. *)
Definition memoised (x method : string) : prog val :=
  v ← call (CVarGet x);
  if truthy v then Ret v
  else r ← requestConnector method VUndef; _ ← call (CVarSet x r); Ret r.

Definition getFeeTokenID : prog val := memoised feeTokenID "getFeeTokenID".
Definition getMinFeePerByte : prog val := memoised minFeePerByte "getMinFeePerByte".

Definition getFeeConstants : prog val :=
  t ← getFeeTokenID; m ← getMinFeePerByte;
  Ret (VObj [("feeTokenID", t); ("minFeePerByte", m)]).

Definition latestBlock : prog val :=
  block ← requestConnector "getLastBlock" VUndef; block @. "header".

Definition calculateEstimateFeePerByteFull (fuel : nat) : prog (option val) :=
  header ← latestBlock;
  toHeight ← header @. "height";
  checkAndProcessExecution fuel defaultStartBlockHeight toHeight cacheKeyFeeEstFull.

Definition calculateEstimateFeePerByteQuick (fuel : nat) : prog (option val) :=
  header ← latestBlock;
  toHeight ← header @. "height";
  checkAndProcessExecution fuel (num_sub (to_number toHeight) (to_number coldStartBatchSize)) toHeight cacheKeyFeeEstQuick.

Definition getEstimateFeePerByteQuick : prog val := call (CCacheGet FEES cacheKeyFeeEstFull).
Definition getEstimateFeePerByteFull : prog val := call (CCacheGet FEES cacheKeyFeeEstQuick).

Definition estimateKeys : list string := ["low"; "med"; "high"; "updated"; "blockHeight"; "blockID"].

(** Whether an estimate is complete and lags at most [allowedLag] blocks behind. *)
Definition validate (latestBlock feeEstPerByte : val) (allowedLag : Z) : result bool :=
  if truthy feeEstPerByte && forallb (has_key (props feeEstPerByte)) estimateKeys then
    height ← prop latestBlock "height";
    Ok (js_le (num_sub (to_number height) (to_number (field feeEstPerByte "blockHeight"))) (VNum allowedLag))
  else Ok false.

Definition unavailable (message : string) : val :=
  VObj [("data", VObj [("error", VStr message)]); ("status", VStr "SERVICE_UNAVAILABLE")].

Definition withConstants (feeEstPerByte : val) : prog val :=
  c ← getFeeConstants; Ret (spread feeEstPerByte c).

Definition getEstimateFeePerByte : prog val :=
  if negb quickAlgorithmEnabled && negb fullAlgorithmEnabled then
    Ret (unavailable "The dynamic fees algorithm has not been enabled.")
  else
    header ← latestBlock;
    cachedFeeEstPerByteFull ← getEstimateFeePerByteFull;
    valid ← lift (validate header cachedFeeEstPerByteFull 15);
    if valid : bool then withConstants cachedFeeEstPerByteFull
    else
      cachedFeeEstPerByteQuick ← getEstimateFeePerByteQuick;
      valid ← lift (validate header cachedFeeEstPerByteQuick 5);
      if valid : bool then withConstants cachedFeeEstPerByteQuick
      else Ret (unavailable "The estimates are currently under processing. Please retry in 30 seconds.").

(** The listener of new blocks; the full estimate is not awaited. *)
Definition newBlockListener (fuel : nat) : prog unit :=
  catch (_ ← (if fullAlgorithmEnabled then detach (calculateEstimateFeePerByteFull fuel) else Ret tt);
         if quickAlgorithmEnabled then
           feeEstimate ← calculateEstimateFeePerByteQuick fuel;
           match feeEstimate with
           | Some est => _ ← call (CSignal "newFeeEstimate" est); Ret tt
           | None => Ret tt
           end
         else Ret tt)
        (λ _, Ret tt).

Definition isReady : string := "fees.isReady".
Definition getStatus : prog val :=
  ready ← call (CVarGet isReady);
  _ ← (if truthy ready then Ret tt
       else fees ← getEstimateFeePerByte;
            _ ← call (CVarSet isReady (VBool (negb (Nat.eqb (length (props fees)) 0)))); Ret tt);
  ready ← call (CVarGet isReady); Ret (VBool (truthy ready)).

End fees.
End Fees.
