(* ===== verification/FeesThms.v ===== *)
(** * What the fee estimator guarantees

    The loop over the heights ends, and with an estimate for the height asked
    for; an estimate is served only when it is complete and recent. *)
From S2P Require Export Fees.
Open Scope string_scope.
Open Scope Z_scope.
Open Scope list_scope.
Import FeesLIP FeesBatch.

Section batch.
Context {FC : FeesConfig} {MF : MathFns}.

(** An object of the language: no name occurs twice. *)
Definition proper_object (v : val) : Prop := ∃ o, v = VObj o ∧ NoDup (okeys o).

(** The node answers a request for a block, if it does, with that block; an
    estimate found in the cache has a height. *)
Definition honest (cr : cmd * result val) : Prop :=
  match cr with
  | (CRpc "connector" "getBlockByHeight" (VObj [("height", VNum h)]), Ok b) =>
      proper_object (field b "header") ∧ field (field b "header") "height" = VNum h
  | (CCacheGet _ _, Ok v) =>
      truthy v = false ∨ proper_object v ∧ ∃ h, 0 ≤ h < max_exact ∧ field v "blockHeight" = VNum h
  | _ => True
  end.

Lemma js_gt_num a b : js_gt (VNum a) (VNum b) = (b <? a).
Proof.
  unfold js_gt, js_compare. simpl. destruct (Z.compare_spec a b), (Z.ltb_spec b a);
    first [by apply bool_decide_eq_true_2|by apply bool_decide_eq_false_2|lia].
Qed.

Lemma num_max_num a b : num_max (VNum a) (VNum b) = VNum (Z.max a b).
Proof.
  unfold num_max. cbn [is_nan orb]. rewrite !js_lt_num.
  destruct (Z.ltb_spec a b); [by rewrite Z.max_r by lia|].
  destruct (Z.ltb_spec b a); f_equal; lia.
Qed.

Lemma field_spread a b k v :
  proper_object b → field b k = v → v ≠ VUndef → field (spread a b) k = v.
Proof.
  intros (o & -> & Hd) Hk Hv. unfold spread, field in *. simpl in *.
  destruct (oget o k) as [x|] eqn:E; simpl in Hk; [|congruence]. subst x.
  by rewrite (oget_ospread_Some _ _ _ _ Hd E).
Qed.

Lemma getBlock_height h tr b :
  0 ≤ h → h + 1 ≤ max_exact → Forall honest tr →
  exec (getBlock (VNum h) 0) tr (Ok b) → prop b "height" = Ok (VNum (h + 1)).
Proof.
  intros H0 H1 Hh. unfold getBlock, requestConnector.
  change (js_add (VNum h) (VNum 1)) with (Ok (num_of_Z (h + 1))).
  rewrite (num_exact (h + 1)) by lia. intros Hx. inv_exec.
  change (num_sub (to_number (VNum (h + 1))) (VNum 0)) with (num_of_Z (h + 1 - 0)) in Hh.
  cbn [app or_default] in Hh. rewrite Z.sub_0_r, (num_exact (h + 1)) in Hh by lia.
  apply Forall_cons in Hh as [[(o & Ho & Hd) Hf] _].
  match goal with Hp : prop _ "header" = Ok _ |- _ => unfold field in Ho, Hf; rewrite Hp in Ho, Hf; subst end.
  cbn [prop props] in *. rewrite oget_oset_ne by done.
  destruct (oget o "height") as [x|] eqn:E; simpl in Hf; [subst x|discriminate].
  by rewrite (oget_ospread_Some _ _ _ _ Hd E).
Qed.

Lemma range_head size l : range size = Ok l → l = [] ∨ ∃ r, l = 0 :: r.
Proof.
  unfold range. repeat case_match; intros [= <-]; try (right; by eexists).
  destruct (Z.to_nat z); [by left|]. right. by eexists.
Qed.

(** One round ends with an estimate for the next height. *)
Lemma nextEstimate_height g prev h tr est :
  field prev "blockHeight" = VNum h → 0 ≤ h → h + 1 ≤ max_exact → Forall honest tr →
  exec (nextEstimate g prev) tr (Ok est) → field est "blockHeight" = VNum (h + 1).
Proof.
  intros Hp H0 H1 Hh. unfold nextEstimate, getEstimateFeePerByteForBlock. intros Hx. inv_exec.
  match goal with Hb : prop prev "blockHeight" = Ok _ |- _ => unfold field in Hp; rewrite Hb in Hp; subst end.
  match goal with Hr : range _ = Ok _ |- _ => apply range_head in Hr as [->|[r ->]] end.
  { match goal with Hb : exec (pmap _ []) _ _ |- _ => apply exec_ret_inv in Hb as [-> [= ->]] end. discriminate. }
  match goal with Hb : exec (pmap _ _) _ _ |- _ => cbn [pmap] in Hb end. inv_exec.
  repeat match goal with H : Forall honest (_ ++ _) |- _ => apply Forall_app in H as [? ?] end.
  match goal with Hg : exec (getBlock _ 0) ?t _, Hb : Forall honest ?t |- _ =>
    pose proof (getBlock_height _ _ _ H0 H1 Hb Hg) as Hheight end.
  apply field_spread; [|unfold field; simpl|done].
  - eexists. split; [done|].
    match goal with He : estimateForBlock _ _ = Ok ?e |- _ =>
      assert (NoDup (okeys (props e))) as Hd end.
    { match goal with He : estimateForBlock _ _ = Ok ?e |- _ => revert He end.
      unfold estimateForBlock, mbind, result_mbind, result_bind.
      repeat case_match; intros [= <-]; apply (bool_decide_unpack _); vm_compute; exact I. }
    by repeat apply NoDup_okeys_oset.
  - cbn [nth_val lookup list_lookup default from_option id] in *.
    match goal with Hc : prop _ "height" = Ok ?x |- _ => rewrite Hheight in Hc; injection Hc as <- end.
    by rewrite oget_oset_ne, oget_oset_eq by done.
Qed.

(** The loop: [fuel] rounds are enough when they reach the height. *)
Lemma estimateLoop_ends fuel key g target prev h tr out :
  field prev "blockHeight" = VNum h → 0 ≤ h → h < max_exact → target ≤ max_exact →
  Z.max 1 (target - h) ≤ Z.of_nat fuel → Forall honest tr →
  exec (estimateLoop fuel key g (VNum target) prev) tr out →
  match out with
  | Ok None => False
  | Ok (Some est) => field est "blockHeight" = VNum (Z.max target (h + 1))
  | Err _ => True
  end.
Proof.
  revert prev h tr. induction fuel as [|fuel IH]; intros prev h tr Hp H0 Hh Ht Hf Hon Hx; [lia|].
  cbn [estimateLoop] in Hx. destruct out as [r|e]; [|done].
  apply exec_bind_Ok in Hx as (tr1 & tr2 & est & -> & H1 & Hx). apply Forall_app in Hon as [Hon1 Hon2].
  pose proof (nextEstimate_height g prev h tr1 est Hp H0 ltac:(lia) Hon1 H1) as Hest.
  apply exec_bind_Ok in Hx as (tr3 & tr4 & bh & -> & H3 & Hx). apply exec_lift in H3 as [-> H3].
  assert (bh = VNum (h + 1)) as -> by (unfold field in Hest; by rewrite <- H3 in Hest).
  apply exec_bind_Ok in Hx as (tr5 & tr6 & u & -> & H5 & Hx). simpl in Hon2. apply Forall_app in Hon2 as [_ Hon2].
  rewrite js_gt_num in Hx. destruct (Z.ltb_spec (h + 1) target) as [Hlt|Hge].
  - specialize (IH est (h + 1) tr6 Hest ltac:(lia) ltac:(lia) Ht ltac:(lia) Hon2 Hx).
    by replace (Z.max target (h + 1)) with (Z.max target (h + 1 + 1)) by lia.
  - apply exec_ret_inv in Hx as [_ [= ->]]. rewrite Hest. f_equal. lia.
Qed.

(** C19. The computation of an estimate terminates, whatever fails on the way:
    when the node answers a request for a block with that block, as many
    rounds as the target height always suffice, and an estimate that is
    returned is for the target height or a later one and has been stored in
    the cache.  (The cache and the configuration hold sensible heights.) *)
Theorem estimate_terminates fuel start target key (d : Z) tr out :
  defaultStartBlockHeight = VNum d → 0 < d < max_exact →
  0 ≤ start ≤ max_exact → 0 ≤ target ≤ max_exact → Z.max 1 target ≤ Z.of_nat fuel →
  Forall honest tr →
  (∀ g, (CRpc "connector" "getGenesisHeight" (VObj []), Ok g) ∈ tr → ∃ z, g = VNum z ∧ 0 ≤ z < max_exact) →
  exec (getEstimateFeePerByteForBatch fuel (VNum start) (VNum target) key) tr out →
  match out with
  | Ok None => False
  | Ok (Some est) => ∃ h, field est "blockHeight" = VNum h ∧ target ≤ h ∧
                          (∃ r, (CCacheSet FEES key est, r) ∈ tr)
  | Err _ => True
  end.
Proof.
  intros Hd Hdb Hs Ht Hf Hon Hg Hx. destruct out as [r|e]; [|done].
  unfold getEstimateFeePerByteForBatch, requestConnector in Hx.
  apply exec_bind_Ok in Hx as (tr1 & tr2 & g & -> & H1 & Hx). apply exec_call_inv in H1 as ->.
  destruct (Hg g) as (z & -> & Hz); [left|]. apply Forall_app in Hon as [_ Hon]. clear Hg.
  apply exec_bind_Ok in Hx as (tr3 & tr4 & first & -> & H3 & Hx). apply exec_lift in H3 as [-> H3].
  change (js_add (VNum z) (VNum 1)) with (Ok (num_of_Z (z + 1))) in H3. rewrite num_exact in H3 by lia.
  injection H3 as ->. cbv zeta in Hx.
  assert (∃ from, maxHeight [defaultStartBlockHeight; VNum (z + 1); VNum start] = VNum from ∧ 0 < from ≤ max_exact) as (from & Hfrom & Hfb).
  { rewrite Hd. unfold maxHeight. cbn [List.filter is_nan negb fold_left to_number]. rewrite !num_max_num.
    eexists. split; [done|lia]. }
  rewrite Hfrom in Hx.
  apply exec_bind_Ok in Hx as (tr5 & tr6 & cached & -> & H5 & Hx). apply exec_call_inv in H5 as ->.
  simpl in Hon. apply Forall_cons in Hon as [Hcache Hon]. simpl in Hcache.
  apply exec_bind_Ok in Hx as (tr7 & tr8 & cachedHeight & -> & H7 & Hx). cbv zeta in Hx.
  assert (∃ h, field (if js_gt (VNum from) cachedHeight
      then VObj [("blockHeight", num_sub (VNum from) (VNum 1)); ("low", VNum 0); ("med", VNum 0); ("high", VNum 0)]
      else cached) "blockHeight" = VNum h ∧ 0 ≤ h < max_exact ∧ tr7 = []) as (h & Hh & Hhb & ->).
  { assert (field (VObj [("blockHeight", num_sub (VNum from) (VNum 1)); ("low", VNum 0); ("med", VNum 0);
        ("high", VNum 0)]) "blockHeight" = VNum (from - 1)) as Hstart.
    { change (num_of_Z (from - 1) = VNum (from - 1)). apply num_exact. lia. }
    destruct (negb (str_includes "Quick" key) && truthy cached) eqn:Ec.
    - apply andb_true_iff in Ec as [_ Ec]. apply exec_lift in H7 as [-> H7].
      destruct Hcache as [?|(_ & c & Hc & Hf')]; [congruence|].
      assert (cachedHeight = VNum c) as -> by (unfold field in Hf'; by rewrite <- H7 in Hf').
      rewrite js_gt_num. destruct (c <? from); [exists (from - 1)|exists c]; split_and!; try done; lia.
    - apply exec_ret_inv in H7 as [-> [= ->]]. rewrite js_gt_num, (proj2 (Z.ltb_lt 0 from)) by lia.
      exists (from - 1). split_and!; try done; lia. }
  apply exec_bind_Ok in Hx as (tr9 & tr10 & est & -> & H9 & Hx). simpl in Hon.
  apply Forall_app in Hon as [Hon _].
  pose proof (estimateLoop_ends fuel _ _ target _ h tr9 (Ok est) Hh ltac:(lia) ltac:(lia) ltac:(lia) ltac:(lia) Hon H9) as Hest.
  destruct est as [est|]; [|done].
  apply exec_bind_Ok in Hx as (tr11 & tr12 & u & -> & H11 & Hx). apply exec_call_inv in H11 as ->.
  apply exec_ret_inv in Hx as [-> [= ->]]. exists (Z.max target (h + 1)). split_and!; [done|lia|].
  exists (Ok u). apply list_elem_of_In. rewrite !in_app_iff. simpl. tauto.
Qed.

(** C21. An estimate is served only when it is complete and recent: what
    getEstimateFeePerByte returns is a refusal, or the constants of the node
    spread over an estimate found in the cache that has all six properties
    and lags at most 15 blocks behind the latest one, if it is the quick
    estimate, or 5, if it is the full one.  (The two getters have each the
    other's key, so the tolerances are exchanged.) *)
Theorem served_estimate_recent tr v :
  exec Fees.getEstimateFeePerByte tr (Ok v) →
  (∃ message, v = Fees.unavailable message) ∨
  ∃ key lag est constants latest height,
    (key, lag) ∈ [(cacheKeyFeeEstQuick, 15); (cacheKeyFeeEstFull, 5)] ∧
    (CCacheGet FEES key, Ok est) ∈ tr ∧
    (CRpc "connector" "getLastBlock" (VObj []), Ok latest) ∈ tr ∧ field (field latest "header") "height" = height ∧
    forallb (has_key (props est)) Fees.estimateKeys = true ∧
    js_le (num_sub (to_number height) (to_number (field est "blockHeight"))) (VNum lag) = true ∧
    v = spread est constants.
Proof.
  unfold Fees.getEstimateFeePerByte, Fees.latestBlock, requestConnector. intros Hx.
  destruct (negb quickAlgorithmEnabled && negb fullAlgorithmEnabled).
  { inv_exec. left. by eexists. }
  assert (Hserve : ∀ key lag est latest header tr1 tr2,
    prop latest "header" = Ok header → (key, lag) ∈ [(cacheKeyFeeEstQuick, 15); (cacheKeyFeeEstFull, 5)] →
    (CCacheGet FEES key, Ok est) ∈ tr1 → (CRpc "connector" "getLastBlock" (VObj []), Ok latest) ∈ tr1 →
    Fees.validate header est lag = Ok true → exec (Fees.withConstants est) tr2 (Ok v) →
    ∃ key lag est constants latest height,
      (key, lag) ∈ [(cacheKeyFeeEstQuick, 15); (cacheKeyFeeEstFull, 5)] ∧
      (CCacheGet FEES key, Ok est) ∈ tr1 ++ tr2 ∧ (CRpc "connector" "getLastBlock" (VObj []), Ok latest) ∈ tr1 ++ tr2 ∧
      field (field latest "header") "height" = height ∧
      forallb (has_key (props est)) Fees.estimateKeys = true ∧
      js_le (num_sub (to_number height) (to_number (field est "blockHeight"))) (VNum lag) = true ∧
      v = spread est constants).
  { intros key lag est latest header tr1 tr2 Hl Hin Hc Hb Hval Hw. unfold Fees.withConstants in Hw.
    apply exec_bind_Ok in Hw as (? & ? & c & -> & _ & Hw). apply exec_ret_inv in Hw as [_ [= ->]].
    unfold Fees.validate in Hval. destruct (truthy est && _) eqn:E; [|done]. apply andb_true_iff in E as [_ E].
    destruct (prop header "height") as [height|] eqn:Eh; [simpl in Hval|done]. injection Hval as Hval.
    exists key, lag, est, c, latest, height. split_and!; try done; try (apply elem_of_app; by left).
    unfold field at 2. rewrite Hl. unfold field. by rewrite Eh. }
  apply exec_bind_Ok in Hx as (tr1 & tr2 & header & -> & H1 & Hx).
  apply exec_bind_Ok in H1 as (tra & trb & latest & -> & Ha & Hb). apply exec_call_inv in Ha as ->.
  apply exec_lift in Hb as [-> Hb]. symmetry in Hb.
  apply exec_bind_Ok in Hx as (tr3 & tr4 & full & -> & H3 & Hx).
  unfold Fees.getEstimateFeePerByteFull in H3. apply exec_call_inv in H3 as ->.
  apply exec_bind_Ok in Hx as (tr5 & tr6 & valid & -> & H5 & Hx). apply exec_lift in H5 as [-> H5].
  symmetry in H5. destruct valid.
  { right. exact (Hserve cacheKeyFeeEstQuick 15 full latest header
      [(_, _); (CCacheGet FEES cacheKeyFeeEstQuick, Ok full)] tr6 Hb ltac:(by left) ltac:(by right; left) ltac:(by left) H5 Hx). }
  apply exec_bind_Ok in Hx as (tr7 & tr8 & quick & -> & H7 & Hx).
  unfold Fees.getEstimateFeePerByteQuick in H7. apply exec_call_inv in H7 as ->.
  apply exec_bind_Ok in Hx as (tr9 & tr10 & valid & -> & H9 & Hx). apply exec_lift in H9 as [-> H9].
  symmetry in H9. destruct valid; [|inv_exec; left; by eexists].
  right. exact (Hserve cacheKeyFeeEstFull 5 quick latest header
    [(_, _); (_, _); (CCacheGet FEES cacheKeyFeeEstFull, Ok quick)] tr10 Hb
    ltac:(by right; left) ltac:(by right; right; left) ltac:(by left) H9 Hx).
Qed.
End batch.
