(* ===== verification/HttpClient.v ===== *)
(** * The HTTP client: framework/src/http.js

    A request is retried until it is answered with a status of the first
    three classes; successful answers may be cached.  axios is the command
    [CRpc "axios"]; what it throws carries a response or a code. *)
From S2P Require Export ApiUtils Effects.
Open Scope string_scope.
Open Scope Z_scope.
Open Scope list_scope.

(** The properties [response] and [code] of an error thrown by axios. *)
Class AxiosErrors := { err_response : exn → val; err_code : exn → val }.

Module HttpClient.
Section http.
Context {AE : AxiosErrors}.

Definition _validateHttpResponse (response : val) : result bool :=
  status ← prop response "status"; Ok (strict_eq status (VNum 200)).

Definition performRequest (url : string) (params : val) : prog val :=
  catch (call (CRpc "axios" url params))
        (λ err, Ret (if truthy (err_response err)
                     then spread (err_response err) (VObj [("message", VStr (exn_msg err))])
                     else VObj [("status", err_code err); ("message", VStr (exn_msg err))])).

(** [v.toString()[0]] *)
Definition firstDigit (status : val) : result val :=
  match status with
  | VUndef | VNull => Err (type_error "Cannot read properties of undefined (reading 'toString')")
  | _ => match to_string status with String a _ => Ok (VStr (String a "")) | EmptyString => Ok VUndef end
  end.

Definition isFinalDigit (d : val) : bool :=
  strict_eq d (VStr "1") || strict_eq d (VStr "2") || strict_eq d (VStr "3").

(** The rounds of the loop; [n] retries are left after the one it makes. *)
Fixpoint performRequestLoop (n : nat) (url : string) (params : val) : prog val :=
  response ← performRequest url params;
  status ← response @. "status";
  d ← lift (firstDigit status);
  if isFinalDigit d then Ret response
  else match n with
       | O => Ret response
       | S n' => performRequestLoop n' url params
       end.

(** [retries] is a number: the loop makes one request, and goes on while
    [--retries > 0]. *)
Definition performRequestUntilSuccess (url : string) (params : val) : prog val :=
  retries ← params @. "retries";
  let n := match js_or retries (VNum 0) with VNum z => Z.to_nat (z - 1) | _ => O end in
  performRequestLoop n url params.

Definition HTTP_CACHE : string := "_framework_http_cache".

Definition isGet (m : val) : result bool :=
  match m with
  | VStr s => Ok (bool_decide (ApiUtils.lower s = "get"))
  | VUndef | VNull => Err (type_error "Cannot read properties of undefined (reading 'toLowerCase')")
  | _ => Err (not_a_function "toLowerCase")
  end.

(** [encodeURI], which the URLs of the services do not need. *)
Context (encodeURI : string → string).

Definition request (url : string) (params : val) : prog val :=
  let params := or_default params (VObj []) in
  let httpParams := odel (props params) "cacheTTL" in
  let httpParams := if truthy (default VUndef (oget httpParams "method")) then httpParams
                    else oset httpParams "method" (VStr "get") in
  get ← lift (isGet (default VUndef (oget httpParams "method")));
  cacheTTL ← params @. "cacheTTL";
  let cached := (get : bool) && truthy cacheTTL && js_gt cacheTTL (VNum 0) in
  let key := encodeURI url +:+ ":ttl=" +:+ tpl cacheTTL in
  response ← (if cached then call (CCacheGet HTTP_CACHE key) else Ret VUndef);
  if truthy response then Ret response
  else
    httpResponse ← performRequestUntilSuccess url (VObj httpParams);
    ok ← lift (_validateHttpResponse httpResponse);
    if ok : bool then
      data ← httpResponse @. "data"; headers ← httpResponse @. "headers";
      status ← httpResponse @. "status"; statusText ← httpResponse @. "statusText";
      let response := VObj [("data", data); ("headers", headers); ("status", status); ("statusText", statusText)] in
      _ ← (if cached then detach (call (CCacheSet HTTP_CACHE key response)) else Ret tt);
      Ret response
    else Ret response.

End http.
End HttpClient.
