(* ===== verification/Market.v ===== *)
(** * Market prices: services/market

    A Module per price source ([Binance], [Bittrex], [Kraken],
    [ExchangeRates]) over the code they share ([Source]); [PriceUpdater] is
    shared/market/priceUpdater.js, which derives the prices of the target
    pairs, and [Prices] is market.js with status.js and the controller. *)
From S2P Require Export HttpClient Statistics.
Open Scope string_scope.
Open Scope Z_scope.
Open Scope list_scope.

(** config.js *)
Class MarketConfig := {
  exchangeratesapi_key : val;             (* config.access_key.exchangeratesapi *)
  supportedFiatCurrencies : string;       (* config.market.supportedFiatCurrencies *)
  targetPairs_csv : string;               (* config.market.targetPairs *)
}.

Definition ServiceUnavailable (m : string) : exn := mkExn "ServiceUnavailableException" m.

(** ** shared/market/sources: the parts that are the same in all files *)
Module Source.
Section source.
Context {MO : MomentLib} {AE : AxiosErrors} (encodeURI : string → string).

(** common.js; [now] is the time of the call. *)
Definition isOld (now : val) (allowRefreshAfter : Z) (entry : val) : result bool :=
  t ← prop entry "updateTimestamp";
  Ok (js_le t (unix_of (moment_subtract (VNum allowRefreshAfter) (VStr "milliseconds") (moment_at now)))).

(** [null] entries: nothing is cached. *)
Definition validateEntries (entries : option (list val)) (allowRefreshAfter : Z) : prog bool :=
  match entries with
  | None => Ret true
  | Some l => now ← call CNow; lift (rsome (isOld now allowRefreshAfter) l)
  end.

(** The prices of the symbols, [None] when one of them is not cached. *)
Definition getFromCache (bank prefix : string) (symbolMap : list (string * string)) : prog (option (list val)) :=
  prices ← pmap (λ itemCode,
    serializedPrice ← call (CCacheGet bank (prefix +:+ "_" +:+ itemCode));
    if truthy serializedPrice then lift (json_parse (to_string serializedPrice)) else Ret VNull)
    (map fst symbolMap);
  Ret (if val_includes prices VNull then None else Some prices).

(** Writing the prices, each under its code. *)
Definition writeToCache (bank prefix : string) (prices : list val) : prog unit :=
  _ ← pmap (λ item, code ← item @. "code"; text ← lift (json_stringify item);
                    call (CCacheSet bank (prefix +:+ "_" +:+ tpl code) text)) prices;
  Ret tt.

(** The answer of an exchange: its data, or an error. *)
Definition fetch (name url : string) : prog val :=
  response ← HttpClient.request encodeURI url VUndef;
  if truthy response then
    status ← response @. "status";
    if strict_eq status (VNum 200) then response @. "data"
    else Throw (ServiceUnavailable ("Data from " +:+ name +:+ " is currently unavailable"))
  else Throw (ServiceUnavailable ("Data from " +:+ name +:+ " is currently unavailable")).

Definition filterTickers (symbolMap : list (string * string)) (tickers : list val) : result (list val) :=
  flagged ← result_list (map (λ ticker, s ← prop ticker "symbol";
    Ok (ticker, match s with VStr t => bool_decide (t ∈ map snd symbolMap) | _ => false end)) tickers);
  Ok (map fst (List.filter snd flagged)).

(** The price of one symbol. *)
Definition priceOf (now : val) (source k : string) (rate : val) : val :=
  let parts := split_char "_" k in
  VObj [("code", VStr k); ("from", VStr (default "" (parts !! 0%nat))); ("to", VStr (default "" (parts !! 1%nat)));
        ("rate", rate); ("updateTimestamp", num_floor (num_div (to_number now) (VNum 1000)));
        ("sources", VArr [VStr source])].

(** The first ticker with the symbol gives the rate, in the property [rateKey];
    without one the access to it throws. *)
Definition standardizeOne (source rateKey : string) (tickers : list val) (kv : string * string) : prog val :=
  flagged ← lift (result_list (map (λ ticker, s ← prop ticker "symbol"; Ok (ticker, strict_eq s (VStr kv.2))) tickers));
  let currentTicker := nth_val (map fst (List.filter snd flagged)) 0 in
  rate ← currentTicker @. rateKey;
  now ← call CNow;
  Ret (priceOf now source kv.1 rate).

Definition standardizeTickers (source rateKey : string) (symbolMap : list (string * string)) (tickers : list val) :
    prog (list val) := pmap (standardizeOne source rateKey tickers) symbolMap.

(** [reload] of binance.js and bittrex.js. *)
Definition reload (bank source name url rateKey : string) (symbolMap : list (string * string)) (allowRefreshAfter : Z) : prog unit :=
  cached ← getFromCache bank source symbolMap;
  refresh ← validateEntries cached allowRefreshAfter;
  if refresh : bool then
    tickers ← fetch name url;
    match tickers with
    | VArr l =>
        filteredTickers ← lift (filterTickers symbolMap l);
        transformedPrices ← standardizeTickers source rateKey symbolMap filteredTickers;
        writeToCache bank source transformedPrices
    | _ => Ret tt
    end
  else Ret tt.

(** jobs/binance.js, bittrex.js and kraken.js: an exchange that cannot be reached is no failure. *)
Definition reloadMarketPrices (reload : prog unit) : prog unit :=
  catch reload (λ err, if bool_decide (exn_name err = "ServiceUnavailableException") then Ret tt else Throw err).

End source.
End Source.
Import Source.

Module Binance.
Section binance.
Context {MO : MomentLib} {AE : AxiosErrors} (encodeURI : string → string).
Definition bank : string := "binance_prices".
Definition symbolMap : list (string * string) :=
  [("LSK_BTC", "LSKBTC"); ("LSK_ETH", "LSKETH"); ("BTC_EUR", "BTCEUR"); ("BTC_GBP", "BTCGBP");
   ("BTC_RUB", "BTCRUB"); ("ETH_EUR", "ETHEUR"); ("ETH_RUB", "ETHRUB"); ("ETH_GBP", "ETHGBP");
   ("USDT_RUB", "USDTRUB"); ("EUR_USDT", "EURUSDT")].
Definition getFromCache : prog (option (list val)) := Source.getFromCache bank "binance" symbolMap.
Definition reload : prog unit :=
  Source.reload encodeURI bank "binance" "Binance" "https://api.binance.com/api/v3/ticker/price" "price" symbolMap 60000.
End binance.
End Binance.

Module Bittrex.
Section bittrex.
Context {MO : MomentLib} {AE : AxiosErrors} (encodeURI : string → string).
Definition bank : string := "bittrex".
Definition symbolMap : list (string * string) :=
  [("LSK_BTC", "LSK-BTC"); ("BTC_USD", "BTC-USD"); ("BTC_EUR", "BTC-EUR")].
Definition getFromCache : prog (option (list val)) := Source.getFromCache bank "bittrex" symbolMap.
Definition reload : prog unit :=
  Source.reload encodeURI bank "bittrex" "Bittrex" "https://api.bittrex.com/v3/markets/tickers" "lastTradeRate" symbolMap 60000.
End bittrex.
End Bittrex.

Module Kraken.
Section kraken.
Context {MO : MomentLib} {AE : AxiosErrors} (encodeURI : string → string).
Definition bank : string := "kraken".
Definition symbolMap : list (string * string) :=
  [("LSK_USD", "LSKUSD"); ("LSK_EUR", "LSKEUR"); ("LSK_BTC", "LSKBTC")].
Definition getFromCache : prog (option (list val)) := Source.getFromCache bank "kraken" symbolMap.

Definition fetchAllMarketTickers : prog val :=
  data ← fetch encodeURI "Kraken" ("https://api.kraken.com/0/public/Ticker?pair=" +:+ join "," (map snd symbolMap));
  data @. "result".

(** Kraken answers LSKBTC under the name LSKXBT; the rate is the first element of [c]. *)
Definition standardizeOne (tickers : val) (kv : string * string) : prog val :=
  let v := if bool_decide (kv.2 = "LSKBTC") then "LSKXBT" else kv.2 in
  currentTicker ← tickers @. v;
  c ← currentTicker @. "c"; rate ← c @. "0";
  now ← call CNow;
  Ret (priceOf now "kraken" kv.1 rate).

Definition standardizeTickers (tickers : val) : prog (list val) := pmap (standardizeOne tickers) symbolMap.

Definition reload : prog unit :=
  cached ← getFromCache;
  refresh ← validateEntries cached 60000;
  if refresh : bool then
    tickers ← fetchAllMarketTickers;
    names ← (if truthy tickers then lift (own_names tickers) else Ret []);
    match names with
    | [] => Ret tt
    | _ => transformedPrices ← standardizeTickers tickers; writeToCache bank "kraken" transformedPrices
    end
  else Ret tt.
End kraken.
End Kraken.

Module ExchangeRates.
Section rates.
Context {MO : MomentLib} {AE : AxiosErrors} {MC : MarketConfig} (encodeURI : string → string).
Definition bank : string := "exchangeratesapi_prices".
Definition currencies : list string := ["EUR"; "USD"; "CHF"; "BTC"].
Definition symbolMap : list (string * string) := [("EUR_USD", "EURUSD"); ("EUR_CHF", "EURCHF"); ("EUR_BTC", "EURBTC")].
Definition getFromCache : prog (option (list val)) := Source.getFromCache bank "exchangeratesapi" symbolMap.

(** The rates of one base currency, added to those that have arrived. *)
Definition fetchOne (acc : list (string * val)) (baseCurrency : string) : prog (list (string * val)) :=
  let remainingCurrencies := List.filter (λ c, negb (bool_decide (c = baseCurrency))) currencies in
  response ← HttpClient.request encodeURI
    ("http://api.exchangeratesapi.io/v1/latest?access_key=" +:+ tpl exchangeratesapi_key +:+ "&base=" +:+ baseCurrency
     +:+ "&symbols=" +:+ join "," remainingCurrencies) VUndef;
  if truthy response then
    data ← response @. "data"; rates ← data @. "rates"; Ret (oset acc baseCurrency rates)
  else Ret acc.

(** The answers in the order [arrival] in which they come; an error takes the
    place of the rates and has no entries. *)
Definition fetchAllCurrencyConversionRates (arrival : list string) : prog (list (string * val)) :=
  catch (pfold fetchOne [] arrival) (λ _, Ret []).

(** The rates of the base currency that arrived first. *)
Definition standardizeCurrencyConversionRates (now : val) (raw : list (string * val)) : result (list val) :=
  lists ← result_list (map (λ '(baseCur, convRates),
    names ← own_names convRates;
    result_list (map (λ targetCur, price ← prop convRates targetCur; Ok (baseCur +:+ "_" +:+ targetCur, price)) names)) raw);
  match lists with
  | [] => Ok []
  | first :: _ => Ok (map (λ '(symbol, price), priceOf now "exchangeratesapi" symbol price) first)
  end.

Definition reload (arrival : list string) : prog unit :=
  if negb (truthy exchangeratesapi_key) then Ret tt
  else
    conversionRatesFromCache ← getFromCache;
    refresh ← match conversionRatesFromCache with
              | None => Ret true
              | Some _ => again ← getFromCache; validateEntries again 28800000
              end;
    if refresh : bool then
      currencyConversionRates ← fetchAllCurrencyConversionRates arrival;
      now ← call CNow;
      transformedRates ← lift (standardizeCurrencyConversionRates now currencyConversionRates);
      writeToCache bank "exchangeratesapi" transformedRates
    else Ret tt.
End rates.
End ExchangeRates.

(** ** shared/market/priceUpdater.js and shared/utils/priceUpdater.js *)
Module PriceUpdater.
Section updater.
Context {MO : MomentLib} {MC : MarketConfig}.

Definition targetPairs : list string := split_char "," targetPairs_csv.

(** To fiat 4 digits after the point, to a crypto currency 8. *)
Definition formatCalculatedRate (targetCurrency : string) (rate : val) : string :=
  if bool_decide (targetCurrency ∈ split_char "," supportedFiatCurrencies)
  then to_fixed 4 (to_number rate) else to_fixed 8 (to_number rate).

Definition getRawPricesBySource : prog (list (string * option (list val))) :=
  binance ← Binance.getFromCache;
  bittrex ← Bittrex.getFromCache;
  exchangeratesapi ← ExchangeRates.getFromCache;
  kraken ← Kraken.getFromCache;
  Ret [("binance", binance); ("bittrex", bittrex); ("exchangeratesapi", exchangeratesapi); ("kraken", kraken)].

(** [{ ...item, code: `${source}_${item.code}` }] *)
Definition withSource (source : string) (item : val) : result val :=
  code ← prop item "code";
  Ok (VObj (oset (ospread [] (props item)) "code" (VStr (source +:+ "_" +:+ tpl code)))).

Definition flattenPrices (rawPricesBySource : list (string * option (list val))) : result (list val) :=
  ls ← result_list (map (λ '(source, prices), result_list (map (withSource source) (default [] prices))) rawPricesBySource);
  Ok (concat ls).

Definition code_of (p : val) : string := tpl (field p "code").

Definition num_min (a b : val) : val :=
  if is_nan a || is_nan b then VFlt S754_nan else if js_lt b a then b else a.

(** A price derived from two, unless they are one or of one source. *)
Definition combine (targetPair tpSource tpTarget : string) (rps rpt : val) : result (option val) :=
  s1 ← prop rps "sources"; s10 ← prop s1 "0"; s2 ← prop rpt "sources"; s20 ← prop s2 "0";
  if negb (bool_decide (code_of rps = code_of rpt)) && negb (strict_eq s10 s20) then
    Ok (Some (VObj
      [("code", VStr targetPair); ("from", VStr tpSource); ("to", VStr tpTarget);
       ("rate", VStr (formatCalculatedRate tpTarget
                        (num_mul (to_number (field rps "rate")) (to_number (field rpt "rate")))));
       ("updateTimestamp", num_min (to_number (field rps "updateTimestamp")) (to_number (field rpt "updateTimestamp")));
       ("sources", VArr (arr_of s1 ++ match s2 with VArr l => l | v => [v] end))]))
  else Ok None.

Definition direct (targetPair tpTarget : string) (rps : val) : val :=
  VObj (oset (oset (ospread [] (props rps)) "code" (VStr targetPair))
             "rate" (VStr (formatCalculatedRate tpTarget (field rps "rate")))).

(** What one source price contributes to the prices of the pair. *)
Definition contribution (targetPair tpSource tpTarget : string) (rawPricesWithMatchingTarget : list val) (rps : val) :
    result (list val) :=
  if ends_with ("_" +:+ targetPair) (code_of rps) then Ok [direct targetPair tpTarget rps]
  else
    let intermediateTarget := default "undefined" (split_char "_" (code_of rps) !! 2%nat) in
    found ← result_list (map (combine targetPair tpSource tpTarget rps)
      (List.filter (λ rpt, str_includes ("_" +:+ intermediateTarget +:+ "_") (code_of rpt)) rawPricesWithMatchingTarget));
    Ok (concat (map (λ o, match o with Some x => [x] | None => [] end) found)).

(** [a.sources.length - b.sources.length] *)
Definition compareSources (a b : val) : result comparison :=
  s1 ← prop a "sources"; l1 ← prop s1 "length"; s2 ← prop b "sources"; l2 ← prop s2 "length";
  let d := num_sub (to_number l1) (to_number l2) in
  Ok (if js_gt d (VNum 0) then Gt else if js_lt d (VNum 0) then Lt else Eq).

Fixpoint collect (f : val → result (list val)) (l acc : list val) : result (list val) :=
  match l with
  | [] => Ok acc
  | rps :: r => new ← f rps; acc' ← js_sort compareSources (acc ++ new); collect f r acc'
  end.

Definition pricesOfPair (sourcePrices : list val) (targetPair : string) : result (list val) :=
  let parts := split_char "_" targetPair in
  let tpSource := default "undefined" (parts !! 0%nat) in
  let tpTarget := default "undefined" (parts !! 1%nat) in
  let rawPricesWithMatchingSource := List.filter (λ p, str_includes ("_" +:+ tpSource +:+ "_") (code_of p)) sourcePrices in
  let rawPricesWithMatchingTarget := List.filter (λ p, ends_with ("_" +:+ tpTarget) (code_of p)) sourcePrices in
  collect (contribution targetPair tpSource tpTarget rawPricesWithMatchingTarget) rawPricesWithMatchingSource [].

Definition calcTargetPairPrices (rawPricesBySource : list (string * option (list val))) (targetPairings : list string) :
    result (list (string * list val)) :=
  sourcePrices ← flattenPrices rawPricesBySource;
  result_list (map (λ pair, l ← pricesOfPair sourcePrices pair; Ok (pair, l)) targetPairings).

Definition PRICES : string := "market_prices".

Definition updatePricesCache (prices : list (string * list val)) : prog unit :=
  _ ← pmap (λ pair, text ← lift (match aget prices pair with
                                 | Some l => json_stringify (VArr l)
                                 | None => Ok VUndef
                                 end);
                    call (CCacheSet PRICES pair text)) targetPairs;
  Ret tt.

Definition updatePrices : prog unit :=
  rawPricesBySource ← getRawPricesBySource;
  targetPairPrices ← lift (calcTargetPairPrices rawPricesBySource targetPairs);
  updatePricesCache targetPairPrices.

End updater.
End PriceUpdater.
Import PriceUpdater.

(** ** shared/market/market.js, status.js and methods/controllers/market.js *)
Module Prices.
Section prices.
Context {MC : MarketConfig}.

Definition getMarketPricesFromCache : prog (list (string * val)) :=
  pfold (λ prices pair,
    price ← call (CCacheGet PRICES pair);
    if truthy price then v ← lift (json_parse (to_string price)); Ret (oset prices pair v) else Ret prices)
    [] targetPairs.

(** The prices shifted off a list until one is truthy. *)
Fixpoint shiftPrices (prices : list val) : list val :=
  match prices with
  | [] => []
  | p :: r => if truthy p then [p] else p :: shiftPrices r
  end.

Definition bestPrice (prices : val) : result (list val) :=
  match prices with
  | VArr l => Ok (shiftPrices l)
  | v => len ← prop v "length"; if truthy len then Err (not_a_function "prices.shift") else Ok []
  end.

Definition getMarketPrices : prog val :=
  pricesByPairs ← getMarketPricesFromCache;
  ls ← lift (result_list (map (λ kv, bestPrice kv.2) pricesByPairs));
  let data := concat ls in
  match data with
  | [] => Throw (ServiceUnavailable "Service is not ready yet")
  | _ => Ret (VObj [("data", VArr data); ("meta", VObj [("count", VNum (Z.of_nat (length data)))])])
  end.

Definition isReady : string := "market.isReady".
Definition getStatus : prog val :=
  ready ← call (CVarGet isReady);
  _ ← (if truthy ready then Ret tt
       else marketPrices ← getMarketPrices;
            data ← marketPrices @. "data"; len ← data @. "length";
            _ ← call (CVarSet isReady (VBool (truthy len))); Ret tt);
  ready ← call (CVarGet isReady); Ret (VBool (truthy ready)).

Definition marketController : prog val :=
  catch (response ← getMarketPrices;
         data ← response @. "data"; meta ← response @. "meta";
         Ret (VObj [("data", if truthy data then data else VArr []); ("meta", if truthy meta then meta else VObj [])]))
        (λ err, if bool_decide (exn_name err = "ServiceUnavailableException")
                then Ret (VObj [("status", VStr "SERVICE_UNAVAILABLE"); ("data", VObj [("error", VStr (exn_msg err))])])
                else Throw err).

End prices.
End Prices.
