(* ===== verification/MarketThms.v ===== *)
(** * What the market prices and the HTTP client guarantee

    The number of requests of a retried HTTP call; the prices derived for a
    pair, their order and where they come from; a source's prices are cached
    for all of its symbols or for none. *)
From S2P Require Export Trace Market.
Open Scope string_scope.
Open Scope Z_scope.
Open Scope list_scope.

(** ** Retries *)

Section http.
Context {AE : AxiosErrors}.
Import HttpClient.

Definition is_axios (url : string) (params : val) (cr : cmd * result val) : Prop := cr.1 = CRpc "axios" url params.

Lemma performRequest_exec url params tr out :
  exec (performRequest url params) tr out → ∃ r, tr = [(CRpc "axios" url params, r)] ∧ ∃ v, out = Ok v.
Proof.
  intros [(a & H & ->)|(tr1 & tr2 & e & -> & H & Hr)]%exec_catch; apply exec_call_inv in H as ->.
  - eauto.
  - apply exec_ret_inv in Hr as [-> ->]. eauto.
Qed.

Lemma loop_bounded n url params tr out :
  exec (performRequestLoop n url params) tr out →
  (1 ≤ length tr ≤ S n)%nat ∧ Forall (is_axios url params) tr.
Proof.
  revert tr. induction n as [|n IH]; intros tr; cbn [performRequestLoop];
    (intros [(tr1 & tr2 & response & -> & H1 & Hx)|(e & H1 & ->)]%exec_bind;
     apply performRequest_exec in H1 as (r & -> & v & Hv); [|done]);
    (apply exec_bind in Hx as [(tr3 & tr4 & status & -> & H3 & Hx)|(e & H3 & ->)];
     apply exec_lift in H3 as [-> _]; [|split; [simpl; lia|by repeat constructor]]);
    (apply exec_bind in Hx as [(tr5 & tr6 & d & -> & H5 & Hx)|(e & H5 & ->)];
     apply exec_lift in H5 as [-> _]; [|split; [simpl; lia|by repeat constructor]]);
    (destruct (isFinalDigit d); [apply exec_ret_inv in Hx as [-> _]; split; [simpl; lia|by repeat constructor]|]).
  - apply exec_ret_inv in Hx as [-> _]. split; [simpl; lia|by repeat constructor].
  - destruct (IH _ Hx) as [Hl Hf]. split; [simpl in *; lia|]. simpl. by constructor.
Qed.

(** An HTTP request is retried a bounded number of times: a call with
    [retries] set to [r] makes at least one and at most [max 1 r] requests,
    all of them the same, and sends nothing else, whatever is answered. *)
Theorem http_retries_bounded url params r tr out :
  prop params "retries" = Ok (VNum r) →
  exec (performRequestUntilSuccess url params) tr out →
  (1 ≤ length tr)%nat ∧ Z.of_nat (length tr) ≤ Z.max 1 r ∧ Forall (is_axios url params) tr.
Proof.
  intros Hr. unfold performRequestUntilSuccess. rewrite Hr. cbn [lift].
  change (Ret (VNum r) ≫= ?k) with (k (VNum r)). cbv beta zeta.
  assert (match js_or (VNum r) (VNum 0) with VNum z => Z.to_nat (z - 1) | _ => O end = Z.to_nat (r - 1)) as ->.
  { unfold js_or. simpl. by destruct (Z.eqb_spec r 0) as [->|]. }
  intros [Hl Hf]%loop_bounded. split_and!; [lia|lia|done].
Qed.
End http.

(** ** The prices of a pair *)

Section updater.
Context {MC : MarketConfig}.
Import PriceUpdater.

(** A price of a source has one source. *)
Definition one_source (p : val) : Prop := ∃ s o, p = VObj o ∧ NoDup (okeys o) ∧ oget o "sources" = Some (VArr [s]).

(** A derived price has one or two. *)
Definition source_count (p : val) : nat := length (arr_of (field p "sources")).
Definition few_sources (p : val) : Prop := ∃ l, prop p "sources" = Ok (VArr l) ∧ (length l ≤ 2)%nat.

Lemma compare_sources a b : few_sources a → few_sources b →
  ∃ c, compareSources a b = Ok c ∧ (c = Gt → (source_count b ≤ source_count a)%nat) ∧ (c ≠ Gt → (source_count a ≤ source_count b)%nat).
Proof.
  intros (la & Ha & Hla) (lb & Hb & Hlb). unfold compareSources, source_count, field. rewrite Ha, Hb.
  cbn [mbind result_mbind result_bind arr_of].
  destruct la as [|? [|? [|]]], lb as [|? [|? [|]]]; simpl in Hla, Hlb; try lia; vm_compute;
    (eexists; split; [reflexivity|split; [try done; lia|try lia]]); intros H; try lia; by destruct H.
Qed.

Definition by_sources (a b : val) : Prop := (source_count a ≤ source_count b)%nat.

Lemma sort_by_sources l : Forall few_sources l →
  ∃ l', js_sort compareSources l = Ok l' ∧ StronglySorted by_sources l' ∧ l' ≡ₚ l.
Proof.
  apply (js_sort_sorted compareSources few_sources by_sources).
  - intros x y Hx Hy. apply compare_sources; done.
  - unfold by_sources. intros. lia.
Qed.

(** What a price of the pair comes from: a quote of the pair itself, or two
    quotes of different sources that share an intermediate currency. *)
Inductive derived (src : list val) (pair from to : string) : val → Prop :=
  | derived_direct rps :
      rps ∈ src → str_includes ("_" +:+ from +:+ "_") (code_of rps) = true →
      ends_with ("_" +:+ pair) (code_of rps) = true →
      derived src pair from to (direct pair to rps)
  | derived_product rps rpt p :
      rps ∈ src → str_includes ("_" +:+ from +:+ "_") (code_of rps) = true →
      ends_with ("_" +:+ pair) (code_of rps) = false →
      rpt ∈ src → ends_with ("_" +:+ to) (code_of rpt) = true →
      str_includes ("_" +:+ default "undefined" (split_char "_" (code_of rps) !! 2%nat) +:+ "_") (code_of rpt) = true →
      combine pair from to rps rpt = Ok (Some p) →
      derived src pair from to p.

Lemma one_source_field p : one_source p → ∃ s, prop p "sources" = Ok (VArr [s]).
Proof. intros (s & o & -> & _ & Hs). exists s. simpl. by rewrite Hs. Qed.

Lemma combine_ok pair from to rps rpt : one_source rps → one_source rpt →
  ∃ r, combine pair from to rps rpt = Ok r ∧ ∀ p, r = Some p → few_sources p.
Proof.
  intros [s Hs]%one_source_field [t Ht]%one_source_field. unfold combine. rewrite Hs, Ht.
  cbn [mbind result_mbind result_bind]. change (prop (VArr [s]) "0") with (Ok s). change (prop (VArr [t]) "0") with (Ok t).
  cbn [mbind result_mbind result_bind]. destruct (_ && _); eexists; (split; [done|]); [|done].
  intros p [= <-]. eexists. split; [done|]. simpl. lia.
Qed.

Lemma direct_few pair to rps : one_source rps → few_sources (direct pair to rps).
Proof.
  intros (s & o & -> & Hd & Hs). exists [s]. unfold direct. cbn [props prop].
  rewrite !oget_oset_ne by done. rewrite (oget_ospread_Some _ _ _ _ Hd Hs). split; [done|simpl; lia].
Qed.

Lemma result_list_ok {A B} (f : A → result B) (P : A → B → Prop) l :
  (∀ x, x ∈ l → ∃ y, f x = Ok y ∧ P x y) → ∃ ys, result_list (map f l) = Ok ys ∧ Forall2 P l ys.
Proof.
  induction l as [|x l IH]; intros H; simpl; [by eexists|].
  destruct (H x ltac:(by left)) as (y & -> & Hy). destruct IH as (ys & -> & Hys); [intros; apply H; by right|].
  eexists. split; [done|]. by constructor.
Qed.

Lemma contribution_ok src pair from to rps :
  Forall one_source src → rps ∈ src → str_includes ("_" +:+ from +:+ "_") (code_of rps) = true →
  ∃ l, contribution pair from to (List.filter (λ p, ends_with ("_" +:+ to) (code_of p)) src) rps = Ok l ∧
    Forall few_sources l ∧ Forall (derived src pair from to) l ∧
    (ends_with ("_" +:+ pair) (code_of rps) = true → direct pair to rps ∈ l) ∧
    (∀ rpt p, ends_with ("_" +:+ pair) (code_of rps) = false →
      rpt ∈ src → ends_with ("_" +:+ to) (code_of rpt) = true →
      str_includes ("_" +:+ default "undefined" (split_char "_" (code_of rps) !! 2%nat) +:+ "_") (code_of rpt) = true →
      combine pair from to rps rpt = Ok (Some p) → p ∈ l).
Proof.
  intros Hsrc Hin Hinc. rewrite Forall_forall in Hsrc. unfold contribution.
  destruct (ends_with ("_" +:+ pair) (code_of rps)) eqn:Ee.
  { eexists. split; [done|]. split_and!; [apply Forall_singleton, direct_few, Hsrc, Hin| |intros _; by left|done].
    apply Forall_singleton. by constructor. }
  cbv zeta. set (it := "_" +:+ default "undefined" (split_char "_" (code_of rps) !! 2%nat) +:+ "_").
  destruct (result_list_ok (combine pair from to rps)
    (λ rpt r, combine pair from to rps rpt = Ok r ∧ ∀ p, r = Some p → few_sources p)
    (List.filter (λ rpt, str_includes it (code_of rpt)) (List.filter (λ p, ends_with ("_" +:+ to) (code_of p)) src)))
    as (found & E & Hf).
  { intros rpt [[Hrpt _]%elem_of_List_filter _]%elem_of_List_filter.
    destruct (combine_ok pair from to rps rpt (Hsrc _ Hin) (Hsrc _ Hrpt)) as (r & Hr & Hfew). by eauto. }
  rewrite E. cbn [mbind result_mbind result_bind]. eexists. split; [done|].
  assert (∀ p, p ∈ concat (map (λ o : option val, match o with Some x => [x] | None => [] end) found) ↔ Some p ∈ found) as Hc.
  { intros p. rewrite list_elem_of_In, in_concat. split.
    - intros (l & Hl & Hp). apply in_map_iff in Hl as ([x|] & <- & Hx); [|done]. destruct Hp as [->|[]]. by apply list_elem_of_In.
    - intros Hp. exists [p]. split; [|by left]. apply in_map_iff. exists (Some p). split; [done|]. by apply list_elem_of_In. }
  split_and!.
  - apply Forall_forall. intros p [i Hp]%Hc%list_elem_of_lookup. eapply Forall2_lookup_r in Hf as (rpt & _ & _ & Hfew); [|exact Hp]. by apply Hfew.
  - apply Forall_forall. intros p [i Hp]%Hc%list_elem_of_lookup. eapply Forall2_lookup_r in Hf as (rpt & Hrpt & Hcomb & _); [|exact Hp].
    apply list_elem_of_lookup_2 in Hrpt. apply elem_of_List_filter in Hrpt as [[Hrpt He]%elem_of_List_filter Hit].
    exact (derived_product src pair from to rps rpt p Hin Hinc Ee Hrpt He Hit Hcomb).
  - done.
  - intros rpt p _ Hrpt He Hit Hcomb. apply Hc.
    assert (rpt ∈ List.filter (λ rpt, str_includes it (code_of rpt)) (List.filter (λ p, ends_with ("_" +:+ to) (code_of p)) src)) as [i Hi]%list_elem_of_lookup.
    { apply elem_of_List_filter. split; [|done]. by apply elem_of_List_filter. }
    eapply Forall2_lookup_l in Hf as (r & Hr & Hcomb' & _); [|exact Hi].
    rewrite Hcomb in Hcomb'. injection Hcomb' as <-. by eapply list_elem_of_lookup_2.
Qed.

Lemma collect_ok (f : val → result (list val)) (Q : val → list val → Prop) l acc :
  (∀ x, x ∈ l → ∃ new, f x = Ok new ∧ Forall few_sources new ∧ Q x new) →
  Forall few_sources acc → StronglySorted by_sources acc →
  ∃ out news, collect f l acc = Ok out ∧ StronglySorted by_sources out ∧ out ≡ₚ acc ++ concat news ∧ Forall2 Q l news.
Proof.
  revert acc. induction l as [|x l IH]; intros acc Hf Hacc Hs; cbn [collect].
  { exists acc, []. split_and!; [done..|by rewrite app_nil_r|constructor]. }
  destruct (Hf x ltac:(by left)) as (new & -> & Hnew & HQ). cbn [mbind result_mbind result_bind].
  destruct (sort_by_sources (acc ++ new)) as (acc' & -> & Hs' & Hp); [by apply Forall_app|].
  destruct (IH acc') as (out & news & E & Hso & Hpo & HF); [intros; apply Hf; by right|by rewrite Hp; apply Forall_app|done|].
  exists out, (new :: news). split_and!; [done..| |by constructor].
  rewrite Hpo, Hp. simpl. by rewrite app_assoc.
Qed.

End updater.

(** ** The prices of a source in the cache *)

Section source.
Context {MO : MomentLib} {AE : AxiosErrors} (encodeURI : string → string) (bank : string).
Import Source.

Definition no_set (c : cmd) : Prop := match c with CCacheSet b _ _ => b ≠ bank | _ => True end.

(** The keys written to the bank. *)
Definition sets_in (tr : list (cmd * result val)) : list string :=
  omap (λ cr, match cr.1 with CCacheSet b k _ => if decide (b = bank) then Some k else None | _ => None end) tr.

Lemma sets_in_app a b : sets_in (a ++ b) = sets_in a ++ sets_in b.
Proof. apply omap_app. Qed.

Lemma sets_in_set k v r tr : sets_in ((CCacheSet bank k v, r) :: tr) = k :: sets_in tr.
Proof. unfold sets_in. cbn [omap list_omap fst]. by rewrite decide_True. Qed.

Lemma no_set_sets {A} (p : prog A) tr out : pall no_set p → exec p tr out → sets_in tr = [].
Proof.
  intros Hp Hx. apply (pall_exec _ _ _ _ Hp) in Hx. induction Hx as [|[c r] tr Hc _ IH]; [done|].
  unfold sets_in in *. simpl in *. destruct c; try done. by rewrite decide_False.
Qed.

Lemma pall_request url params : bank ≠ HttpClient.HTTP_CACHE → pall no_set (HttpClient.request encodeURI url params).
Proof.
  intros Hb. assert (∀ n u ps, pall no_set (HttpClient.performRequestLoop n u ps)) as Hloop.
  { intros n u ps. induction n; cbn [HttpClient.performRequestLoop]; unfold HttpClient.performRequest; pall. }
  unfold HttpClient.request, HttpClient.performRequestUntilSuccess. unfold detach. pall; try apply Hloop; try (apply pall_call; done).
  all: apply pall_call; by intros <-.
Qed.

Lemma pall_getFromCache prefix symbolMap : pall no_set (getFromCache bank prefix symbolMap).
Proof. unfold getFromCache. apply pall_bind; [apply pall_pmap; intros; pall|intros; pall]. Qed.

Definition key_of (prefix : string) (item : val) : string := prefix +:+ "_" +:+ tpl (field item "code").

(** Writing prices: their keys in order, up to the first failure. *)
Lemma writeToCache_sets prefix prices tr out :
  exec (writeToCache bank prefix prices) tr out →
  sets_in tr `prefix_of` map (key_of prefix) prices ∧ (out = Ok tt → sets_in tr = map (key_of prefix) prices).
Proof.
  unfold writeToCache. intros H.
  assert (∀ tr (out : result (list val)), exec (pmap (λ item, code ← item @. "code"; text ← lift (json_stringify item);
      call (CCacheSet bank (prefix +:+ "_" +:+ tpl code) text)) prices) tr out →
    sets_in tr `prefix_of` map (key_of prefix) prices ∧ (is_ok out = true → sets_in tr = map (key_of prefix) prices)) as Hp.
  { clear. induction prices as [|p prices IH]; intros tr out; cbn [pmap map].
    - intros [-> ->]%exec_ret_inv. by split.
    - intros [(tr1 & tr2 & a & -> & H1 & Hx)|(e & H1 & ->)]%exec_bind.
      + apply exec_bind_Ok in H1 as (ta & tb & code & -> & Ha & Hb). apply exec_lift in Ha as [-> Ha].
        apply exec_bind_Ok in Hb as (tc & td & text & -> & Hc & Hd). apply exec_lift in Hc as [-> Hc].
        apply exec_call_inv in Hd as ->.
        assert (key_of prefix p = prefix +:+ "_" +:+ tpl code) as Hk by (unfold key_of, field; by rewrite <- Ha).
        simpl app. rewrite sets_in_set, <- Hk. apply exec_bind in Hx as [(te & tf & l & -> & He & Hf)|(e & He & ->)].
        * apply exec_ret_inv in Hf as [-> ->]. rewrite app_nil_r. destruct (IH _ _ He) as [Hpre Hall].
          split; [by apply prefix_cons|]. intros _. by rewrite Hall.
        * destruct (IH _ _ He) as [Hpre _]. split; [by apply prefix_cons|done].
      + split; [|done].
        apply exec_bind in H1 as [(ta & tb & code & -> & Ha & Hb)|(e' & Ha & _)]; apply exec_lift in Ha as [-> Ha].
        2:{ apply prefix_nil. }
        apply exec_bind in Hb as [(tc & td & text & -> & Hc & Hd)|(e' & Hc & _)]; apply exec_lift in Hc as [-> Hc].
        2:{ apply prefix_nil. }
        apply exec_call_inv in Hd as ->. simpl app. rewrite sets_in_set.
        assert (key_of prefix p = prefix +:+ "_" +:+ tpl code) as -> by (unfold key_of, field; by rewrite <- Ha).
        apply prefix_cons, prefix_nil. }
  apply exec_bind in H as [(tr1 & tr2 & l & -> & H1 & H2)|(e & H1 & ->)].
  - apply exec_ret_inv in H2 as [-> ->]. rewrite app_nil_r. destruct (Hp _ _ H1) as [? Hall]. split; [done|]. intros _. by apply Hall.
  - by destruct (Hp _ _ H1).
Qed.

Lemma standardize_codes source rateKey symbolMap tickers tr prices :
  exec (standardizeTickers source rateKey symbolMap tickers) tr (Ok prices) →
  map (key_of source) prices = map (λ kv, source +:+ "_" +:+ kv.1) symbolMap.
Proof.
  unfold standardizeTickers. revert tr prices. induction symbolMap as [|kv symbolMap IH]; intros tr prices; cbn [pmap].
  - intros H. by inv_exec.
  - intros H. apply exec_bind_Ok in H as (t1 & t2 & p & -> & H1 & H). apply exec_bind_Ok in H as (t3 & t4 & ps & -> & H3 & H).
    apply exec_ret_inv in H as [-> [= ->]]. apply IH in H3. cbn [map]. f_equal; [|exact H3].
    unfold standardizeOne in H1. cbv zeta in H1. inv_exec. done.
Qed.

End source.

(** The conversion rates that are stored are those of the base currency
    whose answer arrived first, whatever the others hold; all of them are
    stored under that currency, while the cache is read for the euro only. *)
Theorem rates_of_first_arrival now base o rest prices :
  ExchangeRates.standardizeCurrencyConversionRates now ((base, VObj o) :: rest) = Ok prices →
  map (λ p, field p "code") prices = map (λ k, VStr (base +:+ "_" +:+ k)) (okeys o).
Proof.
  unfold ExchangeRates.standardizeCurrencyConversionRates. cbn [map].
  assert (∀ l, result_list (map (λ targetCur, price ← prop (VObj o) targetCur; Ok (base +:+ "_" +:+ targetCur, price)) l) =
    Ok (map (λ k, (base +:+ "_" +:+ k, default VUndef (oget o k))) l)) as E.
  { intros l. induction l as [|k l IH]; [done|]. cbn [map result_list prop mbind result_mbind result_bind] in *. by rewrite IH. }
  cbn [own_names entries mbind result_mbind result_bind]. rewrite app_nil_r.
  cbn [prop mbind result_mbind result_bind] in *. rewrite E. cbn [result_list].
  destruct (result_list _) as [ls|]; [|done]. cbn [mbind result_mbind result_bind]. intros [= <-].
  rewrite map_map. unfold okeys. rewrite !map_map. done.
Qed.
