(* ===== verification/Export.v ===== *)
(** * The export of transaction histories: services/export

    Module [ExportFile] is shared/helpers/file.js, [ExportS3] helpers/s3.js
    and [CsvCache] csvCache.js, which stores files by one of them; [CsvExport] is
    csvExport.js with the helpers for rows, dates and addresses, the jobs and
    the controllers.  The packages moment-range, json2csv and minio and the
    file system are parameters: classes for what is computed, commands of the
    services [fs] and [minio] for what acts. *)
From S2P Require Export JsMath Statistics.
Open Scope string_scope.
Open Scope Z_scope.
Open Scope list_scope.

Class ExportMoment {MO : MomentLib} := {
  moment_parse : val → string → moment;          (* moment(v, format) *)
  moment_utcOffset : Z → moment → moment;
  range_by : string → moment → moment → list moment;  (* Array.from(moment.range(a, b).by(unit)) *)
}.

(** [new Parser(opts).parse(json)] of json2csv. *)
Class CsvParser := { csv_parse : val → val → result val }.

(** The property [data] of an error. *)
Class ErrorData := { err_data : exn → val }.

(** config.cache.partials and config.cache.exports *)
Record cacheParams := mkCacheParams {
  driver : string;
  dirPath : string;
  retentionInDays : val;
  s3_bucketName : val;          (* s3.bucketName *)
}.

(** config.js, and the two times at which helpers/time.js is loaded. *)
Class ExportConfig := {
  config_partials : cacheParams;
  config_exports : cacheParams;
  AWS_S3_REGION : val;
  bucketNameDefault : val;
  loaded_end : val;
  loaded_start : val;
}.

Definition csv_delimiter : string := ";".
Definition csv_dateFormat : string := "YYYY-MM-DD".
Definition csv_timeFormat : string := "hh:mm:ss".
Definition csv_baseUrl : string := "/api/v3/exports".

Definition ValidationException (m : string) : exn := mkExn "ValidationException" m.
Definition NotFoundException (m : string) : exn := mkExn "NotFoundException" m.

(** ** helpers/time.js *)
Module ExportTime.
Section time.
Context {MO : MomentLib} {EM : ExportMoment} {EC : ExportConfig}.

Definition DAY_IN_MILLISEC : val :=
  num_add (num_sub (to_number (valueOf (moment_endOf (VStr "day") (moment_at loaded_end))))
                   (to_number (valueOf (moment_startOf (VStr "day") (moment_at loaded_start))))) (VNum 1).
Definition getDaysInMilliseconds (days : val) : val := js_mul days DAY_IN_MILLISEC.

Definition momentFromTimestamp (timestamp : val) : moment := moment_unix timestamp.
Definition dateFromTimestamp (timestamp : val) : string :=
  moment_format (moment_utcOffset 0 (momentFromTimestamp timestamp)) csv_dateFormat.
Definition timeFromTimestamp (timestamp : val) : string :=
  moment_format (moment_utcOffset 0 (momentFromTimestamp timestamp)) csv_timeFormat.

End time.
End ExportTime.
Import ExportTime.

(** ** helpers/file.js *)
Module ExportFile.
Import NodePath.
Section file.
Context {MO : MomentLib} {EM : ExportMoment} {EC : ExportConfig}.

Definition fs (method : string) (args : list val) : prog val := call (CRpc "fs" method (VArr args)).

Definition getFileStats (filePath : string) : prog val := fs "stat" [VStr filePath].

Definition createDir (dirPath : string) : prog val :=
  _ ← fs "mkdir" [VStr dirPath; VObj [("recursive", VBool true)]]; Ret VUndef.
Definition init (params : cacheParams) : prog val := createDir (dirPath params).

Definition write (filePath : string) (content : val) : prog val :=
  _ ← fs "writeFile" [VStr filePath; content]; Ret VUndef.
Definition read (filePath : string) : prog val := fs "readFile" [VStr filePath; VStr "utf8"].
Definition remove (filePath : string) : prog val := _ ← fs "unlink" [VStr filePath]; Ret VUndef.

Definition list_files (dirPath : string) (count page : Z) : prog val :=
  files ← fs "readdir" [VStr dirPath]; l ← iter_list files; Ret (VArr (slice page (page + count) l)).

(** A file is removed when it has not changed for [days]; [ctime] is a time in
    milliseconds. *)
Definition purgeFile (dirPath : string) (days : val) (file : val) : prog unit :=
  stat ← getFileStats (path_join dirPath (to_string file));
  currentTime ← call CNow;
  ctime ← stat @. "ctime";
  let expirationTime := num_add (to_number ctime) (getDaysInMilliseconds days) in
  catch (if js_gt currentTime expirationTime
         then _ ← remove (path_join dirPath (to_string file)); Ret tt
         else Ret tt)
        (λ _, Ret tt).

(** Whether the promise is ever resolved: an error inside the callback of
    readdir leaves it pending. *)
Definition purge (dirPath : string) (days : val) : prog bool :=
  match days with
  | VUndef => Throw (ValidationException "days cannot be undefined")
  | _ =>
      files ← fs "readdir" [VStr dirPath];
      catch (l ← iter_list files; _ ← pmap (purgeFile dirPath days) l; Ret true) (λ _, Ret false)
  end.

Definition exists_file (filePath : string) : prog bool :=
  catch (stat ← fs "promises.stat" [VStr filePath]; Ret (truthy stat)) (λ _, Ret false).

End file.
End ExportFile.

(** ** helpers/s3.js: the bucket is a variable of the module. *)
Module ExportS3.
Section s3.
Context {MO : MomentLib} {EM : ExportMoment} {EC : ExportConfig}.

Definition minio (method : string) (args : list val) : prog val := call (CRpc "minio" method (VArr args)).

Definition AWS_S3_BUCKET_NAME : string := "s3.AWS_S3_BUCKET_NAME".
Definition bucket : prog val := b ← call (CVarGet AWS_S3_BUCKET_NAME); Ret (or_default b bucketNameDefault).

Definition createDir : prog val :=
  b ← bucket;
  isExists ← minio "bucketExists" [b];
  if truthy isExists
  then Ret (VStr ("Bucket " +:+ tpl b +:+ " already exists in region '" +:+ tpl AWS_S3_REGION +:+ "'."))
  else _ ← minio "makeBucket" [b; AWS_S3_REGION];
       Ret (VStr ("Bucket '" +:+ tpl b +:+ "' created successfully in region '" +:+ tpl AWS_S3_REGION +:+ "'.")).

(** [typeof content === 'object'] *)
Definition contentString (content : val) : result val :=
  match content with
  | VNull | VObj _ | VArr _ => json_stringify content
  | _ => Ok content
  end.

Definition write (fileName : string) (content : val) : prog val :=
  s ← lift (contentString content);
  _ ← guard_throw (negb (bool_decide (typeof s = "string"))) (type_error "The first argument must be of type string");
  b ← bucket;
  _ ← minio "putObject" [b; VStr fileName; s];
  Ret (VStr ("Successfully wrote file " +:+ fileName)).

(** What the stream of an object holds, parsed when it is JSON. *)
Definition read (fileName : string) : prog val :=
  b ← bucket;
  contentString ← minio "getObject" [b; VStr fileName];
  Ret (match json_parse (to_string contentString) with Ok v => v | Err _ => contentString end).

Definition remove (file : val) : prog val :=
  let files := match file with VArr _ => file | _ => VArr [file] end in
  b ← bucket;
  _ ← minio "removeObjects" [b; files];
  Ret (VStr "Successfully to removed the requested file(s)").

Definition list_files (count page : Z) : prog val :=
  b ← bucket;
  chunks ← minio "listObjects" [b]; l ← iter_list chunks;
  names ← lift (result_list (map (λ e, prop e "name") (slice page (page + count) l)));
  Ret (VArr names).

Definition isEligible (deleteBeforeMoment : moment) (file : val) : result bool :=
  lastModified ← prop file "lastModified";
  Ok (js_ge (moment_diff deleteBeforeMoment (moment_at lastModified) VUndef) (VNum 0)).

Definition filterEligibleFilesForPurging (fileInfoList : list val) (days : val) : prog (list val) :=
  now ← call CNow;
  let deleteBeforeMoment := moment_subtract days (VStr "days") (moment_at now) in
  flagged ← lift (result_list (map (λ f, b ← isEligible deleteBeforeMoment f; Ok (f, b)) fileInfoList));
  lift (result_list (map (λ fb : val * bool, prop fb.1 "name") (List.filter snd flagged))).

Definition purge (days : val) : prog val :=
  match days with
  | VUndef => Throw (ValidationException "days cannot be undefined")
  | _ =>
      b ← bucket;
      infos ← minio "listObjects" [b]; fileInfoList ← iter_list infos;
      eligibleFiles ← filterEligibleFilesForPurging fileInfoList days;
      _ ← remove (VArr eligibleFiles);
      Ret (VStr ("Successfully removed " +:+ pretty (Z.of_nat (length eligibleFiles)) +:+ " files."))
  end.

Definition exists_file (fileName : string) : prog bool := catch (_ ← read fileName; Ret true) (λ _, Ret false).

Definition init (params : cacheParams) : prog val :=
  _ ← (if truthy (s3_bucketName params) then _ ← call (CVarSet AWS_S3_BUCKET_NAME (s3_bucketName params)); Ret tt
       else Ret tt);
  createDir.

End s3.
End ExportS3.

(** ** csvCache.js *)
Module CsvCache.

(** What the cache of a directory offers. *)
Record objectCache := mkObjectCache {
  write : string → val → prog val;
  read : string → prog val;
  exists_file : string → prog bool;
  remove : string → prog val;
  purge : prog unit;
}.

Section cache.
Context {MO : MomentLib} {EM : ExportMoment} {EC : ExportConfig}.

Definition FILESYSTEM : string := "filesystem".
Definition S3 : string := "s3-minio".

(** The files of a directory, and the objects of the bucket. *)
Definition fsCache (params : cacheParams) : objectCache :=
  let at_dir filename := dirPath params +:+ "/" +:+ filename in
  mkObjectCache
    (λ filename content, ExportFile.write (at_dir filename) content)
    (λ filename, ExportFile.read (at_dir filename))
    (λ filename, ExportFile.exists_file (at_dir filename))
    (λ filename, ExportFile.remove (at_dir filename))
    (_ ← ExportFile.purge (dirPath params) (retentionInDays params); Ret tt).

Definition s3Cache (params : cacheParams) : objectCache :=
  mkObjectCache ExportS3.write ExportS3.read ExportS3.exists_file
    (λ filename, ExportS3.remove (VStr filename))
    (_ ← ExportS3.purge (retentionInDays params); Ret tt).

Definition objectCacheFS (params : cacheParams) : prog objectCache :=
  _ ← detach (ExportFile.init params); Ret (fsCache params).
Definition objectCacheS3 (params : cacheParams) : prog objectCache :=
  _ ← detach (ExportS3.init params); Ret (s3Cache params).

Definition objectCache_of (params : cacheParams) : prog objectCache :=
  let KNOWN_DRIVERS := [FILESYSTEM; S3] in
  if negb (bool_decide (driver params ∈ KNOWN_DRIVERS)) then
    Throw (NotFoundException (driver params +:+ " driver not found. Use one of " +:+ join "," KNOWN_DRIVERS))
  else if bool_decide (driver params = S3) then objectCacheS3 params
  else objectCacheFS params.

(** The two caches of csvExport.js and jobs/purge.js. *)
Definition loadCaches : prog (objectCache * objectCache) :=
  partials ← objectCache_of config_partials;
  staticFiles ← objectCache_of config_exports;
  Ret (partials, staticFiles).

(** jobs/purge.js; neither promise is awaited. *)
Definition purgeController (partials staticFiles : objectCache) : prog unit :=
  _ ← detach (purge partials); detach (purge staticFiles).

End cache.
End CsvCache.

(** ** helpers/transaction.js *)
Module ExportTransaction.

Definition MODULE_ASSET_ID_TOKEN_TRANSFER : string := "2:0".
Definition MODULE_ASSET_ID_RECLAIM_TRANSACTION : string := "1000:0".

Definition beddowsToLsk (beddows : val) : string := to_fixed 8 (js_div beddows (VNum 100000000)).

Definition isTokenTransfer (tx : val) : bool := strict_eq (field tx "moduleAssetId") (VStr MODULE_ASSET_ID_TOKEN_TRANSFER).

(** [tx.asset.recipient.address] *)
Definition recipientAddress (tx : val) : result val :=
  asset ← prop tx "asset"; recipient ← prop asset "recipient"; prop recipient "address".

(** ['amount' in asset] *)
Definition in_object (k : string) (v : val) : result bool :=
  match v with
  | VObj o => Ok (has_key o k)
  | VArr _ => Ok false
  | _ => Err (type_error "Cannot use 'in' operator")
  end.

Definition amountSign (address tx : val) : result Z :=
  moduleAssetId ← prop tx "moduleAssetId"; senderId ← prop tx "senderId";
  let isReclaim := strict_eq moduleAssetId (VStr MODULE_ASSET_ID_RECLAIM_TRANSACTION) in
  let isSender := strict_eq address senderId in
  isRecipient ← (if isTokenTransfer tx then a ← recipientAddress tx; Ok (strict_eq address a) else Ok false);
  isSelfTransfer ← (if isTokenTransfer tx then a ← recipientAddress tx; Ok (strict_eq senderId a) else Ok false);
  isSelfTokenTransferCredit ← prop tx "isSelfTokenTransferCredit";
  Ok (if isReclaim && isSender
         || isTokenTransfer tx && isRecipient && negb isSelfTransfer
         || isTokenTransfer tx && isRecipient && isSelfTransfer && truthy isSelfTokenTransferCredit
      then 1 else -1).

Definition normalizeTransactionAmount (address tx : val) : result string :=
  asset ← prop tx "asset";
  has_amount ← in_object "amount" asset;
  if negb has_amount then Ok (beddowsToLsk (VNum 0))
  else sign ← amountSign address tx; amount ← prop asset "amount"; Ok (beddowsToLsk (js_mul (VNum sign) amount)).

Definition normalizeTransactionFee (address tx : val) : result string :=
  fee ← prop tx "fee";
  if negb (isTokenTransfer tx) then Ok (beddowsToLsk fee)
  else a ← recipientAddress tx; Ok (if strict_eq address a then beddowsToLsk (VNum 0) else beddowsToLsk fee).

Definition checkIfSelfTokenTransfer (tx : val) : result bool :=
  senderId ← prop tx "senderId";
  if isTokenTransfer tx then a ← recipientAddress tx; Ok (strict_eq senderId a) else Ok false.

End ExportTransaction.
Import ExportTransaction.

(** ** csvExport.js *)
Module CsvExport.
Section csv.
Context {MO : MomentLib} {EM : ExportMoment} {EC : ExportConfig} {LC : LiskCrypto} {CP : CsvParser} {ED : ErrorData}.
Import CsvCache.

Definition DATE_FORMAT : string := csv_dateFormat.
Definition MAX_NUM_TRANSACTIONS : val := VNum 10000.

Definition getAccounts (params : val) : prog val := call (CRpc "core" "accounts" params).
Definition getTransactions (params : val) : prog val := call (CRpc "core" "transactions" params).
Definition isBlockchainIndexReady : prog val := call (CRpc "gateway" "isBlockchainIndexReady" (VObj [])).
Definition getFirstBlock : prog val :=
  call (CRpc "core" "blocks" (VObj [("limit", VNum 1); ("sort", VStr "height:asc")])).

Definition getAddressFromParams (params : val) : result val :=
  address ← prop params "address";
  if truthy address then Ok address
  else publicKey ← prop params "publicKey"; a ← Account.getLisk32AddressFromPublicKey publicKey; Ok (VStr a).

Definition getTransactionsInAsc (params : val) : prog val :=
  address ← lift (getAddressFromParams params);
  getTransactions (VObj
    [("senderIdOrRecipientId", address); ("sort", VStr "timestamp:asc"); ("timestamp", field params "timestamp");
     ("limit", js_or (field params "limit") (VNum 10)); ("offset", js_or (field params "offset") (VNum 0))]).

Definition validateIfAccountExists (params : val) : prog bool :=
  address ← lift (getAddressFromParams params);
  r ← catch (v ← getAccounts (VObj [("address", address)]); Ret (inl v)) (λ e, Ret (inr e));
  data ← match r with inl accResponse => accResponse @. "data" | inr e => Ret (err_data e) end;
  if truthy data then len ← data @. "length"; Ret (truthy len) else Ret false.

Definition validateIfAccountHasTransactions (params : val) : prog bool :=
  address ← lift (getAddressFromParams params);
  response ← getTransactions (VObj [("senderIdOrRecipientId", address); ("limit", VNum 1)]);
  data ← response @. "data"; len ← data @. "length"; Ret (truthy len).

Definition getDefaultStartDate : prog string :=
  response ← getFirstBlock;
  data ← response @. "data"; l ← iter_list data;
  timestamp ← (nth_val l 0) @. "timestamp";
  Ret (moment_format (moment_at (js_mul timestamp (VNum 1000))) DATE_FORMAT).

Definition getToday : prog string := now ← call CNow; Ret (moment_format (moment_at now) DATE_FORMAT).

Definition nth_part (l : list string) (i : nat) : val := match l !! i with Some s => VStr s | None => VUndef end.

(** An interval is a text; the method accepts nothing else. *)
Definition standardizeIntervalFromParams (params : val) : prog string :=
  interval ← params @. "interval";
  if truthy interval then
    match interval with
    | VStr s =>
        if str_includes ":" s then
          let parts := split_char ":" s in
          let from := nth_part parts 0 in
          let to := nth_part parts 1 in
          if js_lt (moment_diff (moment_parse to DATE_FORMAT) (moment_parse from DATE_FORMAT) VUndef) (VNum 0)
          then Throw (ValidationException ("Invalid interval supplied: " +:+ s))
          else Ret (tpl from +:+ ":" +:+ tpl to)
        else to ← getToday; Ret (s +:+ ":" +:+ to)
    | _ => Throw (not_a_function "interval.includes")
    end
  else from ← getDefaultStartDate; to ← getToday; Ret (from +:+ ":" +:+ to).

Definition getPartialFilenameFromParams (params : val) (day : string) : result string :=
  address ← getAddressFromParams params; Ok (tpl address +:+ "_" +:+ day +:+ ".json").

Definition csvFilename (address from to : string) : string :=
  "transactions_" +:+ address +:+ "_" +:+ from +:+ "_" +:+ to +:+ ".csv".

Definition getCsvFilenameFromParams (params : val) : prog string :=
  address ← lift (getAddressFromParams params);
  interval ← standardizeIntervalFromParams params;
  let parts := split_char ":" interval in
  Ret (csvFilename (tpl address) (tpl (nth_part parts 0)) (tpl (nth_part parts 1))).

Definition getCsvFileUrlFromParams (params : val) : prog string :=
  filename ← getCsvFilenameFromParams params; Ret (csv_baseUrl +:+ "/" +:+ filename).

(** csvFieldMappings.js *)
Definition fields : list (string * string) :=
  [("Date", "date"); ("Time", "time"); ("Amount LSK", "amountLsk"); ("Fee LSK", "feeLsk");
   ("Module:Asset", "moduleAssetId"); ("Module:Asset Name", "moduleAssetName"); ("Sender", "sender");
   ("Recipient", "recipient"); ("Sender Public Key", "senderPublicKey"); ("Recipient Public Key", "recipientPublicKey");
   ("Block Height", "blockHeight"); ("Note", "note"); ("Transaction ID", "transactionId")].

(** [recipient && recipient[k] || null] *)
Definition recipientField (asset : val) (k : string) : result val :=
  recipient ← prop asset "recipient";
  if truthy recipient then x ← prop recipient k; Ok (js_or x VNull) else Ok VNull.

Definition normalizeTransaction (address tx : val) : result val :=
  moduleAssetId ← prop tx "moduleAssetId"; moduleAssetName ← prop tx "moduleAssetName";
  senderPublicKey ← prop tx "senderPublicKey"; unixTimestamp ← prop tx "unixTimestamp";
  amountLsk ← normalizeTransactionAmount address tx;
  feeLsk ← normalizeTransactionFee address tx;
  sender ← prop tx "senderId"; asset ← prop tx "asset";
  recipient ← recipientField asset "address"; recipientPublicKey ← recipientField asset "publicKey";
  blockHeight ← prop tx "height"; data ← prop asset "data"; transactionId ← prop tx "id";
  Ok (VObj [("date", VStr (dateFromTimestamp unixTimestamp)); ("time", VStr (timeFromTimestamp unixTimestamp));
            ("amountLsk", VStr amountLsk); ("feeLsk", VStr feeLsk); ("moduleAssetId", moduleAssetId);
            ("moduleAssetName", moduleAssetName); ("sender", sender); ("recipient", recipient);
            ("senderPublicKey", senderPublicKey); ("recipientPublicKey", recipientPublicKey);
            ("blockHeight", blockHeight); ("note", js_or data VNull); ("transactionId", transactionId)]).

Definition parseTransactionsToCsv (json : val) : result val :=
  csv_parse (VObj [("delimiter", VStr csv_delimiter);
                   ("fields", VArr (map (λ '(l, v), VObj [("label", VStr l); ("value", VStr v)]) fields))]) json.

(** The credit row of a self transfer. *)
Definition creditEntry (tx : val) : val :=
  spread tx (VObj [("fee", VStr "0"); ("isSelfTokenTransferCredit", VBool true)]).

(** [forEach] visits as many positions as the list had at the start; what it
    inserts is visited like the rest. *)
Fixpoint insertCredits (positions : nat) (transactions : list val) : result (list val) :=
  match positions, transactions with
  | S n, tx :: r =>
      self ← checkIfSelfTokenTransfer tx;
      credit ← prop tx "isSelfTokenTransferCredit";
      rest ← insertCredits n (if self && negb (truthy credit) then creditEntry tx :: r else r);
      Ok (tx :: rest)
  | _, _ => Ok transactions
  end.

Definition transactionsToCSV (transactions : list val) (address : val) : result val :=
  all ← insertCredits (length transactions) transactions;
  rows ← result_list (map (normalizeTransaction address) all);
  parseTransactionsToCsv (VArr rows).

Definition noTransactions : string := "noTransactions".

(** requestAll.js; its loop is that of the other services. *)
Definition requestAll (fn : val → prog val) (params limit : val) : prog val :=
  let defaultMaxAmount := js_or limit (VNum 1000) in
  let oneRequestLimit := js_or (field params "limit") (VNum 100) in
  firstRequest ← fn (StatisticsRequestAll.pageOf params oneRequestLimit (VNum 0));
  data ← firstRequest @. "data";
  error ← data @. "error";
  notFound ← lift (if truthy error then
                     match error with
                     | VStr s => Ok (str_includes "Not found" s)
                     | VArr l => Ok (val_includes l (VStr "Not found"))
                     | _ => Err (not_a_function "data.error.includes")
                     end
                   else Ok false);
  if notFound : bool then Ret (VArr [])
  else
    meta ← firstRequest @. "meta"; total ← meta @. "total";
    let maxAmount := if negb (truthy total) || js_gt total defaultMaxAmount then defaultMaxAmount else total in
    if js_gt maxAmount oneRequestLimit then
      match data with
      | VArr l =>
          l' ← StatisticsRequestAll.morePages fn (StatisticsRequestAll.pagesLeft maxAmount oneRequestLimit) 1
                 params oneRequestLimit l;
          Ret (VArr l')
      | _ => Throw (not_a_function "data.push")
      end
    else Ret data.

(** The transactions of one day: from its file, or from the indexer and then
    into a file, unless the day is today's. *)
Definition transactionsOfDay (partials : objectCache) (params : val) (day : string) : prog (list val) :=
  partialFilename ← lift (getPartialFilenameFromParams params day);
  cached ← exists_file partials partialFilename;
  if cached : bool then
    text ← read partials partialFilename;
    transactions ← lift (json_parse (to_string text)); iter_list transactions
  else
    flag ← call (CCacheGet noTransactions partialFilename);
    if strict_eq flag (VBool true) then Ret []
    else
      let m := moment_parse (VStr day) DATE_FORMAT in
      transactions ← requestAll getTransactionsInAsc
        (spread params (VObj [("timestamp", VStr (tpl (unix_of (moment_startOf (VStr "day") m)) +:+ ":" +:+
                                                 tpl (unix_of (moment_endOf (VStr "day") m))))]))
        MAX_NUM_TRANSACTIONS;
      l ← iter_list transactions;
      today ← getToday;
      _ ← (if bool_decide (day = today) then Ret tt
           else match l with
                | [] => _ ← call (CCacheSet noTransactions partialFilename (VBool true)); Ret tt
                | _ => text ← lift (json_stringify (VArr l)); detach (write partials partialFilename text)
                end);
      Ret l.

Definition exportTransactionsCSV (partials staticFiles : objectCache) (job : val) : prog unit :=
  data ← job @. "data"; params ← data @. "params";
  interval ← standardizeIntervalFromParams params;
  let parts := split_char ":" interval in
  let arrayOfDates := map (λ d, moment_format d DATE_FORMAT)
    (range_by "day" (moment_parse (nth_part parts 0) DATE_FORMAT) (moment_parse (nth_part parts 1) DATE_FORMAT)) in
  allTransactions ← pfold (λ acc day, l ← transactionsOfDay partials params day; Ret (acc ++ l)) [] arrayOfDates;
  csvFilename ← getCsvFilenameFromParams params;
  address ← lift (getAddressFromParams params);
  csv ← lift (transactionsToCSV allTransactions address);
  _ ← write staticFiles csvFilename csv; Ret tt.

Definition queueName : string := "scheduleTransactionExportQueue".

Definition scheduleTransactionHistoryExport (staticFiles : objectCache) (params : val) : prog val :=
  ready ← isBlockchainIndexReady;
  _ ← guard_throw (negb (truthy ready)) (ValidationException "Blockchain index is not yet ready.");
  publicKey ← params @. "publicKey";
  address ← lift (getAddressFromParams params);
  isAccountExists ← validateIfAccountExists params;
  _ ← guard_throw (negb isAccountExists) (NotFoundException ("Account " +:+ tpl address +:+ " not found."));
  isAccountHasTransactions ← validateIfAccountHasTransactions (VObj [("address", address)]);
  _ ← guard_throw (negb isAccountHasTransactions) (NotFoundException ("Account " +:+ tpl address +:+ " has no transactions."));
  interval ← standardizeIntervalFromParams params;
  let data := [("address", address); ("publicKey", publicKey); ("interval", VStr interval)] in
  csvFilename ← getCsvFilenameFromParams params;
  exists_csv ← exists_file staticFiles csvFilename;
  if exists_csv : bool then
    url ← getCsvFileUrlFromParams params;
    Ret (VObj [("data", VObj (data ++ [("fileName", VStr csvFilename); ("fileUrl", VStr url)]));
               ("meta", VObj [("ready", VBool true)])])
  else
    _ ← call (CQueueAdd queueName (VObj [("params", params)]));
    Ret (VObj [("data", VObj data); ("meta", VObj [("ready", VBool false)]); ("status", VStr "ACCEPTED")]).

(** [filename.split(/_|\./g)] *)
Definition filenameParts (filename : string) : list string := concat (map (split_char ".") (split_char "_" filename)).

Definition endDate (filename : string) : val :=
  let splits := filenameParts filename in
  if (2 <=? length splits)%nat then nth_part splits (length splits - 2) else VUndef.

Definition downloadTransactionHistory (staticFiles : objectCache) (params : val) : prog val :=
  filename ← params @. "filename";
  let f := tpl filename in
  isFileExists ← exists_file staticFiles f;
  _ ← guard_throw (negb isFileExists) (NotFoundException ("File " +:+ f +:+ " not found."));
  data ← read staticFiles f;
  today ← getToday;
  _ ← (if strict_eq (endDate f) (VStr today) then detach (remove staticFiles f) else Ret tt);
  Ret (VObj [("data", data); ("meta", VObj [("filename", filename)])]).

(** ** methods/controllers/export.js *)
Definition NOT_FOUND : val := VNum 404.

Definition refused (err : exn) : prog val :=
  if bool_decide (exn_name err = "NotFoundException")
  then Ret (VObj [("status", NOT_FOUND); ("data", VObj [("error", VStr (exn_msg err))])])
  else if bool_decide (exn_name err = "ServiceUnavailableException")
  then Ret (VObj [("status", VStr "SERVICE_UNAVAILABLE"); ("data", VObj [("error", VStr (exn_msg err))])])
  else Throw err.

Definition scheduleController (staticFiles : objectCache) (params : val) : prog val :=
  catch (response ← scheduleTransactionHistoryExport staticFiles params;
         let data := field response "data" in
         let meta := field response "meta" in
         let status := field response "status" in
         Ret (VObj ([("data", if truthy data then data else VObj []); ("meta", if truthy meta then meta else VObj [])]
                    ++ (if truthy status then [("status", status)] else []))))
        refused.

Definition downloadController (staticFiles : objectCache) (params : val) : prog val :=
  catch (downloadTransactionHistory staticFiles params) refused.

End csv.
End CsvExport.
