(* ===== verification/ExportThms.v ===== *)
(** * What the export of transactions guarantees

    Which rows the CSV file of a history has; when the transactions of a day
    are kept; which file a download removes; where the S3 driver writes. *)
From S2P Require Export Trace Atomic FeesThms Export.
Open Scope string_scope.
Open Scope Z_scope.
Open Scope list_scope.
Import ExportTransaction CsvCache CsvExport.

(** ** The credit rows of self transfers *)

(** A transaction of the indexer: an object whose recipient can be read. *)
Definition is_transaction (tx : val) : Prop :=
  proper_object tx ∧ (∃ b, checkIfSelfTokenTransfer tx = Ok b) ∧ field tx "isSelfTokenTransferCredit" = VUndef.

Definition is_self (tx : val) : bool :=
  match checkIfSelfTokenTransfer tx with Ok b => b | Err _ => false end.

Definition selfs (l : list val) : nat := length (List.filter is_self l).

(** What the file has for the transaction at position [i] of [l]: its credit
    row too when it is a self transfer that [forEach] reaches. *)
Definition rows_at (n : nat) (l : list val) (i : nat) (tx : val) : list val :=
  tx :: (if is_self tx && (i + selfs (take i l) <? n)%nat then [creditEntry tx] else []).

Lemma prop_credit tx k : proper_object tx → k ≠ "fee" → k ≠ "isSelfTokenTransferCredit" → prop (creditEntry tx) k = prop tx k.
Proof.
  intros (o & -> & Hd) Hf Hs. unfold creditEntry, spread. cbn [props prop].
  change (ospread (ospread [] o) [("fee", VStr "0"); ("isSelfTokenTransferCredit", VBool true)])
    with (oset (oset (ospread [] o) "fee" (VStr "0")) "isSelfTokenTransferCredit" (VBool true)).
  rewrite !oget_oset_ne by congruence. f_equal. f_equal.
  destruct (oget o k) as [v|] eqn:E.
  - by rewrite (oget_ospread_Some [] o k v Hd E).
  - by rewrite (oget_ospread_None [] o k E).
Qed.

Lemma field_credit tx k : proper_object tx → k ≠ "fee" → k ≠ "isSelfTokenTransferCredit" → field (creditEntry tx) k = field tx k.
Proof. intros. unfold field. by rewrite prop_credit. Qed.

Lemma prop_credit_flag tx : prop (creditEntry tx) "isSelfTokenTransferCredit" = Ok (VBool true).
Proof.
  unfold creditEntry, spread. cbn [props prop].
  change (ospread (ospread [] (props tx)) [("fee", VStr "0"); ("isSelfTokenTransferCredit", VBool true)])
    with (oset (oset (ospread [] (props tx)) "fee" (VStr "0")) "isSelfTokenTransferCredit" (VBool true)).
  by rewrite oget_oset_eq.
Qed.

Lemma self_credit tx : proper_object tx → checkIfSelfTokenTransfer (creditEntry tx) = checkIfSelfTokenTransfer tx.
Proof.
  intros Hp. unfold checkIfSelfTokenTransfer, isTokenTransfer, recipientAddress.
  by rewrite !prop_credit, field_credit by done.
Qed.

Lemma concat_singles (f : nat → val → list val) p : (∀ i x, f i x = [x]) → concat (imap f p) = p.
Proof.
  revert f. induction p as [|x p IH]; intros f Hf; [done|]. cbn [imap concat]. rewrite Hf. simpl. f_equal. apply IH. intros. apply Hf.
Qed.

Lemma rows_at_0 l i x : rows_at 0 l i x = [x].
Proof. unfold rows_at. by rewrite andb_false_r. Qed.

Lemma insertCredits_rows n l : Forall is_transaction l →
  insertCredits n l = Ok (concat (imap (rows_at n l) l)).
Proof.
  revert n. induction l as [|tx l IH]; intros n Hl; [by destruct n|].
  apply Forall_cons in Hl as [(Hp & [b Hb] & Hf) Hl].
  assert (is_self tx = b) as Hs by (unfold is_self; by rewrite Hb).
  assert (Hshift : ∀ m, (∀ i, (S i + selfs (take (S i) (tx :: l)) <? n)%nat = (i + selfs (take i l) <? m)%nat) →
    imap (rows_at n (tx :: l) ∘ S) l = imap (rows_at m l) l).
  { intros m Hm. apply imap_ext. intros i x _. unfold compose, rows_at. by rewrite <- (Hm i). }
  destruct n as [|n].
  - rewrite concat_singles; [done|apply rows_at_0].
  - assert (Hcr : prop tx "isSelfTokenTransferCredit" = Ok VUndef).
    { destruct Hp as (o & -> & _). unfold field in Hf. simpl in *. by rewrite Hf. }
    cbn [insertCredits imap]. rewrite Hb, Hcr. cbn [mbind result_mbind result_bind truthy negb]. rewrite andb_true_r.
    cbn [concat]. unfold rows_at at 1. rewrite Hs. destruct b; cbn [andb].
    + replace (0 + selfs (take 0 (tx :: l)) <? S n)%nat with true by done.
      destruct n as [|n]; cbn [insertCredits].
      * rewrite (Hshift 0%nat).
        -- specialize (IH 0%nat Hl). replace (insertCredits 0 l) with (Ok l : result (list val)) in IH by (by destruct l).
           injection IH as IH. cbn [mbind result_mbind result_bind app]. by rewrite <- IH.
        -- intros i. apply eq_true_iff_eq. rewrite !Nat.ltb_lt. lia.
      * rewrite self_credit, Hb, prop_credit_flag by done. cbn [mbind result_mbind result_bind truthy negb andb].
        rewrite (IH n Hl). cbn [mbind result_mbind result_bind app]. rewrite (Hshift n); [done|].
        intros i. apply eq_true_iff_eq. rewrite !Nat.ltb_lt. simpl take. unfold selfs. simpl. rewrite Hs. simpl. lia.
    + rewrite (IH n Hl). cbn [mbind result_mbind result_bind app]. rewrite (Hshift n); [done|].
      intros i. apply eq_true_iff_eq. rewrite !Nat.ltb_lt. simpl take. unfold selfs. simpl. rewrite Hs. lia.
Qed.

Lemma result_list_Forall2 {A B} (f : A → result B) l ys :
  result_list (map f l) = Ok ys → Forall2 (λ x y, f x = Ok y) l ys.
Proof.
  revert ys. induction l as [|x l IH]; intros ys; cbn [map result_list]; [by intros [= <-]|].
  destruct (f x) eqn:E; cbn [mbind result_mbind result_bind]; [|done].
  destruct (result_list (map f l)); cbn [mbind result_mbind result_bind]; [|done]. intros [= <-]. constructor; auto.
Qed.

Section rows.
Context {MO : MomentLib} {EM : ExportMoment} {EC : ExportConfig} {CP : CsvParser}.

(** The two columns of a row that depend on whose history it is. *)
Lemma row_columns address tx r : normalizeTransaction address tx = Ok r →
  ∃ a f, normalizeTransactionAmount address tx = Ok a ∧ field r "amountLsk" = VStr a ∧
         normalizeTransactionFee address tx = Ok f ∧ field r "feeLsk" = VStr f.
Proof.
  unfold normalizeTransaction. intros H.
  repeat match type of H with
  | (?p ≫= _) = Ok _ => let E := fresh "E" in destruct p eqn:E; cbn [mbind result_mbind result_bind] in H; [|done]
  end.
  injection H as <-. by eauto 10.
Qed.

Lemma self_transfer tx : is_self tx = true →
  isTokenTransfer tx = true ∧ ∃ a, recipientAddress tx = Ok a ∧ strict_eq (field tx "senderId") a = true.
Proof.
  unfold is_self, checkIfSelfTokenTransfer, field. destruct (prop tx "senderId") as [s|]; cbn [mbind result_mbind result_bind]; [|done].
  destruct (isTokenTransfer tx); [|done]. destruct (recipientAddress tx) as [a|]; cbn [mbind result_mbind result_bind]; [|done].
  eauto.
Qed.

Lemma self_transfer_fee tx f : is_self tx = true →
  normalizeTransactionFee (field tx "senderId") tx = Ok f → f = beddowsToLsk (VNum 0).
Proof.
  intros (Ht & a & Ha & He)%self_transfer. unfold normalizeTransactionFee. rewrite Ht, Ha. cbn [negb].
  destruct (prop tx "fee"); cbn [mbind result_mbind result_bind]; [|done]. rewrite He. congruence.
Qed.

(** C26. The CSV file of a history has one row for each transaction, in order,
    and after a self transfer a second one for what it credits - as long as
    the position of the transaction and the number of self transfers before
    it are together less than the number of transactions: the credit rows of
    self transfers near the end are missing.  In the history of its sender,
    no row of a self transfer shows the fee that was paid. *)
Theorem csv_rows transactions address csv :
  Forall is_transaction transactions → transactionsToCSV transactions address = Ok csv →
  ∃ rows, Forall2 (λ tx row, normalizeTransaction address tx = Ok row)
            (concat (imap (rows_at (length transactions) transactions) transactions)) rows ∧
    parseTransactionsToCsv (VArr rows) = Ok csv ∧
    ∀ tx row, tx ∈ transactions → is_self tx = true → field tx "senderId" = address →
      (normalizeTransaction address tx = Ok row ∨ normalizeTransaction address (creditEntry tx) = Ok row) →
      field row "feeLsk" = VStr "0.00000000".
Proof.
  intros Hl H. unfold transactionsToCSV in H. rewrite insertCredits_rows in H by done. cbn [mbind result_mbind result_bind] in H.
  destruct (result_list (map (normalizeTransaction address) _)) as [rows|] eqn:E; cbn [mbind result_mbind result_bind] in H; [|done].
  exists rows. split_and!; [by apply result_list_Forall2|done|].
  intros tx row Hin Hself <- Hrow. rewrite Forall_forall in Hl. destruct (Hl tx) as (Hp & _ & _); [done|].
  destruct Hrow as [Hrow|Hrow]; apply row_columns in Hrow as (_ & f & _ & _ & Hf & ->).
  - by apply self_transfer_fee in Hf as ->.
  - rewrite <- (field_credit tx "senderId") in Hf by done. apply self_transfer_fee in Hf as ->; [done|].
    unfold is_self. rewrite self_credit by done. exact Hself.
Qed.
End rows.

(** ** What is kept of a day *)

Lemma exec_then_ret {A B} (p : prog B) (f : B → A) tr out : exec (p ≫= λ b, Ret (f b)) tr out → ∃ out', exec p tr out'.
Proof. intros [(tr1 & tr2 & u & -> & H & [-> _]%exec_ret_inv)|(e & H & _)]%exec_bind; rewrite ?app_nil_r; eauto. Qed.

(** A command of a loop is a command of one of its rounds. *)
Lemma pfold_in {A S} (f : S → A → prog S) s l tr out cr : exec (pfold f s l) tr out → cr ∈ tr →
  ∃ x s' tr' out', x ∈ l ∧ exec (f s' x) tr' out' ∧ cr ∈ tr' ∧ ∀ y, y ∈ tr' → y ∈ tr.
Proof.
  revert s tr. induction l as [|x l IH]; intros s tr; cbn [pfold].
  - intros [-> _]%exec_ret_inv ?%elem_of_nil. done.
  - intros [(tr1 & tr2 & s' & -> & H1 & H2)|(e & H1 & ->)]%exec_bind Hin.
    + apply elem_of_app in Hin as [Hin|Hin].
      * exists x, s, tr1, (Ok s'). set_solver.
      * destruct (IH _ _ H2 Hin) as (y & s2 & tr' & out' & Hy & Hx & Hc & Hs). exists y, s2, tr', out'. set_solver.
    + exists x, s, tr, (Err e). set_solver.
Qed.

(** The commands that change a file or a cache. *)
Definition changes (c : cmd) : bool :=
  match c with
  | CRpc service method _ => String.eqb service "fs" && negb (bool_decide (method ∈ ["stat"; "promises.stat"; "readFile"; "readdir"]))
  | CCacheSet _ _ _ => true
  | _ => false
  end.
Definition quiet (c : cmd) : Prop := changes c = false.

Lemma pall_in {A} (p : prog A) tr out c r : pall quiet p → exec p tr out → (c, r) ∈ tr → changes c = false.
Proof. intros Hp Hx Hin. pose proof (pall_exec _ _ _ _ Hp Hx) as H. rewrite Forall_forall in H. exact (H _ Hin). Qed.

(** What changes something in a sequence is in its second part when the first is quiet. *)
Lemma quiet_bind {A B} (p : prog A) (f : A → prog B) tr out c r :
  pall quiet p → exec (p ≫= f) tr out → (c, r) ∈ tr → changes c = true →
  ∃ tr1 tr2 a, tr = tr1 ++ tr2 ∧ exec p tr1 (Ok a) ∧ exec (f a) tr2 out ∧ (c, r) ∈ tr2.
Proof.
  intros Hp [(tr1 & tr2 & a & -> & H1 & H2)|(e & H1 & ->)]%exec_bind Hin Hk.
  - apply elem_of_app in Hin as [Hin|Hin]; [by rewrite (pall_in _ _ _ _ _ Hp H1 Hin) in Hk|]. eauto 10.
  - by rewrite (pall_in _ _ _ _ _ Hp H1 Hin) in Hk.
Qed.

Section days.
Context {MO : MomentLib} {EM : ExportMoment} {EC : ExportConfig} {LC : LiskCrypto} {CP : CsvParser}.
Context (cp : cacheParams).

Lemma quiet_getTransactionsInAsc params : pall quiet (getTransactionsInAsc params).
Proof. unfold getTransactionsInAsc, getTransactions. pall. Qed.

Lemma quiet_morePages n page params limit data :
  pall quiet (StatisticsRequestAll.morePages getTransactionsInAsc n page params limit data).
Proof.
  revert page data. induction n as [|n IH]; intros page data; cbn [StatisticsRequestAll.morePages]; [pall|].
  unfold iter_list. pall. apply quiet_getTransactionsInAsc.
Qed.

Lemma quiet_requestAll params limit : pall quiet (requestAll getTransactionsInAsc params limit).
Proof.
  unfold requestAll. pall; [apply quiet_getTransactionsInAsc|apply quiet_morePages].
Qed.

Lemma quiet_interval params : pall quiet (standardizeIntervalFromParams params).
Proof. unfold standardizeIntervalFromParams, getToday, getDefaultStartDate, getFirstBlock, iter_list. pall. Qed.

Lemma quiet_exists f : pall quiet (exists_file (fsCache cp) f).
Proof. unfold exists_file, fsCache, ExportFile.exists_file, ExportFile.fs. pall. Qed.

(** What the program keeps of a day: its transactions in the file of the day,
    or the flag that it has none. *)
Definition kept_of (params : val) (day : string) (tr : list (cmd * result val)) (c : cmd) : Prop :=
  ∃ name now l, getPartialFilenameFromParams params day = Ok name ∧
    (CNow, Ok now) ∈ tr ∧ moment_format (moment_at now) DATE_FORMAT ≠ day ∧
    match l with
    | [] => c = CCacheSet noTransactions name (VBool true)
    | _ => ∃ text, json_stringify (VArr l) = Ok text ∧
             c = CRpc "fs" "writeFile" (VArr [VStr (dirPath cp +:+ "/" +:+ name); text])
    end.

Lemma kept_mono params day tr tr' c : (∀ cr, cr ∈ tr → cr ∈ tr') → kept_of params day tr c → kept_of params day tr' c.
Proof. intros Hs (name & now & l & Hn & Hin & H). exists name, now, l. auto. Qed.

Lemma day_kept params day tr out c r :
  exec (transactionsOfDay (fsCache cp) params day) tr out → (c, r) ∈ tr → changes c = true → kept_of params day tr c.
Proof.
  intros Hx Hin Hk. unfold transactionsOfDay in Hx.
  destruct (quiet_bind _ _ _ _ _ _ (pall_lift _ _) Hx Hin Hk) as (t1 & t2 & name & -> & Hn & Hx2 & Hin2); clear Hx Hin.
  apply exec_lift in Hn as [-> Hn].
  destruct (quiet_bind _ _ _ _ _ _ (quiet_exists _) Hx2 Hin2 Hk) as (t3 & t4 & cached & -> & _ & Hx & Hin); clear Hx2 Hin2.
  destruct cached.
  { assert (changes c = false); [|congruence]. eapply pall_in; [|exact Hx|exact Hin].
    unfold read, fsCache, ExportFile.read, ExportFile.fs, iter_list. pall. }
  destruct (quiet_bind _ _ _ _ _ _ (pall_call quiet (CCacheGet noTransactions name) eq_refl) Hx Hin Hk) as (t5 & t6 & flag & -> & _ & Hx2 & Hin2); clear Hx Hin.
  destruct (strict_eq flag (VBool true)); [apply exec_ret_inv in Hx2 as [-> _]; by apply elem_of_nil in Hin2|].
  destruct (quiet_bind _ _ _ _ _ _ (quiet_requestAll _ _) Hx2 Hin2 Hk) as (t7 & t8 & v & -> & _ & Hx & Hin); clear Hx2 Hin2.
  destruct (quiet_bind (iter_list v) _ _ _ _ _ ltac:(unfold iter_list; pall) Hx Hin Hk) as (t9 & t10 & l & -> & _ & Hx2 & Hin2); clear Hx Hin.
  destruct (quiet_bind getToday _ _ _ _ _ ltac:(unfold getToday; pall) Hx2 Hin2 Hk) as (t11 & t12 & today & -> & Ht & Hx & Hin); clear Hx2 Hin2.
  apply exec_bind_Ok in Ht as (ta & tb & now & -> & Hnow & Ht). apply exec_call_inv in Hnow as ->. apply exec_ret_inv in Ht as [-> [= ->]].
  exists name, now, l. split; [done|]. split; [set_solver|].
  case_bool_decide as Eday.
  { apply exec_bind in Hx as [(? & ? & ? & -> & [-> _]%exec_ret_inv & [-> _]%exec_ret_inv)|(? & [-> _]%exec_ret_inv & _)]; by apply elem_of_nil in Hin. }
  split; [congruence|].
  apply exec_then_ret in Hx as [out' Hx]. destruct l as [|x l].
  - apply exec_then_ret in Hx as [out2 Hx]. apply exec_call_inv in Hx as ->. apply list_elem_of_singleton in Hin. congruence.
  - destruct (quiet_bind _ _ _ _ _ _ (pall_lift _ _) Hx Hin Hk) as (tc & td & text & -> & He & Hx2 & Hin2).
    apply exec_lift in He as [_ He]. exists text. split; [done|].
    unfold detach, write, fsCache, ExportFile.write, ExportFile.fs in Hx2.
    assert (∃ out3, exec (call (CRpc "fs" "writeFile" (VArr [VStr (dirPath cp +:+ "/" +:+ name); text]))) td out3) as [out3 Hc].
    { apply exec_catch in Hx2 as [(u & Hx2 & ->)|(ta & tb & e & -> & Hx2 & [-> _]%exec_ret_inv)]; rewrite ?app_nil_r;
        by apply exec_then_ret in Hx2 as [? [? Hx2]%exec_then_ret]; eauto. }
    apply exec_call_inv in Hc as ->. apply list_elem_of_singleton in Hin2. congruence.
Qed.

(** C30. Nothing is kept of a day that has not ended: each command of the job
    that changes a file or a cache writes the CSV file, or keeps a day - its
    transactions in a file, or the flag that it has none - after the clock
    has shown another day.  (A day yet to come is another day, too.) *)
Theorem today_never_kept ce job params tr out c r :
  field (field job "data") "params" = params →
  exec (exportTransactionsCSV (fsCache cp) (fsCache ce) job) tr out → (c, r) ∈ tr → changes c = true →
  (∃ day, kept_of params day tr c) ∨
  ∃ address from to csv, c = CRpc "fs" "writeFile"
    (VArr [VStr (dirPath ce +:+ "/" +:+ csvFilename (tpl address) (tpl from) (tpl to)); csv]).
Proof.
  intros Hp Hx Hin Hk. unfold exportTransactionsCSV in Hx.
  destruct (quiet_bind _ _ _ _ _ _ (pall_lift _ _) Hx Hin Hk) as (t1 & t2 & data & -> & Hd & Hx2 & Hin2); clear Hx Hin.
  apply exec_lift in Hd as [-> Hd].
  destruct (quiet_bind _ _ _ _ _ _ (pall_lift _ _) Hx2 Hin2 Hk) as (t3 & t4 & ps & -> & Hps & Hx & Hin); clear Hx2 Hin2.
  apply exec_lift in Hps as [-> Hps].
  assert (ps = params) as -> by (unfold field in Hp; rewrite <- Hd, <- Hps in Hp; done).
  destruct (quiet_bind _ _ _ _ _ _ (quiet_interval _) Hx Hin Hk) as (t5 & t6 & interval & -> & _ & Hx2 & Hin2); clear Hx Hin.
  apply exec_bind in Hx2 as [(t7 & t8 & all & -> & Hf & Hx)|(e & Hf & ->)].
  2:{ left. destruct (pfold_in _ _ _ _ _ _ Hf Hin2) as (day & acc & tr' & out' & _ & [out3 Hday]%exec_then_ret & Hc & Hs).
      exists day. eapply kept_mono; [|by eapply day_kept]. set_solver. }
  apply elem_of_app in Hin2 as [Hin|Hin].
  { left. destruct (pfold_in _ _ _ _ _ _ Hf Hin) as (day & acc & tr' & out' & _ & [out3 Hday]%exec_then_ret & Hc & Hs).
    exists day. eapply kept_mono; [|by eapply day_kept]. set_solver. }
  right. clear Hf t7.
  assert (Hn : pall quiet (getCsvFilenameFromParams params)).
  { unfold getCsvFilenameFromParams. pall. apply quiet_interval. }
  destruct (quiet_bind _ _ _ _ _ _ Hn Hx Hin Hk) as (t9 & t10 & name & -> & Hname & Hx2 & Hin2); clear Hx Hin.
  destruct (quiet_bind _ _ _ _ _ _ (pall_lift _ _) Hx2 Hin2 Hk) as (t11 & t12 & a & -> & _ & Hx & Hin); clear Hx2 Hin2.
  destruct (quiet_bind _ _ _ _ _ _ (pall_lift _ _) Hx Hin Hk) as (t13 & t14 & csv & -> & _ & Hx2 & Hin2); clear Hx Hin.
  apply exec_then_ret in Hx2 as [o2 Hx2]. unfold write, fsCache, ExportFile.write, ExportFile.fs in Hx2.
  apply exec_then_ret in Hx2 as [o3 Hx2]. apply exec_call_inv in Hx2 as ->.
  apply list_elem_of_singleton in Hin2 as [= -> _].
  unfold getCsvFilenameFromParams in Hname.
  apply exec_bind_Ok in Hname as (? & ? & address & _ & _ & Hname).
  apply exec_bind_Ok in Hname as (? & ? & parts & _ & _ & Hname). apply exec_ret_inv in Hname as [_ [= ->]].
  by eexists _, _, _, _.
Qed.
End days.

(** ** Downloads *)

(** A part of a file name: no separator in it. *)
Definition plain (s : string) : Prop := char_in "_" s = false ∧ char_in "." s = false.

Lemma char_in_app c a b : char_in c (a +:+ b) = char_in c a || char_in c b.
Proof. induction a as [|x a IH]; [done|]. change (char_in c (String x (a +:+ b)) = char_in c (String x a) || char_in c b). simpl. by rewrite IH, orb_assoc. Qed.

Lemma end_date address from to : plain address → plain from → plain to →
  endDate (csvFilename address from to) = VStr to.
Proof.
  intros [Ha1 Ha2] [Hf1 Hf2] [Ht1 Ht2]. unfold endDate, filenameParts, csvFilename.
  assert (split_char "_" ("transactions_" +:+ address +:+ "_" +:+ from +:+ "_" +:+ to +:+ ".csv") =
    ["transactions"; address; from; to +:+ ".csv"]) as ->.
  { change ("transactions_" +:+ address +:+ "_" +:+ from +:+ "_" +:+ to +:+ ".csv")
      with ("transactions" +:+ String "_" (address +:+ String "_" (from +:+ String "_" (to +:+ ".csv")))).
    rewrite !split_char_cons by done. rewrite split_char_none; [done|]. by rewrite char_in_app, Ht1. }
  cbn [map concat]. rewrite (split_char_none "." "transactions"), (split_char_none "." address), (split_char_none "." from) by done.
  change (to +:+ ".csv") with (to +:+ String "." "csv"). rewrite split_char_cons by done. done.
Qed.

(** C31. The end of the interval is read back from the name of a file that the
    service has written, and the download removes the file exactly when that
    is the day of the download: a file whose interval has ended is kept.  The
    content is that of the file the name leads to - and any name is taken. *)
Theorem download_removes_today {MO : MomentLib} {EM : ExportMoment} {EC : ExportConfig} {ED : ErrorData}
    ce address from to tr v :
  plain address → plain from → plain to →
  let filename := csvFilename address from to in
  let path := VStr (dirPath ce +:+ "/" +:+ filename) in
  exec (downloadTransactionHistory (fsCache ce) (VObj [("filename", VStr filename)])) tr (Ok v) →
  ∃ data now, (CRpc "fs" "readFile" (VArr [path; VStr "utf8"]), Ok data) ∈ tr ∧ (CNow, Ok now) ∈ tr ∧
    v = VObj [("data", data); ("meta", VObj [("filename", VStr filename)])] ∧
    ((∃ r, (CRpc "fs" "unlink" (VArr [path]), r) ∈ tr) ↔ moment_format (moment_at now) DATE_FORMAT = to).
Proof.
  intros Ha Hf Ht. cbv zeta. unfold downloadTransactionHistory. intros Hx.
  apply exec_bind_Ok in Hx as (t1 & t2 & name & -> & H1 & Hx). apply exec_lift in H1 as [-> [= ->]].
  cbv beta zeta in Hx. change (tpl (VStr ?s)) with s in Hx. rewrite end_date in Hx by done.
  apply exec_bind_Ok in Hx as (t3 & t4 & ex & -> & Hex & Hx).
  assert (∀ p r, (CRpc "fs" "unlink" p, r) ∉ t3) as Hno.
  { intros p r Hin. assert (changes (CRpc "fs" "unlink" p) = false); [|done]. eapply pall_in; [apply quiet_exists|exact Hex|exact Hin]. }
  apply exec_bind_Ok in Hx as (t5 & t6 & [] & -> & Hg & Hx).
  assert (t5 = []) as -> by (destruct ex; [by apply exec_ret_inv in Hg as [-> _]|by apply exec_throw_inv in Hg as [_ ?]]).
  apply exec_bind_Ok in Hx as (t7 & t8 & data & -> & Hr & Hx).
  apply exec_call_inv in Hr as ->.
  apply exec_bind_Ok in Hx as (t9 & t10 & today & -> & Hn & Hx).
  apply exec_bind_Ok in Hn as (ta & tb & now & -> & Hnow & Hn). apply exec_call_inv in Hnow as ->.
  apply exec_ret_inv in Hn as [-> [= ->]].
  apply exec_bind_Ok in Hx as (tc & td & [] & -> & Hd & Hx). apply exec_ret_inv in Hx as [-> [= ->]].
  exists data, now. split; [set_solver|]. split; [set_solver|]. split; [done|].
  rewrite strict_eq_VStr in Hd. case_bool_decide as E.
  - split; [done|intros _]. unfold detach, remove, fsCache, ExportFile.remove, ExportFile.fs in Hd.
    apply exec_catch in Hd as [(u & Hd & _)|(te & tf & e & -> & Hd & _)];
      apply exec_then_ret in Hd as [? [o3 Hd]%exec_then_ret]; apply exec_call_inv in Hd as ->; exists o3; set_solver.
  - apply exec_ret_inv in Hd as [-> _]. split; [|congruence]. intros [r Hin]. exfalso. set_solver.
Qed.

(** ** The S3 driver *)

Lemma to_string_objects o l : ∃ rest, to_string (VArr (VObj o :: l)) = "[object Object]" +:+ rest.
Proof. cbn [to_string map]. destruct l as [|x l]; [by exists ""|]. eexists. reflexivity. Qed.

Lemma parse_objects o l : json_parse (to_string (VArr (VObj o :: l))) = Err syntax_error.
Proof. destruct (to_string_objects o l) as [rest ->]. reflexivity. Qed.

Section s3.
Context {MO : MomentLib} {EM : ExportMoment} {EC : ExportConfig} {LC : LiskCrypto}.

(** The text of a list that starts with an object, as the files of days hold. *)
Definition list_of_objects (r : result val) : Prop :=
  ∃ s o l, r = Ok (VStr s) ∧ json_parse s = Ok (VArr (VObj o :: l)).

Lemma s3_read f tr v : exec (ExportS3.read f) tr (Ok v) →
  ∃ b text, (CRpc "minio" "getObject" (VArr [b; VStr f]), Ok text) ∈ tr ∧
    v = match json_parse (to_string text) with Ok v => v | Err _ => text end.
Proof.
  unfold ExportS3.read, ExportS3.bucket, ExportS3.minio. intros H.
  apply exec_bind_Ok in H as (t1 & t2 & b & -> & H1 & H). apply exec_bind_Ok in H as (t3 & t4 & text & -> & H3 & H).
  apply exec_call_inv in H3 as ->. apply exec_ret_inv in H as [-> [= ->]]. exists b, text. set_solver.
Qed.

(** With the S3 driver a day that has been kept cannot be read back: the
    driver parses what it reads, and the job parses the result again.  The
    transactions of a day are returned only when its object is not there. *)
Theorem s3_days_unreadable cp params day name tr l :
  getPartialFilenameFromParams params day = Ok name →
  (∀ args r, (CRpc "minio" "getObject" args, Ok r) ∈ tr → list_of_objects (Ok r)) →
  exec (transactionsOfDay (s3Cache cp) params day) tr (Ok l) →
  ∃ tr1 tr2, tr = tr1 ++ tr2 ∧ exec (exists_file (s3Cache cp) name) tr1 (Ok false).
Proof.
  intros Hname Hobj Hx. unfold transactionsOfDay in Hx. rewrite Hname in Hx.
  apply exec_bind_Ok in Hx as (t1 & t2 & n & -> & H1 & Hx). apply exec_lift in H1 as [-> [= ->]].
  apply exec_bind_Ok in Hx as (t3 & t4 & cached & -> & H3 & Hx). destruct cached; [|by exists t3, t4].
  exfalso. apply exec_bind_Ok in Hx as (t5 & t6 & text & -> & H5 & Hx).
  destruct (s3_read _ _ _ H5) as (b & t & Hin & ->).
  destruct (Hobj (VArr [b; VStr name]) t) as (s & o & l' & [= ->] & Hs); [set_solver|]. cbn [to_string] in Hx. rewrite Hs in Hx.
  apply exec_bind_Ok in Hx as (? & ? & ? & _ & Hp & _). apply exec_lift in Hp as [_ Hp]. by rewrite parse_objects in Hp.
Qed.

Definition sets_no_variable (c : cmd) : Prop := match c with CVarSet _ _ => False | _ => True end.

Section bucket.
Context {E : Type} {HE : Engine E}.

Lemma run_init params (w w' : world E) u : truthy (s3_bucketName params) = true →
  run (detach (ExportS3.init params)) w = (w', Ok u) →
  w_vars w' !! ExportS3.AWS_S3_BUCKET_NAME = Some (s3_bucketName params).
Proof.
  intros Ht H. destruct (run_detach (ExportS3.init params) w) as (w1 & H1 & Hw). rewrite H in H1. injection H1 as <- _. subst w'.
  clear H. unfold ExportS3.init. rewrite Ht, run_bind.
  change (run (_ ← call (CVarSet ExportS3.AWS_S3_BUCKET_NAME (s3_bucketName params)); Ret tt) w)
    with (mkWorld (<[ExportS3.AWS_S3_BUCKET_NAME := s3_bucketName params]> (w_vars w)) (w_ext w), Ok tt : result unit).
  cbv beta iota. destruct (run ExportS3.createDir _) as [w1 r] eqn:E1.
  eapply (pall_run sets_no_variable (λ w, w_vars w !! ExportS3.AWS_S3_BUCKET_NAME = Some (s3_bucketName params))); [| | |exact E1].
  - intros c w2 w3 x Hw Hc Hs. destruct c; try done; simpl in Hs; try (injection Hs as <- <-; done);
      destruct (handle _ _); by injection Hs as <- <-.
  - unfold ExportS3.createDir, ExportS3.bucket, ExportS3.minio. pall; apply pall_call; done.
  - simpl. by rewrite lookup_insert_eq.
Qed.

Lemma write_bucket filename content (w : world E) b v f s r :
  w_vars w !! ExportS3.AWS_S3_BUCKET_NAME = Some v → truthy v = true →
  (CRpc "minio" "putObject" (VArr [b; f; s]), r) ∈ trace_of (ExportS3.write filename content) w → b = v.
Proof.
  intros Hv Ht. unfold ExportS3.write. destruct (ExportS3.contentString content) as [t|e]; [|by intros ?%elem_of_nil].
  cbn [lift]. change (Ret t ≫= ?k) with (k t). cbv beta. unfold guard_throw.
  destruct (negb _); [by intros ?%elem_of_nil|]. change (Ret tt ≫= ?k) with (k tt). cbv beta.
  cbn. rewrite Hv. simpl. destruct (handle _ _) as [e' [x|x]]; cbn; intros Hin;
    repeat (apply elem_of_cons in Hin as [Hin|Hin]; [try discriminate Hin; injection Hin as -> _ _ _; by destruct v|]); by apply elem_of_nil in Hin.
Qed.

(** The S3 driver keeps one bucket for both caches: once the caches are
    made, the objects of both are written to the bucket of the exports, which
    was made last. *)
Theorem s3_caches_share_bucket (w w' w2 : world E) pc sc filename content :
  driver config_partials = S3 → driver config_exports = S3 → truthy (s3_bucketName config_exports) = true →
  run loadCaches w = (w', Ok (pc, sc)) → w_vars w2 = w_vars w' →
  ∀ cache b f s r, cache ∈ [pc; sc] →
    (CRpc "minio" "putObject" (VArr [b; f; s]), r) ∈ trace_of (write cache filename content) w2 →
    b = s3_bucketName config_exports.
Proof.
  intros Hd1 Hd2 Ht H Hvars cache b f s r Hc Hin.
  assert (∀ params w w' c, driver params = S3 → run (objectCache_of params) w = (w', Ok c) →
    c = s3Cache params ∧ run (detach (ExportS3.init params)) w = (w', Ok tt)) as Hof.
  { clear. intros params w w' c Hd H. unfold objectCache_of in H. rewrite Hd in H.
    change (run (objectCacheS3 params) w = (w', Ok c)) in H. unfold objectCacheS3 in H. inv_run.
    by match goal with u : unit |- _ => destruct u end. }
  unfold loadCaches in H. inv_run.
  repeat match goal with Hr : run (objectCache_of _) _ = _ |- _ => apply Hof in Hr as [-> Hr]; [|done] end.
  match goal with Hr : run (detach (ExportS3.init config_exports)) _ = _ |- _ => apply run_init in Hr as Hb; [|done] end.
  injection H as <- <- <-. rewrite <- Hvars in Hb.
  apply (write_bucket filename content w2 b _ f s r Hb Ht).
  by apply elem_of_cons in Hc as [-> | Hc]; [|apply list_elem_of_singleton in Hc as ->].
Qed.
End bucket.
End s3.
