(* ===== verification/Registry.v ===== *)
(** * The application registry: services/blockchain-app-registry

    Module [RegistryFs] is shared/utils/fs.js and download.js; [MetadataIndex]
    is metadataIndex.js, which indexes the files of the repository of
    applications in two tables; [Repository] is utils/downloadRepository.js,
    which keeps the local copy and the tables in step with the remote one;
    [Metadata] is metadata.js, which answers queries from both.  The file
    system, octokit, http and tar are services of commands.  An entry of a
    directory is an object with the results of its methods as properties. *)
From S2P Require Export JsMath HttpClient DataService.
Open Scope string_scope.
Open Scope Z_scope.
Open Scope list_scope.
Import NodePath.

(** config.js *)
Class RegistryConfig := {
  dataDir : string;                 (* config.dataDir *)
  appRegistryRepo : string;         (* config.gitHub.appRegistryRepo *)
  gitHub_branch : string;           (* config.gitHub.branch *)
  isRebuildIndexAtInit : bool;
  DEFAULT_APPS : string;            (* process.env.DEFAULT_APPS *)
}.

Definition APP_JSON : string := "app.json".
Definition NATIVETOKENS_JSON : string := "nativetokens.json".
Definition supportedNetworks : list string := ["mainnet"; "testnet"; "betanet"; "alphanet"; "devnet"].
Definition ALLOWED_FILE_EXTENSIONS : list string := [".png"; ".svg"].
Definition CHAIN_ID_PREFIX_NETWORK_MAP : list (string * string) :=
  [("00", "mainnet"); ("01", "testnet"); ("02", "betanet"); ("03", "alphanet"); ("04", "devnet")].
Definition defaultApps {RC : RegistryConfig} : list string := "Lisk" :: split_char "," DEFAULT_APPS.
Definition appRegistryRepoName {RC : RegistryConfig} : string := default "" (last (split_char "/" appRegistryRepo)).

(** constants.js *)
Definition LENGTH_CHAIN_ID : nat := 8.
Definition COMMIT_HASH_UNTIL_LAST_SYNC : string := "commitHashUntilLastSync".

Definition toLowerCase (v : val) : result string := str_method v "toLowerCase" ApiUtils.lower.

(** [s.split('/').slice(-3)], destructured. *)
Definition pathParts (s : string) : val * val * val :=
  let l := split_char "/" s in
  let l3 := drop (length l - 3) l in
  (nth_str l3 0, nth_str l3 1, nth_str l3 2).

(** ** utils/fs.js and utils/download.js *)
Module RegistryFs.

Definition fs (method : string) (args : list val) : prog val := call (CRpc "fs" method (VArr args)).

Definition stats (filePath : string) : prog val := fs "stat" [VStr filePath].
Definition exists_path (resourcePath : string) : prog bool :=
  catch (_ ← fs "access" [VStr resourcePath]; Ret true) (λ _, Ret false).
Definition mkdir (directoryPath : string) : prog val :=
  _ ← fs "mkdir" [VStr directoryPath; VObj [("recursive", VBool true)]]; Ret VUndef.
Definition rm (deletePath : string) (options : val) : prog bool :=
  catch (_ ← fs "rm" [VStr deletePath; options]; Ret true) (λ _, Ret false).
Definition rmdir (directoryPath : string) : prog bool := rm directoryPath (VObj [("recursive", VBool true)]).
Definition read (filePath : string) : prog val := fs "readFile" [VStr filePath; VStr "utf8"].
Definition write (filePath : string) (content : val) : prog val :=
  _ ← fs "writeFile" [VStr filePath; content]; Ret VUndef.

Definition withFileTypes : val := VObj [("withFileTypes", VBool true)].

Definition subDirWithTime (directoryPath : string) (entry : val) : prog (string * val) :=
  name ← entry @. "name";
  let fullSubDirPath := path_join directoryPath (tpl name) in
  stat ← stats fullSubDirPath;
  ctime ← stat @. "ctime";
  Ret (fullSubDirPath, ctime).

(** [b.time - a.time] *)
Definition compareTime (a b : string * val) : result comparison :=
  let d := num_sub (to_number b.2) (to_number a.2) in
  Ok (if js_gt d (VNum 0) then Gt else if js_lt d (VNum 0) then Lt else Eq).

(** The paths of the subdirectories, the latest changed first.  (When stat
    fails the promise is never settled; here it throws, and the callers do
    nothing more in either case.) *)
Definition getDirectories (directoryPath : string) : prog (list string) :=
  dirs ← fs "readdir" [VStr directoryPath; withFileTypes]; l ← iter_list dirs;
  subDirsWithTime ← pmap (subDirWithTime directoryPath) (List.filter (λ e, truthy (field e "isDirectory")) l);
  sorted ← lift (js_sort compareTime subDirsWithTime);
  Ret (map fst sorted).

Definition getFiles (directoryPath : string) : prog (list string) :=
  files ← fs "readdir" [VStr directoryPath; withFileTypes]; l ← iter_list files;
  pmap (λ file, name ← file @. "name"; Ret (path_join directoryPath (tpl name)))
    (List.filter (λ e, truthy (field e "isFile")) l).

Definition getFilesAndDirs (directoryPath : string) : prog (list string) :=
  subDirectories ← getDirectories directoryPath;
  filesInDirectory ← getFiles directoryPath;
  Ret (subDirectories ++ filesInDirectory).

Definition rename (oldName newName : string) : prog val := _ ← fs "rename" [VStr oldName; VStr newName]; Ret VUndef.
Definition mv (source target : string) : prog val := rename source target.

(** [url.startsWith('https') ? https : http] *)
Definition getHTTPProtocolByURL (url : val) : result string :=
  https ← str_method url "startsWith" (starts_with "https"); Ok (if https : bool then "https" else "http").

(** A download whose body goes to [sink]. *)
Definition download (url : val) (directoryPath : string) (what : string) (sink : val → prog val) : prog unit :=
  if negb (truthy url) || bool_decide (directoryPath = "") then
    Throw (js_error ("Invalid url or " +:+ what +:+ ". url: " +:+ tpl url +:+ " " +:+ what +:+ ":" +:+ directoryPath))
  else
    protocol ← lift (getHTTPProtocolByURL url);
    response ← call (CRpc protocol "get" (VArr [url]));
    statusCode ← response @. "statusCode";
    if strict_eq statusCode (VNum 200) then
      catch (_ ← sink response; Ret tt) (λ err, Throw (js_error (exn_msg err)))
    else
      statusMessage ← response @. "statusMessage";
      let errMessage := "Download failed with HTTP status code: " +:+ tpl statusCode +:+ " (" +:+ tpl statusMessage +:+ ")." in
      Throw (if strict_eq statusCode (VNum 404) then mkExn "NotFoundException" errMessage else js_error errMessage).

Definition downloadAndExtractTarball (url : val) (directoryPath : string) : prog unit :=
  download url directoryPath "directoryPath"
    (λ response, call (CRpc "tar" "extract" (VArr [response; VObj [("cwd", VStr directoryPath)]]))).

Definition downloadFile (url : val) (filePath : string) : prog unit :=
  download url filePath "filePath" (λ response, fs "createWriteStream" [VStr filePath; response]).

End RegistryFs.
Import RegistryFs.

(** ** metadataIndex.js *)
Module MetadataIndex.
Section index.
Context {CFG : Config} {RC : RegistryConfig}.

Definition getApplicationMetadataIndex : prog table :=
  Mysql.getTableInstance (tableName Schemas.registry_application_metadata) Schemas.registry_application_metadata MYSQL_ENDPOINT.
Definition getTokenMetadataIndex : prog table :=
  Mysql.getTableInstance (tableName Schemas.registry_token_metadata) Schemas.registry_token_metadata MYSQL_ENDPOINT.

Definition KNOWN_CONFIG_FILES : list string := [APP_JSON; NATIVETOKENS_JSON].

(** [token.tokenID.substring(LENGTH_CHAIN_ID).toLowerCase()] *)
Definition localID_of (token : val) : result string :=
  tokenID ← prop token "tokenID"; str_method tokenID "substring" (λ s, ApiUtils.lower (str_drop LENGTH_CHAIN_ID s)).

Definition tokenRow (tokenMeta token : val) : prog val :=
  chain ← tokenMeta @. "chainID"; chainID ← lift (toLowerCase chain);
  chainName ← tokenMeta @. "chainName"; network ← tokenMeta @. "network";
  localID ← lift (localID_of token);
  tokenName ← token @. "tokenName"; tokenID ← token @. "tokenID";
  Ret (VObj [("chainID", VStr chainID); ("chainName", chainName); ("network", network); ("localID", VStr localID);
             ("tokenName", tokenName); ("tokenID", tokenID)]).

Definition indexTokensMeta (tokenMeta : val) (dbTrx : Z) : prog unit :=
  tokenMetadataTable ← getTokenMetadataIndex;
  tokens ← tokenMeta @. "tokens";
  tokenMetaToIndex ← bluebird_map tokens (tokenRow tokenMeta);
  _ ← Mysql.upsert tokenMetadataTable (VArr tokenMetaToIndex) (Some dbTrx); Ret tt.

Definition indexAppMeta (appMeta : val) (dbTrx : Z) : prog unit :=
  applicationMetadataTable ← getApplicationMetadataIndex;
  chainID ← appMeta @. "chainID"; chainName ← appMeta @. "chainName"; networkType ← appMeta @. "networkType";
  appDirName ← appMeta @. "appDirName";
  let appMetaToIndex := VObj [("chainID", chainID); ("chainName", chainName); ("network", networkType);
    ("isDefault", VBool (existsb (λ e, strict_eq (VStr e) chainName) defaultApps)); ("appDirName", appDirName)] in
  _ ← Mysql.upsert applicationMetadataTable appMetaToIndex (Some dbTrx); Ret tt.

(** The name of a file is a text: the case of null never occurs. *)
Definition indexMetadataFromFile (filePath : string) (dbTrx : Z) : prog unit :=
  let '(network, app, filename) := pathParts filePath in
  _ ← guard_throw (negb (truthy network) || negb (truthy app)) (js_error "Require both 'network' and 'app'.");
  let oldAppJsonPath := dataDir +:+ "/" +:+ appRegistryRepoName +:+ "/" +:+ tpl network +:+ "/" +:+ tpl app +:+ "/" +:+ APP_JSON in
  let downloadedAppJsonPath := path_dirname filePath +:+ "/" +:+ APP_JSON in
  downloaded ← exists_path downloadedAppJsonPath;
  appMetaString ← read (if downloaded : bool then downloadedAppJsonPath else oldAppJsonPath);
  parsed ← lift (json_parse (to_string appMetaString));
  let appMeta := spread parsed (VObj [("appDirName", app)]) in
  _ ← (if strict_eq filename (VStr APP_JSON) || strict_eq filename VNull then indexAppMeta appMeta dbTrx else Ret tt);
  if strict_eq filename (VStr NATIVETOKENS_JSON) || strict_eq filename VNull then
    tokenMetaString ← read filePath;
    tokens ← lift (json_parse (to_string tokenMetaString));
    chainName ← appMeta @. "chainName"; chainID ← appMeta @. "chainID";
    indexTokensMeta (spread tokens (VObj [("chainName", chainName); ("chainID", chainID); ("network", network)])) dbTrx
  else Ret tt.

Definition deleteAppMeta (appMeta : val) (dbTrx : Z) : prog unit :=
  applicationMetadataTable ← getApplicationMetadataIndex;
  network ← appMeta @. "networkType"; chainName ← appMeta @. "chainName";
  _ ← Mysql.deleteByParams applicationMetadataTable (VObj [("network", network); ("chainName", chainName)]) (Some dbTrx); Ret tt.

Definition deleteTokensMeta (localIDs : list string) (chainName network : val) (dbTrx : Z) : prog unit :=
  tokenMetadataTable ← getTokenMetadataIndex;
  _ ← pmap (λ localID, Mysql.deleteByParams tokenMetadataTable
              (VObj [("network", network); ("chainName", chainName); ("localID", VStr localID)]) (Some dbTrx)) localIDs;
  Ret tt.

Definition deleteIndexedMetadataFromFile (filePath : string) (dbTrx : Z) : prog unit :=
  let '(network, app, filename) := pathParts filePath in
  _ ← guard_throw (negb (truthy network) || negb (truthy app)) (js_error "Require both 'network' and 'app'.");
  appMetaString ← read (path_dirname filePath +:+ "/" +:+ APP_JSON);
  parsed ← lift (json_parse (to_string appMetaString));
  let appMeta := spread parsed (VObj []) in
  _ ← (if strict_eq filename (VStr APP_JSON) || strict_eq filename VNull then deleteAppMeta appMeta dbTrx else Ret tt);
  if strict_eq filename (VStr NATIVETOKENS_JSON) || strict_eq filename VNull then
    tokenMetaString ← read filePath;
    meta ← lift (json_parse (to_string tokenMetaString));
    tokens ← meta @. "tokens"; l ← array_method tokens "map";
    localIDs ← lift (result_list (map localID_of l));
    chainName ← appMeta @. "chainName";
    deleteTokensMeta localIDs chainName network dbTrx
  else Ret tt.

(** One file in a transaction of its own; an error is logged. *)
Definition indexFile (file : string) : prog unit :=
  let filename := default "" (last (split_char "/" file)) in
  if bool_decide (filename ∈ KNOWN_CONFIG_FILES) then
    connection ← Mysql.getDbConnection MYSQL_ENDPOINT;
    dbTrx ← Mysql.startDbTransaction connection;
    catch (_ ← indexMetadataFromFile file dbTrx; _ ← Mysql.commitDbTransaction dbTrx; Ret tt)
          (λ _, _ ← Mysql.rollbackDbTransaction dbTrx; Ret tt)
  else Ret tt.

Definition indexAllBlockchainAppsMeta : prog unit :=
  let repoPath := path_join dataDir appRegistryRepoName in
  piter (λ network,
    allAvailableApps ← getDirectories (path_join repoPath network);
    piter (λ app, allFilesFromApp ← getFiles app; piter indexFile allFilesFromApp) allAvailableApps) supportedNetworks.

End index.
End MetadataIndex.
Import MetadataIndex.

(** ** utils/downloadRepository.js, utils/chain.js, the jobs, database/index.js and init.js *)
Module Repository.
Section repository.
Context {CFG : Config} {RC : RegistryConfig} {LO : Locale}.

Definition getRepoInfoFromURL (url : string) : val * val :=
  let parts := split_char "/" url in (nth_str parts 3, nth_str parts 4).
Definition owner : val := (getRepoInfoFromURL appRegistryRepo).1.
Definition repo : val := (getRepoInfoFromURL appRegistryRepo).2.

(** Errors of octokit are logged and thrown again. *)
Definition octokit (url : string) : prog val :=
  call (CRpc "octokit" "request" (VArr [VStr url; VObj [("owner", owner); ("repo", repo); ("ref", VStr gitHub_branch)]])).
Definition endpoint (path : string) : string := "GET /repos/" +:+ tpl owner +:+ "/" +:+ tpl repo +:+ path.

Definition getLatestCommitHash : prog val :=
  result ← octokit (endpoint ("/commits/" +:+ gitHub_branch)); data ← result @. "data"; data @. "sha".

Definition getCommitInfo : prog (val * val) :=
  lastSyncedCommitHash ← KvStore.get COMMIT_HASH_UNTIL_LAST_SYNC;
  latestCommitHash ← getLatestCommitHash;
  Ret (lastSyncedCommitHash, latestCommitHash).

Definition getRepoDownloadURL : prog val := octokit (endpoint ("/tarball/" +:+ gitHub_branch)).
Definition getFileDownloadURL (file : string) : prog val :=
  result ← octokit (endpoint ("/contents/" +:+ file)); data ← result @. "data"; data @. "download_url".
Definition getDiff (lastSyncedCommitHash latestCommitHash : val) : prog val :=
  octokit (endpoint ("/compare/" +:+ tpl lastSyncedCommitHash +:+ "..." +:+ tpl latestCommitHash)).

(** utils/chain.js: [''] when there is no such application. *)
Definition resolveChainNameByNetworkAppDir (network appDirName : val) : prog val :=
  applicationMetadataTable ← getApplicationMetadataIndex;
  rows ← Mysql.find applicationMetadataTable (VObj [("network", network); ("appDirName", appDirName)]) (strs ["chainName"]);
  row ← first_of rows;
  chainName ← (or_default row (VObj [])) @. "chainName"; Ret (or_default chainName (VStr "")).

Definition filterMetaConfigFilesByNetwork (network : string) (filesChanged : list string) : list string :=
  List.filter (λ file, starts_with network file && (ends_with APP_JSON file || ends_with NATIVETOKENS_JSON file)) filesChanged.

Definition getUniqueNetworkAppDirPairs (files : list string) : list (val * val) :=
  map snd (fold_left (λ m file,
    let parts := split_char "/" file in
    let network := nth_str parts 0 in
    let appDirName := nth_str parts 1 in
    aset m (tpl network +:+ "/" +:+ tpl appDirName) (network, appDirName)) files []).

Definition buildEventPayload (allFilesModified : list string) : prog val :=
  payload ← pfold (λ acc networkType,
    let filesUpdated := filterMetaConfigFilesByNetwork networkType allFilesModified in
    appsUpdated ← pmap (λ '(network, appDirName), resolveChainNameByNetworkAppDir network appDirName)
                    (getUniqueNetworkAppDirPairs filesUpdated);
    Ret (oset acc networkType (VArr appsUpdated))) [] supportedNetworks;
  Ret (VObj payload).

Definition isMetadataFile (filePath : val) : result bool :=
  app ← str_method filePath "endsWith" (ends_with APP_JSON);
  if app : bool then Ok true else str_method filePath "endsWith" (ends_with NATIVETOKENS_JSON).

(** Files by network, then by application, in order of appearance: the names
    are those of directories, not of array indices. *)
Definition grouped : Type := list (string * list (string * list val)).

Definition compareFilename (first second : val) : result comparison :=
  a ← prop first "filename"; b ← prop second "filename";
  match a with
  | VStr s => Ok (localeCompare s (to_string b))
  | VUndef | VNull => _ ← prop a "localeCompare"; Err (not_a_function "localeCompare")
  | _ => Err (not_a_function "localeCompare")
  end.

Definition groupFile (groupedFiles : grouped) (fileInfo : val) : result grouped :=
  filename ← prop fileInfo "filename";
  parts ← str_method filename "split" pathParts;
  let '(network, appName, fileName) := parts in
  metadata ← isMetadataFile fileName;
  if negb metadata then Ok groupedFiles
  else
    let apps := default [] (aget groupedFiles (tpl network)) in
    let files := default [] (aget apps (tpl appName)) in
    Ok (aset groupedFiles (tpl network) (aset apps (tpl appName) (files ++ [fileInfo]))).

Fixpoint groupFiles (groupedFiles : grouped) (l : list val) : result grouped :=
  match l with
  | [] => Ok groupedFiles
  | f :: r => g ← groupFile groupedFiles f; groupFiles g r
  end.

Definition groupFilesByNetworkAndApp (fileInfos : val) : prog grouped :=
  l ← array_method fileInfos "sort";
  sorted ← lift (js_sort compareFilename l);
  lift (groupFiles [] sorted).

Definition getModifiedFileNames (groupedFiles : grouped) : list string :=
  concat (map (λ network : string * list (string * list val),
    concat (map (λ app : string * list val, map (λ file, tpl (field file "filename")) app.2) network.2)) groupedFiles).

Definition REMOVED : string := "removed".
Definition fileUpdatedStatuses : list string := [REMOVED; "modified"; "changed"].
Definition has_status (status : val) (l : list string) : bool := existsb (λ s, strict_eq status (VStr s)) l.

(** What one changed file does; the files to be deleted and moved later are
    collected. *)
Definition processFile (appDirPath tempDownloadDir : string) (dbTrx : Z) (acc : list string * list (string * string))
    (modifiedFile : val) : prog (list string * list (string * string)) :=
  let '(filesToBeDeleted, filesToBeMoved) := acc in
  filename ← modifiedFile @. "filename";
  let remoteFilePath := tpl filename in
  let localFilePath := path_join appDirPath remoteFilePath in
  status ← modifiedFile @. "status";
  _ ← (if has_status status fileUpdatedStatuses then deleteIndexedMetadataFromFile localFilePath dbTrx else Ret tt);
  if has_status status [REMOVED] then Ret (filesToBeDeleted ++ [localFilePath], filesToBeMoved)
  else
    let tempFilePath := path_join tempDownloadDir remoteFilePath in
    _ ← mkdir (path_dirname tempFilePath);
    fileDownloadUrl ← getFileDownloadURL remoteFilePath;
    _ ← downloadFile fileDownloadUrl tempFilePath;
    _ ← indexMetadataFromFile tempFilePath dbTrx;
    Ret (filesToBeDeleted, filesToBeMoved ++ [(tempFilePath, localFilePath)]).

Definition processFiles (appDirPath tempDownloadDir : string) (dbTrx : Z) (groupedFiles : grouped) :
    prog (list string * list (string * string)) :=
  pfold (λ acc (network : string * list (string * list val)),
    pfold (λ acc (app : string * list val), pfold (processFile appDirPath tempDownloadDir dbTrx) acc app.2)
      acc network.2) ([], []) groupedFiles.

Definition TEMP_DOWNLOAD_DIR_NAME : string := "temp-downloads".

(** After the commit: the files are removed and moved, the clients told. *)
Definition finishSync (tempDownloadDir : string) (groupedFiles : grouped) (filesToBeDeleted : list string)
    (filesToBeMoved : list (string * string)) : prog unit :=
  _ ← pmap (λ filePath, rm filePath VUndef) filesToBeDeleted;
  _ ← pmap (λ '(from, to), _ ← mkdir (path_dirname to); mv from to) filesToBeMoved;
  _ ← rmdir tempDownloadDir;
  match groupedFiles with
  | [] => Ret tt
  | _ => eventPayload ← buildEventPayload (getModifiedFileNames groupedFiles);
         _ ← call (CSignal "metadataUpdated" eventPayload); Ret tt
  end.

(** The changes since the last commit that was synchronised. *)
Definition syncChanges (dbTrx : Z) (lastSyncedCommitHash latestCommitHash : val) : prog unit :=
  let appDirPath := path_join dataDir (tpl repo) in
  let tempDownloadDir := path_join appDirPath TEMP_DOWNLOAD_DIR_NAME in
  exists_temp ← exists_path tempDownloadDir;
  _ ← (if exists_temp : bool then _ ← rmdir tempDownloadDir; Ret tt else Ret tt);
  _ ← mkdir tempDownloadDir;
  diffInfo ← getDiff lastSyncedCommitHash latestCommitHash;
  data ← diffInfo @. "data"; files ← data @. "files";
  groupedFiles ← groupFilesByNetworkAndApp files;
  '(filesToBeDeleted, filesToBeMoved) ← processFiles appDirPath tempDownloadDir dbTrx groupedFiles;
  _ ← KvStore.set COMMIT_HASH_UNTIL_LAST_SYNC latestCommitHash (Some dbTrx);
  _ ← Mysql.commitDbTransaction dbTrx;
  finishSync tempDownloadDir groupedFiles filesToBeDeleted filesToBeMoved.

Definition syncWithRemoteRepo : prog unit :=
  connection ← Mysql.getDbConnection MYSQL_ENDPOINT;
  dbTrx ← Mysql.startDbTransaction connection;
  catch ('(lastSyncedCommitHash, latestCommitHash) ← getCommitInfo;
         if strict_eq lastSyncedCommitHash latestCommitHash then Ret tt
         else syncChanges dbTrx lastSyncedCommitHash latestCommitHash)
        (λ error, _ ← Mysql.rollbackDbTransaction dbTrx; Throw error).

Definition downloadRepositoryToFS : prog unit :=
  let appDirPath := path_join dataDir (tpl repo) in
  lastSyncedCommitHash ← KvStore.get COMMIT_HASH_UNTIL_LAST_SYNC;
  cloned ← (if truthy lastSyncedCommitHash then exists_path appDirPath else Ret false);
  if cloned : bool then syncWithRemoteRepo
  else
    exists_data ← exists_path dataDir;
    _ ← (if negb exists_data then _ ← mkdir dataDir; Ret tt
         else exists_app ← exists_path appDirPath;
              if exists_app : bool then _ ← rmdir appDirPath; Ret tt else Ret tt);
    result ← getRepoDownloadURL; url ← result @. "url";
    _ ← downloadAndExtractTarball url dataDir;
    dirs ← getDirectories dataDir;
    _ ← match dirs with
        | oldDir :: _ => mv oldDir appDirPath
        | [] => Throw (type_error "The oldPath argument must be of type string")
        end;
    latestCommitHash ← getLatestCommitHash;
    KvStore.set COMMIT_HASH_UNTIL_LAST_SYNC latestCommitHash None.

(** jobs/metadata.js *)
Definition metadataController : prog unit := catch syncWithRemoteRepo (λ _, Ret tt).

(** jobs/deleteNonMetadata.js: [fuel] bounds the depth of the directories. *)
Definition removeDirectoryIfEmpty (dirPath : string) : prog unit :=
  files ← getFilesAndDirs dirPath;
  match files with [] => _ ← rmdir dirPath; Ret tt | _ => Ret tt end.

Fixpoint removeEmptyDirectoriesAndNonMetaFiles (fuel : nat) (dirPath : string) : prog unit :=
  match fuel with
  | O => Ret tt
  | S fuel' =>
      contents ← getFilesAndDirs dirPath;
      piter (λ filePath,
        stat ← stats filePath;
        if truthy (field stat "isDirectory") then
          _ ← removeEmptyDirectoriesAndNonMetaFiles fuel' filePath; removeDirectoryIfEmpty filePath
        else
          metadata ← lift (isMetadataFile (VStr filePath));
          if negb (existsb (λ ending, ends_with ending filePath) ALLOWED_FILE_EXTENSIONS) && negb metadata
          then _ ← rm filePath VUndef; Ret tt
          else Ret tt) contents
  end.

Definition deleteController (fuel : nat) : prog unit :=
  catch (removeEmptyDirectoriesAndNonMetaFiles fuel dataDir) (λ _, Ret tt).

(** database/index.js *)
Definition indexSchemas : list table_schema := [Schemas.registry_application_metadata; Schemas.registry_token_metadata].
Definition initializeSearchIndex : prog unit :=
  piter (λ schema, _ ← Mysql.getTableInstance (tableName schema) schema MYSQL_ENDPOINT; Ret tt) indexSchemas.
Definition truncateAllTables : prog unit :=
  piter (λ schema, _ ← Mysql.getTableInstance (tableName schema) schema MYSQL_ENDPOINT;
                   _ ← Mysql.rawQuery ("TRUNCATE TABLE " +:+ tableName schema +:+ ";"); Ret tt) indexSchemas.
Definition initDatabase : prog unit :=
  _ ← (if isRebuildIndexAtInit then truncateAllTables else Ret tt); initializeSearchIndex.

(** init.js *)
Definition init : prog unit :=
  catch (_ ← initDatabase; _ ← downloadRepositoryToFS; indexAllBlockchainAppsMeta) (λ _, Ret tt).

End repository.
End Repository.
Import Repository.

(** ** metadata.js, chain.js and status.js *)
Module Metadata.
Section metadata.
Context {CFG : Config} {RC : RegistryConfig} {AE : AxiosErrors} (encodeURI : string → string).

Definition requestIndexer (method : string) (params : val) : prog val :=
  call (CRpc "indexer" method (or_default params (VObj []))).

(** chain.js *)
Definition chainID : string := "registry.chainID".
Definition isMainchain : prog bool :=
  id ← call (CVarGet chainID);
  id ← (if truthy id then Ret id
        else response ← requestIndexer "network.status" VUndef;
             networkStatus ← response @. "data"; id ← networkStatus @. "chainID";
             _ ← call (CVarSet chainID id); Ret id);
  Ret (Patterns.MAINCHAIN_ID id).

Definition DEFAULT : string := "unregistered".
Definition ACTIVE : string := "active".

(** [e.padEnd(LENGTH_CHAIN_ID, '0')] *)
Definition knownMainchainIDs : list string :=
  map (λ e : string * string, e.1 +:+ repeat_char "0" (LENGTH_CHAIN_ID - String.length e.1)) CHAIN_ID_PREFIX_NETWORK_MAP.

(** [config.CHAIN_ID_PREFIX_NETWORK_MAP[k]] *)
Definition networkOf (prefix : string) : val :=
  match aget CHAIN_ID_PREFIX_NETWORK_MAP prefix with Some n => VStr n | None => VUndef end.

(** [Array.from(new Set(l)).join(',')] *)
Definition joinNetworks (l : list val) : string :=
  to_string (VArr (fold_left (λ acc x, if val_includes acc x then acc else acc ++ [x]) l [])).

Definition numNetworks : val := VNum (Z.of_nat (length supportedNetworks)).

(** A parameter replaced by a search for names of chains. *)
Definition withSearch (params : list (string * val)) : list (string * val) :=
  let search := Mysql.param params "search" in
  if truthy search
  then oset (odel params "search") "search" (VObj [("property", VStr "chainName"); ("pattern", search)])
  else params.

Definition whereIn_entry (property values : val) : val := VObj [("property", property); ("values", values)].
Definition pushWhereIn (params : list (string * val)) (entry : val) : list (string * val) :=
  oset params "whereIn" (VArr (arr_of (Mysql.param params "whereIn") ++ [entry])).

(** The networks, a condition of their own. *)
Definition withNetworks (params : list (string * val)) : result (list (string * val)) :=
  let network := Mysql.param params "network" in
  if truthy network then
    values ← str_method network "split" (split_char ",");
    Ok (pushWhereIn (odel params "network") (whereIn_entry (VStr "network") (strs values)))
  else Ok params.

Definition getBlockchainAppsMetaList (params : val) : prog val :=
  applicationMetadataTable ← getApplicationMetadataIndex;
  let ps := withSearch (props params) in
  let network := Mysql.param ps "network" in
  ps ← lift (if truthy network then
               values ← str_method network "split" (split_char ",");
               Ok (oset (odel ps "network") "whereIn" (VArr [whereIn_entry (VStr "network") (strs values)]))
             else Ok ps);
  let limit := js_mul (Mysql.param ps "limit") numNetworks in
  let apps isDefault := Mysql.find applicationMetadataTable
    (VObj (oset (oset (ospread [] ps) "limit" limit) "isDefault" (VBool isDefault))) (strs ["network"; "chainID"; "chainName"]) in
  found ← apps true; defaultApps ← iter_list found;
  data ← (if js_lt (VNum (Z.of_nat (length defaultApps))) (Mysql.param ps "limit") then
            nonDefaultApps ← apps false; Ret (defaultApps ++ match nonDefaultApps with VArr l => l | v => [v] end)
          else Ret []);
  page ← slice_page (Mysql.param ps "offset") (Mysql.param ps "limit") data;
  total ← Mysql.count applicationMetadataTable (VObj ps);
  Ret (VObj [("data", VArr page);
             ("meta", VObj [("count", VNum (Z.of_nat (length page))); ("offset", Mysql.param ps "offset"); ("total", total)])]).

Definition readMetadataFromClonedRepo (network appDirName : val) (filename : string) : prog val :=
  metadataStr ← read (dataDir +:+ "/" +:+ appRegistryRepoName +:+ "/" +:+ tpl network +:+ "/" +:+ tpl appDirName +:+ "/" +:+ filename);
  lift (json_parse (to_string metadataStr)).

(** The metadata of an application with its status on the chain. *)
Definition appMetadata (appMetadata : val) : prog val :=
  network ← appMetadata @. "network"; appDirName ← appMetadata @. "appDirName";
  appMeta ← readMetadataFromClonedRepo network appDirName APP_JSON;
  isDefault ← appMetadata @. "isDefault";
  let appMeta := set_field appMeta "isDefault" isDefault in
  mainchain ← isMainchain;
  let id := field appMeta "chainID" in
  if mainchain && match id with VStr s => bool_decide (s ∈ knownMainchainIDs) | _ => false end
  then Ret (set_field appMeta "status" (VStr ACTIVE))
  else
    response ← requestIndexer "blockchain.apps" (VObj [("chainID", id)]);
    data ← response @. "data"; blockchainApp ← first_of data;
    status ← (if truthy blockchainApp then blockchainApp @. "status" else Ret (VStr DEFAULT));
    Ret (set_field appMeta "status" status).

(** The identifiers of chains, and the networks they belong to. *)
Definition withChainIDs (params : list (string * val)) : result (list (string * val)) :=
  let chainID := Mysql.param params "chainID" in
  if truthy chainID then
    chainIDs ← str_method chainID "split" (split_char ",");
    let ps := pushWhereIn (odel params "chainID") (whereIn_entry (VStr "chainID") (strs chainIDs)) in
    Ok (if has_key ps "network" then ps
        else oset ps "network" (VStr (joinNetworks (map (λ id, networkOf (str_take 2 id)) chainIDs))))
  else Ok params.

Definition getBlockchainAppsMetadata (params : val) : prog val :=
  applicationMetadataTable ← getApplicationMetadataIndex;
  ps ← lift (withChainIDs (oset (props params) "whereIn" (VArr [])));
  ps ← lift (withNetworks ps);
  let ps := withSearch ps in
  let limit := js_mul (Mysql.param ps "limit") numNetworks in
  let isDefault := Mysql.param ps "isDefault" in
  let apps isDefault := Mysql.find applicationMetadataTable
    (VObj (oset (oset (ospread [] ps) "limit" limit) "isDefault" (VBool isDefault))) (strs ["network"; "appDirName"; "isDefault"]) in
  data ← (if strict_eq isDefault (VBool false) then Ret [] else found ← apps true; iter_list found);
  data ← (if negb (strict_eq isDefault (VBool true)) && js_lt (VNum (Z.of_nat (length data))) (Mysql.param ps "limit") then
            nonDefaultApps ← apps false; l ← iter_list nonDefaultApps; Ret (data ++ l)
          else Ret data);
  metadata ← pmap appMetadata data;
  total ← Mysql.count applicationMetadataTable (VObj ps);
  Ret (VObj [("data", VArr metadata);
             ("meta", VObj [("count", VNum (Z.of_nat (length metadata))); ("offset", Mysql.param ps "offset"); ("total", total)])]).

(** A token name needs a chain, or a name and a network. *)
Definition withTokenNames (params : list (string * val)) : result (list (string * val)) :=
  let tokenName := Mysql.param params "tokenName" in
  if truthy tokenName then
    let ps := odel params "tokenName" in
    if negb (has_key ps "tokenID") && negb (has_key ps "chainID") && (negb (has_key ps "chainName") || negb (has_key ps "network"))
    then Err (InvalidParamsException "'tokenName' must be specified with either 'chainID', or 'chainName' and 'network'.")
    else names ← str_method tokenName "split" (split_char ",");
         Ok (pushWhereIn ps (whereIn_entry (VStr "tokenName") (strs names)))
  else Ok params.

Definition tokenIDPair (tokenID : string) : string * string :=
  (ApiUtils.lower (str_take LENGTH_CHAIN_ID tokenID), ApiUtils.lower (str_drop LENGTH_CHAIN_ID tokenID)).

Definition withTokenIDs (params : list (string * val)) : result (list (string * val)) :=
  let tokenID := Mysql.param params "tokenID" in
  if truthy tokenID then
    let ps := odel params "tokenID" in
    ids ← str_method tokenID "split" (split_char ",");
    let pairs := map tokenIDPair ids in
    let ps' := pushWhereIn ps (whereIn_entry (strs ["chainID"; "localID"])
                                 (VArr (map (λ p : string * string, strs [p.1; p.2]) pairs))) in
    Ok (if has_key ps "network" then ps'
        else oset ps' "network" (VStr (joinNetworks (map (λ p : string * string, networkOf (str_take 2 p.1)) pairs))))
  else Ok params.

Definition withChainNetwork (params : list (string * val)) : result (list (string * val)) :=
  let chainID := Mysql.param params "chainID" in
  if truthy chainID && negb (has_key params "network") then
    prefix ← str_method chainID "substring" (str_take 2); Ok (oset params "network" (networkOf prefix))
  else Ok params.

Definition tokenParams (params : val) : result (list (string * val)) :=
  ps ← withTokenNames (withSearch (oset (props params) "whereIn" (VArr [])));
  ps ← withTokenIDs ps; ps ← withChainNetwork ps; withNetworks ps.

(** The tokens of a file, each with its chain. *)
Definition tokensOf (parsedTokenMeta entry : val) : prog (list val) :=
  tokens ← parsedTokenMeta @. "tokens"; l ← array_method tokens "forEach";
  chainID ← entry @. "chainID"; chainName ← entry @. "chainName"; network ← entry @. "network";
  Ret (map (λ token, spread token (VObj [("chainID", chainID); ("chainName", chainName); ("network", network)])) l).

Definition tokensOfChain (applicationMetadataTable : table) (tokenMeta : val) : prog (list val) :=
  network ← tokenMeta @. "network"; chainID ← tokenMeta @. "chainID";
  rows ← Mysql.find applicationMetadataTable (VObj [("network", network); ("chainID", chainID)]) (strs ["appDirName"]);
  row ← first_of rows; appDirName ← row @. "appDirName";
  parsedTokenMeta ← readMetadataFromClonedRepo network appDirName NATIVETOKENS_JSON;
  tokensOf parsedTokenMeta tokenMeta.

(** The last row of each chain.  (The identifiers of chains begin with 00 to
    04, so the keys of the object are no array indices and keep their order.) *)
Definition uniqueChains (rows : list val) : list val :=
  map snd (fold_left (λ m item, aset m (tpl (field item "chainID")) item) rows []).

Definition getBlockchainAppsTokenMetadata (params : val) : prog val :=
  applicationMetadataTable ← getApplicationMetadataIndex;
  tokenMetadataTable ← getTokenMetadataIndex;
  ps ← lift (tokenParams params);
  found ← Mysql.find tokenMetadataTable (VObj ps) (strs ["network"; "chainID"; "chainName"]);
  tokensResultSet ← array_method found "forEach";
  tokens ← pmap (tokensOfChain applicationMetadataTable) (uniqueChains tokensResultSet);
  let data := concat tokens in
  total ← Mysql.count tokenMetadataTable (VObj ps);
  Ret (VObj [("data", VArr data);
             ("meta", VObj [("count", VNum (Z.of_nat (length data))); ("offset", Mysql.param ps "offset"); ("total", total)])]).

Definition resolveTokenMetaInfo (tokenInfoFromDB : val) : prog (list val) :=
  tokens ← bluebird_map tokenInfoFromDB (λ entry,
    network ← entry @. "network"; chainName ← entry @. "chainName";
    parsedTokenMeta ← readMetadataFromClonedRepo network chainName NATIVETOKENS_JSON;
    tokensOf parsedTokenMeta entry);
  Ret (concat tokens).

Fixpoint supportedTokensFrom (serviceURLs : list val) : prog val :=
  match serviceURLs with
  | [] => Ret (VObj [])
  | serviceURL :: r =>
      http ← serviceURL @. "http";
      answer ← HttpClient.request encodeURI (tpl http +:+ "/api/v3/token/summary") VUndef;
      response ← answer @. "data"; data ← response @. "data";
      supportedTokens ← (if truthy data then data @. "supportedTokens" else Ret data);
      if truthy supportedTokens then Ret supportedTokens else supportedTokensFrom r
  end.
Definition getSupportedTokensFromServiceURLs (serviceURLs : val) : prog val :=
  _ ← serviceURLs @. "length"; supportedTokensFrom (arr_of serviceURLs).

Definition tokenColumns : val := strs ["network"; "chainID"; "chainName"].

Definition findTokens (params : result val) : prog (list val * val) :=
  tokenMetadataTable ← getTokenMetadataIndex;
  searchParams ← lift params;
  tokensResultSet ← Mysql.find tokenMetadataTable searchParams tokenColumns;
  total ← Mysql.count tokenMetadataTable searchParams;
  tokensMeta ← resolveTokenMetaInfo tokensResultSet;
  Ret (tokensMeta, total).

Definition getAllTokensMetaInNetworkByChainID (chainID limit offset sort : val) : prog (list val * val) :=
  findTokens
    (prefix ← str_method chainID "substring" (str_take 2);
     Ok (VObj [("search", VObj [("property", VStr "tokenID"); ("startsWith", VStr prefix)]);
               ("limit", limit); ("offset", offset); ("sort", sort)])).

(** [patternTokenIDs.map(e => ...)] *)
Definition chainPatterns (patternTokenIDs : val) : result (list val) :=
  match patternTokenIDs with
  | VArr l => result_list (map (λ e, chainID ← str_method e "substring" (str_take LENGTH_CHAIN_ID);
      Ok (VObj [("property", VStr "tokenID"); ("startsWith", VStr chainID)])) l)
  | v => _ ← prop v "map"; Err (not_a_function "map")
  end.

Definition getTokensMetaByTokenIDs (patternTokenIDs exactTokenIDs limit offset sort : val) : prog (list val * val) :=
  findTokens
    (orSearch ← chainPatterns patternTokenIDs;
     Ok (VObj [("whereIn", VArr [whereIn_entry (VStr "tokenID") exactTokenIDs]); ("orSearch", VArr orSearch);
               ("limit", limit); ("offset", offset); ("sort", sort)])).

Definition getBlockchainAppsTokensSupportedMetadata (params : val) : prog val :=
  chainID ← params @. "chainID";
  let limit := field params "limit" in
  let offset := field params "offset" in
  let sort := field params "sort" in
  applicationMetadataTable ← getApplicationMetadataIndex;
  rows ← Mysql.find applicationMetadataTable (VObj [("chainID", chainID); ("limit", VNum 1)]) (strs ["network"; "chainName"]);
  requestedAppInfo ← first_of rows;
  if negb (truthy requestedAppInfo) then Ret (VObj [("data", VArr []); ("meta", VObj [])])
  else
    network ← requestedAppInfo @. "network"; chainName ← requestedAppInfo @. "chainName";
    metadata ← readMetadataFromClonedRepo network chainName APP_JSON;
    serviceURLs ← metadata @. "serviceURLs";
    supportedTokensInfo ← getSupportedTokensFromServiceURLs serviceURLs;
    isSupportAllTokens ← supportedTokensInfo @. "isSupportAllTokens";
    '(tokensMeta, total) ← (if truthy isSupportAllTokens then getAllTokensMetaInNetworkByChainID chainID limit offset sort
                            else patternTokenIDs ← supportedTokensInfo @. "patternTokenIDs";
                                 exactTokenIDs ← supportedTokensInfo @. "exactTokenIDs";
                                 getTokensMetaByTokenIDs patternTokenIDs exactTokenIDs limit offset sort);
    Ret (VObj [("data", VArr tokensMeta);
               ("meta", VObj [("count", VNum (Z.of_nat (length tokensMeta))); ("offset", offset); ("total", total)])]).

(** status.js: [isReady] of the status *)
Definition isReady : string := "registry.isReady".
Definition getStatus : prog val :=
  ready ← call (CVarGet isReady);
  _ ← (if truthy ready then Ret tt
       else appMetaList ← getBlockchainAppsMetaList (VObj [("limit", VNum 10); ("offset", VNum 0)]);
            data ← appMetaList @. "data"; len ← data @. "length";
            _ ← call (CVarSet isReady (VBool (truthy len))); Ret tt);
  ready ← call (CVarGet isReady); Ret (VBool (truthy ready)).

(** methods/controllers/metadata.js *)
Definition BAD_REQUEST : val := VNum 400.
Definition dataAndMeta (service : val → prog val) (params : val) : prog val :=
  response ← service params;
  data ← response @. "data"; meta ← response @. "meta";
  Ret (VObj [("data", if truthy data then data else VArr []); ("meta", if truthy meta then meta else VObj [])]).
Definition metaListController : val → prog val := dataAndMeta getBlockchainAppsMetaList.
Definition metadataController : val → prog val := dataAndMeta getBlockchainAppsMetadata.
Definition tokenMetadataController (params : val) : prog val :=
  catch (dataAndMeta getBlockchainAppsTokenMetadata params)
        (λ err, if bool_decide (exn_name err = "InvalidParamsException")
                then Ret (VObj [("status", BAD_REQUEST); ("data", VObj [("error", VStr (exn_msg err))])])
                else Throw err).
Definition tokensSupportedController : val → prog val := dataAndMeta getBlockchainAppsTokensSupportedMetadata.

End metadata.
End Metadata.
