(* ===== verification/RegistryThms.v ===== *)
(** * What the application registry guarantees

    What becomes of the transaction of a synchronisation; which changes of the
    remote repository stop it; what the list of applications shows. *)
From S2P Require Export Atomic MysqlThms ProcThms Registry.
Open Scope string_scope.
Open Scope Z_scope.
Open Scope list_scope.
Import RegistryFs MetadataIndex Repository.

(** ** The transaction of a synchronisation *)

Section sync.
Context {E : Type} `{SE : SqlEngine E} {CFG : Config} {RC : RegistryConfig} {LO : Locale}.
Implicit Types w : world E.

Definition closed (t : Z) (w : world E) : Prop := sq_pending (db w) !! t = None.

(** Commands that are no statement leave a closed transaction closed, even when they fail. *)
Lemma closed_outside {A} (p : prog A) t w w' r :
  pall (λ c, is_sql c = false) p → closed t w → run p w = (w', r) → closed t w'.
Proof.
  apply (pall_run (λ c, is_sql c = false) (closed t)). intros c w1 w2 x Hw Hc Hs. unfold closed in *. destruct x as [v|e].
  - apply step_ok in Hs. destruct c; try discriminate Hc; simpl in Hs;
      try match type of Hs with _ ∧ _ => destruct Hs as [Hs _] end; by rewrite Hs.
  - apply step_err in Hs as (_ & _ & Hp). destruct (Hp t) as [Hp'|[Ho _]]; [by rewrite Hp'|]. rewrite Hw in Ho. by destruct Ho.
Qed.

Lemma closed_quiet t w w' : quiet (db w) (db w') → closed t w → closed t w'.
Proof. unfold closed. by intros (_ & _ & ->). Qed.

Lemma quiet_pmap {A B} (f : A → prog B) l w w' v :
  (∀ x w w' y, run (f x) w = (w', Ok y) → quiet (db w) (db w')) →
  run (pmap f l) w = (w', Ok v) → quiet (db w) (db w').
Proof.
  intros Hf. revert w w' v. induction l as [|x l IH]; intros w w' v; cbn [pmap]; intros H; inv_run; [done|].
  etrans; [by eapply Hf|by eapply IH].
Qed.

Lemma quiet_pfold {A S} (f : S → A → prog S) s l w w' v :
  (∀ s x w w' y, run (f s x) w = (w', Ok y) → quiet (db w) (db w')) →
  run (pfold f s l) w = (w', Ok v) → quiet (db w) (db w').
Proof.
  intros Hf. revert s w w'. induction l as [|x l IH]; intros s w w'; cbn [pfold]; intros H; inv_run; [done|].
  etrans; [by eapply Hf|by eapply IH].
Qed.

Lemma quiet_buildEventPayload files w w' v :
  run (buildEventPayload files) w = (w', Ok v) → quiet (db w) (db w').
Proof.
  unfold buildEventPayload. intros H. inv_run. eapply quiet_pfold; [|exact Hr].
  clear. intros s x w w' y H. cbv beta in H. inv_run. eapply quiet_pmap; [|exact Hr].
  clear. intros [network dir] w w' y H. cbv beta iota in H. unfold resolveChainNameByNetworkAppDir, getApplicationMetadataIndex, first_of, iter_list in H.
  inv_run; apply run_getTableInstance in Hr as [_ Hr]; apply quiet_find in Hr0; by quiet_trans.
Qed.

Lemma run_commit t w w' v : run (Mysql.commitDbTransaction t) w = (w', Ok v) → closed t w'.
Proof.
  unfold Mysql.commitDbTransaction. rewrite run_call. intros H. apply step_ok in H. simpl in H.
  unfold closed. rewrite H. apply lookup_delete_eq.
Qed.

Lemma run_getCommitInfo w w' v : run getCommitInfo w = (w', Ok v) → quiet (db w) (db w').
Proof.
  unfold getCommitInfo, getLatestCommitHash, octokit. intros H. inv_run.
  repeat match goal with
  | H : run (KvStore.get _) _ = _ |- _ => apply run_kv_get in H as [H _]
  | H : run (call _) _ = _ |- _ => apply call_quiet in H; [|done]
  end. by quiet_trans.
Qed.

Lemma closed_finishSync t temp g del mov w w' :
  closed t w → run (finishSync temp g del mov) w = (w', Ok tt) → closed t w'.
Proof.
  unfold finishSync. intros Hc H.
  apply run_bind_Ok in H as (w1 & v1 & H1 & H). apply (closed_outside _ t) in H1; [|apply pall_pmap; intros; unfold rm, fs; pall|done].
  apply run_bind_Ok in H as (w2 & v2 & H2 & H).
  apply (closed_outside _ t) in H2; [|apply pall_pmap; intros []; unfold mkdir, mv, rename, fs; pall|done].
  apply run_bind_Ok in H as (w3 & v3 & H3 & H). apply (closed_outside _ t) in H3; [|unfold rmdir, rm, fs; pall|done].
  destruct g as [|x g]; [by apply run_ret_ok in H as [-> _]|].
  apply run_bind_Ok in H as (w4 & v4 & H4 & H). apply quiet_buildEventPayload in H4.
  apply run_bind_Ok in H as (w5 & v5 & H5 & H). apply call_quiet in H5; [|done]. apply run_ret_ok in H as [-> _].
  eapply closed_quiet; [exact H5|]. by eapply closed_quiet.
Qed.

End sync.

(** ** Files outside the directory of an application *)

Section files.
Context {CFG : Config} {RC : RegistryConfig} {LO : Locale}.

(** A path of fewer than three parts, such as README.md. *)
Definition outside_apps (file : val) : Prop :=
  ∃ s, prop file "filename" = Ok (VStr s) ∧ (length (split_char "/" s) < 3)%nat.

Lemma groupFile_outside g file : outside_apps file → is_ok (groupFile g file) = false.
Proof.
  intros (s & Hs & Hl). unfold groupFile. rewrite Hs. cbn [mbind result_mbind result_bind str_method]. unfold pathParts. cbv zeta.
  replace (length (split_char "/" s) - 3)%nat with 0%nat by lia. rewrite drop_0.
  assert (nth_str (split_char "/" s) 2 = VUndef) as ->; [|done].
  unfold nth_str. by rewrite lookup_ge_None_2 by lia.
Qed.

Lemma groupFiles_outside g l file : file ∈ l → outside_apps file → is_ok (groupFiles g l) = false.
Proof.
  intros Hin Ho. revert g. induction l as [|x l IH]; intros g; [by apply elem_of_nil in Hin|]. cbn [groupFiles].
  apply elem_of_cons in Hin as [<-|Hin].
  - pose proof (groupFile_outside g file Ho) as H. by destruct (groupFile g file).
  - destruct (groupFile g x); [by apply IH|done].
Qed.

Lemma group_outside files file tr out :
  file ∈ files → outside_apps file → exec (groupFilesByNetworkAndApp (VArr files)) tr out → tr = [] ∧ ∃ e, out = Err e.
Proof.
  intros Hin Ho Hx. unfold groupFilesByNetworkAndApp in Hx. cbn [array_method] in Hx.
  change (Ret files ≫= ?k) with (k files) in Hx. cbv beta in Hx.
  destruct (js_sort compareFilename files) as [sorted|e] eqn:Es; cbn [lift] in Hx.
  - change (Ret sorted ≫= ?k) with (k sorted) in Hx. cbv beta in Hx. apply exec_lift in Hx as [-> ->]. split; [done|].
    apply js_sort_perm in Es. assert (file ∈ sorted) as Hs by (by apply (elem_of_Permutation_proper file _ _ Es)).
    pose proof (groupFiles_outside [] sorted file Hs Ho) as H. destruct (groupFiles [] sorted); [done|by eexists].
  - apply exec_throw_inv in Hx as [-> ->]. by eauto.
Qed.

(** A change to a file outside the directory of an application - a
    README.md in the root of the repository, say - stops the synchronisation
    for good: a run that is told of such a file throws before it has sent a
    statement, so the stored commit stays what it was, and the next run is
    told of the same file. *)
Theorem outside_file_stops_sync t last latest file tr out :
  exec (syncChanges t last latest) tr out →
  (∀ url r, (CRpc "octokit" "request" url, Ok r) ∈ tr →
     ∃ files, field (field r "data") "files" = VArr files ∧ file ∈ files) →
  outside_apps file →
  (∃ e, out = Err e) ∧ Forall (λ cr, no_statement cr.1) tr.
Proof.
  intros Hx Hdiff Ho. unfold syncChanges in Hx. cbv zeta in Hx.
  assert (Hfs : ∀ {A} (p : prog A) tr out, pall no_statement p → exec p tr out → Forall (λ cr, no_statement cr.1) tr)
    by (intros; by eapply pall_exec).
  apply exec_bind in Hx as [(t1 & t2 & ex & -> & H1 & Hx)|(e & H1 & ->)];
    (apply Hfs in H1; [|unfold exists_path, fs; pall; by apply pall_call]); [|by eauto].
  apply exec_bind in Hx as [(t3 & t4 & u & -> & H3 & Hx)|(e & H3 & ->)];
    (apply Hfs in H3; [|unfold rmdir, rm, fs; pall; by apply pall_call]); [|rewrite Forall_app; by eauto].
  apply exec_bind in Hx as [(t5 & t6 & u2 & -> & H5 & Hx)|(e & H5 & ->)];
    (apply Hfs in H5; [|unfold mkdir, fs; pall; by apply pall_call]); [|rewrite !Forall_app; by eauto].
  apply exec_bind in Hx as [(t7 & t8 & diffInfo & -> & H7 & Hx)|(e & H7 & ->)].
  2:{ unfold getDiff, octokit in H7. apply exec_call_inv in H7 as ->. rewrite !Forall_app. split_and!; [by eauto|done..|].
      by repeat constructor. }
  unfold getDiff, octokit in H7. apply exec_call_inv in H7 as ->.
  destruct (Hdiff (VArr [VStr (endpoint ("/compare/" +:+ tpl last +:+ "..." +:+ tpl latest));
    VObj [("owner", owner); ("repo", repo); ("ref", VStr gitHub_branch)]]) diffInfo) as (files & Hf & Hin).
  { rewrite !elem_of_app. do 3 right. left. by left. }
  assert (Hno : ∀ l, Forall (λ cr : cmd * result val, no_statement cr.1) l →
    Forall (λ cr, no_statement cr.1) (t1 ++ t3 ++ t5 ++ [(CRpc "octokit" "request" (VArr [VStr (endpoint ("/compare/" +:+ tpl last +:+ "..." +:+ tpl latest));
    VObj [("owner", owner); ("repo", repo); ("ref", VStr gitHub_branch)]]), Ok diffInfo)] ++ l)).
  { intros l Hl. rewrite !Forall_app. split_and!; try done. by repeat constructor. }
  apply exec_bind in Hx as [(t9 & t10 & data & -> & H9 & Hx)|(e & H9 & ->)]; apply exec_lift in H9 as [-> H9];
    [|split; [by eexists|by apply Hno]].
  apply exec_bind in Hx as [(t11 & t12 & fs' & -> & H11 & Hx)|(e & H11 & ->)]; apply exec_lift in H11 as [-> H11];
    [|split; [by eexists|by apply Hno]].
  assert (fs' = VArr files) as -> by (unfold field in Hf; rewrite <- H9, <- H11 in Hf; done).
  apply exec_bind in Hx as [(t13 & t14 & g & -> & H13 & Hx)|(e & H13 & ->)].
  - apply (group_outside _ _ _ _ Hin Ho) in H13 as [_ [e He]]. done.
  - apply (group_outside _ _ _ _ Hin Ho) in H13 as [-> _]. split; [by eexists|by apply Hno].
Qed.
End files.

(** ** The list of applications *)

Section lists.
Context {CFG : Config} {RC : RegistryConfig}.
Import Metadata.

Lemma param_withSearch ps k : k ≠ "search" → Mysql.param (withSearch ps) k = Mysql.param ps k.
Proof.
  intros Hk. unfold withSearch, Mysql.param at 1 4. destruct (truthy _); [|done].
  by rewrite oget_oset_ne, oget_odel, decide_False by congruence.
Qed.

(** The query for the applications that are default ones or not. *)
Definition appsQuery (ps : list (string * val)) (isDefault : bool) : prog val :=
  Mysql.find (mkTable (tableName Schemas.registry_application_metadata) Schemas.registry_application_metadata)
    (VObj (oset (oset (ospread [] ps) "limit" (js_mul (Mysql.param ps "limit") numNetworks)) "isDefault" (VBool isDefault)))
    (strs ["network"; "chainID"; "chainName"]).

Lemma slice_nil a b : slice a b ([] : list val) = [].
Proof. unfold slice. by rewrite drop_nil, take_nil. Qed.

Lemma exec_getTableInstance n c ep tr t : exec (Mysql.getTableInstance n c ep) tr (Ok t) → t = mkTable n c.
Proof.
  unfold Mysql.getTableInstance. intros (? & ? & ? & _ & _ & H)%exec_bind_Ok.
  apply exec_bind_Ok in H as (? & ? & ? & _ & _ & H). by apply exec_ret_inv in H as [_ [= ->]].
Qed.

(** The list of applications: with a page of [n], the default applications
    of the index are asked for first, and the others only when the default
    ones do not fill the page; the data are then the page of both - but the
    default ones alone, when they fill the page, are never shown: the list is
    empty. *)
Theorem meta_list_page params n tr v :
  Mysql.param (props params) "limit" = VNum n →
  exec (getBlockchainAppsMetaList params) tr (Ok v) →
  ∃ ps apps page t1, Mysql.param ps "offset" = Mysql.param (props params) "offset" ∧
    Mysql.param ps "limit" = VNum n ∧ exec (appsQuery ps true) t1 (Ok (VArr apps)) ∧ t1 ⊆ tr ∧
    field v "data" = VArr page ∧
    if Z.of_nat (length apps) <? n
    then ∃ others t2, exec (appsQuery ps false) t2 (Ok others) ∧ t2 ⊆ tr ∧
           exec (slice_page (Mysql.param (props params) "offset") (VNum n)
                   (apps ++ match others with VArr l => l | o => [o] end)) [] (Ok page)
    else page = [].
Proof.
  intros Hn H. unfold getBlockchainAppsMetaList in H. cbv zeta in H.
  set (ps0 := withSearch (props params)) in H.
  apply exec_bind_Ok in H as (t0 & tr0 & tab & -> & Ht & H).
  apply exec_bind_Ok in H as (tl & tr1 & ps & -> & Hps & H). apply exec_lift in Hps as [-> Hps]. symmetry in Hps.
  assert (Hp : ∀ k, k ∉ ["search"; "network"; "whereIn"] → Mysql.param ps k = Mysql.param (props params) k).
  { intros k Hk. rewrite !not_elem_of_cons in Hk. destruct Hk as (Hk1 & Hk2 & Hk3 & _).
    transitivity (Mysql.param ps0 k); [|by apply param_withSearch].
    destruct (truthy _) in Hps; [|by simplify_eq].
    destruct (str_method _ _ _) in Hps; [|done]. injection Hps as <-.
    unfold Mysql.param. by rewrite oget_oset_ne, oget_odel, decide_False by congruence. }
  assert (Hl : Mysql.param ps "limit" = VNum n) by (by rewrite Hp by set_solver).
  assert (Ho : Mysql.param ps "offset" = Mysql.param (props params) "offset") by (by rewrite Hp by set_solver).
  apply exec_getTableInstance in Ht as ->.
  rewrite Hl, Ho in H.
  apply exec_bind_Ok in H as (t1 & tr2 & found & -> & H1 & H). rewrite <- Hl in H1.
  apply exec_bind_Ok in H as (ti & tr3 & apps & -> & Hi & H).
  destruct found as [| | | | | | |apps'|]; try (by apply exec_throw_inv in Hi as [_ ?]).
  apply exec_ret_inv in Hi as [-> [= ->]].
  apply exec_bind_Ok in H as (t2 & tr4 & data & -> & Hd & H).
  apply exec_bind_Ok in H as (t3 & tr5 & page & -> & Hpage & H).
  apply exec_bind_Ok in H as (t4 & tr6 & total & -> & _ & H).
  apply exec_ret_inv in H as [-> [= ->]].
  assert (t3 = []) as ->.
  { unfold slice_page in Hpage. apply exec_bind_Ok in Hpage as (? & ? & e & -> & He & Hr).
    by apply exec_lift in He as [-> _]; apply exec_ret_inv in Hr as [-> _]. }
  exists ps, apps', page, t1. split_and!; [done|done|exact H1|set_solver|done|].
  rewrite js_lt_num in Hd. destruct (_ <? _).
  - apply exec_bind_Ok in Hd as (t5 & t6 & others & -> & Hothers & Hr). apply exec_ret_inv in Hr as [-> [= ->]].
    rewrite <- Hl in Hothers. exists others, t5. split_and!; [exact Hothers|set_solver|exact Hpage].
  - apply exec_ret_inv in Hd as [-> [= ->]]. unfold slice_page in Hpage.
    apply exec_bind_Ok in Hpage as (? & ? & e & _ & _ & Hr). apply exec_ret_inv in Hr as [_ [= ->]]. apply slice_nil.
Qed.
End lists.
