(* ===== verification/ExportWitnesses.v ===== *)
(** * Concrete instances of the theorems on the export of transactions

    Days are numbers, the CSV of a list is the list; two self
    transfers, of which the second loses its credit row; a server of files and one of objects.

    Before that, a repository of applications that has no new commit, one of which README.md
    changed, and two default applications that fill a page of two. *)
From S2P Require Export ExportThms FeesWitnesses RegistryThms.
Open Scope string_scope.
Open Scope Z_scope.
Open Scope list_scope.
Import Fixtures RegistryFs MetadataIndex Repository Metadata.

Module RegistryFixtures.

#[export] Instance fix_registry : RegistryConfig :=
  {| dataDir := "./data"; appRegistryRepo := "https://github.com/LiskHQ/app-registry"; gitHub_branch := "main";
     isRebuildIndexAtInit := false; DEFAULT_APPS := "" |}.

(** The stored commit is the latest one. *)
Definition synced : world mem := mkWorld ∅ (with_rpc
  (mem_of [] [("key_value_store", [[("key", VStr "commitHashUntilLastSync"); ("value", VStr "c0ffee"); ("type", VStr "string")]])])
  [("octokit", "request", Ok (VObj [("data", VObj [("sha", VStr "c0ffee")])]))]).

Definition readme : val := VObj [("filename", VStr "README.md"); ("status", VStr "modified")].
Definition readme_files : list val := [readme; VObj [("filename", VStr "mainnet/Lisk/app.json"); ("status", VStr "modified")]].
Definition readme_remote (c : cmd) : result val :=
  match c with
  | CRpc "octokit" _ _ => Ok (VObj [("data", VObj [("files", VArr readme_files)])])
  | CRpc "fs" "exists" _ => Ok (VBool false)
  | _ => Ok VUndef
  end.

Definition default_apps : list val :=
  [VObj [("network", VStr "mainnet"); ("chainID", VStr "00000000"); ("chainName", VStr "Lisk")];
   VObj [("network", VStr "mainnet"); ("chainID", VStr "00000001"); ("chainName", VStr "Other")]].
Definition apps_database (c : cmd) : result val :=
  match c with
  | CHasTable _ => Ok (VBool true)
  | CTrxBegin => Ok (VNum 1)
  | CKnex _ _ => Ok (VArr default_apps)
  | _ => Ok VUndef
  end.
Definition page_of_two : val := VObj [("limit", VNum 2); ("offset", VNum 0)].

End RegistryFixtures.
Import RegistryFixtures.


Definition readme_run : list (cmd * result val) * result unit :=
  replay readme_remote (syncChanges 1 (VStr "a") (VStr "b")).

Lemma outside_file_stops_sync_witness :
  ∃ e, readme_run.2 = Err e ∧ Forall (λ cr : cmd * result val, no_statement cr.1) readme_run.1.
Proof.
  destruct (outside_file_stops_sync 1 (VStr "a") (VStr "b") readme readme_run.1 readme_run.2) as [[e He] H].
  - apply exec_replay.
  - intros url r Hin. apply replay_answer in Hin. injection Hin as ->.
    exists readme_files. split; [reflexivity|apply list_elem_of_here].
  - exists "README.md". split; [reflexivity|]. vm_compute. repeat constructor.
  - exists e. split; [exact He|exact H].
Defined.

Definition page_run : list (cmd * result val) * result val := replay apps_database (getBlockchainAppsMetaList page_of_two).

Lemma meta_list_page_witness :
  ∃ v ps apps t1, page_run.2 = Ok v ∧ field v "data" = VArr [] ∧ exec (appsQuery ps true) t1 (Ok (VArr apps)) ∧
    Mysql.param ps "limit" = VNum 2.
Proof.
  assert (∃ v, page_run.2 = Ok v ∧ field v "data" = VArr []) as (v & E & Hv) by (eexists; split; vm_compute; reflexivity).
  assert (exec (getBlockchainAppsMetaList page_of_two) page_run.1 page_run.2) as Hx by apply exec_replay. rewrite E in Hx.
  destruct (meta_list_page page_of_two 2 page_run.1 v eq_refl Hx) as (ps & apps & page & t1 & _ & Hl & Ha & _).
  exists v, ps, apps, t1. split; [exact E|]. split; [exact Hv|]. split; [exact Ha|exact Hl].
Defined.

(** ** The export of transactions *)

Import Fixtures StatsFixtures ExportTransaction CsvCache CsvExport.

Module ExportFixtures.

#[export] Instance fix_export_moment : ExportMoment :=
  {| moment_parse := λ v _, match v with VStr s => default 0 (bigint_of_string s) * day_ms | _ => 0 end;
     moment_utcOffset := λ _ m, m;
     range_by := λ _ a b, map (λ k, a + Z.of_nat k * day_ms) (seq 0 (S (Z.to_nat ((b - a) / day_ms)))) |}.
#[export] Instance fix_csv : CsvParser := {| csv_parse := λ _ json, Ok json |}.
#[export] Instance fix_error_data : ErrorData := {| err_data := λ _, VUndef |}.
#[export] Instance fix_export_config : ExportConfig :=
  {| config_partials := mkCacheParams S3 "./data/partials" (VNum 30) (VStr "partials");
     config_exports := mkCacheParams S3 "./data/static" (VNum 30) (VStr "exports");
     AWS_S3_REGION := VStr "eu-central-1"; bucketNameDefault := VStr "export"; loaded_end := VNum 0; loaded_start := VNum 0 |}.

Definition files : cacheParams := mkCacheParams FILESYSTEM "./data/partials" (VNum 30) (VStr "partials").
Definition statics : cacheParams := mkCacheParams FILESYSTEM "./data/static" (VNum 30) (VStr "exports").

Definition token_tx (id sender recipient : string) : val :=
  VObj [("id", VStr id); ("moduleAssetId", VStr "2:0"); ("moduleAssetName", VStr "token:transfer");
        ("senderId", VStr sender); ("senderPublicKey", VStr "aa"); ("unixTimestamp", VNum 1000); ("height", VNum 7);
        ("fee", VStr "100000");
        ("asset", VObj [("amount", VStr "200000000"); ("recipient", VObj [("address", VStr recipient)])])].
Definition two_transfers : list val := [token_tx "t1" "lskA" "lskA"; token_tx "t2" "lskA" "lskA"].
Definition one_transfer : list val := [token_tx "t2" "lskA" "lskA"; token_tx "t1" "lskA" "lskB"].

(** A file system without files, a node with one transaction a day, at day 2. *)
Definition node_of_day (found : bool) (c : cmd) : result val :=
  match c with
  | CRpc _ "promises.stat" _ => if found then Ok (VObj []) else Err (mkExn "Error" "ENOENT")
  | CRpc _ "readFile" _ => Ok (VStr "csv")
  | CRpc "core" _ _ => Ok (VObj [("data", VArr [token_tx "t1" "lskA" "lskB"]); ("meta", VObj [("total", VNum 1)])])
  | CCacheGet _ _ => Ok VNull
  | CNow => Ok (VNum (2 * day_ms + 1000))
  | _ => Ok VUndef
  end.
Definition export_params : val := VObj [("address", VStr "lskA"); ("interval", VStr "1:2")].
Definition export_job : val := VObj [("data", VObj [("params", export_params)])].

(** A server of objects that all hold one transaction. *)
Definition object_text : string :=
  Eval vm_compute in match json_stringify (VArr [VObj [("id", VStr "t1")]]) with Ok (VStr s) => s | _ => "" end.
Definition objects (c : cmd) : result val :=
  match c with
  | CRpc "minio" "getObject" _ => Err (mkExn "S3Error" "The specified key does not exist.")
  | CRpc "core" _ _ => Ok (VObj [("data", VArr [token_tx "t1" "lskA" "lskB"]); ("meta", VObj [("total", VNum 1)])])
  | CCacheGet _ _ => Ok VNull
  | CNow => Ok (VNum (2 * day_ms + 1000))
  | _ => Ok VUndef
  end.
#[export] Instance bucket_server : Engine unit := λ c e, (e, objects c).

End ExportFixtures.
Import ExportFixtures.

Lemma csv_rows_witness :
  (∃ rows, transactionsToCSV two_transfers (VStr "lskA") = Ok (VArr rows) ∧ length rows = 3%nat) ∧
  (∃ rows, transactionsToCSV one_transfer (VStr "lskA") = Ok (VArr rows) ∧ length rows = 3%nat ∧
     Forall2 (λ tx row, normalizeTransaction (VStr "lskA") tx = Ok row)
       (concat (imap (rows_at (length one_transfer) one_transfer) one_transfer)) rows).
Proof.
  split; [eexists; split; vm_compute; reflexivity|].
  assert (Forall is_transaction one_transfer) as Hl.
  { repeat (apply Forall_cons; split; [split; [eexists; split; [reflexivity|apply (bool_decide_unpack _); vm_compute; exact I]|
      split; [eexists; vm_compute; reflexivity|reflexivity]]|]). apply Forall_nil; exact I. }
  destruct (transactionsToCSV one_transfer (VStr "lskA")) as [csv|e] eqn:E; [|vm_compute in E; discriminate E].
  destruct (csv_rows one_transfer (VStr "lskA") csv Hl E) as (rows & Hrows & Hcsv & _).
  injection Hcsv as <-. exists rows. split; [reflexivity|]. split; [|exact Hrows].
  apply Forall2_length in Hrows. rewrite <- Hrows. vm_compute. reflexivity.
Defined.

Definition export_trace : list (cmd * result val) :=
  Eval vm_compute in (replay (node_of_day false) (exportTransactionsCSV (fsCache files) (fsCache statics) export_job)).1.

Lemma today_never_kept_witness :
  ∃ (c : cmd) (r : result val), (c, r) ∈ export_trace ∧ changes c = true ∧
    ((∃ day, kept_of files export_params day export_trace c) ∨
     ∃ address from to csv, c = CRpc "fs" "writeFile"
       (VArr [VStr ("./data/static/" +:+ csvFilename (tpl address) (tpl from) (tpl to)); csv])).
Proof.
  assert (export_trace = (replay (node_of_day false) (exportTransactionsCSV (fsCache files) (fsCache statics) export_job)).1) as E
    by (vm_compute; reflexivity).
  assert (∃ (c : cmd) (r : result val), (c, r) ∈ export_trace ∧ changes c = true) as (c & r & Hin & Hk).
  { unfold export_trace. eexists _, _. split; [do 4 (apply elem_of_cons; right); apply elem_of_cons; left; reflexivity|reflexivity]. }
  exists c, r. split; [exact Hin|]. split; [exact Hk|].
  refine (today_never_kept files statics export_job export_params export_trace _ c r eq_refl _ Hin Hk).
  rewrite E. apply exec_replay.
Defined.

Lemma plain_of s : char_in "_" s || char_in "." s = false → plain s.
Proof. by intros [? ?]%orb_false_iff. Qed.

Definition download_run : list (cmd * result val) * result val :=
  replay (node_of_day true) (downloadTransactionHistory (fsCache statics) (VObj [("filename", VStr (csvFilename "lskA" "1" "2"))])).

Lemma download_removes_today_witness :
  ∃ v, download_run.2 = Ok v ∧
    ∃ r, (CRpc "fs" "unlink" (VArr [VStr "./data/static/transactions_lskA_1_2.csv"]), r) ∈ download_run.1.
Proof.
  assert (download_run.2 = Ok (VObj [("data", VStr "csv"); ("meta", VObj [("filename", VStr "transactions_lskA_1_2.csv")])])) as E
    by (vm_compute; reflexivity).
  eexists. split; [exact E|].
  assert (exec (downloadTransactionHistory (fsCache statics) (VObj [("filename", VStr (csvFilename "lskA" "1" "2"))]))
    download_run.1 download_run.2) as Hx by apply exec_replay. rewrite E in Hx.
  destruct (download_removes_today statics "lskA" "1" "2" download_run.1 _
    (plain_of "lskA" eq_refl) (plain_of "1" eq_refl) (plain_of "2" eq_refl) Hx) as (data & now & _ & Hnow & _ & Hiff).
  apply Hiff. apply replay_answer in Hnow. change (Ok now = Ok (VNum (2 * day_ms + 1000))) in Hnow. injection Hnow as ->.
  vm_compute. reflexivity.
Defined.

Definition s3_day : prog (list val) := transactionsOfDay (s3Cache statics) export_params "1".

Lemma s3_days_unreadable_witness :
  ∃ l tr1 tr2, (replay objects s3_day).2 = Ok l ∧ (replay objects s3_day).1 = tr1 ++ tr2 ∧
    exec (exists_file (s3Cache statics) "lskA_1.json") tr1 (Ok false).
Proof.
  assert (∃ l, (replay objects s3_day).2 = Ok l) as [l E] by (eexists; vm_compute; reflexivity).
  assert (exec s3_day (replay objects s3_day).1 (replay objects s3_day).2) as Hx by apply exec_replay. rewrite E in Hx.
  destruct (s3_days_unreadable statics export_params "1" "lskA_1.json" (replay objects s3_day).1 l eq_refl) as (tr1 & tr2 & Ht & Hf).
  - intros args r Hin. apply replay_answer in Hin. discriminate Hin.
  - exact Hx.
  - exists l, tr1, tr2. split; [exact E|]. split; [exact Ht|exact Hf].
Defined.

Lemma s3_caches_share_bucket_witness :
  ∃ pc sc w', run loadCaches (mkWorld ∅ tt) = (w', Ok (pc, sc)) ∧
    ∃ b f s r, (CRpc "minio" "putObject" (VArr [b; f; s]), r) ∈ trace_of (write pc "day.json" (VStr "[]")) w' ∧
      b = VStr "exports".
Proof.
  assert (E : run loadCaches (mkWorld ∅ tt) = (mkWorld {[ExportS3.AWS_S3_BUCKET_NAME := VStr "exports"]} tt,
      Ok (s3Cache config_partials, s3Cache config_exports))) by reflexivity.
  exists (s3Cache config_partials), (s3Cache config_exports), (mkWorld {[ExportS3.AWS_S3_BUCKET_NAME := VStr "exports"]} tt).
  split; [exact E|].
  eexists _, _, _, _. assert (Hin : (CRpc "minio" "putObject" (VArr [VStr "exports"; VStr "day.json"; VStr "[]"]), Ok VUndef)
    ∈ trace_of (write (s3Cache config_partials) "day.json" (VStr "[]"))
        (mkWorld {[ExportS3.AWS_S3_BUCKET_NAME := VStr "exports"]} tt)).
  { apply elem_of_cons. right. apply elem_of_cons. left. reflexivity. }
  split; [exact Hin|].
  exact (s3_caches_share_bucket _ _ _ _ _ "day.json" (VStr "[]") eq_refl eq_refl eq_refl E eq_refl _ _ _ _ _
    (list_elem_of_here _ _) Hin).
Defined.
