(* ===== verification/Queries.v ===== *)
(** * The remaining queries of the indexer

    services/blockchain-indexer/shared/dataService/business: the stakes, the
    stakers, the unlocks and the rewards of pos; tokens; accounts; dynamic
    rewards; audios, collections, profiles and subscriptions.  The rest is in
    Network.v. *)
From S2P Require Export ApiUtils Jobs.
Open Scope string_scope.
Open Scope Z_scope.
Open Scope list_scope.
Import Request.

(** [{ data, meta }] *)
Definition answer (data meta : val) : val := VObj [("data", data); ("meta", meta)].
Definition numOf {A} (l : list A) : val := VNum (Z.of_nat (length l)).

(** [x || null] *)
Definition or_null (v : val) : val := js_or v VNull.

(** [[...new Set(l)]] *)
Definition set_of (l : list val) : list val :=
  fold_left (λ acc x, if val_includes acc x then acc else acc ++ [x]) l [].

(** [const { k, ...remParams } = params; params = remParams; params.k' = f(k)]
    for a truthy parameter. *)
Definition renamed (params : list (string * val)) (k k' : string) (f : val → val) : list (string * val) :=
  let v := Mysql.param params k in
  if truthy v then oset (odel params k) k' (f v) else params.

Definition searchFor (property : string) (pattern : val) : val :=
  VObj [("property", VStr property); ("pattern", pattern)].

(** ** business/pos *)
Module PosQueries.
Section pos.
Context {CFG : Config} {LC : LiskCrypto}.

Definition updatePublicKeyAsync (publicKey : val) : prog unit := detach (Account.updateAccountPublicKey publicKey).

(** *** stakers.js *)
Definition stakersResponse (stakers : list val) (validator : list (string * val)) (count offset total : val) : val :=
  answer (VObj [("stakers", VArr stakers)])
         (VObj [("validator", VObj validator); ("count", count); ("offset", offset); ("total", total)]).

(** The parameters, and what is known of the validator; [inl] when the
    parameters contradict each other. *)
Definition selection : Type := (list (string * val) * list (string * val)).

Definition byAddress (params : list (string * val)) : selection :=
  (renamed params "address" "validatorAddress" id,
   let address := Mysql.param params "address" in if truthy address then [("address", address)] else []).

(** [params.validatorAddress && params.validatorAddress !== address] *)
Definition contradicts (params : list (string * val)) (address : val) : bool :=
  let known := Mysql.param params "validatorAddress" in truthy known && negb (strict_eq known address).

Definition byPublicKey (s : selection) : prog (list (string * val) + selection) :=
  let '(params, validator) := s in
  let publicKey := Mysql.param params "publicKey" in
  if truthy publicKey then
    let params := odel params "publicKey" in
    address ← lift (Account.getLisk32AddressFromPublicKey publicKey);
    if contradicts params (VStr address) then Ret (inl validator)
    else
      _ ← Account.updateAccountPublicKey publicKey;
      Ret (inr (oset params "validatorAddress" (VStr address),
                oset (oset validator "address" (VStr address)) "publicKey" publicKey))
  else Ret (inr s).

Definition byName (s : selection) : prog (list (string * val) + selection) :=
  let '(params, validator) := s in
  let name := Mysql.param params "name" in
  if truthy name then
    let params := odel params "name" in
    info ← Account.getIndexedAccountInfo (VObj [("name", name)]) (strs ["address"]);
    address ← info @. "address";
    if contradicts params address then Ret (inl validator)
    else Ret (inr (oset params "validatorAddress" address, oset validator "name" name))
  else Ret (inr s).

(** The names of the stakers that match, by address. *)
Definition stakerNames (accountsTable : table) (search : val) : prog (list (string * val)) :=
  found ← Mysql.find accountsTable (VObj [("search", searchFor "name" search)]) (strs ["name"; "address"]);
  l ← array_method found "forEach";
  pfold (λ m accountInfo, address ← accountInfo @. "address"; name ← accountInfo @. "name";
                          Ret (oset m (to_string address) name)) [] l.

Definition stakerEntry (names : list (string * val)) (stake : val) : prog val :=
  address ← stake @. "stakerAddress";
  let cached := Mysql.param names (to_string address) in
  name ← (if truthy cached then Ret cached
          else accountInfo ← Account.getIndexedAccountInfo (VObj [("address", address)]) (strs ["name"]);
               accountInfo @. "name");
  amount ← stake @. "amount";
  Ret (VObj [("address", address); ("amount", amount); ("name", name)]).

(** The stakes for the validator, the largest first. *)
Definition stakersOf (stakesTable accountsTable : table) (offset : val) (s : selection) : prog val :=
  let '(params, validator) := s in
  let validatorAddress := Mysql.param params "validatorAddress" in
  let search := Mysql.param params "search" in
  names ← (if truthy search then stakerNames accountsTable search else Ret []);
  let stakerAddressQueryFilter :=
    if truthy search then [("whereIn", VObj [("property", VStr "stakerAddress"); ("values", strs (okeys names))])] else [] in
  stakes ← Mysql.find stakesTable
    (VObj (stakerAddressQueryFilter ++
      [("validatorAddress", validatorAddress); ("limit", Mysql.param params "limit"); ("offset", Mysql.param params "offset");
       ("sort", VStr "amount:desc"); ("order", VStr "stakerAddress:asc")])) (strs ["stakerAddress"; "amount"]);
  stakers ← bluebird_map stakes (stakerEntry names);
  info ← Account.getIndexedAccountInfo (VObj [("address", validatorAddress)]) (strs ["name"; "publicKey"]);
  name ← info @. "name"; publicKey ← info @. "publicKey";
  total ← Mysql.count stakesTable (VObj (stakerAddressQueryFilter ++ [("validatorAddress", validatorAddress)]));
  Ret (stakersResponse stakers
         [("address", js_or (Mysql.param validator "address") validatorAddress);
          ("name", js_or (Mysql.param validator "name") name);
          ("publicKey", js_or (Mysql.param validator "publicKey") (or_null publicKey))]
         (numOf stakers) (Mysql.param params "offset") total).

Definition getStakers (params : val) : prog val :=
  stakesTable ← tableOf Schemas.stakes; accountsTable ← Account.getAccountsTable;
  offset ← params @. "offset";
  let none validator := stakersResponse [] validator (VNum 0) offset (VNum 0) in
  s ← byPublicKey (byAddress (props params));
  match s with
  | inl validator => Ret (none validator)
  | inr s =>
      s ← byName s;
      match s with
      | inl validator => Ret (none validator)
      | inr (params, validator) =>
          if truthy (Mysql.param params "validatorAddress") then stakersOf stakesTable accountsTable offset (params, validator)
          else Ret (none validator)
      end
  end.

(** *** stakes.js *)
Definition addressFromName (params : val) : prog val :=
  address ← params @. "address"; name ← params @. "name";
  if negb (truthy address) && truthy name then ValidatorNames.getAddressByName name else Ret address.

Definition addressFromPublicKey (address publicKey : val) : prog val :=
  if negb (truthy address) && truthy publicKey then
    a ← lift (Account.getLisk32AddressFromPublicKey publicKey); Ret (VStr a)
  else Ret address.

(** A stake, when the name of its validator is indexed and matches. *)
Definition stakeEntry (accountInfoQueryFilter : list (string * val)) (stake : val) : prog (list val) :=
  let normalizedStake := Parser.parseToJSONCompatObj stake in
  validatorAddress ← normalizedStake @. "validatorAddress";
  info ← Account.getIndexedAccountInfo
    (VObj (accountInfoQueryFilter ++ [("address", validatorAddress); ("isValidator", VBool true)])) (strs ["name"]);
  name ← info @. "name";
  if truthy (or_default name VNull) then
    amount ← normalizedStake @. "amount";
    Ret [VObj [("address", validatorAddress); ("amount", amount); ("name", name)]]
  else Ret [].

Definition getStakes (params : val) : prog val :=
  address ← addressFromName params;
  publicKey ← params @. "publicKey";
  address ← addressFromPublicKey address publicKey;
  stakerInfo ← requestConnector "getStaker" (VObj [("address", address)]);
  search ← params @. "search";
  let accountInfoQueryFilter := if truthy search then [("search", searchFor "name" search)] else [] in
  stakes ← stakerInfo @. "stakes";
  entries ← bluebird_map stakes (stakeEntry accountInfoQueryFilter);
  accountInfo ← Account.getIndexedAccountInfo (VObj [("address", address)]) (strs ["name"]);
  name ← accountInfo @. "name"; publicKey ← accountInfo @. "publicKey";
  let stakes := concat entries in
  Ret (answer (VObj [("stakes", VArr stakes)])
         (VObj [("staker", VObj [("address", address); ("name", or_null name); ("publicKey", or_null publicKey)]);
                ("count", numOf stakes)])).

(** *** unlocks.js *)
Definition unlockEntry (isLockedParam tokenID pendingUnlock : val) : prog (list val) :=
  unlockable ← pendingUnlock @. "unlockable";
  let isLocked := VBool (negb (truthy unlockable)) in
  if match isLockedParam with VUndef => true | _ => strict_eq isLockedParam isLocked end
  then Ret [VObj (ospread (ospread [] (odel (props pendingUnlock) "unlockable")) [("isLocked", isLocked); ("tokenID", tokenID)])]
  else Ret [].

Definition getPosUnlocks (params : val) : prog val :=
  address ← params @. "address"; name ← params @. "name"; publicKey ← params @. "publicKey";
  address ← (if truthy name then ValidatorNames.getAddressByName name else Ret address);
  address ← (if truthy publicKey then a ← lift (Account.getLisk32AddressFromPublicKey publicKey); Ret (VStr a) else Ret address);
  response ← requestConnector "getPosPendingUnlocks" (VObj [("address", address)]);
  pendingUnlocks ← response @. "pendingUnlocks";
  tokenID ← PosConstants.getPosTokenID;
  l ← array_method (or_default pendingUnlocks (VArr [])) "reduce";
  let isLocked := field params "isLocked" in
  entries ← pmap (unlockEntry isLocked tokenID) l;
  let filtered := concat entries in
  info ← Account.getIndexedAccountInfo (VObj [("address", address); ("limit", VNum 1)]) (strs ["name"; "publicKey"]);
  indexedKey ← info @. "publicKey"; indexedName ← info @. "name";
  _ ← (if negb (truthy indexedKey) && truthy publicKey then updatePublicKeyAsync publicKey else Ret tt);
  page ← slice_page (field params "offset") (field params "limit") filtered;
  Ret (answer (VObj [("address", address); ("publicKey", or_null indexedKey); ("name", or_null indexedName);
                     ("pendingUnlocks", VArr page)])
              (VObj [("count", numOf page); ("offset", field params "offset"); ("total", numOf filtered)])).

(** *** dynamicReward *)
Definition rewardTokenID : string := "dynamicReward.rewardTokenID".

Definition getRewardTokenID : prog val :=
  cached ← call (CVarGet rewardTokenID);
  _ ← (if truthy cached then Ret tt
       else response ← requestConnector "getRewardTokenID" VUndef;
            error ← response @. "error";
            _ ← (if truthy error then message ← error @. "message"; Throw (js_error (tpl message)) else Ret tt);
            _ ← call (CVarSet rewardTokenID response); Ret tt);
  call (CVarGet rewardTokenID).

Definition getRewardConstants : prog val :=
  id ← getRewardTokenID; Ret (answer (VObj [("rewardTokenID", id)]) (VObj [])).

Definition getAnnualInflation (params : val) : prog val :=
  height ← params @. "height";
  data ← requestConnector "getAnnualInflation" (VObj [("height", height)]); Ret (answer data (VObj [])).

Definition getDefaultRewardAtHeight (params : val) : prog val :=
  height ← params @. "height";
  response ← requestConnector "getDefaultRewardAtHeight" (VObj [("height", height)]);
  tokenID ← getRewardTokenID;
  reward ← response @. "reward";
  Ret (answer (VObj [("defaultReward", reward); ("tokenID", tokenID)]) (VObj [])).

(** *** lockedRewards.js *)
Definition getPosLockedRewards (params : val) : prog val :=
  _ ← guard_throw (negb (existsb (λ k, has_key (props params) k) ["address"; "name"; "publicKey"]))
        (InvalidParamsException "One of the params (address, name or publicKey) is required.");
  address ← params @. "address"; name ← params @. "name"; publicKey ← params @. "publicKey";
  address ← (if negb (truthy address) && truthy name then
               validatorsTable ← tableOf Schemas.validators;
               dataRows ← Mysql.find validatorsTable (VObj [("name", name); ("limit", VNum 1)]) (strs ["address"]);
               match dataRows with
               | VArr (row :: _) => row @. "address"
               | VArr [] => Ret address
               | v => len ← v @. "length";
                      if truthy len then row ← first_of v; row @. "address" else Ret address
               end
             else Ret address);
  address ← addressFromPublicKey address publicKey;
  tokenID ← getRewardTokenID;
  if negb (truthy address) || negb (truthy tokenID) then Ret (answer (VArr []) (VObj []))
  else
    response ← requestConnector "getPosLockedReward" (VObj [("tokenID", tokenID); ("address", address)]);
    reward ← response @. "reward";
    let data := [VObj [("reward", reward); ("tokenID", tokenID)]] in
    page ← slice_page (field params "offset") (field params "limit") data;
    Ret (answer (VArr page) (VObj [("count", numOf page); ("offset", field params "offset"); ("total", numOf data)])).

(** *** claimableRewards.js *)
Definition getPosClaimableRewards (params : val) : prog val :=
  address ← addressFromName params;
  publicKey ← params @. "publicKey";
  let byKey := negb (truthy address) && truthy publicKey in
  address ← addressFromPublicKey address publicKey;
  _ ← (if byKey then updatePublicKeyAsync publicKey else Ret tt);
  if negb (truthy address) then Ret (answer (VArr []) (VObj []))
  else
    response ← requestConnector "getPosClaimableRewards" (VObj [("address", address)]);
    rewards ← response @. "rewards"; l ← array_method rewards "slice";
    page ← slice_page (field params "offset") (field params "limit") l;
    Ret (answer (VArr page) (VObj [("count", numOf page); ("offset", field params "offset"); ("total", numOf l)])).

End pos.
End PosQueries.

(** ** business/token.js, auth, legacy, validator *)
Module AccountQueries.
Section accounts.
Context {CFG : Config} {LC : LiskCrypto}.

Definition getTokenBalances (params : val) : prog val :=
  tokenID ← params @. "tokenID"; address ← params @. "address";
  _ ← guard_throw (truthy tokenID && negb (truthy address))
        (InvalidParamsException "tokenID based retrieval is only possible along with address.");
  tokensInfo ← (if truthy tokenID && truthy address then
                  response ← requestConnector "getTokenBalance" (VObj [("address", address); ("tokenID", tokenID)]);
                  Ret [spread response (VObj [("tokenID", tokenID)])]
                else
                  response ← requestConnector "getTokenBalances" (VObj [("address", address)]);
                  balances ← response @. "balances";
                  if truthy balances then iter_list balances else Ret []);
  page ← slice_page (field params "offset") (field params "limit") tokensInfo;
  Ret (answer (VArr page)
         (VObj [("address", address); ("count", numOf page); ("offset", field params "offset"); ("total", numOf tokensInfo)])).

Record supportedTokens := mkSupported {
  isSupportAllTokens : bool;
  isSupportAllToken : bool;      (* the property the loop sets *)
  exactTokenIDs : list val;
  patternTokenIDs : list val
}.

Definition classify (t : supportedTokens) (tokenID : val) : result supportedTokens :=
  let '(mkSupported all all' exact pattern) := t in
  if strict_eq tokenID (VStr Constants.PATTERN_ANY_TOKEN_ID) then Ok (mkSupported all true exact pattern)
  else
    localID ← str_method tokenID "substring" (str_drop (Z.to_nat Constants.LENGTH_CHAIN_ID));
    Ok (if bool_decide (localID = Constants.PATTERN_ANY_CHAIN_TOKEN_ID)
        then mkSupported all all' exact (pattern ++ [tokenID])
        else mkSupported all all' (exact ++ [tokenID]) pattern).

Fixpoint classifyAll (t : supportedTokens) (ids : list val) : result supportedTokens :=
  match ids with
  | [] => Ok t
  | id :: r => t ← classify t id; classifyAll t r
  end.

(** The object, as the loop leaves it. *)
Definition supportedObject (t : supportedTokens) : val :=
  VObj ([("isSupportAllTokens", VBool (isSupportAllTokens t)); ("exactTokenIDs", VArr (set_of (exactTokenIDs t)));
         ("patternTokenIDs", VArr (set_of (patternTokenIDs t)))]
        ++ (if isSupportAllToken t then [("isSupportAllToken", VBool true)] else [])).

Definition getTokenSummary : prog val :=
  escrowed ← requestConnector "getEscrowedAmounts" VUndef; escrowedAmounts ← escrowed @. "escrowedAmounts";
  supply ← requestConnector "getTotalSupply" VUndef; totalSupply ← supply @. "totalSupply";
  supported ← requestConnector "getSupportedTokens" VUndef; supportedTokenIDs ← supported @. "supportedTokens";
  ids ← array_method supportedTokenIDs "forEach";
  t ← lift (classifyAll (mkSupported false false [] []) ids);
  Ret (answer (VObj [("escrowedAmounts", escrowedAmounts); ("supportedTokens", supportedObject t); ("totalSupply", totalSupply)])
              (VObj [])).

Definition tokenHasUserAccount (params : val) : prog val :=
  tokenID ← params @. "tokenID";
  address ← PosQueries.addressFromName params;
  publicKey ← params @. "publicKey";
  address ← PosQueries.addressFromPublicKey address publicKey;
  isExists ← (if truthy address then
                response ← requestConnector "tokenHasUserAccount" (VObj [("address", address); ("tokenID", tokenID)]);
                response @. "exists"
              else Ret (VBool false));
  Ret (answer (VObj [("isExists", isExists)]) (VObj [])).

(** The variable starts as the empty object. *)
Definition moduleConstants : string := "token.moduleConstants".
Definition getTokenConstants : prog val :=
  cached ← call (CVarGet moduleConstants);
  _ ← match props cached with
      | [] => fees ← requestConnector "getTokenInitializationFees" VUndef;
              userAccount ← fees @. "userAccount"; escrowAccount ← fees @. "escrowAccount";
              _ ← call (CVarSet moduleConstants (VObj [("extraCommandFees",
                    VObj [("userAccountInitializationFee", userAccount); ("escrowAccountInitializationFee", escrowAccount)])]));
              Ret tt
      | _ => Ret tt
      end;
  data ← call (CVarGet moduleConstants);
  Ret (answer data (VObj [])).

(** auth/accountInfo.js and validator/validatorInfo.js: the name and the key
    of an account that is indexed. *)
Definition accountMeta (address : val) : prog val :=
  accountInfo ← Account.getIndexedAccountInfo (VObj [("address", address); ("limit", VNum 1)]) (strs ["name"; "publicKey"]);
  Ret (VObj [("address", address); ("name", or_null (field accountInfo "name"));
             ("publicKey", or_null (field accountInfo "publicKey"))]).

Definition getAuthAccountInfo (params : val) : prog val :=
  address ← params @. "address";
  response ← requestConnector "getAuthAccount" (VObj [("address", address)]);
  meta ← accountMeta address;
  Ret (answer (Parser.parseToJSONCompatObj response) meta).

Definition getValidator (params : val) : prog val :=
  address ← params @. "address";
  data ← requestConnector "getValidator" (VObj [("address", address)]);
  meta ← accountMeta address;
  Ret (answer data meta).

Definition MODULE_AUTH : string := "auth".
Definition getAuthMultiSigRegMsgSchema : prog val :=
  registeredModules ← Constants.getRegisteredModules;
  isAuthModuleRegistered ← method_includes registeredModules (VStr MODULE_AUTH);
  if isAuthModuleRegistered : bool then
    authMultiSigRegMsg ← requestConnector "getAuthMultiSigRegMsgSchema" VUndef;
    schema ← authMultiSigRegMsg @. "schema";
    Ret (VObj [("moduleCommand", VStr (MODULE_AUTH +:+ ":registerMultisignature")); ("param", VStr "signatures"); ("schema", schema)])
  else Ret VNull.

Definition validateBLSKey (params : val) : prog val :=
  blsKey ← params @. "blsKey"; proofOfPossession ← params @. "proofOfPossession";
  response ← requestConnector "validateBLSKey" (VObj [("blsKey", blsKey); ("proofOfPossession", proofOfPossession)]);
  valid ← response @. "valid";
  Ret (answer (VObj [("isValid", valid)]) (VObj [])).

Definition getLegacyAccountInfo (params : val) : prog val :=
  publicKey ← params @. "publicKey";
  response ← requestConnector "getLegacyAccount" (VObj [("publicKey", publicKey)]);
  legacyAddress ← lift (Account.getLegacyFormatAddressFromPublicKey publicKey);
  balance ← response @. "balance";
  address ← lift (Account.getLisk32AddressFromPublicKey publicKey);
  Ret (answer (VObj [("legacyAddress", VStr legacyAddress); ("balance", balance)])
              (VObj [("address", VStr address); ("publicKey", publicKey)])).

End accounts.
End AccountQueries.

(** ** business/audios.js, collections.js, profiles.js, subscriptions.js *)
Module MusicQueries.
Section music.
Context {CFG : Config}.

(** [params.search], for names. *)
Definition searchName (params : list (string * val)) : list (string * val) := renamed params "search" "search" (searchFor "name").

(** [parseInt(params.offset, 10) || 0] *)
Definition offsetOf (params : list (string * val)) : val := js_or (js_parseInt (Mysql.param params "offset")) (VNum 0).
Definition page_meta (params : list (string * val)) (count total : val) : val :=
  VObj [("count", count); ("offset", offsetOf params); ("total", total)].

Definition audioColumns : val := strs ["audioID"; "creatorAddress"; "name"; "releaseYear"; "collectionID"].

(** The audios of an owner who still has shares. *)
Definition audiosOfOwner (audiosTable ownersTable : table) (params : list (string * val)) : prog (list val) :=
  audioIDs ← Mysql.find ownersTable
    (VObj [("address", Mysql.param params "ownerAddress"); ("limit", Mysql.param params "limit")]) (strs ["audioID"; "shares"]);
  l ← array_method audioIDs "filter";
  filteredAudioIDs ← pfilter (λ audio, shares ← audio @. "shares"; Ret (js_gt shares (VNum 0))) l;
  pmap (λ audioID, id ← audioID @. "audioID";
                   audio ← Mysql.find audiosTable (VObj [("audioID", id)]) audioColumns;
                   audio @. "0") filteredAudioIDs.

(** An audio with its collection, its owners and its featured artists. *)
Definition fullAudio (collectionsTable ownersTable featsTable : table) (audio : val) : prog val :=
  collectionID ← audio @. "collectionID";
  collectionData ← Mysql.find collectionsTable (VObj [("collectionID", collectionID)])
                     (strs ["name"; "collectionType"; "releaseYear"]);
  audioID ← audio @. "audioID";
  ownersData ← Mysql.find ownersTable (VObj [("audioID", audioID)]) (strs ["address"; "shares"; "income"]);
  featData ← Mysql.find featsTable (VObj [("audioID", audioID)]) (strs ["address"; "role"]);
  len ← collectionData @. "length";
  collection ← (if truthy len then collectionData @. "0" else Ret (VObj []));
  Ret (spread audio (VObj [("collection", collection); ("owners", ownersData); ("feat", featData)])).

Definition getAudios (params : val) : prog val :=
  audiosTable ← tableOf Schemas.audios; collectionsTable ← tableOf Schemas.collections;
  ownersTable ← tableOf Schemas.owners; featsTable ← tableOf Schemas.feats;
  let ps := searchName (props (or_default params (VObj []))) in
  audioData ← (if truthy (Mysql.param ps "ownerAddress") then audiosOfOwner audiosTable ownersTable ps
               else found ← Mysql.find audiosTable (VObj (ospread (ospread [] ps) [("limit", Mysql.param ps "limit")])) audioColumns;
                    iter_list found);
  data ← pmap (fullAudio collectionsTable ownersTable featsTable) audioData;
  Ret (answer (VArr data) (page_meta ps (numOf data) (numOf audioData))).

(** The rows of a table, ten of them unless the request says otherwise. *)
Definition countAndFind (tbl : table) (ps : list (string * val)) (columns : val) : prog (val * val) :=
  total ← Mysql.count tbl (VObj ps);
  rows ← Mysql.find tbl (VObj (ospread (ospread [] ps) [("limit", js_or (Mysql.param ps "limit") (VNum 10))])) columns;
  Ret (total, rows).

Definition getCollections (params : val) : prog val :=
  collectionsTable ← tableOf Schemas.collections;
  let ps := searchName (props (or_default params (VObj []))) in
  '(total, resultSet) ← countAndFind collectionsTable ps
     (strs ["collectionID"; "creatorAddress"; "name"; "releaseYear"; "collectionType"]);
  count ← resultSet @. "length";
  Ret (answer resultSet (page_meta ps count total)).

Definition profileColumns : val :=
  strs ["profileID"; "name"; "nickName"; "description"; "creatorAddress"; "avatarHash"; "avatarSignature"; "bannerHash"; "bannerSignature"].

Definition getProfiles (params : val) : prog val :=
  profilesTable ← tableOf Schemas.profiles;
  let ps := searchName (props (or_default params (VObj []))) in
  '(total, profilesData) ← countAndFind profilesTable ps profileColumns;
  socialAccountsTable ← tableOf Schemas.socialAccounts;
  data ← bluebird_map profilesData (λ profile,
    profileID ← profile @. "profileID";
    socialData ← Mysql.find socialAccountsTable (VObj [("profileID", profileID)]) (strs ["profileID"; "username"; "platform"]);
    Ret (spread profile (VObj [("socialAccounts", socialData)])));
  Ret (answer (VArr data) (page_meta ps (numOf data) total)).

Definition subscriptionColumns : val :=
  strs ["subscriptionID"; "creatorAddress"; "price"; "consumable"; "maxMembers"; "streams"].

Definition getActiveSubscriptionsByMemberAddress (params : val) : prog val :=
  membersTable ← tableOf Schemas.members; subscriptionsTable ← tableOf Schemas.subscriptions;
  let ps := props (or_default params (VObj [])) in
  let none := answer (VObj []) (page_meta ps (VNum 0) (VNum 0)) in
  catch
    (member ← Mysql.find membersTable (VObj [("address", Mysql.param ps "memberAddress")])
                (strs ["id"; "address"; "shared"; "addedBy"; "removedBy"]);
     if truthy member then
       first ← member @. "0"; shared ← first @. "shared";
       data ← Mysql.find subscriptionsTable (VObj [("subscriptionID", shared)]) subscriptionColumns;
       Ret (if truthy data then answer data (page_meta ps (VNum 1) (VNum 1)) else none)
     else Ret none)
    (λ _, Ret none).

Definition withMembers (membersTable : table) (subscription : val) : prog val :=
  subscriptionID ← subscription @. "subscriptionID";
  membersSet ← Mysql.find membersTable (VObj [("shared", subscriptionID); ("removedBy", VNull)]) (strs ["address"]);
  l ← array_method membersSet "map";
  members ← pmap (λ member, address ← member @. "address"; Ret (VObj [("address", address)])) l;
  Ret (set_field subscription "members" (VArr members)).

Definition getSubscriptionsBySubscriptionIdOrCreatorAddress (params : val) : prog val :=
  subscriptionsTable ← tableOf Schemas.subscriptions; membersTable ← tableOf Schemas.members;
  let ps := props (or_default params (VObj [])) in
  total ← Mysql.count subscriptionsTable (VObj ps);
  subscriptionSet ← Mysql.find subscriptionsTable
    (VObj (ospread (ospread [] ps) [("limit", js_or (Mysql.param ps "limit") total)])) subscriptionColumns;
  data ← bluebird_map subscriptionSet (withMembers membersTable);
  Ret (answer (VArr data) (page_meta ps (numOf data) total)).

Definition getSubscriptions (params : val) : prog val :=
  if truthy (field (or_default params (VObj [])) "memberAddress") then getActiveSubscriptionsByMemberAddress params
  else getSubscriptionsBySubscriptionIdOrCreatorAddress params.

End music.
End MusicQueries.
