(* ===== verification/PosValidators.v ===== *)
(** * The validators the indexer answers with

    dataService/pos/validators.js: the query for validators, and the
    listeners that keep the list of validators in step with new and deleted
    blocks; utils/array.js: the comparator of a sort parameter. *)
From S2P Require Export Queries.
Open Scope string_scope.
Open Scope Z_scope.
Open Scope list_scope.

Section comparator.
Context {LO : Locale}.

(** [x.localeCompare(y)] *)
Definition locale_order (x y : val) : result comparison :=
  str_method x "localeCompare" (λ s, localeCompare s (to_string y)).

(** Numbers by their difference; when that throws, or the first value is no
    number, texts by the locale.  Both values are properties of objects. *)
Definition sortComparator (sortParam : val) : result (val → val → result comparison) :=
  parts ← js_split sortParam ":";
  let sortProp := default "undefined" (parts !! 0%nat) in
  let asc := strict_eq (nth_str parts 1) (VStr "asc") in
  Ok (λ a b,
    let x := field a sortProp in let y := field b sortProp in
    let '(p, q) := if asc : bool then (x, y) else (y, x) in
    match (if is_nan (to_number x) then Err (js_error "Not a number, try string sorting.") else js_sub p q) with
    | Ok d => Ok (Pending.sign_of (to_number d))
    | Err _ => locale_order p q
    end).
End comparator.

Module PosValidators.
Section validators.
Context {CFG : Config} {LC : LiskCrypto} {LT : LiskTransactions} {LO : Locale}.
Import Validators.

(** ** getPosValidators *)

(** The addresses, names and statuses asked for, and the text of the search. *)
Record filters := mkFilters { f_address : list string; f_name : list string; f_status : list string; f_search : val }.

Definition commas (v : val) : result (list string) := if truthy v then js_split v "," else Ok [].
Definition listed (l : list string) (v : val) : bool :=
  match l with [] => true | _ => existsb (λ s, strict_eq (VStr s) v) l end.

(** [validator.name.toLowerCase().includes(params.search.toLowerCase())] *)
Definition nameMatches (search validator : val) : result bool :=
  if truthy search then
    name ← prop validator "name"; name ← str_method name "toLowerCase" ApiUtils.lower;
    pattern ← str_method search "toLowerCase" ApiUtils.lower;
    Ok (str_includes pattern name)
  else Ok true.

Definition selected (f : filters) (validator : val) : result bool :=
  address ← prop validator "address"; name ← prop validator "name"; status ← prop validator "status";
  if negb (listed (f_address f) address) || negb (listed (f_name f) name) || negb (listed (f_status f) status)
  then Ok false else nameMatches (f_search f) validator.

(** A validator with its key and what it has earned. *)
Definition withRewards (validatorsTable : table) (validator : val) : prog val :=
  address ← validator @. "address";
  rows ← Mysql.find validatorsTable (VObj [("address", address)])
           (strs ["generatedBlocks"; "totalCommission"; "totalSelfStakeRewards"]);
  info ← first_of rows;
  let info := or_default info (VObj []) in
  generatedBlocks ← info @. "generatedBlocks"; commission ← info @. "totalCommission";
  rewards ← info @. "totalSelfStakeRewards";
  let totalCommission := or_default commission (VBig 0) in
  let totalSelfStakeRewards := or_default rewards (VBig 0) in
  account ← Account.getIndexedAccountInfo (VObj [("address", address)]) (strs ["publicKey"]);
  publicKey ← account @. "publicKey";
  earnedRewards ← lift (js_add totalCommission totalSelfStakeRewards);
  Ret (spread validator (VObj [("publicKey", or_default publicKey VNull);
    ("generatedBlocks", or_default generatedBlocks (VNum 0)); ("totalCommission", totalCommission);
    ("totalSelfStakeRewards", totalSelfStakeRewards); ("earnedRewards", earnedRewards)])).

(** The address, when the key and the address of the request do not stop it. *)
Definition addressOfKey (params : val) : prog (option val) :=
  publicKey ← params @. "publicKey"; address ← params @. "address";
  if truthy publicKey then
    own ← lift (Account.getLisk32AddressFromPublicKey publicKey);
    same ← (if truthy address then addresses ← lift (js_split address ","); Ret (bool_decide (own ∈ addresses)) else Ret false);
    if same : bool then Ret None
    else _ ← PosQueries.updatePublicKeyAsync publicKey; Ret (Some (VStr own))
  else Ret (Some address).

Definition filtersOf (params address : val) : result filters :=
  addresses ← commas address; names ← commas (field params "name"); statuses ← commas (field params "status");
  Ok (mkFilters addresses names statuses (field params "search")).

(** The order and the page of the validators found. *)
Definition validatorsPage (params : val) (data : list val) : prog val :=
  cmp ← lift (sortComparator (field params "sort"));
  sorted ← lift (js_sort cmp data);
  page ← slice_page (field params "offset") (field params "limit") sorted;
  Ret (answer (VArr page) (VObj [("total", numOf data); ("count", numOf page); ("offset", field params "offset")])).

(** The ranks that are computed last are those of the list in memory, not of
    the copies that are returned. *)
Definition getPosValidators (params : val) : prog val :=
  found ← addressOfKey params;
  match found with
  | None => Ret (answer (VArr []) (VObj []))
  | Some address =>
      f ← lift (filtersOf params address);
      validatorsTable ← tableOf Schemas.validators;
      allValidators ← getAllValidators;
      filteredValidators ← pfilter (λ v, lift (selected f v)) allValidators;
      data ← pmap (withRewards validatorsTable) filteredValidators;
      _ ← (if forallb (λ v, negb (truthy (field v "rank"))) data then computeValidatorRank else Ret tt);
      page ← validatorsPage params data;
      Ret (Parser.parseToJSONCompatObj page)
  end.

(** ** The listeners for new and deleted blocks *)

Definition REGISTER_VALIDATOR : string := "registerValidator".
Definition STAKE : string := "stake".

(** The validators a transaction concerns. *)
Definition affected (tx : val) : prog (list val) :=
  module ← tx @. "module";
  if strict_eq module (VStr Constants.MODULE_POS) then
    command ← tx @. "command";
    if strict_eq command (VStr REGISTER_VALIDATOR) then
      publicKey ← tx @. "senderPublicKey"; a ← lift (Account.getLisk32AddressFromPublicKey publicKey); Ret [VStr a]
    else if strict_eq command (VStr STAKE) then
      params ← tx @. "params"; stakes ← params @. "stakes"; l ← array_method stakes "forEach";
      pmap (λ stake, stake @. "validatorAddress") l
    else Ret []
  else Ret [].

Definition indexOfAddress (l : list val) (address : val) : option nat :=
  find_index (λ acc, strict_eq (field acc "address") address) l.

(** The list after one of the validators has been asked for again. *)
Definition updateList (deleted : bool) (l : list val) (validator : val) : list val :=
  match indexOfAddress l (field validator "address") with
  | Some i =>
      if deleted then take i l ++ drop (S i) l
      else <[i := VObj (oset (ospread [] (props validator)) "status" (field (nth_val l i) "status"))]> l
  | None => l ++ [validator]
  end.

Definition updateStep (deleted : bool) (validator : val) : prog unit :=
  l ← getValidatorList; _ ← validator @. "address"; setValidatorList (updateList deleted l validator).

(** The generator of the block: one block and its reward more, or less.  The
    number of blocks is set before the reward is read. *)
Definition countBlock (deleted : bool) (block : val) : prog unit :=
  generatorAddress ← block @. "generatorAddress";
  l ← getValidatorList;
  match indexOfAddress l generatorAddress with
  | None => Ret tt
  | Some i =>
      let validator := nth_val l i in
      if truthy (field validator "generatedBlocks") && truthy (field validator "rewards") then
        n ← lift (if deleted then js_sub (field validator "generatedBlocks") (VNum 1)
                  else js_add (field validator "generatedBlocks") (VNum 1));
        let validator := set_field validator "generatedBlocks" n in
        _ ← setValidatorList (<[i := validator]> l);
        rewards ← lift (to_bigint (field validator "rewards"));
        reward ← block @. "reward"; r ← lift (to_bigint reward);
        setValidatorList (<[i := set_field validator "rewards" (VStr (pretty (if deleted then rewards - r else rewards + r)))]> l)
      else Ret tt
  end.

Definition updateValidatorCacheListener (deleted : bool) (data : val) : prog unit :=
  blocks ← data @. "data"; block ← first_of blocks;
  catch
    (match field block "transactions" with
     | VArr txs =>
         addresses ← pmap affected txs;
         let updatedValidatorAddresses := concat addresses in
         _ ← (match updatedValidatorAddresses with
              | [] => Ret tt
              | _ => updated ← PosBusiness.getPosValidators (VObj [("addresses", VArr updatedValidatorAddresses)]);
                     l ← array_method updated "forEach";
                     _ ← piter (updateStep deleted) l;
                     computeValidatorRank
              end);
         countBlock deleted block
     | _ => Ret tt
     end)
    (λ _, Ret tt).

Definition updateValidatorCacheOnNewBlockListener (block : val) : prog unit := detach (updateValidatorCacheListener false block).
Definition updateValidatorCacheOnDeleteBlockListener (block : val) : prog unit := detach (updateValidatorCacheListener true block).

(** ** The listener for changed accounts

    [business] has no [getValidators]: for an address in the list the call
    throws in a callback whose promise nothing waits for. *)
Definition updateValidatorListOnAccountsUpdateListener (addresses : val) : prog unit :=
  l ← array_method addresses "forEach";
  piter (λ address, detach (
    list ← getValidatorList;
    match indexOfAddress list address with
    | None => Ret tt
    | Some _ => Throw (not_a_function "business.getValidators")
    end)) l.

End validators.
End PosValidators.
