(* ===== verification/Network.v ===== *)
(** * Queries on the network, and the methods the indexer offers

    Module [NetworkQueries] is business/network.js and chain.js,
    [SchemaQueries] is schemas.js, [Interoperability] is
    interoperability/*.js, [PostQueries] is postTransactions.js and
    transactionsDryRun.js, [IndexStatusService] is dataService/indexStatus.js;
    [Controllers] is methods/dataService/controllers/*.js. *)
From S2P Require Export HttpClient Queries PosValidators.
Open Scope string_scope.
Open Scope Z_scope.
Open Scope list_scope.
Import Request.

(** [array.sort(f)] with a comparator that answers [true] or [false]: it is
    not consistent, so the order is the engine's. *)
Class EngineSort := { engine_sort : (val → val → bool) → list val → list val }.

(** [s.padEnd(n, '0')] *)
Definition pad_zeros (n : nat) (s : string) : string := s +:+ repeat_char "0" (n - String.length s).

(** ** business/network.js *)
Module NetworkQueries.

Definition getNetworkStatus : prog val :=
  status ← requestConnector "getNetworkStatus" VUndef;
  moduleCommands ← Constants.getAvailableModuleCommands;
  registeredModules ← Constants.getRegisteredModules;
  chainID ← status @. "chainID";
  let status := set_field (set_field (set_field status "moduleCommands" moduleCommands)
                             "registeredModules" registeredModules)
                  "constants" (VObj [("chainID", chainID)]) in
  now ← call CNow;
  Ret (answer status (VObj [("lastUpdate", num_floor (js_div now (VNum 1000)));
                            ("lastBlockHeight", field status "height"); ("lastBlockID", field status "lastBlockID")])).

Definition filterParams : list string :=
  ["ip"; "httpPort"; "wsPort"; "os"; "version"; "networkVersion"; "height"; "broadhash"].

Definition activeFilters (params : val) : list string :=
  List.filter (λ k, truthy (field params k)) filterParams.

Definition matches (params : val) (filters : list string) (peer : val) : prog bool :=
  vs ← pmap (λ k, v ← peer @. k; Ret (strict_eq (field params k) v)) filters;
  Ret (forallb id vs).

(** /^.+:(asc|desc)$/ *)
Definition is_sort (v : val) : bool :=
  let s := to_string v in
  negb (char_in "010" s) && negb (char_in "013" s) &&
  ((ends_with ":asc" s && (4 <? String.length s)%nat) || (ends_with ":desc" s && (5 <? String.length s)%nat)).

Section peers.
Context {ES : EngineSort}.

Definition sortBy (array : list val) (p : val) : result (list val) :=
  parts ← js_split p ":";
  let property := default "undefined" (parts !! 0%nat) in
  let direction := nth_str parts 1 in
  let array := if bool_decide (property = "version") then engine_sort (λ a b, js_gt (field a property) (field b property)) array else array in
  let array := if bool_decide (property = "height")
               then engine_sort (λ a b, js_lt (to_number (field a property)) (to_number (field b property))) array else array in
  Ok (if strict_eq direction (VStr "asc") then rev array else array).

(** The requested peers; the filters and the order; the page. *)
Definition peersOfState (state : val) : prog val :=
  state ← (if truthy state then s ← method_toString state; Ret (VStr (ApiUtils.lower s)) else Ret VUndef);
  requestConnector (if strict_eq state (VStr "connected") then "getNetworkConnectedPeers"
                    else if strict_eq state (VStr "disconnected") then "getNetworkDisconnectedPeers"
                    else "getNetworkPeers") VUndef.

Definition getNetworkPeers (params : val) : prog val :=
  state ← params @. "state";
  peers ← peersOfState state;
  l ← array_method peers "filter";
  filteredPeers ← pfilter (matches params (activeFilters params)) l;
  let sort := field params "sort" in
  sorted ← lift (if truthy sort && is_sort sort then sortBy filteredPeers sort else Ok filteredPeers);
  let offset := field params "offset" in
  let limit := field params "limit" in
  let paged := truthy offset || truthy limit in
  let offset := if paged && negb (truthy offset) then VNum 0 else offset in
  sortedPeers ← (if paged then
                   e ← lift (js_add (js_or limit (numOf sorted)) offset); Ret (slice (int_arg offset) (int_arg e) sorted)
                 else Ret sorted);
  Ret (answer (VArr sortedPeers) (VObj [("count", numOf sortedPeers); ("offset", offset); ("total", numOf l)])).

Definition getNetworkConnectedPeers (params : val) : prog val := getNetworkPeers (set_field params "state" (VStr "connected")).
Definition getNetworkDisconnectedPeers (params : val) : prog val := getNetworkPeers (set_field params "state" (VStr "disconnected")).
End peers.

Definition getNetworkPeersStatistics : prog val :=
  response ← requestConnector "getNetworkPeersStatistics" VUndef; Ret (answer response (VObj [])).

(** chain.js *)
Definition chainID : string := "chain.chainID".
Definition isMainchain : prog bool :=
  id ← call (CVarGet chainID);
  id ← (if truthy id then Ret id
        else status ← getNetworkStatus; networkStatus ← status @. "data"; id ← networkStatus @. "chainID";
             _ ← call (CVarSet chainID id); Ret id);
  Ret (Patterns.MAINCHAIN_ID id).

End NetworkQueries.

(** ** business/schemas.js *)
Module SchemaQueries.

Definition allSchemas : string := "schemas.allSchemas".

Definition bytes_field (min max : val) (n : Z) : val :=
  VObj [("dataType", VStr "bytes"); ("minLength", min); ("maxLength", max); ("fieldNumber", VNum n)].
Definition string_field (n : Z) : val :=
  VObj [("dataType", VStr "string"); ("minLength", VNum 1); ("maxLength", VNum 32); ("fieldNumber", VNum n)].
Definition plain_field (dataType : string) (n : Z) : val := VObj [("dataType", VStr dataType); ("fieldNumber", VNum n)].

Definition ccmSchema : val :=
  VObj [("$id", VStr "/modules/interoperability/ccm"); ("type", VStr "object");
        ("required", strs ["module"; "crossChainCommand"; "nonce"; "fee"; "sendingChainID"; "receivingChainID"; "params"; "status"]);
        ("properties", VObj [("module", string_field 1); ("crossChainCommand", string_field 2);
          ("nonce", plain_field "uint64" 3); ("fee", plain_field "uint64" 4);
          ("sendingChainID", bytes_field (VNum 4) (VNum 4) 5); ("receivingChainID", bytes_field (VNum 4) (VNum 4) 6);
          ("params", plain_field "bytes" 7); ("status", plain_field "uint32" 8)])].

Record nodeSchemas := mkNodeSchemas { ns_schemas : val; ns_systemMetadata : val; ns_messageSchemas : list val }.

Definition getSchemasFromNode : prog nodeSchemas :=
  systemMetadata ← requestConnector "getSystemMetadata" VUndef;
  schemas ← requestConnector "getSchema" VUndef;
  authMultiSigRegMsgSchema ← AccountQueries.getAuthMultiSigRegMsgSchema;
  Ret (mkNodeSchemas schemas systemMetadata (if truthy authMultiSigRegMsgSchema then [authMultiSigRegMsgSchema] else [])).

(** The entries a module has under [k], each by [f]. *)
Definition entriesOf (k : string) (f : val → val → prog val) (module : val) : prog (list val) :=
  v ← module @. k; l ← array_method v "forEach"; pmap (f module) l.

Definition eventEntry (module event : val) : prog val :=
  name ← event @. "name"; schema ← event @. "data";
  Ret (VObj [("module", field module "name"); ("name", name); ("schema", schema)]).
Definition assetEntry (module asset : val) : prog val :=
  version ← asset @. "version"; schema ← asset @. "data";
  Ret (VObj [("module", field module "name"); ("version", version); ("schema", schema)]).
Definition commandEntry (module command : val) : prog val :=
  name ← command @. "name"; schema ← command @. "params";
  Ret (VObj [("moduleCommand", VStr (to_string (field module "name") +:+ ":" +:+ to_string name)); ("schema", schema)]).

(** The schemas of the events, the assets and the commands of each module. *)
Definition moduleEntries (module : val) : prog (list val * list val * list val) :=
  events ← entriesOf "events" eventEntry module;
  assets ← entriesOf "assets" assetEntry module;
  commands ← entriesOf "commands" commandEntry module;
  Ret (events, assets, commands).

(** [Object.entries(v)] of a value that is an object. *)
Definition entries (v : val) : result (list (string * val)) :=
  match v with
  | VUndef | VNull => Err (type_error "Cannot convert undefined or null to object")
  | VArr l => Ok (imap (λ i x, (pretty (Z.of_nat i), x)) l)
  | v => Ok (props v)
  end.

(** The variable holds the object while it is filled. *)
Definition loadSchemas : prog unit :=
  _ ← call (CVarSet allSchemas (VObj []));
  node ← getSchemasFromNode;
  modules ← ns_systemMetadata node @. "modules"; ms ← array_method modules "forEach";
  es ← pmap moduleEntries ms;
  let lists := [("assets", VArr (concat (map (λ e, e.1.2) es))); ("commands", VArr (concat (map snd es)));
                ("events", VArr (concat (map (λ e, e.1.1) es)))] in
  _ ← call (CVarSet allSchemas (VObj lists));
  generic ← lift (entries (ns_schemas node));
  _ ← call (CVarSet allSchemas (VObj (oset (oset
         (fold_left (λ o kv, oset o kv.1 (VObj [("schema", kv.2)])) generic lists)
         "messages" (VArr (ns_messageSchemas node))) "ccm" (VObj [("schema", ccmSchema)]))));
  Ret tt.

Definition getAllSchemas : prog val :=
  cached ← call (CVarGet allSchemas);
  _ ← (if truthy cached then Ret tt else loadSchemas);
  call (CVarGet allSchemas).

Definition getSchemas : prog val :=
  response ← getAllSchemas; Ret (answer (if truthy response then response else VObj []) (VObj [])).

End SchemaQueries.

(** ** business/interoperability *)
Module Interoperability.
Section interop.
Context {CFG : Config}.

Definition ACTIVE : string := "active".
Definition REGISTERED : string := "registered".
Definition TERMINATED : string := "terminated".

(** [params.whereIn.push({ property, values: v.split(',') })] for a parameter. *)
Definition whereInOf (params : list (string * val)) (k : string) : result (list (string * val)) :=
  let v := Mysql.param params k in
  if truthy v then
    values ← js_split v ",";
    Ok (oset (odel params k) "whereIn"
          (VArr (arr_of (Mysql.param params "whereIn") ++ [VObj [("property", VStr k); ("values", strs values)]])))
  else Ok params.

Definition blockchainAppsParams (params : val) : result (list (string * val)) :=
  ps ← whereInOf (oset (props params) "whereIn" (VArr [])) "chainID";
  whereInOf (renamed ps "search" "search" (searchFor "name")) "status".

(** The amounts in escrow for the chain, or none of the network's token. *)
Definition escrowOf (chainID : val) (escrowedAmounts app : val) : prog val :=
  l ← array_method escrowedAmounts "filter";
  id ← app @. "chainID";
  escrow ← pfilter (λ e, c ← e @. "escrowChainID"; Ret (strict_eq c id)) l;
  escrow ← match escrow with
           | [] => network ← lift (str_method chainID "substring" (str_take (Z.to_nat Constants.LENGTH_NETWORK_ID)));
                   Ret [VObj [("tokenID", VStr (pad_zeros (Z.to_nat Constants.LENGTH_TOKEN_ID) network)); ("amount", VStr "0")]]
           | _ => Ret escrow
           end;
  Ret (spread app (VObj [("escrow", VArr escrow)])).

Definition getBlockchainApps (params : val) : prog val :=
  blockchainAppsTable ← tableOf Schemas.blockchainApps;
  ps ← lift (blockchainAppsParams params);
  total ← Mysql.count blockchainAppsTable (VObj ps);
  dbBlockchainApps ← Mysql.find blockchainAppsTable
    (VObj (ospread (ospread [] ps) [("limit", js_or (Mysql.param ps "limit") total)]))
    (strs (map fst (schema Schemas.blockchainApps)));
  status ← NetworkQueries.getNetworkStatus; networkStatus ← status @. "data"; chainID ← networkStatus @. "chainID";
  response ← requestConnector "getEscrowedAmounts" VUndef; escrowedAmounts ← response @. "escrowedAmounts";
  data ← bluebird_map dbBlockchainApps (escrowOf chainID escrowedAmounts);
  Ret (answer (VArr data) (VObj [("count", numOf data); ("offset", Mysql.param ps "offset"); ("total", total)])).

(** The variable starts as the empty object. *)
Definition blockchainAppsStatsCache : string := "interoperability.blockchainAppsStatsCache".
Definition getBlockchainAppsStatistics : prog val :=
  data ← call (CVarGet blockchainAppsStatsCache); Ret (answer (or_default data (VObj [])) (VObj [])).

Definition reloadBlockchainAppsStats : prog unit :=
  catch
    (blockchainAppsTable ← tableOf Schemas.blockchainApps;
     numActiveChains ← Mysql.count blockchainAppsTable (VObj [("status", VStr ACTIVE)]);
     numRegisteredChains ← Mysql.count blockchainAppsTable (VObj [("status", VStr REGISTERED)]);
     numTerminatedChains ← Mysql.count blockchainAppsTable (VObj [("status", VStr TERMINATED)]);
     response ← requestConnector "getTotalSupply" VUndef; supplies ← response @. "totalSupply";
     supply ← first_of supplies; totalSupply ← supply @. "totalSupply";
     status ← NetworkQueries.getNetworkStatus; data ← status @. "data"; height ← data @. "height";
     inflation ← PosQueries.getAnnualInflation (VObj [("height", height)]); data ← inflation @. "data";
     annualInflation ← data @. "rate";
     staked ← Totals.getTotalStaked; totalStaked ← staked @. "amount";
     _ ← call (CVarSet blockchainAppsStatsCache
       (VObj [("registered", numRegisteredChains); ("active", numActiveChains); ("terminated", numTerminatedChains);
              ("totalSupplyLSK", totalSupply); ("totalStakedLSK", totalStaked); ("currentAnnualInflationRate", annualInflation)]));
     Ret tt)
    (λ _, Ret tt).

Definition getChainAccount (params : val) : prog val :=
  chainID ← params @. "chainID"; requestConnector "getChainAccount" (VObj [("chainID", chainID)]).
Definition getMainchainID : prog val := requestConnector "getMainchainID" VUndef.

End interop.
End Interoperability.

(** ** business/postTransactions.js and transactionsDryRun.js, dataService/transactions.js *)
Module PostQueries.

Definition postTransaction (params : val) : prog val :=
  transaction ← params @. "transaction"; requestConnector "postTransaction" (VObj [("transaction", transaction)]).

Definition postTransactions (params : val) : prog val :=
  catch
    (response ← postTransaction params; id ← response @. "transactionId";
     Ret (VObj [("message", VStr "Transaction payload was successfully passed to the network node"); ("transactionID", id)]))
    (λ err, Ret (
       if str_includes "ECONNREFUSED" (exn_msg err)
       then VObj [("data", VObj [("error", VStr "Unable to reach a network node")]); ("status", VStr "INTERNAL_SERVER_ERROR")]
       else VObj [("data", VObj [("error", VStr ("Transaction payload was rejected by the network node: " +:+ exn_msg err))]);
                  ("status", VStr "BAD_REQUEST")])).

Definition TRANSACTION_VERIFY_RESULT : list (string * val) := [("INVALID", VNum (-1)); ("PENDING", VNum 0); ("OK", VNum 1)].

Definition verifyStatus (result_ : val) : result string :=
  match find_js (λ e, strict_eq e.2 result_) TRANSACTION_VERIFY_RESULT with
  | Some e => Ok (ApiUtils.lower e.1)
  | None => s ← prop VUndef "toLowerCase"; Ok (to_string s)
  end.

Definition dryRunTransactions (params : val) : prog val :=
  transaction ← params @. "transaction"; skipVerify ← params @. "skipVerify"; skipDecode ← params @. "skipDecode";
  response ← requestConnector "dryRunTransaction"
    (VObj [("transaction", transaction); ("skipVerify", skipVerify); ("skipDecode", skipDecode)]);
  result_ ← response @. "result";
  status ← lift (verifyStatus result_);
  Ret (answer (spread response (VObj [("status", VStr status)])) (VObj [])).

End PostQueries.

(** ** dataService/indexStatus.js *)
Module IndexStatusService.

Definition indexStatsCache : string := "indexStatus.indexStatsCache".
Definition isIndexingInProgress : string := "indexStatus.isIndexingInProgress".
Definition lastUpdate : string := "indexStatus.lastUpdate".

Definition getCurrentTimestamp : prog val := now ← call CNow; Ret (num_floor (js_div now (VNum 1000))).

Definition indexStatUpdateListener (_indexStats : val) : prog unit :=
  _ ← call (CVarSet indexStatsCache _indexStats); t ← getCurrentTimestamp; _ ← call (CVarSet lastUpdate t); Ret tt.

Definition indexingProgressListener (numJobsInProgress : val) : prog unit :=
  _ ← call (CVarSet isIndexingInProgress (VBool (js_gt numJobsInProgress (VNum 0))));
  t ← getCurrentTimestamp; _ ← call (CVarSet lastUpdate t); Ret tt.

(** The variables start as the empty object and as [false]. *)
Definition getIndexStatus : prog val :=
  cached ← call (CVarGet indexStatsCache);
  let stats := or_default cached (VObj []) in
  currentChainHeight ← stats @. "currentChainHeight"; genesisHeight ← stats @. "genesisHeight";
  numBlocksIndexed ← stats @. "numBlocksIndexed"; last ← stats @. "lastIndexedBlock";
  chainLength ← stats @. "chainLength"; percentage ← stats @. "percentage";
  height ← or_default last (VObj []) @. "height";
  inProgress ← call (CVarGet isIndexingInProgress); updated ← call (CVarGet lastUpdate);
  Ret (answer (VObj [("genesisHeight", genesisHeight); ("lastBlockHeight", currentChainHeight);
                     ("lastIndexedBlockHeight", height); ("chainLength", chainLength);
                     ("numBlocksIndexed", numBlocksIndexed); ("percentageIndexed", to_number percentage);
                     ("isIndexingInProgress", or_default inProgress (VBool false))])
              (VObj [("lastUpdate", updated)])).

End IndexStatusService.

(** ** accountUtils.js *)
Module AccountUtils.
Section account_utils.
Context {CFG : Config}.

Definition parseAddress (address : val) : val := match address with VStr s => VStr (upper s) | _ => VStr "" end.
Definition validateLisk32Address (address : val) : bool := match address with VStr s => Patterns.ADDRESS_LISK32 s | _ => false end.

Definition getCachedAccountBy (key : string) (value : val) : prog val :=
  accountsTable ← tableOf Schemas.accounts;
  rows ← Mysql.find accountsTable (VObj [(key, value); ("limit", VNum 1)]) (strs ["address"; "name"; "publicKey"]);
  result_ ← first_of rows;
  if negb (truthy result_) then Ret VNull
  else address ← result_ @. "address"; name ← result_ @. "name"; publicKey ← result_ @. "publicKey";
       Ret (VObj [("address", address); ("name", name); ("publicKey", publicKey)]).

Definition confirmAddress (address : val) : prog val :=
  if negb (validateLisk32Address address) then Ret (VBool false)
  else account ← getCachedAccountBy "address" (parseAddress address);
       if truthy account then account @. "address" else Ret account.

End account_utils.
End AccountUtils.

(** ** methods/dataService/controllers *)
Module Controllers.

(** [{ data: d, meta: {} }], filled from the response. *)
Definition envelope (d response : val) : prog val :=
  data ← response @. "data"; meta ← response @. "meta";
  Ret (answer (js_or data d) (js_or meta (VObj []))).

Definition BAD_REQUEST : val := VNum 400.
Definition NOT_FOUND : val := VNum 404.
Definition INVALID_PARAMS : val := VStr "INVALID_PARAMS".

Definition failure (status : val) (err : exn) : val := VObj [("status", status); ("data", VObj [("error", VStr (exn_msg err))])].

(** [catch (err)]: the classes of error that are answered; the last one of
    the list that applies counts. *)
Definition refused (classes : list (string * val)) (err : exn) : prog val :=
  match find_js (λ c, bool_decide (exn_name err = c.1)) (rev classes) with
  | Some c => Ret (failure c.2 err)
  | None => Throw err
  end.

Definition invalid_or_bad : list (string * val) :=
  [("InvalidParamsException", INVALID_PARAMS); ("ValidationException", BAD_REQUEST)].
Definition invalid : list (string * val) := [("InvalidParamsException", INVALID_PARAMS)].

(** A controller that fills an envelope, and one that answers errors. *)
Definition plain (d : val) (service : prog val) : prog val := response ← service; envelope d response.
Definition guarded (classes : list (string * val)) (d : val) (service : prog val) : prog val :=
  catch (plain d service) (refused classes).

Definition arr : val := VArr [].
Definition object : val := VObj [].

Section controllers.
Context {CFG : Config} {LC : LiskCrypto} {LT : LiskTransactions} {LO : Locale} {ES : EngineSort}.

(** pos.js *)
Definition getPosValidators (params : val) : prog val := guarded invalid_or_bad arr (PosValidators.getPosValidators params).
Definition getPosConstants : prog val := plain object PosConstants.getPosConstants.
Definition getPosUnlocks (params : val) : prog val := plain object (PosQueries.getPosUnlocks params).
Definition getStakes (params : val) : prog val := plain object (PosQueries.getStakes params).
Definition getStakers (params : val) : prog val := plain object (PosQueries.getStakers params).
Definition getPosClaimableRewards (params : val) : prog val := plain arr (PosQueries.getPosClaimableRewards params).
Definition getPosLockedRewards (params : val) : prog val := guarded invalid arr (PosQueries.getPosLockedRewards params).

(** token.js, auth.js, legacy.js, validator.js, dynamicReward.js *)
Definition getTokenBalances (params : val) : prog val := guarded invalid arr (AccountQueries.getTokenBalances params).
Definition getTokenSummary : prog val := plain object AccountQueries.getTokenSummary.
Definition tokenHasUserAccount (params : val) : prog val := plain object (AccountQueries.tokenHasUserAccount params).
Definition getTokenConstants : prog val := plain object AccountQueries.getTokenConstants.
Definition getAuthAccountInfo (params : val) : prog val := plain object (AccountQueries.getAuthAccountInfo params).
Definition getLegacyAccountInfo (params : val) : prog val := plain object (AccountQueries.getLegacyAccountInfo params).
Definition getValidator (params : val) : prog val := plain object (AccountQueries.getValidator params).
Definition validateBLSKey (params : val) : prog val := plain object (AccountQueries.validateBLSKey params).
Definition getDefaultRewardAtHeight (params : val) : prog val := plain object (PosQueries.getDefaultRewardAtHeight params).
Definition getAnnualInflation (params : val) : prog val := plain object (PosQueries.getAnnualInflation params).
Definition getRewardConstants : prog val := plain object PosQueries.getRewardConstants.

(** audios.js, collections.js, profiles.js, subscriptions.js *)
Definition getAudios (params : val) : prog val := guarded invalid_or_bad arr (MusicQueries.getAudios params).
Definition getCollections (params : val) : prog val := guarded invalid_or_bad arr (MusicQueries.getCollections params).
Definition getProfiles (params : val) : prog val := guarded invalid_or_bad arr (MusicQueries.getProfiles params).
Definition getSubscriptions (params : val) : prog val := guarded invalid_or_bad arr (MusicQueries.getSubscriptions params).

(** generators.js *)
Definition getGenerators (params : val) : prog val := plain object (GeneratorsService.getGenerators params).

(** network.js *)
Definition getNetworkStatus : prog val := plain object NetworkQueries.getNetworkStatus.
Definition getNetworkPeers (params : val) : prog val := plain arr (NetworkQueries.getNetworkPeers params).
Definition getNetworkConnectedPeers (params : val) : prog val := plain arr (NetworkQueries.getNetworkConnectedPeers params).
Definition getNetworkDisconnectedPeers (params : val) : prog val := plain arr (NetworkQueries.getNetworkDisconnectedPeers params).
Definition getNetworkPeersStatistics : prog val := plain object NetworkQueries.getNetworkPeersStatistics.

Definition getNetworkStatistics : prog val :=
  stats ← plain object NetworkQueries.getNetworkPeersStatistics;
  data ← stats @. "data"; meta ← stats @. "meta";
  totalLocked ← Totals.getTotalLocked; totalStaked ← Totals.getTotalStaked; totalSelfStaked ← Totals.getTotalSelfStaked;
  Ret (answer (set_field (set_field (set_field data "totalLocked" totalLocked) "totalStaked" totalStaked)
                         "totalSelfStaked" totalSelfStaked) meta).

(** indexStatus.js *)
Definition getIndexStatus : prog val := plain object IndexStatusService.getIndexStatus.

(** blocks.js and events.js *)
Definition links (service : prog val) : prog val :=
  catch (response ← service; data ← response @. "data"; meta ← response @. "meta";
         Ret (VObj [("data", data); ("meta", meta); ("links", VObj [])]))
        (refused [("ValidationException", BAD_REQUEST)]).
Definition getBlocks (params : val) : prog val := links (BlocksService.getBlocks params).
Definition getBlocksAssets (params : val) : prog val := links (BlocksService.getBlocksAssets params).
Definition getEvents (params : val) : prog val :=
  guarded [("NotFoundException", NOT_FOUND)] object (EventsBusiness.getEvents params).

(** transactions.js: each address of the request is looked up first. *)
Definition isAddressParam (params : val) (k : string) : bool := match field params k with VStr _ => true | _ => false end.
Definition addressParams : list string := ["senderAddress"; "recipientAddress"; "address"].

Definition getTransactions (params : val) : prog val :=
  catch
    (addressLookupResult ← pmap (λ k, AccountUtils.confirmAddress (field params k))
                             (List.filter (isAddressParam params) addressParams);
     if val_includes addressLookupResult (VBool false)
     then Ret (VObj [("status", NOT_FOUND); ("data", VObj [("error", VStr "Not found.")])])
     else
       result_ ← TransactionsService.getTransactions (spread (VObj [("sort", VStr "timestamp:desc")]) params);
       data ← result_ @. "data"; count ← data @. "length"; meta ← result_ @. "meta";
       offset ← meta @. "offset"; total ← meta @. "total"; metaCount ← meta @. "count";
       Ret (VObj [("data", data);
                  ("meta", VObj [("count", count); ("offset", js_or offset (VNum 0)); ("total", js_or total metaCount)]);
                  ("link", VObj [])]))
    (refused invalid_or_bad).

Definition getPendingTransactions (params : val) : prog val :=
  result_ ← Pending.getPendingTransactions params; '(data, meta) ← TransactionsService.dataAndMeta result_; Ret (answer data meta).

Definition postTransactions (params : val) : prog val := PostQueries.postTransactions params.
Definition dryRunTransactions (params : val) : prog val := PostQueries.dryRunTransactions params.
Definition getSchemas : prog val := SchemaQueries.getSchemas.

(** blockchainApps.js: the main chain answers itself, the others ask it. *)
Context {AE : AxiosErrors} (encodeURI : string → string) (mainchainServiceUrl devnetServiceURL : val).

Definition networks_LISK : list (string * val) :=
  [("00000000", VStr "https://service.lisk.com"); ("01000000", VStr "https://testnet-service.lisk.com");
   ("02000000", VStr "https://betanet-service.lisk.com"); ("03000000", VStr "https://alphanet-service.liskdev.net");
   ("04000000", devnetServiceURL)].

Definition resolveMainchainServiceURL : prog val :=
  if truthy mainchainServiceUrl then Ret mainchainServiceUrl
  else
    netStatus ← NetworkQueries.getNetworkStatus; data ← netStatus @. "data"; chainID ← data @. "chainID";
    networkID ← lift (str_method chainID "substring" (str_take 2));
    let mainchainID := pad_zeros (Z.to_nat Constants.LENGTH_CHAIN_ID) networkID in
    Ret (match find_js (λ n, bool_decide (n.1 = mainchainID)) networks_LISK with Some n => n.2 | None => VUndef end).

Definition getBlockchainApps (params : val) : prog val :=
  mainchain ← NetworkQueries.isMainchain;
  if mainchain : bool then Interoperability.getBlockchainApps params
  else serviceURL ← resolveMainchainServiceURL;
       response ← HttpClient.request encodeURI (tpl serviceURL +:+ "/api/v3/blockchain/apps") params;
       response @. "data".

(** The whole reply of the other service, its data one level deeper. *)
Definition getBlockchainAppsStatistics : prog val :=
  mainchain ← NetworkQueries.isMainchain;
  if mainchain : bool then Interoperability.getBlockchainAppsStatistics
  else serviceURL ← resolveMainchainServiceURL;
       HttpClient.request encodeURI (tpl serviceURL +:+ "/api/v3/blockchain/apps/statistics") (VObj [("method", VStr "get")]).

End controllers.
End Controllers.
