(* ===== verification/QueryThms.v ===== *)
(** * What the queries of the indexer answer

    The page of validators and the listeners that keep their list; the
    summary of tokens; the list of peers; the schemas of the node. *)
From S2P Require Export ExportThms ValidatorThms Network.
Open Scope string_scope.
Open Scope Z_scope.
Open Scope list_scope.

(** ** Programs that map and filter *)

Lemma exec_pmap {A B} (f : A → prog B) (R : A → B → Prop) l tr l' :
  exec (pmap f l) tr (Ok l') → (∀ x y t, x ∈ l → t ⊆ tr → exec (f x) t (Ok y) → R x y) → Forall2 R l l'.
Proof.
  revert tr l'. induction l as [|x l IH]; intros tr l'; cbn [pmap].
  - intros [_ [= ->]]%exec_ret_inv _. constructor.
  - intros (t1 & t2 & y & -> & Hy & (t3 & t4 & r & -> & Hr & [-> [= ->]]%exec_ret_inv)%exec_bind_Ok)%exec_bind_Ok HR.
    constructor; [eapply HR; [by left| |exact Hy]; set_solver|].
    eapply IH; [exact Hr|]. intros a b t Ha Ht Hx. eapply HR; [by right| |exact Hx]. set_solver.
Qed.

(** A test of values filters them without a command. *)
Lemma exec_pfilter_lift (f : val → result bool) l tr l' :
  exec (pfilter (λ v, lift (f v)) l) tr (Ok l') →
  tr = [] ∧ l' = List.filter (λ v, match f v with Ok b => b | Err _ => false end) l.
Proof.
  revert tr l'. induction l as [|x l IH]; intros tr l'; cbn [pfilter List.filter].
  - by intros [-> [= ->]]%exec_ret_inv.
  - intros (t1 & t2 & b & -> & [-> Hb]%exec_lift & (t3 & t4 & r & -> & Hr & [-> [= ->]]%exec_ret_inv)%exec_bind_Ok)%exec_bind_Ok.
    apply IH in Hr as [-> ->]. rewrite <- Hb. split; [done|]. by destruct b.
Qed.

Lemma filter_ext_in {A} (P Q : A → Prop) `{!∀ x, Decision (P x), !∀ x, Decision (Q x)} (l : list A) :
  (∀ x, x ∈ l → P x ↔ Q x) → filter P l = filter Q l.
Proof.
  induction l as [|x l IH]; intros HPQ; [done|]. assert (P x ↔ Q x) as Hx by (apply HPQ; by left).
  assert (filter P l = filter Q l) as Hl by (apply IH; intros y Hy; apply HPQ; by right).
  rewrite !filter_cons, Hl. by apply decide_ext.
Qed.

Lemma filter_keep {A} (P : A → Prop) `{!∀ x, Decision (P x)} (l : list A) : (∀ x, x ∈ l → P x) → filter P l = l.
Proof.
  intros HP. rewrite (filter_ext_in P (λ _, True)) by naive_solver. clear. induction l as [|x l IH]; [done|].
  by rewrite filter_cons_True, IH.
Qed.

Lemma NoDup_fmap_filter {A B} (f : A → B) (P : A → Prop) `{!∀ x, Decision (P x)} (l : list A) :
  NoDup (f <$> l) → NoDup (f <$> filter P l).
Proof.
  induction l as [|x l IH]; [done|]. rewrite fmap_cons, NoDup_cons. intros [Hx Hl]. rewrite filter_cons. case_decide; [|by apply IH].
  rewrite fmap_cons, NoDup_cons. split; [|by apply IH]. intros (y & He & [_ Hy]%list_elem_of_filter)%list_elem_of_fmap.
  apply Hx. rewrite He. by apply list_elem_of_fmap_2.
Qed.

(** ** The page of validators *)

Section validators.
Context {CFG : Config} {LC : LiskCrypto} {LT : LiskTransactions} {LO : Locale}.
Import Validators PosValidators.

(** The order of a numeric property. *)
Definition small_key (k : string) (x : val) : Prop := ∃ n, field x k = VNum n ∧ Z.abs n ≤ 2 ^ 52.
Definition key_le (k : string) (asc : bool) (x y : val) : Prop :=
  ∃ m n, field x k = VNum m ∧ field y k = VNum n ∧ if asc then m ≤ n else n ≤ m.

Lemma key_le_trans k asc x y z : key_le k asc x y → key_le k asc y z → key_le k asc x z.
Proof.
  intros (m & n & Hm & Hn & H) (n' & o & Hn' & Ho & H'). rewrite Hn in Hn'. injection Hn' as <-.
  exists m, o. split_and!; [done..|]. destruct asc; lia.
Qed.

Lemma sign_of_sub m n : Z.abs m ≤ 2 ^ 52 → Z.abs n ≤ 2 ^ 52 → Pending.sign_of (num_sub (VNum m) (VNum n)) = (m ?= n).
Proof.
  intros Hm Hn. unfold num_sub, num_of_Z. rewrite (proj2 (Z.leb_le (Z.abs (m - n)) max_exact)) by (unfold max_exact; lia).
  unfold Pending.sign_of. simpl. destruct (Z.compare_spec m n), (Z.compare_spec (m - n) 0); first [done|lia].
Qed.

Lemma to_number_num_sub m n : to_number (num_sub (VNum m) (VNum n)) = num_sub (VNum m) (VNum n).
Proof. unfold num_sub, num_of_Z. by destruct (_ <=? _). Qed.

(** The comparator orders numbers. *)
Lemma sortComparator_numbers s k dir cmp x y :
  split_char ":" s = [k; dir] → sortComparator (VStr s) = Ok cmp → small_key k x → small_key k y →
  ∃ c, cmp x y = Ok c ∧ (c = Gt → key_le k (bool_decide (dir = "asc")) y x) ∧
       (c ≠ Gt → key_le k (bool_decide (dir = "asc")) x y).
Proof.
  intros Hs Hc (m & Hx & Hm) (n & Hy & Hn). unfold sortComparator in Hc. cbn [js_split] in Hc. rewrite Hs in Hc.
  cbn [mbind result_mbind result_bind] in Hc. injection Hc as <-.
  cbv zeta. simpl (default _ _). rewrite Hx, Hy. change (nth_str [k; dir] 1) with (VStr dir). cbn [strict_eq].
  change (is_nan (to_number (VNum m))) with false. cbv iota.
  destruct (bool_decide (dir = "asc")).
  - cbv beta iota. change (js_sub (VNum m) (VNum n)) with (Ok (num_sub (VNum m) (VNum n))). cbv beta iota. rewrite to_number_num_sub, sign_of_sub by done.
    eexists. split; [done|]. unfold key_le. destruct (Z.compare_spec m n); split; intros; try done; eauto 8 with lia.
  - cbv beta iota. change (js_sub (VNum n) (VNum m)) with (Ok (num_sub (VNum n) (VNum m))). cbv beta iota. rewrite to_number_num_sub, sign_of_sub by done.
    eexists. split; [done|]. unfold key_le. destruct (Z.compare_spec n m); split; intros; try done; eauto 8 with lia.
Qed.

(** What a validator of the list becomes in the answer. *)
Definition reward_keys : list string := ["publicKey"; "generatedBlocks"; "totalCommission"; "totalSelfStakeRewards"; "earnedRewards"].
Definition rewarded (validator entry : val) : Prop :=
  (∀ k, k ∉ reward_keys → field entry k = field validator k) ∧
  js_add (field entry "totalCommission") (field entry "totalSelfStakeRewards") = Ok (field entry "earnedRewards").

Lemma exec_withRewards tab validator tr entry :
  proper_object validator → exec (withRewards tab validator) tr (Ok entry) → rewarded validator entry.
Proof.
  intros (o & -> & Hd) H. unfold withRewards in H.
  do 3 apply exec_bind_Ok in H as (? & ? & ? & _ & _ & H). apply exec_bind_Ok in H as (? & ? & g & _ & _ & H).
  apply exec_bind_Ok in H as (? & ? & c & _ & _ & H). apply exec_bind_Ok in H as (? & ? & r & _ & _ & H).
  do 2 apply exec_bind_Ok in H as (? & ? & ? & _ & _ & H).
  apply exec_bind_Ok in H as (? & ? & e & _ & He & H). apply exec_lift in He as [_ He]. apply exec_ret_inv in H as [_ [= ->]].
  unfold spread. cbn [props].
  match goal with |- context [ospread (ospread [] o) [("publicKey", ?a); (_, ?b); (_, ?c'); (_, ?d); (_, ?f)]] =>
    change (ospread (ospread [] o) [("publicKey", a); ("generatedBlocks", b); ("totalCommission", c');
              ("totalSelfStakeRewards", d); ("earnedRewards", f)])
      with (oset (oset (oset (oset (oset (ospread [] o) "publicKey" a) "generatedBlocks" b) "totalCommission" c')
              "totalSelfStakeRewards" d) "earnedRewards" f) end.
  split.
  - intros k Hk. unfold reward_keys in Hk. rewrite !not_elem_of_cons in Hk. unfold field. cbn [prop].
    rewrite !oget_oset_ne by (intros <-; tauto). f_equal.
    destruct (oget o k) as [v|] eqn:E; [by rewrite (oget_ospread_Some _ _ _ _ Hd E)|by rewrite (oget_ospread_None _ _ _ E)].
  - unfold field. cbn [prop]. rewrite !oget_oset. exact (eq_sym He).
Qed.

(** The validators a request selects. *)
Definition chosen (f : filters) (validator : val) : bool :=
  match selected f validator with Ok b => b | Err _ => false end.

Lemma exec_slice_page n m l tr page :
  0 ≤ n → 0 ≤ m → n + m ≤ max_exact → exec (slice_page (VNum n) (VNum m) l) tr (Ok page) →
  tr = [] ∧ page = take (Z.to_nat m) (drop (Z.to_nat n) l).
Proof.
  intros Hn Hm Hmax H. unfold slice_page in H. cbn [js_add to_number num_add] in H.
  unfold num_of_Z in H. rewrite (proj2 (Z.leb_le (Z.abs (n + m)) max_exact)) in H by lia.
  apply exec_bind_Ok in H as (? & ? & e & -> & He & H). apply exec_lift in He as [-> [= ->]].
  apply exec_ret_inv in H as [-> [= ->]]. split; [done|].
  unfold int_arg. cbn [to_number]. rewrite slice_nonneg by lia. f_equal. lia.
Qed.

(** A validator that is asked for by its key and its own address is not
    found: the answer is empty, and nothing is asked of the database. *)
Theorem own_key_finds_nothing o publicKey own a tr out :
  oget o "publicKey" = Some publicKey → truthy publicKey = true →
  Account.getLisk32AddressFromPublicKey publicKey = Ok own →
  oget o "address" = Some (VStr a) → own ∈ split_char "," a → own ≠ "" →
  exec (getPosValidators (VObj o)) tr out → tr = [] ∧ out = Ok (answer (VArr []) (VObj [])).
Proof.
  intros Hk Ht Hown Ha Hin Hne. assert (addressOfKey (VObj o) = Ret None) as Hnone.
  { assert (truthy (VStr a) = true) as Hta.
    { simpl. rewrite bool_decide_eq_false_2; [done|]. intros ->. apply list_elem_of_singleton in Hin. congruence. }
    unfold addressOfKey. cbn [prop]. rewrite Hk, Ha. cbn -[truthy]. rewrite Ht. cbn -[truthy]. rewrite Hown. cbn -[truthy].
    rewrite Hta. cbn. by rewrite bool_decide_eq_true_2. }
  unfold getPosValidators. rewrite Hnone. by intros [-> ->]%exec_ret_inv.
Qed.

(** ** The list of validators after a block *)

Definition addr (v : val) : val := field v "address".
Definition named (l : list val) : Prop := Forall (λ v, ∃ s, addr v = VStr s) l.

Lemma index_Some l a i : indexOfAddress l (VStr a) = Some i → ∃ v, l !! i = Some v ∧ addr v = VStr a.
Proof. intros (v & Hv & He)%find_index_Some. exists v. split; [done|]. by apply strict_eq_str_true. Qed.

Lemma index_None l a : indexOfAddress l (VStr a) = None → VStr a ∉ addr <$> l.
Proof.
  unfold indexOfAddress. rewrite find_index_None, Forall_forall. intros H (v & He & Hv)%list_elem_of_fmap.
  specialize (H v Hv). unfold addr in He. rewrite <- He, strict_eq_VStr in H. by apply bool_decide_eq_false in H.
Qed.

Lemma filter_delete l i v :
  NoDup (addr <$> l) → l !! i = Some v → filter (λ x, addr x ≠ addr v) l = take i l ++ drop (S i) l.
Proof.
  intros Hd Hi. rewrite <- (take_drop_middle l i v Hi) in Hd |- * at 1.
  rewrite fmap_app, fmap_cons in Hd. apply NoDup_app in Hd as (_ & Hd1 & [Hd2 _]%NoDup_cons).
  rewrite filter_app, filter_cons_False by (intros H; by apply H). f_equal; apply filter_keep.
  - intros x Hx He. eapply Hd1; [by apply list_elem_of_fmap_2|]. rewrite He. by left.
  - intros x Hx He. apply Hd2. rewrite <- He. by apply list_elem_of_fmap_2.
Qed.
(** A deleted block: what it concerns leaves the list, or enters it. *)
Lemma fold_deleted vs l :
  named vs → NoDup (addr <$> vs) → NoDup (addr <$> l) →
  fold_left (updateList true) vs l = filter (λ v, addr v ∉ addr <$> vs) l ++ filter (λ v, addr v ∉ addr <$> l) vs.
Proof.
  intros Hn. revert l. induction Hn as [|u vs [a Ha] Hn IH]; intros l Hd Hl.
  - cbn [fold_left]. rewrite filter_keep by (intros ? _ ?%elem_of_nil; done). by rewrite app_nil_r.
  - apply NoDup_cons in Hd as [Hu Hd]. cbn [fold_left]. unfold updateList at 2. fold (addr u). rewrite Ha.
    destruct (indexOfAddress l (VStr a)) as [i|] eqn:Ei.
    + apply index_Some in Ei as (v & Hv & Hva). rewrite <- (filter_delete l i v Hl Hv), Hva, <- Ha.
      rewrite IH; [|done|by apply NoDup_fmap_filter].
      rewrite (filter_cons_False _ u) by (intros Hno; apply Hno; rewrite Ha, <- Hva; apply list_elem_of_fmap_2; by eapply list_elem_of_lookup_2).
      rewrite list_filter_filter. f_equal.
      * apply list_filter_iff. intros x. rewrite fmap_cons, not_elem_of_cons. tauto.
      * apply filter_ext_in. intros x Hx.
        assert (addr x ≠ addr u) as Hxu by (intros He; apply Hu; rewrite <- He; by apply list_elem_of_fmap_2).
        split; intros Hx' (y & He & Hy)%list_elem_of_fmap; apply Hx'; apply list_elem_of_fmap; exists y; (split; [done|]).
        -- apply list_elem_of_filter. split; [congruence|done].
        -- apply list_elem_of_filter in Hy. tauto.
    + apply index_None in Ei. rewrite <- Ha in Ei.
      rewrite IH; [|done|rewrite fmap_app; apply NoDup_app; split_and!; [done|set_solver|apply NoDup_singleton]].
      rewrite filter_app, (filter_keep _ [u]) by (intros ? ->%list_elem_of_singleton; done).
      rewrite (filter_cons_True _ u vs) by done. rewrite <- app_assoc. f_equal.
      * apply filter_ext_in. intros x Hx. rewrite fmap_cons, not_elem_of_cons.
        assert (addr x ≠ addr u) by (intros He; apply Ei; rewrite <- He; by apply list_elem_of_fmap_2). tauto.
      * cbn [app]. f_equal. apply filter_ext_in. intros x Hx. rewrite fmap_app, not_elem_of_app.
        assert (addr x ≠ addr u) by (intros He; apply Hu; rewrite <- He; by apply list_elem_of_fmap_2). set_solver.
Qed.

(** What a new block makes of a validator of the list: nothing, or what the
    node says of it now, with the status it had. *)
Definition refreshed (vs : list val) (v v' : val) : Prop :=
  (addr v ∉ addr <$> vs ∧ v' = v) ∨
  (field v' "status" = field v "status" ∧ ∃ u, u ∈ vs ∧ addr u = addr v ∧ ∀ k, k ≠ "status" → field v' k = field u k).

(** The new entry of a validator: what the node says, and the old status. *)
Lemma field_update o st k :
  NoDup (okeys o) → field (VObj (oset (ospread [] o) "status" st)) k = if decide (k = "status") then st else field (VObj o) k.
Proof.
  intros Hd. unfold field. cbn [prop]. rewrite oget_oset. repeat case_decide; subst; try done.
  destruct (oget o k) as [v|] eqn:E; [by rewrite (oget_ospread_Some _ _ _ _ Hd E)|by rewrite (oget_ospread_None _ _ _ E)].
Qed.

Lemma fold_new vs l :
  named vs → Forall proper_object vs → NoDup (addr <$> vs) → NoDup (addr <$> l) →
  let l' := fold_left (updateList false) vs l in
  addr <$> l' = (addr <$> l) ++ (addr <$> filter (λ v, addr v ∉ addr <$> l) vs) ∧
  ∀ i v, l !! i = Some v → ∃ v', l' !! i = Some v' ∧ refreshed vs v v'.
Proof.
  intros Hn Hp. revert l. induction Hn as [|u vs [a Ha] Hn IH]; intros l Hd Hl; cbv zeta.
  - cbn [fold_left]. rewrite app_nil_r. split; [done|]. intros i v Hv. exists v. split; [done|]. left. set_solver.
  - apply NoDup_cons in Hd as [Hu Hd]. apply Forall_cons in Hp as [(o & -> & Ho) Hp].
    cbn [fold_left]. unfold updateList at 2 4. fold (addr (VObj o)). rewrite Ha.
    destruct (indexOfAddress l (VStr a)) as [i|] eqn:Ei.
    + apply index_Some in Ei as (w & Hw & Hwa). set (u' := VObj _).
      assert (nth_val l i = w) as Hnth by (unfold nth_val; by rewrite Hw).
      assert (addr u' = VStr a) as Hu'.
      { rewrite <- Ha. unfold addr, u'. by rewrite (field_update o _ _ Ho). }
      assert (addr <$> <[i:=u']> l = addr <$> l) as Hmap.
      { rewrite list_fmap_insert, Hu', <- Hwa. apply list_insert_id. by rewrite list_lookup_fmap, Hw. }
      destruct (IH Hp (<[i:=u']> l) Hd) as [IH1 IH2]; [by rewrite Hmap|]. rewrite Hmap in IH1. split.
      * rewrite IH1. f_equal. f_equal. rewrite filter_cons_False; [done|].
        rewrite Ha, <- Hwa. intros Hno. apply Hno, list_elem_of_fmap_2. by eapply list_elem_of_lookup_2.
      * intros j v Hv. destruct (decide (i = j)) as [<-|Hij].
        -- destruct (IH2 i u') as (v' & Hv' & Hr); [apply list_lookup_insert_eq; by eapply lookup_lt_Some|].
           exists v'. split; [done|]. right. assert (w = v) as -> by congruence.
           destruct Hr as [[_ ->]|(_ & u & Hin & Hau & _)].
           ++ unfold u'. rewrite (field_update o _ _ Ho), Hnth. split; [done|]. exists (VObj o). split_and!; [by left|congruence|].
              intros k Hk. by rewrite (field_update o _ _ Ho), decide_False.
           ++ destruct Hu. rewrite Ha, <- Hu', <- Hau. by apply list_elem_of_fmap_2.
        -- destruct (IH2 j v) as (v' & Hv' & Hr); [by rewrite list_lookup_insert_ne|]. exists v'. split; [done|].
           destruct Hr as [[Hno ->]|(Hst & u & Hin & Hau & Hk)].
           ++ destruct (decide (addr v = addr (VObj o))) as [He|He]; [|left; split; [set_solver|done]].
              destruct Hij. eapply (NoDup_lookup _ _ _ (addr v) Hl); rewrite list_lookup_fmap; [rewrite Hw|rewrite Hv]; simpl; congruence.
           ++ right. split; [done|]. exists u. split_and!; [by right|done..].
    + apply index_None in Ei. rewrite <- Ha in Ei.
      assert (NoDup (addr <$> l ++ [VObj o])) as Hl'.
      { rewrite fmap_app. apply NoDup_app. split_and!; [done| |apply NoDup_singleton]. intros x Hx ->%list_elem_of_singleton. done. }
      destruct (IH Hp (l ++ [VObj o]) Hd Hl') as [IH1 IH2]. split.
      * rewrite IH1, (filter_cons_True _ (VObj o)) by done. rewrite (fmap_app addr l), <- app_assoc. f_equal.
        change (addr <$> VObj o :: ?r) with (addr (VObj o) :: (addr <$> r)). f_equal. f_equal. apply filter_ext_in. intros x Hx. rewrite not_elem_of_app.
        assert (addr x ≠ addr (VObj o)) by (intros He; apply Hu; rewrite <- He; by apply list_elem_of_fmap_2). set_solver.
      * intros j v Hv. destruct (IH2 j v) as (v' & Hv' & Hr); [by apply lookup_app_l_Some|]. exists v'. split; [done|].
        destruct Hr as [[Hno ->]|(Hst & u & Hin & Hau & Hk)].
        -- left. split; [|done]. rewrite fmap_cons, not_elem_of_cons. split; [|done].
           intros He. apply Ei. rewrite <- He. apply list_elem_of_fmap_2. by eapply list_elem_of_lookup_2.
        -- right. split; [done|]. exists u. split_and!; [by right|done..].
Qed.
End validators.

(** ** What the indexer says of the network *)

(** ** The tokens the chain supports *)

Section tokens.
Import AccountQueries.

Lemma val_includes_str l s : val_includes l (VStr s) = true ↔ VStr s ∈ l.
Proof.
  unfold val_includes. rewrite existsb_exists. setoid_rewrite <- list_elem_of_In. split.
  - intros (x & Hx & He). rewrite andb_false_r, orb_false_r in He. by apply strict_eq_str_true in He as ->.
  - intros H. exists (VStr s). split; [done|]. rewrite strict_eq_VStr. by rewrite bool_decide_eq_true_2.
Qed.

Definition text_list (l : list val) : Prop := Forall (λ x, ∃ s, x = VStr s) l.

(** A set made of an array of texts: each of them once. *)
Lemma set_of_texts l : text_list l → NoDup (set_of l) ∧ ∀ x, x ∈ set_of l ↔ x ∈ l.
Proof.
  intros Hl. unfold set_of.
  assert (∀ acc, NoDup acc → let r := fold_left (λ acc x, if val_includes acc x then acc else acc ++ [x]) l acc in
            NoDup r ∧ ∀ x, x ∈ r ↔ x ∈ acc ∨ x ∈ l) as H.
  { induction Hl as [|x l [s ->] Hl IH]; intros acc Ha; cbn [fold_left]; [split; [done|set_solver]|].
    destruct (val_includes acc (VStr s)) eqn:E.
    - apply val_includes_str in E. destruct (IH acc Ha) as [Hd Hin]. split; [done|]. intros x. rewrite Hin. set_solver.
    - assert (VStr s ∉ acc) as Hs by (by rewrite <- val_includes_str, E).
      destruct (IH (acc ++ [VStr s])) as [Hd Hin]; [apply NoDup_app; split_and!; [done|set_solver|apply NoDup_singleton]|].
      split; [done|]. intros x. rewrite Hin. set_solver. }
  destruct (H []) as [Hd Hin]; [constructor|]. split; [done|]. intros x. rewrite Hin. set_solver.
Qed.

(** The classes of the tokens' identifiers. *)
Definition isExact (s : string) : Prop := s ≠ "*" ∧ str_drop 8 s ≠ "********".
Definition isPattern (s : string) : Prop := s ≠ "*" ∧ str_drop 8 s = "********".

Lemma classifyAll_lists ids t t' :
  classifyAll t ids = Ok t' →
  text_list ids ∧ isSupportAllTokens t' = isSupportAllTokens t ∧
  (isSupportAllToken t' = true ↔ isSupportAllToken t = true ∨ VStr "*" ∈ ids) ∧
  (text_list (exactTokenIDs t) → text_list (exactTokenIDs t')) ∧ (text_list (patternTokenIDs t) → text_list (patternTokenIDs t')) ∧
  (∀ s, VStr s ∈ exactTokenIDs t' ↔ VStr s ∈ exactTokenIDs t ∨ (VStr s ∈ ids ∧ isExact s)) ∧
  (∀ s, VStr s ∈ patternTokenIDs t' ↔ VStr s ∈ patternTokenIDs t ∨ (VStr s ∈ ids ∧ isPattern s)).
Proof.
  revert t. induction ids as [|id ids IH]; intros t; cbn [classifyAll]; intros H.
  - injection H as <-. split_and!; [constructor|set_solver..].
  - destruct (classify t id) as [t1|e] eqn:E; [|done]. cbn [mbind result_mbind result_bind] in H.
    destruct (IH _ H) as (H1 & H2 & H3 & H4 & H5 & H6 & H7); clear IH H.
    unfold classify in E. destruct t as [all all' exact pattern].
    destruct (strict_eq id (VStr Constants.PATTERN_ANY_TOKEN_ID)) eqn:Eany.
    + apply strict_eq_str_true in Eany as ->. injection E as <-. change Constants.PATTERN_ANY_TOKEN_ID with "*" in *. simpl in *.
      split_and!; [constructor; eauto|done|rewrite H3; set_solver|done|done| |];
        intros s; rewrite ?H6, ?H7; unfold isExact, isPattern; set_solver.
    + destruct id as [| | | | | |s0| |]; try (cbn in E; congruence). cbn [str_method mbind result_mbind result_bind] in E.
      change (Z.to_nat Constants.LENGTH_CHAIN_ID) with 8%nat in E. change Constants.PATTERN_ANY_CHAIN_TOKEN_ID with "********" in E.
      rewrite strict_eq_VStr in Eany. apply bool_decide_eq_false in Eany. change Constants.PATTERN_ANY_TOKEN_ID with "*" in Eany.
      injection E as <-. case_bool_decide as Hloc; simpl in *.
      * split_and!; [constructor; eauto|done|rewrite H3; set_solver|done| | |].
        -- intros Hp. apply H5, Forall_app. split; [done|]. constructor; eauto.
        -- intros s. rewrite H6. unfold isExact. set_solver.
        -- intros s. rewrite H7. unfold isPattern. set_solver.
      * split_and!; [constructor; eauto|done|rewrite H3; set_solver| |done| |].
        -- intros Hp. apply H4, Forall_app. split; [done|]. constructor; eauto.
        -- intros s. rewrite H6. unfold isExact. set_solver.
        -- intros s. rewrite H7. unfold isPattern. set_solver.
Qed.

Lemma exec_requestConnector method params tr v :
  exec (Request.requestConnector method params) tr (Ok v) → tr = [(CRpc "connector" method (or_default params (VObj [])), Ok v)].
Proof.
  unfold Request.requestConnector, Request.requestRpc. intros (t1 & t2 & data & -> & H1%exec_call_inv & H)%exec_bind_Ok. subst t1.
  destruct (_ && _).
  - apply exec_bind_Ok in H as (? & ? & m & _ & _ & [_ ?]%exec_throw_inv). done.
  - by apply exec_ret_inv in H as [-> [= ->]].
Qed.

(** The summary of tokens: the identifiers the node supports, each once,
    those of all tokens of a chain apart from the others; "*", which supports
    all tokens, sets a property nobody reads - the one that is served stays
    false whatever the node answers. *)
Theorem token_summary_classes tr v :
  exec getTokenSummary tr (Ok v) →
  ∃ r ids exact pattern, (CRpc "connector" "getSupportedTokens" (VObj []), Ok r) ∈ tr ∧
    field r "supportedTokens" = VArr ids ∧ text_list ids ∧
    let supported := field (field v "data") "supportedTokens" in
    field supported "isSupportAllTokens" = VBool false ∧
    (field supported "isSupportAllToken" = VBool true ↔ VStr "*" ∈ ids) ∧
    field supported "exactTokenIDs" = VArr exact ∧ NoDup exact ∧ (∀ s, VStr s ∈ exact ↔ VStr s ∈ ids ∧ isExact s) ∧
    field supported "patternTokenIDs" = VArr pattern ∧ NoDup pattern ∧ (∀ s, VStr s ∈ pattern ↔ VStr s ∈ ids ∧ isPattern s).
Proof.
  intros H. unfold getTokenSummary in H.
  do 4 apply exec_bind_Ok in H as (? & ? & ? & -> & _ & H).
  apply exec_bind_Ok in H as (? & ? & r & -> & Hr%exec_requestConnector & H). subst.
  apply exec_bind_Ok in H as (? & ? & toks & -> & Htoks & H). apply exec_lift in Htoks as [-> Htoks].
  apply exec_bind_Ok in H as (? & ? & ids & -> & Hids & H).
  apply exec_bind_Ok in H as (? & ? & t & -> & Ht & H). apply exec_lift in Ht as [-> Ht]. apply exec_ret_inv in H as [-> [= ->]].
  assert (toks = VArr ids) as -> by (destruct toks; cbn in Hids; try by inversion Hids).
  symmetry in Ht. destruct (classifyAll_lists _ _ _ Ht) as (H1 & H2 & H3 & H4 & H5 & H6 & H7). simpl in *.
  destruct (set_of_texts (exactTokenIDs t) (H4 (proj2 (Forall_nil _) I))) as [Hde Hine].
  destruct (set_of_texts (patternTokenIDs t) (H5 (proj2 (Forall_nil _) I))) as [Hdp Hinp].
  exists r, ids, (set_of (exactTokenIDs t)), (set_of (patternTokenIDs t)). cbv zeta.
  change (field (field (answer (VObj [_; ("supportedTokens", ?o); _]) _) "data") "supportedTokens") with o.
  split; [set_solver|]. split; [unfold field; by rewrite <- Htoks|]. split; [done|].
  split; [unfold supportedObject; by rewrite H2|].
  split; [|split_and!; try done; intros s; rewrite ?Hine, ?Hinp, ?H6, ?H7; set_solver].
  unfold supportedObject. destruct (isSupportAllToken t) eqn:E.
  - split; [intros _; destruct (proj1 H3 eq_refl); done|done].
  - split; [done|]. intros Hin. assert (false = true) by (apply H3; by right). done.
Qed.
End tokens.

(** ** The peers of the network *)

Section peers.
Context {ES : EngineSort}.
Import NetworkQueries.

(** What the engine does with an inconsistent comparator: it keeps the
    elements. *)
Definition sort_keeps : Prop := ∀ f l, engine_sort f l ≡ₚ l.

Lemma sortBy_perm array p l : sort_keeps → sortBy array p = Ok l → l ≡ₚ array.
Proof.
  intros Hs H. unfold sortBy in H. destruct (js_split p ":") as [parts|]; [|done].
  cbn [mbind result_mbind result_bind] in H. cbv zeta in H. injection H as <-.
  assert (∀ b : bool, ∀ f a, (if b then engine_sort f a else a) ≡ₚ a) as Hb by (intros [] f a; [apply Hs|done]).
  destruct (strict_eq _ _); [rewrite <- Permutation_rev|]; by rewrite !Hb.
Qed.

Definition peer_matches (params peer : val) : bool :=
  forallb (λ k, strict_eq (field params k) (field peer k)) (activeFilters params).

Lemma exec_prop v k tr x : exec (v @. k) tr (Ok x) → tr = [] ∧ x = field v k.
Proof. intros [-> H]%exec_lift. unfold field. by rewrite <- H. Qed.

Lemma exec_matches params filters peer tr b :
  exec (matches params filters peer) tr (Ok b) →
  tr = [] ∧ b = forallb (λ k, strict_eq (field params k) (field peer k)) filters.
Proof.
  unfold matches. intros (t1 & t2 & vs & -> & H & [-> [= ->]]%exec_ret_inv)%exec_bind_Ok. rewrite app_nil_r.
  revert t1 vs H. induction filters as [|k filters IH]; intros t1 vs; cbn [pmap].
  - by intros [-> [= ->]]%exec_ret_inv.
  - intros (t3 & t4 & x & -> & (? & ? & v & -> & [-> ->]%exec_prop & [-> [= ->]]%exec_ret_inv)%exec_bind_Ok
      & (t5 & t6 & r & -> & [-> Hr]%IH & [-> [= ->]]%exec_ret_inv)%exec_bind_Ok)%exec_bind_Ok.
    split; [done|]. cbn [forallb]. by rewrite Hr.
Qed.

Lemma exec_pfilter (f : val → prog bool) g l tr l' :
  (∀ x t b, exec (f x) t (Ok b) → t = [] ∧ b = g x) → exec (pfilter f l) tr (Ok l') → tr = [] ∧ l' = List.filter g l.
Proof.
  intros Hf. revert tr l'. induction l as [|x l IH]; intros tr l'; cbn [pfilter List.filter].
  - by intros [-> [= ->]]%exec_ret_inv.
  - intros (t1 & t2 & b & -> & [-> ->]%Hf & (t3 & t4 & r & -> & [-> ->]%IH & [-> [= ->]]%exec_ret_inv)%exec_bind_Ok)%exec_bind_Ok.
    split; [done|]. by destruct (g x).
Qed.

Lemma exec_array_method v m tr l : exec (array_method v m) tr (Ok l) → tr = [] ∧ v = VArr l.
Proof.
  destruct v; cbn [array_method]; try (by intros [_ ?]%exec_throw_inv); try (intros (? & ? & ? & _ & _ & [_ ?]%exec_throw_inv)%exec_bind_Ok; done).
  by intros [-> [= ->]]%exec_ret_inv.
Qed.

(** The question that is asked for the state of a request. *)
Definition peer_question (params : val) : string :=
  match field params "state" with
  | VStr s => if bool_decide (ApiUtils.lower s = "connected") then "getNetworkConnectedPeers"
              else if bool_decide (ApiUtils.lower s = "disconnected") then "getNetworkDisconnectedPeers" else "getNetworkPeers"
  | _ => "getNetworkPeers"
  end.

(** C35. The list of peers: the peers of the requested state that agree with
    every filter of the request that is set, each as often as the node lists
    it, in the order the engine makes of the sort parameter; from the offset
    on and at most as many as the limit.  The total counts the peers the
    filters removed as well. *)
Theorem network_peers_page params st n m tr v :
  sort_keeps → field params "state" = st → (st = VUndef ∨ ∃ s, st = VStr s) →
  field params "offset" = VNum n → field params "limit" = VNum m → 0 ≤ n → 0 < m → n + m ≤ max_exact →
  exec (getNetworkPeers params) tr (Ok v) →
  ∃ peers sorted, tr = [(CRpc "connector" (peer_question params) (VObj []), Ok (VArr peers))] ∧
    sorted ≡ₚ List.filter (peer_matches params) peers ∧
    let page := take (Z.to_nat m) (drop (Z.to_nat n) sorted) in
    v = answer (VArr page) (VObj [("count", numOf page); ("offset", VNum n); ("total", numOf peers)]).
Proof.
  intros Hsort Hst Hstate Ho Hl Hn Hm Hmax H. unfold getNetworkPeers in H.
  apply exec_bind_Ok in H as (? & ? & s & -> & [-> ->]%exec_prop & H). rewrite Hst in H.
  apply exec_bind_Ok in H as (tq & ? & peers & -> & Hq & H).
  apply exec_bind_Ok in H as (? & ? & l & -> & [-> ->]%exec_array_method & H).
  apply exec_bind_Ok in H as (? & ? & fl & -> & Hf & H).
  apply (exec_pfilter _ (peer_matches params)) in Hf as [-> ->]; [|intros ? ? ?; apply exec_matches].
  cbv zeta in H. apply exec_bind_Ok in H as (? & ? & sorted & -> & [-> Hs]%exec_lift & H).
  assert (sorted ≡ₚ List.filter (peer_matches params) l) as Hp.
  { destruct (_ && _) in Hs; [by eapply sortBy_perm|by injection Hs as ->]. }
  rewrite Ho, Hl in H. assert (truthy (VNum m) = true) as Htm by (by destruct m).
  rewrite Htm, orb_true_r in H. unfold js_or in H at 1. rewrite Htm in H.
  assert ((if true && negb (truthy (VNum n)) then VNum 0 else VNum n) = VNum n) as Hoff.
  { by destruct n. }
  rewrite Hoff in H.
  apply exec_bind_Ok in H as (? & ? & page & -> & Hpg & H). apply exec_ret_inv in H as [-> [= ->]].
  cbn [js_add to_number num_add] in Hpg. unfold num_of_Z in Hpg. rewrite (proj2 (Z.leb_le (Z.abs (m + n)) max_exact)) in Hpg by lia.
  apply exec_bind_Ok in Hpg as (? & ? & e & -> & He & Hpg). apply exec_lift in He as [-> [= ->]].
  apply exec_ret_inv in Hpg as [-> [= ->]].
  exists l, sorted. split_and!; [|exact Hp|].
  - rewrite !app_nil_r, !app_nil_l. unfold peersOfState in Hq. unfold peer_question. rewrite Hst.
    destruct Hstate as [->|[str ->]].
    + by apply exec_bind_Ok in Hq as (? & ? & x & -> & [-> [= ->]]%exec_ret_inv & ->%exec_requestConnector).
    + apply exec_bind_Ok in Hq as (? & ? & st0 & -> & Hx & ->%exec_requestConnector).
      destruct (truthy (VStr str)) eqn:Et; cycle 1.
      * apply exec_ret_inv in Hx as [-> [= ->]]. by destruct str.
      * apply exec_bind_Ok in Hx as (? & ? & st1 & -> & Hy & [-> [= ->]]%exec_ret_inv).
        apply exec_ret_inv in Hy as [-> [= ->]]. rewrite !strict_eq_VStr. repeat case_bool_decide; done.
  - cbv zeta. unfold int_arg. cbn [to_number]. rewrite slice_nonneg by lia.
    by replace (Z.to_nat (m + n) - Z.to_nat n)%nat with (Z.to_nat m) by lia.
Qed.
End peers.

(** ** The schemas of the node *)

Section schemas.
Context {E : Type} {HE : Engine E}.
Import Request SchemaQueries.

(** Everything but an assignment of the variable. *)
Definition keeps (x : string) (c : cmd) : Prop := match c with CVarSet y _ => y ≠ x | _ => True end.

Lemma keeps_run {A} x o (p : prog A) (w w' : world E) r :
  pall (keeps x) p → w_vars w !! x = o → run p w = (w', r) → w_vars w' !! x = o.
Proof.
  intros Hp Ho. eapply (pall_run (keeps x) (λ w, w_vars w !! x = o)); [|done|done].
  intros c w2 w3 v Hw Hc Hs. destruct c; try (simpl in Hs; injection Hs as <- <-; done);
    try (simpl in Hs; destruct (handle _ _); by injection Hs as <- <-).
  injection Hs as <- _. simpl. by rewrite lookup_insert_ne.
Qed.

Lemma keeps_request m p x : pall (keeps x) (requestConnector m p).
Proof. unfold requestConnector, requestRpc. pall; apply pall_call; done. Qed.

Lemma keeps_node : pall (keeps allSchemas) getSchemasFromNode.
Proof.
  unfold getSchemasFromNode, AccountQueries.getAuthMultiSigRegMsgSchema, Constants.getRegisteredModules, Constants.memoised.
  pall; try apply keeps_request; try (by apply pall_call).
  - unfold array_method. pall.
  - apply pall_pmap. pall.
  - unfold method_includes. pall.
Qed.

Lemma keeps_entries x ms : pall (keeps x) (pmap moduleEntries ms).
Proof.
  apply pall_pmap. intros m. unfold moduleEntries, entriesOf, array_method, eventEntry, assetEntry, commandEntry.
  pall; apply pall_pmap; pall.
Qed.

(** C34. When the node fails before the schemas are there, the variable keeps
    what was assigned so far - the empty object, or one without the generic
    schemas, the messages and that of cross-chain messages - and every later
    request is answered with it, without asking the node again. *)
Theorem schemas_failure_cached (w w1 : world E) e :
  truthy (default VUndef (w_vars w !! allSchemas)) = false → run getAllSchemas w = (w1, Err e) →
  ∃ o, (o = [] ∨ okeys o = ["assets"; "commands"; "events"]) ∧
    ∀ w2 : world E, w_vars w2 !! allSchemas = w_vars w1 !! allSchemas →
      run getSchemas w2 = (w2, Ok (answer (VObj o) (VObj []))).
Proof.
  intros Hw H.
  assert (∃ o, (o = [] ∨ okeys o = ["assets"; "commands"; "events"]) ∧ w_vars w1 !! allSchemas = Some (VObj o)) as (o & Ho & Hw1).
  { unfold getAllSchemas in H. rewrite run_bind, run_call in H. cbn [step] in H. rewrite Hw in H.
    rewrite run_bind in H. destruct (run loadSchemas w) as [wl [u|e']] eqn:El; [by destruct u|].
    injection H as <- _. unfold loadSchemas in El. rewrite run_bind, run_call in El. cbn [step] in El.
    rewrite run_bind in El. set (w0 := mkWorld _ _) in El.
    assert (w_vars w0 !! allSchemas = Some (VObj [])) as H0 by (simpl; by rewrite lookup_insert_eq).
    destruct (run getSchemasFromNode w0) as [wa [node|ea]] eqn:En;
      pose proof (keeps_run _ _ _ _ _ _ keeps_node H0 En) as Ha; [|injection El as <- _; eauto].
    rewrite run_bind, run_lift in El. destruct (prop _ "modules") as [modules|em]; [|injection El as <- _; eauto].
    rewrite run_bind in El. destruct (run (array_method modules "forEach") wa) as [wb [ms|eb]] eqn:Em;
      (eapply (keeps_run allSchemas) in Em; [|unfold array_method; pall|exact Ha]); [|injection El as <- _; eauto].
    rewrite run_bind in El. destruct (run (pmap moduleEntries ms) wb) as [wc [es|ec]] eqn:Ee;
      (eapply (keeps_run allSchemas) in Ee; [|apply keeps_entries|exact Em]); [|injection El as <- _; eauto].
    cbv zeta in El. rewrite run_bind, run_call in El. cbn [step] in El.
    rewrite run_bind, run_lift in El. destruct (entries _) as [generic|eg].
    - rewrite run_bind, run_call in El. by cbn [step] in El.
    - injection El as <- _. eexists. split; [right|simpl; by rewrite lookup_insert_eq]. done. }
  exists o. split; [done|]. intros w2 Hw2. unfold getSchemas, getAllSchemas.
  rewrite !run_bind, run_call. cbn [step]. rewrite Hw2, Hw1. cbn [default truthy]. rewrite run_bind. cbn. by rewrite Hw2, Hw1.
Qed.
End schemas.
