(* ===== verification/QueryWitnesses.v ===== *)
(** * Concrete instances of the theorems on the queries

    A list of three validators, a page of it and two blocks that concern one
    of them; a node with three kinds of tokens, two peers, and a node that
    fails before the schemas are there. *)
From S2P Require Export QueryThms FeesWitnesses.
Open Scope string_scope.
Open Scope Z_scope.
Open Scope list_scope.
Import Fixtures Validators PosValidators.

Module QueryFixtures.

Definition validator_of (a : string) (stake : Z) (status : string) : val :=
  VObj [("address", VStr a); ("name", VStr ("n" +:+ a)); ("rank", VNum 1); ("stake", VNum stake); ("status", VStr status)].
Definition three_validators : list val := [validator_of "lska" 5 "active"; validator_of "lskb" 7 "standby"; validator_of "lskc" 6 "active"].

(** The list is there; the tables are, and are empty. *)
Definition indexed (c : cmd) : result val :=
  match c with
  | CVarGet x => Ok (if bool_decide (x = validatorList) then VArr three_validators else VUndef)
  | CHasTable _ => Ok (VBool true)
  | CTrxBegin => Ok (VNum 1)
  | CKnex _ _ => Ok (VArr [])
  | _ => Ok VUndef
  end.
Definition two_largest : val :=
  VObj [("sort", VStr "stake:desc"); ("offset", VNum 0); ("limit", VNum 2); ("status", VStr "active")].

Definition by_key_and_address : list (string * val) := [("publicKey", VStr "aa"); ("address", VStr "lskbb,lskaa")].

Definition listed_world : world mem := mkWorld (<[validatorList := VArr three_validators]> ∅) (w_ext worker).
Definition asked_again : list val := [validator_of "lskb" 9 "unknown"; validator_of "lskd" 1 "unknown"].

Definition tokens_node (c : cmd) : result val :=
  match c with
  | CRpc _ "getSupportedTokens" _ =>
      Ok (VObj [("supportedTokens", strs ["*"; "04000000********"; "0400000000000001"; "0400000000000001"])])
  | CRpc _ _ _ => Ok (VObj [])
  | _ => Ok VUndef
  end.

#[export] Instance fix_engine_sort : EngineSort := {| engine_sort := λ _ l, rev l |}.

Definition peer (ip : string) (height : Z) : val := VObj [("ip", VStr ip); ("height", VNum height)].
Definition peers_node (c : cmd) : result val :=
  match c with CRpc _ _ _ => Ok (VArr [peer "a" 1; peer "b" 2; peer "c" 2]) | _ => Ok VUndef end.
Definition peers_request : val :=
  VObj [("state", VStr "Connected"); ("height", VNum 2); ("sort", VStr "height:asc"); ("offset", VNum 0); ("limit", VNum 1)].

(** The metadata are there, the schemas are not. *)
Definition failing_node : world mem := mkWorld ∅ (with_rpc (mem_of [] [])
  [("connector", "getSchema", Err (js_error "timeout"));
   ok_rpc "getSystemMetadata" (VObj [("modules", VArr [])])]).

End QueryFixtures.
Import QueryFixtures.

Definition validators_run : list (cmd * result val) * result val := replay indexed (getPosValidators two_largest).


Definition own_key_run : list (cmd * result val) * result val := replay indexed (getPosValidators (VObj by_key_and_address)).

Lemma own_key_finds_nothing_witness :
  Account.getLisk32AddressFromPublicKey (VStr "aa") = Ok "lskaa" ∧ own_key_run = ([], Ok (answer (VArr []) (VObj []))).
Proof.
  split; [vm_compute; reflexivity|].
  destruct (own_key_finds_nothing by_key_and_address (VStr "aa") "lskaa" "lskbb,lskaa" own_key_run.1 own_key_run.2) as [H1 H2];
    [reflexivity|reflexivity|vm_compute; reflexivity|reflexivity|vm_compute; by right; left|discriminate|apply exec_replay|].
  rewrite (surjective_pairing own_key_run), H1, H2. reflexivity.
Defined.


Definition tokens_run : list (cmd * result val) * result val := replay tokens_node AccountQueries.getTokenSummary.

Lemma token_summary_classes_witness :
  ∃ v exact, tokens_run.2 = Ok v ∧ let supported := field (field v "data") "supportedTokens" in
    field supported "isSupportAllTokens" = VBool false ∧ field supported "isSupportAllToken" = VBool true ∧
    field supported "exactTokenIDs" = VArr exact ∧ NoDup exact ∧ VStr "0400000000000001" ∈ exact.
Proof.
  assert (∃ v, tokens_run.2 = Ok v) as [v E] by (eexists; vm_compute; reflexivity).
  assert (exec AccountQueries.getTokenSummary tokens_run.1 tokens_run.2) as Hx by apply exec_replay. rewrite E in Hx.
  destruct (token_summary_classes tokens_run.1 v Hx) as (r & ids & exact & pattern & Hr & Hids & _ & H1 & H2 & H3 & H4 & H5 & _).
  apply replay_answer in Hr. injection Hr as ->. injection Hids as <-.
  exists v, exact. split; [exact E|]. cbv zeta. split; [exact H1|].
  split; [apply H2; left|]. split; [exact H3|]. split; [exact H4|].
  apply H5. split; [right; right; left|]. split; discriminate.
Defined.

Definition peers_run : list (cmd * result val) * result val := replay peers_node (NetworkQueries.getNetworkPeers peers_request).

Lemma network_peers_page_witness :
  ∃ v peers sorted, peers_run.2 = Ok v ∧
    peers_run.1 = [(CRpc "connector" "getNetworkConnectedPeers" (VObj []), Ok (VArr peers))] ∧
    sorted ≡ₚ List.filter (peer_matches peers_request) peers ∧
    v = answer (VArr (take 1 sorted)) (VObj [("count", numOf (take 1 sorted)); ("offset", VNum 0); ("total", numOf peers)]).
Proof.
  assert (∃ v, peers_run.2 = Ok v) as [v E] by (eexists; vm_compute; reflexivity).
  assert (exec (NetworkQueries.getNetworkPeers peers_request) peers_run.1 peers_run.2) as Hx by apply exec_replay. rewrite E in Hx.
  destruct (network_peers_page peers_request (VStr "Connected") 0 1 peers_run.1 v) as (peers & sorted & H1 & H2 & H3).
  - intros f l. symmetry. apply Permutation_rev.
  - reflexivity.
  - right. eexists. reflexivity.
  - reflexivity.
  - reflexivity.
  - lia.
  - lia.
  - unfold max_exact. lia.
  - exact Hx.
  - exists v, peers, sorted. split; [exact E|]. split; [exact H1|]. split; [exact H2|exact H3].
Defined.

Lemma schemas_failure_cached_witness :
  ∃ o, (o = [] ∨ okeys o = ["assets"; "commands"; "events"]) ∧
    let w1 := (run SchemaQueries.getAllSchemas failing_node).1 in
    run SchemaQueries.getSchemas w1 = (w1, Ok (answer (VObj o) (VObj []))).
Proof.
  destruct (schemas_failure_cached failing_node (run SchemaQueries.getAllSchemas failing_node).1 (js_error "timeout")) as (o & Ho & H).
  - vm_compute. reflexivity.
  - vm_compute. reflexivity.
  - exists o. split; [exact Ho|]. apply H. reflexivity.
Defined.
