(* ===== verification/EventTopics.v ===== *)
(** * The names of modules and events, and the topics of events

    services/blockchain-connector/shared/sdk/constants: names.js and
    eventTopics.js. *)
From S2P Require Export Prelude.
Open Scope string_scope.
Open Scope list_scope.

(** ** names.js *)
Module ConnectorNames.

Definition EVENT_NAME_COMMAND_EXECUTION_RESULT : string := "commandExecutionResult".
Definition MODULE_NAME_AUTH : string := "auth".
Definition EVENT_NAME_MULTISIGNATURE_REGISTERED : string := "multisignatureRegistration".
Definition EVENT_NAME_INVALID_SIGNATURE : string := "invalidSignature".
Definition MODULE_NAME_VALIDATORS : string := "validators".
Definition EVENT_NAME_GENERATOR_KEY_REGISTRATION : string := "generatorKeyRegistration".
Definition EVENT_NAME_BLS_KEY_REGISTRATION : string := "blsKeyRegistration".
Definition MODULE_NAME_TOKEN : string := "token".
Definition EVENT_NAME_TRANSFER : string := "transfer".
Definition EVENT_NAME_TRANSFER_CROSS_CHAIN : string := "transferCrossChain".
Definition EVENT_NAME_CCM_TRANSFER : string := "ccmTransfer".
Definition EVENT_NAME_MINT : string := "mint".
Definition EVENT_NAME_BURN : string := "burn".
Definition EVENT_NAME_LOCK : string := "lock".
Definition EVENT_NAME_UNLOCK : string := "unlock".
Definition EVENT_NAME_INITIALIZE_TOKEN : string := "initializeToken".
Definition EVENT_NAME_INITIALIZE_USER_ACCOUNT : string := "initializeUserAccount".
Definition EVENT_NAME_INITIALIZE_ESCROW_ACCOUNT : string := "initializeEscrowAccount".
Definition EVENT_NAME_RECOVER : string := "recover".
Definition EVENT_NAME_BEFORE_CCC_EXECUTION : string := "beforeCCCExecution".
Definition EVENT_NAME_BEFORE_CCM_FORWARDING : string := "beforeCCMForwarding".
Definition EVENT_NAME_ALL_TOKENS_SUPPORTED : string := "allTokensSupported".
Definition EVENT_NAME_ALL_TOKENS_SUPPORT_REMOVED : string := "allTokensSupportRemoved".
Definition EVENT_NAME_ALL_TOKENS_FROM_CHAIN_SUPPORTED : string := "allTokensFromChainSupported".
Definition EVENT_NAME_ALL_TOKENS_FROM_CHAIN_SUPPORT_REMOVED : string := "allTokensFromChainSupportRemoved".
Definition EVENT_NAME_TOKEN_ID_SUPPORTED : string := "tokenIDSupported".
Definition EVENT_NAME_TOKEN_ID_SUPPORT_REMOVED : string := "tokenIDSupportRemoved".
Definition MODULE_NAME_FEE : string := "fee".
Definition EVENT_NAME_FEE_PROCESSED : string := "generatorFeeProcessed".
Definition EVENT_NAME_INSUFFICIENT_FEE : string := "insufficientFee".
Definition EVENT_NAME_RELAYER_FEE_PROCESSED : string := "relayerFeeProcessed".
Definition MODULE_NAME_INTEROPERABILITY : string := "interoperability".
Definition EVENT_NAME_INVALID_REGISTRATION_SIGNATURE : string := "invalidRegistrationSignature".
Definition EVENT_NAME_CHAIN_ACCOUNT_UPDATED : string := "chainAccountUpdated".
Definition EVENT_NAME_CCM_SENT_SUCCESS : string := "ccmSendSuccess".
Definition EVENT_NAME_CCM_SENT_FAILED : string := "ccmSentFailed".
Definition EVENT_NAME_CCM_PROCESSED : string := "ccmProcessed".
Definition EVENT_NAME_TERMINATED_STATE_CREATED : string := "terminatedStateCreated".
Definition EVENT_NAME_TERMINATED_OUTBOX_CREATED : string := "terminatedOutboxCreated".
Definition MODULE_NAME_POS : string := "pos".
Definition EVENT_NAME_VALIDATOR_REGISTERED : string := "validatorRegistered".
Definition EVENT_NAME_VALIDATOR_STAKED : string := "validatorStaked".
Definition EVENT_NAME_VALIDATOR_PUNISHED : string := "validatorPunished".
Definition EVENT_NAME_VALIDATOR_BANNED : string := "validatorBanned".
Definition EVENT_NAME_COMMISSION_CHANGE : string := "commissionChange".
Definition EVENT_NAME_REWARDS_ASSIGNED : string := "rewardsAssigned".
Definition MODULE_NAME_RANDOM : string := "random".
Definition MODULE_NAME_DYNAMIC_BLOCK_REWARDS : string := "dynamicReward".
Definition EVENT_NAME_REWARD_MINTED : string := "rewardMinted".
Definition MODULE_NAME_LEGACY : string := "legacy".
Definition EVENT_NAME_ACCOUNT_RECLAIMED : string := "accountReclaimed".
Definition EVENT_NAME_KEYS_REGISTERED : string := "keysRegistered".
Definition MODULE_NAME_SUBSCRIPTION : string := "subscription".
Definition EVENT_NAME_SUBSCRIPTION_CREATED : string := "subscriptionCreated".
Definition EVENT_NAME_SUBSCRIPTION_PURCHASED : string := "subscriptionPurchased".
Definition MODULE_NAME_COLLECTION : string := "collection".
Definition EVENT_NAME_COLLECTION_CREATED : string := "collectionCreated".
Definition EVENT_NAME_COLLECTION_TRANSFERED : string := "collectionTransfered".
Definition MODULE_NAME_AUDIO : string := "audio".
Definition EVENT_NAME_AUDIO_CREATED : string := "audioCreated".
Definition EVENT_NAME_AUDIO_STREAMED : string := "audioStreamed".
Definition EVENT_NAME_AUDIO_INCOME_RECLAIMED : string := "audioIncomeReclaimed".
Definition MODULE_NAME_PROFILE : string := "profile".
Definition EVENT_NAME_PROFILE_CREATED : string := "profileCreated".

End ConnectorNames.
Import ConnectorNames.

(** ** eventTopics.js *)
Module EventTopics.

Definition COMMAND_EXECUTION_RESULT_TOPICS : list string := ["transactionID"].

Definition auth_topics : list (string * list string) :=
  [(EVENT_NAME_MULTISIGNATURE_REGISTERED, ["transactionID"; "senderAddress"]);
   (EVENT_NAME_INVALID_SIGNATURE, ["transactionID"; "senderAddress"])].
Definition validators_topics : list (string * list string) :=
  [(EVENT_NAME_GENERATOR_KEY_REGISTRATION, ["defaultTopic"; "validatorAddress"]);
   (EVENT_NAME_BLS_KEY_REGISTRATION, ["defaultTopic"; "validatorAddress"])].
Definition token_topics : list (string * list string) :=
  [(EVENT_NAME_TRANSFER, ["defaultTopic"; "senderAddress"; "recipientAddress"]);
   (EVENT_NAME_TRANSFER_CROSS_CHAIN, ["defaultTopic"; "senderAddress"; "recipientAddress"; "receivingChainID"]);
   (EVENT_NAME_CCM_TRANSFER, ["defaultTopic"; "senderAddress"; "recipientAddress"; "ownChainID"]);
   (EVENT_NAME_MINT, ["defaultTopic"; "address"]);
   (EVENT_NAME_BURN, ["defaultTopic"; "address"]);
   (EVENT_NAME_LOCK, ["transactionID"; "address"]);
   (EVENT_NAME_UNLOCK, ["transactionID"; "address"]);
   (EVENT_NAME_INITIALIZE_TOKEN, ["defaultTopic"; "tokenID"]);
   (EVENT_NAME_INITIALIZE_USER_ACCOUNT, ["transactionID"; "userAccountAddress"]);
   (EVENT_NAME_INITIALIZE_ESCROW_ACCOUNT, ["defaultTopic"; "chainID"]);
   (EVENT_NAME_RECOVER, ["defaultTopic"; "address"]);
   (EVENT_NAME_BEFORE_CCC_EXECUTION, ["defaultTopic"; "relayerAddress"; "messageFeeTokenID"]);
   (EVENT_NAME_BEFORE_CCM_FORWARDING, ["defaultTopic"; "sendingChainID"; "receivingChainID"]);
   (EVENT_NAME_ALL_TOKENS_SUPPORTED, []);
   (EVENT_NAME_ALL_TOKENS_SUPPORT_REMOVED, []);
   (EVENT_NAME_ALL_TOKENS_FROM_CHAIN_SUPPORTED, ["defaultTopic"; "chainID"]);
   (EVENT_NAME_ALL_TOKENS_FROM_CHAIN_SUPPORT_REMOVED, ["defaultTopic"; "chainID"]);
   (EVENT_NAME_TOKEN_ID_SUPPORTED, ["defaultTopic"; "tokenID"]);
   (EVENT_NAME_TOKEN_ID_SUPPORT_REMOVED, ["defaultTopic"; "tokenID"])].
Definition fee_topics : list (string * list string) :=
  [(EVENT_NAME_FEE_PROCESSED, ["transactionID"; "senderAddress"; "generatorAddress"]);
   (EVENT_NAME_INSUFFICIENT_FEE, ["transactionID"]);
   (EVENT_NAME_RELAYER_FEE_PROCESSED, ["transactionID"; "ccmID"; "relayerAddress"])].
Definition interoperability_topics : list (string * list string) :=
  [(EVENT_NAME_INVALID_REGISTRATION_SIGNATURE, ["transactionID"; "chainID"]);
   (EVENT_NAME_CHAIN_ACCOUNT_UPDATED, ["transactionID"; "sendingChainID"]);
   (EVENT_NAME_CCM_SENT_SUCCESS, ["transactionID"; "sendingChainID"; "receivingChainID"; "sentCCMID"]);
   (EVENT_NAME_CCM_SENT_FAILED, ["transactionID"]);
   (EVENT_NAME_CCM_PROCESSED, ["transactionID"; "sendingChainID"; "receivingChainID"; "ccmID"]);
   (EVENT_NAME_TERMINATED_STATE_CREATED, ["transactionID"; "chainID"]);
   (EVENT_NAME_TERMINATED_OUTBOX_CREATED, ["transactionID"; "chainID"])].
Definition pos_topics : list (string * list string) :=
  [(EVENT_NAME_VALIDATOR_REGISTERED, ["transactionID"; "validatorAddress"]);
   (EVENT_NAME_VALIDATOR_STAKED, ["transactionID"; "stakerAddress"; "validatorAddress"]);
   (EVENT_NAME_VALIDATOR_PUNISHED, ["transactionID"; "validatorAddress"]);
   (EVENT_NAME_VALIDATOR_BANNED, ["transactionID"; "validatorAddress"]);
   (EVENT_NAME_COMMISSION_CHANGE, ["transactionID"; "validatorAddress"]);
   (EVENT_NAME_REWARDS_ASSIGNED, ["transactionID"; "stakerAddress"])].
Definition random_topics : list (string * list string) :=
  [].
Definition dynamic_block_rewards_topics : list (string * list string) :=
  [(EVENT_NAME_REWARD_MINTED, ["defaultTopic"; "generatorAddress"])].
Definition legacy_topics : list (string * list string) :=
  [(EVENT_NAME_ACCOUNT_RECLAIMED, ["transactionID"; "legacyAddress"; "newAddress"]);
   (EVENT_NAME_KEYS_REGISTERED, ["transactionID"; "validatorAddress"; "generatorKey"; "blsKey"])].
Definition subscription_topics : list (string * list string) :=
  [(EVENT_NAME_SUBSCRIPTION_CREATED, ["transactionID"; "senderAddress"]);
   (EVENT_NAME_SUBSCRIPTION_PURCHASED, ["transactionID"; "senderAddress"])].
Definition collection_topics : list (string * list string) :=
  [(EVENT_NAME_COLLECTION_CREATED, ["transactionID"; "senderAddress"]);
   (EVENT_NAME_COLLECTION_TRANSFERED, ["transactionID"; "senderAddress"])].
Definition audio_topics : list (string * list string) :=
  [(EVENT_NAME_AUDIO_CREATED, ["transactionID"; "senderAddress"]);
   (EVENT_NAME_AUDIO_STREAMED, ["transactionID"; "senderAddress"]);
   (EVENT_NAME_AUDIO_INCOME_RECLAIMED, ["transactionID"; "senderAddress"])].
Definition profile_topics : list (string * list string) :=
  [(EVENT_NAME_PROFILE_CREATED, ["transactionID"; "senderAddress"])].

Definition EVENT_TOPIC_MAPPINGS_BY_MODULE : list (string * list (string * list string)) :=
  [(MODULE_NAME_AUTH, auth_topics);
   (MODULE_NAME_VALIDATORS, validators_topics);
   (MODULE_NAME_TOKEN, token_topics);
   (MODULE_NAME_FEE, fee_topics);
   (MODULE_NAME_INTEROPERABILITY, interoperability_topics);
   (MODULE_NAME_POS, pos_topics);
   (MODULE_NAME_RANDOM, random_topics);
   (MODULE_NAME_DYNAMIC_BLOCK_REWARDS, dynamic_block_rewards_topics);
   (MODULE_NAME_LEGACY, legacy_topics);
   (MODULE_NAME_SUBSCRIPTION, subscription_topics);
   (MODULE_NAME_COLLECTION, collection_topics);
   (MODULE_NAME_AUDIO, audio_topics);
   (MODULE_NAME_PROFILE, profile_topics)].

End EventTopics.
