(* ===== verification/Connector.v ===== *)
(** * The node, seen through the blockchain connector

    services/blockchain-connector/shared: module [Client] is sdk/client.js
    and utils/waitForIt.js, [Endpoints1] is sdk/endpoints_1.js, [Schema] is
    sdk/schema.js.  The node, the API client, the codec and the validator are
    not part of the repository: the first two are commands, the others the
    class [LiskCodec]. *)
From S2P Require Export DataService EventTopics.
Open Scope string_scope.
Open Scope Z_scope.
Open Scope list_scope.

(** config.js; [polls] is how often the timers of [waitForIt] fire before the
    model stops to look. *)
Class ConnectorConfig := {
  isUseLiskIPCClient : bool;
  liskAppDataPath : string;
  endpoint_liskWs : string;
  config_genesisBlockUrl : string;
  polls : nat;
}.

(** [err.code] of an error of the API client. *)
Class NodeErrors := { node_err_code : exn → val }.

(** A promise that is never settled: neither what follows an [await] runs,
    nor a [catch]. *)
Definition unsettled : exn := mkExn "unsettled" "".
Definition is_unsettled (e : exn) : bool := bool_decide (exn_name e = exn_name unsettled).
Definition attempt {A} (p : prog A) (h : exn → prog A) : prog A :=
  catch p (λ e, if is_unsettled e then Throw e else h e).

(** ** utils/waitForIt.js and sdk/client.js *)
Module Client.

(** What a call of [fn] gives: a value, or nothing when it throws. *)
Definition tried (fn : prog val) : prog (option val) := attempt (v ← fn; Ret (Some v)) (λ _, Ret None).

(** The calls the timer makes: their [clearInterval] is given no handle, so
    they go on while there is no value. *)
Fixpoint timer (n : nat) (fn : prog val) : prog val :=
  match n with
  | O => Throw unsettled
  | S n => r ← tried fn; match r with Some VUndef | None => timer n fn | Some v => Ret v end
  end.

(** The first call clears the timer unless it throws - also when it returns
    [undefined], and then nothing is left that could settle the promise. *)
Definition waitForIt (n : nat) (fn : prog val) : prog val :=
  r ← tried fn;
  match r with Some VUndef => Throw unsettled | Some v => Ret v | None => timer n fn end.

Section client.
Context {CC : ConnectorConfig} {NE : NodeErrors}.

Definition timeoutMessage : string := "Response not received in".
Definition NUM_REQUEST_RETRIES : nat := 5.
Definition MAX_INSTANTIATION_WAIT_TIME : Z := 100.

Definition clientCache : string := "client.clientCache".
Definition instantiationBeginTime : string := "client.instantiationBeginTime".
Definition isInstantiating : string := "client.isInstantiating".

(** The channel of the client knows whether it is open. *)
Definition checkIsClientAlive : prog val :=
  client ← call (CVarGet clientCache);
  if truthy client then _ ← client @. "_channel"; call (CRpc "apiClient" "isAlive" client) else Ret client.

Definition createClient : prog val :=
  if isUseLiskIPCClient then call (CRpc "apiClient" "createIPCClient" (VStr liskAppDataPath))
  else call (CRpc "apiClient" "createWSClient" (VStr (endpoint_liskWs +:+ "/rpc-ws"))).

(** A failure leaves [isInstantiating] set. *)
Definition newClient : prog unit :=
  _ ← call (CVarSet isInstantiating (VBool true));
  now ← call CNow; _ ← call (CVarSet instantiationBeginTime now);
  client ← createClient; _ ← call (CVarSet clientCache client);
  _ ← call (CSignal "newApiClient" VUndef);
  _ ← call (CVarSet isInstantiating (VBool false)); Ret tt.

Definition instantiateClient : prog val :=
  attempt
    (instantiating ← call (CVarGet isInstantiating);
     if negb (truthy instantiating) then
       alive ← checkIsClientAlive;
       _ ← (if truthy alive then Ret tt else newClient);
       call (CVarGet clientCache)
     else
       now ← call CNow; begin ← call (CVarGet instantiationBeginTime); elapsed ← lift (js_sub now begin);
       _ ← (if js_gt elapsed (VNum MAX_INSTANTIATION_WAIT_TIME)
            then _ ← call (CVarSet isInstantiating (VBool false)); Ret tt else Ret tt);
       Ret VUndef)
    (λ err, if strict_eq (node_err_code err) (VStr "ECONNREFUSED")
            then Throw (js_error "ECONNREFUSED: Unable to reach a network node")
            else Ret (VObj [("data", VObj [("error", VStr "Action not supported")]); ("status", VStr "METHOD_NOT_ALLOWED")])).

Fixpoint getApiClientFor (n : nat) : prog val :=
  match n with
  | O => Throw unsettled
  | S n => apiClient ← waitForIt polls instantiateClient;
           alive ← checkIsClientAlive;
           if truthy alive then Ret apiClient else getApiClientFor n
  end.
Definition getApiClient : prog val := getApiClientFor polls.

Definition TimeoutException (m : string) : exn := mkExn "TimeoutException" m.
Definition isTimeout (err : exn) : bool := bool_decide (exn_name err = "TimeoutException").

(** One request of the node. *)
Definition channelInvoke (apiClient : val) (endpoint : string) (params : val) : prog val :=
  channel ← apiClient @. "_channel"; _ ← channel @. "invoke"; call (CRpc "node" endpoint params).

Fixpoint invokeLoop (retries : nat) (apiClient : val) (endpoint : string) (params : val) : prog val :=
  attempt (channelInvoke apiClient endpoint params)
    (λ err, match retries with
            | S retries => if isTimeout err then invokeLoop retries apiClient endpoint params else Throw err
            | O => Throw err
            end).

Definition invokeEndpoint (endpoint : string) (params : val) : prog val :=
  apiClient ← getApiClient; invokeLoop NUM_REQUEST_RETRIES apiClient endpoint (or_default params (VObj [])).

(** [try { ... } catch (err) { if (err.message.includes(timeoutMessage)) throw
    new TimeoutException(m); throw err; }] *)
Definition timed {A} (m : string) (p : prog A) : prog A :=
  attempt p (λ err, if str_includes timeoutMessage (exn_msg err) then Throw (TimeoutException m) else Throw err).

Definition timedCall (name : string) : string := "Request timed out when calling '" +:+ name +:+ "'.".

(** A call of an endpoint that translates timeouts. *)
Definition invokeTimed (name endpoint : string) (params : val) : prog val :=
  timed (timedCall name) (invokeEndpoint endpoint params).

End client.
End Client.
Import Client.

(** ** sdk/endpoints_1.js *)
Module Endpoints1.
Section endpoints.
Context {CC : ConnectorConfig} {NE : NodeErrors}.

Definition memo (x : string) (compute : prog val) : prog val :=
  v ← call (CVarGet x);
  _ ← (if truthy v then Ret tt else v' ← compute; _ ← call (CVarSet x v'); Ret tt);
  call (CVarGet x).

Definition getSchemas : prog val :=
  timed (timedCall "getSchema") (memo "endpoints.schema" (invokeEndpoint "system_getSchema" VUndef)).
Definition getRegisteredActions : prog val :=
  timed (timedCall "getRegisteredActions") (memo "endpoints.registeredActions" (invokeEndpoint "app_getRegisteredActions" VUndef)).
Definition getRegisteredEvents : prog val :=
  timed (timedCall "getRegisteredEvents") (memo "endpoints.registeredEvents" (invokeEndpoint "app_getRegisteredEvents" VUndef)).

Definition nodeInfo : string := "endpoints.nodeInfo".
Definition getNodeInfo (isForceUpdate : bool) : prog val :=
  timed (timedCall "getNodeInfo")
    (known ← call (CVarGet nodeInfo);
     _ ← (if isForceUpdate || negb (truthy known)
          then v ← invokeEndpoint "system_getNodeInfo" VUndef; _ ← call (CVarSet nodeInfo v); Ret tt else Ret tt);
     call (CVarGet nodeInfo)).

Definition getSystemMetadata : prog val :=
  timed (timedCall "getSystemMetadata") (memo "endpoints.metadata" (invokeEndpoint "system_getMetadata" VUndef)).

Definition getRegisteredModules : prog val :=
  timed (timedCall "getRegisteredModules") (memo "endpoints.registeredModules"
    (systemMetadata ← getSystemMetadata;
     modules ← systemMetadata @. "modules"; l ← array_method modules "map";
     names ← pmap (λ module : val, module @. "name") l; Ret (VArr names))).

End endpoints.
End Endpoints1.

(** ** sdk/fee.js *)
Module ConnectorFee.
Section fee.
Context {CC : ConnectorConfig} {NE : NodeErrors}.

Definition feeTokenID : string := "fee.feeTokenID".
Definition minFeePerByte : string := "fee.minFeePerByte".

(** [throw error], and what [err.message.includes] makes of it. *)
Definition throw_response_error (error : val) : prog unit :=
  message ← error @. "message";
  match message with
  | VStr m => Throw (js_error m)
  | VUndef | VNull => _ ← message @. "includes"; Throw (not_a_function "includes")
  | _ => Throw (not_a_function "includes")
  end.

Definition cacheOf (x name endpoint key : string) : prog unit :=
  timed (timedCall name)
    (response ← invokeEndpoint endpoint VUndef;
     error ← response @. "error";
     _ ← (if truthy error then throw_response_error error else Ret tt);
     v ← response @. key; _ ← call (CVarSet x v); Ret tt).
Definition cacheFeeTokenID : prog unit := cacheOf feeTokenID "cacheFeeTokenID" "fee_getFeeTokenID" "tokenID".
Definition cacheMinFeePerByte : prog unit := cacheOf minFeePerByte "cacheMinFeePerByte" "fee_getMinFeePerByte" "minFeePerByte".

Definition cacheFeeConstants : prog unit :=
  attempt
    (fee ← call (CVarGet minFeePerByte); _ ← (match fee with VUndef => cacheMinFeePerByte | _ => Ret tt end);
     id ← call (CVarGet feeTokenID); match id with VUndef => cacheFeeTokenID | _ => Ret tt end)
    (λ _, Ret tt).

Definition getFeeTokenID : prog val := call (CVarGet feeTokenID).
Definition getMinFeePerByte : prog val := call (CVarGet minFeePerByte).

End fee.
End ConnectorFee.

(** ** sdk/schema.js *)
Module Schema.

Definition schemas : string := "schema.schemas".
Definition metadata : string := "schema.metadata".

Definition setSchemas (v : val) : prog val := call (CVarSet schemas v).
Definition setMetadata (v : val) : prog val := call (CVarSet metadata v).

Definition schemaOf (k : string) : prog val := v ← call (CVarGet schemas); v @. k.
Definition getAccountSchema : prog val := schemaOf "account".
Definition getBlockSchema : prog val := schemaOf "block".
Definition getBlockHeaderSchema : prog val := schemaOf "header".
Definition getBlockAssetSchema : prog val := schemaOf "asset".
Definition getEventSchema : prog val := schemaOf "event".
Definition getTransactionSchema : prog val := schemaOf "transaction".

(** [l.find(x => x.k === name)] *)
Definition byName_of (k : string) (l name : val) : prog val :=
  xs ← array_method l "find"; pfind (λ x, n ← x @. k; Ret (strict_eq n name)) xs.
Definition byName : val → val → prog val := byName_of "name".

Definition metadataModules : prog val := v ← call (CVarGet metadata); v @. "modules".

Definition getTransactionParamsSchema (transaction : val) : prog val :=
  modules ← metadataModules; module ← transaction @. "module";
  moduleMetadata ← byName modules module;
  commands ← moduleMetadata @. "commands"; command ← transaction @. "command";
  found ← byName commands command; found @. "params".

Definition getBlockAssetDataSchemaByModule (_module : val) : prog val :=
  modules ← metadataModules; moduleMetadata ← byName modules _module;
  assets ← moduleMetadata @. "assets"; first ← first_of assets;
  or_default first (VObj []) @. "data".

(** The first event of that name, of whatever module. *)
Fixpoint eventNamed (eventName : val) (events : list val) : prog (option val) :=
  match events with
  | [] => Ret None
  | e :: r => name ← e @. "name";
              if strict_eq name eventName then data ← e @. "data"; Ret (Some data) else eventNamed eventName r
  end.
Fixpoint eventOfModules (eventName : val) (modules : list val) : prog val :=
  match modules with
  | [] => Ret VNull
  | m :: r => events ← m @. "events"; _ ← events @. "length"; found ← eventNamed eventName (arr_of events);
              match found with Some schema => Ret schema | None => eventOfModules eventName r end
  end.
Definition getDataSchemaByEventName (eventName : val) : prog val :=
  if strict_eq (VStr ConnectorNames.EVENT_NAME_COMMAND_EXECUTION_RESULT) eventName then schemaOf "standardEvent"
  else modules ← metadataModules; _ ← modules @. "length"; eventOfModules eventName (arr_of modules).

End Schema.
