(* ===== verification/Codec.v ===== *)
(** * What the connector makes of blocks, transactions and events

    services/blockchain-connector/shared: module [ConnectorParser] is
    utils/parser.js, [ConnectorAccount] utils/account.js, [Formatter]
    sdk/formatter.js, [Encoder] sdk/encoder.js.  The codec, the validator and
    the hash function of the Lisk SDK are the class [LiskCodec]. *)
From S2P Require Export JsMath ApiUtils Connector.
Open Scope string_scope.
Open Scope Z_scope.
Open Scope list_scope.
Import Client.

(** A [Buffer], as [buffer.toJSON()] shows it. *)
Definition buffer (b : bytes) : val := VObj [("type", VStr "Buffer"); ("data", VArr (map VNum b))].
Definition buffer_of (v : val) : option bytes :=
  match v with
  | VObj [(t, VStr n); (d, VArr l)] =>
      if bool_decide (t = "type") && bool_decide (n = "Buffer") && bool_decide (d = "data")
      then Some (map (λ x, match x with VNum z => z | _ => 0 end) l) else None
  | _ => None
  end.

(** @liskhq/lisk-codec, lisk-validator, lisk-cryptography and
    lisk-transactions: schemas are values, encodings are bytes. *)
Class LiskCodec := {
  codec_encode : val → val → result bytes;
  codec_decode : val → bytes → result val;
  codec_decodeJSON : val → bytes → result val;
  validator_validate : val → val → result unit;
  utils_hash : bytes → bytes;
  computeMinFee : val → val → val → result Z;
}.

(** ** utils/parser.js *)
Module ConnectorParser.

Fixpoint parseToJSONCompatObj (obj : val) : val :=
  match buffer_of obj with
  | Some b => VStr (hex_of_bytes b)
  | None =>
      match obj with
      | VBig z => if z =? 0 then VBig 0 else VStr (pretty z)
      | VArr l => VArr (map parseToJSONCompatObj l)
      | VObj o =>
          VObj (map (λ kv, (kv.1,
            match kv.2 with
            | VBig z => VStr (pretty z)
            | VArr l => VArr (map parseToJSONCompatObj l)
            | VObj _ => parseToJSONCompatObj kv.2
            | v => v
            end)) o)
      | _ => obj
      end
  end.

Section parser.
Context {LC : LiskCrypto}.

(** A value that is no object, by the type its schema names. *)
Definition parseScalar (schema dataType : val) (input : val) : result val :=
  if strict_eq dataType (VStr "string") then Ok (VStr (to_string input))
  else if strict_eq dataType (VStr "boolean") then Ok (VBool (truthy input))
  else if strict_eq dataType (VStr "bytes") then
    isLisk32 ← (if strict_eq (field schema "format") (VStr "lisk32")
                then str_method input "startsWith" (starts_with "lsk") else Ok false);
    b ← (if isLisk32 : bool then address_of_lisk32 (to_string input) else buffer_from_hex input);
    Ok (buffer b)
  else if strict_eq dataType (VStr "uint32") || strict_eq dataType (VStr "sint32") then Ok (to_number input)
  else if strict_eq dataType (VStr "uint64") || strict_eq dataType (VStr "sint64") then z ← to_bigint input; Ok (VBig z)
  else Ok input.

Definition is_object (v : val) : bool := match v with VNull | VArr _ | VObj _ => true | _ => false end.

(** The schema of a property's value. *)
Definition innerSchema (schema : val) (k : string) (currValue : val) : result (option val * val) :=
  properties ← prop schema "properties"; own ← prop properties k;
  let s := js_or own (VObj []) in
  type ← prop s "type"; dataType ← prop s "dataType"; items ← prop s "items"; format ← prop s "format";
  if strict_eq type (VStr "array") then Ok (Some items, VUndef)
  else Ok (None, if is_object currValue then own else VObj [("dataType", dataType); ("format", format)]).

Fixpoint parseInputBySchema (input schema : val) {struct input} : result val :=
  schemaType ← prop schema "type"; dataType ← prop schema "dataType"; schemaItemsSchema ← prop schema "items";
  let items := fix items (l : list val) (s : val) : result (list val) :=
    match l with [] => Ok [] | x :: r => y ← parseInputBySchema x s; t ← items r s; Ok (y :: t) end in
  (* one property of the input *)
  let one := λ (k : string) (currValue : val) (parse : val → result val) (parseItems : val → result (list val)),
    '(array, inner) ← innerSchema schema k currValue;
    match array with
    | Some itemsSchema =>
        match currValue with
        | VArr _ => l ← parseItems itemsSchema; Ok (VArr l)
        | VUndef | VNull => prop currValue "map"
        | _ => Err (type_error "currValue.map is not a function")
        end
    | None => parse inner
    end in
  if negb (is_object input) then parseScalar schema dataType input
  else if strict_eq schemaType (VStr "object") then
    match input with
    | VObj o =>
        r ← (fix members (o : list (string * val)) (acc : list (string * val)) : result (list (string * val)) :=
               match o with
               | [] => Ok acc
               | (k, v) :: r =>
                   y ← one k v (parseInputBySchema v) (λ s, match v with VArr l => items l s | _ => Ok [] end);
                   members r (oset acc k y)
               end) o [];
        Ok (VObj r)
    | VArr l =>
        r ← (fix elements (i : nat) (l : list val) (acc : list (string * val)) : result (list (string * val)) :=
               match l with
               | [] => Ok acc
               | v :: r =>
                   let k := pretty (Z.of_nat i) in
                   y ← one k v (parseInputBySchema v) (λ s, match v with VArr l => items l s | _ => Ok [] end);
                   elements (S i) r (oset acc k y)
               end) 0%nat l [];
        Ok (VObj r)
    | _ => Err (type_error "Cannot convert undefined or null to object")
    end
  else if strict_eq schemaType (VStr "array") then
    match input with
    | VArr l => r ← items l schemaItemsSchema; Ok (VArr r)
    | VNull => prop VNull "map"
    | _ => Err (type_error "input.map is not a function")
    end
  else Ok input.

End parser.
End ConnectorParser.
Import ConnectorParser.

(** ** utils/account.js *)
Module ConnectorAccount.
Section account.
Context {LC : LiskCrypto}.

Definition getLegacyFormatAddressFromPublicKey (publicKey : val) : result string :=
  b ← buffer_from_hex publicKey; legacy_of_publicKey b.
Definition getLisk32AddressFromPublicKey (publicKey : val) : result string :=
  b ← buffer_from_hex publicKey; lisk32_of_publicKey b.
Definition getLisk32AddressFromHexAddress (address : val) : result string :=
  b ← buffer_from_hex address; lisk32_of_address b.

Definition getLisk32Address (address : val) : result val :=
  isLisk32 ← str_method address "startsWith" (starts_with "lsk");
  if isLisk32 : bool then Ok address else a ← getLisk32AddressFromHexAddress address; Ok (VStr a).

End account.
End ConnectorAccount.
Import ConnectorAccount.

(** ** sdk/formatter.js *)
Module Formatter.
Section formatter.
Context {LC : LiskCrypto} {CO : LiskCodec}.

(** What the fee depends on. *)
Definition feeOptions (minFeePerByte : val) (signatures : list val) : val :=
  let nonEmptySignatureCount := length (List.filter truthy signatures) in
  VObj [("minFeePerByte", js_or minFeePerByte VNull);
        ("numberOfSignatures", VNum (Z.of_nat nonEmptySignatureCount));
        ("numberOfEmptySignatures", VNum (Z.of_nat (length signatures) - Z.of_nat nonEmptySignatureCount))].

Definition formatTransaction (transaction : val) : prog val :=
  txSchema ← Schema.getTransactionSchema;
  schemaCompliantTransaction ← lift (parseInputBySchema transaction txSchema);
  transactionBuffer ← lift (codec_encode txSchema schemaCompliantTransaction);
  txParamsSchema ← Schema.getTransactionParamsSchema transaction;
  params ← transaction @. "params"; paramsBuffer ← lift (buffer_from_hex params);
  transactionParams ← lift (codec_decodeJSON txParamsSchema paramsBuffer);
  schemaCompliantTransactionParams ← lift (codec_decode txParamsSchema paramsBuffer);
  signatures ← transaction @. "signatures"; l ← array_method signatures "filter";
  minFeePerByte ← ConnectorFee.getMinFeePerByte;
  minFee ← lift (computeMinFee (spread schemaCompliantTransaction (VObj [("params", schemaCompliantTransactionParams)]))
                   txParamsSchema (feeOptions minFeePerByte l));
  Ret (parseToJSONCompatObj (spread transaction (VObj [("params", transactionParams);
         ("size", VNum (Z.of_nat (length transactionBuffer))); ("minFee", VBig minFee)]))).

Definition formatAsset (asset : val) : prog val :=
  assetModule ← asset @. "module";
  blockAssetDataSchema ← Schema.getBlockAssetDataSchemaByModule assetModule;
  data ← asset @. "data";
  formattedAssetData ← (if truthy blockAssetDataSchema
                        then b ← lift (buffer_from_hex data); lift (codec_decodeJSON blockAssetDataSchema b)
                        else Ret data);
  Ret (VObj [("module", assetModule); ("data", formattedAssetData)]).

Definition formatBlock (block : val) : prog val :=
  blockHeader ← block @. "header";
  assets ← block @. "assets"; al ← array_method assets "map"; blockAssets ← pmap formatAsset al;
  transactions ← block @. "transactions"; tl ← array_method transactions "map"; blockTransactions ← pmap formatTransaction tl;
  Ret (parseToJSONCompatObj (VObj [("header", blockHeader); ("assets", VArr blockAssets);
                                   ("transactions", VArr blockTransactions)])).

(** The properties whose names end with Address become Lisk32 addresses. *)
Definition formatAddressOf (eventData : val) (prop_ : string) : prog val :=
  if ends_with "Address" prop_ then
    v ← eventData @. prop_; s ← method_toString v;
    a ← lift (getLisk32Address (VStr s)); Ret (set_field eventData prop_ a)
  else Ret eventData.

Definition keysOf (v : val) : result (list string) :=
  match v with
  | VUndef | VNull => Err (type_error "Cannot convert undefined or null to object")
  | VArr l => Ok (imap (λ i _, pretty (Z.of_nat i)) l)
  | v => Ok (okeys (props v))
  end.

Definition eventDataOf (event : val) : prog val :=
  name ← event @. "name"; eventDataSchema ← Schema.getDataSchemaByEventName name;
  data ← event @. "data";
  if truthy eventDataSchema then
    b ← lift (buffer_from_hex data); eventData ← lift (codec_decodeJSON eventDataSchema b);
    properties ← eventDataSchema @. "properties"; ks ← lift (keysOf properties);
    pfold formatAddressOf eventData ks
  else Ret (VObj [("data", data)]).

(** The names of the topics of an event, when they are known. *)
Definition topicsOf (event : val) : option (list string) :=
  if strict_eq (field event "name") (VStr ConnectorNames.EVENT_NAME_COMMAND_EXECUTION_RESULT)
  then Some EventTopics.COMMAND_EXECUTION_RESULT_TOPICS
  else
    let mappings := match aget EventTopics.EVENT_TOPIC_MAPPINGS_BY_MODULE (to_string (field event "module")) with
                    | Some m => m | None => [] end in
    aget mappings (to_string (field event "name")).

Definition isAddressTopic (topicAtIndex : string) : bool :=
  ends_with "address" (ApiUtils.lower topicAtIndex) && negb (str_includes "legacy" topicAtIndex).

Definition formatTopic (topics : list string) (index : nat) (topic : val) : result val :=
  if isAddressTopic (default "" (topics !! index)) then getLisk32Address topic else Ok topic.

Fixpoint formatTopics (topics : list string) (index : nat) (l : list val) : result (list val) :=
  match l with
  | [] => Ok []
  | t :: r => t' ← formatTopic topics index t; r' ← formatTopics topics (S index) r; Ok (t' :: r')
  end.

Definition formatEvent (event : val) : prog val :=
  eventSchema ← Schema.getEventSchema;
  schemaCompliantEvent ← lift (parseInputBySchema event eventSchema);
  eventBuffer ← lift (codec_encode eventSchema schemaCompliantEvent);
  eventData ← eventDataOf event;
  eventTopics ← event @. "topics";
  eventTopics ← match topicsOf event with
                | Some topics => l ← array_method eventTopics "map"; ts ← lift (formatTopics topics 0 l); Ret (VArr ts)
                | None => Ret eventTopics
                end;
  Ret (parseToJSONCompatObj (spread event (VObj [("data", eventData); ("topics", eventTopics);
                                                 ("id", buffer (utils_hash eventBuffer))]))).

Definition formatAll (f : val → prog val) (response : val) : prog val :=
  l ← array_method response "map"; r ← pmap (λ x, y ← f x; Ret (parseToJSONCompatObj y)) l; Ret (VArr r).

Definition formatResponse (endpoint : string) (response : val) : prog val :=
  if bool_decide (endpoint ∈ ["app_getBlockByHeight"; "app_getBlockByID"; "app_getLastBlock"])
  then formattedBlock ← formatBlock response; Ret (parseToJSONCompatObj formattedBlock)
  else if bool_decide (endpoint ∈ ["app_getBlocksByHeightBetween"; "app_getBlocksByIDs"]) then formatAll formatBlock response
  else if bool_decide (endpoint = "app_getTransactionByID")
  then formattedTransaction ← formatTransaction response; Ret (parseToJSONCompatObj formattedTransaction)
  else if bool_decide (endpoint ∈ ["getTransactionsByIDs"; "getTransactionsFromPool"]) then formatAll formatTransaction response
  else Ret response.

Definition formatAPIClientEventPayload (eventName : string) (payload : val) : prog val :=
  if bool_decide (eventName ∈ ["app_newBlock"; "app_deleteBlock"; "app_chainForked"])
  then block ← payload @. "block"; formattedBlock ← formatBlock block; Ret (parseToJSONCompatObj formattedBlock)
  else if bool_decide (eventName = "app_newTransaction")
  then transaction ← payload @. "transaction"; formattedTransaction ← formatTransaction transaction;
       Ret (parseToJSONCompatObj formattedTransaction)
  else Ret payload.

End formatter.
End Formatter.
Import Formatter.

(** ** sdk/encoder.js *)
Module Encoder.
Section encoder.
Context {LC : LiskCrypto} {CO : LiskCodec}.

(** [new InvalidParamsException(err)]: the text of the error. *)
Definition invalid (err : exn) : exn := InvalidParamsException (exn_name err +:+ ": " +:+ exn_msg err).

Definition validated (schema v : val) : prog unit :=
  attempt (lift (validator_validate schema v)) (λ err, Throw (invalid err)).

Definition encodeTransaction (transaction : val) : prog val :=
  txParamsSchema ← Schema.getTransactionParamsSchema transaction;
  txSchema ← Schema.getTransactionSchema;
  params ← transaction @. "params";
  parsedTxParams ← lift (parseInputBySchema params txParamsSchema);
  parsedTx ← lift (parseInputBySchema transaction txSchema);
  _ ← validated txParamsSchema parsedTxParams;
  txParamsBuffer ← lift (codec_encode txParamsSchema parsedTxParams);
  let tx := spread parsedTx (VObj [("params", buffer txParamsBuffer)]) in
  _ ← validated txSchema tx;
  txBuffer ← lift (codec_encode txSchema tx);
  Ret (VStr (hex_of_bytes txBuffer)).

End encoder.
End Encoder.
