(* ===== verification/NodeBlocks.v ===== *)
(** * The genesis block, from its file or from the node

    services/blockchain-connector/shared: [ConnectorFs] is utils/fs.js and
    utils/download.js, [BlocksUtils] sdk/blocksUtils.js, [Genesis]
    sdk/genesisBlock.js. *)
From S2P Require Export HttpClient Codec.
Open Scope string_scope.
Open Scope Z_scope.
Open Scope list_scope.
Import Client Formatter.

(** [crypto.createHash('sha256')] of the contents of a file. *)
Class Sha256 := { sha256 : val → bytes }.

(** ** utils/fs.js and utils/download.js *)
Module ConnectorFs.

Definition fs (method : string) (args : list val) : prog val := call (CRpc "fs" method (VArr args)).

Definition exists_path (path : val) : prog bool := attempt (_ ← fs "access" [path]; Ret true) (λ _, Ret false).

(** With a callback, [mkdir] and [rm] are only started. *)
Definition mkdir (directoryPath options : val) : prog unit := detach (fs "mkdir" [directoryPath; options]).
Definition rm (directoryPath options : val) : prog unit := detach (fs "rm" [directoryPath; options]).
Definition read (filePath : val) : prog val := fs "readFile" [filePath; VStr "utf8"].
Definition extractTarBall (filePath directoryPath : string) : prog unit :=
  content ← fs "createReadStream" [VStr filePath];
  _ ← call (CRpc "tar" "extract" (VArr [content; VObj [("cwd", VStr directoryPath)]])); Ret tt.

Definition NotFoundException (m : string) : exn := mkExn "NotFoundException" m.

Definition getHTTPProtocolByURL (url : string) : string := if starts_with "https" url then "https" else "http".

(** The response of a GET request, when its status is 200. *)
Definition okResponse (url dot : string) : prog val :=
  response ← call (CRpc (getHTTPProtocolByURL url) "get" (VStr url));
  statusCode ← response @. "statusCode"; statusMessage ← response @. "statusMessage";
  if strict_eq statusCode (VNum 200) then Ret response
  else
    let errMessage := "Download failed with HTTP status code: " +:+ tpl statusCode +:+ " (" +:+ tpl statusMessage +:+ ")" +:+ dot in
    Throw (if strict_eq statusCode (VNum 404) then NotFoundException errMessage else js_error errMessage).

Definition downloadAndExtractTarball (url directoryPath : string) : prog unit :=
  response ← okResponse url ".";
  _ ← call (CRpc "tar" "extract" (VArr [response; VObj [("cwd", VStr directoryPath)]])); Ret tt.

Definition downloadAndUnzipFile (fileUrl filePath : string) : prog unit :=
  response ← okResponse fileUrl "";
  content ← call (CRpc "zlib" "unzip" response);
  _ ← fs "createWriteStream" [VStr filePath; content]; Ret tt.

(** [new Error(err)]: the text of the error. *)
Definition wrapped (err : exn) : exn := js_error (exn_name err +:+ ": " +:+ exn_msg err).

Definition downloadJSONFile {AE : AxiosErrors} (encodeURI : string → string) (fileUrl filePath : string) : prog unit :=
  attempt
    (response ← HttpClient.request encodeURI fileUrl VUndef;
     body ← (match response with VStr s => lift (json_parse s) | v => Ret v end);
     block ← body @. "data";
     text ← lift (json_stringify block);
     _ ← detach (fs "writeFile" [VStr filePath; text]); Ret tt)
    (λ err, Throw (wrapped err)).

(** What follows the last slash. *)
Definition lastSegment (url : string) : string := default "" (last (split_char "/" url)).

Definition downloadFile (url dirPath : string) : prog unit :=
  response ← okResponse url "";
  _ ← fs "createWriteStream" [VStr (dirPath +:+ "/" +:+ lastSegment url); response]; Ret tt.

Definition verifyFileChecksum {SH : Sha256} (filePath checksumPath : string) : prog bool :=
  file ← exists_path (VStr filePath);
  both ← (if file : bool then exists_path (VStr checksumPath) else Ret false);
  if negb both then Ret false
  else
    text ← read (VStr checksumPath); parts ← lift (js_split text " ");
    let expectedChecksum := nth_str parts 0 in
    content ← fs "createReadStream" [VStr filePath];
    Ret (strict_eq (VStr (hex_of_bytes (sha256 content))) expectedChecksum).

End ConnectorFs.
Import ConnectorFs.

(** ** sdk/blocksUtils.js *)
Module BlocksUtils.
Section utils.
Context {CC : ConnectorConfig} {NE : NodeErrors} {LC : LiskCrypto} {CO : LiskCodec} {SH : Sha256}.

Definition GENESIS_BLOCK_URL_DEFAULT : string := "".

(** The chain and the address of its genesis block. *)
Definition networks_LISK : list (string * string) :=
  [("00000000", "https://downloads.lisk.com/lisk/mainnet/genesis_block.json.tar.gz");
   ("01000000", "https://downloads.lisk.com/lisk/testnet/genesis_block.json.tar.gz");
   ("02000000", "https://downloads.lisk.com/lisk/betanet/genesis_block.json.tar.gz")].

Definition readStream : string := "blocksUtils.readStream".
Definition genesisBlockUrl : string := "blocksUtils.genesisBlockUrl".
Definition genesisBlockFilePath : string := "blocksUtils.genesisBlockFilePath".
Definition genesisBlock : string := "blocksUtils.genesisBlock".
Definition isGenesisBlockURLNotFound : string := "blocksUtils.isGenesisBlockURLNotFound".

(** The variable starts as [{ header: {} }]. *)
Definition setGenesisBlock (block : val) : prog val := call (CVarSet genesisBlock block).
Definition getGenesisBlock : prog val :=
  v ← call (CVarGet genesisBlock); Ret (or_default v (VObj [("header", VObj [])])).
Definition getGenesisBlockId : prog val :=
  block ← getGenesisBlock; header ← block @. "header"; header @. "id".

Definition setGenesisFile (url : string) (chainID : val) : prog unit :=
  _ ← call (CVarSet genesisBlockUrl (VStr url));
  _ ← call (CVarSet genesisBlockFilePath (VStr ("./data/" +:+ tpl chainID +:+ "/genesis_block.json"))); Ret tt.

(** An open stream is the path of its file. *)
Definition openStream : prog unit :=
  path ← call (CVarGet genesisBlockFilePath); _ ← call (CVarSet readStream path); Ret tt.

Definition openIfPresent : prog unit :=
  url ← call (CVarGet genesisBlockUrl);
  if truthy url then path ← call (CVarGet genesisBlockFilePath); present ← exists_path path;
                     if present : bool then openStream else Ret tt
  else Ret tt.

Definition loadConfig : prog unit :=
  nodeInfo ← Endpoints1.getNodeInfo false; chainID ← nodeInfo @. "chainID";
  if negb (bool_decide (config_genesisBlockUrl = GENESIS_BLOCK_URL_DEFAULT))
  then _ ← setGenesisFile config_genesisBlockUrl chainID; openIfPresent
  else match find_js (λ c : string * string, strict_eq chainID (VStr c.1)) networks_LISK with
       | Some c => _ ← setGenesisFile c.2 chainID; openIfPresent
       | None => Ret tt
       end.

(** [path.dirname(v)] *)
Definition dirname (v : val) : result string :=
  match v with
  | VStr s => Ok (NodePath.path_dirname s)
  | _ => Err (type_error "The path argument must be of type string")
  end.

(** One download; whether what was downloaded has the published digest. *)
Definition downloadOnce (url directoryPath : string) : prog bool :=
  let genesisFilePath := directoryPath +:+ "/" +:+ lastSegment url in
  present ← exists_path (VStr directoryPath);
  _ ← (if present : bool then Ret tt else mkdir (VStr directoryPath) (VObj [("recursive", VBool true)]));
  _ ← downloadFile url directoryPath;
  _ ← downloadFile (url +:+ ".SHA256") directoryPath;
  isValidGenesisBlock ← verifyFileChecksum genesisFilePath (genesisFilePath +:+ ".SHA256");
  if isValidGenesisBlock : bool then
    _ ← (if ends_with ".tar.gz" genesisFilePath then extractTarBall genesisFilePath directoryPath else Ret tt);
    Ret true
  else _ ← rm (VStr directoryPath) (VObj [("recursive", VBool true); ("force", VBool true)]); Ret false.

(** [process.exit(1)] *)
Definition exit {A} : prog A := _ ← call (CRpc "process" "exit" (VNum 1)); Throw unsettled.

Fixpoint downloadLoop (retries : nat) (url directoryPath : string) : prog bool :=
  isValid ← attempt (downloadOnce url directoryPath)
    (λ err, if bool_decide (exn_name err = "NotFoundException")
            then _ ← call (CVarSet isGenesisBlockURLNotFound (VBool true)); Throw err
            else Ret false);
  if isValid : bool then Ret true
  else match retries with S retries => downloadLoop retries url directoryPath | O => exit end.

Definition downloadAndValidateGenesisBlock (retries : nat) : prog bool :=
  path ← call (CVarGet genesisBlockFilePath); directoryPath ← lift (dirname path);
  url ← call (CVarGet genesisBlockUrl); s ← lift (str_method url "substring" id);
  downloadLoop retries s directoryPath.

(** What the stream holds, parsed and formatted. *)
Definition readGenesisBlock : prog val :=
  stream ← call (CVarGet readStream); _ ← stream @. "pipe";
  block ← call (CRpc "big-json" "parse" stream);
  formatBlock block.

Definition getGenesisBlockFromFS : prog val :=
  notFound ← call (CVarGet isGenesisBlockURLNotFound);
  _ ← guard_throw (truthy notFound) (NotFoundException "");
  url ← call (CVarGet genesisBlockUrl); path ← call (CVarGet genesisBlockFilePath);
  _ ← (if negb (truthy url) || negb (truthy path) then loadConfig else Ret tt);
  id ← getGenesisBlockId;
  _ ← (if truthy id then Ret tt
       else
         path ← call (CVarGet genesisBlockFilePath); present ← exists_path path;
         _ ← (if present : bool then Ret tt else _ ← downloadAndValidateGenesisBlock 2; openStream);
         formattedBlock ← readGenesisBlock;
         id ← getGenesisBlockId;
         if truthy id then Ret tt else _ ← setGenesisBlock formattedBlock; Ret tt);
  getGenesisBlock.

End utils.
End BlocksUtils.

(** ** sdk/genesisBlock.js *)
Module Genesis.
Section genesis.
Context {CC : ConnectorConfig} {NE : NodeErrors} {LC : LiskCrypto} {CO : LiskCodec} {SH : Sha256}.

Definition getGenesisHeight : prog val :=
  Endpoints1.memo "genesisBlock.genesisHeight" (nodeInfo ← Endpoints1.getNodeInfo false; nodeInfo @. "genesisHeight").

(** From the file, without its assets unless they are asked for; from the
    node, as it answers, when there is no file. *)
Definition getGenesisBlock (isIncludeAssets : bool) : prog val :=
  fromFile ← attempt
    (block ← BlocksUtils.getGenesisBlockFromFS;
     assets ← (if isIncludeAssets then block @. "assets" else Ret (VArr []));
     Ret (Some (spread block (VObj [("assets", assets)]))))
    (λ _, Ret None);
  match fromFile with
  | Some block => Ret block
  | None => height ← getGenesisHeight;
            invokeTimed "getGenesisBlock" "chain_getBlockByHeight" (VObj [("height", height)])
  end.

Definition getGenesisBlockFormatted (includeAssets : bool) : prog val :=
  rawGenesisBlock ← getGenesisBlock includeAssets; formatBlock rawGenesisBlock.

Definition getGenesisBlockID : prog val :=
  Endpoints1.memo "genesisBlock.genesisBlockID"
    (genesisBlock ← getGenesisBlock false; header ← genesisBlock @. "header"; header @. "id").

Definition getGenesisConfig : prog val :=
  timed (timedCall "getGenesisConfig")
    (Endpoints1.memo "genesisBlock.genesisConfig" (nodeInfo ← Endpoints1.getNodeInfo false; nodeInfo @. "genesis")).

Definition getGenesisAssets (params : val) : prog val :=
  let params := or_default params (VObj []) in
  genesisBlock ← getGenesisBlockFormatted true;
  module ← params @. "module"; subStore ← params @. "subStore";
  assets ← genesisBlock @. "assets";
  if negb (truthy module) && negb (truthy subStore) then Ret assets
  else
    assetByModule ← Schema.byName_of "module" assets module;
    if truthy subStore then
      data ← assetByModule @. "data"; moduleData ← data @. to_string subStore;
      if negb (truthy moduleData) then Ret (VArr [])
      else
        let offset := field params "offset" in let limit := field params "limit" in
        moduleData ← (if negb (bool_decide (offset = VUndef)) && truthy limit
                      then l ← array_method moduleData "slice"; page ← slice_page offset limit l; Ret (VArr page)
                      else Ret moduleData);
        Ret (VArr [spread assetByModule (VObj [("data", VObj [(to_string subStore, moduleData)])])])
    else Ret (if truthy assetByModule then VArr [assetByModule] else VArr []).

Definition getGenesisAssetByModule (params : val) : prog val :=
  assets ← getGenesisAssets params; first ← first_of assets;
  data ← or_default first (VObj []) @. "data";
  Ret (if truthy data then data else VObj []).

(** The number of entries of each part of each module. *)
Definition addLengths (assetLengthMap asset : val) : prog val :=
  data ← asset @. "data"; ks ← lift (keysOf data);
  pfold (λ (m : val) (subStoreKey : string),
    module ← asset @. "module"; entries ← data @. subStoreKey; n ← entries @. "length";
    let known := js_or (field m (to_string module)) (VObj []) in
    Ret (set_field m (to_string module) (set_field known subStoreKey n))) assetLengthMap ks.

Definition getGenesisAssetsLength (params : val) : prog val :=
  genesisAssets ← getGenesisAssets params; l ← iter_list genesisAssets; pfold addLengths (VObj []) l.

End genesis.
End Genesis.
