(* ===== verification/NodeEndpoints.v ===== *)
(** * What the connector asks of the node

    services/blockchain-connector/shared/sdk: a module per file - endpoints,
    blocks, transactions, tokens, pos, dynamicReward, interoperability, legacy,
    auth, validators, invoke, events, index. *)
From S2P Require Export NodeBlocks.
Open Scope string_scope.
Open Scope Z_scope.
Open Scope list_scope.
Import Client Formatter.

(** ** endpoints.js *)
Module Endpoints.
Section endpoints.
Context {CC : ConnectorConfig} {NE : NodeErrors} {LC : LiskCrypto} {CO : LiskCodec} {SH : Sha256}.

Definition getNetworkConnectedPeers : prog val := invokeTimed "getNetworkConnectedPeers" "network_getConnectedPeers" VUndef.
Definition getNetworkDisconnectedPeers : prog val := invokeTimed "getNetworkDisconnectedPeers" "network_getDisconnectedPeers" VUndef.
Definition getGeneratorStatus : prog val := invokeTimed "getGeneratorStatus" "generator_getStatus" VUndef.
Definition updateGeneratorStatus (config : val) : prog val :=
  invokeTimed "updateGeneratorStatus" "generator_updateStatus" (spread config (VObj [])).
Definition getLastBlock : prog val := invokeTimed "getLastBlock" "chain_getLastBlock" VUndef.

Definition timedFor (name rest : string) : string := "Request timed out when calling '" +:+ name +:+ "' " +:+ rest.

(** The genesis block is not awaited inside [try]. *)
Definition orGenesis (m : string) (p : prog (option val)) (includeGenesisAssets : bool) : prog val :=
  found ← timed m p;
  match found with Some block => Ret block | None => Genesis.getGenesisBlock includeGenesisAssets end.

Definition getBlockByHeight (height : val) (includeGenesisAssets : bool) : prog val :=
  orGenesis (timedFor "getBlockByHeight" ("for height: " +:+ tpl height +:+ "."))
    (gHeight ← Genesis.getGenesisHeight;
     if strict_eq (to_number height) gHeight then Ret None
     else block ← invokeEndpoint "chain_getBlockByHeight" (VObj [("height", height)]); Ret (Some block))
    includeGenesisAssets.

(** Two entries for the two sources: the genesis block, or the empty array
    the entry was made with.  The message names the height [from] has got. *)
Definition heightsMessage (from to : val) : string :=
  timedFor "getBlocksByHeightBetween" ("for heights: " +:+ tpl from +:+ " - " +:+ tpl to +:+ ".").
Definition getBlocksByHeightBetween (from to : val) : prog val :=
  timed (heightsMessage from to)
    (gHeight ← Genesis.getGenesisHeight;
     _ ← guard_throw (js_lt from gHeight)
           (js_error ("'from' cannot be lower than the genesis height (" +:+ tpl gHeight +:+ ")."));
     let isGenesis := strict_eq (to_number from) gHeight in
     first ← (if isGenesis then getBlockByHeight gHeight false else Ret (VArr []));
     let from := if isGenesis then num_add (to_number from) (VNum 1) else from in
     rest ← (if js_le from to
             then timed (heightsMessage from to) (invokeEndpoint "chain_getBlocksByHeightBetween" (VObj [("from", from); ("to", to)]))
             else Ret (VArr []));
     l ← iter_list rest; Ret (VArr (first :: l))).

Definition getBlockByID (id : val) (includeGenesisAssets : bool) : prog val :=
  orGenesis (timedFor "getBlockByID" ("for ID: " +:+ tpl id +:+ "."))
    (gID ← Genesis.getGenesisBlockID;
     if strict_eq id gID then Ret None
     else block ← invokeEndpoint "chain_getBlockByID" (VObj [("id", id)]); Ret (Some block))
    includeGenesisAssets.

(** [l.splice(i, 0, x)] *)
Definition splice_in (i : nat) (x : val) (l : list val) : list val := take i l ++ x :: drop i l.

(** Each call asks for fewer blocks; one that asks for none is not made. *)
Fixpoint blocksByIDs (n : nat) (ids : list val) : prog val :=
  timed (timedFor "getBlocksByIDs" ("for IDs: " +:+ to_string (VArr ids) +:+ "."))
    (genesisBlockId ← Genesis.getGenesisBlockID;
     match find_index (λ id, strict_eq id genesisBlockId) ids with
     | Some genesisBlockIndex =>
         let remainingIDs := List.filter (λ id, negb (strict_eq id genesisBlockId)) ids in
         genesisBlock ← getBlockByID genesisBlockId false;
         match remainingIDs, n with
         | [], _ => Ret (VArr [genesisBlock])
         | _, S n => remainingBlocks ← blocksByIDs n remainingIDs;
                     l ← array_method remainingBlocks "splice"; Ret (VArr (splice_in genesisBlockIndex genesisBlock l))
         | _, O => Throw unsettled
         end
     | None => invokeEndpoint "chain_getBlocksByIDs" (VObj [("ids", VArr ids)])
     end).
Definition getBlocksByIDs (ids : val) : prog val :=
  match ids with
  | VArr l => blocksByIDs (length l) l
  | _ => timed (timedFor "getBlocksByIDs" ("for IDs: " +:+ to_string ids +:+ "."))
           (_ ← Genesis.getGenesisBlockID; _ ← ids @. "indexOf"; Throw (not_a_function "indexOf"))
  end.

Definition getEventsByHeight (height : val) : prog val := invokeTimed "getEvents" "chain_getEvents" (VObj [("height", height)]).
Definition getTransactionByID (id : val) : prog val :=
  timed (timedFor "getTransactionByID" ("for ID: " +:+ tpl id +:+ ".")) (invokeEndpoint "chain_getTransactionByID" (VObj [("id", id)])).
Definition getTransactionsByIDs (ids : val) : prog val :=
  timed (timedFor "getTransactionsByIDs" ("for IDs: " +:+ tpl ids +:+ "."))
    (invokeEndpoint "chain_getTransactionsByIDs" (VObj [("ids", ids)])).
Definition getTransactionsFromPool : prog val := invokeTimed "getTransactionsFromPool" "txpool_getTransactionsFromPool" VUndef.
Definition postTransaction (transaction : val) : prog val :=
  timed (timedFor "postTransaction" ("with transaction: " +:+ tpl transaction +:+ "."))
    (invokeEndpoint "txpool_postTransaction" (VObj [("transaction", transaction)])).
Definition dryRunTransaction (transaction skipVerify : val) : prog val :=
  timed (timedFor "dryRunTransaction" ("with transaction: " +:+ tpl transaction +:+ "."))
    (invokeEndpoint "txpool_dryRunTransaction" (VObj [("transaction", transaction); ("skipVerify", skipVerify)])).
Definition getGenerators : prog val := invokeTimed "getGenerators" "chain_getGeneratorList" VUndef.

End endpoints.
End Endpoints.

(** ** blocks.js and transactions.js *)
Module NodeTransactions.
Section formatted.
Context {CC : ConnectorConfig} {NE : NodeErrors} {LC : LiskCrypto} {CO : LiskCodec} {SH : Sha256}.

Definition mapped (f : val → prog val) (v : val) : prog val := l ← array_method v "map"; r ← pmap f l; Ret (VArr r).

Definition getLastBlock : prog val := block ← Endpoints.getLastBlock; formatBlock block.
Definition getBlockByHeight (height : val) (includeGenesisAssets : bool) : prog val :=
  block ← Endpoints.getBlockByHeight height includeGenesisAssets; formatBlock block.
Definition getBlocksByHeightBetween (from to : val) : prog val :=
  blocks ← Endpoints.getBlocksByHeightBetween from to; mapped formatBlock blocks.
Definition getBlockByID (id : val) : prog val := block ← Endpoints.getBlockByID id false; formatBlock block.
Definition getBlocksByIDs (ids : val) : prog val := blocks ← Endpoints.getBlocksByIDs ids; mapped formatBlock blocks.

Definition getTransactionByID (id : val) : prog val :=
  transaction ← Endpoints.getTransactionByID id; formatTransaction transaction.
Definition getTransactionsByIDs (ids : val) : prog val :=
  transactions ← Endpoints.getTransactionsByIDs ids; mapped formatTransaction transactions.
Definition getTransactionsFromPool : prog val :=
  transactions ← Endpoints.getTransactionsFromPool; mapped formatTransaction transactions.

Definition dryRunTransaction (params : val) : prog val :=
  transaction ← params @. "transaction"; skipVerify ← params @. "skipVerify"; skipDecode ← params @. "skipDecode";
  encodedTransaction ← (if ConnectorParser.is_object transaction then Encoder.encodeTransaction transaction else Ret transaction);
  response ← Endpoints.dryRunTransaction encodedTransaction skipVerify;
  if truthy skipDecode then Ret response
  else events ← response @. "events"; l ← array_method events "map"; formatted ← pmap formatEvent l;
       Ret (set_field response "events" (VArr formatted)).

End formatted.
End NodeTransactions.

(** ** The modules of the node *)
Module NodeModules.
Section modules.
Context {CC : ConnectorConfig} {NE : NodeErrors} {LC : LiskCrypto} {CO : LiskCodec} {SH : Sha256}.

(** A call whose promise is returned, not awaited, inside [try]: timeouts are not translated. *)
Definition invokeReturned (endpoint : string) (params : val) : prog val := invokeEndpoint endpoint params.

(** [if (response.error) throw new Error(response.error)] *)
Definition invokeChecked (name endpoint : string) : prog val :=
  timed (timedCall name)
    (response ← invokeEndpoint endpoint VUndef; error ← response @. "error";
     _ ← guard_throw (truthy error) (js_error (tpl error)); Ret response).

(** tokens.js *)
Definition escrowedAmounts : string := "tokens.escrowedAmounts".
Definition getTokenBalances (address : val) : prog val := invokeTimed "getTokenBalances" "token_getBalances" (VObj [("address", address)]).
Definition getTokenBalance (address tokenID : val) : prog val :=
  invokeTimed "getTokenBalance" "token_getBalance" (VObj [("address", address); ("tokenID", tokenID)]).
Definition getEscrowedAmounts (isForceUpdate : bool) : prog val :=
  timed (timedCall "getEscrowedAmounts")
    (known ← call (CVarGet escrowedAmounts);
     _ ← (if isForceUpdate || negb (truthy known)
          then v ← invokeEndpoint "token_getEscrowedAmounts" VUndef; _ ← call (CVarSet escrowedAmounts v); Ret tt else Ret tt);
     call (CVarGet escrowedAmounts)).
Definition getSupportedTokens : prog val := invokeReturned "token_getSupportedTokens" VUndef.
Definition getTotalSupply : prog val := invokeReturned "token_getTotalSupply" VUndef.
Definition getTokenInitializationFees : prog val := invokeChecked "getTokenInitializationFees" "token_getInitializationFees".
Definition tokenHasUserAccount (address tokenID : val) : prog val :=
  invokeReturned "token_hasUserAccount" (VObj [("address", address); ("tokenID", tokenID)]).

(** pos.js *)
Definition getPosValidator (address : val) : prog val := invokeTimed "getPosValidator" "pos_getValidator" (VObj [("address", address)]).
Definition getAllPosValidators : prog val := invokeTimed "getAllPosValidators" "pos_getAllValidators" VUndef.
Definition getPosValidatorsByStake (limit : val) : prog val :=
  invokeTimed "getPosValidatorsByStake" "pos_getValidatorsByStake" (VObj [("limit", limit)]).
Definition getPosConstants : prog val := invokeChecked "getPosConstants" "pos_getConstants".
Definition getPosPendingUnlocks (address : val) : prog val :=
  invokeTimed "getPosPendingUnlocks" "pos_getPendingUnlocks" (VObj [("address", address)]).

(** /^Key [a-f0-9]+ does not exist\.$/ *)
Definition is_lower_hex (a : ascii) : bool := Patterns.is_hex a && bool_decide (ApiUtils.lower (String a "") = String a "").
Definition KEY_NOT_EXIST (v : val) : bool :=
  match split_char " " (to_string v) with
  | ["Key"; key; "does"; "not"; "exist."] => negb (bool_decide (key = "")) && forallb is_lower_hex (list_ascii_of_string key)
  | _ => false
  end.

Definition getStaker (address : val) : prog val :=
  timed (timedCall "getStaker")
    (staker ← invokeEndpoint "pos_getStaker" (VObj [("address", address)]);
     error ← staker @. "error";
     unknown ← (if truthy error then message ← error @. "message"; Ret (KEY_NOT_EXIST message) else Ret false);
     Ret (if unknown : bool then VObj [("stakes", VArr []); ("pendingUnlocks", VArr [])] else staker)).
Definition getPosClaimableRewards (address : val) : prog val :=
  invokeTimed "getPosClaimableRewards" "pos_getClaimableRewards" (VObj [("address", address)]).
Definition getPosLockedReward (address tokenID : val) : prog val :=
  invokeTimed "getPosLockedReward" "pos_getLockedReward" (VObj [("address", address); ("tokenID", tokenID)]).

(** A part of the genesis asset of the module. *)
Definition genesisPart (name k : string) (height : val) : prog val :=
  timed (timedCall name)
    (block ← Endpoints.getBlockByHeight height true;
     assets ← block @. "assets"; asset ← Schema.byName_of "module" assets (VStr ConnectorNames.MODULE_NAME_POS);
     data ← asset @. "data"; entries ← data @. k; Ret (or_default entries (VArr []))).
Definition getPoSGenesisStakers (height : val) : prog val := genesisPart "getPoSGenesisStakers" "stakers" height.
Definition getPoSGenesisValidators (height : val) : prog val := genesisPart "getPoSGenesisValidators" "validators" height.

(** dynamicReward.js *)
Definition registeredRewardModule : string := "reward.registeredRewardModule".
Definition rewardTokenID : string := "reward.rewardTokenID".
Definition MODULE_DYNAMIC_REWARD : string := "dynamicReward".
Definition MODULE_REWARD : string := "reward".

Definition cacheRegisteredRewardModule : prog unit :=
  registeredModules ← Endpoints1.getRegisteredModules;
  l ← array_method registeredModules "find";
  let found := match find_js (val_includes [VStr MODULE_DYNAMIC_REWARD; VStr MODULE_REWARD]) l with Some m => m | None => VUndef end in
  _ ← call (CVarSet registeredRewardModule found);
  guard_throw (negb (truthy found)) (js_error "Unable to determine registered reward module.").

Definition invokeReward (m endpoint : string) (params : val) : prog val :=
  timed m (module ← call (CVarGet registeredRewardModule); invokeEndpoint (tpl module +:+ "_" +:+ endpoint) params).
Definition getRewardTokenID : prog val :=
  timed (timedCall "getRewardTokenID") (Endpoints1.memo rewardTokenID
    (module ← call (CVarGet registeredRewardModule);
     response ← invokeEndpoint (tpl module +:+ "_getRewardTokenID") VUndef; response @. "tokenID")).
Definition getAnnualInflation (height : val) : prog val :=
  invokeReward (Endpoints.timedFor "getAnnualInflation" ("with block height:" +:+ tpl height +:+ "."))
    "getAnnualInflation" (VObj [("height", height)]).
Definition getDefaultRewardAtHeight (height : val) : prog val :=
  invokeReward (Endpoints.timedFor "getDefaultRewardAtHeight" ("for block height:" +:+ tpl height))
    "getDefaultRewardAtHeight" (VObj [("height", height)]).

(** interoperability.js *)
Definition mainchainID : string := "interoperability.mainchainID".
Definition LENGTH_CHAIN_ID : nat := 8.
Definition getChainAccount (chainID : val) : prog val :=
  invokeTimed "getChainAccount" "interoperability_getChainAccount" (VObj [("chainID", chainID)]).
Definition getMainchainID : prog val :=
  timed (timedCall "getMainchainID") (Endpoints1.memo mainchainID
    (nodeInfo ← Endpoints1.getNodeInfo false; chainID ← nodeInfo @. "chainID";
     network ← lift (str_method chainID "substring" (str_take 2));
     Ret (VStr (network +:+ repeat_char "0" (LENGTH_CHAIN_ID - String.length network))))).

(** legacy.js, auth.js, validators.js, invoke.js *)
Definition getLegacyAccount (publicKey : val) : prog val :=
  invokeTimed "getLegacyAccount" "legacy_getLegacyAccount" (VObj [("publicKey", publicKey)]).
Definition getAuthAccount (address : val) : prog val := invokeTimed "getAuthAccount" "auth_getAuthAccount" (VObj [("address", address)]).
Definition getAuthMultiSigRegMsgSchema : prog val := invokeTimed "getMultiSigRegMsgSchema" "auth_getMultiSigRegMsgSchema" VUndef.
Definition validateBLSKey (blsKey proofOfPossession : val) : prog val :=
  invokeTimed "validateBLSKey" "validators_validateBLSKey" (VObj [("blsKey", blsKey); ("proofOfPossession", proofOfPossession)]).
Definition getValidator (address : val) : prog val := invokeTimed "getValidator" "validators_getValidator" (VObj [("address", address)]).
Definition invokeEndpointProxy (endpoint : string) (params : val) : prog val :=
  response ← invokeEndpoint endpoint params; formatResponse endpoint response.

End modules.
End NodeModules.

(** ** events.js, and the events of the connector *)
Module NodeEvents.
Section events.
Context {CC : ConnectorConfig} {NE : NodeErrors} {LC : LiskCrypto} {CO : LiskCodec} {SH : Sha256}.

Definition events : list string :=
  ["chain_forked"; "chain_newBlock"; "chain_deleteBlock"; "chain_validatorsChanged"; "txpool_newTransaction"].

(** What the subscription of an event does with a payload. *)
Definition onEvent (event : string) (payload : val) : prog unit :=
  _ ← (if starts_with "chain_" event
       then _ ← Endpoints1.getNodeInfo true; _ ← NodeModules.getEscrowedAmounts true; Ret tt else Ret tt);
  _ ← call (CSignal event payload); Ret tt.

(** The names that are subscribed to. *)
Definition subscribeToAllRegisteredEvents : prog unit :=
  apiClient ← getApiClient;
  registeredEvents ← Endpoints1.getRegisteredEvents;
  l ← array_method registeredEvents "concat";
  piter (λ event, _ ← call (CRpc "apiClient" "subscribe" (VArr [apiClient; event])); Ret tt) (l ++ map VStr events).

Definition getEventsByHeight (height : val) : prog val :=
  chainEvents ← Endpoints.getEventsByHeight height; NodeTransactions.mapped formatEvent chainEvents.

(** events/proxy/allEvents.js: each event is passed on under the name of a signal. *)
Definition camelWord (i : nat) (word : string) : string :=
  match i with
  | O => ApiUtils.lower word
  | _ => match word with EmptyString => EmptyString | String a r => String (upper_char a) r end
  end.
Definition toCamelCase (words : list string) : string := String.concat "" (imap camelWord words).
Definition eventListener (regEvent : string) (payload : val) : prog unit :=
  _ ← call (CSignal (toCamelCase (split_char "_" regEvent)) payload); Ret tt.

(** The events that are offered; the subscriptions are made first. *)
Definition exportAllEvents : prog (list val) :=
  _ ← subscribeToAllRegisteredEvents;
  registeredEvents ← Endpoints1.getRegisteredEvents;
  Ret (map VStr events ++ match registeredEvents with VArr l => l | v => [v] end).

(** events/blockchain.js and events/controller/blockchain.js: the events that are
    broadcast, and the signals they wait for. *)
Definition sdkEvents : list (string * string) :=
  [("appReady", "appReady"); ("appShutdown", "appShutdown"); ("appNetworkReady", "appNetworkReady");
   ("appNetworkEvent", "appNetworkEvent"); ("txpoolNewTransaction", "txpoolNewTransaction");
   ("chainForked", "chainForked"); ("chainValidatorsChange", "chainValidatorsChanged");
   ("chainNewBlock", "chainNewBlock"); ("chainDeleteBlock", "chainDeleteBlock")].

(** index.js: the start of the service. *)
Definition init : prog unit :=
  _ ← Endpoints1.getNodeInfo true;
  _ ← NodeModules.cacheRegisteredRewardModule;
  _ ← ConnectorFee.cacheFeeConstants;
  schemas ← Endpoints1.getSchemas; _ ← Schema.setSchemas schemas;
  metadata ← Endpoints1.getSystemMetadata; _ ← Schema.setMetadata metadata;
  _ ← Genesis.getGenesisBlock false; Ret tt.

End events.
End NodeEvents.
