(* ===== verification/NodePeers.v ===== *)
(** * The peers of the node, and the methods of the connector

    services/blockchain-connector: [PeerCache] is shared/sdk/peerCache.js and
    shared/geolocation.js, [NodeStatus] shared/nodeStatus.js, shared/status.js
    and shared/sdk/network.js, [Methods] methods/*.js. *)
From S2P Require Export NodeEndpoints.
Open Scope string_scope.
Open Scope Z_scope.
Open Scope list_scope.
Import Client.

(** config.endpoints.geoip, and [encodeURI] of the HTTP client. *)
Class GeoConfig := { freegeoAddress : string; geo_encodeURI : string → string }.

(** ** shared/geolocation.js *)
Module Geolocation.
Section geo.
Context {GC : GeoConfig} {AE : AxiosErrors}.

Definition geodata : string := "geodata".
Definition keyOf (requestedIp : val) : string := "geoip:" +:+ tpl requestedIp.

(** An address without http: neither resolved nor rejected. *)
Definition getFromHttp (ip : val) : prog val :=
  if str_includes "http" freegeoAddress then
    body ← HttpClient.request geo_encodeURI (freegeoAddress +:+ "/" +:+ tpl ip) VUndef;
    match body with VStr s => lift (json_parse s) | v => Ret v end
  else Throw unsettled.

(** The timer that asks again later is not modelled. *)
Definition refreshData (key : string) (ip : val) : prog unit :=
  detach (data ← getFromHttp ip;
          if truthy data then v ← data @. "data"; _ ← call (CCacheSet geodata key v); Ret tt else Ret tt).

Definition requestData (requestedIp : val) : prog val :=
  let key := keyOf requestedIp in
  found ← call (CCacheGet geodata key);
  _ ← (if truthy found then Ret tt else refreshData key requestedIp);
  Ret found.

End geo.
End Geolocation.

(** ** shared/sdk/peerCache.js *)
Module PeerCache.

Definition CONNECTED : string := "connected".
Definition DISCONNECTED : string := "disconnected".

(** The members of [peerStore]: they start empty. *)
Definition store (k : string) : string := "peerCache." +:+ k.
Definition get (type : string) : prog val := v ← call (CVarGet (store type)); Ret (or_default v (VArr [])).
Definition put (type : string) (v : val) : prog val := call (CVarSet (store type) v).

Definition refactorPeer (state : string) (orgPeer : val) : prog val :=
  ipAddress ← orgPeer @. "ipAddress"; options ← orgPeer @. "options"; height ← or_default options (VObj []) @. "height";
  let peer := odel (odel (props orgPeer) "ipAddress") "options" in
  Ret (VObj (oset (oset (oset (ospread [] peer) "state" (VStr state)) "height" height) "ip" ipAddress)).

(** [stats[elem] = (stats[elem] || 0) + 1] for each truthy element. *)
Definition count_one (stats : list (string * val)) (elem : val) : result (list (string * val)) :=
  if truthy elem then
    n ← js_add (js_or (default VUndef (oget stats (to_string elem))) (VNum 0)) (VNum 1);
    Ok (oset stats (to_string elem) n)
  else Ok stats.
Fixpoint count_all (stats : list (string * val)) (l : list val) : result (list (string * val)) :=
  match l with [] => Ok stats | x :: r => s ← count_one stats x; count_all s r end.

(** A Linux version without what follows its second part, and its first dash. *)
Definition mapOs (elem : val) : result val :=
  match elem with
  | VStr s =>
      if starts_with "linux" s then
        let splitOsString := split_char "." s in
        minor ← js_split (nth_str splitOsString 1) "-";
        Ok (VStr (default "" (splitOsString !! 0%nat) +:+ "." +:+ default "" (minor !! 0%nat)))
      else Ok elem
  | _ => Ok elem
  end.
Fixpoint mapAllOs (l : list val) : result (list val) :=
  match l with [] => Ok [] | x :: r => y ← mapOs x; t ← mapAllOs r; Ok (y :: t) end.

(** The values of one property of the peers. *)
Definition column (k : string) (l : list val) : prog (list val) := pmap (λ elem : val, elem @. k) l.
Definition countColumn (k : string) (l : list val) : prog val :=
  c ← column k l; s ← lift (count_all [] c); Ret (VObj s).

Definition refreshStatistics : prog val :=
  peers ← get "peers"; connected ← get "connected"; disconnected ← get "disconnected";
  totalPeers ← peers @. "length"; connectedPeers ← connected @. "length"; disconnectedPeers ← disconnected @. "length";
  l ← array_method connected "map";
  height ← countColumn "height" l; coreVer ← countColumn "version" l; networkVersion ← countColumn "networkVersion" l;
  os ← column "os" l; mappedOs ← lift (mapAllOs os); osStats ← lift (count_all [] mappedOs);
  Ret (VObj [("basic", VObj [("totalPeers", totalPeers); ("connectedPeers", connectedPeers); ("disconnectedPeers", disconnectedPeers)]);
             ("height", height); ("coreVer", coreVer); ("networkVersion", networkVersion); ("os", VObj osStats)]).

Definition emptyStatistics : val := VObj [("basic", VObj []); ("coreVer", VObj []); ("height", VObj []); ("os", VObj [])].
Definition getStatistics : prog val := v ← call (CVarGet (store "statistics")); Ret (or_default v emptyStatistics).

Definition inState (state : string) (l : list val) : prog (list val) :=
  pfilter (λ o, s ← o @. "state"; Ret (strict_eq s (VStr state))) l.

Section cache.
Context {CC : ConnectorConfig} {NE : NodeErrors} {LC : LiskCrypto} {CO : LiskCodec} {SH : Sha256} {GC : GeoConfig} {AE : AxiosErrors}.

Definition addLocation (ipAddress : val) : prog val := attempt (Geolocation.requestData ipAddress) (λ _, Ret (VObj [])).

Definition withLocation (peer : val) : prog val :=
  ip ← peer @. "ip"; location ← addLocation ip; Ret (set_field peer "location" location).

Definition getNetworkPeers : prog (list val) :=
  connectedPeers ← Endpoints.getNetworkConnectedPeers; cl ← array_method connectedPeers "map";
  connected ← pmap (refactorPeer CONNECTED) cl;
  disconnectedPeers ← Endpoints.getNetworkDisconnectedPeers; dl ← array_method disconnectedPeers "map";
  disconnected ← pmap (refactorPeer DISCONNECTED) dl;
  pmap withLocation (connected ++ disconnected).

(** What was assigned before an error stays assigned. *)
Definition reload : prog unit :=
  attempt
    (peers ← getNetworkPeers; _ ← put "peers" (VArr peers);
     connected ← inState CONNECTED peers; _ ← put "connected" (VArr connected);
     disconnected ← inState DISCONNECTED peers; _ ← put "disconnected" (VArr disconnected);
     statistics ← refreshStatistics; _ ← put "statistics" statistics;
     _ ← call (CSignal "peerReload" (VArr peers)); Ret tt)
    (λ _, Ret tt).

(** jobs/peers.js: neither the start nor the job waits for the reload. *)
Definition refresh_peers : prog unit := detach reload.

End cache.
End PeerCache.

(** ** network.js, nodeStatus.js and status.js *)
Module NodeStatus.
Section status.
Context {CC : ConnectorConfig} {NE : NodeErrors}.

Definition genesisConfig : string := "network.genesisConfig".
Definition getGenesisConfig : prog val :=
  Endpoints1.memo genesisConfig (networkStatus ← Endpoints1.getNodeInfo false; networkStatus @. "genesis").
Definition getNetworkStatus : prog val := Endpoints1.getNodeInfo false.
Definition getNetworkConnectedPeers : prog val := PeerCache.get "connected".
Definition getNetworkDisconnectedPeers : prog val := PeerCache.get "disconnected".
Definition getNetworkPeers : prog val := PeerCache.get "peers".
Definition getNetworkPeersStatistics : prog val := PeerCache.getStatistics.

Definition checkStatus : prog val := Endpoints1.getNodeInfo false.
Definition waitForNode : prog val := waitForIt polls checkStatus.

(** [service] and [version] are those of package.json. *)
Definition isReady : string := "status.isReady".
Definition getStatus (service version : val) : prog val :=
  ready ← call (CVarGet isReady);
  _ ← (if truthy ready then Ret tt
       else networkStatus ← getNetworkStatus; names ← lift (own_names networkStatus);
            _ ← call (CVarSet isReady (VBool (negb (bool_decide (names = []))))); Ret tt);
  ready ← call (CVarGet isReady);
  Ret (VObj [("service", service); ("version", version); ("isReady", ready)]).

End status.
End NodeStatus.

(** ** methods *)
Module Methods.
Section methods.
Context {CC : ConnectorConfig} {NE : NodeErrors} {LC : LiskCrypto} {CO : LiskCodec} {SH : Sha256} (service version : val).
Import NodeModules.

Definition method : Type := (string * (val → prog val)).

(** [async ({ k }) => f(k)], also for two and for no names. *)
Definition with_ (k : string) (f : val → prog val) (params : val) : prog val := v ← params @. k; f v.
Definition with2 (k k' : string) (f : val → val → prog val) (params : val) : prog val :=
  v ← params @. k; v' ← params @. k'; f v v'.
Definition without_ (f : prog val) (params : val) : prog val := f.

(** The parameters are the first argument of a controller that is the
    function itself: an object, which counts as true. *)
Definition blocks : list method :=
  [("getLastBlock", without_ NodeTransactions.getLastBlock); ("getBlockByID", with_ "id" NodeTransactions.getBlockByID);
   ("getBlocksByIDs", with_ "ids" NodeTransactions.getBlocksByIDs);
   ("getBlockByHeight", with_ "height" (λ height, NodeTransactions.getBlockByHeight height false));
   ("getBlocksByHeightBetween", with2 "from" "to" NodeTransactions.getBlocksByHeightBetween);
   ("getGenesisHeight", without_ Genesis.getGenesisHeight); ("getGenesisBlockID", without_ Genesis.getGenesisBlockID);
   ("getGenesisBlock", λ params, Genesis.getGenesisBlock (truthy params)); ("getGenesisConfig", without_ Genesis.getGenesisConfig);
   ("getGenesisAssetByModule", Genesis.getGenesisAssetByModule); ("getGenesisAssetsLength", Genesis.getGenesisAssetsLength)].

Definition transactions : list method :=
  [("getTransactionByID", with_ "id" NodeTransactions.getTransactionByID);
   ("getTransactionsByIDs", with_ "ids" NodeTransactions.getTransactionsByIDs);
   ("getTransactionsFromPool", without_ NodeTransactions.getTransactionsFromPool);
   ("postTransaction", with_ "transaction" Endpoints.postTransaction);
   ("dryRunTransaction", NodeTransactions.dryRunTransaction)].

Definition tokens : list method :=
  [("getTokenBalance", with2 "address" "tokenID" getTokenBalance); ("getTokenBalances", with_ "address" getTokenBalances);
   ("getEscrowedAmounts", without_ (getEscrowedAmounts false)); ("getSupportedTokens", without_ getSupportedTokens);
   ("getTotalSupply", without_ getTotalSupply); ("tokenHasUserAccount", with2 "address" "tokenID" tokenHasUserAccount);
   ("getTokenInitializationFees", without_ getTokenInitializationFees)].

Definition pos : list method :=
  [("getPosValidator", with_ "address" getPosValidator); ("getAllPosValidators", without_ getAllPosValidators);
   ("getPosValidatorsByStake", with_ "limit" getPosValidatorsByStake); ("getPosConstants", without_ getPosConstants);
   ("getPosPendingUnlocks", with_ "address" getPosPendingUnlocks); ("getStaker", with_ "address" getStaker);
   ("getPosClaimableRewards", with_ "address" getPosClaimableRewards);
   ("getPosLockedReward", with2 "address" "tokenID" getPosLockedReward);
   ("getPoSGenesisStakers", with_ "height" getPoSGenesisStakers); ("getPoSGenesisValidators", with_ "height" getPoSGenesisValidators)].

Definition dynamicReward : list method :=
  [("getRewardTokenID", without_ getRewardTokenID); ("getAnnualInflation", with_ "height" getAnnualInflation);
   ("getDefaultRewardAtHeight", with_ "height" getDefaultRewardAtHeight)].
Definition fee : list method :=
  [("getFeeTokenID", without_ ConnectorFee.getFeeTokenID); ("getMinFeePerByte", without_ ConnectorFee.getMinFeePerByte)].
Definition auth : list method :=
  [("getAuthAccount", with_ "address" getAuthAccount); ("getAuthMultiSigRegMsgSchema", without_ getAuthMultiSigRegMsgSchema)].
Definition interoperability : list method :=
  [("getChainAccount", with_ "chainID" getChainAccount); ("getMainchainID", without_ getMainchainID)].
Definition legacy : list method := [("getLegacyAccount", with_ "publicKey" getLegacyAccount)].
Definition events : list method := [("getEventsByHeight", with_ "height" NodeEvents.getEventsByHeight)].
Definition validators : list method :=
  [("validateBLSKey", with2 "blsKey" "proofOfPossession" validateBLSKey); ("getValidator", with_ "address" getValidator)].
Definition generators : list method :=
  [("getGenerators", without_ Endpoints.getGenerators); ("getGeneratorStatus", without_ Endpoints.getGeneratorStatus);
   ("updateGeneratorStatus", Endpoints.updateGeneratorStatus)].
Definition network : list method :=
  [("getNetworkStatus", without_ NodeStatus.getNetworkStatus); ("getNetworkPeers", without_ NodeStatus.getNetworkPeers);
   ("getNetworkConnectedPeers", without_ NodeStatus.getNetworkConnectedPeers);
   ("getNetworkDisconnectedPeers", without_ NodeStatus.getNetworkDisconnectedPeers);
   ("getNetworkPeersStatistics", without_ NodeStatus.getNetworkPeersStatistics)].
Definition invoke (params : val) : prog val :=
  endpoint ← params @. "endpoint"; p ← params @. "params";
  data ← invokeEndpointProxy (to_string endpoint) p;
  Ret (VObj [("data", data); ("meta", VObj [("endpoint", endpoint); ("params", p)])]).
Definition node : list method :=
  [("invokeEndpoint", invoke); ("getSchema", without_ Endpoints1.getSchemas);
   ("getRegisteredActions", without_ Endpoints1.getRegisteredActions); ("getRegisteredEvents", without_ Endpoints1.getRegisteredEvents);
   ("getRegisteredModules", without_ Endpoints1.getRegisteredModules);
   ("getNodeInfo", λ params, Endpoints1.getNodeInfo (truthy params)); ("getSystemMetadata", without_ Endpoints1.getSystemMetadata)].
Definition status : list method := [("status", without_ (NodeStatus.getStatus service version))].

Definition all : list method :=
  auth ++ blocks ++ dynamicReward ++ events ++ fee ++ generators ++ interoperability ++ legacy ++ network ++ node ++ pos ++
  status ++ tokens ++ transactions ++ validators.

(** methods/proxy/allEndpoints.js: endpoints.js has no [invokeEndpointProxy]. *)
Definition exportAllMethods : prog (list method) :=
  registeredEndpoints ← Endpoints1.getRegisteredActions;
  l ← array_method registeredEndpoints "map";
  Ret (map (λ endpoint, (to_string endpoint, λ _, Throw (not_a_function "endpoints.invokeEndpointProxy"))) l).

(** What a method of the service answers. *)
Definition answer (name : string) (params : val) : option (prog val) := (λ f, f params) <$> aget all name.

End methods.
End Methods.
