(* ===== verification/ConnectorThms.v ===== *)
(** * What the connector asks the node, and what it makes of the answers

    Requests that are repeated, requests that are never answered;
    transactions that are validated before they are sent; the topics of
    events. *)
From S2P Require Export QueryThms NodePeers.
Open Scope string_scope.
Open Scope Z_scope.
Open Scope list_scope.
Import Client.

(** ** Attempts *)

Lemma exec_attempt {A} (p : prog A) h tr out :
  exec (attempt p h) tr out →
  (∃ a, exec p tr (Ok a) ∧ out = Ok a) ∨
  (∃ tr1 tr2 e, tr = tr1 ++ tr2 ∧ exec p tr1 (Err e) ∧
     if is_unsettled e then tr2 = [] ∧ out = Err e else exec (h e) tr2 out).
Proof.
  intros [H|(tr1 & tr2 & e & -> & H1 & H2)]%exec_catch; [by left|]. right. exists tr1, tr2, e. split_and!; [done..|].
  destruct (is_unsettled e); [|done]. by apply exec_throw_inv in H2 as [-> ->].
Qed.

Lemma exec_timed_Ok {A} m (p : prog A) tr v : exec (timed m p) tr (Ok v) → exec p tr (Ok v).
Proof.
  intros [(a & H & [= ->])|(t1 & t2 & e & -> & H1 & H2)]%exec_attempt; [done|].
  destruct (is_unsettled e); [by destruct H2|]. destruct (str_includes _ _); by apply exec_throw_inv in H2 as [_ ?].
Qed.

Lemma pall_attempt {A} P (p : prog A) h : pall P p → (∀ e, pall P (h e)) → pall P (attempt p h).
Proof. intros Hp Hh. apply pall_catch; [done|]. intros e. destruct (is_unsettled e); [apply pall_throw|done]. Qed.

(** ** Requests *)

Section client.
Context {CC : ConnectorConfig} {NE : NodeErrors}.

(** A client one can call. *)
Definition callable (apiClient : val) : Prop :=
  ∃ channel f, prop apiClient "_channel" = Ok channel ∧ prop channel "invoke" = Ok f.

Lemma exec_channelInvoke c ep p tr out :
  callable c → exec (channelInvoke c ep p) tr out → tr = [(CRpc "node" ep p, out)].
Proof.
  intros (channel & f & H1 & H2) H. unfold channelInvoke in H. rewrite H1 in H. cbn -[prop] in H. rewrite H2 in H.
  by apply exec_call_inv in H.
Qed.

(** C27. A request of the node is sent again only after a timeout of the
    framework's class, at most as often as there are retries, and what is
    answered last is the outcome. *)
Theorem invoke_retries n c ep p tr out :
  callable c → exec (invokeLoop n c ep p) tr out →
  ∃ errs, tr = map (λ e, (CRpc "node" ep p, Err e)) errs ++ [(CRpc "node" ep p, out)] ∧ (length errs ≤ n)%nat ∧
    Forall (λ e, isTimeout e = true ∧ is_unsettled e = false) errs ∧
    match out with
    | Ok _ => True
    | Err e => is_unsettled e = true ∨ isTimeout e = false ∨ length errs = n
    end.
Proof.
  intros Hc. revert tr. induction n as [|n IH]; intros tr; cbn [invokeLoop].
  - intros [(a & H%(exec_channelInvoke _ _ _ _ _ Hc) & ->)|(t1 & t2 & e & -> & ->%(exec_channelInvoke _ _ _ _ _ Hc) & H)]%exec_attempt.
    + exists []. by split_and!; [|simpl; lia|constructor|].
    + exists []. destruct (is_unsettled e) eqn:Eu; [destruct H as [-> ->]|apply exec_throw_inv in H as [-> ->]];
        (split_and!; [done|simpl; lia|constructor|]); [by left|by right; right].
  - intros [(a & H%(exec_channelInvoke _ _ _ _ _ Hc) & ->)|(t1 & t2 & e & -> & ->%(exec_channelInvoke _ _ _ _ _ Hc) & H)]%exec_attempt.
    + exists []. by split_and!; [|simpl; lia|constructor|].
    + destruct (is_unsettled e) eqn:Eu.
      { destruct H as [-> ->]. exists []. by split_and!; [|simpl; lia|constructor|left]. }
      destruct (isTimeout e) eqn:Et.
      * destruct (IH _ H) as (errs & -> & Hl & Hf & Ho). exists (e :: errs).
        split_and!; [done|simpl; lia|by constructor|]. destruct out as [|e']; [done|].
        destruct Ho as [?|[?|?]]; [by left|by right; left|right; right; simpl; lia].
      * apply exec_throw_inv in H as [-> ->]. exists []. by split_and!; [|simpl; lia|constructor|right; left].
Qed.

Lemma exec_invokeLoop_Ok n c ep p tr v : exec (invokeLoop n c ep p) tr (Ok v) → (CRpc "node" ep p, Ok v) ∈ tr.
Proof.
  revert tr. induction n as [|n IH]; intros tr; cbn [invokeLoop];
    intros [(a & H & [= ->])|(t1 & t2 & e & -> & H1 & H)]%exec_attempt.
  1, 3: unfold channelInvoke in H; inv_exec; set_solver.
  all: destruct (is_unsettled e); [by destruct H|].
  - by apply exec_throw_inv in H as [_ ?].
  - destruct (isTimeout e); [|by apply exec_throw_inv in H as [_ ?]]. apply IH in H. set_solver.
Qed.

Lemma exec_invoke_Ok ep p tr v : exec (invokeEndpoint ep p) tr (Ok v) → (CRpc "node" ep (or_default p (VObj [])), Ok v) ∈ tr.
Proof. unfold invokeEndpoint. intros (t1 & t2 & c & -> & _ & H%exec_invokeLoop_Ok)%exec_bind_Ok. set_solver. Qed.

End client.

(** ** Requests that are never answered *)

Section hang.
Context {E : Type} {HE : Engine E} {CC : ConnectorConfig} {NE : NodeErrors}.

Lemma run_attempt_unsettled {A} (p : prog A) h (w w' : world E) :
  run p w = (w', Err unsettled) → run (attempt p h) w = (w', Err unsettled).
Proof. intros H. unfold attempt. by rewrite run_catch, H. Qed.

(** While a client is being made, a call gives [undefined]. *)
Lemma run_instantiating (w : world E) :
  truthy (default VUndef (w_vars w !! isInstantiating)) = true →
  (∀ e, ∃ now, (handle CNow e).2 = Ok (VNum now)) → (∃ b, w_vars w !! instantiationBeginTime = Some (VNum b)) →
  ∃ w', run instantiateClient w = (w', Ok VUndef).
Proof.
  intros Hi Hnow [b Hb]. unfold instantiateClient, attempt. rewrite run_catch, run_bind, run_call. cbn [step]. rewrite Hi. cbn [negb].
  rewrite run_bind, run_call. cbn [step]. destruct (Hnow (w_ext w)) as [now Hn]. destruct (handle CNow (w_ext w)) as [e' r]. simpl in Hn. subst r.
  rewrite run_bind, run_call. cbn [step w_vars]. rewrite Hb. cbn [default].
  rewrite run_bind, run_lift. cbn. match goal with |- context [js_gt ?a ?b] => destruct (js_gt a b) end; eexists; reflexivity.
Qed.

(** C28. A request that arrives while the API client is being made is never
    answered, however long that takes: the first look clears the timer that
    would look again. *)
Theorem request_while_instantiating (w : world E) endpoint params :
  polls ≠ 0%nat → truthy (default VUndef (w_vars w !! isInstantiating)) = true →
  (∀ e, ∃ now, (handle CNow e).2 = Ok (VNum now)) → (∃ b, w_vars w !! instantiationBeginTime = Some (VNum b)) →
  (run (invokeEndpoint endpoint params) w).2 = Err unsettled ∧
  (∀ name, (run (invokeTimed name endpoint params) w).2 = Err unsettled) ∧
  ∀ p (h : exn → prog val), (run (attempt (v ← invokeEndpoint endpoint params; p v) h) w).2 = Err unsettled.
Proof.
  intros Hp Hi Hnow Hb. destruct (run_instantiating w Hi Hnow Hb) as [w' Hw].
  assert (run (invokeEndpoint endpoint params) w = (w', Err unsettled)) as H.
  { unfold invokeEndpoint, getApiClient. destruct polls as [|n]; [done|]. cbn [getApiClientFor]. rewrite run_bind.
    unfold waitForIt, tried. rewrite run_bind, run_bind. unfold attempt at 1. rewrite run_catch, run_bind, Hw. done. }
  split; [by rewrite H|]. split.
  - intros name. unfold invokeTimed, timed. by rewrite (run_attempt_unsettled _ _ _ _ H).
  - intros p h. erewrite run_attempt_unsettled; [done|]. by rewrite run_bind, H.
Qed.
End hang.

(** ** Transactions *)

Lemma pall_bind_Ok {A B} P (p : prog A) (f : A → prog B) :
  pall P p → (∀ tr a, exec p tr (Ok a) → pall P (f a)) → pall P (p ≫= f).
Proof.
  unfold pall. induction p as [a|e|c k IH]; intros Hp Hf; cbn.
  - apply (Hf []). constructor.
  - done.
  - destruct Hp as [Hc Hk]. split; [done|]. intros r. apply IH; [apply Hk|].
    intros tr a H. apply (Hf ((c, r) :: tr)). by constructor.
Qed.

Section transactions.
Context {CC : ConnectorConfig} {NE : NodeErrors} {LC : LiskCrypto} {CO : LiskCodec}.

Lemma pall_waitForIt P n f : pall P f → pall P (waitForIt n f).
Proof.
  intros Hf. assert (pall P (tried f)) as Ht. { apply pall_attempt; [|intros e; pall]. apply pall_bind; [done|]. pall. }
  assert (pall P (timer n f)) as Hn.
  { induction n; [apply pall_throw|]. cbn [timer]. apply pall_bind; [done|]. intros [[]|]; try apply pall_ret; done. }
  apply pall_bind; [done|]. intros [[]|]; try apply pall_ret; try apply pall_throw; done.
Qed.

(** Making requests: one endpoint of the node is called. *)
Lemma pall_invokeEndpoint P ep p :
  (∀ c, (∀ ep q, c ≠ CRpc "node" ep q) → P c) → P (CRpc "node" ep (or_default p (VObj []))) → pall P (invokeEndpoint ep p).
Proof.
  intros Ho Hc. assert (pall P checkIsClientAlive) as Ha.
  { unfold checkIsClientAlive. pall; try done; apply pall_call; by apply Ho. }
  assert (pall P instantiateClient) as Hi.
  { apply pall_attempt; [|intros; pall]. unfold newClient, createClient. pall; try done; apply pall_call; by apply Ho. }
  assert (∀ n, pall P (getApiClientFor n)) as Hg.
  { induction n; [apply pall_throw|]. cbn [getApiClientFor]. apply pall_bind; [by apply pall_waitForIt|]. intros a.
    apply pall_bind; [done|]. intros b. destruct (truthy b); [apply pall_ret|done]. }
  apply pall_bind; [apply Hg|]. intros client. generalize NUM_REQUEST_RETRIES.
  assert (pall P (channelInvoke client ep (or_default p (VObj [])))) as Hch.
  { unfold channelInvoke. pall. }
  induction n; cbn [invokeLoop]; (apply pall_attempt; [done|]); intros e; [apply pall_throw|].
  destruct (isTimeout e); [done|apply pall_throw].
Qed.

Lemma pall_byName_of P k l n : pall P (Schema.byName_of k l n).
Proof. unfold Schema.byName_of, array_method. pall. apply pall_pfind. by pall. Qed.

(** What is sent for a transaction with parts of its own: both the parameters
    and the transaction as they are encoded have been validated. *)
Definition validated_request (transaction skipVerify q : val) : Prop :=
  ∃ paramsSchema txSchema params tx paramsBytes txBytes,
    q = VObj [("transaction", VStr (hex_of_bytes txBytes)); ("skipVerify", skipVerify)] ∧
    ConnectorParser.parseInputBySchema (field transaction "params") paramsSchema = Ok params ∧
    validator_validate paramsSchema params = Ok tt ∧ codec_encode paramsSchema params = Ok paramsBytes ∧
    field tx "params" = buffer paramsBytes ∧
    validator_validate txSchema tx = Ok tt ∧ codec_encode txSchema tx = Ok txBytes.

Lemma exec_validated schema v tr u : exec (Encoder.validated schema v) tr (Ok u) → tr = [] ∧ validator_validate schema v = Ok tt.
Proof.
  intros [(a & [-> H]%exec_lift & _)|(t1 & t2 & e & -> & _ & H)]%exec_attempt; [by destruct a|].
  destruct (is_unsettled e); [by destruct H|]. by apply exec_throw_inv in H as [_ ?].
Qed.

Lemma encodeTransaction_validated transaction skipVerify tr v :
  exec (Encoder.encodeTransaction transaction) tr (Ok v) →
  validated_request transaction skipVerify (VObj [("transaction", v); ("skipVerify", skipVerify)]).
Proof.
  unfold Encoder.encodeTransaction. intros H.
  bind H as ps _. bind H as ts _.
  bind H as params [_ ->]%exec_prop.
  bind H as pp [_ Hpp]%exec_lift.
  bind H as pt _.
  bind H as u [_ Hv]%exec_validated.
  bind H as pb [_ Hpb]%exec_lift. cbv zeta in H.
  apply exec_bind_Ok in H as (? & ? & u' & -> & [_ Hv']%exec_validated & H).
  bind H as b [_ Hb]%exec_lift. apply exec_ret_inv in H as [_ [= ->]].
  exists ps, ts, pp, (spread pt (VObj [("params", buffer pb)])), pb, b. split_and!; try done.
  unfold field, spread, prop, ospread at 1. cbn [props fold_left fst snd]. by rewrite oget_oset_eq.
Qed.

Lemma pall_schemas P transaction : (∀ x, P (CVarGet x)) → pall P (Schema.getTransactionParamsSchema transaction).
Proof.
  intros Hv. unfold Schema.getTransactionParamsSchema, Schema.metadataModules, Schema.byName. pall; first [by apply pall_call|apply pall_byName_of].
Qed.

Lemma pall_eventSchema P name : (∀ x, P (CVarGet x)) → pall P (Schema.getDataSchemaByEventName name).
Proof.
  intros Hv. assert (∀ l, pall P (Schema.eventNamed name l)) as He by (induction l; cbn [Schema.eventNamed]; pall).
  assert (∀ l, pall P (Schema.eventOfModules name l)) as Hm by (induction l; cbn [Schema.eventOfModules]; pall).
  unfold Schema.getDataSchemaByEventName, Schema.metadataModules, Schema.schemaOf. pall; try done; by apply pall_call.
Qed.

Lemma pall_formatEvent P event : (∀ x, P (CVarGet x)) → pall P (Formatter.formatEvent event).
Proof.
  intros Hv. assert (pall P (Formatter.eventDataOf event)) as He.
  { unfold Formatter.eventDataOf. pall; try by apply pall_eventSchema. apply pall_pfold. intros d k.
    unfold Formatter.formatAddressOf, method_toString. pall. }
  unfold Formatter.formatEvent, Schema.getEventSchema, Schema.schemaOf, array_method. pall; try done; by apply pall_call.
Qed.

(** C23. For a transaction that is given in parts, a dry run is asked of the node
    only for the bytes of a transaction that was validated against its schema,
    with parameters that were validated against theirs; nothing else reaches
    the node. *)
Theorem dry_run_validated {SH : Sha256} params o tr out :
  field params "transaction" = VObj o →
  exec (NodeTransactions.dryRunTransaction params) tr out →
  Forall (λ cr, ∀ ep q, cr.1 = CRpc "node" ep q →
            ep = "txpool_dryRunTransaction" ∧ validated_request (VObj o) (field params "skipVerify") q) tr.
Proof.
  intros Ho. apply (pall_exec (λ c, ∀ ep q, c = CRpc "node" ep q →
    ep = "txpool_dryRunTransaction" ∧ validated_request (VObj o) (field params "skipVerify") q)). unfold NodeTransactions.dryRunTransaction.
  apply pall_bind_Ok; [by pall|]. intros t1 transaction [_ ->]%exec_prop. rewrite Ho.
  apply pall_bind_Ok; [by pall|]. intros t2 sv [_ ->]%exec_prop.
  apply pall_bind; [by pall|]. intros skipDecode. cbn [ConnectorParser.is_object].
  apply pall_bind_Ok.
  { unfold Encoder.encodeTransaction, Schema.getTransactionSchema, Schema.schemaOf. pall; try (by apply pall_call); [by apply pall_schemas|..];
      (apply pall_attempt; [by pall|intros; pall]). }
  intros t3 v Hv. apply pall_bind.
  { apply pall_attempt; [|intros; pall]. apply pall_invokeEndpoint; [by intros c Hc ep q ->; destruct (Hc ep q)|].
    intros ep q [= <- <-]. split; [done|]. by eapply encodeTransaction_validated. }
  intros response. unfold array_method. pall. apply pall_pmap. intros. by apply pall_formatEvent.
Qed.
End transactions.

(** ** Events *)

Section events.
Context {LC : LiskCrypto} {CO : LiskCodec}.
Import ConnectorParser Formatter.

Lemma buffer_of_buffer b : buffer_of (buffer b) = Some b.
Proof. cbn. f_equal. rewrite map_map. by apply map_id. Qed.

Lemma parse_some v b : buffer_of v = Some b → parseToJSONCompatObj v = VStr (hex_of_bytes b).
Proof. destruct v; try done. intros H. cbn [parseToJSONCompatObj]. by rewrite H. Qed.

Lemma buffer_of_None o k : oget o k ≠ None → k ≠ "type" → k ≠ "data" → buffer_of (VObj o) = None.
Proof.
  intros Hk Ht Hd. destruct o as [|[t [| | | | | |n| |]] [|[d [| | | | | | |l|]] [|]]]; try done. cbn [buffer_of].
  destruct (bool_decide_reflect (t = "type")) as [->|]; [|done]. destruct (bool_decide (n = "Buffer")); [|done].
  destruct (bool_decide_reflect (d = "data")) as [->|]; [|done]. destruct Hk. cbn [oget]. by rewrite !decide_False.
Qed.

(** The parts of an object that is not a buffer are made JSON each by itself. *)
Lemma parse_fields o k x :
  buffer_of (VObj o) = None → oget o k = Some x →
  match x with VStr _ => True | VArr _ => True | VObj _ => True | _ => False end →
  field (parseToJSONCompatObj (VObj o)) k = parseToJSONCompatObj x.
Proof.
  intros Hb Hx Hs. cbn [parseToJSONCompatObj]. rewrite Hb. unfold field, prop.
  match goal with |- context [map (λ kv, (kv.1, @?f kv)) o] => pose (g := λ v, f ("", v)) end. cbv beta in g.
  erewrite (map_ext _ (λ kv, (kv.1, g kv.2))) by (intros [? []]; reflexivity). rewrite oget_map, Hx. by destruct x.
Qed.

Lemma parse_texts l : map parseToJSONCompatObj (map VStr l) = map VStr l.
Proof. rewrite map_map. by apply map_ext. Qed.

(** What becomes of one topic. *)
Definition topic_shown (name t t' : string) : Prop :=
  if isAddressTopic name && negb (starts_with "lsk" t)
  then lisk32_of_address (bytes_of_hex t) = Ok t'
  else t' = t.

Lemma formatTopics_shown names i l r :
  formatTopics names i (map VStr l) = Ok r →
  ∃ out, r = map VStr out ∧ length out = length l ∧
    ∀ j t, l !! j = Some t → ∃ t', out !! j = Some t' ∧ topic_shown (default "" (names !! (i + j)%nat)) t t'.
Proof.
  revert i r. induction l as [|t l IH]; intros i r; cbn [map formatTopics].
  { intros [= <-]. by exists []. }
  destruct (formatTopic names i (VStr t)) as [x|] eqn:Ex; [|done]. cbn [mbind result_mbind].
  destruct (formatTopics names (S i) (map VStr l)) as [xs|] eqn:Exs; [|done]. intros [= <-].
  apply IH in Exs as (out & -> & Hl & Ho).
  assert (∃ t', x = VStr t' ∧ topic_shown (default "" (names !! i)) t t') as (t' & -> & Ht).
  { unfold formatTopic, topic_shown in *. destruct (isAddressTopic _); [|injection Ex as <-; by exists t].
    unfold ConnectorAccount.getLisk32Address in Ex. cbn in Ex. destruct (starts_with "lsk" t); [injection Ex as <-; by exists t|].
    unfold ConnectorAccount.getLisk32AddressFromHexAddress in Ex. cbn in Ex.
    destruct (lisk32_of_address _) as [a|]; [injection Ex as <-; by exists a|done]. }
  exists (t' :: out). split_and!; [done|by simpl; f_equal|]. intros [|j] u; cbn [lookup list_lookup].
  - intros [= <-]. exists t'. by rewrite Nat.add_0_r.
  - intros Hj. apply Ho in Hj. by rewrite <- plus_n_Sm.
Qed.

(** C25. An event keeps its name, its module and all else that is text; the topics
    that the table of its module names as addresses become Lisk32 addresses,
    each in its place, the others are kept; the identifier is the hash of the
    event's encoding. *)
Theorem event_topics event names topics tr v :
  NoDup (okeys event) → topicsOf (VObj event) = Some names → oget event "topics" = Some (VArr (map VStr topics)) →
  exec (Formatter.formatEvent (VObj event)) tr (Ok v) →
  (∃ out, field v "topics" = VArr (map VStr out) ∧ length out = length topics ∧
     ∀ i t, topics !! i = Some t → ∃ t', out !! i = Some t' ∧ topic_shown (default "" (names !! i)) t t') ∧
  (∃ schema e b, parseInputBySchema (VObj event) schema = Ok e ∧ codec_encode schema e = Ok b ∧
     field v "id" = VStr (hex_of_bytes (utils_hash b))) ∧
  ∀ k s, k ∉ ["data"; "topics"; "id"] → oget event k = Some (VStr s) → field v k = VStr s.
Proof.
  intros Hd Hn Ht H. unfold Formatter.formatEvent in H.
  bind H as schema _.
  bind H as e [_ He]%exec_lift.
  bind H as b [_ Hb]%exec_lift.
  bind H as data _.
  bind H as ts [_ ->]%exec_prop.
  rewrite Hn in H. bind H as shown Hs. apply exec_ret_inv in H as [_ H].
  replace (field (VObj event) "topics") with (VArr (map VStr topics)) in Hs by (unfold field, prop; by rewrite Ht).
  bind Hs as l [-> [= ->]]%exec_ret_inv.
  bind Hs as r [-> Hr]%exec_lift. apply exec_ret_inv in Hs as [_ [= ->]].
  symmetry in Hr. apply formatTopics_shown in Hr as (out & -> & Hl & Ho).
  set (new := [("data", data); ("topics", VArr (map VStr out)); ("id", buffer (utils_hash b))]).
  change (Ok v = Ok (parseToJSONCompatObj (VObj (ospread (ospread [] event) new)))) in H.
  assert (v = parseToJSONCompatObj (VObj (ospread (ospread [] event) new))) as -> by congruence. clear H.
  assert (NoDup (okeys new)) as Hnew by (apply (bool_decide_unpack _); by vm_compute).
  assert (∀ k x, oget new k = Some x → oget (ospread (ospread [] event) new) k = Some x) as Hget
    by (intros; by apply oget_ospread_Some).
  assert (buffer_of (VObj (ospread (ospread [] event) new)) = None) as Hbuf.
  { apply (buffer_of_None _ "id"); [|done..]. by rewrite (Hget "id" _ eq_refl). }
  split; [|split].
  - exists out. split; [|done]. rewrite (parse_fields _ _ _ Hbuf (Hget "topics" _ eq_refl)) by done.
    cbn [parseToJSONCompatObj buffer_of]. by rewrite parse_texts.
  - exists schema, e, b. split_and!; [done..|]. rewrite (parse_fields _ _ _ Hbuf (Hget "id" _ eq_refl)) by done.
    by apply parse_some, buffer_of_buffer.
  - intros k s Hk Hs. apply (parse_fields _ _ (VStr s)); [done| |done].
    rewrite oget_ospread_None, ospread_nil; [done|done|]. apply oget_not_elem_of. by vm_compute in Hk |- *.
Qed.
End events.
