(* ===== verification/NodeThms.v ===== *)
(** * Blocks, the genesis file and the peers

    Blocks are asked for by height or by identifier; the genesis file is
    verified before it is used; the statistics count the connected peers. *)
From S2P Require Export ConnectorThms.
Open Scope string_scope.
Open Scope Z_scope.
Open Scope list_scope.
Import Client.

(** ** Blocks *)

Section blocks.
Context {CC : ConnectorConfig} {NE : NodeErrors} {LC : LiskCrypto} {CO : LiskCodec} {SH : Sha256}.

Lemma formatBlock_array l tr v : ¬ exec (Formatter.formatBlock (VArr l)) tr (Ok v).
Proof. intros H. unfold Formatter.formatBlock in H. inv_exec. inversion Hx1. Qed.

(** C37. The blocks of a range of heights are answered only when the range
    starts at the genesis block; for every other range the empty entry that is
    kept for that block is formatted as a block, and the request fails. *)
Theorem blocks_between_from_genesis from to tr v :
  exec (NodeTransactions.getBlocksByHeightBetween from to) tr (Ok v) →
  ∃ gHeight t, t ⊆ tr ∧ exec Genesis.getGenesisHeight t (Ok gHeight) ∧ strict_eq (to_number from) gHeight = true.
Proof.
  unfold NodeTransactions.getBlocksByHeightBetween. intros (t1 & t2 & blocks & -> & Hb & H)%exec_bind_Ok.
  unfold Endpoints.getBlocksByHeightBetween in Hb. apply exec_timed_Ok in Hb.
  apply exec_bind_Ok in Hb as (t3 & t4 & g & -> & Hg & Hb). exists g, t3. split; [set_solver|]. split; [exact Hg|].
  destruct (strict_eq (to_number from) g) eqn:E; [done|]. exfalso. cbv zeta in Hb.
  bind Hb as u _. bind Hb as first Hf.
  apply exec_ret_inv in Hf as [-> [= ->]].
  bind Hb as rest _. bind Hb as l _.
  apply exec_ret_inv in Hb as [-> [= ->]]. unfold NodeTransactions.mapped in H. cbn [array_method] in H.
  bind H as ll [-> [= ->]]%exec_ret_inv.
  apply exec_bind_Ok in H as (? & ? & r & -> & Hr & _). cbn [pmap] in Hr.
  apply exec_bind_Ok in Hr as (? & ? & y & -> & Hy & _). by apply formatBlock_array in Hy.
Qed.

(** Removing the one entry for the genesis block. *)
Lemma filter_without ids gid i :
  NoDup ids → find_index (λ id, strict_eq id gid) (map VStr ids) = Some i →
  ∃ s, ids !! i = Some s ∧ gid = VStr s ∧
       List.filter (λ id, negb (strict_eq id gid)) (map VStr ids) = map VStr (take i ids ++ drop (S i) ids).
Proof.
  intros Hd (x & Hx & He)%find_index_Some. rewrite list_lookup_fmap in Hx.
  destruct (ids !! i) as [s|] eqn:Es; [|done]. injection Hx as <-.
  assert (gid = VStr s) as ->. { destruct gid; simpl in He; try done. by apply bool_decide_eq_true in He as ->. }
  exists s. split_and!; [done..|]. rewrite <- (take_drop_middle ids i s Es) in Hd |- * at 1.
  apply NoDup_app in Hd as (_ & Hd1 & [Hd2 _]%NoDup_cons).
  assert (∀ l, s ∉ l → List.filter (λ id, negb (strict_eq id (VStr s))) (map VStr l) = map VStr l) as Hk.
  { induction l as [|y l IH]; intros Hl; cbn [map List.filter]; [done|]. rewrite strict_eq_VStr, bool_decide_eq_false_2 by set_solver.
    cbn [negb]. rewrite IH by set_solver. done. }
  rewrite map_app. cbn [map]. rewrite List.filter_app. cbn [List.filter]. rewrite strict_eq_VStr, bool_decide_eq_true_2 by done.
  cbn [negb]. rewrite (Hk (take i ids)), (Hk (drop (S i) ids)) by (try done; intros Hin; apply (Hd1 s Hin); by left).
  by rewrite map_app.
Qed.

Lemma Forall2_splice {R : val → val → Prop} ids i s b (l : list val) :
  ids !! i = Some s → R (VStr s) b → Forall2 R (map VStr (take i ids ++ drop (S i) ids)) l →
  Forall2 R (map VStr ids) (Endpoints.splice_in i b l).
Proof.
  intros Hs Hb H. rewrite map_app in H. apply Forall2_app_inv_l in H as (l1 & l2 & H1 & H2 & ->).
  assert (length l1 = i) as Hl.
  { rewrite <- (Forall2_length _ _ _ H1), length_map, length_take. apply lookup_lt_Some in Hs. lia. }
  unfold Endpoints.splice_in. rewrite (take_app_length' _ _ _ (eq_sym Hl)), (drop_app_length' _ _ _ (eq_sym Hl)).
  rewrite <- (take_drop_middle ids i s Hs) at 1. rewrite map_app. cbn [map].
  apply Forall2_app; [done|]. by constructor.
Qed.

(** Blocks that are asked for by different identifiers are answered in the
    order of the identifiers, the genesis block - which does not come from the
    node - at the place of its own: each block belongs to the identifier at
    its place when the node's answers and those for one identifier do. *)
Theorem blocks_by_ids_order (R : val → val → Prop) ids tr v :
  NoDup ids →
  (∀ l r, (CRpc "node" "chain_getBlocksByIDs" (VObj [("ids", VArr l)]), Ok r) ∈ tr → ∃ bs, r = VArr bs ∧ Forall2 R l bs) →
  (∀ id b t, t ⊆ tr → exec (Endpoints.getBlockByID id false) t (Ok b) → R id b) →
  exec (Endpoints.getBlocksByIDs (VArr (map VStr ids))) tr (Ok v) →
  ∃ bs, v = VArr bs ∧ Forall2 R (map VStr ids) bs.
Proof.
  intros Hd Hnode Hone H. cbn [Endpoints.getBlocksByIDs] in H.
  remember (length (map VStr ids)) as n eqn:En. clear En. revert ids tr v Hd Hnode Hone H.
  induction n as [|n IH]; intros ids tr v Hd Hnode Hone H; cbn [Endpoints.blocksByIDs] in H; apply exec_timed_Ok in H;
    apply exec_bind_Ok in H as (t1 & t2 & gid & -> & _ & H);
    destruct (find_index (λ id, strict_eq id gid) (map VStr ids)) as [i|] eqn:Ei;
    try (destruct (Hnode (map VStr ids) v) as (bs & -> & Hbs); [apply exec_invoke_Ok in H; cbn [or_default] in H; set_solver|by exists bs]).
  all: destruct (filter_without ids gid i Hd Ei) as (s & Hs & -> & Hf); rewrite Hf in H; cbv zeta in H.
  all: apply exec_bind_Ok in H as (t3 & t4 & g & -> & Hg & H); apply Hone in Hg; [|set_solver].
  all: destruct (take i ids ++ drop (S i) ids) as [|x rest] eqn:Er; cbn [map] in H.
  1, 3: apply exec_ret_inv in H as [_ [= ->]]; exists [g]; split; [done|];
        change [g] with (Endpoints.splice_in 0 g []); replace 0%nat with i in *;
        [eapply Forall2_splice; [done|done|]; rewrite Er; constructor|].
  1, 2: destruct ids as [|a ids]; [done|]; destruct i; [done|]; by destruct (take i ids).
  - by apply exec_throw_inv in H as [_ ?].
  - apply exec_bind_Ok in H as (t5 & t6 & r & -> & Hr & H). apply (IH (x :: rest)) in Hr as (bs & -> & Hbs).
    + bind H as l [-> [= ->]]%exec_ret_inv. apply exec_ret_inv in H as [_ [= ->]].
      eexists. split; [done|]. eapply Forall2_splice; [done|done|by rewrite Er].
    + rewrite <- Er, <- delete_take_drop. eapply sublist_NoDup; [done|apply sublist_delete].
    + intros l r' Hin. eapply Hnode. set_solver.
    + intros id b t Ht. apply Hone. set_solver.
Qed.
End blocks.

(** ** The genesis file *)

Section genesis_file.
Context {CC : ConnectorConfig} {NE : NodeErrors} {LC : LiskCrypto} {CO : LiskCodec} {SH : Sha256} (url directoryPath : string).
Import ConnectorFs BlocksUtils.

Definition genesisFilePath : string := directoryPath +:+ "/" +:+ lastSegment url.

(** What has been seen: the number of downloads, the digest that was read
    last, and whether the file was read with that digest since the last
    download. *)
Record seen := Seen { gets : nat; published : val; verified : bool }.
Definition digest_is (text content : val) : bool :=
  match js_split text " " with
  | Ok parts => strict_eq (VStr (hex_of_bytes (sha256 content))) (nth_str parts 0)
  | Err _ => false
  end.
Definition watch (s : seen) (c : cmd) (r : result val) : seen :=
  match c, r with
  | CRpc _ m a, r =>
      if bool_decide (m = "get") then Seen (S (gets s)) (published s) false
      else match r with
           | Ok v =>
               if bool_decide (m = "readFile" ∧ a = VArr [VStr (genesisFilePath +:+ ".SHA256"); VStr "utf8"]) then Seen (gets s) v false
               else if bool_decide (m = "createReadStream" ∧ a = VArr [VStr genesisFilePath])
               then Seen (gets s) (published s) (verified s || digest_is (published s) v) else s
           | Err _ => s
           end
  | _, _ => s
  end.
(** An archive is unpacked only from a file that has been verified. *)
Definition unpacks_verified (s : seen) (c : cmd) : Prop :=
  match c with CRpc o m _ => o = "tar" ∧ m = "extract" → verified s = true | _ => True end.

Notation tw := (twp unpacks_verified watch).

Lemma tw_attempt {A} (p : prog A) h s Q :
  tw p s (λ s' r, match r with Ok a => Q s' (Ok a) | Err e => Q s' (Err e) ∧ tw (h e) s' Q end) → tw (attempt p h) s Q.
Proof. intros H. apply twp_catch. eapply twp_mono; [exact H|]. intros s' [a|e]; [done|]. intros []. by destruct (is_unsettled e). Qed.

(** Commands that neither download nor unpack. *)
Definition quiet (c : cmd) : Prop := match c with CRpc _ m _ => m ≠ "get" ∧ m ≠ "extract" | _ => True end.

Lemma watch_gets s c r : quiet c → gets (watch s c r) = gets s.
Proof. destruct c; try done. intros [Hg _]. cbn [watch]. rewrite bool_decide_eq_false_2 by done. destruct r; [|done]. by repeat case_bool_decide. Qed.

Lemma quiet_unpacks s c : quiet c → unpacks_verified s c.
Proof. destruct c; try done. by intros [_ Hm] [_ ?]. Qed.

Lemma tw_quiet {A} (p : prog A) s : pall quiet p → tw p s (λ s' _, gets s' = gets s).
Proof.
  revert s. unfold pall. induction p as [| |c k IH]; intros s; cbn; [done..|]. intros [Hc Hk]. split; [by apply quiet_unpacks|].
  intros r. eapply twp_mono; [by apply IH|]. intros s' _ ->. by apply watch_gets.
Qed.

Lemma watch_get s o a r : watch s (CRpc o "get" a) r = Seen (S (gets s)) (published s) false.
Proof. done. Qed.

Lemma tw_downloadFile u d s : tw (downloadFile u d) s (λ s' _, (gets s' ≤ S (gets s))%nat).
Proof.
  unfold downloadFile, okResponse. apply twp_bind, twp_bind, twp_call; [by intros [_ ?]|]. intros [response|e]; rewrite watch_get; [|done].
  eapply twp_mono; [apply tw_quiet; pall|]. intros s' [r|e] Hs'; cbn in Hs'; [|lia].
  eapply twp_mono; [apply tw_quiet; unfold fs; pall|]. intros s2 _ ->. lia.
Qed.

Lemma tw_exists p s : tw (exists_path p) s (λ s' _, gets s' = gets s).
Proof. apply tw_quiet. unfold exists_path, fs. apply pall_attempt; pall. Qed.

Lemma tw_verify s :
  tw (verifyFileChecksum genesisFilePath (genesisFilePath +:+ ".SHA256")) s
    (λ s' r, gets s' = gets s ∧ (r = Ok true → verified s' = true)).
Proof.
  unfold verifyFileChecksum. apply twp_bind. eapply twp_mono; [apply tw_exists|]. intros s1 [file|e] H1; [|by rewrite H1].
  apply twp_bind. eapply (twp_mono _ _ _ _ (λ s2 _, gets s2 = gets s1)).
  { destruct file; [apply tw_exists|done]. }
  intros s2 [both|e] H2; [|by rewrite H2]. destruct both; [|by split; [congruence|]].
  unfold read, fs. apply twp_bind, twp_call; [by intros [_ ?]|]. intros [text|e]; [|split; [|done]; rewrite watch_gets; [cbn; congruence|done]].
  cbn [watch]. rewrite bool_decide_eq_false_2, bool_decide_eq_true_2 by done.
  apply twp_bind. destruct (js_split text " ") as [parts|] eqn:Ep; [|cbn; split; [congruence|done]].
  apply twp_bind, twp_call; [by intros [_ ?]|]. intros [content|e]; [|split; [|done]; rewrite watch_gets; [cbn; congruence|done]].
  cbn [watch gets published verified]. rewrite bool_decide_eq_false_2 by done. rewrite bool_decide_eq_false_2 by (by intros [? _]).
  rewrite bool_decide_eq_true_2 by done. cbn [twp gets verified orb]. unfold digest_is. rewrite Ep.
  split; [cbn; congruence|]. intros H. exact (f_equal (λ r, match r with Ok b => b | Err _ => false end) H).
Qed.

Lemma watch_extract s a r : watch s (CRpc "tar" "extract" a) r = s.
Proof. cbn [watch]. rewrite bool_decide_eq_false_2 by done. destruct r; [|done]. by rewrite !bool_decide_eq_false_2 by (by intros [? _]). Qed.

Lemma tw_extract d s : verified s = true → tw (extractTarBall genesisFilePath d) s (λ s' _, gets s' = gets s ∧ verified s' = true).
Proof.
  intros Hv. unfold extractTarBall, fs. apply twp_bind, twp_call; [by intros [_ ?]|]. intros [content|e].
  - cbn [watch]. rewrite bool_decide_eq_false_2 by done. rewrite bool_decide_eq_false_2 by (by intros [? _]).
    rewrite bool_decide_eq_true_2 by done. rewrite Hv.
    apply twp_bind, twp_call; [done|]. intros r. rewrite watch_extract. by destruct r.
  - cbn [watch]. by rewrite bool_decide_eq_false_2.
Qed.

Lemma tw_once s :
  tw (downloadOnce url directoryPath) s
    (λ s' r, (gets s' ≤ gets s + 2)%nat ∧ (r = Ok true → verified s' = true)).
Proof.
  unfold downloadOnce. apply twp_bind. eapply twp_mono; [apply tw_exists|]. intros s1 [present|e] H1; [|split; [lia|done]].
  apply twp_bind. eapply (twp_mono _ _ _ _ (λ s' _, gets s' = gets s1)).
  { apply tw_quiet. unfold mkdir, fs, detach. by pall. }
  intros s2 [u|e] H2; [|split; [lia|done]].
  apply twp_bind. eapply twp_mono; [apply tw_downloadFile|]. intros s3 [u3|e] H3; [|split; [lia|done]].
  apply twp_bind. eapply twp_mono; [apply tw_downloadFile|]. intros s4 [u4|e] H4; [|split; [lia|done]].
  apply twp_bind. eapply twp_mono; [apply tw_verify|]. intros s5 [valid|e] [H5 Hv]; [|split; [lia|done]].
  destruct valid; apply twp_bind.
  - specialize (Hv eq_refl). eapply (twp_mono _ _ _ _ (λ s' _, gets s' = gets s5 ∧ verified s' = true)).
    { fold genesisFilePath. destruct (ends_with _ _); [by apply tw_extract|done]. }
    intros s6 [u6|e] [H6 Hv6]; (split; [lia|done]).
  - eapply (twp_mono _ _ _ _ (λ s' _, gets s' = gets s5)).
    { apply tw_quiet. unfold rm, fs, detach. by pall. }
    intros s6 [u6|e] H6; (split; [lia|done]).
Qed.

Lemma tw_try s :
  tw (attempt (downloadOnce url directoryPath)
        (λ err, if bool_decide (exn_name err = "NotFoundException")
                then _ ← call (CVarSet isGenesisBlockURLNotFound (VBool true)); Throw err
                else Ret false)) s
    (λ s' r, (gets s' ≤ gets s + 2)%nat ∧ (r = Ok true → verified s' = true)).
Proof.
  apply tw_attempt. eapply twp_mono; [apply tw_once|]. intros s1 [b|e] [H1 Hv]; [done|]. split; [done|].
  destruct (bool_decide _); [|done]. apply twp_bind, twp_call; [done|]. intros [r|e']; done.
Qed.

Lemma tw_loop n s :
  tw (downloadLoop n url directoryPath) s
    (λ s' r, (gets s' ≤ gets s + 2 * S n)%nat ∧ ∀ b, r = Ok b → b = true ∧ verified s' = true).
Proof.
  revert s. induction n as [|n IH]; intros s; cbn [downloadLoop]; apply twp_bind;
    (eapply twp_mono; [apply tw_try|]); intros s1 [[]|e] [H1 Hv]; try (split; [lia|]; by intros b [= <-]; auto).
  - unfold exit. apply twp_bind, twp_call; [by intros [? _]|]. intros r.
    assert (gets (watch s1 (CRpc "process" "exit" (VNum 1)) r) = gets s1) as Hg by by apply watch_gets.
    destruct r; (split; [rewrite Hg; lia|done]).
  - eapply twp_mono; [apply IH|]. intros s2 r [H2 Hr]. split; [lia|done].
Qed.


End genesis_file.

(** ** The statistics of the peers *)

Section statistics.
Import PeerCache.

(** How many of the values are counted under [k]. *)
Definition tally (k : string) (l : list val) : nat := length (List.filter (λ x, truthy x && bool_decide (to_string x = k)) l).
Definition shown_count (n : nat) : option val := match n with O => None | _ => Some (VNum (Z.of_nat n)) end.

Lemma count_step m : (Z.of_nat m < 2^53) →
  js_add (js_or (default VUndef (shown_count m)) (VNum 0)) (VNum 1) = Ok (VNum (Z.of_nat (S m))).
Proof.
  intros Hm. destruct m as [|m]; [done|].
  change (Ok (num_of_Z (Z.of_nat (S m) + 1)) = Ok (VNum (Z.of_nat (S (S m))))). rewrite num_exact by (unfold max_exact; lia).
  do 2 f_equal. lia.
Qed.

Lemma count_one_shown s x (c : string → nat) :
  (∀ k, oget s k = shown_count (c k)) → (∀ k, Z.of_nat (c k) < 2^53) →
  ∃ s', count_one s x = Ok s' ∧ ∀ k, oget s' k = shown_count (c k + tally k [x]).
Proof.
  intros Hs Hc. unfold count_one, tally. cbn [List.filter]. destruct (truthy x); cbn [andb].
  - rewrite Hs, count_step by done. eexists. split; [done|]. intros k. rewrite oget_oset. case_decide as E.
    + rewrite bool_decide_eq_true_2, E by done. cbn [length]. by rewrite Nat.add_1_r.
    + rewrite bool_decide_eq_false_2 by done. cbn [length]. by rewrite Nat.add_0_r.
  - exists s. split; [done|]. intros k. by rewrite Nat.add_0_r.
Qed.

Lemma tally_app k l l' : tally k (l ++ l') = (tally k l + tally k l')%nat.
Proof. unfold tally. by rewrite List.filter_app, length_app. Qed.

Lemma count_all_shown l s (c : string → nat) :
  (∀ k, oget s k = shown_count (c k)) → (∀ k, Z.of_nat (c k + length l) ≤ 2^53) →
  ∃ s', count_all s l = Ok s' ∧ ∀ k, oget s' k = shown_count (c k + tally k l).
Proof.
  revert s c. induction l as [|x l IH]; intros s c Hs Hc; cbn [count_all].
  { exists s. split; [done|]. intros k. by rewrite Nat.add_0_r. }
  destruct (count_one_shown s x c Hs) as (s1 & -> & H1). { intros k. specialize (Hc k). simpl in Hc. lia. }
  cbn [mbind result_mbind result_bind]. destruct (IH s1 _ H1) as (s' & -> & H').
  - intros k. specialize (Hc k). cbn [length] in Hc. assert (tally k [x] ≤ 1)%nat; [|lia].
    unfold tally. cbn. destruct (_ && _); simpl; lia.
  - exists s'. split; [done|]. intros k. rewrite H'. change (x :: l) with ([x] ++ l). by rewrite tally_app, Nat.add_assoc.
Qed.

Lemma exec_column k l tr c : exec (column k l) tr (Ok c) → tr = [] ∧ c = map (λ p, field p k) l.
Proof.
  revert tr c. induction l as [|x l IH]; intros tr c H; cbn in H; [by apply exec_ret_inv in H as [-> [= ->]]|].
  bind H as y [-> ->]%exec_prop.
  bind H as ys [-> ->]%IH. apply exec_ret_inv in H as [-> [= ->]]. done.
Qed.

Lemma NoDup_count_all l s s' : count_all s l = Ok s' → NoDup (okeys s) → NoDup (okeys s').
Proof.
  revert s. induction l as [|x l IH]; intros s H Hs; cbn [count_all] in H; [by injection H as <-|].
  unfold count_one in H. destruct (truthy x); [|by apply IH in H].
  destruct (js_add _ _) as [n|]; [|done]. apply IH in H; [done|by apply NoDup_okeys_oset].
Qed.

(** An object that counts the values of a property of the peers. *)
Definition counts (k : string) (peers : list val) (v : val) : Prop :=
  ∃ o, v = VObj o ∧ NoDup (okeys o) ∧ ∀ s, oget o s = shown_count (tally s (map (λ p, field p k) peers)).

Lemma exec_countColumn k l tr v :
  (Z.of_nat (length l) ≤ 2^53) → exec (countColumn k l) tr (Ok v) → tr = [] ∧ counts k l v.
Proof.
  intros Hl H. bind H as c [-> ->]%exec_column.
  bind H as s [-> Hs]%exec_lift. apply exec_ret_inv in H as [-> [= ->]].
  destruct (count_all_shown (map (λ p, field p k) l) [] (λ _, O)) as (s' & E & Hs'); [done|by rewrite length_map|].
  rewrite E in Hs. injection Hs as ->. split; [done|]. exists s'. split; [done|]. split; [|exact Hs'].
  eapply NoDup_count_all; [exact E|constructor].
Qed.

Lemma refreshStatistics_counts tr v :
  exec refreshStatistics tr (Ok v) →
  ∃ x peers, (CVarGet (store "connected"), Ok x) ∈ tr ∧ or_default x (VArr []) = VArr peers ∧
    (Z.of_nat (length peers) ≤ 2^53 →
     field (field v "basic") "connectedPeers" = VNum (Z.of_nat (length peers)) ∧
     Forall (λ kc, counts kc.2 peers (field v kc.1))
       [("height", "height"); ("coreVer", "version"); ("networkVersion", "networkVersion")]).
Proof.
  intros H. unfold refreshStatistics, get in H.
  bind H as ps _.
  bind H as conn Hc.
  apply exec_bind_Ok in Hc as (? & ? & xc & -> & ->%exec_call_inv & [-> [= ->]]%exec_ret_inv).
  bind H as dis _.
  bind H as tp _.
  bind H as cp [_ ->]%exec_prop.
  bind H as dp _.
  bind H as peers [_ Hp]%exec_array_method.
  bind H as h Hh.
  bind H as cv Hcv.
  bind H as nv Hnv.
  bind H as os _.
  bind H as mos _.
  bind H as ost _. apply exec_ret_inv in H as [_ [= ->]].
  exists xc, peers. split; [set_solver|]. split; [done|]. intros Hl. rewrite Hp. split; [done|].
  repeat constructor; cbn [fst snd]; by eapply exec_countColumn.
Qed.

Lemma refreshStatistics_object tr v : exec refreshStatistics tr (Ok v) → ∃ o, v = VObj o.
Proof. unfold refreshStatistics, get. intros H. do 13 bind H as ? _. apply exec_ret_inv in H as [_ [= ->]]. by eexists. Qed.

(** The statistics of the network count the connected peers: for each
    height, version and version of the protocol that a peer states, the number
    of connected peers that state it, and nothing for what no peer states. *)
Theorem peer_statistics_count tr v :
  exec refreshStatistics tr (Ok v) →
  ∃ x peers, (CVarGet (store "connected"), Ok x) ∈ tr ∧ or_default x (VArr []) = VArr peers ∧
    (Z.of_nat (length peers) ≤ 2^53 →
     field (field v "basic") "connectedPeers" = VNum (Z.of_nat (length peers)) ∧
     Forall (λ kc, ∀ s, oget (props (field v kc.1)) s = shown_count (tally s (map (λ p, field p kc.2) peers)))
       [("height", "height"); ("coreVer", "version"); ("networkVersion", "networkVersion")]).
Proof.
  intros (x & peers & Hin & Hp & H)%refreshStatistics_counts. exists x, peers. split_and!; [done..|]. intros Hl.
  destruct (H Hl) as [Hc Hk]. split; [done|]. eapply Forall_impl; [exact Hk|]. by intros kc (o & -> & _ & Ho).
Qed.

End statistics.
