(* ===== verification/ServiceTables.v ===== *)
(** * The methods the services register: methods/*.js of each service

    A definition per file: the names and the rules of the parameters of its
    methods, which the message broker checks; the controllers, and the
    descriptions nothing reads, are left out.  The connector's controllers are
    the tables of NodePeers.v. *)
From S2P Require Export GatewayRoutes.
Open Scope string_scope.
Open Scope Z_scope.
Open Scope list_scope.

Definition method_item (name : string) (params : val) : val := VObj [("name", VStr name); ("params", params)].

Module IndexerMethods.
Definition ADDRESS_LISK32 : val := regexp "^lsk[a-hjkm-z2-9]{38}$" "".
Definition BLS_KEY : val := regexp "^\b[a-fA-F0-9]{96}\b$" "".
Definition NAME : val := regexp "^[\w!@$&.]{3,20}$" "".
Definition PROOF_OF_POSSESSION : val := regexp "^\b[a-fA-F0-9]{192}\b$" "".
Definition PUBLIC_KEY : val := regexp "^([A-Fa-f0-9]{2}){32}$" "".
Definition TOKEN_ID : val := regexp "^\b[a-fA-F0-9]{16}\b$" "".
Definition status : list val :=
  [method_item "status" (VObj [])].
Definition blockchainApps : list val :=
  [method_item "blockchain.apps.statistics" (VObj []);
   method_item "blockchain.apps" (VObj [
    ("chainID", VObj [("optional", VBool true); ("type", VStr "string")]);
    ("name", VObj [("optional", VBool true); ("type", VStr "string")]);
    ("status", VObj [("optional", VBool true); ("type", VStr "string")]);
    ("search", VObj [("optional", VBool true); ("type", VStr "string")]);
    ("limit", VObj [("optional", VBool true); ("type", VStr "number")]);
    ("offset", VObj [("optional", VBool true); ("type", VStr "number")])])].
Definition blocks : list val :=
  [method_item "blocks" (VObj [
    ("blockID", VObj [("optional", VBool true); ("type", VStr "any")]);
    ("height", VObj [("optional", VBool true); ("type", VStr "any")]);
    ("generatorAddress", VObj [("optional", VBool true); ("type", VStr "any")]);
    ("timestamp", VObj [("optional", VBool true); ("type", VStr "any")]);
    ("limit", VObj [("optional", VBool true); ("type", VStr "any")]);
    ("offset", VObj [("optional", VBool true); ("type", VStr "any")]);
    ("sort", VObj [("optional", VBool true); ("type", VStr "any")])]);
   method_item "blocks.assets" (VObj [
    ("blockID", VObj [("optional", VBool true); ("type", VStr "string")]);
    ("height", VObj [("optional", VBool true); ("type", VStr "string")]);
    ("moduleID", VObj [("optional", VBool true); ("type", VStr "string")]);
    ("timestamp", VObj [("optional", VBool true); ("type", VStr "string")]);
    ("limit", VObj [("optional", VBool true); ("type", VStr "number")]);
    ("offset", VObj [("optional", VBool true); ("type", VStr "number")]);
    ("sort", VObj [("optional", VBool true); ("type", VStr "string")])])].
Definition events : list val :=
  [method_item "events" (VObj [
    ("transactionID", VObj [("optional", VBool true); ("type", VStr "string")]);
    ("senderAddress", VObj [("optional", VBool true); ("type", VStr "string")]);
    ("blockID", VObj [("optional", VBool true); ("type", VStr "string")]);
    ("timestamp", VObj [("optional", VBool true); ("type", VStr "string")]);
    ("height", VObj [("optional", VBool true); ("type", VStr "string")]);
    ("limit", VObj [("optional", VBool true); ("type", VStr "number")]);
    ("offset", VObj [("optional", VBool true); ("type", VStr "number")]);
    ("sort", VObj [("optional", VBool true); ("type", VStr "string")]);
    ("order", VObj [("optional", VBool true); ("type", VStr "string")])])].
Definition generators : list val :=
  [method_item "generators" (VObj [
    ("limit", VObj [("type", VStr "any"); ("optional", VBool true)]);
    ("offset", VObj [("type", VStr "any"); ("optional", VBool true)])])].
Definition indexStatus : list val :=
  [method_item "index.status" (VObj [])].
Definition network : list val :=
  [method_item "network.status" (VObj []);
   method_item "network.statistics" (VObj []);
   method_item "network.peers" (VObj [
    ("ip", VObj [("optional", VBool true); ("type", VStr "string")]);
    ("networkVersion", VObj [("optional", VBool true); ("type", VStr "string")]);
    ("state", VObj [("optional", VBool true); ("type", VStr "string")]);
    ("height", VObj [("optional", VBool true); ("type", VStr "number")]);
    ("limit", VObj [("optional", VBool true); ("type", VStr "number")]);
    ("offset", VObj [("optional", VBool true); ("type", VStr "number")]);
    ("sort", VObj [("optional", VBool true); ("type", VStr "string")])]);
   method_item "network.peers.connected" (VObj []);
   method_item "network.peers.disconnected" (VObj [])].
Definition transactions : list val :=
  [method_item "transactions" (VObj [
    ("transactionID", VObj [("optional", VBool true); ("type", VStr "string")]);
    ("moduleCommand", VObj [("optional", VBool true); ("type", VStr "string")]);
    ("address", VObj [("optional", VBool true); ("type", VStr "string")]);
    ("senderAddress", VObj [("optional", VBool true); ("type", VStr "string")]);
    ("recipientAddress", VObj [("optional", VBool true); ("type", VStr "string")]);
    ("timestamp", VObj [("optional", VBool true); ("type", VStr "string")]);
    ("nonce", VObj [("optional", VBool true); ("type", VStr "string")]);
    ("blockID", VObj [("optional", VBool true); ("type", VStr "string")]);
    ("height", VObj [("optional", VBool true); ("type", VStr "string")]);
    ("search", VObj [("optional", VBool true); ("type", VStr "string")]);
    ("limit", VObj [("optional", VBool true); ("type", VStr "number")]);
    ("offset", VObj [("optional", VBool true); ("type", VStr "number")]);
    ("executionStatus", VObj [("optional", VBool true); ("type", VStr "string")]);
    ("sort", VObj [("optional", VBool true); ("type", VStr "string")]);
    ("order", VObj [("optional", VBool true); ("type", VStr "string")])]);
   method_item "transactions.pending" (VObj []);
   method_item "transactions.post" (VObj [("transaction", VObj [("optional", VBool false); ("type", VStr "string")])]);
   method_item "schemas" (VObj []);
   method_item "transactions.dryrun" (VObj [
    ("transaction", VObj [("optional", VBool false); ("type", VStr "any")]);
    ("skipVerify", VObj [("optional", VBool true); ("type", VStr "boolean"); ("default", VBool false)]);
    ("skipDecode", VObj [("optional", VBool true); ("type", VStr "boolean"); ("default", VBool false)])])].
Definition module_audio : list val :=
  [method_item "audios" (VObj [
    ("creatorAddress", VObj [("optional", VBool true); ("type", VStr "string")]);
    ("audioID", VObj [("optional", VBool true); ("type", VStr "string")]);
    ("limit", VObj [("optional", VBool true); ("type", VStr "number")]);
    ("offset", VObj [("optional", VBool true); ("type", VStr "number")])])].
Definition module_auth : list val :=
  [method_item "auth" (VObj [("address", VObj [("optional", VBool false); ("type", VStr "string")])])].
Definition module_collection : list val :=
  [method_item "collections" (VObj [
    ("creatorAddress", VObj [("optional", VBool true); ("type", VStr "string")]);
    ("collectionID", VObj [("optional", VBool true); ("type", VStr "string")]);
    ("limit", VObj [("optional", VBool true); ("type", VStr "number")]);
    ("offset", VObj [("optional", VBool true); ("type", VStr "number")])])].
Definition module_dynamicReward : list val :=
  [method_item "reward.default" (VObj [("height", VObj [("optional", VBool false); ("type", VStr "number"); ("min", VNum 0)])]);
   method_item "reward.annualInflation" (VObj [("height", VObj [("optional", VBool false); ("type", VStr "number"); ("min", VNum 0)])]);
   method_item "reward.constants" (VObj [])].
Definition module_legacy : list val :=
  [method_item "legacy" (VObj [("publicKey", VObj [("optional", VBool false); ("type", VStr "string")])])].
Definition module_pos : list val :=
  [method_item "pos.validators" (VObj [
    ("address", VObj [("optional", VBool true); ("type", VStr "string")]);
    ("publicKey", VObj [("optional", VBool true); ("type", VStr "string")]);
    ("name", VObj [("optional", VBool true); ("type", VStr "string")]);
    ("status", VObj [("optional", VBool true); ("type", VStr "string")]);
    ("search", VObj [("optional", VBool true); ("type", VStr "string")]);
    ("limit", VObj [("optional", VBool true); ("type", VStr "number")]);
    ("offset", VObj [("optional", VBool true); ("type", VStr "number")]);
    ("sort", VObj [("optional", VBool true); ("type", VStr "string")])]);
   method_item "pos.constants" (VObj []);
   method_item "pos.unlocks" (VObj [
    ("address", VObj [("optional", VBool true); ("type", VStr "string")]);
    ("name", VObj [("optional", VBool true); ("type", VStr "string")]);
    ("publicKey", VObj [("optional", VBool true); ("type", VStr "string")]);
    ("isLocked", VObj [("optional", VBool true); ("type", VStr "boolean")]);
    ("limit", VObj [("optional", VBool true); ("type", VStr "number")]);
    ("offset", VObj [("optional", VBool true); ("type", VStr "number")])]);
   method_item "pos.stakes" (VObj [
    ("address", VObj [("optional", VBool true); ("type", VStr "string")]);
    ("publicKey", VObj [("optional", VBool true); ("type", VStr "string")]);
    ("name", VObj [("optional", VBool true); ("type", VStr "string")]);
    ("search", VObj [("optional", VBool true); ("type", VStr "string")])]);
   method_item "pos.stakers" (VObj [
    ("address", VObj [("optional", VBool true); ("type", VStr "string")]);
    ("publicKey", VObj [("optional", VBool true); ("type", VStr "string")]);
    ("name", VObj [("optional", VBool true); ("type", VStr "string")]);
    ("search", VObj [("optional", VBool true); ("type", VStr "string")]);
    ("limit", VObj [("optional", VBool true); ("type", VStr "number")]);
    ("offset", VObj [("optional", VBool true); ("type", VStr "number")])]);
   method_item "pos.rewards.claimable" (VObj [
    ("address", VObj [("optional", VBool true); ("type", VStr "string")]);
    ("publicKey", VObj [("optional", VBool true); ("type", VStr "string")]);
    ("name", VObj [("optional", VBool true); ("type", VStr "string")]);
    ("limit", VObj [("optional", VBool true); ("type", VStr "number"); ("min", VNum 1); ("max", VNum 100)]);
    ("offset", VObj [("optional", VBool true); ("type", VStr "number"); ("min", VNum 0)])]);
   method_item "pos.rewards.locked" (VObj [
    ("address", VObj [("optional", VBool true); ("type", VStr "string"); ("pattern", ADDRESS_LISK32)]);
    ("publicKey", VObj [("optional", VBool true); ("type", VStr "string"); ("pattern", PUBLIC_KEY)]);
    ("name", VObj [("optional", VBool true); ("type", VStr "string"); ("pattern", NAME)]);
    ("limit", VObj [("optional", VBool true); ("type", VStr "number"); ("min", VNum 1); ("max", VNum 100)]);
    ("offset", VObj [("optional", VBool true); ("type", VStr "number"); ("min", VNum 0)])])].
Definition module_profile : list val :=
  [method_item "profiles" (VObj [
    ("creatorAddress", VObj [("optional", VBool true); ("type", VStr "string")]);
    ("profileID", VObj [("optional", VBool true); ("type", VStr "string")]);
    ("limit", VObj [("optional", VBool true); ("type", VStr "number")]);
    ("offset", VObj [("optional", VBool true); ("type", VStr "number")])])].
Definition module_subscription : list val :=
  [method_item "subscriptions" (VObj [
    ("creatorAddress", VObj [("optional", VBool true); ("type", VStr "string")]);
    ("subscriptionID", VObj [("optional", VBool true); ("type", VStr "string")]);
    ("limit", VObj [("optional", VBool true); ("type", VStr "number")]);
    ("offset", VObj [("optional", VBool true); ("type", VStr "number")]);
    ("memberAddress", VObj [("optional", VBool true); ("type", VStr "string")])])].
Definition module_token : list val :=
  [method_item "token.balances" (VObj [
    ("address", VObj [("optional", VBool false); ("type", VStr "string")]);
    ("tokenID", VObj [("optional", VBool true); ("type", VStr "string")]);
    ("limit", VObj [("optional", VBool true); ("type", VStr "number")]);
    ("offset", VObj [("optional", VBool true); ("type", VStr "number")])]);
   method_item "token.summary" (VObj [
    ("limit", VObj [("optional", VBool true); ("type", VStr "number")]);
    ("offset", VObj [("optional", VBool true); ("type", VStr "number")])]);
   method_item "token.account.exists" (VObj [
    ("address", VObj [("optional", VBool true); ("type", VStr "string"); ("pattern", ADDRESS_LISK32)]);
    ("publicKey", VObj [("optional", VBool true); ("type", VStr "string"); ("pattern", PUBLIC_KEY)]);
    ("name", VObj [("optional", VBool true); ("type", VStr "string"); ("pattern", NAME)]);
    ("tokenID", VObj [("optional", VBool false); ("type", VStr "string"); ("pattern", TOKEN_ID)])]);
   method_item "token.constants" (VObj [])].
Definition module_validators : list val :=
  [method_item "validator" (VObj [("address", VObj [("optional", VBool false); ("type", VStr "string")])]);
   method_item "validateBLSKey" (VObj [
    ("blsKey", VObj [("optional", VBool false); ("type", VStr "string"); ("pattern", BLS_KEY)]);
    ("proofOfPossession", VObj [("optional", VBool false); ("type", VStr "string"); ("pattern", PROOF_OF_POSSESSION)])])].
Definition indexing : list val :=
  [method_item "getMissingBlocks" (VObj [
    ("from", VObj [("optional", VBool false); ("type", VStr "any")]);
    ("to", VObj [("optional", VBool false); ("type", VStr "any")])]);
   method_item "getCurrentHeight" (VObj []);
   method_item "getGenesisHeight" (VObj []);
   method_item "getIndexVerifiedHeight" (VObj []);
   method_item "setIndexVerifiedHeight" (VObj [("height", VObj [("optional", VBool false); ("type", VStr "number")])])].
Definition directory : list (string * list val) := [("status", status)].
Definition dataService : list (string * list val) := [("blockchainApps", blockchainApps); ("blocks", blocks); ("events", events); ("generators", generators); ("indexStatus", indexStatus); ("network", network); ("transactions", transactions)].
Definition modules : list (string * list val) := [("audio", module_audio); ("auth", module_auth); ("collection", module_collection); ("dynamicReward", module_dynamicReward); ("legacy", module_legacy); ("pos", module_pos); ("profile", module_profile); ("subscription", module_subscription); ("token", module_token); ("validators", module_validators)].
Definition indexerDirectory : list (string * list val) := [("indexer", indexing)].
End IndexerMethods.

Module ConnectorMethods.
Definition BLS_KEY : val := regexp "^\b[a-fA-F0-9]{96}\b$" "".
Definition CHAIN_ID : val := regexp "^\b[a-fA-F0-9]{8}\b$" "".
Definition PROOF_OF_POSSESSION : val := regexp "^\b[a-fA-F0-9]{192}\b$" "".
Definition auth : list val :=
  [method_item "getAuthAccount" (VObj [("address", VObj [("optional", VBool false); ("type", VStr "string")])]);
   method_item "getAuthMultiSigRegMsgSchema" (VObj [])].
Definition blocks : list val :=
  [method_item "getLastBlock" (VObj []);
   method_item "getBlockByID" (VObj [("id", VObj [("optional", VBool false); ("type", VStr "string")])]);
   method_item "getBlocksByIDs" (VObj [
    ("ids", VObj [("optional", VBool false); ("type", VStr "array"); ("items", VStr "string")])]);
   method_item "getBlockByHeight" (VObj [("height", VObj [("optional", VBool false); ("type", VStr "number")])]);
   method_item "getBlocksByHeightBetween" (VObj [
    ("from", VObj [("optional", VBool false); ("type", VStr "number")]);
    ("to", VObj [("optional", VBool false); ("type", VStr "number")])]);
   method_item "getGenesisHeight" (VObj []);
   method_item "getGenesisBlockID" (VObj []);
   method_item "getGenesisBlock" (VObj []);
   method_item "getGenesisConfig" (VObj []);
   method_item "getGenesisAssetByModule" (VObj [
    ("module", VObj [("type", VStr "string")]);
    ("subStore", VObj [("type", VStr "string"); ("optional", VBool true)]);
    ("limit", VObj [("type", VStr "number"); ("min", VNum 1); ("default", VNum 5000)]);
    ("offset", VObj [("type", VStr "number"); ("min", VNum 0); ("default", VNum 0)])]);
   method_item "getGenesisAssetsLength" (VObj [
    ("module", VObj [("type", VStr "string"); ("optional", VBool true)]);
    ("subStore", VObj [("type", VStr "string"); ("optional", VBool true)])])].
Definition dynamicReward : list val :=
  [method_item "getRewardTokenID" (VObj []);
   method_item "getAnnualInflation" (VObj []);
   method_item "getDefaultRewardAtHeight" (VObj [("height", VObj [("optional", VBool false); ("type", VStr "number"); ("min", VNum 0)])])].
Definition events : list val :=
  [method_item "getEventsByHeight" (VObj [("height", VObj [("optional", VBool false); ("type", VStr "number")])])].
Definition fee : list val :=
  [method_item "getFeeTokenID" (VObj []);
   method_item "getMinFeePerByte" (VObj [])].
Definition generators : list val :=
  [method_item "getGenerators" (VObj []);
   method_item "getGeneratorStatus" (VObj []);
   method_item "updateGeneratorStatus" (VObj [
    ("address", VObj [("optional", VBool false); ("type", VStr "string")]);
    ("password", VObj [("optional", VBool false); ("type", VStr "string")]);
    ("forging", VObj [("optional", VBool false); ("type", VStr "boolean")]);
    ("height", VObj [("optional", VBool true); ("type", VStr "number")]);
    ("maxHeightPrevoted", VObj [("optional", VBool true); ("type", VStr "number")]);
    ("maxHeightPreviouslyForged", VObj [("optional", VBool true); ("type", VStr "number")]);
    ("override", VObj [("optional", VBool true); ("type", VStr "boolean")])])].
Definition interoperability : list val :=
  [method_item "getChainAccount" (VObj [
    ("chainID", VObj [("optional", VBool false); ("type", VStr "string"); ("pattern", CHAIN_ID)])]);
   method_item "getMainchainID" (VObj [])].
Definition legacy : list val :=
  [method_item "getLegacyAccount" (VObj [("publicKey", VObj [("optional", VBool false); ("type", VStr "string")])])].
Definition network : list val :=
  [method_item "getNetworkStatus" (VObj []);
   method_item "getNetworkPeers" (VObj []);
   method_item "getNetworkConnectedPeers" (VObj []);
   method_item "getNetworkDisconnectedPeers" (VObj []);
   method_item "getNetworkPeersStatistics" (VObj [])].
Definition node : list val :=
  [method_item "invokeEndpoint" (VObj [
    ("endpoint", VObj [("optional", VBool false); ("type", VStr "string")]);
    ("params", VObj [("optional", VBool true); ("type", VStr "object")])]);
   method_item "getSchema" (VObj []);
   method_item "getRegisteredActions" (VObj []);
   method_item "getRegisteredEvents" (VObj []);
   method_item "getRegisteredModules" (VObj []);
   method_item "getNodeInfo" (VObj []);
   method_item "getSystemMetadata" (VObj [])].
Definition pos : list val :=
  [method_item "getPosValidator" (VObj [("address", VObj [("optional", VBool false); ("type", VStr "string")])]);
   method_item "getAllPosValidators" (VObj []);
   method_item "getPosValidatorsByStake" (VObj [("limit", VObj [("optional", VBool true); ("type", VStr "number")])]);
   method_item "getPosConstants" (VObj []);
   method_item "getPosPendingUnlocks" (VObj [("address", VObj [("optional", VBool true); ("type", VStr "string")])]);
   method_item "getStaker" (VObj [("address", VObj [("optional", VBool false); ("type", VStr "string")])]);
   method_item "getPosClaimableRewards" (VObj [("address", VObj [("optional", VBool false); ("type", VStr "string")])]);
   method_item "getPosLockedReward" (VObj [
    ("address", VObj [("optional", VBool false); ("type", VStr "string")]);
    ("tokenID", VObj [("optional", VBool false); ("type", VStr "string")])]);
   method_item "getPoSGenesisStakers" (VObj [("height", VObj [("optional", VBool false); ("type", VStr "number")])]);
   method_item "getPoSGenesisValidators" (VObj [("height", VObj [("optional", VBool false); ("type", VStr "number")])])].
Definition status : list val :=
  [method_item "status" (VObj [])].
Definition tokens : list val :=
  [method_item "getTokenBalance" (VObj [
    ("address", VObj [("optional", VBool false); ("type", VStr "string")]);
    ("tokenID", VObj [("optional", VBool false); ("type", VStr "string")])]);
   method_item "getTokenInitializationFees" (VObj [])].
Definition transactions : list val :=
  [method_item "getTransactionByID" (VObj [("id", VObj [("optional", VBool false); ("type", VStr "string")])]);
   method_item "getTransactionsByIDs" (VObj [
    ("ids", VObj [("optional", VBool false); ("type", VStr "array"); ("items", VStr "string")])]);
   method_item "getTransactionsFromPool" (VObj []);
   method_item "postTransaction" (VObj [("transaction", VObj [("optional", VBool false); ("type", VStr "string")])]);
   method_item "dryRunTransaction" (VObj [
    ("transaction", VObj [("optional", VBool false); ("type", VStr "any")]);
    ("skipVerify", VObj [("optional", VBool true); ("type", VStr "boolean"); ("default", VBool false)]);
    ("skipDecode", VObj [("optional", VBool true); ("type", VStr "boolean"); ("default", VBool false)])])].
Definition validators : list val :=
  [method_item "validateBLSKey" (VObj [
    ("blsKey", VObj [("optional", VBool false); ("type", VStr "string"); ("pattern", BLS_KEY)]);
    ("proofOfPossession", VObj [("optional", VBool false); ("type", VStr "string"); ("pattern", PROOF_OF_POSSESSION)])]);
   method_item "getValidator" (VObj [("address", VObj [("optional", VBool false); ("type", VStr "string")])])].
Definition directory : list (string * list val) := [("auth", auth); ("blocks", blocks); ("dynamicReward", dynamicReward); ("events", events); ("fee", fee); ("generators", generators); ("interoperability", interoperability); ("legacy", legacy); ("network", network); ("node", node); ("pos", pos); ("status", status); ("tokens", tokens); ("transactions", transactions); ("validators", validators)].
End ConnectorMethods.

Module FeesMethods.
Definition fees : list val :=
  [method_item "estimates" (VObj [])].
Definition status : list val :=
  [method_item "status" (VObj [])].
Definition directory : list (string * list val) := [("fees", fees); ("status", status)].
End FeesMethods.

Module MarketMethods.
Definition market : list val :=
  [method_item "prices" (VObj [])].
Definition status : list val :=
  [method_item "status" (VObj [])].
Definition directory : list (string * list val) := [("market", market); ("status", status)].
End MarketMethods.

Module StatisticsMethods.
Definition status : list val :=
  [method_item "status" (VObj [])].
Definition transactions : list val :=
  [method_item "transactions.statistics" (VObj [
    ("interval", VObj [("optional", VBool false); ("type", VStr "string")]);
    ("limit", VObj [("optional", VBool true); ("type", VStr "number")]);
    ("offset", VObj [("optional", VBool true); ("type", VStr "number")])])].
Definition directory : list (string * list val) := [("status", status); ("transactions", transactions)].
End StatisticsMethods.

Module ExportMethods.
Definition export_ : list val :=
  [method_item "transactions.schedule" (VObj [
    ("address", VObj [("type", VStr "string"); ("optional", VBool true)]);
    ("publicKey", VObj [("type", VStr "string"); ("optional", VBool true)]);
    ("interval", VObj [("type", VStr "string"); ("optional", VBool true)])]);
   method_item "transactions.csv" (VObj [("filename", VObj [("type", VStr "string"); ("optional", VBool false)])])].
Definition status : list val :=
  [method_item "status" (VObj [])].
Definition directory : list (string * list val) := [("export", export_); ("status", status)].
End ExportMethods.

Module RegistryMethods.
Definition NETWORK : val := regexp "^\b(?:mainnet|testnet|betanet|alphanet|devnet|,)+\b$" "".
Definition metadata : list val :=
  [method_item "blockchain.apps.meta" (VObj [
    ("chainID", VObj [("optional", VBool true); ("type", VStr "string")]);
    ("chainName", VObj [("optional", VBool true); ("type", VStr "string")]);
    ("isDefault", VObj [("optional", VBool true); ("type", VStr "boolean")]);
    ("network", VObj [("optional", VBool true); ("type", VStr "string"); ("pattern", NETWORK)]);
    ("search", VObj [("optional", VBool true); ("type", VStr "string")]);
    ("limit", VObj [("optional", VBool true); ("type", VStr "number")]);
    ("offset", VObj [("optional", VBool true); ("type", VStr "number")]);
    ("sort", VObj [("optional", VBool true); ("type", VStr "string")])]);
   method_item "blockchain.apps.meta.list" (VObj [
    ("chainName", VObj [("optional", VBool true); ("type", VStr "string")]);
    ("network", VObj [("optional", VBool true); ("type", VStr "string")]);
    ("search", VObj [("optional", VBool true); ("type", VStr "string")]);
    ("limit", VObj [("optional", VBool true); ("type", VStr "number")]);
    ("offset", VObj [("optional", VBool true); ("type", VStr "number")]);
    ("sort", VObj [("optional", VBool true); ("type", VStr "string")])]);
   method_item "blockchain.apps.meta.tokens" (VObj [
    ("chainName", VObj [("optional", VBool true); ("type", VStr "string")]);
    ("chainID", VObj [("optional", VBool true); ("type", VStr "string")]);
    ("tokenName", VObj [("optional", VBool true); ("type", VStr "string")]);
    ("tokenID", VObj [("optional", VBool true); ("type", VStr "string")]);
    ("network", VObj [("optional", VBool true); ("type", VStr "string"); ("pattern", NETWORK)]);
    ("search", VObj [("optional", VBool true); ("type", VStr "string")]);
    ("limit", VObj [("optional", VBool true); ("type", VStr "number")]);
    ("offset", VObj [("optional", VBool true); ("type", VStr "number")]);
    ("sort", VObj [("optional", VBool true); ("type", VStr "string")])]);
   method_item "blockchain.apps.meta.tokens.supported" (VObj [
    ("chainID", VObj [("optional", VBool false); ("type", VStr "string")]);
    ("limit", VObj [("optional", VBool true); ("type", VStr "number")]);
    ("offset", VObj [("optional", VBool true); ("type", VStr "number")]);
    ("sort", VObj [("optional", VBool true); ("type", VStr "string")])])].
Definition status : list val :=
  [method_item "status" (VObj [])].
Definition directory : list (string * list val) := [("metadata", metadata); ("status", status)].
End RegistryMethods.
