(* ===== verification/Microservice.v ===== *)
(** * The runtime of the services

    src/framework/src: module [Microservice] is microservice.js, [Queue]
    queue.js, [CacheRedis] cacheRedis.js.  The message broker, cron, the timers
    and bull are commands, the validator is the class [FastestValidator]. *)
From S2P Require Export GatewayApi.
Open Scope string_scope.
Open Scope Z_scope.
Open Scope list_scope.

(** What a function looks like to the validator: functions are no values here. *)
Class FunctionValue := { function_value : val }.

(** ** microservice.js *)
Module Microservice.

Definition rule (type : string) (optional : bool) : val :=
  VObj ([("type", VStr type)] ++ if optional then [("optional", VBool true)] else []).
Definition methodSchema : val :=
  VObj [("name", rule "string" false); ("description", rule "string" true);
        ("controller", rule "function" false); ("params", rule "object" true)].
Definition eventSchema : val :=
  VObj [("name", rule "string" false); ("description", rule "string" true); ("controller", rule "function" false)].
Definition jobSchema : val :=
  VObj [("name", rule "string" false); ("description", rule "string" true); ("schedule", rule "string" true);
        ("interval", VObj [("type", VStr "number"); ("integer", VBool true); ("optional", VBool true)]);
        ("controller", rule "function" true); ("init", rule "function" true)].

Definition isProperObject (v : val) : bool := match v with VArr _ | VObj _ => true | _ => false end.

(** An action of the broker: the rules of its parameters and its handler. *)
Record action := mkAction { action_params : val; action_handler : val → prog val }.
(** An item of a table of methods and its controller. *)
Definition item : Type := (val * (val → prog val))%type.

Section microservice.
Context {FV : FastestValidator} {FN : FunctionValue}.

Definition some {A} (o : option A) : bool := match o with Some _ => true | None => false end.
(** An object with a function among its properties. *)
Definition with_function {A} (k : string) (f : option A) (v : val) : val := if some f then set_field v k function_value else v.

Definition valid (definition schema : val) : result bool :=
  validDefinition ← fv_validate definition schema; Ok (strict_eq validDefinition (VBool true)).

(** Whether the method was taken; the rules of the parameters are tried on
    the empty object, and only an exception counts. *)
Definition addMethod (i : item) (actions : list (string * action)) : result (list (string * action) * bool) :=
  validDefinition ← valid (with_function "controller" (Some i.2) i.1) methodSchema;
  if negb validDefinition then Ok (actions, false)
  else
    let params := field i.1 "params" in
    match (if isProperObject params then fv_validate (VObj []) params else Ok (VBool true)) with
    | Err _ => Ok (actions, false)
    | Ok _ => Ok (aset actions (to_string (field i.1 "name")) (mkAction params i.2), true)
    end.

Fixpoint addAll (items : list item) (actions : list (string * action)) : result (list (string * action)) :=
  match items with
  | [] => Ok actions
  | i :: r => '(actions, _) ← addMethod i actions; addAll r actions
  end.

(** The files of a directory, by name, and their items. *)
Definition addMethods (files : list (string * list item)) (actions : list (string * action)) : result (list (string * action)) :=
  addAll (concat (map snd files)) actions.

(** What the callback of an event does. *)
Definition emit (event data : val) : prog unit :=
  broadcast ← event @. "broadcast"; target ← event @. "target"; name ← event @. "name";
  _ ← detach (call (CRpc "broker" (if strict_eq broadcast (VBool true) then "broadcast" else "emit") (VArr [name; data; target])));
  Ret tt.

(** The controller of an event, applied to the callback. *)
Definition addEvent (event : val) (controller : (val → prog unit) → prog unit) : prog bool :=
  validDefinition ← lift (valid (with_function "controller" (Some controller) event) eventSchema);
  if negb validDefinition then Ret false else _ ← controller (emit event); Ret true.

(** A function that is not awaited: what it throws is lost when it is
    asynchronous, and is thrown when it is not. *)
Inductive body := Sync (p : prog unit) | Async (p : prog unit).
Definition start (b : body) : prog unit := match b with Sync p => p | Async p => detach p end.

Record job := mkJob { job_def : val; job_init : option body; job_controller : option body }.

Definition scheduleJob (j : job) : prog bool :=
  validDefinition ← lift (valid (with_function "init" (job_init j) (with_function "controller" (job_controller j) (job_def j))) jobSchema);
  let schedule := field (job_def j) "schedule" in
  let interval := field (job_def j) "interval" in
  let name := field (job_def j) "name" in
  if negb validDefinition then Ret false
  else if negb (some (job_init j)) && negb (some (job_controller j)) then Ret false
  else if some (job_controller j) && negb (truthy schedule) && negb (truthy interval) then Ret false
  else if (truthy schedule || truthy interval) && negb (some (job_controller j)) then Ret false
  else
    _ ← (match job_init j with Some b => start b | None => Ret tt end);
    _ ← (if truthy interval then _ ← call (CRpc "timer" "setInterval" (VArr [name; js_mul interval (VNum 1000)])); Ret tt
         else if truthy schedule then _ ← call (CRpc "cron" "schedule" (VArr [name; schedule])); Ret tt
         else Ret tt);
    Ret true.

(** The jobs are taken from the end of the list. *)
Definition scheduleJobs (jobsToBeScheduled : list job) : prog unit :=
  piter (λ j, detach (scheduleJob j)) (rev jobsToBeScheduled).

Definition run (serviceConfig : val) (jobsToBeScheduled : list job) : prog unit :=
  _ ← call (CRpc "broker" "createService" serviceConfig);
  _ ← call (CRpc "broker" "start" VUndef);
  scheduleJobs jobsToBeScheduled.

Definition requestRpc (method params : val) : prog val := call (CRpc "broker" "call" (VArr [method; params])).

End microservice.
End Microservice.

(** ** queue.js *)
Module Queue.

Definition queueName : string := "defaultQueue".
Definition queuePool : string := "queue.queuePool.defaultQueue".

Definition defaultOptions : val :=
  VObj [("defaultJobOptions", VObj [("attempts", VNum 5); ("timeout", VNum 300000); ("removeOnComplete", VBool true)]);
        ("settings", VObj [])].

(** One queue for the whole process: made with the endpoint and the options of
    the first caller. *)
Definition queueInstance (redisEndpoint jobName concurrency options : val) : prog val :=
  let options := or_default options defaultOptions in
  known ← call (CVarGet queuePool);
  _ ← (if truthy known then Ret tt
       else defaultJobOptions ← options @. "defaultJobOptions"; settings ← options @. "settings"; limiter ← options @. "limiter";
            queue ← call (CRpc "bull" "new" (VArr [VStr queueName; redisEndpoint;
                      VObj [("defaultJobOptions", defaultJobOptions); ("settings", settings); ("limiter", limiter)]]));
            _ ← call (CVarSet queuePool queue); Ret tt);
  queue ← call (CVarGet queuePool);
  _ ← call (CRpc "bull" "process" (VArr [queue; or_default jobName (VStr "defaultJob"); or_default concurrency (VNum 1)]));
  Ret queue.

Definition add (queue jobName params : val) : prog val := call (CRpc "bull" "add" (VArr [queue; jobName; params])).

End Queue.

(** ** cacheRedis.js *)
Module CacheRedis.

(** All banks of an endpoint share one store. *)
Definition store : Type := list (string * val).
Definition keyOf (bank key : string) : string := bank +:+ ":" +:+ key.
Definition set (s : store) (bank key : string) (v : val) : store := oset s (keyOf bank key) v.
Definition get (s : store) (bank key : string) : option val := oget s (keyOf bank key).
Definition delete (s : store) (bank key : string) : store := odel s (keyOf bank key).
Definition destroy (s : store) : store := [].

End CacheRedis.
