(* ===== verification/Shell.v ===== *)
(** * What connects the services

    Module [IndexerEvents] is services/blockchain-indexer/events/blockchain.js,
    [IndexerShell] its app.js and status.js, [GatewayShell]
    services/gateway/app.js and shared/status.js.

    Then the jobs of the services, src/services/*/jobs: a definition per job,
    with its declaration, what it does first and what its timer does; [AllJobs]
    lists them by service. *)
From S2P Require Export Microservice ServiceTables IndexStatus Network Coordinator Statistics Market Export Registry NodePeers.
Open Scope string_scope.
Open Scope Z_scope.
Open Scope list_scope.

(** ** events/blockchain.js: what the listeners do with the payload of a signal *)
Module IndexerEvents.
Section events.
Context {CFG : Config} {LC : LiskCrypto} {LT : LiskTransactions} {LO : Locale} (callback : val → prog unit).

Definition localPreviousBlockId : string := "events.localPreviousBlockId".

(** [try { ... } catch (err) { logger.error(...) }] *)
Definition logged (p : prog unit) : prog unit := catch p (λ _, Ret tt).

(** [payload && Array.isArray(payload.data)], and the data. *)
Definition dataOf (payload : val) : prog (option (list val)) :=
  if truthy payload then data ← payload @. "data"; Ret (match data with VArr l => Some l | _ => None end)
  else Ret None.

Definition newBlockListener (payload : val) : prog unit :=
  logged
    (data ← dataOf payload;
     match data with
     | Some l =>
         let block := nth_val l 0 in
         id ← block @. "id";
         previous ← call (CVarGet localPreviousBlockId);
         _ ← (if truthy previous then _ ← block @. "previousBlockId"; Ret tt else Ret tt);
         _ ← call (CVarSet localPreviousBlockId id);
         _ ← detach Pending.loadAllPendingTransactions;
         callback payload
     | None => _ ← lift (json_stringify payload); Ret tt
     end).

Definition newTransactionsListener (payload : val) : prog unit :=
  logged
    (data ← dataOf payload;
     match data with
     | Some l =>
         let block := nth_val l 0 in
         numberOfTransactions ← block @. "numberOfTransactions";
         if js_gt numberOfTransactions (VNum 0) then
           id ← block @. "id";
           transactionData ← TransactionsBusiness.getTransactionsByBlockID id;
           callback transactionData
         else Ret tt
     | None => _ ← lift (json_stringify payload); Ret tt
     end).

(** The listeners of [deleteBlock] and of [deleteTransactions]. *)
Definition passDataListener (payload : val) : prog unit :=
  logged
    (data ← dataOf payload;
     match data with
     | Some _ => callback payload
     | None => _ ← lift (json_stringify payload); Ret tt
     end).

Definition generatorsChangeListener : prog unit :=
  logged
    (_ ← Generators.reloadGeneratorsCache;
     generators ← GeneratorsService.getGenerators (VObj [("limit", VNum 103); ("offset", VNum 0)]);
     callback generators).

Definition newRoundListener (payload : val) : prog unit := logged (callback payload).
Definition indexStatusListener (payload : val) : prog unit := callback payload.

(** The events, and the signals their listeners wait for. *)
Definition listeners : list (string * (string * (val → prog unit))) :=
  [("block.new", ("newBlock", newBlockListener)); ("transactions.new", ("newBlock", newTransactionsListener));
   ("block.delete", ("deleteBlock", passDataListener)); ("transactions.delete", ("deleteTransactions", passDataListener));
   ("generators.change", ("newBlock", λ _, generatorsChangeListener)); ("round.change", ("newRound", newRoundListener));
   ("index.ready", ("blockIndexReady", indexStatusListener))].

End events.
End IndexerEvents.

(** ** app.js and status.js of the indexer *)
Module IndexerShell.

Definition MODULE_REWARD : string := "reward".
Definition MODULE_DYNAMIC_REWARD : string := "dynamicReward".

(** The file of methods of a registered module. *)
Definition moduleFile (module : string) : string := if bool_decide (module = MODULE_REWARD) then MODULE_DYNAMIC_REWARD else module.

(** The methods in the order they are added; a module without a file adds none. *)
Definition methodItems (isDataRetrievalModeEnabled isIndexingModeEnabled : bool) (registeredModules : list string) : list val :=
  concat (map snd IndexerMethods.directory)
  ++ (if isDataRetrievalModeEnabled then
        concat (map snd IndexerMethods.dataService)
        ++ concat (map (λ module, default [] (aget IndexerMethods.modules (moduleFile module))) registeredModules)
      else [])
  ++ (if isIndexingModeEnabled then concat (map snd IndexerMethods.indexerDirectory) else []).

Section status.
Context {CFG : Config} {LC : LiskCrypto} {LT : LiskTransactions} {LO : Locale}.

Definition isReady : string := "indexer.status.isReady".
Definition serviceTasks : string := "indexer.status.serviceTasks".
Definition initialTasks : val :=
  VObj (map (λ t, (t, VBool false))
    ["isBlockchainIndexReady"; "isGeneratorsListReady"; "isTransactionsEndpointReady"; "isEventsEndpointReady";
     "isNetworkStatusEndpointReady"; "isSchemasEndpointReady"]).

Definition getTasks : prog val := v ← call (CVarGet serviceTasks); Ret (or_default v initialTasks).
Definition setTask (task : string) (v : val) : prog unit :=
  tasks ← getTasks; _ ← call (CVarSet serviceTasks (set_field tasks task v)); Ret tt.

(** [if (response.data.length) serviceTasks[task] = true] *)
Definition whenData (task : string) (response : val) : prog unit :=
  data ← response @. "data"; n ← data @. "length"; if truthy n then setTask task (VBool true) else Ret tt.
(** [if (Object.getOwnPropertyNames(response.data).length) ...] *)
Definition whenNamed (task : string) (response : val) : prog unit :=
  data ← response @. "data"; names ← lift (own_names data);
  if bool_decide (names = []) then Ret tt else setTask task (VBool true).

Definition isIndexerServiceReady : prog bool :=
  tasks ← getTasks; Ret (forallb (λ kv : string * val, strict_eq kv.2 (VBool true)) (props tasks)).

Definition getStatus (service version : val) : prog val :=
  ready ← call (CVarGet isReady);
  _ ← (if truthy ready then Ret tt
       else
         indexReady ← IndexStatus.getIndexReadyStatus; _ ← setTask "isBlockchainIndexReady" indexReady;
         events ← EventsBusiness.getEvents (VObj [("limit", VNum 1)]); _ ← whenData "isEventsEndpointReady" events;
         generators ← GeneratorsService.getGenerators (VObj [("limit", VNum 1); ("offset", VNum 0)]);
         _ ← whenData "isGeneratorsListReady" generators;
         networkStatus ← NetworkQueries.getNetworkStatus; _ ← whenNamed "isNetworkStatusEndpointReady" networkStatus;
         transactions ← TransactionsService.getTransactions (VObj [("limit", VNum 1)]);
         _ ← whenData "isTransactionsEndpointReady" transactions;
         schemas ← SchemaQueries.getSchemas; _ ← whenNamed "isSchemasEndpointReady" schemas;
         all ← isIndexerServiceReady;
         if all : bool then _ ← call (CVarSet isReady (VBool true)); Ret tt else Ret tt);
  ready ← call (CVarGet isReady);
  Ret (VObj [("service", service); ("version", version); ("isReady", or_default ready (VBool false))]).

End status.
End IndexerShell.

(** ** app.js and shared/status.js of the gateway *)
Module GatewayShell.

(** The names under which the routes of a node's modules are looked for. *)
Definition registeredModuleNames (modules : list string) : list string := map IndexerShell.moduleFile modules.

(** [Math.max(...l)] *)
Definition max_of (l : list val) : val :=
  match l with
  | [] => VFlt (S754_infinity true)
  | x :: r => fold_left (λ m v, num_max m (to_number v)) r (to_number x)
  end.

(** The version most of the peers state; of the protocol when no peer states
    one of the application. *)
Definition networkNodeVersion (data : val) : result val :=
  coreVer ← prop data "coreVer"; names ← own_names coreVer;
  version ← (if bool_decide (names = []) then prop data "networkVersion" else Ok coreVer);
  es ← entries version;
  let versionCount := map snd es in
  Ok match find_index (λ n, strict_eq n (max_of versionCount)) versionCount with
     | Some i => match es !! i with Some (k, _) => VStr k | None => VUndef end
     | None => VUndef
     end.

Section gateway.
Context {DT : Dates} {FV : FastestValidator} {GC : GatewayConfig} {MO : Moleculer}.

(** [build], [name] and [version] are known when the service starts. *)
Definition getStatus (build name version : val) : prog val :=
  networkStatistics ← SocketIo.ctx_call "indexer.network.statistics" VUndef;
  status ← SocketIo.ctx_call "connector.getNetworkStatus" VUndef; chainID ← status @. "chainID";
  data ← networkStatistics @. "data"; nodeVersion ← lift (networkNodeVersion data);
  Ret (VObj [("build", build); ("description", VStr "Lisk Service Gateway"); ("name", name); ("version", version);
             ("networkNodeVersion", nodeVersion); ("chainID", chainID)]).

Definition sendSocketIoEvent (eventName : string) (payload : val) : prog unit :=
  detach (call (CRpc "gateway" "broadcast"
    (VObj [("namespace", VStr "/blockchain"); ("event", VStr eventName); ("args", VArr [payload])]))).

(** The events of the other services, what the clients get them as, and the
    definition that maps their payload. *)
Definition socketEvents : list (string * (string * option val)) :=
  [("block.new", ("new.block", Some (field Sources.blocks "definition")));
   ("transactions.new", ("new.transactions", Some (field Sources.transactions "definition")));
   ("block.delete", ("delete.block", Some (field Sources.blocks "definition")));
   ("transactions.delete", ("delete.transactions", Some (field Sources.transactions "definition")));
   ("round.change", ("update.round", None));
   ("generators.change", ("update.generators", Some (field Sources.generators "definition")));
   ("update.fee_estimates", ("update.fee_estimates", Some (field Sources.fees "definition")));
   ("metadata.change", ("update.metadata", None))].

Definition onEvent (event : string) (payload : val) : prog unit :=
  match aget socketEvents event with
  | Some (eventName, Some definition) => mapped ← lift (CustomMapper.mapper payload definition); sendSocketIoEvent eventName mapped
  | Some (eventName, None) => sendSocketIoEvent eventName payload
  | None => Ret tt
  end.

(** moleculer-io/index.js: the action [broadcast].  The parameter [volate] is
    not the declared [volatile]; a namespace has no such property either. *)
Definition broadcastTarget (params : val) : list val :=
  (if truthy (field params "namespace") then [VObj [("of", field params "namespace")]] else [])
  ++ (if truthy (field params "local") then [VStr "local"] else [])
  ++ map (λ room, VObj [("to", room)]) (arr_of (field params "rooms")).
Definition broadcast (params : val) : prog unit :=
  if truthy (field params "volate") then Throw (type_error "Cannot read properties of undefined (reading 'emit')")
  else
    let args := if truthy (field params "args") then arr_of (field params "args") else [] in
    _ ← call (CRpc "io" "emit" (VArr (VArr (broadcastTarget params) :: field params "event" :: args))); Ret tt.

(** The action [getClients] reads [namespaces]; its parameter is [namespace]. *)
Definition getClients (params : val) : prog val :=
  let namespace := js_or (field params "namespaces") (VStr "/") in
  call (CRpc "io" "clients" (VArr [VObj [("of", namespace)]; VObj [("to", field params "room")]])).

End gateway.
End GatewayShell.

(** ** The services and the methods they add *)
Module Services.

(** The gateway's own actions, which check no parameters. *)
Definition gatewayActions : list val := map (λ name, method_item name VUndef) ["ready"; "spec"; "status"; "isBlockchainIndexReady"].

(** The services by name, and their methods in the order they are added; the
    indexer retrieves data, and indexes or not. *)
Definition services (isIndexingModeEnabled : bool) (registeredModules : list string) : list (string * list val) :=
  [("indexer", IndexerShell.methodItems true isIndexingModeEnabled registeredModules);
   ("connector", concat (map snd ConnectorMethods.directory)); ("fees", concat (map snd FeesMethods.directory));
   ("market", concat (map snd MarketMethods.directory)); ("statistics", concat (map snd StatisticsMethods.directory));
   ("export", concat (map snd ExportMethods.directory)); ("app-registry", concat (map snd RegistryMethods.directory));
   ("gateway", gatewayActions)].

Definition nameOf (i : val) : string := to_string (field i "name").
(** The name under which the broker knows an action. *)
Definition fullName (service name : string) : string := service +:+ "." +:+ name.

End Services.

(** ** The jobs of the services *)

Import Microservice.

(** The declaration of a job. *)
Definition on_schedule (name description schedule : string) : val :=
  VObj [("name", VStr name); ("description", VStr description); ("schedule", VStr schedule)].
Definition every (name description : string) (interval : Z) : val :=
  VObj [("name", VStr name); ("description", VStr description); ("interval", VNum interval)].

(** [try { ... } catch (err) { logger.warn(...) }] *)
Definition warned (p : prog unit) : prog unit := catch p (λ _, Ret tt).

(** ** blockchain-indexer/jobs/dataService *)
Module IndexerJobs.
Section jobs.
Context {CFG : Config} {LC : LiskCrypto} {LT : LiskTransactions} {LO : Locale}.

Definition blockchainAppsStats : job :=
  mkJob (on_schedule "reload.blockchain.apps.statistics" "Keep the blockchain apps statistics up-to-date" "*/15 * * * *")
    (Some (Async (warned Interoperability.reloadBlockchainAppsStats)))
    (Some (Async (warned Interoperability.reloadBlockchainAppsStats))).

Definition deleteSerializedEvents : prog unit :=
  warned (if db_isPersistEvents then Ret tt else Events.deleteEventStrTillFinalizedHeight).
Definition events : job :=
  mkJob (on_schedule "delete.serializedEvents" "Delete the serialized events until finalized height." "*/5 * * * *")
    None (Some (Async deleteSerializedEvents)).

Definition reloadLiveIndexingJobCount : prog unit :=
  count ← BlockchainIndex.getLiveIndexingJobCount; _ ← call (CSignal "numJobsInProgressUpdate" count); Ret tt.
Definition indexStatus : job :=
  mkJob (every "reload.live.indexing.job.count" "Update the current number of jobs for block indexing in progress/wait." 10)
    (Some (Async reloadLiveIndexingJobCount)) (Some (Async reloadLiveIndexingJobCount)).

(** Whether the module pos is registered is asked outside the [try]. *)
Definition reloadValidators : prog unit :=
  registered ← PosBusiness.isPosModuleRegistered;
  if registered : bool then warned Validators.reloadValidatorCache else Ret tt.
Definition validators : job :=
  mkJob (on_schedule "reload.validators" "Keep the validators list up-to-date" "*/5 * * * *")
    (Some (Async reloadValidators)) (Some (Async reloadValidators)).

Definition jobs : list job := [blockchainAppsStats; events; indexStatus; validators].
End jobs.
End IndexerJobs.

(** ** transaction-statistics/jobs *)
Module StatisticsJobs.
Section jobs.
Context {SC : StatisticsConfig} {MO : MomentLib} {DT : Dates} {LO : Locale} {BN : BigNumberLib} {MF : MathFns}.

(** The first run only adds the listener, which removes itself. *)
Definition addIndexReadyListener : prog unit := _ ← call (CRpc "signals" "add" (VStr "blockIndexReady")); Ret tt.
Definition onIndexReady : prog unit :=
  _ ← Query.indexReadyListener; _ ← call (CRpc "signals" "remove" (VStr "blockIndexReady")); Ret tt.

Definition refresh : job :=
  mkJob (set_field (on_schedule "refresh.transactions.statistics" "Keep the transaction statistics up-to-date" "*/30 * * * *")
           "updateOnInit" (VBool true))
    (Some (Async addIndexReadyListener)) (Some (Async Query.refreshController)).
Definition verify : job :=
  mkJob (on_schedule "verify.transactions.statistics"
           "Verify the accuracy and rebuild the transaction statistics, if necessary" "15 */3 * * *")
    None (Some (Async Query.verifyController)).

Definition jobs : list job := [refresh; verify].
End jobs.
End StatisticsJobs.

(** ** market/jobs: the parameters are those of the sources *)
Module MarketJobs.
Section jobs.
Context {MO : MomentLib} {AE : AxiosErrors} {MC : MarketConfig} (encodeURI : string → string) (arrival : list string).

Definition pricesJob (name source : string) (reload : prog unit) : job :=
  mkJob (on_schedule ("prices.retrieve." +:+ name) ("Fetches up-to-date market prices from " +:+ source) "* * * * *")
    (Some (Async reload)) (Some (Async reload)).

Definition binance : job := pricesJob "binance" "Binance" (Source.reloadMarketPrices (Binance.reload encodeURI)).
Definition bittrex : job := pricesJob "bittrex" "Bittrex" (Source.reloadMarketPrices (Bittrex.reload encodeURI)).
Definition exchangeratesapi : job := pricesJob "exchangeratesapi" "exchangeratesapi" (ExchangeRates.reload encodeURI arrival).
Definition kraken : job := pricesJob "kraken" "Kraken" (Source.reloadMarketPrices (Kraken.reload encodeURI)).
Definition pricesUpdate : job :=
  mkJob (every "prices.update" "Keeps the market prices up-to-date" 5)
    (Some (Async PriceUpdater.updatePrices)) (Some (Async PriceUpdater.updatePrices)).

Definition jobs : list job := [binance; bittrex; exchangeratesapi; kraken; pricesUpdate].
End jobs.
End MarketJobs.

(** ** blockchain-coordinator/jobs, blockchain-connector/jobs, gateway/jobs *)
Module NodeJobs.
Section jobs.
Context {CC : ConnectorConfig} {NE : NodeErrors} {LC : LiskCrypto} {CO : LiskCodec} {SH : Sha256} {GC : GeoConfig} {AE : AxiosErrors}.

Definition missingBlocks : job :=
  mkJob (on_schedule "index.missing.blocks" "Verify and update blocks indexing" "*/15 * * * *")
    None (Some (Async Coordinator.missingBlocksJob)).

(** The reload is not waited for. *)
Definition peers : job :=
  mkJob (every "refresh.peers" "Keep the peer list up-to-date" 60)
    (Some (Sync PeerCache.refresh_peers)) (Some (Sync PeerCache.refresh_peers)).

Definition ready : job :=
  mkJob (on_schedule "readiness.status" "Keep the readiness status up-to-date" "* * * * *")
    (Some (Async Ready.updateSvcStatus)) (Some (Async Ready.updateSvcStatus)).
End jobs.
End NodeJobs.

(** ** blockchain-app-registry/jobs and export/jobs *)
Module FileJobs.
Section jobs.
Context {CFG : Config} {RC : RegistryConfig} {LO : Locale} {MO : MomentLib} {EM : ExportMoment} {EC : ExportConfig}.

Definition deleteNonMetadata (fuel : nat) : job :=
  mkJob (on_schedule "delete.non.metadata.files"
           "Delete any non-metadata files and empty folders inside data directory." "0 0 * * *")
    None (Some (Async (Repository.deleteController fuel))).
Definition metadata : job :=
  mkJob (on_schedule "update.application.metadata" "Keep the blockchain applications metadata up-to-date" "*/10 * * * *")
    None (Some (Async Repository.metadataController)).

Definition purge (partials staticFiles : CsvCache.objectCache) : job :=
  mkJob (on_schedule "job.purge.cache" "Cache maintenance" "45 4 * * *")
    None (Some (Sync (CsvCache.purgeController partials staticFiles))).
End jobs.
End FileJobs.

(** ** The jobs of each service *)
Module AllJobs.
Section all.
Context {CFG : Config} {LC : LiskCrypto} {LT : LiskTransactions} {LO : Locale} {SC : StatisticsConfig} {MO : MomentLib} {DT : Dates} {BN : BigNumberLib}
        {MF : MathFns} {AE : AxiosErrors} {MC : MarketConfig} {CC : ConnectorConfig} {NE : NodeErrors} {CO : LiskCodec} {SH : Sha256}
        {GC : GeoConfig} {RC : RegistryConfig} {EM : ExportMoment} {EC : ExportConfig}
        (encodeURI : string → string) (arrival : list string) (fuel : nat) (partials staticFiles : CsvCache.objectCache).

Definition jobs : list (string * list job) :=
  [("indexer", IndexerJobs.jobs); ("statistics", StatisticsJobs.jobs); ("market", MarketJobs.jobs encodeURI arrival);
   ("coordinator", [NodeJobs.missingBlocks]); ("connector", [NodeJobs.peers]); ("gateway", [NodeJobs.ready]);
   ("app-registry", [FileJobs.deleteNonMetadata fuel; FileJobs.metadata]); ("export", [FileJobs.purge partials staticFiles])].

End all.
End AllJobs.
