(* ===== verification/ShellThms.v ===== *)
(** * The services together

    What the services register is what the gateway calls; the jobs that are
    started; the listeners of the indexer; the version the gateway reports. *)
From S2P Require Export RouteThms FeesThms NodeThms Shell.
Open Scope string_scope.
Open Scope Z_scope.
Open Scope list_scope.
Import ApiUtils ParamValidator Microservice Services.

(** ** Registering methods *)

Lemma find_app {A} (f : A → bool) l l' : List.find f (l ++ l') = match List.find f l with Some x => Some x | None => List.find f l' end.
Proof. induction l as [|x l IH]; simpl; [done|]. by destruct (f x). Qed.

Section registration.
Context {FV : FastestValidator} {FN : FunctionValue}.

(** The validator finds nothing wrong with the definition of a method and can
    compile the rules of its parameters. *)
Definition well_declared (i : val) : Prop :=
  valid (with_function "controller" (Some tt) i) methodSchema = Ok true ∧
  (isProperObject (field i "params") = true → ∃ r, fv_validate (VObj []) (field i "params") = Ok r).

Lemma addMethod_declared i actions :
  well_declared i.1 → addMethod i actions = Ok (aset actions (nameOf i.1) (mkAction (field i.1 "params") i.2), true).
Proof.
  intros [Hv Hp]. unfold addMethod, with_function, some in *. rewrite Hv. cbn [mbind result_mbind result_bind negb].
  destruct (isProperObject _); [|done]. by destruct Hp as [r ->].
Qed.

(** The last method of a name is the one that is called. *)
Lemma addAll_last items actions :
  Forall (λ i : item, well_declared i.1) items →
  ∃ acts, addAll items actions = Ok acts ∧
    ∀ name, aget acts name =
      match List.find (λ i : item, bool_decide (nameOf i.1 = name)) (rev items) with
      | Some i => Some (mkAction (field i.1 "params") i.2)
      | None => aget actions name
      end.
Proof.
  revert actions. induction items as [|i items IH]; intros actions Hw.
  { by exists actions. }
  apply Forall_cons in Hw as [Hi Hw]. cbn [addAll]. rewrite addMethod_declared by done.
  cbn [mbind result_mbind result_bind]. destruct (IH (aset actions (nameOf i.1) (mkAction (field i.1 "params") i.2)) Hw) as (acts & E & H).
  exists acts. split; [exact E|]. intros name. rewrite H. cbn [rev]. rewrite find_app. destruct (List.find _ (rev items)); [done|].
  rewrite aget_aset. cbn [List.find]. case_bool_decide; [by rewrite decide_True|by rewrite decide_False].
Qed.

End registration.

(** ** The routes of the gateway and the methods of the services *)

(** What the catalog has on a method: the service, the module its file is
    for, and the item. *)
Definition of_service (service : string) (module : option string) (items : list val) : list (string * (string * option string * val)) :=
  map (λ i, (fullName service (nameOf i), (service, module, i))) items.
Definition catalog : list (string * (string * option string * val)) :=
  of_service "indexer" None (concat (map snd IndexerMethods.directory) ++ concat (map snd IndexerMethods.dataService))
  ++ concat (map (λ '(file, items), of_service "indexer" (Some file) items) IndexerMethods.modules)
  ++ concat (map (λ '(service, items), of_service service None items) (tail (services false []))).

(** All methods a configuration may add. *)
Definition all_methods (service : string) : list val :=
  if bool_decide (service = "indexer")
  then concat (map snd IndexerMethods.directory) ++ concat (map snd IndexerMethods.dataService)
       ++ concat (map snd IndexerMethods.modules) ++ concat (map snd IndexerMethods.indexerDirectory)
  else default [] (aget (services false []) service).

Lemma names_distinct : forallb (λ s, bool_decide (NoDup (map nameOf (all_methods s)))) (map fst (services false [])) = true.
Proof. vm_compute. reflexivity. Qed.

(** The type [jstype] a value converted from one type has. *)
Definition jstype (v : val) : string := match v with VArr _ => "array" | _ => typeof v end.
Definition converted (from to : string) : string :=
  match from +:+ "_" +:+ to with
  | "string_number" => "number" | "number_string" | "array_string" => "string" | "string_boolean" => "boolean"
  | _ => from
  end.

Lemma convertType_type v ty v' : convertType v ty = Ok v' → jstype v' = converted (jstype v) ty.
Proof.
  intros H. assert (v ≠ VNull) as Hn by (by intros ->).
  unfold convertType in H. assert (match v with VArr _ => Ok "array" | VNull => Err (type_error "Cannot read properties of null (reading 'constructor')")
    | _ => Ok (typeof v) end = Ok (jstype v)) as E by by destruct v. rewrite E in H. clear E.
  cbn [mbind result_mbind result_bind] in H. unfold converted. revert H. generalize (jstype v +:+ "_" +:+ ty). intros s H.
  assert (jstype (to_number v) = "number") as Hnum by by destruct (to_number_number v) as [[z ->]|[f ->]].
  repeat (case_match; try by (injection H as <-)).
Qed.

(** One entry of the mapping of a route agrees with the rules of a method. *)
Definition entry_agrees (m rules : val) (kv : string * val) : bool :=
  let rule := field (field rules kv.1) "type" in
  let declared := field (field (field m "params") (reads_param kv)) "type" in
  bool_decide (field rules kv.1 = VUndef) || bool_decide (rule = VStr "any")
  || match declared with
     | VStr d => bool_decide (rule = VStr match converts_to kv with Some ty => converted d ty | None => d end)
     | VUndef => true
     | _ => false
     end.
Definition required (rule : val) : bool := negb (truthy (field rule "optional")).
Definition required_sent (m rules : val) : bool :=
  forallb (λ kr : string * val, negb (required kr.2)
    || existsb (λ kv, bool_decide (kv.1 = kr.1) && required (field (field m "params") (reads_param kv))) (mapping m)) (props rules).
Definition route_agrees (rm : string * val) : bool :=
  match aget catalog (to_string (source_method rm.2)) with
  | Some (service, module, i) =>
      strict_eq (source_method rm.2) (VStr (fullName service (nameOf i)))
      && forallb (entry_agrees rm.2 (field i "params")) (mapping rm.2) && required_sent rm.2 (field i "params")
  | None => false
  end.

Lemma routes_agree : forallb route_agrees public_routes = true.
Proof. vm_compute. reflexivity. Qed.

(** A request whose values have the types the route declares. *)
Definition request_typed (m : val) (o : list (string * val)) : Prop :=
  ∀ p v, oget o p = Some v → v = VUndef ∨ field (field (field m "params") p) "type" = VStr (jstype v).

Lemma sent_undefined kv v' : sent_by kv VUndef v' → v' = VUndef.
Proof.
  unfold sent_by. destruct (converts_to kv) as [ty|]; [|done].
  assert (convertType VUndef ty = Ok VUndef) as -> by reflexivity. congruence.
Qed.

Lemma sent_type kv v v' : sent_by kv v v' → jstype v' = match converts_to kv with Some ty => converted (jstype v) ty | None => jstype v end.
Proof. unfold sent_by. destruct (converts_to kv); [apply convertType_type|by intros ->]. Qed.

Lemma entry_sent m rules kv o v' :
  entry_agrees m rules kv = true → request_typed m o → sent_by kv (default VUndef (oget o (reads_param kv))) v' →
  v' = VUndef ∨ field rules kv.1 = VUndef ∨ field (field rules kv.1) "type" = VStr "any" ∨ field (field rules kv.1) "type" = VStr (jstype v').
Proof.
  intros Ha Ht Hs. destruct (oget o (reads_param kv)) as [v|] eqn:Ev; cbn [default id] in Hs; [|left; by apply sent_undefined in Hs].
  destruct (Ht _ _ Ev) as [->|Hd]; [left; by apply sent_undefined in Hs|]. right.
  unfold entry_agrees in Ha. rewrite Hd, <- (sent_type _ _ _ Hs) in Ha.
  apply orb_true_iff in Ha as [[Ha|Ha]%orb_true_iff|Ha]; apply bool_decide_eq_true in Ha; auto.
Qed.

Lemma aget_elem {A} (o : list (string * A)) k v : aget o k = Some v → (k, v) ∈ o.
Proof.
  induction o as [|[k0 v0] o IH]; simpl; [done|]. destruct (decide (k0 = k)) as [->|]; [intros [= ->]; by left|right; by apply IH].
Qed.

Lemma elem_of_concat_snd {A B} (x : A) (l : list (B * list A)) : x ∈ concat (map snd l) ↔ ∃ b items, (b, items) ∈ l ∧ x ∈ items.
Proof.
  rewrite list_elem_of_In, in_concat. split.
  - intros (items & [[b i'] [<- Hin]]%in_map_iff & Hx). exists b, i'. by rewrite !list_elem_of_In.
  - intros (b & items & Hin%list_elem_of_In & Hx%list_elem_of_In). exists items. split; [|done]. apply in_map_iff. by exists (b, items).
Qed.

Lemma elem_of_service x service module items : x ∈ of_service service module items → ∃ i, x = (fullName service (nameOf i), (service, module, i)) ∧ i ∈ items.
Proof. intros (i & <- & Hi)%list_elem_of_In%in_map_iff. exists i. split; [done|]. by apply list_elem_of_In. Qed.

Lemma module_files_distinct : NoDup (map fst IndexerMethods.modules).
Proof. apply (bool_decide_unpack _). by vm_compute. Qed.

(** A method of the catalog is added when its module is registered. *)
Lemma catalog_added name service module i isIndexing mods :
  (name, (service, module, i)) ∈ catalog →
  match module with Some file => file ∈ map IndexerShell.moduleFile mods | None => True end →
  ∃ items, (service, items) ∈ services isIndexing mods ∧ i ∈ items.
Proof.
  unfold catalog. intros [H|[H|H]%elem_of_app]%elem_of_app Hm.
  - apply elem_of_service in H as (i' & [= -> -> -> ->] & Hi). eexists. split; [left|].
    unfold IndexerShell.methodItems. cbv iota. rewrite elem_of_app in Hi. rewrite !elem_of_app. tauto.
  - apply list_elem_of_In, in_concat in H as (l & [[file items] [<- Hin]]%in_map_iff & Hl).
    apply list_elem_of_In, elem_of_service in Hl as (i' & [= -> -> -> ->] & Hi). eexists. split; [left|].
    apply list_elem_of_In, in_map_iff in Hm as (md & Hmd & Hmods). unfold IndexerShell.methodItems. cbv iota.
    apply elem_of_app. right. apply elem_of_app. left. apply elem_of_app. right. apply list_elem_of_In, in_concat.
    exists items. split; [|by apply list_elem_of_In]. apply in_map_iff. exists md. split; [|done]. rewrite Hmd.
    apply list_elem_of_In in Hin. by rewrite (proj2 (aget_Some _ _ _ module_files_distinct) Hin).
  - apply list_elem_of_In, in_concat in H as (l & [[s items] [<- Hin]]%in_map_iff & Hl).
    apply list_elem_of_In, elem_of_service in Hl as (i' & [= -> -> -> ->] & Hi). exists items. split; [|done].
    right. by apply list_elem_of_In.
Qed.

Lemma catalog_module name service file i :
  (name, (service, Some file, i)) ∈ catalog → ∃ items, service = "indexer" ∧ (file, items) ∈ IndexerMethods.modules ∧ i ∈ items.
Proof.
  unfold catalog. intros [H|[H|H]%elem_of_app]%elem_of_app.
  - apply elem_of_service in H as (i' & ? & Hi). congruence.
  - apply list_elem_of_In, in_concat in H as (l & [[f items] [<- Hin]]%in_map_iff & Hl).
    apply list_elem_of_In, elem_of_service in Hl as (i' & [= -> -> -> ->] & Hi). exists items. by rewrite list_elem_of_In.
  - apply list_elem_of_In, in_concat in H as (l & [[f items] [<- Hin]]%in_map_iff & Hl).
    apply list_elem_of_In, elem_of_service in Hl as (i' & ? & Hi). congruence.
Qed.

Lemma services_methods service items isIndexing mods :
  (service, items) ∈ services isIndexing mods → service ∈ map fst (services false []) ∧ ∀ i, i ∈ items → i ∈ all_methods service.
Proof.
  unfold services at 1. intros [[= -> ->]|H]%elem_of_cons.
  - split; [left|]. unfold all_methods. rewrite bool_decide_eq_true_2 by done. unfold IndexerShell.methodItems. cbv iota.
    intros i. rewrite !elem_of_app. intros [?|[[?|Hm]|?]]; try tauto; [|destruct isIndexing; [tauto|by apply elem_of_nil in H]].
    right; right; left. apply list_elem_of_In, in_concat in Hm as (l & [md [<- Hmd]]%in_map_iff & Hi).
    destruct (aget IndexerMethods.modules _) as [l|] eqn:E; [|done]. apply aget_elem in E. apply elem_of_concat_snd.
    do 2 eexists. split; [exact E|]. by apply list_elem_of_In.
  - repeat (apply elem_of_cons in H as [[= -> ->]|H];
      [split; [by apply (bool_decide_unpack _); vm_compute|intros i Hi; exact Hi]|]).
    by apply elem_of_nil in H.
Qed.

(** The methods of a service have different names. *)
Lemma same_method service i i' :
  service ∈ map fst (services false []) → i ∈ all_methods service → i' ∈ all_methods service → nameOf i = nameOf i' → i = i'.
Proof.
  intros Hs Hi Hi' E. pose proof names_distinct as H. rewrite forallb_forall in H.
  apply list_elem_of_In, H, bool_decide_eq_true in Hs.
  apply list_elem_of_lookup in Hi as [n Hn], Hi' as [n' Hn'].
  assert (n = n') as ->; [|congruence].
  eapply NoDup_lookup; [exact Hs|rewrite list_lookup_fmap, Hn; reflexivity|]. by rewrite list_lookup_fmap, Hn', E.
Qed.

(** Whatever the handlers, the broker has the rules of the method. *)
Lemma registered_rules {FV : FastestValidator} {FN : FunctionValue} service items isIndexing mods i handlers :
  (service, items) ∈ services isIndexing mods → i ∈ items → Forall well_declared items →
  ∃ acts, addAll (map (λ i, (i, handlers i)) items) [] = Ok acts ∧ aget acts (nameOf i) = Some (mkAction (field i "params") (handlers i)).
Proof.
  intros Hs Hi Hw. destruct (addAll_last (map (λ i, (i, handlers i)) items) []) as (acts & E & H).
  { apply Forall_map. eapply Forall_impl; [exact Hw|done]. }
  destruct (services_methods _ _ _ _ Hs) as [Hin Hall]. specialize (H (nameOf i)).
  destruct (List.find _ _) as [[i' h]|] eqn:Ef.
  - apply find_some in Ef as [Hf Hn]. apply bool_decide_eq_true in Hn. cbn [fst] in Hn.
    rewrite <- in_rev in Hf. apply in_map_iff in Hf as (i0 & [= -> <-] & Hi0). apply list_elem_of_In in Hi0.
    assert (i' = i) as -> by (eapply same_method; [exact Hin|by apply Hall..|done]). by exists acts.
  - eapply find_none with (x := (i, handlers i)) in Ef; [by rewrite bool_decide_eq_true_2 in Ef|].
    rewrite <- in_rev. apply in_map_iff. exists i. split; [done|]. by apply list_elem_of_In.
Qed.


(** ** The version the gateway reports *)

Section version.
Import GatewayShell.

(** Whether a peer states the property. *)
Definition stated (k : string) (peers : list val) : bool := existsb (λ p, truthy (field p k)) peers.
(** [r] is a value of the property that no other value is stated by more peers
    than, if a value is stated. *)
Definition most_stated (k : string) (peers : list val) (r : val) : Prop :=
  let times s := tally s (map (λ p, field p k) peers) in
  match r with
  | VStr s => (0 < times s)%nat ∧ ∀ s', (times s' ≤ times s)%nat
  | VUndef => ∀ s, times s = 0%nat
  | _ => False
  end.

Lemma tally_stated k peers s : stated k peers = false → tally s (map (λ p, field p k) peers) = 0%nat.
Proof.
  unfold tally. induction peers as [|p peers IH]; simpl; [done|]. intros [-> H]%orb_false_iff. by apply IH.
Qed.

Lemma counts_nil k peers : counts k peers (VObj []) → stated k peers = false.
Proof.
  intros (o & [= <-] & _ & H). destruct (stated k peers) eqn:E; [|done]. exfalso.
  apply existsb_exists in E as (p & Hp & Ht). specialize (H (to_string (field p k))). cbn in H. unfold tally in H.
  destruct (List.filter _ _) as [|] eqn:Ef; [|done].
  assert (field p k ∈ List.filter (λ x, truthy x && bool_decide (to_string x = to_string (field p k))) (map (λ p, field p k) peers)) as Hin.
  { apply list_elem_of_In, filter_In. split; [apply in_map_iff; by exists p|]. by rewrite Ht, bool_decide_eq_true_2. }
  rewrite Ef in Hin. by apply elem_of_nil in Hin.
Qed.

Lemma max_of_nums l : l ≠ [] → ∃ m, max_of (map VNum l) = VNum m ∧ m ∈ l ∧ Forall (λ n, n ≤ m) l.
Proof.
  destruct l as [|n l]; [done|]. intros _. unfold max_of. cbn [map fold_left to_number].
  revert n. induction l as [|n' l IH]; intros n; cbn [map fold_left to_number].
  - exists n. split; [done|]. split; [by left|]. by repeat constructor.
  - rewrite num_max_num. destruct (IH (Z.max n n')) as (m & -> & Hm & Hf). exists m. split; [done|].
    apply Forall_cons in Hf as [Hmax Hf]. split; [|repeat constructor; [lia|lia|done]].
    apply elem_of_cons in Hm as [->|Hm]; [|set_solver]. destruct (Z.max_spec n n') as [[_ ->]|[_ ->]]; set_solver.
Qed.

Lemma find_index_elem {A} (f : A → bool) l x : x ∈ l → f x = true → ∃ i y, find_index f l = Some i ∧ l !! i = Some y ∧ f y = true.
Proof.
  induction l as [|z l IH]; [by intros ?%elem_of_nil|]. intros Hx Hf. simpl. destruct (f z) eqn:E; [by exists 0%nat, z|].
  apply elem_of_cons in Hx as [->|Hx]; [congruence|]. destruct (IH Hx Hf) as (i & y & -> & Hy & Hfy). by exists (S i), y.
Qed.

Lemma shown_inv n v : shown_count n = Some v → v = VNum (Z.of_nat n) ∧ (0 < n)%nat.
Proof. destruct n; [done|]. intros [= <-]. split; [done|lia]. Qed.

Definition commonest (es : list (string * val)) : val :=
  match find_index (λ n, strict_eq n (max_of (map snd es))) (map snd es) with
  | Some i => match es !! i with Some (k, _) => VStr k | None => VUndef end
  | None => VUndef
  end.

Lemma commonest_counts k peers o : counts k peers (VObj o) → most_stated k peers (commonest o).
Proof.
  intros H. destruct (decide (o = [])) as [->|Hne].
  { apply counts_nil in H. intros s. by apply tally_stated. }
  destruct H as (o' & [= <-] & Hd & H). unfold most_stated. set (times s := tally s (map (λ p, field p k) peers)) in *.
  assert (map snd o = map VNum (map (λ kn, Z.of_nat (times kn.1)) o)) as Hs.
  { rewrite map_map. apply map_ext_in. intros [s n] Hin%list_elem_of_In. apply (oget_Some_elem _ _ _ Hd) in Hin. rewrite H in Hin.
    by apply shown_inv in Hin as [-> _]. }
  destruct (max_of_nums (map (λ kn, Z.of_nat (times kn.1)) o)) as (m & Hm & Hin & Hall); [by destruct o|].
  unfold commonest. rewrite Hs, Hm.
  destruct (find_index_elem (λ n, strict_eq n (VNum m)) (map VNum (map (λ kn, Z.of_nat (times kn.1)) o)) (VNum m)) as (i & y & -> & Hy & Hf).
  { by apply list_elem_of_In, in_map, list_elem_of_In. } { cbn. apply Z.eqb_refl. }
  rewrite !list_lookup_fmap in Hy. destruct (o !! i) as [[s n]|] eqn:Ei; [|done]. cbn in Hy. injection Hy as <-.
  apply Z.eqb_eq in Hf. split.
  - assert ((s, n) ∈ o) as Ho by (by eapply list_elem_of_lookup_2). apply (oget_Some_elem _ _ _ Hd) in Ho. rewrite H in Ho. by apply shown_inv in Ho as [_ ?].
  - intros s'. change (times s' ≤ times s)%nat. destruct (times s') as [|t] eqn:Et; [lia|]. specialize (H s'). fold (times s') in H. rewrite Et in H. apply oget_elem_of in H.
    rewrite Forall_map, Forall_forall in Hall. specialize (Hall _ H). cbn in Hall. lia.
Qed.

Lemma networkNodeVersion_counts data peers :
  (∃ o, data = VObj o) → counts "version" peers (field data "coreVer") → counts "networkVersion" peers (field data "networkVersion") →
  ∃ r, networkNodeVersion data = Ok r ∧ most_stated (if stated "version" peers then "version" else "networkVersion") peers r.
Proof.
  intros [o ->] Hc Hn. unfold field in *. cbn [prop] in *. unfold networkNodeVersion. cbn [prop mbind result_mbind result_bind].
  destruct (Hc) as (cs & Ec & _ & Hcs), (Hn) as (ns & En & _ & Hns). rewrite Ec in *. rewrite En in *. cbn. rewrite app_nil_r.
  destruct cs as [|c cs].
  - rewrite (counts_nil _ _ Hc). cbn. eexists. split; [reflexivity|]. exact (commonest_counts _ _ _ Hn).
  - replace (stated "version" peers) with true; [eexists; split; [reflexivity|]; exact (commonest_counts _ _ _ Hc)|].
    destruct (stated "version" peers) eqn:E; [done|]. specialize (Hcs c.1). rewrite (tally_stated _ _ _ E) in Hcs.
    destruct c as [s n]. cbn in Hcs. by rewrite decide_True in Hcs.
Qed.

Lemma exec_requestRpc service method params tr v :
  exec (Utils.Request.requestRpc service method params) tr (Ok v) → tr = [(CRpc service method params, Ok v)].
Proof.
  intros H. bind H as data ->%exec_call_inv. case_match; [|by apply exec_ret_inv in H as [-> [= ->]]].
  bind H as m _. by apply exec_throw_inv in H as [_ ?].
Qed.

(** The statistics pass the indexer, which adds to them. *)
Lemma getNetworkStatistics_passes {CFG : Config} {LC : LiskCrypto} {LT : LiskTransactions} {LO : Locale} {ES : EngineSort} tr o stats :
  exec Controllers.getNetworkStatistics tr (Ok stats) →
  (∀ p r, (CRpc "connector" "getNetworkPeersStatistics" p, r) ∈ tr → r = Ok (VObj o)) →
  ∃ o', field stats "data" = VObj o' ∧ ∀ k, k ∉ ["totalLocked"; "totalStaked"; "totalSelfStaked"] → oget o' k = oget o k.
Proof.
  unfold Controllers.getNetworkStatistics, Controllers.plain, NetworkQueries.getNetworkPeersStatistics, Utils.Request.requestConnector.
  intros H Hr. bind H as st Hst. bind Hst as resp Hresp. bind Hresp as v ->%exec_requestRpc. apply exec_ret_inv in Hresp as [-> [= ->]].
  assert (v = VObj o) as ->. { specialize (Hr (VObj []) (Ok v) ltac:(left)). by injection Hr. }
  unfold Controllers.envelope in Hst. cbn [answer] in Hst.
  bind Hst as d [-> ->]%exec_prop. bind Hst as m [-> ->]%exec_prop. apply exec_ret_inv in Hst as [-> [= ->]].
  bind H as d [-> ->]%exec_prop. bind H as m [-> ->]%exec_prop.
  bind H as l _. bind H as s _. bind H as ss _. apply exec_ret_inv in H as [-> [= ->]].
  cbn. eexists. split; [reflexivity|]. intros k Hk. rewrite !not_elem_of_cons in Hk. destruct Hk as (H1 & H2 & H3 & _).
  rewrite !oget_oset. by rewrite !decide_False by congruence.
Qed.

Lemma exec_network_statistics tr v :
  exec (SocketIo.ctx_call "indexer.network.statistics" VUndef) tr (Ok v) → tr = [(CRpc "indexer" "network.statistics" VUndef, Ok v)].
Proof.
  assert (SocketIo.ctx_call "indexer.network.statistics" VUndef = call (CRpc "indexer" "network.statistics" VUndef)) as -> by by vm_compute.
  apply exec_call_inv.
Qed.

(** C36. The services together: the version of the node that the status of the
    gateway names is one that the connector's connected peers state most: the
    connector counts them, the indexer passes the counts on with its totals,
    and no version is stated by more peers.  When no peer states the version
    of its application, it is the version of the protocol; when no peer states
    that either, none is named. *)
Theorem version_most_peers_state {CFG : Config} {LC : LiskCrypto} {LT : LiskTransactions} {LO : Locale} {ES : EngineSort}
    t1 v t2 stats build name version t3 out :
  exec PeerCache.refreshStatistics t1 (Ok v) →
  exec Controllers.getNetworkStatistics t2 (Ok stats) →
  (∀ p r, (CRpc "connector" "getNetworkPeersStatistics" p, r) ∈ t2 → r = Ok v) →
  exec (getStatus build name version) t3 (Ok out) →
  (∀ p r, (CRpc "indexer" "network.statistics" p, r) ∈ t3 → r = Ok stats) →
  ∃ x peers, (CVarGet (PeerCache.store "connected"), Ok x) ∈ t1 ∧ or_default x (VArr []) = VArr peers ∧
    (Z.of_nat (length peers) ≤ 2^53 →
     most_stated (if stated "version" peers then "version" else "networkVersion") peers (field out "networkNodeVersion")).
Proof.
  intros H1 H2 Hc H3 Hi. destruct (refreshStatistics_object _ _ H1) as [o ->].
  apply refreshStatistics_counts in H1 as (x & peers & Hx & Hp & H1). exists x, peers. split_and!; [done..|].
  intros Hl. destruct (H1 Hl) as [_ Hk]. rewrite Forall_forall in Hk.
  destruct (getNetworkStatistics_passes _ _ _ H2 Hc) as (o' & Ho & Hk').
  unfold getStatus in H3. bind H3 as st ->%exec_network_statistics.
  bind H3 as ns _. bind H3 as ch _. bind H3 as d [-> ->]%exec_prop. bind H3 as nv [-> Hnv]%exec_lift.
  apply exec_ret_inv in H3 as [-> [= ->]]. specialize (Hi VUndef (Ok st) ltac:(left)). injection Hi as ->.
  rewrite Ho in Hnv. destruct (networkNodeVersion_counts (VObj o') peers) as (r & E & Hm).
  - by exists o'.
  - specialize (Hk ("coreVer", "version") ltac:(right; left)). unfold field in *. cbn in *. rewrite Hk'; [done|]. by apply (bool_decide_unpack _).
  - specialize (Hk ("networkVersion", "networkVersion") ltac:(right; right; left)). unfold field in *. cbn in *. rewrite Hk'; [done|]. by apply (bool_decide_unpack _).
  - rewrite E in Hnv. injection Hnv as ->. exact Hm.
Qed.

End version.

(** ** The events of the services *)

Lemma exec_detach {A} (p : prog A) tr out : exec (detach p) tr out → out = Ok tt ∧ ∃ o, exec p tr o.
Proof.
  unfold detach. intros H. apply exec_catch in H as [(a & H & ->)|(tr1 & tr2 & e & -> & H & H')].
  - apply exec_bind in H as [(tr1 & tr2 & b & -> & H & [-> [= ->]]%exec_ret_inv)|(e & _ & [=])]. rewrite app_nil_r. eauto.
  - apply exec_ret_inv in H' as [-> ->]. rewrite app_nil_r.
    apply exec_bind in H as [(? & ? & ? & _ & _ & [_ [=]]%exec_ret_inv)|(e' & H & _)]. eauto.
Qed.

Section socket.
Import GatewayShell.
Context {DT : Dates}.

Definition mapped_by (definition : option val) (payload : val) : result val :=
  match definition with Some d => CustomMapper.mapper payload d | None => Ok payload end.

(** An event of another service that the gateway waits for: the gateway asks
    itself once to broadcast, and the broadcast emits the payload, mapped by
    the definition of the event, once, to all clients of one namespace. *)
Theorem event_reaches_clients event name definition payload tr out :
  aget socketEvents event = Some (name, definition) → exec (onEvent event payload) tr out →
  match mapped_by definition payload with
  | Ok mapped => out = Ok tt ∧ ∃ params r, tr = [(CRpc "gateway" "broadcast" params, r)] ∧
      ∀ t o, exec (broadcast params) t o →
        cmds t = [CRpc "io" "emit" (VArr [VArr [VObj [("of", VStr "/blockchain")]]; VStr name; mapped])]
  | Err e => out = Err e ∧ tr = []
  end.
Proof.
  intros He H. unfold onEvent in H. rewrite He in H.
  assert (∀ m t o, exec (sendSocketIoEvent name m) t o → o = Ok tt ∧ ∃ params r, t = [(CRpc "gateway" "broadcast" params, r)] ∧
      ∀ t' o', exec (broadcast params) t' o' →
        cmds t' = [CRpc "io" "emit" (VArr [VArr [VObj [("of", VStr "/blockchain")]]; VStr name; m])]) as Hsend.
  { intros m t o [-> [o' ->%exec_call_inv]]%exec_detach. split; [done|]. do 2 eexists. split; [done|]. intros t' o''.
    unfold broadcast. cbn. intros Hx. inversion Hx as [| |? ? r tr' ? Hx']; simplify_eq. destruct r; cbn in Hx'; by inversion Hx'. }
  destruct definition as [d|]; cbn [mapped_by]; [|by apply Hsend].
  apply exec_bind in H as [(t1 & t2 & m & -> & [-> Hm]%exec_lift & H)|(e & [-> Hm]%exec_lift & ->)]; rewrite <- Hm; [by apply Hsend|done].
Qed.

End socket.

(** ** The jobs of a service *)

Section jobs.
Context {FV : FastestValidator} {FN : FunctionValue}.

(** A definition of a job that is accepted: it has something to do, and a
    controller just when it is known when that is to run. *)
Definition accepted (j : job) : bool :=
  let known := truthy (field (job_def j) "schedule") || truthy (field (job_def j) "interval") in
  (some (job_init j) || some (job_controller j)) && Bool.eqb (some (job_controller j)) known
  && match valid (with_function "init" (job_init j) (with_function "controller" (job_controller j) (job_def j))) jobSchema with
     | Ok b => b | Err _ => false end.

(** What starts the controller of a job, by its interval or else by its schedule. *)
Definition timers (j : job) : list cmd :=
  let name := field (job_def j) "name" in
  let schedule := field (job_def j) "schedule" in
  let interval := field (job_def j) "interval" in
  if negb (accepted j) then []
  else if truthy interval then [CRpc "timer" "setInterval" (VArr [name; js_mul interval (VNum 1000)])]
  else if truthy schedule then [CRpc "cron" "schedule" (VArr [name; schedule])]
  else [].

(** What a job does first. *)
Definition first_run (j : job) : prog unit := match job_init j with Some b => start b | None => Ret tt end.

(** A job is started: it runs once, then, unless that has thrown at once, its
    timer is started.  A job that is refused does nothing. *)
Definition started (j : job) (parts : list (cmd * result val) * list (cmd * result val)) : Prop :=
  if accepted j
  then ∃ o, exec (first_run j) parts.1 o ∧ cmds parts.2 = match o with Ok _ => timers j | Err _ => [] end
  else parts = ([], []).

Lemma exec_call_only c tr out : exec (_ ← (_ ← call c; Ret tt); Ret true) tr out → cmds tr = [c].
Proof.
  intros [(tr3 & tr4 & v & -> & H & [-> _]%exec_ret_inv)|(e & H & _)]%exec_bind;
    (apply exec_bind in H as [(tr5 & tr6 & v' & -> & ->%exec_call_inv & [-> _]%exec_ret_inv)|(e' & ->%exec_call_inv & _)]; done).
Qed.

(** What is done after the first run, when it did not throw. *)
Lemma exec_after_run (p : prog unit) (k : prog bool) tr out l :
  exec (_ ← p; k) tr out → (∀ tr out, exec k tr out → cmds tr = l) →
  ∃ t1 t2 o, tr = t1 ++ t2 ∧ exec p t1 o ∧ cmds t2 = match o with Ok _ => l | Err _ => [] end.
Proof.
  intros [(tr1 & tr2 & [] & -> & H1 & H)|(e & H & _)]%exec_bind Hk.
  - exists tr1, tr2, (Ok tt). split; [done|]. split; [exact H1|]. by eapply Hk.
  - exists tr, [], (Err e). by rewrite app_nil_r.
Qed.

Lemma scheduleJob_started j tr out : exec (scheduleJob j) tr out → ∃ t1 t2, tr = t1 ++ t2 ∧ started j (t1, t2).
Proof.
  intros H. unfold scheduleJob in H. unfold started, timers, accepted. cbv zeta in *.
  destruct (valid _ jobSchema) as [b|e]; cbn [lift] in H;
    [|apply exec_throw_inv in H as [-> _]; rewrite andb_false_r; by exists [], []].
  change (Ret b ≫= ?f) with (f b) in H. cbv beta in H. fold (first_run j) in H.
  destruct b; cbn [negb] in H; [|apply exec_ret_inv in H as [-> _]; rewrite andb_false_r; by exists [], []].
  destruct (some (job_init j)), (some (job_controller j)), (truthy (field (job_def j) "schedule")), (truthy (field (job_def j) "interval"));
    cbn [negb andb orb Bool.eqb fst snd] in H |- *; try (apply exec_ret_inv in H as [-> _]; by exists [], []);
    (eapply exec_after_run in H as (t1 & t2 & o & -> & H1 & H2); [exists t1, t2; by eauto|]).
  all: try (intros t o Hx; by apply exec_call_only in Hx).
  intros t o Hx. by apply exec_ret_inv in Hx as [-> _].
Qed.

Lemma scheduleJobs_parts jobs tr out :
  exec (scheduleJobs jobs) tr out →
  out = Ok tt ∧ ∃ parts, tr = concat (map (λ p, p.1 ++ p.2) parts) ∧ Forall2 started (rev jobs) parts.
Proof.
  unfold scheduleJobs. generalize (rev jobs) as l. intros l. revert tr. induction l as [|j l IH]; intros tr H; cbn [piter] in H.
  { apply exec_ret_inv in H as [-> ->]. split; [done|]. by exists []. }
  apply exec_bind in H as [(tr1 & tr2 & u & -> & [_ [o Hx]]%exec_detach & H)|(e & [[=] _]%exec_detach & _)].
  destruct (IH _ H) as [-> (parts & -> & Hf)]. split; [done|]. apply scheduleJob_started in Hx as (t1 & t2 & -> & Hs).
  exists ((t1, t2) :: parts). split; [done|]. by constructor.
Qed.


(** The one command that starts the timer of a job. *)
Definition timer (j : job) : cmd :=
  let name := field (job_def j) "name" in
  let interval := field (job_def j) "interval" in
  if truthy interval then CRpc "timer" "setInterval" (VArr [name; js_mul interval (VNum 1000)])
  else CRpc "cron" "schedule" (VArr [name; field (job_def j) "schedule"]).

(** A job whose first run does not throw at once, and that has a controller
    and says when that is to run. *)
Definition timed (j : job) : Prop :=
  (∃ c, job_controller j = Some c) ∧ (∀ p, job_init j = Some (Sync p) → ∃ q : prog unit, p = detach q) ∧
  truthy (field (job_def j) "schedule") || truthy (field (job_def j) "interval") = true.

Lemma timed_started j parts :
  timed j → valid (with_function "init" (job_init j) (with_function "controller" (job_controller j) (job_def j))) jobSchema = Ok true →
  started j parts → exec (first_run j) parts.1 (Ok tt) ∧ cmds parts.2 = [timer j].
Proof.
  intros ([c Hc] & Hi & Hk) Hv. unfold started, accepted. rewrite Hv, Hk, Hc. cbn [some orb andb Bool.eqb]. rewrite orb_true_r. cbn [andb].
  intros (o & Hx & Ht). assert (o = Ok tt) as ->.
  { unfold first_run, start in Hx. destruct (job_init j) as [[p|p]|]; [|by apply exec_detach in Hx as [-> _]|by apply exec_ret_inv in Hx as [_ ->]].
    destruct (Hi p eq_refl) as [q ->]. by apply exec_detach in Hx as [-> _]. }
  split; [exact Hx|]. rewrite Ht. unfold timers, timer, accepted. rewrite Hv, Hk, Hc. cbn [some orb andb Bool.eqb]. rewrite orb_true_r. cbn [andb negb].
  destruct (truthy (field (job_def j) "interval")); [done|]. rewrite orb_false_r in Hk. by rewrite Hk.
Qed.

End jobs.

Section service_jobs.
Context {FV : FastestValidator} {FN : FunctionValue}
        {CFG : Config} {LC : LiskCrypto} {LT : LiskTransactions} {LO : Locale} {SC : StatisticsConfig} {MO : MomentLib} {DT : Dates}
         {BN : BigNumberLib} {MF : MathFns} {AE : AxiosErrors} {MC : MarketConfig} {CC : ConnectorConfig} {NE : NodeErrors}
         {CO : LiskCodec} {SH : Sha256} {GC : GeoConfig} {RC : RegistryConfig} {EM : ExportMoment} {EC : ExportConfig}
        (encodeURI : string → string) (arrival : list string) (fuel : nat) (partials staticFiles : CsvCache.objectCache).

Lemma service_jobs_timed service jobs :
  (service, jobs) ∈ AllJobs.jobs encodeURI arrival fuel partials staticFiles → Forall timed jobs.
Proof.
  unfold AllJobs.jobs. intros Hs.
  repeat (apply elem_of_cons in Hs as [[= -> ->]|Hs];
    [repeat (apply Forall_cons_2; [split_and!; [by eexists|intros p Hp; by (discriminate Hp || (injection Hp as <-; eexists))|reflexivity]|]); apply Forall_nil_2|]).
  by apply elem_of_nil in Hs.
Qed.

(** The services together: each job of each service, when the validator finds
    nothing wrong with its definition, runs once at the start and then has its
    timer started once; the job added last comes first. *)
Theorem service_jobs_started service jobs tr out :
  (service, jobs) ∈ AllJobs.jobs encodeURI arrival fuel partials staticFiles →
  Forall (λ j, valid (with_function "init" (job_init j) (with_function "controller" (job_controller j) (job_def j))) jobSchema = Ok true) jobs →
  exec (scheduleJobs jobs) tr out →
  out = Ok tt ∧ ∃ parts, tr = concat (map (λ p, p.1 ++ p.2) parts) ∧
    Forall2 (λ j p, exec (first_run j) p.1 (Ok tt) ∧ cmds p.2 = [timer j]) (rev jobs) parts.
Proof.
  intros Hs Hv (-> & parts & -> & Hp)%scheduleJobs_parts. split; [done|]. exists parts. split; [done|].
  assert (Forall timed jobs) as Ht by by eapply service_jobs_timed.
  assert (Forall (λ j, timed j ∧ valid (with_function "init" (job_init j) (with_function "controller" (job_controller j) (job_def j))) jobSchema = Ok true)
    (rev jobs)) as Hj by (apply Forall_rev, Forall_and; done).
  clear - Hp Hj. induction Hp as [|j p l parts Hs Hp IH]; [constructor|]. apply Forall_cons in Hj as [[Ht Hv] Hj].
  constructor; [by apply timed_started|by apply IH].
Qed.

End service_jobs.
