(* ===== verification/ConnectorWitnesses.v ===== *)
(** * Concrete instances of the theorems on the connector

    A node with one module whose answers do not depend on the past; a codec
    that encodes to fixed bytes and a validator that wants an amount or a
    module.

    Then the services together: a request for the validators with an address; three peers of two
    versions; a service with three jobs, one of which is refused and one of which fails at first. *)
From S2P Require Export NodeThms QueryWitnesses ShellThms GatewayWitnesses.
Open Scope string_scope.
Open Scope Z_scope.
Open Scope list_scope.
Import Fixtures Client.

Module ConnectorFixtures.

#[export] Instance fix_connector : ConnectorConfig :=
  {| isUseLiskIPCClient := false; liskAppDataPath := "~/.lisk/lisk-core"; endpoint_liskWs := "ws://127.0.0.1:7887";
     config_genesisBlockUrl := "https://example.org/genesis_block.json.tar.gz"; polls := 2 |}.
#[export] Instance fix_node_errors : NodeErrors := {| node_err_code := λ _, VUndef |}.
#[export] Instance fix_codec : LiskCodec :=
  {| codec_encode := λ _ v, Ok (if truthy (field v "module") then [1; 2; 3] else [10; 11]);
     codec_decode := λ _ b, Ok (VObj [("size", VNum (Z.of_nat (length b)))]);
     codec_decodeJSON := λ _ b, Ok (VObj [("size", VNum (Z.of_nat (length b)))]);
     validator_validate := λ _ v, if truthy (field v "amount") || truthy (field v "module") then Ok tt
                                  else Err (js_error "Lisk validator found 1 error[s]");
     utils_hash := λ b, rev b;
     computeMinFee := λ _ _ _, Ok 100 |}.
(** The digest of a file is its first letter. *)
#[export] Instance fix_sha256 : Sha256 :=
  {| sha256 := λ v, match v with VStr (String a _) => [Z.of_nat (Ascii.nat_of_ascii a)] | _ => [] end |}.

Definition apiClient : val := VObj [("_channel", VObj [("invoke", VStr "function")])].

(** The metadata of a module with one command and one event, and schemas that
    leave their properties open. *)
Definition open_schema : val := VObj [("type", VStr "object"); ("properties", VObj [])].
Definition node_metadata : val :=
  VObj [("modules", VArr [VObj [("name", VStr "token");
    ("commands", VArr [VObj [("name", VStr "transfer"); ("params", open_schema)]]);
    ("events", VArr [VObj [("name", VStr "transfer"); ("data", open_schema)]])]])].
Definition transaction_schema : val :=
  VObj [("type", VStr "object"); ("properties", VObj [("params", VObj [("dataType", VStr "bytes")])])].
Definition event_schema : val :=
  VObj [("type", VStr "object");
        ("properties", VObj [("topics", VObj [("type", VStr "array"); ("items", VObj [("dataType", VStr "bytes")])])])].
Definition node_schemas : val := VObj [("transaction", transaction_schema); ("event", event_schema)].

Definition node_with (answer : string → string → val → result val) (vars : list (string * val)) (c : cmd) : result val :=
  match c with
  | CVarGet x =>
      Ok (default VUndef (oget ([(clientCache, apiClient); (Schema.schemas, node_schemas); (Schema.metadata, node_metadata)] ++ vars) x))
  | CRpc s m a => if bool_decide (m = "isAlive") then Ok (VBool true) else answer s m a
  | CNow => Ok (VNum 1700000000000)
  | _ => Ok VUndef
  end.

Definition silent : string → string → val → result val := λ _ _ _, Err (TimeoutException "no answer").

Definition transfer_event : list (string * val) :=
  [("module", VStr "token"); ("name", VStr "transfer"); ("data", VStr "0a0b"); ("height", VNum 7);
   ("topics", VArr (map VStr ["04aa"; "00bb"; "lskcc"]))].

Definition transfer_tx : list (string * val) :=
  [("module", VStr "token"); ("command", VStr "transfer"); ("params", VObj [("amount", VStr "100")])].
Definition dry_runs (_ m : string) (_ : val) : result val :=
  Ok (if bool_decide (m = "txpool_dryRunTransaction") then VObj [("result", VNum 1); ("events", VArr [])] else VUndef).

(** The first answer to a request of the genesis file is a redirection. *)
Definition files (_ m : string) (a : val) : result val :=
  Ok (if bool_decide (m = "get") then VObj [("statusCode", VNum 200); ("statusMessage", VStr "OK")]
      else if bool_decide (m = "readFile") then VStr "67  genesis_block.json.tar.gz"
      else VStr "genesis").

Definition node_peer (height : Z) (version : string) : val :=
  VObj [("ip", VStr "10.0.0.1"); ("height", VNum height); ("version", VStr version); ("networkVersion", VStr "4.0"); ("os", VStr "linux 5.4.0-26")].

End ConnectorFixtures.
Import ConnectorFixtures.

(** ** Requests *)

Definition retried : list (cmd * result val) * result val :=
  replay (node_with silent []) (invokeLoop NUM_REQUEST_RETRIES apiClient "system_getNodeInfo" (VObj [])).
Lemma invoke_retries_witness :
  length retried.1 = 6%nat ∧ ∃ errs, length errs = 5%nat ∧
    retried.1 = map (λ e, (CRpc "node" "system_getNodeInfo" (VObj []), Err e)) errs ++ [(CRpc "node" "system_getNodeInfo" (VObj []), retried.2)].
Proof.
  split; [vm_compute; reflexivity|].
  destruct (invoke_retries NUM_REQUEST_RETRIES apiClient "system_getNodeInfo" (VObj []) retried.1 retried.2) as (errs & E & _ & _ & _).
  - by do 2 eexists.
  - apply exec_replay.
  - exists errs. split; [|exact E]. apply (f_equal (@length _)) in E. rewrite length_app, length_map in E.
    replace (length retried.1) with 6%nat in E by (vm_compute; reflexivity). simpl in E. lia.
Defined.

#[export] Instance ticking : Engine unit := λ c e, (e, match c with CNow => Ok (VNum 1700000000100) | _ => Ok VUndef end).
Definition instantiating : world unit :=
  mkWorld (<[isInstantiating := VBool true]> (<[instantiationBeginTime := VNum 1700000000000]> ∅)) tt.
Lemma request_while_instantiating_witness :
  (run (invokeEndpoint "system_getNodeInfo" VUndef) instantiating).2 = Err unsettled.
Proof.
  refine (proj1 (request_while_instantiating instantiating "system_getNodeInfo" VUndef _ _ _ _)).
  - done.
  - by vm_compute.
  - intros e. by exists 1700000000100.
  - exists 1700000000000. by vm_compute.
Defined.

(** ** Transactions and events *)

Definition dry_request : val := VObj [("transaction", VObj transfer_tx); ("skipVerify", VBool false)].
Definition dry_run : list (cmd * result val) * result val :=
  replay (node_with dry_runs []) (NodeTransactions.dryRunTransaction dry_request).
Lemma dry_run_validated_witness :
  (∃ q, (CRpc "node" "txpool_dryRunTransaction" q, node_with dry_runs [] (CRpc "node" "txpool_dryRunTransaction" q)) ∈ dry_run.1 ∧
        validated_request (VObj transfer_tx) (VBool false) q).
Proof.
  pose proof (dry_run_validated dry_request transfer_tx dry_run.1 dry_run.2 eq_refl (exec_replay _ _)) as H.
  rewrite Forall_forall in H.
  assert ((CRpc "node" "txpool_dryRunTransaction" (VObj [("transaction", VStr "010203"); ("skipVerify", VBool false)]),
           Ok (VObj [("result", VNum 1); ("events", VArr [])])) ∈ dry_run.1) as Hin.
  { vm_compute. repeat first [left; reflexivity | right]. }
  eexists. split; [exact Hin|]. exact (proj2 (H _ Hin _ _ eq_refl)).
Defined.

Definition formatted : list (cmd * result val) * result val := replay (node_with dry_runs []) (Formatter.formatEvent (VObj transfer_event)).
Lemma event_topics_witness :
  ∃ v out, formatted.2 = Ok v ∧ field v "topics" = VArr (map VStr out) ∧ length out = 3%nat ∧ out !! 1%nat = Some "lsk00bb" ∧
    out !! 2%nat = Some "lskcc".
Proof.
  destruct formatted.2 as [v|] eqn:Ef; [|by vm_compute in Ef].
  pose proof (exec_replay (node_with dry_runs []) (Formatter.formatEvent (VObj transfer_event))) as Hx.
  change (replay _ _) with formatted in Hx. rewrite Ef in Hx.
  destruct (event_topics transfer_event _ ["04aa"; "00bb"; "lskcc"] _ v ltac:(by apply (bool_decide_unpack _); vm_compute)
              eq_refl eq_refl Hx) as ((out & Ht & Hl & Ho) & _).
  exists v, out. split_and!; [done..| |].
  - destruct (Ho 1%nat _ eq_refl) as (t & -> & Hs). vm_compute in Hs. by injection Hs as <-.
  - destruct (Ho 2%nat _ eq_refl) as (t & -> & Hs). vm_compute in Hs. by subst.
Defined.

(** ** Blocks and files *)

Definition downloaded : list (cmd * result val) * result bool :=
  replay (node_with files []) (BlocksUtils.downloadLoop 2 "https://example.org/genesis_block.json.tar.gz" "./data").

(** The genesis block, of height 5, is known. *)
Definition genesis_known : list (string * val) :=
  [("genesisBlock.genesisHeight", VNum 5); (BlocksUtils.genesisBlockUrl, VStr "https://example.org/g.json");
   (BlocksUtils.genesisBlockFilePath, VStr "./data/04000000/genesis_block.json");
   (BlocksUtils.genesisBlock, VObj [("header", VObj [("id", VStr "aa"); ("height", VNum 5)]); ("assets", VArr []); ("transactions", VArr [])])].
Definition range_of_blocks : list (cmd * result val) * result val :=
  replay (node_with silent genesis_known) (NodeTransactions.getBlocksByHeightBetween (VNum 5) (VNum 5)).
Lemma blocks_between_from_genesis_witness :
  ∃ v gHeight t, range_of_blocks.2 = Ok v ∧ exec Genesis.getGenesisHeight t (Ok gHeight) ∧ strict_eq (VNum 5) gHeight = true.
Proof.
  destruct range_of_blocks.2 as [v|] eqn:E; [|by vm_compute in E].
  pose proof (exec_replay (node_with silent genesis_known) (NodeTransactions.getBlocksByHeightBetween (VNum 5) (VNum 5))) as Hx.
  change (replay _ _) with range_of_blocks in Hx. rewrite E in Hx.
  destruct (blocks_between_from_genesis (VNum 5) (VNum 5) _ v Hx) as (g & t & _ & Hg & Hs). by exists v, g, t.
Defined.

(** ** Peers *)

Definition three_peers : list val := [node_peer 7 "4.0.1"; node_peer 8 "4.0.2"; node_peer 8 "4.0.1"].
Definition peers_known : list (string * val) := [(PeerCache.store "connected", VArr three_peers)].
Definition peers_counted : list (cmd * result val) * result val := replay (node_with silent peers_known) PeerCache.refreshStatistics.
Lemma peer_statistics_count_witness :
  ∃ v, peers_counted.2 = Ok v ∧ field (field v "basic") "connectedPeers" = VNum 3 ∧
       oget (props (field v "height")) "8" = Some (VNum 2) ∧ oget (props (field v "coreVer")) "4.0.2" = Some (VNum 1).
Proof.
  destruct peers_counted.2 as [v|] eqn:E; [|by vm_compute in E].
  pose proof (exec_replay (node_with silent peers_known) PeerCache.refreshStatistics) as Hx.
  change (replay _ _) with peers_counted in Hx. rewrite E in Hx.
  destruct (peer_statistics_count _ v Hx) as (x & peers & Hin & Hp & H).
  apply replay_answer in Hin. vm_compute in Hin. injection Hin as ->. injection Hp as <-.
  destruct (H ltac:(by vm_compute)) as [Hc Hk]. exists v. split; [done|]. split; [exact Hc|]. rewrite Forall_forall in Hk.
  pose proof (Hk ("height", "height") ltac:(left) "8") as Hh.
  pose proof (Hk ("coreVer", "version") ltac:(right; left) "4.0.2") as Hv.
  cbn [fst] in Hh, Hv. by rewrite Hh, Hv.
Defined.

(** ** The services together *)

Import Fixtures GatewayFixtures ConnectorFixtures QueryFixtures ApiUtils Microservice Services.

#[export] Instance fix_function : FunctionValue := {| function_value := VStr "function" |}.

(** ** A route and its method *)

Definition route_of (name : string) : val := default VUndef (aget public_routes name).
Definition validators_route : val := Eval vm_compute in route_of "posValidators".
Definition by_address : list (string * val) := [("address", VStr "lskdxc4ta5j43jp9ro3f8zqbxta9fn6jwzjucw7yt")].
Definition no_answer (i : val) (params : val) : prog val := Ret VUndef.

(** The files of modules with a method of this name. *)
Definition files_with (method : val) : list string :=
  concat (map (λ fi, map (λ _, fi.1) (List.filter (λ i, strict_eq method (VStr (fullName "indexer" (nameOf i)))) fi.2)) IndexerMethods.modules).


(** ** The version *)

Definition silent_node : cmd → result val := node_with silent [].

Definition counted : val := Eval vm_compute in match peers_counted.2 with Ok v => v | Err _ => VUndef end.

(** The tables of the indexer are empty. *)
Definition indexer_with (c : cmd) : result val :=
  match c with
  | CRpc "connector" "getNetworkPeersStatistics" _ => Ok counted
  | CVarGet "pos.moduleConstants" => Ok (VObj [("posTokenID", VStr "0400000000000000")])
  | CTrxBegin => Ok (VNum 1)
  | CKnex _ _ => Ok (VArr [])
  | CNow => Ok (VNum 1700000000000)
  | _ => Ok VUndef
  end.
Definition indexer_answers : list (cmd * result val) * result val := replay indexer_with Controllers.getNetworkStatistics.
Definition statistics_sent : val := Eval vm_compute in match indexer_answers.2 with Ok v => v | Err _ => VUndef end.

Definition gateway_with (c : cmd) : result val :=
  match c with
  | CRpc "indexer" "network.statistics" _ => Ok statistics_sent
  | CRpc _ _ _ => Ok (VObj [("chainID", VStr "04000000")])
  | _ => Ok VUndef
  end.
Definition gateway_answers : list (cmd * result val) * result val :=
  replay gateway_with (GatewayShell.getStatus (VStr "2024-01-01") (VStr "gateway") (VStr "0.7.0")).

Lemma version_most_peers_state_witness :
  ∃ out, gateway_answers.2 = Ok out ∧ most_stated "version" three_peers (field out "networkNodeVersion") ∧
         field out "networkNodeVersion" = VStr "4.0.1".
Proof.
  pose proof (exec_replay (node_with silent peers_known) PeerCache.refreshStatistics) as H1. change (replay _ _) with peers_counted in H1.
  pose proof (exec_replay indexer_with Controllers.getNetworkStatistics) as H2. change (replay _ _) with indexer_answers in H2.
  pose proof (exec_replay gateway_with (GatewayShell.getStatus (VStr "2024-01-01") (VStr "gateway") (VStr "0.7.0"))) as H3.
  change (replay _ _) with gateway_answers in H3.
  replace peers_counted.2 with (Ok counted) in H1 by (vm_compute; reflexivity).
  replace indexer_answers.2 with (Ok statistics_sent) in H2 by (vm_compute; reflexivity).
  destruct gateway_answers.2 as [out|] eqn:E; [|by vm_compute in E].
  edestruct version_most_peers_state as (x & peers & Hin & Hp & Hm); [exact H1|exact H2| |exact H3| |].
  - intros p r Hin. by apply replay_answer in Hin.
  - intros p r Hin. by apply replay_answer in Hin.
  - apply replay_answer in Hin. vm_compute in Hin. injection Hin as ->. injection Hp as <-.
    exists out. split; [done|]. split; [exact (Hm ltac:(by vm_compute))|]. vm_compute in E. by injection E as <-.
Defined.

(** ** Three jobs *)

Definition job_named (name : string) (rest : list (string * val)) : val := VObj (("name", VStr name) :: rest).
Definition three_jobs : list job :=
  [mkJob (job_named "every.minute" [("interval", VNum 60)]) (Some (Async (Throw (js_error "not now")))) (Some (Async (Ret tt)));
   mkJob (job_named "refused" [("interval", VNum 5)]) None None;
   mkJob (job_named "every.day" [("schedule", VStr "0 0 * * *")]) None (Some (Async (Ret tt)))].

Definition three_started : list (cmd * result val) * result unit := replay silent_node (scheduleJobs three_jobs).

